(* ===== verification/_CoqProject ===== *)
-Q . S2P
Prelude.v
Sdk.v
SdkRef.v
Manifest.v
MsgFilter.v
Ante.v
Wire.v
WireProps.v
Codec.v
Unknown.v
Pagination.v
Uuid.v
GoStd.v
Strconv.v
Gogo.v
Page.v
ManifestCodec.v
SkuTypes.v
SkuCodec.v
UnitJson.v
BillingTypes.v
BillingMsgs.v
BillingCodec.v
SkuKeeper.v
IndexPages.v
SkuQuerier.v
SkuQueryCodec.v
Credit.v
Accrual.v
Keeper.v
LeaseStore.v
Settlement.v
Lifecycle.v
Withdraw.v
BillingTxCodec.v
CustomDomain.v
Querier.v
BillingQueryCodec.v
Cli.v
CliRef.v
EndBlocker.v
Genesis.v
GenesisCodec.v
Invariant.v
LifecycleInv.v
Market.v
CreateInv.v
Scenario.v
WithdrawInv.v
QuerierProps.v
CreditEstimate.v
ExpiryInv.v
Handlers.v
DomainInv.v
Simulation.v
GenesisCheck.v
GenesisInv.v
GenesisExport.v
Ledger.v
Refinement.v
Transactions.v
StoreCodec.v
Registry.v
Pulsar.v
ApiExternal.v
ApiManifest.v
ApiSku.v
ApiSkuQuery.v
ApiBilling.v
ApiBillingTx.v
ApiBillingQuery.v
ApiAgreement.v
Reflect.v
ReflectManifest.v
ReflectSku.v
ReflectBilling.v
ReflectBillingQuery.v
Reflection.v
CliProps.v
Gateway.v
