(* ===== verification/Prelude.v ===== *)
(** * Manifest ledger: a verification library for its billing system

    The Manifest ledger is a Cosmos SDK chain. Its own logic is a market for metered services:
    providers publish SKUs at a price per hour or day (src/x/sku), tenants lock up credit and lease
    SKUs (src/x/billing), and the chain moves tokens from a tenant's credit address to the
    provider's payout address as time passes. A third module mints payouts and burns coins for the
    authority (src/x/manifest). This library models the three modules with their queries, genesis
    and command line, the protobuf codecs of their stores, messages and queries, the bindings of the
    same messages for clients (src/api), the packages they use (src/pkg/uuid, src/pkg/sanitize,
    src/pkg/pagination), the HTTP gateway, the message filter and the ante handler (src/app) as executable
    functions, and proves what keeps the books straight.

    ** Parts and files

    - Prelude.v: errors, results and the state monad of stateful Go code, its inversion tactics
      ([run_inv], [run_split]), sums over finite maps, list lemmas, the hint database [ledger].
    - Sdk.v, SdkRef.v, GoStd.v, Strconv.v: code outside the repository. [SDK] has one operation per
      call into the SDK (math.Int, sdk.Coins, bech32, the hash of address.Module, bank and auth
      keepers, CollectionPaginate); [SDKLaws] states its documented behaviour, and [ref_sdk] is an
      instance that computes, so that the laws are consistent and theorems can be applied to
      concrete inputs. [GoStd] does the same for net/url, Unicode case folding and the iteration
      order of Go maps; the ASCII behaviour of package strings is defined there, strconv and
      encoding/hex in Strconv.v.
    - Uuid.v (src/pkg/uuid/uuid.go): deterministic UUIDv7 generation and validation, on bytes.
    - Pagination.v, IndexPages.v (src/pkg/pagination/pagination.go): the pages of an index, and a
      client that follows the cursors; the same for any indexed map.
    - SkuTypes.v, SkuKeeper.v, SkuQuerier.v (src/x/sku/types, src/x/sku/keeper): units and prices,
      message validation, the store of providers and SKUs, all seven message handlers, the queries.
    - BillingTypes.v, BillingMsgs.v (src/x/billing/types): leases, credit accounts, parameters,
      errors, and every ValidateBasic and Validate function with its loops.
    - Credit.v (src/x/billing/types/credit.go), Accrual.v (keeper/accrual.go): the arithmetic of
      reservations and of charges.
    - Keeper.v, LeaseStore.v (keeper/keeper.go, custom_domain.go): the store [World] and the
      operations every handler is built from; SetLease with the indexes it maintains.
    - Settlement.v (keeper/settlement.go and the settlement queries of keeper.go), Lifecycle.v
      (keeper/msg_server.go: fund, create, acknowledge, reject, cancel, close, update parameters),
      Withdraw.v (both withdrawal modes and auto-close), CustomDomain.v (keeper/custom_domain.go),
      EndBlocker.v (expiry of pending leases).
    - Querier.v (keeper/querier.go): every query; QuerierProps.v and CreditEstimate.v its theorems.
    - Genesis.v (types/genesis.go of both modules, InitGenesis and ExportGenesis of both keepers).
    - Invariant.v states the invariant [Inv] of the module; LifecycleInv.v, CreateInv.v,
      WithdrawInv.v, ExpiryInv.v and DomainInv.v show that the handlers keep it, GenesisCheck.v,
      GenesisInv.v and GenesisExport.v relate it to the validation, import and export of genesis
      states, and Handlers.v says what each handler does exactly. Scenario.v is a run of the model
      on concrete data.
    - Ledger.v: the transition system of whole blocks and the theorems on reachable states.
    - Market.v: the abstract specification, a market of contracts, balances and payout addresses
      with labelled steps; Simulation.v shows that every handler is a run of it (hint database
      [market]), Refinement.v that the ledger refines it.
    - Manifest.v (src/x/manifest): payout and burn, on the bank.
    - MsgFilter.v (src/app/decorators/msg_filter.go): the filter of nested messages. Ante.v
      (src/app/ante.go): the options and the order of the decorators.
    - Wire.v (the statements that src/x/*/types/*.pb.go is generated from: varints, lengths, tags,
      slices, skipping), WireProps.v (the bytes of a field; what writes and reads them; no panic),
      Codec.v (the class [lawful] of messages whose four methods agree), Unknown.v (undeclared
      fields). Gogo.v and Page.v have the messages of other repositories (sdk.Coin, Timestamp,
      PageRequest, PageResponse) as parameters with their laws and an instance that computes.
    - BillingCodec.v, BillingTxCodec.v, BillingQueryCodec.v, SkuCodec.v, SkuQueryCodec.v,
      ManifestCodec.v, GenesisCodec.v (types.pb.go, tx.pb.go, query.pb.go, genesis.pb.go of the
      modules): per message the statements of MarshalToSizedBuffer ([X_write]), Size, Marshal, the
      switch of Unmarshal and Unmarshal; the second part of each file proves its messages lawful.
      A message with an enumeration decodes to itself and the number, which Go does not check.
    - Transactions.v: messages as bytes in front of the ledger. StoreCodec.v: stored values as bytes,
      and the migration of src/x/billing/keeper/migrations.go. Registry.v: the other messages.
    - Pulsar.v (the statements that src/api/liftedinit/*/v1/*.pulsar.go is generated from, over the
      runtime of cosmos-proto as the class [Runtime] with its laws; the class [api_lawful]),
      ApiExternal.v (the bindings of coins, times and pages, which are other repositories: parameters
      with laws and an instance that computes), ApiManifest.v, ApiSku.v, ApiSkuQuery.v, ApiBilling.v,
      ApiBillingTx.v, ApiBillingQuery.v: per message X of package p its struct [p_X] with the unknown
      fields, and of ProtoMethods size, marshal, the cases of the switch of unmarshal, the default case
      and unmarshal. ApiAgreement.v: the translation of the modules' messages to them.
    - Reflect.v (the values of protoreflect, lists, the contracts of Message and List), ReflectManifest.v,
      ReflectSku.v, ReflectBilling.v, ReflectBillingQuery.v (per message Range, Has, Clear, Get, Set,
      Mutable, NewField, the unknown fields and the getters, and its list types), Reflection.v.
    - Cli.v, CliRef.v, CliProps.v (client/cli of the three modules): commands as functions from
      arguments and flags to messages and requests; [Client] is the SDK's client package, with an
      instance that computes.
    - Gateway.v (query.pb.gw.go of the two modules): the patterns, filters and handlers of the HTTP
      gateway over grpc-gateway as the class [Gateway], and the services that the modules register.
    - UnitJson.v (MarshalJSON and UnmarshalJSON of src/x/sku/types/unit.go): the JSON form of a unit,
      over the strings and integers of encoding/json.

    The definitions carry the names of the Go functions, and the phases of a long handler are
    definitions of their own, named after what they do ([close_settle], [create_reserve]).

    ** How Go is represented

    A call returns [Ok], [Err] or [Panic]; stateful code is [M S A], a function from the state to a
    result and a state. Writes made before an error stay in the state, as they do in an SDK context:
    [cached] is CacheContext with its write on success, [deliver] the rollback of a failed
    transaction, [try] an error that is logged and ignored. Errors keep their registered code and
    lose their text. uint64 is [Z] with explicit wrap-around where the code adds or subtracts, and
    hypotheses such as [params_u64] say that a decoded field is in range, which Transactions.v
    discharges for messages that come from bytes; math.Int panics above 256
    bits, times are nanoseconds since the epoch and durations saturate as time.Time.Sub does.

    A collections.Map is a [gmap]; an IndexedMap is its primary map, and iterating an index over an
    exact key is selecting the primary keys in order. The indexes that the code maintains by hand
    (SKU, credit address, custom domain) are maps of their own, and their agreement with the leases
    is proved. A Sequence starts at 0, as TestGenesisSequenceRoundTrip has it. Billing reads the sku
    module through the class [SKUKeeper], whose laws are discharged by SkuKeeper.v. Where the code
    ranges over a Go map, the order is the parameter [map_range], and the theorems hold for every
    order. The recursion of the program is structural over lists, but for three kinds of loops that take
    fuel. The clients that follow page cursors ([follow], [list_all]) need one request more than
    there are keys; the loops of Unmarshal and of skip ([unmarshal_loop], [skip_loop]) get one round per
    byte; the loops over the groups of a varint have ten rounds, as the code's [shift >= 64] has it.
    The theorems say that this is enough: out of fuel is [Panic], and decoding never panics.

    ** What is proved

    - Books (Ledger.v): in every reachable state the counters and reserved amounts of a credit
      account are the count and the sum over the tenant's live leases, and bounded; stored values
      have the shape their types promise; leases only evolve along the state machine, with locked
      prices and a settlement mark that never moves back; a domain has one owner; the indexes are
      exact. "Reachable" starts from any validated and imported genesis state and closes over all
      messages of both modules with any content, end blockers, parameter changes and arbitrary
      activity of other modules on the bank.
    - Refinement (Refinement.v): every message, rolled back or not, and every end blocker is a run
      of the market, in which money moves by funding and settlement only. So every history of the
      ledger is explained by labelled steps, and in every such explanation a balance falls by no more
      than deposits, foreign changes and the charges of the leases drawn on it, and a lease is charged
      at most its locked rate for the seconds its mark advanced.
    - Handlers (Handlers.v, DomainInv.v): who may act, which leases change and how, which
      transfers are made, and that the reported totals are what was moved; nothing else changes.
    - Settlement (Settlement.v, Accrual.v, Credit.v): the amounts, per denom, in closed form; an
      auto-close check that passes means payment in full; rounding never favours the provider.
    - End blocker (ExpiryInv.v, Ledger.v): total and exact; and a pending lease whose timeout is over
      is resolved once a hundred leases per block are enough for those that sort before it
      ([pending_lease_resolved]).
    - Queries (Pagination.v, SkuQuerier.v, QuerierProps.v, CreditEstimate.v): following the cursors
      terminates with each matching entry once; both pagination loops agree; a cursor whose entry is
      gone ends the list; the credit estimate is the largest number of seconds covered; what is
      withdrawable from a lease is what settlement pays, but [provider_withdrawable_overstates].
    - Validation and identifiers (BillingMsgs.v, SkuTypes.v, Uuid.v): declarative readings of the
      validators; generated UUIDs are valid, and when two of them collide.
    - Genesis (GenesisInv.v, Ledger.v): import of a validated genesis state establishes the
      invariant; the export of a reachable state whose accounts are spelled as the SDK does can be
      imported again and restores the store, and it passes validation exactly when no stored domain
      has come under a reserved suffix ([export_validates_iff], [reserved_suffix_breaks_export]).
      [genesis_sane] lists what the theorems assume of a genesis state beyond Validate: canonical
      tenants, at most 11000 leases per account, and no lease with the zero
      MinLeaseDurationAtCreation that genesis.go admits for old exports.
    - sku module (SkuKeeper.v, GenesisInv.v): its invariant, from an imported genesis state on, and the
      bounded cascade of a deactivation.
    - manifest module, message filter (Manifest.v, MsgFilter.v): exact effect on balances and supply;
      exactly which transactions pass.
    - Codecs (Transactions.v, StoreCodec.v, Registry.v): every stored value, message, query and
      genesis state survives Marshal and Unmarshal in exactly Size bytes; decoders return on every
      input; undeclared fields of any number above the declared ones and any wire type, groups among
      them, are skipped; and a ledger fed with arbitrary bytes stays within the states of the typed
      ledger.
    - Bindings (ApiAgreement.v, Reflection.v): for each of the 91 messages that both sides have, client
      and node write the same bytes and read each other's; messages with unknown fields survive the
      bindings; reflection meets the contract of its interface in all 94 messages, as long as they are
      not nil ([nil_view_panics]), and in 35 list types.
    - Gateway (Gateway.v): the documented URL of a query, with any query string, reaches one handler,
      which answers that query; the one URL that two queries share reaches the handlers of both and
      names nothing that exists ([shared_path_harmless]).
    - Command line (CliProps.v): the syntax of lease items, what update-params preserves, and the
      cursors that the sku list commands decode and billing's do not.

    Two hypotheses are attached to steps ([admissible] in Ledger.v, [sku_fresh] in SkuKeeper.v). A
    tenant of a new lease is written in the form the SDK prints: bech32 also accepts upper case, the
    batch handlers key their accounts by the spelling, and [alias_batch_leaks_reservation] shows the
    reservation that leaks without this hypothesis. And the UUID of a new lease or SKU is not taken,
    which [generated_uuid_collision] reduces to a collision of 62 bits of the FNV-1a hash of header
    hash, chain, module and sequence within a millisecond; and the lease sequence has not reached 2^64 - 1.

    ** Not modelled

    Gas, logging and the rendering of event attributes (events are a typed list); nil math.Int, and in
    the handlers enum values outside the declared ones; JSON codecs other than that of units; of the
    generated Go files the text forms, the embedded descriptors and the registration of types with them,
    gRPC stubs and the slow reflection of protobuf-go, which the bindings only call; application wiring with the registration of the
    upgrade handler, the commands of the node, simulation. A view that reflection returns is its content:
    what is written later through a view of a field is not traced back to the message. *)

From stdpp Require Import base tactics option list strings gmap sorting fin_maps.
From Stdlib Require Import ZArith Lia.

Open Scope Z_scope.

(** ** Errors and results

    A registered error is what [errors.Register(ModuleName, code, _)] makes; wrapping it with
    [Wrapf] or [%w] keeps its identity, so the model keeps the identity and drops the text. *)

(** The gRPC codes the query servers return. *)
Inductive grpc_code : Type := InvalidArgument | NotFound | Internal.

#[global] Instance grpc_code_eq_dec : EqDecision grpc_code.
Proof. solve_decision. Defined.

(** What a protobuf decoder reports besides formatted messages. *)
Inductive wire_error : Type :=
  | ErrUnexpectedEOF | ErrIntOverflow | ErrInvalidLength | ErrUnexpectedEndOfGroup.

#[global] Instance wire_error_eq_dec : EqDecision wire_error.
Proof. solve_decision. Defined.

Inductive error : Type :=
  | Registered (module : string) (code : Z)  (* errors.Register *)
  | CollNotFound                             (* collections.ErrNotFound *)
  | External                                 (* an error of the SDK: bech32, bank *)
  | Status (c : grpc_code)                   (* status.Error *)
  | Wire (e : wire_error)                    (* io.ErrUnexpectedEOF, ErrIntOverflowTypes, ... *)
  | Plain.                                   (* fmt.Errorf without %w *)

#[global] Instance error_eq_dec : EqDecision error.
Proof. solve_decision. Defined.

(** A Go call returns a value, returns an error or panics. *)
Inductive res (A : Type) : Type :=
  | Ok (a : A)
  | Err (e : error)
  | Panic.
Arguments Ok {A} _.
Arguments Err {A} _.
Arguments Panic {A}.

#[global] Instance res_ret : MRet res := @Ok.
#[global] Instance res_bind : MBind res := λ A B f m,
  match m with Ok a => f a | Err e => Err e | Panic => Panic end.

(** [e] replaces the error of [m], as [types.ErrX.Wrapf("...: %s", err)] does. *)
Definition wrap_err {A} (e : error) (m : res A) : res A :=
  match m with Err _ => Err e | _ => m end.

(** [if cond { return ErrX }]. *)
Definition check (cond : bool) (e : error) : res unit := if cond then Err e else Ok tt.

Lemma check_ok b e u : check b e = Ok u ↔ b = false.
Proof. unfold check. destruct b, u; naive_solver. Qed.

Lemma check_bind {A} b e (k : unit → res A) : check b e ≫= k = if b then Err e else k tt.
Proof. by destruct b. Qed.

(** ** Stateful code

    Writes made before an error stay in the context the code was given; whether they survive is
    decided by the caller, through [cached] or [deliver]. *)

Definition M (S A : Type) : Type := S → res A * S.

#[global] Instance M_ret {S} : MRet (M S) := λ A a s, (Ok a, s).
#[global] Instance M_bind {S} : MBind (M S) := λ A B f m s,
  match m s with
  | (Ok a, s') => f a s'
  | (Err e, s') => (Err e, s')
  | (Panic, s') => (Panic, s')
  end.

Section monad_ops.
Context {S : Type}.

Definition get : M S S := λ s, (Ok s, s).
Definition gets {A} (f : S → A) : M S A := λ s, (Ok (f s), s).
Definition modify (f : S → S) : M S unit := λ s, (Ok tt, f s).
Definition err {A} (e : error) : M S A := λ s, (Err e, s).
Definition lift {A} (r : res A) : M S A := λ s, (r, s).

(** [if err != nil { return nil, ErrX.Wrapf(...) }]: the error is replaced by [e]. *)
Definition wrapping {A} (e : error) (m : M S A) : M S A := λ s,
  match m s with (Err _, s') => (Err e, s') | r => r end.

(** The checks a gRPC query starts with: the request is not nil, a string field is not empty. *)
Definition non_nil {R A} (req : option R) (f : R → M S A) : M S A :=
  match req with Some r => f r | None => err (Status InvalidArgument) end.
Definition non_empty (s : string) : M S unit :=
  if String.eqb s "" then err (Status InvalidArgument) else λ st, (Ok tt, st).

(** Run [m] and hand its error to the caller as a value, as code that logs and continues does. *)
Definition try {A} (m : M S A) : M S (A + error) := λ s,
  match m s with
  | (Ok a, s') => (Ok (inl a), s')
  | (Err e, s') => (Ok (inr e), s')
  | (Panic, s') => (Panic, s')
  end.

(** [cacheCtx, write := sdkCtx.CacheContext()] around [m], with [write()] when it succeeds. *)
Definition cached {A} (m : M S A) : M S A := λ s,
  match m s with
  | (Ok a, s') => (Ok a, s')
  | (Err e, _) => (Err e, s)
  | (Panic, _) => (Panic, s)
  end.

(** A transaction: baseapp drops the writes of a message that fails or panics. *)
Definition deliver {A} (m : M S A) (s : S) : S :=
  match m s with (Ok _, s') => s' | _ => s end.
End monad_ops.

(** [status.Error(code, err.Error())]. *)
Notation status c m := (wrapping (Status c) m) (only parsing).

(** [for _, x := range l { ... }] with an accumulator. *)
Fixpoint foldlM {F : Type → Type} `{MRet F, MBind F} {A B} (f : B → A → F B) (b : B) (l : list A)
    : F B :=
  match l with
  | [] => mret b
  | x :: l' => b' ← f b x; foldlM f b' l'
  end.
Arguments foldlM {_ _ _ _ _} _ _ !_ /.

(** ** Inversion of successful runs *)

Lemma res_bind_ok {A B} (m : res A) (f : A → res B) b :
  m ≫= f = Ok b ↔ ∃ a, m = Ok a ∧ f a = Ok b.
Proof. destruct m; cbn; naive_solver. Qed.

Lemma ok_bind {A B} (a : A) (f : A → res B) : Ok a ≫= f = f a.
Proof. done. Qed.

Lemma M_bind_ok {S A B} (m : M S A) (f : A → M S B) s b s' :
  (m ≫= f) s = (Ok b, s') ↔ ∃ a s1, m s = (Ok a, s1) ∧ f a s1 = (Ok b, s').
Proof. unfold mbind, M_bind. destruct (m s) as [[a|e|] s1]; naive_solver. Qed.

Lemma lift_ok {S A} (r : res A) (s s' : S) a : lift r s = (Ok a, s') ↔ r = Ok a ∧ s' = s.
Proof. unfold lift. naive_solver. Qed.

Lemma gets_ok {S A} (f : S → A) (s s' : S) a : gets f s = (Ok a, s') ↔ a = f s ∧ s' = s.
Proof. unfold gets. naive_solver. Qed.

Lemma modify_ok {S} (f : S → S) (s s' : S) u : modify f s = (Ok u, s') ↔ s' = f s.
Proof. unfold modify. destruct u. naive_solver. Qed.

Lemma ret_ok {S A} (a b : A) (s s' : S) : mret (M := M S) a s = (Ok b, s') ↔ a = b ∧ s' = s.
Proof. unfold mret, M_ret. naive_solver. Qed.

Lemma cached_ok {S A} (m : M S A) s a s' : cached m s = (Ok a, s') ↔ m s = (Ok a, s').
Proof. unfold cached. destruct (m s) as [[]]; naive_solver. Qed.

Lemma wrapping_ok {S A} e (m : M S A) s a s' : wrapping e m s = (Ok a, s') ↔ m s = (Ok a, s').
Proof. unfold wrapping. destruct (m s) as [[]]; naive_solver. Qed.

Lemma wrap_err_ok {A} e (m : res A) a : wrap_err e m = Ok a ↔ m = Ok a.
Proof. destruct m; naive_solver. Qed.

Lemma try_ok {S A} (m : M S A) s r s' :
  try m s = (Ok r, s') ↔
    (∃ a, r = inl a ∧ m s = (Ok a, s')) ∨ (∃ e, r = inr e ∧ m s = (Err e, s')).
Proof. unfold try. destruct (m s) as [[]]; naive_solver. Qed.

(** [cached] leaves the state of its caller alone unless it succeeds. *)
Lemma cached_atomic {S A} (m : M S A) s r s' :
  cached m s = (r, s') → (∀ a, r ≠ Ok a) → s' = s.
Proof. unfold cached. destruct (m s) as [[]]; naive_solver. Qed.

Lemma deliver_unit {S A} (m : M S A) s : deliver (m;; mret tt) s = deliver m s.
Proof. unfold deliver, mbind, M_bind, mret, M_ret. by destruct (m s) as [[]]. Qed.

Lemma deliver_inv {S A} (P : S → Prop) (m : M S A) s :
  P s → (∀ a s', m s = (Ok a, s') → P s') → P (deliver m s).
Proof. intros HP Hm. unfold deliver. destruct (m s) as [[] s'] eqn:E; eauto. Qed.

(** ** Outcomes up to the state an error leaves behind

    Two runs are equivalent when they return the same and, if they succeed, leave the same state.
    What a failing run leaves is dropped by [cached] and by [deliver]. *)

Definition outcome_eq {S A} (x y : res A * S) : Prop := x.1 = y.1 ∧ ∀ a, x.1 = Ok a → x.2 = y.2.

#[global] Instance outcome_eq_equivalence {S A} : Equivalence (@outcome_eq S A).
Proof.
  split; unfold outcome_eq.
  - done.
  - intros x y [E H]. split; [done|]. intros a ?. symmetry. apply (H a). congruence.
  - intros x y z [E1 H1] [E2 H2]. split; [congruence|]. intros a ?.
    rewrite (H1 a), (H2 a) by congruence. done.
Qed.

Definition run_eq {S A} (m n : M S A) : Prop := ∀ s, outcome_eq (m s) (n s).

#[global] Instance run_eq_equivalence {S A} : Equivalence (@run_eq S A).
Proof.
  split; unfold run_eq.
  - done.
  - intros m n H s. symmetry. apply H.
  - intros m n o H1 H2 s. etrans; [apply H1|apply H2].
Qed.

Lemma run_eq_bind {S A B} (m n : M S A) (f g : A → M S B) :
  run_eq m n → (∀ a, run_eq (f a) (g a)) → run_eq (m ≫= f) (n ≫= g).
Proof.
  intros Hmn Hfg s. unfold mbind, M_bind. specialize (Hmn s). unfold outcome_eq in Hmn.
  destruct (m s) as [r s1], (n s) as [r' s2]; cbn in Hmn. destruct Hmn as [<- Hs].
  destruct r as [a| |]; [|split; done..]. rewrite (Hs a) by done. apply Hfg.
Qed.

Lemma cached_run_eq {S A} (m n : M S A) s : run_eq m n → cached m s = cached n s.
Proof.
  intros H. destruct (H s) as [Hr Hs]. unfold cached.
  destruct (m s) as [r s1], (n s) as [r' s2]; cbn in *. subst. destruct r'; [|done..]. by rewrite (Hs a).
Qed.

Lemma bind_assoc_run {S A B C} (m : M S A) (f : A → M S B) (g : B → M S C) s :
  ((m ≫= f) ≫= g) s = (m ≫= λ a, f a ≫= g) s.
Proof. unfold mbind, M_bind. by destruct (m s) as [[] ?]. Qed.

(** A loop whose body commutes with itself does not depend on the order of the list. *)
Lemma foldlM_perm {S A} (f : A → M S unit) l1 l2 :
  (∀ x y, run_eq (f x;; f y) (f y;; f x)) → l1 ≡ₚ l2 →
  run_eq (foldlM (λ _ x, f x) tt l1) (foldlM (λ _ x, f x) tt l2).
Proof.
  intros Hcomm. induction 1 as [|x l l' _ IH|x y l|l l' l'' _ IH1 _ IH2]; cbn.
  - done.
  - apply run_eq_bind; [done|]. by intros [].
  - intros s. assert (Hc := run_eq_bind _ _ (λ _, foldlM (λ _ x, f x) tt l) (λ _, foldlM (λ _ x, f x) tt l)
      (Hcomm y x) (λ _, reflexivity _) s). rewrite !bind_assoc_run in Hc.
    unfold mbind, M_bind in *. destruct (f y s) as [[[]| |] s1], (f x s) as [[[]| |] s2]; cbn in *; try done;
      repeat match goal with |- context [f ?x ?s] => destruct (f x s) as [[[]| |] ?]; cbn in *; try done end.
  - by etrans.
Qed.

(** Evaluating a run on a concrete state: only its result is normalised. *)
Lemma run_at {S A} (x : res A * S) r : x.1 = r → x = (r, x.2).
Proof. destruct x. by intros <-. Qed.
Ltac run_by_eval := apply run_at; vm_compute; reflexivity.

(** One step of inverting a successful run in a hypothesis. *)
Ltac run_inv_step :=
  match goal with
  | H : mbind _ _ _ = (Ok _, _) |- _ => apply M_bind_ok in H as (? & ? & ? & H)
  | H : mbind _ _ = Ok _ |- _ => apply res_bind_ok in H as (? & ? & H)
  | H : lift _ _ = (Ok _, _) |- _ => apply lift_ok in H as [H ?]; subst
  | H : gets _ _ = (Ok _, _) |- _ => apply gets_ok in H as [? ?]; subst
  | H : get _ = (Ok _, _) |- _ => unfold get in H; injection H as ? ?; subst
  | H : modify _ _ = (Ok _, _) |- _ => apply modify_ok in H; subst
  | H : mret _ _ = (Ok _, _) |- _ => apply ret_ok in H as [? ?]; subst
  | H : mret _ = Ok _ |- _ => unfold mret, res_ret in H; injection H as ?; subst
  | H : Ok _ = Ok _ |- _ => injection H as ?; subst
  | H : (_, _) = (_, _) |- _ => injection H as ? ?; subst
  | H : err _ _ = (Ok _, _) |- _ => discriminate H
  | H : Err _ = Ok _ |- _ => discriminate H
  | H : Panic = Ok _ |- _ => discriminate H
  | H : cached _ _ = (Ok _, _) |- _ => apply (proj1 (cached_ok _ _ _ _)) in H
  | H : wrapping _ _ _ = (Ok _, _) |- _ => apply (proj1 (wrapping_ok _ _ _ _ _)) in H
  | H : wrap_err _ _ = Ok _ |- _ => apply (proj1 (wrap_err_ok _ _ _)) in H
  end.
Ltac run_inv := repeat run_inv_step.

(** [ledger] collects, for every message handler, the lemma that a successful run keeps the
    invariant of the billing module; the ledger's step theorem is proved by it. *)
Create HintDb ledger.

Ltac destruct_units := repeat match goal with x : unit |- _ => destruct x end.

(** As [run_inv], and split the conditions of the code on the way. *)
Ltac run_split_step :=
  match goal with
  | H : (if ?b then _ else _) _ = (Ok _, _) |- _ => destruct b eqn:?
  | H : (if ?b then _ else _) = Ok _ |- _ => destruct b eqn:?
  | H : (match ?x with _ => _ end) _ = (Ok _, _) |- _ => destruct x eqn:?
  | H : (match ?x with _ => _ end) = Ok _ |- _ => destruct x eqn:?
  end.
Ltac run_split := repeat (run_inv_step || (run_split_step; try discriminate)).

Lemma bind_run {S A B} (m : M S A) (f : A → M S B) s a s1 : m s = (Ok a, s1) → (m ≫= f) s = f a s1.
Proof. unfold mbind, M_bind. by intros ->. Qed.

Lemma foldlM_modify {S A} (f : A → S → S) (l : list A) (s : S) :
  foldlM (λ _ x, modify (f x)) tt l s = (Ok tt, foldl (λ s x, f x s) s l).
Proof. revert s. induction l as [|x l IH]; intros s; [done|]. cbn [foldlM]. unfold mbind, M_bind. apply IH. Qed.

Lemma foldlM_ok_inv {S A B} (I : list A → B → S → Prop) (f : B → A → M S B) :
  (∀ x l b s b' s', I (x :: l) b s → f b x s = (Ok b', s') → I l b' s') →
  ∀ l b s b' s', I l b s → foldlM f b l s = (Ok b', s') → I [] b' s'.
Proof.
  intros Hstep l; induction l as [|x l IH]; intros b s b' s' HI; cbn.
  - intros H. run_inv. done.
  - intros H. run_inv. eauto.
Qed.

Lemma foldlM_res_inv {A B} (I : list A → B → Prop) (f : B → A → res B) :
  (∀ x l b b', I (x :: l) b → f b x = Ok b' → I l b') →
  ∀ l b b', I l b → foldlM f b l = Ok b' → I [] b'.
Proof.
  intros Hstep l; induction l as [|x l IH]; intros b b' HI; cbn.
  - intros H. run_inv. done.
  - intros H. run_inv. eauto.
Qed.

(** ** Machine integers and time

    [time.Time] is the number of nanoseconds since the Unix epoch; [time.Duration] is an [int64]
    number of nanoseconds; [uint64] arithmetic wraps. *)

Definition max_u64 : Z := 2 ^ 64 - 1.
Definition max_i64 : Z := 2 ^ 63 - 1.
Definition min_i64 : Z := - 2 ^ 63.
Definition wrap_u64 (x : Z) : Z := x mod 2 ^ 64.
Definition wrap_i64 (x : Z) : Z := (x + 2 ^ 63) mod 2 ^ 64 - 2 ^ 63.
Definition wrap_i32 (x : Z) : Z := (x + 2 ^ 31) mod 2 ^ 32 - 2 ^ 31.

(** Go's [len] of a string and of a slice. *)
Definition len (s : string) : Z := Z.of_nat (String.length s).
Definition llen {A} (l : list A) : Z := Z.of_nat (length l).

Definition Second : Z := 1000000000.

(** [t.Sub(u)] saturates. *)
Definition time_Sub (t u : Z) : Z := Z.max min_i64 (Z.min max_i64 (t - u)).
Definition time_Add (t d : Z) : Z := t + d.
Definition time_After (t u : Z) : bool := u <? t.

Lemma wrap_u64_id x : 0 ≤ x ≤ max_u64 → wrap_u64 x = x.
Proof. intros. apply Z.mod_small. unfold max_u64 in *. lia. Qed.

Lemma wrap_i64_id x : min_i64 ≤ x ≤ max_i64 → wrap_i64 x = x.
Proof. unfold wrap_i64, min_i64, max_i64. intros. rewrite Z.mod_small; lia. Qed.

Lemma time_Sub_sign t u : (time_Sub t u ≤ 0 ↔ t ≤ u) ∧ (time_Sub t u < 0 ↔ t < u).
Proof. unfold time_Sub, min_i64, max_i64. lia. Qed.

(** ** Sums over finite maps *)

Section map_sum.
Context {K : Type} `{Countable K} {V : Type}.
Implicit Types (f g : V → Z) (m : gmap K V).

Definition map_sum f m : Z := map_fold (λ _ v acc, f v + acc) 0 m.

Lemma map_sum_empty f : map_sum f ∅ = 0.
Proof. apply map_fold_empty. Qed.

Lemma map_sum_insert_None f m k v : m !! k = None → map_sum f (<[k:=v]> m) = f v + map_sum f m.
Proof. intros. unfold map_sum. rewrite map_fold_insert_L; [done| |done]. intros. lia. Qed.

Lemma map_sum_delete f m k v : m !! k = Some v → map_sum f m = f v + map_sum f (delete k m).
Proof. intros. rewrite <- (map_sum_insert_None f (delete k m) k v), insert_delete_id; [done..|apply lookup_delete_eq]. Qed.

Lemma map_sum_insert f m k v :
  map_sum f (<[k:=v]> m) = map_sum f m - from_option f 0 (m !! k) + f v.
Proof.
  destruct (m !! k) as [w|] eqn:E; cbn.
  - rewrite (map_sum_delete f m k w E), <- insert_delete_eq.
    rewrite map_sum_insert_None by apply lookup_delete_eq. lia.
  - rewrite map_sum_insert_None by done. lia.
Qed.

Lemma map_sum_ext f g m : (∀ k v, m !! k = Some v → f v = g v) → map_sum f m = map_sum g m.
Proof.
  induction m as [|k v m Hk IH] using map_ind; intros Heq; [by rewrite !map_sum_empty|].
  rewrite !map_sum_insert_None by done. rewrite IH, (Heq k v); [done|by simplify_map_eq|].
  intros k' v' ?. apply (Heq k'). rewrite lookup_insert_ne; [done|]. naive_solver.
Qed.

Lemma map_sum_nonneg f m : (∀ k v, m !! k = Some v → 0 ≤ f v) → 0 ≤ map_sum f m.
Proof.
  induction m as [|k v m Hk IH] using map_ind; intros Hp; [by rewrite map_sum_empty|].
  rewrite map_sum_insert_None by done.
  assert (0 ≤ f v) by (apply (Hp k); by simplify_map_eq).
  assert (0 ≤ map_sum f m); [|lia].
  apply IH. intros k' v' ?. apply (Hp k'). rewrite lookup_insert_ne; [done|]. naive_solver.
Qed.

Lemma map_sum_lookup_le f m k v :
  (∀ k v, m !! k = Some v → 0 ≤ f v) → m !! k = Some v → f v ≤ map_sum f m.
Proof.
  intros Hp Hk. rewrite (map_sum_delete f m k v) by done.
  assert (0 ≤ map_sum f (delete k m)); [|lia].
  apply map_sum_nonneg. intros k' v' [_ ?]%lookup_delete_Some. by eapply Hp.
Qed.

Lemma map_sum_zero m : map_sum (λ _, 0) m = 0.
Proof. induction m as [|k v m Hk IH] using map_ind; [done|]. by rewrite map_sum_insert_None, IH by done. Qed.

Lemma map_sum_add f g m : map_sum (λ v, f v + g v) m = map_sum f m + map_sum g m.
Proof. induction m as [|k v m Hk IH] using map_ind; [done|]. rewrite !map_sum_insert_None by done. lia. Qed.

Lemma map_sum_singleton f k v : map_sum f {[k := v]} = f v.
Proof. rewrite <- insert_empty, map_sum_insert_None, map_sum_empty by apply lookup_empty. lia. Qed.

(** A sum in which at most the value at [k] counts. *)
Lemma map_sum_only f m k : (∀ k' v, m !! k' = Some v → k' ≠ k → f v = 0) → map_sum f m = from_option f 0 (m !! k).
Proof.
  intros Hz. destruct (m !! k) as [v|] eqn:E; cbn.
  - rewrite (map_sum_delete f m k v E), (map_sum_ext _ (λ _, 0)), map_sum_zero; [lia|].
    intros k' v' [? ?]%lookup_delete_Some. by eapply Hz.
  - rewrite (map_sum_ext _ (λ _, 0)), map_sum_zero; [done|]. intros k' v' Hk. eapply Hz; [done|]. congruence.
Qed.
End map_sum.

Lemma map_sum_fmap {U V} (g : U → V) (f : V → Z) (m : gmap string U) : map_sum f (g <$> m) = map_sum (f ∘ g) m.
Proof. unfold map_sum. by rewrite map_fold_fmap. Qed.

(** ** Iteration order of the store: ascending keys *)

Definition sorted_keys {V} (m : gmap string V) : list string :=
  merge_sort String.le (map_to_list m).*1.

(** [Map.Walk] without a range: the values in key order. *)
Definition walk {V} (m : gmap string V) : list V := omap (m !!.) (sorted_keys m).

Lemma sorted_keys_perm {V} (m : gmap string V) : sorted_keys m ≡ₚ (map_to_list m).*1.
Proof. apply merge_sort_Permutation. Qed.

Lemma elem_of_sorted_keys {V} (m : gmap string V) k : k ∈ sorted_keys m ↔ is_Some (m !! k).
Proof.
  rewrite sorted_keys_perm, list_elem_of_fmap. split.
  - intros ([k' v] & -> & Hin%elem_of_map_to_list). eauto.
  - intros [v ?]. exists (k, v). by rewrite elem_of_map_to_list.
Qed.

Lemma NoDup_sorted_keys {V} (m : gmap string V) : NoDup (sorted_keys m).
Proof. rewrite sorted_keys_perm. apply NoDup_fst_map_to_list. Qed.

Lemma StronglySorted_sorted_keys {V} (m : gmap string V) : StronglySorted String.le (sorted_keys m).
Proof. apply StronglySorted_merge_sort; apply _. Qed.

Lemma StronglySorted_filter {A} (R : relation A) (P : A → Prop) `{∀ x, Decision (P x)} l :
  StronglySorted R l → StronglySorted R (filter P l).
Proof.
  induction 1 as [|x l _ IH Hx]; [constructor|]. rewrite filter_cons. case_decide; [|done]. constructor; [done|].
  rewrite Forall_forall in *. intros y [_ Hy]%list_elem_of_filter. by apply Hx.
Qed.

Lemma sorted_keys_dom {V V'} (m : gmap string V) (m' : gmap string V') :
  (∀ k, is_Some (m !! k) ↔ is_Some (m' !! k)) → sorted_keys m = sorted_keys m'.
Proof.
  intros Hd. apply (StronglySorted_unique String.le); [apply StronglySorted_sorted_keys..|].
  apply NoDup_Permutation; [apply NoDup_sorted_keys..|]. intros k. by rewrite !elem_of_sorted_keys.
Qed.

Lemma filter_ext_in {A} (P Q : A → Prop) `{∀ x, Decision (P x)} `{∀ x, Decision (Q x)} (l : list A) :
  (∀ x, x ∈ l → P x ↔ Q x) → filter P l = filter Q l.
Proof.
  induction l as [|x l IH]; intros HPQ; [done|]. rewrite !filter_cons, IH by set_solver.
  apply decide_ext, HPQ. set_solver.
Qed.

Lemma filter_all {A} (P : A → Prop) `{∀ x, Decision (P x)} (l : list A) :
  (∀ x, x ∈ l → P x) → filter P l = l.
Proof.
  induction l as [|x l IH]; intros HP; [done|].
  rewrite filter_cons_True, IH by (apply HP || intros; set_solver). done.
Qed.

Lemma filter_none {A} (P : A → Prop) `{∀ x, Decision (P x)} (l : list A) :
  (∀ x, x ∈ l → ¬ P x) → filter P l = [].
Proof.
  induction l as [|x l IH]; intros HP; [done|]. rewrite filter_cons_False, IH; set_solver.
Qed.

Lemma elem_of_take_in {A} (x : A) n l : x ∈ take n l → x ∈ l.
Proof. intros. rewrite <- (take_drop n l). set_solver. Qed.

(** Filtering out what was taken leaves what was dropped. *)
Lemma filter_not_take {A} `{EqDecision A} (l : list A) n :
  NoDup l → filter (λ x, x ∉ take n l) l = drop n l.
Proof.
  intros Hl. revert n. induction Hl as [|x l Hx Hl IH]; intros [|n]; [done..| |].
  - apply filter_all. cbn. set_solver.
  - cbn [take drop]. rewrite filter_cons_False by set_solver. rewrite <- (IH n).
    apply filter_ext_in. set_solver.
Qed.

(** ** Sums over lists *)

Fixpoint lsum {A} (f : A → Z) (l : list A) : Z :=
  match l with [] => 0 | x :: l' => f x + lsum f l' end.

Lemma lsum_app {A} (f : A → Z) l1 l2 : lsum f (l1 ++ l2) = lsum f l1 + lsum f l2.
Proof. induction l1; cbn; lia. Qed.

Lemma lsum_ext {A} (f g : A → Z) l : Forall (λ x, f x = g x) l → lsum f l = lsum g l.
Proof. induction 1; cbn; lia. Qed.

Lemma lsum_nonneg {A} (f : A → Z) l : Forall (λ x, 0 ≤ f x) l → 0 ≤ lsum f l.
Proof. induction 1; cbn; lia. Qed.

Lemma lsum_perm {A} (f : A → Z) l1 l2 : l1 ≡ₚ l2 → lsum f l1 = lsum f l2.
Proof. induction 1; cbn; lia. Qed.

Lemma lsum_mul {A} (f : A → Z) c l : lsum (λ x, f x * c) l = lsum f l * c.
Proof. induction l; cbn; [done|]. rewrite Z.mul_add_distr_r. lia. Qed.

(** ** Building a map from a list of values that carry their keys *)

Section index_by.
Context {V : Type} (key : V → string).
Implicit Types (m : gmap string V) (vs : list V).

Definition index_by m vs : gmap string V := foldl (λ m v, <[key v := v]> m) m vs.

(** No key twice, and none already in [m]. *)
Definition new_keys m vs : Prop := NoDup (key <$> vs) ∧ ∀ v, v ∈ vs → m !! key v = None.

Lemma new_keys_cons m v vs : new_keys m (v :: vs) → m !! key v = None ∧ new_keys (<[key v := v]> m) vs.
Proof.
  intros [Hn Hm]. rewrite fmap_cons in Hn. apply NoDup_cons in Hn as [Hv Hn]. split; [apply Hm; set_solver|].
  split; [done|]. intros v' Hv'. rewrite lookup_insert_ne; [apply Hm; set_solver|].
  intros Heq. apply Hv. rewrite Heq. by apply list_elem_of_fmap_2.
Qed.

Lemma index_by_lookup m vs k v :
  new_keys m vs → index_by m vs !! k = Some v ↔ (v ∈ vs ∧ key v = k) ∨ m !! k = Some v.
Proof.
  revert m. induction vs as [|x vs IH]; intros m Hk; [set_solver|]. pose proof (new_keys_cons _ _ _ Hk) as [Hx Hk'].
  cbn [index_by foldl]. change (foldl _ (<[key x := x]> m) vs) with (index_by (<[key x := x]> m) vs).
  rewrite IH by done. rewrite lookup_insert_Some, elem_of_cons. split.
  - intros [[? ?]|[[? ->]|[? ?]]]; [left; auto|left; auto|by right].
  - intros [[[->|?] ?]|Hmk]; [right; left; auto|left; auto|]. right; right. split; [|done]. intros <-. congruence.
Qed.

Lemma map_sum_index_by f m vs : new_keys m vs → map_sum f (index_by m vs) = map_sum f m + lsum f vs.
Proof.
  revert m. induction vs as [|x vs IH]; intros m Hk; [cbn; lia|]. apply new_keys_cons in Hk as [Hx Hk].
  change (index_by m (x :: vs)) with (index_by (<[key x := x]> m) vs).
  rewrite IH, map_sum_insert_None by done. cbn. lia.
Qed.

Lemma index_by_size m vs : new_keys m vs → size (index_by m vs) = (size m + length vs)%nat.
Proof.
  revert m. induction vs as [|x vs IH]; intros m Hk; [cbn; lia|]. apply new_keys_cons in Hk as [Hx Hk].
  change (index_by m (x :: vs)) with (index_by (<[key x := x]> m) vs).
  rewrite IH, map_size_insert_None by done. cbn. lia.
Qed.

Lemma elem_of_walk m v : v ∈ walk m ↔ ∃ k, m !! k = Some v.
Proof.
  unfold walk. rewrite list_elem_of_omap. split; [intros (k & _ & ?); eauto|].
  intros [k Hk]. exists k. split; [|done]. apply elem_of_sorted_keys. eauto.
Qed.

Lemma walk_keys m : (∀ k v, m !! k = Some v → key v = k) → key <$> walk m = sorted_keys m.
Proof.
  intros Hkey. unfold walk.
  assert (Hs : Forall (λ k, is_Some (m !! k)) (sorted_keys m))
    by (apply Forall_forall; intros k; by rewrite elem_of_sorted_keys).
  induction Hs as [|k ks [v Hv] _ IH]; [done|]. cbn. rewrite Hv. cbn. by rewrite IH, (Hkey k v Hv).
Qed.

Lemma new_keys_walk m : (∀ k v, m !! k = Some v → key v = k) → new_keys ∅ (walk m).
Proof.
  intros Hkey. split; [rewrite walk_keys by done; apply NoDup_sorted_keys|]. intros v _. apply lookup_empty.
Qed.

(** Exporting the values and indexing them again gives the map. *)
Lemma index_by_walk m : (∀ k v, m !! k = Some v → key v = k) → index_by ∅ (walk m) = m.
Proof.
  intros Hkey. apply map_eq. intros k. apply option_eq. intros v.
  rewrite index_by_lookup, elem_of_walk, lookup_empty by by apply new_keys_walk. split; [|by eauto].
  intros [[[k' Hk'] <-]|?]; [|done]. by rewrite (Hkey k' v Hk').
Qed.
End index_by.

(** One round of a loop that keeps the keys it has seen. *)
Lemma seen_cons {V} (key : V → string) (seen : list string) (v : V) (vs : list V) :
  key v ∉ seen → NoDup (key <$> vs) → (∀ x, x ∈ vs → key x ∉ key v :: seen) →
  NoDup (key <$> v :: vs) ∧ ∀ x, x ∈ v :: vs → key x ∉ seen.
Proof.
  intros Hv Hn Hs. split.
  - rewrite fmap_cons. apply NoDup_cons. split; [|done]. intros (q & Hq & Hin)%list_elem_of_fmap. apply Hs in Hin. set_solver.
  - intros q [->|Hq]%elem_of_cons; [done|]. apply Hs in Hq. set_solver.
Qed.
