(* ===== verification/Sdk.v ===== *)
(** * The Cosmos SDK as the modules see it

    The ledger's modules call code that is not in this repository: [cosmossdk.io/math],
    [sdk.Coins], bech32 addresses, the hash behind [address.Module], the bank and the account
    keepers. [SDK] is the interface (one operation per call the modules make) and [SDKLaws] the
    documented behaviour the theorems rely on. Every definition of the modules takes an [SDK];
    [SdkRef.v] gives an instance that meets the laws. *)

From stdpp Require Import base tactics option list strings gmap sorting fin_maps.
From Stdlib Require Import ZArith Lia.
From S2P Require Import Prelude.
Open Scope Z_scope.

(** ** Data *)

(** An account address: raw bytes. *)
Notation Addr := string (only parsing).

(** [sdk.Coin]. [math.Int] is the integer it denotes; its range is [max_int] in absolute value. *)
Record Coin : Type := mkCoin { Denom : string; Amount : Z }.
Notation Coins := (list Coin) (only parsing).

#[global] Instance Coin_eq_dec : EqDecision Coin.
Proof. solve_decision. Defined.

(** [math.Int]: "exists in range from -(2^256 - 1) to 2^256 - 1". *)
Definition max_int : Z := 2 ^ 256 - 1.

(** The comparisons of [math.Int] and of [sdk.Coin] are those of the integers. *)
Definition Coin_IsPositive (c : Coin) : bool := 0 <? Amount c.
Definition Coin_IsZero (c : Coin) : bool := Amount c =? 0.

(** [query.PageRequest] and [query.PageResponse]; an empty key is "no key". *)
Record PageRequest : Type := mkPageRequest {
  Key : string; Offset : Z; Limit : Z; CountTotal : bool; Reverse : bool }.
Record PageResponse : Type := mkPageResponse { NextKey : string; Total : Z }.

(** ** Operations *)

Class SDK : Type := {
  (* cosmossdk.io/math *)
  int_Mul : Z → Z → res Z;
  int_Sub : Z → Z → res Z;
  int_Quo : Z → Z → res Z;
  int_Mod : Z → Z → res Z;
  (* sdk.Coin, sdk.Coins *)
  ValidateDenom : string → bool;
  NewCoin : string → Z → res Coin;
  Coin_IsValid : Coin → bool;
  NewCoins : list Coin → res Coins;
  Coins_Add : Coins → Coins → res Coins;
  Coins_Sub : Coins → Coins → res Coins;
  Coins_AmountOf : Coins → string → res Z;
  Coins_IsValid : Coins → bool;
  Coins_IsZero : Coins → bool;
  Coins_Equal : Coins → Coins → bool;
  (* addresses *)
  AccAddressFromBech32 : string → option Addr;
  AccAddress_String : Addr → string;
  sha256_Sum256 : string → string;
  address_Module : string → string → Addr;
  (* x/bank and x/auth: one abstract state, as SendCoins may create an account *)
  Bank : Type;
  GetBalance : Bank → Addr → string → Z;
  GetAllBalances : Bank → Addr → Coins;
  SendCoins : Bank → Addr → Addr → Coins → bool * Bank;
  GetSupply : Bank → string → Z;
  MintCoins : string → Coins → M Bank unit;
  BurnCoins : string → Coins → M Bank unit;
  SendCoinsFromModuleToAccount : string → Addr → Coins → M Bank unit;
  SendCoinsFromAccountToModule : Addr → string → Coins → M Bank unit;
  module_address : string → Addr;
  HasAccount : Bank → Addr → bool;
  SetNewAccount : Bank → Addr → Bank;
  (* types/query *)
  query_DefaultLimit : Z;
  CollectionPaginate {V : Type} : gmap string V → option PageRequest → res (list V * PageResponse);
}.

(** ** Denotation of coins *)

Definition coin_amt (d : string) (c : Coin) : Z := if decide (Denom c = d) then Amount c else 0.
(** The amount of denom [d] in [cs]. *)
Definition amt (cs : Coins) (d : string) : Z := lsum (coin_amt d) cs.

Section valid.
Context `{SDK}.

Definition valid_coin (c : Coin) : Prop :=
  ValidateDenom (Denom c) = true ∧ 0 < Amount c ≤ max_int.

(** Sorted by denom, no denom twice, amounts positive. *)
Definition valid_coins (cs : Coins) : Prop :=
  StronglySorted String.le (Denom <$> cs) ∧ NoDup (Denom <$> cs) ∧ Forall valid_coin cs.
End valid.

(** ** Laws *)

Class SDKLaws `(S : SDK) : Prop := {
  int_Mul_spec a b : int_Mul a b = if Z.abs (a * b) <=? max_int then Ok (a * b) else Panic;
  int_Sub_spec a b : int_Sub a b = if Z.abs (a - b) <=? max_int then Ok (a - b) else Panic;
  int_Quo_spec a b : 0 ≤ a → 0 < b → int_Quo a b = Ok (a / b);
  int_Mod_spec a b : 0 ≤ a → 0 < b → int_Mod a b = Ok (a mod b);
  (* "It will panic if the amount is negative or if the denomination is invalid" *)
  NewCoin_spec d a :
    NewCoin d a = if ValidateDenom d && (0 <=? a) then Ok (mkCoin d a) else Panic;
  (* a Coin is valid when its denom is and its amount is not negative *)
  Coin_IsValid_spec c :
    Coin_IsValid c = true ↔ ValidateDenom (Denom c) = true ∧ 0 ≤ Amount c ≤ max_int;
  (* "NewCoins constructs a new coin set. The provided coins will be sanitized by removing zero
     coins and sorting the coin set. A panic will occur if the coin set is not valid." *)
  NewCoins_spec cs :
    NoDup (Denom <$> cs) → Forall (λ c, Coin_IsValid c = true) cs →
    ∃ cs', NewCoins cs = Ok cs' ∧ valid_coins cs' ∧ ∀ d, amt cs' d = amt cs d;
  (* Add adds denom by denom; math.Int panics beyond its range *)
  Coins_Add_spec a b :
    valid_coins a → valid_coins b →
    match Coins_Add a b with
    | Ok c => valid_coins c ∧ ∀ d, amt c d = amt a d + amt b d
    | Err _ => False
    | Panic => ∃ d, max_int < amt a d + amt b d
    end;
  (* "Sub subtracts ... It panics if the result is negative" *)
  Coins_Sub_spec a b :
    valid_coins a → valid_coins b →
    match Coins_Sub a b with
    | Ok c => valid_coins c ∧ ∀ d, amt c d = amt a d - amt b d
    | Err _ => False
    | Panic => ∃ d, amt a d < amt b d
    end;
  (* "AmountOf returns the amount of a denom from coins", zero when absent *)
  Coins_AmountOf_spec a d :
    valid_coins a → ValidateDenom d = true → Coins_AmountOf a d = Ok (amt a d);
  Coins_IsValid_spec a : Coins_IsValid a = true ↔ valid_coins a;
  Coins_IsZero_spec a : valid_coins a → Coins_IsZero a = true ↔ a = [];
  Coins_Equal_spec a b : valid_coins a → valid_coins b → Coins_Equal a b = true ↔ a = b;
  (* bech32: the empty string is not an address; String is a right inverse of parsing *)
  AccAddressFromBech32_empty : AccAddressFromBech32 "" = None;
  address_Module_parse m k :
    AccAddressFromBech32 (AccAddress_String (address_Module m k)) = Some (address_Module m k);
  AccAddress_String_parse s a :
    AccAddressFromBech32 s = Some a → AccAddressFromBech32 (AccAddress_String a) = Some a;
  (* bank *)
  GetBalance_range b a d : 0 ≤ GetBalance b a d ≤ max_int;
  SendCoins_spec b from to cs b' a d :
    valid_coins cs → SendCoins b from to cs = (true, b') →
    GetBalance b' a d = GetBalance b a d - (if decide (a = from) then amt cs d else 0)
                                         + (if decide (a = to) then amt cs d else 0);
  SetNewAccount_balance b x a d : GetBalance (SetNewAccount b x) a d = GetBalance b a d;
  (* "MintCoins creates new coins from thin air and adds it to the module account" *)
  MintCoins_spec m cs b b' a d :
    valid_coins cs → MintCoins m cs b = (Ok tt, b') →
    GetSupply b' d = GetSupply b d + amt cs d ∧
    GetBalance b' a d = GetBalance b a d + (if decide (a = module_address m) then amt cs d else 0);
  (* "BurnCoins burns coins deletes coins from the balance of the module account" *)
  BurnCoins_spec m cs b b' a d :
    valid_coins cs → BurnCoins m cs b = (Ok tt, b') →
    GetSupply b' d = GetSupply b d - amt cs d ∧
    GetBalance b' a d = GetBalance b a d - (if decide (a = module_address m) then amt cs d else 0);
  SendCoinsFromModuleToAccount_spec m to cs b b' a d :
    valid_coins cs → SendCoinsFromModuleToAccount m to cs b = (Ok tt, b') →
    GetSupply b' d = GetSupply b d ∧
    GetBalance b' a d = GetBalance b a d - (if decide (a = module_address m) then amt cs d else 0)
                                         + (if decide (a = to) then amt cs d else 0);
  SendCoinsFromAccountToModule_spec from m cs b b' a d :
    valid_coins cs → SendCoinsFromAccountToModule from m cs b = (Ok tt, b') →
    GetSupply b' d = GetSupply b d ∧
    GetBalance b' a d = GetBalance b a d - (if decide (a = from) then amt cs d else 0)
                                         + (if decide (a = module_address m) then amt cs d else 0);
  (* "DefaultLimit is the default `limit` for queries if the `limit` is not supplied" *)
  query_DefaultLimit_range : 0 < query_DefaultLimit ≤ max_u64;
  (* a page holds values of the collection *)
  CollectionPaginate_sound {V : Type} (m : gmap string V) r vs p v :
    CollectionPaginate m r = Ok (vs, p) → v ∈ vs → ∃ k, m !! k = Some v;
}.

(** ** Checks *)

(** [sdk.AccAddressFromBech32], its error as it is. *)
Definition parse_address `{SDK} (s : string) : res Addr :=
  match AccAddressFromBech32 s with Some a => Ok a | None => Err External end.

(** [if _, err := sdk.AccAddressFromBech32(addr); err != nil { return ErrX }]. *)
Definition check_address `{SDK} (addr : string) (e : error) : res unit :=
  match AccAddressFromBech32 addr with Some _ => Ok tt | None => Err e end.

Lemma check_address_ok `{SDK} s e u : check_address s e = Ok u ↔ is_Some (AccAddressFromBech32 s).
Proof. unfold check_address. destruct (AccAddressFromBech32 s), u; naive_solver. Qed.

(** Inverts a chain of successful checks. *)
Ltac checks_inv :=
  repeat first
    [ run_inv_step
    | match goal with
      | H : check _ _ = Ok _ |- _ => apply check_ok in H
      | H : check_address _ _ = Ok _ |- _ => apply check_address_ok in H
      end ].

(** ** Consequences *)

Section denotation.
Context `{SDK}.
Implicit Types (a b c : Coins) (d : string).

Lemma valid_coins_nil : valid_coins [].
Proof. split_and!; [constructor|constructor|done]. Qed.

Lemma valid_coins_cons x a :
  valid_coins (x :: a) →
  valid_coin x ∧ valid_coins a ∧ Denom x ∉ (Denom <$> a) ∧
  Forall (λ y, String.le (Denom x) (Denom y)) a.
Proof.
  intros (Hs & Hn & Hf). rewrite fmap_cons in Hs, Hn.
  apply StronglySorted_cons in Hs as [Hle Hs]. apply NoDup_cons in Hn as [Hx Hn].
  apply Forall_cons in Hf as [Hv Hf]. split_and!; [done|by split_and!|done|].
  rewrite Forall_fmap in Hle. exact Hle.
Qed.

Lemma amt_not_in a d : d ∉ (Denom <$> a) → amt a d = 0.
Proof.
  unfold amt. induction a as [|x a IH]; cbn; [done|]. intros Hn.
  unfold coin_amt at 1. rewrite decide_False by set_solver. rewrite IH by set_solver. done.
Qed.

Lemma amt_cons x a d : amt (x :: a) d = coin_amt d x + amt a d.
Proof. done. Qed.

Lemma amt_elem a x : valid_coins a → x ∈ a → amt a (Denom x) = Amount x.
Proof.
  induction a as [|y a IH]; [set_solver|].
  intros (? & Ha & Hn & _)%valid_coins_cons [->|Hx]%elem_of_cons; rewrite amt_cons.
  - unfold coin_amt. rewrite decide_True by done. rewrite amt_not_in by done. lia.
  - unfold coin_amt. rewrite decide_False, IH; [lia|done|done|].
    intros Heq. apply Hn. rewrite Heq. by apply list_elem_of_fmap_2.
Qed.

Lemma valid_coins_elem a x : valid_coins a → x ∈ a → valid_coin x.
Proof. intros (_ & _ & Hf). by rewrite Forall_forall in Hf; apply Hf. Qed.

Lemma amt_cases a d :
  valid_coins a → amt a d = 0 ∧ d ∉ (Denom <$> a) ∨ ∃ x, x ∈ a ∧ Denom x = d ∧ amt a d = Amount x.
Proof.
  intros Ha. destruct (decide (d ∈ (Denom <$> a))) as [(x & -> & Hx)%list_elem_of_fmap|Hn].
  - right. exists x. split_and!; [done|done|by apply amt_elem].
  - left. split; [by apply amt_not_in|done].
Qed.

Lemma amt_range a d : valid_coins a → 0 ≤ amt a d ≤ max_int.
Proof.
  intros Ha. destruct (amt_cases a d Ha) as [[-> _]|(x & Hx & _ & ->)]; [by vm_compute|].
  destruct (valid_coins_elem a x Ha Hx). lia.
Qed.

Lemma amt_pos_elem a d : valid_coins a → 0 < amt a d → ∃ x, x ∈ a ∧ Denom x = d ∧ amt a d = Amount x.
Proof. intros Ha Hp. destruct (amt_cases a d Ha) as [[E _]|?]; [lia|done]. Qed.

Lemma amt_zero_nil a : valid_coins a → (∀ d, amt a d = 0) → a = [].
Proof.
  destruct a as [|x a]; [done|]. intros Ha Hz. exfalso.
  pose proof (amt_elem _ x Ha ltac:(set_solver)) as He.
  destruct (valid_coins_elem _ x Ha ltac:(set_solver)) as [_ Hp]. rewrite Hz in He. lia.
Qed.

(** A valid coin set is determined by its amounts. *)
Lemma coins_ext a b : valid_coins a → valid_coins b → (∀ d, amt a d = amt b d) → a = b.
Proof.
  intros Ha Hb Heq.
  assert (Hincl : ∀ a b x, valid_coins a → valid_coins b → (∀ d, amt a d = amt b d) → x ∈ a → x ∈ b).
  { clear a b Ha Hb Heq. intros a b x Ha Hb Heq Hx.
    destruct (valid_coins_elem a x Ha Hx) as [_ Hp].
    pose proof (amt_elem a x Ha Hx) as He. rewrite Heq in He.
    destruct (amt_pos_elem b (Denom x) Hb ltac:(lia)) as (y & Hy & Hd & Hv).
    replace x with y; [done|]. destruct x, y; cbn in *. f_equal; [done|lia]. }
  assert (Hp : (Denom <$> a) ≡ₚ (Denom <$> b)).
  { apply NoDup_Permutation; [apply Ha|apply Hb|]. intros d.
    split; intros (x & -> & Hx)%list_elem_of_fmap; apply list_elem_of_fmap_2; eauto. }
  assert (Hd : Denom <$> a = Denom <$> b).
  { apply (StronglySorted_unique String.le); [apply Ha|apply Hb|done]. }
  clear Hp. apply list_eq. intros i.
  assert (Hi : (Denom <$> a) !! i = (Denom <$> b) !! i) by by rewrite Hd.
  rewrite !list_lookup_fmap in Hi.
  destruct (a !! i) as [x|] eqn:Ea, (b !! i) as [y|] eqn:Eb; cbn in Hi; [|done..].
  injection Hi as Hxy. f_equal.
  assert (Hxb : x ∈ b) by (eapply (Hincl a b); eauto using list_elem_of_lookup_2).
  pose proof (amt_elem b x Hb Hxb). pose proof (amt_elem b y Hb (list_elem_of_lookup_2 _ _ _ Eb)).
  destruct x, y; cbn in *; subst. f_equal; lia.
Qed.

Lemma valid_singleton x : valid_coin x → valid_coins [x].
Proof.
  intros. split_and!; cbn.
  - repeat constructor.
  - apply NoDup_singleton.
  - by constructor.
Qed.

Lemma amt_singleton x d : amt [x] d = coin_amt d x.
Proof. unfold amt. cbn. lia. Qed.

End denotation.

Section coins.
Context `{SL : SDKLaws}.
Implicit Types (a b c : Coins) (d : string).

Lemma Coins_Add_ok a b c :
  valid_coins a → valid_coins b → Coins_Add a b = Ok c →
  valid_coins c ∧ ∀ d, amt c d = amt a d + amt b d.
Proof. intros Ha Hb He. pose proof (Coins_Add_spec a b Ha Hb) as Hs. by rewrite He in Hs. Qed.

Lemma Coins_Add_total a b :
  valid_coins a → valid_coins b → (∀ d, amt a d + amt b d ≤ max_int) →
  ∃ c, Coins_Add a b = Ok c ∧ valid_coins c ∧ ∀ d, amt c d = amt a d + amt b d.
Proof.
  intros Ha Hb Hm. pose proof (Coins_Add_spec a b Ha Hb) as Hs.
  destruct (Coins_Add a b) as [c| |]; [eauto|done|].
  destruct Hs as [d Hd]. specialize (Hm d). lia.
Qed.

Lemma Coins_Add_not_err a b e : valid_coins a → valid_coins b → Coins_Add a b ≠ Err e.
Proof. intros Ha Hb He. pose proof (Coins_Add_spec a b Ha Hb) as Hs. by rewrite He in Hs. Qed.

Lemma NewCoin_ok d x (k : Coin) : NewCoin d x = Ok k → k = mkCoin d x ∧ ValidateDenom d = true ∧ 0 ≤ x.
Proof.
  rewrite NewCoin_spec. destruct (ValidateDenom d), (0 <=? x) eqn:?; cbn; intros [=]; subst.
  split_and!; [done..|lia].
Qed.

Lemma NewCoin_total d x : ValidateDenom d = true → 0 ≤ x → NewCoin d x = Ok (mkCoin d x).
Proof. intros Hd Hx. rewrite NewCoin_spec, Hd. destruct (0 <=? x) eqn:?; [done|lia]. Qed.

Lemma int_Mul_ok x y z : int_Mul x y = Ok z → z = x * y ∧ Z.abs z ≤ max_int.
Proof. rewrite int_Mul_spec. destruct (_ <=? _) eqn:?; intros [=]; subst. split; [done|lia]. Qed.

Lemma int_Mul_total x y : Z.abs (x * y) ≤ max_int → int_Mul x y = Ok (x * y).
Proof. intros. rewrite int_Mul_spec. destruct (_ <=? _) eqn:?; [done|lia]. Qed.

Lemma int_Sub_ok x y z : int_Sub x y = Ok z → z = x - y ∧ Z.abs z ≤ max_int.
Proof. rewrite int_Sub_spec. destruct (_ <=? _) eqn:?; intros [=]; subst. split; [done|lia]. Qed.

Lemma int_Sub_total x y : Z.abs (x - y) ≤ max_int → int_Sub x y = Ok (x - y).
Proof. intros. rewrite int_Sub_spec. destruct (_ <=? _) eqn:?; [done|lia]. Qed.
End coins.
