(* ===== verification/SdkRef.v ===== *)
(** * A reference instance of the SDK interface

    [ref_sdk] meets [SDKLaws], so the laws are consistent, and it computes, so the witnesses of
    the theorems evaluate the modules' code on it. Its bech32 accepts upper-case input, as the
    specification of bech32 (BIP-173) asks of decoders. *)

From stdpp Require Import base tactics option list strings gmap sorting fin_maps.
From Stdlib Require Import ZArith Lia Ascii.
From S2P Require Import Prelude Sdk.
Open Scope Z_scope.

Definition ref_denom (d : string) : bool := negb (String.eqb d "").

Fixpoint ref_sorted (l : list string) : bool :=
  match l with
  | x :: l' => forallb (String.leb x) l' && ref_sorted l'
  | [] => true
  end.

Definition ref_coin_ok (c : Coin) : bool :=
  ref_denom (Denom c) && (0 <=? Amount c) && (Amount c <=? max_int).

(** The coin set with amount [f d] for each denom [d] of [ds]. *)
Definition ref_coins (f : string → Z) (ds : list string) : Coins :=
  filter (λ c, Amount c ≠ 0) ((λ d, mkCoin d (f d)) <$> merge_sort String.le (remove_dups ds)).

Definition ref_denoms (cs : Coins) : list string := Denom <$> cs.

Definition ref_combine (f : string → Z) (ds : list string) : res Coins :=
  if forallb (λ d, (0 <=? f d) && (f d <=? max_int)) ds then Ok (ref_coins f ds) else Panic.

Definition ascii_lower (c : ascii) : ascii :=
  let n := nat_of_ascii c in
  if (Nat.leb 65 n && Nat.leb n 90)%bool then ascii_of_nat (n + 32) else c.
Fixpoint str_lower (s : string) : string :=
  match s with EmptyString => EmptyString | String c s' => String (ascii_lower c) (str_lower s') end.

Definition ref_parse (s : string) : option Addr :=
  if String.eqb s "" then None else Some (str_lower s).

Record ref_bank : Type := mkRefBank {
  ref_balances : gmap (Addr * string) Z; ref_accounts : gset Addr; ref_supplies : gmap string Z }.

Definition ref_balance (m : gmap (Addr * string) Z) (a : Addr) (d : string) : Z :=
  Z.max 0 (Z.min max_int (default 0 (m !! (a, d)))).

Definition ref_move (from to : Addr) (m : gmap (Addr * string) Z) (c : Coin)
    : option (gmap (Addr * string) Z) :=
  let d := Denom c in
  if (0 <=? Amount c) && (Amount c <=? ref_balance m from d) then
    let m1 := <[(from, d) := ref_balance m from d - Amount c]> m in
    if ref_balance m1 to d + Amount c <=? max_int
    then Some (<[(to, d) := ref_balance m1 to d + Amount c]> m1) else None
  else None.

Fixpoint ref_moves (from to : Addr) (m : gmap (Addr * string) Z) (cs : Coins)
    : option (gmap (Addr * string) Z) :=
  match cs with
  | [] => Some m
  | c :: cs' => m' ← ref_move from to m c; ref_moves from to m' cs'
  end.

Definition ref_send (b : ref_bank) (from to : Addr) (cs : Coins) : bool * ref_bank :=
  match ref_moves from to (ref_balances b) cs with
  | Some m => (true, mkRefBank m (ref_accounts b ∪ {[ to ]}) (ref_supplies b))
  | None => (false, b)
  end.

Definition ref_module (m : string) : Addr := String.append "module/" m.

Definition ref_send_m (from to : Addr) (cs : Coins) : M ref_bank unit := λ b,
  let '(ok, b') := ref_send b from to cs in (if ok then Ok tt else Err External, b').

(** Credit [sign * cs] to [a]. *)
Fixpoint ref_adjust (sign : Z) (a : Addr) (m : gmap (Addr * string) Z) (cs : Coins)
    : option (gmap (Addr * string) Z) :=
  match cs with
  | [] => Some m
  | c :: cs' =>
      let v := ref_balance m a (Denom c) + sign * Amount c in
      if (0 <=? v) && (v <=? max_int) then ref_adjust sign a (<[(a, Denom c) := v]> m) cs' else None
  end.

Definition ref_total (s : gmap string Z) (d : string) : Z := default 0 (s !! d).

Definition ref_supply (sign : Z) (module : string) (cs : Coins) : M ref_bank unit := λ b,
  match ref_adjust sign (ref_module module) (ref_balances b) cs with
  | Some m =>
      (Ok tt, mkRefBank m (ref_accounts b)
         (foldl (λ s c, <[Denom c := ref_total s (Denom c) + sign * Amount c]> s) (ref_supplies b) cs))
  | None => (Err External, b)
  end.

(** One page by offset, of the values in key order. *)
Definition ref_paginate {V} (m : gmap string V) (r : option PageRequest) : res (list V * PageResponse) :=
  let '(off, lim) := match r with Some r => (Offset r, Limit r) | None => (0, 0) end in
  let ks := drop (Z.to_nat off) (sorted_keys m) in
  let n := Z.to_nat (if lim =? 0 then 100 else lim) in
  Ok (omap (m !!.) (take n ks), mkPageResponse (default ""%string (head (drop n ks))) (llen (sorted_keys m))).

#[export] Instance ref_sdk : SDK := {
  int_Mul a b := if Z.abs (a * b) <=? max_int then Ok (a * b) else Panic;
  int_Sub a b := if Z.abs (a - b) <=? max_int then Ok (a - b) else Panic;
  int_Quo a b := if b =? 0 then Panic else Ok (Z.quot a b);
  int_Mod a b := if b =? 0 then Panic else Ok (a mod b);
  ValidateDenom := ref_denom;
  NewCoin d a := if ref_denom d && (0 <=? a) then Ok (mkCoin d a) else Panic;
  Coin_IsValid := ref_coin_ok;
  NewCoins cs :=
    if bool_decide (NoDup (Denom <$> cs)) && forallb ref_coin_ok cs
    then Ok (ref_coins (amt cs) (ref_denoms cs)) else Panic;
  Coins_Add a b := ref_combine (λ d, amt a d + amt b d) (ref_denoms a ++ ref_denoms b);
  Coins_Sub a b := ref_combine (λ d, amt a d - amt b d) (ref_denoms a ++ ref_denoms b);
  Coins_AmountOf a d := if ref_denom d then Ok (amt a d) else Panic;
  Coins_IsValid a :=
    ref_sorted (Denom <$> a) && bool_decide (NoDup (Denom <$> a)) &&
    forallb (λ c, ref_coin_ok c && (0 <? Amount c)) a;
  Coins_IsZero a := forallb (λ c, Amount c =? 0) a;
  Coins_Equal a b := bool_decide (a = b);
  AccAddressFromBech32 := ref_parse;
  AccAddress_String a := a;
  sha256_Sum256 s := s;
  address_Module m k := str_lower (String.append m (String.append "/" k));
  Bank := ref_bank;
  GetBalance b := ref_balance (ref_balances b);
  GetAllBalances b a :=
    ref_coins (ref_balance (ref_balances b) a)
      (omap (λ kv, if decide (kv.1.1 = a) then Some kv.1.2 else None) (map_to_list (ref_balances b)));
  SendCoins := ref_send;
  GetSupply b := ref_total (ref_supplies b);
  MintCoins := ref_supply 1;
  BurnCoins := ref_supply (-1);
  SendCoinsFromModuleToAccount m to :=
    if String.eqb to (ref_module "distribution") then λ _, err External else ref_send_m (ref_module m) to;
  SendCoinsFromAccountToModule from m := ref_send_m from (ref_module m);
  module_address := ref_module;
  HasAccount b a := bool_decide (a ∈ ref_accounts b);
  SetNewAccount b a := mkRefBank (ref_balances b) (ref_accounts b ∪ {[ a ]}) (ref_supplies b);
  query_DefaultLimit := 100;
  CollectionPaginate V := ref_paginate;
}.

(** ** The laws *)

Lemma ref_sorted_spec l : ref_sorted l = true ↔ StronglySorted String.le l.
Proof.
  induction l as [|x l IH]; cbn; [split; [constructor|done]|].
  rewrite andb_true_iff, IH, StronglySorted_cons, forallb_forall, Forall_forall.
  assert (Hiff : (∀ y, In y l → String.leb x y = true) ↔ (∀ y, y ∈ l → String.le x y)); [|tauto].
  split; intros Hl y Hy; apply Is_true_true, Hl, list_elem_of_In, Hy.
Qed.

Lemma ref_coin_ok_spec c :
  ref_coin_ok c = true ↔ ref_denom (Denom c) = true ∧ 0 ≤ Amount c ≤ max_int.
Proof. unfold ref_coin_ok. rewrite !andb_true_iff, !Z.leb_le. tauto. Qed.

Lemma StronglySorted_filter_fmap (P : Coin → Prop) `{∀ x, Decision (P x)} l :
  StronglySorted String.le (Denom <$> l) → StronglySorted String.le (Denom <$> filter P l).
Proof.
  induction l as [|x l IH]; [done|]. rewrite fmap_cons, StronglySorted_cons. intros [Hx Hl].
  rewrite filter_cons. case_decide; [|by apply IH].
  rewrite fmap_cons, StronglySorted_cons. split; [|by apply IH].
  rewrite Forall_fmap, Forall_forall in *. intros y [_ Hy]%list_elem_of_filter. by apply Hx.
Qed.

Lemma amt_filter_nonzero (l : Coins) d : amt (filter (λ c, Amount c ≠ 0) l) d = amt l d.
Proof.
  induction l as [|x l IH]; [done|]. rewrite filter_cons, amt_cons.
  case_decide; [by rewrite amt_cons, IH|]. rewrite IH. unfold coin_amt. case_decide; lia.
Qed.

Lemma amt_fmap_mk (f : string → Z) l d :
  NoDup l → amt ((λ d, mkCoin d (f d)) <$> l) d = if decide (d ∈ l) then f d else 0.
Proof.
  induction 1 as [|x l Hx Hl IH]; [by rewrite decide_False by set_solver|].
  rewrite fmap_cons, amt_cons, IH. unfold coin_amt; cbn. destruct (decide (x = d)) as [->|Hne].
  - rewrite decide_False by done. rewrite decide_True by set_solver. lia.
  - destruct (decide (d ∈ l)); [rewrite decide_True by set_solver|rewrite decide_False by set_solver]; lia.
Qed.

Lemma ref_coins_spec (f : string → Z) ds :
  (∀ d, d ∈ ds → 0 ≤ f d ≤ max_int ∧ (f d ≠ 0 → ref_denom d = true)) →
  (∀ d, d ∉ ds → f d = 0) →
  valid_coins (ref_coins f ds) ∧ ∀ d, amt (ref_coins f ds) d = f d.
Proof.
  intros Hr Hz. unfold ref_coins. set (l := merge_sort String.le (remove_dups ds)).
  assert (Hp : l ≡ₚ remove_dups ds) by apply merge_sort_Permutation.
  assert (Hn : NoDup l) by (rewrite Hp; apply NoDup_remove_dups).
  assert (Hin : ∀ d, d ∈ l ↔ d ∈ ds) by (intros; by rewrite Hp, elem_of_remove_dups).
  assert (Hd : (Denom <$> ((λ d, mkCoin d (f d)) <$> l)) = l).
  { rewrite <- list_fmap_compose. apply list_fmap_id. }
  split; [split_and!|].
  - apply StronglySorted_filter_fmap. rewrite Hd. apply StronglySorted_merge_sort; apply _.
  - eapply sublist_NoDup; [|apply fmap_sublist; apply sublist_filter]. by rewrite Hd.
  - apply Forall_forall. intros c [Hc (d & -> & Hdl)%list_elem_of_fmap]%list_elem_of_filter.
    apply Hin in Hdl. destruct (Hr d Hdl). cbn in *. split; cbn; [by auto|lia].
  - intros d. rewrite amt_filter_nonzero, amt_fmap_mk by done.
    case_decide as Hc; [done|]. symmetry. apply Hz. by rewrite <- Hin.
Qed.

Lemma ref_combine_spec f ds :
  (∀ d, f d ≠ 0 → ref_denom d = true) → (∀ d, d ∉ ds → f d = 0) →
  match ref_combine f ds with
  | Ok c => valid_coins c ∧ ∀ d, amt c d = f d
  | Err _ => False
  | Panic => ∃ d, f d < 0 ∨ max_int < f d
  end.
Proof.
  intros Hv Hz. unfold ref_combine. destruct (forallb _ _) eqn:E.
  - apply ref_coins_spec; [|done]. intros d Hd. rewrite forallb_forall in E.
    specialize (E d ltac:(by apply list_elem_of_In)). split; [lia|auto].
  - assert (Hn : ¬ Forall (λ d, (0 <=? f d) && (f d <=? max_int) = true) ds).
    { intros Hf. apply not_true_iff_false in E. apply E, forallb_forall.
      intros d Hd. rewrite Forall_forall in Hf. by apply Hf, list_elem_of_In. }
    apply not_Forall_Exists, Exists_exists in Hn as (d & _ & Hd); [|intros ?; apply _].
    exists d. unfold compose in Hd. lia.
Qed.

Lemma amt_nonzero_denom (a : Coins) d : valid_coins a → amt a d ≠ 0 → ref_denom d = true.
Proof.
  intros Ha Hne. destruct (amt_cases a d Ha) as [[? _]|(x & Hx & <- & _)]; [lia|].
  apply (valid_coins_elem a x Ha Hx).
Qed.

Lemma ref_balance_range m a d : 0 ≤ ref_balance m a d ≤ max_int.
Proof. unfold ref_balance. pose proof (eq_refl : (0 <=? max_int) = true). lia. Qed.

Lemma ref_balance_insert m a d v a' d' :
  0 ≤ v ≤ max_int →
  ref_balance (<[(a, d) := v]> m) a' d' = if decide (a = a' ∧ d = d') then v else ref_balance m a' d'.
Proof.
  intros Hv. unfold ref_balance. case_decide as Hd.
  - destruct Hd as [-> ->]. rewrite lookup_insert_eq. cbn. lia.
  - rewrite lookup_insert_ne; [done|]. intros [= -> ->]. tauto.
Qed.

Lemma ref_move_spec from to m c m' a d :
  ref_move from to m c = Some m' →
  ref_balance m' a d = ref_balance m a d - (if decide (a = from) then coin_amt d c else 0)
                                         + (if decide (a = to) then coin_amt d c else 0).
Proof.
  unfold ref_move, coin_amt. destruct (_ && _) eqn:E1; [|done].
  apply andb_true_iff in E1 as [E0 E1]. destruct (_ <=? max_int) eqn:E2; [|done]. intros [= <-].
  pose proof (ref_balance_range m from (Denom c)).
  pose proof (ref_balance_range (<[(from, Denom c) := ref_balance m from (Denom c) - Amount c]> m) to (Denom c)).
  rewrite !ref_balance_insert by lia.
  repeat case_decide; destruct_and?; subst; try lia; try tauto.
Qed.

Lemma ref_moves_spec from to cs m m' a d :
  ref_moves from to m cs = Some m' →
  ref_balance m' a d = ref_balance m a d - (if decide (a = from) then amt cs d else 0)
                                         + (if decide (a = to) then amt cs d else 0).
Proof.
  revert m. induction cs as [|c cs IH]; intros m; cbn [ref_moves].
  - intros [= ->]. repeat case_decide; cbn; lia.
  - intros (m1 & Hm & Hr)%bind_Some. rewrite (IH m1 Hr), (ref_move_spec _ _ _ _ _ _ _ Hm), amt_cons.
    repeat case_decide; lia.
Qed.

Lemma ref_send_m_spec from to cs b b' a d :
  ref_send_m from to cs b = (Ok tt, b') →
  ref_total (ref_supplies b') d = ref_total (ref_supplies b) d ∧
  ref_balance (ref_balances b') a d =
    ref_balance (ref_balances b) a d - (if decide (a = from) then amt cs d else 0)
                                     + (if decide (a = to) then amt cs d else 0).
Proof.
  unfold ref_send_m, ref_send. destruct (ref_moves _ _ _ _) eqn:E; [|done].
  intros [= <-]. split; [done|]. by apply ref_moves_spec.
Qed.

Lemma ref_adjust_spec sign a cs m m' a' d :
  ref_adjust sign a m cs = Some m' →
  ref_balance m' a' d = ref_balance m a' d + (if decide (a' = a) then sign * amt cs d else 0).
Proof.
  revert m. induction cs as [|c cs IH]; intros m; cbn [ref_adjust].
  - intros [= ->]. case_decide; cbn; lia.
  - destruct (_ && _) eqn:E; [|done]. intros Hr. rewrite (IH _ Hr), ref_balance_insert, amt_cons by lia.
    unfold coin_amt. repeat case_decide; destruct_and?; subst; try tauto; lia.
Qed.

Lemma ref_supplies_spec sign cs s d :
  ref_total (foldl (λ s c, <[Denom c := ref_total s (Denom c) + sign * Amount c]> s) s cs) d =
  ref_total s d + sign * amt cs d.
Proof.
  revert s. induction cs as [|c cs IH]; intros s; cbn [foldl]; [cbn; lia|].
  rewrite IH, amt_cons. unfold ref_total at 1, coin_amt. destruct (decide (Denom c = d)) as [<-|Hne].
  - rewrite lookup_insert_eq. cbn. lia.
  - rewrite lookup_insert_ne by done. unfold ref_total. lia.
Qed.

Lemma ref_supply_spec sign m cs b b' a d :
  ref_supply sign m cs b = (Ok tt, b') →
  ref_total (ref_supplies b') d = ref_total (ref_supplies b) d + sign * amt cs d ∧
  ref_balance (ref_balances b') a d =
    ref_balance (ref_balances b) a d + (if decide (a = ref_module m) then sign * amt cs d else 0).
Proof.
  unfold ref_supply. destruct (ref_adjust _ _ _ _) eqn:E; [|done]. intros [= <-]. cbn [ref_supplies ref_balances].
  split; [apply ref_supplies_spec|by apply ref_adjust_spec].
Qed.

Lemma ref_paginate_sound {V} (m : gmap string V) r vs p v :
  ref_paginate m r = Ok (vs, p) → v ∈ vs → ∃ k, m !! k = Some v.
Proof.
  unfold ref_paginate. destruct r; cbn; intros [= <- _]; rewrite list_elem_of_omap; naive_solver.
Qed.

Lemma ascii_lower_idemp c : ascii_lower (ascii_lower c) = ascii_lower c.
Proof. destruct c as [[] [] [] [] [] [] [] []]; reflexivity. Qed.

Lemma str_lower_idemp s : str_lower (str_lower s) = str_lower s.
Proof. induction s as [|c s IH]; cbn; [done|]. by rewrite ascii_lower_idemp, IH. Qed.

Lemma ref_amt_range (cs : Coins) c :
  NoDup (Denom <$> cs) → Forall (λ c, ref_coin_ok c = true) cs → c ∈ cs →
  0 ≤ amt cs (Denom c) ≤ max_int ∧ ref_denom (Denom c) = true.
Proof.
  induction cs as [|x cs IH]; [set_solver|].
  intros [Hx Hn]%NoDup_cons [Hox Hf]%Forall_cons Hc. apply ref_coin_ok_spec in Hox as [Hdx Hox].
  rewrite amt_cons. unfold coin_amt. case_decide as Hd.
  - rewrite amt_not_in by (by rewrite <- Hd). rewrite <- Hd. split; [lia|done].
  - apply elem_of_cons in Hc as [->|Hc]; [done|]. by apply IH.
Qed.

Lemma ref_NewCoins_spec (cs : Coins) :
  NoDup (Denom <$> cs) → Forall (λ c, ref_coin_ok c = true) cs →
  ∃ cs', NewCoins cs = Ok cs' ∧ valid_coins cs' ∧ ∀ d, amt cs' d = amt cs d.
Proof.
  intros Hn Hf. exists (ref_coins (amt cs) (ref_denoms cs)). split.
  - cbn. rewrite bool_decide_true by done. rewrite (proj2 (forallb_forall _ _)); [done|].
    intros c Hc%list_elem_of_In. rewrite Forall_forall in Hf. by apply Hf.
  - apply ref_coins_spec; [|apply amt_not_in].
    intros d (c & -> & Hc)%list_elem_of_fmap. by destruct (ref_amt_range cs c Hn Hf Hc).
Qed.

Lemma ref_op_spec (op : Z → Z → Z) (a b : Coins) :
  op 0 0 = 0 → valid_coins a → valid_coins b →
  match ref_combine (λ d, op (amt a d) (amt b d)) (ref_denoms a ++ ref_denoms b) with
  | Ok c => valid_coins c ∧ ∀ d, amt c d = op (amt a d) (amt b d)
  | Err _ => False
  | Panic => ∃ d, op (amt a d) (amt b d) < 0 ∨ max_int < op (amt a d) (amt b d)
  end.
Proof.
  intros Hop Ha Hb. apply ref_combine_spec.
  - intros d Hd. destruct (decide (amt a d = 0)) as [E1|]; [|by apply (amt_nonzero_denom a)].
    destruct (decide (amt b d = 0)) as [E2|]; [|by apply (amt_nonzero_denom b)].
    by rewrite E1, E2 in Hd.
  - intros d Hd. rewrite !amt_not_in by (unfold ref_denoms in Hd; set_solver). done.
Qed.

Lemma ref_IsValid_spec (a : Coins) : Coins_IsValid a = true ↔ valid_coins a.
Proof.
  cbn -[max_int]. rewrite !andb_true_iff, ref_sorted_spec, bool_decide_eq_true, forallb_forall.
  unfold valid_coins. rewrite Forall_forall.
  assert (Hiff : (∀ c, In c a → ref_coin_ok c && (0 <? Amount c) = true) ↔ (∀ c, c ∈ a → valid_coin c));
    [|tauto].
  unfold valid_coin; cbn -[max_int].
  split; intros Hl c Hc; apply list_elem_of_In in Hc; specialize (Hl c Hc);
    [apply andb_true_iff in Hl as [[??]%ref_coin_ok_spec ?]|apply andb_true_iff; rewrite ref_coin_ok_spec];
    intuition lia.
Qed.

#[export] Instance ref_laws : SDKLaws ref_sdk.
Proof.
  constructor.
  - done.
  - done.
  - intros a b ??; cbn. destruct (b =? 0) eqn:?; [lia|]. by rewrite Z.quot_div_nonneg by lia.
  - intros a b ??; cbn. destruct (b =? 0) eqn:?; [lia|done].
  - done.
  - intros c. apply ref_coin_ok_spec.
  - apply ref_NewCoins_spec.
  - intros a b Ha Hb. pose proof (ref_op_spec Z.add a b eq_refl Ha Hb) as Hs. cbn -[max_int].
    destruct (ref_combine _ _); [done..|]. destruct Hs as [d [Hd|Hd]]; [|by exists d].
    pose proof (amt_range a d Ha). pose proof (amt_range b d Hb). lia.
  - intros a b Ha Hb. pose proof (ref_op_spec Z.sub a b eq_refl Ha Hb) as Hs. cbn -[max_int].
    destruct (ref_combine _ _); [done..|]. destruct Hs as [d Hd]. exists d.
    pose proof (amt_range a d Ha). pose proof (amt_range b d Hb). lia.
  - intros a d _ Hd. cbn in *. by rewrite Hd.
  - apply ref_IsValid_spec.
  - intros a (_ & _ & Hf). cbn. split; [|by intros ->].
    destruct a as [|c a]; [done|]. apply Forall_cons in Hf as [[_ Hc] _]. cbn. lia.
  - intros a b _ _. apply bool_decide_eq_true.
  - done.
  - intros m k. cbn. unfold ref_parse. rewrite str_lower_idemp. destruct m; done.
  - intros s a. cbn. unfold ref_parse. destruct s; [done|]. cbn. intros [= <-]. cbn.
    by rewrite ascii_lower_idemp, str_lower_idemp.
  - intros. apply ref_balance_range.
  - intros b from to cs b' a d _. cbn. unfold ref_send. destruct (ref_moves _ _ _ _) eqn:E; [|done].
    intros [= <-]. cbn. by apply ref_moves_spec.
  - done.
  - intros m cs b b' a d _ E. cbn in E. destruct (ref_supply_spec _ _ _ _ _ a d E) as [Hs Hb].
    cbn -[amt ref_balance]. rewrite Hs, Hb. case_decide; lia.
  - intros m cs b b' a d _ E. cbn in E. destruct (ref_supply_spec _ _ _ _ _ a d E) as [Hs Hb].
    cbn -[amt ref_balance]. rewrite Hs, Hb. case_decide; lia.
  - intros m to cs b b' a d _ E. cbn in E. destruct (String.eqb _ _); [done|]. by apply ref_send_m_spec.
  - intros from m cs b b' a d _ E. by apply (ref_send_m_spec from (ref_module m)).
  - done.
  - intros V. apply ref_paginate_sound.
Qed.
