(* ===== verification/Manifest.v ===== *)
(** * The manifest module (src/x/manifest)

    Minting payouts and burning held coins, both for the module's authority only. The module keeps
    no state of its own (its genesis is empty), so its handlers act on the bank. *)

From stdpp Require Import base tactics option list strings gmap.
From Stdlib Require Import ZArith Lia.
From S2P Require Import Prelude Sdk SdkRef.
Open Scope Z_scope.

Definition manifest_ModuleName : string := "manifest".

Record PayoutPair : Type := mkPayoutPair { pp_Address : string; pp_Coin : Coin }.
Record MsgPayout : Type := mkMsgPayout { mp_Authority : string; mp_PayoutPairs : list PayoutPair }.
Record MsgBurnHeldBalance : Type := mkMsgBurnHeldBalance { mb_Authority : string; mb_BurnCoins : list Coin }.

Section manifest.
Context `{SDK} (authority : string).

(** ** Messages (types/msgs.go) *)

(** The loop over the pairs; [dupCheck] holds the addresses seen. *)
Fixpoint validate_pairs (dupCheck : list string) (pairs : list PayoutPair) : res unit :=
  match pairs with
  | [] => Ok tt
  | p :: pairs' =>
      check_address (pp_Address p) External;;
      check (Coin_IsZero (pp_Coin p)) Plain;;
      check (negb (Coin_IsValid (pp_Coin p))) External;;
      check (bool_decide (pp_Address p ∈ dupCheck)) Plain;;
      validate_pairs (dupCheck ++ [pp_Address p]) pairs'
  end.

Definition MsgPayout_Validate (msg : MsgPayout) : res unit :=
  check_address (mp_Authority msg) External;;
  check (llen (mp_PayoutPairs msg) =? 0) Plain;;
  validate_pairs [] (mp_PayoutPairs msg).

Definition MsgBurnHeldBalance_Validate (msg : MsgBurnHeldBalance) : res unit :=
  check_address (mb_Authority msg) External;;
  check (llen (mb_BurnCoins msg) =? 0) Plain;;
  check (negb (Coins_IsValid (mb_BurnCoins msg))) External.

(** ** Keeper (keeper/keeper.go) *)

Definition mintCoinsToAccount (sdkAddr : Addr) (coin : Coin) : M Bank unit :=
  coins ← lift (NewCoins [coin]);
  MintCoins manifest_ModuleName coins;;
  SendCoinsFromModuleToAccount manifest_ModuleName sdkAddr coins.

Definition payout_pair (p : PayoutPair) : M Bank unit :=
  sdkAddr ← lift (parse_address (pp_Address p));
  lift (check (negb (Coin_IsValid (pp_Coin p))) Plain);;
  mintCoinsToAccount sdkAddr (pp_Coin p).

Definition keeper_Payout (payouts : list PayoutPair) : M Bank unit :=
  foldlM (λ _ p, payout_pair p) tt payouts.

(** ** Message server (keeper/msg_server.go) *)

Definition Payout (req : MsgPayout) : M Bank unit :=
  lift (check (negb (String.eqb authority (mp_Authority req))) Plain);;
  lift (MsgPayout_Validate req);;
  keeper_Payout (mp_PayoutPairs req).

Definition BurnHeldBalance (req : MsgBurnHeldBalance) : M Bank unit :=
  lift (check (negb (String.eqb authority (mb_Authority req))) Plain);;
  lift (MsgBurnHeldBalance_Validate req);;
  addr ← lift (parse_address (mb_Authority req));
  SendCoinsFromAccountToModule addr manifest_ModuleName (mb_BurnCoins req);;
  BurnCoins manifest_ModuleName (mb_BurnCoins req).
End manifest.

(** ** What the messages do *)

Section manifest_effect.
Context `{SL : SDKLaws} (authority : string).
Implicit Types (b : Bank) (a : Addr) (d : string) (pairs : list PayoutPair).

(** What one pair, and a list of pairs, pays to [a]. *)
Definition pair_pays a d (p : PayoutPair) : Z :=
  if decide (AccAddressFromBech32 (pp_Address p) = Some a) then coin_amt d (pp_Coin p) else 0.
Definition paid_to a d pairs : Z := lsum (pair_pays a d) pairs.
Definition total_paid d pairs : Z := lsum (λ p, coin_amt d (pp_Coin p)) pairs.

Definition pair_ok (p : PayoutPair) : Prop :=
  is_Some (AccAddressFromBech32 (pp_Address p)) ∧ valid_coin (pp_Coin p).

Lemma validate_pairs_iff seen pairs :
  validate_pairs seen pairs = Ok tt ↔
  Forall pair_ok pairs ∧ NoDup (pp_Address <$> pairs) ∧ Forall (λ p, pp_Address p ∉ seen) pairs.
Proof.
  revert seen. induction pairs as [|p pairs IH]; intros seen; cbn [validate_pairs].
  { split; [|done]. intros _. split_and!; constructor. }
  unfold check_address. rewrite fmap_cons, NoDup_cons, !Forall_cons. unfold pair_ok at 1, valid_coin.
  destruct (AccAddressFromBech32 (pp_Address p)) as [a|]; cbn -[check mbind]; [|split; [done|intros [[[[? [=]] _] _] _]]].
  rewrite ok_bind, !check_bind. unfold Coin_IsZero.
  assert (Hseen : Forall (λ q, pp_Address q ∉ seen ++ [pp_Address p]) pairs ↔
    Forall (λ q, pp_Address q ∉ seen) pairs ∧ pp_Address p ∉ pp_Address <$> pairs).
  { rewrite !Forall_forall, list_elem_of_fmap. set_solver. }
  assert (Hv : Coin_IsValid (pp_Coin p) = true ∧ Amount (pp_Coin p) ≠ 0 ↔
    ValidateDenom (Denom (pp_Coin p)) = true ∧ 0 < Amount (pp_Coin p) ≤ max_int).
  { rewrite Coin_IsValid_spec. split; [intros [[? ?] ?]|intros [? ?]]; split_and!; try done; lia. }
  destruct (Z.eqb_spec (Amount (pp_Coin p)) 0); [naive_solver|].
  destruct (Coin_IsValid (pp_Coin p)); cbn [negb]; [|naive_solver].
  case_bool_decide; [naive_solver|]. rewrite IH, Hseen. naive_solver.
Qed.

Lemma payout_pair_effect p b b' :
  payout_pair p b = (Ok tt, b') → pair_ok p →
  ∀ d, GetSupply b' d = GetSupply b d + coin_amt d (pp_Coin p) ∧
       ∀ a, GetBalance b' a d = GetBalance b a d + pair_pays a d p.
Proof.
  intros E [[x Ht] Hc] d. unfold payout_pair, mintCoinsToAccount, parse_address in E. rewrite Ht in E. run_inv. destruct_units.
  match type of Ht with _ = Some ?x => rename x into t end.
  match goal with H : NewCoins _ = Ok ?cs, H1 : MintCoins _ _ _ = _, H2 : SendCoinsFromModuleToAccount _ _ _ _ = _ |- _ =>
    rename H into Hn; rename H1 into Hm; rename H2 into Hs; rename cs into coins end.
  destruct (NewCoins_spec [pp_Coin p]) as (cs & Hn' & Hv & Hamt).
  { apply NoDup_singleton. }
  { constructor; [|done]. apply Coin_IsValid_spec. destruct Hc. split; [done|lia]. }
  rewrite Hn in Hn'. injection Hn' as <-. specialize (Hamt d). rewrite amt_singleton in Hamt.
  assert (Hb : ∀ a, GetSupply b' d = GetSupply b d + coin_amt d (pp_Coin p) ∧
                    GetBalance b' a d = GetBalance b a d + pair_pays a d p).
  { intros a. destruct (MintCoins_spec _ _ _ _ a d Hv Hm), (SendCoinsFromModuleToAccount_spec _ _ _ _ _ a d Hv Hs).
    unfold pair_pays. rewrite Ht. split; [lia|].
    destruct (decide (Some t = Some a)), (decide (a = t)), (decide (a = module_address _)); simplify_eq; lia. }
  split; [apply (Hb t)|apply Hb].
Qed.

Lemma keeper_Payout_effect pairs b b' :
  keeper_Payout pairs b = (Ok tt, b') → Forall pair_ok pairs →
  ∀ d, GetSupply b' d = GetSupply b d + total_paid d pairs ∧
       ∀ a, GetBalance b' a d = GetBalance b a d + paid_to a d pairs.
Proof.
  unfold keeper_Payout, total_paid, paid_to. intros E Hp d. revert b E.
  induction Hp as [|p pairs Hpair _ IH]; intros b E; cbn [foldlM lsum] in *.
  { run_inv. split; [lia|]. intros a. lia. }
  run_inv. destruct_units. match goal with H : payout_pair _ _ = _ |- _ => destruct (payout_pair_effect _ _ _ H Hpair d) as [Hs Hb] end.
  match goal with H : foldlM _ _ _ _ = _ |- _ => destruct (IH _ H) as [Hs' Hb'] end.
  split; [lia|]. intros a. rewrite Hb', Hb. lia.
Qed.

(** C35 (functional): a payout succeeds only for the authority and a non-empty list of distinct
    address strings with positive, valid coins; it then adds to each account exactly what the pairs
    name for it and to the supply exactly the sum, so nothing stays in the module account, and no
    other balance changes. *)
Theorem payout_exact req b b' :
  Payout authority req b = (Ok tt, b') →
  (mp_Authority req = authority ∧ mp_PayoutPairs req ≠ [] ∧
   Forall pair_ok (mp_PayoutPairs req) ∧ NoDup (pp_Address <$> mp_PayoutPairs req)) ∧
  ∀ d, GetSupply b' d = GetSupply b d + total_paid d (mp_PayoutPairs req) ∧
       ∀ a, GetBalance b' a d = GetBalance b a d + paid_to a d (mp_PayoutPairs req).
Proof.
  unfold Payout, MsgPayout_Validate. intros E. checks_inv. destruct_units.
  match goal with H : validate_pairs _ _ = _ |- _ => apply validate_pairs_iff in H as (Hok & Hnd & _) end.
  match goal with H : negb (String.eqb _ _) = false |- _ => apply negb_false_iff, String.eqb_eq in H end.
  match goal with H : (_ =? 0) = false |- _ => apply Z.eqb_neq in H; rename H into Hne end.
  split_and!; [done| |done|done|by apply keeper_Payout_effect]. intros Hnil. by rewrite Hnil in Hne.
Qed.

(** Burning succeeds only for the authority and a non-empty valid set of coins; it
    takes exactly these coins from the authority's account and from the supply, and no other balance,
    the module account's included, changes. *)
Theorem burn_exact req b b' :
  BurnHeldBalance authority req b = (Ok tt, b') →
  ∃ t, AccAddressFromBech32 authority = Some t ∧ mb_Authority req = authority ∧
    mb_BurnCoins req ≠ [] ∧ valid_coins (mb_BurnCoins req) ∧
    ∀ d, GetSupply b' d = GetSupply b d - amt (mb_BurnCoins req) d ∧
         ∀ a, GetBalance b' a d = GetBalance b a d - (if decide (a = t) then amt (mb_BurnCoins req) d else 0).
Proof.
  unfold BurnHeldBalance, MsgBurnHeldBalance_Validate, parse_address. intros E. checks_inv. destruct_units.
  match goal with H : negb (String.eqb _ _) = false |- _ => apply negb_false_iff, String.eqb_eq in H; rename H into Ha end.
  match goal with H : (_ =? 0) = false |- _ => apply Z.eqb_neq in H; rename H into Hne end.
  match goal with H : negb (Coins_IsValid _) = false |- _ => apply negb_false_iff, Coins_IsValid_spec in H; rename H into Hv end.
  rewrite <- Ha in *. destruct (AccAddressFromBech32 authority) as [t|]; [|done]. run_inv.
  match goal with |- ∃ x, Some ?t = Some x ∧ _ => rename t into addr end.
  exists addr. split_and!; [done|done|intros Hnil; by rewrite Hnil in Hne|done|]. intros d.
  match goal with H1 : SendCoinsFromAccountToModule _ _ _ _ = _, H2 : BurnCoins _ _ _ = _ |- _ =>
    pose proof (λ a, SendCoinsFromAccountToModule_spec _ _ _ _ _ a d Hv H1) as Hs;
    pose proof (λ a, BurnCoins_spec _ _ _ _ a d Hv H2) as Hb end.
  split; [destruct (Hs addr), (Hb addr); lia|]. intros a. destruct (Hs a), (Hb a).
  destruct (decide (a = addr)), (decide (a = module_address _)); lia.
Qed.

Lemma validate_pairs_not_panic seen pairs : validate_pairs seen pairs ≠ Panic.
Proof.
  revert seen. induction pairs as [|p pairs IH]; intros seen; [done|].
  cbn [validate_pairs]. unfold check_address. destruct (AccAddressFromBech32 _); [|done]. rewrite ok_bind, !check_bind.
  repeat (destruct (_ : bool); [done|]). apply IH.
Qed.

Lemma MsgPayout_Validate_not_panic req : MsgPayout_Validate req ≠ Panic.
Proof.
  unfold MsgPayout_Validate, check_address. destruct (AccAddressFromBech32 _); [|done]. rewrite ok_bind, check_bind.
  destruct (_ =? 0); [done|]. apply validate_pairs_not_panic.
Qed.

(** A payout or a burn by anyone but the authority, or one that does not validate, is an
    error and leaves every balance and the supply as they were. *)
Lemma manifest_unauthorized_rejected :
  (∀ req b, mp_Authority req ≠ authority ∨ MsgPayout_Validate req ≠ Ok tt →
     ∃ e, Payout authority req b = (Err e, b)) ∧
  (∀ req b, mb_Authority req ≠ authority ∨ MsgBurnHeldBalance_Validate req ≠ Ok tt →
     ∃ e, BurnHeldBalance authority req b = (Err e, b)).
Proof.
  split; intros req b Hr; unfold Payout, BurnHeldBalance.
  - destruct (String.eqb_spec authority (mp_Authority req)) as [->|]; [|by eexists]. destruct Hr as [?|Hr]; [done|].
    pose proof (MsgPayout_Validate_not_panic req). unfold mbind, M_bind, lift. cbn [negb check].
    destruct (MsgPayout_Validate req) as [[]|e|]; [done|by exists e|done].
  - destruct (String.eqb_spec authority (mb_Authority req)) as [->|]; [|by eexists]. destruct Hr as [?|Hr]; [done|].
    unfold mbind, M_bind, lift. cbn [negb check].
    destruct (MsgBurnHeldBalance_Validate req) as [[]|e|] eqn:E; [done|by exists e|].
    unfold MsgBurnHeldBalance_Validate, check_address in E.
    destruct (AccAddressFromBech32 _); cbn -[check] in E; [|done]. rewrite ?check_bind in E. unfold check in E.
    by repeat case_match.
Qed.
End manifest_effect.

(** ** Witnesses *)

Definition payout_bank : @Bank ref_sdk := mkRefBank {[("gov"%string, "umfx"%string) := 100]} ∅ {["umfx"%string := 100]}.
Definition payout_demo : MsgPayout :=
  mkMsgPayout "gov" [mkPayoutPair "alice" (mkCoin "umfx" 30); mkPayoutPair "bob" (mkCoin "umfx" 12)].
Definition burn_demo : MsgBurnHeldBalance := mkMsgBurnHeldBalance "gov" [mkCoin "umfx" 40].

Lemma payout_exact_witness :
  GetSupply (Payout "gov" payout_demo payout_bank).2 "umfx" = 142 ∧
  GetBalance (Payout "gov" payout_demo payout_bank).2 "alice"%string "umfx" = 30.
Proof.
  destruct (payout_exact "gov" payout_demo payout_bank (Payout "gov" payout_demo payout_bank).2) as [_ Hd]; [run_by_eval|].
  destruct (Hd "umfx"%string) as [Hs Hb]. rewrite Hs, Hb. split; vm_compute; reflexivity.
Defined.

Lemma burn_exact_witness :
  GetSupply (BurnHeldBalance "gov" burn_demo payout_bank).2 "umfx" = 60.
Proof.
  destruct (burn_exact "gov" burn_demo payout_bank (BurnHeldBalance "gov" burn_demo payout_bank).2)
    as (t & _ & _ & _ & _ & Hd); [run_by_eval|].
  destruct (Hd "umfx"%string) as [Hs _]. rewrite Hs. vm_compute. reflexivity.
Defined.

(** Distinct address strings need not be distinct accounts. The duplicate check compares
    spellings, so a message that names one account in lower and in upper case passes and pays it twice. *)
Theorem payout_alias_pays_twice :
  let req := mkMsgPayout "gov" [mkPayoutPair "alice" (mkCoin "umfx" 30); mkPayoutPair "ALICE" (mkCoin "umfx" 30)] in
  MsgPayout_Validate req = Ok tt ∧ (Payout "gov" req payout_bank).1 = Ok tt ∧
  GetBalance (Payout "gov" req payout_bank).2 "alice"%string "umfx" = 60.
Proof. split_and!; vm_compute; reflexivity. Qed.
