(* ===== verification/MsgFilter.v ===== *)
(** * The message filter (src/app/decorators/msg_filter.go)

    The ante decorator that refuses transactions with messages of blocked types, also inside
    authz's MsgExec, however deep. *)

From stdpp Require Import base tactics option list strings sets.
From Stdlib Require Import ZArith Lia.
From S2P Require Import Prelude.

(** A message of a transaction: an authz.MsgExec with what [GetMessages] returns ([None] is its
    error), or any other with the name [proto.MessageName] gives it. *)
Inductive Msg : Type :=
  | MsgExec (messages : option (list Msg))
  | OtherMsg (name : string).

Definition exec_name : string := "cosmos.authz.v1beta1.MsgExec".
Definition MessageName (m : Msg) : string := match m with MsgExec _ => exec_name | OtherMsg n => n end.

Record MsgFilterDecorator : Type := mkMsgFilterDecorator { blockedTypes : list Msg }.

Definition FilterDecorator (blockedMsgTypes : list Msg) : MsgFilterDecorator := mkMsgFilterDecorator blockedMsgTypes.

Section filter.
Context (mfd : MsgFilterDecorator).

Definition is_blocked (m : Msg) : bool :=
  existsb (λ blockedType, String.eqb (MessageName m) (MessageName blockedType)) (blockedTypes mfd).

(** The body of the loop for one message, with the recursive call on the nested ones. *)
Fixpoint disallowed (m : Msg) : bool :=
  match m with
  | MsgExec None => true
  | MsgExec (Some msgs) => if existsb disallowed msgs then true else is_blocked m
  | OtherMsg _ => is_blocked m
  end.

Definition HasDisallowedMessage (msgs : list Msg) : bool := existsb disallowed msgs.

(** [next] is the rest of the ante chain. *)
Definition AnteHandle {Ctx : Type} (next : Ctx → list Msg → res Ctx) (ctx : Ctx) (tx : list Msg) : res Ctx :=
  if HasDisallowedMessage tx then Err Plain else next ctx tx.

(** ** What is refused *)

(** [m] is one of [msgs] or nested in one of them at some depth. *)
Inductive occurs (m : Msg) : list Msg → Prop :=
  | occurs_here msgs : m ∈ msgs → occurs m msgs
  | occurs_nested inner msgs : MsgExec (Some inner) ∈ msgs → occurs m inner → occurs m msgs.

Definition refused (m : Msg) : Prop :=
  m = MsgExec None ∨ ∃ t, t ∈ blockedTypes mfd ∧ MessageName t = MessageName m.

Lemma is_blocked_spec m : is_blocked m = true ↔ ∃ t, t ∈ blockedTypes mfd ∧ MessageName t = MessageName m.
Proof.
  unfold is_blocked. rewrite existsb_exists. setoid_rewrite <- list_elem_of_In. setoid_rewrite String.eqb_eq.
  split; intros (t & ? & ?); exists t; done.
Qed.

Lemma disallowed_occurs (m : Msg) : disallowed m = true → ∃ x, refused x ∧ occurs x [m].
Proof.
  revert m. fix IH 1. intros [[msgs|]|n]; cbn [disallowed].
  - destruct (existsb disallowed msgs) eqn:E.
    + intros _. assert (Hx : ∃ x, refused x ∧ occurs x msgs).
      { revert E. induction msgs as [|m msgs IHl]; cbn [existsb]; [done|]. intros [Hm|Hm]%orb_true_iff.
        - destruct (IH m Hm) as (x & Hx & Ho). exists x. split; [done|].
          inversion Ho as [? Hin|? ? Hin Hi]; subst; apply list_elem_of_singleton in Hin; subst.
          + apply occurs_here. set_solver.
          + eapply occurs_nested; [|exact Hi]. set_solver.
        - destruct (IHl Hm) as (x & Hx & Ho). exists x. split; [done|].
          inversion Ho as [? Hin|? ? Hin Hi]; subst; [apply occurs_here|eapply occurs_nested; [|exact Hi]]; set_solver. }
      destruct Hx as (x & Hx & Ho). exists x. split; [done|]. eapply occurs_nested; [|exact Ho]. set_solver.
    + intros Hb%is_blocked_spec. exists (MsgExec (Some msgs)). split; [by right|]. apply occurs_here. set_solver.
  - intros _. exists (MsgExec None). split; [by left|]. apply occurs_here. set_solver.
  - intros Hb%is_blocked_spec. exists (OtherMsg n). split; [by right|]. apply occurs_here. set_solver.
Qed.

Lemma disallowed_here m : refused m → disallowed m = true.
Proof.
  intros [->|Hb%is_blocked_spec]; [done|]. destruct m as [[msgs|]|n]; cbn; [|done..]. by destruct (existsb _ _).
Qed.

Lemma occurs_disallowed m msgs : occurs m msgs → refused m → HasDisallowedMessage msgs = true.
Proof.
  intros Ho Hr. unfold HasDisallowedMessage. induction Ho as [msgs Hin|inner msgs Hin Ho IH];
    apply existsb_exists; [exists m|exists (MsgExec (Some inner))]; (split; [by apply list_elem_of_In|]).
  - by apply disallowed_here.
  - cbn. by rewrite IH.
Qed.

(** C36 (safety): the decorator lets a transaction through to the rest of the chain exactly when no
    message in it, at the top or nested in MsgExec at any depth, has the type of a blocked one or is
    a MsgExec that does not unpack; otherwise it is an error and nothing after it runs. *)
Theorem filter_exact {Ctx : Type} (next : Ctx → list Msg → res Ctx) ctx tx :
  ((∃ m, occurs m tx ∧ refused m) → AnteHandle next ctx tx = Err Plain) ∧
  ((¬ ∃ m, occurs m tx ∧ refused m) → AnteHandle next ctx tx = next ctx tx).
Proof.
  unfold AnteHandle. split.
  - intros (m & Ho & Hr). by rewrite (occurs_disallowed m tx Ho Hr).
  - intros Hno. destruct (HasDisallowedMessage tx) eqn:E; [|done]. destruct Hno.
    apply existsb_exists in E as (m & Hin%list_elem_of_In & Hd). destruct (disallowed_occurs m Hd) as (x & Hx & Ho).
    exists x. split; [|done]. inversion Ho as [? Hi|? ? Hi Hn]; subst; apply list_elem_of_singleton in Hi; subst;
      [by apply occurs_here|by eapply occurs_nested].
Qed.
End filter.

(** A blocked MsgSend two levels down. *)
Lemma filter_exact_witness :
  AnteHandle (FilterDecorator [OtherMsg "MsgSend"]) (λ (c : nat) _, Ok c) 7%nat
    [OtherMsg "MsgVote"; MsgExec (Some [MsgExec (Some [OtherMsg "MsgSend"])])] = Err Plain.
Proof.
  apply (filter_exact (FilterDecorator [OtherMsg "MsgSend"])). exists (OtherMsg "MsgSend"). split.
  - apply (occurs_nested _ [MsgExec (Some [OtherMsg "MsgSend"])]); [set_solver|].
    apply (occurs_nested _ [OtherMsg "MsgSend"]); [set_solver|]. apply occurs_here. set_solver.
  - right. exists (OtherMsg "MsgSend"). split; [cbn; set_solver|reflexivity].
Defined.
