(* ===== verification/Ante.v ===== *)
(** * The ante handler (src/app/ante.go)

    NewAnteHandler checks its options and builds the chain of decorators every transaction passes. The
    decorators are code of other repositories and are named here, not modelled; what the function
    itself promises is that it refuses incomplete options and fixes the order of the chain. *)

From stdpp Require Import base tactics option list strings.
From Stdlib Require Import ZArith Lia.
From S2P Require Import Prelude.
Open Scope Z_scope.

(** The pointers and interfaces of [HandlerOptions] by whether they are non-nil; a [LegacyDec] by its
    integer representation, [None] when it is nil. *)
Record HandlerOptions : Type := mkHandlerOptions {
  o_AccountKeeper : bool;
  o_BankKeeper : bool;
  o_SignModeHandler : bool;
  o_CircuitKeeper : bool;
  o_Floor : option Z;
  o_Ceil : option Z;
  o_WasmConfig : bool }.

Inductive decorator : Type :=
  | SetUpContextDecorator | LimitSimulationGasDecorator | CountTXDecorator | GasRegisterDecorator
  | TxContractsDecorator | CircuitBreakerDecorator | ExtensionOptionsDecorator | ValidateBasicDecorator
  | TxTimeoutHeightDecorator | ValidateMemoDecorator | ConsumeGasForTxSizeDecorator | DeductFeeDecorator
  | SetPubKeyDecorator | ValidateSigCountDecorator | SigGasConsumeDecorator | SigVerificationDecorator
  | IncrementSequenceDecorator | POADisableStakingDecorator | POADisableWithdrawDelegatorRewards
  | CommissionLimitDecorator (doGenTxRateValidation : bool) (floor ceil : Z) | RedundantRelayDecorator.

#[global] Instance decorator_eq_dec : EqDecision decorator.
Proof. solve_decision. Defined.

(** [options.WasmConfig.SimulationGasLimit] dereferences the pointer. *)
Definition NewAnteHandler (options : HandlerOptions) : res (list decorator) :=
  check (negb (o_AccountKeeper options)) Plain;;
  check (negb (o_BankKeeper options)) Plain;;
  check (negb (o_SignModeHandler options)) Plain;;
  check (negb (o_CircuitKeeper options)) Plain;;
  match o_Floor options with
  | None => Err Plain
  | Some floor =>
      match o_Ceil options with
      | None => Err Plain
      | Some ceil =>
          check (floor <? 0) Plain;;
          check (ceil <? 0) Plain;;
          if negb (o_WasmConfig options) then Panic else
          Ok [SetUpContextDecorator; LimitSimulationGasDecorator; CountTXDecorator; GasRegisterDecorator;
              TxContractsDecorator; CircuitBreakerDecorator; ExtensionOptionsDecorator; ValidateBasicDecorator;
              TxTimeoutHeightDecorator; ValidateMemoDecorator; ConsumeGasForTxSizeDecorator; DeductFeeDecorator;
              SetPubKeyDecorator; ValidateSigCountDecorator; SigGasConsumeDecorator; SigVerificationDecorator;
              IncrementSequenceDecorator; POADisableStakingDecorator; POADisableWithdrawDelegatorRewards;
              CommissionLimitDecorator false floor ceil; RedundantRelayDecorator]
      end
  end.

(** Options for which a handler is built: everything the function looks at is there, and both rates of
    the commission limit are non-negative. *)
Definition complete (o : HandlerOptions) (floor ceil : Z) : Prop :=
  o_AccountKeeper o = true ∧ o_BankKeeper o = true ∧ o_SignModeHandler o = true ∧ o_CircuitKeeper o = true ∧
  o_WasmConfig o = true ∧ o_Floor o = Some floor ∧ o_Ceil o = Some ceil ∧ 0 ≤ floor ∧ 0 ≤ ceil.

(** [d1] stands before [d2] in the chain. *)
Definition precedes (d1 d2 : decorator) (chain : list decorator) : Prop :=
  ∃ a b c, chain = a ++ d1 :: b ++ d2 :: c.

Lemma precedes_at i j d1 d2 chain :
  (i < j)%nat → chain !! i = Some d1 → chain !! j = Some d2 → precedes d1 d2 chain.
Proof.
  intros Hij Hi Hj. exists (take i chain), (take (j - S i) (drop (S i) chain)), (drop (S j) chain).
  rewrite <- (take_drop_middle chain i d1 Hi) at 1. do 2 f_equal.
  assert (Hj' : drop (S i) chain !! (j - S i)%nat = Some d2) by (rewrite lookup_drop, <- Hj; f_equal; lia).
  rewrite <- (take_drop_middle _ _ _ Hj') at 1. do 2 f_equal. rewrite drop_drop. f_equal. lia.
Qed.

(** A handler is built exactly from complete options, and in its chain the context is set up first, the
    circuit breaker and ValidateBasic come before fees are deducted, fees before signatures, the public
    key before it is used, the verification before the sequence is incremented, and the limits of the
    proof-of-authority module after all of them. *)
Theorem NewAnteHandler_spec o :
  (∀ floor ceil, complete o floor ceil →
     ∃ chain, NewAnteHandler o = Ok chain ∧ head chain = Some SetUpContextDecorator ∧
       precedes CircuitBreakerDecorator ValidateBasicDecorator chain ∧
       precedes ValidateBasicDecorator DeductFeeDecorator chain ∧
       precedes DeductFeeDecorator SetPubKeyDecorator chain ∧
       precedes SetPubKeyDecorator SigVerificationDecorator chain ∧
       precedes SigVerificationDecorator IncrementSequenceDecorator chain ∧
       precedes IncrementSequenceDecorator (CommissionLimitDecorator false floor ceil) chain) ∧
  (∀ chain, NewAnteHandler o = Ok chain → ∃ floor ceil, complete o floor ceil).
Proof.
  split.
  - intros floor ceil (Ha & Hb & Hs & Hc & Hw & Hf & He & Hf0 & He0). unfold NewAnteHandler.
    rewrite Ha, Hb, Hs, Hc, Hw, Hf, He. cbn [negb check mbind res_bind].
    rewrite (proj2 (Z.ltb_ge floor 0) Hf0), (proj2 (Z.ltb_ge ceil 0) He0). eexists. split; [reflexivity|].
    split; [done|]. split_and!; [apply (precedes_at 5 7)|apply (precedes_at 7 11)|apply (precedes_at 11 12)
      |apply (precedes_at 12 15)|apply (precedes_at 15 16)|apply (precedes_at 16 19)]; done || lia.
  - intros chain. unfold NewAnteHandler, complete.
    destruct o as [[] [] [] [] [floor|] [ceil|] []]; cbn; try done.
    all: destruct (Z.ltb_spec floor 0); cbn; [done|]; destruct (Z.ltb_spec ceil 0); cbn; [done|]; intros; try done.
    exists floor, ceil. split_and!; done || lia.
Qed.
