(* ===== verification/Wire.v ===== *)
(** * The protobuf wire format, as the generated code reads and writes it

    The marshalers of src/x/*/types/*.pb.go fill a buffer of exactly [Size] bytes from its end;
    the unmarshalers walk an index through a buffer. Both are uniform: this file has the statements
    they are made of (integers, lengths, skipping of unknown fields), and one file per package has
    the messages. A buffer is a list of bytes, an index an [int]; an index out of range panics.
    WireProps.v relates both directions to the bytes of a field. *)

From stdpp Require Import base tactics option list strings.
From Stdlib Require Import ZArith Lia Ascii.
From S2P Require Import Prelude.
Open Scope Z_scope.

Notation bytes := (list ascii).

(** [uint8(v)], and back. *)
Definition byte_of (v : Z) : ascii := ascii_of_N (Z.to_N (v mod 256)).
Definition byte_val (b : ascii) : Z := Z.of_N (N_of_ascii b).

(** A Go string or []byte field as bytes. *)
Definition to_bytes (s : string) : bytes := String.list_ascii_of_string s.
Definition of_bytes (b : bytes) : string := String.string_of_list_ascii b.

(** ** Slices *)

(** [dAtA[k] = b] and [dAtA[k]]. *)
Definition set_byte (dAtA : bytes) (k : Z) (b : ascii) : res bytes :=
  if (0 <=? k) && (k <? llen dAtA) then Ok (<[Z.to_nat k := b]> dAtA) else Panic.
Definition get_byte (dAtA : bytes) (k : Z) : res Z :=
  if 0 <=? k then match dAtA !! Z.to_nat k with Some b => Ok (byte_val b) | None => Panic end else Panic.

(** [dAtA[a:b]]. *)
Definition slice (dAtA : bytes) (a b : Z) : res bytes :=
  if (0 <=? a) && (a <=? b) && (b <=? llen dAtA) then Ok (take (Z.to_nat (b - a)) (drop (Z.to_nat a) dAtA))
  else Panic.

(** [copy(dAtA[i:], s)]. *)
Definition copy_at (dAtA : bytes) (i : Z) (s : bytes) : res bytes :=
  if (0 <=? i) && (i <=? llen dAtA) then
    let k := Z.to_nat i in
    let n := Nat.min (length s) (length dAtA - k) in
    Ok (take k dAtA ++ take n s ++ drop (k + n) dAtA)
  else Panic.

(** ** Writing *)

(** [math_bits.Len64]. *)
Definition Len64 (x : Z) : Z := if x =? 0 then 0 else Z.log2 x + 1.

Definition sov (x : Z) : Z := (Len64 (Z.lor x 1) + 6) / 7.

(** The loop of [encodeVarint]; a uint64 has at most ten groups of seven bits. *)
Fixpoint encode_varint_loop (groups : nat) (dAtA : bytes) (offset v : Z) : res bytes :=
  match groups with
  | O => Panic
  | S groups' =>
      if 128 <=? v then
        dAtA ← set_byte dAtA offset (byte_of (Z.lor (Z.land v 127) 128));
        encode_varint_loop groups' dAtA (offset + 1) (Z.shiftr v 7)
      else set_byte dAtA offset (byte_of v)
  end.

Definition encodeVarint (dAtA : bytes) (offset v : Z) : res (bytes * Z) :=
  let offset := offset - sov v in
  let base := offset in
  dAtA ← encode_varint_loop 10 dAtA offset v;
  Ok (dAtA, base).

(** A statement of [MarshalToSizedBuffer]: the buffer and the index [i] below which it is free. *)
Definition writer : Type := bytes → Z → res (bytes * Z).

Definition nothing : writer := λ dAtA i, Ok (dAtA, i).
Definition andthen (w1 w2 : writer) : writer := λ dAtA i, '(dAtA, i) ← w1 dAtA i; w2 dAtA i.
Notation "w1 ;;> w2" := (andthen w1 w2) (at level 100, w2 at level 200, right associativity).

(** [i--; dAtA[i] = tag]. *)
Definition put_tag (tag : Z) : writer := λ dAtA i,
  let i := i - 1 in
  dAtA ← set_byte dAtA i (byte_of tag);
  Ok (dAtA, i).

(** [i = encodeVarint(dAtA, i, uint64(v)); i--; dAtA[i] = tag]. *)
Definition put_uint (tag v : Z) : writer := λ dAtA i,
  '(dAtA, i) ← encodeVarint dAtA i (wrap_u64 v);
  put_tag tag dAtA i.

(** [i--; if m.X { dAtA[i] = 1 } else { dAtA[i] = 0 }; i--; dAtA[i] = tag]. *)
Definition put_bool (tag : Z) (b : bool) : writer :=
  put_tag (if b then 1 else 0) ;;> put_tag tag.

(** [i -= len(s); copy(dAtA[i:], s)], then length and tag. *)
Definition put_bytes (tag : Z) (s : string) : writer := λ dAtA i,
  let i := i - len s in
  dAtA ← copy_at dAtA i (to_bytes s);
  put_uint tag (len s) dAtA i.

(** [size, err := m.X.MarshalToSizedBuffer(dAtA[:i]); i -= size], then length and tag. *)
Definition put_msg (tag : Z) (marshal : bytes → res (bytes * Z)) : writer := λ dAtA i,
  sub ← slice dAtA 0 i;
  '(sub, size) ← marshal sub;
  put_uint tag size (sub ++ drop (Z.to_nat i) dAtA) (i - size).

(** [n, err := StdTimeMarshalTo(t, dAtA[i-SizeOfStdTime(t):]); i -= n], then length and tag. *)
Definition put_std (tag size : Z) (marshal_to : bytes → res (bytes * Z)) : writer := λ dAtA i,
  sub ← slice dAtA (i - size) (llen dAtA);
  '(sub, n) ← marshal_to sub;
  put_uint tag n (take (Z.to_nat (i - size)) dAtA ++ sub) (i - n).

(** [if v != 0 { ... }], [if len(s) > 0 { ... }], [if b { ... }], [if m.X != nil { ... }]. *)
Definition if_nonzero (v : Z) (w : writer) : writer := if v =? 0 then nothing else w.
Definition if_nonempty (s : string) (w : writer) : writer := if 0 <? len s then w else nothing.
Definition if_true (b : bool) (w : writer) : writer := if b then w else nothing.
Definition if_some {A} (o : option A) (w : A → writer) : writer :=
  match o with Some x => w x | None => nothing end.

(** [for iNdEx := len(l) - 1; iNdEx >= 0; iNdEx-- { ... }]. *)
Fixpoint put_each {A} (w : A → writer) (l : list A) : writer :=
  match l with
  | [] => nothing
  | x :: l' => put_each w l' ;;> w x
  end.

(** [i := len(dAtA)], the statements, [return len(dAtA) - i]. *)
Definition to_sized_buffer (w : writer) (dAtA : bytes) : res (bytes * Z) :=
  '(out, i) ← w dAtA (llen dAtA);
  Ok (out, llen dAtA - i).

(** [Marshal]: a buffer of [size] zeros, of which the first [n] bytes are returned. *)
Definition marshal (size : Z) (w : writer) : res bytes :=
  '(dAtA, n) ← to_sized_buffer w (replicate (Z.to_nat size) (byte_of 0));
  slice dAtA 0 n.

(** The summands of [Size]. *)
Definition size_uint (v : Z) : Z := 1 + sov (wrap_u64 v).
Definition size_len (l : Z) : Z := 1 + l + sov (wrap_u64 l).
Definition size_str (s : string) : Z := if 0 <? len s then size_len (len s) else 0.
Definition size_num (v : Z) : Z := if v =? 0 then 0 else size_uint v.
Definition size_bool (b : bool) : Z := if b then 2 else 0.
Definition size_opt {A} (o : option A) (f : A → Z) : Z := from_option f 0 o.
Definition size_each {A} (f : A → Z) (l : list A) : Z := foldl (λ n x, n + f x) 0 l.

(** ** Reading *)

(** [for shift := uint(0); ; shift += 7 { ... }]: [T] is the conversion to the type of the variable
    that collects the groups, [wrap_u64], [wrap_i64] or [wrap_i32]. After ten groups [shift >= 64].
    The result is the value and the index after it. *)
Fixpoint varint_loop (T : Z → Z) (groups : nat) (shift v : Z) (dAtA : bytes) (iNdEx : Z) : res (Z * Z) :=
  match groups with
  | O => Err (Wire ErrIntOverflow)
  | S groups' =>
      if llen dAtA <=? iNdEx then Err (Wire ErrUnexpectedEOF) else
      b ← get_byte dAtA iNdEx;
      let v := T (Z.lor v (T (Z.shiftl (Z.land b 127) shift))) in
      if b <? 128 then Ok (v, iNdEx + 1)
      else varint_loop T groups' (shift + 7) v dAtA (iNdEx + 1)
  end.

Definition get_varint (T : Z → Z) : bytes → Z → res (Z * Z) := varint_loop T 10 0 0.

(** The length [n] of a field read at [iNdEx]: its bytes and the index after them. *)
Definition take_field (n : Z) (dAtA : bytes) (iNdEx : Z) : res (bytes * Z) :=
  if n <? 0 then Err (Wire ErrInvalidLength) else
  let postIndex := wrap_i64 (iNdEx + n) in
  if postIndex <? 0 then Err (Wire ErrInvalidLength) else
  if llen dAtA <? postIndex then Err (Wire ErrUnexpectedEOF) else
  field ← slice dAtA iNdEx postIndex;
  Ok (field, postIndex).

(** The cases of the switch on the field number, by the type of the field. Each starts with the
    check of the wire type. A string has its length in a uint64 converted to int, bytes and
    messages have it in an int. *)
Definition get_uint (wireType : Z) (dAtA : bytes) (iNdEx : Z) : res (Z * Z) :=
  if negb (wireType =? 0) then Err Plain else get_varint wrap_u64 dAtA iNdEx.

Definition get_enum (wireType : Z) (dAtA : bytes) (iNdEx : Z) : res (Z * Z) :=
  if negb (wireType =? 0) then Err Plain else get_varint wrap_i32 dAtA iNdEx.

Definition get_bool (wireType : Z) (dAtA : bytes) (iNdEx : Z) : res (bool * Z) :=
  if negb (wireType =? 0) then Err Plain else
  '(v, iNdEx) ← get_varint wrap_i64 dAtA iNdEx;
  Ok (negb (v =? 0), iNdEx).

Definition get_string (wireType : Z) (dAtA : bytes) (iNdEx : Z) : res (string * Z) :=
  if negb (wireType =? 2) then Err Plain else
  '(stringLen, iNdEx) ← get_varint wrap_u64 dAtA iNdEx;
  '(field, iNdEx) ← take_field (wrap_i64 stringLen) dAtA iNdEx;
  Ok (of_bytes field, iNdEx).

Definition get_field (wireType : Z) (dAtA : bytes) (iNdEx : Z) : res (bytes * Z) :=
  if negb (wireType =? 2) then Err Plain else
  '(msglen, iNdEx) ← get_varint wrap_i64 dAtA iNdEx;
  take_field msglen dAtA iNdEx.

Definition get_bytes (wireType : Z) (dAtA : bytes) (iNdEx : Z) : res (string * Z) :=
  '(field, iNdEx) ← get_field wireType dAtA iNdEx;
  Ok (of_bytes field, iNdEx).

(** [m.X.Unmarshal(dAtA[iNdEx:postIndex])]. *)
Definition get_msg {A} (unmarshal : bytes → res A) (wireType : Z) (dAtA : bytes) (iNdEx : Z) : res (A * Z) :=
  '(field, iNdEx) ← get_field wireType dAtA iNdEx;
  x ← unmarshal field;
  Ok (x, iNdEx).

(** The varint that [skip] passes over without collecting it. *)
Fixpoint skip_varint (groups : nat) (dAtA : bytes) (iNdEx : Z) : res Z :=
  match groups with
  | O => Err (Wire ErrIntOverflow)
  | S groups' =>
      if llen dAtA <=? iNdEx then Err (Wire ErrUnexpectedEOF) else
      b ← get_byte dAtA iNdEx;
      if b <? 128 then Ok (iNdEx + 1) else skip_varint groups' dAtA (iNdEx + 1)
  end.

(** The switch of [skip] on the wire type: the new index and the new depth of groups. *)
Definition skip_switch (wireType : Z) (dAtA : bytes) (iNdEx depth : Z) : res (Z * Z) :=
  match wireType with
  | 0 => iNdEx ← skip_varint 10 dAtA iNdEx; Ok (iNdEx, depth)
  | 1 => Ok (wrap_i64 (iNdEx + 8), depth)
  | 2 =>
      '(length, iNdEx) ← get_varint wrap_i64 dAtA iNdEx;
      if length <? 0 then Err (Wire ErrInvalidLength) else Ok (wrap_i64 (iNdEx + length), depth)
  | 3 => Ok (iNdEx, depth + 1)
  | 4 => if depth =? 0 then Err (Wire ErrUnexpectedEndOfGroup) else Ok (iNdEx, depth - 1)
  | 5 => Ok (wrap_i64 (iNdEx + 4), depth)
  | _ => Err Plain
  end.

(** The loop of [skip]; every round reads at least one byte, so [fuel] is the number of bytes. *)
Fixpoint skip_loop (fuel : nat) (dAtA : bytes) (iNdEx depth : Z) : res Z :=
  if iNdEx <? llen dAtA then
    match fuel with
    | O => Panic
    | S fuel' =>
        '(wire, iNdEx) ← get_varint wrap_u64 dAtA iNdEx;
        '(iNdEx, depth) ← skip_switch (Z.land wire 7) dAtA iNdEx depth;
        if iNdEx <? 0 then Err (Wire ErrInvalidLength) else
        if depth =? 0 then Ok iNdEx else skip_loop fuel' dAtA iNdEx depth
    end
  else Err (Wire ErrUnexpectedEOF).

Definition skip (dAtA : bytes) : res Z := skip_loop (length dAtA) dAtA 0 0.

(** ** Unmarshal *)

(** The default case of the switch on the field number: [iNdEx = preIndex], then skip the field. *)
Definition skip_field {A : Type} (dAtA : bytes) (preIndex : Z) (m : A) : res (A * Z) :=
  rest ← slice dAtA preIndex (llen dAtA);
  skippy ← skip rest;
  if (skippy <? 0) || (wrap_i64 (preIndex + skippy) <? 0) then Err (Wire ErrInvalidLength) else
  if llen dAtA <? wrap_i64 (preIndex + skippy) then Err (Wire ErrUnexpectedEOF) else
  Ok (m, wrap_i64 (preIndex + skippy)).

Section unmarshal.
(** The switch of a message on the field number; where it is [None], [default] is its default case. *)
Context {A : Type} (switch : Z → Z → bytes → Z → A → option (res (A * Z))) (default : bytes → Z → A → res (A * Z)).

(** The body of the loop over the fields. *)
Definition unmarshal_field (dAtA : bytes) (iNdEx : Z) (m : A) : res (A * Z) :=
  let preIndex := iNdEx in
  '(wire, iNdEx) ← get_varint wrap_u64 dAtA iNdEx;
  let fieldNum := wrap_i32 (Z.shiftr wire 3) in
  let wireType := Z.land wire 7 in
  if wireType =? 4 then Err Plain else
  if fieldNum <=? 0 then Err Plain else
  match switch fieldNum wireType dAtA iNdEx m with
  | Some r => r
  | None => default dAtA preIndex m
  end.

(** Every round reads at least one byte, so [fuel] is the number of bytes. *)
Fixpoint unmarshal_loop (fuel : nat) (dAtA : bytes) (iNdEx : Z) (m : A) : res A :=
  if iNdEx <? llen dAtA then
    match fuel with
    | O => Panic
    | S fuel' =>
        '(m, iNdEx) ← unmarshal_field dAtA iNdEx m;
        unmarshal_loop fuel' dAtA iNdEx m
    end
  else if llen dAtA <? iNdEx then Err (Wire ErrUnexpectedEOF) else Ok m.

Definition unmarshal_with (dAtA : bytes) (m : A) : res A := unmarshal_loop (length dAtA) dAtA 0 m.
End unmarshal.

(** [Unmarshal] into [m]. *)
Definition unmarshal {A} (switch : Z → Z → bytes → Z → A → option (res (A * Z))) (dAtA : bytes) (m : A) : res A :=
  unmarshal_with switch skip_field dAtA m.
