(* ===== verification/WireProps.v ===== *)
(** * The wire format: bytes of a field, writing and reading them

    [writes w e]: the writer [w] puts the bytes [e] at the end of the free part of the buffer and
    touches nothing else. [reads r e a]: the reader [r], at an index where [e] stands, returns [a]
    and the index after it. A message writes the concatenation of its fields and reads them one by
    one ([decodes]). [safe]: on any input the result is a value with an index that has advanced
    within the buffer, or an error, but no panic. *)

From stdpp Require Import base tactics option list strings.
From Stdlib Require Import ZArith Lia Ascii.
From S2P Require Import Prelude Wire.
Open Scope Z_scope.

Create HintDb wire discriminated.
#[export] Hint Constants Opaque : wire.

(** ** Integers *)

(** [T] converts to an integer type of [n] bits: it depends on the low [n] bits and keeps them. *)
Record converts (n : Z) (T : Z → Z) : Prop := mkConverts {
  conv_width : 0 < n;
  conv_0 : T 0 = 0;
  conv_mod z : T z mod 2 ^ n = z mod 2 ^ n;
  conv_ext a b : a mod 2 ^ n = b mod 2 ^ n → T a = T b }.

Lemma signed_converts n : 0 < n → converts n (λ x, (x + 2 ^ (n - 1)) mod 2 ^ n - 2 ^ (n - 1)).
Proof.
  intros Hn. assert (2 ^ n = 2 * 2 ^ (n - 1)) by (rewrite <- Z.pow_succ_r by lia; f_equal; lia).
  pose proof (Z.pow_pos_nonneg 2 (n - 1)). split; [done|rewrite Z.mod_small; lia| |].
  - intros z. rewrite Zminus_mod_idemp_l. f_equal. lia.
  - intros a b E. f_equal. rewrite <- Zplus_mod_idemp_l, E, Zplus_mod_idemp_l. done.
Qed.

Lemma u64_converts : converts 64 wrap_u64.
Proof. split; [done|done|intros; by apply Z.mod_mod|done]. Qed.
Lemma i64_converts : converts 64 wrap_i64.
Proof. by apply (signed_converts 64). Qed.
Lemma i32_converts : converts 32 wrap_i32.
Proof. by apply (signed_converts 32). Qed.
#[export] Hint Resolve u64_converts i64_converts i32_converts : wire.

Lemma conv_lor n T a b : converts n T → T (Z.lor (T a) (T b)) = T (Z.lor a b).
Proof.
  intros [Hn _ Hm He]. apply He. rewrite <- !Z.land_ones, !Z.land_lor_distr_l, !Z.land_ones by lia.
  by rewrite !Hm.
Qed.

Lemma conv_idem n T a : converts n T → T (T a) = T a.
Proof. intros [Hn _ Hm He]. apply He, Hm. Qed.

Lemma wrap_i32_id x : - 2 ^ 31 ≤ x < 2 ^ 31 → wrap_i32 x = x.
Proof. unfold wrap_i32. intros. rewrite Z.mod_small by lia. lia. Qed.

(** An enumeration is written as the uint64 of its int32. *)
Lemma enum_roundtrip x : - 2 ^ 31 ≤ x < 2 ^ 31 → wrap_i32 (wrap_u64 x) = x.
Proof.
  intros Hx. rewrite <- (wrap_i32_id x) at 2 by done. apply (conv_ext _ _ i32_converts).
  unfold wrap_u64. change (2 ^ 64) with (2 ^ 32 * 2 ^ 32). rewrite Z.rem_mul_r by lia.
  rewrite Z.mul_comm, Z.mod_add by lia. by apply Z.mod_mod.
Qed.

Lemma bool_word_roundtrip (b : bool) : negb (wrap_i64 (if b then 1 else 0) =? 0) = b.
Proof. by destruct b. Qed.

(** ** Bytes *)

Lemma byte_val_of v : byte_val (byte_of v) = v mod 256.
Proof.
  unfold byte_val, byte_of. pose proof (Z.mod_pos_bound v 256). rewrite N_ascii_embedding, Z2N.id; lia.
Qed.

Lemma byte_val_range b : 0 ≤ byte_val b < 256.
Proof. unfold byte_val. pose proof (N_ascii_bounded b). lia. Qed.

Lemma of_to_bytes s : of_bytes (to_bytes s) = s.
Proof. apply String.string_of_list_ascii_of_string. Qed.

Lemma llen_to_bytes s : llen (to_bytes s) = len s.
Proof. unfold llen, len, to_bytes. f_equal. induction s; cbn; congruence. Qed.

Lemma llen_app {A} (a b : list A) : llen (a ++ b) = llen a + llen b.
Proof. unfold llen. rewrite length_app. lia. Qed.
Lemma llen_cons {A} (x : A) l : llen (x :: l) = 1 + llen l.
Proof. unfold llen. cbn. lia. Qed.
Lemma llen_nonneg {A} (l : list A) : 0 ≤ llen l.
Proof. unfold llen. lia. Qed.
Lemma to_nat_llen {A} (l : list A) : Z.to_nat (llen l) = length l.
Proof. unfold llen. lia. Qed.

Lemma get_byte_mid pre b post : get_byte (pre ++ b :: post) (llen pre) = Ok (byte_val b).
Proof.
  unfold get_byte. rewrite (proj2 (Z.leb_le 0 _)) by apply llen_nonneg.
  by rewrite to_nat_llen, list_lookup_middle.
Qed.

Lemma get_byte_ok d k : 0 ≤ k < llen d → ∃ b, get_byte d k = Ok b ∧ 0 ≤ b < 256.
Proof.
  intros Hk. unfold get_byte. rewrite (proj2 (Z.leb_le 0 _)) by lia.
  destruct (d !! Z.to_nat k) as [b|] eqn:E; [eauto using byte_val_range|].
  apply lookup_ge_None in E. unfold llen in Hk. lia.
Qed.

Lemma set_byte_mid pre x b post : set_byte (pre ++ x :: post) (llen pre) b = Ok (pre ++ b :: post).
Proof.
  unfold set_byte. pose proof (llen_nonneg pre). pose proof (llen_nonneg post).
  rewrite llen_app, llen_cons, (proj2 (Z.leb_le 0 _)), (proj2 (Z.ltb_lt _ _)) by lia. cbn [andb].
  by rewrite to_nat_llen, insert_app_r_alt, Nat.sub_diag by done.
Qed.

Lemma slice_mid pre mid post : slice (pre ++ mid ++ post) (llen pre) (llen pre + llen mid) = Ok mid.
Proof.
  unfold slice. pose proof (llen_nonneg pre). pose proof (llen_nonneg mid). pose proof (llen_nonneg post).
  rewrite !llen_app, !(proj2 (Z.leb_le _ _)) by lia. cbn [andb]. f_equal.
  replace (Z.to_nat (llen pre + llen mid - llen pre)) with (length mid) by (unfold llen; lia).
  by rewrite to_nat_llen, drop_app_length, take_app_length.
Qed.

Lemma slice_ok d a b : 0 ≤ a ≤ b → b ≤ llen d → ∃ s, slice d a b = Ok s ∧ llen s = b - a.
Proof.
  intros Ha Hb. unfold slice. rewrite !(proj2 (Z.leb_le _ _)) by lia. cbn [andb]. eexists. split; [done|].
  unfold llen in *. rewrite length_take, length_drop. lia.
Qed.

(** ** Varints *)

(** Groups of seven bits, the low ones first, all but the last with the high bit set. *)
Fixpoint varint_groups (groups : nat) (v : Z) : bytes :=
  match groups with
  | O => []
  | S groups' =>
      if 128 <=? v then byte_of (Z.lor (Z.land v 127) 128) :: varint_groups groups' (Z.shiftr v 7)
      else [byte_of v]
  end.
Definition varint (v : Z) : bytes := varint_groups 10 v.

Definition is_u64 (v : Z) : Prop := 0 ≤ v ≤ max_u64.

Lemma wrap_u64_range x : is_u64 (wrap_u64 x).
Proof. unfold is_u64, wrap_u64, max_u64. pose proof (Z.mod_pos_bound x (2 ^ 64)). lia. Qed.
#[export] Hint Resolve wrap_u64_range : wire.

Lemma shiftr7_bound v n : 0 ≤ n → 0 ≤ v < 2 ^ (7 * (n + 1)) → 0 ≤ Z.shiftr v 7 < 2 ^ (7 * n).
Proof.
  intros Hn Hv. rewrite Z.shiftr_div_pow2 by lia.
  replace (7 * (n + 1)) with (7 * n + 7) in Hv by lia. rewrite Z.pow_add_r in Hv by lia.
  split; [apply Z.div_pos; lia|apply Z.div_lt_upper_bound; lia].
Qed.

Lemma sov_small v : 0 ≤ v < 128 → sov v = 1.
Proof.
  intros Hv. unfold sov, Len64. assert (1 ≤ Z.lor v 1 < 128) as Hl.
  { split.
    - enough (Z.lor v 1 ≠ 0 ∧ 0 ≤ Z.lor v 1) by lia. rewrite Z.lor_eq_0_iff, Z.lor_nonneg. lia.
    - destruct (Z.eq_dec v 0) as [->|]; [done|].
      apply Z.log2_lt_cancel. rewrite Z.log2_lor by lia. change (Z.log2 128) with 7. change (Z.log2 1) with 0.
      pose proof (Z.log2_nonneg v). pose proof (proj1 (Z.log2_lt_pow2 v 7 ltac:(lia))). lia. }
  rewrite (proj2 (Z.eqb_neq _ 0)) by lia. pose proof (Z.log2_nonneg (Z.lor v 1)).
  pose proof (proj1 (Z.log2_lt_pow2 (Z.lor v 1) 7 ltac:(lia))).
  symmetry. apply (Z.div_unique_pos _ 7 1 (Z.log2 (Z.lor v 1) + 1 + 6 - 7)); lia.
Qed.

Lemma sov_step v : 128 ≤ v → sov v = 1 + sov (Z.shiftr v 7).
Proof.
  intros Hv. unfold sov, Len64.
  assert (Hs : 1 ≤ Z.shiftr v 7).
  { rewrite Z.shiftr_div_pow2 by lia. apply Z.div_le_lower_bound; lia. }
  assert (Hnz : ∀ x, 0 ≤ x → Z.lor x 1 ≠ 0) by (intros x Hx; rewrite Z.lor_eq_0_iff; lia).
  rewrite !(proj2 (Z.eqb_neq _ 0)) by (apply Hnz; lia).
  rewrite !Z.log2_lor, Z.log2_shiftr by lia. change (Z.log2 1) with 0.
  assert (7 ≤ Z.log2 v) by (apply (Z.log2_le_pow2 v 7); lia).
  rewrite !Z.max_l by (rewrite ?Z.max_r by lia; lia). rewrite Z.max_r by lia.
  replace (Z.log2 v + 1 + 6) with (1 * 7 + (Z.log2 v - 7 + 1 + 6)) by lia. by rewrite Z.div_add_l.
Qed.

Lemma sov_groups n : ∀ v, 0 ≤ v < 2 ^ (7 * Z.of_nat n) → (0 < n)%nat → llen (varint_groups n v) = sov v.
Proof.
  induction n as [|n IH]; intros v Hv Hn; [lia|]. cbn [varint_groups].
  destruct (Z.leb_spec 128 v) as [Hb|Hs]; [|by rewrite sov_small by lia].
  rewrite llen_cons, sov_step by done. f_equal.
  destruct n as [|n]; [cbn in Hv; lia|]. apply IH; [|lia]. apply shiftr7_bound; [lia|]. by rewrite Nat2Z.inj_succ in Hv.
Qed.

Lemma u64_ten_groups v : is_u64 v → 0 ≤ v < 2 ^ (7 * Z.of_nat 10).
Proof. unfold is_u64, max_u64. change (2 ^ (7 * Z.of_nat 10)) with (2 ^ 70). lia. Qed.

Lemma varint_length v : is_u64 v → llen (varint v) = sov v.
Proof. intros Hv. apply sov_groups; [by apply u64_ten_groups|lia]. Qed.

Lemma varint_short v : llen (varint v) ≤ 10.
Proof.
  enough (∀ g v, llen (varint_groups g v) ≤ Z.of_nat g) as Hg by apply (Hg 10%nat).
  clear v. induction g as [|g IH]; intros v; cbn [varint_groups]; [done|].
  destruct (_ <=? _); [rewrite llen_cons; specialize (IH (Z.shiftr v 7)); lia|unfold llen; cbn; lia].
Qed.

(** ** Writing *)

Definition writes (w : writer) (e : bytes) : Prop := ∀ pre hole post,
  length hole = length e → w (pre ++ hole ++ post) (llen pre + llen hole) = Ok (pre ++ e ++ post, llen pre).

(** [MarshalToSizedBuffer] and [StdTimeMarshalTo] put their bytes at the end and at the start. *)
Definition marshals (f : bytes → res (bytes * Z)) (e : bytes) : Prop := ∀ pre hole,
  length hole = length e → f (pre ++ hole) = Ok (pre ++ e, llen e).
Definition marshals_to (f : bytes → res (bytes * Z)) (e : bytes) : Prop := ∀ hole post,
  length hole = length e → f (hole ++ post) = Ok (e ++ post, llen e).

Lemma writes_nothing : writes nothing [].
Proof. intros pre [|] post Hh; [|done]. unfold nothing. change (llen []) with 0. by rewrite Z.add_0_r. Qed.

Lemma writes_andthen w1 w2 e1 e2 : writes w1 e1 → writes w2 e2 → writes (w1 ;;> w2) (e2 ++ e1).
Proof.
  intros H1 H2 pre hole post Hh. rewrite length_app in Hh.
  rewrite <- (take_drop (length e2) hole). set (h2 := take _ hole). set (h1 := drop _ hole).
  assert (length h2 = length e2) by (subst h2; rewrite length_take; lia).
  assert (length h1 = length e1) by (subst h1; rewrite length_drop; lia).
  unfold andthen. specialize (H1 (pre ++ h2) h1 post ltac:(done)).
  rewrite <- !app_assoc in *. rewrite llen_app in *. rewrite Z.add_assoc, H1. cbn. by apply H2.
Qed.

Lemma writes_tag t : writes (put_tag t) [byte_of t].
Proof.
  intros pre [|x [|]] post Hh; try done. unfold put_tag.
  replace (llen pre + llen [x] - 1) with (llen pre) by (unfold llen; cbn; lia).
  cbn [app]. by rewrite set_byte_mid.
Qed.

Lemma encode_loop_writes n : ∀ v pre hole post, 0 ≤ v < 2 ^ (7 * Z.of_nat n) → (0 < n)%nat →
  length hole = length (varint_groups n v) →
  encode_varint_loop n (pre ++ hole ++ post) (llen pre) v = Ok (pre ++ varint_groups n v ++ post).
Proof.
  induction n as [|n IH]; intros v pre hole post Hv Hn Hh; [lia|]. cbn [varint_groups encode_varint_loop] in *.
  destruct (Z.leb_spec 128 v) as [Hb|Hs].
  - destruct hole as [|x hole]; [done|]. injection Hh as Hh. cbn [app]. rewrite set_byte_mid. cbn [mbind res_bind].
    destruct n as [|n]; [cbn in Hv; lia|].
    specialize (IH (Z.shiftr v 7) (pre ++ [byte_of (Z.lor (Z.land v 127) 128)]) hole post).
    rewrite <- !app_assoc, llen_app in IH. apply IH; [|lia|done].
    apply shiftr7_bound; [lia|]. by rewrite Nat2Z.inj_succ in Hv.
  - destruct hole as [|x [|]]; try done. cbn [app]. apply set_byte_mid.
Qed.

Lemma writes_encodeVarint v : is_u64 v → writes (λ d i, encodeVarint d i v) (varint v).
Proof.
  intros Hv pre hole post Hh. unfold encodeVarint.
  assert (Hl : llen hole = sov v) by (rewrite <- varint_length by done; unfold llen; by rewrite Hh).
  replace (llen pre + llen hole - sov v) with (llen pre) by lia.
  rewrite encode_loop_writes; [done|by apply u64_ten_groups|lia|done].
Qed.

(** ** The bytes of a field *)

(** A tag, then an integer, a flag, or a length and that many bytes. *)
Definition uint_field (tag v : Z) : bytes := byte_of tag :: varint (wrap_u64 v).
Definition bool_field (tag : Z) (b : bool) : bytes := [byte_of tag; byte_of (if b then 1 else 0)].
Definition len_field (tag : Z) (e : bytes) : bytes := byte_of tag :: varint (wrap_u64 (llen e)) ++ e.

(** Fields that are left out when they hold the zero value. *)
Definition enc_uint (tag v : Z) : bytes := if v =? 0 then [] else uint_field tag v.
Definition enc_bool (tag : Z) (b : bool) : bytes := if b then bool_field tag b else [].
Definition enc_str (tag : Z) (s : string) : bytes := if 0 <? len s then len_field tag (to_bytes s) else [].
Definition enc_opt {A} (f : A → bytes) (o : option A) : bytes := from_option f [] o.
Definition enc_each {A} (f : A → bytes) (l : list A) : bytes := concat (f <$> l).

#[global] Arguments uint_field : simpl never.
#[global] Arguments bool_field : simpl never.
#[global] Arguments len_field : simpl never.
#[global] Arguments enc_uint : simpl never.
#[global] Arguments enc_bool : simpl never.
#[global] Arguments enc_str : simpl never.
#[global] Arguments enc_opt : simpl never.
#[global] Arguments enc_each : simpl never.

Lemma writes_uint tag v : writes (put_uint tag v) (uint_field tag v).
Proof.
  pose proof (writes_andthen _ _ _ _ (writes_encodeVarint (wrap_u64 v) (wrap_u64_range v)) (writes_tag tag)) as H.
  exact H.
Qed.

Lemma writes_bool tag b : writes (put_bool tag b) (bool_field tag b).
Proof. apply (writes_andthen _ _ _ _ (writes_tag _) (writes_tag tag)). Qed.

Lemma llen_same_length {A B} (a : list A) (b : list B) : length a = length b → llen a = llen b.
Proof. unfold llen. congruence. Qed.

Lemma copy_mid pre hole s post : length hole = length s →
  copy_at (pre ++ hole ++ post) (llen pre) s = Ok (pre ++ s ++ post).
Proof.
  intros Hh. unfold copy_at. pose proof (llen_nonneg pre). pose proof (llen_nonneg (hole ++ post)).
  rewrite !(proj2 (Z.leb_le _ _)) by (rewrite ?llen_app in *; lia). cbn [andb]. rewrite to_nat_llen.
  replace (Nat.min (length s) (length (pre ++ hole ++ post) - length pre)) with (length s)
    by (rewrite !length_app; lia).
  rewrite take_app_length, firstn_all, <- Hh. rewrite drop_app_add, drop_app_length. done.
Qed.

(** Length and tag, which [put] writes, in front of bytes that are already there. *)
Lemma writes_prefix (put w : writer) tag e :
  writes put (uint_field tag (llen e)) →
  (∀ pre hole post, length hole = length e →
     w (pre ++ hole ++ post) (llen pre + llen hole) = put (pre ++ e ++ post) (llen pre)) →
  writes w (len_field tag e).
Proof.
  intros Hput Hw pre hole post Hh. unfold len_field, uint_field in *. rewrite app_comm_cons in *. rewrite length_app in Hh.
  set (hd := byte_of tag :: varint (wrap_u64 (llen e))) in *.
  rewrite <- (take_drop (length hd) hole). set (h1 := take _ hole). set (h2 := drop _ hole).
  assert (length h1 = length hd) by (subst h1; rewrite length_take; lia).
  assert (length h2 = length e) by (subst h2; rewrite length_drop; lia).
  specialize (Hw (pre ++ h1) h2 post ltac:(done)). rewrite <- !app_assoc, llen_app in *.
  rewrite Z.add_assoc, Hw. by apply Hput.
Qed.

Lemma writes_bytes tag s : writes (put_bytes tag s) (len_field tag (to_bytes s)).
Proof.
  apply (writes_prefix _ _ _ _ (writes_uint tag _)). intros pre hole post Hh. unfold put_bytes.
  apply llen_same_length in Hh as Hl. rewrite llen_to_bytes in Hl |- *.
  replace (llen pre + llen hole - len s) with (llen pre) by lia. by rewrite copy_mid.
Qed.

Lemma writes_msg tag f e : marshals f e → writes (put_msg tag f) (len_field tag e).
Proof.
  intros Hf. apply (writes_prefix _ _ _ _ (writes_uint tag _)). intros pre hole post Hh. unfold put_msg.
  apply llen_same_length in Hh as Hl. pose proof (slice_mid [] (pre ++ hole) post) as Hs. cbn [app] in Hs.
  change (llen []) with 0 in Hs. rewrite <- app_assoc, llen_app, Z.add_0_l in Hs. rewrite Hs. cbn [mbind res_bind].
  rewrite Hf by done. cbn [mbind res_bind].
  replace (Z.to_nat (llen pre + llen hole)) with (length (pre ++ hole)) by (rewrite length_app; unfold llen; lia).
  rewrite (app_assoc pre hole), drop_app_length, <- app_assoc. do 2 f_equal. lia.
Qed.

Lemma writes_std tag size f e : marshals_to f e → llen e = size → writes (put_std tag size f) (len_field tag e).
Proof.
  intros Hf Hsz. apply (writes_prefix _ _ _ _ (writes_uint tag _)). intros pre hole post Hh. unfold put_std.
  apply llen_same_length in Hh as Hl. replace (llen pre + llen hole - size) with (llen pre) by lia.
  pose proof (slice_mid pre (hole ++ post) []) as Hs. rewrite app_nil_r, <- llen_app in Hs. rewrite Hs. cbn [mbind res_bind].
  rewrite Hf by done. cbn [mbind res_bind]. rewrite to_nat_llen, take_app_length. f_equal. lia.
Qed.

Lemma writes_enc_uint tag v : writes (if_nonzero v (put_uint tag v)) (enc_uint tag v).
Proof. unfold if_nonzero, enc_uint. destruct (v =? 0); [apply writes_nothing|apply writes_uint]. Qed.
Lemma writes_enc_bool tag b : writes (if_true b (put_bool tag b)) (enc_bool tag b).
Proof. unfold if_true, enc_bool. destruct b; [apply writes_bool|apply writes_nothing]. Qed.
Lemma writes_enc_str tag s : writes (if_nonempty s (put_bytes tag s)) (enc_str tag s).
Proof. unfold if_nonempty, enc_str. destruct (0 <? len s); [apply writes_bytes|apply writes_nothing]. Qed.
Lemma writes_enc_opt {A} (w : A → writer) (f : A → bytes) o :
  (∀ x, o = Some x → writes (w x) (f x)) → writes (if_some o w) (enc_opt f o).
Proof. intros Hw. destruct o; [by apply Hw|apply writes_nothing]. Qed.
Lemma writes_enc_each {A} (w : A → writer) (f : A → bytes) l :
  Forall (λ x, writes (w x) (f x)) l → writes (put_each w l) (enc_each f l).
Proof.
  induction 1 as [|x l Hx Hl IH]; [apply writes_nothing|]. cbn [put_each].
  change (enc_each f (x :: l)) with (f x ++ enc_each f l). by apply writes_andthen.
Qed.
#[export] Hint Resolve writes_enc_uint writes_enc_bool writes_enc_str writes_bytes writes_msg : wire.

(** ** Whole messages *)

Lemma writes_sized_buffer w e : writes w e → marshals (to_sized_buffer w) e.
Proof.
  intros Hw pre hole Hh. unfold to_sized_buffer. specialize (Hw pre hole [] Hh).
  rewrite !app_nil_r in Hw. rewrite llen_app, Hw. cbn. do 2 f_equal.
  apply llen_same_length in Hh. lia.
Qed.

#[export] Hint Resolve writes_sized_buffer : wire.

Lemma marshal_ok size w e : writes w e → size = llen e → marshal size w = Ok e.
Proof.
  intros Hw ->. unfold marshal. rewrite to_nat_llen.
  pose proof (writes_sized_buffer w e Hw [] (replicate (length e) (byte_of 0))) as Hm. cbn [app] in Hm.
  rewrite Hm by by rewrite length_replicate. cbn [mbind res_bind].
  pose proof (slice_mid [] e []) as Hs. rewrite app_nil_r in Hs. exact Hs.
Qed.

Lemma size_uint_field tag v : llen (enc_uint tag v) = size_num v.
Proof.
  unfold enc_uint, size_num, size_uint. destruct (v =? 0); [done|]. unfold uint_field.
  by rewrite llen_cons, varint_length by auto with wire.
Qed.
Lemma size_len_field tag e : llen (len_field tag e) = size_len (llen e).
Proof. unfold len_field, size_len. rewrite llen_cons, llen_app, varint_length by auto with wire. lia. Qed.
Lemma size_str_field tag s : llen (enc_str tag s) = size_str s.
Proof. unfold enc_str, size_str. destruct (0 <? len s); [|done]. by rewrite size_len_field, llen_to_bytes. Qed.
Lemma size_bool_field tag b : llen (enc_bool tag b) = size_bool b.
Proof. by destruct b. Qed.
Lemma size_opt_field {A} (f : A → bytes) (g : A → Z) o :
  (∀ x, o = Some x → llen (f x) = g x) → llen (enc_opt f o) = size_opt o g.
Proof. intros Hf. destruct o; [by apply Hf|done]. Qed.
Lemma size_each_field {A} (f : A → bytes) (g : A → Z) l :
  Forall (λ x, llen (f x) = g x) l → llen (enc_each f l) = size_each g l.
Proof.
  intros Hf. unfold size_each. enough (∀ n, n + llen (enc_each f l) = foldl (λ n x, n + g x) n l) as Hn by apply (Hn 0).
  induction Hf as [|x l Hx Hl IH]; intros n; cbn [foldl]; [apply Z.add_0_r|].
  change (enc_each f (x :: l)) with (f x ++ enc_each f l). rewrite llen_app, Hx, <- IH. lia.
Qed.

Lemma llen_app_l {A} (a b : list A) n : llen (a ++ b) ≤ n → llen a ≤ n.
Proof. rewrite llen_app. pose proof (llen_nonneg b). lia. Qed.
Lemma llen_app_r {A} (a b : list A) n : llen (a ++ b) ≤ n → llen b ≤ n.
Proof. rewrite llen_app. pose proof (llen_nonneg a). lia. Qed.

Lemma size_strings tag l :
  llen (enc_each (λ s, len_field tag (to_bytes s)) l) = size_each (λ s, size_len (len s)) l.
Proof. apply size_each_field, Forall_forall. intros. by rewrite size_len_field, llen_to_bytes. Qed.

(** The bytes of an element are no longer than those of the list, nor than the field around them. *)
Lemma llen_each {A} (f : A → bytes) l x : x ∈ l → llen (f x) ≤ llen (enc_each f l).
Proof.
  intros Hx. apply list_elem_of_split in Hx as (l1 & l2 & ->). unfold enc_each.
  rewrite fmap_app, fmap_cons, concat_app. cbn [concat]. rewrite !llen_app.
  pose proof (llen_nonneg (concat (f <$> l1))). pose proof (llen_nonneg (concat (f <$> l2))). lia.
Qed.
Lemma llen_len_field tag e : llen e ≤ llen (len_field tag e).
Proof. unfold len_field. rewrite llen_cons, llen_app. pose proof (llen_nonneg (varint (wrap_u64 (llen e)))). lia. Qed.

(** ** Reading *)

Definition reads {A} (r : bytes → Z → res (A * Z)) (e : bytes) (a : A) : Prop := ∀ pre post,
  llen (pre ++ e ++ post) ≤ max_i64 → r (pre ++ e ++ post) (llen pre) = Ok (a, llen pre + llen e).

Lemma lor_disjoint a b : Z.land a b = 0 → Z.lor a b = a + b.
Proof. intros H. by rewrite Z.add_nocarry_lxor, Z.lxor_lor. Qed.

(** A group with its continuation bit. *)
Lemma group_value v : 0 ≤ v → Z.land (byte_val (byte_of (Z.lor (Z.land v 127) 128))) 127 = Z.land v 127 ∧
  128 ≤ byte_val (byte_of (Z.lor (Z.land v 127) 128)).
Proof.
  intros Hv. rewrite byte_val_of, lor_disjoint by by rewrite <- Z.land_assoc, Z.land_0_r.
  change 127 with (Z.ones 7). rewrite !Z.land_ones by lia. pose proof (Z.mod_pos_bound v (2 ^ 7)).
  rewrite (Z.mod_small (v mod 2 ^ 7 + 128)) by lia. split; [|lia].
  replace (v mod 2 ^ 7 + 128) with (v mod 2 ^ 7 + 1 * 2 ^ 7) by lia. rewrite Z.mod_add by lia. by apply Z.mod_mod.
Qed.

Lemma lor_groups acc v shift : 0 ≤ shift →
  Z.lor (Z.lor acc (Z.shiftl (Z.land v 127) shift)) (Z.shiftl (Z.shiftr v 7) (shift + 7)) = Z.lor acc (Z.shiftl v shift).
Proof.
  intros Hs. rewrite <- Z.lor_assoc. f_equal.
  rewrite (Z.add_comm shift), <- Z.shiftl_shiftl, <- Z.shiftl_lor by lia. f_equal.
  change 127 with (Z.ones 7). apply Z.bits_inj'. intros n Hn.
  rewrite Z.lor_spec, Z.land_spec, Z.testbit_ones_nonneg, Z.shiftl_spec by lia.
  destruct (Z.ltb_spec n 7).
  - by rewrite (Z.testbit_neg_r (Z.shiftr v 7)), andb_true_r, orb_false_r by lia.
  - rewrite andb_false_r, Z.shiftr_spec by lia. cbn [orb]. f_equal. lia.
Qed.

Lemma reads_groups n T g : converts n T → ∀ shift acc v pre post,
  0 ≤ shift → 0 ≤ v < 2 ^ (7 * Z.of_nat g) → (0 < g)%nat →
  varint_loop T g shift (T acc) (pre ++ varint_groups g v ++ post) (llen pre) =
  Ok (T (Z.lor acc (Z.shiftl v shift)), llen pre + llen (varint_groups g v)).
Proof.
  intros HT. induction g as [|g IH]; intros shift acc v pre post Hs Hv Hg; [lia|].
  cbn [varint_loop varint_groups].
  assert (Hin : ∀ b rest, llen (pre ++ b :: rest) <=? llen pre = false)
    by (intros; rewrite llen_app, llen_cons; apply Z.leb_gt; pose proof (llen_nonneg rest); lia).
  destruct (Z.leb_spec 128 v) as [Hb|Hsm]; cbn [app]; rewrite Hin, get_byte_mid; cbn [mbind res_bind].
  - destruct (group_value v ltac:(lia)) as [Hval Hcont]. rewrite (proj2 (Z.ltb_ge _ _)) by done.
    rewrite Hval, (conv_lor _ _ _ _ HT). destruct g as [|g]; [cbn in Hv; lia|].
    specialize (IH (shift + 7) (Z.lor acc (Z.shiftl (Z.land v 127) shift)) (Z.shiftr v 7)
      (pre ++ [byte_of (Z.lor (Z.land v 127) 128)]) post).
    rewrite <- app_assoc, llen_app in IH. change (llen [byte_of (Z.lor (Z.land v 127) 128)]) with 1 in IH. cbn [app] in IH.
    rewrite IH; [|lia| |lia].
    + rewrite lor_groups by done. do 2 f_equal. rewrite llen_cons. lia.
    + apply shiftr7_bound; [lia|]. by rewrite Nat2Z.inj_succ in Hv.
  - rewrite byte_val_of, Z.mod_small, (proj2 (Z.ltb_lt _ _)), (conv_lor _ _ _ _ HT) by lia.
    change 127 with (Z.ones 7). rewrite Z.land_ones, Z.mod_small by lia. done.
Qed.

Lemma reads_varint n T v : converts n T → is_u64 v → reads (get_varint T) (varint v) (T v).
Proof.
  intros HT Hv pre post _. unfold get_varint.
  rewrite <- (conv_0 n T HT) at 2. unfold varint.
  rewrite (reads_groups n T); [|done|lia|by apply u64_ten_groups|lia].
  by rewrite Z.lor_0_l, Z.shiftl_0_r.
Qed.

Lemma reads_u64 v : is_u64 v → reads (get_varint wrap_u64) (varint v) v.
Proof. intros Hv. rewrite <- (wrap_u64_id v Hv) at 2. by apply (reads_varint 64); auto with wire. Qed.

Lemma reads_get_uint v : is_u64 v → reads (get_uint 0) (varint (wrap_u64 v)) v.
Proof. intros Hv. rewrite (wrap_u64_id v Hv). by apply reads_u64. Qed.

Lemma reads_get_enum v : - 2 ^ 31 ≤ v < 2 ^ 31 → reads (get_enum 0) (varint (wrap_u64 v)) v.
Proof.
  intros Hv. rewrite <- (enum_roundtrip v Hv) at 2. apply (reads_varint 32 wrap_i32); auto with wire.
Qed.

Lemma reads_get_bool (b : bool) : reads (get_bool 0) [byte_of (if b then 1 else 0)] b.
Proof.
  intros pre post Hl. unfold get_bool; cbn [Z.eqb negb].
  assert (Hv : is_u64 (if b then 1 else 0)) by (destruct b; unfold is_u64, max_u64; lia).
  pose proof (reads_varint 64 wrap_i64 _ i64_converts Hv pre post) as Hr.
  replace (varint (if b then 1 else 0)) with [byte_of (if b then 1 else 0)] in Hr by by destruct b.
  rewrite Hr by done. cbn [mbind res_bind]. by rewrite bool_word_roundtrip.
Qed.

Lemma reads_take_field pre e post : llen (pre ++ e ++ post) ≤ max_i64 →
  take_field (llen e) (pre ++ e ++ post) (llen pre) = Ok (e, llen pre + llen e).
Proof.
  intros Hl. unfold take_field. rewrite !llen_app in Hl.
  pose proof (llen_nonneg pre). pose proof (llen_nonneg e). pose proof (llen_nonneg post).
  rewrite wrap_i64_id by (unfold min_i64; lia).
  rewrite (proj2 (Z.ltb_ge (llen e) 0)), (proj2 (Z.ltb_ge (llen pre + llen e) 0)), (proj2 (Z.ltb_ge _ (llen pre + llen e)))
    by (rewrite ?llen_app; lia).
  by rewrite slice_mid.
Qed.

(** A length that is read in [T] and converted to int, then the bytes. *)
Lemma reads_len T (HT : converts 64 T) {A} (k : bytes → res A) e a :
  k e = Ok a →
  reads (λ d i, '(n, i) ← get_varint T d i; '(f, i) ← take_field (wrap_i64 n) d i; x ← k f; Ok (x, i))
    (varint (wrap_u64 (llen e)) ++ e) a.
Proof.
  intros Hk pre post Hl. rewrite <- app_assoc in *.
  assert (Hle : llen e ≤ max_i64)
    by (rewrite !llen_app in Hl; pose proof (llen_nonneg pre); pose proof (llen_nonneg post);
        pose proof (llen_nonneg (varint (wrap_u64 (llen e)))); lia).
  pose proof (llen_nonneg e). assert (Hu : is_u64 (llen e)) by (unfold is_u64, max_u64, max_i64 in *; lia).
  rewrite (wrap_u64_id _ Hu) in *.
  rewrite (reads_varint 64 T (llen e) HT Hu pre (e ++ post) Hl). cbn [mbind res_bind].
  replace (wrap_i64 (T (llen e))) with (llen e).
  2: { rewrite <- (wrap_i64_id (llen e)) at 1 by (unfold min_i64; lia).
       apply (conv_ext _ _ i64_converts). by rewrite (conv_mod _ _ HT). }
  rewrite app_assoc, <- llen_app. rewrite reads_take_field by by rewrite <- app_assoc. cbn [mbind res_bind].
  rewrite Hk. cbn [mbind res_bind]. do 2 f_equal. rewrite !llen_app. lia.
Qed.

Lemma reads_get_string s : reads (get_string 2) (varint (wrap_u64 (llen (to_bytes s))) ++ to_bytes s) s.
Proof.
  intros pre post Hl. unfold get_string; cbn [Z.eqb Pos.eqb negb].
  pose proof (reads_len wrap_u64 u64_converts (λ f, Ok (of_bytes f)) (to_bytes s) s) as Hr.
  exact (Hr (f_equal Ok (of_to_bytes s)) pre post Hl).
Qed.

Lemma get_varint_range n T d i v j : converts n T → get_varint T d i = Ok (v, j) → T v = v.
Proof.
  intros HT. unfold get_varint. generalize 10%nat at 1. intros g.
  enough (∀ shift acc i, varint_loop T g shift acc d i = Ok (v, j) → T v = v) as He by apply He.
  induction g as [|g IH]; cbn; intros shift acc i'; [done|]. destruct (_ <=? _); [done|].
  destruct (get_byte d i') as [b| |]; cbn [mbind res_bind]; [|done..].
  destruct (b <? 128); [|apply IH]. intros [= <- _]. by apply (conv_idem n).
Qed.

Lemma reads_get_msg {A} (u : bytes → res A) e a :
  u e = Ok a → reads (get_msg u 2) (varint (wrap_u64 (llen e)) ++ e) a.
Proof.
  intros Hu pre post Hl. pose proof (reads_len wrap_i64 i64_converts u e a Hu pre post Hl) as Hr.
  cbv beta in Hr. unfold get_msg, get_field; cbn [Z.eqb Pos.eqb negb].
  destruct (get_varint wrap_i64 (pre ++ _) (llen pre)) as [[n i]| |] eqn:E; cbn [mbind res_bind] in *; [|done..].
  rewrite (get_varint_range _ _ _ _ _ _ i64_converts E) in Hr. exact Hr.
Qed.

Lemma reads_get_bytes s : reads (get_bytes 2) (varint (wrap_u64 (llen (to_bytes s))) ++ to_bytes s) s.
Proof.
  intros pre post Hl. pose proof (reads_get_msg (λ f, Ok (of_bytes f)) (to_bytes s) s) as Hr.
  exact (Hr (f_equal Ok (of_to_bytes s)) pre post Hl).
Qed.

(** ** Reading a message *)

Section decodes.
Context {A : Type} (switch : Z → Z → bytes → Z → A → option (res (A * Z))) (default : bytes → Z → A → res (A * Z)).

(** One round of the loop consumes [e] and turns [m] into [m']. *)
Definition parses (e : bytes) (m m' : A) : Prop :=
  e ≠ [] ∧ reads (λ d i, unmarshal_field switch default d i m) e m'.

Inductive decodes_by : bytes → A → A → Prop :=
  | decodes_nil m : decodes_by [] m m
  | decodes_cons e rest m m1 m2 : parses e m m1 → decodes_by rest m1 m2 → decodes_by (e ++ rest) m m2.

Lemma decodes_one e m m' : parses e m m' → decodes_by e m m'.
Proof. intros Hp. rewrite <- (app_nil_r e). by eapply decodes_cons; [|apply decodes_nil]. Qed.

Lemma decodes_app e1 e2 m m1 m2 : decodes_by e1 m m1 → decodes_by e2 m1 m2 → decodes_by (e1 ++ e2) m m2.
Proof.
  intros H1 H2. induction H1 as [|e rest m m' m1 Hp _ IH]; [done|]. rewrite <- app_assoc.
  by eapply decodes_cons; [|apply IH].
Qed.

Lemma decodes_loop e m m' : decodes_by e m m' → ∀ fuel pre,
  (length e ≤ fuel)%nat → llen (pre ++ e) ≤ max_i64 → unmarshal_loop switch default fuel (pre ++ e) (llen pre) m = Ok m'.
Proof.
  induction 1 as [m|e rest m m1 m2 [Hne Hp] _ IH]; intros fuel pre Hf Hl.
  - rewrite app_nil_r. destruct fuel; cbn; by rewrite Z.ltb_irrefl.
  - rewrite length_app in Hf. destruct e as [|b e]; [done|]. destruct fuel as [|fuel]; [cbn in Hf; lia|].
    cbn [unmarshal_loop]. rewrite (proj2 (Z.ltb_lt _ _)).
    2: { rewrite llen_app. cbn [app]. rewrite llen_cons. pose proof (llen_nonneg (e ++ rest)). lia. }
    rewrite (Hp pre rest Hl). cbn [mbind res_bind]. rewrite app_assoc, <- llen_app.
    apply IH; [cbn in Hf; lia|by rewrite <- app_assoc].
Qed.

Lemma unmarshal_with_decodes e m m' : decodes_by e m m' → llen e ≤ max_i64 → unmarshal_with switch default e m = Ok m'.
Proof. intros Hd Hl. unfold unmarshal_with. by apply (decodes_loop e m m' Hd (length e) []). Qed.

(** A tag of one byte, then what its case of the switch reads. *)
Lemma parses_tag num wt payload m m' :
  0 < num < 16 → 0 ≤ wt < 8 → wt ≠ 4 →
  (∀ pre post, llen (pre ++ payload ++ post) ≤ max_i64 →
     switch num wt (pre ++ payload ++ post) (llen pre) m = Some (Ok (m', llen pre + llen payload))) →
  parses (byte_of (num * 8 + wt) :: payload) m m'.
Proof.
  intros Hn Hw H4 Hs. split; [done|]. intros pre post Hl. unfold unmarshal_field.
  set (t := num * 8 + wt) in *. assert (Ht : is_u64 t) by (unfold is_u64, max_u64; lia).
  pose proof (reads_u64 t Ht pre (payload ++ post)) as Hr.
  replace (varint t) with [byte_of t] in Hr.
  2: { unfold varint; cbn [varint_groups]. by rewrite (proj2 (Z.leb_gt 128 t)) by lia. }
  change ((byte_of t :: payload) ++ post) with ([byte_of t] ++ payload ++ post) in *.
  rewrite Hr by done. cbn [mbind res_bind].
  replace (Z.shiftr t 3) with num by (rewrite Z.shiftr_div_pow2 by lia; apply (Z.div_unique_pos _ _ _ wt); lia).
  replace (Z.land t 7) with wt
    by (change 7 with (Z.ones 3); rewrite Z.land_ones by lia; apply (Z.mod_unique_pos _ _ num); lia).
  rewrite wrap_i32_id, (proj2 (Z.eqb_neq wt 4)), (proj2 (Z.leb_gt num 0)) by lia.
  specialize (Hs (pre ++ [byte_of t]) post). rewrite <- !app_assoc, !llen_app in Hs.
  rewrite Hs by (rewrite !llen_app in Hl; lia). do 2 f_equal. rewrite (llen_cons _ payload). change (llen [byte_of t]) with 1. lia.
Qed.

(** The fields of a message, one lemma per kind. The last premise is what a case of the switch does
    with the value its reader returns; it holds by computation. *)
Lemma decodes_field {X} num wt tag payload (r : bytes → Z → res (X * Z)) x m m' :
  tag = num * 8 + wt → 0 < num < 16 → 0 ≤ wt < 8 → wt ≠ 4 → reads r payload x →
  (∀ d i j, r d i = Ok (x, j) → switch num wt d i m = Some (Ok (m', j))) →
  decodes_by (byte_of tag :: payload) m m'.
Proof.
  intros -> Hn Hw H4 Hr Hs. apply decodes_one, parses_tag; [done..|].
  intros pre post Hl. apply Hs. by apply Hr.
Qed.

Lemma decodes_uint num tag v m m' :
  tag = num * 8 + 0 → 0 < num < 16 → is_u64 v → (v = 0 → m = m') →
  (∀ d i j, get_uint 0 d i = Ok (v, j) → switch num 0 d i m = Some (Ok (m', j))) →
  decodes_by (enc_uint tag v) m m'.
Proof.
  intros Ht Hn Hv H0 Hs. unfold enc_uint. destruct (Z.eqb_spec v 0) as [E|E].
  - rewrite (H0 E). apply decodes_nil.
  - eapply (decodes_field num 0); [done|done|lia|done|by apply reads_get_uint|done].
Qed.

Lemma decodes_enum num tag v m m' :
  tag = num * 8 + 0 → 0 < num < 16 → - 2 ^ 31 ≤ v < 2 ^ 31 → (v = 0 → m = m') →
  (∀ d i j, get_enum 0 d i = Ok (v, j) → switch num 0 d i m = Some (Ok (m', j))) →
  decodes_by (enc_uint tag v) m m'.
Proof.
  intros Ht Hn Hv H0 Hs. unfold enc_uint. destruct (Z.eqb_spec v 0) as [E|E].
  - rewrite (H0 E). apply decodes_nil.
  - eapply (decodes_field num 0); [done|done|lia|done|by apply reads_get_enum|done].
Qed.

Lemma decodes_bool num tag (b : bool) m m' :
  tag = num * 8 + 0 → 0 < num < 16 → (b = false → m = m') →
  (∀ d i j, get_bool 0 d i = Ok (b, j) → switch num 0 d i m = Some (Ok (m', j))) →
  decodes_by (enc_bool tag b) m m'.
Proof.
  intros Ht Hn H0 Hs. unfold enc_bool. destruct b eqn:E.
  - eapply (decodes_field num 0); [done|done|lia|done|by apply (reads_get_bool true)|done].
  - rewrite (H0 eq_refl). apply decodes_nil.
Qed.

Lemma decodes_len {X} num tag e (r : Z → bytes → Z → res (X * Z)) x m m' :
  tag = num * 8 + 2 → 0 < num < 16 → reads (r 2) (varint (wrap_u64 (llen e)) ++ e) x →
  (∀ d i j, r 2 d i = Ok (x, j) → switch num 2 d i m = Some (Ok (m', j))) →
  decodes_by (len_field tag e) m m'.
Proof. intros Ht Hn Hr Hs. by eapply (decodes_field num 2); [done|done|lia|done|apply Hr|]. Qed.

(** A string or bytes field; [r] is [get_string] or [get_bytes]. *)
Lemma decodes_str num tag s (r : Z → bytes → Z → res (string * Z)) m m' :
  tag = num * 8 + 2 → 0 < num < 16 → (∀ s, reads (r 2) (varint (wrap_u64 (llen (to_bytes s))) ++ to_bytes s) s) →
  (s = ""%string → m = m') →
  (∀ d i j, r 2 d i = Ok (s, j) → switch num 2 d i m = Some (Ok (m', j))) →
  decodes_by (enc_str tag s) m m'.
Proof.
  intros Ht Hn Hr H0 Hs. unfold enc_str. destruct (Z.ltb_spec 0 (len s)) as [E|E].
  - eapply (decodes_len num); [done|done|apply Hr|done].
  - rewrite H0; [apply decodes_nil|]. destruct s; [done|]. unfold len in E. cbn in E. lia.
Qed.

(** An optional field; [build] is the message as a function of its value. *)
Lemma decodes_opt {B} (f : B → bytes) (build : option B → A) o :
  (∀ x, o = Some x → decodes_by (f x) (build None) (build (Some x))) → decodes_by (enc_opt f o) (build None) (build o).
Proof. intros Hs. destruct o as [x|]; [by apply Hs|apply decodes_nil]. Qed.

(** A repeated field; [build] is the message as a function of the elements read so far. *)
Lemma decodes_each {B} (f : B → bytes) (build : list B → A) l :
  (∀ seen x, x ∈ l → decodes_by (f x) (build seen) (build (seen ++ [x]))) →
  decodes_by (enc_each f l) (build []) (build l).
Proof.
  intros Hs. enough (∀ k seen, (∀ x, x ∈ k → x ∈ l) → decodes_by (enc_each f k) (build seen) (build (seen ++ k))) as He
    by by apply (He l []).
  induction k as [|x k IH]; intros seen Hk; [rewrite app_nil_r; apply decodes_nil|].
  change (enc_each f (x :: k)) with (f x ++ enc_each f k). eapply decodes_app; [apply Hs, Hk; left|].
  replace (seen ++ x :: k) with ((seen ++ [x]) ++ k) by by rewrite <- app_assoc. apply IH. intros y Hy. apply Hk. by right.
Qed.
End decodes.

(** With the default case that skips the field. *)
Notation decodes switch := (decodes_by switch skip_field).

Lemma unmarshal_decodes {A} (switch : Z → Z → bytes → Z → A → option (res (A * Z))) e m m' :
  decodes switch e m m' → llen e ≤ max_i64 → unmarshal switch e m = Ok m'.
Proof. apply unmarshal_with_decodes. Qed.

(** Proves that a case of the switch hands on what its reader returns. *)
Ltac head_of t := lazymatch t with ?f _ => head_of f | _ => t end.
Ltac switch_case :=
  let E := fresh "E" in
  intros ? ? ? E; match goal with |- ?t = _ => let h := head_of t in unfold h end;
  cbv beta iota zeta; rewrite E; reflexivity.

(** ** Safety *)

Definition safe {A} (lo : Z) (d : bytes) (r : res (A * Z)) : Prop :=
  match r with Ok (_, j) => lo ≤ j ≤ llen d | Err _ => True | Panic => False end.

Lemma safe_mono {A} lo lo' d (r : res (A * Z)) : lo ≤ lo' → safe lo' d r → safe lo d r.
Proof. destruct r as [[x j]| |]; cbn; [lia|done..]. Qed.

Lemma safe_bind {A B} lo d (r : res (A * Z)) (k : A * Z → res (B * Z)) :
  safe lo d r → (∀ x j, lo ≤ j ≤ llen d → safe lo d (k (x, j))) → safe lo d (r ≫= k).
Proof. destruct r as [[x j]| |]; cbn; auto. Qed.

Lemma safe_varint T g d : ∀ shift v i, 0 ≤ i ≤ llen d → safe (i + 1) d (varint_loop T g shift v d i).
Proof.
  induction g as [|g IH]; cbn [varint_loop]; intros shift v i Hi; [done|].
  destruct (Z.leb_spec (llen d) i); [done|]. destruct (get_byte_ok d i) as (b & -> & _); [lia|]. cbn [mbind res_bind].
  destruct (b <? 128); [cbn; lia|]. eapply safe_mono; [|apply IH]; lia.
Qed.

Lemma safe_get_varint T d i : 0 ≤ i ≤ llen d → safe (i + 1) d (get_varint T d i).
Proof. apply safe_varint. Qed.

Lemma wrap_i64_range x : min_i64 ≤ wrap_i64 x ≤ max_i64.
Proof. unfold wrap_i64, min_i64, max_i64. pose proof (Z.mod_pos_bound (x + 2 ^ 63) (2 ^ 64)). lia. Qed.

(** A sum of two non-negative ints is exact or negative. *)
Lemma wrap_i64_sum a b : 0 ≤ a ≤ max_i64 → 0 ≤ b ≤ max_i64 → wrap_i64 (a + b) = a + b ∨ wrap_i64 (a + b) < 0.
Proof.
  intros Ha Hb. destruct (Z.le_gt_cases (a + b) max_i64); [left; apply wrap_i64_id; unfold min_i64; lia|right].
  unfold wrap_i64, max_i64 in *. rewrite <- (Z.mod_unique_pos (a + b + 2 ^ 63) (2 ^ 64) 1 (a + b + 2 ^ 63 - 2 ^ 64)); lia.
Qed.

Lemma safe_take_field n d i : n ≤ max_i64 → 0 ≤ i ≤ llen d → llen d ≤ max_i64 → safe i d (take_field n d i).
Proof.
  intros Hn Hi Hd. unfold take_field. destruct (Z.ltb_spec n 0); [done|].
  destruct (Z.ltb_spec (wrap_i64 (i + n)) 0); [done|]. destruct (Z.ltb_spec (llen d) (wrap_i64 (i + n))); [done|].
  destruct (wrap_i64_sum i n) as [E|E]; [lia..| |lia].
  destruct (slice_ok d i (wrap_i64 (i + n))) as (s & -> & _); [lia..|]. cbn. lia.
Qed.

Lemma safe_get_uint wt d i : 0 ≤ i ≤ llen d → safe (i + 1) d (get_uint wt d i).
Proof. intros. unfold get_uint. destruct (negb _); [done|by apply safe_get_varint]. Qed.
Lemma safe_get_enum wt d i : 0 ≤ i ≤ llen d → safe (i + 1) d (get_enum wt d i).
Proof. intros. unfold get_enum. destruct (negb _); [done|by apply safe_get_varint]. Qed.
Lemma safe_get_bool wt d i : 0 ≤ i ≤ llen d → safe (i + 1) d (get_bool wt d i).
Proof.
  intros. unfold get_bool. destruct (negb _); [done|]. apply safe_bind; [by apply safe_get_varint|]. done.
Qed.

Lemma safe_get_field wt d i : 0 ≤ i ≤ llen d → llen d ≤ max_i64 → safe (i + 1) d (get_field wt d i).
Proof.
  intros Hi Hd. unfold get_field. destruct (negb _); [done|].
  destruct (get_varint wrap_i64 d i) as [[n j]| |] eqn:E; cbn [mbind res_bind];
    [|done|by pose proof (safe_get_varint wrap_i64 d i Hi) as Hs; rewrite E in Hs].
  pose proof (safe_get_varint wrap_i64 d i Hi) as Hs. rewrite E in Hs. cbn in Hs.
  apply get_varint_range with (n := 64) in E; [|auto with wire]. pose proof (wrap_i64_range n).
  eapply safe_mono; [|apply safe_take_field]; lia.
Qed.

Lemma safe_get_string wt d i : 0 ≤ i ≤ llen d → llen d ≤ max_i64 → safe (i + 1) d (get_string wt d i).
Proof.
  intros Hi Hd. unfold get_string. destruct (negb _); [done|]. apply safe_bind; [by apply safe_get_varint|].
  intros n j Hj. apply safe_bind; [|done]. pose proof (wrap_i64_range n).
  eapply safe_mono; [|apply safe_take_field]; lia.
Qed.

Lemma safe_get_bytes wt d i : 0 ≤ i ≤ llen d → llen d ≤ max_i64 → safe (i + 1) d (get_bytes wt d i).
Proof. intros Hi Hd. unfold get_bytes. apply safe_bind; [by apply safe_get_field|done]. Qed.

(** A decoder that returns on every input of at most 2^63 - 1 bytes. *)
Definition total {A} (u : bytes → res A) : Prop := ∀ b, llen b ≤ max_i64 → u b ≠ Panic.

Lemma take_field_short n d i f j : 0 ≤ i → take_field n d i = Ok (f, j) → llen f ≤ llen d.
Proof.
  intros Hi. unfold take_field. repeat (destruct (_ <? _); [done|]).
  unfold slice. destruct (_ && _); [|done]. cbn. intros [= <- _].
  unfold llen. rewrite length_take, length_drop. lia.
Qed.

Lemma safe_get_msg {A} (u : bytes → res A) wt d i :
  total u → 0 ≤ i ≤ llen d → llen d ≤ max_i64 → safe (i + 1) d (get_msg u wt d i).
Proof.
  intros Hu Hi Hd. unfold get_msg. pose proof (safe_get_field wt d i Hi Hd) as Hs.
  destruct (get_field wt d i) as [[f j]| |] eqn:E; cbn [mbind res_bind]; [|done..]. cbn in Hs.
  assert (llen f ≤ max_i64).
  { unfold get_field in E. destruct (negb _); [done|].
    pose proof (safe_get_varint wrap_i64 d i Hi) as Hv.
    destruct (get_varint wrap_i64 d i) as [[n j']| |]; cbn [mbind res_bind] in E; [|done..]. cbn in Hv.
    apply take_field_short in E; lia. }
  destruct (u f) eqn:Eu; cbn; [lia|done|]. by apply (Hu f).
Qed.
#[export] Hint Resolve safe_get_uint safe_get_enum safe_get_bool safe_get_string safe_get_bytes safe_get_msg : wire.

(** Skipping an unknown field reads at least one byte, and needs no more rounds than there are bytes. *)
Lemma skip_varint_safe g d : ∀ i, 0 ≤ i ≤ llen d →
  match skip_varint g d i with Ok j => i + 1 ≤ j ≤ llen d | Err _ => True | Panic => False end.
Proof.
  induction g as [|g IH]; cbn [skip_varint]; intros i Hi; [done|].
  destruct (Z.leb_spec (llen d) i); [done|]. destruct (get_byte_ok d i) as (b & -> & _); [lia|]. cbn [mbind res_bind].
  destruct (b <? 128); [lia|]. specialize (IH (i + 1) ltac:(lia)).
  destruct (skip_varint g d (i + 1)); [lia|done..].
Qed.

Lemma skip_switch_safe wt d i depth : 0 ≤ i ≤ llen d → llen d ≤ max_i64 →
  match skip_switch wt d i depth with
  | Ok (j, _) => j ≤ max_i64 ∧ (j < 0 ∨ i ≤ j) | Err _ => True | Panic => False end.
Proof.
  intros Hi Hd.
  assert (Hw : ∀ k, 0 ≤ k ≤ max_i64 → wrap_i64 (i + k) ≤ max_i64 ∧ (wrap_i64 (i + k) < 0 ∨ i ≤ wrap_i64 (i + k))).
  { intros k Hk. pose proof (wrap_i64_range (i + k)). destruct (wrap_i64_sum i k); lia. }
  assert (Hv : match (iNdEx ← skip_varint 10 d i; Ok (iNdEx, depth)) with
               | Ok (j, _) => j ≤ max_i64 ∧ (j < 0 ∨ i ≤ j) | Err _ => True | Panic => False end).
  { pose proof (skip_varint_safe 10 d i Hi). destruct (skip_varint 10 d i); cbn; [lia|done..]. }
  assert (Hl : match ('(n, j) ← get_varint wrap_i64 d i;
                      if n <? 0 then Err (Wire ErrInvalidLength) else Ok (wrap_i64 (j + n), depth)) with
               | Ok (j, _) => j ≤ max_i64 ∧ (j < 0 ∨ i ≤ j) | Err _ => True | Panic => False end).
  { pose proof (safe_get_varint wrap_i64 d i Hi) as Hs.
    destruct (get_varint wrap_i64 d i) as [[n j]| |] eqn:E; cbn in Hs |- *; [|done..].
    apply get_varint_range with (n := 64) in E; [|auto with wire]. pose proof (wrap_i64_range n).
    destruct (Z.ltb_spec n 0); [done|]. pose proof (wrap_i64_range (j + n)). destruct (wrap_i64_sum j n); lia. }
  unfold skip_switch.
  repeat match goal with |- context [match ?x with Z0 => _ | Zpos _ => _ | Zneg _ => _ end] => is_var x; destruct x as [|x|] end; try done.
  repeat match goal with |- context [match ?x with xH => _ | xO _ => _ | xI _ => _ end] => is_var x; destruct x as [x|x|] end; try done;
    try (apply Hw; unfold max_i64; lia); try lia.
  destruct (depth =? 0); [done|lia].
Qed.

Lemma skip_loop_safe fuel d : ∀ i depth, 0 ≤ i → llen d ≤ max_i64 → llen d - i ≤ Z.of_nat fuel →
  match skip_loop fuel d i depth with Ok j => i + 1 ≤ j ≤ max_i64 | Err _ => True | Panic => False end.
Proof.
  induction fuel as [|fuel IH]; intros i depth Hi Hd Hf; cbn [skip_loop];
    (destruct (Z.ltb_spec i (llen d)); [|done]); [lia|].
  pose proof (safe_get_varint wrap_u64 d i ltac:(lia)) as Hv.
  destruct (get_varint wrap_u64 d i) as [[wire i1]| |]; cbn in Hv |- *; [|done..].
  pose proof (skip_switch_safe (Z.land wire 7) d i1 depth ltac:(lia) Hd) as Hs.
  destruct (skip_switch _ _ _ _) as [[i2 depth2]| |]; cbn; [|done..].
  destruct (Z.ltb_spec i2 0); [done|]. destruct (depth2 =? 0); [lia|].
  specialize (IH i2 depth2 ltac:(lia) Hd ltac:(lia)). destruct (skip_loop fuel d i2 depth2); [lia|done..].
Qed.

Lemma skip_field_safe {A} d i (m : A) : 0 ≤ i ≤ llen d → llen d ≤ max_i64 → safe (i + 1) d (skip_field d i m).
Proof.
  intros Hi Hd. unfold skip_field. destruct (slice_ok d i (llen d)) as (rest & -> & Hr); [lia..|]. cbn [mbind res_bind].
  unfold skip. pose proof (skip_loop_safe (length rest) rest 0 0) as Hs.
  destruct (skip_loop _ _ _ _) as [k| |]; cbn [mbind res_bind].
  - specialize (Hs ltac:(lia) ltac:(lia) ltac:(unfold llen; lia)).
    destruct (Z.ltb_spec k 0); [done|]. destruct (Z.ltb_spec (wrap_i64 (i + k)) 0); [done|]. cbn [orb].
    destruct (Z.ltb_spec (llen d) (wrap_i64 (i + k))); [done|]. destruct (wrap_i64_sum i k); cbn; lia.
  - done.
  - apply Hs; [lia|lia|unfold llen; lia].
Qed.

Section total.
Context {A : Type} (switch : Z → Z → bytes → Z → A → option (res (A * Z))) (default : bytes → Z → A → res (A * Z)).

(** What a message has to show: no case of its switch panics or moves back. *)
Definition switch_safe : Prop := ∀ num wt d i m, 0 ≤ i ≤ llen d → llen d ≤ max_i64 →
  match switch num wt d i m with Some r => safe i d r | None => True end.

Definition default_safe : Prop := ∀ d i m, 0 ≤ i ≤ llen d → llen d ≤ max_i64 → safe (i + 1) d (default d i m).

Lemma unmarshal_loop_safe (Hsw : switch_safe) (Hdf : default_safe) fuel d : ∀ i m,
  0 ≤ i ≤ llen d → llen d ≤ max_i64 → llen d - i ≤ Z.of_nat fuel → unmarshal_loop switch default fuel d i m ≠ Panic.
Proof.
  induction fuel as [|fuel IH]; intros i m Hi Hd Hf; cbn [unmarshal_loop];
    (destruct (Z.ltb_spec i (llen d)); [|by destruct (_ <? _)]); [lia|].
  assert (Hs : safe (i + 1) d (unmarshal_field switch default d i m)).
  { unfold unmarshal_field. pose proof (safe_get_varint wrap_u64 d i Hi) as Hv.
    destruct (get_varint wrap_u64 d i) as [[wire j]| |]; cbn in Hv |- *; [|done..].
    destruct (_ =? 4); [done|]. destruct (_ <=? 0); [done|].
    pose proof (Hsw (wrap_i32 (Z.shiftr wire 3)) (Z.land wire 7) d j m ltac:(lia) Hd) as Hc.
    destruct (switch _ _ _ _ _) as [r|]; [|by apply Hdf].
    eapply safe_mono; [|exact Hc]. lia. }
  destruct (unmarshal_field switch default d i m) as [[m1 i1]| |]; cbn in Hs |- *; [|done..].
  apply IH; lia.
Qed.

Lemma unmarshal_with_total (Hsw : switch_safe) (Hdf : default_safe) m : total (λ d, unmarshal_with switch default d m).
Proof.
  intros d Hd. unfold unmarshal_with. apply unmarshal_loop_safe; [done|done| |done|unfold llen; lia].
  pose proof (llen_nonneg d). lia.
Qed.
End total.

Lemma unmarshal_total {A} (switch : Z → Z → bytes → Z → A → option (res (A * Z))) (Hsw : switch_safe switch) m :
  total (λ d, unmarshal switch d m).
Proof. apply unmarshal_with_total; [done|]. intros d i x. apply skip_field_safe. Qed.

(** Proves [switch_safe] of a message: every case binds a safe reader. *)
Ltac solve_switch_safe :=
  match goal with |- switch_safe ?f => let h := head_of f in unfold switch_safe, h end;
  intros num wt d i m Hi Hd; cbv zeta;
  repeat match goal with
  | |- match (match ?x with _ => _ end) with _ => _ end => is_var x; destruct x; try done
  end;
  (eapply safe_mono; [apply Z.le_succ_diag_r|unfold Z.succ]);
  (apply safe_bind; [auto with wire|intros; cbn; lia]).

(** ** Proofs about a message

    [solve_writes] and [solve_size]: the statements of a message write its fields, and Size is their
    length. [dec_uint n] and its like: the next field to be read is the [n]-th; the message after
    it is computed from the switch. *)

Ltac writes_leaf :=
  first
    [ solve [eauto with wire]
    | apply writes_enc_opt; solve [eauto with wire]
    | apply writes_enc_each, Forall_forall; solve [eauto with wire] ].
Ltac solve_writes :=
  match goal with |- writes ?w ?e =>
    let hw := head_of w in let he := head_of e in unfold hw, he end;
  rewrite ?app_assoc;
  repeat (apply writes_andthen; [writes_leaf|]); writes_leaf.

Ltac last_or_app t := first [eapply decodes_app; [t|] | t].
Ltac dec_uint n :=
  last_or_app ltac:(eapply (decodes_uint _ _ n); [..|switch_case]; [reflexivity|lia|solve [eauto with wire]|intros ->; reflexivity]).
Ltac dec_enum n :=
  last_or_app ltac:(eapply (decodes_enum _ _ n); [..|switch_case]; [reflexivity|lia|solve [eauto with wire]|intros ->; reflexivity]).
Ltac dec_bool n :=
  last_or_app ltac:(eapply (decodes_bool _ _ n); [..|switch_case]; [reflexivity|lia|intros ->; reflexivity]).
Ltac dec_string n :=
  last_or_app ltac:(eapply (decodes_str _ _ n _ _ get_string); [..|switch_case]; [reflexivity|lia|apply reads_get_string|intros ->; reflexivity]).
Ltac dec_bytes n :=
  last_or_app ltac:(eapply (decodes_str _ _ n _ _ get_bytes); [..|switch_case]; [reflexivity|lia|apply reads_get_bytes|intros ->; reflexivity]).
Ltac dec_msg n u :=
  last_or_app ltac:(eapply (decodes_len _ _ n _ _ (get_msg u)); [..|switch_case]; [reflexivity|lia|apply reads_get_msg; cbv beta; solve [eauto with wire]]).
Ltac dec_each n r build :=
  last_or_app ltac:(eapply (decodes_each _ _ _ build); intros ? ? ?;
    eapply (decodes_len _ _ n _ _ r); [..|switch_case]; [reflexivity|lia|]).
