(* ===== verification/Codec.v ===== *)
(** * Lawful messages

    What the four methods of a generated message owe each other: MarshalToSizedBuffer writes the bytes
    [wire m], Size is their number, Unmarshal of them gives the message back, and Unmarshal of
    anything else neither panics nor loops. A message is proved [lawful] once; its round trip, its
    totality and its use as a field of another message follow here. *)

From stdpp Require Import base tactics option list strings.
From Stdlib Require Import ZArith Lia Ascii.
From S2P Require Import Prelude Wire WireProps.
Open Scope Z_scope.

(** [fits]: the values whose Go fields hold them (a uint64, an amount, a time). [go]: the message as
    Go decodes it, which differs when it has an enumeration. *)
Record lawful {A G : Type} (fits : A → Prop) (write : A → writer) (size : A → Z) (wire : A → bytes)
    (switch : Z → Z → bytes → Z → G → option (res (G * Z))) (zero : G) (go : A → G) : Prop := mkLawful {
  law_writes m : fits m → writes (write m) (wire m);
  law_size m : fits m → size m = llen (wire m);
  law_decodes m : fits m → llen (wire m) ≤ max_i64 → decodes switch (wire m) zero (go m);
  law_safe : switch_safe switch }.
Existing Class lawful.

(** Marshal returns Size bytes, from which Unmarshal gets [g]. *)
Definition roundtrips {G} (marshaled : res bytes) (size : Z) (unmarshal : bytes → res G) (g : G) : Prop :=
  ∃ b, marshaled = Ok b ∧ llen b = size ∧ unmarshal b = Ok g.

(** On every input a value or an error, never a panic: index out of range, or a loop without end. *)
Definition returns {G} (unmarshal : bytes → res G) : Prop :=
  ∀ b, llen b ≤ max_i64 → (∃ m, unmarshal b = Ok m) ∨ (∃ e, unmarshal b = Err e).

Lemma total_returns {G} (u : bytes → res G) : total u → returns u.
Proof. intros Hu b Hb. specialize (Hu b Hb). destruct (u b); [by left; eexists|by right; eexists|done]. Qed.

Lemma roundtrips_map {X R} mar size (u : bytes → res X) g (f : X → R) r :
  roundtrips mar size u g → f g = r → roundtrips mar size (λ b, x ← u b; Ok (f x)) r.
Proof. intros (b & Hm & Hl & Hu) <-. exists b. by rewrite Hu. Qed.

Lemma returns_map {X R} (u : bytes → res X) (f : X → R) : returns u → returns (λ b, x ← u b; Ok (f x)).
Proof. intros Hu b Hb. destruct (Hu b Hb) as [[m ->]|[e ->]]; cbn; eauto. Qed.

Section lawful.
Context {A G : Type} {fits : A → Prop} {write : A → writer} {size : A → Z} {wire : A → bytes}.
Context {switch : Z → Z → bytes → Z → G → option (res (G * Z))} {zero : G} {go : A → G}.
Context {L : lawful fits write size wire switch zero go}.

Lemma lawful_reads m : fits m → llen (wire m) ≤ max_i64 → unmarshal switch (wire m) zero = Ok (go m).
Proof. intros Hm Hl. apply unmarshal_decodes; [|done]. by apply (law_decodes _ _ _ _ _ _ _ L). Qed.

Lemma lawful_marshal m : fits m → marshal (size m) (write m) = Ok (wire m).
Proof. intros Hm. apply marshal_ok; [by apply (law_writes _ _ _ _ _ _ _ L)|by apply (law_size _ _ _ _ _ _ _ L)]. Qed.

Lemma lawful_roundtrip m : fits m → size m ≤ max_i64 →
  roundtrips (marshal (size m) (write m)) (size m) (λ b, unmarshal switch b zero) (go m).
Proof.
  intros Hm Hl. pose proof (law_size _ _ _ _ _ _ _ L m Hm) as Hs. exists (wire m).
  split_and!; [by apply lawful_marshal|done|]. apply lawful_reads; [done|lia].
Qed.

Lemma lawful_roundtrip_as m g : go m = g → fits m → size m ≤ max_i64 →
  roundtrips (marshal (size m) (write m)) (size m) (λ b, unmarshal switch b zero) g.
Proof. intros <-. apply lawful_roundtrip. Qed.

Lemma lawful_total m : total (λ b, unmarshal switch b m).
Proof. apply unmarshal_total, (law_safe _ _ _ _ _ _ _ L). Qed.

Lemma lawful_returns : returns (λ b, unmarshal switch b zero).
Proof. apply total_returns, lawful_total. Qed.

(** ** As a field, single or repeated *)

Lemma writes_sub tag m : fits m → writes (put_msg tag (to_sized_buffer (write m))) (len_field tag (wire m)).
Proof. intros Hm. apply writes_msg, writes_sized_buffer. by apply (law_writes _ _ _ _ _ _ _ L). Qed.

Lemma size_sub tag m : fits m → llen (len_field tag (wire m)) = size_len (size m).
Proof. intros Hm. by rewrite size_len_field, (law_size _ _ _ _ _ _ _ L m Hm). Qed.

Lemma reads_sub tag m : fits m → llen (len_field tag (wire m)) ≤ max_i64 →
  reads (get_msg (λ b, unmarshal switch b zero) 2) (varint (wrap_u64 (llen (wire m))) ++ wire m) (go m).
Proof.
  intros Hm Hl. apply reads_get_msg, lawful_reads; [done|]. pose proof (llen_len_field tag (wire m)). lia.
Qed.

Lemma writes_subs tag l : Forall fits l →
  writes (put_each (λ e, put_msg tag (to_sized_buffer (write e))) l) (enc_each (λ e, len_field tag (wire e)) l).
Proof. intros Hl. apply writes_enc_each. eapply Forall_impl; [exact Hl|]. apply writes_sub. Qed.

Lemma size_subs tag l : Forall fits l →
  llen (enc_each (λ e, len_field tag (wire e)) l) = size_each (λ e, size_len (size e)) l.
Proof. intros Hl. apply size_each_field. eapply Forall_impl; [exact Hl|]. apply size_sub. Qed.

Lemma reads_subs tag l m : Forall fits l → llen (enc_each (λ e, len_field tag (wire e)) l) ≤ max_i64 → m ∈ l →
  reads (get_msg (λ b, unmarshal switch b zero) 2) (varint (wrap_u64 (llen (wire m))) ++ wire m) (go m).
Proof.
  intros Hf Hl Hm. apply (reads_sub tag); [by eapply Forall_forall in Hf|].
  pose proof (llen_each (λ e, len_field tag (wire e)) l m Hm). cbn in *. lia.
Qed.
End lawful.

(** ** What decoding guarantees

    A condition on the decoded value that no case of the switch breaks holds of what Unmarshal returns,
    whatever the bytes were. *)

Section keeps.
Context {A : Type} (P : A → Prop) (switch : Z → Z → bytes → Z → A → option (res (A * Z))).

Definition switch_keeps : Prop := ∀ num wt d i m m' j, P m → switch num wt d i m = Some (Ok (m', j)) → P m'.

Lemma unmarshal_keeps d m m' : switch_keeps → P m → unmarshal switch d m = Ok m' → P m'.
Proof.
  intros Hk. unfold unmarshal, unmarshal_with. generalize (length d) at 1. generalize 0.
  intros i fuel. revert i m. induction fuel as [|fuel IH]; intros i m Hm; cbn [unmarshal_loop];
    (destruct (i <? llen d); [|by destruct (llen d <? i); intros [= <-]]); [done|].
  destruct (unmarshal_field switch skip_field d i m) as [[m1 i1]| |] eqn:E; cbn [mbind res_bind]; [|done..].
  apply IH. unfold unmarshal_field in E.
  destruct (get_varint wrap_u64 d i) as [[wire j]| |]; cbn [mbind res_bind] in E; [|done..].
  destruct (_ =? 4); [done|]. destruct (_ <=? 0); [done|].
  destruct (switch _ _ _ _ _) as [r|] eqn:Es; [subst r; by eapply Hk|].
  unfold skip_field in E. destruct (slice _ _ _) as [rest| |]; cbn [mbind res_bind] in E; [|done..].
  destruct (skip rest) as [n| |]; cbn [mbind res_bind] in E; [|done..].
  destruct (_ || _); [done|]. destruct (_ <? _); [done|]. by injection E as <- _.
Qed.
End keeps.

Lemma get_uint_range wt d i v j : get_uint wt d i = Ok (v, j) → is_u64 v.
Proof.
  unfold get_uint. destruct (negb _); [done|]. intros E.
  rewrite <- (get_varint_range _ _ _ _ _ _ u64_converts E). apply wrap_u64_range.
Qed.

Lemma get_msg_from {A} (u : bytes → res A) wt d i x j : get_msg u wt d i = Ok (x, j) → ∃ b, u b = Ok x.
Proof.
  unfold get_msg. destruct (get_field wt d i) as [[f i']| |]; cbn; [|done..].
  destruct (u f) eqn:E; cbn; [|done..]. intros [= <- _]. eauto.
Qed.

(** Proves [switch_keeps]: splits the switch into its cases and opens the value before and after. *)
Ltac open_keeps :=
  match goal with |- switch_keeps _ ?f => let h := head_of f in unfold switch_keeps, h end;
  let E := fresh "E" in intros ? ? ? ? ? ? ? ? E; cbv zeta in E;
  repeat match type of E with
  | (match ?x with _ => _ end) = Some _ => is_var x; destruct x; try done
  end;
  injection E as E;
  match type of E with mbind _ ?r = _ => destruct r as [[? ?]| |] eqn:?; cbn [mbind res_bind] in E; [|done..] end;
  injection E as <- _; cbn in *; destruct_and?.

(** The same for a list decoded element by element through [go]. *)
Lemma decodes_each_go {A B C} (switch : Z → Z → bytes → Z → A → option (res (A * Z))) (f : B → bytes)
    (go : B → C) (build : list C → A) l :
  (∀ seen x, x ∈ l → decodes switch (f x) (build seen) (build (seen ++ [go x]))) →
  decodes switch (enc_each f l) (build []) (build (go <$> l)).
Proof.
  intros Hs. change (build []) with (build (go <$> [])).
  apply (decodes_each switch skip_field f (λ l, build (go <$> l))). intros seen x Hx. rewrite fmap_app. by apply Hs.
Qed.

Lemma Forall_True {A} (l : list A) : Forall (λ _, True) l.
Proof. by apply Forall_forall. Qed.
#[export] Hint Resolve Forall_True : wire.

(** ** Automation: lawful messages are instances, found by any of their methods *)

#[export] Hint Extern 1 (writes (put_msg _ (to_sized_buffer (?w ?m))) _) =>
  eapply (writes_sub (write := w)) : wire.
#[export] Hint Extern 1 (writes (put_each (λ e, put_msg _ (to_sized_buffer (@?w e))) _) _) =>
  eapply (writes_subs (write := w)) : wire.
#[export] Hint Extern 1 (total (λ b, unmarshal ?sw b _)) => eapply (lawful_total (switch := sw)) : wire.
#[export] Hint Extern 2 (total ?u) => let h := head_of u in progress unfold h : wire.

Create HintDb wire_size.
#[export] Hint Rewrite @llen_app size_uint_field size_str_field size_bool_field size_strings : wire_size.

(** Size is the sum of the lengths of the fields; [wire_size] has the length of each kind of field. *)
Ltac solve_size :=
  match goal with |- ?n = llen ?e => let hn := head_of n in let he := head_of e in unfold hn, he end;
  autorewrite with wire_size;
  repeat match goal with
  | |- context [llen (len_field _ (?w ?m))] => rewrite (size_sub (wire := w)) by auto with wire
  | |- context [llen (enc_each (λ e, len_field _ (@?w e)) ?l)] => rewrite (size_subs (wire := w)) by auto with wire
  end; lia.

(** Leaves the reading of a message, for which [open_decodes] opens its conditions and its bytes. *)
Ltac open_fits := let H := fresh "Hfits" in intros H; try red in H; destruct_and? H.
Ltac solve_lawful :=
  split; [intros ?; open_fits; solve_writes|intros ?; open_fits; solve_size| |solve_switch_safe].
Ltac open_decodes Hl :=
  open_fits; intros Hl; cbn in *;
  match goal with |- decodes _ ?e ?z ?g =>
    let he := head_of e in let hz := head_of z in unfold he, hz in *;
    try (let hg := head_of g in unfold hg in * )
  end; cbn in *.

(** A part of a concatenation is no longer than the whole. *)
Ltac part_of H :=
  cbv beta; first [exact H | exact (llen_app_l _ _ _ H) | apply llen_app_r in H; part_of H].

(** The [n]-th field is a string that repeats; a message, within the bytes that [H] bounds; a message
    that repeats, with [u] its Unmarshal; the same, decoded through [go]. *)
Ltac sub_law lemma :=
  match goal with |- reads (get_msg (λ b, unmarshal ?sw b _) _) _ _ =>
    let L := constr:(_ : lawful _ _ _ _ sw _ _) in eapply (lemma _ _ _ _ _ _ _ _ _ L)
  end.
Ltac dec_strings n build := dec_each n get_string build; [apply reads_get_string|..].
Ltac dec_sub n H :=
  last_or_app ltac:(eapply (decodes_len _ _ n); [..|switch_case];
    [reflexivity|lia|sub_law @reads_sub; [by auto with wire|part_of H]]).
Ltac sub_case n u H :=
  intros ? ? ?; eapply (decodes_len _ _ n _ _ (get_msg u)); [..|switch_case];
  [reflexivity|lia|let h := head_of u in unfold h; sub_law @reads_subs; [..|by eassumption]; [by auto with wire|part_of H]].
Ltac dec_subs n u H build := last_or_app ltac:(eapply (decodes_each _ _ _ build); sub_case n u H).
Ltac dec_subs_go n u H build := last_or_app ltac:(eapply (decodes_each_go _ _ _ build); sub_case n u H).
