(* ===== verification/Unknown.v ===== *)
(** * Unknown fields

    Fields whose number the switch does not know are skipped: skipTypes of the generated code finds the
    end of a field of any number and wire type, groups of any depth among them, and the message is
    what it is without the field. So bytes written by a binary with more fields are read by one with fewer. *)

From stdpp Require Import base tactics option list strings.
From Stdlib Require Import ZArith Lia Ascii.
From S2P Require Import Prelude Wire WireProps Codec.
Open Scope Z_scope.

(** Field numbers have 29 bits. *)
Definition valid_number (num : Z) : Prop := 0 < num < 2 ^ 29.

Definition field_tag (num wt : Z) : bytes := varint (num * 8 + wt).

(** The bytes of a field by its wire type; a group holds fields of its own up to its end tag. *)
Inductive raw_field : Z → bytes → Prop :=
  | raw_varint num v : is_u64 v → raw_field num (field_tag num 0 ++ varint v)
  | raw_fixed64 num e : llen e = 8 → raw_field num (field_tag num 1 ++ e)
  | raw_len num e : raw_field num (field_tag num 2 ++ varint (wrap_u64 (llen e)) ++ e)
  | raw_group num b : raw_fields b → raw_field num (field_tag num 3 ++ b ++ field_tag num 4)
  | raw_fixed32 num e : llen e = 4 → raw_field num (field_tag num 5 ++ e)
with raw_fields : bytes → Prop :=
  | raw_none : raw_fields []
  | raw_more num f b : valid_number num → raw_field num f → raw_fields b → raw_fields (f ++ b).

Scheme raw_field_mut := Minimality for raw_field Sort Prop
  with raw_fields_mut := Minimality for raw_fields Sort Prop.
Combined Scheme raw_mutind from raw_field_mut, raw_fields_mut.

Lemma field_tag_length num wt : 1 ≤ llen (field_tag num wt) ∧ (0 < length (field_tag num wt))%nat.
Proof.
  assert (0 < length (field_tag num wt))%nat; [|unfold llen; lia].
  unfold field_tag, varint. cbn [varint_groups]. destruct (128 <=? _); cbn; lia.
Qed.

(** The loop of a tag reads its number and wire type. *)
Lemma reads_tag num wt pre post : valid_number num → 0 ≤ wt < 8 → llen (pre ++ field_tag num wt ++ post) ≤ max_i64 →
  ∃ t, get_varint wrap_u64 (pre ++ field_tag num wt ++ post) (llen pre) = Ok (t, llen pre + llen (field_tag num wt)) ∧
    Z.land t 7 = wt ∧ wrap_i32 (Z.shiftr t 3) = num.
Proof.
  unfold valid_number. intros Hn Hw Hl. set (t := num * 8 + wt). assert (Ht : is_u64 t) by (unfold is_u64, max_u64, t; lia).
  exists t. split_and!; [by apply (reads_u64 t Ht)| |].
  - change 7 with (Z.ones 3). rewrite Z.land_ones by lia. symmetry. apply (Z.mod_unique_pos _ _ num); lia.
  - rewrite Z.shiftr_div_pow2 by lia. rewrite <- (Z.div_unique_pos t (2 ^ 3) num wt) by lia. by rewrite wrap_i32_id by lia.
Qed.

Lemma skip_varint_groups g : ∀ v pre post, 0 ≤ v < 2 ^ (7 * Z.of_nat g) → (0 < g)%nat →
  skip_varint g (pre ++ varint_groups g v ++ post) (llen pre) = Ok (llen pre + llen (varint_groups g v)).
Proof.
  induction g as [|g IH]; intros v pre post Hv Hg; [lia|]. cbn [skip_varint varint_groups].
  assert (Hin : ∀ b rest, llen (pre ++ b :: rest) <=? llen pre = false)
    by (intros; rewrite llen_app, llen_cons; apply Z.leb_gt; pose proof (llen_nonneg rest); lia).
  destruct (Z.leb_spec 128 v) as [Hb|Hsm]; cbn [app]; rewrite Hin, get_byte_mid; cbn [mbind res_bind].
  - destruct (group_value v ltac:(lia)) as [_ Hcont]. rewrite (proj2 (Z.ltb_ge _ _)) by done.
    destruct g as [|g]; [cbn in Hv; lia|].
    specialize (IH (Z.shiftr v 7) (pre ++ [byte_of (Z.lor (Z.land v 127) 128)]) post).
    rewrite <- app_assoc, llen_app in IH. change (llen [byte_of (Z.lor (Z.land v 127) 128)]) with 1 in IH. cbn [app] in IH.
    rewrite IH; [f_equal; rewrite llen_cons; lia| |lia].
    apply shiftr7_bound; [lia|]. by rewrite Nat2Z.inj_succ in Hv.
  - rewrite byte_val_of, Z.mod_small, (proj2 (Z.ltb_lt _ _)) by lia. done.
Qed.

(** ** Skipping *)

Section round.
Context (pre post : bytes).

(** One round of the loop of skip on a tag and what follows it. *)
Lemma skip_round num wt payload fuel depth i2 depth2 :
  valid_number num → 0 ≤ wt < 8 → llen (pre ++ field_tag num wt ++ payload ++ post) ≤ max_i64 →
  skip_switch wt (pre ++ field_tag num wt ++ payload ++ post) (llen pre + llen (field_tag num wt)) depth = Ok (i2, depth2) → 0 ≤ i2 →
  skip_loop (S fuel) (pre ++ field_tag num wt ++ payload ++ post) (llen pre) depth =
    if depth2 =? 0 then Ok i2 else skip_loop fuel (pre ++ field_tag num wt ++ payload ++ post) i2 depth2.
Proof.
  intros Hn Hw Hl Hs Hi. cbn [skip_loop]. destruct (field_tag_length num wt) as [Ht _]. rewrite (proj2 (Z.ltb_lt _ _)).
  2: { rewrite !llen_app. pose proof (llen_nonneg payload). pose proof (llen_nonneg post). lia. }
  destruct (reads_tag num wt pre (payload ++ post) Hn Hw Hl) as (t & -> & Hwt & _). cbn [mbind res_bind].
  rewrite Hwt, Hs. cbn [mbind res_bind]. by rewrite (proj2 (Z.ltb_ge _ 0)) by done.
Qed.
End round.

(** The payload of a field outside groups is passed over, whatever its wire type. *)
Definition flat_payload (wt : Z) (payload : bytes) : Prop :=
  ∀ pre post depth, llen (pre ++ payload ++ post) ≤ max_i64 →
    skip_switch wt (pre ++ payload ++ post) (llen pre) depth = Ok (llen pre + llen payload, depth).

Section payloads.
Let parts (a b c : bytes) : llen (a ++ b ++ c) ≤ max_i64 → 0 ≤ llen a ∧ llen a + llen b ≤ max_i64.
Proof. rewrite !llen_app. pose proof (llen_nonneg a). pose proof (llen_nonneg c). lia. Qed.
Let add a n : 0 ≤ a → a + n ≤ max_i64 → 0 ≤ n → wrap_i64 (a + n) = a + n.
Proof. intros. apply wrap_i64_id. unfold min_i64. lia. Qed.

Lemma flat_varint v : is_u64 v → flat_payload 0 (varint v).
Proof. intros Hv pre post depth _. cbn [skip_switch]. unfold varint. rewrite skip_varint_groups; [done|by apply u64_ten_groups|lia]. Qed.
Lemma flat_fixed64 e : llen e = 8 → flat_payload 1 e.
Proof. intros He pre post depth [Hp Hl]%parts. cbn [skip_switch]. rewrite He in *. by rewrite add by lia. Qed.
Lemma flat_fixed32 e : llen e = 4 → flat_payload 5 e.
Proof. intros He pre post depth [Hp Hl]%parts. cbn [skip_switch]. rewrite He in *. by rewrite add by lia. Qed.
Lemma flat_len e : flat_payload 2 (varint (wrap_u64 (llen e)) ++ e).
Proof.
  intros pre post depth Hl. cbn [skip_switch]. destruct (parts _ _ _ Hl) as [Hp Hle]. rewrite llen_app in Hle |- *.
  pose proof (llen_nonneg e). pose proof (llen_nonneg (varint (wrap_u64 (llen e)))).
  assert (Hu : is_u64 (llen e)) by (unfold is_u64, max_u64, max_i64 in *; lia). rewrite (wrap_u64_id _ Hu) in *.
  rewrite <- app_assoc in *. rewrite (reads_varint 64 wrap_i64 _ i64_converts Hu pre (e ++ post) Hl). cbn [mbind res_bind].
  rewrite (wrap_i64_id (llen e)), (proj2 (Z.ltb_ge _ _)), add by (unfold min_i64; lia). do 2 f_equal. lia.
Qed.
End payloads.

(** What the loop does with the bytes [f] of one field; inside a group it goes on behind them. *)
Definition passes (f : bytes) : Prop := ∀ fuel pre post depth,
  0 ≤ depth → (length f ≤ fuel)%nat → llen (pre ++ f ++ post) ≤ max_i64 →
  ∃ fuel', (fuel ≤ fuel' + length f)%nat ∧
    skip_loop fuel (pre ++ f ++ post) (llen pre) depth =
      if depth =? 0 then Ok (llen pre + llen f) else skip_loop fuel' (pre ++ f ++ post) (llen pre + llen f) depth.
Definition passes_all (b : bytes) : Prop := ∀ fuel pre post depth,
  0 < depth → (length b ≤ fuel)%nat → llen (pre ++ b ++ post) ≤ max_i64 →
  ∃ fuel', (fuel ≤ fuel' + length b)%nat ∧
    skip_loop fuel (pre ++ b ++ post) (llen pre) depth = skip_loop fuel' (pre ++ b ++ post) (llen pre + llen b) depth.

Lemma passes_flat num wt payload : valid_number num → 0 ≤ wt < 8 → flat_payload wt payload → passes (field_tag num wt ++ payload).
Proof.
  intros Hn Hw Hp fuel pre post depth Hd Hf Hl. destruct (field_tag_length num wt) as [_ Ht]. rewrite length_app in *.
  destruct fuel as [|fuel]; [lia|]. exists fuel. split; [lia|]. rewrite <- app_assoc in *.
  specialize (Hp (pre ++ field_tag num wt) post depth). rewrite <- app_assoc, (llen_app pre (field_tag num wt)) in Hp.
  pose proof (llen_nonneg pre). pose proof (llen_nonneg payload). pose proof (llen_nonneg (field_tag num wt)).
  rewrite (skip_round pre post num wt payload fuel depth _ _ Hn Hw Hl (Hp Hl)) by lia. by rewrite llen_app, !Z.add_assoc.
Qed.

Lemma passes_group num b : valid_number num → passes_all b → passes (field_tag num 3 ++ b ++ field_tag num 4).
Proof.
  intros Hn Hb fuel pre post depth Hd Hf Hl. destruct (field_tag_length num 3) as [_ H3]. destruct (field_tag_length num 4) as [_ H4].
  rewrite !length_app in *. destruct fuel as [|fuel]; [lia|].
  set (t3 := field_tag num 3) in *. set (t4 := field_tag num 4) in *.
  replace (pre ++ (t3 ++ b ++ t4) ++ post) with (pre ++ t3 ++ (b ++ t4) ++ post) in * by (by rewrite <- !app_assoc).
  pose proof (llen_nonneg pre). pose proof (llen_nonneg b). pose proof (llen_nonneg t3). pose proof (llen_nonneg t4).
  pose proof (skip_round pre post num 3 (b ++ t4) fuel depth _ _ Hn ltac:(lia) Hl eq_refl
    (Z.add_nonneg_nonneg _ _ (llen_nonneg _) (llen_nonneg _))) as E3.
  fold t3 in E3. rewrite E3. clear E3.
  rewrite (proj2 (Z.eqb_neq (depth + 1) 0)) by lia.
  destruct (Hb fuel (pre ++ t3) (t4 ++ post) (depth + 1)) as (fuel1 & Hf1 & E1); [lia|lia|by rewrite <- !app_assoc in *|].
  rewrite <- !app_assoc, (llen_app pre t3) in E1. rewrite <- !app_assoc. rewrite E1. clear E1.
  destruct fuel1 as [|fuel1]; [lia|]. exists fuel1. split; [lia|].
  pose proof (skip_round (pre ++ t3 ++ b) post num 4 [] fuel1 (depth + 1) (llen (pre ++ t3 ++ b) + llen t4) depth Hn ltac:(lia)) as E2.
  cbn [app skip_switch] in E2. fold t4 in E2. rewrite <- !app_assoc in E2. rewrite (proj2 (Z.eqb_neq (depth + 1) 0)), Z.add_simpl_r in E2 by lia.
  rewrite <- !app_assoc in Hl. specialize (E2 Hl eq_refl). rewrite !llen_app in E2. rewrite !llen_app, <- !Z.add_assoc in *.
  by rewrite E2 by lia.
Qed.

Lemma raw_passes : (∀ num f, raw_field num f → valid_number num → passes f) ∧ (∀ b, raw_fields b → passes_all b).
Proof.
  apply raw_mutind.
  - intros num v Hv Hn. apply passes_flat; [done|lia|by apply flat_varint].
  - intros num e He Hn. apply passes_flat; [done|lia|by apply flat_fixed64].
  - intros num e Hn. apply passes_flat; [done|lia|apply flat_len].
  - intros num b _ Hb Hn. by apply passes_group.
  - intros num e He Hn. apply passes_flat; [done|lia|by apply flat_fixed32].
  - intros fuel pre post depth Hd _ _. exists fuel. split; [cbn; lia|]. change (llen []) with 0. by rewrite Z.add_0_r.
  - intros num f b Hn _ Hf _ Hb fuel pre post depth Hd Hfu Hl. rewrite length_app in *. rewrite <- app_assoc in *.
    destruct (Hf Hn fuel pre (b ++ post) depth) as (f1 & H1 & ->); [lia|lia|done|]. rewrite (proj2 (Z.eqb_neq depth 0)) by lia.
    destruct (Hb f1 (pre ++ f) post depth) as (f2 & H2 & E); [lia|lia|by rewrite <- app_assoc|].
    rewrite <- !app_assoc, !llen_app in E. exists f2. split; [lia|]. by rewrite E, llen_app, Z.add_assoc.
Qed.

Lemma skip_raw num f post : valid_number num → raw_field num f → llen (f ++ post) ≤ max_i64 → skip (f ++ post) = Ok (llen f).
Proof.
  intros Hn Hf Hl. destruct (proj1 raw_passes num f Hf Hn (length (f ++ post)) [] post 0) as (fuel & _ & E);
    [lia|rewrite length_app; lia|done|]. exact E.
Qed.

Lemma raw_field_tag num f : raw_field num f → ∃ wt payload, f = field_tag num wt ++ payload ∧ 0 ≤ wt < 8 ∧ wt ≠ 4.
Proof. intros [? v ?|? e ?|? e|? b ?|? e ?]; eexists _, _; (split; [reflexivity|lia]). Qed.

(** A sequence of fields whose numbers are above the last declared one. *)
Definition unknown_fits (last : Z) (unknownFields : bytes) : Prop :=
  ∃ fs, unknownFields = concat fs ∧ Forall (λ f, ∃ num, last < num < 2 ^ 29 ∧ raw_field num f) fs.

Lemma unknown_fits_nil last : unknown_fits last [].
Proof. by exists []. Qed.

Section unknown.
Context {A : Type} (switch : Z → Z → bytes → Z → A → option (res (A * Z))) (num : Z).

(** The default case of the switch. *)
Definition not_known : Prop := ∀ wt d i m, switch num wt d i m = None.

Lemma parses_unknown f m : valid_number num → not_known → raw_field num f → parses switch skip_field f m m.
Proof.
  intros Hn Hd Hf. destruct (raw_field_tag num f Hf) as (wt & payload & E & Hw & H4). destruct (field_tag_length num wt) as [Ht Hlt].
  split; [subst; by destruct (field_tag num wt); [cbn in Hlt; lia|]|].
  intros pre post Hl. unfold unmarshal_field.
  destruct (reads_tag num wt pre (payload ++ post) Hn Hw) as (t & Hg & Hwt & Hnum); [by subst; rewrite <- app_assoc in Hl|].
  rewrite (app_assoc (field_tag num wt)), <- E in Hg. rewrite Hg. cbn [mbind res_bind]. unfold valid_number in Hn.
  rewrite Hwt, Hnum, (proj2 (Z.eqb_neq wt 4)), (proj2 (Z.leb_gt num 0)), Hd by lia.
  unfold skip_field. pose proof (slice_mid pre (f ++ post) []) as Hs. rewrite app_nil_r, <- llen_app in Hs. rewrite Hs.
  cbn [mbind res_bind]. rewrite (llen_app pre) in Hl. pose proof (llen_nonneg pre). pose proof (llen_nonneg f).
  rewrite (skip_raw num) by (done || lia). cbn [mbind res_bind]. rewrite llen_app in Hl. pose proof (llen_nonneg post).
  rewrite wrap_i64_id by (unfold min_i64; lia).
  rewrite (proj2 (Z.ltb_ge (llen f) 0)), (proj2 (Z.ltb_ge (_ + _) 0)) by lia. cbn [orb].
  by rewrite (proj2 (Z.ltb_ge _ _)) by (rewrite !llen_app; lia).
Qed.
End unknown.

Lemma decodes_skipped {A} (switch : Z → Z → bytes → Z → A → option (res (A * Z))) last u m :
  0 ≤ last → (∀ num, last < num → not_known switch num) → unknown_fits last u → decodes_by switch skip_field u m m.
Proof.
  intros Hl Hk (fs & -> & Hf). induction Hf as [|f fs (num & Hn & Hr) _ IH]; [apply decodes_nil|]. cbn [concat].
  eapply decodes_cons; [|exact IH]. apply (parses_unknown _ num); [unfold valid_number; lia|apply Hk; lia|done].
Qed.

(** Marshal succeeds, and unknown fields before and behind what it returns do not matter. *)
Definition skips_unknown {A} (last : Z) (marshaled : res bytes) (unmarshal : bytes → res A) (m : A) : Prop :=
  ∃ b, marshaled = Ok b ∧ ∀ u1 u2, unknown_fits last u1 → unknown_fits last u2 → llen (u1 ++ b ++ u2) ≤ max_i64 →
    unmarshal (u1 ++ b ++ u2) = Ok m.

Lemma lawful_skips {A G fits write size wire switch zero go} `{L : @lawful A G fits write size wire switch zero go} last m g :
  go m = g → 0 ≤ last → (∀ num, last < num → not_known switch num) → fits m →
  skips_unknown last (marshal (size m) (write m)) (λ b, unmarshal switch b zero) g.
Proof.
  intros <- Hl Hd Hm. exists (wire m). split; [by apply (lawful_marshal (L := L))|]. intros u1 u2 H1 H2 Hlen.
  apply unmarshal_decodes; [|done]. eapply decodes_app; [by apply (decodes_skipped _ last)|].
  eapply decodes_app; [|by apply (decodes_skipped _ last)].
  apply (law_decodes _ _ _ _ _ _ _ L); [done|]. rewrite !llen_app in Hlen. pose proof (llen_nonneg u1). pose proof (llen_nonneg u2). lia.
Qed.

Lemma skips_map {A B} last marshaled (unmarshal : bytes → res A) (f : A → B) m m' :
  skips_unknown last marshaled unmarshal m → f m = m' → skips_unknown last marshaled (λ b, g ← unmarshal b; Ok (f g)) m'.
Proof. intros (b & Hb & Hu) <-. exists b. split; [done|]. intros u1 u2 H1 H2 Hl. by rewrite Hu. Qed.

(** Proves [not_known] of a number beyond the last field. *)
Ltac solve_not_known :=
  match goal with |- not_known ?f ?n =>
    let h := head_of f in intros ? ? ? []; unfold h;
    repeat match goal with
    | |- match ?x with _ => _ end = None => is_var x; destruct x; try reflexivity; try lia
    end
  end.
