(* ===== verification/Pagination.v ===== *)
(** * Pagination over an index (src/pkg/pagination/pagination.go)

    The list queries of both modules page through an index with [PaginateStringIndex]. An iterator
    is the list of primary keys it yields; the getter is the primary map's [Get], and a query does
    not change the store, so the getter is a function. The theorems: a page is a contiguous slice of
    the selected entries, its [NextKey] is the first entry after it, and a client that follows
    [NextKey] gets every selected entry exactly once. *)

From stdpp Require Import base tactics option list strings gmap sorting.
From Stdlib Require Import ZArith Lia.
From S2P Require Import Prelude Sdk SdkRef.
Open Scope Z_scope.

(** [idx.Iterate] over the range of one reference key, of which [keys] are the primary keys. *)
Definition MatchExactWithOrder (keys : list string) (pageReq : option PageRequest) : list string :=
  match pageReq with
  | Some r => if Reverse r then reverse keys else keys
  | None => keys
  end.

Definition empty_request : PageRequest := mkPageRequest "" 0 0 false false.

(** The variables of the loop. *)
Record page_state (V : Type) : Type := mkPageState {
  ps_values : list V; ps_count : Z; ps_total : Z; ps_nextKey : string; ps_foundStart : bool; ps_skipped : Z }.
Arguments mkPageState {V} _ _ _ _ _ _.
Arguments ps_values {V} _. Arguments ps_count {V} _. Arguments ps_total {V} _.
Arguments ps_nextKey {V} _. Arguments ps_foundStart {V} _. Arguments ps_skipped {V} _.

Definition keep {V} (filter : option (V → bool)) (v : V) : bool :=
  match filter with Some f => f v | None => true end.

Section paginate.
Context `{SDK} {V : Type}.
Implicit Types (getter : string → res V) (filter : option (V → bool)) (st : page_state V).

(** The body of the loop once the value is fetched and passes the filter; [true] is [break]. *)
Definition page_value (r : PageRequest) (limit : Z) (pk : string) (v : V) st : page_state V * bool :=
  let '(mkPageState values count total nextKey found skipped) := st in
  let total := if CountTotal r then wrap_u64 (total + 1) else total in
  if String.eqb (Key r) "" && (skipped <? Offset r)
  then (mkPageState values count total nextKey found (wrap_u64 (skipped + 1)), false)
  else if limit <=? count then
    let nextKey := if String.eqb nextKey "" then pk else nextKey in
    (mkPageState values count total nextKey found skipped, negb (CountTotal r))
  else (mkPageState (values ++ [v]) (wrap_u64 (count + 1)) total nextKey found skipped, false).

Definition set_found st : page_state V :=
  mkPageState (ps_values st) (ps_count st) (ps_total st) (ps_nextKey st) true (ps_skipped st).

Fixpoint page_loop getter (r : PageRequest) (limit : Z) filter (iter : list string) st : res (page_state V) :=
  match iter with
  | [] => Ok st
  | pk :: iter' =>
      if negb (ps_foundStart st) && negb (String.eqb (Key r) pk) then page_loop getter r limit filter iter' st else
      let st := set_found st in
      match getter pk with
      | Err e => if decide (e = CollNotFound) then page_loop getter r limit filter iter' st else Err e
      | Panic => Panic
      | Ok value =>
          if negb (keep filter value) then page_loop getter r limit filter iter' st else
          let '(st', break) := page_value r limit pk value st in
          if break then Ok st' else page_loop getter r limit filter iter' st'
      end
  end.

Definition page_limit (r : PageRequest) : Z := if Limit r =? 0 then query_DefaultLimit else Limit r.

Definition PaginateStringIndex (iter : list string) getter (pageReq : option PageRequest) filter
    : res (list V * PageResponse) :=
  let r := default empty_request pageReq in
  st ← page_loop getter r (page_limit r) filter iter
         (mkPageState [] 0 0 "" (String.eqb (Key r) "") 0);
  Ok (ps_values st, mkPageResponse (ps_nextKey st) (if CountTotal r then ps_total st else 0)).

(** ** The reference: a slice of the selected entries *)

(** The entries that are stored and pass the filter, with their keys. *)
Definition selected getter filter (keys : list string) : list (string * V) :=
  omap (λ k, match getter k with Ok v => if keep filter v then Some (k, v) else None | _ => None end) keys.

(** The keys from the cursor on. *)
Fixpoint from_key (k : string) (keys : list string) : list string :=
  match keys with
  | [] => []
  | k' :: keys' => if decide (k = k') then keys else from_key k keys'
  end.

Definition window (r : PageRequest) getter filter (keys : list string) : list (string * V) :=
  if decide (Key r = ""%string) then drop (Z.to_nat (Offset r)) (selected getter filter keys)
  else selected getter filter (from_key (Key r) keys).

Definition counted (r : PageRequest) getter filter (keys : list string) : Z :=
  if CountTotal r
  then llen (selected getter filter (if decide (Key r = ""%string) then keys else from_key (Key r) keys))
  else 0.

Definition page_of (r : PageRequest) (n : nat) getter filter (keys : list string) : list V * PageResponse :=
  let ws := window r getter filter keys in
  ((take n ws).*2, mkPageResponse (default ""%string (fst <$> ws !! n)) (counted r getter filter keys)).

(** The getter fails only on missing entries, as [Map.Get] does on a readable store. *)
Definition readable getter (keys : list string) : Prop :=
  ∀ k, k ∈ keys → (∃ v, getter k = Ok v) ∨ getter k = Err CollNotFound.

(** ** The loop computes the slice *)

Lemma selected_cons getter filter k keys :
  selected getter filter (k :: keys) =
  match getter k with
  | Ok v => if keep filter v then (k, v) :: selected getter filter keys else selected getter filter keys
  | _ => selected getter filter keys
  end.
Proof. unfold selected. cbn. destruct (getter k); [|done..]. by destruct (keep _ _). Qed.

Lemma selected_length getter filter keys : (length (selected getter filter keys) ≤ length keys)%nat.
Proof.
  induction keys as [|k keys IH]; [done|]. rewrite selected_cons. cbn.
  destruct (getter k); [destruct (keep _ _)|..]; cbn; lia.
Qed.

(** What is left to skip and to take. *)
Definition page_skip (r : PageRequest) st : nat :=
  if decide (Key r = ""%string) then Z.to_nat (Offset r - ps_skipped st) else 0%nat.
Definition page_room (limit : Z) st : nat := Z.to_nat (limit - ps_count st).

(** What the response reads of the final state, in terms of the state before the loop. *)
Definition page_done (r : PageRequest) (limit : Z) st (sel : list (string * V)) st' : Prop :=
  let rest := drop (page_skip r st) sel in
  ps_values st' = ps_values st ++ (take (page_room limit st) rest).*2 ∧
  ps_nextKey st' =
    (if decide (ps_nextKey st = ""%string) then default ""%string (fst <$> rest !! page_room limit st)
     else ps_nextKey st) ∧
  (CountTotal r = true → ps_total st' = ps_total st + llen sel).

(** The counters stay in range for [n] more entries. *)
Definition counters_ok st (n : Z) : Prop :=
  0 ≤ ps_count st ∧ 0 ≤ ps_skipped st ∧ 0 ≤ ps_total st ∧
  ps_count st + n ≤ max_u64 ∧ ps_skipped st + n ≤ max_u64 ∧ ps_total st + n ≤ max_u64.

Lemma page_skip_cases r st :
  (String.eqb (Key r) "" && (ps_skipped st <? Offset r) = true ∧
     Key r = ""%string ∧ page_skip r st = S (Z.to_nat (Offset r - (ps_skipped st + 1)))) ∨
  (String.eqb (Key r) "" && (ps_skipped st <? Offset r) = false ∧ page_skip r st = 0%nat).
Proof.
  unfold page_skip. destruct (decide (Key r = ""%string)) as [->|Hk].
  - cbn. destruct (Z.ltb_spec (ps_skipped st) (Offset r)); [left|right]; split_and!; try done; lia.
  - right. apply String.eqb_neq in Hk. by rewrite Hk.
Qed.

Lemma page_value_done r limit pk v st sel n :
  ps_foundStart st = true → pk ≠ ""%string → counters_ok st (n + 1) → 0 ≤ n →
  ∀ st' brk, page_value r limit pk v st = (st', brk) →
  ps_foundStart st' = true ∧ counters_ok st' n ∧
  (brk = true → page_done r limit st ((pk, v) :: sel) st') ∧
  (∀ st'', page_done r limit st' sel st'' → page_done r limit st ((pk, v) :: sel) st'').
Proof.
  intros Hf Hpk (Hc & Hs & Ht & Hc' & Hs' & Ht') Hn st' brk.
  destruct (page_skip_cases r st) as [(Eb & Hk & Hskip)|[Eb Hskip]];
    unfold page_value, page_done; destruct st as [values count total nk found skipped]; cbn in *;
    rewrite Eb, Hskip; subst found.
  - intros [= <- <-]. unfold counters_ok, page_skip. cbn. rewrite !wrap_u64_id by lia.
    destruct (decide (Key r = ""%string)); [|done].
    split_and!; try done; try (destruct (CountTotal r); lia).
    intros st'' (-> & -> & Htot). split_and!; [done..|]. intros HC. rewrite Htot, HC by done. unfold llen. cbn. lia.
  - destruct (Z.leb_spec limit count); intros [= <- <-]; unfold counters_ok; cbn.
    + rewrite !wrap_u64_id by lia. unfold page_room, page_skip in *; cbn in *. rewrite Hskip.
      replace (Z.to_nat (limit - count)) with 0%nat by lia. cbn.
      destruct (String.eqb nk "") eqn:Enk; [apply String.eqb_eq in Enk as ->|apply String.eqb_neq in Enk].
      * rewrite decide_True by done. rewrite decide_False by done. split_and!; try done; try (destruct (CountTotal r); lia).
        -- intros Hb. split_and!; [by rewrite app_nil_r|done|]. intros HC. by rewrite HC in Hb.
        -- intros st'' (-> & -> & Htot). split_and!; [done..|]. intros HC. rewrite Htot, HC by done. unfold llen. cbn. lia.
      * rewrite !decide_False by done. split_and!; try done; try (destruct (CountTotal r); lia).
        -- intros Hb. split_and!; [by rewrite app_nil_r|done|]. intros HC. by rewrite HC in Hb.
        -- intros st'' (-> & -> & Htot). split_and!; [done..|]. intros HC. rewrite Htot, HC by done. unfold llen. cbn. lia.
    + rewrite !wrap_u64_id by lia. unfold page_room, page_skip in *; cbn in *. rewrite Hskip.
      replace (Z.to_nat (limit - count)) with (S (Z.to_nat (limit - (count + 1)))) by lia. cbn.
      split_and!; try done; try (destruct (CountTotal r); lia).
      intros st'' (-> & -> & Htot). rewrite <- app_assoc. split_and!; [done..|].
      intros HC. rewrite Htot, HC by done. unfold llen. cbn. lia.
Qed.

Lemma page_loop_done getter r limit filter keys st :
  readable getter keys → Forall (λ k, k ≠ ""%string) keys → ps_foundStart st = true →
  counters_ok st (llen keys) →
  ∃ st', page_loop getter r limit filter keys st = Ok st' ∧ page_done r limit st (selected getter filter keys) st'.
Proof.
  revert st. induction keys as [|k keys IH]; intros st Hr Hk Hf Hc.
  { exists st. split; [done|]. unfold page_done. cbn. rewrite drop_nil, take_nil. cbn. rewrite app_nil_r.
    split_and!; [done| |unfold llen; cbn; lia]. by destruct (decide _). }
  apply Forall_cons in Hk as [Hk Hks]. assert (Hr' : readable getter keys) by (intros ??; apply Hr; set_solver).
  assert (Hn : llen (k :: keys) = llen keys + 1) by (unfold llen; cbn; lia).
  assert (Hset : set_found st = st) by (destruct st; cbn in *; by rewrite Hf).
  assert (Hc' : counters_ok st (llen keys)) by (unfold counters_ok in *; lia).
  rewrite selected_cons. cbn [page_loop]. rewrite Hf, Hset. cbn [negb andb].
  destruct (Hr k ltac:(set_solver)) as [[v Ev]|Ev]; rewrite Ev; [|by rewrite decide_True; auto].
  destruct (keep filter v); cbn [negb]; [|by apply IH].
  destruct (page_value r limit k v st) as [st1 brk] eqn:Ep. rewrite Hn in Hc.
  destruct (page_value_done r limit k v st (selected getter filter keys) (llen keys) Hf Hk Hc ltac:(unfold llen; lia) _ _ Ep)
    as (Hf1 & Hc1 & Hb & Hnext).
  destruct brk; [by eauto|]. destruct (IH st1 Hr' Hks Hf1 Hc1) as (st' & E & Hd). eauto.
Qed.

(** Before the cursor is found the loop only skips. *)
Lemma page_loop_skip getter r limit filter keys st :
  ps_foundStart st = false →
  page_loop getter r limit filter keys st =
  if decide (Key r ∈ keys) then page_loop getter r limit filter (from_key (Key r) keys) (set_found st) else Ok st.
Proof.
  intros Hf. induction keys as [|k keys IH]; [by rewrite decide_False by set_solver|].
  cbn [page_loop from_key]. rewrite Hf. cbn [negb andb]. destruct (decide (Key r = k)) as [->|Hne].
  - rewrite String.eqb_refl, decide_True by set_solver. done.
  - rewrite (proj2 (String.eqb_neq _ _) Hne). cbn [negb]. rewrite IH. apply decide_ext. set_solver.
Qed.

Lemma from_key_suffix k keys : ∃ pre, keys = pre ++ from_key k keys ∧ k ∉ pre.
Proof.
  induction keys as [|k' keys (pre & Heq & Hk)]; [by exists []; split; [|set_solver]|]. cbn. case_decide as Hd.
  - exists []. split; [done|set_solver].
  - exists (k' :: pre). cbn. split; [by rewrite <- Heq|set_solver].
Qed.

Lemma from_key_in k keys k' : k' ∈ from_key k keys → k' ∈ keys.
Proof. destruct (from_key_suffix k keys) as (pre & Heq & _). rewrite Heq at 2. set_solver. Qed.

Lemma from_key_not_in k keys : k ∉ keys → from_key k keys = [].
Proof. induction keys as [|k' keys IH]; cbn; [done|]. intros Hk. rewrite decide_False by set_solver. apply IH. set_solver. Qed.

Lemma from_key_length k keys : llen (from_key k keys) ≤ llen keys.
Proof. destruct (from_key_suffix k keys) as (pre & Heq & _). rewrite Heq at 2. unfold llen. rewrite length_app. lia. Qed.

(** The page, for a request with fields in the range of uint64. *)
Lemma paginate_eq getter filter keys (r : PageRequest) :
  readable getter keys → Forall (λ k, k ≠ ""%string) keys → llen keys ≤ max_u64 → 0 ≤ Offset r →
  PaginateStringIndex keys getter (Some r) filter =
  Ok (page_of r (Z.to_nat (page_limit r)) getter filter keys).
Proof.
  intros Hr Hk Hl Ho. unfold PaginateStringIndex, page_of, window, counted.
  change (default empty_request (Some r)) with r.
  destruct (decide (Key r = ""%string)) as [Hkey|Hkey].
  - rewrite Hkey at 1. cbn [String.eqb].
    destruct (page_loop_done getter r (page_limit r) filter keys (mkPageState [] 0 0 "" true 0) Hr Hk eq_refl)
      as (st' & E & Hv & Hn & Ht); [unfold counters_ok, llen in *; cbn; lia|].
    unfold page_skip, page_room in *. cbn in *. rewrite E. cbn. rewrite decide_True in Hv, Hn by done.
    rewrite !Z.sub_0_r in *. rewrite Hv, Hn. destruct (CountTotal r); [by rewrite Ht|done].
  - pose proof Hkey as Hkb. apply String.eqb_neq in Hkb. rewrite Hkb, page_loop_skip by done.
    case_decide as Hin.
    + destruct (page_loop_done getter r (page_limit r) filter (from_key (Key r) keys) (mkPageState [] 0 0 "" true 0))
        as (st' & E & Hv & Hn & Ht).
      * intros k Hki. apply Hr. by eapply from_key_in.
      * rewrite Forall_forall in *. intros k Hki. apply Hk. by eapply from_key_in.
      * done.
      * pose proof (from_key_length (Key r) keys). unfold counters_ok, llen in *; cbn; lia.
      * unfold page_skip, page_room, set_found in *. cbn in *. rewrite E. cbn. rewrite decide_False in Hv, Hn by done.
        rewrite !Z.sub_0_r in *. rewrite Hv, Hn. destruct (CountTotal r); [by rewrite Ht|done].
    + rewrite from_key_not_in by done. cbn. rewrite take_nil. destruct (CountTotal r); done.
Qed.

(** ** Following the cursor *)

(** The request for the page after [p]. *)
Definition next_request (r : PageRequest) (p : PageResponse) : PageRequest :=
  mkPageRequest (NextKey p) 0 (Limit r) (CountTotal r) (Reverse r).

(** A client that asks for page after page, at most [fuel] of them: the values it collects, and
    whether the last page said that there are no more. *)
Fixpoint follow (fuel : nat) (iter : list string) getter filter (r : PageRequest) : res (list V * bool) :=
  match fuel with
  | O => Ok ([], false)
  | S fuel' =>
      '(vs, p) ← PaginateStringIndex iter getter (Some r) filter;
      if String.eqb (NextKey p) "" then Ok (vs, true) else
      '(vs', fin) ← follow fuel' iter getter filter (next_request r p);
      Ok (vs ++ vs', fin)
  end.

Lemma from_key_app k pre post : k ∉ pre → from_key k (pre ++ k :: post) = k :: post.
Proof.
  induction pre as [|k' pre IH]; cbn; intros Hk; [by rewrite decide_True|].
  rewrite decide_False by set_solver. apply IH. set_solver.
Qed.

Lemma selected_split getter filter keys n k v :
  selected getter filter keys !! n = Some (k, v) →
  ∃ pre post, keys = pre ++ k :: post ∧ selected getter filter (k :: post) = drop n (selected getter filter keys).
Proof.
  revert n. induction keys as [|k' keys IH]; intros n; [done|]. rewrite selected_cons.
  assert (Hcons : ∀ n, selected getter filter keys !! n = Some (k, v) →
    ∃ pre post, k' :: keys = pre ++ k :: post ∧ selected getter filter (k :: post) = drop n (selected getter filter keys)).
  { intros n' (pre & post & -> & Hs)%IH. exists (k' :: pre), post. done. }
  destruct (getter k') as [v'| |] eqn:Eg; [|by apply Hcons..]. destruct (keep filter v') eqn:Ek; [|by apply Hcons].
  destruct n as [|n]; [|by apply Hcons]. intros [= -> ->]. exists [], keys. split; [done|].
  by rewrite selected_cons, Eg, Ek.
Qed.

(** The window that starts at entry [n] of a window is what is left of it. *)
Lemma window_next getter filter keys r n k v :
  NoDup keys → Forall (λ k, k ≠ ""%string) keys → window r getter filter keys !! n = Some (k, v) →
  k ≠ ""%string ∧ ∀ p, NextKey p = k →
  window (next_request r p) getter filter keys = drop n (window r getter filter keys).
Proof.
  intros Hnd Hne Hw.
  assert (Hsub : ∃ pre m, keys = pre ++ (if decide (Key r = ""%string) then keys else from_key (Key r) keys) ∧
    window r getter filter keys =
      drop m (selected getter filter (if decide (Key r = ""%string) then keys else from_key (Key r) keys))).
  { unfold window. case_decide; [by exists [], (Z.to_nat (Offset r))|].
    destruct (from_key_suffix (Key r) keys) as (pre & Hp & _). by exists pre, 0%nat. }
  destruct Hsub as (pre & m & Hkeys & Hwin). set (part := if decide _ then _ else _) in *.
  rewrite Hwin, lookup_drop in Hw. apply selected_split in Hw as (pre' & post & Hpart & Hs).
  assert (Hk : k ∈ keys) by (rewrite Hkeys, Hpart; set_solver).
  rewrite Forall_forall in Hne. split; [by apply Hne|]. intros p Hp. unfold window at 1. cbn [next_request Key].
  rewrite Hp, decide_False by by apply Hne. rewrite Hwin, drop_drop, <- Hs. f_equal.
  rewrite Hkeys, Hpart, app_assoc. apply from_key_app. rewrite Hkeys, Hpart, app_assoc in Hnd.
  apply NoDup_app in Hnd as (_ & Hd & _). intros Hin. apply (Hd k Hin). set_solver.
Qed.
End paginate.

Section coverage.
Context `{SL : SDKLaws} {V : Type} (getter : string → res V) (filter : option (V → bool)) (keys : list string).
Hypothesis (Hread : readable getter keys) (Hnd : NoDup keys)
  (Hne : Forall (λ k, k ≠ ""%string) keys) (Hlen : llen keys ≤ max_u64).

Lemma follow_window fuel (r : PageRequest) :
  0 ≤ Offset r → 0 ≤ Limit r → (length (window r getter filter keys) < fuel)%nat →
  follow fuel keys getter filter r = Ok ((window r getter filter keys).*2, true).
Proof.
  revert r. induction fuel as [|fuel IH]; intros r Ho Hl Hf; [lia|].
  cbn [follow]. rewrite paginate_eq by done. unfold page_of. cbn [mbind res_bind NextKey].
  set (ws := window r getter filter keys) in *. set (n := Z.to_nat (page_limit r)).
  assert (Hn : (0 < n)%nat).
  { unfold n, page_limit. pose proof query_DefaultLimit_range. destruct (Limit r =? 0) eqn:?; lia. }
  destruct (ws !! n) as [[k v]|] eqn:Ek; cbn.
  - pose proof (lookup_lt_Some _ _ _ Ek). destruct (window_next _ _ _ _ _ _ _ Hnd Hne Ek) as [Hk Hw].
    rewrite (proj2 (String.eqb_neq _ _) Hk).
    rewrite IH; cbn [next_request Offset Limit]; [|lia|done|rewrite Hw by done; rewrite length_drop; fold ws; lia].
    rewrite Hw by done. fold ws. cbn. by rewrite <- fmap_app, take_drop.
  - rewrite take_ge by by apply lookup_ge_None. done.
Qed.

(** C31 (termination): a client that starts at any offset and follows [NextKey] is told that there
    are no more pages after at most one request more than there are keys, and by then it has received
    every stored entry of the index that passes the filter, from the offset on, exactly once, in index
    order, whatever the page size. *)
Theorem pages_cover_selection fuel (r : PageRequest) :
  Key r = ""%string → 0 ≤ Offset r → 0 ≤ Limit r → (length keys < fuel)%nat →
  follow fuel keys getter filter r =
  Ok ((drop (Z.to_nat (Offset r)) (selected getter filter keys)).*2, true).
Proof.
  intros Hk Ho Hl Hf. pose proof (selected_length getter filter keys).
  rewrite follow_window; unfold window; rewrite ?decide_True, ?length_drop by done; [done..|lia].
Qed.
End coverage.

Section stale.
Context `{SDK} {V : Type} (getter : string → res V) (filter : option (V → bool)).

Lemma page_loop_not_found r limit keys st :
  ps_foundStart st = false → Key r ∉ keys → page_loop getter r limit filter keys st = Ok st.
Proof.
  intros Hst. induction keys as [|k keys IH]; intros Hk; cbn [page_loop]; [done|]. rewrite Hst.
  apply not_elem_of_cons in Hk as [Hne Hk]. rewrite (proj2 (String.eqb_neq _ _) Hne). by apply IH.
Qed.

(** A cursor is matched by equality, not by order. When the entry it names is no longer in
    the index (a lease that left the state being listed between two requests), the page is empty,
    there is no [NextKey] and no error: whatever the index still holds, the listing ends there. *)
Lemma stale_cursor_ends_listing (r : PageRequest) (keys : list string) :
  Key r ≠ ""%string → Key r ∉ keys →
  PaginateStringIndex keys getter (Some r) filter = Ok ([], mkPageResponse "" 0).
Proof.
  intros Hk%String.eqb_neq Hin. unfold PaginateStringIndex. cbn [default from_option id]. rewrite Hk.
  rewrite page_loop_not_found, ok_bind by done. cbn. by destruct (CountTotal r).
Qed.
End stale.

(** Three stored entries, one dangling key, pages of one entry, the first entry skipped. *)
Definition example_getter (k : string) : res Z :=
  if String.eqb k "a" then Ok 1 else if String.eqb k "b" then Ok 2 else if String.eqb k "d" then Ok 4 else Err CollNotFound.
Definition example_page : PageRequest := mkPageRequest "" 1 1 false false.

Lemma pages_cover_selection_witness :
  follow 5 ["a"; "b"; "c"; "d"] example_getter None example_page = Ok ([2; 4], true).
Proof.
  apply (pages_cover_selection example_getter None ["a"; "b"; "c"; "d"]).
  - intros k Hk. unfold example_getter. repeat (destruct (String.eqb k _); [by left; eauto|]). by right.
  - apply (bool_decide_unpack _). vm_compute. done.
  - repeat constructor; done.
  - by vm_compute.
  - done.
  - done.
  - done.
  - cbn. lia.
Defined.

(** "b" was deleted after it was handed out as a cursor; "d" is stored and never listed. *)
Lemma stale_cursor_ends_listing_witness :
  PaginateStringIndex ["a"; "d"] example_getter (Some (mkPageRequest "b" 0 1 true false)) None =
  Ok ([], mkPageResponse "" 0) ∧ example_getter "d" = Ok 4.
Proof.
  split; [|reflexivity]. apply stale_cursor_ends_listing; cbn [Key]; [discriminate|].
  intros Hin%list_elem_of_In. cbn in Hin. naive_solver.
Defined.
