(* ===== verification/Uuid.v ===== *)
(** * Deterministic UUIDv7 generation (src/pkg/uuid/uuid.go)

    Bytes are integers in [0, 256); [uint64] arithmetic wraps. The theorems: what is generated is
    accepted by the validator, and the generated string determines the 48-bit timestamp, the
    12-bit sequence and the 62-bit node it was made from. *)

From stdpp Require Import base tactics option list strings gmap.
From Stdlib Require Import ZArith Lia Ascii.
From S2P Require Import Prelude.
Open Scope Z_scope.

(** [byte(x)] of an unsigned integer. *)
Definition to_byte (x : Z) : Z := Z.land x 255.

Fixpoint string_bytes (s : string) : list Z :=
  match s with EmptyString => [] | String c s' => Z.of_nat (nat_of_ascii c) :: string_bytes s' end.

Definition fnvPrime : Z := 1099511628211.
Definition fnvOffset : Z := 14695981039346656037.

(** One round of FNV-1a: [hash ^= uint64(b); hash *= fnvPrime]. *)
Definition fnv_step (hash b : Z) : Z := wrap_u64 (Z.lxor hash b * fnvPrime).

(** [binary.BigEndian.PutUint64]. *)
Definition big_endian_u64 (x : Z) : list Z :=
  (λ i, to_byte (Z.shiftr x i)) <$> [56; 48; 40; 32; 24; 16; 8; 0].

Definition hashEntropy (headerHash chainID moduleName : string) (sequence : Z) : Z :=
  let hash := foldl fnv_step fnvOffset (string_bytes headerHash) in
  let hash := foldl fnv_step hash (string_bytes chainID) in
  let hash := foldl fnv_step hash (string_bytes moduleName) in
  foldl fnv_step hash (big_endian_u64 sequence).

Definition hex_digit (n : Z) : ascii :=
  ascii_of_nat (Z.to_nat (if n <? 10 then 48 + n else 87 + n)).

(** [%x] of a byte slice. *)
Definition hex_bytes (bs : list Z) : list ascii :=
  b ← bs; [hex_digit (Z.shiftr b 4); hex_digit (Z.land b 15)].

Definition dash : ascii := "-".

Definition formatUUID (uuid : list Z) : string :=
  String.string_of_list_ascii
    (hex_bytes (take 4 uuid) ++ [dash] ++
     hex_bytes (take 2 (drop 4 uuid)) ++ [dash] ++
     hex_bytes (take 2 (drop 6 uuid)) ++ [dash] ++
     hex_bytes (take 2 (drop 8 uuid)) ++ [dash] ++
     hex_bytes (take 6 (drop 10 uuid))).

(** [uint64(t.UnixMilli())] of a time in nanoseconds. *)
Definition unix_milli_u64 (t : Z) : Z := wrap_u64 (t / 1000000).

(** The 16 bytes before formatting. *)
Definition uuid_bytes (ms sequence nodeHash : Z) : list Z :=
  [ to_byte (Z.shiftr ms 40); to_byte (Z.shiftr ms 32); to_byte (Z.shiftr ms 24);
    to_byte (Z.shiftr ms 16); to_byte (Z.shiftr ms 8); to_byte ms;
    Z.lor 112 (to_byte (Z.land (Z.shiftr sequence 8) 15));
    to_byte (Z.land sequence 255);
    Z.lor 128 (to_byte (Z.land (Z.shiftr nodeHash 56) 63));
    to_byte (Z.shiftr nodeHash 48); to_byte (Z.shiftr nodeHash 40); to_byte (Z.shiftr nodeHash 32);
    to_byte (Z.shiftr nodeHash 24); to_byte (Z.shiftr nodeHash 16); to_byte (Z.shiftr nodeHash 8);
    to_byte nodeHash ].

Definition GenerateUUIDv7WithEntropy (t : Z) (headerHash chainID moduleName : string) (sequence : Z)
    : string :=
  let ms := unix_milli_u64 t in
  let nodeHash := hashEntropy headerHash chainID moduleName sequence in
  formatUUID (uuid_bytes ms sequence nodeHash).

(** The block context that generation reads. *)
Record BlockCtx : Type := mkBlockCtx { BlockTime : Z; HeaderHash : string; ChainID : string }.

Definition GenerateUUIDv7 (ctx : BlockCtx) (moduleName : string) (sequence : Z) : string :=
  GenerateUUIDv7WithEntropy (BlockTime ctx) (HeaderHash ctx) (ChainID ctx) moduleName sequence.

Definition GenerateUUIDv7FromTime (t : Z) (moduleName : string) (sequence : Z) : string :=
  GenerateUUIDv7WithEntropy t "" "" moduleName sequence.

(** ** Validation: the regular expression as a list of character classes *)

Definition in_range (lo hi : ascii) (c : ascii) : bool :=
  Nat.leb (nat_of_ascii lo) (nat_of_ascii c) && Nat.leb (nat_of_ascii c) (nat_of_ascii hi).
Definition is_hex (c : ascii) : bool := in_range "0" "9" c || in_range "a" "f" c.
Definition is_variant (c : ascii) : bool := in_range "8" "9" c || in_range "a" "b" c.

Definition uuidPattern : list (ascii → bool) :=
  replicate 8 is_hex ++ [Ascii.eqb dash] ++
  replicate 4 is_hex ++ [Ascii.eqb dash] ++
  [Ascii.eqb "7"] ++ replicate 3 is_hex ++ [Ascii.eqb dash] ++
  [is_variant] ++ replicate 3 is_hex ++ [Ascii.eqb dash] ++
  replicate 12 is_hex.

Fixpoint match_classes (ps : list (ascii → bool)) (s : string) : bool :=
  match ps, s with
  | [], EmptyString => true
  | p :: ps', String c s' => p c && match_classes ps' s'
  | _, _ => false
  end.

Definition IsValidUUIDv7 (s : string) : bool := match_classes uuidPattern s.
Definition IsValidUUID (s : string) : bool := IsValidUUIDv7 s.

(** [None] is Go's nil error. *)
Definition ValidateUUIDv7 (s : string) : option error :=
  if String.eqb s "" then Some Plain
  else if negb (IsValidUUIDv7 s) then Some Plain
  else None.

(** ** Properties *)

Lemma bounded_check (p : Z → bool) (k : Z) :
  forallb p (seqZ 0 k) = true → ∀ n, 0 ≤ n < k → p n = true.
Proof. rewrite forallb_forall. intros Hp n Hn. apply Hp, list_elem_of_In, elem_of_seqZ. lia. Qed.

Lemma is_hex_digit n : 0 ≤ n < 16 → is_hex (hex_digit n) = true.
Proof. apply (bounded_check (λ n, is_hex (hex_digit n))). reflexivity. Qed.

Lemma is_variant_digit n : 8 ≤ n < 12 → is_variant (hex_digit n) = true.
Proof.
  intros. replace n with (8 + (n - 8)) by lia.
  apply (bounded_check (λ n, is_variant (hex_digit (8 + n))) 4); [reflexivity|lia].
Qed.

Definition digit_value (c : ascii) : Z :=
  let n := Z.of_nat (nat_of_ascii c) in if n <? 58 then n - 48 else n - 87.

Lemma digit_value_hex n : 0 ≤ n < 16 → digit_value (hex_digit n) = n.
Proof.
  intros. apply Z.eqb_eq. apply (bounded_check (λ n, digit_value (hex_digit n) =? n) 16); [reflexivity|lia].
Qed.

Lemma to_byte_mod x : to_byte x = x mod 256.
Proof. unfold to_byte. change 255 with (Z.ones 8). by rewrite Z.land_ones by lia. Qed.

Lemma to_byte_range x : 0 ≤ to_byte x < 256.
Proof. rewrite to_byte_mod. apply Z.mod_pos_bound. lia. Qed.

Lemma nibble_high b : 0 ≤ b < 256 → 0 ≤ Z.shiftr b 4 < 16.
Proof.
  intros. rewrite Z.shiftr_div_pow2 by lia. change (2 ^ 4) with 16.
  split; [apply Z.div_pos; lia|apply Z.div_lt_upper_bound; lia].
Qed.

Lemma nibble_low b : 0 ≤ Z.land b 15 < 16.
Proof. change 15 with (Z.ones 4). rewrite Z.land_ones by lia. apply Z.mod_pos_bound. lia. Qed.

Lemma nibbles b : b = 16 * Z.shiftr b 4 + Z.land b 15.
Proof.
  change 15 with (Z.ones 4). rewrite Z.land_ones, Z.shiftr_div_pow2 by lia. change (2 ^ 4) with 16.
  apply Z.div_mod. lia.
Qed.

(** The version and variant bytes. *)
Lemma version_byte x :
  let b := Z.lor 112 (to_byte (Z.land x 15)) in b = 112 + x mod 16 ∧ Z.shiftr b 4 = 7.
Proof.
  change 15 with (Z.ones 4). rewrite Z.land_ones by lia.
  pose proof (Z.mod_pos_bound x (2 ^ 4) ltac:(lia)) as Hr. revert Hr. change (2 ^ 4) with 16.
  generalize (x mod 16). intros r Hr. cbv zeta.
  apply (bounded_check (λ r, (Z.lor 112 (to_byte r) =? 112 + r) && (Z.shiftr (Z.lor 112 (to_byte r)) 4 =? 7)) 16) in Hr;
    [|reflexivity].
  apply andb_true_iff in Hr. lia.
Qed.

Lemma variant_byte x :
  let b := Z.lor 128 (to_byte (Z.land x 63)) in b = 128 + x mod 64 ∧ 8 ≤ Z.shiftr b 4 < 12 ∧ 0 ≤ b < 256.
Proof.
  change 63 with (Z.ones 6). rewrite Z.land_ones by lia.
  pose proof (Z.mod_pos_bound x (2 ^ 6) ltac:(lia)) as Hr. revert Hr. change (2 ^ 6) with 64.
  generalize (x mod 64). intros r Hr. cbv zeta.
  apply (bounded_check (λ r, let b := Z.lor 128 (to_byte r) in
           (b =? 128 + r) && (8 <=? Z.shiftr b 4) && (Z.shiftr b 4 <? 12) && (b <? 256)) 64) in Hr as Hc;
    [|reflexivity].
  cbv zeta in Hc. rewrite !andb_true_iff in Hc. lia.
Qed.

Lemma hex_byte_classes (b : Z) (s : string) ps :
  0 ≤ b < 256 →
  match_classes (is_hex :: is_hex :: ps)
    (String (hex_digit (Z.shiftr b 4)) (String (hex_digit (Z.land b 15)) s)) = match_classes ps s.
Proof.
  intros Hb. cbn. rewrite (is_hex_digit _ (nibble_high b Hb)), (is_hex_digit _ (nibble_low b)). done.
Qed.

Lemma generated_nonempty ctx moduleName sequence : GenerateUUIDv7 ctx moduleName sequence ≠ ""%string.
Proof. unfold GenerateUUIDv7, GenerateUUIDv7WithEntropy, uuid_bytes, formatUUID. cbn. discriminate. Qed.

Lemma entropy_uuid_valid t headerHash chainID moduleName sequence :
  IsValidUUIDv7 (GenerateUUIDv7WithEntropy t headerHash chainID moduleName sequence) = true.
Proof.
  unfold GenerateUUIDv7WithEntropy, IsValidUUIDv7.
  set (ms := unix_milli_u64 t). set (h := hashEntropy _ _ _ _). clearbody ms h.
  destruct (version_byte (Z.shiftr sequence 8)) as [Hv Hv7].
  destruct (variant_byte (Z.shiftr h 56)) as (_ & Hw & Hwr).
  unfold uuid_bytes, formatUUID, hex_bytes. cbn -[hex_digit is_hex is_variant Z.shiftr Z.land to_byte Z.lor Ascii.eqb dash].
  rewrite Hv7, !is_hex_digit, is_variant_digit by auto using to_byte_range, nibble_high, nibble_low.
  reflexivity.
Qed.

Lemma generated_valid ctx moduleName sequence : IsValidUUID (GenerateUUIDv7 ctx moduleName sequence) = true.
Proof. unfold IsValidUUID, GenerateUUIDv7. rewrite entropy_uuid_valid. reflexivity. Qed.

Lemma hex_byte_inj a b :
  0 ≤ a < 256 → 0 ≤ b < 256 →
  hex_digit (Z.shiftr a 4) = hex_digit (Z.shiftr b 4) →
  hex_digit (Z.land a 15) = hex_digit (Z.land b 15) → a = b.
Proof.
  intros Ha Hb Hh Hl. rewrite (nibbles a), (nibbles b).
  rewrite <- (digit_value_hex (Z.shiftr a 4)), Hh, digit_value_hex by auto using nibble_high.
  rewrite <- (digit_value_hex (Z.land a 15)), Hl, digit_value_hex by auto using nibble_low.
  done.
Qed.

Lemma of_list_ascii_inj l1 l2 : String.string_of_list_ascii l1 = String.string_of_list_ascii l2 → l1 = l2.
Proof. intros H. by rewrite <- (String.list_ascii_of_string_of_list_ascii l1), H, String.list_ascii_of_string_of_list_ascii. Qed.

Lemma hex_bytes_inj bs cs :
  Forall (λ b, 0 ≤ b < 256) bs → Forall (λ b, 0 ≤ b < 256) cs → hex_bytes bs = hex_bytes cs → bs = cs.
Proof.
  intros Hb; revert cs. induction Hb as [|b bs Hb _ IH]; intros cs Hc.
  - destruct cs; [done|]. discriminate.
  - destruct Hc as [|c cs Hc Hcs]; [discriminate|].
    unfold hex_bytes; cbn. intros [= Hh Hl Ht]. f_equal; [by apply hex_byte_inj|]. by apply IH.
Qed.

Lemma formatUUID_inj bs cs :
  length bs = 16%nat → length cs = 16%nat →
  Forall (λ b, 0 ≤ b < 256) bs → Forall (λ b, 0 ≤ b < 256) cs →
  formatUUID bs = formatUUID cs → bs = cs.
Proof.
  intros Lb Lc Hb Hc H%of_list_ascii_inj. apply hex_bytes_inj; [done..|].
  do 16 (destruct bs as [|? bs]; [discriminate|]); destruct bs; [|discriminate].
  do 16 (destruct cs as [|? cs]; [discriminate|]); destruct cs; [|discriminate].
  revert H. unfold hex_bytes. cbn -[hex_digit Z.shiftr Z.land].
  intros H. congruence.
Qed.

Lemma uuid_bytes_range ms sequence h : Forall (λ b, 0 ≤ b < 256) (uuid_bytes ms sequence h).
Proof.
  destruct (version_byte (Z.shiftr sequence 8)) as [Hv _].
  pose proof (Z.mod_pos_bound (Z.shiftr sequence 8) 16 ltac:(lia)).
  destruct (variant_byte (Z.shiftr h 56)) as (_ & _ & Hw).
  unfold uuid_bytes. repeat constructor; try apply to_byte_range; try lia; rewrite ?Hv; lia.
Qed.

Lemma mod_bytes x y k :
  0 ≤ k → x mod 2 ^ k = y mod 2 ^ k → to_byte (Z.shiftr x k) = to_byte (Z.shiftr y k) →
  x mod 2 ^ (k + 8) = y mod 2 ^ (k + 8).
Proof.
  intros Hk Hm Hb. rewrite !to_byte_mod, !Z.shiftr_div_pow2 in Hb by done.
  rewrite Z.pow_add_r by lia. change (2 ^ 8) with 256.
  rewrite !Z.rem_mul_r by lia. by rewrite Hm, Hb.
Qed.

Lemma mod_bytes_0 x y : to_byte x = to_byte y → x mod 2 ^ 8 = y mod 2 ^ 8.
Proof. by rewrite !to_byte_mod. Qed.

Lemma uuid_bytes_inj ms1 s1 h1 ms2 s2 h2 :
  uuid_bytes ms1 s1 h1 = uuid_bytes ms2 s2 h2 →
  ms1 mod 2 ^ 48 = ms2 mod 2 ^ 48 ∧ s1 mod 2 ^ 12 = s2 mod 2 ^ 12 ∧ h1 mod 2 ^ 62 = h2 mod 2 ^ 62.
Proof.
  destruct (version_byte (Z.shiftr s1 8)) as [Hv1 _], (version_byte (Z.shiftr s2 8)) as [Hv2 _].
  destruct (variant_byte (Z.shiftr h1 56)) as [Hw1 _], (variant_byte (Z.shiftr h2 56)) as [Hw2 _].
  unfold uuid_bytes. rewrite Hv1, Hv2, Hw1, Hw2. intros [= A B C D E F G I J K L N O P Q R].
  assert (Hs : to_byte s1 = to_byte s2).
  { unfold to_byte in *. rewrite <- !Z.land_assoc in I. exact I. }
  split_and!.
  - apply (mod_bytes _ _ 40); [lia| |done]. apply (mod_bytes _ _ 32); [lia| |done].
    apply (mod_bytes _ _ 24); [lia| |done]. apply (mod_bytes _ _ 16); [lia| |done].
    apply (mod_bytes _ _ 8); [lia| |done]. by apply mod_bytes_0.
  - rewrite !Z.shiftr_div_pow2 in G by lia. change (2 ^ 12) with (2 ^ 8 * 16).
    rewrite !Z.rem_mul_r by lia. rewrite (mod_bytes_0 _ _ Hs). lia.
  - rewrite !Z.shiftr_div_pow2 in J by lia. change (2 ^ 62) with (2 ^ 56 * 64).
    rewrite !Z.rem_mul_r by lia.
    assert (h1 mod 2 ^ 56 = h2 mod 2 ^ 56) as ->; [|lia].
    apply (mod_bytes _ _ 48); [lia| |done]. apply (mod_bytes _ _ 40); [lia| |done].
    apply (mod_bytes _ _ 32); [lia| |done]. apply (mod_bytes _ _ 24); [lia| |done].
    apply (mod_bytes _ _ 16); [lia| |done]. apply (mod_bytes _ _ 8); [lia| |done]. by apply mod_bytes_0.
Qed.

(** Two generated UUIDs collide only if they agree on the millisecond (mod 2^48), on
    the sequence number (mod 4096) and on 62 bits of the FNV-1a hash of their entropy. So within
    one millisecond 4096 consecutive sequence numbers of a module yield distinct UUIDs. *)
Theorem generated_uuid_collision t1 hh1 c1 m1 s1 t2 hh2 c2 m2 s2 :
  GenerateUUIDv7WithEntropy t1 hh1 c1 m1 s1 = GenerateUUIDv7WithEntropy t2 hh2 c2 m2 s2 →
  (t1 / 1000000) mod 2 ^ 48 = (t2 / 1000000) mod 2 ^ 48 ∧ s1 mod 4096 = s2 mod 4096 ∧
  hashEntropy hh1 c1 m1 s1 mod 2 ^ 62 = hashEntropy hh2 c2 m2 s2 mod 2 ^ 62.
Proof.
  intros H. apply formatUUID_inj in H; [|done|done|apply uuid_bytes_range..].
  apply uuid_bytes_inj in H as (Hms & Hs & Hh). split_and!; [|done|done].
  unfold unix_milli_u64, wrap_u64 in Hms. revert Hms.
  assert (Hmm : ∀ x, (x mod 2 ^ 64) mod 2 ^ 48 = x mod 2 ^ 48).
  { intros x. change (2 ^ 64) with (2 ^ 48 * 2 ^ 16). rewrite Z.rem_mul_r by lia.
    rewrite Z.mul_comm, Z.mod_add by lia. apply Z.mod_mod. lia. }
  by rewrite !Hmm.
Qed.

Lemma generated_uuid_collision_witness :
  let u t := GenerateUUIDv7WithEntropy t "hash" "manifest-1" "billing" 4103 in
  u 1700000000123456789 = u 1700000000123000000 ∧
  (1700000000123456789 / 1000000) mod 2 ^ 48 = (1700000000123000000 / 1000000) mod 2 ^ 48.
Proof.
  cbv zeta. split; [vm_compute; reflexivity|].
  refine (proj1 (generated_uuid_collision 1700000000123456789 "hash" "manifest-1" "billing" 4103
           1700000000123000000 "hash" "manifest-1" "billing" 4103 _)).
  vm_compute; reflexivity.
Defined.
