(* ===== verification/GoStd.v ===== *)
(** * What the modules use of Go's standard library

    Strings are byte strings. On ASCII input [strings.ToLower] and [strings.TrimSpace] are defined
    here as their fast paths are; their Unicode paths, [net/url] and the iteration order of a Go
    map are parameters ([GoStd]). The only law, [GoStdLaws], is that ranging over a map visits
    each entry once, in an order that is not specified. *)

From stdpp Require Import base tactics option list strings gmap fin_maps.
From Stdlib Require Import ZArith Lia Ascii.
From S2P Require Import Prelude.
Open Scope Z_scope.

Record URL : Type := mkURL { Scheme : string; Host : string; HasUser : bool }.

Class GoStd : Type := {
  url_Parse : string → option URL;
  unicode_ToLower : string → string;
  unicode_TrimSpace : string → string;
  (* strings.Map keeping the runes that are unicode.IsGraphic *)
  unicode_Graphic : string → string;
  (* the order in which the [site]-th [range] over this map visits it *)
  map_range : nat → gmap string string → list (string * string);
}.

Class GoStdLaws `(G : GoStd) : Prop := {
  map_range_perm site (m : gmap string string) : map_range site m ≡ₚ map_to_list m;
}.

(** ** Characters and strings *)

Definition char_code (c : ascii) : Z := Z.of_nat (nat_of_ascii c).
Definition is_ascii_char (c : ascii) : bool := char_code c <? 128.
Definition is_lower_char (c : ascii) : bool := (97 <=? char_code c) && (char_code c <=? 122).
Definition is_upper_char (c : ascii) : bool := (65 <=? char_code c) && (char_code c <=? 90).
Definition is_digit_char (c : ascii) : bool := (48 <=? char_code c) && (char_code c <=? 57).
(* '\t', '\n', '\v', '\f', '\r', ' ' *)
Definition is_space_char (c : ascii) : bool :=
  ((9 <=? char_code c) && (char_code c <=? 13)) || (char_code c =? 32).

Definition to_lower_char (c : ascii) : ascii :=
  if is_upper_char c then ascii_of_nat (nat_of_ascii c + 32) else c.

Fixpoint str_forallb (p : ascii → bool) (s : string) : bool :=
  match s with EmptyString => true | String c s' => p c && str_forallb p s' end.
Fixpoint str_existsb (p : ascii → bool) (s : string) : bool :=
  match s with EmptyString => false | String c s' => p c || str_existsb p s' end.
Fixpoint str_map (f : ascii → ascii) (s : string) : string :=
  match s with EmptyString => EmptyString | String c s' => String (f c) (str_map f s') end.
Fixpoint str_drop_while (p : ascii → bool) (s : string) : string :=
  match s with String c s' => if p c then str_drop_while p s' else s | EmptyString => EmptyString end.
(** Drop the trailing characters that satisfy [p]. *)
Fixpoint str_drop_end (p : ascii → bool) (s : string) : string :=
  match s with
  | EmptyString => EmptyString
  | String c s' =>
      match str_drop_end p s' with
      | EmptyString => if p c then EmptyString else String c EmptyString
      | t => String c t
      end
  end.

Fixpoint str_filter (p : ascii → bool) (s : string) : string :=
  match s with
  | EmptyString => EmptyString
  | String c s' => if p c then String c (str_filter p s') else str_filter p s'
  end.

Definition is_graphic_char (c : ascii) : bool := (32 <=? char_code c) && (char_code c <=? 126).

Definition is_ascii (s : string) : bool := str_forallb is_ascii_char s.

Section strings.
Context `{GoStd}.

Definition strings_ToLower (s : string) : string :=
  if is_ascii s then str_map to_lower_char s else unicode_ToLower s.

Definition strings_TrimSpace (s : string) : string :=
  if is_ascii s then str_drop_end is_space_char (str_drop_while is_space_char s)
  else unicode_TrimSpace s.

(** [sanitize.EventAttribute] (src/pkg/sanitize): drop the runes that are not graphic; of the ASCII
    characters, those below space and DEL. *)
Definition EventAttribute (s : string) : string :=
  if is_ascii s then str_filter is_graphic_char s else unicode_Graphic s.
End strings.

Fixpoint strings_HasPrefix (s p : string) : bool :=
  match p, s with
  | EmptyString, _ => true
  | String c p', String d s' => Ascii.eqb c d && strings_HasPrefix s' p'
  | String _ _, EmptyString => false
  end.

(** [strings.HasSuffix(s, suffix)]. *)
Definition strings_HasSuffix (s suffix : string) : bool :=
  (len suffix <=? len s) &&
  String.eqb (String.substring (String.length s - String.length suffix) (String.length suffix) s) suffix.

Fixpoint strings_Contains (s sub : string) : bool :=
  strings_HasPrefix s sub ||
  match s with String _ s' => strings_Contains s' sub | EmptyString => false end.

(** [strings.Split(s, sep)] for a separator of one byte. *)
Fixpoint strings_Split (s : string) (sep : ascii) : list string :=
  match s with
  | EmptyString => [""%string]
  | String c s' =>
      if Ascii.eqb c sep then ""%string :: strings_Split s' sep
      else match strings_Split s' sep with
           | x :: xs => String c x :: xs
           | [] => [String c ""]
           end
  end.

(** ** A reference instance *)

#[export] Instance ref_go : GoStd := {
  url_Parse s :=
    if strings_HasPrefix s "https://" then
      Some (mkURL "https" (String.substring 8 (String.length s - 8) s) (strings_Contains s "@"))
    else Some (mkURL "" "" false);
  unicode_ToLower s := s;
  unicode_TrimSpace s := s;
  unicode_Graphic s := s;
  map_range _ m := map_to_list m;
}.

#[export] Instance ref_go_laws : GoStdLaws ref_go.
Proof. constructor. done. Qed.

(** ** Lemmas *)

Lemma to_lower_char_ascii c : is_ascii_char c = true → is_ascii_char (to_lower_char c) = true.
Proof. destruct c as [[] [] [] [] [] [] [] []]; intros ?; first [reflexivity|discriminate]. Qed.

Lemma to_lower_char_fix c : is_upper_char c = false → to_lower_char c = c.
Proof. intros E. unfold to_lower_char. by rewrite E. Qed.

Lemma str_forallb_impl (p q : ascii → bool) s :
  (∀ c, p c = true → q c = true) → str_forallb p s = true → str_forallb q s = true.
Proof. intros Hpq. induction s; cbn; [done|]. rewrite !andb_true_iff. naive_solver. Qed.

Lemma str_map_id (f : ascii → ascii) (p : ascii → bool) s :
  (∀ c, p c = true → f c = c) → str_forallb p s = true → str_map f s = s.
Proof. intros Hf. induction s; cbn; [done|]. rewrite andb_true_iff. intros [??]. f_equal; auto. Qed.
