(* ===== verification/Strconv.v ===== *)
(** * Text of numbers and bytes: strconv, encoding/hex and more of package strings

    What the command line uses of Go's standard library, each function with the reading of its
    result that the client theorems are stated with: the value of a decimal numeral, the bytes of a
    hexadecimal one, the pieces of a split. [None] is an error. *)

From stdpp Require Import base tactics option list strings pretty.
From Stdlib Require Import ZArith Lia Ascii.
From S2P Require Import Prelude GoStd.
Open Scope Z_scope.

(** ** strconv *)

Definition digit_value (c : ascii) : Z := char_code c - 48.

(** The loop of [ParseUint] in base 10: [n *= 10; n1 := n + d], each with its overflow test. *)
Fixpoint parse_uint_loop (maxVal n : Z) (s : string) : option Z :=
  match s with
  | EmptyString => Some n
  | String c s' =>
      if negb (is_digit_char c) then None else
      if max_u64 / 10 + 1 <=? n then None else
      let n := wrap_u64 (n * 10) in
      let n1 := wrap_u64 (n + digit_value c) in
      if (n1 <? n) || (maxVal <? n1) then None else parse_uint_loop maxVal n1 s'
  end.

(** [strconv.ParseUint(s, 10, bitSize)]. *)
Definition ParseUint (s : string) (bitSize : Z) : option Z :=
  if String.eqb s "" then None else parse_uint_loop (2 ^ bitSize - 1) 0 s.

(** [strconv.ParseInt(s, 10, bitSize)]: an optional sign, then [ParseUint] and the range. *)
Definition ParseInt (s : string) (bitSize : Z) : option Z :=
  let '(neg, digits) :=
    match s with
    | String c s' => if Ascii.eqb c "+" then (false, s') else if Ascii.eqb c "-" then (true, s') else (false, s)
    | EmptyString => (false, s)
    end in
  un ← ParseUint digits bitSize;
  let cutoff := 2 ^ (bitSize - 1) in
  if negb neg && (cutoff <=? un) then None else
  if neg && (cutoff <? un) then None else
  Some (if (neg : bool) then - un else un).

(** [strconv.ParseBool]. *)
Definition ParseBool (s : string) : option bool :=
  if bool_decide (s ∈ ["1"; "t"; "T"; "true"; "TRUE"; "True"]%string) then Some true else
  if bool_decide (s ∈ ["0"; "f"; "F"; "false"; "FALSE"; "False"]%string) then Some false else None.

(** ** encoding/hex *)

Definition from_hex_char (c : ascii) : option Z :=
  let n := char_code c in
  if is_digit_char c then Some (n - 48) else
  if (97 <=? n) && (n <=? 102) then Some (n - 87) else
  if (65 <=? n) && (n <=? 70) then Some (n - 55) else None.

(** [hex.DecodeString]: pairs of digits; an odd length is an error. *)
Fixpoint hex_DecodeString (s : string) : option string :=
  match s with
  | EmptyString => Some ""%string
  | String a (String b s') =>
      x ← from_hex_char a; y ← from_hex_char b; r ← hex_DecodeString s';
      Some (String (ascii_of_nat (Z.to_nat (x * 16 + y))) r)
  | String _ EmptyString => None
  end.

Definition hex_char (n : Z) : ascii := ascii_of_nat (Z.to_nat (if n <? 10 then 48 + n else 87 + n)).

(** [hex.EncodeToString]. *)
Fixpoint hex_EncodeToString (s : string) : string :=
  match s with
  | EmptyString => ""%string
  | String c s' => String (hex_char (char_code c / 16)) (String (hex_char (char_code c mod 16)) (hex_EncodeToString s'))
  end.

(** ** strings *)

(** Cut at the first [cuts] separators. *)
Fixpoint split_cuts (cuts : nat) (s : string) (sep : ascii) : list string :=
  match s, cuts with
  | EmptyString, _ => [""%string]
  | String _ _, O => [s]
  | String c s', S cuts' =>
      if Ascii.eqb c sep then ""%string :: split_cuts cuts' s' sep
      else match split_cuts cuts s' sep with
           | x :: xs => String c x :: xs
           | [] => [String c ""]
           end
  end.

(** [strings.SplitN(s, sep, n)] for a separator of one byte and a positive [n]. *)
Definition strings_SplitN (s : string) (sep : ascii) (n : nat) : list string := split_cuts (pred n) s sep.

(** [strings.ReplaceAll(s, c, "")] for a pattern of one byte. *)
Definition strings_RemoveAll (s : string) (c : ascii) : string := str_filter (λ d, negb (Ascii.eqb d c)) s.

(** ** Numerals *)

Fixpoint dec_value (n : Z) (s : string) : Z :=
  match s with EmptyString => n | String c s' => dec_value (n * 10 + digit_value c) s' end.

(** [s] is a numeral for [q], which fits in [bitSize] bits. *)
Definition numeral (bitSize : Z) (s : string) (q : Z) : Prop :=
  s ≠ ""%string ∧ str_forallb is_digit_char s = true ∧ dec_value 0 s = q ∧ q < 2 ^ bitSize.

Lemma digit_value_range c : is_digit_char c = true → 0 ≤ digit_value c ≤ 9.
Proof. unfold is_digit_char, digit_value. rewrite andb_true_iff, !Z.leb_le. lia. Qed.

Lemma dec_value_ge s : ∀ n, 0 ≤ n → str_forallb is_digit_char s = true → n ≤ dec_value n s.
Proof.
  induction s as [|c s IH]; cbn; intros n Hn Hd; [lia|].
  apply andb_true_iff in Hd as [Hc%digit_value_range Hd]. specialize (IH (n * 10 + digit_value c) ltac:(lia) Hd). lia.
Qed.

(** With the accumulator in range, the loop computes the value or fails, and never wraps. *)
Lemma parse_uint_loop_spec maxVal s : ∀ n, 0 ≤ n ≤ maxVal → maxVal ≤ max_u64 →
  ∀ q, parse_uint_loop maxVal n s = Some q ↔ str_forallb is_digit_char s = true ∧ dec_value n s = q ∧ q ≤ maxVal.
Proof.
  induction s as [|c s IH]; cbn; intros n Hn Hmax q; [naive_solver lia|].
  destruct (is_digit_char c) eqn:Hc; cbn [negb andb]; [|naive_solver].
  apply digit_value_range in Hc.
  assert (Hv : str_forallb is_digit_char s = true → n * 10 + digit_value c ≤ dec_value (n * 10 + digit_value c) s)
    by (apply dec_value_ge; lia).
  destruct (Z.leb_spec (max_u64 / 10 + 1) n) as [Hbig|Hsmall].
  { split; [done|]. intros (Hd & Hq & Hle). specialize (Hv Hd).
    pose proof (Z.mul_succ_div_gt max_u64 10). lia. }
  assert (Hn10 : n * 10 ≤ max_u64) by (pose proof (Z.mul_div_le max_u64 10); lia).
  rewrite (wrap_u64_id (n * 10)) by lia.
  destruct (Z.le_gt_cases (n * 10 + digit_value c) max_u64) as [Hok|Hover].
  - rewrite wrap_u64_id by lia. rewrite (proj2 (Z.ltb_ge (n * 10 + digit_value c) (n * 10))) by lia.
    cbn [orb]. destruct (Z.ltb_spec maxVal (n * 10 + digit_value c)).
    + split; [done|]. intros (Hd & Hq & Hle). specialize (Hv Hd). lia.
    + apply IH; lia.
  - assert (Hw : wrap_u64 (n * 10 + digit_value c) = n * 10 + digit_value c - 2 ^ 64).
    { unfold wrap_u64, max_u64 in *. symmetry. apply (Z.mod_unique_pos _ _ 1); lia. }
    rewrite Hw, (proj2 (Z.ltb_lt _ (n * 10))) by (unfold max_u64 in *; lia). cbn [orb].
    split; [done|]. intros (Hd & Hq & Hle). specialize (Hv Hd). lia.
Qed.

Lemma ParseUint_spec bitSize s q : 0 ≤ bitSize ≤ 64 → ParseUint s bitSize = Some q ↔ numeral bitSize s q.
Proof.
  intros Hb. unfold ParseUint, numeral.
  assert (Hp : 1 ≤ 2 ^ bitSize ≤ 2 ^ 64).
  { split; [|apply Z.pow_le_mono_r; lia]. pose proof (Z.pow_pos_nonneg 2 bitSize). lia. }
  destruct (String.eqb_spec s "") as [->|Hs]; [naive_solver|].
  rewrite parse_uint_loop_spec by (unfold max_u64; lia). naive_solver lia.
Qed.

Lemma numeral_nonneg bitSize s q : numeral bitSize s q → 0 ≤ q.
Proof. intros (_ & Hd & <- & _). apply dec_value_ge; [lia|done]. Qed.

(** A number as [strconv.FormatUint(q, 10)] prints it. *)
Definition FormatUint (q : Z) : string := pretty (Z.to_N q).

Lemma pretty_digit (d : N) : (d < 10)%N →
  is_digit_char (pretty_N_char d) = true ∧ digit_value (pretty_N_char d) = Z.of_N d.
Proof.
  intros Hd. assert (∃ n : nat, (n < 10)%nat ∧ d = N.of_nat n) as (n & Hn & ->) by (exists (N.to_nat d); lia).
  do 10 (destruct n as [|n]; [done|]). lia.
Qed.

Lemma pretty_go_value (x : N) : ∀ s, str_forallb is_digit_char s = true →
  str_forallb is_digit_char (pretty_N_go x s) = true ∧
  dec_value 0 (pretty_N_go x s) = dec_value (Z.of_N x) s ∧
  (s ≠ ""%string → pretty_N_go x s ≠ ""%string).
Proof.
  induction (N.lt_wf_0 x) as [x _ IH]; intros s Hs.
  destruct (decide (x = 0%N)) as [->|Hx]; [by rewrite pretty_N_go_0|].
  rewrite pretty_N_go_step by lia.
  destruct (pretty_digit (x mod 10)%N) as [Hd Hv]; [by apply N.mod_lt|].
  destruct (IH (x / 10)%N) with (s := String (pretty_N_char (x mod 10)%N) s) as (Ha & Hb & Hc).
  - by apply N.div_lt; lia.
  - cbn. by rewrite Hd.
  - split; [done|]. split; [|intros _; by apply Hc]. rewrite Hb. cbn. rewrite Hv. f_equal.
    pose proof (N.div_mod x 10). lia.
Qed.

(** Printing gives a numeral of the number. *)
Lemma FormatUint_numeral bitSize q : 0 ≤ q < 2 ^ bitSize → numeral bitSize (FormatUint q) q.
Proof.
  intros Hq. unfold FormatUint, pretty, pretty_N.
  destruct (decide (Z.to_N q = 0%N)) as [H0|H0]; [replace q with 0 in * by lia; split_and!; done || lia|].
  rewrite pretty_N_go_step by lia. destruct (pretty_digit (Z.to_N q mod 10)%N) as [Hd Hv]; [by apply N.mod_lt|].
  edestruct (pretty_go_value (Z.to_N q / 10)%N) as (Ha & Hb & Hc); [|split_and!; [by apply Hc|done| |lia]].
  - cbn. by rewrite Hd.
  - rewrite Hb. cbn. rewrite Hv. pose proof (N.div_mod (Z.to_N q) 10). lia.
Qed.

Lemma pretty_go_length (k : nat) : ∀ (x : N) s, (x < 2 ^ N.of_nat k)%N →
  (String.length (pretty_N_go x s) ≤ k + String.length s)%nat.
Proof.
  induction k as [|k IH]; intros x s Hx.
  - replace x with 0%N by (cbn in Hx; lia). by rewrite pretty_N_go_0.
  - destruct (decide (x = 0%N)) as [->|]; [rewrite pretty_N_go_0; lia|]. rewrite pretty_N_go_step by lia.
    etrans; [apply IH|cbn; lia]. rewrite Nat2N.inj_succ, N.pow_succ_r' in Hx. apply N.Div0.div_lt_upper_bound. lia.
Qed.

Lemma FormatUint_length (k : nat) q : 0 ≤ q < 2 ^ Z.of_nat k → len (FormatUint q) ≤ Z.of_nat k + 1.
Proof.
  intros Hq. unfold FormatUint, pretty, pretty_N, len. destruct (decide _); [cbn; lia|].
  assert (Z.to_N q < 2 ^ N.of_nat k)%N by (apply N2Z.inj_lt; rewrite N2Z.inj_pow, Z2N.id, nat_N_Z by lia; lia).
  pose proof (pretty_go_length k (Z.to_N q) "") as Hl. change (String.length "") with 0%nat in Hl. lia.
Qed.

(** ** Pieces *)

Definition no_char (sep : ascii) (s : string) : Prop := str_forallb (λ c, negb (Ascii.eqb c sep)) s = true.

(** Without the separator there is one piece; the first one ends at the first separator. *)
Lemma split_cuts_none cuts sep s : no_char sep s → split_cuts cuts s sep = [s].
Proof.
  unfold no_char. induction s as [|c s IH]; cbn; intros Hs; [done|]. destruct cuts; [done|].
  apply andb_true_iff in Hs as [Hc Hs]. apply negb_true_iff in Hc. by rewrite Hc, IH.
Qed.

Lemma split_cuts_first cuts sep s t : no_char sep s →
  split_cuts (S cuts) (s +:+ String sep t) sep = s :: split_cuts cuts t sep.
Proof.
  unfold no_char. induction s as [|c s IH]; intros Hs.
  - change (""%string +:+ String sep t) with (String sep t). cbn. by rewrite Ascii.eqb_refl.
  - cbn in Hs. apply andb_true_iff in Hs as [Hc Hs]. apply negb_true_iff in Hc.
    change (String c s +:+ String sep t) with (String c (s +:+ String sep t)).
    cbn [split_cuts]. by rewrite Hc, IH.
Qed.

(** The other direction: what the pieces say about the string. *)
Lemma split_cuts_inv cuts sep s x xs : split_cuts cuts s sep = x :: xs →
  (xs = [] ∧ x = s) ∨
  (∃ cuts' t, cuts = S cuts' ∧ s = x +:+ String sep t ∧ no_char sep x ∧ xs = split_cuts cuts' t sep).
Proof.
  revert x xs. induction s as [|c s IH]; cbn; intros x xs; [naive_solver|].
  destruct cuts as [|cuts]; [naive_solver|].
  destruct (Ascii.eqb_spec c sep) as [->|Hc].
  - intros [= <- <-]. right. by exists cuts, s.
  - destruct (split_cuts (S cuts) s sep) as [|y ys] eqn:E; [intros [= <- <-]; left|intros [= <- <-]].
    + by destruct s; [|cbn in E; destruct (Ascii.eqb _ _); [|destruct (split_cuts _ _ _)]].
    + destruct (IH _ _ eq_refl) as [[-> ->]|(cuts' & t & Hc' & -> & Hn & ->)]; [by left|].
      right. exists cuts', t. split_and!; [done..| |done]. unfold no_char in *. cbn.
      rewrite Hn. by destruct (Ascii.eqb_spec c sep).
Qed.

Lemma split_cuts_cons cuts s sep : ∃ x xs, split_cuts cuts s sep = x :: xs.
Proof.
  destruct s as [|c s]; cbn; [eauto|]. destruct cuts; [eauto|].
  destruct (Ascii.eqb _ _); [eauto|]. destruct (split_cuts _ s _); eauto.
Qed.

(** [strings.Split] is the split with enough cuts. *)
Lemma strings_Split_cuts sep s : ∀ n, (String.length s ≤ n)%nat → strings_Split s sep = split_cuts n s sep.
Proof.
  induction s as [|c s IH]; intros n Hn; cbn in *; [done|].
  destruct n as [|n]; [lia|]. destruct (Ascii.eqb c sep); [rewrite (IH n) by lia; done|].
  by rewrite (IH (S n)) by lia.
Qed.

(** Elements separated by [sep]. *)
Fixpoint join (sep : ascii) (l : list string) : string :=
  match l with
  | [] => ""%string
  | [x] => x
  | x :: l' => x +:+ String sep (join sep l')
  end.

Lemma str_length_app s t : String.length (s +:+ t) = (String.length s + String.length t)%nat.
Proof. induction s as [|c s IH]; [done|]. change (S (String.length (s +:+ t)) = S (String.length s) + String.length t)%nat. lia. Qed.

Lemma strings_Split_join sep l : l ≠ [] → Forall (no_char sep) l → strings_Split (join sep l) sep = l.
Proof.
  intros Hne Hl. induction Hl as [|x l Hx Hl IH]; [done|].
  rewrite (strings_Split_cuts _ _ (S (String.length (join sep (x :: l))))) by lia.
  destruct l as [|y l]; [by apply split_cuts_none|].
  change (join sep (x :: y :: l)) with (x +:+ String sep (join sep (y :: l))).
  rewrite split_cuts_first by done. f_equal. rewrite <- strings_Split_cuts; [by apply IH|].
  rewrite str_length_app. cbn. lia.
Qed.

(** ** Bytes *)

Lemma from_hex_char_hex n : 0 ≤ n < 16 → from_hex_char (hex_char n) = Some n.
Proof.
  intros Hn. assert (∃ k : nat, (k < 16)%nat ∧ n = Z.of_nat k) as (k & Hk & ->) by (exists (Z.to_nat n); lia).
  do 16 (destruct k as [|k]; [done|]). lia.
Qed.

Lemma char_code_range c : 0 ≤ char_code c < 256.
Proof. unfold char_code. pose proof (nat_ascii_bounded c). lia. Qed.

Lemma hex_roundtrip s : hex_DecodeString (hex_EncodeToString s) = Some s.
Proof.
  induction s as [|c s IH]; [done|]. cbn [hex_EncodeToString hex_DecodeString].
  pose proof (char_code_range c). rewrite !from_hex_char_hex by (split; [|apply Z.div_lt_upper_bound || apply Z.mod_pos_bound]; try apply Z.div_pos || apply Z.mod_pos_bound; lia).
  cbn [mbind option_bind]. rewrite IH. cbn [mbind option_bind]. do 2 f_equal.
  rewrite Z.mul_comm, <- Z.div_mod by lia. unfold char_code. by rewrite Nat2Z.id, ascii_nat_embedding.
Qed.

Lemma hex_decode_length s : ∀ b, hex_DecodeString s = Some b → len s = 2 * len b.
Proof.
  enough (∀ n s, (String.length s ≤ n)%nat → ∀ b, hex_DecodeString s = Some b → len s = 2 * len b) by eauto.
  clear s. induction n as [|n IH]; intros [|a [|b s]] Hn r; cbn in *; try (lia || done || by intros [= <-]).
  intros (x & _ & (y & _ & (r' & Hr & [= <-])%bind_Some)%bind_Some)%bind_Some.
  apply IH in Hr; [|lia]. unfold len in *. cbn. lia.
Qed.
