(* ===== verification/Gogo.v ===== *)
(** * Messages of other repositories: sdk.Coin and google.protobuf.Timestamp

    The generated code calls the marshalers of sdk.Coin (cosmos-sdk) and the conversions between
    time.Time and Timestamp (gogoproto). [GogoLaws]: what one side writes, in as many bytes as the
    size function says, the other side reads back, and unmarshaling returns on every input. [ref_gogo]
    is an instance made of the same statements as the repository's own messages. *)

From stdpp Require Import base tactics option list strings.
From Stdlib Require Import ZArith Lia Ascii.
From S2P Require Import Prelude Sdk GoStd Strconv Wire WireProps Codec.
Open Scope Z_scope.

Class Gogo : Type := {
  Coin_Size : Coin → Z;
  Coin_MarshalToSizedBuffer : Coin → bytes → res (bytes * Z);
  Coin_Unmarshal : bytes → Coin → res Coin;  (* into a coin, field by field *)
  SizeOfStdTime : Z → Z;
  StdTimeMarshalTo : Z → bytes → res (bytes * Z);
  StdTimeUnmarshal : bytes → res Z;
}.

(** The zero value of sdk.Coin and of time.Time, the first second of year 1. *)
Definition no_coin : Coin := mkCoin "" 0.
Definition no_time : Z := -62135596800 * Second.

(** A math.Int has at most 256 bits and a denom at most 128 characters; a Timestamp is in the years 1 to 9999. *)
Definition coin_fits (c : Coin) : Prop := 0 ≤ Amount c < 2 ^ 256 ∧ len (Denom c) ≤ 128.
Definition time_fits (t : Z) : Prop := no_time ≤ t < 253402300800 * Second.

Section bytes_of.
Context `{Gogo}.
Definition coin_bytes (c : Coin) : bytes :=
  match Coin_MarshalToSizedBuffer c (replicate (Z.to_nat (Coin_Size c)) (byte_of 0)) with Ok (b, _) => b | _ => [] end.
Definition time_bytes (t : Z) : bytes :=
  match StdTimeMarshalTo t (replicate (Z.to_nat (SizeOfStdTime t)) (byte_of 0)) with Ok (b, _) => b | _ => [] end.
End bytes_of.

Class GogoLaws `(G : Gogo) : Prop := {
  coin_marshals c : coin_fits c → marshals (Coin_MarshalToSizedBuffer c) (coin_bytes c);
  coin_size c : coin_fits c → llen (coin_bytes c) = Coin_Size c;
  coin_unmarshals c : coin_fits c → Coin_Unmarshal (coin_bytes c) no_coin = Ok c;
  coin_total c : total (λ b, Coin_Unmarshal b c);
  time_marshals t : time_fits t → marshals_to (StdTimeMarshalTo t) (time_bytes t);
  time_size t : time_fits t → llen (time_bytes t) = SizeOfStdTime t;
  time_unmarshals t : time_fits t → StdTimeUnmarshal (time_bytes t) = Ok t;
  time_total : total StdTimeUnmarshal;
}.

#[export] Hint Resolve coin_marshals coin_unmarshals coin_total time_unmarshals time_total : wire.

(** ** Repeated coins *)

Section coins.
Context `{GL : GogoLaws}.

Lemma writes_coins tag l : Forall coin_fits l →
  writes (put_each (λ e, put_msg tag (Coin_MarshalToSizedBuffer e)) l) (enc_each (λ e, len_field tag (coin_bytes e)) l).
Proof. intros Hl. apply writes_enc_each. eapply Forall_impl; [exact Hl|]. intros. apply writes_msg. auto with wire. Qed.

Lemma size_coins tag l : Forall coin_fits l → llen (enc_each (λ e, len_field tag (coin_bytes e)) l) = size_each (λ e, size_len (Coin_Size e)) l.
Proof. intros Hl. apply size_each_field. eapply Forall_impl; [exact Hl|]. intros c Hc. by rewrite size_len_field, coin_size. Qed.

Lemma size_coin tag c : coin_fits c → llen (len_field tag (coin_bytes c)) = size_len (Coin_Size c).
Proof. intros Hc. by rewrite size_len_field, coin_size. Qed.

End coins.
#[export] Hint Resolve writes_coins : wire.
#[export] Hint Rewrite @size_coin @size_coins using (by eauto with wire typeclass_instances) : wire_size.

(** The [n]-th field is a list of coins. *)
Ltac dec_coins n build :=
  dec_each n (get_msg (λ b, Coin_Unmarshal b no_coin)) build;
  [apply reads_get_msg, coin_unmarshals; match goal with H : Forall coin_fits ?l, Hc : ?c ∈ ?l |- _ => exact (proj1 (Forall_forall _ _) H c Hc) end|..].

(** ** Times *)

Section times.
Context `{Gogo}.

(** A time.Time field, which is never left out, and a pointer to one. *)
Definition put_time (tag t : Z) : writer := put_std tag (SizeOfStdTime t) (StdTimeMarshalTo t).
Definition size_time (t : Z) : Z := size_len (SizeOfStdTime t).
Definition get_time : Z → bytes → Z → res (Z * Z) := get_msg StdTimeUnmarshal.
Definition time_field (tag t : Z) : bytes := len_field tag (time_bytes t).
End times.

Definition time_fits_opt (o : option Z) : Prop := from_option time_fits True o.

Section times_props.
Context `{GL : GogoLaws}.

Lemma writes_time tag t : time_fits t → writes (put_time tag t) (time_field tag t).
Proof. intros Ht. apply writes_std; [by apply time_marshals|by apply time_size]. Qed.
Lemma writes_time_opt tag o : time_fits_opt o → writes (if_some o (put_time tag)) (enc_opt (time_field tag) o).
Proof. intros Ho. apply writes_enc_opt. intros t ->. by apply writes_time. Qed.

Lemma size_time_field tag t : time_fits t → llen (time_field tag t) = size_time t.
Proof. intros Ht. unfold time_field, size_time. by rewrite size_len_field, time_size. Qed.
Lemma size_time_opt tag o : time_fits_opt o → llen (enc_opt (time_field tag) o) = size_opt o size_time.
Proof. intros Ho. apply size_opt_field. intros t ->. by apply size_time_field. Qed.

Lemma reads_time t : time_fits t → reads (get_time 2) (varint (wrap_u64 (llen (time_bytes t))) ++ time_bytes t) t.
Proof. intros Ht. apply reads_get_msg. by apply time_unmarshals. Qed.

Lemma safe_get_time wt d i : 0 ≤ i ≤ llen d → llen d ≤ max_i64 → safe (i + 1) d (get_time wt d i).
Proof. apply safe_get_msg, time_total. Qed.
End times_props.
#[export] Hint Resolve writes_time writes_time_opt safe_get_time : wire.
#[export] Hint Rewrite @size_time_field @size_time_opt using (by eauto with wire typeclass_instances) : wire_size.

Ltac dec_time n := last_or_app ltac:(eapply (decodes_len _ _ n _ _ get_time); [..|switch_case]; [reflexivity|lia|by apply reads_time]).
Ltac dec_time_opt n build :=
  last_or_app ltac:(apply (decodes_opt _ _ _ build); intros ? ->;
    eapply (decodes_len _ _ n _ _ get_time); [..|switch_case]; [reflexivity|lia|by apply reads_time]).

(** ** A reference instance *)

(** Denom and the decimal text of the amount. *)
Definition ref_coin_write (c : Coin) : writer :=
  put_bytes 0x12 (FormatUint (Amount c)) ;;>
  if_nonempty (Denom c) (put_bytes 0xa (Denom c)).
Definition ref_coin_size (c : Coin) : Z := size_str (Denom c) + size_len (len (FormatUint (Amount c))).
Definition ref_coin_wire (c : Coin) : bytes :=
  enc_str 0xa (Denom c) ++ len_field 0x12 (to_bytes (FormatUint (Amount c))).

Definition ref_amount (s : string) : res Z :=
  if negb (String.eqb s "") && str_forallb is_digit_char s && (dec_value 0 s <? 2 ^ 256) then Ok (dec_value 0 s)
  else Err Plain.

Definition ref_coin_switch (fieldNum wireType : Z) (dAtA : bytes) (iNdEx : Z) (c : Coin) : option (res (Coin * Z)) :=
  let 'mkCoin denom amount := c in
  match fieldNum with
  | 1 => Some ('(s, i) ← get_string wireType dAtA iNdEx; Ok (mkCoin s amount, i))
  | 2 => Some ('(n, i) ← get_msg (λ b, ref_amount (of_bytes b)) wireType dAtA iNdEx; Ok (mkCoin denom n, i))
  | _ => None
  end.

(** Seconds, an int64, and nanoseconds. *)
Definition ref_time_wire (t : Z) : bytes := enc_uint 0x8 (wrap_u64 (t / Second)) ++ enc_uint 0x10 (t mod Second).
Definition ref_time_size (t : Z) : Z := size_num (wrap_u64 (t / Second)) + size_num (t mod Second).
Definition ref_time_switch (fieldNum wireType : Z) (dAtA : bytes) (iNdEx : Z) (m : Z * Z) : option (res ((Z * Z) * Z)) :=
  let '(s, n) := m in
  match fieldNum with
  | 1 => Some ('(v, i) ← get_uint wireType dAtA iNdEx; Ok ((v, n), i))
  | 2 => Some ('(v, i) ← get_uint wireType dAtA iNdEx; Ok ((s, v), i))
  | _ => None
  end.

Definition ref_time_of (m : Z * Z) : res Z :=
  let t := wrap_i64 m.1 * Second + m.2 in
  if (m.2 <? Second) && (no_time <=? t) && (t <? 253402300800 * Second) then Ok t else Err Plain.

#[export] Instance ref_gogo : Gogo := {
  Coin_Size := ref_coin_size;
  Coin_MarshalToSizedBuffer c := to_sized_buffer (ref_coin_write c);
  Coin_Unmarshal b c := unmarshal ref_coin_switch b c;
  SizeOfStdTime := ref_time_size;
  StdTimeMarshalTo t b := b ← copy_at b 0 (ref_time_wire t); Ok (b, llen (ref_time_wire t));
  StdTimeUnmarshal b := m ← unmarshal ref_time_switch b (0, 0); ref_time_of m;
}.

(** The bytes that a sized buffer of the right size ends up with. *)
Lemma sized_buffer_bytes w e (n : nat) : writes w e → n = length e →
  to_sized_buffer w (replicate n (byte_of 0)) = Ok (e, llen e).
Proof.
  intros Hw ->. apply (writes_sized_buffer w e Hw [] (replicate (length e) (byte_of 0))). by rewrite length_replicate.
Qed.

Lemma ref_coin_writes c : writes (ref_coin_write c) (ref_coin_wire c).
Proof. apply writes_andthen; auto with wire. Qed.

Lemma ref_coin_length c : llen (ref_coin_wire c) = ref_coin_size c.
Proof. unfold ref_coin_wire, ref_coin_size. by rewrite llen_app, size_str_field, size_len_field, llen_to_bytes. Qed.

Lemma ref_coin_bytes c : coin_bytes (H := ref_gogo) c = ref_coin_wire c.
Proof.
  unfold coin_bytes; cbn. rewrite (sized_buffer_bytes _ (ref_coin_wire c)); [done|apply ref_coin_writes|].
  rewrite <- ref_coin_length. apply to_nat_llen.
Qed.

Lemma ref_amount_format n : 0 ≤ n < 2 ^ 256 → ref_amount (of_bytes (to_bytes (FormatUint n))) = Ok n.
Proof.
  intros Hn. rewrite of_to_bytes. unfold ref_amount.
  destruct (FormatUint_numeral 256 n Hn) as (Hne & Hd & Hv & _).
  apply String.eqb_neq in Hne as ->. rewrite Hd, Hv. cbn [negb andb]. by rewrite (proj2 (Z.ltb_lt n _)) by lia.
Qed.

Lemma ref_coin_bound c : coin_fits c → llen (ref_coin_wire c) ≤ max_i64.
Proof.
  intros [Ha Hd]. rewrite ref_coin_length. unfold ref_coin_size, size_str, size_len.
  pose proof (FormatUint_length 256 (Amount c) Ha) as Hl.
  assert (Hs : ∀ l, sov (wrap_u64 l) ≤ 10)
    by (intros l; rewrite <- varint_length by auto with wire; apply varint_short).
  assert (0 ≤ len (Denom c) ∧ 0 ≤ len (FormatUint (Amount c))) by (unfold len; lia).
  pose proof (Hs (len (Denom c))). pose proof (Hs (len (FormatUint (Amount c)))).
  unfold max_i64. destruct (0 <? len (Denom c)); lia.
Qed.

Lemma ref_coin_decodes c : coin_fits c → decodes ref_coin_switch (ref_coin_wire c) no_coin c.
Proof.
  intros [Ha _]. destruct c as [denom amount]. unfold ref_coin_wire; cbn [Denom Amount] in *.
  apply decodes_app with (m1 := mkCoin denom 0).
  - eapply (decodes_str _ _ 1); [done|lia|apply reads_get_string|by intros ->|switch_case].
  - eapply (decodes_len _ _ 2); [done|lia|apply (reads_get_msg (λ b, ref_amount (of_bytes b)) _ amount), ref_amount_format, Ha|switch_case].
Qed.

Lemma ref_coin_safe : switch_safe ref_coin_switch.
Proof.
  assert (total (λ b, ref_amount (of_bytes b))) by (intros b _; unfold ref_amount; by destruct (_ && _)).
  solve_switch_safe.
Qed.

Lemma ref_time_length t : llen (ref_time_wire t) = ref_time_size t.
Proof. unfold ref_time_wire, ref_time_size. by rewrite llen_app, !size_uint_field. Qed.

Lemma ref_time_bytes t : time_bytes (H := ref_gogo) t = ref_time_wire t.
Proof.
  unfold time_bytes; cbn. pose proof (copy_mid [] (replicate (Z.to_nat (ref_time_size t)) (byte_of 0)) (ref_time_wire t) []) as Hc.
  rewrite !app_nil_r in Hc. cbn [app] in Hc. change (llen []) with 0 in Hc. rewrite Hc; [done|].
  by rewrite length_replicate, <- ref_time_length, to_nat_llen.
Qed.

Lemma ref_time_decodes t : time_fits t →
  decodes ref_time_switch (ref_time_wire t) (0, 0) (wrap_u64 (t / Second), t mod Second).
Proof.
  intros Ht. unfold ref_time_wire. apply decodes_app with (m1 := (wrap_u64 (t / Second), 0)).
  - eapply (decodes_uint _ _ 1); [done|lia|auto with wire|by intros ->|switch_case].
  - eapply (decodes_uint _ _ 2); [done|lia| |by intros ->|switch_case].
    pose proof (Z.mod_pos_bound t Second). unfold is_u64, max_u64, Second in *. lia.
Qed.

Lemma ref_time_roundtrip t : time_fits t → ref_time_of (wrap_u64 (t / Second), t mod Second) = Ok t.
Proof.
  intros Ht. unfold ref_time_of; cbn [fst snd].
  replace (wrap_i64 (wrap_u64 (t / Second))) with (t / Second).
  2: { rewrite <- (wrap_i64_id (t / Second)) at 1.
       - apply (conv_ext _ _ i64_converts). symmetry. apply (conv_mod _ _ u64_converts).
       - unfold time_fits, no_time, min_i64, max_i64, Second in *. Z.to_euclidean_division_equations. lia. }
  replace (t / Second * Second + t mod Second) with t by (rewrite Z.mul_comm; by apply Z.div_mod).
  pose proof (Z.mod_pos_bound t Second). unfold time_fits in Ht.
  rewrite !(proj2 (Z.ltb_lt _ _)), (proj2 (Z.leb_le _ _)) by (unfold Second in *; lia). done.
Qed.

Lemma ref_time_safe : switch_safe ref_time_switch.
Proof. solve_switch_safe. Qed.

Lemma ref_time_bound t : llen (ref_time_wire t) ≤ max_i64.
Proof.
  unfold ref_time_wire, enc_uint, uint_field, max_i64. rewrite llen_app.
  pose proof (varint_short (wrap_u64 (wrap_u64 (t / Second)))). pose proof (varint_short (wrap_u64 (t mod Second))).
  destruct (_ =? 0), (_ =? 0); change (@llen ascii []) with 0; rewrite ?llen_cons; lia.
Qed.

#[export] Instance ref_gogo_laws : GogoLaws ref_gogo.
Proof.
  split; cbn [Coin_Size Coin_MarshalToSizedBuffer Coin_Unmarshal SizeOfStdTime StdTimeMarshalTo StdTimeUnmarshal ref_gogo].
  - intros c _. rewrite ref_coin_bytes. apply writes_sized_buffer, ref_coin_writes.
  - intros c _. rewrite ref_coin_bytes. apply ref_coin_length.
  - intros c Hc. rewrite ref_coin_bytes. apply unmarshal_decodes; [by apply ref_coin_decodes|by apply ref_coin_bound].
  - intros c. apply unmarshal_total, ref_coin_safe.
  - intros t _ hole post Hh. rewrite ref_time_bytes in Hh |- *.
    pose proof (copy_mid [] hole (ref_time_wire t) post Hh) as Hc. cbn [app] in Hc. change (llen []) with 0 in Hc. by rewrite Hc.
  - intros t _. rewrite ref_time_bytes. apply ref_time_length.
  - intros t Ht. rewrite ref_time_bytes, (unmarshal_decodes _ _ _ _ (ref_time_decodes t Ht)); [|apply ref_time_bound].
    by apply ref_time_roundtrip.
  - intros b Hb. pose proof (unmarshal_total _ ref_time_safe (0, 0) b Hb) as Ht. cbv beta in Ht.
    destruct (unmarshal ref_time_switch b (0, 0)) as [m| |]; cbn; [|done..]. unfold ref_time_of. by destruct (_ && _).
Qed.
