(* ===== verification/Page.v ===== *)
(** * Pagination messages of the cosmos-sdk: query.PageRequest and query.PageResponse

    As Gogo.v for the two messages that the queries embed: their marshalers are parameters with the
    laws of a generated message, and [ref_page] is an instance. *)

From stdpp Require Import base tactics option list strings.
From Stdlib Require Import ZArith Lia Ascii.
From S2P Require Import Prelude Sdk Wire WireProps Codec Gogo.
Open Scope Z_scope.

Class PageCodec : Type := {
  PageRequest_Size : PageRequest → Z;
  PageRequest_MarshalToSizedBuffer : PageRequest → bytes → res (bytes * Z);
  PageRequest_Unmarshal : bytes → PageRequest → res PageRequest;
  PageResponse_Size : PageResponse → Z;
  PageResponse_MarshalToSizedBuffer : PageResponse → bytes → res (bytes * Z);
  PageResponse_Unmarshal : bytes → PageResponse → res PageResponse;
}.

Definition PageRequest_zero : PageRequest := mkPageRequest "" 0 0 false false.
Definition PageResponse_zero : PageResponse := mkPageResponse "" 0.

Definition PageRequest_fits (p : PageRequest) : Prop := is_u64 (Offset p) ∧ is_u64 (Limit p).
Definition PageResponse_fits (p : PageResponse) : Prop := is_u64 (Total p).

(** The bytes a marshaler writes into a buffer of its size. *)
Definition written (size : Z) (marshal : bytes → res (bytes * Z)) : bytes :=
  match marshal (replicate (Z.to_nat size) (byte_of 0)) with Ok (b, _) => b | _ => [] end.

Section bytes_of.
Context `{PageCodec}.
Definition PageRequest_bytes (p : PageRequest) : bytes := written (PageRequest_Size p) (PageRequest_MarshalToSizedBuffer p).
Definition PageResponse_bytes (p : PageResponse) : bytes := written (PageResponse_Size p) (PageResponse_MarshalToSizedBuffer p).
End bytes_of.

Class PageLaws `(P : PageCodec) : Prop := {
  PageRequest_marshals p : PageRequest_fits p → marshals (PageRequest_MarshalToSizedBuffer p) (PageRequest_bytes p);
  PageRequest_size p : PageRequest_fits p → llen (PageRequest_bytes p) = PageRequest_Size p;
  PageRequest_unmarshals p : PageRequest_fits p → llen (PageRequest_bytes p) ≤ max_i64 →
    PageRequest_Unmarshal (PageRequest_bytes p) PageRequest_zero = Ok p;
  PageRequest_total p : total (λ b, PageRequest_Unmarshal b p);
  PageResponse_marshals p : PageResponse_fits p → marshals (PageResponse_MarshalToSizedBuffer p) (PageResponse_bytes p);
  PageResponse_size p : PageResponse_fits p → llen (PageResponse_bytes p) = PageResponse_Size p;
  PageResponse_unmarshals p : PageResponse_fits p → llen (PageResponse_bytes p) ≤ max_i64 →
    PageResponse_Unmarshal (PageResponse_bytes p) PageResponse_zero = Ok p;
  PageResponse_total p : total (λ b, PageResponse_Unmarshal b p);
}.
#[export] Hint Resolve PageRequest_total PageResponse_total : wire.

(** ** As optional fields *)

Section pages.
Context `{PL : PageLaws}.

Lemma writes_page_request tag o : from_option PageRequest_fits True o →
  writes (if_some o (λ p, put_msg tag (PageRequest_MarshalToSizedBuffer p))) (enc_opt (λ p, len_field tag (PageRequest_bytes p)) o).
Proof. intros Ho. apply writes_enc_opt. intros p ->. by apply writes_msg, PageRequest_marshals. Qed.
Lemma writes_page_response tag o : from_option PageResponse_fits True o →
  writes (if_some o (λ p, put_msg tag (PageResponse_MarshalToSizedBuffer p))) (enc_opt (λ p, len_field tag (PageResponse_bytes p)) o).
Proof. intros Ho. apply writes_enc_opt. intros p ->. by apply writes_msg, PageResponse_marshals. Qed.

Lemma size_page_request tag o : from_option PageRequest_fits True o →
  llen (enc_opt (λ p, len_field tag (PageRequest_bytes p)) o) = size_opt o (λ p, size_len (PageRequest_Size p)).
Proof. intros Ho. apply size_opt_field. intros p ->. by rewrite size_len_field, PageRequest_size. Qed.
Lemma size_page_response tag o : from_option PageResponse_fits True o →
  llen (enc_opt (λ p, len_field tag (PageResponse_bytes p)) o) = size_opt o (λ p, size_len (PageResponse_Size p)).
Proof. intros Ho. apply size_opt_field. intros p ->. by rewrite size_len_field, PageResponse_size. Qed.
End pages.
#[export] Hint Resolve writes_page_request writes_page_response : wire.
#[export] Hint Rewrite @size_page_request @size_page_response using (by eauto with wire typeclass_instances) : wire_size.

(** The [n]-th field is a page, read back by the law [lem]; [H] bounds the bytes around it. *)
Ltac dec_page n lem build H :=
  last_or_app ltac:(apply (decodes_opt _ _ _ build); intros ? ->;
    eapply (decodes_len _ _ n); [..|switch_case];
    [reflexivity|lia|apply reads_get_msg, lem; [done..|etrans; [apply (llen_len_field 0)|]; part_of H]]).

(** ** A reference instance *)

Definition ref_request_write (m : PageRequest) : writer :=
  if_true (Reverse m) (put_bool 0x28 (Reverse m)) ;;>
  if_true (CountTotal m) (put_bool 0x20 (CountTotal m)) ;;>
  if_nonzero (Limit m) (put_uint 0x18 (Limit m)) ;;>
  if_nonzero (Offset m) (put_uint 0x10 (Offset m)) ;;>
  if_nonempty (Key m) (put_bytes 0xa (Key m)).

Definition ref_request_Size (m : PageRequest) : Z :=
  size_str (Key m) +
  size_num (Offset m) +
  size_num (Limit m) +
  size_bool (CountTotal m) +
  size_bool (Reverse m).

Definition ref_request_switch (fieldNum wireType : Z) (dAtA : bytes) (iNdEx : Z) (m : PageRequest) :
    option (res (PageRequest * Z)) :=
  let 'mkPageRequest key offset limit countTotal reverse := m in
  match fieldNum with
  | 1 => Some ('(x, i) ← get_bytes wireType dAtA iNdEx; Ok (mkPageRequest x offset limit countTotal reverse, i))
  | 2 => Some ('(x, i) ← get_uint wireType dAtA iNdEx; Ok (mkPageRequest key x limit countTotal reverse, i))
  | 3 => Some ('(x, i) ← get_uint wireType dAtA iNdEx; Ok (mkPageRequest key offset x countTotal reverse, i))
  | 4 => Some ('(x, i) ← get_bool wireType dAtA iNdEx; Ok (mkPageRequest key offset limit x reverse, i))
  | 5 => Some ('(x, i) ← get_bool wireType dAtA iNdEx; Ok (mkPageRequest key offset limit countTotal x, i))
  | _ => None
  end.

Definition ref_request_wire (m : PageRequest) : bytes :=
  enc_str 0xa (Key m) ++
  enc_uint 0x10 (Offset m) ++
  enc_uint 0x18 (Limit m) ++
  enc_bool 0x20 (CountTotal m) ++
  enc_bool 0x28 (Reverse m).

Definition ref_response_write (m : PageResponse) : writer :=
  if_nonzero (Total m) (put_uint 0x10 (Total m)) ;;>
  if_nonempty (NextKey m) (put_bytes 0xa (NextKey m)).

Definition ref_response_Size (m : PageResponse) : Z :=
  size_str (NextKey m) +
  size_num (Total m).

Definition ref_response_switch (fieldNum wireType : Z) (dAtA : bytes) (iNdEx : Z) (m : PageResponse) :
    option (res (PageResponse * Z)) :=
  let 'mkPageResponse nextKey total := m in
  match fieldNum with
  | 1 => Some ('(x, i) ← get_bytes wireType dAtA iNdEx; Ok (mkPageResponse x total, i))
  | 2 => Some ('(x, i) ← get_uint wireType dAtA iNdEx; Ok (mkPageResponse nextKey x, i))
  | _ => None
  end.

Definition ref_response_wire (m : PageResponse) : bytes :=
  enc_str 0xa (NextKey m) ++
  enc_uint 0x10 (Total m).

#[export] Instance ref_page : PageCodec := {
  PageRequest_Size := ref_request_Size;
  PageRequest_MarshalToSizedBuffer p := to_sized_buffer (ref_request_write p);
  PageRequest_Unmarshal b p := unmarshal ref_request_switch b p;
  PageResponse_Size := ref_response_Size;
  PageResponse_MarshalToSizedBuffer p := to_sized_buffer (ref_response_write p);
  PageResponse_Unmarshal b p := unmarshal ref_response_switch b p;
}.

#[export] Instance ref_request_lawful :
  lawful PageRequest_fits ref_request_write ref_request_Size ref_request_wire
    ref_request_switch PageRequest_zero id.
Proof.
  solve_lawful. intros [key offset limit countTotal reverse]; open_decodes Hl.
  dec_bytes 1. dec_uint 2. dec_uint 3. dec_bool 4. dec_bool 5.
Qed.

#[export] Instance ref_response_lawful :
  lawful PageResponse_fits ref_response_write ref_response_Size ref_response_wire
    ref_response_switch PageResponse_zero id.
Proof.
  solve_lawful. intros [nextKey total]; open_decodes Hl.
  dec_bytes 1. dec_uint 2.
Qed.

(** A lawful message writes its bytes into a buffer of its size. *)
Lemma written_wire {A G fits write size wire switch zero go} `{L : @lawful A G fits write size wire switch zero go} m :
  fits m → written (size m) (to_sized_buffer (write m)) = wire m.
Proof.
  intros Hm. unfold written. rewrite (sized_buffer_bytes _ (wire m)); [done|by apply (law_writes _ _ _ _ _ _ _ L)|].
  rewrite (law_size _ _ _ _ _ _ _ L) by done. apply to_nat_llen.
Qed.

#[export] Instance ref_page_laws : PageLaws ref_page.
Proof.
  assert (Hq : ∀ p, PageRequest_fits p → PageRequest_bytes p = ref_request_wire p) by (intros; by apply written_wire).
  assert (Hr : ∀ p, PageResponse_fits p → PageResponse_bytes p = ref_response_wire p) by (intros; by apply written_wire).
  split; cbn; intros p; try (intros Hp; first [rewrite (Hq p Hp)|rewrite (Hr p Hp)]).
  - apply writes_sized_buffer. by apply (law_writes _ _ _ _ _ _ _ ref_request_lawful).
  - symmetry. by apply (law_size _ _ _ _ _ _ _ ref_request_lawful).
  - by apply (lawful_reads (L := ref_request_lawful)).
  - apply (lawful_total (L := ref_request_lawful)).
  - apply writes_sized_buffer. by apply (law_writes _ _ _ _ _ _ _ ref_response_lawful).
  - symmetry. by apply (law_size _ _ _ _ _ _ _ ref_response_lawful).
  - by apply (lawful_reads (L := ref_response_lawful)).
  - apply (lawful_total (L := ref_response_lawful)).
Qed.
