(* ===== verification/ManifestCodec.v ===== *)
(** * Marshaling of the messages of the manifest module (src/x/manifest/types/tx.pb.go) *)

From stdpp Require Import base tactics option list strings.
From Stdlib Require Import ZArith Lia Ascii.
From S2P Require Import Prelude Sdk Manifest Wire WireProps Codec Gogo.
Open Scope Z_scope.

Section codec.
Context `{Gogo}.

(** ** PayoutPair *)

Definition PayoutPair_write (m : PayoutPair) : writer :=
  put_msg 0x12 (Coin_MarshalToSizedBuffer (pp_Coin m)) ;;>
  if_nonempty (pp_Address m) (put_bytes 0xa (pp_Address m)).

Definition PayoutPair_Size (m : PayoutPair) : Z :=
  size_str (pp_Address m) +
  size_len (Coin_Size (pp_Coin m)).

Definition PayoutPair_Marshal (m : PayoutPair) : res bytes := marshal (PayoutPair_Size m) (PayoutPair_write m).

Definition PayoutPair_switch (fieldNum wireType : Z) (dAtA : bytes) (iNdEx : Z) (m : PayoutPair) :
    option (res (PayoutPair * Z)) :=
  let 'mkPayoutPair address coin := m in
  match fieldNum with
  | 1 => Some ('(x, i) ← get_string wireType dAtA iNdEx; Ok (mkPayoutPair x coin, i))
  | 2 => Some ('(x, i) ← get_msg (λ b, Coin_Unmarshal b coin) wireType dAtA iNdEx; Ok (mkPayoutPair address x, i))
  | _ => None
  end.

Definition PayoutPair_zero : PayoutPair := mkPayoutPair "" no_coin.

Definition PayoutPair_Unmarshal (dAtA : bytes) : res PayoutPair := unmarshal PayoutPair_switch dAtA PayoutPair_zero.

Definition PayoutPair_wire (m : PayoutPair) : bytes :=
  enc_str 0xa (pp_Address m) ++
  len_field 0x12 (coin_bytes (pp_Coin m)).

(** ** MsgPayout *)

Definition MsgPayout_write (m : MsgPayout) : writer :=
  put_each (λ e, put_msg 0x12 (to_sized_buffer (PayoutPair_write e))) (mp_PayoutPairs m) ;;>
  if_nonempty (mp_Authority m) (put_bytes 0xa (mp_Authority m)).

Definition MsgPayout_Size (m : MsgPayout) : Z :=
  size_str (mp_Authority m) +
  size_each (λ e, size_len (PayoutPair_Size e)) (mp_PayoutPairs m).

Definition MsgPayout_Marshal (m : MsgPayout) : res bytes := marshal (MsgPayout_Size m) (MsgPayout_write m).

Definition MsgPayout_switch (fieldNum wireType : Z) (dAtA : bytes) (iNdEx : Z) (m : MsgPayout) :
    option (res (MsgPayout * Z)) :=
  let 'mkMsgPayout authority payoutPairs := m in
  match fieldNum with
  | 1 => Some ('(x, i) ← get_string wireType dAtA iNdEx; Ok (mkMsgPayout x payoutPairs, i))
  | 2 => Some ('(x, i) ← get_msg PayoutPair_Unmarshal wireType dAtA iNdEx;
      Ok (mkMsgPayout authority (payoutPairs ++ [x]), i))
  | _ => None
  end.

Definition MsgPayout_zero : MsgPayout := mkMsgPayout "" [].

Definition MsgPayout_Unmarshal (dAtA : bytes) : res MsgPayout := unmarshal MsgPayout_switch dAtA MsgPayout_zero.

Definition MsgPayout_wire (m : MsgPayout) : bytes :=
  enc_str 0xa (mp_Authority m) ++
  enc_each (λ e, len_field 0x12 (PayoutPair_wire e)) (mp_PayoutPairs m).

(** ** MsgBurnHeldBalance *)

Definition MsgBurnHeldBalance_write (m : MsgBurnHeldBalance) : writer :=
  put_each (λ e, put_msg 0x12 (Coin_MarshalToSizedBuffer e)) (mb_BurnCoins m) ;;>
  if_nonempty (mb_Authority m) (put_bytes 0xa (mb_Authority m)).

Definition MsgBurnHeldBalance_Size (m : MsgBurnHeldBalance) : Z :=
  size_str (mb_Authority m) +
  size_each (λ e, size_len (Coin_Size e)) (mb_BurnCoins m).

Definition MsgBurnHeldBalance_Marshal (m : MsgBurnHeldBalance) : res bytes :=
  marshal (MsgBurnHeldBalance_Size m) (MsgBurnHeldBalance_write m).

Definition MsgBurnHeldBalance_switch (fieldNum wireType : Z) (dAtA : bytes) (iNdEx : Z) (m : MsgBurnHeldBalance) :
    option (res (MsgBurnHeldBalance * Z)) :=
  let 'mkMsgBurnHeldBalance authority burnCoins := m in
  match fieldNum with
  | 1 => Some ('(x, i) ← get_string wireType dAtA iNdEx; Ok (mkMsgBurnHeldBalance x burnCoins, i))
  | 2 => Some ('(x, i) ← get_msg (λ b, Coin_Unmarshal b no_coin) wireType dAtA iNdEx;
      Ok (mkMsgBurnHeldBalance authority (burnCoins ++ [x]), i))
  | _ => None
  end.

Definition MsgBurnHeldBalance_zero : MsgBurnHeldBalance := mkMsgBurnHeldBalance "" [].

Definition MsgBurnHeldBalance_Unmarshal (dAtA : bytes) : res MsgBurnHeldBalance :=
  unmarshal MsgBurnHeldBalance_switch dAtA MsgBurnHeldBalance_zero.

Definition MsgBurnHeldBalance_wire (m : MsgBurnHeldBalance) : bytes :=
  enc_str 0xa (mb_Authority m) ++
  enc_each (λ e, len_field 0x12 (coin_bytes e)) (mb_BurnCoins m).
End codec.

(** * The messages of the manifest module are lawful *)

Section codec.
Context `{GL : GogoLaws}.

Definition PayoutPair_fits (m : PayoutPair) : Prop := coin_fits (pp_Coin m).

#[global] Instance PayoutPair_lawful :
  lawful PayoutPair_fits PayoutPair_write PayoutPair_Size PayoutPair_wire
    PayoutPair_switch PayoutPair_zero id.
Proof.
  solve_lawful. intros [address coin]; open_decodes Hl.
  dec_string 1. dec_msg 2 (λ b, Coin_Unmarshal b no_coin).
Qed.

Definition MsgPayout_fits (m : MsgPayout) : Prop := Forall PayoutPair_fits (mp_PayoutPairs m).

#[global] Instance MsgPayout_lawful :
  lawful MsgPayout_fits MsgPayout_write MsgPayout_Size MsgPayout_wire
    MsgPayout_switch MsgPayout_zero id.
Proof.
  solve_lawful. intros [authority payoutPairs]; open_decodes Hl.
  dec_string 1. dec_subs 2 PayoutPair_Unmarshal Hl (λ l, mkMsgPayout authority l).
Qed.

Definition MsgBurnHeldBalance_fits (m : MsgBurnHeldBalance) : Prop := Forall coin_fits (mb_BurnCoins m).

#[global] Instance MsgBurnHeldBalance_lawful :
  lawful MsgBurnHeldBalance_fits MsgBurnHeldBalance_write MsgBurnHeldBalance_Size MsgBurnHeldBalance_wire
    MsgBurnHeldBalance_switch MsgBurnHeldBalance_zero id.
Proof.
  solve_lawful. intros [authority burnCoins]; open_decodes Hl.
  dec_string 1. dec_coins 2 (λ l, mkMsgBurnHeldBalance authority l).
Qed.
End codec.
