(* ===== verification/SkuTypes.v ===== *)
(** * Types of the sku module (src/x/sku/types): pricing units, providers, SKUs, messages

    Pricing is what the billing module builds on: a SKU is accepted only when its base price is an
    exact multiple of the seconds of its unit. *)

From stdpp Require Import base tactics option list strings gmap.
From Stdlib Require Import ZArith Lia.
From S2P Require Import Prelude Sdk SdkRef Uuid GoStd.
Open Scope Z_scope.

(** ** Errors (errors.go) *)

Definition sku_ModuleName : string := "sku".
Definition sku_ErrInvalidSKU : error := Registered sku_ModuleName 1.
Definition sku_ErrSKUNotFound : error := Registered sku_ModuleName 2.
Definition sku_ErrUnauthorized : error := Registered sku_ModuleName 3.
Definition sku_ErrInvalidConfig : error := Registered sku_ModuleName 4.
Definition sku_ErrInvalidProvider : error := Registered sku_ModuleName 5.
Definition sku_ErrProviderNotFound : error := Registered sku_ModuleName 6.
Definition sku_ErrInvalidAPIURL : error := Registered sku_ModuleName 7.

Definition MaxAPIURLLength : Z := 2048.
Definition MaxSKUNameLength : Z := 256.
Definition sku_MaxMetaHashLength : Z := 64.
Definition DefaultDeactivateSKULimit : Z := 50.
Definition MaxDeactivateSKULimit : Z := 100.

(** ** Units and prices (unit.go) *)

Inductive Unit : Type := UNIT_UNSPECIFIED | UNIT_PER_HOUR | UNIT_PER_DAY.

#[global] Instance Unit_eq_dec : EqDecision Unit.
Proof. solve_decision. Defined.

Definition SecondsPerHour : Z := 3600.
Definition SecondsPerDay : Z := 86400.

Definition divisorForUnit (u : Unit) : option Z :=
  match u with
  | UNIT_PER_HOUR => Some SecondsPerHour
  | UNIT_PER_DAY => Some SecondsPerDay
  | UNIT_UNSPECIFIED => None
  end.

Section price.
Context `{SDK}.

(** The per-second rate, [None] when the conversion is not valid. *)
Definition CalculatePricePerSecond (basePrice : Coin) (u : Unit) : res (option Z) :=
  match divisorForUnit u with
  | None => Ok None
  | Some divisor =>
      perSecond ← int_Quo (Amount basePrice) divisor;
      if perSecond =? 0 then Ok None else
      remainder ← int_Mod (Amount basePrice) divisor;
      if negb (remainder =? 0) then Ok None else
      Ok (Some perSecond)
  end.

Definition ValidatePriceAndUnit (basePrice : Coin) (u : Unit) : res unit :=
  match divisorForUnit u with
  | None => Err Plain
  | Some divisor =>
      perSecond ← int_Quo (Amount basePrice) divisor;
      if perSecond =? 0 then Err Plain else
      remainder ← int_Mod (Amount basePrice) divisor;
      if negb (remainder =? 0) then Err Plain else
      Ok tt
  end.
End price.

(** ** State and messages (types.proto, tx.proto as generated) *)

Record Provider : Type := mkProvider {
  prov_Uuid : string; prov_Address : string; prov_PayoutAddress : string;
  prov_MetaHash : string; prov_Active : bool; prov_ApiUrl : string }.

Record SKU : Type := mkSKU {
  sku_Uuid : string; sku_ProviderUuid : string; sku_Name : string; sku_Unit : Unit;
  sku_BasePrice : Coin; sku_MetaHash : string; sku_Active : bool }.

Record SkuParams : Type := mkSkuParams { sku_AllowedList : list string }.

Record MsgCreateProvider : Type := mkMsgCreateProvider {
  cp_Authority : string; cp_Address : string; cp_PayoutAddress : string;
  cp_MetaHash : string; cp_ApiUrl : string }.
Record MsgUpdateProvider : Type := mkMsgUpdateProvider {
  up_Authority : string; up_Uuid : string; up_Address : string; up_PayoutAddress : string;
  up_MetaHash : string; up_Active : bool; up_ApiUrl : string }.
Record MsgDeactivateProvider : Type := mkMsgDeactivateProvider {
  dp_Authority : string; dp_Uuid : string; dp_Limit : Z }.
Record MsgCreateSKU : Type := mkMsgCreateSKU {
  cs_Authority : string; cs_ProviderUuid : string; cs_Name : string; cs_Unit : Unit;
  cs_BasePrice : Coin; cs_MetaHash : string }.
Record MsgUpdateSKU : Type := mkMsgUpdateSKU {
  us_Authority : string; us_Uuid : string; us_ProviderUuid : string; us_Name : string;
  us_Unit : Unit; us_BasePrice : Coin; us_MetaHash : string; us_Active : bool }.
Record MsgDeactivateSKU : Type := mkMsgDeactivateSKU { ds_Authority : string; ds_Uuid : string }.
Record SkuMsgUpdateParams : Type := mkSkuMsgUpdateParams { sp_Authority : string; sp_Params : SkuParams }.

Section validate.
Context `{SDK} `{GoStd}.

Definition check_uuid (s : string) (e : error) : res unit :=
  match ValidateUUIDv7 s with Some _ => Err e | None => Ok tt end.

Definition ValidateAPIURL (apiURL : string) : res unit :=
  check (MaxAPIURLLength <? len apiURL) sku_ErrInvalidAPIURL;;
  match url_Parse apiURL with
  | None => Err sku_ErrInvalidAPIURL
  | Some parsedURL =>
      check (negb (String.eqb (Scheme parsedURL) "https")) sku_ErrInvalidAPIURL;;
      check (String.eqb (Host parsedURL) "") sku_ErrInvalidAPIURL;;
      check (HasUser parsedURL) sku_ErrInvalidAPIURL
  end.

(** The loop over the allowed list with its [seen] map. *)
Fixpoint validate_allowed_list (seen l : list string) (e : error) : res unit :=
  match l with
  | [] => Ok tt
  | addr :: l' =>
      check_address addr e;;
      check (bool_decide (addr ∈ seen)) e;;
      validate_allowed_list (addr :: seen) l' e
  end.

Definition SkuParams_Validate (p : SkuParams) : res unit :=
  validate_allowed_list [] (sku_AllowedList p) sku_ErrInvalidConfig.

Definition SkuParams_IsAllowed (p : SkuParams) (addr : string) : bool :=
  bool_decide (addr ∈ sku_AllowedList p).

Definition MsgCreateProvider_Validate (msg : MsgCreateProvider) : res unit :=
  check_address (cp_Authority msg) sku_ErrUnauthorized;;
  check_address (cp_Address msg) sku_ErrInvalidProvider;;
  check_address (cp_PayoutAddress msg) sku_ErrInvalidProvider;;
  check (sku_MaxMetaHashLength <? len (cp_MetaHash msg)) sku_ErrInvalidProvider;;
  if String.eqb (cp_ApiUrl msg) "" then Ok tt else ValidateAPIURL (cp_ApiUrl msg).

Definition MsgUpdateProvider_Validate (msg : MsgUpdateProvider) : res unit :=
  check_address (up_Authority msg) sku_ErrUnauthorized;;
  check_uuid (up_Uuid msg) sku_ErrInvalidProvider;;
  check_address (up_Address msg) sku_ErrInvalidProvider;;
  check_address (up_PayoutAddress msg) sku_ErrInvalidProvider;;
  check (sku_MaxMetaHashLength <? len (up_MetaHash msg)) sku_ErrInvalidProvider;;
  if String.eqb (up_ApiUrl msg) "" then Ok tt else ValidateAPIURL (up_ApiUrl msg).

Definition MsgDeactivateProvider_Validate (msg : MsgDeactivateProvider) : res unit :=
  check_address (dp_Authority msg) sku_ErrUnauthorized;;
  check_uuid (dp_Uuid msg) sku_ErrInvalidProvider;;
  check (MaxDeactivateSKULimit <? dp_Limit msg) sku_ErrInvalidProvider.

(** The fields MsgCreateSKU and MsgUpdateSKU share, in the order both check them. *)
Definition validate_sku_fields (name : string) (u : Unit) (basePrice : Coin) (metaHash : string)
    : res unit :=
  check (String.eqb name "") sku_ErrInvalidSKU;;
  check (MaxSKUNameLength <? len name) sku_ErrInvalidSKU;;
  check (bool_decide (u = UNIT_UNSPECIFIED)) sku_ErrInvalidSKU;;
  check (negb (Coin_IsValid basePrice) || Coin_IsZero basePrice) sku_ErrInvalidSKU;;
  wrap_err sku_ErrInvalidSKU (ValidatePriceAndUnit basePrice u);;
  check (sku_MaxMetaHashLength <? len metaHash) sku_ErrInvalidSKU.

Definition MsgCreateSKU_Validate (msg : MsgCreateSKU) : res unit :=
  check_address (cs_Authority msg) sku_ErrUnauthorized;;
  check_uuid (cs_ProviderUuid msg) sku_ErrInvalidSKU;;
  validate_sku_fields (cs_Name msg) (cs_Unit msg) (cs_BasePrice msg) (cs_MetaHash msg).

Definition MsgUpdateSKU_Validate (msg : MsgUpdateSKU) : res unit :=
  check_address (us_Authority msg) sku_ErrUnauthorized;;
  check_uuid (us_Uuid msg) sku_ErrInvalidSKU;;
  check_uuid (us_ProviderUuid msg) sku_ErrInvalidSKU;;
  validate_sku_fields (us_Name msg) (us_Unit msg) (us_BasePrice msg) (us_MetaHash msg).

Definition MsgDeactivateSKU_Validate (msg : MsgDeactivateSKU) : res unit :=
  check_address (ds_Authority msg) sku_ErrUnauthorized;;
  check_uuid (ds_Uuid msg) sku_ErrInvalidSKU.

Definition SkuMsgUpdateParams_Validate (msg : SkuMsgUpdateParams) : res unit :=
  check_address (sp_Authority msg) sku_ErrUnauthorized;;
  SkuParams_Validate (sp_Params msg).
End validate.

(** ** Properties of pricing *)

Section price_props.
Context `{SL : SDKLaws}.

Lemma divisor_pos u k : divisorForUnit u = Some k → 0 < k.
Proof. destruct u; cbn; unfold SecondsPerHour, SecondsPerDay; intros; simplify_eq; lia. Qed.

(** What both price functions compute. *)
Lemma CalculatePricePerSecond_eq c u :
  0 ≤ Amount c →
  CalculatePricePerSecond c u = Ok match divisorForUnit u with
    | Some k => if (Amount c / k =? 0) || negb (Amount c mod k =? 0) then None else Some (Amount c / k)
    | None => None
    end.
Proof.
  intros Hc. unfold CalculatePricePerSecond. destruct (divisorForUnit u) as [k|] eqn:Ek; [|done].
  pose proof (divisor_pos u k Ek). rewrite int_Quo_spec by lia. cbn.
  destruct (_ =? 0); [done|]. rewrite int_Mod_spec by lia. cbn. by destruct (_ =? 0).
Qed.

Lemma ValidatePriceAndUnit_ok c u :
  0 ≤ Amount c →
  ValidatePriceAndUnit c u = Ok tt ↔
  ∃ k p, divisorForUnit u = Some k ∧ 0 < p ∧ Amount c = p * k.
Proof.
  intros Hc. unfold ValidatePriceAndUnit.
  destruct (divisorForUnit u) as [k|] eqn:Ek; [|naive_solver].
  pose proof (divisor_pos u k Ek). rewrite int_Quo_spec by lia. cbn.
  assert (Hdm : Amount c = k * (Amount c / k) + Amount c mod k) by (apply Z.div_mod; lia).
  assert (0 ≤ Amount c / k) by (apply Z.div_pos; lia).
  destruct (Amount c / k =? 0) eqn:E0; [|rewrite int_Mod_spec by lia; cbn; destruct (Amount c mod k =? 0) eqn:E1]; cbn.
  - split; [done|]. intros (k' & p & [= <-] & Hp & Heq). rewrite Heq, Z.div_mul in E0 by lia. lia.
  - split; [|done]. intros _. exists k, (Amount c / k). split_and!; [done|lia|lia].
  - split; [done|]. intros (k' & p & [= <-] & Hp & Heq). rewrite Heq, Z.mod_mul in E1 by lia. lia.
Qed.

Lemma CalculatePricePerSecond_some c u p :
  0 ≤ Amount c → CalculatePricePerSecond c u = Ok (Some p) →
  ∃ k, divisorForUnit u = Some k ∧ 0 < p ∧ Amount c = p * k.
Proof.
  intros Hc. rewrite CalculatePricePerSecond_eq by done.
  destruct (divisorForUnit u) as [k|] eqn:Ek; [|done]. pose proof (divisor_pos u k Ek).
  destruct (_ =? 0) eqn:E0; [done|]. destruct (_ mod _ =? 0) eqn:E1; [|done]. cbn. intros [= <-].
  exists k. pose proof (Z.div_mod (Amount c) k ltac:(lia)).
  assert (0 ≤ Amount c / k) by (apply Z.div_pos; lia). split_and!; [done|lia|lia].
Qed.

(** The price that [ValidatePriceAndUnit] accepts when a SKU is created is
    exactly the price [CalculatePricePerSecond] can convert when a lease is created, and the
    conversion loses nothing: rate times the seconds of the unit is the base price. *)
Theorem price_validation_exact c u :
  0 ≤ Amount c →
  (ValidatePriceAndUnit c u = Ok tt ↔ ∃ p, CalculatePricePerSecond c u = Ok (Some p)) ∧
  (∀ p, CalculatePricePerSecond c u = Ok (Some p) →
    0 < p ∧ ∃ k, divisorForUnit u = Some k ∧ p * k = Amount c).
Proof.
  intros Hc. split.
  - rewrite ValidatePriceAndUnit_ok by done. split.
    + intros (k & p & Ek & Hp & Heq). exists p. rewrite CalculatePricePerSecond_eq, Ek by done.
      pose proof (divisor_pos u k Ek). rewrite Heq, Z.div_mul, Z.mod_mul by lia.
      destruct (p =? 0) eqn:?; [lia|done].
    + intros [p (k & ? & ? & ?)%CalculatePricePerSecond_some]; [eauto|done].
  - intros p (k & ? & ? & ?)%CalculatePricePerSecond_some; [eauto|done].
Qed.
End price_props.

Lemma price_validation_exact_witness :
  0 ≤ 7200 ∧ (ValidatePriceAndUnit (mkCoin "umfx" 7200) UNIT_PER_HOUR = Ok tt) ∧
  ∃ p, CalculatePricePerSecond (mkCoin "umfx" 7200) UNIT_PER_HOUR = Ok (Some p).
Proof.
  split; [lia|]. split; [vm_compute; reflexivity|].
  apply (price_validation_exact (mkCoin "umfx" 7200) UNIT_PER_HOUR); [cbn; lia|vm_compute; reflexivity].
Defined.
