(* ===== verification/SkuCodec.v ===== *)
(** * Marshaling of the sku module (src/x/sku/types/types.pb.go, tx.pb.go)

    As BillingCodec.v, for the values the module stores and the messages it receives. A message with a
    unit decodes to itself and the number of the unit, which may be none of the declared ones. *)

From stdpp Require Import base tactics option list strings.
From Stdlib Require Import ZArith Lia Ascii.
From S2P Require Import Prelude Sdk SkuTypes Wire WireProps Codec Gogo.
Open Scope Z_scope.

(** The number of a unit; Go's [Unit] is any int32. *)
Definition Unit_number (u : Unit) : Z :=
  match u with UNIT_UNSPECIFIED => 0 | UNIT_PER_HOUR => 1 | UNIT_PER_DAY => 2 end.
Definition Unit_of (n : Z) : option Unit :=
  match n with 0 => Some UNIT_UNSPECIFIED | 1 => Some UNIT_PER_HOUR | 2 => Some UNIT_PER_DAY | _ => None end.

Record MsgCreateProviderResponse : Type := mkMsgCreateProviderResponse {
  cpr_Uuid : string }.

Record MsgDeactivateProviderResponse : Type := mkMsgDeactivateProviderResponse {
  dpr_DeactivatedSkuCount : Z; dpr_HasMore : bool }.

Record MsgCreateSKUResponse : Type := mkMsgCreateSKUResponse {
  csr_Uuid : string }.

(** ** Params *)

Definition SkuParams_write (m : SkuParams) : writer :=
  put_each (λ s, put_bytes 0xa s) (sku_AllowedList m).

Definition SkuParams_Size (m : SkuParams) : Z :=
  size_each (λ s, size_len (len s)) (sku_AllowedList m).

Definition SkuParams_Marshal (m : SkuParams) : res bytes := marshal (SkuParams_Size m) (SkuParams_write m).

Definition SkuParams_switch (fieldNum wireType : Z) (dAtA : bytes) (iNdEx : Z) (m : SkuParams) :
    option (res (SkuParams * Z)) :=
  let 'mkSkuParams allowedList := m in
  match fieldNum with
  | 1 => Some ('(x, i) ← get_string wireType dAtA iNdEx; Ok (mkSkuParams (allowedList ++ [x]), i))
  | _ => None
  end.

Definition SkuParams_zero : SkuParams := mkSkuParams [].

Definition SkuParams_Unmarshal (dAtA : bytes) : res SkuParams := unmarshal SkuParams_switch dAtA SkuParams_zero.

Definition SkuParams_wire (m : SkuParams) : bytes :=
  enc_each (λ s, len_field 0xa (to_bytes s)) (sku_AllowedList m).

(** ** Provider *)

Definition Provider_write (m : Provider) : writer :=
  if_nonempty (prov_ApiUrl m) (put_bytes 0x32 (prov_ApiUrl m)) ;;>
  if_true (prov_Active m) (put_bool 0x28 (prov_Active m)) ;;>
  if_nonempty (prov_MetaHash m) (put_bytes 0x22 (prov_MetaHash m)) ;;>
  if_nonempty (prov_PayoutAddress m) (put_bytes 0x1a (prov_PayoutAddress m)) ;;>
  if_nonempty (prov_Address m) (put_bytes 0x12 (prov_Address m)) ;;>
  if_nonempty (prov_Uuid m) (put_bytes 0xa (prov_Uuid m)).

Definition Provider_Size (m : Provider) : Z :=
  size_str (prov_Uuid m) +
  size_str (prov_Address m) +
  size_str (prov_PayoutAddress m) +
  size_str (prov_MetaHash m) +
  size_bool (prov_Active m) +
  size_str (prov_ApiUrl m).

Definition Provider_Marshal (m : Provider) : res bytes := marshal (Provider_Size m) (Provider_write m).

Definition Provider_switch (fieldNum wireType : Z) (dAtA : bytes) (iNdEx : Z) (m : Provider) :
    option (res (Provider * Z)) :=
  let 'mkProvider uuid address payoutAddress metaHash active apiUrl := m in
  match fieldNum with
  | 1 => Some ('(x, i) ← get_string wireType dAtA iNdEx;
      Ok (mkProvider x address payoutAddress metaHash active apiUrl, i))
  | 2 => Some ('(x, i) ← get_string wireType dAtA iNdEx; Ok (mkProvider uuid x payoutAddress metaHash active apiUrl, i))
  | 3 => Some ('(x, i) ← get_string wireType dAtA iNdEx; Ok (mkProvider uuid address x metaHash active apiUrl, i))
  | 4 => Some ('(x, i) ← get_bytes wireType dAtA iNdEx; Ok (mkProvider uuid address payoutAddress x active apiUrl, i))
  | 5 => Some ('(x, i) ← get_bool wireType dAtA iNdEx; Ok (mkProvider uuid address payoutAddress metaHash x apiUrl, i))
  | 6 => Some ('(x, i) ← get_string wireType dAtA iNdEx;
      Ok (mkProvider uuid address payoutAddress metaHash active x, i))
  | _ => None
  end.

Definition Provider_zero : Provider := mkProvider "" "" "" "" false "".

Definition Provider_Unmarshal (dAtA : bytes) : res Provider := unmarshal Provider_switch dAtA Provider_zero.

Definition Provider_wire (m : Provider) : bytes :=
  enc_str 0xa (prov_Uuid m) ++
  enc_str 0x12 (prov_Address m) ++
  enc_str 0x1a (prov_PayoutAddress m) ++
  enc_str 0x22 (prov_MetaHash m) ++
  enc_bool 0x28 (prov_Active m) ++
  enc_str 0x32 (prov_ApiUrl m).

(** ** MsgCreateProvider *)

Definition MsgCreateProvider_write (m : MsgCreateProvider) : writer :=
  if_nonempty (cp_ApiUrl m) (put_bytes 0x2a (cp_ApiUrl m)) ;;>
  if_nonempty (cp_MetaHash m) (put_bytes 0x22 (cp_MetaHash m)) ;;>
  if_nonempty (cp_PayoutAddress m) (put_bytes 0x1a (cp_PayoutAddress m)) ;;>
  if_nonempty (cp_Address m) (put_bytes 0x12 (cp_Address m)) ;;>
  if_nonempty (cp_Authority m) (put_bytes 0xa (cp_Authority m)).

Definition MsgCreateProvider_Size (m : MsgCreateProvider) : Z :=
  size_str (cp_Authority m) +
  size_str (cp_Address m) +
  size_str (cp_PayoutAddress m) +
  size_str (cp_MetaHash m) +
  size_str (cp_ApiUrl m).

Definition MsgCreateProvider_Marshal (m : MsgCreateProvider) : res bytes :=
  marshal (MsgCreateProvider_Size m) (MsgCreateProvider_write m).

Definition MsgCreateProvider_switch (fieldNum wireType : Z) (dAtA : bytes) (iNdEx : Z) (m : MsgCreateProvider) :
    option (res (MsgCreateProvider * Z)) :=
  let 'mkMsgCreateProvider authority address payoutAddress metaHash apiUrl := m in
  match fieldNum with
  | 1 => Some ('(x, i) ← get_string wireType dAtA iNdEx;
      Ok (mkMsgCreateProvider x address payoutAddress metaHash apiUrl, i))
  | 2 => Some ('(x, i) ← get_string wireType dAtA iNdEx;
      Ok (mkMsgCreateProvider authority x payoutAddress metaHash apiUrl, i))
  | 3 => Some ('(x, i) ← get_string wireType dAtA iNdEx;
      Ok (mkMsgCreateProvider authority address x metaHash apiUrl, i))
  | 4 => Some ('(x, i) ← get_bytes wireType dAtA iNdEx;
      Ok (mkMsgCreateProvider authority address payoutAddress x apiUrl, i))
  | 5 => Some ('(x, i) ← get_string wireType dAtA iNdEx;
      Ok (mkMsgCreateProvider authority address payoutAddress metaHash x, i))
  | _ => None
  end.

Definition MsgCreateProvider_zero : MsgCreateProvider := mkMsgCreateProvider "" "" "" "" "".

Definition MsgCreateProvider_Unmarshal (dAtA : bytes) : res MsgCreateProvider :=
  unmarshal MsgCreateProvider_switch dAtA MsgCreateProvider_zero.

Definition MsgCreateProvider_wire (m : MsgCreateProvider) : bytes :=
  enc_str 0xa (cp_Authority m) ++
  enc_str 0x12 (cp_Address m) ++
  enc_str 0x1a (cp_PayoutAddress m) ++
  enc_str 0x22 (cp_MetaHash m) ++
  enc_str 0x2a (cp_ApiUrl m).

(** ** MsgCreateProviderResponse *)

Definition MsgCreateProviderResponse_write (m : MsgCreateProviderResponse) : writer :=
  if_nonempty (cpr_Uuid m) (put_bytes 0xa (cpr_Uuid m)).

Definition MsgCreateProviderResponse_Size (m : MsgCreateProviderResponse) : Z :=
  size_str (cpr_Uuid m).

Definition MsgCreateProviderResponse_Marshal (m : MsgCreateProviderResponse) : res bytes :=
  marshal (MsgCreateProviderResponse_Size m) (MsgCreateProviderResponse_write m).

Definition MsgCreateProviderResponse_switch (fieldNum wireType : Z) (dAtA : bytes) (iNdEx : Z) (m : MsgCreateProviderResponse) :
    option (res (MsgCreateProviderResponse * Z)) :=
  let 'mkMsgCreateProviderResponse uuid := m in
  match fieldNum with
  | 1 => Some ('(x, i) ← get_string wireType dAtA iNdEx; Ok (mkMsgCreateProviderResponse x, i))
  | _ => None
  end.

Definition MsgCreateProviderResponse_zero : MsgCreateProviderResponse := mkMsgCreateProviderResponse "".

Definition MsgCreateProviderResponse_Unmarshal (dAtA : bytes) : res MsgCreateProviderResponse :=
  unmarshal MsgCreateProviderResponse_switch dAtA MsgCreateProviderResponse_zero.

Definition MsgCreateProviderResponse_wire (m : MsgCreateProviderResponse) : bytes :=
  enc_str 0xa (cpr_Uuid m).

(** ** MsgUpdateProvider *)

Definition MsgUpdateProvider_write (m : MsgUpdateProvider) : writer :=
  if_nonempty (up_ApiUrl m) (put_bytes 0x3a (up_ApiUrl m)) ;;>
  if_true (up_Active m) (put_bool 0x30 (up_Active m)) ;;>
  if_nonempty (up_MetaHash m) (put_bytes 0x2a (up_MetaHash m)) ;;>
  if_nonempty (up_PayoutAddress m) (put_bytes 0x22 (up_PayoutAddress m)) ;;>
  if_nonempty (up_Address m) (put_bytes 0x1a (up_Address m)) ;;>
  if_nonempty (up_Uuid m) (put_bytes 0x12 (up_Uuid m)) ;;>
  if_nonempty (up_Authority m) (put_bytes 0xa (up_Authority m)).

Definition MsgUpdateProvider_Size (m : MsgUpdateProvider) : Z :=
  size_str (up_Authority m) +
  size_str (up_Uuid m) +
  size_str (up_Address m) +
  size_str (up_PayoutAddress m) +
  size_str (up_MetaHash m) +
  size_bool (up_Active m) +
  size_str (up_ApiUrl m).

Definition MsgUpdateProvider_Marshal (m : MsgUpdateProvider) : res bytes :=
  marshal (MsgUpdateProvider_Size m) (MsgUpdateProvider_write m).

Definition MsgUpdateProvider_switch (fieldNum wireType : Z) (dAtA : bytes) (iNdEx : Z) (m : MsgUpdateProvider) :
    option (res (MsgUpdateProvider * Z)) :=
  let 'mkMsgUpdateProvider authority uuid address payoutAddress metaHash active apiUrl := m in
  match fieldNum with
  | 1 => Some ('(x, i) ← get_string wireType dAtA iNdEx;
      Ok (mkMsgUpdateProvider x uuid address payoutAddress metaHash active apiUrl, i))
  | 2 => Some ('(x, i) ← get_string wireType dAtA iNdEx;
      Ok (mkMsgUpdateProvider authority x address payoutAddress metaHash active apiUrl, i))
  | 3 => Some ('(x, i) ← get_string wireType dAtA iNdEx;
      Ok (mkMsgUpdateProvider authority uuid x payoutAddress metaHash active apiUrl, i))
  | 4 => Some ('(x, i) ← get_string wireType dAtA iNdEx;
      Ok (mkMsgUpdateProvider authority uuid address x metaHash active apiUrl, i))
  | 5 => Some ('(x, i) ← get_bytes wireType dAtA iNdEx;
      Ok (mkMsgUpdateProvider authority uuid address payoutAddress x active apiUrl, i))
  | 6 => Some ('(x, i) ← get_bool wireType dAtA iNdEx;
      Ok (mkMsgUpdateProvider authority uuid address payoutAddress metaHash x apiUrl, i))
  | 7 => Some ('(x, i) ← get_string wireType dAtA iNdEx;
      Ok (mkMsgUpdateProvider authority uuid address payoutAddress metaHash active x, i))
  | _ => None
  end.

Definition MsgUpdateProvider_zero : MsgUpdateProvider := mkMsgUpdateProvider "" "" "" "" "" false "".

Definition MsgUpdateProvider_Unmarshal (dAtA : bytes) : res MsgUpdateProvider :=
  unmarshal MsgUpdateProvider_switch dAtA MsgUpdateProvider_zero.

Definition MsgUpdateProvider_wire (m : MsgUpdateProvider) : bytes :=
  enc_str 0xa (up_Authority m) ++
  enc_str 0x12 (up_Uuid m) ++
  enc_str 0x1a (up_Address m) ++
  enc_str 0x22 (up_PayoutAddress m) ++
  enc_str 0x2a (up_MetaHash m) ++
  enc_bool 0x30 (up_Active m) ++
  enc_str 0x3a (up_ApiUrl m).

(** ** MsgDeactivateProvider *)

Definition MsgDeactivateProvider_write (m : MsgDeactivateProvider) : writer :=
  if_nonzero (dp_Limit m) (put_uint 0x18 (dp_Limit m)) ;;>
  if_nonempty (dp_Uuid m) (put_bytes 0x12 (dp_Uuid m)) ;;>
  if_nonempty (dp_Authority m) (put_bytes 0xa (dp_Authority m)).

Definition MsgDeactivateProvider_Size (m : MsgDeactivateProvider) : Z :=
  size_str (dp_Authority m) +
  size_str (dp_Uuid m) +
  size_num (dp_Limit m).

Definition MsgDeactivateProvider_Marshal (m : MsgDeactivateProvider) : res bytes :=
  marshal (MsgDeactivateProvider_Size m) (MsgDeactivateProvider_write m).

Definition MsgDeactivateProvider_switch (fieldNum wireType : Z) (dAtA : bytes) (iNdEx : Z) (m : MsgDeactivateProvider) :
    option (res (MsgDeactivateProvider * Z)) :=
  let 'mkMsgDeactivateProvider authority uuid limit := m in
  match fieldNum with
  | 1 => Some ('(x, i) ← get_string wireType dAtA iNdEx; Ok (mkMsgDeactivateProvider x uuid limit, i))
  | 2 => Some ('(x, i) ← get_string wireType dAtA iNdEx; Ok (mkMsgDeactivateProvider authority x limit, i))
  | 3 => Some ('(x, i) ← get_uint wireType dAtA iNdEx; Ok (mkMsgDeactivateProvider authority uuid x, i))
  | _ => None
  end.

Definition MsgDeactivateProvider_zero : MsgDeactivateProvider := mkMsgDeactivateProvider "" "" 0.

Definition MsgDeactivateProvider_Unmarshal (dAtA : bytes) : res MsgDeactivateProvider :=
  unmarshal MsgDeactivateProvider_switch dAtA MsgDeactivateProvider_zero.

Definition MsgDeactivateProvider_wire (m : MsgDeactivateProvider) : bytes :=
  enc_str 0xa (dp_Authority m) ++
  enc_str 0x12 (dp_Uuid m) ++
  enc_uint 0x18 (dp_Limit m).

(** ** MsgDeactivateProviderResponse *)

Definition MsgDeactivateProviderResponse_write (m : MsgDeactivateProviderResponse) : writer :=
  if_true (dpr_HasMore m) (put_bool 0x10 (dpr_HasMore m)) ;;>
  if_nonzero (dpr_DeactivatedSkuCount m) (put_uint 0x8 (dpr_DeactivatedSkuCount m)).

Definition MsgDeactivateProviderResponse_Size (m : MsgDeactivateProviderResponse) : Z :=
  size_num (dpr_DeactivatedSkuCount m) +
  size_bool (dpr_HasMore m).

Definition MsgDeactivateProviderResponse_Marshal (m : MsgDeactivateProviderResponse) : res bytes :=
  marshal (MsgDeactivateProviderResponse_Size m) (MsgDeactivateProviderResponse_write m).

Definition MsgDeactivateProviderResponse_switch (fieldNum wireType : Z) (dAtA : bytes) (iNdEx : Z) (m : MsgDeactivateProviderResponse) :
    option (res (MsgDeactivateProviderResponse * Z)) :=
  let 'mkMsgDeactivateProviderResponse deactivatedSkuCount hasMore := m in
  match fieldNum with
  | 1 => Some ('(x, i) ← get_uint wireType dAtA iNdEx; Ok (mkMsgDeactivateProviderResponse x hasMore, i))
  | 2 => Some ('(x, i) ← get_bool wireType dAtA iNdEx; Ok (mkMsgDeactivateProviderResponse deactivatedSkuCount x, i))
  | _ => None
  end.

Definition MsgDeactivateProviderResponse_zero : MsgDeactivateProviderResponse :=
  mkMsgDeactivateProviderResponse 0 false.

Definition MsgDeactivateProviderResponse_Unmarshal (dAtA : bytes) : res MsgDeactivateProviderResponse :=
  unmarshal MsgDeactivateProviderResponse_switch dAtA MsgDeactivateProviderResponse_zero.

Definition MsgDeactivateProviderResponse_wire (m : MsgDeactivateProviderResponse) : bytes :=
  enc_uint 0x8 (dpr_DeactivatedSkuCount m) ++
  enc_bool 0x10 (dpr_HasMore m).

(** ** MsgCreateSKUResponse *)

Definition MsgCreateSKUResponse_write (m : MsgCreateSKUResponse) : writer :=
  if_nonempty (csr_Uuid m) (put_bytes 0xa (csr_Uuid m)).

Definition MsgCreateSKUResponse_Size (m : MsgCreateSKUResponse) : Z :=
  size_str (csr_Uuid m).

Definition MsgCreateSKUResponse_Marshal (m : MsgCreateSKUResponse) : res bytes :=
  marshal (MsgCreateSKUResponse_Size m) (MsgCreateSKUResponse_write m).

Definition MsgCreateSKUResponse_switch (fieldNum wireType : Z) (dAtA : bytes) (iNdEx : Z) (m : MsgCreateSKUResponse) :
    option (res (MsgCreateSKUResponse * Z)) :=
  let 'mkMsgCreateSKUResponse uuid := m in
  match fieldNum with
  | 1 => Some ('(x, i) ← get_string wireType dAtA iNdEx; Ok (mkMsgCreateSKUResponse x, i))
  | _ => None
  end.

Definition MsgCreateSKUResponse_zero : MsgCreateSKUResponse := mkMsgCreateSKUResponse "".

Definition MsgCreateSKUResponse_Unmarshal (dAtA : bytes) : res MsgCreateSKUResponse :=
  unmarshal MsgCreateSKUResponse_switch dAtA MsgCreateSKUResponse_zero.

Definition MsgCreateSKUResponse_wire (m : MsgCreateSKUResponse) : bytes :=
  enc_str 0xa (csr_Uuid m).

(** ** MsgDeactivateSKU *)

Definition MsgDeactivateSKU_write (m : MsgDeactivateSKU) : writer :=
  if_nonempty (ds_Uuid m) (put_bytes 0x12 (ds_Uuid m)) ;;>
  if_nonempty (ds_Authority m) (put_bytes 0xa (ds_Authority m)).

Definition MsgDeactivateSKU_Size (m : MsgDeactivateSKU) : Z :=
  size_str (ds_Authority m) +
  size_str (ds_Uuid m).

Definition MsgDeactivateSKU_Marshal (m : MsgDeactivateSKU) : res bytes :=
  marshal (MsgDeactivateSKU_Size m) (MsgDeactivateSKU_write m).

Definition MsgDeactivateSKU_switch (fieldNum wireType : Z) (dAtA : bytes) (iNdEx : Z) (m : MsgDeactivateSKU) :
    option (res (MsgDeactivateSKU * Z)) :=
  let 'mkMsgDeactivateSKU authority uuid := m in
  match fieldNum with
  | 1 => Some ('(x, i) ← get_string wireType dAtA iNdEx; Ok (mkMsgDeactivateSKU x uuid, i))
  | 2 => Some ('(x, i) ← get_string wireType dAtA iNdEx; Ok (mkMsgDeactivateSKU authority x, i))
  | _ => None
  end.

Definition MsgDeactivateSKU_zero : MsgDeactivateSKU := mkMsgDeactivateSKU "" "".

Definition MsgDeactivateSKU_Unmarshal (dAtA : bytes) : res MsgDeactivateSKU :=
  unmarshal MsgDeactivateSKU_switch dAtA MsgDeactivateSKU_zero.

Definition MsgDeactivateSKU_wire (m : MsgDeactivateSKU) : bytes :=
  enc_str 0xa (ds_Authority m) ++
  enc_str 0x12 (ds_Uuid m).

(** ** MsgUpdateParams *)

Definition SkuMsgUpdateParams_write (m : SkuMsgUpdateParams) : writer :=
  put_msg 0x12 (to_sized_buffer (SkuParams_write (sp_Params m))) ;;>
  if_nonempty (sp_Authority m) (put_bytes 0xa (sp_Authority m)).

Definition SkuMsgUpdateParams_Size (m : SkuMsgUpdateParams) : Z :=
  size_str (sp_Authority m) +
  size_len (SkuParams_Size (sp_Params m)).

Definition SkuMsgUpdateParams_Marshal (m : SkuMsgUpdateParams) : res bytes :=
  marshal (SkuMsgUpdateParams_Size m) (SkuMsgUpdateParams_write m).

Definition SkuMsgUpdateParams_switch (fieldNum wireType : Z) (dAtA : bytes) (iNdEx : Z) (m : SkuMsgUpdateParams) :
    option (res (SkuMsgUpdateParams * Z)) :=
  let 'mkSkuMsgUpdateParams authority params := m in
  match fieldNum with
  | 1 => Some ('(x, i) ← get_string wireType dAtA iNdEx; Ok (mkSkuMsgUpdateParams x params, i))
  | 2 => Some ('(x, i) ← get_msg (λ b, unmarshal SkuParams_switch b params) wireType dAtA iNdEx;
      Ok (mkSkuMsgUpdateParams authority x, i))
  | _ => None
  end.

Definition SkuMsgUpdateParams_zero : SkuMsgUpdateParams := mkSkuMsgUpdateParams "" SkuParams_zero.

Definition SkuMsgUpdateParams_Unmarshal (dAtA : bytes) : res SkuMsgUpdateParams :=
  unmarshal SkuMsgUpdateParams_switch dAtA SkuMsgUpdateParams_zero.

Definition SkuMsgUpdateParams_wire (m : SkuMsgUpdateParams) : bytes :=
  enc_str 0xa (sp_Authority m) ++
  len_field 0x12 (SkuParams_wire (sp_Params m)).

Section codec.
Context `{Gogo}.

(** ** SKU *)

Definition SKU_write (m : SKU) : writer :=
  if_true (sku_Active m) (put_bool 0x38 (sku_Active m)) ;;>
  if_nonempty (sku_MetaHash m) (put_bytes 0x32 (sku_MetaHash m)) ;;>
  put_msg 0x2a (Coin_MarshalToSizedBuffer (sku_BasePrice m)) ;;>
  if_nonzero (Unit_number (sku_Unit m)) (put_uint 0x20 (Unit_number (sku_Unit m))) ;;>
  if_nonempty (sku_Name m) (put_bytes 0x1a (sku_Name m)) ;;>
  if_nonempty (sku_ProviderUuid m) (put_bytes 0x12 (sku_ProviderUuid m)) ;;>
  if_nonempty (sku_Uuid m) (put_bytes 0xa (sku_Uuid m)).

Definition SKU_Size (m : SKU) : Z :=
  size_str (sku_Uuid m) +
  size_str (sku_ProviderUuid m) +
  size_str (sku_Name m) +
  size_num (Unit_number (sku_Unit m)) +
  size_len (Coin_Size (sku_BasePrice m)) +
  size_str (sku_MetaHash m) +
  size_bool (sku_Active m).

Definition SKU_Marshal (m : SKU) : res bytes := marshal (SKU_Size m) (SKU_write m).

Definition SKU_switch (fieldNum wireType : Z) (dAtA : bytes) (iNdEx : Z) (m : (SKU * Z)) :
    option (res ((SKU * Z) * Z)) :=
  let '(mkSKU uuid providerUuid name _ basePrice metaHash active, unit) := m in
  match fieldNum with
  | 1 => Some ('(x, i) ← get_string wireType dAtA iNdEx;
      Ok ((mkSKU x providerUuid name UNIT_UNSPECIFIED basePrice metaHash active, unit), i))
  | 2 => Some ('(x, i) ← get_string wireType dAtA iNdEx;
      Ok ((mkSKU uuid x name UNIT_UNSPECIFIED basePrice metaHash active, unit), i))
  | 3 => Some ('(x, i) ← get_string wireType dAtA iNdEx;
      Ok ((mkSKU uuid providerUuid x UNIT_UNSPECIFIED basePrice metaHash active, unit), i))
  | 4 => Some ('(x, i) ← get_enum wireType dAtA iNdEx;
      Ok ((mkSKU uuid providerUuid name UNIT_UNSPECIFIED basePrice metaHash active, x), i))
  | 5 => Some ('(x, i) ← get_msg (λ b, Coin_Unmarshal b basePrice) wireType dAtA iNdEx;
      Ok ((mkSKU uuid providerUuid name UNIT_UNSPECIFIED x metaHash active, unit), i))
  | 6 => Some ('(x, i) ← get_bytes wireType dAtA iNdEx;
      Ok ((mkSKU uuid providerUuid name UNIT_UNSPECIFIED basePrice x active, unit), i))
  | 7 => Some ('(x, i) ← get_bool wireType dAtA iNdEx;
      Ok ((mkSKU uuid providerUuid name UNIT_UNSPECIFIED basePrice metaHash x, unit), i))
  | _ => None
  end.

Definition SKU_zero : (SKU * Z) := (mkSKU "" "" "" UNIT_UNSPECIFIED no_coin "" false, 0).

(** As Go decodes it. *)
Definition SKU_go (m : SKU) : (SKU * Z) :=
  (mkSKU (sku_Uuid m) (sku_ProviderUuid m) (sku_Name m) UNIT_UNSPECIFIED (sku_BasePrice m) (sku_MetaHash m) (sku_Active m), (Unit_number (sku_Unit m))).

Definition SKU_Unmarshal (dAtA : bytes) : res (SKU * Z) := unmarshal SKU_switch dAtA SKU_zero.

Definition SKU_wire (m : SKU) : bytes :=
  enc_str 0xa (sku_Uuid m) ++
  enc_str 0x12 (sku_ProviderUuid m) ++
  enc_str 0x1a (sku_Name m) ++
  enc_uint 0x20 (Unit_number (sku_Unit m)) ++
  len_field 0x2a (coin_bytes (sku_BasePrice m)) ++
  enc_str 0x32 (sku_MetaHash m) ++
  enc_bool 0x38 (sku_Active m).

(** ** MsgCreateSKU *)

Definition MsgCreateSKU_write (m : MsgCreateSKU) : writer :=
  if_nonempty (cs_MetaHash m) (put_bytes 0x32 (cs_MetaHash m)) ;;>
  put_msg 0x2a (Coin_MarshalToSizedBuffer (cs_BasePrice m)) ;;>
  if_nonzero (Unit_number (cs_Unit m)) (put_uint 0x20 (Unit_number (cs_Unit m))) ;;>
  if_nonempty (cs_Name m) (put_bytes 0x1a (cs_Name m)) ;;>
  if_nonempty (cs_ProviderUuid m) (put_bytes 0x12 (cs_ProviderUuid m)) ;;>
  if_nonempty (cs_Authority m) (put_bytes 0xa (cs_Authority m)).

Definition MsgCreateSKU_Size (m : MsgCreateSKU) : Z :=
  size_str (cs_Authority m) +
  size_str (cs_ProviderUuid m) +
  size_str (cs_Name m) +
  size_num (Unit_number (cs_Unit m)) +
  size_len (Coin_Size (cs_BasePrice m)) +
  size_str (cs_MetaHash m).

Definition MsgCreateSKU_Marshal (m : MsgCreateSKU) : res bytes := marshal (MsgCreateSKU_Size m) (MsgCreateSKU_write m).

Definition MsgCreateSKU_switch (fieldNum wireType : Z) (dAtA : bytes) (iNdEx : Z) (m : (MsgCreateSKU * Z)) :
    option (res ((MsgCreateSKU * Z) * Z)) :=
  let '(mkMsgCreateSKU authority providerUuid name _ basePrice metaHash, unit) := m in
  match fieldNum with
  | 1 => Some ('(x, i) ← get_string wireType dAtA iNdEx;
      Ok ((mkMsgCreateSKU x providerUuid name UNIT_UNSPECIFIED basePrice metaHash, unit), i))
  | 2 => Some ('(x, i) ← get_string wireType dAtA iNdEx;
      Ok ((mkMsgCreateSKU authority x name UNIT_UNSPECIFIED basePrice metaHash, unit), i))
  | 3 => Some ('(x, i) ← get_string wireType dAtA iNdEx;
      Ok ((mkMsgCreateSKU authority providerUuid x UNIT_UNSPECIFIED basePrice metaHash, unit), i))
  | 4 => Some ('(x, i) ← get_enum wireType dAtA iNdEx;
      Ok ((mkMsgCreateSKU authority providerUuid name UNIT_UNSPECIFIED basePrice metaHash, x), i))
  | 5 => Some ('(x, i) ← get_msg (λ b, Coin_Unmarshal b basePrice) wireType dAtA iNdEx;
      Ok ((mkMsgCreateSKU authority providerUuid name UNIT_UNSPECIFIED x metaHash, unit), i))
  | 6 => Some ('(x, i) ← get_bytes wireType dAtA iNdEx;
      Ok ((mkMsgCreateSKU authority providerUuid name UNIT_UNSPECIFIED basePrice x, unit), i))
  | _ => None
  end.

Definition MsgCreateSKU_zero : (MsgCreateSKU * Z) := (mkMsgCreateSKU "" "" "" UNIT_UNSPECIFIED no_coin "", 0).

(** As Go decodes it. *)
Definition MsgCreateSKU_go (m : MsgCreateSKU) : (MsgCreateSKU * Z) :=
  (mkMsgCreateSKU (cs_Authority m) (cs_ProviderUuid m) (cs_Name m) UNIT_UNSPECIFIED (cs_BasePrice m) (cs_MetaHash m), (Unit_number (cs_Unit m))).

Definition MsgCreateSKU_Unmarshal (dAtA : bytes) : res (MsgCreateSKU * Z) :=
  unmarshal MsgCreateSKU_switch dAtA MsgCreateSKU_zero.

Definition MsgCreateSKU_wire (m : MsgCreateSKU) : bytes :=
  enc_str 0xa (cs_Authority m) ++
  enc_str 0x12 (cs_ProviderUuid m) ++
  enc_str 0x1a (cs_Name m) ++
  enc_uint 0x20 (Unit_number (cs_Unit m)) ++
  len_field 0x2a (coin_bytes (cs_BasePrice m)) ++
  enc_str 0x32 (cs_MetaHash m).

(** ** MsgUpdateSKU *)

Definition MsgUpdateSKU_write (m : MsgUpdateSKU) : writer :=
  if_true (us_Active m) (put_bool 0x40 (us_Active m)) ;;>
  if_nonempty (us_MetaHash m) (put_bytes 0x3a (us_MetaHash m)) ;;>
  put_msg 0x32 (Coin_MarshalToSizedBuffer (us_BasePrice m)) ;;>
  if_nonzero (Unit_number (us_Unit m)) (put_uint 0x28 (Unit_number (us_Unit m))) ;;>
  if_nonempty (us_Name m) (put_bytes 0x22 (us_Name m)) ;;>
  if_nonempty (us_ProviderUuid m) (put_bytes 0x1a (us_ProviderUuid m)) ;;>
  if_nonempty (us_Uuid m) (put_bytes 0x12 (us_Uuid m)) ;;>
  if_nonempty (us_Authority m) (put_bytes 0xa (us_Authority m)).

Definition MsgUpdateSKU_Size (m : MsgUpdateSKU) : Z :=
  size_str (us_Authority m) +
  size_str (us_Uuid m) +
  size_str (us_ProviderUuid m) +
  size_str (us_Name m) +
  size_num (Unit_number (us_Unit m)) +
  size_len (Coin_Size (us_BasePrice m)) +
  size_str (us_MetaHash m) +
  size_bool (us_Active m).

Definition MsgUpdateSKU_Marshal (m : MsgUpdateSKU) : res bytes := marshal (MsgUpdateSKU_Size m) (MsgUpdateSKU_write m).

Definition MsgUpdateSKU_switch (fieldNum wireType : Z) (dAtA : bytes) (iNdEx : Z) (m : (MsgUpdateSKU * Z)) :
    option (res ((MsgUpdateSKU * Z) * Z)) :=
  let '(mkMsgUpdateSKU authority uuid providerUuid name _ basePrice metaHash active, unit) := m in
  match fieldNum with
  | 1 => Some ('(x, i) ← get_string wireType dAtA iNdEx;
      Ok ((mkMsgUpdateSKU x uuid providerUuid name UNIT_UNSPECIFIED basePrice metaHash active, unit), i))
  | 2 => Some ('(x, i) ← get_string wireType dAtA iNdEx;
      Ok ((mkMsgUpdateSKU authority x providerUuid name UNIT_UNSPECIFIED basePrice metaHash active, unit), i))
  | 3 => Some ('(x, i) ← get_string wireType dAtA iNdEx;
      Ok ((mkMsgUpdateSKU authority uuid x name UNIT_UNSPECIFIED basePrice metaHash active, unit), i))
  | 4 => Some ('(x, i) ← get_string wireType dAtA iNdEx;
      Ok ((mkMsgUpdateSKU authority uuid providerUuid x UNIT_UNSPECIFIED basePrice metaHash active, unit), i))
  | 5 => Some ('(x, i) ← get_enum wireType dAtA iNdEx;
      Ok ((mkMsgUpdateSKU authority uuid providerUuid name UNIT_UNSPECIFIED basePrice metaHash active, x), i))
  | 6 => Some ('(x, i) ← get_msg (λ b, Coin_Unmarshal b basePrice) wireType dAtA iNdEx;
      Ok ((mkMsgUpdateSKU authority uuid providerUuid name UNIT_UNSPECIFIED x metaHash active, unit), i))
  | 7 => Some ('(x, i) ← get_bytes wireType dAtA iNdEx;
      Ok ((mkMsgUpdateSKU authority uuid providerUuid name UNIT_UNSPECIFIED basePrice x active, unit), i))
  | 8 => Some ('(x, i) ← get_bool wireType dAtA iNdEx;
      Ok ((mkMsgUpdateSKU authority uuid providerUuid name UNIT_UNSPECIFIED basePrice metaHash x, unit), i))
  | _ => None
  end.

Definition MsgUpdateSKU_zero : (MsgUpdateSKU * Z) := (mkMsgUpdateSKU "" "" "" "" UNIT_UNSPECIFIED no_coin "" false, 0).

(** As Go decodes it. *)
Definition MsgUpdateSKU_go (m : MsgUpdateSKU) : (MsgUpdateSKU * Z) :=
  (mkMsgUpdateSKU (us_Authority m) (us_Uuid m) (us_ProviderUuid m) (us_Name m) UNIT_UNSPECIFIED (us_BasePrice m) (us_MetaHash m) (us_Active m), (Unit_number (us_Unit m))).

Definition MsgUpdateSKU_Unmarshal (dAtA : bytes) : res (MsgUpdateSKU * Z) :=
  unmarshal MsgUpdateSKU_switch dAtA MsgUpdateSKU_zero.

Definition MsgUpdateSKU_wire (m : MsgUpdateSKU) : bytes :=
  enc_str 0xa (us_Authority m) ++
  enc_str 0x12 (us_Uuid m) ++
  enc_str 0x1a (us_ProviderUuid m) ++
  enc_str 0x22 (us_Name m) ++
  enc_uint 0x28 (Unit_number (us_Unit m)) ++
  len_field 0x32 (coin_bytes (us_BasePrice m)) ++
  enc_str 0x3a (us_MetaHash m) ++
  enc_bool 0x40 (us_Active m).
End codec.

(** * The messages of the sku module are lawful *)

Lemma Unit_number_range u : - 2 ^ 31 ≤ Unit_number u < 2 ^ 31.
Proof. destruct u; cbn; lia. Qed.
#[export] Hint Resolve Unit_number_range : wire.

#[export] Instance SkuParams_lawful :
  lawful (λ _, True) SkuParams_write SkuParams_Size SkuParams_wire
    SkuParams_switch SkuParams_zero id.
Proof.
  solve_lawful. intros [allowedList]; open_decodes Hl.
  dec_strings 1 (λ l, mkSkuParams l).
Qed.

#[export] Instance Provider_lawful :
  lawful (λ _, True) Provider_write Provider_Size Provider_wire
    Provider_switch Provider_zero id.
Proof.
  solve_lawful. intros [uuid address payoutAddress metaHash active apiUrl]; open_decodes Hl.
  dec_string 1. dec_string 2. dec_string 3. dec_bytes 4. dec_bool 5. dec_string 6.
Qed.

#[export] Instance MsgCreateProvider_lawful :
  lawful (λ _, True) MsgCreateProvider_write MsgCreateProvider_Size MsgCreateProvider_wire
    MsgCreateProvider_switch MsgCreateProvider_zero id.
Proof.
  solve_lawful. intros [authority address payoutAddress metaHash apiUrl]; open_decodes Hl.
  dec_string 1. dec_string 2. dec_string 3. dec_bytes 4. dec_string 5.
Qed.

#[export] Instance MsgCreateProviderResponse_lawful :
  lawful (λ _, True) MsgCreateProviderResponse_write MsgCreateProviderResponse_Size MsgCreateProviderResponse_wire
    MsgCreateProviderResponse_switch MsgCreateProviderResponse_zero id.
Proof.
  solve_lawful. intros [uuid]; open_decodes Hl.
  dec_string 1.
Qed.

#[export] Instance MsgUpdateProvider_lawful :
  lawful (λ _, True) MsgUpdateProvider_write MsgUpdateProvider_Size MsgUpdateProvider_wire
    MsgUpdateProvider_switch MsgUpdateProvider_zero id.
Proof.
  solve_lawful. intros [authority uuid address payoutAddress metaHash active apiUrl]; open_decodes Hl.
  dec_string 1. dec_string 2. dec_string 3. dec_string 4. dec_bytes 5. dec_bool 6. dec_string 7.
Qed.

Definition MsgDeactivateProvider_fits (m : MsgDeactivateProvider) : Prop := is_u64 (dp_Limit m).

#[export] Instance MsgDeactivateProvider_lawful :
  lawful MsgDeactivateProvider_fits MsgDeactivateProvider_write MsgDeactivateProvider_Size MsgDeactivateProvider_wire
    MsgDeactivateProvider_switch MsgDeactivateProvider_zero id.
Proof.
  solve_lawful. intros [authority uuid limit]; open_decodes Hl.
  dec_string 1. dec_string 2. dec_uint 3.
Qed.

Definition MsgDeactivateProviderResponse_fits (m : MsgDeactivateProviderResponse) : Prop :=
  is_u64 (dpr_DeactivatedSkuCount m).

#[export] Instance MsgDeactivateProviderResponse_lawful :
  lawful MsgDeactivateProviderResponse_fits MsgDeactivateProviderResponse_write MsgDeactivateProviderResponse_Size MsgDeactivateProviderResponse_wire
    MsgDeactivateProviderResponse_switch MsgDeactivateProviderResponse_zero id.
Proof.
  solve_lawful. intros [deactivatedSkuCount hasMore]; open_decodes Hl.
  dec_uint 1. dec_bool 2.
Qed.

#[export] Instance MsgCreateSKUResponse_lawful :
  lawful (λ _, True) MsgCreateSKUResponse_write MsgCreateSKUResponse_Size MsgCreateSKUResponse_wire
    MsgCreateSKUResponse_switch MsgCreateSKUResponse_zero id.
Proof.
  solve_lawful. intros [uuid]; open_decodes Hl.
  dec_string 1.
Qed.

#[export] Instance MsgDeactivateSKU_lawful :
  lawful (λ _, True) MsgDeactivateSKU_write MsgDeactivateSKU_Size MsgDeactivateSKU_wire
    MsgDeactivateSKU_switch MsgDeactivateSKU_zero id.
Proof.
  solve_lawful. intros [authority uuid]; open_decodes Hl.
  dec_string 1. dec_string 2.
Qed.

#[export] Instance SkuMsgUpdateParams_lawful :
  lawful (λ _, True) SkuMsgUpdateParams_write SkuMsgUpdateParams_Size SkuMsgUpdateParams_wire
    SkuMsgUpdateParams_switch SkuMsgUpdateParams_zero id.
Proof.
  solve_lawful. intros [authority params]; open_decodes Hl.
  dec_string 1. dec_sub 2 Hl.
Qed.

Section codec.
Context `{GL : GogoLaws}.

Definition SKU_fits (m : SKU) : Prop := coin_fits (sku_BasePrice m).

#[global] Instance SKU_lawful :
  lawful SKU_fits SKU_write SKU_Size SKU_wire
    SKU_switch SKU_zero SKU_go.
Proof.
  solve_lawful. intros [uuid providerUuid name unit basePrice metaHash active]; open_decodes Hl.
  dec_string 1. dec_string 2. dec_string 3. dec_enum 4. dec_msg 5 (λ b, Coin_Unmarshal b no_coin). dec_bytes 6.
  dec_bool 7.
Qed.

Definition MsgCreateSKU_fits (m : MsgCreateSKU) : Prop := coin_fits (cs_BasePrice m).

#[global] Instance MsgCreateSKU_lawful :
  lawful MsgCreateSKU_fits MsgCreateSKU_write MsgCreateSKU_Size MsgCreateSKU_wire
    MsgCreateSKU_switch MsgCreateSKU_zero MsgCreateSKU_go.
Proof.
  solve_lawful. intros [authority providerUuid name unit basePrice metaHash]; open_decodes Hl.
  dec_string 1. dec_string 2. dec_string 3. dec_enum 4. dec_msg 5 (λ b, Coin_Unmarshal b no_coin). dec_bytes 6.
Qed.

Definition MsgUpdateSKU_fits (m : MsgUpdateSKU) : Prop := coin_fits (us_BasePrice m).

#[global] Instance MsgUpdateSKU_lawful :
  lawful MsgUpdateSKU_fits MsgUpdateSKU_write MsgUpdateSKU_Size MsgUpdateSKU_wire
    MsgUpdateSKU_switch MsgUpdateSKU_zero MsgUpdateSKU_go.
Proof.
  solve_lawful. intros [authority uuid providerUuid name unit basePrice metaHash active]; open_decodes Hl.
  dec_string 1. dec_string 2. dec_string 3. dec_string 4. dec_enum 5. dec_msg 6 (λ b, Coin_Unmarshal b no_coin).
  dec_bytes 7. dec_bool 8.
Qed.
End codec.
