(* ===== verification/UnitJson.v ===== *)
(** * The JSON form of a unit (x/sku/types/unit.go)

    MarshalJSON and UnmarshalJSON of Unit, with what they use of encoding/json: writing a string,
    reading a string, reading an int32. A unit is its int32 number here, declared or not, since
    [*u = Unit(i)] stores any. A text that is not JSON and one of another type are both errors to
    [json.Unmarshal], so that objects, arrays and booleans need no reading. *)

From stdpp Require Import base tactics option list strings pretty.
From Stdlib Require Import ZArith Lia Ascii.
From S2P Require Import Prelude GoStd Strconv Sdk SkuTypes Wire SkuCodec.
Open Scope Z_scope.

(** ** encoding/json *)

Definition code_char (n : Z) : ascii := ascii_of_nat (Z.to_nat n).

Definition json_ws (c : ascii) : bool :=
  let n := char_code c in (n =? 32) || (n =? 9) || (n =? 10) || (n =? 13).

(** An element of a string literal: a byte that stands for itself or is written with a short
    escape, or the 16-bit unit of a [\uXXXX]. *)
Inductive unit16 : Type := Byte (b : Z) | U16 (r : Z).

Definition short_escape (c : ascii) : option Z :=
  let n := char_code c in
  if (n =? 34) || (n =? 92) || (n =? 47) then Some n else
  if n =? 98 then Some 8 else if n =? 102 then Some 12 else if n =? 110 then Some 10 else
  if n =? 114 then Some 13 else if n =? 116 then Some 9 else None.

(** The literal after its opening quote; only white space may follow the closing one. *)
Fixpoint scan_string (s : string) : option (list unit16) :=
  match s with
  | EmptyString => None
  | String c s' =>
      if char_code c =? 34 then (if str_forallb json_ws s' then Some [] else None) else
      if char_code c =? 92 then
        match s' with
        | String e t =>
            if char_code e =? 117 then
              match t with
              | String h3 (String h2 (String h1 (String h0 t'))) =>
                  r3 ← from_hex_char h3; r2 ← from_hex_char h2; r1 ← from_hex_char h1; r0 ← from_hex_char h0;
                  us ← scan_string t';
                  Some (U16 (r3 * 4096 + r2 * 256 + r1 * 16 + r0) :: us)
              | _ => None
              end
            else b ← short_escape e; us ← scan_string t; Some (Byte b :: us)
        | EmptyString => None
        end
      else if char_code c <? 32 then None else
      us ← scan_string s'; Some (Byte (char_code c) :: us)
  end.

(** [utf8.AppendRune]. *)
Definition encode_rune (r : Z) : list Z :=
  if r <? 0x80 then [r] else
  if r <? 0x800 then [0xC0 + r / 64; 0x80 + r mod 64] else
  if r <? 0x10000 then [0xE0 + r / 4096; 0x80 + r / 64 mod 64; 0x80 + r mod 64] else
  [0xF0 + r / 262144; 0x80 + r / 4096 mod 64; 0x80 + r / 64 mod 64; 0x80 + r mod 64].

Definition RuneError : Z := 0xFFFD.
Definition between (lo hi x : Z) : bool := (lo <=? x) && (x <=? hi).

(** The ranges that [utf8.DecodeRune] accepts for the bytes after the first; [] for a first byte
    that begins no rune of several bytes. *)
Definition utf8_rest (b : Z) : list (Z * Z) :=
  let cont := (0x80, 0xBF) in
  if between 0xC2 0xDF b then [cont] else
  if b =? 0xE0 then [(0xA0, 0xBF); cont] else
  if b =? 0xED then [(0x80, 0x9F); cont] else
  if between 0xE1 0xEF b then [cont; cont] else
  if b =? 0xF0 then [(0x90, 0xBF); cont; cont] else
  if between 0xF1 0xF3 b then [cont; cont; cont] else
  if b =? 0xF4 then [(0x80, 0x8F); cont; cont] else [].

Fixpoint utf8_accepts (rs : list (Z * Z)) (us : list unit16) : bool :=
  match rs, us with
  | [], _ => true
  | (lo, hi) :: rs', Byte b :: us' => between lo hi b && utf8_accepts rs' us'
  | _ :: _, _ => false
  end.

(** The bytes of the string: surrogate pairs joined, a lone surrogate and a byte that is not UTF-8
    replaced. [k] bytes of a rune that was accepted are still to be copied. *)
Fixpoint unquote (k : nat) (us : list unit16) : list Z :=
  match us with
  | [] => []
  | Byte b :: us' =>
      match k with
      | S k' => b :: unquote k' us'
      | O =>
          if b <? 0x80 then b :: unquote O us' else
          let rs := utf8_rest b in
          if negb (Nat.eqb (length rs) 0) && utf8_accepts rs us' then b :: unquote (length rs) us'
          else encode_rune RuneError ++ unquote O us'
      end
  | U16 r :: us' =>
      if between 0xD800 0xDBFF r then
        match us' with
        | U16 r2 :: us'' =>
            if between 0xDC00 0xDFFF r2
            then encode_rune ((r - 0xD800) * 1024 + (r2 - 0xDC00) + 0x10000) ++ unquote O us''
            else encode_rune RuneError ++ unquote O us'
        | _ => encode_rune RuneError ++ unquote O us'
        end
      else if between 0xDC00 0xDFFF r then encode_rune RuneError ++ unquote O us'
      else encode_rune r ++ unquote O us'
  end.

Fixpoint string_of_bytes (bs : list Z) : string :=
  match bs with [] => EmptyString | b :: bs' => String (code_char b) (string_of_bytes bs') end.

(** [json.Unmarshal] into a string that is empty: null leaves it as it is. *)
Definition json_string (data : string) : option string :=
  match str_drop_while json_ws data with
  | String c s =>
      if char_code c =? 34 then (λ us, string_of_bytes (unquote O us)) <$> scan_string s else
      if strings_HasPrefix (String c s) "null" && str_forallb json_ws (String.substring 4 (String.length s) (String c s))
      then Some ""%string else None
  | EmptyString => None
  end.

Fixpoint str_take_while (p : ascii → bool) (s : string) : string :=
  match s with
  | EmptyString => EmptyString
  | String c s' => if p c then String c (str_take_while p s') else EmptyString
  end.

(** Digits with no leading zero. *)
Definition json_digits (s : string) : bool :=
  match s with
  | EmptyString => false
  | String c s' => str_forallb is_digit_char s && (negb (char_code c =? 48) || String.eqb s' "")
  end.

(** [json.Unmarshal] into an int32: [strconv.ParseInt] of the literal with 64 bits, then
    [OverflowInt]. A literal with a fraction or an exponent is refused by [ParseInt]. *)
Definition json_int32 (data : string) : option Z :=
  let s := str_drop_while json_ws data in
  let item := str_take_while (λ c, negb (json_ws c)) s in
  let digits := match item with String c t => if Ascii.eqb c "-" then t else item | EmptyString => item end in
  if negb (json_digits digits && str_forallb json_ws (str_drop_while (λ c, negb (json_ws c)) s)) then None else
  n ← ParseInt item 64;
  if between (- 2 ^ 31) (2 ^ 31 - 1) n then Some n else None.

(** [json.Marshal] of a string of ASCII characters. *)
Definition json_escape (c : ascii) : string :=
  let n := char_code c in
  let escaped := String (code_char 92) in
  let last c := String c EmptyString in
  if (n =? 34) || (n =? 92) then escaped (last c) else
  if n =? 8 then escaped "b" else if n =? 12 then escaped "f" else if n =? 10 then escaped "n" else
  if n =? 13 then escaped "r" else if n =? 9 then escaped "t" else
  if (n <? 32) || (n =? 60) || (n =? 62) || (n =? 38)
  then escaped ("u00" +:+ String (hex_char (n / 16)) (last (hex_char (n mod 16))))
  else last c.

Definition quote : string := String (code_char 34) EmptyString.

Fixpoint json_body (s : string) : string :=
  match s with EmptyString => quote | String c s' => json_escape c +:+ json_body s' end.

Definition json_Marshal (s : string) : string := quote +:+ json_body s.

(** ** unit.go *)

(** [Unit_name], with [proto.EnumName]: a number without a name is written in decimal. *)
Definition Unit_String (n : Z) : string :=
  if n =? 0 then "UNIT_UNSPECIFIED" else
  if n =? 1 then "UNIT_PER_HOUR" else
  if n =? 2 then "UNIT_PER_DAY" else
  if n <? 0 then String "-" (FormatUint (- n)) else FormatUint n.

Definition Unit_value (s : string) : option Z :=
  if String.eqb s "UNIT_UNSPECIFIED" then Some 0 else
  if String.eqb s "UNIT_PER_HOUR" then Some 1 else
  if String.eqb s "UNIT_PER_DAY" then Some 2 else None.

Definition Unit_MarshalJSON (u : Z) : string := json_Marshal (Unit_String u).

Definition Unit_UnmarshalJSON (data : string) : option Z :=
  match json_string data with
  | None => json_int32 data
  | Some s => Unit_value s
  end.

(** ** Theorems *)

(** The characters that are written as they are. *)
Definition plain (c : ascii) : bool := String.eqb (json_escape c) (String c EmptyString) && is_ascii_char c.

Lemma plain_char c : plain c = true →
  json_escape c = String c EmptyString ∧ 32 ≤ char_code c < 128 ∧ char_code c ≠ 34 ∧ char_code c ≠ 92.
Proof. destruct c as [[] [] [] [] [] [] [] []]; vm_compute; try discriminate; intros _; split_and!; done. Qed.

Lemma code_char_code c : code_char (char_code c) = c.
Proof. unfold code_char, char_code. by rewrite Nat2Z.id, ascii_nat_embedding. Qed.

Lemma scan_plain s : str_forallb plain s = true →
  ∃ us, scan_string (json_body s) = Some us ∧ string_of_bytes (unquote O us) = s.
Proof.
  induction s as [|c s IH]; cbn [str_forallb]; [intros _; by exists []|].
  intros [(He & Hr & Hq & Hb)%plain_char (us & Hs & Hu)%IH]%andb_true_iff.
  exists (Byte (char_code c) :: us). cbn [json_body]. rewrite He.
  change (String c "" +:+ json_body s) with (String c (json_body s)). cbn [scan_string]. rewrite Hs.
  rewrite (proj2 (Z.eqb_neq _ _) Hq), (proj2 (Z.eqb_neq _ _) Hb), (proj2 (Z.ltb_ge _ _)) by lia.
  split; [done|]. cbn [unquote]. rewrite (proj2 (Z.ltb_lt (char_code c) 0x80)) by lia.
  cbn [string_of_bytes]. by rewrite code_char_code, Hu.
Qed.

Lemma json_roundtrip s : str_forallb plain s = true → json_string (json_Marshal s) = Some s.
Proof.
  intros (us & Hs & Hu)%scan_plain. unfold json_string, json_Marshal.
  change (quote +:+ json_body s) with (String (code_char 34) (json_body s)).
  change (str_drop_while json_ws (String (code_char 34) (json_body s))) with (String (code_char 34) (json_body s)).
  cbn match. change (char_code (code_char 34) =? 34) with true. cbn iota. by rewrite Hs; cbn; rewrite Hu.
Qed.

Lemma digit_plain c : is_digit_char c = true → plain c = true.
Proof. destruct c as [[] [] [] [] [] [] [] []]; vm_compute; congruence. Qed.

Lemma FormatUint_plain q : 0 ≤ q → str_forallb plain (FormatUint q) = true.
Proof.
  intros Hq. destruct (FormatUint_numeral q q) as (_ & Hd & _); [split; [done|by apply Z.pow_gt_lin_r]|].
  eapply str_forallb_impl; [|exact Hd]. apply digit_plain.
Qed.

(** The text of a number that has no unit: it is not the name of one. *)
Lemma Unit_String_undeclared n : ¬ 0 ≤ n ≤ 2 →
  str_forallb plain (Unit_String n) = true ∧ Unit_value (Unit_String n) = None.
Proof.
  intros Hn. unfold Unit_String. do 3 (rewrite (proj2 (Z.eqb_neq _ _)) by lia).
  destruct (Z.ltb_spec n 0) as [Hneg|Hpos].
  - cbn. by rewrite FormatUint_plain by lia.
  - rewrite FormatUint_plain by lia. split; [done|].
    destruct (FormatUint_numeral n n) as (_ & Hd & _); [split; [lia|by apply Z.pow_gt_lin_r; lia]|].
    destruct (FormatUint n) as [|c s]; [done|]. cbn in Hd. apply andb_true_iff in Hd as [Hc _].
    assert (Ascii.eqb c "U" = false) as HU by (destruct (Ascii.eqb_spec c "U") as [->|]; done).
    unfold Unit_value. cbn [String.eqb]. by rewrite HU.
Qed.

(** A unit is read back from what is written for it exactly when it is one of the three declared
    ones. UnmarshalJSON takes any int32 written as a number, but MarshalJSON writes an undeclared
    one as a string of digits, which UnmarshalJSON then refuses. *)
Theorem unit_json_roundtrip n :
  Unit_UnmarshalJSON (Unit_MarshalJSON n) = if between 0 2 n then Some n else None.
Proof.
  unfold Unit_UnmarshalJSON, Unit_MarshalJSON, between.
  destruct (decide (0 ≤ n ≤ 2)) as [Hn|Hn].
  - assert (n = 0 ∨ n = 1 ∨ n = 2) as [-> | [-> | ->]] by lia; vm_compute; reflexivity.
  - destruct (Unit_String_undeclared n Hn) as [Hp Hv]. rewrite json_roundtrip by done. rewrite Hv.
    destruct (Z.leb_spec 0 n), (Z.leb_spec n 2); try done. lia.
Qed.

Theorem unit_json_declared (u : Unit) :
  Unit_UnmarshalJSON (Unit_MarshalJSON (Unit_number u)) ≫= Unit_of = Some u.
Proof. rewrite unit_json_roundtrip. by destruct u. Qed.

(** Text that is not one of the quoted names and not an integer is refused, null included. *)
Example unit_json_readings :
  Unit_UnmarshalJSON " 2 " = Some 2 ∧ Unit_UnmarshalJSON "-7" = Some (-7) ∧
  Unit_UnmarshalJSON (json_Marshal "UNIT_PER_DAY" +:+ " ") = Some 2 ∧
  Unit_UnmarshalJSON "null" = None ∧ Unit_UnmarshalJSON "02" = None ∧ Unit_UnmarshalJSON "1.0" = None ∧
  Unit_UnmarshalJSON "2147483648" = None ∧ Unit_UnmarshalJSON "UNIT_PER_DAY" = None ∧
  Unit_UnmarshalJSON (json_Marshal "unit_per_day") = None ∧ Unit_UnmarshalJSON "" = None.
Proof. by vm_compute. Qed.
