(* ===== verification/BillingTypes.v ===== *)
(** * Types of the billing module (src/x/billing/types: errors.go, keys.go, params.go, types.proto)

    Records keep the fields of the generated Go structs; the setters are the assignments the
    handlers make to a lease. *)

From stdpp Require Import base tactics option list strings gmap.
From Stdlib Require Import ZArith Lia Ascii.
From S2P Require Import Prelude Sdk SdkRef Uuid GoStd SkuTypes.
Open Scope Z_scope.

(** ** Errors and constants *)

Definition ModuleName : string := "billing".
Definition ErrInvalidParams : error := Registered ModuleName 1.
Definition ErrLeaseNotFound : error := Registered ModuleName 2.
Definition ErrLeaseNotActive : error := Registered ModuleName 3.
Definition ErrInsufficientCredit : error := Registered ModuleName 4.
Definition ErrMaxLeasesReached : error := Registered ModuleName 5.
Definition ErrUnauthorized : error := Registered ModuleName 6.
Definition ErrCreditAccountNotFound : error := Registered ModuleName 8.
Definition ErrInvalidLease : error := Registered ModuleName 9.
Definition ErrSKUNotFound : error := Registered ModuleName 10.
Definition ErrSKUNotActive : error := Registered ModuleName 11.
Definition ErrProviderNotFound : error := Registered ModuleName 12.
Definition ErrProviderNotActive : error := Registered ModuleName 13.
Definition ErrMixedProviders : error := Registered ModuleName 14.
Definition ErrNoWithdrawableAmount : error := Registered ModuleName 15.
Definition ErrEmptyLeaseItems : error := Registered ModuleName 16.
Definition ErrInvalidQuantity : error := Registered ModuleName 17.
Definition ErrDuplicateSKU : error := Registered ModuleName 18.
Definition ErrInvalidCreditOperation : error := Registered ModuleName 19.
Definition ErrTooManyLeaseItems : error := Registered ModuleName 21.
Definition ErrLeaseNotPending : error := Registered ModuleName 22.
Definition ErrMaxPendingLeasesReached : error := Registered ModuleName 23.
Definition ErrInvalidRejectionReason : error := Registered ModuleName 24.
Definition ErrInvalidRequest : error := Registered ModuleName 25.
Definition ErrInvalidClosureReason : error := Registered ModuleName 26.
Definition ErrInvalidMetaHash : error := Registered ModuleName 27.
Definition ErrInvalidServiceName : error := Registered ModuleName 28.
Definition ErrInvalidCustomDomain : error := Registered ModuleName 29.
Definition ErrCustomDomainAlreadyClaimed : error := Registered ModuleName 30.
Definition ErrLeaseNotEditable : error := Registered ModuleName 31.
Definition ErrLeaseItemNotFound : error := Registered ModuleName 32.
Definition ErrAmbiguousLeaseItem : error := Registered ModuleName 33.

Definition MaxItemsPerLeaseHardLimit : Z := 100.
Definition MaxQuantityPerItem : Z := 1000000000.
Definition MaxRejectionReasonLength : Z := 256.
Definition MaxClosureReasonLength : Z := 256.
Definition MaxMetaHashLength : Z := 64.
Definition MaxServiceNameLength : Z := 63.
Definition MaxCustomDomainLength : Z := 253.
Definition MaxBatchLeaseSize : Z := 100.
Definition DefaultProviderWithdrawLimit : Z := 50.
Definition MaxPendingLeaseExpirationsPerBlock : Z := 100.
Definition CreditAccountAddressPrefix : string := "billing/credit/".
Definition RejectionReasonCancelledByTenant : string := "cancelled by tenant".
Definition ClosureReasonCreditExhausted : string := "credit exhausted".
Definition AttributeValueRoleTenant : string := "tenant".
Definition AttributeValueRoleAuthority : string := "authority".
Definition AttributeValueRoleAllowed : string := "allowed".

Definition MinPendingTimeout : Z := 60.
Definition MaxPendingTimeout : Z := 86400.
Definition MaxLeasesPerTenantUpperBound : Z := 10000.
Definition MaxPendingLeasesPerTenantUpperBound : Z := 1000.
Definition MaxMinLeaseDuration : Z := 30 * 24 * 3600.

(** ** Leases *)

Inductive LeaseState : Type :=
  | LEASE_STATE_UNSPECIFIED | LEASE_STATE_PENDING | LEASE_STATE_ACTIVE
  | LEASE_STATE_CLOSED | LEASE_STATE_REJECTED | LEASE_STATE_EXPIRED.

#[global] Instance LeaseState_eq_dec : EqDecision LeaseState.
Proof. solve_decision. Defined.

(** [lease.State == s]. *)
Definition state_is (s t : LeaseState) : bool := bool_decide (s = t).

Record LeaseItem : Type := mkLeaseItem {
  item_SkuUuid : string; Quantity : Z; LockedPrice : Coin;
  item_ServiceName : string; CustomDomain : string }.

Definition set_CustomDomain (d : string) (i : LeaseItem) : LeaseItem :=
  mkLeaseItem (item_SkuUuid i) (Quantity i) (LockedPrice i) (item_ServiceName i) d.

Record Lease : Type := mkLease {
  Uuid : string;
  Tenant : string;
  ProviderUuid : string;
  Items : list LeaseItem;
  State : LeaseState;
  CreatedAt : Z;
  ClosedAt : option Z;
  LastSettledAt : Z;
  AcknowledgedAt : option Z;
  RejectedAt : option Z;
  RejectionReason : string;
  ExpiredAt : option Z;
  ClosureReason : string;
  MetaHash : string;
  MinLeaseDurationAtCreation : Z }.

Definition set_Items (x : list LeaseItem) (l : Lease) : Lease :=
  mkLease (Uuid l) (Tenant l) (ProviderUuid l) x (State l) (CreatedAt l) (ClosedAt l)
    (LastSettledAt l) (AcknowledgedAt l) (RejectedAt l) (RejectionReason l) (ExpiredAt l)
    (ClosureReason l) (MetaHash l) (MinLeaseDurationAtCreation l).
Definition set_State (x : LeaseState) (l : Lease) : Lease :=
  mkLease (Uuid l) (Tenant l) (ProviderUuid l) (Items l) x (CreatedAt l) (ClosedAt l)
    (LastSettledAt l) (AcknowledgedAt l) (RejectedAt l) (RejectionReason l) (ExpiredAt l)
    (ClosureReason l) (MetaHash l) (MinLeaseDurationAtCreation l).
Definition set_ClosedAt (x : option Z) (l : Lease) : Lease :=
  mkLease (Uuid l) (Tenant l) (ProviderUuid l) (Items l) (State l) (CreatedAt l) x
    (LastSettledAt l) (AcknowledgedAt l) (RejectedAt l) (RejectionReason l) (ExpiredAt l)
    (ClosureReason l) (MetaHash l) (MinLeaseDurationAtCreation l).
Definition set_LastSettledAt (x : Z) (l : Lease) : Lease :=
  mkLease (Uuid l) (Tenant l) (ProviderUuid l) (Items l) (State l) (CreatedAt l) (ClosedAt l)
    x (AcknowledgedAt l) (RejectedAt l) (RejectionReason l) (ExpiredAt l)
    (ClosureReason l) (MetaHash l) (MinLeaseDurationAtCreation l).
Definition set_AcknowledgedAt (x : option Z) (l : Lease) : Lease :=
  mkLease (Uuid l) (Tenant l) (ProviderUuid l) (Items l) (State l) (CreatedAt l) (ClosedAt l)
    (LastSettledAt l) x (RejectedAt l) (RejectionReason l) (ExpiredAt l)
    (ClosureReason l) (MetaHash l) (MinLeaseDurationAtCreation l).
Definition set_RejectedAt (x : option Z) (l : Lease) : Lease :=
  mkLease (Uuid l) (Tenant l) (ProviderUuid l) (Items l) (State l) (CreatedAt l) (ClosedAt l)
    (LastSettledAt l) (AcknowledgedAt l) x (RejectionReason l) (ExpiredAt l)
    (ClosureReason l) (MetaHash l) (MinLeaseDurationAtCreation l).
Definition set_RejectionReason (x : string) (l : Lease) : Lease :=
  mkLease (Uuid l) (Tenant l) (ProviderUuid l) (Items l) (State l) (CreatedAt l) (ClosedAt l)
    (LastSettledAt l) (AcknowledgedAt l) (RejectedAt l) x (ExpiredAt l)
    (ClosureReason l) (MetaHash l) (MinLeaseDurationAtCreation l).
Definition set_ExpiredAt (x : option Z) (l : Lease) : Lease :=
  mkLease (Uuid l) (Tenant l) (ProviderUuid l) (Items l) (State l) (CreatedAt l) (ClosedAt l)
    (LastSettledAt l) (AcknowledgedAt l) (RejectedAt l) (RejectionReason l) x
    (ClosureReason l) (MetaHash l) (MinLeaseDurationAtCreation l).
Definition set_ClosureReason (x : string) (l : Lease) : Lease :=
  mkLease (Uuid l) (Tenant l) (ProviderUuid l) (Items l) (State l) (CreatedAt l) (ClosedAt l)
    (LastSettledAt l) (AcknowledgedAt l) (RejectedAt l) (RejectionReason l) (ExpiredAt l)
    x (MetaHash l) (MinLeaseDurationAtCreation l).

(** PENDING or ACTIVE: the lease holds a reservation and may hold custom domains. *)
Definition live (s : LeaseState) : bool :=
  state_is s LEASE_STATE_PENDING || state_is s LEASE_STATE_ACTIVE.

Record CreditAccount : Type := mkCreditAccount {
  ca_Tenant : string;
  ca_CreditAddress : string;
  ActiveLeaseCount : Z;
  PendingLeaseCount : Z;
  ReservedAmounts : list Coin }.

Definition set_ActiveLeaseCount (x : Z) (ca : CreditAccount) : CreditAccount :=
  mkCreditAccount (ca_Tenant ca) (ca_CreditAddress ca) x (PendingLeaseCount ca) (ReservedAmounts ca).
Definition set_PendingLeaseCount (x : Z) (ca : CreditAccount) : CreditAccount :=
  mkCreditAccount (ca_Tenant ca) (ca_CreditAddress ca) (ActiveLeaseCount ca) x (ReservedAmounts ca).
Definition set_ReservedAmounts (x : list Coin) (ca : CreditAccount) : CreditAccount :=
  mkCreditAccount (ca_Tenant ca) (ca_CreditAddress ca) (ActiveLeaseCount ca) (PendingLeaseCount ca) x.

Record CustomDomainTarget : Type := mkTarget { tgt_LeaseUuid : string; tgt_ServiceName : string }.

#[global] Instance CustomDomainTarget_eq_dec : EqDecision CustomDomainTarget.
Proof. solve_decision. Defined.

Record LeaseItemInput : Type := mkItemInput {
  in_SkuUuid : string; in_Quantity : Z; in_ServiceName : string }.

Record Params : Type := mkParams {
  MaxLeasesPerTenant : Z;
  AllowedList : list string;
  MaxItemsPerLease : Z;
  MinLeaseDuration : Z;
  MaxPendingLeasesPerTenant : Z;
  PendingTimeout : Z;
  ReservedDomainSuffixes : list string }.

Definition DefaultParams : Params := {|
  MaxLeasesPerTenant := 100; AllowedList := []; MaxItemsPerLease := 20; MinLeaseDuration := 3600;
  MaxPendingLeasesPerTenant := 10; PendingTimeout := 1800; ReservedDomainSuffixes := [] |}.

Definition Params_IsAllowed (p : Params) (addr : string) : bool := bool_decide (addr ∈ AllowedList p).

(** ** Messages *)

Record MsgFundCredit : Type := mkMsgFundCredit { fc_Sender : string; fc_Tenant : string; fc_Amount : Coin }.
Record MsgCreateLease : Type := mkMsgCreateLease {
  cl_Tenant : string; cl_Items : list LeaseItemInput; cl_MetaHash : string }.
Record MsgCreateLeaseForTenant : Type := mkMsgCreateLeaseForTenant {
  ct_Authority : string; ct_Tenant : string; ct_Items : list LeaseItemInput; ct_MetaHash : string }.
Record MsgCloseLease : Type := mkMsgCloseLease {
  xl_Sender : string; xl_LeaseUuids : list string; xl_Reason : string }.
Record MsgWithdraw : Type := mkMsgWithdraw {
  wd_Sender : string; wd_LeaseUuids : list string; wd_ProviderUuid : string; wd_Limit : Z }.
Record MsgUpdateParams : Type := mkMsgUpdateParams { bp_Authority : string; bp_Params : Params }.
Record MsgAcknowledgeLease : Type := mkMsgAcknowledgeLease { al_Sender : string; al_LeaseUuids : list string }.
Record MsgRejectLease : Type := mkMsgRejectLease {
  rl_Sender : string; rl_LeaseUuids : list string; rl_Reason : string }.
Record MsgCancelLease : Type := mkMsgCancelLease { kl_Tenant : string; kl_LeaseUuids : list string }.
Record MsgSetItemCustomDomain : Type := mkMsgSetItemCustomDomain {
  cd_Sender : string; cd_LeaseUuid : string; cd_ServiceName : string; cd_CustomDomain : string }.
