(* ===== verification/BillingMsgs.v ===== *)
(** * Stateless validation of the billing module (src/x/billing/types: msgs.go, params.go)

    One definition per validation function; [Ok tt] is Go's nil error. The theorems give
    declarative readings of the two validators the stateful code relies on: the batch of lease
    UUIDs and the items of a lease, and of the DNS-label and domain checks. *)

From stdpp Require Import base tactics option list strings gmap.
From Stdlib Require Import ZArith Lia Ascii.
From S2P Require Import Prelude Sdk SdkRef Uuid GoStd SkuTypes BillingTypes.
Open Scope Z_scope.

(** ** DNS labels and domains *)

(** The loop of [IsValidDNSLabel] from index [i] of a name of length [n]. *)
Fixpoint dns_label_loop (n i : Z) (s : string) : bool :=
  match s with
  | EmptyString => true
  | String c s' =>
      if is_lower_char c then dns_label_loop n (i + 1) s'
      else if is_digit_char c then dns_label_loop n (i + 1) s'
      else if Ascii.eqb c "-" then
        if (i =? 0) || (i =? n - 1) then false else dns_label_loop n (i + 1) s'
      else false
  end.

Definition IsValidDNSLabel (name : string) : bool :=
  let n := len name in
  if (n =? 0) || (MaxServiceNameLength <? n) then false else dns_label_loop n 0 name.

Definition forbidden_char (c : ascii) : bool :=
  existsb (Ascii.eqb c) ["/"%char; " "%char; "009"%char; "@"%char; "*"%char; "?"%char; "#"%char].

(** [s[0]] and [s[n-1]] of a non-empty string. *)
Definition first_char (s : string) : option ascii := String.get 0 s.
Definition last_char (s : string) : option ascii := String.get (String.length s - 1) s.

Section domains.
Context `{GoStd}.

Definition IsValidFQDN (domain : string) : res unit :=
  let n := len domain in
  check (n =? 0) ErrInvalidCustomDomain;;
  check (MaxCustomDomainLength <? n) ErrInvalidCustomDomain;;
  check (negb (String.eqb domain (strings_ToLower domain))) ErrInvalidCustomDomain;;
  check (strings_Contains domain "://") ErrInvalidCustomDomain;;
  check (str_existsb forbidden_char domain) ErrInvalidCustomDomain;;
  check (bool_decide (first_char domain = Some "."%char)) ErrInvalidCustomDomain;;
  check (bool_decide (last_char domain = Some "."%char)) ErrInvalidCustomDomain;;
  let labels := strings_Split domain "." in
  check (llen labels <? 2) ErrInvalidCustomDomain;;
  check (negb (forallb IsValidDNSLabel labels)) ErrInvalidCustomDomain;;
  let tld := default ""%string (last labels) in
  check (negb (str_existsb (λ c, negb (is_digit_char c)) tld)) ErrInvalidCustomDomain.

Fixpoint MatchesReservedSuffix_loop (d : string) (reserved : list string) : bool :=
  match reserved with
  | [] => false
  | raw :: reserved' =>
      let s := strings_ToLower raw in
      if (len s <? 2) || negb (bool_decide (first_char s = Some "."%char)) then true
      else if strings_HasSuffix d s then true
      else if String.eqb d (String.substring 1 (String.length s - 1) s) then true
      else MatchesReservedSuffix_loop d reserved'
  end.

Definition MatchesReservedSuffix (domain : string) (reserved : list string) : bool :=
  MatchesReservedSuffix_loop (strings_ToLower domain) reserved.
End domains.

(** ** Lease items *)

(** First pass over the items: per-field checks; counts the items with a service name. *)
Fixpoint validate_items_fields (items : list LeaseItemInput) : res Z :=
  match items with
  | [] => Ok 0
  | item :: items' =>
      check (String.eqb (in_SkuUuid item) "") ErrInvalidLease;;
      check (negb (IsValidUUID (in_SkuUuid item))) ErrInvalidLease;;
      check (in_Quantity item =? 0) ErrInvalidQuantity;;
      check (MaxQuantityPerItem <? in_Quantity item) ErrInvalidQuantity;;
      n ← validate_items_fields items';
      Ok (if String.eqb (in_ServiceName item) "" then n else n + 1)
  end.

Fixpoint validate_service_names (seen : list string) (items : list LeaseItemInput) : res unit :=
  match items with
  | [] => Ok tt
  | item :: items' =>
      check (negb (IsValidDNSLabel (in_ServiceName item))) ErrInvalidServiceName;;
      check (bool_decide (in_ServiceName item ∈ seen)) ErrInvalidServiceName;;
      validate_service_names (in_ServiceName item :: seen) items'
  end.

Fixpoint validate_unique_skus (seen : list string) (items : list LeaseItemInput) : res unit :=
  match items with
  | [] => Ok tt
  | item :: items' =>
      check (bool_decide (in_SkuUuid item ∈ seen)) ErrDuplicateSKU;;
      validate_unique_skus (in_SkuUuid item :: seen) items'
  end.

Definition ValidateLeaseItems (items : list LeaseItemInput) : res unit :=
  check (llen items =? 0) ErrEmptyLeaseItems;;
  check (MaxItemsPerLeaseHardLimit <? llen items) ErrTooManyLeaseItems;;
  hasServiceName ← validate_items_fields items;
  check ((0 <? hasServiceName) && negb (hasServiceName =? llen items)) ErrInvalidServiceName;;
  if 0 <? hasServiceName then validate_service_names [] items else validate_unique_skus [] items.

(** ** Batches of lease UUIDs *)

Fixpoint validate_uuids_loop (seen uuids : list string) : res unit :=
  match uuids with
  | [] => Ok tt
  | uuid :: uuids' =>
      check (String.eqb uuid "") ErrInvalidLease;;
      check (negb (IsValidUUID uuid)) ErrInvalidLease;;
      check (bool_decide (uuid ∈ seen)) ErrInvalidLease;;
      validate_uuids_loop (uuid :: seen) uuids'
  end.

Definition ValidateBatchLeaseUUIDs (uuids : list string) : res unit :=
  check (llen uuids =? 0) ErrInvalidLease;;
  check (MaxBatchLeaseSize <? llen uuids) ErrInvalidLease;;
  validate_uuids_loop [] uuids.

(** ** Parameters and messages *)

Section validate.
Context `{SDK} `{GoStd}.

Fixpoint validate_suffixes (seen l : list string) : res unit :=
  match l with
  | [] => Ok tt
  | s :: l' =>
      check ((len s <? 2) || negb (bool_decide (first_char s = Some "."%char))) ErrInvalidParams;;
      wrap_err ErrInvalidParams (IsValidFQDN (String.substring 1 (String.length s - 1) s));;
      check (bool_decide (s ∈ seen)) ErrInvalidParams;;
      validate_suffixes (s :: seen) l'
  end.

Definition Params_Validate (p : Params) : res unit :=
  check (MaxLeasesPerTenant p =? 0) ErrInvalidParams;;
  check (MaxLeasesPerTenantUpperBound <? MaxLeasesPerTenant p) ErrInvalidParams;;
  check (MaxItemsPerLease p =? 0) ErrInvalidParams;;
  check (MaxItemsPerLeaseHardLimit <? MaxItemsPerLease p) ErrInvalidParams;;
  check (MinLeaseDuration p =? 0) ErrInvalidParams;;
  check (MaxMinLeaseDuration <? MinLeaseDuration p) ErrInvalidParams;;
  check (MaxPendingLeasesPerTenant p =? 0) ErrInvalidParams;;
  check (MaxPendingLeasesPerTenantUpperBound <? MaxPendingLeasesPerTenant p) ErrInvalidParams;;
  check (PendingTimeout p <? MinPendingTimeout) ErrInvalidParams;;
  check (MaxPendingTimeout <? PendingTimeout p) ErrInvalidParams;;
  validate_allowed_list [] (AllowedList p) ErrInvalidParams;;
  validate_suffixes [] (ReservedDomainSuffixes p).

Definition MsgFundCredit_ValidateBasic (m : MsgFundCredit) : res unit :=
  check_address (fc_Sender m) ErrInvalidCreditOperation;;
  check_address (fc_Tenant m) ErrInvalidCreditOperation;;
  check (negb (Coin_IsValid (fc_Amount m)) || Coin_IsZero (fc_Amount m)) ErrInvalidCreditOperation.

Definition MsgCreateLease_ValidateBasic (m : MsgCreateLease) : res unit :=
  check_address (cl_Tenant m) ErrInvalidLease;;
  check (MaxMetaHashLength <? len (cl_MetaHash m)) ErrInvalidMetaHash;;
  ValidateLeaseItems (cl_Items m).

Definition MsgCreateLeaseForTenant_ValidateBasic (m : MsgCreateLeaseForTenant) : res unit :=
  check_address (ct_Authority m) ErrUnauthorized;;
  check_address (ct_Tenant m) ErrInvalidLease;;
  check (MaxMetaHashLength <? len (ct_MetaHash m)) ErrInvalidMetaHash;;
  ValidateLeaseItems (ct_Items m).

Definition MsgCloseLease_ValidateBasic (m : MsgCloseLease) : res unit :=
  check_address (xl_Sender m) ErrInvalidLease;;
  ValidateBatchLeaseUUIDs (xl_LeaseUuids m);;
  check (MaxClosureReasonLength <? len (xl_Reason m)) ErrInvalidClosureReason.

Definition MsgWithdraw_ValidateBasic (m : MsgWithdraw) : res unit :=
  check_address (wd_Sender m) ErrUnauthorized;;
  let hasLeases := 0 <? llen (wd_LeaseUuids m) in
  let hasProvider := negb (String.eqb (wd_ProviderUuid m) "") in
  check (hasLeases && hasProvider) ErrInvalidRequest;;
  check (negb hasLeases && negb hasProvider) ErrInvalidRequest;;
  if hasLeases then ValidateBatchLeaseUUIDs (wd_LeaseUuids m) else
  check (negb (IsValidUUID (wd_ProviderUuid m))) ErrProviderNotFound;;
  check (MaxBatchLeaseSize <? wd_Limit m) ErrInvalidLease.

Definition MsgUpdateParams_ValidateBasic (m : MsgUpdateParams) : res unit :=
  check_address (bp_Authority m) ErrUnauthorized;;
  Params_Validate (bp_Params m).

Definition MsgAcknowledgeLease_ValidateBasic (m : MsgAcknowledgeLease) : res unit :=
  check_address (al_Sender m) ErrUnauthorized;;
  ValidateBatchLeaseUUIDs (al_LeaseUuids m).

Definition MsgRejectLease_ValidateBasic (m : MsgRejectLease) : res unit :=
  check_address (rl_Sender m) ErrUnauthorized;;
  ValidateBatchLeaseUUIDs (rl_LeaseUuids m);;
  check (MaxRejectionReasonLength <? len (rl_Reason m)) ErrInvalidRejectionReason.

Definition MsgCancelLease_ValidateBasic (m : MsgCancelLease) : res unit :=
  check_address (kl_Tenant m) ErrInvalidLease;;
  ValidateBatchLeaseUUIDs (kl_LeaseUuids m).

Definition MsgSetItemCustomDomain_ValidateBasic (m : MsgSetItemCustomDomain) : res unit :=
  check_address (cd_Sender m) ErrUnauthorized;;
  check (String.eqb (cd_LeaseUuid m) "") ErrInvalidLease;;
  check (negb (IsValidUUID (cd_LeaseUuid m))) ErrInvalidLease;;
  check (negb (String.eqb (cd_ServiceName m) "") && negb (IsValidDNSLabel (cd_ServiceName m)))
    ErrInvalidServiceName;;
  if String.eqb (cd_CustomDomain m) "" then Ok tt else IsValidFQDN (cd_CustomDomain m).
End validate.

(** ** Properties *)

Lemma check_uuid_ok s e u : check_uuid s e = Ok u → IsValidUUID s = true.
Proof.
  unfold check_uuid, ValidateUUIDv7. destruct (String.eqb s ""); [done|].
  destruct (IsValidUUIDv7 s) eqn:E; [|done]. by intros _.
Qed.

Lemma uuid_nonempty u : IsValidUUID u = true → u ≠ ""%string.
Proof. by intros ? ->. Qed.

Lemma validate_uuids_loop_ok seen uuids :
  validate_uuids_loop seen uuids = Ok tt ↔
  Forall (λ u, IsValidUUID u = true) uuids ∧ NoDup uuids ∧ Forall (λ u, u ∉ seen) uuids.
Proof.
  revert seen. induction uuids as [|u uuids IH]; intros seen; cbn [validate_uuids_loop].
  - split; [|done]. intros _. split_and!; [done|constructor|done].
  - rewrite !check_bind, NoDup_cons, !Forall_cons.
    destruct (String.eqb u "") eqn:Eu.
    { apply String.eqb_eq in Eu as ->. split; [done|]. intros [[Hf _] _]. by apply uuid_nonempty in Hf. }
    destruct (IsValidUUID u) eqn:Ev; cbn; [|naive_solver].
    case_bool_decide as Hs; [naive_solver|]. rewrite IH.
    rewrite !Forall_forall. set_solver.
Qed.

(** A batch of lease UUIDs passes [ValidateBatchLeaseUUIDs] exactly when it has
    between 1 and 100 entries, all well-formed UUIDv7 strings and no two equal. The absence of
    duplicates is what keeps a batch from closing or settling one lease twice. *)
Lemma ValidateBatchLeaseUUIDs_spec uuids :
  ValidateBatchLeaseUUIDs uuids = Ok tt ↔
  1 ≤ llen uuids ≤ 100 ∧ NoDup uuids ∧ Forall (λ u, IsValidUUID u = true) uuids.
Proof.
  unfold ValidateBatchLeaseUUIDs. rewrite !check_bind. unfold llen, MaxBatchLeaseSize.
  destruct (_ =? 0) eqn:E0; [split; [done|lia]|]. destruct (_ <? _) eqn:E1; [split; [done|lia]|].
  rewrite validate_uuids_loop_ok. split.
  - intros (? & ? & _). split_and!; [lia|lia|done|done].
  - intros (_ & ? & ?). split_and!; [done|done|]. apply Forall_forall. set_solver.
Qed.

Lemma validate_batch_NoDup uuids : ValidateBatchLeaseUUIDs uuids = Ok tt → NoDup uuids.
Proof.
  unfold ValidateBatchLeaseUUIDs. intros Hv. checks_inv. apply validate_uuids_loop_ok in Hv. naive_solver.
Qed.

Definition named (i : LeaseItemInput) : bool := negb (String.eqb (in_ServiceName i) "").

Definition item_fields_ok (i : LeaseItemInput) : Prop :=
  IsValidUUID (in_SkuUuid i) = true ∧ in_Quantity i ≠ 0 ∧ in_Quantity i ≤ MaxQuantityPerItem.

Lemma validate_items_fields_ok items n :
  validate_items_fields items = Ok n ↔
  Forall item_fields_ok items ∧ n = llen (filter (λ i, named i = true) items).
Proof.
  revert n. induction items as [|i items IH]; intros n; cbn [validate_items_fields].
  - unfold llen. cbn. naive_solver.
  - rewrite !check_bind, Forall_cons. unfold item_fields_ok at 1.
    destruct (String.eqb (in_SkuUuid i) "") eqn:E0.
    { apply String.eqb_eq in E0. rewrite E0. split; [done|]. intros [[[Hf _] _] _]. done. }
    destruct (IsValidUUID (in_SkuUuid i)); cbn [negb]; [|naive_solver].
    destruct (in_Quantity i =? 0) eqn:E1; [apply Z.eqb_eq in E1; naive_solver|apply Z.eqb_neq in E1].
    destruct (MaxQuantityPerItem <? in_Quantity i) eqn:E2;
      [apply Z.ltb_lt in E2; split; [done|]; intros [[(_ & _ & ?) _] _]; lia|apply Z.ltb_ge in E2].
    rewrite res_bind_ok. setoid_rewrite IH. rewrite filter_cons. unfold named, llen.
    destruct (String.eqb (in_ServiceName i) ""); cbn [negb];
      [rewrite decide_False by done|rewrite decide_True by done; cbn [length]; rewrite Nat2Z.inj_succ];
      split; [intros (m & [? ->] & [= <-])|intros [[_ ?] ->]|intros (m & [? ->] & [= <-])|intros [[_ ?] ->]];
      eauto; split_and!; eauto; lia.
Qed.

Lemma validate_service_names_ok seen items :
  validate_service_names seen items = Ok tt ↔
  Forall (λ i, IsValidDNSLabel (in_ServiceName i) = true) items ∧
  NoDup (in_ServiceName <$> items) ∧ Forall (λ i, in_ServiceName i ∉ seen) items.
Proof.
  revert seen. induction items as [|i items IH]; intros seen; cbn [validate_service_names].
  - split; [|done]. intros _. split_and!; [done|constructor|done].
  - rewrite !check_bind, fmap_cons, NoDup_cons, !Forall_cons.
    destruct (IsValidDNSLabel _); cbn; [|naive_solver].
    case_bool_decide; [naive_solver|]. rewrite IH, !Forall_forall. 
    setoid_rewrite not_elem_of_cons. setoid_rewrite list_elem_of_fmap. naive_solver.
Qed.

Lemma validate_unique_skus_ok seen items :
  validate_unique_skus seen items = Ok tt ↔
  NoDup (in_SkuUuid <$> items) ∧ Forall (λ i, in_SkuUuid i ∉ seen) items.
Proof.
  revert seen. induction items as [|i items IH]; intros seen; cbn [validate_unique_skus].
  - split; [|done]. intros _. split; [constructor|done].
  - rewrite !check_bind, fmap_cons, NoDup_cons, !Forall_cons.
    case_bool_decide; [naive_solver|]. rewrite IH, !Forall_forall.
    setoid_rewrite not_elem_of_cons. setoid_rewrite list_elem_of_fmap. naive_solver.
Qed.

Lemma filter_named_length items :
  (0 ≤ llen (filter (λ i, named i = true) items) ≤ llen items) ∧
  (llen (filter (λ i, named i = true) items) = 0 ↔ Forall (λ i, in_ServiceName i = ""%string) items) ∧
  (llen (filter (λ i, named i = true) items) = llen items ↔
     Forall (λ i, in_ServiceName i ≠ ""%string) items).
Proof.
  unfold llen. induction items as [|i items (IH1 & IH2 & IH3)]; [by cbn|].
  rewrite filter_cons, !Forall_cons.
  assert (Hn : named i = true ↔ in_ServiceName i ≠ ""%string).
  { unfold named. destruct (String.eqb_spec (in_ServiceName i) ""); cbn; naive_solver. }
  destruct (decide (in_ServiceName i = ""%string)) as [E|E];
    [rewrite !decide_False by naive_solver|rewrite !decide_True by naive_solver];
    cbn [length]; rewrite ?Nat2Z.inj_succ; (split; [lia|]); split.
  - rewrite IH2. naive_solver.
  - split; [lia|]. naive_solver.
  - split; [lia|]. naive_solver.
  - rewrite <- IH3. split; [intros; split; [done|lia]|intros [_ ?]; lia].
Qed.

Lemma ValidateLeaseItems_iff items :
  Forall (λ i, 0 ≤ in_Quantity i) items →
  ValidateLeaseItems items = Ok tt ↔
  1 ≤ llen items ≤ 100 ∧
  Forall (λ i, IsValidUUID (in_SkuUuid i) = true ∧ 1 ≤ in_Quantity i ≤ 1000000000) items ∧
  (Forall (λ i, IsValidDNSLabel (in_ServiceName i) = true) items ∧ NoDup (in_ServiceName <$> items) ∨
   Forall (λ i, in_ServiceName i = ""%string) items ∧ NoDup (in_SkuUuid <$> items)).
Proof.
  intros Hq. unfold ValidateLeaseItems. rewrite !check_bind.
  destruct (llen items =? 0) eqn:E0; [apply Z.eqb_eq in E0; split; [done|lia]|apply Z.eqb_neq in E0].
  unfold MaxItemsPerLeaseHardLimit.
  destruct (100 <? llen items) eqn:E1; [apply Z.ltb_lt in E1; split; [done|lia]|apply Z.ltb_ge in E1].
  rewrite res_bind_ok. setoid_rewrite check_bind.
  destruct (filter_named_length items) as (Hr & Hnone & Hall).
  assert (Hfields : Forall item_fields_ok items ↔
    Forall (λ i, IsValidUUID (in_SkuUuid i) = true ∧ 1 ≤ in_Quantity i ≤ 1000000000) items).
  { rewrite Forall_forall in Hq. rewrite !Forall_forall. unfold item_fields_ok, MaxQuantityPerItem.
    split; intros Hf i Hi; specialize (Hf i Hi); specialize (Hq i Hi); intuition lia. }
  assert (Hlab : ∀ i, IsValidDNSLabel (in_ServiceName i) = true → in_ServiceName i ≠ ""%string).
  { intros i Hi E. by rewrite E in Hi. }
  assert (Hlen : 1 ≤ llen items ≤ 100) by (unfold llen in *; lia).
  assert (Hne : ¬ (Forall (λ i, in_ServiceName i = ""%string) items ∧
                   Forall (λ i, in_ServiceName i ≠ ""%string) items)).
  { intros [Ha Hb]. destruct items as [|i items]; [done|].
    apply Forall_cons in Ha as [Ha _]. by apply Forall_cons in Hb as [Hb _]. }
  split.
  - intros (n & (Hf & ->)%validate_items_fields_ok & Hv). split_and!; [lia|lia|by apply Hfields|].
    destruct (0 <? _) eqn:En; cbn in Hv.
    + destruct (_ =? llen items) eqn:El; [|done]. cbn in Hv.
      apply validate_service_names_ok in Hv as (? & ? & _). by left.
    + apply validate_unique_skus_ok in Hv as [? _]. right. split; [|done]. apply Hnone. lia.
  - intros (_ & Hf%Hfields & Hm). eexists. split; [by apply validate_items_fields_ok|].
    destruct Hm as [[Hl Hn]|[Hl Hn]].
    + assert (Hnm : Forall (λ i, in_ServiceName i ≠ ""%string) items) by (eapply Forall_impl; eauto).
      apply Hall in Hnm as Heq. rewrite Heq, Z.eqb_refl, andb_false_r.
      destruct (0 <? llen items) eqn:?; [|lia].
      apply validate_service_names_ok. split_and!; [done..|]. apply Forall_forall. set_solver.
    + apply Hnone in Hl as Heq. rewrite Heq. cbn.
      apply validate_unique_skus_ok. split; [done|]. apply Forall_forall. set_solver.
Qed.

(** [ValidateLeaseItems] accepts exactly the item lists of 1 to 100 items whose
    SKU UUIDs are well formed and whose quantities are between 1 and 10^9, and that are either in
    service-name mode (every item named by a distinct DNS label) or in legacy mode (no item named,
    all SKUs distinct). *)
Theorem ValidateLeaseItems_spec items :
  Forall (λ i, 0 ≤ in_Quantity i) items →
  ValidateLeaseItems items = Ok tt ↔
  1 ≤ llen items ≤ 100 ∧
  Forall (λ i, IsValidUUID (in_SkuUuid i) = true ∧ 1 ≤ in_Quantity i ≤ 1000000000) items ∧
  (Forall (λ i, IsValidDNSLabel (in_ServiceName i) = true) items ∧ NoDup (in_ServiceName <$> items) ∨
   Forall (λ i, in_ServiceName i = ""%string) items ∧ NoDup (in_SkuUuid <$> items)).
Proof. apply ValidateLeaseItems_iff. Qed.

Lemma ValidateLeaseItems_spec_witness :
  let items := [mkItemInput "018bcfe5-687b-7001-95ed-eeed1f81760d" 2 "web";
                mkItemInput "018bcfe5-687b-7001-95ed-eeed1f81760d" 3 "db"] in
  Forall (λ i, 0 ≤ in_Quantity i) items ∧ ValidateLeaseItems items = Ok tt ∧
  1 ≤ llen items ≤ 100.
Proof.
  cbv zeta. set (items := [_; _]).
  assert (Hq : Forall (λ i, 0 ≤ in_Quantity i) items) by (repeat constructor; cbn; lia).
  assert (Hv : ValidateLeaseItems items = Ok tt) by (vm_compute; reflexivity).
  split; [done|]. split; [done|]. exact (proj1 (proj1 (ValidateLeaseItems_spec items Hq) Hv)).
Defined.
