(* ===== verification/BillingCodec.v ===== *)
(** * Marshaling of the values the billing module stores (src/x/billing/types/types.pb.go)

    For each message: the statements of MarshalToSizedBuffer from the last field to the first, the
    sum of Size, the switch of Unmarshal and the message it starts from; and [X_wire], the bytes they
    agree on (the second part). *)

From stdpp Require Import base tactics option list strings.
From Stdlib Require Import ZArith Lia Ascii.
From S2P Require Import Prelude Sdk SkuTypes BillingTypes Wire WireProps Codec Gogo.
Open Scope Z_scope.

(** The number of a state; Go's [LeaseState] is any int32. *)
Definition LeaseState_value (s : LeaseState) : Z :=
  match s with
  | LEASE_STATE_UNSPECIFIED => 0 | LEASE_STATE_PENDING => 1 | LEASE_STATE_ACTIVE => 2
  | LEASE_STATE_CLOSED => 3 | LEASE_STATE_REJECTED => 4 | LEASE_STATE_EXPIRED => 5
  end.

Definition LeaseState_of (n : Z) : option LeaseState :=
  match n with
  | 0 => Some LEASE_STATE_UNSPECIFIED | 1 => Some LEASE_STATE_PENDING | 2 => Some LEASE_STATE_ACTIVE
  | 3 => Some LEASE_STATE_CLOSED | 4 => Some LEASE_STATE_REJECTED | 5 => Some LEASE_STATE_EXPIRED
  | _ => None
  end.

(** A lease as Go decodes it: the number of its state may be none of the declared ones, so it is
    kept beside the lease, whose own [State] is not used. *)
Definition GoLease : Type := Lease * Z.
Definition go_lease (l : Lease) : GoLease := (set_State LEASE_STATE_UNSPECIFIED l, LeaseState_value (State l)).
Definition lease_of_go (g : GoLease) : option Lease := s ← LeaseState_of g.2; Some (set_State s g.1).

(** ** Params *)

Definition Params_write (m : Params) : writer :=
  put_each (λ s, put_bytes 0x3a s) (ReservedDomainSuffixes m) ;;>
  if_nonzero (PendingTimeout m) (put_uint 0x30 (PendingTimeout m)) ;;>
  if_nonzero (MaxPendingLeasesPerTenant m) (put_uint 0x28 (MaxPendingLeasesPerTenant m)) ;;>
  if_nonzero (MinLeaseDuration m) (put_uint 0x20 (MinLeaseDuration m)) ;;>
  if_nonzero (MaxItemsPerLease m) (put_uint 0x18 (MaxItemsPerLease m)) ;;>
  put_each (λ s, put_bytes 0x12 s) (AllowedList m) ;;>
  if_nonzero (MaxLeasesPerTenant m) (put_uint 0x8 (MaxLeasesPerTenant m)).

Definition Params_Size (m : Params) : Z :=
  size_num (MaxLeasesPerTenant m) +
  size_each (λ s, size_len (len s)) (AllowedList m) +
  size_num (MaxItemsPerLease m) +
  size_num (MinLeaseDuration m) +
  size_num (MaxPendingLeasesPerTenant m) +
  size_num (PendingTimeout m) +
  size_each (λ s, size_len (len s)) (ReservedDomainSuffixes m).

Definition Params_Marshal (m : Params) : res bytes := marshal (Params_Size m) (Params_write m).

Definition Params_switch (fieldNum wireType : Z) (dAtA : bytes) (iNdEx : Z) (m : Params) : option (res (Params * Z)) :=
  let 'mkParams ml al mi md mp pt rs := m in
  match fieldNum with
  | 1 => Some ('(v, i) ← get_uint wireType dAtA iNdEx; Ok (mkParams v al mi md mp pt rs, i))
  | 2 => Some ('(s, i) ← get_string wireType dAtA iNdEx; Ok (mkParams ml (al ++ [s]) mi md mp pt rs, i))
  | 3 => Some ('(v, i) ← get_uint wireType dAtA iNdEx; Ok (mkParams ml al v md mp pt rs, i))
  | 4 => Some ('(v, i) ← get_uint wireType dAtA iNdEx; Ok (mkParams ml al mi v mp pt rs, i))
  | 5 => Some ('(v, i) ← get_uint wireType dAtA iNdEx; Ok (mkParams ml al mi md v pt rs, i))
  | 6 => Some ('(v, i) ← get_uint wireType dAtA iNdEx; Ok (mkParams ml al mi md mp v rs, i))
  | 7 => Some ('(s, i) ← get_string wireType dAtA iNdEx; Ok (mkParams ml al mi md mp pt (rs ++ [s]), i))
  | _ => None
  end.

Definition Params_zero : Params := mkParams 0 [] 0 0 0 0 [].
Definition Params_Unmarshal (dAtA : bytes) : res Params := unmarshal Params_switch dAtA Params_zero.

Definition Params_wire (m : Params) : bytes :=
  enc_uint 0x8 (MaxLeasesPerTenant m) ++
  enc_each (λ s, len_field 0x12 (to_bytes s)) (AllowedList m) ++
  enc_uint 0x18 (MaxItemsPerLease m) ++
  enc_uint 0x20 (MinLeaseDuration m) ++
  enc_uint 0x28 (MaxPendingLeasesPerTenant m) ++
  enc_uint 0x30 (PendingTimeout m) ++
  enc_each (λ s, len_field 0x3a (to_bytes s)) (ReservedDomainSuffixes m).

(** ** CustomDomainTarget *)

Definition Target_write (m : CustomDomainTarget) : writer :=
  if_nonempty (tgt_ServiceName m) (put_bytes 0x12 (tgt_ServiceName m)) ;;>
  if_nonempty (tgt_LeaseUuid m) (put_bytes 0xa (tgt_LeaseUuid m)).

Definition Target_Size (m : CustomDomainTarget) : Z :=
  size_str (tgt_LeaseUuid m) + size_str (tgt_ServiceName m).

Definition Target_Marshal (m : CustomDomainTarget) : res bytes := marshal (Target_Size m) (Target_write m).

Definition Target_switch (fieldNum wireType : Z) (dAtA : bytes) (iNdEx : Z) (m : CustomDomainTarget) :
    option (res (CustomDomainTarget * Z)) :=
  let 'mkTarget u s := m in
  match fieldNum with
  | 1 => Some ('(x, i) ← get_string wireType dAtA iNdEx; Ok (mkTarget x s, i))
  | 2 => Some ('(x, i) ← get_string wireType dAtA iNdEx; Ok (mkTarget u x, i))
  | _ => None
  end.

Definition Target_zero : CustomDomainTarget := mkTarget "" "".
Definition Target_Unmarshal (dAtA : bytes) : res CustomDomainTarget := unmarshal Target_switch dAtA Target_zero.

Definition Target_wire (m : CustomDomainTarget) : bytes :=
  enc_str 0xa (tgt_LeaseUuid m) ++ enc_str 0x12 (tgt_ServiceName m).

Section codec.
Context `{Gogo}.

(** ** LeaseItem *)

Definition LeaseItem_write (m : LeaseItem) : writer :=
  if_nonempty (CustomDomain m) (put_bytes 0x2a (CustomDomain m)) ;;>
  if_nonempty (item_ServiceName m) (put_bytes 0x22 (item_ServiceName m)) ;;>
  put_msg 0x1a (Coin_MarshalToSizedBuffer (LockedPrice m)) ;;>
  if_nonzero (Quantity m) (put_uint 0x10 (Quantity m)) ;;>
  if_nonempty (item_SkuUuid m) (put_bytes 0xa (item_SkuUuid m)).

Definition LeaseItem_Size (m : LeaseItem) : Z :=
  size_str (item_SkuUuid m) +
  size_num (Quantity m) +
  size_len (Coin_Size (LockedPrice m)) +
  size_str (item_ServiceName m) +
  size_str (CustomDomain m).

Definition LeaseItem_Marshal (m : LeaseItem) : res bytes := marshal (LeaseItem_Size m) (LeaseItem_write m).

Definition LeaseItem_switch (fieldNum wireType : Z) (dAtA : bytes) (iNdEx : Z) (m : LeaseItem) :
    option (res (LeaseItem * Z)) :=
  let 'mkLeaseItem u q p s c := m in
  match fieldNum with
  | 1 => Some ('(x, i) ← get_string wireType dAtA iNdEx; Ok (mkLeaseItem x q p s c, i))
  | 2 => Some ('(v, i) ← get_uint wireType dAtA iNdEx; Ok (mkLeaseItem u v p s c, i))
  | 3 => Some ('(x, i) ← get_msg (λ b, Coin_Unmarshal b p) wireType dAtA iNdEx; Ok (mkLeaseItem u q x s c, i))
  | 4 => Some ('(x, i) ← get_string wireType dAtA iNdEx; Ok (mkLeaseItem u q p x c, i))
  | 5 => Some ('(x, i) ← get_string wireType dAtA iNdEx; Ok (mkLeaseItem u q p s x, i))
  | _ => None
  end.

Definition LeaseItem_zero : LeaseItem := mkLeaseItem "" 0 no_coin "" "".
Definition LeaseItem_Unmarshal (dAtA : bytes) : res LeaseItem := unmarshal LeaseItem_switch dAtA LeaseItem_zero.

Definition LeaseItem_wire (m : LeaseItem) : bytes :=
  enc_str 0xa (item_SkuUuid m) ++
  enc_uint 0x10 (Quantity m) ++
  len_field 0x1a (coin_bytes (LockedPrice m)) ++
  enc_str 0x22 (item_ServiceName m) ++
  enc_str 0x2a (CustomDomain m).

(** ** Lease *)

Definition Lease_write (m : Lease) : writer :=
  if_nonzero (MinLeaseDurationAtCreation m) (put_uint 0x78 (MinLeaseDurationAtCreation m)) ;;>
  if_nonempty (MetaHash m) (put_bytes 0x72 (MetaHash m)) ;;>
  if_nonempty (ClosureReason m) (put_bytes 0x6a (ClosureReason m)) ;;>
  if_some (ExpiredAt m) (put_time 0x62) ;;>
  if_nonempty (RejectionReason m) (put_bytes 0x5a (RejectionReason m)) ;;>
  if_some (RejectedAt m) (put_time 0x52) ;;>
  if_some (AcknowledgedAt m) (put_time 0x4a) ;;>
  put_time 0x42 (LastSettledAt m) ;;>
  if_some (ClosedAt m) (put_time 0x3a) ;;>
  put_time 0x32 (CreatedAt m) ;;>
  if_nonzero (LeaseState_value (State m)) (put_uint 0x28 (LeaseState_value (State m))) ;;>
  put_each (λ e, put_msg 0x22 (to_sized_buffer (LeaseItem_write e))) (Items m) ;;>
  if_nonempty (ProviderUuid m) (put_bytes 0x1a (ProviderUuid m)) ;;>
  if_nonempty (Tenant m) (put_bytes 0x12 (Tenant m)) ;;>
  if_nonempty (Uuid m) (put_bytes 0xa (Uuid m)).

Definition Lease_Size (m : Lease) : Z :=
  size_str (Uuid m) +
  size_str (Tenant m) +
  size_str (ProviderUuid m) +
  size_each (λ e, size_len (LeaseItem_Size e)) (Items m) +
  size_num (LeaseState_value (State m)) +
  size_time (CreatedAt m) +
  size_opt (ClosedAt m) size_time +
  size_time (LastSettledAt m) +
  size_opt (AcknowledgedAt m) size_time +
  size_opt (RejectedAt m) size_time +
  size_str (RejectionReason m) +
  size_opt (ExpiredAt m) size_time +
  size_str (ClosureReason m) +
  size_str (MetaHash m) +
  size_num (MinLeaseDurationAtCreation m).

Definition Lease_Marshal (m : Lease) : res bytes := marshal (Lease_Size m) (Lease_write m).

Definition Lease_switch (fieldNum wireType : Z) (dAtA : bytes) (iNdEx : Z) (m : GoLease) : option (res (GoLease * Z)) :=
  let '(mkLease u t p its _ cr cl ls ak rj rr ex cr' mh md, st) := m in
  let lease u t p its cr cl ls ak rj rr ex cr' mh md st :=
    (mkLease u t p its LEASE_STATE_UNSPECIFIED cr cl ls ak rj rr ex cr' mh md, st) in
  match fieldNum with
  | 1 => Some ('(x, i) ← get_string wireType dAtA iNdEx; Ok (lease x t p its cr cl ls ak rj rr ex cr' mh md st, i))
  | 2 => Some ('(x, i) ← get_string wireType dAtA iNdEx; Ok (lease u x p its cr cl ls ak rj rr ex cr' mh md st, i))
  | 3 => Some ('(x, i) ← get_string wireType dAtA iNdEx; Ok (lease u t x its cr cl ls ak rj rr ex cr' mh md st, i))
  | 4 => Some ('(x, i) ← get_msg LeaseItem_Unmarshal wireType dAtA iNdEx;
               Ok (lease u t p (its ++ [x]) cr cl ls ak rj rr ex cr' mh md st, i))
  | 5 => Some ('(v, i) ← get_enum wireType dAtA iNdEx; Ok (lease u t p its cr cl ls ak rj rr ex cr' mh md v, i))
  | 6 => Some ('(x, i) ← get_time wireType dAtA iNdEx; Ok (lease u t p its x cl ls ak rj rr ex cr' mh md st, i))
  | 7 => Some ('(x, i) ← get_time wireType dAtA iNdEx; Ok (lease u t p its cr (Some x) ls ak rj rr ex cr' mh md st, i))
  | 8 => Some ('(x, i) ← get_time wireType dAtA iNdEx; Ok (lease u t p its cr cl x ak rj rr ex cr' mh md st, i))
  | 9 => Some ('(x, i) ← get_time wireType dAtA iNdEx; Ok (lease u t p its cr cl ls (Some x) rj rr ex cr' mh md st, i))
  | 10 => Some ('(x, i) ← get_time wireType dAtA iNdEx; Ok (lease u t p its cr cl ls ak (Some x) rr ex cr' mh md st, i))
  | 11 => Some ('(x, i) ← get_string wireType dAtA iNdEx; Ok (lease u t p its cr cl ls ak rj x ex cr' mh md st, i))
  | 12 => Some ('(x, i) ← get_time wireType dAtA iNdEx; Ok (lease u t p its cr cl ls ak rj rr (Some x) cr' mh md st, i))
  | 13 => Some ('(x, i) ← get_string wireType dAtA iNdEx; Ok (lease u t p its cr cl ls ak rj rr ex x mh md st, i))
  | 14 => Some ('(x, i) ← get_bytes wireType dAtA iNdEx; Ok (lease u t p its cr cl ls ak rj rr ex cr' x md st, i))
  | 15 => Some ('(v, i) ← get_uint wireType dAtA iNdEx; Ok (lease u t p its cr cl ls ak rj rr ex cr' mh v st, i))
  | _ => None
  end.

Definition Lease_zero : GoLease :=
  (mkLease "" "" "" [] LEASE_STATE_UNSPECIFIED no_time None no_time None None "" None "" "" 0, 0).

Definition Lease_Unmarshal (dAtA : bytes) : res GoLease := unmarshal Lease_switch dAtA Lease_zero.

Definition Lease_wire (m : Lease) : bytes :=
  enc_str 0xa (Uuid m) ++
  enc_str 0x12 (Tenant m) ++
  enc_str 0x1a (ProviderUuid m) ++
  enc_each (λ e, len_field 0x22 (LeaseItem_wire e)) (Items m) ++
  enc_uint 0x28 (LeaseState_value (State m)) ++
  time_field 0x32 (CreatedAt m) ++
  enc_opt (time_field 0x3a) (ClosedAt m) ++
  time_field 0x42 (LastSettledAt m) ++
  enc_opt (time_field 0x4a) (AcknowledgedAt m) ++
  enc_opt (time_field 0x52) (RejectedAt m) ++
  enc_str 0x5a (RejectionReason m) ++
  enc_opt (time_field 0x62) (ExpiredAt m) ++
  enc_str 0x6a (ClosureReason m) ++
  enc_str 0x72 (MetaHash m) ++
  enc_uint 0x78 (MinLeaseDurationAtCreation m).

(** ** CreditAccount *)

Definition CreditAccount_write (m : CreditAccount) : writer :=
  put_each (λ e, put_msg 0x2a (Coin_MarshalToSizedBuffer e)) (ReservedAmounts m) ;;>
  if_nonzero (PendingLeaseCount m) (put_uint 0x20 (PendingLeaseCount m)) ;;>
  if_nonzero (ActiveLeaseCount m) (put_uint 0x18 (ActiveLeaseCount m)) ;;>
  if_nonempty (ca_CreditAddress m) (put_bytes 0x12 (ca_CreditAddress m)) ;;>
  if_nonempty (ca_Tenant m) (put_bytes 0xa (ca_Tenant m)).

Definition CreditAccount_Size (m : CreditAccount) : Z :=
  size_str (ca_Tenant m) +
  size_str (ca_CreditAddress m) +
  size_num (ActiveLeaseCount m) +
  size_num (PendingLeaseCount m) +
  size_each (λ e, size_len (Coin_Size e)) (ReservedAmounts m).

Definition CreditAccount_Marshal (m : CreditAccount) : res bytes :=
  marshal (CreditAccount_Size m) (CreditAccount_write m).

Definition CreditAccount_switch (fieldNum wireType : Z) (dAtA : bytes) (iNdEx : Z) (m : CreditAccount) :
    option (res (CreditAccount * Z)) :=
  let 'mkCreditAccount t c a p r := m in
  match fieldNum with
  | 1 => Some ('(x, i) ← get_string wireType dAtA iNdEx; Ok (mkCreditAccount x c a p r, i))
  | 2 => Some ('(x, i) ← get_string wireType dAtA iNdEx; Ok (mkCreditAccount t x a p r, i))
  | 3 => Some ('(v, i) ← get_uint wireType dAtA iNdEx; Ok (mkCreditAccount t c v p r, i))
  | 4 => Some ('(v, i) ← get_uint wireType dAtA iNdEx; Ok (mkCreditAccount t c a v r, i))
  | 5 => Some ('(x, i) ← get_msg (λ b, Coin_Unmarshal b no_coin) wireType dAtA iNdEx;
               Ok (mkCreditAccount t c a p (r ++ [x]), i))
  | _ => None
  end.

Definition CreditAccount_zero : CreditAccount := mkCreditAccount "" "" 0 0 [].
Definition CreditAccount_Unmarshal (dAtA : bytes) : res CreditAccount :=
  unmarshal CreditAccount_switch dAtA CreditAccount_zero.

Definition CreditAccount_wire (m : CreditAccount) : bytes :=
  enc_str 0xa (ca_Tenant m) ++
  enc_str 0x12 (ca_CreditAddress m) ++
  enc_uint 0x18 (ActiveLeaseCount m) ++
  enc_uint 0x20 (PendingLeaseCount m) ++
  enc_each (λ e, len_field 0x2a (coin_bytes e)) (ReservedAmounts m).
End codec.

(** * The messages of the billing store are lawful *)

(** ** Params *)

Definition Params_fits (m : Params) : Prop :=
  is_u64 (MaxLeasesPerTenant m) ∧ is_u64 (MaxItemsPerLease m) ∧ is_u64 (MinLeaseDuration m) ∧
  is_u64 (MaxPendingLeasesPerTenant m) ∧ is_u64 (PendingTimeout m).

#[export] Instance Params_lawful : lawful Params_fits Params_write Params_Size Params_wire Params_switch Params_zero id.
Proof.
  solve_lawful. intros [ml al mi md mp pt rs]; open_decodes Hl.
  dec_uint 1. dec_strings 2 (λ l, mkParams ml l 0 0 0 0 []).
  dec_uint 3. dec_uint 4. dec_uint 5. dec_uint 6. dec_strings 7 (λ l, mkParams ml al mi md mp pt l).
Qed.

(** ** CustomDomainTarget *)

#[export] Instance Target_lawful : lawful (λ _, True) Target_write Target_Size Target_wire Target_switch Target_zero id.
Proof. solve_lawful. intros [u s]; open_decodes Hl. dec_string 1. dec_string 2. Qed.

(** ** The state of a lease *)

Lemma LeaseState_value_range s : - 2 ^ 31 ≤ LeaseState_value s < 2 ^ 31.
Proof. destruct s; cbn; lia. Qed.
#[export] Hint Resolve LeaseState_value_range : wire.

Section codec.
Context `{GL : GogoLaws}.

(** ** LeaseItem *)

Definition LeaseItem_fits (m : LeaseItem) : Prop := is_u64 (Quantity m) ∧ coin_fits (LockedPrice m).

#[global] Instance LeaseItem_lawful :
  lawful LeaseItem_fits LeaseItem_write LeaseItem_Size LeaseItem_wire LeaseItem_switch LeaseItem_zero id.
Proof.
  solve_lawful. intros [u q p s c]; open_decodes Hl.
  dec_string 1. dec_uint 2. dec_msg 3 (λ b, Coin_Unmarshal b no_coin). dec_string 4. dec_string 5.
Qed.

(** ** Lease *)

Record Lease_fits (m : Lease) : Prop := mkLeaseFits {
  lf_items : Forall LeaseItem_fits (Items m);
  lf_created : time_fits (CreatedAt m);
  lf_settled : time_fits (LastSettledAt m);
  lf_closed : time_fits_opt (ClosedAt m);
  lf_acknowledged : time_fits_opt (AcknowledgedAt m);
  lf_rejected : time_fits_opt (RejectedAt m);
  lf_expired : time_fits_opt (ExpiredAt m);
  lf_duration : is_u64 (MinLeaseDurationAtCreation m) }.

#[global] Instance Lease_lawful : lawful Lease_fits Lease_write Lease_Size Lease_wire Lease_switch Lease_zero go_lease.
Proof.
  split.
  - intros m []. solve_writes.
  - intros m []. solve_size.
  - intros [u t p its st cr cl ls ak rj rr ex cr' mh md] [] Hl; cbn in *. unfold Lease_wire, Lease_zero, go_lease in *; cbn in *.
    set (lease l st cr cl ls ak rj rr ex :=
      (mkLease u t p l LEASE_STATE_UNSPECIFIED cr cl ls ak rj rr ex "" "" 0, st) : GoLease).
    dec_string 1. dec_string 2. dec_string 3.
    dec_subs 4 LeaseItem_Unmarshal Hl (λ l, lease l 0 no_time None no_time None None ""%string None).
    dec_enum 5. dec_time 6.
    dec_time_opt 7 (λ o, lease its (LeaseState_value st) cr o no_time None None ""%string None).
    dec_time 8.
    dec_time_opt 9 (λ o, lease its (LeaseState_value st) cr cl ls o None ""%string None).
    dec_time_opt 10 (λ o, lease its (LeaseState_value st) cr cl ls ak o ""%string None).
    dec_string 11.
    dec_time_opt 12 (λ o, lease its (LeaseState_value st) cr cl ls ak rj rr o).
    dec_string 13. dec_bytes 14. dec_uint 15.
  - solve_switch_safe.
Qed.

Lemma lease_of_go_lease l : lease_of_go (go_lease l) = Some l.
Proof. by destruct l as [? ? ? ? []]. Qed.

(** ** CreditAccount *)

Definition CreditAccount_fits (m : CreditAccount) : Prop :=
  is_u64 (ActiveLeaseCount m) ∧ is_u64 (PendingLeaseCount m) ∧ Forall coin_fits (ReservedAmounts m).

#[global] Instance CreditAccount_lawful :
  lawful CreditAccount_fits CreditAccount_write CreditAccount_Size CreditAccount_wire CreditAccount_switch
    CreditAccount_zero id.
Proof.
  solve_lawful. intros [t c a p r]; open_decodes Hl.
  dec_string 1. dec_string 2. dec_uint 3. dec_uint 4. dec_coins 5 (mkCreditAccount t c a p).
Qed.
End codec.
