(* ===== verification/SkuKeeper.v ===== *)
(** * The sku module: store and message server (src/x/sku/keeper)

    Providers and the SKUs they sell. The invariant [SkuInv] (keys, prices that convert exactly,
    every SKU has its provider) holds in every reachable state; it is what the billing module
    relies on when it locks a price. Deactivating a provider cascades over its SKUs in bounded
    batches, and repeating it finishes. *)

From stdpp Require Import base tactics option list strings gmap sorting fin_maps.
From Stdlib Require Import ZArith Lia.
From S2P Require Import Prelude Sdk SdkRef Uuid GoStd SkuTypes BillingTypes BillingMsgs.
Open Scope Z_scope.

(** What a handler is given besides the store: the block and the module's authority address. *)
Record Env : Type := mkEnv { block : BlockCtx; authority : string }.
Definition blockTime (env : Env) : Z := BlockTime (block env).

(** [collections.Map.Get]. *)
Definition coll_get {A} (o : option A) : res A :=
  match o with Some a => Ok a | None => Err CollNotFound end.

Inductive sku_event : Type :=
  | EvProviderCreated (uuid address payout by_ : string)
  | EvProviderActivated (uuid : string)
  | EvProviderUpdated (uuid : string)
  | EvProviderDeactivated (uuid by_ : string)
  | EvSKUCreated (uuid provider name : string) (price : Coin) (by_ : string)
  | EvSKUActivated (uuid provider : string)
  | EvSKUUpdated (uuid provider : string)
  | EvSKUDeactivated (uuid provider by_ : string)
  | EvSkuParamsUpdated.

Record SkuStore : Type := mkSkuStore {
  ss_Params : option SkuParams;
  Providers : gmap string Provider;
  SKUs : gmap string SKU;
  ProviderSequence : Z;
  SKUSequence : Z;
  sku_events : list sku_event }.

Definition set_ss_Params (x : SkuParams) (s : SkuStore) : SkuStore :=
  mkSkuStore (Some x) (Providers s) (SKUs s) (ProviderSequence s) (SKUSequence s) (sku_events s).
Definition set_Providers (x : gmap string Provider) (s : SkuStore) : SkuStore :=
  mkSkuStore (ss_Params s) x (SKUs s) (ProviderSequence s) (SKUSequence s) (sku_events s).
Definition set_SKUs (x : gmap string SKU) (s : SkuStore) : SkuStore :=
  mkSkuStore (ss_Params s) (Providers s) x (ProviderSequence s) (SKUSequence s) (sku_events s).
Definition set_ProviderSequence (x : Z) (s : SkuStore) : SkuStore :=
  mkSkuStore (ss_Params s) (Providers s) (SKUs s) x (SKUSequence s) (sku_events s).
Definition set_SKUSequence (x : Z) (s : SkuStore) : SkuStore :=
  mkSkuStore (ss_Params s) (Providers s) (SKUs s) (ProviderSequence s) x (sku_events s).
Definition set_sku_events (x : list sku_event) (s : SkuStore) : SkuStore :=
  mkSkuStore (ss_Params s) (Providers s) (SKUs s) (ProviderSequence s) (SKUSequence s) x.

Notation MS := (M SkuStore).

Definition sku_emit (e : sku_event) : MS unit := modify (λ s, set_sku_events (sku_events s ++ [e]) s).

(** [provider.Active = b], [sku.Active = b]. *)
Definition set_prov_Active (b : bool) (p : Provider) : Provider :=
  mkProvider (prov_Uuid p) (prov_Address p) (prov_PayoutAddress p) (prov_MetaHash p) b (prov_ApiUrl p).
Definition set_sku_Active (b : bool) (k : SKU) : SKU :=
  mkSKU (sku_Uuid k) (sku_ProviderUuid k) (sku_Name k) (sku_Unit k) (sku_BasePrice k) (sku_MetaHash k) b.

(** ** Keeper (keeper.go) *)

Definition sku_GetParams : MS SkuParams := s ← get; lift (coll_get (ss_Params s)).
Definition sku_SetParams (p : SkuParams) : MS unit := modify (set_ss_Params p).

Definition sku_GetProvider (s : SkuStore) (uuid : string) : res Provider :=
  match Providers s !! uuid with Some p => Ok p | None => Err sku_ErrProviderNotFound end.
Definition sku_GetSKU (s : SkuStore) (uuid : string) : res SKU :=
  match SKUs s !! uuid with Some k => Ok k | None => Err sku_ErrSKUNotFound end.

Definition SetSKU (k : SKU) : MS unit := modify (λ s, set_SKUs (<[sku_Uuid k := k]> (SKUs s)) s).

Definition GenerateProviderUUID (env : Env) : MS string :=
  seq ← gets ProviderSequence;
  modify (set_ProviderSequence (wrap_u64 (seq + 1)));;
  mret (GenerateUUIDv7 (block env) "sku-provider" seq).

Definition GenerateSKUUUID (env : Env) : MS string :=
  seq ← gets SKUSequence;
  modify (set_SKUSequence (wrap_u64 (seq + 1)));;
  mret (GenerateUUIDv7 (block env) "sku-sku" seq).

Definition GetAllProviders : MS (list Provider) := gets (λ s, walk (Providers s)).
Definition GetAllSKUs : MS (list SKU) := gets (λ s, walk (SKUs s)).

(** [Indexes.X.MatchExact] on the SKUs: the primary keys, in key order. *)
Definition sku_MatchExact (p : SKU → bool) (s : SkuStore) : list string :=
  filter (λ u, from_option p false (SKUs s !! u) = true) (sorted_keys (SKUs s)).

Definition sku_of (providerUUID : string) (k : SKU) : bool := String.eqb (sku_ProviderUuid k) providerUUID.
Definition active_sku_of (providerUUID : string) (k : SKU) : bool := sku_of providerUUID k && sku_Active k.

Definition GetSKUsByProviderUUID (providerUUID : string) : MS (list SKU) :=
  uuids ← gets (sku_MatchExact (sku_of providerUUID));
  foldlM (λ acc u, s ← get; k ← lift (coll_get (SKUs s !! u)); mret (acc ++ [k])) [] uuids.

(** The loop of [IterateActiveSKUsByProvider] for the callback of its only caller, which collects
    the SKU and never stops: the SKUs collected and [hasMore]. *)
Fixpoint iterate_active (limit : Z) (collected : list SKU) (uuids : list string) : MS (list SKU * bool) :=
  match uuids with
  | [] => mret (collected, false)
  | u :: uuids' =>
      if limit <=? llen collected then mret (collected, true) else
      s ← get;
      k ← lift (coll_get (SKUs s !! u));
      iterate_active limit (collected ++ [k]) uuids'
  end.

Definition IterateActiveSKUsByProvider (providerUUID : string) (limit : Z) : MS (list SKU * bool) :=
  uuids ← gets (sku_MatchExact (active_sku_of providerUUID));
  iterate_active limit [] uuids.

Definition HasActiveSKUsByProvider (providerUUID : string) : MS bool :=
  uuids ← gets (sku_MatchExact (active_sku_of providerUUID));
  mret (negb (llen uuids =? 0)).

(** ** Message server (msg_server.go) *)

Section msg_server.
Context `{SDK} `{GoStd} (env : Env).

(** [Providers.Set]: the address index parses the address. *)
Definition SetProvider (p : Provider) : MS unit :=
  match AccAddressFromBech32 (prov_Address p) with
  | None => err External
  | Some _ => modify (λ s, set_Providers (<[prov_Uuid p := p]> (Providers s)) s)
  end.

Definition isAuthorizedSender (sender : string) : MS bool :=
  if String.eqb (authority env) sender then mret true else
  params ← sku_GetParams;
  mret (SkuParams_IsAllowed params sender).

(** The check every handler but [UpdateParams] starts with. *)
Definition require_authorized (sender : string) : MS unit :=
  authorized ← wrapping sku_ErrUnauthorized (isAuthorizedSender sender);
  if authorized : bool then mret tt else err sku_ErrUnauthorized.

Definition CreateProvider (req : MsgCreateProvider) : MS string :=
  require_authorized (cp_Authority req);;
  lift (wrap_err sku_ErrInvalidProvider (MsgCreateProvider_Validate req));;
  uuid ← GenerateProviderUUID env;
  SetProvider (mkProvider uuid (cp_Address req) (cp_PayoutAddress req) (cp_MetaHash req) true (cp_ApiUrl req));;
  sku_emit (EvProviderCreated uuid (cp_Address req) (cp_PayoutAddress req) (cp_Authority req));;
  mret uuid.

Definition UpdateProvider (req : MsgUpdateProvider) : MS unit :=
  require_authorized (up_Authority req);;
  lift (wrap_err sku_ErrInvalidProvider (MsgUpdateProvider_Validate req));;
  s ← get;
  existing ← lift (wrap_err sku_ErrProviderNotFound (sku_GetProvider s (up_Uuid req)));
  if prov_Active existing && negb (up_Active req) then err sku_ErrInvalidProvider else
  let wasInactive := negb (prov_Active existing) in
  let apiURL := if String.eqb (up_ApiUrl req) "" then prov_ApiUrl existing else up_ApiUrl req in
  SetProvider (mkProvider (up_Uuid req) (up_Address req) (up_PayoutAddress req) (up_MetaHash req)
                 (up_Active req) apiURL);;
  (if wasInactive && up_Active req then sku_emit (EvProviderActivated (up_Uuid req)) else mret tt);;
  sku_emit (EvProviderUpdated (up_Uuid req)).

(** First part of [DeactivateProvider]: the provider itself. *)
Definition deactivate_provider_itself (req : MsgDeactivateProvider) (existing : Provider) : MS unit :=
  if negb (prov_Active existing) then
    hasActiveSKUs ← HasActiveSKUsByProvider (dp_Uuid req);
    if hasActiveSKUs : bool then mret tt else err sku_ErrInvalidProvider
  else
    SetProvider (set_prov_Active false existing);;
    sku_emit (EvProviderDeactivated (dp_Uuid req) (dp_Authority req)).

(** The number of SKUs deactivated and [HasMore]. *)
Definition DeactivateProvider (req : MsgDeactivateProvider) : MS (Z * bool) :=
  require_authorized (dp_Authority req);;
  lift (wrap_err sku_ErrInvalidProvider (MsgDeactivateProvider_Validate req));;
  s ← get;
  existing ← lift (wrap_err sku_ErrProviderNotFound (sku_GetProvider s (dp_Uuid req)));
  deactivate_provider_itself req existing;;
  let limit := if dp_Limit req =? 0 then DefaultDeactivateSKULimit else dp_Limit req in
  r ← IterateActiveSKUsByProvider (dp_Uuid req) limit;
  foldlM (λ _ k,
    SetSKU (set_sku_Active false k);;
    sku_emit (EvSKUDeactivated (sku_Uuid k) (dp_Uuid req) (dp_Authority req))) tt r.1;;
  mret (llen r.1, r.2).

Definition CreateSKU (req : MsgCreateSKU) : MS string :=
  require_authorized (cs_Authority req);;
  lift (wrap_err sku_ErrInvalidSKU (MsgCreateSKU_Validate req));;
  s ← get;
  provider ← lift (wrap_err sku_ErrProviderNotFound (sku_GetProvider s (cs_ProviderUuid req)));
  if negb (prov_Active provider) then err sku_ErrInvalidProvider else
  uuid ← GenerateSKUUUID env;
  SetSKU (mkSKU uuid (cs_ProviderUuid req) (cs_Name req) (cs_Unit req) (cs_BasePrice req)
            (cs_MetaHash req) true);;
  sku_emit (EvSKUCreated uuid (cs_ProviderUuid req) (EventAttribute (cs_Name req)) (cs_BasePrice req) (cs_Authority req));;
  mret uuid.

Definition UpdateSKU (req : MsgUpdateSKU) : MS unit :=
  require_authorized (us_Authority req);;
  lift (wrap_err sku_ErrInvalidSKU (MsgUpdateSKU_Validate req));;
  s ← get;
  existing ← lift (wrap_err sku_ErrSKUNotFound (sku_GetSKU s (us_Uuid req)));
  if negb (String.eqb (sku_ProviderUuid existing) (us_ProviderUuid req)) then err sku_ErrInvalidSKU else
  provider ← lift (wrap_err sku_ErrProviderNotFound (sku_GetProvider s (sku_ProviderUuid existing)));
  let wasInactive := negb (sku_Active existing) in
  if sku_Active existing && negb (us_Active req) then err sku_ErrInvalidSKU else
  if wasInactive && us_Active req && negb (prov_Active provider) then err sku_ErrInvalidProvider else
  SetSKU (mkSKU (us_Uuid req) (us_ProviderUuid req) (us_Name req) (us_Unit req) (us_BasePrice req)
            (us_MetaHash req) (us_Active req));;
  (if wasInactive && us_Active req then sku_emit (EvSKUActivated (us_Uuid req) (us_ProviderUuid req))
   else mret tt);;
  sku_emit (EvSKUUpdated (us_Uuid req) (us_ProviderUuid req)).

Definition DeactivateSKU (req : MsgDeactivateSKU) : MS unit :=
  require_authorized (ds_Authority req);;
  lift (wrap_err sku_ErrInvalidSKU (MsgDeactivateSKU_Validate req));;
  s ← get;
  existing ← lift (wrap_err sku_ErrSKUNotFound (sku_GetSKU s (ds_Uuid req)));
  if negb (sku_Active existing) then err sku_ErrInvalidSKU else
  SetSKU (set_sku_Active false existing);;
  sku_emit (EvSKUDeactivated (ds_Uuid req) (sku_ProviderUuid existing) (ds_Authority req)).

Definition sku_UpdateParams (req : SkuMsgUpdateParams) : MS unit :=
  if negb (String.eqb (authority env) (sp_Authority req)) then err sku_ErrUnauthorized else
  lift (wrap_err sku_ErrInvalidConfig (SkuMsgUpdateParams_Validate req));;
  sku_SetParams (sp_Params req);;
  sku_emit EvSkuParamsUpdated.
End msg_server.

(** ** Invariant *)

Section sku_props.
Context `{SL : SDKLaws} `{GoStd}.
Implicit Types (s : SkuStore).

Definition sku_ok (s : SkuStore) (u : string) (k : SKU) : Prop :=
  sku_Uuid k = u ∧ is_Some (Providers s !! sku_ProviderUuid k) ∧
  valid_coin (sku_BasePrice k) ∧ ValidatePriceAndUnit (sku_BasePrice k) (sku_Unit k) = Ok tt.

Definition provider_ok (u : string) (p : Provider) : Prop :=
  prov_Uuid p = u ∧ IsValidUUID u = true ∧ is_Some (AccAddressFromBech32 (prov_Address p)) ∧
  is_Some (AccAddressFromBech32 (prov_PayoutAddress p)).

Definition SkuInv s : Prop :=
  map_Forall (sku_ok s) (SKUs s) ∧ map_Forall provider_ok (Providers s).

Lemma SkuInv_set_sku s k :
  SkuInv s → sku_ok s (sku_Uuid k) k → SkuInv (set_SKUs (<[sku_Uuid k := k]> (SKUs s)) s).
Proof. intros [Hs Hp] Hk. split; [|exact Hp]. apply map_Forall_insert_2; [exact Hk|exact Hs]. Qed.

Lemma SkuInv_set_provider s p :
  SkuInv s → provider_ok (prov_Uuid p) p →
  SkuInv (set_Providers (<[prov_Uuid p := p]> (Providers s)) s).
Proof.
  intros [Hs Hp] Hk. split; [|by apply map_Forall_insert_2].
  intros u k Hu. destruct (Hs u k Hu) as (? & [q Hq] & ? & ?). split_and!; [done| |done..].
  cbn. destruct (decide (prov_Uuid p = sku_ProviderUuid k)) as [->|Hne].
  - rewrite lookup_insert_eq. eauto.
  - rewrite lookup_insert_ne by done. eauto.
Qed.

(** Fields the invariant does not mention. *)
Lemma SkuInv_frame s s' : SKUs s' = SKUs s → Providers s' = Providers s → SkuInv s → SkuInv s'.
Proof. unfold SkuInv, sku_ok. by intros -> ->. Qed.

Lemma SkuInv_sku_at s s' k :
  Providers s' = Providers s → SKUs s' = <[sku_Uuid k := k]> (SKUs s) →
  SkuInv s → sku_ok s (sku_Uuid k) k → SkuInv s'.
Proof. intros Hp Hk HI ?. by eapply SkuInv_frame; [| |apply (SkuInv_set_sku s k)]. Qed.

Lemma SkuInv_provider_at s s' p :
  SKUs s' = SKUs s → Providers s' = <[prov_Uuid p := p]> (Providers s) →
  SkuInv s → provider_ok (prov_Uuid p) p → SkuInv s'.
Proof. intros Hp Hk HI ?. by eapply SkuInv_frame; [| |apply (SkuInv_set_provider s p)]. Qed.

Lemma validate_sku_fields_ok name u c mh x :
  validate_sku_fields name u c mh = Ok x → valid_coin c ∧ ValidatePriceAndUnit c u = Ok tt.
Proof.
  unfold validate_sku_fields. intros E. checks_inv.
  match goal with H : ValidatePriceAndUnit _ _ = Ok ?x |- _ => destruct x end.
  match goal with H : _ || _ = false |- _ => apply orb_false_iff in H as [Hv Hz] end.
  apply negb_false_iff, Coin_IsValid_spec in Hv as [? ?]. unfold Coin_IsZero in Hz.
  split; [|done]. split; [done|lia].
Qed.

Lemma require_authorized_state env sender s u s' :
  require_authorized env sender s = (Ok u, s') → s' = s.
Proof.
  unfold require_authorized, isAuthorizedSender, sku_GetParams. intros E.
  destruct (String.eqb _ _) eqn:?; run_split; done.
Qed.

Ltac sku_run :=
  repeat first
    [ run_inv_step
    | match goal with
      | H : require_authorized _ _ _ = (Ok _, _) |- _ => apply require_authorized_state in H; subst
      | H : sku_emit _ _ = (Ok _, _) |- _ => unfold sku_emit in H
      | H : SetSKU _ _ = (Ok _, _) |- _ => unfold SetSKU in H
      | H : SetProvider _ _ = (Ok _, _) |- _ => unfold SetProvider in H
      | H : GenerateProviderUUID _ _ = (Ok _, _) |- _ => unfold GenerateProviderUUID in H
      | H : GenerateSKUUUID _ _ = (Ok _, _) |- _ => unfold GenerateSKUUUID in H
      | H : HasActiveSKUsByProvider _ _ = (Ok _, _) |- _ => unfold HasActiveSKUsByProvider in H
      end
    | run_split_step; try discriminate ].

Lemma CreateProvider_inv env req s r s' :
  SkuInv s → CreateProvider env req s = (Ok r, s') → SkuInv s'.
Proof.
  intros HI E. unfold CreateProvider in E. sku_run.
  match goal with H : MsgCreateProvider_Validate _ = Ok _ |- _ => rename H into Hv end.
  unfold MsgCreateProvider_Validate in Hv. checks_inv.
  eapply (SkuInv_provider_at s); [reflexivity..|exact HI|by split_and!; try apply generated_valid].
Qed.

Lemma UpdateProvider_inv env req s r s' :
  SkuInv s → UpdateProvider env req s = (Ok r, s') → SkuInv s'.
Proof.
  intros HI E. unfold UpdateProvider in E. sku_run;
  match goal with H : MsgUpdateProvider_Validate _ = Ok _ |- _ => rename H into Hv end;
  unfold MsgUpdateProvider_Validate in Hv; checks_inv;
  match goal with H : check_uuid _ _ = Ok _ |- _ => apply check_uuid_ok in H end;
  (eapply (SkuInv_provider_at s); [reflexivity..|exact HI|by split_and!]).
Qed.

Lemma CreateSKU_inv env req s r s' :
  SkuInv s → CreateSKU env req s = (Ok r, s') → SkuInv s'.
Proof.
  intros HI E. unfold CreateSKU in E. sku_run.
  match goal with H : MsgCreateSKU_Validate _ = Ok _ |- _ => rename H into Hv end.
  unfold MsgCreateSKU_Validate in Hv. checks_inv. apply validate_sku_fields_ok in Hv as [? ?].
  eapply (SkuInv_sku_at s); [reflexivity..|exact HI|]. split_and!; [done|cbn|done|done].
  match goal with H : sku_GetProvider _ _ = Ok _ |- _ => unfold sku_GetProvider in H end. run_split. eauto.
Qed.

Lemma UpdateSKU_inv env req s r s' :
  SkuInv s → UpdateSKU env req s = (Ok r, s') → SkuInv s'.
Proof.
  intros HI E. unfold UpdateSKU in E. sku_run;
  match goal with H : MsgUpdateSKU_Validate _ = Ok _ |- _ => rename H into Hv end;
  match goal with H : sku_GetProvider _ _ = Ok _ |- _ => unfold sku_GetProvider in H end;
  match goal with H : negb (String.eqb _ _) = false |- _ => apply negb_false_iff, String.eqb_eq in H as Hp end;
  unfold MsgUpdateSKU_Validate in Hv; checks_inv; run_split; apply validate_sku_fields_ok in Hv as [? ?];
  (eapply (SkuInv_sku_at s); [reflexivity..|exact HI|]);
  (split_and!; [done|cbn; rewrite <- Hp; eauto|done|done]).
Qed.

Lemma DeactivateSKU_inv env req s r s' :
  SkuInv s → DeactivateSKU env req s = (Ok r, s') → SkuInv s'.
Proof.
  intros HI E. unfold DeactivateSKU in E. sku_run.
  match goal with H : sku_GetSKU _ _ = Ok _ |- _ => unfold sku_GetSKU in H end. run_split.
  pose proof HI as [Hs _]. destruct (Hs _ _ ltac:(eassumption)) as (? & ? & ? & ?).
  eapply (SkuInv_sku_at s); [reflexivity..|exact HI|by split_and!].
Qed.

Lemma sku_UpdateParams_inv env req s r s' :
  SkuInv s → sku_UpdateParams env req s = (Ok r, s') → SkuInv s'.
Proof.
  intros HI E. unfold sku_UpdateParams, sku_SetParams in E. sku_run.
  by eapply SkuInv_frame; [| |exact HI].
Qed.

(** ** Deactivating a provider *)

Lemma iterate_active_eq s limit collected uuids :
  llen collected ≤ limit → Forall (λ u, is_Some (SKUs s !! u)) uuids →
  iterate_active limit collected uuids s =
    (Ok (collected ++ omap (SKUs s !!.) (take (Z.to_nat (limit - llen collected)) uuids),
         bool_decide (limit - llen collected < llen uuids)), s).
Proof.
  revert collected. induction uuids as [|u uuids IH]; intros collected Hl Hs; cbn [iterate_active].
  { rewrite take_nil. cbn. rewrite app_nil_r, bool_decide_false; [done|]. unfold llen in *. cbn. lia. }
  apply Forall_cons in Hs as [[k Hk] Hs]. destruct (limit <=? llen collected) eqn:E.
  - assert (limit - llen collected = 0) as -> by lia. cbn. rewrite app_nil_r, bool_decide_true; [done|].
    unfold llen. cbn [length]. lia.
  - unfold mbind, M_bind, get, lift. rewrite Hk. cbn [coll_get]. rewrite IH; [|unfold llen in *; rewrite length_app; cbn; lia|done].
    assert (Z.to_nat (limit - llen collected) = S (Z.to_nat (limit - llen (collected ++ [k])))) as ->
      by (unfold llen in *; rewrite length_app; cbn; lia).
    rewrite firstn_cons. cbn [omap list_omap]. rewrite Hk, <- app_assoc. do 3 f_equal.
    apply bool_decide_ext. unfold llen. rewrite length_app. cbn [length]. lia.
Qed.

(** The loop that writes the deactivated SKUs. *)
Lemma deactivate_loop_spec p by_ ks s s' u :
  Forall (λ k, SKUs s !! sku_Uuid k = Some k) ks → NoDup (sku_Uuid <$> ks) →
  foldlM (λ _ k, SetSKU (set_sku_Active false k);; sku_emit (EvSKUDeactivated (sku_Uuid k) p by_)) tt ks s
    = (Ok u, s') →
  Providers s' = Providers s ∧
  ∀ x, SKUs s' !! x = if decide (x ∈ (sku_Uuid <$> ks))
                      then set_sku_Active false <$> SKUs s !! x else SKUs s !! x.
Proof.
  revert s. induction ks as [|k ks IH]; intros s Hk Hn E.
  { cbn in E. run_inv. split; [done|]. intros x. by rewrite decide_False by set_solver. }
  rewrite fmap_cons in *. apply NoDup_cons in Hn as [Hx Hn]. apply Forall_cons in Hk as [Hk Hks].
  cbn in E. sku_run. destruct_units. apply IH in E as [Hp Hs]; [|cbn|done].
  - split; [done|]. intros x. rewrite Hs. cbn. destruct (decide (x = sku_Uuid k)) as [->|Hne].
    + rewrite decide_False, lookup_insert_eq, decide_True, Hk by (done || set_solver). done.
    + rewrite lookup_insert_ne by done.
      destruct (decide (x ∈ sku_Uuid <$> ks)); [rewrite decide_True by set_solver|rewrite decide_False by set_solver]; done.
  - apply Forall_forall. intros k' Hin. rewrite Forall_forall in Hks. rewrite lookup_insert_ne; [by apply Hks|].
    intros Heq. apply Hx. rewrite Heq. by apply list_elem_of_fmap_2.
Qed.

Definition active_skus s p : list string := sku_MatchExact (active_sku_of p) s.

Lemma active_skus_some s p : Forall (λ u, is_Some (SKUs s !! u)) (active_skus s p).
Proof.
  apply Forall_forall. intros u [_ Hu]%list_elem_of_filter. by apply elem_of_sorted_keys.
Qed.

Lemma NoDup_active_skus s p : NoDup (active_skus s p).
Proof. apply NoDup_filter, NoDup_sorted_keys. Qed.

Lemma omap_lookup_uuids s us :
  SkuInv s → Forall (λ u, is_Some (SKUs s !! u)) us →
  sku_Uuid <$> omap (SKUs s !!.) us = us ∧
  Forall (λ k, SKUs s !! sku_Uuid k = Some k) (omap (SKUs s !!.) us).
Proof.
  intros [Hs _] Hus. induction Hus as [|u us [k Hk] Hus [IH1 IH2]]; [done|].
  destruct (Hs u k Hk) as [Hu _]. cbn. rewrite Hk. split.
  - rewrite fmap_cons. by rewrite IH1, Hu.
  - constructor; [by rewrite Hu|done].
Qed.

(** The cascade on the store: the first [n] active SKUs are deactivated, nothing else changes. *)
Lemma cascade_spec s s1 p by_ limit r u s' :
  SkuInv s → SKUs s1 = SKUs s → 0 ≤ limit →
  IterateActiveSKUsByProvider p limit s1 = (Ok r, s1) →
  foldlM (λ _ k, SetSKU (set_sku_Active false k);; sku_emit (EvSKUDeactivated (sku_Uuid k) p by_)) tt r.1 s1
    = (Ok u, s') →
  Providers s' = Providers s1 ∧
  llen r.1 = Z.min limit (llen (active_skus s p)) ∧
  r.2 = bool_decide (limit < llen (active_skus s p)) ∧
  active_skus s' p = drop (Z.to_nat limit) (active_skus s p) ∧
  (∀ x, SKUs s' !! x = if decide (x ∈ take (Z.to_nat limit) (active_skus s p))
                       then set_sku_Active false <$> SKUs s !! x else SKUs s !! x).
Proof.
  intros HI Hs1 Hl E1 E2. unfold IterateActiveSKUsByProvider, sku_MatchExact in E1. run_inv. rewrite Hs1 in *.
  set (U := filter _ _) in E1.
  assert (HU : U = active_skus s p) by done. rewrite HU in E1. clear U HU.
  assert (Hsome := active_skus_some s p).
  rewrite iterate_active_eq in E1; [|done|by rewrite Hs1].
  replace (limit - llen (@nil SKU)) with limit in E1 by (unfold llen; cbn; lia).
  injection E1 as <-. cbn [fst snd app] in *. rewrite Hs1 in *.
  set (T := take (Z.to_nat limit) (active_skus s p)) in *.
  assert (HT : Forall (λ u, is_Some (SKUs s !! u)) T) by by apply Forall_take.
  destruct (omap_lookup_uuids s T HI HT) as [HT1 HT2].
  apply deactivate_loop_spec in E2 as [Hp Hx]; [|by rewrite Hs1|].
  2:{ rewrite HT1. eapply sublist_NoDup; [apply (NoDup_active_skus s p)|apply sublist_take]. }
  rewrite HT1, Hs1 in Hx. split_and!; [done| | | |done].
  - unfold llen. rewrite <- (length_fmap sku_Uuid), HT1. subst T. rewrite length_take. lia.
  - done.
  - unfold active_skus at 1, sku_MatchExact. rewrite (sorted_keys_dom (SKUs s') (SKUs s)).
    + rewrite <- (filter_not_take (active_skus s p)) by apply NoDup_active_skus. fold T.
      change (active_skus s p) with
        (filter (λ u, from_option (active_sku_of p) false (SKUs s !! u) = true) (sorted_keys (SKUs s))).
      rewrite list_filter_filter. apply filter_ext_in. intros x _. rewrite Hx. case_decide as HxT.
      * destruct (SKUs s !! x); cbn; [|naive_solver]. unfold active_sku_of, sku_of. cbn.
        rewrite andb_false_r. naive_solver.
      * naive_solver.
    + intros x. rewrite Hx. case_decide; [|done]. by rewrite fmap_is_Some.
Qed.

Definition deactivate_limit (req : MsgDeactivateProvider) : Z :=
  if dp_Limit req =? 0 then DefaultDeactivateSKULimit else dp_Limit req.

(** What a successful [DeactivateProvider] does to the store. *)
Lemma DeactivateProvider_ok env req s n more s' :
  SkuInv s → 0 ≤ dp_Limit req → DeactivateProvider env req s = (Ok (n, more), s') →
  ∃ p, Providers s !! dp_Uuid req = Some p ∧
  Providers s' = (if prov_Active p then <[prov_Uuid p := set_prov_Active false p]> (Providers s) else Providers s) ∧
  n = Z.min (deactivate_limit req) (llen (active_skus s (dp_Uuid req))) ∧
  more = bool_decide (deactivate_limit req < llen (active_skus s (dp_Uuid req))) ∧
  active_skus s' (dp_Uuid req) = drop (Z.to_nat (deactivate_limit req)) (active_skus s (dp_Uuid req)) ∧
  (∀ x, SKUs s' !! x = if decide (x ∈ take (Z.to_nat (deactivate_limit req)) (active_skus s (dp_Uuid req)))
                       then set_sku_Active false <$> SKUs s !! x else SKUs s !! x).
Proof.
  intros HI Hlim E. unfold DeactivateProvider in E. fold (deactivate_limit req) in E. sku_run.
  match goal with H : sku_GetProvider _ _ = Ok _ |- _ => unfold sku_GetProvider in H end. run_split.
  match goal with H : deactivate_provider_itself _ _ _ = (Ok _, ?s1) |- _ => rename H into Hd; rename s1 into s1' end.
  match goal with H : Providers _ !! _ = Some ?q |- _ => rename H into Hp; rename q into prov end.
  match goal with H : IterateActiveSKUsByProvider _ _ _ = (Ok ?r, ?s2) |- _ => rename H into Hit end.
  match goal with H : foldlM _ _ _ _ = _ |- _ => rename H into Hf end.
  assert (Hitst := Hit). unfold IterateActiveSKUsByProvider in Hitst. run_inv.
  assert (Hs1 : SKUs s1' = SKUs s ∧
    Providers s1' = if prov_Active prov then <[prov_Uuid prov := set_prov_Active false prov]> (Providers s) else Providers s).
  { unfold deactivate_provider_itself in Hd. sku_run;
    match goal with H : negb _ = _ |- _ => first [apply negb_true_iff in H as ->|apply negb_false_iff in H as ->] end; done. }
  destruct Hs1 as [Hs1 Hp1].
  rewrite iterate_active_eq in Hitst; [|unfold deactivate_limit, DefaultDeactivateSKULimit; destruct (_ =? 0); unfold llen; cbn; lia|apply active_skus_some].
  injection Hitst as _ <-.
  eapply (cascade_spec s) in Hf as (Hpp & Hn & Hm & Ha & Hx); [|done|done| |exact Hit].
  - exists prov. rewrite Hpp. simplify_eq. by split_and!.
  - unfold deactivate_limit, DefaultDeactivateSKULimit. destruct (_ =? 0); lia.
Qed.

Lemma DeactivateProvider_inv env req s r s' :
  SkuInv s → 0 ≤ dp_Limit req → DeactivateProvider env req s = (Ok r, s') → SkuInv s'.
Proof.
  intros HI Hl E. destruct r as [n more].
  apply DeactivateProvider_ok in E as (p & Hp & Hps & _ & _ & _ & Hx); [|done..].
  pose proof HI as [Hs Hpr]. pose proof (Hpr _ _ Hp) as (Hpu & ? & ? & ?).
  assert (Hdom : ∀ y, is_Some (Providers s !! y) → is_Some (Providers s' !! y)).
  { intros y Hy. rewrite Hps. destruct (prov_Active p); [|done].
    destruct (decide (prov_Uuid p = y)) as [->|]; [rewrite lookup_insert_eq; eauto|by rewrite lookup_insert_ne]. }
  split.
  - intros u k Hk. rewrite Hx in Hk. case_decide.
    + apply fmap_Some in Hk as (k0 & Hk0 & ->). destruct (Hs u k0 Hk0) as (? & ? & ? & ?). split_and!; eauto.
    + destruct (Hs u k Hk) as (? & ? & ? & ?). split_and!; eauto.
  - rewrite Hps. destruct (prov_Active p); [|done]. apply map_Forall_insert_2; [|done]. split_and!; try done. by rewrite Hpu.
Qed.

(** C24 (functional): a successful DeactivateProvider leaves the named provider inactive and every other
    one as it was, and deactivates exactly the first [limit] of its active SKUs in UUID order (the
    default limit when the request has none), leaving every other SKU as it was. It reports how many
    it deactivated, and HasMore exactly when active SKUs remain, which are then the rest of the list:
    the limit is positive, so that repeating the call deactivates them all. *)
Theorem deactivate_provider_cascades env req s n more s' :
  SkuInv s → 0 ≤ dp_Limit req → DeactivateProvider env req s = (Ok (n, more), s') →
  let limit := deactivate_limit req in
  let skus := active_skus s (dp_Uuid req) in
  0 < limit ∧ n = Z.min limit (llen skus) ∧
  (∃ p, Providers s !! dp_Uuid req = Some p ∧ Providers s' = <[dp_Uuid req := set_prov_Active false p]> (Providers s)) ∧
  (∀ u, SKUs s' !! u = if decide (u ∈ take (Z.to_nat limit) skus) then set_sku_Active false <$> SKUs s !! u else SKUs s !! u) ∧
  active_skus s' (dp_Uuid req) = drop (Z.to_nat limit) skus ∧
  (more = true ↔ active_skus s' (dp_Uuid req) ≠ []).
Proof.
  intros HI Hl E. apply DeactivateProvider_ok in E as (p & Hp & Hps & -> & -> & Ha & Hx); [|done..].
  pose proof HI as [_ Hpr]. pose proof (Hpr _ _ Hp) as (Hpu & _).
  assert (Hlim : 0 < deactivate_limit req).
  { unfold deactivate_limit, DefaultDeactivateSKULimit. destruct (_ =? 0) eqn:?; lia. }
  split_and!; [done|done| |exact Hx|exact Ha|].
  - exists p. split; [done|]. rewrite Hps, <- Hpu. destruct (prov_Active p) eqn:Ea; [done|].
    symmetry. apply insert_id. rewrite Hpu, Hp. f_equal. destruct p; cbn in *. by rewrite Ea.
  - rewrite Ha, bool_decide_eq_true. unfold llen in *. split; intros Hd.
    + intros Hn%(f_equal length). rewrite length_drop in Hn. cbn in Hn. lia.
    + assert (0 < length (drop (Z.to_nat (deactivate_limit req)) (active_skus s (dp_Uuid req))))%nat by (destruct (drop _ _); [done|cbn; lia]).
      rewrite length_drop in *. lia.
Qed.

(** ** Reachable states *)

Inductive sku_msg : Type :=
  | SkuCreateProvider (m : MsgCreateProvider) | SkuUpdateProvider (m : MsgUpdateProvider)
  | SkuDeactivateProvider (m : MsgDeactivateProvider) | SkuCreateSKU (m : MsgCreateSKU)
  | SkuUpdateSKU (m : MsgUpdateSKU) | SkuDeactivateSKU (m : MsgDeactivateSKU)
  | SkuUpdateParams (m : SkuMsgUpdateParams).

(** One message delivered as a transaction: it is applied in full or not at all. *)
Definition sku_deliver (env : Env) (m : sku_msg) (s : SkuStore) : SkuStore :=
  match m with
  | SkuCreateProvider m => deliver (CreateProvider env m) s
  | SkuUpdateProvider m => deliver (UpdateProvider env m) s
  | SkuDeactivateProvider m => deliver (DeactivateProvider env m) s
  | SkuCreateSKU m => deliver (CreateSKU env m) s
  | SkuUpdateSKU m => deliver (UpdateSKU env m) s
  | SkuDeactivateSKU m => deliver (DeactivateSKU env m) s
  | SkuUpdateParams m => deliver (sku_UpdateParams env m) s
  end.

(** [Limit] is a uint64. *)
Definition sku_msg_wf (m : sku_msg) : Prop :=
  match m with SkuDeactivateProvider m => 0 ≤ dp_Limit m | _ => True end.

Lemma sku_deliver_inv env m s : SkuInv s → sku_msg_wf m → SkuInv (sku_deliver env m s).
Proof.
  intros HI Hm. destruct m; cbn in *; (apply deliver_inv; [done|]); intros;
    eauto using CreateProvider_inv, UpdateProvider_inv, DeactivateProvider_inv, CreateSKU_inv, UpdateSKU_inv,
      DeactivateSKU_inv, sku_UpdateParams_inv.
Qed.

(** Nothing a lease refers to is ever removed, and a SKU never changes its provider: provided the
    UUID of a new SKU is new. *)
Definition sku_extends s s' : Prop :=
  (∀ u, is_Some (Providers s !! u) → is_Some (Providers s' !! u)) ∧
  ∀ u k, SKUs s !! u = Some k → ∃ k', SKUs s' !! u = Some k' ∧ sku_ProviderUuid k' = sku_ProviderUuid k.

Definition sku_fresh (env : Env) (m : sku_msg) s : Prop :=
  match m with
  | SkuCreateSKU _ => SKUs s !! GenerateUUIDv7 (block env) "sku-sku" (SKUSequence s) = None
  | _ => True
  end.

Lemma extends_provider_at s s' p :
  SKUs s' = SKUs s → Providers s' = <[prov_Uuid p := p]> (Providers s) → sku_extends s s'.
Proof.
  intros Hk Hp. split; [|rewrite Hk; eauto]. intros u Hu. rewrite Hp.
  destruct (decide (prov_Uuid p = u)) as [->|]; [rewrite lookup_insert_eq; eauto|by rewrite lookup_insert_ne].
Qed.

Lemma extends_sku_at s s' k :
  Providers s' = Providers s → SKUs s' = <[sku_Uuid k := k]> (SKUs s) →
  (∀ k0, SKUs s !! sku_Uuid k = Some k0 → sku_ProviderUuid k = sku_ProviderUuid k0) → sku_extends s s'.
Proof.
  intros Hp Hk Hsame. split; [by rewrite Hp|]. intros u k0 Hu. rewrite Hk.
  destruct (decide (sku_Uuid k = u)) as [<-|]; [rewrite lookup_insert_eq|rewrite lookup_insert_ne by done]; eauto.
Qed.

Lemma DeactivateProvider_extends env req s r s' :
  SkuInv s → 0 ≤ dp_Limit req → DeactivateProvider env req s = (Ok r, s') → sku_extends s s'.
Proof.
  intros HI Hl E. destruct r as [n more]. apply DeactivateProvider_ok in E as (p & Hp & Hps & _ & _ & _ & Hx); [|done..].
  split.
  - intros u Hu. rewrite Hps. destruct (prov_Active p); [|done].
    destruct (decide (prov_Uuid p = u)) as [->|]; [rewrite lookup_insert_eq; eauto|by rewrite lookup_insert_ne].
  - intros u k Hk. rewrite Hx, Hk. case_decide; cbn; eauto.
Qed.

Lemma CreateProvider_extends env req s r s' : CreateProvider env req s = (Ok r, s') → sku_extends s s'.
Proof. intros E. unfold CreateProvider in E. sku_run. by eapply extends_provider_at. Qed.

Lemma UpdateProvider_extends env req s r s' : UpdateProvider env req s = (Ok r, s') → sku_extends s s'.
Proof. intros E. unfold UpdateProvider in E. sku_run; by eapply extends_provider_at. Qed.

Lemma CreateSKU_extends env req s r s' :
  SKUs s !! GenerateUUIDv7 (block env) "sku-sku" (SKUSequence s) = None →
  CreateSKU env req s = (Ok r, s') → sku_extends s s'.
Proof.
  intros Hf E. unfold CreateSKU in E. sku_run. eapply extends_sku_at; [reflexivity..|].
  intros k0 Hk0. cbn [sku_Uuid] in Hk0. congruence.
Qed.

Lemma UpdateSKU_extends env req s r s' : UpdateSKU env req s = (Ok r, s') → sku_extends s s'.
Proof.
  intros E. unfold UpdateSKU in E. sku_run; unfold sku_GetSKU in *; run_split; (eapply extends_sku_at; [reflexivity..|]);
    intros k0 Hk0; cbn [sku_Uuid sku_ProviderUuid] in *; simplify_eq;
    match goal with H : negb (String.eqb _ _) = false |- _ => by apply negb_false_iff, String.eqb_eq in H end.
Qed.

Lemma DeactivateSKU_extends env req s r s' : SkuInv s → DeactivateSKU env req s = (Ok r, s') → sku_extends s s'.
Proof.
  intros [Hs _] E. unfold DeactivateSKU in E. sku_run. unfold sku_GetSKU in *. run_split.
  match goal with H : SKUs s !! ds_Uuid _ = Some _ |- _ => destruct (Hs _ _ H) as [Hu _] end.
  eapply extends_sku_at; [reflexivity..|]. intros k0 Hk0. cbn [sku_Uuid sku_ProviderUuid set_sku_Active] in *. congruence.
Qed.

Lemma sku_UpdateParams_extends env req s r s' : sku_UpdateParams env req s = (Ok r, s') → sku_extends s s'.
Proof. intros E. unfold sku_UpdateParams, sku_SetParams in E. sku_run. split; eauto. Qed.

Lemma sku_deliver_extends env m s : SkuInv s → sku_msg_wf m → sku_fresh env m s → sku_extends s (sku_deliver env m s).
Proof.
  assert (Hrefl : sku_extends s s) by (split; eauto).
  intros HI Hm Hf. destruct m; (apply (deliver_inv (sku_extends s)); [done|]); intros;
    eauto using CreateProvider_extends, UpdateProvider_extends, DeactivateProvider_extends, CreateSKU_extends,
      UpdateSKU_extends, DeactivateSKU_extends, sku_UpdateParams_extends.
Qed.
End sku_props.

(** A store with one provider and two SKUs, and the provider deactivated with limit 1. *)
Definition example_provider : Provider :=
  mkProvider "0190a1b2-0000-7000-8000-000000000001" "prov" "payout" "" true "".
Definition example_sku (u : string) : SKU :=
  mkSKU u (prov_Uuid example_provider) "vm" UNIT_PER_HOUR (mkCoin "umfx" 7200) "" true.
Definition example_store : SkuStore :=
  mkSkuStore (Some (mkSkuParams [])) {["0190a1b2-0000-7000-8000-000000000001" := example_provider]}
    {["a" := example_sku "a"; "b" := example_sku "b"]} 1 2 [].
Definition example_env : Env := mkEnv (mkBlockCtx 1000 "hash" "chain") "gov".
Definition example_deactivate : MsgDeactivateProvider :=
  mkMsgDeactivateProvider "gov" "0190a1b2-0000-7000-8000-000000000001" 1.

Lemma example_store_inv : SkuInv example_store.
Proof.
  assert (Hc : valid_coin (mkCoin "umfx" 7200)) by (split; vm_compute; done).
  split.
  - intros u k. cbn. intros [[<- <-]|[_ [<- <-]%lookup_singleton_Some]]%lookup_insert_Some;
      (split_and!; [done|vm_compute; eauto|done|done]).
  - intros u p. unfold example_store; cbn. intros [<- <-]%lookup_singleton_Some. split_and!; vm_compute; first [reflexivity|eauto].
Qed.

Lemma deactivate_provider_cascades_witness :
  active_skus (DeactivateProvider example_env example_deactivate example_store).2 (dp_Uuid example_deactivate) =
    drop (Z.to_nat (deactivate_limit example_deactivate)) (active_skus example_store (dp_Uuid example_deactivate)) ∧
  active_skus example_store (dp_Uuid example_deactivate) = ["a"; "b"]%string.
Proof.
  destruct (deactivate_provider_cascades example_env example_deactivate example_store 1 true
    (DeactivateProvider example_env example_deactivate example_store).2) as (_ & _ & _ & _ & Ha & _).
  - apply example_store_inv.
  - vm_compute. discriminate.
  - vm_compute. reflexivity.
  - split; [exact Ha|]. vm_compute. reflexivity.
Defined.
