(* ===== verification/IndexPages.v ===== *)
(** * Listing an indexed map

    What a client gets that pages through an index of a [collections.IndexedMap] keyed by strings,
    for any such map: the leases of the billing module, the providers and SKUs of the sku module. *)

From stdpp Require Import base tactics option list strings gmap sorting fin_maps.
From Stdlib Require Import ZArith Lia.
From S2P Require Import Prelude Sdk SdkRef Pagination Uuid GoStd SkuTypes SkuKeeper.
Open Scope Z_scope.

Definition ordered {A} (r : PageRequest) (xs : list A) : list A := if Reverse r then reverse xs else xs.

Section index_pages.
Context `{SL : SDKLaws} {S V : Type}.
Implicit Types (m : gmap string V) (p : V → bool) (flt : option (V → bool)).

(** A client of a list query: it asks for page after page, at most [fuel] of them. *)
Fixpoint list_all (fuel : nat) (q : PageRequest → M S (list V * PageResponse)) (r : PageRequest)
    : M S (list V * bool) :=
  match fuel with
  | O => mret ([], false)
  | Datatypes.S fuel' =>
      '(vs, resp) ← q r;
      if String.eqb (NextKey resp) "" then mret (vs, true) else
      '(vs', fin) ← list_all fuel' q (next_request r resp);
      mret (vs ++ vs', fin)
  end.

Lemma list_all_ext fuel q q' r s : (∀ r' s', q r' s' = q' r' s') → list_all fuel q r s = list_all fuel q' r s.
Proof.
  intros Hq. revert r s. induction fuel as [|fuel IH]; intros r s; [done|]. cbn [list_all]. unfold mbind, M_bind.
  rewrite Hq. destruct (q' r s) as [[[vs resp]| |] s1]; [|done..]. destruct (String.eqb _ _); [done|]. by rewrite IH.
Qed.

(** The getter of a map and the primary keys of one reference key of an index. *)
Definition map_get m (u : string) : res V := coll_get (m !! u).
Definition index_keys p m : list string := filter (λ u, from_option p false (m !! u) = true) (sorted_keys m).
(** The values the index selects, in key order. *)
Definition matching p m : list V := filter (λ v, p v = true) (walk m).

Lemma map_get_readable m keys : readable (map_get m) keys.
Proof. intros k _. unfold map_get. destruct (m !! k); [left; eauto|by right]. Qed.

Lemma matching_ext p p' m : (∀ v, p v = p' v) → matching p m = matching p' m.
Proof. intros Hp. unfold matching. apply filter_ext_in. intros v _. by rewrite Hp. Qed.

(** A query that pages over fixed keys, walked by the client. *)
Lemma list_all_follow fuel q keys getter flt e s r :
  (∀ r', Reverse r' = Reverse r → q r' s = (wrap_err e (PaginateStringIndex keys getter (Some r') flt), s)) →
  ∀ x, follow fuel keys getter flt r = Ok x → list_all fuel q r s = (Ok x, s).
Proof.
  revert r. induction fuel as [|fuel IH]; intros r Hq x; cbn [follow list_all]; [by intros [= <-]|].
  intros ([vs resp] & Hp & Hx)%res_bind_ok. erewrite bind_run by (rewrite Hq, Hp by done; reflexivity).
  cbv beta iota in Hx |- *. destruct (String.eqb (NextKey resp) ""); [by injection Hx as <-|].
  apply res_bind_ok in Hx as ([vs' fin] & Hf & [= <-]).
  rewrite (bind_run _ _ s (vs', fin) s); [done|]. apply IH; [|done]. intros r' Hr'. by apply Hq.
Qed.

Lemma selected_index p flt m :
  (selected (map_get m) flt (index_keys p m)).*2 = matching (λ v, p v && keep flt v) m.
Proof.
  unfold index_keys, matching, walk. generalize (sorted_keys m) as ks.
  induction ks as [|k ks IH]; [done|]. rewrite filter_cons. cbn [omap list_omap].
  destruct (m !! k) as [v|] eqn:Ev; cbn [from_option].
  - rewrite filter_cons. destruct (decide (p v = true)) as [Hp|Hp%not_true_is_false].
    + rewrite selected_cons. unfold map_get at 1. rewrite Ev. cbn [coll_get]. rewrite Hp. cbn [andb].
      destruct (keep flt v) eqn:Hf; [|rewrite decide_False by done; exact IH].
      rewrite decide_True by done. cbn. by rewrite IH.
    + rewrite Hp. cbn [andb]. rewrite decide_False by done. exact IH.
  - rewrite decide_False by done. exact IH.
Qed.

Lemma selected_reverse (getter : string → res V) flt ks :
  selected getter flt (reverse ks) = reverse (selected getter flt ks).
Proof.
  assert (Happ : ∀ a b, selected getter flt (a ++ b) = selected getter flt a ++ selected getter flt b)
    by (intros; apply omap_app).
  induction ks as [|k ks IH]; [done|]. rewrite reverse_cons, Happ, IH, !selected_cons.
  destruct (getter k); [destruct (keep flt _)|..]; cbn [selected omap list_omap]; by rewrite ?reverse_cons, ?app_nil_r.
Qed.

(** Keys are never empty, and there are fewer than 2^64. *)
Definition keys_ok m : Prop := m !! ""%string = None ∧ Z.of_nat (size m) ≤ max_u64.

Lemma index_keys_ok p m :
  keys_ok m →
  NoDup (index_keys p m) ∧ Forall (λ k, k ≠ ""%string) (index_keys p m) ∧ llen (index_keys p m) ≤ max_u64 ∧
  (length (index_keys p m) ≤ size m)%nat.
Proof.
  intros [Hne Hsz].
  assert (Hlen : (length (index_keys p m) ≤ size m)%nat).
  { unfold index_keys. etrans; [apply length_filter|]. rewrite sorted_keys_perm, length_fmap. by rewrite length_map_to_list. }
  split_and!; [apply NoDup_filter, NoDup_sorted_keys| |unfold llen; lia|exact Hlen].
  apply Forall_forall. intros k [_ [v Hv]%elem_of_sorted_keys]%list_elem_of_filter ->. congruence.
Qed.

(** Paging through an index to the end yields every selected value once. *)
Lemma index_complete fuel q p flt m e s r :
  keys_ok m → Key r = ""%string → Offset r = 0 → 0 ≤ Limit r → (size m < fuel)%nat →
  (∀ r', Reverse r' = Reverse r → q r' s =
     (wrap_err e (PaginateStringIndex (MatchExactWithOrder (index_keys p m) (Some r')) (map_get m) (Some r') flt), s)) →
  list_all fuel q r s = (Ok (ordered r (matching (λ v, p v && keep flt v) m), true), s).
Proof.
  intros Hm Hk Ho Hl Hf Hq. destruct (index_keys_ok p m Hm) as (Hnd & Hne & Hmax & Hsz).
  apply (list_all_follow fuel _ (MatchExactWithOrder (index_keys p m) (Some r)) (map_get m) flt e).
  - intros r' Hr'. rewrite Hq by done. cbn [MatchExactWithOrder]. by rewrite Hr'.
  - rewrite follow_window; cbn [MatchExactWithOrder]; unfold window, ordered.
    + rewrite decide_True, Ho, drop_0 by done. destruct (Reverse r); [|by rewrite selected_index].
      rewrite selected_reverse. do 2 f_equal. rewrite <- selected_index. apply fmap_reverse.
    + apply map_get_readable.
    + destruct (Reverse r); [|done]. by rewrite reverse_Permutation.
    + destruct (Reverse r); [|done]. by apply Forall_reverse.
    + destruct (Reverse r); [|done]. unfold llen in *. by rewrite length_reverse.
    + lia.
    + done.
    + rewrite decide_True, Ho, drop_0 by done.
      pose proof (selected_length (map_get m) flt (if Reverse r then reverse (index_keys p m) else index_keys p m)).
      destruct (Reverse r); rewrite ?length_reverse in *; lia.
Qed.
End index_pages.
