(* ===== verification/SkuQuerier.v ===== *)
(** * The queries of the sku module (src/x/sku/keeper/querier.go)

    Single lookups and paginated lists of providers and SKUs. The lists that go through an index are
    complete, and [active_only] selects the active entries whether the index or a filter does it. *)

From stdpp Require Import base tactics option list strings gmap sorting fin_maps.
From Stdlib Require Import ZArith Lia.
From S2P Require Import Prelude Sdk SdkRef Pagination Uuid GoStd SkuTypes SkuKeeper IndexPages.
Open Scope Z_scope.

Record QueryProvidersRequest : Type := mkQueryProvidersRequest {
  qp_Pagination : option PageRequest; qp_ActiveOnly : bool }.
Record QuerySKUsRequest : Type := mkQuerySKUsRequest {
  qs_Pagination : option PageRequest; qs_ActiveOnly : bool }.
Record QuerySKUsByProviderRequest : Type := mkQuerySKUsByProviderRequest {
  qsp_ProviderUuid : string; qsp_Pagination : option PageRequest; qsp_ActiveOnly : bool }.
Record QueryProviderByAddressRequest : Type := mkQueryProviderByAddressRequest {
  qpa_Address : string; qpa_Pagination : option PageRequest; qpa_ActiveOnly : bool }.

(** [Providers.Indexes.X.MatchExact]. *)
Definition provider_MatchExact (p : Provider → bool) (s : SkuStore) : list string :=
  filter (λ u, from_option p false (Providers s !! u) = true) (sorted_keys (Providers s)).

Section sku_querier.
Context `{SDK}.

(** The Address index: the address of a provider, decoded. *)
Definition provider_at (a : Addr) (p : Provider) : bool :=
  bool_decide (AccAddressFromBech32 (prov_Address p) = Some a).

(** [MatchExactWithOrder] on an index, then [PaginateStringIndex] with the [Get] of the map. *)
Definition provider_pages (p : Provider → bool) (pageReq : option PageRequest) (filter : option (Provider → bool))
    : MS (list Provider * PageResponse) :=
  status Internal (
    s ← get;
    lift (PaginateStringIndex (MatchExactWithOrder (provider_MatchExact p s) pageReq)
            (λ u, coll_get (Providers s !! u)) pageReq filter)).

Definition sku_pages (p : SKU → bool) (pageReq : option PageRequest) : MS (list SKU * PageResponse) :=
  status Internal (
    s ← get;
    lift (PaginateStringIndex (MatchExactWithOrder (sku_MatchExact p s) pageReq)
            (λ u, coll_get (SKUs s !! u)) pageReq None)).

Definition sku_query_Params (req : option unit) : MS SkuParams :=
  non_nil req (λ _, status Internal sku_GetParams).

Definition query_Provider (req : option string) : MS Provider :=
  non_nil req (λ uuid, non_empty uuid;; status NotFound (s ← get; lift (sku_GetProvider s uuid))).

Definition query_Providers (req : option QueryProvidersRequest) : MS (list Provider * PageResponse) :=
  non_nil req (λ req,
    if qp_ActiveOnly req then provider_pages prov_Active (qp_Pagination req) None
    else status Internal (s ← get; lift (CollectionPaginate (Providers s) (qp_Pagination req)))).

Definition query_SKU (req : option string) : MS SKU :=
  non_nil req (λ uuid, non_empty uuid;; status NotFound (s ← get; lift (sku_GetSKU s uuid))).

Definition query_SKUs (req : option QuerySKUsRequest) : MS (list SKU * PageResponse) :=
  non_nil req (λ req,
    if qs_ActiveOnly req then sku_pages sku_Active (qs_Pagination req)
    else status Internal (s ← get; lift (CollectionPaginate (SKUs s) (qs_Pagination req)))).

Definition query_SKUsByProvider (req : option QuerySKUsByProviderRequest) : MS (list SKU * PageResponse) :=
  non_nil req (λ req,
    non_empty (qsp_ProviderUuid req);;
    if qsp_ActiveOnly req then sku_pages (active_sku_of (qsp_ProviderUuid req)) (qsp_Pagination req)
    else sku_pages (sku_of (qsp_ProviderUuid req)) (qsp_Pagination req)).

Definition query_ProviderByAddress (req : option QueryProviderByAddressRequest) : MS (list Provider * PageResponse) :=
  non_nil req (λ req,
    non_empty (qpa_Address req);;
    match AccAddressFromBech32 (qpa_Address req) with
    | None => err (Status InvalidArgument)
    | Some addr =>
        provider_pages (provider_at addr) (qpa_Pagination req)
          (if qpa_ActiveOnly req then Some prov_Active else None)
    end).
End sku_querier.

(** ** The lists are complete *)

Section sku_listing.
Context `{SL : SDKLaws}.
Implicit Types (s : SkuStore) (r : PageRequest).

Lemma provider_pages_complete fuel p flt r s :
  keys_ok (Providers s) → Key r = ""%string → Offset r = 0 → 0 ≤ Limit r → (size (Providers s) < fuel)%nat →
  list_all fuel (λ r', provider_pages p (Some r') flt) r s =
  (Ok (ordered r (matching (λ v, p v && keep flt v) (Providers s)), true), s).
Proof.
  intros Hm Hk Ho Hl Hf. apply (index_complete fuel _ p flt (Providers s) (Status Internal)); try done.
  intros r' _. unfold provider_pages, wrapping. erewrite bind_run by done. unfold lift, wrap_err.
  change (provider_MatchExact p s) with (index_keys p (Providers s)).
  change (λ u, coll_get (Providers s !! u)) with (map_get (Providers s)). by destruct (PaginateStringIndex _ _ _ _).
Qed.

Lemma sku_pages_complete fuel p r s :
  keys_ok (SKUs s) → Key r = ""%string → Offset r = 0 → 0 ≤ Limit r → (size (SKUs s) < fuel)%nat →
  list_all fuel (λ r', sku_pages p (Some r')) r s = (Ok (ordered r (matching p (SKUs s)), true), s).
Proof.
  intros Hm Hk Ho Hl Hf. rewrite (index_complete fuel _ p None (SKUs s) (Status Internal)); try done.
  - do 3 f_equal. apply f_equal, matching_ext. intros k. apply andb_true_r.
  - intros r' _. unfold sku_pages, wrapping. erewrite bind_run by done. unfold lift, wrap_err.
    change (sku_MatchExact p s) with (index_keys p (SKUs s)).
    change (λ u, coll_get (SKUs s !! u)) with (map_get (SKUs s)). by destruct (PaginateStringIndex _ _ _ _).
Qed.

(** Paging through SKUsByProvider, ProviderByAddress or, with active_only, SKUs and
    Providers to the end never fails, changes nothing and returns exactly the provider's SKUs, the
    providers with that management address in either bech32 spelling, or the active entries; with
    active_only only the active ones among them, each once, in UUID order or in reverse. *)
Theorem sku_listings_complete fuel r s (active : bool) :
  keys_ok (Providers s) → keys_ok (SKUs s) → Key r = ""%string → Offset r = 0 → 0 ≤ Limit r →
  (size (Providers s) + size (SKUs s) < fuel)%nat →
  (∀ u, u ≠ ""%string →
     list_all fuel (λ r', query_SKUsByProvider (Some (mkQuerySKUsByProviderRequest u (Some r') active))) r s =
     (Ok (ordered r (matching (λ k, sku_of u k && (negb active || sku_Active k)) (SKUs s)), true), s)) ∧
  (∀ t a, AccAddressFromBech32 t = Some a →
     list_all fuel (λ r', query_ProviderByAddress (Some (mkQueryProviderByAddressRequest t (Some r') active))) r s =
     (Ok (ordered r (matching (λ p, provider_at a p && (negb active || prov_Active p)) (Providers s)), true), s)) ∧
  list_all fuel (λ r', query_SKUs (Some (mkQuerySKUsRequest (Some r') true))) r s =
    (Ok (ordered r (matching sku_Active (SKUs s)), true), s) ∧
  list_all fuel (λ r', query_Providers (Some (mkQueryProvidersRequest (Some r') true))) r s =
    (Ok (ordered r (matching prov_Active (Providers s)), true), s).
Proof.
  intros HP HS Hk Ho Hl Hf. split_and!.
  - intros u Hu%String.eqb_neq.
    rewrite (matching_ext _ (if active then active_sku_of u else sku_of u)) by (intros k; by destruct active; cbn; rewrite ?andb_true_r).
    rewrite <- (sku_pages_complete fuel _ r s) by (done || lia). apply list_all_ext. intros r' s'.
    unfold query_SKUsByProvider, non_nil, non_empty. cbn. rewrite Hu. by destruct active.
  - intros t a Ha.
    assert (Hne : String.eqb t "" = false) by (apply String.eqb_neq; intros ->; by rewrite AccAddressFromBech32_empty in Ha).
    rewrite (matching_ext _ (λ p, provider_at a p && keep (if active then Some prov_Active else None) p)) by (intros p; by destruct active).
    rewrite <- (provider_pages_complete fuel) by (done || lia). apply list_all_ext. intros r' s'.
    unfold query_ProviderByAddress, non_nil, non_empty. cbn. by rewrite Hne, Ha.
  - rewrite <- (sku_pages_complete fuel) by (done || lia). by apply list_all_ext.
  - rewrite (matching_ext _ (λ p, prov_Active p && keep None p)) by (intros p; by rewrite andb_true_r).
    rewrite <- (provider_pages_complete fuel) by (done || lia). by apply list_all_ext.
Qed.
End sku_listing.

Lemma sku_listings_complete_witness :
  list_all 4 (λ r', query_SKUsByProvider (Some (mkQuerySKUsByProviderRequest (prov_Uuid example_provider) (Some r') true)))
    (mkPageRequest "" 0 1 false true) example_store =
  (Ok ([example_sku "b"; example_sku "a"], true), example_store).
Proof.
  destruct (sku_listings_complete 4 (mkPageRequest "" 0 1 false true) example_store true) as [Hs _];
    [split; vm_compute; first [reflexivity|discriminate]..|reflexivity|reflexivity|discriminate|vm_compute; lia|].
  rewrite Hs by discriminate.
  assert (Hm : matching (λ k, sku_of (prov_Uuid example_provider) k && (negb true || sku_Active k)) (SKUs example_store) =
    [example_sku "a"; example_sku "b"]) by (vm_compute; reflexivity).
  by rewrite Hm.
Defined.
