(* ===== verification/SkuQueryCodec.v ===== *)
(** * Marshaling of the queries of the sku module (src/x/sku/types/query.pb.go) *)

From stdpp Require Import base tactics option list strings.
From Stdlib Require Import ZArith Lia Ascii.
From S2P Require Import Prelude Sdk SkuTypes SkuQuerier Wire WireProps Codec Gogo Page SkuCodec.
Open Scope Z_scope.

Record SkuQueryParamsResponse : Type := mkSkuQueryParamsResponse {
  sqpr_Params : SkuParams }.

Record QueryProviderRequest : Type := mkQueryProviderRequest {
  qpv_Uuid : string }.

Record QueryProviderResponse : Type := mkQueryProviderResponse {
  qpvr_Provider : Provider }.

Record QueryProvidersResponse : Type := mkQueryProvidersResponse {
  qpsr_Providers : list Provider; qpsr_Pagination : option PageResponse }.

Record QuerySKURequest : Type := mkQuerySKURequest {
  qk_Uuid : string }.

Record QuerySKUResponse : Type := mkQuerySKUResponse {
  qkr_Sku : SKU }.

Record QuerySKUsResponse : Type := mkQuerySKUsResponse {
  qsr_Skus : list SKU; qsr_Pagination : option PageResponse }.

Record QuerySKUsByProviderResponse : Type := mkQuerySKUsByProviderResponse {
  qspr_Skus : list SKU; qspr_Pagination : option PageResponse }.

Record QueryProviderByAddressResponse : Type := mkQueryProviderByAddressResponse {
  qpar_Providers : list Provider; qpar_Pagination : option PageResponse }.

(** ** QueryParamsResponse *)

Definition SkuQueryParamsResponse_write (m : SkuQueryParamsResponse) : writer :=
  put_msg 0xa (to_sized_buffer (SkuParams_write (sqpr_Params m))).

Definition SkuQueryParamsResponse_Size (m : SkuQueryParamsResponse) : Z :=
  size_len (SkuParams_Size (sqpr_Params m)).

Definition SkuQueryParamsResponse_Marshal (m : SkuQueryParamsResponse) : res bytes :=
  marshal (SkuQueryParamsResponse_Size m) (SkuQueryParamsResponse_write m).

Definition SkuQueryParamsResponse_switch (fieldNum wireType : Z) (dAtA : bytes) (iNdEx : Z) (m : SkuQueryParamsResponse) :
    option (res (SkuQueryParamsResponse * Z)) :=
  let 'mkSkuQueryParamsResponse params := m in
  match fieldNum with
  | 1 => Some ('(x, i) ← get_msg (λ b, unmarshal SkuParams_switch b params) wireType dAtA iNdEx;
      Ok (mkSkuQueryParamsResponse x, i))
  | _ => None
  end.

Definition SkuQueryParamsResponse_zero : SkuQueryParamsResponse := mkSkuQueryParamsResponse SkuParams_zero.

Definition SkuQueryParamsResponse_Unmarshal (dAtA : bytes) : res SkuQueryParamsResponse :=
  unmarshal SkuQueryParamsResponse_switch dAtA SkuQueryParamsResponse_zero.

Definition SkuQueryParamsResponse_wire (m : SkuQueryParamsResponse) : bytes :=
  len_field 0xa (SkuParams_wire (sqpr_Params m)).

(** ** QueryProviderRequest *)

Definition QueryProviderRequest_write (m : QueryProviderRequest) : writer :=
  if_nonempty (qpv_Uuid m) (put_bytes 0xa (qpv_Uuid m)).

Definition QueryProviderRequest_Size (m : QueryProviderRequest) : Z :=
  size_str (qpv_Uuid m).

Definition QueryProviderRequest_Marshal (m : QueryProviderRequest) : res bytes :=
  marshal (QueryProviderRequest_Size m) (QueryProviderRequest_write m).

Definition QueryProviderRequest_switch (fieldNum wireType : Z) (dAtA : bytes) (iNdEx : Z) (m : QueryProviderRequest) :
    option (res (QueryProviderRequest * Z)) :=
  let 'mkQueryProviderRequest uuid := m in
  match fieldNum with
  | 1 => Some ('(x, i) ← get_string wireType dAtA iNdEx; Ok (mkQueryProviderRequest x, i))
  | _ => None
  end.

Definition QueryProviderRequest_zero : QueryProviderRequest := mkQueryProviderRequest "".

Definition QueryProviderRequest_Unmarshal (dAtA : bytes) : res QueryProviderRequest :=
  unmarshal QueryProviderRequest_switch dAtA QueryProviderRequest_zero.

Definition QueryProviderRequest_wire (m : QueryProviderRequest) : bytes :=
  enc_str 0xa (qpv_Uuid m).

(** ** QueryProviderResponse *)

Definition QueryProviderResponse_write (m : QueryProviderResponse) : writer :=
  put_msg 0xa (to_sized_buffer (Provider_write (qpvr_Provider m))).

Definition QueryProviderResponse_Size (m : QueryProviderResponse) : Z :=
  size_len (Provider_Size (qpvr_Provider m)).

Definition QueryProviderResponse_Marshal (m : QueryProviderResponse) : res bytes :=
  marshal (QueryProviderResponse_Size m) (QueryProviderResponse_write m).

Definition QueryProviderResponse_switch (fieldNum wireType : Z) (dAtA : bytes) (iNdEx : Z) (m : QueryProviderResponse) :
    option (res (QueryProviderResponse * Z)) :=
  let 'mkQueryProviderResponse provider := m in
  match fieldNum with
  | 1 => Some ('(x, i) ← get_msg (λ b, unmarshal Provider_switch b provider) wireType dAtA iNdEx;
      Ok (mkQueryProviderResponse x, i))
  | _ => None
  end.

Definition QueryProviderResponse_zero : QueryProviderResponse := mkQueryProviderResponse Provider_zero.

Definition QueryProviderResponse_Unmarshal (dAtA : bytes) : res QueryProviderResponse :=
  unmarshal QueryProviderResponse_switch dAtA QueryProviderResponse_zero.

Definition QueryProviderResponse_wire (m : QueryProviderResponse) : bytes :=
  len_field 0xa (Provider_wire (qpvr_Provider m)).

(** ** QuerySKURequest *)

Definition QuerySKURequest_write (m : QuerySKURequest) : writer :=
  if_nonempty (qk_Uuid m) (put_bytes 0xa (qk_Uuid m)).

Definition QuerySKURequest_Size (m : QuerySKURequest) : Z :=
  size_str (qk_Uuid m).

Definition QuerySKURequest_Marshal (m : QuerySKURequest) : res bytes :=
  marshal (QuerySKURequest_Size m) (QuerySKURequest_write m).

Definition QuerySKURequest_switch (fieldNum wireType : Z) (dAtA : bytes) (iNdEx : Z) (m : QuerySKURequest) :
    option (res (QuerySKURequest * Z)) :=
  let 'mkQuerySKURequest uuid := m in
  match fieldNum with
  | 1 => Some ('(x, i) ← get_string wireType dAtA iNdEx; Ok (mkQuerySKURequest x, i))
  | _ => None
  end.

Definition QuerySKURequest_zero : QuerySKURequest := mkQuerySKURequest "".

Definition QuerySKURequest_Unmarshal (dAtA : bytes) : res QuerySKURequest :=
  unmarshal QuerySKURequest_switch dAtA QuerySKURequest_zero.

Definition QuerySKURequest_wire (m : QuerySKURequest) : bytes :=
  enc_str 0xa (qk_Uuid m).

Section codec.
Context `{Gogo} `{PageCodec}.

(** ** QueryProvidersRequest *)

Definition QueryProvidersRequest_write (m : QueryProvidersRequest) : writer :=
  if_true (qp_ActiveOnly m) (put_bool 0x10 (qp_ActiveOnly m)) ;;>
  if_some (qp_Pagination m) (λ p, put_msg 0xa (PageRequest_MarshalToSizedBuffer p)).

Definition QueryProvidersRequest_Size (m : QueryProvidersRequest) : Z :=
  size_opt (qp_Pagination m) (λ p, size_len (PageRequest_Size p)) +
  size_bool (qp_ActiveOnly m).

Definition QueryProvidersRequest_Marshal (m : QueryProvidersRequest) : res bytes :=
  marshal (QueryProvidersRequest_Size m) (QueryProvidersRequest_write m).

Definition QueryProvidersRequest_switch (fieldNum wireType : Z) (dAtA : bytes) (iNdEx : Z) (m : QueryProvidersRequest) :
    option (res (QueryProvidersRequest * Z)) :=
  let 'mkQueryProvidersRequest pagination activeOnly := m in
  match fieldNum with
  | 1 => Some ('(x, i) ← get_msg (λ b, PageRequest_Unmarshal b (default PageRequest_zero pagination)) wireType dAtA iNdEx;
      Ok (mkQueryProvidersRequest (Some x) activeOnly, i))
  | 2 => Some ('(x, i) ← get_bool wireType dAtA iNdEx; Ok (mkQueryProvidersRequest pagination x, i))
  | _ => None
  end.

Definition QueryProvidersRequest_zero : QueryProvidersRequest := mkQueryProvidersRequest None false.

Definition QueryProvidersRequest_Unmarshal (dAtA : bytes) : res QueryProvidersRequest :=
  unmarshal QueryProvidersRequest_switch dAtA QueryProvidersRequest_zero.

Definition QueryProvidersRequest_wire (m : QueryProvidersRequest) : bytes :=
  enc_opt (λ p, len_field 0xa (PageRequest_bytes p)) (qp_Pagination m) ++
  enc_bool 0x10 (qp_ActiveOnly m).

(** ** QueryProvidersResponse *)

Definition QueryProvidersResponse_write (m : QueryProvidersResponse) : writer :=
  if_some (qpsr_Pagination m) (λ p, put_msg 0x12 (PageResponse_MarshalToSizedBuffer p)) ;;>
  put_each (λ e, put_msg 0xa (to_sized_buffer (Provider_write e))) (qpsr_Providers m).

Definition QueryProvidersResponse_Size (m : QueryProvidersResponse) : Z :=
  size_each (λ e, size_len (Provider_Size e)) (qpsr_Providers m) +
  size_opt (qpsr_Pagination m) (λ p, size_len (PageResponse_Size p)).

Definition QueryProvidersResponse_Marshal (m : QueryProvidersResponse) : res bytes :=
  marshal (QueryProvidersResponse_Size m) (QueryProvidersResponse_write m).

Definition QueryProvidersResponse_switch (fieldNum wireType : Z) (dAtA : bytes) (iNdEx : Z) (m : QueryProvidersResponse) :
    option (res (QueryProvidersResponse * Z)) :=
  let 'mkQueryProvidersResponse providers pagination := m in
  match fieldNum with
  | 1 => Some ('(x, i) ← get_msg Provider_Unmarshal wireType dAtA iNdEx;
      Ok (mkQueryProvidersResponse (providers ++ [x]) pagination, i))
  | 2 => Some ('(x, i) ← get_msg (λ b, PageResponse_Unmarshal b (default PageResponse_zero pagination)) wireType dAtA iNdEx;
      Ok (mkQueryProvidersResponse providers (Some x), i))
  | _ => None
  end.

Definition QueryProvidersResponse_zero : QueryProvidersResponse := mkQueryProvidersResponse [] None.

Definition QueryProvidersResponse_Unmarshal (dAtA : bytes) : res QueryProvidersResponse :=
  unmarshal QueryProvidersResponse_switch dAtA QueryProvidersResponse_zero.

Definition QueryProvidersResponse_wire (m : QueryProvidersResponse) : bytes :=
  enc_each (λ e, len_field 0xa (Provider_wire e)) (qpsr_Providers m) ++
  enc_opt (λ p, len_field 0x12 (PageResponse_bytes p)) (qpsr_Pagination m).

(** ** QuerySKUResponse *)

(** As Go decodes it, with the numbers of the enumerations. *)
Definition GoQuerySKUResponse : Type := (SKU * Z).

Definition QuerySKUResponse_write (m : QuerySKUResponse) : writer :=
  put_msg 0xa (to_sized_buffer (SKU_write (qkr_Sku m))).

Definition QuerySKUResponse_Size (m : QuerySKUResponse) : Z :=
  size_len (SKU_Size (qkr_Sku m)).

Definition QuerySKUResponse_Marshal (m : QuerySKUResponse) : res bytes :=
  marshal (QuerySKUResponse_Size m) (QuerySKUResponse_write m).

Definition QuerySKUResponse_switch (fieldNum wireType : Z) (dAtA : bytes) (iNdEx : Z) (m : GoQuerySKUResponse) :
    option (res (GoQuerySKUResponse * Z)) :=
  let 'sku := m in
  match fieldNum with
  | 1 => Some ('(x, i) ← get_msg (λ b, unmarshal SKU_switch b sku) wireType dAtA iNdEx; Ok (x, i))
  | _ => None
  end.

Definition QuerySKUResponse_zero : GoQuerySKUResponse := SKU_zero.

Definition QuerySKUResponse_go (m : QuerySKUResponse) : GoQuerySKUResponse := (SKU_go (qkr_Sku m)).

Definition QuerySKUResponse_Unmarshal (dAtA : bytes) : res GoQuerySKUResponse :=
  unmarshal QuerySKUResponse_switch dAtA QuerySKUResponse_zero.

Definition QuerySKUResponse_wire (m : QuerySKUResponse) : bytes :=
  len_field 0xa (SKU_wire (qkr_Sku m)).

(** ** QuerySKUsRequest *)

Definition QuerySKUsRequest_write (m : QuerySKUsRequest) : writer :=
  if_true (qs_ActiveOnly m) (put_bool 0x10 (qs_ActiveOnly m)) ;;>
  if_some (qs_Pagination m) (λ p, put_msg 0xa (PageRequest_MarshalToSizedBuffer p)).

Definition QuerySKUsRequest_Size (m : QuerySKUsRequest) : Z :=
  size_opt (qs_Pagination m) (λ p, size_len (PageRequest_Size p)) +
  size_bool (qs_ActiveOnly m).

Definition QuerySKUsRequest_Marshal (m : QuerySKUsRequest) : res bytes :=
  marshal (QuerySKUsRequest_Size m) (QuerySKUsRequest_write m).

Definition QuerySKUsRequest_switch (fieldNum wireType : Z) (dAtA : bytes) (iNdEx : Z) (m : QuerySKUsRequest) :
    option (res (QuerySKUsRequest * Z)) :=
  let 'mkQuerySKUsRequest pagination activeOnly := m in
  match fieldNum with
  | 1 => Some ('(x, i) ← get_msg (λ b, PageRequest_Unmarshal b (default PageRequest_zero pagination)) wireType dAtA iNdEx;
      Ok (mkQuerySKUsRequest (Some x) activeOnly, i))
  | 2 => Some ('(x, i) ← get_bool wireType dAtA iNdEx; Ok (mkQuerySKUsRequest pagination x, i))
  | _ => None
  end.

Definition QuerySKUsRequest_zero : QuerySKUsRequest := mkQuerySKUsRequest None false.

Definition QuerySKUsRequest_Unmarshal (dAtA : bytes) : res QuerySKUsRequest :=
  unmarshal QuerySKUsRequest_switch dAtA QuerySKUsRequest_zero.

Definition QuerySKUsRequest_wire (m : QuerySKUsRequest) : bytes :=
  enc_opt (λ p, len_field 0xa (PageRequest_bytes p)) (qs_Pagination m) ++
  enc_bool 0x10 (qs_ActiveOnly m).

(** ** QuerySKUsResponse *)

(** As Go decodes it, with the numbers of the enumerations. *)
Definition GoQuerySKUsResponse : Type :=
  list (SKU * Z) * option PageResponse.

Definition QuerySKUsResponse_write (m : QuerySKUsResponse) : writer :=
  if_some (qsr_Pagination m) (λ p, put_msg 0x12 (PageResponse_MarshalToSizedBuffer p)) ;;>
  put_each (λ e, put_msg 0xa (to_sized_buffer (SKU_write e))) (qsr_Skus m).

Definition QuerySKUsResponse_Size (m : QuerySKUsResponse) : Z :=
  size_each (λ e, size_len (SKU_Size e)) (qsr_Skus m) +
  size_opt (qsr_Pagination m) (λ p, size_len (PageResponse_Size p)).

Definition QuerySKUsResponse_Marshal (m : QuerySKUsResponse) : res bytes :=
  marshal (QuerySKUsResponse_Size m) (QuerySKUsResponse_write m).

Definition QuerySKUsResponse_switch (fieldNum wireType : Z) (dAtA : bytes) (iNdEx : Z) (m : GoQuerySKUsResponse) :
    option (res (GoQuerySKUsResponse * Z)) :=
  let '(skus, pagination) := m in
  match fieldNum with
  | 1 => Some ('(x, i) ← get_msg SKU_Unmarshal wireType dAtA iNdEx; Ok ((skus ++ [x], pagination), i))
  | 2 => Some ('(x, i) ← get_msg (λ b, PageResponse_Unmarshal b (default PageResponse_zero pagination)) wireType dAtA iNdEx;
      Ok ((skus, Some x), i))
  | _ => None
  end.

Definition QuerySKUsResponse_zero : GoQuerySKUsResponse := ([], None).

Definition QuerySKUsResponse_go (m : QuerySKUsResponse) : GoQuerySKUsResponse :=
  (SKU_go <$> qsr_Skus m, qsr_Pagination m).

Definition QuerySKUsResponse_Unmarshal (dAtA : bytes) : res GoQuerySKUsResponse :=
  unmarshal QuerySKUsResponse_switch dAtA QuerySKUsResponse_zero.

Definition QuerySKUsResponse_wire (m : QuerySKUsResponse) : bytes :=
  enc_each (λ e, len_field 0xa (SKU_wire e)) (qsr_Skus m) ++
  enc_opt (λ p, len_field 0x12 (PageResponse_bytes p)) (qsr_Pagination m).

(** ** QuerySKUsByProviderRequest *)

Definition QuerySKUsByProviderRequest_write (m : QuerySKUsByProviderRequest) : writer :=
  if_true (qsp_ActiveOnly m) (put_bool 0x18 (qsp_ActiveOnly m)) ;;>
  if_some (qsp_Pagination m) (λ p, put_msg 0x12 (PageRequest_MarshalToSizedBuffer p)) ;;>
  if_nonempty (qsp_ProviderUuid m) (put_bytes 0xa (qsp_ProviderUuid m)).

Definition QuerySKUsByProviderRequest_Size (m : QuerySKUsByProviderRequest) : Z :=
  size_str (qsp_ProviderUuid m) +
  size_opt (qsp_Pagination m) (λ p, size_len (PageRequest_Size p)) +
  size_bool (qsp_ActiveOnly m).

Definition QuerySKUsByProviderRequest_Marshal (m : QuerySKUsByProviderRequest) : res bytes :=
  marshal (QuerySKUsByProviderRequest_Size m) (QuerySKUsByProviderRequest_write m).

Definition QuerySKUsByProviderRequest_switch (fieldNum wireType : Z) (dAtA : bytes) (iNdEx : Z) (m : QuerySKUsByProviderRequest) :
    option (res (QuerySKUsByProviderRequest * Z)) :=
  let 'mkQuerySKUsByProviderRequest providerUuid pagination activeOnly := m in
  match fieldNum with
  | 1 => Some ('(x, i) ← get_string wireType dAtA iNdEx; Ok (mkQuerySKUsByProviderRequest x pagination activeOnly, i))
  | 2 => Some ('(x, i) ← get_msg (λ b, PageRequest_Unmarshal b (default PageRequest_zero pagination)) wireType dAtA iNdEx;
      Ok (mkQuerySKUsByProviderRequest providerUuid (Some x) activeOnly, i))
  | 3 => Some ('(x, i) ← get_bool wireType dAtA iNdEx; Ok (mkQuerySKUsByProviderRequest providerUuid pagination x, i))
  | _ => None
  end.

Definition QuerySKUsByProviderRequest_zero : QuerySKUsByProviderRequest := mkQuerySKUsByProviderRequest "" None false.

Definition QuerySKUsByProviderRequest_Unmarshal (dAtA : bytes) : res QuerySKUsByProviderRequest :=
  unmarshal QuerySKUsByProviderRequest_switch dAtA QuerySKUsByProviderRequest_zero.

Definition QuerySKUsByProviderRequest_wire (m : QuerySKUsByProviderRequest) : bytes :=
  enc_str 0xa (qsp_ProviderUuid m) ++
  enc_opt (λ p, len_field 0x12 (PageRequest_bytes p)) (qsp_Pagination m) ++
  enc_bool 0x18 (qsp_ActiveOnly m).

(** ** QuerySKUsByProviderResponse *)

(** As Go decodes it, with the numbers of the enumerations. *)
Definition GoQuerySKUsByProviderResponse : Type :=
  list (SKU * Z) * option PageResponse.

Definition QuerySKUsByProviderResponse_write (m : QuerySKUsByProviderResponse) : writer :=
  if_some (qspr_Pagination m) (λ p, put_msg 0x12 (PageResponse_MarshalToSizedBuffer p)) ;;>
  put_each (λ e, put_msg 0xa (to_sized_buffer (SKU_write e))) (qspr_Skus m).

Definition QuerySKUsByProviderResponse_Size (m : QuerySKUsByProviderResponse) : Z :=
  size_each (λ e, size_len (SKU_Size e)) (qspr_Skus m) +
  size_opt (qspr_Pagination m) (λ p, size_len (PageResponse_Size p)).

Definition QuerySKUsByProviderResponse_Marshal (m : QuerySKUsByProviderResponse) : res bytes :=
  marshal (QuerySKUsByProviderResponse_Size m) (QuerySKUsByProviderResponse_write m).

Definition QuerySKUsByProviderResponse_switch (fieldNum wireType : Z) (dAtA : bytes) (iNdEx : Z) (m : GoQuerySKUsByProviderResponse) :
    option (res (GoQuerySKUsByProviderResponse * Z)) :=
  let '(skus, pagination) := m in
  match fieldNum with
  | 1 => Some ('(x, i) ← get_msg SKU_Unmarshal wireType dAtA iNdEx; Ok ((skus ++ [x], pagination), i))
  | 2 => Some ('(x, i) ← get_msg (λ b, PageResponse_Unmarshal b (default PageResponse_zero pagination)) wireType dAtA iNdEx;
      Ok ((skus, Some x), i))
  | _ => None
  end.

Definition QuerySKUsByProviderResponse_zero : GoQuerySKUsByProviderResponse := ([], None).

Definition QuerySKUsByProviderResponse_go (m : QuerySKUsByProviderResponse) : GoQuerySKUsByProviderResponse :=
  (SKU_go <$> qspr_Skus m, qspr_Pagination m).

Definition QuerySKUsByProviderResponse_Unmarshal (dAtA : bytes) : res GoQuerySKUsByProviderResponse :=
  unmarshal QuerySKUsByProviderResponse_switch dAtA QuerySKUsByProviderResponse_zero.

Definition QuerySKUsByProviderResponse_wire (m : QuerySKUsByProviderResponse) : bytes :=
  enc_each (λ e, len_field 0xa (SKU_wire e)) (qspr_Skus m) ++
  enc_opt (λ p, len_field 0x12 (PageResponse_bytes p)) (qspr_Pagination m).

(** ** QueryProviderByAddressRequest *)

Definition QueryProviderByAddressRequest_write (m : QueryProviderByAddressRequest) : writer :=
  if_true (qpa_ActiveOnly m) (put_bool 0x18 (qpa_ActiveOnly m)) ;;>
  if_some (qpa_Pagination m) (λ p, put_msg 0x12 (PageRequest_MarshalToSizedBuffer p)) ;;>
  if_nonempty (qpa_Address m) (put_bytes 0xa (qpa_Address m)).

Definition QueryProviderByAddressRequest_Size (m : QueryProviderByAddressRequest) : Z :=
  size_str (qpa_Address m) +
  size_opt (qpa_Pagination m) (λ p, size_len (PageRequest_Size p)) +
  size_bool (qpa_ActiveOnly m).

Definition QueryProviderByAddressRequest_Marshal (m : QueryProviderByAddressRequest) : res bytes :=
  marshal (QueryProviderByAddressRequest_Size m) (QueryProviderByAddressRequest_write m).

Definition QueryProviderByAddressRequest_switch (fieldNum wireType : Z) (dAtA : bytes) (iNdEx : Z) (m : QueryProviderByAddressRequest) :
    option (res (QueryProviderByAddressRequest * Z)) :=
  let 'mkQueryProviderByAddressRequest address pagination activeOnly := m in
  match fieldNum with
  | 1 => Some ('(x, i) ← get_string wireType dAtA iNdEx;
      Ok (mkQueryProviderByAddressRequest x pagination activeOnly, i))
  | 2 => Some ('(x, i) ← get_msg (λ b, PageRequest_Unmarshal b (default PageRequest_zero pagination)) wireType dAtA iNdEx;
      Ok (mkQueryProviderByAddressRequest address (Some x) activeOnly, i))
  | 3 => Some ('(x, i) ← get_bool wireType dAtA iNdEx; Ok (mkQueryProviderByAddressRequest address pagination x, i))
  | _ => None
  end.

Definition QueryProviderByAddressRequest_zero : QueryProviderByAddressRequest :=
  mkQueryProviderByAddressRequest "" None false.

Definition QueryProviderByAddressRequest_Unmarshal (dAtA : bytes) : res QueryProviderByAddressRequest :=
  unmarshal QueryProviderByAddressRequest_switch dAtA QueryProviderByAddressRequest_zero.

Definition QueryProviderByAddressRequest_wire (m : QueryProviderByAddressRequest) : bytes :=
  enc_str 0xa (qpa_Address m) ++
  enc_opt (λ p, len_field 0x12 (PageRequest_bytes p)) (qpa_Pagination m) ++
  enc_bool 0x18 (qpa_ActiveOnly m).

(** ** QueryProviderByAddressResponse *)

Definition QueryProviderByAddressResponse_write (m : QueryProviderByAddressResponse) : writer :=
  if_some (qpar_Pagination m) (λ p, put_msg 0x12 (PageResponse_MarshalToSizedBuffer p)) ;;>
  put_each (λ e, put_msg 0xa (to_sized_buffer (Provider_write e))) (qpar_Providers m).

Definition QueryProviderByAddressResponse_Size (m : QueryProviderByAddressResponse) : Z :=
  size_each (λ e, size_len (Provider_Size e)) (qpar_Providers m) +
  size_opt (qpar_Pagination m) (λ p, size_len (PageResponse_Size p)).

Definition QueryProviderByAddressResponse_Marshal (m : QueryProviderByAddressResponse) : res bytes :=
  marshal (QueryProviderByAddressResponse_Size m) (QueryProviderByAddressResponse_write m).

Definition QueryProviderByAddressResponse_switch (fieldNum wireType : Z) (dAtA : bytes) (iNdEx : Z) (m : QueryProviderByAddressResponse) :
    option (res (QueryProviderByAddressResponse * Z)) :=
  let 'mkQueryProviderByAddressResponse providers pagination := m in
  match fieldNum with
  | 1 => Some ('(x, i) ← get_msg Provider_Unmarshal wireType dAtA iNdEx;
      Ok (mkQueryProviderByAddressResponse (providers ++ [x]) pagination, i))
  | 2 => Some ('(x, i) ← get_msg (λ b, PageResponse_Unmarshal b (default PageResponse_zero pagination)) wireType dAtA iNdEx;
      Ok (mkQueryProviderByAddressResponse providers (Some x), i))
  | _ => None
  end.

Definition QueryProviderByAddressResponse_zero : QueryProviderByAddressResponse :=
  mkQueryProviderByAddressResponse [] None.

Definition QueryProviderByAddressResponse_Unmarshal (dAtA : bytes) : res QueryProviderByAddressResponse :=
  unmarshal QueryProviderByAddressResponse_switch dAtA QueryProviderByAddressResponse_zero.

Definition QueryProviderByAddressResponse_wire (m : QueryProviderByAddressResponse) : bytes :=
  enc_each (λ e, len_field 0xa (Provider_wire e)) (qpar_Providers m) ++
  enc_opt (λ p, len_field 0x12 (PageResponse_bytes p)) (qpar_Pagination m).
End codec.

(** * The queries of the sku module are lawful *)

#[export] Instance SkuQueryParamsResponse_lawful :
  lawful (λ _, True) SkuQueryParamsResponse_write SkuQueryParamsResponse_Size SkuQueryParamsResponse_wire
    SkuQueryParamsResponse_switch SkuQueryParamsResponse_zero id.
Proof.
  solve_lawful. intros [params]; open_decodes Hl.
  dec_sub 1 Hl.
Qed.

#[export] Instance QueryProviderRequest_lawful :
  lawful (λ _, True) QueryProviderRequest_write QueryProviderRequest_Size QueryProviderRequest_wire
    QueryProviderRequest_switch QueryProviderRequest_zero id.
Proof.
  solve_lawful. intros [uuid]; open_decodes Hl.
  dec_string 1.
Qed.

#[export] Instance QueryProviderResponse_lawful :
  lawful (λ _, True) QueryProviderResponse_write QueryProviderResponse_Size QueryProviderResponse_wire
    QueryProviderResponse_switch QueryProviderResponse_zero id.
Proof.
  solve_lawful. intros [provider]; open_decodes Hl.
  dec_sub 1 Hl.
Qed.

#[export] Instance QuerySKURequest_lawful :
  lawful (λ _, True) QuerySKURequest_write QuerySKURequest_Size QuerySKURequest_wire
    QuerySKURequest_switch QuerySKURequest_zero id.
Proof.
  solve_lawful. intros [uuid]; open_decodes Hl.
  dec_string 1.
Qed.

Section codec.
Context `{GL : GogoLaws} `{PL : PageLaws}.

Definition QueryProvidersRequest_fits (m : QueryProvidersRequest) : Prop :=
  from_option PageRequest_fits True (qp_Pagination m).

#[global] Instance QueryProvidersRequest_lawful :
  lawful QueryProvidersRequest_fits QueryProvidersRequest_write QueryProvidersRequest_Size QueryProvidersRequest_wire
    QueryProvidersRequest_switch QueryProvidersRequest_zero id.
Proof.
  solve_lawful. intros [pagination activeOnly]; open_decodes Hl.
  dec_page 1 @PageRequest_unmarshals (λ l, mkQueryProvidersRequest l false) Hl. dec_bool 2.
Qed.

Definition QueryProvidersResponse_fits (m : QueryProvidersResponse) : Prop :=
  from_option PageResponse_fits True (qpsr_Pagination m).

#[global] Instance QueryProvidersResponse_lawful :
  lawful QueryProvidersResponse_fits QueryProvidersResponse_write QueryProvidersResponse_Size QueryProvidersResponse_wire
    QueryProvidersResponse_switch QueryProvidersResponse_zero id.
Proof.
  solve_lawful. intros [providers pagination]; open_decodes Hl.
  dec_subs 1 Provider_Unmarshal Hl (λ l, mkQueryProvidersResponse l None).
  dec_page 2 @PageResponse_unmarshals (λ l, mkQueryProvidersResponse providers l) Hl.
Qed.

Definition QuerySKUResponse_fits (m : QuerySKUResponse) : Prop := SKU_fits (qkr_Sku m).

#[global] Instance QuerySKUResponse_lawful :
  lawful QuerySKUResponse_fits QuerySKUResponse_write QuerySKUResponse_Size QuerySKUResponse_wire
    QuerySKUResponse_switch QuerySKUResponse_zero QuerySKUResponse_go.
Proof.
  solve_lawful. intros [sku]; open_decodes Hl.
  dec_sub 1 Hl.
Qed.

Definition QuerySKUsRequest_fits (m : QuerySKUsRequest) : Prop := from_option PageRequest_fits True (qs_Pagination m).

#[global] Instance QuerySKUsRequest_lawful :
  lawful QuerySKUsRequest_fits QuerySKUsRequest_write QuerySKUsRequest_Size QuerySKUsRequest_wire
    QuerySKUsRequest_switch QuerySKUsRequest_zero id.
Proof.
  solve_lawful. intros [pagination activeOnly]; open_decodes Hl.
  dec_page 1 @PageRequest_unmarshals (λ l, mkQuerySKUsRequest l false) Hl. dec_bool 2.
Qed.

Definition QuerySKUsResponse_fits (m : QuerySKUsResponse) : Prop :=
  Forall SKU_fits (qsr_Skus m) ∧ from_option PageResponse_fits True (qsr_Pagination m).

#[global] Instance QuerySKUsResponse_lawful :
  lawful QuerySKUsResponse_fits QuerySKUsResponse_write QuerySKUsResponse_Size QuerySKUsResponse_wire
    QuerySKUsResponse_switch QuerySKUsResponse_zero QuerySKUsResponse_go.
Proof.
  solve_lawful. intros [skus pagination]; open_decodes Hl.
  dec_subs_go 1 SKU_Unmarshal Hl (λ l, (l, None) : GoQuerySKUsResponse).
  dec_page 2 @PageResponse_unmarshals (λ l, (SKU_go <$> skus, l) : GoQuerySKUsResponse) Hl.
Qed.

Definition QuerySKUsByProviderRequest_fits (m : QuerySKUsByProviderRequest) : Prop :=
  from_option PageRequest_fits True (qsp_Pagination m).

#[global] Instance QuerySKUsByProviderRequest_lawful :
  lawful QuerySKUsByProviderRequest_fits QuerySKUsByProviderRequest_write QuerySKUsByProviderRequest_Size QuerySKUsByProviderRequest_wire
    QuerySKUsByProviderRequest_switch QuerySKUsByProviderRequest_zero id.
Proof.
  solve_lawful. intros [providerUuid pagination activeOnly]; open_decodes Hl.
  dec_string 1. dec_page 2 @PageRequest_unmarshals (λ l, mkQuerySKUsByProviderRequest providerUuid l false) Hl.
  dec_bool 3.
Qed.

Definition QuerySKUsByProviderResponse_fits (m : QuerySKUsByProviderResponse) : Prop :=
  Forall SKU_fits (qspr_Skus m) ∧ from_option PageResponse_fits True (qspr_Pagination m).

#[global] Instance QuerySKUsByProviderResponse_lawful :
  lawful QuerySKUsByProviderResponse_fits QuerySKUsByProviderResponse_write QuerySKUsByProviderResponse_Size QuerySKUsByProviderResponse_wire
    QuerySKUsByProviderResponse_switch QuerySKUsByProviderResponse_zero QuerySKUsByProviderResponse_go.
Proof.
  solve_lawful. intros [skus pagination]; open_decodes Hl.
  dec_subs_go 1 SKU_Unmarshal Hl (λ l, (l, None) : GoQuerySKUsByProviderResponse).
  dec_page 2 @PageResponse_unmarshals (λ l, (SKU_go <$> skus, l) : GoQuerySKUsByProviderResponse) Hl.
Qed.

Definition QueryProviderByAddressRequest_fits (m : QueryProviderByAddressRequest) : Prop :=
  from_option PageRequest_fits True (qpa_Pagination m).

#[global] Instance QueryProviderByAddressRequest_lawful :
  lawful QueryProviderByAddressRequest_fits QueryProviderByAddressRequest_write QueryProviderByAddressRequest_Size QueryProviderByAddressRequest_wire
    QueryProviderByAddressRequest_switch QueryProviderByAddressRequest_zero id.
Proof.
  solve_lawful. intros [address pagination activeOnly]; open_decodes Hl.
  dec_string 1. dec_page 2 @PageRequest_unmarshals (λ l, mkQueryProviderByAddressRequest address l false) Hl.
  dec_bool 3.
Qed.

Definition QueryProviderByAddressResponse_fits (m : QueryProviderByAddressResponse) : Prop :=
  from_option PageResponse_fits True (qpar_Pagination m).

#[global] Instance QueryProviderByAddressResponse_lawful :
  lawful QueryProviderByAddressResponse_fits QueryProviderByAddressResponse_write QueryProviderByAddressResponse_Size QueryProviderByAddressResponse_wire
    QueryProviderByAddressResponse_switch QueryProviderByAddressResponse_zero id.
Proof.
  solve_lawful. intros [providers pagination]; open_decodes Hl.
  dec_subs 1 Provider_Unmarshal Hl (λ l, mkQueryProviderByAddressResponse l None).
  dec_page 2 @PageResponse_unmarshals (λ l, mkQueryProviderByAddressResponse providers l) Hl.
Qed.
End codec.
