(* ===== verification/Credit.v ===== *)
(** * Credit reservations (src/x/billing/types/credit.go)

    Each function is translated loop by loop. The lemmas give the amount of every denom in its
    result, and say that releasing a reservation undoes reserving it and that available
    credit is balance minus reservation, never below zero. *)

From stdpp Require Import base tactics option list strings gmap.
From Stdlib Require Import ZArith Lia.
From S2P Require Import Prelude Sdk SdkRef SkuTypes BillingTypes.
Open Scope Z_scope.

Section credit.
Context `{SDK}.

Definition DeriveCreditAddress (tenant : Addr) : Addr :=
  address_Module ModuleName (sha256_Sum256 (String.append CreditAccountAddressPrefix tenant)).

Definition DeriveCreditAddressFromBech32 (tenant : string) : res Addr :=
  match AccAddressFromBech32 tenant with
  | None => Err External
  | Some tenantAddr => Ok (DeriveCreditAddress tenantAddr)
  end.

Definition GetAvailableCredit (balance reserved : Coins) : res Coins :=
  if Coins_IsZero reserved then Ok balance else
  foldlM (λ available coin,
    reservedAmount ← Coins_AmountOf reserved (Denom coin);
    if reservedAmount <? Amount coin then
      x ← int_Sub (Amount coin) reservedAmount;
      c ← NewCoin (Denom coin) x;
      Coins_Add available [c]
    else Ok available) [] balance.

Definition AddReservation (reserved toAdd : Coins) : res Coins := Coins_Add reserved toAdd.

Definition SubtractReservation (reserved toSubtract : Coins) : res Coins :=
  if Coins_IsZero reserved then Ok [] else
  foldlM (λ result coin,
    subtractAmount ← Coins_AmountOf toSubtract (Denom coin);
    if subtractAmount <? Amount coin then
      x ← int_Sub (Amount coin) subtractAmount;
      c ← NewCoin (Denom coin) x;
      Coins_Add result [c]
    else Ok result) [] reserved.

(** [total.Add(sdk.NewCoin(item.LockedPrice.Denom, price * quantity))] over the items. *)
Definition lease_rates (items : list LeaseItem) : res Coins :=
  foldlM (λ totalRates item,
    x ← int_Mul (Amount (LockedPrice item)) (Quantity item);
    itemRate ← NewCoin (Denom (LockedPrice item)) x;
    Coins_Add totalRates [itemRate]) [] items.

(** The rates times the duration. *)
Definition scale_rates (rates : Coins) (minLeaseDuration : Z) : res Coins :=
  foldlM (λ reservation rate,
    x ← int_Mul (Amount rate) minLeaseDuration;
    c ← NewCoin (Denom rate) x;
    Coins_Add reservation [c]) [] rates.

Definition CalculateLeaseReservation (items : list LeaseItem) (minLeaseDuration : Z) : res Coins :=
  if (llen items =? 0) || (minLeaseDuration =? 0) then Ok [] else
  totalRates ← lease_rates items;
  scale_rates totalRates minLeaseDuration.

Definition CalculateLeaseReservationFromRates (totalRatesPerSecond : Coins) (minLeaseDuration : Z)
    : res Coins :=
  if Coins_IsZero totalRatesPerSecond || (minLeaseDuration =? 0) then Ok [] else
  scale_rates totalRatesPerSecond minLeaseDuration.

Definition reservation_duration (lease : Lease) (minLeaseDuration : Z) : Z :=
  if MinLeaseDurationAtCreation lease =? 0 then minLeaseDuration else MinLeaseDurationAtCreation lease.

Definition GetLeaseReservationAmount (lease : Lease) (minLeaseDuration : Z) : res Coins :=
  CalculateLeaseReservation (Items lease) (reservation_duration lease minLeaseDuration).

(** The underflowing denoms with their shortfall, in the order of [toRelease]. *)
Definition CheckReservationRelease (reserved toRelease : Coins) : res (list (string * Z)) :=
  foldlM (λ underflows coin,
    reservedAmount ← Coins_AmountOf reserved (Denom coin);
    if reservedAmount <? Amount coin then
      x ← int_Sub (Amount coin) reservedAmount;
      Ok (underflows ++ [(Denom coin, x)])
    else Ok underflows) [] toRelease.
End credit.

(** ** Loops that accumulate coins *)

(** The sum of the positive [g x] over the entries of [l] with denom [d]. *)
Definition den_sum {A} (dn : A → string) (g : A → Z) (l : list A) (d : string) : Z :=
  lsum (λ x, if decide (dn x = d) then Z.max 0 (g x) else 0) l.

Lemma den_sum_nonneg {A} (dn : A → string) g l d : 0 ≤ den_sum dn g l d.
Proof. apply lsum_nonneg, Forall_forall. intros x _. case_decide; lia. Qed.

Section loops.
Context `{SL : SDKLaws}.

(** Partial correctness: each successful step adds [g x] of denom [dn x]. *)
Lemma fold_add_ok {A} (dn : A → string) (g : A → Z) (step : Coins → A → res Coins) l acc r :
  (∀ x acc acc', x ∈ l → valid_coins acc → step acc x = Ok acc' →
     valid_coins acc' ∧ ∀ d, amt acc' d = amt acc d + if decide (dn x = d) then Z.max 0 (g x) else 0) →
  valid_coins acc → foldlM step acc l = Ok r →
  valid_coins r ∧ ∀ d, amt r d = amt acc d + den_sum dn g l d.
Proof.
  revert acc. induction l as [|x l IH]; intros acc Hstep Hacc Hr; cbn in Hr; run_inv.
  - split; [done|]. unfold den_sum. cbn. intros; lia.
  - edestruct (Hstep x acc) as [Hv Ha]; [set_solver|done|done|].
    edestruct (IH x0) as [Hv' Ha']; [|done|done|].
    { intros; apply Hstep; [set_solver|done|done]. }
    split; [done|]. intros d. rewrite Ha', Ha. unfold den_sum. cbn. lia.
Qed.

(** Total correctness: no step fails and nothing overflows. *)
Lemma fold_add_total {A} (dn : A → string) (g : A → Z) (step : Coins → A → res Coins) l acc :
  (∀ x acc, x ∈ l → valid_coins acc →
     step acc x = if 0 <? g x then Coins_Add acc [mkCoin (dn x) (g x)] else Ok acc) →
  (∀ x, x ∈ l → ValidateDenom (dn x) = true) →
  valid_coins acc → (∀ d, amt acc d + den_sum dn g l d ≤ max_int) →
  ∃ r, foldlM step acc l = Ok r ∧ valid_coins r ∧ ∀ d, amt r d = amt acc d + den_sum dn g l d.
Proof.
  revert acc. induction l as [|x l IH]; intros acc Hstep Hdn Hacc Hmax; cbn.
  { exists acc. split_and!; [done|done|]. unfold den_sum; cbn. lia. }
  assert (Hx : ∃ acc', step acc x = Ok acc' ∧ valid_coins acc' ∧
            ∀ d, amt acc' d = amt acc d + if decide (dn x = d) then Z.max 0 (g x) else 0).
  { rewrite Hstep by (set_solver || done). destruct (0 <? g x) eqn:Eg.
    - assert (Hc : valid_coin (mkCoin (dn x) (g x))).
      { split; [apply Hdn; set_solver|]. cbn. specialize (Hmax (dn x)). unfold den_sum in Hmax.
        cbn in Hmax. rewrite decide_True in Hmax by done.
        pose proof (amt_range acc (dn x) Hacc). pose proof (den_sum_nonneg dn g l (dn x)).
        unfold den_sum in *. lia. }
      destruct (Coins_Add_total acc [mkCoin (dn x) (g x)]) as (acc' & He & Hv & Ha).
      + done.
      + by apply valid_singleton.
      + intros d. rewrite amt_singleton. unfold coin_amt; cbn. specialize (Hmax d).
        unfold den_sum in Hmax. cbn in Hmax. pose proof (den_sum_nonneg dn g l d).
        unfold den_sum in *. case_decide; lia.
      + exists acc'. split_and!; [done|done|]. intros d. rewrite Ha, amt_singleton. unfold coin_amt; cbn.
        case_decide; lia.
    - exists acc. split_and!; [done|done|]. intros d. case_decide; lia. }
  destruct Hx as (acc' & -> & Hv & Ha).
  destruct (IH acc') as (r & Hr & Hvr & Har).
  - intros; apply Hstep; [set_solver|done].
  - intros; apply Hdn; set_solver.
  - done.
  - intros d. rewrite Ha. specialize (Hmax d). unfold den_sum in *. cbn in Hmax. lia.
  - exists r. split_and!; [done|done|]. intros d. rewrite Har, Ha. unfold den_sum. cbn. lia.
Qed.

(** Over a valid coin set a denom occurs once. *)
Lemma den_sum_coins (g : Coin → Z) (cs : Coins) d :
  valid_coins cs →
  (∀ c, c ∈ cs → Denom c = d → den_sum Denom g cs d = Z.max 0 (g c)) ∧
  (d ∉ (Denom <$> cs) → den_sum Denom g cs d = 0).
Proof.
  unfold den_sum. induction cs as [|x cs IH]; [split; [set_solver|done]|].
  intros (_ & Hv & Hn & _)%valid_coins_cons. destruct (IH Hv) as [IH1 IH2].
  split; cbn.
  - intros c [->|Hc]%elem_of_cons Hd.
    + rewrite decide_True, IH2; [lia|by rewrite <- Hd|done].
    + rewrite decide_False, (IH1 c Hc Hd); [lia|]. intros Hx. apply Hn. rewrite Hx, <- Hd.
      by apply list_elem_of_fmap_2.
  - intros Hd. rewrite decide_False by set_solver. rewrite IH2 by set_solver. lia.
Qed.

(** The shape all loops over a coin set have: entry [c] becomes [f (Amount c) (Denom c)]. *)
Lemma coins_loop_total (f : Z → string → Z) (step : Coins → Coin → res Coins) (cs : Coins) :
  valid_coins cs → (∀ d, f 0 d ≤ 0) → (∀ d, f (amt cs d) d ≤ max_int) →
  (∀ c acc, c ∈ cs → valid_coins acc →
     step acc c = if 0 <? f (Amount c) (Denom c)
                  then Coins_Add acc [mkCoin (Denom c) (f (Amount c) (Denom c))] else Ok acc) →
  ∃ r, foldlM step [] cs = Ok r ∧ valid_coins r ∧ ∀ d, amt r d = Z.max 0 (f (amt cs d) d).
Proof.
  intros Hcs Hf0 Hmax Hstep. set (g c := f (Amount c) (Denom c)).
  assert (Hsum : ∀ d, den_sum Denom g cs d = Z.max 0 (f (amt cs d) d)).
  { intros d. destruct (den_sum_coins g cs d Hcs) as [H1 H2].
    destruct (amt_cases cs d Hcs) as [[E Hn]|(x & Hx & Hd & E)].
    - rewrite H2, E by done. specialize (Hf0 d). lia.
    - rewrite (H1 x Hx Hd), E. unfold g. by rewrite Hd. }
  destruct (fold_add_total Denom g step cs []) as (r & Hr & Hv & Ha).
  - done.
  - intros x Hx. apply (valid_coins_elem cs x Hcs Hx).
  - apply valid_coins_nil.
  - intros d. rewrite Hsum. specialize (Hmax d). cbn. unfold max_int in *. lia.
  - exists r. split_and!; [done|done|]. intros d. rewrite Ha, Hsum. cbn. lia.
Qed.
End loops.

(** ** Amounts of the results *)

Section amounts.
Context `{SL : SDKLaws}.
Implicit Types (a b r : list Coin) (d : string).

(** Per denom, both clamping loops compute [max 0 (x - y)], and they cannot fail. *)
Lemma clamp_loop_total a b :
  valid_coins a → valid_coins b →
  ∃ r, foldlM (λ acc coin,
         x ← Coins_AmountOf b (Denom coin);
         if x <? Amount coin then
           y ← int_Sub (Amount coin) x; c ← NewCoin (Denom coin) y; Coins_Add acc [c]
         else Ok acc) [] a = Ok r ∧
       valid_coins r ∧ ∀ d, amt r d = Z.max 0 (amt a d - amt b d).
Proof.
  intros Ha Hb. apply (coins_loop_total (λ x d, x - amt b d)); [done|..].
  - intros d. pose proof (amt_range b d Hb). lia.
  - intros d. pose proof (amt_range a d Ha). pose proof (amt_range b d Hb). lia.
  - intros c acc Hc _. destruct (valid_coins_elem a c Ha Hc) as [Hd Hr].
    pose proof (amt_range b (Denom c) Hb). rewrite Coins_AmountOf_spec by done. cbn.
    destruct (amt b (Denom c) <? Amount c) eqn:E, (0 <? Amount c - amt b (Denom c)) eqn:E'; try lia; [|done].
    rewrite int_Sub_total by lia. cbn. rewrite NewCoin_total by (done || lia). done.
Qed.

Lemma GetAvailableCredit_spec balance reserved :
  valid_coins balance → valid_coins reserved →
  ∃ r, GetAvailableCredit balance reserved = Ok r ∧ valid_coins r ∧
       ∀ d, amt r d = Z.max 0 (amt balance d - amt reserved d).
Proof.
  intros Hb Hr. unfold GetAvailableCredit. destruct (Coins_IsZero reserved) eqn:Ez.
  - apply Coins_IsZero_spec in Ez; [|done]. subst. exists balance. split_and!; [done|done|].
    intros d. pose proof (amt_range balance d Hb). unfold amt at 3. cbn. lia.
  - by apply clamp_loop_total.
Qed.

Lemma SubtractReservation_spec reserved x :
  valid_coins reserved → valid_coins x →
  ∃ r, SubtractReservation reserved x = Ok r ∧ valid_coins r ∧
       ∀ d, amt r d = Z.max 0 (amt reserved d - amt x d).
Proof.
  intros Hr Hx. unfold SubtractReservation. destruct (Coins_IsZero reserved) eqn:Ez.
  - apply Coins_IsZero_spec in Ez; [|done]. subst. exists []. split_and!; [done|apply valid_coins_nil|].
    intros d. pose proof (amt_range x d Hx). unfold amt at 1 2. cbn. lia.
  - by apply clamp_loop_total.
Qed.

Lemma SubtractReservation_ok reserved x r :
  valid_coins reserved → valid_coins x → SubtractReservation reserved x = Ok r →
  valid_coins r ∧ ∀ d, amt r d = Z.max 0 (amt reserved d - amt x d).
Proof.
  intros Hr Hx E. destruct (SubtractReservation_spec reserved x Hr Hx) as (r' & E' & ? & ?).
  rewrite E in E'. by injection E' as ->.
Qed.

(** Releasing what was just reserved restores the reservation exactly, and
    releasing more than is reserved clamps at the empty set instead of failing. *)
Lemma reservation_roundtrip reserved x r :
  valid_coins reserved → valid_coins x → AddReservation reserved x = Ok r →
  SubtractReservation r x = Ok reserved ∧ SubtractReservation reserved r = Ok [].
Proof.
  intros Hr Hx Hadd. destruct (Coins_Add_ok reserved x r Hr Hx Hadd) as [Hvr Ha].
  destruct (SubtractReservation_spec r x Hvr Hx) as (q & -> & Hq & Hqa).
  destruct (SubtractReservation_spec reserved r Hr Hvr) as (p & -> & Hp & Hpa).
  split; f_equal.
  - apply coins_ext; [done|done|]. intros d. rewrite Hqa, Ha. pose proof (amt_range reserved d Hr). lia.
  - apply amt_zero_nil; [done|]. intros d. rewrite Hpa, Ha.
    pose proof (amt_range reserved d Hr). pose proof (amt_range x d Hx). lia.
Qed.

(** ** Reservation of a lease *)

Definition item_ok (i : LeaseItem) : Prop :=
  valid_coin (LockedPrice i) ∧ 0 < Quantity i ≤ max_u64.

(** What [i] costs per second in denom [d]. *)
Definition item_rate d (i : LeaseItem) : Z :=
  if decide (Denom (LockedPrice i) = d) then Amount (LockedPrice i) * Quantity i else 0.

Definition rate (items : list LeaseItem) d : Z := lsum (item_rate d) items.

Lemma item_rate_nonneg d i : item_ok i → 0 ≤ item_rate d i.
Proof. intros [[_ ?] ?]. unfold item_rate. case_decide; nia. Qed.

Lemma rate_nonneg items d : Forall item_ok items → 0 ≤ rate items d.
Proof. intros Hi. apply lsum_nonneg. eapply Forall_impl; [done|]. intros; by apply item_rate_nonneg. Qed.

Lemma den_sum_rate items d :
  Forall item_ok items →
  den_sum (Denom ∘ LockedPrice) (λ i, Amount (LockedPrice i) * Quantity i) items d = rate items d.
Proof.
  intros Hi. apply lsum_ext. eapply Forall_impl; [done|]. intros i [[_ ?] ?]. unfold item_rate. cbn.
  case_decide; [|done]. nia.
Qed.

Lemma lease_rates_ok items r :
  Forall item_ok items → lease_rates items = Ok r → valid_coins r ∧ ∀ d, amt r d = rate items d.
Proof.
  intros Hi Hr. unfold lease_rates in Hr.
  apply (fold_add_ok (Denom ∘ LockedPrice) (λ i, Amount (LockedPrice i) * Quantity i)) in Hr as [Hv Ha].
  - split; [done|]. intros d. rewrite Ha, den_sum_rate by done. cbn. lia.
  - intros i acc acc' Hin Hacc Hs. rewrite Forall_forall in Hi.
    destruct (Hi i Hin) as [[_ ?] ?]. run_inv.
    match goal with H : int_Mul _ _ = Ok _ |- _ => apply int_Mul_ok in H as [-> ?] end.
    match goal with H : NewCoin _ _ = Ok _ |- _ => apply NewCoin_ok in H as (-> & ? & ?) end.
    apply Coins_Add_ok in Hs as [? Hs]; [|done|apply valid_singleton; split; cbn; [done|nia]].
    split; [done|]. intros d. rewrite Hs, amt_singleton. unfold coin_amt. cbn. case_decide; nia.
  - apply valid_coins_nil.
Qed.

Lemma lease_rates_total items :
  Forall item_ok items → (∀ d, rate items d ≤ max_int) →
  ∃ r, lease_rates items = Ok r ∧ valid_coins r ∧ ∀ d, amt r d = rate items d.
Proof.
  intros Hi Hm.
  destruct (fold_add_total (Denom ∘ LockedPrice) (λ i, Amount (LockedPrice i) * Quantity i)
    (λ totalRates item,
      x ← int_Mul (Amount (LockedPrice item)) (Quantity item);
      itemRate ← NewCoin (Denom (LockedPrice item)) x;
      Coins_Add totalRates [itemRate]) items []) as (r & Hr & Hv & Ha).
  - intros i acc Hin Hacc. pose proof Hi as Hi'. rewrite Forall_forall in Hi'.
    destruct (Hi' i Hin) as [[Hd ?] ?].
    assert (Hle : Amount (LockedPrice i) * Quantity i ≤ max_int).
    { etrans; [|apply (Hm (Denom (LockedPrice i)))]. unfold rate. clear Hm.
      apply list_elem_of_split in Hin as (l1 & l2 & ->). rewrite lsum_app. cbn.
      apply Forall_app in Hi as [H1 H2]. apply Forall_cons in H2 as [_ H2].
      pose proof (rate_nonneg l1 (Denom (LockedPrice i)) H1).
      pose proof (rate_nonneg l2 (Denom (LockedPrice i)) H2). unfold rate in *.
      unfold item_rate at 2. rewrite decide_True by done. lia. }
    rewrite int_Mul_total by nia. cbn. rewrite NewCoin_total by (done || nia). cbn.
    destruct (0 <? _) eqn:?; [done|nia].
  - intros i Hin. rewrite Forall_forall in Hi. by destruct (Hi i Hin) as [[Hd ?] ?].
  - apply valid_coins_nil.
  - intros d. rewrite den_sum_rate by done. cbn. apply Hm.
  - exists r. split_and!; [done|done|]. intros d. rewrite Ha, den_sum_rate by done. cbn. lia.
Qed.

Lemma scale_rates_ok rates dur r :
  valid_coins rates → 0 < dur → scale_rates rates dur = Ok r →
  valid_coins r ∧ ∀ d, amt r d = amt rates d * dur.
Proof.
  intros Hc Hdur Hr. unfold scale_rates in Hr.
  apply (fold_add_ok Denom (λ c, Amount c * dur)) in Hr as [Hv Ha].
  - split; [done|]. intros d. rewrite Ha.
    destruct (den_sum_coins (λ c, Amount c * dur) rates d Hc) as [H1 H2]. cbn.
    destruct (amt_cases rates d Hc) as [[-> Hn]|(x & Hx & Hd & ->)].
    + rewrite H2 by done. lia.
    + rewrite (H1 x Hx Hd). destruct (valid_coins_elem rates x Hc Hx). nia.
  - intros c acc acc' Hin Hacc Hs. destruct (valid_coins_elem rates c Hc Hin) as [_ ?]. run_inv.
    match goal with H : int_Mul _ _ = Ok _ |- _ => apply int_Mul_ok in H as [-> ?] end.
    match goal with H : NewCoin _ _ = Ok _ |- _ => apply NewCoin_ok in H as (-> & ? & ?) end.
    apply Coins_Add_ok in Hs as [? Hs]; [|done|apply valid_singleton; split; cbn; [done|nia]].
    split; [done|]. intros d. rewrite Hs, amt_singleton. unfold coin_amt. cbn. case_decide; nia.
  - apply valid_coins_nil.
Qed.

Lemma scale_rates_total rates dur :
  valid_coins rates → 0 < dur → (∀ d, amt rates d * dur ≤ max_int) →
  ∃ r, scale_rates rates dur = Ok r ∧ valid_coins r ∧ ∀ d, amt r d = amt rates d * dur.
Proof.
  intros Hc Hdur Hm.
  destruct (coins_loop_total (λ x _, x * dur)
    (λ reservation rate,
      x ← int_Mul (Amount rate) dur; c ← NewCoin (Denom rate) x; Coins_Add reservation [c]) rates)
    as (r & Hr & Hv & Ha).
  - done.
  - intros d. lia.
  - intros d. apply Hm.
  - intros c acc Hin Hacc. destruct (valid_coins_elem rates c Hc Hin) as [Hd ?].
    specialize (Hm (Denom c)). rewrite (amt_elem rates c Hc Hin) in Hm.
    rewrite int_Mul_total by nia. cbn. rewrite NewCoin_total by (done || nia). cbn.
    destruct (0 <? _) eqn:?; [done|nia].
  - exists r. split_and!; [done|done|]. intros d. rewrite Ha. pose proof (amt_range rates d Hc). cbn beta. nia.
Qed.

Lemma CalculateLeaseReservation_ok items dur r :
  Forall item_ok items → 0 ≤ dur → CalculateLeaseReservation items dur = Ok r →
  valid_coins r ∧ ∀ d, amt r d = rate items d * dur.
Proof.
  intros Hi Hdur. unfold CalculateLeaseReservation. destruct (llen items =? 0) eqn:E0; cbn.
  - intros [= <-]. split; [apply valid_coins_nil|]. destruct items; [done|].
    unfold llen in E0. apply Z.eqb_eq in E0. cbn [length] in E0. lia.
  - destruct (dur =? 0) eqn:E1; cbn.
    + intros [= <-]. split; [apply valid_coins_nil|]. intros d. unfold amt. cbn. lia.
    + intros Hr. run_inv.
      match goal with H : lease_rates _ = Ok _ |- _ => apply lease_rates_ok in H as [Hv Ha] end; [|done].
      apply scale_rates_ok in Hr as [Hv' Ha']; [|done|lia]. split; [done|].
      intros d. by rewrite Ha', Ha.
Qed.

Lemma CalculateLeaseReservation_total items dur :
  Forall item_ok items → 0 ≤ dur → (∀ d, rate items d * Z.max 1 dur ≤ max_int) →
  ∃ r, CalculateLeaseReservation items dur = Ok r.
Proof.
  intros Hi Hdur Hm. unfold CalculateLeaseReservation.
  destruct (llen items =? 0); [by eauto|]. cbn. destruct (dur =? 0) eqn:E1; [by eauto|].
  destruct (lease_rates_total items Hi) as (q & -> & Hq & Ha).
  - intros d. specialize (Hm d). pose proof (rate_nonneg items d Hi). nia.
  - cbn. destruct (scale_rates_total q dur Hq) as (r & -> & _); [lia| |by eauto].
    intros d. rewrite Ha. specialize (Hm d). pose proof (rate_nonneg items d Hi). nia.
Qed.

(** What the reservation of [l] is worth in denom [d]. *)
Definition reserved_for (l : Lease) d : Z := rate (Items l) d * MinLeaseDurationAtCreation l.

Lemma GetLeaseReservationAmount_ok l dur r :
  Forall item_ok (Items l) → 0 < MinLeaseDurationAtCreation l →
  GetLeaseReservationAmount l dur = Ok r →
  valid_coins r ∧ ∀ d, amt r d = reserved_for l d.
Proof.
  intros Hi Hd. unfold GetLeaseReservationAmount, reservation_duration.
  destruct (_ =? 0) eqn:E; [lia|]. intros Hr.
  apply CalculateLeaseReservation_ok in Hr as [? ?]; [done|done|lia].
Qed.

(** The reservation of a lease is, in every denom, the sum over its items of
    locked price times quantity, times the minimum lease duration; it is computed without
    failing when no denom's total exceeds what [math.Int] holds. *)
Lemma lease_reservation_exact items dur :
  Forall item_ok items → 0 < dur → (∀ d, rate items d * dur ≤ max_int) →
  ∃ r, CalculateLeaseReservation items dur = Ok r ∧ valid_coins r ∧
       ∀ d, amt r d = rate items d * dur.
Proof.
  intros Hi Hdur Hm. destruct (CalculateLeaseReservation_total items dur Hi) as [r Hr]; [lia|..].
  - intros d. specialize (Hm d). by replace (Z.max 1 dur) with dur by lia.
  - exists r. split; [done|]. apply CalculateLeaseReservation_ok; [done|lia|done].
Qed.

(** [createLeaseInternal] reserves from the rates it already summed; releasing recomputes from the
    items of the lease. *)
Lemma CalculateLeaseReservationFromRates_ok rates dur r :
  valid_coins rates → 0 ≤ dur → CalculateLeaseReservationFromRates rates dur = Ok r →
  valid_coins r ∧ ∀ d, amt r d = amt rates d * dur.
Proof.
  intros Hc Hdur. unfold CalculateLeaseReservationFromRates.
  destruct (Coins_IsZero rates) eqn:Ez; cbn.
  - apply Coins_IsZero_spec in Ez; [|done]. subst. intros [= <-]. split; [apply valid_coins_nil|done].
  - destruct (dur =? 0) eqn:E; cbn.
    + intros [= <-]. split; [apply valid_coins_nil|]. intros d. unfold amt at 1. cbn. lia.
    + apply scale_rates_ok; [done|lia].
Qed.
End amounts.

