(* ===== verification/Accrual.v ===== *)
(** * Accrual (src/x/billing/keeper/accrual.go)

    What a lease costs over a duration: locked price times quantity times whole seconds. The
    theorems say what is computed, that the duration cap is the only error, and that settling in
    several steps never charges more than settling once. *)

From stdpp Require Import base tactics option list strings gmap.
From Stdlib Require Import ZArith Lia.
From S2P Require Import Prelude Sdk SdkRef SkuTypes BillingTypes Credit.
Open Scope Z_scope.

Definition MaxDurationSeconds : Z := 100 * 365 * 24 * 60 * 60.

Record LeaseItemWithPrice : Type := mkItemWithPrice {
  wp_SkuUUID : string; wp_Quantity : Z; LockedPricePerSecond : Coin }.

(** [int64(duration / time.Second)]: Go's division truncates. *)
Definition duration_seconds (duration : Z) : Z := Z.quot duration Second.

Section accrual.
Context `{SDK}.

Definition ConvertBasePriceToPerSecond (basePrice : Coin) (u : Unit) : res Coin :=
  r ← CalculatePricePerSecond basePrice u;
  match r with
  | None => Err Plain
  | Some perSecond => NewCoin (Denom basePrice) perSecond
  end.

Definition CalculateAccruedAmount (lockedPricePerSecond : Coin) (quantity duration : Z) : res Coin :=
  let durationSeconds := duration_seconds duration in
  if durationSeconds <? 0 then NewCoin (Denom lockedPricePerSecond) 0 else
  if MaxDurationSeconds <? durationSeconds then Err Plain else
  x ← int_Mul (Amount lockedPricePerSecond) quantity;
  result ← int_Mul x durationSeconds;
  if result <? 0 then Err Plain else
  NewCoin (Denom lockedPricePerSecond) result.

Definition CalculateTotalAccruedForLease (items : list LeaseItemWithPrice) (duration : Z) : res Coins :=
  foldlM (λ totals item,
    accrued ← CalculateAccruedAmount (LockedPricePerSecond item) (wp_Quantity item) duration;
    if Coin_IsPositive accrued then Coins_Add totals [accrued] else Ok totals) [] items.
End accrual.

(** settlement.go *)
Definition LeaseItemsToWithPrice (items : list LeaseItem) : list LeaseItemWithPrice :=
  (λ i, mkItemWithPrice (item_SkuUuid i) (Quantity i) (LockedPrice i)) <$> items.

(** The accrual of a lease's items, as every caller computes it. *)
Notation accrued_for items duration :=
  (CalculateTotalAccruedForLease (LeaseItemsToWithPrice items) duration) (only parsing).

(** Whole seconds between two block times, as accrual counts them. *)
Definition billed_seconds (from to : Z) : Z := duration_seconds (time_Sub to from).

Lemma duration_seconds_nonneg x : 0 ≤ x → 0 ≤ duration_seconds x.
Proof. intros. unfold duration_seconds. apply Z.quot_pos; unfold Second; lia. Qed.

Lemma billed_seconds_floor t0 t1 :
  t0 ≤ t1 → t1 - t0 ≤ max_i64 → billed_seconds t0 t1 = (t1 - t0) / Second.
Proof.
  intros. unfold billed_seconds, duration_seconds, time_Sub, min_i64 in *.
  rewrite Z.quot_div_nonneg by (unfold Second; lia). f_equal. unfold max_i64 in *. lia.
Qed.

Section accrual_props.
Context `{SL : SDKLaws}.
Implicit Types (items : list LeaseItem).

Lemma ConvertBasePriceToPerSecond_ok c u k :
  0 ≤ Amount c → ConvertBasePriceToPerSecond c u = Ok k →
  Denom k = Denom c ∧ ValidateDenom (Denom k) = true ∧ 0 < Amount k ≤ Amount c.
Proof.
  intros Hc E. unfold ConvertBasePriceToPerSecond in E. run_split.
  apply NewCoin_ok in E as (-> & ? & ?). cbn.
  edestruct (CalculatePricePerSecond_some c u) as (q & Hq & ? & ?); [done..|].
  pose proof (divisor_pos u q Hq). split_and!; [done|done|lia|nia].
Qed.

Lemma den_sum_accrual items s d :
  Forall item_ok items → 0 ≤ s →
  den_sum (Denom ∘ LockedPricePerSecond) (λ i, Amount (LockedPricePerSecond i) * wp_Quantity i * s)
    (LeaseItemsToWithPrice items) d = rate items d * s.
Proof.
  intros Hi Hs. unfold rate, den_sum. rewrite <- lsum_mul.
  induction Hi as [|i items Hx Hi IH]; [done|].
  change (LeaseItemsToWithPrice (i :: items))
    with (mkItemWithPrice (item_SkuUuid i) (Quantity i) (LockedPrice i) :: LeaseItemsToWithPrice items).
  cbn [lsum]. rewrite IH. destruct Hx as [[_ ?] ?]. unfold item_rate at 2. cbn. case_decide; nia.
Qed.

(** Success gives exactly rate times whole seconds. *)
Lemma accrued_ok items duration r :
  Forall item_ok items → 0 ≤ duration → accrued_for items duration = Ok r →
  valid_coins r ∧ ∀ d, amt r d = rate items d * duration_seconds duration.
Proof.
  intros Hi Hd Hr. pose proof (duration_seconds_nonneg duration Hd) as Hs.
  unfold CalculateTotalAccruedForLease in Hr.
  set (g := λ i : LeaseItemWithPrice, Amount (LockedPricePerSecond i) * wp_Quantity i * duration_seconds duration).
  apply (fold_add_ok (Denom ∘ LockedPricePerSecond) g) in Hr as [Hv Ha].
  - split; [done|]. intros d. rewrite Ha. unfold g. rewrite den_sum_accrual by done. cbn. lia.
  - intros i acc acc' Hin Hacc Hstep. unfold LeaseItemsToWithPrice in Hin.
    apply list_elem_of_fmap in Hin as (j & -> & Hj). rewrite Forall_forall in Hi.
    destruct (Hi j Hj) as [[_ ?] ?]. run_inv. rename x into c.
    match goal with H : CalculateAccruedAmount _ _ _ = Ok _ |- _ => rename H into Hc end.
    unfold CalculateAccruedAmount in Hc. cbn in Hc.
    destruct (_ <? 0) eqn:E1 in Hc; [lia|]. destruct (MaxDurationSeconds <? _) eqn:E2 in Hc; [done|].
    run_inv. repeat match goal with H : int_Mul _ _ = Ok _ |- _ => apply int_Mul_ok in H as [-> ?] end.
    destruct (_ <? 0) eqn:E3 in Hc; [done|]. apply NewCoin_ok in Hc as (-> & ? & ?).
    unfold g, Coin_IsPositive in *. cbn in *. destruct (0 <? _) eqn:E4 in Hstep.
    + apply Coins_Add_ok in Hstep as [? Hq]; [|done|apply valid_singleton; split; cbn; [done|lia]].
      split; [done|]. intros d. rewrite Hq, amt_singleton. unfold coin_amt. cbn. case_decide; lia.
    + injection Hstep as <-. split; [done|]. intros d. case_decide; nia.
  - apply valid_coins_nil.
Qed.

(** The only error is the cap on the duration. *)
Lemma accrued_amount_err price quantity duration :
  valid_coin price → 0 < quantity → 0 ≤ duration_seconds duration ≤ MaxDurationSeconds →
  match CalculateAccruedAmount price quantity duration with
  | Ok c => ValidateDenom (Denom c) = true ∧ Amount c ≤ max_int
  | Err _ => False
  | Panic => True
  end.
Proof.
  intros [Hden Hp] Hq Hs. unfold CalculateAccruedAmount.
  destruct (_ <? 0) eqn:E1; [lia|]. destruct (MaxDurationSeconds <? _) eqn:E2; [lia|].
  rewrite int_Mul_spec. destruct (_ <=? _); [|exact I]. rewrite ok_bind. cbv beta. rewrite int_Mul_spec.
  destruct (Z.leb_spec (Z.abs (Amount price * quantity * duration_seconds duration)) max_int); [|exact I].
  rewrite ok_bind. cbv beta. destruct (Z.ltb_spec (Amount price * quantity * duration_seconds duration) 0); [nia|]. rewrite NewCoin_total by (done || lia).
  cbn. split; [done|lia].
Qed.

Lemma accrued_err items duration e :
  Forall item_ok items → 0 ≤ duration → accrued_for items duration = Err e →
  MaxDurationSeconds < duration_seconds duration.
Proof.
  intros Hi Hd. pose proof (duration_seconds_nonneg duration Hd) as Hs. unfold CalculateTotalAccruedForLease.
  destruct (Z.lt_ge_cases MaxDurationSeconds (duration_seconds duration)) as [|Hcap]; [done|].
  match goal with |- foldlM ?f _ _ = _ → _ => set (F := f) end.
  cut (∀ acc, valid_coins acc → foldlM F acc (LeaseItemsToWithPrice items) ≠ Err e).
  { intros Hno E. destruct (Hno [] valid_coins_nil E). }
  induction Hi as [|i items [Hp Hq] Hi IH]; intros acc Hacc; [done|]. cbn [LeaseItemsToWithPrice fmap list_fmap foldlM].
  unfold F at 2. cbn [LockedPricePerSecond wp_Quantity].
  pose proof (accrued_amount_err (LockedPrice i) (Quantity i) duration Hp ltac:(lia) ltac:(lia)) as Hc.
  destruct (CalculateAccruedAmount _ _ _) as [c| |]; [|destruct Hc|cbn; discriminate]. destruct Hc as [Hden Hmax]. rewrite ok_bind.
  unfold Coin_IsPositive. destruct (0 <? _) eqn:E5; [|rewrite ok_bind; by apply IH].
  pose proof (Coins_Add_spec acc [c] Hacc ltac:(apply valid_singleton; split; [done|lia])) as Hadd.
  destruct (Coins_Add acc _) as [acc'| |]; [|destruct Hadd|cbn; discriminate]. rewrite ok_bind. apply IH, Hadd.
Qed.

(** Within the cap and within [math.Int], accrual succeeds. *)
Lemma accrued_total items duration :
  Forall item_ok items → 0 ≤ duration → duration_seconds duration ≤ MaxDurationSeconds →
  (∀ d, rate items d * Z.max 1 (duration_seconds duration) ≤ max_int) →
  ∃ r, accrued_for items duration = Ok r.
Proof.
  intros Hi Hd Hcap Hm. pose proof (duration_seconds_nonneg duration Hd) as Hs.
  set (g := λ i : LeaseItemWithPrice, Amount (LockedPricePerSecond i) * wp_Quantity i * duration_seconds duration).
  destruct (fold_add_total (Denom ∘ LockedPricePerSecond) g
    (λ totals item,
      accrued ← CalculateAccruedAmount (LockedPricePerSecond item) (wp_Quantity item) duration;
      if Coin_IsPositive accrued then Coins_Add totals [accrued] else Ok totals)
    (LeaseItemsToWithPrice items) []) as (r & Hr & _).
  - intros i acc Hin Hacc. unfold LeaseItemsToWithPrice in Hin.
    apply list_elem_of_fmap in Hin as (j & -> & Hj). pose proof Hi as Hi'. rewrite Forall_forall in Hi'.
    destruct (Hi' j Hj) as [[Hdn ?] ?]. cbn.
    assert (Hle : Amount (LockedPrice j) * Quantity j * Z.max 1 (duration_seconds duration) ≤ max_int).
    { etrans; [|apply (Hm (Denom (LockedPrice j)))]. apply Z.mul_le_mono_nonneg_r; [lia|].
      apply list_elem_of_split in Hj as (l1 & l2 & ->). unfold rate. rewrite lsum_app. cbn.
      apply Forall_app in Hi as [H1 H2]. apply Forall_cons in H2 as [_ H2].
      pose proof (rate_nonneg l1 (Denom (LockedPrice j)) H1).
      pose proof (rate_nonneg l2 (Denom (LockedPrice j)) H2). unfold rate in *.
      unfold item_rate at 2. rewrite decide_True by done. lia. }
    unfold CalculateAccruedAmount, g. cbn.
    destruct (duration_seconds duration <? 0) eqn:E1; [lia|].
    destruct (MaxDurationSeconds <? duration_seconds duration) eqn:E2; [lia|].
    rewrite int_Mul_total by nia. cbn. rewrite int_Mul_total by nia. cbn.
    destruct (Amount (LockedPrice j) * Quantity j * duration_seconds duration <? 0) eqn:E3; [nia|].
    rewrite NewCoin_total by (done || nia). done.
  - intros i Hin. apply list_elem_of_fmap in Hin as (j & -> & Hj). rewrite Forall_forall in Hi.
    by destruct (Hi j Hj) as [[? ?] ?].
  - apply valid_coins_nil.
  - intros d. unfold g. rewrite den_sum_accrual by done. specialize (Hm d). pose proof (rate_nonneg items d Hi). cbn. nia.
  - eauto.
Qed.

(** C38 (functional): accrual over a non-negative duration succeeds and is, in every denom, the sum over
    the items of price times quantity times the whole seconds elapsed, provided the duration is within
    the 100-year cap and the amounts fit [math.Int]; beyond the cap a lease with items reports an error. *)
Theorem accrual_exact items duration :
  Forall item_ok items → 0 ≤ duration →
  (duration_seconds duration ≤ MaxDurationSeconds →
   (∀ d, rate items d * Z.max 1 (duration_seconds duration) ≤ max_int) →
   ∃ r, accrued_for items duration = Ok r ∧ valid_coins r ∧
        ∀ d, amt r d = rate items d * duration_seconds duration) ∧
  (MaxDurationSeconds < duration_seconds duration → items ≠ [] → accrued_for items duration = Err Plain).
Proof.
  intros Hi Hd. split.
  - intros Hcap Hm. destruct (accrued_total items duration Hi Hd Hcap Hm) as [r Hr].
    exists r. split; [done|]. by apply accrued_ok.
  - intros Hcap Hne. destruct items as [|i items]; [done|]. cbn. unfold CalculateAccruedAmount.
    destruct (_ <? 0) eqn:E; [unfold MaxDurationSeconds in *; lia|].
    by destruct (MaxDurationSeconds <? _) eqn:?; [|lia].
Qed.

(** Settling at an intermediate time never charges more than settling once, and
    loses less than one second of the lease's rate. *)
Lemma accrual_split items t0 t1 t2 a b c d :
  Forall item_ok items → t0 ≤ t1 ≤ t2 → t2 - t0 ≤ max_i64 →
  accrued_for items (time_Sub t1 t0) = Ok a →
  accrued_for items (time_Sub t2 t1) = Ok b →
  accrued_for items (time_Sub t2 t0) = Ok c →
  amt c d - rate items d ≤ amt a d + amt b d ≤ amt c d.
Proof.
  intros Hi Ht Hmax Ha Hb Hc.
  assert (∀ x y, x ≤ y → 0 ≤ time_Sub y x) as Hnn by (intros; unfold time_Sub, min_i64, max_i64; lia).
  apply accrued_ok in Ha as [_ ->]; [|done|apply Hnn; lia].
  apply accrued_ok in Hb as [_ ->]; [|done|apply Hnn; lia].
  apply accrued_ok in Hc as [_ ->]; [|done|apply Hnn; lia].
  pose proof (rate_nonneg items d Hi).
  fold (billed_seconds t0 t1) (billed_seconds t1 t2) (billed_seconds t0 t2).
  rewrite !billed_seconds_floor by lia.
  assert (Hfl : (t2 - t0) / Second - 1 ≤ (t1 - t0) / Second + (t2 - t1) / Second ≤ (t2 - t0) / Second).
  { unfold Second. assert (t2 - t0 = (t1 - t0) + (t2 - t1)) as -> by lia.
    generalize (t1 - t0), (t2 - t1). intros. Z.div_mod_to_equations. lia. }
  nia.
Qed.

(** Within the duration cap an accrual that exceeds 2^256-1 is not reported as an error:
    the multiplication panics, so the caller's handling of calculation errors is bypassed. *)
Theorem accrual_overflow_panics price quantity duration :
  0 < Amount price → 0 < quantity → 0 < duration_seconds duration ≤ MaxDurationSeconds →
  max_int < Amount price * quantity * duration_seconds duration →
  CalculateAccruedAmount price quantity duration = Panic.
Proof.
  intros Hp Hq Hd Hm. unfold CalculateAccruedAmount.
  destruct (_ <? 0) eqn:E0; [lia|]. destruct (_ <? duration_seconds duration) eqn:E1; [lia|].
  rewrite int_Mul_spec. destruct (_ <=? _) eqn:E2; [|done]. cbn.
  rewrite int_Mul_spec. destruct (Z.abs (Amount price * quantity * duration_seconds duration) <=? _) eqn:E3; [|done].
  apply Z.leb_le in E3. nia.
Qed.
End accrual_props.

Lemma accrual_exact_witness :
  ∃ r, accrued_for [mkLeaseItem "sku" 3 (mkCoin "umfx" 2) "" ""] (10 * Second + 5) = Ok r ∧
       valid_coins r ∧ ∀ d, amt r d = rate [mkLeaseItem "sku" 3 (mkCoin "umfx" 2) "" ""] d * 10.
Proof.
  apply (accrual_exact [mkLeaseItem "sku" 3 (mkCoin "umfx" 2) "" ""] (10 * Second + 5)).
  - repeat constructor; vm_compute; done.
  - vm_compute. discriminate.
  - vm_compute. discriminate.
  - intros d. unfold rate, lsum, item_rate. cbn. case_decide; vm_compute; discriminate.
Defined.

Lemma accrual_overflow_panics_witness :
  CalculateAccruedAmount (mkCoin "umfx" (2 ^ 255)) 2 Second = Panic.
Proof.
  apply (accrual_overflow_panics (mkCoin "umfx" (2 ^ 255)) 2 Second);
    [vm_compute; reflexivity|vm_compute; reflexivity|split; vm_compute; [reflexivity|discriminate]|vm_compute; reflexivity].
Defined.

