(* ===== verification/Keeper.v ===== *)
(** * The billing keeper's store (src/x/billing/keeper/keeper.go, custom_domain.go)

    [World] is what a message handler can change: the collections of the billing keeper, the state
    of the sku module (behind [SKUKeeper]), the bank and the emitted events. An [IndexedMap] is its
    primary map; matching an index exactly is selecting the primary keys whose value has that
    reference key, in key order. Log lines are not modelled. *)

From stdpp Require Import base tactics option list strings gmap sorting fin_maps.
From Stdlib Require Import ZArith Lia.
From S2P Require Import Prelude Sdk SdkRef Uuid GoStd SkuTypes BillingTypes BillingMsgs SkuKeeper Credit Accrual.
Open Scope Z_scope.

(** ** What billing expects of the sku module *)

Class SKUKeeper : Type := {
  SkuState : Type;
  GetSKU : SkuState → string → res SKU;
  GetProvider : SkuState → string → res Provider;
}.

(** The promise, in the states where the sku module's own invariant holds: a stored SKU has a
    valid positive base price that passed [ValidatePriceAndUnit], and a provider has a valid UUID. *)
Class SKUKeeperLaws `{SDK} `(K : SKUKeeper) : Type := {
  sku_inv : SkuState → Prop;
  GetSKU_price s u k :
    sku_inv s → GetSKU s u = Ok k →
    valid_coin (sku_BasePrice k) ∧ ValidatePriceAndUnit (sku_BasePrice k) (sku_Unit k) = Ok tt;
  GetProvider_uuid s u p : sku_inv s → GetProvider s u = Ok p → IsValidUUID u = true;
}.

(** ** Events *)

Inductive event : Type :=
  | EvCreditFunded (tenant creditAddress sender : string) (amount : Coin) (newBalance : Z)
  | EvLeaseCreated (uuid tenant provider : string) (itemCount : Z) (totalRates : Coins)
      (pendingLeases : Z) (createdBy metaHash : string)
  | EvLeaseClosed (uuid tenant provider : string) (settled : Coins) (closedBy : string)
      (duration activeCount : Z) (reason : string)
  | EvBatchClosed (count : Z) (closedBy : string) (settled : Coins)
  | EvProviderWithdrawAutoClosed (uuid provider : string)
  | EvProviderWithdraw (uuid : string) (amounts : Coins) (provider payout : string)
  | EvBatchWithdraw (count : Z) (provider : string) (amounts : Coins) (payout : string)
  | EvProviderBatchWithdraw (provider : string) (amounts : Coins) (count : Z) (payout : string) (autoClosed : Z)
  | EvLeaseAutoClose (uuid tenant provider : string)
  | EvLeaseExpired (uuid tenant provider : string)
  | EvParamsUpdated
  | EvLeaseAcknowledged (uuid tenant provider by_ : string)
  | EvBatchAcknowledged (count : Z) (provider by_ : string)
  | EvLeaseRejected (uuid tenant provider by_ reason : string)
  | EvBatchRejected (count : Z) (provider by_ : string)
  | EvLeaseCancelled (uuid tenant provider by_ : string)
  | EvBatchCancelled (count : Z) (tenant by_ : string)
  | EvCustomDomainSet (uuid tenant service domain role : string)
  | EvCustomDomainCleared (uuid tenant service domain role : string).

(** ** State *)

Section world.
Context `{SDK} `{SKUKeeper}.

Record World : Type := mkWorld {
  k_Params : option Params;
  Leases : gmap string Lease;
  LeaseSequence : Z;
  CreditAccounts : gmap Addr CreditAccount;
  CreditAddressIndex : gmap Addr Addr;
  LeaseBySKUIndex : gmap (string * string) bool;
  CustomDomainIndex : gmap string CustomDomainTarget;
  sku : SkuState;
  bank : Bank;
  events : list event }.

Definition set_Params (x : Params) (w : World) : World :=
  mkWorld (Some x) (Leases w) (LeaseSequence w) (CreditAccounts w) (CreditAddressIndex w)
    (LeaseBySKUIndex w) (CustomDomainIndex w) (sku w) (bank w) (events w).
Definition set_Leases (x : gmap string Lease) (w : World) : World :=
  mkWorld (k_Params w) x (LeaseSequence w) (CreditAccounts w) (CreditAddressIndex w)
    (LeaseBySKUIndex w) (CustomDomainIndex w) (sku w) (bank w) (events w).
Definition set_LeaseSequence (x : Z) (w : World) : World :=
  mkWorld (k_Params w) (Leases w) x (CreditAccounts w) (CreditAddressIndex w)
    (LeaseBySKUIndex w) (CustomDomainIndex w) (sku w) (bank w) (events w).
Definition set_CreditAccounts (x : gmap Addr CreditAccount) (y : gmap Addr Addr) (w : World) : World :=
  mkWorld (k_Params w) (Leases w) (LeaseSequence w) x y
    (LeaseBySKUIndex w) (CustomDomainIndex w) (sku w) (bank w) (events w).
Definition set_LeaseBySKUIndex (x : gmap (string * string) bool) (w : World) : World :=
  mkWorld (k_Params w) (Leases w) (LeaseSequence w) (CreditAccounts w) (CreditAddressIndex w)
    x (CustomDomainIndex w) (sku w) (bank w) (events w).
Definition set_CustomDomainIndex (x : gmap string CustomDomainTarget) (w : World) : World :=
  mkWorld (k_Params w) (Leases w) (LeaseSequence w) (CreditAccounts w) (CreditAddressIndex w)
    (LeaseBySKUIndex w) x (sku w) (bank w) (events w).
Definition set_bank (x : Bank) (w : World) : World :=
  mkWorld (k_Params w) (Leases w) (LeaseSequence w) (CreditAccounts w) (CreditAddressIndex w)
    (LeaseBySKUIndex w) (CustomDomainIndex w) (sku w) x (events w).
Definition set_events (x : list event) (w : World) : World :=
  mkWorld (k_Params w) (Leases w) (LeaseSequence w) (CreditAccounts w) (CreditAddressIndex w)
    (LeaseBySKUIndex w) (CustomDomainIndex w) (sku w) (bank w) x.

Notation W := (M World).

Definition emit (e : event) : W unit := modify (λ w, set_events (events w ++ [e]) w).

(** ** Parameters, sequence *)

Definition GetParams : W Params := w ← get; lift (coll_get (k_Params w)).
Definition SetParams (p : Params) : W unit := modify (set_Params p).

(** [Sequence.Next] returns the stored number and stores its successor. *)
Definition GetNextLeaseSequence : W Z :=
  n ← gets LeaseSequence;
  modify (set_LeaseSequence (wrap_u64 (n + 1)));;
  mret n.

(** ** Leases *)

Definition Leases_Get (uuid : string) : W Lease := w ← get; lift (coll_get (Leases w !! uuid)).

Definition GetLease (uuid : string) : W Lease :=
  w ← get;
  match Leases w !! uuid with
  | Some l => mret l
  | None => err ErrLeaseNotFound
  end.

(** [IndexedMap.Set]: the tenant indexes need the tenant's address. *)
Definition Leases_Set (l : Lease) : W unit :=
  match AccAddressFromBech32 (Tenant l) with
  | None => err External
  | Some _ => modify (λ w, set_Leases (<[Uuid l := l]> (Leases w)) w)
  end.

Definition getPreviousLease (uuid : string) : W (option Lease) := gets (λ w, Leases w !! uuid).

(** The non-empty custom domains of the items by service name; a later item overwrites. *)
Definition domains_by_service (items : list LeaseItem) : gmap string string :=
  foldl (λ m i, if String.eqb (CustomDomain i) "" then m else <[item_ServiceName i := CustomDomain i]> m)
    ∅ items.

Definition set_domain (d : string) (t : CustomDomainTarget) : W unit :=
  modify (λ w, set_CustomDomainIndex (<[d := t]> (CustomDomainIndex w)) w).
Definition remove_domain (d : string) : W unit :=
  modify (λ w, set_CustomDomainIndex (delete d (CustomDomainIndex w)) w).

(** One iteration of the release loop: [s], [prevDomain] of the previous lease. *)
Definition release_domain (editable : bool) (uuid : string) (newByService : gmap string string)
    (s prevDomain : string) : W unit :=
  if editable && String.eqb (default ""%string (newByService !! s)) prevDomain then mret tt else
  idx ← gets CustomDomainIndex;
  match idx !! prevDomain with
  | Some existing =>
      if negb (String.eqb (tgt_LeaseUuid existing) uuid) || negb (String.eqb (tgt_ServiceName existing) s)
      then mret tt
      else remove_domain prevDomain
  | None => mret tt
  end.

(** One iteration of the install loop. *)
Definition install_domain (uuid : string) (s newDomain : string) : W unit :=
  idx ← gets CustomDomainIndex;
  match idx !! newDomain with
  | Some existing =>
      if String.eqb (tgt_LeaseUuid existing) uuid && String.eqb (tgt_ServiceName existing) s then mret tt
      else err ErrCustomDomainAlreadyClaimed
  | None => set_domain newDomain (mkTarget uuid s)
  end.

Section reconcile.
Context `{GoStd}.

Definition reconcileCustomDomainIndex (prev : option Lease) (lease : Lease) : W unit :=
  let editable := state_is (State lease) LEASE_STATE_PENDING || state_is (State lease) LEASE_STATE_ACTIVE in
  let prevByService := match prev with Some p => domains_by_service (Items p) | None => ∅ end in
  let newByService := domains_by_service (Items lease) in
  foldlM (λ _ '(s, prevDomain), release_domain editable (Uuid lease) newByService s prevDomain) tt
    (map_range 0 prevByService);;
  if negb editable then mret tt else
  foldlM (λ _ '(s, newDomain), install_domain (Uuid lease) s newDomain) tt
    (map_range 1 newByService).

Definition SetLease (lease : Lease) : W unit :=
  cached (
    prev ← getPreviousLease (Uuid lease);
    Leases_Set lease;;
    foldlM (λ _ item,
      modify (λ w, set_LeaseBySKUIndex (<[(item_SkuUuid item, Uuid lease) := true]> (LeaseBySKUIndex w)) w))
      tt (Items lease);;
    reconcileCustomDomainIndex prev lease).
End reconcile.

(** ** Index queries *)

(** [Indexes.X.MatchExact]: primary keys of the leases with the reference key, in key order. *)
Definition MatchExact (p : Lease → bool) (w : World) : list string :=
  filter (λ u, from_option p false (Leases w !! u) = true) (sorted_keys (Leases w)).

Definition tenant_is (a : Addr) (l : Lease) : bool := bool_decide (AccAddressFromBech32 (Tenant l) = Some a).
Definition provider_is (p : string) (l : Lease) : bool := String.eqb (ProviderUuid l) p.
Definition lease_state_is (s : LeaseState) (l : Lease) : bool := state_is (State l) s.

(** The loop the getters share: primary key, then [Leases.Get]. *)
Definition get_each (uuids : list string) : W (list Lease) :=
  foldlM (λ acc u, l ← Leases_Get u; mret (acc ++ [l])) [] uuids.

Definition GetAllLeases : W (list Lease) := gets (λ w, walk (Leases w)).

Definition GetLeasesByTenant (tenant : string) : W (list Lease) :=
  match AccAddressFromBech32 tenant with
  | None => err External
  | Some a => uuids ← gets (MatchExact (tenant_is a)); get_each uuids
  end.

(** The loop of [IterateLeasesByProvider] with the callback of [GetLeasesByProviderUUID]: stop
    once [maxGetLeasesByProviderUUID] leases are collected. *)
Definition maxGetLeasesByProviderUUID : Z := 10000.

Fixpoint iterate_capped (cap : Z) (acc : list Lease) (uuids : list string) : W (list Lease) :=
  match uuids with
  | [] => mret acc
  | u :: uuids' =>
      lease ← Leases_Get u;
      let acc' := acc ++ [lease] in
      if cap <=? llen acc' then mret acc' else iterate_capped cap acc' uuids'
  end.

Definition GetLeasesByProviderUUID (providerUUID : string) : W (list Lease) :=
  uuids ← gets (MatchExact (provider_is providerUUID));
  iterate_capped maxGetLeasesByProviderUUID [] uuids.

Definition GetLeasesByState (s : LeaseState) : W (list Lease) :=
  uuids ← gets (MatchExact (lease_state_is s)); get_each uuids.

Definition GetPendingLeases : W (list Lease) := GetLeasesByState LEASE_STATE_PENDING.
Definition GetActiveLeases : W (list Lease) := GetLeasesByState LEASE_STATE_ACTIVE.

Definition GetLeasesByProviderAndState (providerUUID : string) (s : LeaseState) : W (list Lease) :=
  uuids ← gets (MatchExact (λ l, provider_is providerUUID l && lease_state_is s l)); get_each uuids.

Definition GetPendingLeasesByProvider (providerUUID : string) : W (list Lease) :=
  GetLeasesByProviderAndState providerUUID LEASE_STATE_PENDING.

Definition GetLeasesByTenantAndState (tenant : string) (s : LeaseState) : W (list Lease) :=
  match AccAddressFromBech32 tenant with
  | None => err External
  | Some a => uuids ← gets (MatchExact (λ l, tenant_is a l && lease_state_is s l)); get_each uuids
  end.

(** The lease UUIDs under prefix [skuUUID] of the SKU index. *)
Definition sku_index_uuids (skuUUID : string) (w : World) : list string :=
  merge_sort String.le
    (omap (λ e : string * string * bool, if String.eqb e.1.1 skuUUID then Some e.1.2 else None)
       (map_to_list (LeaseBySKUIndex w))).

Definition GetLeasesBySKU (skuUUID : string) : W (list Lease) :=
  uuids ← gets (sku_index_uuids skuUUID); get_each uuids.

(** ** Credit accounts *)

Definition GetCreditAccount (tenant : string) : W CreditAccount :=
  match AccAddressFromBech32 tenant with
  | None => err ErrCreditAccountNotFound
  | Some a =>
      w ← get;
      match CreditAccounts w !! a with
      | Some ca => mret ca
      | None => err ErrCreditAccountNotFound
      end
  end.

Definition SetCreditAccount (ca : CreditAccount) : W unit :=
  match AccAddressFromBech32 (ca_Tenant ca) with
  | None => err External
  | Some a =>
      modify (λ w, set_CreditAccounts (<[a := ca]> (CreditAccounts w))
                     (<[DeriveCreditAddress a := a]> (CreditAddressIndex w)) w)
  end.

Definition GetAllCreditAccounts : W (list CreditAccount) := gets (λ w, walk (CreditAccounts w)).

Definition countLeasesByTenantAndStateScan (tenant : string) (s : LeaseState) : W Z :=
  match AccAddressFromBech32 tenant with
  | None => err External
  | Some a =>
      uuids ← gets (MatchExact (λ l, tenant_is a l && lease_state_is s l));
      mret (foldl (λ count _, wrap_u64 (count + 1)) 0 uuids)
  end.

Definition CountActiveLeasesByTenant (tenant : string) : W Z :=
  r ← try (GetCreditAccount tenant);
  match r with
  | inl ca => mret (ActiveLeaseCount ca)
  | inr e =>
      if bool_decide (e = ErrCreditAccountNotFound)
      then countLeasesByTenantAndStateScan tenant LEASE_STATE_ACTIVE else err e
  end.

Definition CountPendingLeasesByTenant (tenant : string) : W Z :=
  r ← try (GetCreditAccount tenant);
  match r with
  | inl ca => mret (PendingLeaseCount ca)
  | inr e =>
      if bool_decide (e = ErrCreditAccountNotFound)
      then countLeasesByTenantAndStateScan tenant LEASE_STATE_PENDING else err e
  end.

Definition DecrementActiveLeaseCount (ca : CreditAccount) : CreditAccount :=
  if 0 <? ActiveLeaseCount ca then set_ActiveLeaseCount (ActiveLeaseCount ca - 1) ca else ca.

Definition DecrementPendingLeaseCount (ca : CreditAccount) : CreditAccount :=
  if 0 <? PendingLeaseCount ca then set_PendingLeaseCount (PendingLeaseCount ca - 1) ca else ca.

(** The underflow check only feeds a log line, but it runs and can panic. *)
Definition ReleaseLeaseReservation (ca : CreditAccount) (lease : Lease) (minLeaseDuration : Z)
    : res CreditAccount :=
  reservationAmount ← GetLeaseReservationAmount lease minLeaseDuration;
  _ ← CheckReservationRelease (ReservedAmounts ca) reservationAmount;
  r ← SubtractReservation (ReservedAmounts ca) reservationAmount;
  Ok (set_ReservedAmounts r ca).

(** ** Balances *)

Definition GetCreditBalance (tenant denom : string) : W Coin :=
  creditAddr ← lift (DeriveCreditAddressFromBech32 tenant);
  b ← gets bank;
  mret (mkCoin denom (GetBalance b creditAddr denom)).

Definition getCreditBalancesForDenoms (tenant : string) (denoms : list string) : W Coins :=
  creditAddr ← lift (DeriveCreditAddressFromBech32 tenant);
  b ← gets bank;
  lift (foldlM (λ coins denom,
    let bal := mkCoin denom (GetBalance b creditAddr denom) in
    if Coin_IsPositive bal then Coins_Add coins [bal] else Ok coins) [] denoms).

(** [bankKeeper.SendCoins]. *)
Definition bank_SendCoins (from to : Addr) (cs : Coins) : W unit := λ w,
  match SendCoins (bank w) from to cs with
  | (true, b) => (Ok tt, set_bank b w)
  | (false, b) => (Err External, set_bank b w)
  end.

(** ** Authorization (custom_domain.go) *)

Definition HasAdminPrivileges (env : Env) (sender : string) : W string :=
  if String.eqb sender (authority env) then mret AttributeValueRoleAuthority else
  params ← GetParams;
  mret (if Params_IsAllowed params sender then AttributeValueRoleAllowed else ""%string).

Definition IsAuthorizedForTenant (env : Env) (sender tenant : string) : W string :=
  if String.eqb tenant "" then err Plain else
  if String.eqb sender tenant then mret AttributeValueRoleTenant else
  HasAdminPrivileges env sender.
End world.

Notation W := (M World) (only parsing).

(** ** The sku module implements the interface *)

#[export] Instance sku_keeper : SKUKeeper := {
  SkuState := SkuStore; GetSKU := sku_GetSKU; GetProvider := sku_GetProvider }.

#[export] Program Instance sku_keeper_laws `{SL : SDKLaws} : SKUKeeperLaws sku_keeper :=
  {| sku_inv := SkuInv |}.
Next Obligation.
  intros S SL s u k [Hs _] E. cbn in E. unfold sku_GetSKU in E. run_split.
  by destruct (Hs u _ ltac:(eassumption)) as (_ & _ & ? & ?).
Qed.
Next Obligation.
  intros S SL s u p [_ Hp] E. cbn in E. unfold sku_GetProvider in E. run_split.
  by destruct (Hp u _ ltac:(eassumption)) as (_ & ? & _).
Qed.

(** ** A concrete world, for the examples *)

Definition example_bank : ref_bank :=
  mkRefBank {[("alice", "umfx") := 1000000]} ∅ ∅.

(** One provider with two SKUs at 2 umfx per second, a funded tenant, no leases yet. *)
Definition example_world : World :=
  mkWorld (Some DefaultParams) ∅ 0 ∅ ∅ ∅ ∅ example_store example_bank [].

Definition example_item (d : string) : LeaseItem := mkLeaseItem "a" 3 (mkCoin "umfx" 2) "" d.

(** An active lease of the tenant, last settled at time 0. *)
Definition example_lease (u d : string) : Lease :=
  mkLease u "alice" (prov_Uuid example_provider) [example_item d] LEASE_STATE_ACTIVE 0 None 0 (Some 0)
    None "" None "" "" 3600.
