(* ===== verification/LeaseStore.v ===== *)
(** * Writing a lease: [SetLease] and the indexes it maintains (src/x/billing/keeper/keeper.go)

    [SetLease] is the only writer of leases. The theorems: the custom-domain index always lists
    exactly the domains of live leases, so a domain has at most one owner; the SKU index lists
    exactly the SKUs of every lease; and the result does not depend on the order in which Go
    ranges over the two maps built on the way. *)

From stdpp Require Import base tactics option list strings gmap sorting fin_maps.
From Stdlib Require Import ZArith Lia.
From S2P Require Import Prelude Sdk SdkRef Uuid GoStd SkuTypes BillingTypes BillingMsgs SkuKeeper Credit Accrual Keeper.
Open Scope Z_scope.

(** ** The maps of domains by service name *)

(** Items that carry a domain are told apart by their service names. *)
Definition domains_wf (items : list LeaseItem) : Prop :=
  ∀ i j, i ∈ items → j ∈ items → CustomDomain i ≠ ""%string → CustomDomain j ≠ ""%string →
    item_ServiceName i = item_ServiceName j → CustomDomain i = CustomDomain j.

Lemma domains_wf_sub items items' : (∀ i, i ∈ items' → i ∈ items) → domains_wf items → domains_wf items'.
Proof. intros Hs Hw i j ??. apply Hw; auto. Qed.

Lemma domains_by_service_spec items s d :
  domains_wf items →
  domains_by_service items !! s = Some d ↔
  ∃ i, i ∈ items ∧ item_ServiceName i = s ∧ CustomDomain i = d ∧ d ≠ ""%string.
Proof.
  unfold domains_by_service. induction items as [|i items IH] using rev_ind; intros Hw.
  { cbn. rewrite lookup_empty. set_solver. }
  rewrite foldl_app. cbn [foldl]. set (m := foldl _ ∅ items) in *.
  assert (Hw' : domains_wf items) by (eapply domains_wf_sub; [|done]; set_solver).
  specialize (IH Hw'). destruct (String.eqb (CustomDomain i) "") eqn:E.
  - apply String.eqb_eq in E. rewrite IH. split; [intros (j & Hj & Hr); exists j; split; [apply elem_of_app; by left|done]|].
    intros (j & [Hj|Hj%list_elem_of_singleton]%elem_of_app & ? & ? & ?); [eauto|]. subst. done.
  - apply String.eqb_neq in E. destruct (decide (item_ServiceName i = s)) as [<-|Hne].
    + rewrite lookup_insert_eq. split.
      * intros [= <-]. exists i. split_and!; [apply elem_of_app; right; by apply list_elem_of_singleton|done..].
      * intros (j & Hj & Hs & <- & Hd). f_equal. apply Hw; [apply elem_of_app; right; by apply list_elem_of_singleton|done..].
    + rewrite lookup_insert_ne by done. rewrite IH. split; [intros (j & Hj & Hr); exists j; split; [apply elem_of_app; by left|done]|].
      intros (j & [Hj|Hj%list_elem_of_singleton]%elem_of_app & ? & ? & ?); [eauto|]. by subst.
Qed.

Lemma value_dec (m : gmap string string) d : (∃ s, m !! s = Some d) ∨ (∀ s, m !! s ≠ Some d).
Proof.
  destruct (decide (d ∈ (map_to_list m).*2)) as [Hd|Hd].
  - apply list_elem_of_fmap in Hd as ([s d'] & -> & Hd%elem_of_map_to_list). eauto.
  - right. intros s Hs. apply Hd, list_elem_of_fmap. exists (s, d). by rewrite elem_of_map_to_list.
Qed.

Section store.
Context `{SDK} `{SKUKeeper}.
Implicit Types (w : World) (l : Lease) (d s : string).

(** ** The two loops over the index *)

Definition keeps (editable : bool) (new : gmap string string) s d : bool :=
  editable && String.eqb (default ""%string (new !! s)) d.

(** [release_domain] and [install_domain] as functions of the index. *)
Definition release_idx (editable : bool) (uuid : string) (new : gmap string string)
    (idx : gmap string CustomDomainTarget) (e : string * string) : gmap string CustomDomainTarget :=
  if keeps editable new e.1 e.2 then idx else
  if decide (idx !! e.2 = Some (mkTarget uuid e.1)) then delete e.2 idx else idx.

Lemma set_idx_id w : set_CustomDomainIndex (CustomDomainIndex w) w = w.
Proof. by destruct w. Qed.

Lemma set_idx_twice x y w : set_CustomDomainIndex x (set_CustomDomainIndex y w) = set_CustomDomainIndex x w.
Proof. done. Qed.

Lemma target_eqb t uuid s :
  (String.eqb (tgt_LeaseUuid t) uuid && String.eqb (tgt_ServiceName t) s) = bool_decide (t = mkTarget uuid s).
Proof.
  destruct t as [u v]. cbn. destruct (String.eqb u uuid) eqn:E1, (String.eqb v s) eqn:E2;
    rewrite ?String.eqb_eq, ?String.eqb_neq in *; cbn; symmetry; first [apply bool_decide_true|apply bool_decide_false]; congruence.
Qed.

Lemma release_domain_eq editable uuid new s d w :
  release_domain editable uuid new s d w =
  (Ok tt, set_CustomDomainIndex (release_idx editable uuid new (CustomDomainIndex w) (s, d)) w).
Proof.
  unfold release_domain, release_idx, keeps. cbn. destruct (_ && _); [by rewrite set_idx_id|].
  unfold mbind, M_bind, gets. destruct (CustomDomainIndex w !! d) as [t|] eqn:E.
  - rewrite <- negb_andb, target_eqb. case_bool_decide as Ht; cbn.
    + subst. by rewrite decide_True.
    + rewrite decide_False by congruence. by rewrite set_idx_id.
  - rewrite decide_False by congruence. by rewrite set_idx_id.
Qed.

Lemma release_loop_eq editable uuid new L w :
  foldlM (λ _ '(s, d), release_domain editable uuid new s d) tt L w =
  (Ok tt, set_CustomDomainIndex (foldl (release_idx editable uuid new) (CustomDomainIndex w) L) w).
Proof.
  revert w. induction L as [|[s d] L IH]; intros w; cbn; [by rewrite set_idx_id|].
  unfold mbind, M_bind. rewrite release_domain_eq, IH. done.
Qed.

(** What the release loop leaves of the index: it drops this lease's entries listed in [L],
    unless they are kept. The order of [L] does not matter. *)
Lemma release_loop_lookup editable uuid new L idx d :
  foldl (release_idx editable uuid new) idx L !! d =
  match idx !! d with
  | Some t => if decide (tgt_LeaseUuid t = uuid ∧ (tgt_ServiceName t, d) ∈ L ∧
                         keeps editable new (tgt_ServiceName t) d = false)
              then None else Some t
  | None => None
  end.
Proof.
  revert idx. induction L as [|[s0 d0] L IH]; intros idx; cbn [foldl].
  { destruct (idx !! d); [|done]. rewrite decide_False; [done|]. set_solver. }
  rewrite IH. clear IH. unfold release_idx. cbn [fst snd].
  destruct (keeps editable new s0 d0) eqn:Ek.
  - destruct (idx !! d) as [t|]; [|done]. apply decide_ext.
    rewrite elem_of_cons. split; [naive_solver|]. intros (? & [[= <- <-]|?] & ?); [congruence|done].
  - case_decide as E0.
    + destruct (decide (d0 = d)) as [->|Hne].
      * rewrite lookup_delete_eq, E0, decide_True; [done|]. cbn. set_solver.
      * rewrite lookup_delete_ne by done. destruct (idx !! d) as [t|]; [|done]. apply decide_ext.
        rewrite elem_of_cons. naive_solver.
    + destruct (idx !! d) as [t|] eqn:Et; [|done]. apply decide_ext. rewrite elem_of_cons.
      split; [naive_solver|]. intros (Hu & [[= <- <-]|?] & ?); [|done]. exfalso. apply E0. rewrite Et.
      f_equal. destruct t; cbn in *; by subst.
Qed.

Lemma install_domain_ok uuid s d w u w' :
  install_domain uuid s d w = (Ok u, w') →
  w' = set_CustomDomainIndex (<[d := mkTarget uuid s]> (CustomDomainIndex w)) w ∧
  (CustomDomainIndex w !! d = None ∨ CustomDomainIndex w !! d = Some (mkTarget uuid s)).
Proof.
  unfold install_domain. intros E. run_inv. destruct (CustomDomainIndex w !! d) as [t|] eqn:Et.
  - rewrite target_eqb in E. case_bool_decide as Ht; [|done]. run_inv.
    split; [|auto]. rewrite insert_id by done. by rewrite set_idx_id.
  - unfold set_domain in E. run_inv. auto.
Qed.

Lemma install_loop_ok uuid L w u w' :
  foldlM (λ _ '(s, d), install_domain uuid s d) tt L w = (Ok u, w') →
  ∃ idx, w' = set_CustomDomainIndex idx w ∧
  (∀ s d, (s, d) ∈ L → idx !! d = Some (mkTarget uuid s)) ∧
  (∀ d, (∀ s, (s, d) ∉ L) → idx !! d = CustomDomainIndex w !! d) ∧
  CustomDomainIndex w ⊆ idx.
Proof.
  revert w. induction L as [|[s0 d0] L IH]; intros w E.
  { cbn in E. run_inv. exists (CustomDomainIndex w). split_and!; [by destruct w|set_solver|done|done]. }
  cbn in E. run_inv. destruct_units.
  match goal with H : install_domain _ _ _ _ = _ |- _ => apply install_domain_ok in H as [-> H0'] end.
  apply IH in E as (idx & -> & Hin & Hout & Hsub). cbn in *.
  assert (Hsub' : CustomDomainIndex w ⊆ idx).
  { etrans; [|exact Hsub]. apply map_subseteq_spec. intros d t Hd.
    destruct (decide (d0 = d)) as [->|]; [|by rewrite lookup_insert_ne].
    rewrite lookup_insert_eq. destruct H0'; congruence. }
  exists idx. split_and!; [done| | |done].
  - intros s d [[= -> ->]|?]%elem_of_cons; [|auto].
    eapply lookup_weaken; [apply lookup_insert_eq|exact Hsub].
  - intros d Hd. rewrite Hout by set_solver. rewrite lookup_insert_ne; [done|]. set_solver.
Qed.

(** ** What [SetLease] writes *)

(** Everything but the leases and the two indexes derived from them is unchanged. *)
Definition lease_frame w w' : Prop :=
  k_Params w' = k_Params w ∧ LeaseSequence w' = LeaseSequence w ∧ CreditAccounts w' = CreditAccounts w ∧
  CreditAddressIndex w' = CreditAddressIndex w ∧ sku w' = sku w ∧ bank w' = bank w ∧ events w' = events w.

Lemma sku_index_loop_ok l items w u w' :
  foldlM (λ _ item,
    modify (λ w, set_LeaseBySKUIndex (<[(item_SkuUuid item, Uuid l) := true]> (LeaseBySKUIndex w)) w))
    tt items w = (Ok u, w') →
  ∃ x, w' = set_LeaseBySKUIndex x w ∧
  ∀ k, x !! k =
       if decide (k.2 = Uuid l ∧ k.1 ∈ (item_SkuUuid <$> items)) then Some true else LeaseBySKUIndex w !! k.
Proof.
  revert w. induction items as [|i items IH]; intros w E; cbn in E; run_inv.
  { exists (LeaseBySKUIndex w). split; [by destruct w|]. intros k. rewrite decide_False; [done|]. set_solver. }
  destruct_units. apply IH in E as (x & -> & Hk). exists x. split; [done|]. intros [a b]. rewrite Hk. cbn [fst snd].
  destruct (decide (b = Uuid l ∧ a ∈ item_SkuUuid <$> items)) as [[-> Ha]|Hn].
  { rewrite decide_True; [done|]. split; [done|]. rewrite fmap_cons. by apply elem_of_cons; right. }
  destruct (decide ((item_SkuUuid i, Uuid l) = (a, b))) as [[= <- <-]|Hne].
  - cbn. rewrite lookup_insert_eq, decide_True; [done|]. split; [done|]. by apply elem_of_cons; left.
  - cbn. rewrite lookup_insert_ne by done. rewrite decide_False; [done|].
    intros [-> [->|?]%elem_of_cons]; naive_solver.
Qed.

Section with_go.
Context `{GL : GoStdLaws}.

Lemma SetLease_ok l w u w' :
  SetLease l w = (Ok u, w') →
  is_Some (AccAddressFromBech32 (Tenant l)) ∧ Leases w' = <[Uuid l := l]> (Leases w) ∧ lease_frame w w'.
Proof.
  unfold SetLease, reconcileCustomDomainIndex, getPreviousLease, Leases_Set, lease_frame. intros E. run_inv.
  destruct (AccAddressFromBech32 (Tenant l)) as [ta|] eqn:Ea; [|done]. run_inv.
  match goal with H : foldlM _ _ (Items l) _ = _ |- _ => apply sku_index_loop_ok in H as (x & -> & _) end.
  rewrite release_loop_eq in *. simplify_eq.
  destruct (negb _) eqn:En; [run_inv; by split_and!|].
  apply install_loop_ok in E as (idx & -> & _). by split_and!.
Qed.

Lemma map_range_elem site (m : gmap string string) s d : (s, d) ∈ map_range site m ↔ m !! s = Some d.
Proof. by rewrite map_range_perm, elem_of_map_to_list. Qed.

(** The custom-domain index after a successful [SetLease]. *)
Lemma SetLease_index l w u w' :
  SetLease l w = (Ok u, w') →
  let prev := match Leases w !! Uuid l with Some p => domains_by_service (Items p) | None => ∅ end in
  let new := domains_by_service (Items l) in
  let idx1 d := match CustomDomainIndex w !! d with
                | Some t => if decide (tgt_LeaseUuid t = Uuid l ∧ prev !! tgt_ServiceName t = Some d ∧
                                       keeps (live (State l)) new (tgt_ServiceName t) d = false)
                            then None else Some t
                | None => None
                end in
  (∀ s d, live (State l) = true → new !! s = Some d → CustomDomainIndex w' !! d = Some (mkTarget (Uuid l) s)) ∧
  (∀ d, live (State l) = false ∨ (∀ s, new !! s ≠ Some d) → CustomDomainIndex w' !! d = idx1 d) ∧
  (∀ d t, idx1 d = Some t → CustomDomainIndex w' !! d = Some t).
Proof.
  unfold SetLease, reconcileCustomDomainIndex, getPreviousLease, Leases_Set. intros E. run_inv.
  destruct (AccAddressFromBech32 (Tenant l)) as [ta|] eqn:Ea; [|done]. run_inv.
  match goal with H : foldlM _ _ (Items l) _ = _ |- _ => apply sku_index_loop_ok in H as (x & -> & _) end.
  fold (live (State l)) in *. cbn zeta.
  set (prev := match Leases w !! Uuid l with Some p => domains_by_service (Items p) | None => ∅ end) in *.
  set (new := domains_by_service (Items l)) in *.
  rewrite release_loop_eq in *. simplify_eq. cbn in *.
  assert (Hidx1 : ∀ d, foldl (release_idx (live (State l)) (Uuid l) new) (CustomDomainIndex w) (map_range 0 prev) !! d
    = match CustomDomainIndex w !! d with
      | Some t => if decide (tgt_LeaseUuid t = Uuid l ∧ prev !! tgt_ServiceName t = Some d ∧
                             keeps (live (State l)) new (tgt_ServiceName t) d = false)
                  then None else Some t
      | None => None
      end).
  { intros d. rewrite release_loop_lookup. destruct (CustomDomainIndex w !! d); [|done].
    apply decide_ext. by rewrite map_range_elem. }
  destruct (live (State l)) eqn:El; cbn in E.
  - apply install_loop_ok in E as (idx & -> & Hin & Hout & Hsub). cbn in *. split_and!.
    + intros s d _ Hs. apply Hin. by rewrite map_range_elem.
    + intros d [?|Hn]; [done|]. rewrite Hout, Hidx1; [done|]. intros s. rewrite map_range_elem. apply Hn.
    + intros d t Ht. rewrite <- Hidx1 in Ht. by eapply lookup_weaken.
  - run_inv. cbn. split_and!; [done| |]; intros; rewrite Hidx1; done.
Qed.

(** ** The custom-domain invariant *)

(** Item [s] of lease [u] claims [d]. *)
Definition claims w (u s d : string) : Prop :=
  ∃ l i, Leases w !! u = Some l ∧ live (State l) = true ∧ i ∈ Items l ∧
         item_ServiceName i = s ∧ CustomDomain i = d ∧ d ≠ ""%string.

(** The index lists exactly the claims. *)
Definition DomInv w : Prop :=
  (∀ u l, Leases w !! u = Some l → domains_wf (Items l)) ∧
  ∀ d t, CustomDomainIndex w !! d = Some t ↔ claims w (tgt_LeaseUuid t) (tgt_ServiceName t) d.

Lemma claims_other w w' l u s d :
  Leases w' = <[Uuid l := l]> (Leases w) → u ≠ Uuid l → claims w' u s d ↔ claims w u s d.
Proof. intros Hw Hne. unfold claims. rewrite Hw, lookup_insert_ne by done. done. Qed.

Lemma claims_this w w' l s d :
  Leases w' = <[Uuid l := l]> (Leases w) → domains_wf (Items l) →
  claims w' (Uuid l) s d ↔ live (State l) = true ∧ domains_by_service (Items l) !! s = Some d.
Proof.
  intros Hw Hwf. unfold claims. rewrite Hw, lookup_insert_eq, domains_by_service_spec by done. naive_solver.
Qed.

Lemma SetLease_DomInv l w u w' :
  DomInv w → domains_wf (Items l) → SetLease l w = (Ok u, w') → DomInv w'.
Proof.
  intros [Hwf Hidx] Hl E. pose proof (SetLease_ok _ _ _ _ E) as (_ & Hw & _).
  apply SetLease_index in E as (Hin & Hout & Hsub). cbn in *.
  set (prev := match Leases w !! Uuid l with Some p => domains_by_service (Items p) | None => ∅ end) in *.
  set (new := domains_by_service (Items l)) in *.
  split.
  { intros v k. rewrite Hw. intros [[_ <-]|[_ ?]]%lookup_insert_Some; eauto. }
  assert (Hcase : ∀ d, (live (State l) = true ∧ ∃ s', new !! s' = Some d) ∨
                       (live (State l) = false ∨ ∀ s', new !! s' ≠ Some d)).
  { intros d. destruct (live (State l)), (value_dec new d); eauto. }
  intros d [v s]. cbn. destruct (decide (v = Uuid l)) as [->|Hne].
  - rewrite (claims_this w w' l s d Hw Hl). fold new. split; [|intros [??]; auto].
    intros Hd. destruct (Hcase d) as [[Hlv [s' Hs']]|Hno].
    { rewrite (Hin s' d) in Hd by done. by injection Hd as ->. }
    rewrite Hout in Hd by done.
    destruct (CustomDomainIndex w !! d) as [t|] eqn:Et; [|done]. case_decide as Hk; [done|]. simplify_eq. cbn in Hk.
    apply Hidx in Et as (p & i & Hp & _ & Hi & Hs & Hdi & Hd0). cbn in *.
    assert (Hprev : prev !! s = Some d).
    { unfold prev. rewrite Hp. apply domains_by_service_spec; [by eapply Hwf|]. eauto 6. }
    destruct (keeps (live (State l)) new s d) eqn:Ek; [|naive_solver]. unfold keeps in Ek.
    apply andb_true_iff in Ek as [Hlv Hs'%String.eqb_eq]. split; [done|].
    destruct (new !! s); cbn in Hs'; congruence.
  - rewrite (claims_other w w' l v s d Hw Hne). split.
    + intros Hd. destruct (Hcase d) as [[Hlv [s' Hs']]|Hno].
      { rewrite (Hin s' d) in Hd by done. congruence. }
      rewrite Hout in Hd by done.
      destruct (CustomDomainIndex w !! d) as [t|] eqn:Et; [|done]. case_decide; [done|]. simplify_eq. by apply Hidx in Et.
    + intros Hc. apply (Hidx d (mkTarget v s)) in Hc. apply Hsub. rewrite Hc. cbn. rewrite decide_False; naive_solver.
Qed.

(** ** The SKU index *)

(** A pair is in the index when a lease with that SKU has been stored; items never change. *)
Definition SkuIdxInv w : Prop :=
  ∀ k u b, LeaseBySKUIndex w !! (k, u) = Some b ↔
           b = true ∧ ∃ l, Leases w !! u = Some l ∧ k ∈ (item_SkuUuid <$> Items l).

(** What a query by SKU iterates over. *)
Lemma elem_of_sku_index_uuids k u w :
  SkuIdxInv w → u ∈ sku_index_uuids k w ↔ ∃ l, Leases w !! u = Some l ∧ k ∈ (item_SkuUuid <$> Items l).
Proof.
  intros HI. unfold sku_index_uuids. rewrite merge_sort_Permutation, list_elem_of_omap. split.
  - intros ([[k' u'] b] & Hin & He). cbn in He. destruct (String.eqb_spec k' k) as [->|]; [|done]. injection He as ->.
    apply elem_of_map_to_list in Hin. by apply HI in Hin as [_ ?].
  - intros Hl. exists (k, u, true). cbn. rewrite String.eqb_refl. split; [|done]. apply elem_of_map_to_list, HI. by split.
Qed.

Lemma SetLease_SkuIdxInv l w u w' :
  SkuIdxInv w →
  (∀ p, Leases w !! Uuid l = Some p → ∀ k, k ∈ (item_SkuUuid <$> Items p) → k ∈ (item_SkuUuid <$> Items l)) →
  SetLease l w = (Ok u, w') → SkuIdxInv w'.
Proof.
  intros HI Hprev E. pose proof (SetLease_ok _ _ _ _ E) as (_ & Hw & _).
  assert (Hk : ∀ k, LeaseBySKUIndex w' !! k =
    if decide (k.2 = Uuid l ∧ k.1 ∈ (item_SkuUuid <$> Items l)) then Some true else LeaseBySKUIndex w !! k).
  { unfold SetLease, reconcileCustomDomainIndex, getPreviousLease, Leases_Set in E. run_inv.
    destruct (AccAddressFromBech32 (Tenant l)) as [ta|] eqn:Ea; [|done]. run_inv.
    match goal with H : foldlM _ _ (Items l) _ = _ |- _ => apply sku_index_loop_ok in H as (x & -> & Hk) end.
    rewrite release_loop_eq in *. simplify_eq.
    destruct (negb _) eqn:En; [run_inv; exact Hk|]. apply install_loop_ok in E as (idx & -> & _). exact Hk. }
  intros k v b. rewrite Hk, Hw. cbn. destruct (decide (v = Uuid l)) as [->|Hne].
  - rewrite lookup_insert_eq. case_decide as Hd; [naive_solver|]. unfold SkuIdxInv in HI. rewrite HI. split.
    + intros (_ & p & Hp & Hin). exfalso. apply Hd. split; [done|]. by eapply Hprev.
    + intros (_ & p & [= <-] & Hin). naive_solver.
  - rewrite lookup_insert_ne, decide_False by naive_solver. apply HI.
Qed.

(** ** When [SetLease] succeeds *)

Lemma install_loop_own uuid L w :
  (∀ s d, (s, d) ∈ L → CustomDomainIndex w !! d = Some (mkTarget uuid s)) →
  foldlM (λ _ '(s, d), install_domain uuid s d) tt L w = (Ok tt, w).
Proof.
  induction L as [|[s d] L IH]; intros Hown; [done|]. cbn [foldlM]. unfold mbind, M_bind, install_domain, gets, mret, M_ret.
  unfold mbind, M_bind. rewrite (Hown s d) by (apply elem_of_cons; auto). cbn. rewrite !String.eqb_refl. cbn.
  apply IH. intros s' d' ?. apply Hown. apply elem_of_cons. auto.
Qed.

(** The loop that writes the SKU index leaves the domain index alone. *)
Lemma sku_index_loop_domains uuid (items : list LeaseItem) w :
  CustomDomainIndex (foldl (λ (w1 : World) item,
    set_LeaseBySKUIndex (<[(item_SkuUuid item, uuid) := true]> (LeaseBySKUIndex w1)) w1) w items) = CustomDomainIndex w.
Proof. revert w. induction items as [|i items IH]; intros w; [done|]. cbn. by rewrite IH. Qed.

(** An ended lease, or one that keeps the items of a stored live lease, is always stored. *)
Lemma SetLease_total l w :
  is_Some (AccAddressFromBech32 (Tenant l)) →
  live (State l) = false ∨
    (DomInv w ∧ ∃ p, Leases w !! Uuid l = Some p ∧ live (State p) = true ∧ Items l = Items p) →
  ∃ w', SetLease l w = (Ok tt, w').
Proof.
  intros [ta Ha] Hc. unfold SetLease, reconcileCustomDomainIndex, getPreviousLease, Leases_Set, cached. rewrite Ha.
  erewrite bind_run by done. erewrite bind_run by done. erewrite bind_run by apply foldlM_modify.
  erewrite bind_run by apply release_loop_eq.
  change (state_is (State l) LEASE_STATE_PENDING || state_is (State l) LEASE_STATE_ACTIVE) with (live (State l)).
  destruct (live (State l)) eqn:Elv; cbn [negb]; [|eexists; reflexivity].
  destruct Hc as [|([Hwf Hidx] & p & Hp & Hlv & Hit)]; [done|]. rewrite Hp, Hit.
  rewrite install_loop_own; [eexists; reflexivity|].
  intros s d Hsd. cbn. rewrite release_loop_lookup, sku_index_loop_domains. cbn.
  apply map_range_elem in Hsd. pose proof Hsd as Hin. apply domains_by_service_spec in Hin as (i & Hi & Hs & Hd & Hne); [|by eapply Hwf].
  assert (Ht : CustomDomainIndex w !! d = Some (mkTarget (Uuid l) s)).
  { apply Hidx. cbn. exists p, i. by split_and!. }
  rewrite Ht. rewrite decide_False; [done|]. cbn. intros (_ & _ & Hk). unfold keeps in Hk. rewrite Hsd in Hk. cbn in Hk.
  by rewrite String.eqb_refl in Hk.
Qed.
End with_go.
End store.

(** ** Go's map order does not reach the state *)

Section deterministic.
Context `{SDK} `{SKUKeeper}.

Lemma release_commutes editable uuid new x y :
  run_eq (release_domain editable uuid new x.1 x.2;; release_domain editable uuid new y.1 y.2)
         (release_domain editable uuid new y.1 y.2;; release_domain editable uuid new x.1 x.2).
Proof.
  intros w. unfold mbind, M_bind. rewrite !release_domain_eq. split; [done|]. intros _ _. cbn.
  rewrite !set_idx_twice. f_equal. apply map_eq. intros d.
  pose proof (release_loop_lookup editable uuid new [x; y] (CustomDomainIndex w) d) as E1.
  pose proof (release_loop_lookup editable uuid new [y; x] (CustomDomainIndex w) d) as E2.
  destruct x, y; cbn in *. rewrite E1, E2. destruct (CustomDomainIndex w !! d); [|done].
  apply decide_ext. set_solver.
Qed.

Lemma install_domain_eq uuid s d w :
  install_domain uuid s d w =
  if decide (CustomDomainIndex w !! d = None ∨ CustomDomainIndex w !! d = Some (mkTarget uuid s))
  then (Ok tt, set_CustomDomainIndex (<[d := mkTarget uuid s]> (CustomDomainIndex w)) w)
  else (Err ErrCustomDomainAlreadyClaimed, w).
Proof.
  unfold install_domain, mbind, M_bind, gets. destruct (CustomDomainIndex w !! d) as [t|] eqn:Et.
  - rewrite target_eqb. case_bool_decide as Ht.
    + subst. rewrite decide_True by auto. rewrite insert_id by done. by rewrite set_idx_id.
    + rewrite decide_False by naive_solver. done.
  - by rewrite decide_True by auto.
Qed.

Lemma install_commutes uuid x y :
  run_eq (install_domain uuid x.1 x.2;; install_domain uuid y.1 y.2)
         (install_domain uuid y.1 y.2;; install_domain uuid x.1 x.2).
Proof.
  intros w. destruct x as [s d], y as [s' d']. cbn. unfold mbind, M_bind.
  destruct (decide (d = d')) as [<-|Hd].
  - destruct (decide (s = s')) as [<-|Hs]; [done|].
    rewrite !install_domain_eq. repeat case_decide; cbn; rewrite ?install_domain_eq; cbn;
      rewrite ?lookup_insert_eq; repeat case_decide; cbn; try (split; done); naive_solver.
  - rewrite !install_domain_eq. repeat case_decide; cbn; rewrite ?install_domain_eq; cbn;
      rewrite ?lookup_insert_ne by done; repeat case_decide; cbn; try (split; done); try naive_solver.
    split; [done|]. intros _ _. cbn. rewrite !set_idx_twice. f_equal. by apply insert_insert_ne.
Qed.

(** The outcome of SetLease, success or error and the state written, is the same for
    every order in which Go may range over the maps of domains, so all validators agree. *)
Theorem SetLease_order_independent (G1 G2 : GoStd) l (w : World) :
  GoStdLaws G1 → GoStdLaws G2 → SetLease (H1 := G1) l w = SetLease (H1 := G2) l w.
Proof.
  intros L1 L2. apply cached_run_eq. unfold reconcileCustomDomainIndex.
  repeat (apply run_eq_bind; [reflexivity|intros]).
  assert (Hperm : ∀ site m, map_range (GoStd := G1) site m ≡ₚ map_range (GoStd := G2) site m).
  { intros. by rewrite !map_range_perm. }
  apply run_eq_bind; [|intros _; destruct (negb _); [reflexivity|]].
  - apply (foldlM_perm (λ '(s, d), release_domain _ _ _ s d)); [|apply Hperm].
    intros [] []. apply (release_commutes _ _ _ (_, _) (_, _)).
  - apply (foldlM_perm (λ '(s, d), install_domain _ s d)); [|apply Hperm].
    intros [] []. apply (install_commutes _ (_, _) (_, _)).
Qed.
End deterministic.

(** ** Storing a lease for the first time *)

Section first_store.
Context `{SDK} `{SKUKeeper} `{GL : GoStdLaws}.

Lemma install_loop_total uuid (L : list (string * string)) (w : World) :
  (∀ s d, (s, d) ∈ L → CustomDomainIndex w !! d = None ∨ CustomDomainIndex w !! d = Some (mkTarget uuid s)) →
  (∀ s s' d, (s, d) ∈ L → (s', d) ∈ L → s' = s) →
  ∃ w', foldlM (λ _ '(s, d), install_domain uuid s d) tt L w = (Ok tt, w').
Proof.
  revert w. induction L as [|[s d] L IH]; intros w Hfree Hone; [by eexists|]. cbn [foldlM].
  erewrite bind_run by (rewrite install_domain_eq, decide_True by (apply Hfree; set_solver); reflexivity).
  apply IH; [|intros x y z ??; apply (Hone x y z); set_solver]. intros s' d' Hin. cbn. destruct (decide (d = d')) as [<-|Hne].
  - right. rewrite lookup_insert_eq. by rewrite (Hone s s' d ltac:(set_solver) ltac:(set_solver)).
  - rewrite lookup_insert_ne by done. apply Hfree. set_solver.
Qed.

(** A new lease is stored unless a domain of it is taken. *)
Lemma SetLease_new_total l (w : World) :
  is_Some (AccAddressFromBech32 (Tenant l)) → Leases w !! Uuid l = None →
  (live (State l) = true → ∀ s d, domains_by_service (Items l) !! s = Some d →
     CustomDomainIndex w !! d = None ∧ ∀ s', domains_by_service (Items l) !! s' = Some d → s' = s) →
  ∃ w', SetLease l w = (Ok tt, w').
Proof.
  intros [ta Ha] Hn Hfree. unfold SetLease, reconcileCustomDomainIndex, getPreviousLease, Leases_Set, cached. rewrite Ha.
  erewrite bind_run by done. erewrite bind_run by done. erewrite bind_run by apply foldlM_modify.
  erewrite bind_run by apply release_loop_eq.
  change (state_is (State l) LEASE_STATE_PENDING || state_is (State l) LEASE_STATE_ACTIVE) with (live (State l)).
  destruct (live (State l)) eqn:Elv; cbn [negb]; [|by eexists].
  rewrite Hn. match goal with |- context [foldlM _ _ _ ?w1] => 
    destruct (install_loop_total (Uuid l) (map_range 1 (domains_by_service (Items l))) w1) as [w' Hw'] end;
    [| |rewrite Hw'; by eexists].
  - intros s d Hin%map_range_elem. left. cbn. rewrite release_loop_lookup, sku_index_loop_domains. cbn.
    by destruct (Hfree eq_refl s d Hin) as [-> _].
  - intros s s' d Hs%map_range_elem Hs'%map_range_elem. by apply (Hfree eq_refl s d Hs).
Qed.
End first_store.

(** Ranging over the maps backwards. *)
Definition ref_go_rev : GoStd := {|
  url_Parse := url_Parse; unicode_ToLower := unicode_ToLower; unicode_TrimSpace := unicode_TrimSpace;
  unicode_Graphic := unicode_Graphic; map_range _ m := reverse (map_to_list m) |}.

Lemma ref_go_rev_laws : GoStdLaws ref_go_rev.
Proof. constructor. intros. apply reverse_Permutation. Qed.

Lemma SetLease_order_independent_witness :
  SetLease (H1 := ref_go) (example_lease "u" "a.com") example_world =
  SetLease (H1 := ref_go_rev) (example_lease "u" "a.com") example_world.
Proof. apply SetLease_order_independent; [apply ref_go_laws|apply ref_go_rev_laws]. Defined.
