(* ===== verification/Settlement.v ===== *)
(** * Settlement (src/x/billing/keeper/settlement.go, and the settlement queries of keeper.go)

    Settling a lease moves min(accrued, balance) of each denom from the tenant's credit address to
    the provider's payout address. The theorems give the amounts moved, their conservation, and
    the agreement of the query and of the auto-close check with what settlement would do. *)

From stdpp Require Import base tactics option list strings gmap sorting fin_maps.
From Stdlib Require Import ZArith Lia.
From S2P Require Import Prelude Sdk SdkRef Uuid GoStd SkuTypes BillingTypes BillingMsgs SkuKeeper Credit Accrual Keeper.
Open Scope Z_scope.

Record SettlementResult : Type := mkSettlementResult {
  TransferAmounts : list Coin; AccruedAmounts : list Coin; CreditBalanceAfter : list Coin }.

(** The unique denoms of the items, in order of first use. *)
Definition leaseItemDenoms (items : list LeaseItem) : list string :=
  foldl (λ denoms item,
    let d := Denom (LockedPrice item) in
    if bool_decide (d ∈ denoms) then denoms else denoms ++ [d]) [] items.

Section settlement.
Context `{SDK} `{SKUKeeper}.

Definition CalculateTransferAmounts (accrued available : Coins) : res Coins :=
  foldlM (λ result coin,
    balance ← Coins_AmountOf available (Denom coin);
    let transferAmount := if balance <? Amount coin then balance else Amount coin in
    if 0 <? transferAmount then
      c ← NewCoin (Denom coin) transferAmount;
      Coins_Add result [c]
    else Ok result) [] accrued.

(** The transfer at the end of [performSettlementCore]. *)
Definition settlement_transfer (lease : Lease) (accruedAmounts creditBalances transferAmounts : Coins)
    : W SettlementResult :=
  creditAddr ← lift (DeriveCreditAddressFromBech32 (Tenant lease));
  s ← gets sku;
  provider ← wrapping ErrProviderNotFound (lift (GetProvider s (ProviderUuid lease)));
  match AccAddressFromBech32 (prov_PayoutAddress provider) with
  | None => err ErrProviderNotFound
  | Some payoutAddr =>
      wrapping ErrInvalidCreditOperation (bank_SendCoins creditAddr payoutAddr transferAmounts);;
      after ← lift (Coins_Sub creditBalances transferAmounts);
      mret (mkSettlementResult transferAmounts accruedAmounts after)
  end.

(** From "If nothing accrued" on. *)
Definition settle_up (lease : Lease) (accruedAmounts creditBalances : Coins) : W SettlementResult :=
  if Coins_IsZero accruedAmounts then mret (mkSettlementResult [] [] creditBalances) else
  transferAmounts ← lift (CalculateTransferAmounts accruedAmounts creditBalances);
  if Coins_IsZero transferAmounts then mret (mkSettlementResult [] accruedAmounts creditBalances) else
  settlement_transfer lease accruedAmounts creditBalances transferAmounts.

(** [None] stands for [overflowed]. *)
Definition performSettlementCore (lease : Lease) (settleTime : Z) (silentOnOverflow : bool)
    : W SettlementResult :=
  let duration := time_Sub settleTime (LastSettledAt lease) in
  if duration <=? 0 then mret (mkSettlementResult [] [] []) else
  r ← try (lift (CalculateTotalAccruedForLease (LeaseItemsToWithPrice (Items lease)) duration));
  accrued ← match r with
            | inl accruedAmounts => mret (Some accruedAmounts)
            | inr _ => if silentOnOverflow then mret None else err ErrInvalidCreditOperation
            end;
  creditBalances ← getCreditBalancesForDenoms (Tenant lease) (leaseItemDenoms (Items lease));
  settle_up lease (default creditBalances accrued) creditBalances.

Definition PerformSettlement (lease : Lease) (settleTime : Z) : W SettlementResult :=
  performSettlementCore lease settleTime false.
Definition PerformSettlementSilent (lease : Lease) (settleTime : Z) : W SettlementResult :=
  performSettlementCore lease settleTime true.

(** ** Queries of keeper.go *)

(** The duration a withdrawal would settle, [None] when there is nothing to settle. *)
Definition withdrawable_duration (env : Env) (lease : Lease) : option Z :=
  if state_is (State lease) LEASE_STATE_ACTIVE then Some (time_Sub (blockTime env) (LastSettledAt lease))
  else match ClosedAt lease with
       | Some t => Some (time_Sub t (LastSettledAt lease))
       | None => None
       end.

Definition CalculateWithdrawableForLease (env : Env) (lease : Lease) : W Coins :=
  match withdrawable_duration env lease with
  | None => mret []
  | Some duration =>
      if duration <=? 0 then mret [] else
      r ← try (lift (CalculateTotalAccruedForLease (LeaseItemsToWithPrice (Items lease)) duration));
      match r with
      | inr _ => mret []
      | inl accruedAmounts =>
          if Coins_IsZero accruedAmounts then mret [] else
          b ← try (getCreditBalancesForDenoms (Tenant lease) (leaseItemDenoms (Items lease)));
          match b with
          | inr _ => mret []
          | inl creditBalances =>
              lift (foldlM (λ result accrued,
                balance ← Coins_AmountOf creditBalances (Denom accrued);
                if balance <? Amount accrued then
                  if 0 <? balance then
                    c ← NewCoin (Denom accrued) balance; Coins_Add result [c]
                  else Ok result
                else Coins_Add result [accrued]) [] accruedAmounts)
          end
      end
  end.

(** [for ... { if accrued >= balance { shouldClose = true; break } }] *)
Fixpoint any_exhausted (creditBalances : Coins) (accruedAmounts : Coins) : res bool :=
  match accruedAmounts with
  | [] => Ok false
  | accrued :: rest =>
      balance ← Coins_AmountOf creditBalances (Denom accrued);
      if balance <=? Amount accrued then Ok true else any_exhausted creditBalances rest
  end.

Fixpoint any_zero_balance (creditBalances : Coins) (items : list LeaseItem) : res bool :=
  match items with
  | [] => Ok false
  | item :: rest =>
      balance ← Coins_AmountOf creditBalances (Denom (LockedPrice item));
      if balance =? 0 then Ok true else any_zero_balance creditBalances rest
  end.

(** [Some closeTime] when the lease should be closed. *)
Definition ShouldAutoCloseLease (env : Env) (lease : Lease) : W (option Z) :=
  if negb (state_is (State lease) LEASE_STATE_ACTIVE) then mret None else
  let duration := time_Sub (blockTime env) (LastSettledAt lease) in
  if duration <? 0 then err ErrInvalidLease else
  creditBalances ← getCreditBalancesForDenoms (Tenant lease) (leaseItemDenoms (Items lease));
  shouldClose ←
    (if 0 <? duration then
       r ← try (lift (CalculateTotalAccruedForLease (LeaseItemsToWithPrice (Items lease)) duration));
       match r with
       | inr _ => mret true
       | inl accruedAmounts => lift (any_exhausted creditBalances accruedAmounts)
       end
     else lift (any_zero_balance creditBalances (Items lease)));
  mret (if shouldClose : bool then Some (blockTime env) else None).
End settlement.

(** ** The denoms of a lease *)

Lemma leaseItemDenoms_spec items :
  NoDup (leaseItemDenoms items) ∧
  ∀ d, d ∈ leaseItemDenoms items ↔ ∃ i, i ∈ items ∧ Denom (LockedPrice i) = d.
Proof.
  unfold leaseItemDenoms.
  assert (Hgen : ∀ acc, NoDup acc →
    let r := foldl (λ denoms item, let d := Denom (LockedPrice item) in
               if bool_decide (d ∈ denoms) then denoms else denoms ++ [d]) acc items in
    NoDup r ∧ ∀ d, d ∈ r ↔ d ∈ acc ∨ ∃ i, i ∈ items ∧ Denom (LockedPrice i) = d).
  { induction items as [|i items IH]; intros acc Hacc; cbn [foldl].
    - split; [done|]. set_solver.
    - case_bool_decide as Hd.
      + destruct (IH acc Hacc) as [? Hr]. split; [done|]. intros d. rewrite Hr. set_solver.
      + destruct (IH (acc ++ [Denom (LockedPrice i)])) as [? Hr].
        { apply NoDup_app. split_and!; [done|set_solver|apply NoDup_singleton]. }
        split; [done|]. intros d. rewrite Hr, elem_of_app, list_elem_of_singleton. set_solver. }
  destruct (Hgen []) as [? Hr]; [constructor|]. split; [done|]. intros d. rewrite Hr. set_solver.
Qed.

Lemma rate_zero_not_in items d : d ∉ leaseItemDenoms items → rate items d = 0.
Proof.
  intros Hn. unfold rate. induction items as [|i items IH] using rev_ind; [done|].
  rewrite lsum_app. cbn. destruct (leaseItemDenoms_spec (items ++ [i])) as [_ Hs].
  rewrite IH.
  - unfold item_rate. rewrite decide_False; [lia|]. intros Hd. apply Hn, Hs. set_solver.
  - intros Hd. apply Hn, Hs. apply leaseItemDenoms_spec in Hd. set_solver.
Qed.

Lemma rate_pos_in `{SDK} items d : Forall item_ok items → d ∈ leaseItemDenoms items → 0 < rate items d.
Proof.
  intros Hi Hd. apply leaseItemDenoms_spec in Hd as (i & Hin & <-).
  apply list_elem_of_split in Hin as (l1 & l2 & ->). unfold rate. rewrite lsum_app. cbn.
  apply Forall_app in Hi as [Hl1 Hl2]. apply Forall_cons in Hl2 as [[[_ ?] ?] Hl2].
  pose proof (rate_nonneg l1 (Denom (LockedPrice i)) Hl1).
  pose proof (rate_nonneg l2 (Denom (LockedPrice i)) Hl2). unfold rate in *.
  unfold item_rate at 2. rewrite decide_True by done. nia.
Qed.

(** ** Amounts *)

Section settlement_props.
Context `{SL : SDKLaws} `{SKUKeeper}.
Implicit Types (w : World) (l : Lease) (d : string).

Definition credit_balance w (tenant : Addr) d : Z := GetBalance (bank w) (DeriveCreditAddress tenant) d.

Lemma den_sum_denoms (g : string → Z) denoms d :
  NoDup denoms → (∀ d, 0 ≤ g d) → den_sum id g denoms d = if decide (d ∈ denoms) then g d else 0.
Proof.
  intros Hn Hg. unfold den_sum. induction Hn as [|x l Hx Hl IH]; [done|].
  cbn [lsum]. rewrite IH. unfold id.
  specialize (Hg x). destruct (decide (x = d)) as [->|Hne].
  - rewrite decide_False, decide_True by set_solver. lia.
  - destruct (decide (d ∈ l)); [rewrite decide_True by set_solver|rewrite decide_False by set_solver]; lia.
Qed.

(** The balances read are those of the requested denoms, and reading them cannot fail. *)
Lemma getCreditBalancesForDenoms_spec w tenant a denoms :
  AccAddressFromBech32 tenant = Some a → NoDup denoms → Forall (λ d, ValidateDenom d = true) denoms →
  ∃ r, getCreditBalancesForDenoms tenant denoms w = (Ok r, w) ∧ valid_coins r ∧
       ∀ d, amt r d = if decide (d ∈ denoms) then credit_balance w a d else 0.
Proof.
  intros Ha Hn Hv. set (g := GetBalance (bank w) (DeriveCreditAddress a)).
  assert (Hg : ∀ d, 0 ≤ g d ≤ max_int) by (intros; apply GetBalance_range).
  assert (Hsum : ∀ d, den_sum id g denoms d = if decide (d ∈ denoms) then g d else 0).
  { intros d. apply den_sum_denoms; [done|]. intros x. apply Hg. }
  destruct (fold_add_total id g
    (λ coins denom,
      let bal := mkCoin denom (GetBalance (bank w) (DeriveCreditAddress a) denom) in
      if Coin_IsPositive bal then Coins_Add coins [bal] else Ok coins) denoms []) as (r & Hr & Hvr & Har).
  - done.
  - intros x Hx. rewrite Forall_forall in Hv. by apply Hv.
  - apply valid_coins_nil.
  - intros d. rewrite Hsum. cbn. case_decide; [apply Hg|]. unfold max_int. lia.
  - exists r. split_and!; [|done|].
    + unfold getCreditBalancesForDenoms, DeriveCreditAddressFromBech32. rewrite Ha.
      unfold mbind, M_bind, lift, gets. cbn in Hr |- *. by rewrite Hr.
    + intros d. rewrite Har, Hsum. cbn. done.
Qed.

Lemma item_denoms_valid items :
  Forall item_ok items → Forall (λ d, ValidateDenom d = true) (leaseItemDenoms items).
Proof.
  intros Hi. apply Forall_forall. intros d (i & Hin & <-)%leaseItemDenoms_spec.
  rewrite Forall_forall in Hi. apply (Hi i Hin).
Qed.

Lemma lease_balances w l a :
  AccAddressFromBech32 (Tenant l) = Some a → Forall item_ok (Items l) →
  ∃ r, getCreditBalancesForDenoms (Tenant l) (leaseItemDenoms (Items l)) w = (Ok r, w) ∧
       valid_coins r ∧
       ∀ d, amt r d = if decide (d ∈ leaseItemDenoms (Items l)) then credit_balance w a d else 0.
Proof.
  intros Ha Hi. apply getCreditBalancesForDenoms_spec; [done|apply leaseItemDenoms_spec|].
  by apply item_denoms_valid.
Qed.

Lemma CalculateTransferAmounts_spec accrued available :
  valid_coins accrued → valid_coins available →
  ∃ r, CalculateTransferAmounts accrued available = Ok r ∧ valid_coins r ∧
       ∀ d, amt r d = Z.min (amt accrued d) (amt available d).
Proof.
  intros Ha Hb.
  destruct (coins_loop_total (λ x d, Z.min x (amt available d))
    (λ result coin,
      balance ← Coins_AmountOf available (Denom coin);
      let transferAmount := if balance <? Amount coin then balance else Amount coin in
      if 0 <? transferAmount then c ← NewCoin (Denom coin) transferAmount; Coins_Add result [c]
      else Ok result) accrued) as (r & Hr & Hv & Hq).
  - done.
  - intros d. lia.
  - intros d. pose proof (amt_range available d Hb). lia.
  - intros c acc Hc Hacc. destruct (valid_coins_elem accrued c Ha Hc) as [Hd ?].
    pose proof (amt_range available (Denom c) Hb).
    rewrite Coins_AmountOf_spec by done. cbn.
    assert ((if amt available (Denom c) <? Amount c then amt available (Denom c) else Amount c)
            = Z.min (Amount c) (amt available (Denom c))) as -> by (destruct (_ <? _) eqn:?; lia).
    destruct (0 <? _) eqn:?; [|done]. rewrite NewCoin_total by (done || lia). done.
  - exists r. split_and!; [done|done|]. intros d. rewrite Hq.
    pose proof (amt_range accrued d Ha). pose proof (amt_range available d Hb). lia.
Qed.

(** ** What a settlement does *)

Lemma try_lift_ok {S A} (m : res A) (s s' : S) r :
  try (lift m) s = (Ok r, s') → s' = s ∧ ((∃ a, r = inl a ∧ m = Ok a) ∨ ∃ e, r = inr e ∧ m = Err e).
Proof. unfold try, lift. destruct m; intros [=]; subst; eauto 6. Qed.

(** [w'] is [w] after [cs] moved from the credit address of [a] to the payout address of the
    provider of [l]. *)
Definition moved (l : Lease) (a : Addr) (cs : Coins) w w' : Prop :=
  w' = set_bank (bank w') w ∧ valid_coins cs ∧
  (∀ d, 0 ≤ amt cs d ≤ credit_balance w a d) ∧
  (cs = [] ∧ bank w' = bank w ∨
   ∃ p payout, GetProvider (sku w) (ProviderUuid l) = Ok p ∧
     AccAddressFromBech32 (prov_PayoutAddress p) = Some payout ∧
     ∀ x d, GetBalance (bank w') x d =
       GetBalance (bank w) x d - (if decide (x = DeriveCreditAddress a) then amt cs d else 0)
                               + (if decide (x = payout) then amt cs d else 0)).

Lemma moved_refl l a w : moved l a [] w w.
Proof.
  split_and!; [by destruct w|apply valid_coins_nil| |by left].
  intros d. unfold credit_balance. pose proof (GetBalance_range (bank w) (DeriveCreditAddress a) d).
  unfold amt. cbn. lia.
Qed.

Lemma moved_frame l a cs w w' :
  moved l a cs w w' →
  Leases w' = Leases w ∧ CreditAccounts w' = CreditAccounts w ∧ k_Params w' = k_Params w ∧
  CreditAddressIndex w' = CreditAddressIndex w ∧ CustomDomainIndex w' = CustomDomainIndex w ∧
  LeaseBySKUIndex w' = LeaseBySKUIndex w ∧ sku w' = sku w ∧ LeaseSequence w' = LeaseSequence w ∧
  events w' = events w.
Proof. intros [-> _]. by destruct w. Qed.

Lemma settle_up_ok l a acc bal w r w' :
  AccAddressFromBech32 (Tenant l) = Some a → valid_coins acc → valid_coins bal →
  (∀ d, amt bal d ≤ credit_balance w a d) →
  settle_up l acc bal w = (Ok r, w') →
  moved l a (TransferAmounts r) w w' ∧ AccruedAmounts r = acc ∧
  ∀ d, amt (TransferAmounts r) d = Z.min (amt acc d) (amt bal d).
Proof.
  intros Ha Hacc Hbal Hle E. unfold settle_up in E.
  destruct (Coins_IsZero acc) eqn:Ez.
  { run_inv. apply Coins_IsZero_spec in Ez; [|done]. subst. split_and!; [apply moved_refl|done|].
    intros d. pose proof (amt_range bal d Hbal). unfold amt at 1 2. cbn. lia. }
  run_inv. destruct (CalculateTransferAmounts_spec acc bal Hacc Hbal) as (tr & Etr & Hvt & Ht).
  match goal with H : CalculateTransferAmounts _ _ = Ok _ |- _ => rewrite Etr in H; injection H as <- end.
  destruct (Coins_IsZero tr) eqn:Ezt.
  { run_inv. apply Coins_IsZero_spec in Ezt; [|done]. subst. split_and!; [apply moved_refl|done|done]. }
  unfold settlement_transfer in E. run_inv.
  match goal with H : DeriveCreditAddressFromBech32 _ = _ |- _ =>
    unfold DeriveCreditAddressFromBech32 in H; rewrite Ha in H; injection H as <- end.
  destruct (AccAddressFromBech32 (prov_PayoutAddress _)) as [payout|] eqn:Ep; [|done]. run_inv.
  match goal with H : bank_SendCoins _ _ _ _ = _ |- _ => rename H into Hs end.
  unfold bank_SendCoins in Hs. destruct (SendCoins _ _ _ _) as [[] b] eqn:Esend; [|done].
  injection Hs as Hs. subst. cbn. split_and!; [|done|done]. split_and!.
  - by destruct w.
  - done.
  - intros d. rewrite Ht. specialize (Hle d). pose proof (amt_range acc d Hacc).
    pose proof (amt_range bal d Hbal). lia.
  - right. eexists _, payout. split_and!; [done|done|]. intros y d. cbn. by apply SendCoins_spec.
Qed.

(** Seconds a settlement at [t] bills for. *)
Definition settle_seconds l (t : Z) : Z := Z.max 0 (billed_seconds (LastSettledAt l) t).

Lemma performSettlementCore_ok l a t silent w r w' :
  AccAddressFromBech32 (Tenant l) = Some a → Forall item_ok (Items l) →
  performSettlementCore l t silent w = (Ok r, w') →
  moved l a (TransferAmounts r) w w' ∧
  (time_Sub t (LastSettledAt l) ≤ 0 ∧ r = mkSettlementResult [] [] [] ∨
   0 < time_Sub t (LastSettledAt l) ∧
   ((∃ acc, accrued_for (Items l) (time_Sub t (LastSettledAt l)) = Ok acc ∧ AccruedAmounts r = acc ∧
       ∀ d, amt (TransferAmounts r) d = Z.min (amt acc d) (credit_balance w a d)) ∨
    (silent = true ∧ (∃ e, accrued_for (Items l) (time_Sub t (LastSettledAt l)) = Err e) ∧
       ∀ d, d ∈ leaseItemDenoms (Items l) → amt (TransferAmounts r) d = credit_balance w a d))).
Proof.
  intros Ha Hi E. unfold performSettlementCore in E.
  destruct (_ <=? 0) eqn:Ed; run_inv.
  { split; [apply moved_refl|]. left. split; [by apply Z.leb_le|done]. }
  apply Z.leb_gt in Ed.
  match goal with H : try _ _ = _ |- _ => apply try_lift_ok in H as [-> Hacc] end.
  destruct (lease_balances w l a Ha Hi) as (bal & Ebal & Hvb & Hbal).
  assert (Hle : ∀ d, amt bal d ≤ credit_balance w a d).
  { intros d. rewrite Hbal. case_decide; [done|]. apply GetBalance_range. }
  destruct Hacc as [(acc & -> & Eacc)|(e & -> & Eacc)].
  - run_inv. match goal with H : getCreditBalancesForDenoms _ _ _ = _ |- _ => rewrite Ebal in H; injection H as <- <- end.
    apply accrued_ok in Eacc as Hacc; [|done|lia]. destruct Hacc as [Hva Ham].
    cbn in E. unfold id in E. apply settle_up_ok with (a := a) in E as (Hm & Hac & Ht); [|done..].
    split; [done|]. right. split; [lia|]. left. exists acc. split_and!; [done|done|].
    intros d. rewrite Ht, Hbal. case_decide as Hd; [done|].
    assert (amt acc d = 0) as -> by (rewrite Ham, rate_zero_not_in by done; lia).
    pose proof (GetBalance_range (bank w) (DeriveCreditAddress a) d). unfold credit_balance. lia.
  - destruct silent; [|done]. run_inv.
    match goal with H : getCreditBalancesForDenoms _ _ _ = _ |- _ => rewrite Ebal in H; injection H as <- <- end.
    cbn in E. apply settle_up_ok with (a := a) in E as (Hm & _ & Ht); [|done..].
    split; [done|]. right. split; [lia|]. right. split_and!; [done|by eauto|].
    intros d Hd. rewrite Ht, Hbal, decide_True by done. lia.
Qed.

Lemma settle_seconds_eq l t :
  0 < time_Sub t (LastSettledAt l) → settle_seconds l t = duration_seconds (time_Sub t (LastSettledAt l)).
Proof. intros. unfold settle_seconds, billed_seconds. pose proof (duration_seconds_nonneg _ (Z.lt_le_incl _ _ H0)). lia. Qed.

Lemma settle_seconds_0 l t : time_Sub t (LastSettledAt l) ≤ 0 → settle_seconds l t = 0.
Proof.
  intros. unfold settle_seconds, billed_seconds, duration_seconds.
  pose proof (Z.quot_opp_l (- time_Sub t (LastSettledAt l)) Second ltac:(unfold Second; lia)) as Hq.
  rewrite Z.opp_involutive in Hq. rewrite Hq.
  pose proof (Z.quot_pos (- time_Sub t (LastSettledAt l)) Second ltac:(lia) ltac:(unfold Second; lia)). lia.
Qed.

(** C8 (safety): a settlement that succeeds moves, in every denom, exactly the smaller of the
    lease's rate times the whole seconds elapsed and the tenant's credit balance, from the
    tenant's credit address to the payout address stored for the provider of the lease, and changes
    no other balance and nothing else; when nothing is due the bank is left as it is. *)
Theorem settlement_moves_exactly l a t w r w' :
  AccAddressFromBech32 (Tenant l) = Some a → Forall item_ok (Items l) →
  PerformSettlement l t w = (Ok r, w') →
  w' = set_bank (bank w') w ∧
  (∀ d, amt (TransferAmounts r) d =
        Z.min (rate (Items l) d * settle_seconds l t) (credit_balance w a d)) ∧
  (TransferAmounts r = [] ∧ bank w' = bank w ∨
   ∃ p payout, GetProvider (sku w) (ProviderUuid l) = Ok p ∧
     AccAddressFromBech32 (prov_PayoutAddress p) = Some payout ∧
     ∀ x d, GetBalance (bank w') x d =
       GetBalance (bank w) x d
       - (if decide (x = DeriveCreditAddress a) then amt (TransferAmounts r) d else 0)
       + (if decide (x = payout) then amt (TransferAmounts r) d else 0)).
Proof.
  intros Ha Hi E. apply performSettlementCore_ok with (a := a) in E as [Hm Hc]; [|done..].
  pose proof Hm as (Hw & _ & _ & Hb). split_and!; [done| |exact Hb].
  intros d. destruct Hc as [[Hd ->]|[Hd [(acc & Eacc & _ & Ht)|(? & _)]]]; [| |done].
  - rewrite settle_seconds_0 by done. unfold amt. cbn.
    pose proof (GetBalance_range (bank w) (DeriveCreditAddress a) d). unfold credit_balance. lia.
  - rewrite Ht, settle_seconds_eq by done. apply accrued_ok in Eacc as [_ ->]; [done|done|lia].
Qed.

(** ** Auto-close and the withdrawable query *)

Lemma any_exhausted_spec bal acc :
  valid_coins bal → valid_coins acc →
  any_exhausted bal acc = Ok (bool_decide (Exists (λ c, amt bal (Denom c) ≤ Amount c) acc)).
Proof.
  intros Hb. induction acc as [|c acc IH]; intros Hacc; cbn [any_exhausted].
  { rewrite bool_decide_false; [done|]. by intros ?%Exists_nil. }
  apply valid_coins_cons in Hacc as ((? & ?) & Hacc & _). rewrite Coins_AmountOf_spec by done. cbn.
  destruct (_ <=? _) eqn:E.
  - rewrite bool_decide_true; [done|]. apply Exists_cons. left. lia.
  - rewrite IH by done. f_equal. apply bool_decide_ext. rewrite Exists_cons. split; [tauto|].
    intros [?|?]; [lia|done].
Qed.

Lemma any_zero_balance_spec bal items :
  valid_coins bal → Forall item_ok items →
  any_zero_balance bal items = Ok (bool_decide (Exists (λ i, amt bal (Denom (LockedPrice i)) = 0) items)).
Proof.
  intros Hb. induction 1 as [|i items [[? ?] ?] Hi IH]; cbn [any_zero_balance].
  { rewrite bool_decide_false; [done|]. by intros ?%Exists_nil. }
  rewrite Coins_AmountOf_spec by done. cbn. destruct (_ =? _) eqn:E.
  - rewrite bool_decide_true; [done|]. apply Exists_cons. left. lia.
  - rewrite IH. f_equal. apply bool_decide_ext. rewrite Exists_cons. split; [tauto|].
    intros [?|?]; [lia|done].
Qed.

(** The decision as a relation between accrual and balance. *)
Lemma ShouldAutoCloseLease_ok env l a w r w' :
  AccAddressFromBech32 (Tenant l) = Some a → Forall item_ok (Items l) →
  State l = LEASE_STATE_ACTIVE → ShouldAutoCloseLease env l w = (Ok r, w') →
  w' = w ∧ LastSettledAt l ≤ blockTime env ∧ (r = None ∨ r = Some (blockTime env)) ∧
  (time_Sub (blockTime env) (LastSettledAt l) = 0 →
     (r = None ↔ ∀ d, d ∈ leaseItemDenoms (Items l) → 0 < credit_balance w a d)) ∧
  (0 < time_Sub (blockTime env) (LastSettledAt l) →
     (r = None ↔ ∃ acc, accrued_for (Items l) (time_Sub (blockTime env) (LastSettledAt l)) = Ok acc ∧
                        ∀ d, 0 < amt acc d → amt acc d < credit_balance w a d)).
Proof.
  intros Ha Hi Hs E. unfold ShouldAutoCloseLease in E. rewrite Hs in E. cbn [negb] in E.
  change (negb (state_is LEASE_STATE_ACTIVE LEASE_STATE_ACTIVE)) with false in E. cbn iota in E.
  destruct (_ <? 0) eqn:Ed; [done|]. run_inv.
  destruct (lease_balances w l a Ha Hi) as (bal & Ebal & Hvb & Hbal).
  match goal with H : getCreditBalancesForDenoms _ _ _ = _ |- _ => rewrite Ebal in H; injection H as <- <- end.
  pose proof (time_Sub_sign (blockTime env) (LastSettledAt l)) as [_ Hsign].
  assert (LastSettledAt l ≤ blockTime env) by (apply Z.ltb_ge in Ed; lia).
  assert (Hin : ∀ d, d ∈ leaseItemDenoms (Items l) → amt bal d = credit_balance w a d).
  { intros d Hd. by rewrite Hbal, decide_True. }
  match goal with H : (if _ then _ else _) w = _ |- _ => rename H into Hb end.
  destruct (0 <? _) eqn:E0.
  - run_inv. match goal with H : try _ _ = _ |- _ => apply try_lift_ok in H as [-> Hacc] end.
    destruct Hacc as [(acc & -> & Eacc)|(e & -> & Eacc)].
    + apply accrued_ok in Eacc as Hacc; [|done|lia]. destruct Hacc as [Hva Ham]. run_inv.
      rewrite any_exhausted_spec in Hb by done. injection Hb as <-.
      split_and!; [done|done|case_bool_decide; auto|lia|]. intros _.
      rewrite Eacc. split.
      * intros Hr. exists acc. split; [done|]. intros d Hp.
        case_bool_decide as Hex; [done|]. apply not_Exists_Forall in Hex; [|apply _].
        destruct (amt_pos_elem acc d Hva Hp) as (c & Hc & <- & ->).
        rewrite Forall_forall in Hex. specialize (Hex c Hc). cbn in Hex. rewrite Hin in Hex; [lia|].
        destruct (decide (Denom c ∈ leaseItemDenoms (Items l))) as [|Hn]; [done|].
        rewrite Ham, rate_zero_not_in in Hp by done. lia.
      * intros (acc' & [= <-] & Hlt). rewrite bool_decide_false; [done|].
        rewrite Exists_exists. intros (c & Hc & Hle).
        destruct (valid_coins_elem acc c Hva Hc) as [_ ?].
        pose proof (amt_elem acc c Hva Hc) as Hac.
        assert (Hp : 0 < amt acc (Denom c)) by lia. specialize (Hlt _ Hp).
        rewrite Hin in Hle; [lia|].
        destruct (decide (Denom c ∈ leaseItemDenoms (Items l))) as [|Hn]; [done|].
        rewrite Ham, rate_zero_not_in in Hp by done. lia.
    + run_inv. split_and!; [done|done|by right|lia|]. intros _. rewrite Eacc. naive_solver.
  - run_inv. rewrite any_zero_balance_spec in Hb by done. injection Hb as <-.
    split_and!; [done|done|case_bool_decide; auto| |lia]. intros _. split.
    + intros Hr. case_bool_decide as Hex; [done|]. apply not_Exists_Forall in Hex; [|apply _].
      intros d Hd. pose proof Hd as (i & Hii & <-)%leaseItemDenoms_spec.
      rewrite Forall_forall in Hex. specialize (Hex i Hii). cbn in Hex. rewrite Hin in Hex by done.
      pose proof (GetBalance_range (bank w) (DeriveCreditAddress a) (Denom (LockedPrice i))).
      unfold credit_balance in *. lia.
    + intros Hp. rewrite bool_decide_false; [done|]. rewrite Exists_exists. intros (i & Hii & Hz).
      assert (Hd : Denom (LockedPrice i) ∈ leaseItemDenoms (Items l)) by (apply leaseItemDenoms_spec; eauto).
      specialize (Hp _ Hd). rewrite Hin in Hz by done. lia.
Qed.

(** C9 (safety): when the auto-close check of an active lease says "do not close", settling at
    that moment pays the provider everything that accrued and leaves credit in every denom that
    accrued; so the normal settlement path never underpays. *)
Theorem no_autoclose_pays_in_full env l a w w1 r w' :
  AccAddressFromBech32 (Tenant l) = Some a → Forall item_ok (Items l) → State l = LEASE_STATE_ACTIVE →
  ShouldAutoCloseLease env l w = (Ok None, w1) →
  PerformSettlement l (blockTime env) w = (Ok r, w') →
  ∀ d, amt (TransferAmounts r) d = rate (Items l) d * settle_seconds l (blockTime env) ∧
       (0 < amt (TransferAmounts r) d → amt (TransferAmounts r) d < credit_balance w a d).
Proof.
  intros Ha Hi Hs Hc E d.
  apply ShouldAutoCloseLease_ok with (a := a) in Hc as (_ & Hle & _ & _ & Hc); [|done..].
  apply performSettlementCore_ok with (a := a) in E as [_ [[Hd ->]|[Hd [(acc & Eacc & _ & Ht)|(? & _)]]]]; [| |done..].
  - rewrite settle_seconds_0 by done. unfold amt. cbn. lia.
  - destruct (Hc Hd) as [Hc' _]. destruct (Hc' eq_refl) as (acc' & Eacc' & Hlt).
    rewrite Eacc in Eacc'. injection Eacc' as <-. apply accrued_ok in Eacc as Hacc; [|done|lia]. destruct Hacc as [Hva Ham].
    rewrite Ht, settle_seconds_eq, <- Ham by done. specialize (Hlt d).
    pose proof (amt_range acc d Hva). pose proof (GetBalance_range (bank w) (DeriveCreditAddress a) d).
    unfold credit_balance in *. lia.
Qed.

(** An active lease with positive elapsed time is auto-closed exactly when what
    accrued reaches the credit balance in some denom it bills, or the accrual cannot be computed. *)
Lemma autoclose_iff_exhausted env l a w r w' :
  AccAddressFromBech32 (Tenant l) = Some a → Forall item_ok (Items l) → State l = LEASE_STATE_ACTIVE →
  LastSettledAt l < blockTime env → ShouldAutoCloseLease env l w = (Ok r, w') →
  w' = w ∧
  (r = None ↔ ∃ acc, accrued_for (Items l) (time_Sub (blockTime env) (LastSettledAt l)) = Ok acc ∧
                     ∀ d, 0 < amt acc d → amt acc d < credit_balance w a d) ∧
  (r = None ∨ r = Some (blockTime env)).
Proof.
  intros Ha Hi Hs Hlt E. apply ShouldAutoCloseLease_ok with (a := a) in E as (-> & _ & ? & _ & Hc); [|done..].
  split_and!; [done| |done]. apply Hc. pose proof (time_Sub_sign (blockTime env) (LastSettledAt l)). lia.
Qed.

Lemma withdrawable_loop bal acc :
  valid_coins bal → valid_coins acc →
  ∃ r, foldlM (λ result accrued,
        balance ← Coins_AmountOf bal (Denom accrued);
        if balance <? Amount accrued then
          if 0 <? balance then c ← NewCoin (Denom accrued) balance; Coins_Add result [c] else Ok result
        else Coins_Add result [accrued]) [] acc = Ok r ∧
     valid_coins r ∧ ∀ d, amt r d = Z.min (amt acc d) (amt bal d).
Proof.
  intros Hb Ha.
  destruct (coins_loop_total (λ x d, Z.min x (amt bal d))
    (λ result accrued,
        balance ← Coins_AmountOf bal (Denom accrued);
        if balance <? Amount accrued then
          if 0 <? balance then c ← NewCoin (Denom accrued) balance; Coins_Add result [c] else Ok result
        else Coins_Add result [accrued]) acc) as (r & Hr & Hv & Hq).
  - done.
  - intros d. lia.
  - intros d. pose proof (amt_range bal d Hb). lia.
  - intros c res Hc Hres. destruct (valid_coins_elem acc c Ha Hc) as [Hd ?].
    pose proof (amt_range bal (Denom c) Hb). rewrite Coins_AmountOf_spec by done. cbn.
    destruct (_ <? Amount c) eqn:E1.
    + rewrite Z.min_r by lia. destruct (0 <? _) eqn:E2; [|done]. rewrite NewCoin_total by (done || lia). done.
    + rewrite Z.min_l by lia. destruct (0 <? Amount c) eqn:E2; [by destruct c|lia].
  - exists r. split_and!; [done|done|]. intros d. rewrite Hq.
    pose proof (amt_range acc d Ha). pose proof (amt_range bal d Hb). lia.
Qed.

(** C27 (equivalence): the withdrawable amount the query reports for an active lease is exactly
    what a settlement in the same block transfers. *)
Theorem withdrawable_is_settlement env l a w r w' :
  AccAddressFromBech32 (Tenant l) = Some a → Forall item_ok (Items l) → State l = LEASE_STATE_ACTIVE →
  PerformSettlement l (blockTime env) w = (Ok r, w') →
  CalculateWithdrawableForLease env l w = (Ok (TransferAmounts r), w).
Proof.
  intros Ha Hi Hs E. apply performSettlementCore_ok with (a := a) in E as [(_ & Hvt & _) Hc]; [|done..].
  unfold CalculateWithdrawableForLease, withdrawable_duration. rewrite Hs.
  change (state_is LEASE_STATE_ACTIVE LEASE_STATE_ACTIVE) with true. cbn iota.
  destruct Hc as [[Hd ->]|[Hd [(acc & Eacc & _ & Ht)|(? & _)]]]; [| |done].
  - destruct (_ <=? 0) eqn:?; [done|lia].
  - destruct (_ <=? 0) eqn:?; [lia|]. apply accrued_ok in Eacc as Hacc; [|done|lia]. destruct Hacc as [Hva Ham].
    unfold mbind at 1, M_bind, try, lift at 1. rewrite Eacc. destruct (Coins_IsZero acc) eqn:Ez.
    + apply Coins_IsZero_spec in Ez; [|done]. subst. unfold mret, M_ret. f_equal. f_equal. symmetry.
      apply amt_zero_nil; [done|]. intros d. rewrite Ht. unfold amt. cbn.
      pose proof (GetBalance_range (bank w) (DeriveCreditAddress a) d). unfold credit_balance. lia.
    + destruct (lease_balances w l a Ha Hi) as (bal & Ebal & Hvb & Hbal). unfold mbind, M_bind. rewrite Ebal.
      destruct (withdrawable_loop bal acc Hvb Hva) as (q & Hq & Hvq & Haq). unfold lift, mbind in *. rewrite Hq.
      do 2 f_equal. apply coins_ext; [done..|]. intros d. rewrite Haq, Ht, Hbal. case_decide as Hdd; [done|].
      assert (amt acc d = 0) as -> by (rewrite Ham, rate_zero_not_in by done; lia).
      pose proof (GetBalance_range (bank w) (DeriveCreditAddress a) d). unfold credit_balance. lia.
Qed.
End settlement_props.

(** ** Witnesses *)

(** The tenant's credit address holds 100 umfx; the lease costs 6 umfx per second. *)
Definition example_funded : World :=
  set_bank (mkRefBank {[(DeriveCreditAddress "alice", "umfx") := 100]} ∅ ∅) example_world.
Definition example_env_at (t : Z) : Env := mkEnv (mkBlockCtx t "hash" "chain") "gov".

Lemma example_item_ok d : Forall item_ok (Items (example_lease "u" d)).
Proof. repeat constructor; vm_compute; done. Qed.

Lemma settlement_moves_exactly_witness :
  ∃ p payout, GetProvider (sku example_funded) (ProviderUuid (example_lease "u" "")) = Ok p ∧
    AccAddressFromBech32 (prov_PayoutAddress p) = Some payout ∧
    GetBalance (bank (PerformSettlement (example_lease "u" "") (10 * Second) example_funded).2) payout "umfx" =
      GetBalance (bank example_funded) payout "umfx"
      - (if decide (payout = DeriveCreditAddress "alice") then amt [mkCoin "umfx" 60] "umfx" else 0)
      + (if decide (payout = payout) then amt [mkCoin "umfx" 60] "umfx" else 0).
Proof.
  destruct (settlement_moves_exactly (example_lease "u" "") "alice" (10 * Second) example_funded
    (mkSettlementResult [mkCoin "umfx" 60] [mkCoin "umfx" 60] [mkCoin "umfx" 40])
    (PerformSettlement (example_lease "u" "") (10 * Second) example_funded).2) as (_ & _ & [[Hn _]|(p & payout & Hp & Ha & Hb)]).
  - vm_compute. reflexivity.
  - apply example_item_ok.
  - run_by_eval.
  - discriminate Hn.
  - exists p, payout. split; [exact Hp|]. split; [exact Ha|]. exact (Hb payout "umfx"%string).
Defined.

Lemma no_autoclose_pays_in_full_witness :
  amt [mkCoin "umfx" 60] "umfx" =
    rate (Items (example_lease "u" "")) "umfx" * settle_seconds (example_lease "u" "") (10 * Second).
Proof.
  apply (no_autoclose_pays_in_full (example_env_at (10 * Second)) (example_lease "u" "") "alice" example_funded
    (ShouldAutoCloseLease (example_env_at (10 * Second)) (example_lease "u" "") example_funded).2
    (mkSettlementResult [mkCoin "umfx" 60] [mkCoin "umfx" 60] [mkCoin "umfx" 40])
    (PerformSettlement (example_lease "u" "") (10 * Second) example_funded).2).
  - vm_compute. reflexivity.
  - apply example_item_ok.
  - reflexivity.
  - run_by_eval.
  - run_by_eval.
Defined.

Lemma withdrawable_is_settlement_witness :
  CalculateWithdrawableForLease (example_env_at (10 * Second)) (example_lease "u" "") example_funded =
    (Ok [mkCoin "umfx" 60], example_funded).
Proof.
  apply (withdrawable_is_settlement (example_env_at (10 * Second)) (example_lease "u" "") "alice" example_funded
    (mkSettlementResult [mkCoin "umfx" 60] [mkCoin "umfx" 60] [mkCoin "umfx" 40])
    (PerformSettlement (example_lease "u" "") (10 * Second) example_funded).2).
  - vm_compute. reflexivity.
  - apply example_item_ok.
  - reflexivity.
  - run_by_eval.
Defined.
