(* ===== verification/Lifecycle.v ===== *)
(** * The billing message server: credit and the life of a lease (src/x/billing/keeper/msg_server.go)

    One definition per handler, whole, with the phases of the batch handlers as definitions of
    their own. [cached] is the CacheContext the handlers open for their second phase. *)

From stdpp Require Import base tactics option list strings gmap sorting fin_maps.
From Stdlib Require Import ZArith Lia.
From S2P Require Import Prelude Sdk SdkRef Uuid GoStd SkuTypes BillingTypes BillingMsgs SkuKeeper Credit Accrual Keeper LeaseStore Settlement.
Open Scope Z_scope.

(** The in-memory state of a batch: leases, credit accounts by tenant string, insertion order. *)
Record batch : Type := mkBatch {
  b_leases : list Lease;
  b_accounts : gmap string CreditAccount;
  b_order : list string }.

Definition empty_batch : batch := mkBatch [] ∅ [].

Definition zero_CreditAccount : CreditAccount := mkCreditAccount "" "" 0 0 [].
(** [creditAccounts[tenant]]. *)
Definition account_of (m : gmap string CreditAccount) (tenant : string) : CreditAccount :=
  default zero_CreditAccount (m !! tenant).

Section handlers.
Context `{SDK} `{SKUKeeper} `{GoStd} (env : Env).

(** ** FundCredit *)

(** [if accountKeeper.GetAccount(addr) == nil { SetAccount(NewAccountWithAddress(addr)) }] *)
Definition ensure_account (a : Addr) : W unit :=
  modify (λ w, if HasAccount (bank w) a then w else set_bank (SetNewAccount (bank w) a) w).

Definition fund_credit_tx (msg : MsgFundCredit) (senderAddr creditAddr : Addr) : W unit :=
  coins ← lift (NewCoins [fc_Amount msg]);
  wrapping ErrInvalidCreditOperation (bank_SendCoins senderAddr creditAddr coins);;
  r ← try (GetCreditAccount (fc_Tenant msg));
  creditAccount ←
    match r with
    | inl ca => mret ca
    | inr e =>
        if bool_decide (e = ErrCreditAccountNotFound) then
          ensure_account creditAddr;;
          mret (mkCreditAccount (fc_Tenant msg) (AccAddress_String creditAddr) 0 0 [])
        else err ErrInvalidCreditOperation
    end;
  SetCreditAccount creditAccount.

Definition FundCredit (msg : MsgFundCredit) : W (string * Z) :=
  lift (MsgFundCredit_ValidateBasic msg);;
  creditAddr ← lift (DeriveCreditAddressFromBech32 (fc_Tenant msg));
  senderAddr ← lift (parse_address (fc_Sender msg));
  cached (fund_credit_tx msg senderAddr creditAddr);;
  newBalance ← gets (λ w, GetBalance (bank w) creditAddr (Denom (fc_Amount msg)));
  emit (EvCreditFunded (fc_Tenant msg) (AccAddress_String creditAddr) (fc_Sender msg) (fc_Amount msg) newBalance);;
  mret (AccAddress_String creditAddr, newBalance).

(** ** Lease creation *)

(** The loop over the requested items: provider, lease items, total rates. The provider is [None]
    in the first iteration. *)
Definition resolve_item (s : SkuState) (acc : option string * list LeaseItem * Coins)
    (inputItem : LeaseItemInput) : res (option string * list LeaseItem * Coins) :=
  let '(providerUUID, leaseItems, totalRates) := acc in
  k ← wrap_err ErrSKUNotFound (GetSKU s (in_SkuUuid inputItem));
  if negb (sku_Active k) then Err ErrSKUNotActive else
  provider ← match providerUUID with
             | None => Ok (sku_ProviderUuid k)
             | Some p => if negb (String.eqb (sku_ProviderUuid k) p) then Err ErrMixedProviders else Ok p
             end;
  lockedPrice ← wrap_err ErrSKUNotFound (ConvertBasePriceToPerSecond (sku_BasePrice k) (sku_Unit k));
  x ← int_Mul (Amount lockedPrice) (in_Quantity inputItem);
  itemRate ← NewCoin (Denom lockedPrice) x;
  totalRates' ← Coins_Add totalRates [itemRate];
  Ok (Some provider,
      leaseItems ++ [mkLeaseItem (in_SkuUuid inputItem) (in_Quantity inputItem) lockedPrice
                       (in_ServiceName inputItem) ""],
      totalRates').

Definition resolve_items (s : SkuState) (items : list LeaseItemInput)
    : res (option string * list LeaseItem * Coins) :=
  foldlM (resolve_item s) (None, [], []) items.

(** Every denom of the reservation is available. *)
Fixpoint check_available (availableCredit reservation : Coins) : res unit :=
  match reservation with
  | [] => Ok tt
  | r :: rest =>
      available ← Coins_AmountOf availableCredit (Denom r);
      if available <? Amount r then Err ErrInsufficientCredit else check_available availableCredit rest
  end.

(** Steps 0 and 1: limits and the credit account. *)
Definition create_check_limits (params : Params) (tenant : string) (items : list LeaseItemInput)
    : W CreditAccount :=
  if MaxItemsPerLease params <? llen items then err ErrTooManyLeaseItems else
  creditAccount ← wrapping ErrCreditAccountNotFound (GetCreditAccount tenant);
  if MaxLeasesPerTenant params <=? ActiveLeaseCount creditAccount then err ErrMaxLeasesReached else
  if MaxPendingLeasesPerTenant params <=? PendingLeaseCount creditAccount then err ErrMaxPendingLeasesReached
  else mret creditAccount.

(** Step 4: the provider is active. *)
Definition create_check_provider (providerUUID : string) : W unit :=
  s ← gets sku;
  provider ← wrapping ErrProviderNotFound (lift (GetProvider s providerUUID));
  if negb (prov_Active provider) then err ErrProviderNotActive else mret tt.

(** Step 5: reserve credit; the account with the reservation added. *)
Definition create_reserve (params : Params) (tenant : string) (creditAccount : CreditAccount)
    (totalRates : Coins) : W CreditAccount :=
  reservationAmount ← lift (CalculateLeaseReservationFromRates totalRates (MinLeaseDuration params));
  creditBalances ← getCreditBalancesForDenoms tenant (Denom <$> totalRates);
  availableCredit ← lift (GetAvailableCredit creditBalances (ReservedAmounts creditAccount));
  lift (check_available availableCredit reservationAmount);;
  reserved ← lift (AddReservation (ReservedAmounts creditAccount) reservationAmount);
  mret (set_ReservedAmounts reserved creditAccount).

(** Step 6: the lease that is stored. *)
Definition new_lease (leaseUUID tenant providerUUID metaHash : string) (leaseItems : list LeaseItem)
    (params : Params) : Lease :=
  mkLease leaseUUID tenant providerUUID leaseItems LEASE_STATE_PENDING (blockTime env) None (blockTime env)
    None None "" None "" metaHash (MinLeaseDuration params).

Record leaseCreationResult : Type := mkCreationResult {
  cr_leaseUUID : string; cr_providerUUID : string; cr_itemCount : Z; cr_totalRates : list Coin;
  cr_pendingLeases : Z; cr_metaHash : string }.

Definition createLeaseInternal (tenant : string) (items : list LeaseItemInput) (metaHash : string)
    : W leaseCreationResult :=
  params ← GetParams;
  creditAccount ← create_check_limits params tenant items;
  s ← gets sku;
  r ← lift (resolve_items s items);
  let '(provider, leaseItems, totalRates) := r in
  let providerUUID := default ""%string provider in
  create_check_provider providerUUID;;
  creditAccount' ← create_reserve params tenant creditAccount totalRates;
  leaseSeq ← GetNextLeaseSequence;
  let leaseUUID := GenerateUUIDv7 (block env) ModuleName leaseSeq in
  SetLease (new_lease leaseUUID tenant providerUUID metaHash leaseItems params);;
  let creditAccount'' := set_PendingLeaseCount (wrap_u64 (PendingLeaseCount creditAccount' + 1)) creditAccount' in
  SetCreditAccount creditAccount'';;
  mret (mkCreationResult leaseUUID providerUUID (llen leaseItems) totalRates
          (PendingLeaseCount creditAccount'') metaHash).

Definition emitLeaseCreatedEvent (r : leaseCreationResult) (tenant createdBy : string) : W unit :=
  emit (EvLeaseCreated (cr_leaseUUID r) tenant (cr_providerUUID r) (cr_itemCount r) (cr_totalRates r)
          (cr_pendingLeases r) createdBy (cr_metaHash r)).

Definition CreateLease (msg : MsgCreateLease) : W string :=
  lift (MsgCreateLease_ValidateBasic msg);;
  result ← createLeaseInternal (cl_Tenant msg) (cl_Items msg) (cl_MetaHash msg);
  emitLeaseCreatedEvent result (cl_Tenant msg) "tenant";;
  mret (cr_leaseUUID result).

Definition isAuthorizedForTenantLeaseCreation (sender : string) : W bool :=
  role ← HasAdminPrivileges env sender;
  mret (negb (String.eqb role "")).

Definition CreateLeaseForTenant (msg : MsgCreateLeaseForTenant) : W string :=
  lift (MsgCreateLeaseForTenant_ValidateBasic msg);;
  authorized ← wrapping ErrUnauthorized (isAuthorizedForTenantLeaseCreation (ct_Authority msg));
  if negb authorized then err ErrUnauthorized else
  result ← createLeaseInternal (ct_Tenant msg) (ct_Items msg) (ct_MetaHash msg);
  emitLeaseCreatedEvent result (ct_Tenant msg) "authority";;
  mret (cr_leaseUUID result).

(** ** Batches *)

(** The credit account of the lease's tenant is fetched once per tenant string. *)
Definition batch_add (b : batch) (lease : Lease) : W batch :=
  match b_accounts b !! Tenant lease with
  | Some _ => mret (mkBatch (b_leases b ++ [lease]) (b_accounts b) (b_order b))
  | None =>
      creditAccount ← wrapping ErrCreditAccountNotFound (GetCreditAccount (Tenant lease));
      mret (mkBatch (b_leases b ++ [lease]) (<[Tenant lease := creditAccount]> (b_accounts b))
              (b_order b ++ [Tenant lease]))
  end.

(** [for _, tenant := range tenantOrder { SetCreditAccount(creditAccounts[tenant]) }] *)
Definition persist_accounts (accounts : gmap string CreditAccount) (order : list string) : W unit :=
  foldlM (λ _ tenant, SetCreditAccount (account_of accounts tenant)) tt order.

Definition emit_all (evs : list event) : W unit := foldlM (λ _ e, emit e) tt evs.

(** One iteration of [validatePendingLeaseBatch]; the string is [providerUUID]. *)
Definition validate_pending_one (acc : batch * string) (uuid : string) : W (batch * string) :=
  let '(b, providerUUID) := acc in
  lease ← wrapping ErrLeaseNotFound (GetLease uuid);
  if negb (state_is (State lease) LEASE_STATE_PENDING) then err ErrLeaseNotPending else
  providerUUID' ← (if String.eqb providerUUID "" then mret (ProviderUuid lease)
                   else if negb (String.eqb (ProviderUuid lease) providerUUID) then err ErrMixedProviders
                   else mret providerUUID);
  b' ← batch_add b lease;
  mret (b', providerUUID').

Definition validatePendingLeaseBatch (leaseUuids : list string) : W (batch * string) :=
  foldlM validate_pending_one (empty_batch, ""%string) leaseUuids.

Definition validateProviderAuthorization (sender providerUUID : string) : W Provider :=
  s ← gets sku;
  provider ← wrapping ErrProviderNotFound (lift (GetProvider s providerUUID));
  if negb (String.eqb sender (prov_Address provider)) && negb (String.eqb sender (authority env))
  then err ErrUnauthorized else mret provider.

(** ** AcknowledgeLease *)

Definition acknowledged (lease : Lease) : Lease :=
  set_LastSettledAt (blockTime env)
    (set_AcknowledgedAt (Some (blockTime env)) (set_State LEASE_STATE_ACTIVE lease)).

Definition acknowledge_one (accounts : gmap string CreditAccount) (lease : Lease)
    : W (gmap string CreditAccount) :=
  wrapping ErrInvalidLease (SetLease (acknowledged lease));;
  let ca := DecrementPendingLeaseCount (account_of accounts (Tenant lease)) in
  let ca' := set_ActiveLeaseCount (wrap_u64 (ActiveLeaseCount ca + 1)) ca in
  mret (<[Tenant lease := ca']> accounts).

Definition AcknowledgeLease (msg : MsgAcknowledgeLease) : W (Z * Z) :=
  lift (MsgAcknowledgeLease_ValidateBasic msg);;
  validated ← validatePendingLeaseBatch (al_LeaseUuids msg);
  let '(b, providerUUID) := validated in
  validateProviderAuthorization (al_Sender msg) providerUUID;;
  cached (
    accounts ← foldlM acknowledge_one (b_accounts b) (b_leases b);
    persist_accounts accounts (b_order b));;
  emit_all ((λ l, EvLeaseAcknowledged (Uuid l) (Tenant l) (ProviderUuid l) (al_Sender msg)) <$> b_leases b);;
  (if 1 <? llen (b_leases b)
   then emit (EvBatchAcknowledged (llen (b_leases b)) providerUUID (al_Sender msg)) else mret tt);;
  mret (blockTime env, llen (b_leases b)).

(** ** RejectLease and CancelLease *)

Definition rejected (reason : string) (lease : Lease) : Lease :=
  set_RejectionReason reason
    (set_RejectedAt (Some (blockTime env)) (set_State LEASE_STATE_REJECTED lease)).

Definition reject_one (params : Params) (reason : string) (accounts : gmap string CreditAccount) (lease : Lease)
    : W (gmap string CreditAccount) :=
  let lease' := rejected reason lease in
  wrapping ErrInvalidLease (SetLease lease');;
  let ca := DecrementPendingLeaseCount (account_of accounts (Tenant lease)) in
  ca' ← lift (ReleaseLeaseReservation ca lease' (MinLeaseDuration params));
  mret (<[Tenant lease := ca']> accounts).

Definition RejectLease (msg : MsgRejectLease) : W (Z * Z) :=
  lift (MsgRejectLease_ValidateBasic msg);;
  params ← GetParams;
  validated ← validatePendingLeaseBatch (rl_LeaseUuids msg);
  let '(b, providerUUID) := validated in
  validateProviderAuthorization (rl_Sender msg) providerUUID;;
  cached (
    accounts ← foldlM (reject_one params (rl_Reason msg)) (b_accounts b) (b_leases b);
    persist_accounts accounts (b_order b));;
  emit_all ((λ l, EvLeaseRejected (Uuid l) (Tenant l) (ProviderUuid l) (rl_Sender msg)
                    (EventAttribute (rl_Reason msg))) <$> b_leases b);;
  (if 1 <? llen (b_leases b)
   then emit (EvBatchRejected (llen (b_leases b)) providerUUID (rl_Sender msg)) else mret tt);;
  mret (blockTime env, llen (b_leases b)).

Definition validate_cancel_one (tenant : string) (leases : list Lease) (leaseUUID : string) : W (list Lease) :=
  lease ← GetLease leaseUUID;
  if negb (String.eqb tenant (Tenant lease)) then err ErrUnauthorized else
  if negb (state_is (State lease) LEASE_STATE_PENDING) then err ErrLeaseNotPending else
  mret (leases ++ [lease]).

Definition cancel_one (params : Params) (creditAccount : CreditAccount) (lease : Lease) : W CreditAccount :=
  let lease' := rejected RejectionReasonCancelledByTenant lease in
  wrapping ErrInvalidLease (SetLease lease');;
  lift (ReleaseLeaseReservation (DecrementPendingLeaseCount creditAccount) lease' (MinLeaseDuration params)).

Definition CancelLease (msg : MsgCancelLease) : W (Z * Z) :=
  lift (MsgCancelLease_ValidateBasic msg);;
  params ← GetParams;
  leases ← foldlM (validate_cancel_one (kl_Tenant msg)) [] (kl_LeaseUuids msg);
  creditAccount ← wrapping ErrCreditAccountNotFound (GetCreditAccount (kl_Tenant msg));
  cached (
    ca ← foldlM (cancel_one params) creditAccount leases;
    SetCreditAccount ca);;
  emit_all ((λ l, EvLeaseCancelled (Uuid l) (Tenant l) (ProviderUuid l) (kl_Tenant msg)) <$> leases);;
  (if 1 <? llen leases
   then emit (EvBatchCancelled (llen leases) (kl_Tenant msg) (kl_Tenant msg)) else mret tt);;
  mret (blockTime env, llen leases).

(** ** CloseLease *)

(** Phase 1 also carries the provider cache and the role. *)
Record close_acc : Type := mkCloseAcc {
  c_batch : batch; c_providers : gmap string string; c_closedBy : string }.

(** The role under which the sender may close this lease, "" for none, and the provider cache. *)
Definition close_role (sender : string) (cache : gmap string string) (lease : Lease)
    : W (string * gmap string string) :=
  let isAuthority := String.eqb sender (authority env) in
  let role := if isAuthority then "authority"%string
              else if String.eqb sender (Tenant lease) then "tenant"%string else ""%string in
  if negb (String.eqb role "") then mret (role, cache) else
  found ← match cache !! ProviderUuid lease with
          | Some addr => mret (addr, cache)
          | None =>
              s ← gets sku;
              match GetProvider s (ProviderUuid lease) with
              | Ok p => mret (prov_Address p, <[ProviderUuid lease := prov_Address p]> cache)
              | Err e => if bool_decide (e = sku_ErrProviderNotFound) then mret (""%string, cache) else err e
              | Panic => lift Panic
              end
          end;
  let '(providerAddr, cache') := found in
  mret (if negb (String.eqb providerAddr "") && String.eqb sender providerAddr
        then "provider"%string else ""%string, cache').

Definition validate_close_one (sender : string) (acc : close_acc) (uuid : string) : W close_acc :=
  let isAuthority := String.eqb sender (authority env) in
  lease ← wrapping ErrLeaseNotFound (GetLease uuid);
  if negb (state_is (State lease) LEASE_STATE_ACTIVE) then err ErrLeaseNotActive else
  r ← close_role sender (c_providers acc) lease;
  let '(leaseClosedBy, cache) := r in
  if String.eqb leaseClosedBy "" then err ErrUnauthorized else
  closedBy ← (if negb isAuthority then
                if String.eqb (c_closedBy acc) "" then mret leaseClosedBy
                else if negb (String.eqb (c_closedBy acc) leaseClosedBy) then err ErrUnauthorized
                else mret (c_closedBy acc)
              else mret "authority"%string);
  b ← batch_add (c_batch acc) lease;
  mret (mkCloseAcc b cache closedBy).

Definition settleLease (lease : Lease) (settleTime : Z) : W (Coins * Lease) :=
  result ← PerformSettlement lease settleTime;
  mret (TransferAmounts result, set_LastSettledAt settleTime lease).

(** The lease, settled and closed, the amounts settled and the role recorded. *)
Definition close_settle (reason closedBy : string) (lease : Lease) : W (Lease * Coins * string) :=
  shouldAutoClose ← ShouldAutoCloseLease env lease;
  match shouldAutoClose with
  | Some closeTime =>
      result ← PerformSettlementSilent lease closeTime;
      mret (set_ClosureReason ClosureReasonCreditExhausted
              (set_LastSettledAt closeTime (set_ClosedAt (Some closeTime) (set_State LEASE_STATE_CLOSED lease))),
            TransferAmounts result, "credit_exhaustion"%string)
  | None =>
      let closeTime := blockTime env in
      r ← settleLease lease closeTime;
      let '(settledAmounts, lease') := r in
      mret (set_ClosureReason reason (set_ClosedAt (Some closeTime) (set_State LEASE_STATE_CLOSED lease')),
            settledAmounts, closedBy)
  end.

Record close_loop : Type := mkCloseLoop {
  cl_accounts : gmap string CreditAccount; cl_settled : list Coin; cl_events : list event }.

(** One iteration of phase 2. Both branches close at the time [duration] is measured to. *)
Definition close_one (params : Params) (reason closedBy : string) (acc : close_loop) (lease : Lease)
    : W close_loop :=
  r ← close_settle reason closedBy lease;
  let '(lease', settledAmounts, leaseClosedBy) := r in
  let duration := time_Sub (default 0 (ClosedAt lease')) (LastSettledAt lease) in
  wrapping ErrInvalidLease (SetLease lease');;
  let ca := DecrementActiveLeaseCount (account_of (cl_accounts acc) (Tenant lease)) in
  ca' ← lift (ReleaseLeaseReservation ca lease' (MinLeaseDuration params));
  total ← lift (Coins_Add (cl_settled acc) settledAmounts);
  mret (mkCloseLoop (<[Tenant lease := ca']> (cl_accounts acc)) total
          (cl_events acc ++
           [EvLeaseClosed (Uuid lease) (Tenant lease) (ProviderUuid lease) settledAmounts leaseClosedBy
              (duration_seconds duration) (ActiveLeaseCount ca') (EventAttribute (ClosureReason lease'))])).

Definition CloseLease (msg : MsgCloseLease) : W (Z * Z * Coins) :=
  lift (MsgCloseLease_ValidateBasic msg);;
  params ← GetParams;
  acc ← foldlM (validate_close_one (xl_Sender msg)) (mkCloseAcc empty_batch ∅ "") (xl_LeaseUuids msg);
  let b := c_batch acc in
  result ← cached (
    loop ← foldlM (close_one params (xl_Reason msg) (c_closedBy acc))
             (mkCloseLoop (b_accounts b) [] []) (b_leases b);
    persist_accounts (cl_accounts loop) (b_order b);;
    mret loop);
  emit_all (cl_events result);;
  (if 1 <? llen (b_leases b)
   then emit (EvBatchClosed (llen (b_leases b)) (c_closedBy acc) (cl_settled result)) else mret tt);;
  mret (blockTime env, llen (b_leases b), cl_settled result).

(** ** UpdateParams *)

Definition UpdateParams (msg : MsgUpdateParams) : W unit :=
  lift (MsgUpdateParams_ValidateBasic msg);;
  if negb (String.eqb (authority env) (bp_Authority msg)) then err ErrUnauthorized else
  SetParams (bp_Params msg);;
  emit EvParamsUpdated.
End handlers.
