(* ===== verification/Withdraw.v ===== *)
(** * Withdrawals and auto-close (src/x/billing/keeper: msg_server.go, keeper.go)

    The two modes of Withdraw (by lease UUIDs, and page by page over a provider's leases) and the
    closing of a lease whose credit is exhausted. WithdrawInv.v has the theorems. *)

From stdpp Require Import base tactics option list strings gmap sorting fin_maps.
From Stdlib Require Import ZArith Lia.
From S2P Require Import Prelude Sdk SdkRef Uuid GoStd SkuTypes BillingTypes BillingMsgs SkuKeeper Credit Accrual Keeper LeaseStore Settlement Lifecycle.
Open Scope Z_scope.

Record withdraw_response : Type := mkWithdrawResponse {
  wr_TotalAmounts : list Coin; wr_PayoutAddress : string; wr_WithdrawalCount : Z; wr_HasMore : bool }.

Section withdraw.
Context `{SDK} `{SKUKeeper} `{GoStd} (env : Env).

(** The assignments [AutoCloseLease] makes to the lease. *)
Definition auto_closed (closeTime : Z) (lease : Lease) : Lease :=
  set_ClosureReason ClosureReasonCreditExhausted
    (set_LastSettledAt closeTime (set_ClosedAt (Some closeTime) (set_State LEASE_STATE_CLOSED lease))).

Definition AutoCloseLease (lease : Lease) (closeTime minLeaseDuration : Z) : W Coins :=
  result ← PerformSettlementSilent lease closeTime;
  let lease' := auto_closed closeTime lease in
  SetLease lease';;
  creditAccount ← GetCreditAccount (Tenant lease);
  ca ← lift (ReleaseLeaseReservation (DecrementActiveLeaseCount creditAccount) lease' minLeaseDuration);
  SetCreditAccount ca;;
  mret (TransferAmounts result).

(** ** withdrawFromLeases *)

(** Phase 1: the leases and their common provider. *)
Definition validate_withdraw_one (sender : string) (acc : list Lease * option (string * Provider)) (leaseUUID : string)
    : W (list Lease * option (string * Provider)) :=
  let '(leases, provider) := acc in
  lease ← GetLease leaseUUID;
  match provider with
  | None =>
      p ← validateProviderAuthorization env sender (ProviderUuid lease);
      mret (leases ++ [lease], Some (ProviderUuid lease, p))
  | Some (providerUUID, p) =>
      if negb (String.eqb (ProviderUuid lease) providerUUID) then err ErrInvalidLease
      else mret (leases ++ [lease], Some (providerUUID, p))
  end.

Record withdraw_loop : Type := mkWithdrawLoop {
  wl_total : list Coin; wl_count : Z; wl_autoClosed : list string; wl_amounts : gmap string (list Coin) }.

(** The settlement time by state; a lease that was never active settles nothing. *)
Definition settle_time (lease : Lease) : Z :=
  if state_is (State lease) LEASE_STATE_ACTIVE then blockTime env
  else match ClosedAt lease with Some t => t | None => LastSettledAt lease end.

Definition withdraw_one (params : Params) (acc : withdraw_loop) (lease : Lease) : W withdraw_loop :=
  shouldAutoClose ← (if state_is (State lease) LEASE_STATE_ACTIVE then ShouldAutoCloseLease env lease else mret None);
  match shouldAutoClose with
  | Some closeTime =>
      transfer ← AutoCloseLease lease closeTime (MinLeaseDuration params);
      if negb (Coins_IsZero transfer) then
        total ← lift (Coins_Add (wl_total acc) transfer);
        mret (mkWithdrawLoop total (wrap_u64 (wl_count acc + 1)) (wl_autoClosed acc ++ [Uuid lease])
                (<[Uuid lease := transfer]> (wl_amounts acc)))
      else mret (mkWithdrawLoop (wl_total acc) (wrap_u64 (wl_count acc + 1))
                   (wl_autoClosed acc ++ [Uuid lease]) (wl_amounts acc))
  | None =>
      let settleTime := settle_time lease in
      result ← PerformSettlement lease settleTime;
      if Coins_IsZero (AccruedAmounts result) then mret acc else
      SetLease (set_LastSettledAt settleTime lease);;
      total ← lift (Coins_Add (wl_total acc) (TransferAmounts result));
      mret (mkWithdrawLoop total (wrap_u64 (wl_count acc + 1)) (wl_autoClosed acc)
              (<[Uuid lease := TransferAmounts result]> (wl_amounts acc)))
  end.

(** Phase 3: one event per lease that was touched. *)
Definition withdraw_event (payout : string) (loop : withdraw_loop) (lease : Lease) : list event :=
  if bool_decide (Uuid lease ∈ wl_autoClosed loop) then [EvProviderWithdrawAutoClosed (Uuid lease) (ProviderUuid lease)]
  else match wl_amounts loop !! Uuid lease with
       | Some amounts => [EvProviderWithdraw (Uuid lease) amounts (ProviderUuid lease) payout]
       | None => []
       end.

(** Phases 1 and 2. *)
Definition withdraw_leases_apply (msg : MsgWithdraw) : W (list Lease * string * Provider * withdraw_loop) :=
  params ← GetParams;
  v ← foldlM (validate_withdraw_one (wd_Sender msg)) ([], None) (wd_LeaseUuids msg);
  let '(leases, provider) := v in
  let '(providerUUID, p) := default (""%string, mkProvider "" "" "" "" false "") provider in
  loop ← cached (
    loop ← foldlM (withdraw_one params) (mkWithdrawLoop [] 0 [] ∅) leases;
    if (wl_count loop =? 0) && (llen (wl_autoClosed loop) =? 0) then err ErrNoWithdrawableAmount
    else mret loop);
  mret (leases, providerUUID, p, loop).

Definition withdrawFromLeases (msg : MsgWithdraw) : W withdraw_response :=
  r ← withdraw_leases_apply msg;
  let '(leases, providerUUID, p, loop) := r in
  emit_all (mjoin (withdraw_event (prov_PayoutAddress p) loop <$> leases));;
  (if 1 <? llen (wd_LeaseUuids msg)
   then emit (EvBatchWithdraw (wl_count loop) providerUUID (wl_total loop) (prov_PayoutAddress p)) else mret tt);;
  mret (mkWithdrawResponse (wl_total loop) (prov_PayoutAddress p) (wl_count loop) false).

(** ** withdrawFromProvider *)

(** The closure [collectLeases]: the UUIDs so far and [hasMore]. *)
Fixpoint collectLeases (limit : Z) (leaseUUIDs : list string) (matches : list string) : list string * bool :=
  match matches with
  | [] => (leaseUUIDs, false)
  | uuid :: rest =>
      if limit <=? llen leaseUUIDs then (leaseUUIDs, true)
      else collectLeases limit (leaseUUIDs ++ [uuid]) rest
  end.

(** Phase 1: ACTIVE leases first, then CLOSED ones. *)
Definition collect_provider (providerUUID : string) (limit : Z) (w : World) : list string * bool :=
  let matches s := MatchExact (λ l, provider_is providerUUID l && lease_state_is s l) w in
  let '(uuids, hasMore) := collectLeases limit [] (matches LEASE_STATE_ACTIVE) in
  if negb hasMore then collectLeases limit uuids (matches LEASE_STATE_CLOSED) else (uuids, hasMore).

(** What happens to one lease inside its cache context: [Ok] commits (was it auto-closed, the
    amount), an error discards the writes, as every [continue] before [write()] does. *)
Definition provider_settle_one (params : Params) (lease : Lease) : W (bool * Coins) :=
  shouldAutoClose ← (if state_is (State lease) LEASE_STATE_ACTIVE then ShouldAutoCloseLease env lease else mret None);
  match shouldAutoClose with
  | Some closeTime =>
      transfer ← AutoCloseLease lease closeTime (MinLeaseDuration params);
      mret (true, transfer)
  | None =>
      settleTime ← (if state_is (State lease) LEASE_STATE_ACTIVE then mret (blockTime env)
                    else match ClosedAt lease with Some t => mret t | None => err Plain end);
      if negb (time_After settleTime (LastSettledAt lease)) then err Plain else
      result ← PerformSettlementSilent lease settleTime;
      if Coins_IsZero (TransferAmounts result) then err Plain else
      SetLease (set_LastSettledAt settleTime lease);;
      mret (false, TransferAmounts result)
  end.

Record provider_loop : Type := mkProviderLoop { pl_total : list Coin; pl_count : Z; pl_autoClosed : Z }.

Definition provider_withdraw_one (params : Params) (acc : provider_loop) (leaseUUID : string) : W provider_loop :=
  l ← try (GetLease leaseUUID);
  match l with
  | inr _ => mret acc
  | inl lease =>
      r ← try (cached (provider_settle_one params lease));
      match r with
      | inr _ => mret acc
      | inl (true, transfer) =>
          emit (EvLeaseAutoClose (Uuid lease) (Tenant lease) (ProviderUuid lease));;
          total ← (if negb (Coins_IsZero transfer) then lift (Coins_Add (pl_total acc) transfer)
                   else mret (pl_total acc));
          mret (mkProviderLoop total (wrap_u64 (pl_count acc + 1)) (wrap_u64 (pl_autoClosed acc + 1)))
      | inl (false, transfer) =>
          total ← lift (Coins_Add (pl_total acc) transfer);
          mret (mkProviderLoop total (wrap_u64 (pl_count acc + 1)) (pl_autoClosed acc))
      end
  end.

Definition withdrawFromProvider (msg : MsgWithdraw) : W withdraw_response :=
  params ← GetParams;
  let providerUUID := wd_ProviderUuid msg in
  provider ← validateProviderAuthorization env (wd_Sender msg) providerUUID;
  let limit := if wd_Limit msg =? 0 then DefaultProviderWithdrawLimit else wd_Limit msg in
  c ← gets (collect_provider providerUUID limit);
  let '(leaseUUIDs, hasMore) := c in
  loop ← foldlM (provider_withdraw_one params) (mkProviderLoop [] 0 0) leaseUUIDs;
  emit (EvProviderBatchWithdraw providerUUID (pl_total loop) (pl_count loop) (prov_PayoutAddress provider)
          (pl_autoClosed loop));;
  mret (mkWithdrawResponse (pl_total loop) (prov_PayoutAddress provider) (pl_count loop) hasMore).

Definition Withdraw (msg : MsgWithdraw) : W withdraw_response :=
  lift (MsgWithdraw_ValidateBasic msg);;
  if negb (String.eqb (wd_ProviderUuid msg) "") then withdrawFromProvider msg else withdrawFromLeases msg.
End withdraw.
