(* ===== verification/BillingTxCodec.v ===== *)
(** * Marshaling of the messages of the billing module (src/x/billing/types/tx.pb.go) *)

From stdpp Require Import base tactics option list strings.
From Stdlib Require Import ZArith Lia Ascii.
From S2P Require Import Prelude Sdk SkuTypes BillingTypes Keeper Withdraw Wire WireProps Codec Gogo BillingCodec.
Open Scope Z_scope.

(** ** MsgUpdateParamsResponse, and every other message without fields *)

Definition Empty_write (m : unit) : writer := nothing.

Definition Empty_Size (m : unit) : Z := 0.

Definition Empty_Marshal (m : unit) : res bytes := marshal (Empty_Size m) (Empty_write m).

Definition Empty_switch (fieldNum wireType : Z) (dAtA : bytes) (iNdEx : Z) (m : unit) : option (res (unit * Z)) := None.

Definition Empty_zero : unit := tt.

Definition Empty_Unmarshal (dAtA : bytes) : res unit := unmarshal Empty_switch dAtA Empty_zero.

Definition Empty_wire (m : unit) : bytes := [].

Record MsgFundCreditResponse : Type := mkMsgFundCreditResponse {
  fcr_CreditAddress : string; fcr_NewBalance : Coin }.

Record MsgCreateLeaseResponse : Type := mkMsgCreateLeaseResponse {
  clr_LeaseUuid : string }.

Record MsgCreateLeaseForTenantResponse : Type := mkMsgCreateLeaseForTenantResponse {
  ctr_LeaseUuid : string }.

Record MsgCloseLeaseResponse : Type := mkMsgCloseLeaseResponse {
  xlr_ClosedAt : Z; xlr_ClosedCount : Z; xlr_TotalSettledAmounts : list Coin }.

Record MsgAcknowledgeLeaseResponse : Type := mkMsgAcknowledgeLeaseResponse {
  alr_AcknowledgedAt : Z; alr_AcknowledgedCount : Z }.

Record MsgRejectLeaseResponse : Type := mkMsgRejectLeaseResponse {
  rlr_RejectedAt : Z; rlr_RejectedCount : Z }.

Record MsgCancelLeaseResponse : Type := mkMsgCancelLeaseResponse {
  klr_CancelledAt : Z; klr_CancelledCount : Z }.

(** ** LeaseItemInput *)

Definition LeaseItemInput_write (m : LeaseItemInput) : writer :=
  if_nonempty (in_ServiceName m) (put_bytes 0x1a (in_ServiceName m)) ;;>
  if_nonzero (in_Quantity m) (put_uint 0x10 (in_Quantity m)) ;;>
  if_nonempty (in_SkuUuid m) (put_bytes 0xa (in_SkuUuid m)).

Definition LeaseItemInput_Size (m : LeaseItemInput) : Z :=
  size_str (in_SkuUuid m) +
  size_num (in_Quantity m) +
  size_str (in_ServiceName m).

Definition LeaseItemInput_Marshal (m : LeaseItemInput) : res bytes :=
  marshal (LeaseItemInput_Size m) (LeaseItemInput_write m).

Definition LeaseItemInput_switch (fieldNum wireType : Z) (dAtA : bytes) (iNdEx : Z) (m : LeaseItemInput) :
    option (res (LeaseItemInput * Z)) :=
  let 'mkItemInput skuUuid quantity serviceName := m in
  match fieldNum with
  | 1 => Some ('(x, i) ← get_string wireType dAtA iNdEx; Ok (mkItemInput x quantity serviceName, i))
  | 2 => Some ('(x, i) ← get_uint wireType dAtA iNdEx; Ok (mkItemInput skuUuid x serviceName, i))
  | 3 => Some ('(x, i) ← get_string wireType dAtA iNdEx; Ok (mkItemInput skuUuid quantity x, i))
  | _ => None
  end.

Definition LeaseItemInput_zero : LeaseItemInput := mkItemInput "" 0 "".

Definition LeaseItemInput_Unmarshal (dAtA : bytes) : res LeaseItemInput :=
  unmarshal LeaseItemInput_switch dAtA LeaseItemInput_zero.

Definition LeaseItemInput_wire (m : LeaseItemInput) : bytes :=
  enc_str 0xa (in_SkuUuid m) ++
  enc_uint 0x10 (in_Quantity m) ++
  enc_str 0x1a (in_ServiceName m).

(** ** MsgCreateLease *)

Definition MsgCreateLease_write (m : MsgCreateLease) : writer :=
  if_nonempty (cl_MetaHash m) (put_bytes 0x1a (cl_MetaHash m)) ;;>
  put_each (λ e, put_msg 0x12 (to_sized_buffer (LeaseItemInput_write e))) (cl_Items m) ;;>
  if_nonempty (cl_Tenant m) (put_bytes 0xa (cl_Tenant m)).

Definition MsgCreateLease_Size (m : MsgCreateLease) : Z :=
  size_str (cl_Tenant m) +
  size_each (λ e, size_len (LeaseItemInput_Size e)) (cl_Items m) +
  size_str (cl_MetaHash m).

Definition MsgCreateLease_Marshal (m : MsgCreateLease) : res bytes :=
  marshal (MsgCreateLease_Size m) (MsgCreateLease_write m).

Definition MsgCreateLease_switch (fieldNum wireType : Z) (dAtA : bytes) (iNdEx : Z) (m : MsgCreateLease) :
    option (res (MsgCreateLease * Z)) :=
  let 'mkMsgCreateLease tenant items metaHash := m in
  match fieldNum with
  | 1 => Some ('(x, i) ← get_string wireType dAtA iNdEx; Ok (mkMsgCreateLease x items metaHash, i))
  | 2 => Some ('(x, i) ← get_msg LeaseItemInput_Unmarshal wireType dAtA iNdEx;
      Ok (mkMsgCreateLease tenant (items ++ [x]) metaHash, i))
  | 3 => Some ('(x, i) ← get_bytes wireType dAtA iNdEx; Ok (mkMsgCreateLease tenant items x, i))
  | _ => None
  end.

Definition MsgCreateLease_zero : MsgCreateLease := mkMsgCreateLease "" [] "".

Definition MsgCreateLease_Unmarshal (dAtA : bytes) : res MsgCreateLease :=
  unmarshal MsgCreateLease_switch dAtA MsgCreateLease_zero.

Definition MsgCreateLease_wire (m : MsgCreateLease) : bytes :=
  enc_str 0xa (cl_Tenant m) ++
  enc_each (λ e, len_field 0x12 (LeaseItemInput_wire e)) (cl_Items m) ++
  enc_str 0x1a (cl_MetaHash m).

(** ** MsgCreateLeaseResponse *)

Definition MsgCreateLeaseResponse_write (m : MsgCreateLeaseResponse) : writer :=
  if_nonempty (clr_LeaseUuid m) (put_bytes 0xa (clr_LeaseUuid m)).

Definition MsgCreateLeaseResponse_Size (m : MsgCreateLeaseResponse) : Z :=
  size_str (clr_LeaseUuid m).

Definition MsgCreateLeaseResponse_Marshal (m : MsgCreateLeaseResponse) : res bytes :=
  marshal (MsgCreateLeaseResponse_Size m) (MsgCreateLeaseResponse_write m).

Definition MsgCreateLeaseResponse_switch (fieldNum wireType : Z) (dAtA : bytes) (iNdEx : Z) (m : MsgCreateLeaseResponse) :
    option (res (MsgCreateLeaseResponse * Z)) :=
  let 'mkMsgCreateLeaseResponse leaseUuid := m in
  match fieldNum with
  | 1 => Some ('(x, i) ← get_string wireType dAtA iNdEx; Ok (mkMsgCreateLeaseResponse x, i))
  | _ => None
  end.

Definition MsgCreateLeaseResponse_zero : MsgCreateLeaseResponse := mkMsgCreateLeaseResponse "".

Definition MsgCreateLeaseResponse_Unmarshal (dAtA : bytes) : res MsgCreateLeaseResponse :=
  unmarshal MsgCreateLeaseResponse_switch dAtA MsgCreateLeaseResponse_zero.

Definition MsgCreateLeaseResponse_wire (m : MsgCreateLeaseResponse) : bytes :=
  enc_str 0xa (clr_LeaseUuid m).

(** ** MsgCreateLeaseForTenant *)

Definition MsgCreateLeaseForTenant_write (m : MsgCreateLeaseForTenant) : writer :=
  if_nonempty (ct_MetaHash m) (put_bytes 0x22 (ct_MetaHash m)) ;;>
  put_each (λ e, put_msg 0x1a (to_sized_buffer (LeaseItemInput_write e))) (ct_Items m) ;;>
  if_nonempty (ct_Tenant m) (put_bytes 0x12 (ct_Tenant m)) ;;>
  if_nonempty (ct_Authority m) (put_bytes 0xa (ct_Authority m)).

Definition MsgCreateLeaseForTenant_Size (m : MsgCreateLeaseForTenant) : Z :=
  size_str (ct_Authority m) +
  size_str (ct_Tenant m) +
  size_each (λ e, size_len (LeaseItemInput_Size e)) (ct_Items m) +
  size_str (ct_MetaHash m).

Definition MsgCreateLeaseForTenant_Marshal (m : MsgCreateLeaseForTenant) : res bytes :=
  marshal (MsgCreateLeaseForTenant_Size m) (MsgCreateLeaseForTenant_write m).

Definition MsgCreateLeaseForTenant_switch (fieldNum wireType : Z) (dAtA : bytes) (iNdEx : Z) (m : MsgCreateLeaseForTenant) :
    option (res (MsgCreateLeaseForTenant * Z)) :=
  let 'mkMsgCreateLeaseForTenant authority tenant items metaHash := m in
  match fieldNum with
  | 1 => Some ('(x, i) ← get_string wireType dAtA iNdEx; Ok (mkMsgCreateLeaseForTenant x tenant items metaHash, i))
  | 2 => Some ('(x, i) ← get_string wireType dAtA iNdEx; Ok (mkMsgCreateLeaseForTenant authority x items metaHash, i))
  | 3 => Some ('(x, i) ← get_msg LeaseItemInput_Unmarshal wireType dAtA iNdEx;
      Ok (mkMsgCreateLeaseForTenant authority tenant (items ++ [x]) metaHash, i))
  | 4 => Some ('(x, i) ← get_bytes wireType dAtA iNdEx; Ok (mkMsgCreateLeaseForTenant authority tenant items x, i))
  | _ => None
  end.

Definition MsgCreateLeaseForTenant_zero : MsgCreateLeaseForTenant := mkMsgCreateLeaseForTenant "" "" [] "".

Definition MsgCreateLeaseForTenant_Unmarshal (dAtA : bytes) : res MsgCreateLeaseForTenant :=
  unmarshal MsgCreateLeaseForTenant_switch dAtA MsgCreateLeaseForTenant_zero.

Definition MsgCreateLeaseForTenant_wire (m : MsgCreateLeaseForTenant) : bytes :=
  enc_str 0xa (ct_Authority m) ++
  enc_str 0x12 (ct_Tenant m) ++
  enc_each (λ e, len_field 0x1a (LeaseItemInput_wire e)) (ct_Items m) ++
  enc_str 0x22 (ct_MetaHash m).

(** ** MsgCreateLeaseForTenantResponse *)

Definition MsgCreateLeaseForTenantResponse_write (m : MsgCreateLeaseForTenantResponse) : writer :=
  if_nonempty (ctr_LeaseUuid m) (put_bytes 0xa (ctr_LeaseUuid m)).

Definition MsgCreateLeaseForTenantResponse_Size (m : MsgCreateLeaseForTenantResponse) : Z :=
  size_str (ctr_LeaseUuid m).

Definition MsgCreateLeaseForTenantResponse_Marshal (m : MsgCreateLeaseForTenantResponse) : res bytes :=
  marshal (MsgCreateLeaseForTenantResponse_Size m) (MsgCreateLeaseForTenantResponse_write m).

Definition MsgCreateLeaseForTenantResponse_switch (fieldNum wireType : Z) (dAtA : bytes) (iNdEx : Z) (m : MsgCreateLeaseForTenantResponse) :
    option (res (MsgCreateLeaseForTenantResponse * Z)) :=
  let 'mkMsgCreateLeaseForTenantResponse leaseUuid := m in
  match fieldNum with
  | 1 => Some ('(x, i) ← get_string wireType dAtA iNdEx; Ok (mkMsgCreateLeaseForTenantResponse x, i))
  | _ => None
  end.

Definition MsgCreateLeaseForTenantResponse_zero : MsgCreateLeaseForTenantResponse :=
  mkMsgCreateLeaseForTenantResponse "".

Definition MsgCreateLeaseForTenantResponse_Unmarshal (dAtA : bytes) : res MsgCreateLeaseForTenantResponse :=
  unmarshal MsgCreateLeaseForTenantResponse_switch dAtA MsgCreateLeaseForTenantResponse_zero.

Definition MsgCreateLeaseForTenantResponse_wire (m : MsgCreateLeaseForTenantResponse) : bytes :=
  enc_str 0xa (ctr_LeaseUuid m).

(** ** MsgCloseLease *)

Definition MsgCloseLease_write (m : MsgCloseLease) : writer :=
  if_nonempty (xl_Reason m) (put_bytes 0x1a (xl_Reason m)) ;;>
  put_each (λ s, put_bytes 0x12 s) (xl_LeaseUuids m) ;;>
  if_nonempty (xl_Sender m) (put_bytes 0xa (xl_Sender m)).

Definition MsgCloseLease_Size (m : MsgCloseLease) : Z :=
  size_str (xl_Sender m) +
  size_each (λ s, size_len (len s)) (xl_LeaseUuids m) +
  size_str (xl_Reason m).

Definition MsgCloseLease_Marshal (m : MsgCloseLease) : res bytes :=
  marshal (MsgCloseLease_Size m) (MsgCloseLease_write m).

Definition MsgCloseLease_switch (fieldNum wireType : Z) (dAtA : bytes) (iNdEx : Z) (m : MsgCloseLease) :
    option (res (MsgCloseLease * Z)) :=
  let 'mkMsgCloseLease sender leaseUuids reason := m in
  match fieldNum with
  | 1 => Some ('(x, i) ← get_string wireType dAtA iNdEx; Ok (mkMsgCloseLease x leaseUuids reason, i))
  | 2 => Some ('(x, i) ← get_string wireType dAtA iNdEx; Ok (mkMsgCloseLease sender (leaseUuids ++ [x]) reason, i))
  | 3 => Some ('(x, i) ← get_string wireType dAtA iNdEx; Ok (mkMsgCloseLease sender leaseUuids x, i))
  | _ => None
  end.

Definition MsgCloseLease_zero : MsgCloseLease := mkMsgCloseLease "" [] "".

Definition MsgCloseLease_Unmarshal (dAtA : bytes) : res MsgCloseLease :=
  unmarshal MsgCloseLease_switch dAtA MsgCloseLease_zero.

Definition MsgCloseLease_wire (m : MsgCloseLease) : bytes :=
  enc_str 0xa (xl_Sender m) ++
  enc_each (λ s, len_field 0x12 (to_bytes s)) (xl_LeaseUuids m) ++
  enc_str 0x1a (xl_Reason m).

(** ** MsgWithdraw *)

Definition MsgWithdraw_write (m : MsgWithdraw) : writer :=
  if_nonzero (wd_Limit m) (put_uint 0x20 (wd_Limit m)) ;;>
  if_nonempty (wd_ProviderUuid m) (put_bytes 0x1a (wd_ProviderUuid m)) ;;>
  put_each (λ s, put_bytes 0x12 s) (wd_LeaseUuids m) ;;>
  if_nonempty (wd_Sender m) (put_bytes 0xa (wd_Sender m)).

Definition MsgWithdraw_Size (m : MsgWithdraw) : Z :=
  size_str (wd_Sender m) +
  size_each (λ s, size_len (len s)) (wd_LeaseUuids m) +
  size_str (wd_ProviderUuid m) +
  size_num (wd_Limit m).

Definition MsgWithdraw_Marshal (m : MsgWithdraw) : res bytes := marshal (MsgWithdraw_Size m) (MsgWithdraw_write m).

Definition MsgWithdraw_switch (fieldNum wireType : Z) (dAtA : bytes) (iNdEx : Z) (m : MsgWithdraw) :
    option (res (MsgWithdraw * Z)) :=
  let 'mkMsgWithdraw sender leaseUuids providerUuid limit := m in
  match fieldNum with
  | 1 => Some ('(x, i) ← get_string wireType dAtA iNdEx; Ok (mkMsgWithdraw x leaseUuids providerUuid limit, i))
  | 2 => Some ('(x, i) ← get_string wireType dAtA iNdEx;
      Ok (mkMsgWithdraw sender (leaseUuids ++ [x]) providerUuid limit, i))
  | 3 => Some ('(x, i) ← get_string wireType dAtA iNdEx; Ok (mkMsgWithdraw sender leaseUuids x limit, i))
  | 4 => Some ('(x, i) ← get_uint wireType dAtA iNdEx; Ok (mkMsgWithdraw sender leaseUuids providerUuid x, i))
  | _ => None
  end.

Definition MsgWithdraw_zero : MsgWithdraw := mkMsgWithdraw "" [] "" 0.

Definition MsgWithdraw_Unmarshal (dAtA : bytes) : res MsgWithdraw := unmarshal MsgWithdraw_switch dAtA MsgWithdraw_zero.

Definition MsgWithdraw_wire (m : MsgWithdraw) : bytes :=
  enc_str 0xa (wd_Sender m) ++
  enc_each (λ s, len_field 0x12 (to_bytes s)) (wd_LeaseUuids m) ++
  enc_str 0x1a (wd_ProviderUuid m) ++
  enc_uint 0x20 (wd_Limit m).

(** ** MsgUpdateParams *)

Definition MsgUpdateParams_write (m : MsgUpdateParams) : writer :=
  put_msg 0x12 (to_sized_buffer (Params_write (bp_Params m))) ;;>
  if_nonempty (bp_Authority m) (put_bytes 0xa (bp_Authority m)).

Definition MsgUpdateParams_Size (m : MsgUpdateParams) : Z :=
  size_str (bp_Authority m) +
  size_len (Params_Size (bp_Params m)).

Definition MsgUpdateParams_Marshal (m : MsgUpdateParams) : res bytes :=
  marshal (MsgUpdateParams_Size m) (MsgUpdateParams_write m).

Definition MsgUpdateParams_switch (fieldNum wireType : Z) (dAtA : bytes) (iNdEx : Z) (m : MsgUpdateParams) :
    option (res (MsgUpdateParams * Z)) :=
  let 'mkMsgUpdateParams authority params := m in
  match fieldNum with
  | 1 => Some ('(x, i) ← get_string wireType dAtA iNdEx; Ok (mkMsgUpdateParams x params, i))
  | 2 => Some ('(x, i) ← get_msg (λ b, unmarshal Params_switch b params) wireType dAtA iNdEx;
      Ok (mkMsgUpdateParams authority x, i))
  | _ => None
  end.

Definition MsgUpdateParams_zero : MsgUpdateParams := mkMsgUpdateParams "" Params_zero.

Definition MsgUpdateParams_Unmarshal (dAtA : bytes) : res MsgUpdateParams :=
  unmarshal MsgUpdateParams_switch dAtA MsgUpdateParams_zero.

Definition MsgUpdateParams_wire (m : MsgUpdateParams) : bytes :=
  enc_str 0xa (bp_Authority m) ++
  len_field 0x12 (Params_wire (bp_Params m)).

(** ** MsgAcknowledgeLease *)

Definition MsgAcknowledgeLease_write (m : MsgAcknowledgeLease) : writer :=
  put_each (λ s, put_bytes 0x12 s) (al_LeaseUuids m) ;;>
  if_nonempty (al_Sender m) (put_bytes 0xa (al_Sender m)).

Definition MsgAcknowledgeLease_Size (m : MsgAcknowledgeLease) : Z :=
  size_str (al_Sender m) +
  size_each (λ s, size_len (len s)) (al_LeaseUuids m).

Definition MsgAcknowledgeLease_Marshal (m : MsgAcknowledgeLease) : res bytes :=
  marshal (MsgAcknowledgeLease_Size m) (MsgAcknowledgeLease_write m).

Definition MsgAcknowledgeLease_switch (fieldNum wireType : Z) (dAtA : bytes) (iNdEx : Z) (m : MsgAcknowledgeLease) :
    option (res (MsgAcknowledgeLease * Z)) :=
  let 'mkMsgAcknowledgeLease sender leaseUuids := m in
  match fieldNum with
  | 1 => Some ('(x, i) ← get_string wireType dAtA iNdEx; Ok (mkMsgAcknowledgeLease x leaseUuids, i))
  | 2 => Some ('(x, i) ← get_string wireType dAtA iNdEx; Ok (mkMsgAcknowledgeLease sender (leaseUuids ++ [x]), i))
  | _ => None
  end.

Definition MsgAcknowledgeLease_zero : MsgAcknowledgeLease := mkMsgAcknowledgeLease "" [].

Definition MsgAcknowledgeLease_Unmarshal (dAtA : bytes) : res MsgAcknowledgeLease :=
  unmarshal MsgAcknowledgeLease_switch dAtA MsgAcknowledgeLease_zero.

Definition MsgAcknowledgeLease_wire (m : MsgAcknowledgeLease) : bytes :=
  enc_str 0xa (al_Sender m) ++
  enc_each (λ s, len_field 0x12 (to_bytes s)) (al_LeaseUuids m).

(** ** MsgRejectLease *)

Definition MsgRejectLease_write (m : MsgRejectLease) : writer :=
  if_nonempty (rl_Reason m) (put_bytes 0x1a (rl_Reason m)) ;;>
  put_each (λ s, put_bytes 0x12 s) (rl_LeaseUuids m) ;;>
  if_nonempty (rl_Sender m) (put_bytes 0xa (rl_Sender m)).

Definition MsgRejectLease_Size (m : MsgRejectLease) : Z :=
  size_str (rl_Sender m) +
  size_each (λ s, size_len (len s)) (rl_LeaseUuids m) +
  size_str (rl_Reason m).

Definition MsgRejectLease_Marshal (m : MsgRejectLease) : res bytes :=
  marshal (MsgRejectLease_Size m) (MsgRejectLease_write m).

Definition MsgRejectLease_switch (fieldNum wireType : Z) (dAtA : bytes) (iNdEx : Z) (m : MsgRejectLease) :
    option (res (MsgRejectLease * Z)) :=
  let 'mkMsgRejectLease sender leaseUuids reason := m in
  match fieldNum with
  | 1 => Some ('(x, i) ← get_string wireType dAtA iNdEx; Ok (mkMsgRejectLease x leaseUuids reason, i))
  | 2 => Some ('(x, i) ← get_string wireType dAtA iNdEx; Ok (mkMsgRejectLease sender (leaseUuids ++ [x]) reason, i))
  | 3 => Some ('(x, i) ← get_string wireType dAtA iNdEx; Ok (mkMsgRejectLease sender leaseUuids x, i))
  | _ => None
  end.

Definition MsgRejectLease_zero : MsgRejectLease := mkMsgRejectLease "" [] "".

Definition MsgRejectLease_Unmarshal (dAtA : bytes) : res MsgRejectLease :=
  unmarshal MsgRejectLease_switch dAtA MsgRejectLease_zero.

Definition MsgRejectLease_wire (m : MsgRejectLease) : bytes :=
  enc_str 0xa (rl_Sender m) ++
  enc_each (λ s, len_field 0x12 (to_bytes s)) (rl_LeaseUuids m) ++
  enc_str 0x1a (rl_Reason m).

(** ** MsgCancelLease *)

Definition MsgCancelLease_write (m : MsgCancelLease) : writer :=
  put_each (λ s, put_bytes 0x12 s) (kl_LeaseUuids m) ;;>
  if_nonempty (kl_Tenant m) (put_bytes 0xa (kl_Tenant m)).

Definition MsgCancelLease_Size (m : MsgCancelLease) : Z :=
  size_str (kl_Tenant m) +
  size_each (λ s, size_len (len s)) (kl_LeaseUuids m).

Definition MsgCancelLease_Marshal (m : MsgCancelLease) : res bytes :=
  marshal (MsgCancelLease_Size m) (MsgCancelLease_write m).

Definition MsgCancelLease_switch (fieldNum wireType : Z) (dAtA : bytes) (iNdEx : Z) (m : MsgCancelLease) :
    option (res (MsgCancelLease * Z)) :=
  let 'mkMsgCancelLease tenant leaseUuids := m in
  match fieldNum with
  | 1 => Some ('(x, i) ← get_string wireType dAtA iNdEx; Ok (mkMsgCancelLease x leaseUuids, i))
  | 2 => Some ('(x, i) ← get_string wireType dAtA iNdEx; Ok (mkMsgCancelLease tenant (leaseUuids ++ [x]), i))
  | _ => None
  end.

Definition MsgCancelLease_zero : MsgCancelLease := mkMsgCancelLease "" [].

Definition MsgCancelLease_Unmarshal (dAtA : bytes) : res MsgCancelLease :=
  unmarshal MsgCancelLease_switch dAtA MsgCancelLease_zero.

Definition MsgCancelLease_wire (m : MsgCancelLease) : bytes :=
  enc_str 0xa (kl_Tenant m) ++
  enc_each (λ s, len_field 0x12 (to_bytes s)) (kl_LeaseUuids m).

(** ** MsgSetItemCustomDomain *)

Definition MsgSetItemCustomDomain_write (m : MsgSetItemCustomDomain) : writer :=
  if_nonempty (cd_CustomDomain m) (put_bytes 0x22 (cd_CustomDomain m)) ;;>
  if_nonempty (cd_ServiceName m) (put_bytes 0x1a (cd_ServiceName m)) ;;>
  if_nonempty (cd_LeaseUuid m) (put_bytes 0x12 (cd_LeaseUuid m)) ;;>
  if_nonempty (cd_Sender m) (put_bytes 0xa (cd_Sender m)).

Definition MsgSetItemCustomDomain_Size (m : MsgSetItemCustomDomain) : Z :=
  size_str (cd_Sender m) +
  size_str (cd_LeaseUuid m) +
  size_str (cd_ServiceName m) +
  size_str (cd_CustomDomain m).

Definition MsgSetItemCustomDomain_Marshal (m : MsgSetItemCustomDomain) : res bytes :=
  marshal (MsgSetItemCustomDomain_Size m) (MsgSetItemCustomDomain_write m).

Definition MsgSetItemCustomDomain_switch (fieldNum wireType : Z) (dAtA : bytes) (iNdEx : Z) (m : MsgSetItemCustomDomain) :
    option (res (MsgSetItemCustomDomain * Z)) :=
  let 'mkMsgSetItemCustomDomain sender leaseUuid serviceName customDomain := m in
  match fieldNum with
  | 1 => Some ('(x, i) ← get_string wireType dAtA iNdEx;
      Ok (mkMsgSetItemCustomDomain x leaseUuid serviceName customDomain, i))
  | 2 => Some ('(x, i) ← get_string wireType dAtA iNdEx;
      Ok (mkMsgSetItemCustomDomain sender x serviceName customDomain, i))
  | 3 => Some ('(x, i) ← get_string wireType dAtA iNdEx;
      Ok (mkMsgSetItemCustomDomain sender leaseUuid x customDomain, i))
  | 4 => Some ('(x, i) ← get_string wireType dAtA iNdEx;
      Ok (mkMsgSetItemCustomDomain sender leaseUuid serviceName x, i))
  | _ => None
  end.

Definition MsgSetItemCustomDomain_zero : MsgSetItemCustomDomain := mkMsgSetItemCustomDomain "" "" "" "".

Definition MsgSetItemCustomDomain_Unmarshal (dAtA : bytes) : res MsgSetItemCustomDomain :=
  unmarshal MsgSetItemCustomDomain_switch dAtA MsgSetItemCustomDomain_zero.

Definition MsgSetItemCustomDomain_wire (m : MsgSetItemCustomDomain) : bytes :=
  enc_str 0xa (cd_Sender m) ++
  enc_str 0x12 (cd_LeaseUuid m) ++
  enc_str 0x1a (cd_ServiceName m) ++
  enc_str 0x22 (cd_CustomDomain m).

Section codec.
Context `{Gogo}.

(** ** MsgFundCredit *)

Definition MsgFundCredit_write (m : MsgFundCredit) : writer :=
  put_msg 0x1a (Coin_MarshalToSizedBuffer (fc_Amount m)) ;;>
  if_nonempty (fc_Tenant m) (put_bytes 0x12 (fc_Tenant m)) ;;>
  if_nonempty (fc_Sender m) (put_bytes 0xa (fc_Sender m)).

Definition MsgFundCredit_Size (m : MsgFundCredit) : Z :=
  size_str (fc_Sender m) +
  size_str (fc_Tenant m) +
  size_len (Coin_Size (fc_Amount m)).

Definition MsgFundCredit_Marshal (m : MsgFundCredit) : res bytes :=
  marshal (MsgFundCredit_Size m) (MsgFundCredit_write m).

Definition MsgFundCredit_switch (fieldNum wireType : Z) (dAtA : bytes) (iNdEx : Z) (m : MsgFundCredit) :
    option (res (MsgFundCredit * Z)) :=
  let 'mkMsgFundCredit sender tenant amount := m in
  match fieldNum with
  | 1 => Some ('(x, i) ← get_string wireType dAtA iNdEx; Ok (mkMsgFundCredit x tenant amount, i))
  | 2 => Some ('(x, i) ← get_string wireType dAtA iNdEx; Ok (mkMsgFundCredit sender x amount, i))
  | 3 => Some ('(x, i) ← get_msg (λ b, Coin_Unmarshal b amount) wireType dAtA iNdEx;
      Ok (mkMsgFundCredit sender tenant x, i))
  | _ => None
  end.

Definition MsgFundCredit_zero : MsgFundCredit := mkMsgFundCredit "" "" no_coin.

Definition MsgFundCredit_Unmarshal (dAtA : bytes) : res MsgFundCredit :=
  unmarshal MsgFundCredit_switch dAtA MsgFundCredit_zero.

Definition MsgFundCredit_wire (m : MsgFundCredit) : bytes :=
  enc_str 0xa (fc_Sender m) ++
  enc_str 0x12 (fc_Tenant m) ++
  len_field 0x1a (coin_bytes (fc_Amount m)).

(** ** MsgFundCreditResponse *)

Definition MsgFundCreditResponse_write (m : MsgFundCreditResponse) : writer :=
  put_msg 0x12 (Coin_MarshalToSizedBuffer (fcr_NewBalance m)) ;;>
  if_nonempty (fcr_CreditAddress m) (put_bytes 0xa (fcr_CreditAddress m)).

Definition MsgFundCreditResponse_Size (m : MsgFundCreditResponse) : Z :=
  size_str (fcr_CreditAddress m) +
  size_len (Coin_Size (fcr_NewBalance m)).

Definition MsgFundCreditResponse_Marshal (m : MsgFundCreditResponse) : res bytes :=
  marshal (MsgFundCreditResponse_Size m) (MsgFundCreditResponse_write m).

Definition MsgFundCreditResponse_switch (fieldNum wireType : Z) (dAtA : bytes) (iNdEx : Z) (m : MsgFundCreditResponse) :
    option (res (MsgFundCreditResponse * Z)) :=
  let 'mkMsgFundCreditResponse creditAddress newBalance := m in
  match fieldNum with
  | 1 => Some ('(x, i) ← get_string wireType dAtA iNdEx; Ok (mkMsgFundCreditResponse x newBalance, i))
  | 2 => Some ('(x, i) ← get_msg (λ b, Coin_Unmarshal b newBalance) wireType dAtA iNdEx;
      Ok (mkMsgFundCreditResponse creditAddress x, i))
  | _ => None
  end.

Definition MsgFundCreditResponse_zero : MsgFundCreditResponse := mkMsgFundCreditResponse "" no_coin.

Definition MsgFundCreditResponse_Unmarshal (dAtA : bytes) : res MsgFundCreditResponse :=
  unmarshal MsgFundCreditResponse_switch dAtA MsgFundCreditResponse_zero.

Definition MsgFundCreditResponse_wire (m : MsgFundCreditResponse) : bytes :=
  enc_str 0xa (fcr_CreditAddress m) ++
  len_field 0x12 (coin_bytes (fcr_NewBalance m)).

(** ** MsgCloseLeaseResponse *)

Definition MsgCloseLeaseResponse_write (m : MsgCloseLeaseResponse) : writer :=
  put_each (λ e, put_msg 0x1a (Coin_MarshalToSizedBuffer e)) (xlr_TotalSettledAmounts m) ;;>
  if_nonzero (xlr_ClosedCount m) (put_uint 0x10 (xlr_ClosedCount m)) ;;>
  put_time 0xa (xlr_ClosedAt m).

Definition MsgCloseLeaseResponse_Size (m : MsgCloseLeaseResponse) : Z :=
  size_time (xlr_ClosedAt m) +
  size_num (xlr_ClosedCount m) +
  size_each (λ e, size_len (Coin_Size e)) (xlr_TotalSettledAmounts m).

Definition MsgCloseLeaseResponse_Marshal (m : MsgCloseLeaseResponse) : res bytes :=
  marshal (MsgCloseLeaseResponse_Size m) (MsgCloseLeaseResponse_write m).

Definition MsgCloseLeaseResponse_switch (fieldNum wireType : Z) (dAtA : bytes) (iNdEx : Z) (m : MsgCloseLeaseResponse) :
    option (res (MsgCloseLeaseResponse * Z)) :=
  let 'mkMsgCloseLeaseResponse closedAt closedCount totalSettledAmounts := m in
  match fieldNum with
  | 1 => Some ('(x, i) ← get_time wireType dAtA iNdEx;
      Ok (mkMsgCloseLeaseResponse x closedCount totalSettledAmounts, i))
  | 2 => Some ('(x, i) ← get_uint wireType dAtA iNdEx; Ok (mkMsgCloseLeaseResponse closedAt x totalSettledAmounts, i))
  | 3 => Some ('(x, i) ← get_msg (λ b, Coin_Unmarshal b no_coin) wireType dAtA iNdEx;
      Ok (mkMsgCloseLeaseResponse closedAt closedCount (totalSettledAmounts ++ [x]), i))
  | _ => None
  end.

Definition MsgCloseLeaseResponse_zero : MsgCloseLeaseResponse := mkMsgCloseLeaseResponse no_time 0 [].

Definition MsgCloseLeaseResponse_Unmarshal (dAtA : bytes) : res MsgCloseLeaseResponse :=
  unmarshal MsgCloseLeaseResponse_switch dAtA MsgCloseLeaseResponse_zero.

Definition MsgCloseLeaseResponse_wire (m : MsgCloseLeaseResponse) : bytes :=
  time_field 0xa (xlr_ClosedAt m) ++
  enc_uint 0x10 (xlr_ClosedCount m) ++
  enc_each (λ e, len_field 0x1a (coin_bytes e)) (xlr_TotalSettledAmounts m).

(** ** MsgWithdrawResponse *)

Definition MsgWithdrawResponse_write (m : withdraw_response) : writer :=
  if_true (wr_HasMore m) (put_bool 0x20 (wr_HasMore m)) ;;>
  if_nonzero (wr_WithdrawalCount m) (put_uint 0x18 (wr_WithdrawalCount m)) ;;>
  if_nonempty (wr_PayoutAddress m) (put_bytes 0x12 (wr_PayoutAddress m)) ;;>
  put_each (λ e, put_msg 0xa (Coin_MarshalToSizedBuffer e)) (wr_TotalAmounts m).

Definition MsgWithdrawResponse_Size (m : withdraw_response) : Z :=
  size_each (λ e, size_len (Coin_Size e)) (wr_TotalAmounts m) +
  size_str (wr_PayoutAddress m) +
  size_num (wr_WithdrawalCount m) +
  size_bool (wr_HasMore m).

Definition MsgWithdrawResponse_Marshal (m : withdraw_response) : res bytes :=
  marshal (MsgWithdrawResponse_Size m) (MsgWithdrawResponse_write m).

Definition MsgWithdrawResponse_switch (fieldNum wireType : Z) (dAtA : bytes) (iNdEx : Z) (m : withdraw_response) :
    option (res (withdraw_response * Z)) :=
  let 'mkWithdrawResponse totalAmounts payoutAddress withdrawalCount hasMore := m in
  match fieldNum with
  | 1 => Some ('(x, i) ← get_msg (λ b, Coin_Unmarshal b no_coin) wireType dAtA iNdEx;
      Ok (mkWithdrawResponse (totalAmounts ++ [x]) payoutAddress withdrawalCount hasMore, i))
  | 2 => Some ('(x, i) ← get_string wireType dAtA iNdEx;
      Ok (mkWithdrawResponse totalAmounts x withdrawalCount hasMore, i))
  | 3 => Some ('(x, i) ← get_uint wireType dAtA iNdEx; Ok (mkWithdrawResponse totalAmounts payoutAddress x hasMore, i))
  | 4 => Some ('(x, i) ← get_bool wireType dAtA iNdEx;
      Ok (mkWithdrawResponse totalAmounts payoutAddress withdrawalCount x, i))
  | _ => None
  end.

Definition MsgWithdrawResponse_zero : withdraw_response := mkWithdrawResponse [] "" 0 false.

Definition MsgWithdrawResponse_Unmarshal (dAtA : bytes) : res withdraw_response :=
  unmarshal MsgWithdrawResponse_switch dAtA MsgWithdrawResponse_zero.

Definition MsgWithdrawResponse_wire (m : withdraw_response) : bytes :=
  enc_each (λ e, len_field 0xa (coin_bytes e)) (wr_TotalAmounts m) ++
  enc_str 0x12 (wr_PayoutAddress m) ++
  enc_uint 0x18 (wr_WithdrawalCount m) ++
  enc_bool 0x20 (wr_HasMore m).

(** ** MsgAcknowledgeLeaseResponse *)

Definition MsgAcknowledgeLeaseResponse_write (m : MsgAcknowledgeLeaseResponse) : writer :=
  if_nonzero (alr_AcknowledgedCount m) (put_uint 0x10 (alr_AcknowledgedCount m)) ;;>
  put_time 0xa (alr_AcknowledgedAt m).

Definition MsgAcknowledgeLeaseResponse_Size (m : MsgAcknowledgeLeaseResponse) : Z :=
  size_time (alr_AcknowledgedAt m) +
  size_num (alr_AcknowledgedCount m).

Definition MsgAcknowledgeLeaseResponse_Marshal (m : MsgAcknowledgeLeaseResponse) : res bytes :=
  marshal (MsgAcknowledgeLeaseResponse_Size m) (MsgAcknowledgeLeaseResponse_write m).

Definition MsgAcknowledgeLeaseResponse_switch (fieldNum wireType : Z) (dAtA : bytes) (iNdEx : Z) (m : MsgAcknowledgeLeaseResponse) :
    option (res (MsgAcknowledgeLeaseResponse * Z)) :=
  let 'mkMsgAcknowledgeLeaseResponse acknowledgedAt acknowledgedCount := m in
  match fieldNum with
  | 1 => Some ('(x, i) ← get_time wireType dAtA iNdEx; Ok (mkMsgAcknowledgeLeaseResponse x acknowledgedCount, i))
  | 2 => Some ('(x, i) ← get_uint wireType dAtA iNdEx; Ok (mkMsgAcknowledgeLeaseResponse acknowledgedAt x, i))
  | _ => None
  end.

Definition MsgAcknowledgeLeaseResponse_zero : MsgAcknowledgeLeaseResponse := mkMsgAcknowledgeLeaseResponse no_time 0.

Definition MsgAcknowledgeLeaseResponse_Unmarshal (dAtA : bytes) : res MsgAcknowledgeLeaseResponse :=
  unmarshal MsgAcknowledgeLeaseResponse_switch dAtA MsgAcknowledgeLeaseResponse_zero.

Definition MsgAcknowledgeLeaseResponse_wire (m : MsgAcknowledgeLeaseResponse) : bytes :=
  time_field 0xa (alr_AcknowledgedAt m) ++
  enc_uint 0x10 (alr_AcknowledgedCount m).

(** ** MsgRejectLeaseResponse *)

Definition MsgRejectLeaseResponse_write (m : MsgRejectLeaseResponse) : writer :=
  if_nonzero (rlr_RejectedCount m) (put_uint 0x10 (rlr_RejectedCount m)) ;;>
  put_time 0xa (rlr_RejectedAt m).

Definition MsgRejectLeaseResponse_Size (m : MsgRejectLeaseResponse) : Z :=
  size_time (rlr_RejectedAt m) +
  size_num (rlr_RejectedCount m).

Definition MsgRejectLeaseResponse_Marshal (m : MsgRejectLeaseResponse) : res bytes :=
  marshal (MsgRejectLeaseResponse_Size m) (MsgRejectLeaseResponse_write m).

Definition MsgRejectLeaseResponse_switch (fieldNum wireType : Z) (dAtA : bytes) (iNdEx : Z) (m : MsgRejectLeaseResponse) :
    option (res (MsgRejectLeaseResponse * Z)) :=
  let 'mkMsgRejectLeaseResponse rejectedAt rejectedCount := m in
  match fieldNum with
  | 1 => Some ('(x, i) ← get_time wireType dAtA iNdEx; Ok (mkMsgRejectLeaseResponse x rejectedCount, i))
  | 2 => Some ('(x, i) ← get_uint wireType dAtA iNdEx; Ok (mkMsgRejectLeaseResponse rejectedAt x, i))
  | _ => None
  end.

Definition MsgRejectLeaseResponse_zero : MsgRejectLeaseResponse := mkMsgRejectLeaseResponse no_time 0.

Definition MsgRejectLeaseResponse_Unmarshal (dAtA : bytes) : res MsgRejectLeaseResponse :=
  unmarshal MsgRejectLeaseResponse_switch dAtA MsgRejectLeaseResponse_zero.

Definition MsgRejectLeaseResponse_wire (m : MsgRejectLeaseResponse) : bytes :=
  time_field 0xa (rlr_RejectedAt m) ++
  enc_uint 0x10 (rlr_RejectedCount m).

(** ** MsgCancelLeaseResponse *)

Definition MsgCancelLeaseResponse_write (m : MsgCancelLeaseResponse) : writer :=
  if_nonzero (klr_CancelledCount m) (put_uint 0x10 (klr_CancelledCount m)) ;;>
  put_time 0xa (klr_CancelledAt m).

Definition MsgCancelLeaseResponse_Size (m : MsgCancelLeaseResponse) : Z :=
  size_time (klr_CancelledAt m) +
  size_num (klr_CancelledCount m).

Definition MsgCancelLeaseResponse_Marshal (m : MsgCancelLeaseResponse) : res bytes :=
  marshal (MsgCancelLeaseResponse_Size m) (MsgCancelLeaseResponse_write m).

Definition MsgCancelLeaseResponse_switch (fieldNum wireType : Z) (dAtA : bytes) (iNdEx : Z) (m : MsgCancelLeaseResponse) :
    option (res (MsgCancelLeaseResponse * Z)) :=
  let 'mkMsgCancelLeaseResponse cancelledAt cancelledCount := m in
  match fieldNum with
  | 1 => Some ('(x, i) ← get_time wireType dAtA iNdEx; Ok (mkMsgCancelLeaseResponse x cancelledCount, i))
  | 2 => Some ('(x, i) ← get_uint wireType dAtA iNdEx; Ok (mkMsgCancelLeaseResponse cancelledAt x, i))
  | _ => None
  end.

Definition MsgCancelLeaseResponse_zero : MsgCancelLeaseResponse := mkMsgCancelLeaseResponse no_time 0.

Definition MsgCancelLeaseResponse_Unmarshal (dAtA : bytes) : res MsgCancelLeaseResponse :=
  unmarshal MsgCancelLeaseResponse_switch dAtA MsgCancelLeaseResponse_zero.

Definition MsgCancelLeaseResponse_wire (m : MsgCancelLeaseResponse) : bytes :=
  time_field 0xa (klr_CancelledAt m) ++
  enc_uint 0x10 (klr_CancelledCount m).
End codec.

(** * The messages of the billing module are lawful *)

#[export] Instance Empty_lawful :
  lawful (λ _, True) Empty_write Empty_Size Empty_wire Empty_switch Empty_zero id.
Proof.
  split; [intros m _; apply writes_nothing|done| |done].
  intros [] _ _. apply decodes_nil.
Qed.

Definition LeaseItemInput_fits (m : LeaseItemInput) : Prop := is_u64 (in_Quantity m).

#[export] Instance LeaseItemInput_lawful :
  lawful LeaseItemInput_fits LeaseItemInput_write LeaseItemInput_Size LeaseItemInput_wire
    LeaseItemInput_switch LeaseItemInput_zero id.
Proof.
  solve_lawful. intros [skuUuid quantity serviceName]; open_decodes Hl.
  dec_string 1. dec_uint 2. dec_string 3.
Qed.

Definition MsgCreateLease_fits (m : MsgCreateLease) : Prop := Forall LeaseItemInput_fits (cl_Items m).

#[export] Instance MsgCreateLease_lawful :
  lawful MsgCreateLease_fits MsgCreateLease_write MsgCreateLease_Size MsgCreateLease_wire
    MsgCreateLease_switch MsgCreateLease_zero id.
Proof.
  solve_lawful. intros [tenant items metaHash]; open_decodes Hl.
  dec_string 1. dec_subs 2 LeaseItemInput_Unmarshal Hl (λ l, mkMsgCreateLease tenant l ""%string). dec_bytes 3.
Qed.

#[export] Instance MsgCreateLeaseResponse_lawful :
  lawful (λ _, True) MsgCreateLeaseResponse_write MsgCreateLeaseResponse_Size MsgCreateLeaseResponse_wire
    MsgCreateLeaseResponse_switch MsgCreateLeaseResponse_zero id.
Proof.
  solve_lawful. intros [leaseUuid]; open_decodes Hl.
  dec_string 1.
Qed.

Definition MsgCreateLeaseForTenant_fits (m : MsgCreateLeaseForTenant) : Prop := Forall LeaseItemInput_fits (ct_Items m).

#[export] Instance MsgCreateLeaseForTenant_lawful :
  lawful MsgCreateLeaseForTenant_fits MsgCreateLeaseForTenant_write MsgCreateLeaseForTenant_Size MsgCreateLeaseForTenant_wire
    MsgCreateLeaseForTenant_switch MsgCreateLeaseForTenant_zero id.
Proof.
  solve_lawful. intros [authority tenant items metaHash]; open_decodes Hl.
  dec_string 1. dec_string 2.
  dec_subs 3 LeaseItemInput_Unmarshal Hl (λ l, mkMsgCreateLeaseForTenant authority tenant l ""%string). dec_bytes 4.
Qed.

#[export] Instance MsgCreateLeaseForTenantResponse_lawful :
  lawful (λ _, True) MsgCreateLeaseForTenantResponse_write MsgCreateLeaseForTenantResponse_Size MsgCreateLeaseForTenantResponse_wire
    MsgCreateLeaseForTenantResponse_switch MsgCreateLeaseForTenantResponse_zero id.
Proof.
  solve_lawful. intros [leaseUuid]; open_decodes Hl.
  dec_string 1.
Qed.

#[export] Instance MsgCloseLease_lawful :
  lawful (λ _, True) MsgCloseLease_write MsgCloseLease_Size MsgCloseLease_wire
    MsgCloseLease_switch MsgCloseLease_zero id.
Proof.
  solve_lawful. intros [sender leaseUuids reason]; open_decodes Hl.
  dec_string 1. dec_strings 2 (λ l, mkMsgCloseLease sender l ""%string). dec_string 3.
Qed.

Definition MsgWithdraw_fits (m : MsgWithdraw) : Prop := is_u64 (wd_Limit m).

#[export] Instance MsgWithdraw_lawful :
  lawful MsgWithdraw_fits MsgWithdraw_write MsgWithdraw_Size MsgWithdraw_wire
    MsgWithdraw_switch MsgWithdraw_zero id.
Proof.
  solve_lawful. intros [sender leaseUuids providerUuid limit]; open_decodes Hl.
  dec_string 1. dec_strings 2 (λ l, mkMsgWithdraw sender l ""%string 0). dec_string 3. dec_uint 4.
Qed.

Definition MsgUpdateParams_fits (m : MsgUpdateParams) : Prop := Params_fits (bp_Params m).

#[export] Instance MsgUpdateParams_lawful :
  lawful MsgUpdateParams_fits MsgUpdateParams_write MsgUpdateParams_Size MsgUpdateParams_wire
    MsgUpdateParams_switch MsgUpdateParams_zero id.
Proof.
  solve_lawful. intros [authority params]; open_decodes Hl.
  dec_string 1. dec_sub 2 Hl.
Qed.

#[export] Instance MsgAcknowledgeLease_lawful :
  lawful (λ _, True) MsgAcknowledgeLease_write MsgAcknowledgeLease_Size MsgAcknowledgeLease_wire
    MsgAcknowledgeLease_switch MsgAcknowledgeLease_zero id.
Proof.
  solve_lawful. intros [sender leaseUuids]; open_decodes Hl.
  dec_string 1. dec_strings 2 (λ l, mkMsgAcknowledgeLease sender l).
Qed.

#[export] Instance MsgRejectLease_lawful :
  lawful (λ _, True) MsgRejectLease_write MsgRejectLease_Size MsgRejectLease_wire
    MsgRejectLease_switch MsgRejectLease_zero id.
Proof.
  solve_lawful. intros [sender leaseUuids reason]; open_decodes Hl.
  dec_string 1. dec_strings 2 (λ l, mkMsgRejectLease sender l ""%string). dec_string 3.
Qed.

#[export] Instance MsgCancelLease_lawful :
  lawful (λ _, True) MsgCancelLease_write MsgCancelLease_Size MsgCancelLease_wire
    MsgCancelLease_switch MsgCancelLease_zero id.
Proof.
  solve_lawful. intros [tenant leaseUuids]; open_decodes Hl.
  dec_string 1. dec_strings 2 (λ l, mkMsgCancelLease tenant l).
Qed.

#[export] Instance MsgSetItemCustomDomain_lawful :
  lawful (λ _, True) MsgSetItemCustomDomain_write MsgSetItemCustomDomain_Size MsgSetItemCustomDomain_wire
    MsgSetItemCustomDomain_switch MsgSetItemCustomDomain_zero id.
Proof.
  solve_lawful. intros [sender leaseUuid serviceName customDomain]; open_decodes Hl.
  dec_string 1. dec_string 2. dec_string 3. dec_string 4.
Qed.

Section codec.
Context `{GL : GogoLaws}.

Definition MsgFundCredit_fits (m : MsgFundCredit) : Prop := coin_fits (fc_Amount m).

#[global] Instance MsgFundCredit_lawful :
  lawful MsgFundCredit_fits MsgFundCredit_write MsgFundCredit_Size MsgFundCredit_wire
    MsgFundCredit_switch MsgFundCredit_zero id.
Proof.
  solve_lawful. intros [sender tenant amount]; open_decodes Hl.
  dec_string 1. dec_string 2. dec_msg 3 (λ b, Coin_Unmarshal b no_coin).
Qed.

Definition MsgFundCreditResponse_fits (m : MsgFundCreditResponse) : Prop := coin_fits (fcr_NewBalance m).

#[global] Instance MsgFundCreditResponse_lawful :
  lawful MsgFundCreditResponse_fits MsgFundCreditResponse_write MsgFundCreditResponse_Size MsgFundCreditResponse_wire
    MsgFundCreditResponse_switch MsgFundCreditResponse_zero id.
Proof.
  solve_lawful. intros [creditAddress newBalance]; open_decodes Hl.
  dec_string 1. dec_msg 2 (λ b, Coin_Unmarshal b no_coin).
Qed.

Definition MsgCloseLeaseResponse_fits (m : MsgCloseLeaseResponse) : Prop :=
  time_fits (xlr_ClosedAt m) ∧ is_u64 (xlr_ClosedCount m) ∧ Forall coin_fits (xlr_TotalSettledAmounts m).

#[global] Instance MsgCloseLeaseResponse_lawful :
  lawful MsgCloseLeaseResponse_fits MsgCloseLeaseResponse_write MsgCloseLeaseResponse_Size MsgCloseLeaseResponse_wire
    MsgCloseLeaseResponse_switch MsgCloseLeaseResponse_zero id.
Proof.
  solve_lawful. intros [closedAt closedCount totalSettledAmounts]; open_decodes Hl.
  dec_time 1. dec_uint 2. dec_coins 3 (λ l, mkMsgCloseLeaseResponse closedAt closedCount l).
Qed.

Definition MsgWithdrawResponse_fits (m : withdraw_response) : Prop :=
  Forall coin_fits (wr_TotalAmounts m) ∧ is_u64 (wr_WithdrawalCount m).

#[global] Instance MsgWithdrawResponse_lawful :
  lawful MsgWithdrawResponse_fits MsgWithdrawResponse_write MsgWithdrawResponse_Size MsgWithdrawResponse_wire
    MsgWithdrawResponse_switch MsgWithdrawResponse_zero id.
Proof.
  solve_lawful. intros [totalAmounts payoutAddress withdrawalCount hasMore]; open_decodes Hl.
  dec_coins 1 (λ l, mkWithdrawResponse l ""%string 0 false). dec_string 2. dec_uint 3. dec_bool 4.
Qed.

Definition MsgAcknowledgeLeaseResponse_fits (m : MsgAcknowledgeLeaseResponse) : Prop :=
  time_fits (alr_AcknowledgedAt m) ∧ is_u64 (alr_AcknowledgedCount m).

#[global] Instance MsgAcknowledgeLeaseResponse_lawful :
  lawful MsgAcknowledgeLeaseResponse_fits MsgAcknowledgeLeaseResponse_write MsgAcknowledgeLeaseResponse_Size MsgAcknowledgeLeaseResponse_wire
    MsgAcknowledgeLeaseResponse_switch MsgAcknowledgeLeaseResponse_zero id.
Proof.
  solve_lawful. intros [acknowledgedAt acknowledgedCount]; open_decodes Hl.
  dec_time 1. dec_uint 2.
Qed.

Definition MsgRejectLeaseResponse_fits (m : MsgRejectLeaseResponse) : Prop :=
  time_fits (rlr_RejectedAt m) ∧ is_u64 (rlr_RejectedCount m).

#[global] Instance MsgRejectLeaseResponse_lawful :
  lawful MsgRejectLeaseResponse_fits MsgRejectLeaseResponse_write MsgRejectLeaseResponse_Size MsgRejectLeaseResponse_wire
    MsgRejectLeaseResponse_switch MsgRejectLeaseResponse_zero id.
Proof.
  solve_lawful. intros [rejectedAt rejectedCount]; open_decodes Hl.
  dec_time 1. dec_uint 2.
Qed.

Definition MsgCancelLeaseResponse_fits (m : MsgCancelLeaseResponse) : Prop :=
  time_fits (klr_CancelledAt m) ∧ is_u64 (klr_CancelledCount m).

#[global] Instance MsgCancelLeaseResponse_lawful :
  lawful MsgCancelLeaseResponse_fits MsgCancelLeaseResponse_write MsgCancelLeaseResponse_Size MsgCancelLeaseResponse_wire
    MsgCancelLeaseResponse_switch MsgCancelLeaseResponse_zero id.
Proof.
  solve_lawful. intros [cancelledAt cancelledCount]; open_decodes Hl.
  dec_time 1. dec_uint 2.
Qed.
End codec.
