(* ===== verification/CustomDomain.v ===== *)
(** * Custom domains (src/x/billing/keeper/custom_domain.go)

    Setting and clearing the domain of a lease item: who may, which names are accepted, and how a
    claim already held is told apart from one held by another item. DomainInv.v has the theorems. *)

From stdpp Require Import base tactics option list strings gmap sorting fin_maps.
From Stdlib Require Import ZArith Lia.
From S2P Require Import Prelude Sdk SdkRef Uuid GoStd SkuTypes BillingTypes BillingMsgs SkuKeeper Credit Accrual Keeper LeaseStore Settlement Lifecycle.
Open Scope Z_scope.

(** The loop of [findLeaseItemByServiceName]: number of matches and the index of the last one. *)
Fixpoint match_service (serviceName : string) (i : nat) (items : list LeaseItem) (acc : nat * nat) : nat * nat :=
  match items with
  | [] => acc
  | item :: rest =>
      match_service serviceName (S i) rest
        (if String.eqb (item_ServiceName item) serviceName then (S acc.1, i) else acc)
  end.

Definition findLeaseItemByServiceName (lease : Lease) (serviceName : string) : res nat :=
  if (1 <? llen (Items lease)) &&
     (match Items lease with item :: _ => String.eqb (item_ServiceName item) "" | [] => false end)
  then Err ErrAmbiguousLeaseItem else
  match match_service serviceName 0 (Items lease) (0%nat, 0%nat) with
  | (O, _) => Err ErrLeaseItemNotFound
  | (S O, idx) => Ok idx
  | _ => Err ErrAmbiguousLeaseItem
  end.

(** [lease.Items[i].CustomDomain = d]; the index comes from [findLeaseItemByServiceName]. *)
Definition set_item_domain (i : nat) (d : string) (lease : Lease) : Lease :=
  set_Items (alter (set_CustomDomain d) i (Items lease)) lease.

Section custom_domain.
Context `{SDK} `{SKUKeeper} `{GoStd} (env : Env).

Definition GetLeaseByCustomDomain (domain : string) : W (option (Lease * string)) :=
  let domain := strings_ToLower (strings_TrimSpace domain) in
  idx ← gets CustomDomainIndex;
  match idx !! domain with
  | None => mret None
  | Some target =>
      lease ← GetLease (tgt_LeaseUuid target);
      mret (Some (lease, tgt_ServiceName target))
  end.

(** Clearing the domain of item [i]. *)
Definition clear_item_domain (lease : Lease) (i : nat) (item : LeaseItem) (role : string) : W string :=
  if String.eqb (CustomDomain item) "" then mret role else
  SetLease (set_item_domain i "" lease);;
  emit (EvCustomDomainCleared (Uuid lease) (Tenant lease) (item_ServiceName item) (CustomDomain item) role);;
  mret role.

(** Setting it, after the checks on the domain. *)
Definition claim_item_domain (leaseUUID : string) (lease : Lease) (i : nat) (item : LeaseItem)
    (domain role : string) : W string :=
  lift (IsValidFQDN domain);;
  params ← GetParams;
  if MatchesReservedSuffix domain (ReservedDomainSuffixes params) then err ErrInvalidCustomDomain else
  idx ← gets CustomDomainIndex;
  match idx !! domain with
  | Some target =>
      if String.eqb (tgt_LeaseUuid target) leaseUUID && String.eqb (tgt_ServiceName target) (item_ServiceName item)
      then mret role
      else err ErrCustomDomainAlreadyClaimed
  | None =>
      SetLease (set_item_domain i domain lease);;
      emit (EvCustomDomainSet (Uuid lease) (Tenant lease) (item_ServiceName item) domain role);;
      mret role
  end.

Definition SetItemCustomDomain (sender leaseUUID serviceName domain : string) : W string :=
  lease ← GetLease leaseUUID;
  role ← IsAuthorizedForTenant env sender (Tenant lease);
  if String.eqb role "" then err ErrUnauthorized else
  if negb (state_is (State lease) LEASE_STATE_PENDING) && negb (state_is (State lease) LEASE_STATE_ACTIVE)
  then err ErrLeaseNotEditable else
  itemIdx ← lift (findLeaseItemByServiceName lease serviceName);
  match Items lease !! itemIdx with
  | None => lift Panic
  | Some item =>
      let domain := strings_ToLower (strings_TrimSpace domain) in
      if String.eqb domain "" then clear_item_domain lease itemIdx item role
      else claim_item_domain leaseUUID lease itemIdx item domain role
  end.

(** The message server's wrapper. *)
Definition SetItemCustomDomain_msg (msg : MsgSetItemCustomDomain) : W unit :=
  lift (MsgSetItemCustomDomain_ValidateBasic msg);;
  SetItemCustomDomain (cd_Sender msg) (cd_LeaseUuid msg) (cd_ServiceName msg) (cd_CustomDomain msg);;
  mret tt.
End custom_domain.
