(* ===== verification/Querier.v ===== *)
(** * The billing query server (src/x/billing/keeper/querier.go)

    One definition per RPC, with the helpers of keeper.go that only queries use. A request is an
    [option]: [None] is the nil request. An error of the keeper becomes a status with its gRPC code.
    QuerierProps.v has the theorems. *)

From stdpp Require Import base tactics option list strings gmap sorting fin_maps.
From Stdlib Require Import ZArith Lia.
From S2P Require Import Prelude Sdk SdkRef Pagination Uuid GoStd SkuTypes BillingTypes BillingMsgs SkuKeeper Credit Accrual Keeper LeaseStore Settlement CustomDomain.
Open Scope Z_scope.

Definition DefaultProviderWithdrawableQueryLimit : Z := 100.
Definition MaxProviderWithdrawableQueryLimit : Z := 1000.
Definition MaxCreditEstimateLeases : Z := 100.

(** ** Requests and responses *)

Record QueryLeaseRequest : Type := mkQueryLeaseRequest { ql_LeaseUuid : string }.
Record QueryLeasesRequest : Type := mkQueryLeasesRequest {
  qls_Pagination : option PageRequest; qls_StateFilter : LeaseState }.
Record QueryLeasesByTenantRequest : Type := mkQueryLeasesByTenantRequest {
  qlt_Tenant : string; qlt_Pagination : option PageRequest; qlt_StateFilter : LeaseState }.
Record QueryLeasesByProviderRequest : Type := mkQueryLeasesByProviderRequest {
  qlp_ProviderUuid : string; qlp_Pagination : option PageRequest; qlp_StateFilter : LeaseState }.
Record QueryLeasesBySKURequest : Type := mkQueryLeasesBySKURequest {
  qlk_SkuUuid : string; qlk_Pagination : option PageRequest; qlk_StateFilter : LeaseState }.
Record QueryCreditAccountResponse : Type := mkQueryCreditAccountResponse {
  qca_CreditAccount : CreditAccount; qca_Balances : list Coin; qca_AvailableBalances : list Coin }.
Record QueryProviderWithdrawableRequest : Type := mkQueryProviderWithdrawableRequest {
  qpw_ProviderUuid : string; qpw_Limit : Z }.
Record QueryProviderWithdrawableResponse : Type := mkQueryProviderWithdrawableResponse {
  pw_Amounts : list Coin; pw_LeaseCount : Z; pw_HasMore : bool }.
Record QueryCreditEstimateResponse : Type := mkQueryCreditEstimateResponse {
  ce_CurrentBalance : list Coin; ce_TotalRatePerSecond : list Coin;
  ce_EstimatedDurationSeconds : Z; ce_ActiveLeaseCount : Z }.

Section querier.
Context `{SDK} `{SKUKeeper} `{GoStd} (env : Env).

Definition query_Params : W Params := status Internal GetParams.

Definition query_Lease (req : option QueryLeaseRequest) : W Lease :=
  non_nil req (λ req,
    non_empty (ql_LeaseUuid req);;
    status NotFound (GetLease (ql_LeaseUuid req))).

(** ** Lists of leases *)

(** [MatchExactWithOrder] on a lease index, then [PaginateStringIndex] with [Leases.Get]. *)
Definition page_of_index (p : Lease → bool) (pageReq : option PageRequest) : W (list Lease * PageResponse) :=
  status Internal (
    w ← get;
    lift (PaginateStringIndex (MatchExactWithOrder (MatchExact p w) pageReq)
            (λ u, coll_get (Leases w !! u)) pageReq None)).

Definition query_Leases (req : option QueryLeasesRequest) : W (list Lease * PageResponse) :=
  non_nil req (λ req,
    if negb (state_is (qls_StateFilter req) LEASE_STATE_UNSPECIFIED)
    then page_of_index (lease_state_is (qls_StateFilter req)) (qls_Pagination req)
    else status Internal (w ← get; lift (CollectionPaginate (Leases w) (qls_Pagination req)))).

Definition query_LeasesByTenant (req : option QueryLeasesByTenantRequest) : W (list Lease * PageResponse) :=
  non_nil req (λ req,
    non_empty (qlt_Tenant req);;
    match AccAddressFromBech32 (qlt_Tenant req) with
    | None => err (Status InvalidArgument)
    | Some tenantAddr =>
        if negb (state_is (qlt_StateFilter req) LEASE_STATE_UNSPECIFIED)
        then page_of_index (λ l, tenant_is tenantAddr l && lease_state_is (qlt_StateFilter req) l) (qlt_Pagination req)
        else page_of_index (tenant_is tenantAddr) (qlt_Pagination req)
    end).

Definition query_LeasesByProvider (req : option QueryLeasesByProviderRequest) : W (list Lease * PageResponse) :=
  non_nil req (λ req,
    non_empty (qlp_ProviderUuid req);;
    if negb (state_is (qlp_StateFilter req) LEASE_STATE_UNSPECIFIED)
    then page_of_index (λ l, provider_is (qlp_ProviderUuid req) l && lease_state_is (qlp_StateFilter req) l)
           (qlp_Pagination req)
    else page_of_index (provider_is (qlp_ProviderUuid req)) (qlp_Pagination req)).

(** ** Leases by SKU: the pagination loop of this file *)

(** The variables of the loop of [paginateSKUIndex]. *)
Record sku_page : Type := mkSkuPage {
  sp_leases : list Lease; sp_total : Z; sp_skipped : Z; sp_nextKey : string; sp_foundStart : bool }.

Fixpoint paginate_sku_loop (getLease : string → res Lease) (startKey : string) (offset limit : Z)
    (countTotal : bool) (filter : option (Lease → bool)) (iter : list string) (st : sku_page) : res sku_page :=
  match iter with
  | [] => Ok st
  | leaseUUID :: iter' =>
      let '(mkSkuPage leases total skipped nextKey found) := st in
      let continue := paginate_sku_loop getLease startKey offset limit countTotal filter iter' in
      if negb found && negb (String.eqb startKey leaseUUID) then continue st else
      match getLease leaseUUID with
      | Err e => if decide (e = CollNotFound) then continue (mkSkuPage leases total skipped nextKey true) else Err e
      | Panic => Panic
      | Ok lease =>
          if negb (keep filter lease) then continue (mkSkuPage leases total skipped nextKey true) else
          let total := if countTotal then wrap_u64 (total + 1) else total in
          if String.eqb startKey "" && (skipped <? offset)
          then continue (mkSkuPage leases total (wrap_u64 (skipped + 1)) nextKey true) else
          if limit <=? llen leases then
            let nextKey := if String.eqb nextKey "" then leaseUUID else nextKey in
            let st' := mkSkuPage leases total skipped nextKey true in
            if negb countTotal then Ok st' else continue st'
          else continue (mkSkuPage (leases ++ [lease]) total skipped nextKey true)
      end
  end.

Definition paginateSKUIndex (iter : list string) (getLease : string → res Lease) (pageReq : option PageRequest)
    (filter : option (Lease → bool)) : res (list Lease * PageResponse) :=
  let '(limit, offset, countTotal, startKey) :=
    match pageReq with
    | None => (query_DefaultLimit, 0, false, ""%string)
    | Some r => (if 0 <? Limit r then Limit r else query_DefaultLimit, Offset r, CountTotal r, Key r)
    end in
  st ← paginate_sku_loop getLease startKey offset limit countTotal filter iter
         (mkSkuPage [] 0 0 "" (String.eqb startKey ""));
  Ok (sp_leases st, mkPageResponse (sp_nextKey st) (if countTotal then sp_total st else 0)).

Definition query_LeasesBySKU (req : option QueryLeasesBySKURequest) : W (list Lease * PageResponse) :=
  non_nil req (λ req,
    non_empty (qlk_SkuUuid req);;
    let filter := if negb (state_is (qlk_StateFilter req) LEASE_STATE_UNSPECIFIED)
                  then Some (λ l, state_is (State l) (qlk_StateFilter req)) else None in
    status Internal (
      w ← get;
      lift (paginateSKUIndex (MatchExactWithOrder (sku_index_uuids (qlk_SkuUuid req) w) (qlk_Pagination req))
              (λ u, coll_get (Leases w !! u)) (qlk_Pagination req) filter))).

Definition query_LeaseByCustomDomain (req : option string) : W (Lease * string) :=
  non_nil req (λ customDomain,
    let domain := strings_ToLower (strings_TrimSpace customDomain) in
    if String.eqb domain "" then err (Status InvalidArgument) else
    r ← status Internal (GetLeaseByCustomDomain domain);
    match r with
    | None => err (Status NotFound)
    | Some x => mret x
    end).

(** ** Credit *)

(** [addDenom]. *)
Definition add_denom (denoms : list string) (d : string) : list string :=
  if bool_decide (d ∈ denoms) then denoms else denoms ++ [d].

Definition add_item_denoms (denoms : list string) (items : list LeaseItem) : list string :=
  foldl (λ ds i, add_denom ds (Denom (LockedPrice i))) denoms items.

Definition getRelevantDenomsForTenant (tenant : string) (reservedAmounts : Coins) : W (list string) :=
  let denoms := foldl (λ ds c, add_denom ds (Denom c)) [] reservedAmounts in
  match AccAddressFromBech32 tenant with
  | None => err External
  | Some tenantAddr =>
      foldlM (λ denoms s,
        uuids ← gets (MatchExact (λ l, tenant_is tenantAddr l && lease_state_is s l));
        foldlM (λ denoms u, lease ← Leases_Get u; mret (add_item_denoms denoms (Items lease)))
          denoms (take (Z.to_nat MaxCreditEstimateLeases) uuids))
        denoms [LEASE_STATE_ACTIVE; LEASE_STATE_PENDING]
  end.

Definition query_CreditAccount (req : option string) : W QueryCreditAccountResponse :=
  non_nil req (λ tenant,
    non_empty tenant;;
    match AccAddressFromBech32 tenant with
    | None => err (Status InvalidArgument)
    | Some _ =>
        ca ← status NotFound (GetCreditAccount tenant);
        relevantDenoms ← status Internal (getRelevantDenomsForTenant tenant (ReservedAmounts ca));
        balances ← (if 0 <? llen relevantDenoms
                    then status Internal (getCreditBalancesForDenoms tenant relevantDenoms)
                    else creditAddr ← status Internal (lift (DeriveCreditAddressFromBech32 tenant));
                         gets (λ w, GetAllBalances (bank w) creditAddr));
        availableBalances ← lift (GetAvailableCredit balances (ReservedAmounts ca));
        mret (mkQueryCreditAccountResponse ca balances availableBalances)
    end).

Definition query_CreditAddress (req : option string) : W string :=
  non_nil req (λ tenant,
    non_empty tenant;;
    creditAddr ← status InvalidArgument (lift (DeriveCreditAddressFromBech32 tenant));
    mret (AccAddress_String creditAddr)).

Definition query_CreditAccounts (req : option (option PageRequest)) : W (list CreditAccount * PageResponse) :=
  non_nil req (λ pageReq, status Internal (w ← get; lift (CollectionPaginate (CreditAccounts w) pageReq))).

(** ** What a provider can withdraw *)

Definition query_WithdrawableAmount (req : option string) : W Coins :=
  non_nil req (λ leaseUuid,
    non_empty leaseUuid;;
    lease ← status NotFound (GetLease leaseUuid);
    CalculateWithdrawableForLease env lease).

(** [IterateLeasesByProvider] with the callback of the query. *)
Fixpoint sum_withdrawable (limit : Z) (total : Coins) (leaseCount processedCount : Z) (uuids : list string)
    : W (Coins * Z * bool) :=
  match uuids with
  | [] => mret (total, leaseCount, false)
  | u :: uuids' =>
      lease ← Leases_Get u;
      if limit <=? processedCount then mret (total, leaseCount, true) else
      withdrawable ← CalculateWithdrawableForLease env lease;
      if negb (Coins_IsZero withdrawable) then
        total' ← lift (Coins_Add total withdrawable);
        sum_withdrawable limit total' (wrap_u64 (leaseCount + 1)) (wrap_u64 (processedCount + 1)) uuids'
      else sum_withdrawable limit total leaseCount (wrap_u64 (processedCount + 1)) uuids'
  end.

Definition query_ProviderWithdrawable (req : option QueryProviderWithdrawableRequest)
    : W QueryProviderWithdrawableResponse :=
  non_nil req (λ req,
    non_empty (qpw_ProviderUuid req);;
    let limit := if qpw_Limit req =? 0 then DefaultProviderWithdrawableQueryLimit else qpw_Limit req in
    let limit := if MaxProviderWithdrawableQueryLimit <? limit then MaxProviderWithdrawableQueryLimit else limit in
    '(total, leaseCount, hasMore) ← status Internal (
      uuids ← gets (MatchExact (provider_is (qpw_ProviderUuid req)));
      sum_withdrawable limit [] 0 0 uuids);
    mret (mkQueryProviderWithdrawableResponse total leaseCount hasMore)).

(** ** How long the credit lasts *)

(** The loop over the items of a lease: the summed rate and the denoms seen. *)
Definition estimate_item (acc : Coins * list string) (item : LeaseItem) : res (Coins * list string) :=
  let '(totalRatePerSecond, denoms) := acc in
  a ← int_Mul (Amount (LockedPrice item)) (Quantity item);
  itemRate ← NewCoin (Denom (LockedPrice item)) a;
  total ← Coins_Add totalRatePerSecond [itemRate];
  Ok (total, add_denom denoms (Denom (LockedPrice item))).

(** The loop over the active leases; it counts before it checks the cap. *)
Fixpoint estimate_leases (acc : Coins * list string) (activeLeaseCount : Z) (uuids : list string)
    : W (Coins * list string * Z) :=
  match uuids with
  | [] => mret (acc, activeLeaseCount)
  | u :: uuids' =>
      let activeLeaseCount := wrap_u64 (activeLeaseCount + 1) in
      if MaxCreditEstimateLeases <? activeLeaseCount then mret (acc, activeLeaseCount) else
      lease ← status Internal (Leases_Get u);
      acc' ← lift (foldlM estimate_item acc (Items lease));
      estimate_leases acc' activeLeaseCount uuids'
  end.

(** The loop over the denoms of the rate. *)
Fixpoint estimate_min (currentBalance : Coins) (estimatedDurationSeconds : Z) (rates : Coins) : res Z :=
  match rates with
  | [] => Ok estimatedDurationSeconds
  | rateCoin :: rates' =>
      if Coin_IsZero rateCoin then estimate_min currentBalance estimatedDurationSeconds rates' else
      balanceAmount ← Coins_AmountOf currentBalance (Denom rateCoin);
      if balanceAmount =? 0 then Ok 0 else
      quotient ← int_Quo balanceAmount (Amount rateCoin);
      let duration := if (0 <=? quotient) && (quotient <=? max_u64) then quotient else max_u64 in
      estimate_min currentBalance (Z.min estimatedDurationSeconds duration) rates'
  end.

Definition estimated_duration (activeLeaseCount : Z) (totalRatePerSecond currentBalance : Coins) : res Z :=
  if (0 <? activeLeaseCount) && negb (Coins_IsZero totalRatePerSecond) then
    d ← estimate_min currentBalance max_u64 totalRatePerSecond;
    Ok (if d =? max_u64 then 0 else d)
  else Ok 0.

Definition query_CreditEstimate (req : option string) : W QueryCreditEstimateResponse :=
  non_nil req (λ tenant,
    non_empty tenant;;
    match AccAddressFromBech32 tenant with
    | None => err (Status InvalidArgument)
    | Some tenantAddr =>
        status NotFound (GetCreditAccount tenant);;
        uuids ← gets (MatchExact (λ l, tenant_is tenantAddr l && lease_state_is LEASE_STATE_ACTIVE l));
        '(totalRatePerSecond, denoms, activeLeaseCount) ← estimate_leases ([], []) 0 uuids;
        currentBalance ← status Internal (getCreditBalancesForDenoms tenant denoms);
        d ← lift (estimated_duration activeLeaseCount totalRatePerSecond currentBalance);
        mret (mkQueryCreditEstimateResponse currentBalance totalRatePerSecond d activeLeaseCount)
    end).
End querier.
