(* ===== verification/BillingQueryCodec.v ===== *)
(** * Marshaling of the queries of the billing module (src/x/billing/types/query.pb.go) *)

From stdpp Require Import base tactics option list strings.
From Stdlib Require Import ZArith Lia Ascii.
From S2P Require Import Prelude Sdk SkuTypes BillingTypes Keeper Querier Wire WireProps Codec Gogo Page BillingCodec.
Open Scope Z_scope.

Record QueryParamsResponse : Type := mkQueryParamsResponse {
  qpr_Params : Params }.

Record QueryLeaseResponse : Type := mkQueryLeaseResponse {
  qlr_Lease : Lease }.

Record QueryLeasesResponse : Type := mkQueryLeasesResponse {
  qlsr_Leases : list Lease; qlsr_Pagination : option PageResponse }.

Record QueryLeasesByTenantResponse : Type := mkQueryLeasesByTenantResponse {
  qltr_Leases : list Lease; qltr_Pagination : option PageResponse }.

Record QueryLeasesByProviderResponse : Type := mkQueryLeasesByProviderResponse {
  qlpr_Leases : list Lease; qlpr_Pagination : option PageResponse }.

Record QueryCreditAccountRequest : Type := mkQueryCreditAccountRequest {
  qcar_Tenant : string }.

Record QueryCreditAddressRequest : Type := mkQueryCreditAddressRequest {
  qad_Tenant : string }.

Record QueryCreditAddressResponse : Type := mkQueryCreditAddressResponse {
  qadr_CreditAddress : string }.

Record QueryWithdrawableAmountRequest : Type := mkQueryWithdrawableAmountRequest {
  qwa_LeaseUuid : string }.

Record QueryWithdrawableAmountResponse : Type := mkQueryWithdrawableAmountResponse {
  qwar_Amounts : list Coin }.

Record QueryCreditAccountsRequest : Type := mkQueryCreditAccountsRequest {
  qcas_Pagination : option PageRequest }.

Record QueryCreditAccountsResponse : Type := mkQueryCreditAccountsResponse {
  qcasr_CreditAccounts : list CreditAccount; qcasr_Pagination : option PageResponse }.

Record QueryLeasesBySKUResponse : Type := mkQueryLeasesBySKUResponse {
  qlkr_Leases : list Lease; qlkr_Pagination : option PageResponse }.

Record QueryCreditEstimateRequest : Type := mkQueryCreditEstimateRequest {
  qce_Tenant : string }.

Record QueryLeaseByCustomDomainRequest : Type := mkQueryLeaseByCustomDomainRequest {
  qcd_CustomDomain : string }.

Record QueryLeaseByCustomDomainResponse : Type := mkQueryLeaseByCustomDomainResponse {
  qcdr_Lease : Lease; qcdr_ServiceName : string }.

(** ** QueryParamsResponse *)

Definition QueryParamsResponse_write (m : QueryParamsResponse) : writer :=
  put_msg 0xa (to_sized_buffer (Params_write (qpr_Params m))).

Definition QueryParamsResponse_Size (m : QueryParamsResponse) : Z :=
  size_len (Params_Size (qpr_Params m)).

Definition QueryParamsResponse_Marshal (m : QueryParamsResponse) : res bytes :=
  marshal (QueryParamsResponse_Size m) (QueryParamsResponse_write m).

Definition QueryParamsResponse_switch (fieldNum wireType : Z) (dAtA : bytes) (iNdEx : Z) (m : QueryParamsResponse) :
    option (res (QueryParamsResponse * Z)) :=
  let 'mkQueryParamsResponse params := m in
  match fieldNum with
  | 1 => Some ('(x, i) ← get_msg (λ b, unmarshal Params_switch b params) wireType dAtA iNdEx;
      Ok (mkQueryParamsResponse x, i))
  | _ => None
  end.

Definition QueryParamsResponse_zero : QueryParamsResponse := mkQueryParamsResponse Params_zero.

Definition QueryParamsResponse_Unmarshal (dAtA : bytes) : res QueryParamsResponse :=
  unmarshal QueryParamsResponse_switch dAtA QueryParamsResponse_zero.

Definition QueryParamsResponse_wire (m : QueryParamsResponse) : bytes :=
  len_field 0xa (Params_wire (qpr_Params m)).

(** ** QueryLeaseRequest *)

Definition QueryLeaseRequest_write (m : QueryLeaseRequest) : writer :=
  if_nonempty (ql_LeaseUuid m) (put_bytes 0xa (ql_LeaseUuid m)).

Definition QueryLeaseRequest_Size (m : QueryLeaseRequest) : Z :=
  size_str (ql_LeaseUuid m).

Definition QueryLeaseRequest_Marshal (m : QueryLeaseRequest) : res bytes :=
  marshal (QueryLeaseRequest_Size m) (QueryLeaseRequest_write m).

Definition QueryLeaseRequest_switch (fieldNum wireType : Z) (dAtA : bytes) (iNdEx : Z) (m : QueryLeaseRequest) :
    option (res (QueryLeaseRequest * Z)) :=
  let 'mkQueryLeaseRequest leaseUuid := m in
  match fieldNum with
  | 1 => Some ('(x, i) ← get_string wireType dAtA iNdEx; Ok (mkQueryLeaseRequest x, i))
  | _ => None
  end.

Definition QueryLeaseRequest_zero : QueryLeaseRequest := mkQueryLeaseRequest "".

Definition QueryLeaseRequest_Unmarshal (dAtA : bytes) : res QueryLeaseRequest :=
  unmarshal QueryLeaseRequest_switch dAtA QueryLeaseRequest_zero.

Definition QueryLeaseRequest_wire (m : QueryLeaseRequest) : bytes :=
  enc_str 0xa (ql_LeaseUuid m).

(** ** QueryCreditAccountRequest *)

Definition QueryCreditAccountRequest_write (m : QueryCreditAccountRequest) : writer :=
  if_nonempty (qcar_Tenant m) (put_bytes 0xa (qcar_Tenant m)).

Definition QueryCreditAccountRequest_Size (m : QueryCreditAccountRequest) : Z :=
  size_str (qcar_Tenant m).

Definition QueryCreditAccountRequest_Marshal (m : QueryCreditAccountRequest) : res bytes :=
  marshal (QueryCreditAccountRequest_Size m) (QueryCreditAccountRequest_write m).

Definition QueryCreditAccountRequest_switch (fieldNum wireType : Z) (dAtA : bytes) (iNdEx : Z) (m : QueryCreditAccountRequest) :
    option (res (QueryCreditAccountRequest * Z)) :=
  let 'mkQueryCreditAccountRequest tenant := m in
  match fieldNum with
  | 1 => Some ('(x, i) ← get_string wireType dAtA iNdEx; Ok (mkQueryCreditAccountRequest x, i))
  | _ => None
  end.

Definition QueryCreditAccountRequest_zero : QueryCreditAccountRequest := mkQueryCreditAccountRequest "".

Definition QueryCreditAccountRequest_Unmarshal (dAtA : bytes) : res QueryCreditAccountRequest :=
  unmarshal QueryCreditAccountRequest_switch dAtA QueryCreditAccountRequest_zero.

Definition QueryCreditAccountRequest_wire (m : QueryCreditAccountRequest) : bytes :=
  enc_str 0xa (qcar_Tenant m).

(** ** QueryCreditAddressRequest *)

Definition QueryCreditAddressRequest_write (m : QueryCreditAddressRequest) : writer :=
  if_nonempty (qad_Tenant m) (put_bytes 0xa (qad_Tenant m)).

Definition QueryCreditAddressRequest_Size (m : QueryCreditAddressRequest) : Z :=
  size_str (qad_Tenant m).

Definition QueryCreditAddressRequest_Marshal (m : QueryCreditAddressRequest) : res bytes :=
  marshal (QueryCreditAddressRequest_Size m) (QueryCreditAddressRequest_write m).

Definition QueryCreditAddressRequest_switch (fieldNum wireType : Z) (dAtA : bytes) (iNdEx : Z) (m : QueryCreditAddressRequest) :
    option (res (QueryCreditAddressRequest * Z)) :=
  let 'mkQueryCreditAddressRequest tenant := m in
  match fieldNum with
  | 1 => Some ('(x, i) ← get_string wireType dAtA iNdEx; Ok (mkQueryCreditAddressRequest x, i))
  | _ => None
  end.

Definition QueryCreditAddressRequest_zero : QueryCreditAddressRequest := mkQueryCreditAddressRequest "".

Definition QueryCreditAddressRequest_Unmarshal (dAtA : bytes) : res QueryCreditAddressRequest :=
  unmarshal QueryCreditAddressRequest_switch dAtA QueryCreditAddressRequest_zero.

Definition QueryCreditAddressRequest_wire (m : QueryCreditAddressRequest) : bytes :=
  enc_str 0xa (qad_Tenant m).

(** ** QueryCreditAddressResponse *)

Definition QueryCreditAddressResponse_write (m : QueryCreditAddressResponse) : writer :=
  if_nonempty (qadr_CreditAddress m) (put_bytes 0xa (qadr_CreditAddress m)).

Definition QueryCreditAddressResponse_Size (m : QueryCreditAddressResponse) : Z :=
  size_str (qadr_CreditAddress m).

Definition QueryCreditAddressResponse_Marshal (m : QueryCreditAddressResponse) : res bytes :=
  marshal (QueryCreditAddressResponse_Size m) (QueryCreditAddressResponse_write m).

Definition QueryCreditAddressResponse_switch (fieldNum wireType : Z) (dAtA : bytes) (iNdEx : Z) (m : QueryCreditAddressResponse) :
    option (res (QueryCreditAddressResponse * Z)) :=
  let 'mkQueryCreditAddressResponse creditAddress := m in
  match fieldNum with
  | 1 => Some ('(x, i) ← get_string wireType dAtA iNdEx; Ok (mkQueryCreditAddressResponse x, i))
  | _ => None
  end.

Definition QueryCreditAddressResponse_zero : QueryCreditAddressResponse := mkQueryCreditAddressResponse "".

Definition QueryCreditAddressResponse_Unmarshal (dAtA : bytes) : res QueryCreditAddressResponse :=
  unmarshal QueryCreditAddressResponse_switch dAtA QueryCreditAddressResponse_zero.

Definition QueryCreditAddressResponse_wire (m : QueryCreditAddressResponse) : bytes :=
  enc_str 0xa (qadr_CreditAddress m).

(** ** QueryWithdrawableAmountRequest *)

Definition QueryWithdrawableAmountRequest_write (m : QueryWithdrawableAmountRequest) : writer :=
  if_nonempty (qwa_LeaseUuid m) (put_bytes 0xa (qwa_LeaseUuid m)).

Definition QueryWithdrawableAmountRequest_Size (m : QueryWithdrawableAmountRequest) : Z :=
  size_str (qwa_LeaseUuid m).

Definition QueryWithdrawableAmountRequest_Marshal (m : QueryWithdrawableAmountRequest) : res bytes :=
  marshal (QueryWithdrawableAmountRequest_Size m) (QueryWithdrawableAmountRequest_write m).

Definition QueryWithdrawableAmountRequest_switch (fieldNum wireType : Z) (dAtA : bytes) (iNdEx : Z) (m : QueryWithdrawableAmountRequest) :
    option (res (QueryWithdrawableAmountRequest * Z)) :=
  let 'mkQueryWithdrawableAmountRequest leaseUuid := m in
  match fieldNum with
  | 1 => Some ('(x, i) ← get_string wireType dAtA iNdEx; Ok (mkQueryWithdrawableAmountRequest x, i))
  | _ => None
  end.

Definition QueryWithdrawableAmountRequest_zero : QueryWithdrawableAmountRequest := mkQueryWithdrawableAmountRequest "".

Definition QueryWithdrawableAmountRequest_Unmarshal (dAtA : bytes) : res QueryWithdrawableAmountRequest :=
  unmarshal QueryWithdrawableAmountRequest_switch dAtA QueryWithdrawableAmountRequest_zero.

Definition QueryWithdrawableAmountRequest_wire (m : QueryWithdrawableAmountRequest) : bytes :=
  enc_str 0xa (qwa_LeaseUuid m).

(** ** QueryProviderWithdrawableRequest *)

Definition QueryProviderWithdrawableRequest_write (m : QueryProviderWithdrawableRequest) : writer :=
  if_nonzero (qpw_Limit m) (put_uint 0x10 (qpw_Limit m)) ;;>
  if_nonempty (qpw_ProviderUuid m) (put_bytes 0xa (qpw_ProviderUuid m)).

Definition QueryProviderWithdrawableRequest_Size (m : QueryProviderWithdrawableRequest) : Z :=
  size_str (qpw_ProviderUuid m) +
  size_num (qpw_Limit m).

Definition QueryProviderWithdrawableRequest_Marshal (m : QueryProviderWithdrawableRequest) : res bytes :=
  marshal (QueryProviderWithdrawableRequest_Size m) (QueryProviderWithdrawableRequest_write m).

Definition QueryProviderWithdrawableRequest_switch (fieldNum wireType : Z) (dAtA : bytes) (iNdEx : Z) (m : QueryProviderWithdrawableRequest) :
    option (res (QueryProviderWithdrawableRequest * Z)) :=
  let 'mkQueryProviderWithdrawableRequest providerUuid limit := m in
  match fieldNum with
  | 1 => Some ('(x, i) ← get_string wireType dAtA iNdEx; Ok (mkQueryProviderWithdrawableRequest x limit, i))
  | 2 => Some ('(x, i) ← get_uint wireType dAtA iNdEx; Ok (mkQueryProviderWithdrawableRequest providerUuid x, i))
  | _ => None
  end.

Definition QueryProviderWithdrawableRequest_zero : QueryProviderWithdrawableRequest :=
  mkQueryProviderWithdrawableRequest "" 0.

Definition QueryProviderWithdrawableRequest_Unmarshal (dAtA : bytes) : res QueryProviderWithdrawableRequest :=
  unmarshal QueryProviderWithdrawableRequest_switch dAtA QueryProviderWithdrawableRequest_zero.

Definition QueryProviderWithdrawableRequest_wire (m : QueryProviderWithdrawableRequest) : bytes :=
  enc_str 0xa (qpw_ProviderUuid m) ++
  enc_uint 0x10 (qpw_Limit m).

(** ** QueryCreditEstimateRequest *)

Definition QueryCreditEstimateRequest_write (m : QueryCreditEstimateRequest) : writer :=
  if_nonempty (qce_Tenant m) (put_bytes 0xa (qce_Tenant m)).

Definition QueryCreditEstimateRequest_Size (m : QueryCreditEstimateRequest) : Z :=
  size_str (qce_Tenant m).

Definition QueryCreditEstimateRequest_Marshal (m : QueryCreditEstimateRequest) : res bytes :=
  marshal (QueryCreditEstimateRequest_Size m) (QueryCreditEstimateRequest_write m).

Definition QueryCreditEstimateRequest_switch (fieldNum wireType : Z) (dAtA : bytes) (iNdEx : Z) (m : QueryCreditEstimateRequest) :
    option (res (QueryCreditEstimateRequest * Z)) :=
  let 'mkQueryCreditEstimateRequest tenant := m in
  match fieldNum with
  | 1 => Some ('(x, i) ← get_string wireType dAtA iNdEx; Ok (mkQueryCreditEstimateRequest x, i))
  | _ => None
  end.

Definition QueryCreditEstimateRequest_zero : QueryCreditEstimateRequest := mkQueryCreditEstimateRequest "".

Definition QueryCreditEstimateRequest_Unmarshal (dAtA : bytes) : res QueryCreditEstimateRequest :=
  unmarshal QueryCreditEstimateRequest_switch dAtA QueryCreditEstimateRequest_zero.

Definition QueryCreditEstimateRequest_wire (m : QueryCreditEstimateRequest) : bytes :=
  enc_str 0xa (qce_Tenant m).

(** ** QueryLeaseByCustomDomainRequest *)

Definition QueryLeaseByCustomDomainRequest_write (m : QueryLeaseByCustomDomainRequest) : writer :=
  if_nonempty (qcd_CustomDomain m) (put_bytes 0xa (qcd_CustomDomain m)).

Definition QueryLeaseByCustomDomainRequest_Size (m : QueryLeaseByCustomDomainRequest) : Z :=
  size_str (qcd_CustomDomain m).

Definition QueryLeaseByCustomDomainRequest_Marshal (m : QueryLeaseByCustomDomainRequest) : res bytes :=
  marshal (QueryLeaseByCustomDomainRequest_Size m) (QueryLeaseByCustomDomainRequest_write m).

Definition QueryLeaseByCustomDomainRequest_switch (fieldNum wireType : Z) (dAtA : bytes) (iNdEx : Z) (m : QueryLeaseByCustomDomainRequest) :
    option (res (QueryLeaseByCustomDomainRequest * Z)) :=
  let 'mkQueryLeaseByCustomDomainRequest customDomain := m in
  match fieldNum with
  | 1 => Some ('(x, i) ← get_string wireType dAtA iNdEx; Ok (mkQueryLeaseByCustomDomainRequest x, i))
  | _ => None
  end.

Definition QueryLeaseByCustomDomainRequest_zero : QueryLeaseByCustomDomainRequest :=
  mkQueryLeaseByCustomDomainRequest "".

Definition QueryLeaseByCustomDomainRequest_Unmarshal (dAtA : bytes) : res QueryLeaseByCustomDomainRequest :=
  unmarshal QueryLeaseByCustomDomainRequest_switch dAtA QueryLeaseByCustomDomainRequest_zero.

Definition QueryLeaseByCustomDomainRequest_wire (m : QueryLeaseByCustomDomainRequest) : bytes :=
  enc_str 0xa (qcd_CustomDomain m).

Section codec.
Context `{Gogo} `{PageCodec}.

(** ** QueryLeaseResponse *)

(** As Go decodes it, with the numbers of the enumerations. *)
Definition GoQueryLeaseResponse : Type := GoLease.

Definition QueryLeaseResponse_write (m : QueryLeaseResponse) : writer :=
  put_msg 0xa (to_sized_buffer (Lease_write (qlr_Lease m))).

Definition QueryLeaseResponse_Size (m : QueryLeaseResponse) : Z :=
  size_len (Lease_Size (qlr_Lease m)).

Definition QueryLeaseResponse_Marshal (m : QueryLeaseResponse) : res bytes :=
  marshal (QueryLeaseResponse_Size m) (QueryLeaseResponse_write m).

Definition QueryLeaseResponse_switch (fieldNum wireType : Z) (dAtA : bytes) (iNdEx : Z) (m : GoQueryLeaseResponse) :
    option (res (GoQueryLeaseResponse * Z)) :=
  let 'lease := m in
  match fieldNum with
  | 1 => Some ('(x, i) ← get_msg (λ b, unmarshal Lease_switch b lease) wireType dAtA iNdEx; Ok (x, i))
  | _ => None
  end.

Definition QueryLeaseResponse_zero : GoQueryLeaseResponse := Lease_zero.

Definition QueryLeaseResponse_go (m : QueryLeaseResponse) : GoQueryLeaseResponse := (go_lease (qlr_Lease m)).

Definition QueryLeaseResponse_Unmarshal (dAtA : bytes) : res GoQueryLeaseResponse :=
  unmarshal QueryLeaseResponse_switch dAtA QueryLeaseResponse_zero.

Definition QueryLeaseResponse_wire (m : QueryLeaseResponse) : bytes :=
  len_field 0xa (Lease_wire (qlr_Lease m)).

(** ** QueryLeasesRequest *)

Definition QueryLeasesRequest_write (m : QueryLeasesRequest) : writer :=
  if_nonzero (LeaseState_value (qls_StateFilter m)) (put_uint 0x10 (LeaseState_value (qls_StateFilter m))) ;;>
  if_some (qls_Pagination m) (λ p, put_msg 0xa (PageRequest_MarshalToSizedBuffer p)).

Definition QueryLeasesRequest_Size (m : QueryLeasesRequest) : Z :=
  size_opt (qls_Pagination m) (λ p, size_len (PageRequest_Size p)) +
  size_num (LeaseState_value (qls_StateFilter m)).

Definition QueryLeasesRequest_Marshal (m : QueryLeasesRequest) : res bytes :=
  marshal (QueryLeasesRequest_Size m) (QueryLeasesRequest_write m).

Definition QueryLeasesRequest_switch (fieldNum wireType : Z) (dAtA : bytes) (iNdEx : Z) (m : (QueryLeasesRequest * Z)) :
    option (res ((QueryLeasesRequest * Z) * Z)) :=
  let '(mkQueryLeasesRequest pagination _, stateFilter) := m in
  match fieldNum with
  | 1 => Some ('(x, i) ← get_msg (λ b, PageRequest_Unmarshal b (default PageRequest_zero pagination)) wireType dAtA iNdEx;
      Ok ((mkQueryLeasesRequest (Some x) LEASE_STATE_UNSPECIFIED, stateFilter), i))
  | 2 => Some ('(x, i) ← get_enum wireType dAtA iNdEx;
      Ok ((mkQueryLeasesRequest pagination LEASE_STATE_UNSPECIFIED, x), i))
  | _ => None
  end.

Definition QueryLeasesRequest_zero : (QueryLeasesRequest * Z) := (mkQueryLeasesRequest None LEASE_STATE_UNSPECIFIED, 0).

(** As Go decodes it. *)
Definition QueryLeasesRequest_go (m : QueryLeasesRequest) : (QueryLeasesRequest * Z) :=
  (mkQueryLeasesRequest (qls_Pagination m) LEASE_STATE_UNSPECIFIED, (LeaseState_value (qls_StateFilter m))).

Definition QueryLeasesRequest_Unmarshal (dAtA : bytes) : res (QueryLeasesRequest * Z) :=
  unmarshal QueryLeasesRequest_switch dAtA QueryLeasesRequest_zero.

Definition QueryLeasesRequest_wire (m : QueryLeasesRequest) : bytes :=
  enc_opt (λ p, len_field 0xa (PageRequest_bytes p)) (qls_Pagination m) ++
  enc_uint 0x10 (LeaseState_value (qls_StateFilter m)).

(** ** QueryLeasesResponse *)

(** As Go decodes it, with the numbers of the enumerations. *)
Definition GoQueryLeasesResponse : Type :=
  list GoLease * option PageResponse.

Definition QueryLeasesResponse_write (m : QueryLeasesResponse) : writer :=
  if_some (qlsr_Pagination m) (λ p, put_msg 0x12 (PageResponse_MarshalToSizedBuffer p)) ;;>
  put_each (λ e, put_msg 0xa (to_sized_buffer (Lease_write e))) (qlsr_Leases m).

Definition QueryLeasesResponse_Size (m : QueryLeasesResponse) : Z :=
  size_each (λ e, size_len (Lease_Size e)) (qlsr_Leases m) +
  size_opt (qlsr_Pagination m) (λ p, size_len (PageResponse_Size p)).

Definition QueryLeasesResponse_Marshal (m : QueryLeasesResponse) : res bytes :=
  marshal (QueryLeasesResponse_Size m) (QueryLeasesResponse_write m).

Definition QueryLeasesResponse_switch (fieldNum wireType : Z) (dAtA : bytes) (iNdEx : Z) (m : GoQueryLeasesResponse) :
    option (res (GoQueryLeasesResponse * Z)) :=
  let '(leases, pagination) := m in
  match fieldNum with
  | 1 => Some ('(x, i) ← get_msg Lease_Unmarshal wireType dAtA iNdEx; Ok ((leases ++ [x], pagination), i))
  | 2 => Some ('(x, i) ← get_msg (λ b, PageResponse_Unmarshal b (default PageResponse_zero pagination)) wireType dAtA iNdEx;
      Ok ((leases, Some x), i))
  | _ => None
  end.

Definition QueryLeasesResponse_zero : GoQueryLeasesResponse := ([], None).

Definition QueryLeasesResponse_go (m : QueryLeasesResponse) : GoQueryLeasesResponse :=
  (go_lease <$> qlsr_Leases m, qlsr_Pagination m).

Definition QueryLeasesResponse_Unmarshal (dAtA : bytes) : res GoQueryLeasesResponse :=
  unmarshal QueryLeasesResponse_switch dAtA QueryLeasesResponse_zero.

Definition QueryLeasesResponse_wire (m : QueryLeasesResponse) : bytes :=
  enc_each (λ e, len_field 0xa (Lease_wire e)) (qlsr_Leases m) ++
  enc_opt (λ p, len_field 0x12 (PageResponse_bytes p)) (qlsr_Pagination m).

(** ** QueryLeasesByTenantRequest *)

Definition QueryLeasesByTenantRequest_write (m : QueryLeasesByTenantRequest) : writer :=
  if_nonzero (LeaseState_value (qlt_StateFilter m)) (put_uint 0x18 (LeaseState_value (qlt_StateFilter m))) ;;>
  if_some (qlt_Pagination m) (λ p, put_msg 0x12 (PageRequest_MarshalToSizedBuffer p)) ;;>
  if_nonempty (qlt_Tenant m) (put_bytes 0xa (qlt_Tenant m)).

Definition QueryLeasesByTenantRequest_Size (m : QueryLeasesByTenantRequest) : Z :=
  size_str (qlt_Tenant m) +
  size_opt (qlt_Pagination m) (λ p, size_len (PageRequest_Size p)) +
  size_num (LeaseState_value (qlt_StateFilter m)).

Definition QueryLeasesByTenantRequest_Marshal (m : QueryLeasesByTenantRequest) : res bytes :=
  marshal (QueryLeasesByTenantRequest_Size m) (QueryLeasesByTenantRequest_write m).

Definition QueryLeasesByTenantRequest_switch (fieldNum wireType : Z) (dAtA : bytes) (iNdEx : Z) (m : (QueryLeasesByTenantRequest * Z)) :
    option (res ((QueryLeasesByTenantRequest * Z) * Z)) :=
  let '(mkQueryLeasesByTenantRequest tenant pagination _, stateFilter) := m in
  match fieldNum with
  | 1 => Some ('(x, i) ← get_string wireType dAtA iNdEx;
      Ok ((mkQueryLeasesByTenantRequest x pagination LEASE_STATE_UNSPECIFIED, stateFilter), i))
  | 2 => Some ('(x, i) ← get_msg (λ b, PageRequest_Unmarshal b (default PageRequest_zero pagination)) wireType dAtA iNdEx;
      Ok ((mkQueryLeasesByTenantRequest tenant (Some x) LEASE_STATE_UNSPECIFIED, stateFilter), i))
  | 3 => Some ('(x, i) ← get_enum wireType dAtA iNdEx;
      Ok ((mkQueryLeasesByTenantRequest tenant pagination LEASE_STATE_UNSPECIFIED, x), i))
  | _ => None
  end.

Definition QueryLeasesByTenantRequest_zero : (QueryLeasesByTenantRequest * Z) :=
  (mkQueryLeasesByTenantRequest "" None LEASE_STATE_UNSPECIFIED, 0).

(** As Go decodes it. *)
Definition QueryLeasesByTenantRequest_go (m : QueryLeasesByTenantRequest) : (QueryLeasesByTenantRequest * Z) :=
  (mkQueryLeasesByTenantRequest (qlt_Tenant m) (qlt_Pagination m) LEASE_STATE_UNSPECIFIED, (LeaseState_value (qlt_StateFilter m))).

Definition QueryLeasesByTenantRequest_Unmarshal (dAtA : bytes) : res (QueryLeasesByTenantRequest * Z) :=
  unmarshal QueryLeasesByTenantRequest_switch dAtA QueryLeasesByTenantRequest_zero.

Definition QueryLeasesByTenantRequest_wire (m : QueryLeasesByTenantRequest) : bytes :=
  enc_str 0xa (qlt_Tenant m) ++
  enc_opt (λ p, len_field 0x12 (PageRequest_bytes p)) (qlt_Pagination m) ++
  enc_uint 0x18 (LeaseState_value (qlt_StateFilter m)).

(** ** QueryLeasesByTenantResponse *)

(** As Go decodes it, with the numbers of the enumerations. *)
Definition GoQueryLeasesByTenantResponse : Type :=
  list GoLease * option PageResponse.

Definition QueryLeasesByTenantResponse_write (m : QueryLeasesByTenantResponse) : writer :=
  if_some (qltr_Pagination m) (λ p, put_msg 0x12 (PageResponse_MarshalToSizedBuffer p)) ;;>
  put_each (λ e, put_msg 0xa (to_sized_buffer (Lease_write e))) (qltr_Leases m).

Definition QueryLeasesByTenantResponse_Size (m : QueryLeasesByTenantResponse) : Z :=
  size_each (λ e, size_len (Lease_Size e)) (qltr_Leases m) +
  size_opt (qltr_Pagination m) (λ p, size_len (PageResponse_Size p)).

Definition QueryLeasesByTenantResponse_Marshal (m : QueryLeasesByTenantResponse) : res bytes :=
  marshal (QueryLeasesByTenantResponse_Size m) (QueryLeasesByTenantResponse_write m).

Definition QueryLeasesByTenantResponse_switch (fieldNum wireType : Z) (dAtA : bytes) (iNdEx : Z) (m : GoQueryLeasesByTenantResponse) :
    option (res (GoQueryLeasesByTenantResponse * Z)) :=
  let '(leases, pagination) := m in
  match fieldNum with
  | 1 => Some ('(x, i) ← get_msg Lease_Unmarshal wireType dAtA iNdEx; Ok ((leases ++ [x], pagination), i))
  | 2 => Some ('(x, i) ← get_msg (λ b, PageResponse_Unmarshal b (default PageResponse_zero pagination)) wireType dAtA iNdEx;
      Ok ((leases, Some x), i))
  | _ => None
  end.

Definition QueryLeasesByTenantResponse_zero : GoQueryLeasesByTenantResponse := ([], None).

Definition QueryLeasesByTenantResponse_go (m : QueryLeasesByTenantResponse) : GoQueryLeasesByTenantResponse :=
  (go_lease <$> qltr_Leases m, qltr_Pagination m).

Definition QueryLeasesByTenantResponse_Unmarshal (dAtA : bytes) : res GoQueryLeasesByTenantResponse :=
  unmarshal QueryLeasesByTenantResponse_switch dAtA QueryLeasesByTenantResponse_zero.

Definition QueryLeasesByTenantResponse_wire (m : QueryLeasesByTenantResponse) : bytes :=
  enc_each (λ e, len_field 0xa (Lease_wire e)) (qltr_Leases m) ++
  enc_opt (λ p, len_field 0x12 (PageResponse_bytes p)) (qltr_Pagination m).

(** ** QueryLeasesByProviderRequest *)

Definition QueryLeasesByProviderRequest_write (m : QueryLeasesByProviderRequest) : writer :=
  if_nonzero (LeaseState_value (qlp_StateFilter m)) (put_uint 0x18 (LeaseState_value (qlp_StateFilter m))) ;;>
  if_some (qlp_Pagination m) (λ p, put_msg 0x12 (PageRequest_MarshalToSizedBuffer p)) ;;>
  if_nonempty (qlp_ProviderUuid m) (put_bytes 0xa (qlp_ProviderUuid m)).

Definition QueryLeasesByProviderRequest_Size (m : QueryLeasesByProviderRequest) : Z :=
  size_str (qlp_ProviderUuid m) +
  size_opt (qlp_Pagination m) (λ p, size_len (PageRequest_Size p)) +
  size_num (LeaseState_value (qlp_StateFilter m)).

Definition QueryLeasesByProviderRequest_Marshal (m : QueryLeasesByProviderRequest) : res bytes :=
  marshal (QueryLeasesByProviderRequest_Size m) (QueryLeasesByProviderRequest_write m).

Definition QueryLeasesByProviderRequest_switch (fieldNum wireType : Z) (dAtA : bytes) (iNdEx : Z) (m : (QueryLeasesByProviderRequest * Z)) :
    option (res ((QueryLeasesByProviderRequest * Z) * Z)) :=
  let '(mkQueryLeasesByProviderRequest providerUuid pagination _, stateFilter) := m in
  match fieldNum with
  | 1 => Some ('(x, i) ← get_string wireType dAtA iNdEx;
      Ok ((mkQueryLeasesByProviderRequest x pagination LEASE_STATE_UNSPECIFIED, stateFilter), i))
  | 2 => Some ('(x, i) ← get_msg (λ b, PageRequest_Unmarshal b (default PageRequest_zero pagination)) wireType dAtA iNdEx;
      Ok ((mkQueryLeasesByProviderRequest providerUuid (Some x) LEASE_STATE_UNSPECIFIED, stateFilter), i))
  | 3 => Some ('(x, i) ← get_enum wireType dAtA iNdEx;
      Ok ((mkQueryLeasesByProviderRequest providerUuid pagination LEASE_STATE_UNSPECIFIED, x), i))
  | _ => None
  end.

Definition QueryLeasesByProviderRequest_zero : (QueryLeasesByProviderRequest * Z) :=
  (mkQueryLeasesByProviderRequest "" None LEASE_STATE_UNSPECIFIED, 0).

(** As Go decodes it. *)
Definition QueryLeasesByProviderRequest_go (m : QueryLeasesByProviderRequest) : (QueryLeasesByProviderRequest * Z) :=
  (mkQueryLeasesByProviderRequest (qlp_ProviderUuid m) (qlp_Pagination m) LEASE_STATE_UNSPECIFIED, (LeaseState_value (qlp_StateFilter m))).

Definition QueryLeasesByProviderRequest_Unmarshal (dAtA : bytes) : res (QueryLeasesByProviderRequest * Z) :=
  unmarshal QueryLeasesByProviderRequest_switch dAtA QueryLeasesByProviderRequest_zero.

Definition QueryLeasesByProviderRequest_wire (m : QueryLeasesByProviderRequest) : bytes :=
  enc_str 0xa (qlp_ProviderUuid m) ++
  enc_opt (λ p, len_field 0x12 (PageRequest_bytes p)) (qlp_Pagination m) ++
  enc_uint 0x18 (LeaseState_value (qlp_StateFilter m)).

(** ** QueryLeasesByProviderResponse *)

(** As Go decodes it, with the numbers of the enumerations. *)
Definition GoQueryLeasesByProviderResponse : Type :=
  list GoLease * option PageResponse.

Definition QueryLeasesByProviderResponse_write (m : QueryLeasesByProviderResponse) : writer :=
  if_some (qlpr_Pagination m) (λ p, put_msg 0x12 (PageResponse_MarshalToSizedBuffer p)) ;;>
  put_each (λ e, put_msg 0xa (to_sized_buffer (Lease_write e))) (qlpr_Leases m).

Definition QueryLeasesByProviderResponse_Size (m : QueryLeasesByProviderResponse) : Z :=
  size_each (λ e, size_len (Lease_Size e)) (qlpr_Leases m) +
  size_opt (qlpr_Pagination m) (λ p, size_len (PageResponse_Size p)).

Definition QueryLeasesByProviderResponse_Marshal (m : QueryLeasesByProviderResponse) : res bytes :=
  marshal (QueryLeasesByProviderResponse_Size m) (QueryLeasesByProviderResponse_write m).

Definition QueryLeasesByProviderResponse_switch (fieldNum wireType : Z) (dAtA : bytes) (iNdEx : Z) (m : GoQueryLeasesByProviderResponse) :
    option (res (GoQueryLeasesByProviderResponse * Z)) :=
  let '(leases, pagination) := m in
  match fieldNum with
  | 1 => Some ('(x, i) ← get_msg Lease_Unmarshal wireType dAtA iNdEx; Ok ((leases ++ [x], pagination), i))
  | 2 => Some ('(x, i) ← get_msg (λ b, PageResponse_Unmarshal b (default PageResponse_zero pagination)) wireType dAtA iNdEx;
      Ok ((leases, Some x), i))
  | _ => None
  end.

Definition QueryLeasesByProviderResponse_zero : GoQueryLeasesByProviderResponse := ([], None).

Definition QueryLeasesByProviderResponse_go (m : QueryLeasesByProviderResponse) : GoQueryLeasesByProviderResponse :=
  (go_lease <$> qlpr_Leases m, qlpr_Pagination m).

Definition QueryLeasesByProviderResponse_Unmarshal (dAtA : bytes) : res GoQueryLeasesByProviderResponse :=
  unmarshal QueryLeasesByProviderResponse_switch dAtA QueryLeasesByProviderResponse_zero.

Definition QueryLeasesByProviderResponse_wire (m : QueryLeasesByProviderResponse) : bytes :=
  enc_each (λ e, len_field 0xa (Lease_wire e)) (qlpr_Leases m) ++
  enc_opt (λ p, len_field 0x12 (PageResponse_bytes p)) (qlpr_Pagination m).

(** ** QueryCreditAccountResponse *)

Definition QueryCreditAccountResponse_write (m : QueryCreditAccountResponse) : writer :=
  put_each (λ e, put_msg 0x1a (Coin_MarshalToSizedBuffer e)) (qca_AvailableBalances m) ;;>
  put_each (λ e, put_msg 0x12 (Coin_MarshalToSizedBuffer e)) (qca_Balances m) ;;>
  put_msg 0xa (to_sized_buffer (CreditAccount_write (qca_CreditAccount m))).

Definition QueryCreditAccountResponse_Size (m : QueryCreditAccountResponse) : Z :=
  size_len (CreditAccount_Size (qca_CreditAccount m)) +
  size_each (λ e, size_len (Coin_Size e)) (qca_Balances m) +
  size_each (λ e, size_len (Coin_Size e)) (qca_AvailableBalances m).

Definition QueryCreditAccountResponse_Marshal (m : QueryCreditAccountResponse) : res bytes :=
  marshal (QueryCreditAccountResponse_Size m) (QueryCreditAccountResponse_write m).

Definition QueryCreditAccountResponse_switch (fieldNum wireType : Z) (dAtA : bytes) (iNdEx : Z) (m : QueryCreditAccountResponse) :
    option (res (QueryCreditAccountResponse * Z)) :=
  let 'mkQueryCreditAccountResponse creditAccount balances availableBalances := m in
  match fieldNum with
  | 1 => Some ('(x, i) ← get_msg (λ b, unmarshal CreditAccount_switch b creditAccount) wireType dAtA iNdEx;
      Ok (mkQueryCreditAccountResponse x balances availableBalances, i))
  | 2 => Some ('(x, i) ← get_msg (λ b, Coin_Unmarshal b no_coin) wireType dAtA iNdEx;
      Ok (mkQueryCreditAccountResponse creditAccount (balances ++ [x]) availableBalances, i))
  | 3 => Some ('(x, i) ← get_msg (λ b, Coin_Unmarshal b no_coin) wireType dAtA iNdEx;
      Ok (mkQueryCreditAccountResponse creditAccount balances (availableBalances ++ [x]), i))
  | _ => None
  end.

Definition QueryCreditAccountResponse_zero : QueryCreditAccountResponse :=
  mkQueryCreditAccountResponse CreditAccount_zero [] [].

Definition QueryCreditAccountResponse_Unmarshal (dAtA : bytes) : res QueryCreditAccountResponse :=
  unmarshal QueryCreditAccountResponse_switch dAtA QueryCreditAccountResponse_zero.

Definition QueryCreditAccountResponse_wire (m : QueryCreditAccountResponse) : bytes :=
  len_field 0xa (CreditAccount_wire (qca_CreditAccount m)) ++
  enc_each (λ e, len_field 0x12 (coin_bytes e)) (qca_Balances m) ++
  enc_each (λ e, len_field 0x1a (coin_bytes e)) (qca_AvailableBalances m).

(** ** QueryWithdrawableAmountResponse *)

Definition QueryWithdrawableAmountResponse_write (m : QueryWithdrawableAmountResponse) : writer :=
  put_each (λ e, put_msg 0xa (Coin_MarshalToSizedBuffer e)) (qwar_Amounts m).

Definition QueryWithdrawableAmountResponse_Size (m : QueryWithdrawableAmountResponse) : Z :=
  size_each (λ e, size_len (Coin_Size e)) (qwar_Amounts m).

Definition QueryWithdrawableAmountResponse_Marshal (m : QueryWithdrawableAmountResponse) : res bytes :=
  marshal (QueryWithdrawableAmountResponse_Size m) (QueryWithdrawableAmountResponse_write m).

Definition QueryWithdrawableAmountResponse_switch (fieldNum wireType : Z) (dAtA : bytes) (iNdEx : Z) (m : QueryWithdrawableAmountResponse) :
    option (res (QueryWithdrawableAmountResponse * Z)) :=
  let 'mkQueryWithdrawableAmountResponse amounts := m in
  match fieldNum with
  | 1 => Some ('(x, i) ← get_msg (λ b, Coin_Unmarshal b no_coin) wireType dAtA iNdEx;
      Ok (mkQueryWithdrawableAmountResponse (amounts ++ [x]), i))
  | _ => None
  end.

Definition QueryWithdrawableAmountResponse_zero : QueryWithdrawableAmountResponse :=
  mkQueryWithdrawableAmountResponse [].

Definition QueryWithdrawableAmountResponse_Unmarshal (dAtA : bytes) : res QueryWithdrawableAmountResponse :=
  unmarshal QueryWithdrawableAmountResponse_switch dAtA QueryWithdrawableAmountResponse_zero.

Definition QueryWithdrawableAmountResponse_wire (m : QueryWithdrawableAmountResponse) : bytes :=
  enc_each (λ e, len_field 0xa (coin_bytes e)) (qwar_Amounts m).

(** ** QueryProviderWithdrawableResponse *)

Definition QueryProviderWithdrawableResponse_write (m : QueryProviderWithdrawableResponse) : writer :=
  if_true (pw_HasMore m) (put_bool 0x18 (pw_HasMore m)) ;;>
  if_nonzero (pw_LeaseCount m) (put_uint 0x10 (pw_LeaseCount m)) ;;>
  put_each (λ e, put_msg 0xa (Coin_MarshalToSizedBuffer e)) (pw_Amounts m).

Definition QueryProviderWithdrawableResponse_Size (m : QueryProviderWithdrawableResponse) : Z :=
  size_each (λ e, size_len (Coin_Size e)) (pw_Amounts m) +
  size_num (pw_LeaseCount m) +
  size_bool (pw_HasMore m).

Definition QueryProviderWithdrawableResponse_Marshal (m : QueryProviderWithdrawableResponse) : res bytes :=
  marshal (QueryProviderWithdrawableResponse_Size m) (QueryProviderWithdrawableResponse_write m).

Definition QueryProviderWithdrawableResponse_switch (fieldNum wireType : Z) (dAtA : bytes) (iNdEx : Z) (m : QueryProviderWithdrawableResponse) :
    option (res (QueryProviderWithdrawableResponse * Z)) :=
  let 'mkQueryProviderWithdrawableResponse amounts leaseCount hasMore := m in
  match fieldNum with
  | 1 => Some ('(x, i) ← get_msg (λ b, Coin_Unmarshal b no_coin) wireType dAtA iNdEx;
      Ok (mkQueryProviderWithdrawableResponse (amounts ++ [x]) leaseCount hasMore, i))
  | 2 => Some ('(x, i) ← get_uint wireType dAtA iNdEx; Ok (mkQueryProviderWithdrawableResponse amounts x hasMore, i))
  | 3 => Some ('(x, i) ← get_bool wireType dAtA iNdEx; Ok (mkQueryProviderWithdrawableResponse amounts leaseCount x, i))
  | _ => None
  end.

Definition QueryProviderWithdrawableResponse_zero : QueryProviderWithdrawableResponse :=
  mkQueryProviderWithdrawableResponse [] 0 false.

Definition QueryProviderWithdrawableResponse_Unmarshal (dAtA : bytes) : res QueryProviderWithdrawableResponse :=
  unmarshal QueryProviderWithdrawableResponse_switch dAtA QueryProviderWithdrawableResponse_zero.

Definition QueryProviderWithdrawableResponse_wire (m : QueryProviderWithdrawableResponse) : bytes :=
  enc_each (λ e, len_field 0xa (coin_bytes e)) (pw_Amounts m) ++
  enc_uint 0x10 (pw_LeaseCount m) ++
  enc_bool 0x18 (pw_HasMore m).

(** ** QueryCreditAccountsRequest *)

Definition QueryCreditAccountsRequest_write (m : QueryCreditAccountsRequest) : writer :=
  if_some (qcas_Pagination m) (λ p, put_msg 0xa (PageRequest_MarshalToSizedBuffer p)).

Definition QueryCreditAccountsRequest_Size (m : QueryCreditAccountsRequest) : Z :=
  size_opt (qcas_Pagination m) (λ p, size_len (PageRequest_Size p)).

Definition QueryCreditAccountsRequest_Marshal (m : QueryCreditAccountsRequest) : res bytes :=
  marshal (QueryCreditAccountsRequest_Size m) (QueryCreditAccountsRequest_write m).

Definition QueryCreditAccountsRequest_switch (fieldNum wireType : Z) (dAtA : bytes) (iNdEx : Z) (m : QueryCreditAccountsRequest) :
    option (res (QueryCreditAccountsRequest * Z)) :=
  let 'mkQueryCreditAccountsRequest pagination := m in
  match fieldNum with
  | 1 => Some ('(x, i) ← get_msg (λ b, PageRequest_Unmarshal b (default PageRequest_zero pagination)) wireType dAtA iNdEx;
      Ok (mkQueryCreditAccountsRequest (Some x), i))
  | _ => None
  end.

Definition QueryCreditAccountsRequest_zero : QueryCreditAccountsRequest := mkQueryCreditAccountsRequest None.

Definition QueryCreditAccountsRequest_Unmarshal (dAtA : bytes) : res QueryCreditAccountsRequest :=
  unmarshal QueryCreditAccountsRequest_switch dAtA QueryCreditAccountsRequest_zero.

Definition QueryCreditAccountsRequest_wire (m : QueryCreditAccountsRequest) : bytes :=
  enc_opt (λ p, len_field 0xa (PageRequest_bytes p)) (qcas_Pagination m).

(** ** QueryCreditAccountsResponse *)

Definition QueryCreditAccountsResponse_write (m : QueryCreditAccountsResponse) : writer :=
  if_some (qcasr_Pagination m) (λ p, put_msg 0x12 (PageResponse_MarshalToSizedBuffer p)) ;;>
  put_each (λ e, put_msg 0xa (to_sized_buffer (CreditAccount_write e))) (qcasr_CreditAccounts m).

Definition QueryCreditAccountsResponse_Size (m : QueryCreditAccountsResponse) : Z :=
  size_each (λ e, size_len (CreditAccount_Size e)) (qcasr_CreditAccounts m) +
  size_opt (qcasr_Pagination m) (λ p, size_len (PageResponse_Size p)).

Definition QueryCreditAccountsResponse_Marshal (m : QueryCreditAccountsResponse) : res bytes :=
  marshal (QueryCreditAccountsResponse_Size m) (QueryCreditAccountsResponse_write m).

Definition QueryCreditAccountsResponse_switch (fieldNum wireType : Z) (dAtA : bytes) (iNdEx : Z) (m : QueryCreditAccountsResponse) :
    option (res (QueryCreditAccountsResponse * Z)) :=
  let 'mkQueryCreditAccountsResponse creditAccounts pagination := m in
  match fieldNum with
  | 1 => Some ('(x, i) ← get_msg CreditAccount_Unmarshal wireType dAtA iNdEx;
      Ok (mkQueryCreditAccountsResponse (creditAccounts ++ [x]) pagination, i))
  | 2 => Some ('(x, i) ← get_msg (λ b, PageResponse_Unmarshal b (default PageResponse_zero pagination)) wireType dAtA iNdEx;
      Ok (mkQueryCreditAccountsResponse creditAccounts (Some x), i))
  | _ => None
  end.

Definition QueryCreditAccountsResponse_zero : QueryCreditAccountsResponse := mkQueryCreditAccountsResponse [] None.

Definition QueryCreditAccountsResponse_Unmarshal (dAtA : bytes) : res QueryCreditAccountsResponse :=
  unmarshal QueryCreditAccountsResponse_switch dAtA QueryCreditAccountsResponse_zero.

Definition QueryCreditAccountsResponse_wire (m : QueryCreditAccountsResponse) : bytes :=
  enc_each (λ e, len_field 0xa (CreditAccount_wire e)) (qcasr_CreditAccounts m) ++
  enc_opt (λ p, len_field 0x12 (PageResponse_bytes p)) (qcasr_Pagination m).

(** ** QueryLeasesBySKURequest *)

Definition QueryLeasesBySKURequest_write (m : QueryLeasesBySKURequest) : writer :=
  if_nonzero (LeaseState_value (qlk_StateFilter m)) (put_uint 0x18 (LeaseState_value (qlk_StateFilter m))) ;;>
  if_some (qlk_Pagination m) (λ p, put_msg 0x12 (PageRequest_MarshalToSizedBuffer p)) ;;>
  if_nonempty (qlk_SkuUuid m) (put_bytes 0xa (qlk_SkuUuid m)).

Definition QueryLeasesBySKURequest_Size (m : QueryLeasesBySKURequest) : Z :=
  size_str (qlk_SkuUuid m) +
  size_opt (qlk_Pagination m) (λ p, size_len (PageRequest_Size p)) +
  size_num (LeaseState_value (qlk_StateFilter m)).

Definition QueryLeasesBySKURequest_Marshal (m : QueryLeasesBySKURequest) : res bytes :=
  marshal (QueryLeasesBySKURequest_Size m) (QueryLeasesBySKURequest_write m).

Definition QueryLeasesBySKURequest_switch (fieldNum wireType : Z) (dAtA : bytes) (iNdEx : Z) (m : (QueryLeasesBySKURequest * Z)) :
    option (res ((QueryLeasesBySKURequest * Z) * Z)) :=
  let '(mkQueryLeasesBySKURequest skuUuid pagination _, stateFilter) := m in
  match fieldNum with
  | 1 => Some ('(x, i) ← get_string wireType dAtA iNdEx;
      Ok ((mkQueryLeasesBySKURequest x pagination LEASE_STATE_UNSPECIFIED, stateFilter), i))
  | 2 => Some ('(x, i) ← get_msg (λ b, PageRequest_Unmarshal b (default PageRequest_zero pagination)) wireType dAtA iNdEx;
      Ok ((mkQueryLeasesBySKURequest skuUuid (Some x) LEASE_STATE_UNSPECIFIED, stateFilter), i))
  | 3 => Some ('(x, i) ← get_enum wireType dAtA iNdEx;
      Ok ((mkQueryLeasesBySKURequest skuUuid pagination LEASE_STATE_UNSPECIFIED, x), i))
  | _ => None
  end.

Definition QueryLeasesBySKURequest_zero : (QueryLeasesBySKURequest * Z) :=
  (mkQueryLeasesBySKURequest "" None LEASE_STATE_UNSPECIFIED, 0).

(** As Go decodes it. *)
Definition QueryLeasesBySKURequest_go (m : QueryLeasesBySKURequest) : (QueryLeasesBySKURequest * Z) :=
  (mkQueryLeasesBySKURequest (qlk_SkuUuid m) (qlk_Pagination m) LEASE_STATE_UNSPECIFIED, (LeaseState_value (qlk_StateFilter m))).

Definition QueryLeasesBySKURequest_Unmarshal (dAtA : bytes) : res (QueryLeasesBySKURequest * Z) :=
  unmarshal QueryLeasesBySKURequest_switch dAtA QueryLeasesBySKURequest_zero.

Definition QueryLeasesBySKURequest_wire (m : QueryLeasesBySKURequest) : bytes :=
  enc_str 0xa (qlk_SkuUuid m) ++
  enc_opt (λ p, len_field 0x12 (PageRequest_bytes p)) (qlk_Pagination m) ++
  enc_uint 0x18 (LeaseState_value (qlk_StateFilter m)).

(** ** QueryLeasesBySKUResponse *)

(** As Go decodes it, with the numbers of the enumerations. *)
Definition GoQueryLeasesBySKUResponse : Type :=
  list GoLease * option PageResponse.

Definition QueryLeasesBySKUResponse_write (m : QueryLeasesBySKUResponse) : writer :=
  if_some (qlkr_Pagination m) (λ p, put_msg 0x12 (PageResponse_MarshalToSizedBuffer p)) ;;>
  put_each (λ e, put_msg 0xa (to_sized_buffer (Lease_write e))) (qlkr_Leases m).

Definition QueryLeasesBySKUResponse_Size (m : QueryLeasesBySKUResponse) : Z :=
  size_each (λ e, size_len (Lease_Size e)) (qlkr_Leases m) +
  size_opt (qlkr_Pagination m) (λ p, size_len (PageResponse_Size p)).

Definition QueryLeasesBySKUResponse_Marshal (m : QueryLeasesBySKUResponse) : res bytes :=
  marshal (QueryLeasesBySKUResponse_Size m) (QueryLeasesBySKUResponse_write m).

Definition QueryLeasesBySKUResponse_switch (fieldNum wireType : Z) (dAtA : bytes) (iNdEx : Z) (m : GoQueryLeasesBySKUResponse) :
    option (res (GoQueryLeasesBySKUResponse * Z)) :=
  let '(leases, pagination) := m in
  match fieldNum with
  | 1 => Some ('(x, i) ← get_msg Lease_Unmarshal wireType dAtA iNdEx; Ok ((leases ++ [x], pagination), i))
  | 2 => Some ('(x, i) ← get_msg (λ b, PageResponse_Unmarshal b (default PageResponse_zero pagination)) wireType dAtA iNdEx;
      Ok ((leases, Some x), i))
  | _ => None
  end.

Definition QueryLeasesBySKUResponse_zero : GoQueryLeasesBySKUResponse := ([], None).

Definition QueryLeasesBySKUResponse_go (m : QueryLeasesBySKUResponse) : GoQueryLeasesBySKUResponse :=
  (go_lease <$> qlkr_Leases m, qlkr_Pagination m).

Definition QueryLeasesBySKUResponse_Unmarshal (dAtA : bytes) : res GoQueryLeasesBySKUResponse :=
  unmarshal QueryLeasesBySKUResponse_switch dAtA QueryLeasesBySKUResponse_zero.

Definition QueryLeasesBySKUResponse_wire (m : QueryLeasesBySKUResponse) : bytes :=
  enc_each (λ e, len_field 0xa (Lease_wire e)) (qlkr_Leases m) ++
  enc_opt (λ p, len_field 0x12 (PageResponse_bytes p)) (qlkr_Pagination m).

(** ** QueryCreditEstimateResponse *)

Definition QueryCreditEstimateResponse_write (m : QueryCreditEstimateResponse) : writer :=
  if_nonzero (ce_ActiveLeaseCount m) (put_uint 0x20 (ce_ActiveLeaseCount m)) ;;>
  if_nonzero (ce_EstimatedDurationSeconds m) (put_uint 0x18 (ce_EstimatedDurationSeconds m)) ;;>
  put_each (λ e, put_msg 0x12 (Coin_MarshalToSizedBuffer e)) (ce_TotalRatePerSecond m) ;;>
  put_each (λ e, put_msg 0xa (Coin_MarshalToSizedBuffer e)) (ce_CurrentBalance m).

Definition QueryCreditEstimateResponse_Size (m : QueryCreditEstimateResponse) : Z :=
  size_each (λ e, size_len (Coin_Size e)) (ce_CurrentBalance m) +
  size_each (λ e, size_len (Coin_Size e)) (ce_TotalRatePerSecond m) +
  size_num (ce_EstimatedDurationSeconds m) +
  size_num (ce_ActiveLeaseCount m).

Definition QueryCreditEstimateResponse_Marshal (m : QueryCreditEstimateResponse) : res bytes :=
  marshal (QueryCreditEstimateResponse_Size m) (QueryCreditEstimateResponse_write m).

Definition QueryCreditEstimateResponse_switch (fieldNum wireType : Z) (dAtA : bytes) (iNdEx : Z) (m : QueryCreditEstimateResponse) :
    option (res (QueryCreditEstimateResponse * Z)) :=
  let 'mkQueryCreditEstimateResponse currentBalance totalRatePerSecond estimatedDurationSeconds activeLeaseCount := m in
  match fieldNum with
  | 1 => Some ('(x, i) ← get_msg (λ b, Coin_Unmarshal b no_coin) wireType dAtA iNdEx;
      Ok (mkQueryCreditEstimateResponse (currentBalance ++ [x]) totalRatePerSecond estimatedDurationSeconds activeLeaseCount, i))
  | 2 => Some ('(x, i) ← get_msg (λ b, Coin_Unmarshal b no_coin) wireType dAtA iNdEx;
      Ok (mkQueryCreditEstimateResponse currentBalance (totalRatePerSecond ++ [x]) estimatedDurationSeconds activeLeaseCount, i))
  | 3 => Some ('(x, i) ← get_uint wireType dAtA iNdEx;
      Ok (mkQueryCreditEstimateResponse currentBalance totalRatePerSecond x activeLeaseCount, i))
  | 4 => Some ('(x, i) ← get_uint wireType dAtA iNdEx;
      Ok (mkQueryCreditEstimateResponse currentBalance totalRatePerSecond estimatedDurationSeconds x, i))
  | _ => None
  end.

Definition QueryCreditEstimateResponse_zero : QueryCreditEstimateResponse := mkQueryCreditEstimateResponse [] [] 0 0.

Definition QueryCreditEstimateResponse_Unmarshal (dAtA : bytes) : res QueryCreditEstimateResponse :=
  unmarshal QueryCreditEstimateResponse_switch dAtA QueryCreditEstimateResponse_zero.

Definition QueryCreditEstimateResponse_wire (m : QueryCreditEstimateResponse) : bytes :=
  enc_each (λ e, len_field 0xa (coin_bytes e)) (ce_CurrentBalance m) ++
  enc_each (λ e, len_field 0x12 (coin_bytes e)) (ce_TotalRatePerSecond m) ++
  enc_uint 0x18 (ce_EstimatedDurationSeconds m) ++
  enc_uint 0x20 (ce_ActiveLeaseCount m).

(** ** QueryLeaseByCustomDomainResponse *)

(** As Go decodes it, with the numbers of the enumerations. *)
Definition GoQueryLeaseByCustomDomainResponse : Type :=
  GoLease * string.

Definition QueryLeaseByCustomDomainResponse_write (m : QueryLeaseByCustomDomainResponse) : writer :=
  if_nonempty (qcdr_ServiceName m) (put_bytes 0x12 (qcdr_ServiceName m)) ;;>
  put_msg 0xa (to_sized_buffer (Lease_write (qcdr_Lease m))).

Definition QueryLeaseByCustomDomainResponse_Size (m : QueryLeaseByCustomDomainResponse) : Z :=
  size_len (Lease_Size (qcdr_Lease m)) +
  size_str (qcdr_ServiceName m).

Definition QueryLeaseByCustomDomainResponse_Marshal (m : QueryLeaseByCustomDomainResponse) : res bytes :=
  marshal (QueryLeaseByCustomDomainResponse_Size m) (QueryLeaseByCustomDomainResponse_write m).

Definition QueryLeaseByCustomDomainResponse_switch (fieldNum wireType : Z) (dAtA : bytes) (iNdEx : Z) (m : GoQueryLeaseByCustomDomainResponse) :
    option (res (GoQueryLeaseByCustomDomainResponse * Z)) :=
  let '(lease, serviceName) := m in
  match fieldNum with
  | 1 => Some ('(x, i) ← get_msg (λ b, unmarshal Lease_switch b lease) wireType dAtA iNdEx; Ok ((x, serviceName), i))
  | 2 => Some ('(x, i) ← get_string wireType dAtA iNdEx; Ok ((lease, x), i))
  | _ => None
  end.

Definition QueryLeaseByCustomDomainResponse_zero : GoQueryLeaseByCustomDomainResponse := (Lease_zero, "").

Definition QueryLeaseByCustomDomainResponse_go (m : QueryLeaseByCustomDomainResponse) : GoQueryLeaseByCustomDomainResponse :=
  (go_lease (qcdr_Lease m), qcdr_ServiceName m).

Definition QueryLeaseByCustomDomainResponse_Unmarshal (dAtA : bytes) : res GoQueryLeaseByCustomDomainResponse :=
  unmarshal QueryLeaseByCustomDomainResponse_switch dAtA QueryLeaseByCustomDomainResponse_zero.

Definition QueryLeaseByCustomDomainResponse_wire (m : QueryLeaseByCustomDomainResponse) : bytes :=
  len_field 0xa (Lease_wire (qcdr_Lease m)) ++
  enc_str 0x12 (qcdr_ServiceName m).
End codec.

(** * The queries of the billing module are lawful *)

Definition QueryParamsResponse_fits (m : QueryParamsResponse) : Prop := Params_fits (qpr_Params m).

#[export] Instance QueryParamsResponse_lawful :
  lawful QueryParamsResponse_fits QueryParamsResponse_write QueryParamsResponse_Size QueryParamsResponse_wire
    QueryParamsResponse_switch QueryParamsResponse_zero id.
Proof.
  solve_lawful. intros [params]; open_decodes Hl.
  dec_sub 1 Hl.
Qed.

#[export] Instance QueryLeaseRequest_lawful :
  lawful (λ _, True) QueryLeaseRequest_write QueryLeaseRequest_Size QueryLeaseRequest_wire
    QueryLeaseRequest_switch QueryLeaseRequest_zero id.
Proof.
  solve_lawful. intros [leaseUuid]; open_decodes Hl.
  dec_string 1.
Qed.

#[export] Instance QueryCreditAccountRequest_lawful :
  lawful (λ _, True) QueryCreditAccountRequest_write QueryCreditAccountRequest_Size QueryCreditAccountRequest_wire
    QueryCreditAccountRequest_switch QueryCreditAccountRequest_zero id.
Proof.
  solve_lawful. intros [tenant]; open_decodes Hl.
  dec_string 1.
Qed.

#[export] Instance QueryCreditAddressRequest_lawful :
  lawful (λ _, True) QueryCreditAddressRequest_write QueryCreditAddressRequest_Size QueryCreditAddressRequest_wire
    QueryCreditAddressRequest_switch QueryCreditAddressRequest_zero id.
Proof.
  solve_lawful. intros [tenant]; open_decodes Hl.
  dec_string 1.
Qed.

#[export] Instance QueryCreditAddressResponse_lawful :
  lawful (λ _, True) QueryCreditAddressResponse_write QueryCreditAddressResponse_Size QueryCreditAddressResponse_wire
    QueryCreditAddressResponse_switch QueryCreditAddressResponse_zero id.
Proof.
  solve_lawful. intros [creditAddress]; open_decodes Hl.
  dec_string 1.
Qed.

#[export] Instance QueryWithdrawableAmountRequest_lawful :
  lawful (λ _, True) QueryWithdrawableAmountRequest_write QueryWithdrawableAmountRequest_Size QueryWithdrawableAmountRequest_wire
    QueryWithdrawableAmountRequest_switch QueryWithdrawableAmountRequest_zero id.
Proof.
  solve_lawful. intros [leaseUuid]; open_decodes Hl.
  dec_string 1.
Qed.

Definition QueryProviderWithdrawableRequest_fits (m : QueryProviderWithdrawableRequest) : Prop := is_u64 (qpw_Limit m).

#[export] Instance QueryProviderWithdrawableRequest_lawful :
  lawful QueryProviderWithdrawableRequest_fits QueryProviderWithdrawableRequest_write QueryProviderWithdrawableRequest_Size QueryProviderWithdrawableRequest_wire
    QueryProviderWithdrawableRequest_switch QueryProviderWithdrawableRequest_zero id.
Proof.
  solve_lawful. intros [providerUuid limit]; open_decodes Hl.
  dec_string 1. dec_uint 2.
Qed.

#[export] Instance QueryCreditEstimateRequest_lawful :
  lawful (λ _, True) QueryCreditEstimateRequest_write QueryCreditEstimateRequest_Size QueryCreditEstimateRequest_wire
    QueryCreditEstimateRequest_switch QueryCreditEstimateRequest_zero id.
Proof.
  solve_lawful. intros [tenant]; open_decodes Hl.
  dec_string 1.
Qed.

#[export] Instance QueryLeaseByCustomDomainRequest_lawful :
  lawful (λ _, True) QueryLeaseByCustomDomainRequest_write QueryLeaseByCustomDomainRequest_Size QueryLeaseByCustomDomainRequest_wire
    QueryLeaseByCustomDomainRequest_switch QueryLeaseByCustomDomainRequest_zero id.
Proof.
  solve_lawful. intros [customDomain]; open_decodes Hl.
  dec_string 1.
Qed.

Section codec.
Context `{GL : GogoLaws} `{PL : PageLaws}.

Definition QueryLeaseResponse_fits (m : QueryLeaseResponse) : Prop := Lease_fits (qlr_Lease m).

#[global] Instance QueryLeaseResponse_lawful :
  lawful QueryLeaseResponse_fits QueryLeaseResponse_write QueryLeaseResponse_Size QueryLeaseResponse_wire
    QueryLeaseResponse_switch QueryLeaseResponse_zero QueryLeaseResponse_go.
Proof.
  solve_lawful. intros [lease]; open_decodes Hl.
  dec_sub 1 Hl.
Qed.

Definition QueryLeasesRequest_fits (m : QueryLeasesRequest) : Prop :=
  from_option PageRequest_fits True (qls_Pagination m).

#[global] Instance QueryLeasesRequest_lawful :
  lawful QueryLeasesRequest_fits QueryLeasesRequest_write QueryLeasesRequest_Size QueryLeasesRequest_wire
    QueryLeasesRequest_switch QueryLeasesRequest_zero QueryLeasesRequest_go.
Proof.
  solve_lawful. intros [pagination stateFilter]; open_decodes Hl.
  dec_page 1 @PageRequest_unmarshals (λ l, (mkQueryLeasesRequest l LEASE_STATE_UNSPECIFIED, 0)) Hl. dec_enum 2.
Qed.

Definition QueryLeasesResponse_fits (m : QueryLeasesResponse) : Prop :=
  Forall Lease_fits (qlsr_Leases m) ∧ from_option PageResponse_fits True (qlsr_Pagination m).

#[global] Instance QueryLeasesResponse_lawful :
  lawful QueryLeasesResponse_fits QueryLeasesResponse_write QueryLeasesResponse_Size QueryLeasesResponse_wire
    QueryLeasesResponse_switch QueryLeasesResponse_zero QueryLeasesResponse_go.
Proof.
  solve_lawful. intros [leases pagination]; open_decodes Hl.
  dec_subs_go 1 Lease_Unmarshal Hl (λ l, (l, None) : GoQueryLeasesResponse).
  dec_page 2 @PageResponse_unmarshals (λ l, (go_lease <$> leases, l) : GoQueryLeasesResponse) Hl.
Qed.

Definition QueryLeasesByTenantRequest_fits (m : QueryLeasesByTenantRequest) : Prop :=
  from_option PageRequest_fits True (qlt_Pagination m).

#[global] Instance QueryLeasesByTenantRequest_lawful :
  lawful QueryLeasesByTenantRequest_fits QueryLeasesByTenantRequest_write QueryLeasesByTenantRequest_Size QueryLeasesByTenantRequest_wire
    QueryLeasesByTenantRequest_switch QueryLeasesByTenantRequest_zero QueryLeasesByTenantRequest_go.
Proof.
  solve_lawful. intros [tenant pagination stateFilter]; open_decodes Hl.
  dec_string 1.
  dec_page 2 @PageRequest_unmarshals (λ l, (mkQueryLeasesByTenantRequest tenant l LEASE_STATE_UNSPECIFIED, 0)) Hl.
  dec_enum 3.
Qed.

Definition QueryLeasesByTenantResponse_fits (m : QueryLeasesByTenantResponse) : Prop :=
  Forall Lease_fits (qltr_Leases m) ∧ from_option PageResponse_fits True (qltr_Pagination m).

#[global] Instance QueryLeasesByTenantResponse_lawful :
  lawful QueryLeasesByTenantResponse_fits QueryLeasesByTenantResponse_write QueryLeasesByTenantResponse_Size QueryLeasesByTenantResponse_wire
    QueryLeasesByTenantResponse_switch QueryLeasesByTenantResponse_zero QueryLeasesByTenantResponse_go.
Proof.
  solve_lawful. intros [leases pagination]; open_decodes Hl.
  dec_subs_go 1 Lease_Unmarshal Hl (λ l, (l, None) : GoQueryLeasesByTenantResponse).
  dec_page 2 @PageResponse_unmarshals (λ l, (go_lease <$> leases, l) : GoQueryLeasesByTenantResponse) Hl.
Qed.

Definition QueryLeasesByProviderRequest_fits (m : QueryLeasesByProviderRequest) : Prop :=
  from_option PageRequest_fits True (qlp_Pagination m).

#[global] Instance QueryLeasesByProviderRequest_lawful :
  lawful QueryLeasesByProviderRequest_fits QueryLeasesByProviderRequest_write QueryLeasesByProviderRequest_Size QueryLeasesByProviderRequest_wire
    QueryLeasesByProviderRequest_switch QueryLeasesByProviderRequest_zero QueryLeasesByProviderRequest_go.
Proof.
  solve_lawful. intros [providerUuid pagination stateFilter]; open_decodes Hl.
  dec_string 1.
  dec_page 2 @PageRequest_unmarshals (λ l, (mkQueryLeasesByProviderRequest providerUuid l LEASE_STATE_UNSPECIFIED, 0)) Hl.
  dec_enum 3.
Qed.

Definition QueryLeasesByProviderResponse_fits (m : QueryLeasesByProviderResponse) : Prop :=
  Forall Lease_fits (qlpr_Leases m) ∧ from_option PageResponse_fits True (qlpr_Pagination m).

#[global] Instance QueryLeasesByProviderResponse_lawful :
  lawful QueryLeasesByProviderResponse_fits QueryLeasesByProviderResponse_write QueryLeasesByProviderResponse_Size QueryLeasesByProviderResponse_wire
    QueryLeasesByProviderResponse_switch QueryLeasesByProviderResponse_zero QueryLeasesByProviderResponse_go.
Proof.
  solve_lawful. intros [leases pagination]; open_decodes Hl.
  dec_subs_go 1 Lease_Unmarshal Hl (λ l, (l, None) : GoQueryLeasesByProviderResponse).
  dec_page 2 @PageResponse_unmarshals (λ l, (go_lease <$> leases, l) : GoQueryLeasesByProviderResponse) Hl.
Qed.

Definition QueryCreditAccountResponse_fits (m : QueryCreditAccountResponse) : Prop :=
  CreditAccount_fits (qca_CreditAccount m) ∧ Forall coin_fits (qca_Balances m) ∧ Forall coin_fits (qca_AvailableBalances m).

#[global] Instance QueryCreditAccountResponse_lawful :
  lawful QueryCreditAccountResponse_fits QueryCreditAccountResponse_write QueryCreditAccountResponse_Size QueryCreditAccountResponse_wire
    QueryCreditAccountResponse_switch QueryCreditAccountResponse_zero id.
Proof.
  solve_lawful. intros [creditAccount balances availableBalances]; open_decodes Hl.
  dec_sub 1 Hl. dec_coins 2 (λ l, mkQueryCreditAccountResponse creditAccount l []).
  dec_coins 3 (λ l, mkQueryCreditAccountResponse creditAccount balances l).
Qed.

Definition QueryWithdrawableAmountResponse_fits (m : QueryWithdrawableAmountResponse) : Prop :=
  Forall coin_fits (qwar_Amounts m).

#[global] Instance QueryWithdrawableAmountResponse_lawful :
  lawful QueryWithdrawableAmountResponse_fits QueryWithdrawableAmountResponse_write QueryWithdrawableAmountResponse_Size QueryWithdrawableAmountResponse_wire
    QueryWithdrawableAmountResponse_switch QueryWithdrawableAmountResponse_zero id.
Proof.
  solve_lawful. intros [amounts]; open_decodes Hl.
  dec_coins 1 (λ l, mkQueryWithdrawableAmountResponse l).
Qed.

Definition QueryProviderWithdrawableResponse_fits (m : QueryProviderWithdrawableResponse) : Prop :=
  Forall coin_fits (pw_Amounts m) ∧ is_u64 (pw_LeaseCount m).

#[global] Instance QueryProviderWithdrawableResponse_lawful :
  lawful QueryProviderWithdrawableResponse_fits QueryProviderWithdrawableResponse_write QueryProviderWithdrawableResponse_Size QueryProviderWithdrawableResponse_wire
    QueryProviderWithdrawableResponse_switch QueryProviderWithdrawableResponse_zero id.
Proof.
  solve_lawful. intros [amounts leaseCount hasMore]; open_decodes Hl.
  dec_coins 1 (λ l, mkQueryProviderWithdrawableResponse l 0 false). dec_uint 2. dec_bool 3.
Qed.

Definition QueryCreditAccountsRequest_fits (m : QueryCreditAccountsRequest) : Prop :=
  from_option PageRequest_fits True (qcas_Pagination m).

#[global] Instance QueryCreditAccountsRequest_lawful :
  lawful QueryCreditAccountsRequest_fits QueryCreditAccountsRequest_write QueryCreditAccountsRequest_Size QueryCreditAccountsRequest_wire
    QueryCreditAccountsRequest_switch QueryCreditAccountsRequest_zero id.
Proof.
  solve_lawful. intros [pagination]; open_decodes Hl.
  dec_page 1 @PageRequest_unmarshals (λ l, mkQueryCreditAccountsRequest l) Hl.
Qed.

Definition QueryCreditAccountsResponse_fits (m : QueryCreditAccountsResponse) : Prop :=
  Forall CreditAccount_fits (qcasr_CreditAccounts m) ∧ from_option PageResponse_fits True (qcasr_Pagination m).

#[global] Instance QueryCreditAccountsResponse_lawful :
  lawful QueryCreditAccountsResponse_fits QueryCreditAccountsResponse_write QueryCreditAccountsResponse_Size QueryCreditAccountsResponse_wire
    QueryCreditAccountsResponse_switch QueryCreditAccountsResponse_zero id.
Proof.
  solve_lawful. intros [creditAccounts pagination]; open_decodes Hl.
  dec_subs 1 CreditAccount_Unmarshal Hl (λ l, mkQueryCreditAccountsResponse l None).
  dec_page 2 @PageResponse_unmarshals (λ l, mkQueryCreditAccountsResponse creditAccounts l) Hl.
Qed.

Definition QueryLeasesBySKURequest_fits (m : QueryLeasesBySKURequest) : Prop :=
  from_option PageRequest_fits True (qlk_Pagination m).

#[global] Instance QueryLeasesBySKURequest_lawful :
  lawful QueryLeasesBySKURequest_fits QueryLeasesBySKURequest_write QueryLeasesBySKURequest_Size QueryLeasesBySKURequest_wire
    QueryLeasesBySKURequest_switch QueryLeasesBySKURequest_zero QueryLeasesBySKURequest_go.
Proof.
  solve_lawful. intros [skuUuid pagination stateFilter]; open_decodes Hl.
  dec_string 1.
  dec_page 2 @PageRequest_unmarshals (λ l, (mkQueryLeasesBySKURequest skuUuid l LEASE_STATE_UNSPECIFIED, 0)) Hl.
  dec_enum 3.
Qed.

Definition QueryLeasesBySKUResponse_fits (m : QueryLeasesBySKUResponse) : Prop :=
  Forall Lease_fits (qlkr_Leases m) ∧ from_option PageResponse_fits True (qlkr_Pagination m).

#[global] Instance QueryLeasesBySKUResponse_lawful :
  lawful QueryLeasesBySKUResponse_fits QueryLeasesBySKUResponse_write QueryLeasesBySKUResponse_Size QueryLeasesBySKUResponse_wire
    QueryLeasesBySKUResponse_switch QueryLeasesBySKUResponse_zero QueryLeasesBySKUResponse_go.
Proof.
  solve_lawful. intros [leases pagination]; open_decodes Hl.
  dec_subs_go 1 Lease_Unmarshal Hl (λ l, (l, None) : GoQueryLeasesBySKUResponse).
  dec_page 2 @PageResponse_unmarshals (λ l, (go_lease <$> leases, l) : GoQueryLeasesBySKUResponse) Hl.
Qed.

Definition QueryCreditEstimateResponse_fits (m : QueryCreditEstimateResponse) : Prop :=
  Forall coin_fits (ce_CurrentBalance m) ∧ Forall coin_fits (ce_TotalRatePerSecond m) ∧ is_u64 (ce_EstimatedDurationSeconds m) ∧ is_u64 (ce_ActiveLeaseCount m).

#[global] Instance QueryCreditEstimateResponse_lawful :
  lawful QueryCreditEstimateResponse_fits QueryCreditEstimateResponse_write QueryCreditEstimateResponse_Size QueryCreditEstimateResponse_wire
    QueryCreditEstimateResponse_switch QueryCreditEstimateResponse_zero id.
Proof.
  solve_lawful. intros [currentBalance totalRatePerSecond estimatedDurationSeconds activeLeaseCount]; open_decodes Hl.
  dec_coins 1 (λ l, mkQueryCreditEstimateResponse l [] 0 0).
  dec_coins 2 (λ l, mkQueryCreditEstimateResponse currentBalance l 0 0). dec_uint 3. dec_uint 4.
Qed.

Definition QueryLeaseByCustomDomainResponse_fits (m : QueryLeaseByCustomDomainResponse) : Prop :=
  Lease_fits (qcdr_Lease m).

#[global] Instance QueryLeaseByCustomDomainResponse_lawful :
  lawful QueryLeaseByCustomDomainResponse_fits QueryLeaseByCustomDomainResponse_write QueryLeaseByCustomDomainResponse_Size QueryLeaseByCustomDomainResponse_wire
    QueryLeaseByCustomDomainResponse_switch QueryLeaseByCustomDomainResponse_zero QueryLeaseByCustomDomainResponse_go.
Proof.
  solve_lawful. intros [lease serviceName]; open_decodes Hl.
  dec_sub 1 Hl. dec_string 2.
Qed.
End codec.
