(* ===== verification/Cli.v ===== *)
(** * The command line of the three modules (client/cli of x/billing, x/sku and x/manifest)

    A transaction command is a function from its arguments and flags to the message it hands to
    [tx.GenerateOrBroadcastTxCLI], a query command to the request it sends; [None] is an error,
    printed, with nothing sent. [from] is [clientCtx.GetFromAddress().String()]. The number of
    arguments is what [cobra.ExactArgs] and its like check. CliProps.v has the theorems. *)

From stdpp Require Import base tactics option list strings gmap.
From Stdlib Require Import ZArith Lia Ascii.
From S2P Require Import Prelude Sdk SdkRef Manifest Uuid GoStd Strconv SkuTypes BillingTypes BillingMsgs SkuKeeper SkuQuerier SkuQueryCodec Keeper LeaseStore Querier BillingQueryCodec.
Open Scope Z_scope.

(** ** The SDK's client package *)

(** The flags that [flags.AddPaginationFlagsToCmd] adds. *)
Record PageFlags : Type := mkPageFlags {
  pf_PageKey : string; pf_Page : Z; pf_Offset : Z; pf_Limit : Z; pf_CountTotal : bool; pf_Reverse : bool }.

Definition set_PageKey (k : string) (f : PageFlags) : PageFlags :=
  mkPageFlags k (pf_Page f) (pf_Offset f) (pf_Limit f) (pf_CountTotal f) (pf_Reverse f).

Class Client : Type := {
  (* types *)
  ParseCoinNormalized : string → option Coin;
  ParseCoinsNormalized : string → option (list Coin);
  (* client *)
  ReadPageRequest : PageFlags → option PageRequest;
  FlagSetWithPageKeyDecoded : PageFlags → option PageFlags;
  (* how [PrintProto] shows a field of type bytes *)
  base64 : string → string;
}.

(** The documentation of [FlagSetWithPageKeyDecoded]: it returns the flags with the page-key value
    base64 decoded, for when the page-key is provided as a base64 string, e.g. from the CLI;
    [ReadPageRequest] expects it to be the raw bytes. *)
Class ClientLaws `(C : Client) : Prop := {
  ReadPageRequest_key f r : ReadPageRequest f = Some r → Key r = pf_PageKey f;
  page_key_decoded f k : pf_PageKey f = base64 k → FlagSetWithPageKeyDecoded f = Some (set_PageKey k f);
  base64_length k : len (base64 k) = 4 * ((len k + 2) / 3);
}.

Definition require (b : bool) : option unit := if b then Some tt else None.
(** [if err := msg.Validate(); err != nil { return err }]. *)
Definition succeeds (r : res unit) : option unit := match r with Ok _ => Some tt | _ => None end.
(** [cobra.RangeArgs(1, types.MaxBatchLeaseSize)]. *)
Definition batch_args (args : list string) : bool := (1 <=? llen args) && (llen args <=? MaxBatchLeaseSize).

(** ** Lease items, lists and hashes (x/billing/client/cli/tx.go) *)

Definition colon : ascii := ":".
Definition comma : ascii := ",".

(** The body of the loop of [parseLeaseItemInputs]. *)
Definition parseLeaseItemInput (arg : string) : option LeaseItemInput :=
  match strings_SplitN arg colon 3 with
  | skuUUID :: part1 :: rest =>
      require (IsValidUUID skuUUID);;
      quantity ← ParseUint part1 64;
      match rest with
      | [] => Some (mkItemInput skuUUID quantity "")
      | part2 :: _ => require (negb (String.eqb part2 ""));; Some (mkItemInput skuUUID quantity part2)
      end
  | _ => None
  end.

Definition parseLeaseItemInputs (args : list string) : option (list LeaseItemInput) :=
  mapM parseLeaseItemInput args.

Definition parseMetaHashFlag (metaHashStr : string) : option string :=
  if String.eqb metaHashStr "" then Some ""%string else
  require (negb (MaxMetaHashLength * 2 <? len metaHashStr));;
  metaHash ← hex_DecodeString metaHashStr;
  require (negb (MaxMetaHashLength <? len metaHash));;
  Some metaHash.

Section billing_tx.
Context `{SDK} `{GoStd} `{Client} (from : string).

Definition splitAndTrim (s : string) : list string :=
  if String.eqb s "" then [] else
  filter (λ t, t ≠ ""%string) (strings_TrimSpace <$> strings_Split s comma).

Definition NewFundCreditCmd (args : list string) : option MsgFundCredit :=
  match args with
  | [tenant; arg1] =>
      AccAddressFromBech32 tenant;;
      amount ← ParseCoinNormalized arg1;
      Some (mkMsgFundCredit from tenant amount)
  | _ => None
  end.

Definition NewCreateLeaseCmd (metaHash : string) (args : list string) : option MsgCreateLease :=
  require (1 <=? llen args);;
  items ← parseLeaseItemInputs args;
  metaHash ← parseMetaHashFlag metaHash;
  Some (mkMsgCreateLease from items metaHash).

Definition NewCreateLeaseForTenantCmd (metaHash : string) (args : list string) : option MsgCreateLeaseForTenant :=
  require (2 <=? llen args);;
  match args with
  | tenant :: args' =>
      AccAddressFromBech32 tenant;;
      items ← parseLeaseItemInputs args';
      metaHash ← parseMetaHashFlag metaHash;
      Some (mkMsgCreateLeaseForTenant from tenant items metaHash)
  | [] => None
  end.

Definition NewCloseLeaseCmd (reason : string) (args : list string) : option MsgCloseLease :=
  require (batch_args args);;
  require (forallb IsValidUUID args);;
  Some (mkMsgCloseLease from args reason).

Definition NewAcknowledgeLeaseCmd (args : list string) : option MsgAcknowledgeLease :=
  require (batch_args args);;
  require (forallb IsValidUUID args);;
  Some (mkMsgAcknowledgeLease from args).

Definition NewRejectLeaseCmd (reason : string) (args : list string) : option MsgRejectLease :=
  require (batch_args args);;
  require (forallb IsValidUUID args);;
  Some (mkMsgRejectLease from args reason).

Definition NewCancelLeaseCmd (args : list string) : option MsgCancelLease :=
  require (batch_args args);;
  require (forallb IsValidUUID args);;
  Some (mkMsgCancelLease from args).

(** [--provider] and [--limit]; the empty string and 0 are their defaults. *)
Definition NewWithdrawCmd (providerUUID : string) (limit : Z) (args : list string) : option MsgWithdraw :=
  require (negb ((0 <? llen args) && negb (String.eqb providerUUID "")));;
  require (negb ((llen args =? 0) && String.eqb providerUUID ""));;
  if 0 <? llen args then
    require (negb (MaxBatchLeaseSize <? llen args));;
    require (forallb IsValidUUID args);;
    Some (mkMsgWithdraw from args "" 0)
  else
    require (IsValidUUID providerUUID);;
    Some (mkMsgWithdraw from [] providerUUID limit).

Definition NewSetItemCustomDomainCmd (args : list string) : option MsgSetItemCustomDomain :=
  match args with
  | [leaseUUID; arg1; arg2] =>
      require (IsValidUUID leaseUUID);;
      Some (mkMsgSetItemCustomDomain from leaseUUID arg1 arg2)
  | _ => None
  end.

(** A string flag: [None] when [Flags.Changed] is false. *)
Definition list_flag (flag : option string) (preserved : option (list string)) : list string :=
  match flag with
  | Some s => if negb (String.eqb s "") then splitAndTrim s else []
  | None => default [] preserved
  end.

(** [current] is the answer to [queryClient.Params], asked only when a list flag is absent. *)
Definition NewUpdateParamsCmd (allowedFlag reservedFlag : option string) (args : list string)
    (current : res Params) : option MsgUpdateParams :=
  match args with
  | [arg0; arg1; arg2; arg3; arg4] =>
      maxLeasesPerTenant ← ParseUint arg0 64;
      maxItemsPerLease ← ParseUint arg1 64;
      minLeaseDuration ← ParseUint arg2 64;
      maxPendingLeasesPerTenant ← ParseUint arg3 64;
      pendingTimeout ← ParseUint arg4 64;
      let needsPreservedParams := bool_decide (allowedFlag = None) || bool_decide (reservedFlag = None) in
      preservedParams ←
        (if needsPreservedParams then match current with Ok p => Some (Some p) | _ => None end else Some None);
      let allowedList := list_flag allowedFlag (AllowedList <$> preservedParams) in
      let reservedSuffixes := list_flag reservedFlag (ReservedDomainSuffixes <$> preservedParams) in
      Some (mkMsgUpdateParams from
        (mkParams maxLeasesPerTenant allowedList maxItemsPerLease minLeaseDuration
           maxPendingLeasesPerTenant pendingTimeout reservedSuffixes))
  | _ => None
  end.
End billing_tx.

(** ** Billing queries (x/billing/client/cli/query.go) *)

Section billing_query.
Context `{GoStd} `{Client}.

Definition parseLeaseState (s : string) : option LeaseState :=
  let s := strings_ToLower s in
  if String.eqb s "" then Some LEASE_STATE_UNSPECIFIED else
  if String.eqb s "pending" then Some LEASE_STATE_PENDING else
  if String.eqb s "active" then Some LEASE_STATE_ACTIVE else
  if String.eqb s "closed" then Some LEASE_STATE_CLOSED else
  if String.eqb s "rejected" then Some LEASE_STATE_REJECTED else
  if String.eqb s "expired" then Some LEASE_STATE_EXPIRED else None.

Definition GetLeaseCmd (args : list string) : option QueryLeaseRequest :=
  match args with
  | [leaseUUID] => require (IsValidUUID leaseUUID);; Some (mkQueryLeaseRequest leaseUUID)
  | _ => None
  end.

Definition GetLeasesCmd (state : string) (flags : PageFlags) (args : list string) : option QueryLeasesRequest :=
  match args with
  | [] =>
      stateFilter ← parseLeaseState state;
      pageReq ← ReadPageRequest flags;
      Some (mkQueryLeasesRequest (Some pageReq) stateFilter)
  | _ => None
  end.

Definition GetLeasesByTenantCmd (state : string) (flags : PageFlags) (args : list string) : option QueryLeasesByTenantRequest :=
  match args with
  | [arg0] =>
      stateFilter ← parseLeaseState state;
      pageReq ← ReadPageRequest flags;
      Some (mkQueryLeasesByTenantRequest arg0 (Some pageReq) stateFilter)
  | _ => None
  end.

Definition GetLeasesByProviderCmd (state : string) (flags : PageFlags) (args : list string) : option QueryLeasesByProviderRequest :=
  match args with
  | [providerUUID] =>
      require (IsValidUUID providerUUID);;
      stateFilter ← parseLeaseState state;
      pageReq ← ReadPageRequest flags;
      Some (mkQueryLeasesByProviderRequest providerUUID (Some pageReq) stateFilter)
  | _ => None
  end.

Definition GetLeasesBySKUCmd (state : string) (flags : PageFlags) (args : list string) : option QueryLeasesBySKURequest :=
  match args with
  | [skuUUID] =>
      require (IsValidUUID skuUUID);;
      stateFilter ← parseLeaseState state;
      pageReq ← ReadPageRequest flags;
      Some (mkQueryLeasesBySKURequest skuUUID (Some pageReq) stateFilter)
  | _ => None
  end.

Definition GetProviderWithdrawableCmd (limit : Z) (args : list string) : option QueryProviderWithdrawableRequest :=
  match args with
  | [providerUUID] =>
      require (IsValidUUID providerUUID);; Some (mkQueryProviderWithdrawableRequest providerUUID limit)
  | _ => None
  end.

(** The request has no fields. *)
Definition GetParamsCmd (args : list string) : option unit :=
  match args with [] => Some tt | _ => None end.

Definition GetCreditAccountCmd (args : list string) : option QueryCreditAccountRequest :=
  match args with [arg0] => Some (mkQueryCreditAccountRequest arg0) | _ => None end.

Definition GetCreditAddressCmd (args : list string) : option QueryCreditAddressRequest :=
  match args with [arg0] => Some (mkQueryCreditAddressRequest arg0) | _ => None end.

Definition GetWithdrawableAmountCmd (args : list string) : option QueryWithdrawableAmountRequest :=
  match args with
  | [leaseUUID] => require (IsValidUUID leaseUUID);; Some (mkQueryWithdrawableAmountRequest leaseUUID)
  | _ => None
  end.

Definition GetCreditAccountsCmd (flags : PageFlags) (args : list string) : option QueryCreditAccountsRequest :=
  match args with
  | [] => pageReq ← ReadPageRequest flags; Some (mkQueryCreditAccountsRequest (Some pageReq))
  | _ => None
  end.

Definition GetCreditEstimateCmd (args : list string) : option QueryCreditEstimateRequest :=
  match args with [arg0] => Some (mkQueryCreditEstimateRequest arg0) | _ => None end.

Definition GetLeaseByCustomDomainCmd (args : list string) : option QueryLeaseByCustomDomainRequest :=
  match args with [arg0] => Some (mkQueryLeaseByCustomDomainRequest arg0) | _ => None end.
End billing_query.

(** ** The sku module (x/sku/client/cli) *)

(** [types.Unit(unitInt)]. The numbers outside the enumeration are valid Go values; [Validate]
    rejects them, so the command fails. *)
Definition unit_of_int (n : Z) : option Unit :=
  if n =? 0 then Some UNIT_UNSPECIFIED else
  if n =? 1 then Some UNIT_PER_HOUR else
  if n =? 2 then Some UNIT_PER_DAY else None.

Definition parseMetaHash (metaHashStr : string) : option string :=
  if String.eqb metaHashStr "" then Some ""%string else hex_DecodeString metaHashStr.

Section sku_cli.
Context `{SDK} `{GoStd} `{Client} (from : string).

Definition splitAddresses (s : string) : list string :=
  if String.eqb s "" then [] else
  foldl (λ result addr,
    let addr := strings_TrimSpace addr in
    if negb (String.eqb addr "") then result ++ [addr] else result) [] (strings_Split s comma).

Definition MsgCreateProvider_cmd (metaHash apiURL : string) (args : list string) : option MsgCreateProvider :=
  match args with
  | [address; payoutAddress] =>
      metaHash ← parseMetaHash metaHash;
      let msg := mkMsgCreateProvider from address payoutAddress metaHash apiURL in
      succeeds (MsgCreateProvider_Validate msg);; Some msg
  | _ => None
  end.

Definition MsgUpdateProvider_cmd (metaHash apiURL : string) (args : list string) : option MsgUpdateProvider :=
  match args with
  | [uuid; address; payoutAddress; arg3] =>
      active ← ParseBool arg3;
      metaHash ← parseMetaHash metaHash;
      let msg := mkMsgUpdateProvider from uuid address payoutAddress metaHash active apiURL in
      succeeds (MsgUpdateProvider_Validate msg);; Some msg
  | _ => None
  end.

Definition MsgDeactivateProvider_cmd (limit : Z) (args : list string) : option MsgDeactivateProvider :=
  match args with
  | [uuid] =>
      let msg := mkMsgDeactivateProvider from uuid limit in
      succeeds (MsgDeactivateProvider_Validate msg);; Some msg
  | _ => None
  end.

Definition MsgCreateSKU_cmd (metaHash : string) (args : list string) : option MsgCreateSKU :=
  match args with
  | [providerUUID; name; arg2; arg3] =>
      unitInt ← ParseInt arg2 32;
      basePrice ← ParseCoinNormalized arg3;
      metaHash ← parseMetaHash metaHash;
      unit_ ← unit_of_int unitInt;
      let msg := mkMsgCreateSKU from providerUUID name unit_ basePrice metaHash in
      succeeds (MsgCreateSKU_Validate msg);; Some msg
  | _ => None
  end.

Definition MsgUpdateSKU_cmd (metaHash : string) (args : list string) : option MsgUpdateSKU :=
  match args with
  | [uuid; providerUUID; name; arg3; arg4; arg5] =>
      unitInt ← ParseInt arg3 32;
      basePrice ← ParseCoinNormalized arg4;
      active ← ParseBool arg5;
      metaHash ← parseMetaHash metaHash;
      unit_ ← unit_of_int unitInt;
      let msg := mkMsgUpdateSKU from uuid providerUUID name unit_ basePrice metaHash active in
      succeeds (MsgUpdateSKU_Validate msg);; Some msg
  | _ => None
  end.

Definition MsgDeactivateSKU_cmd (args : list string) : option MsgDeactivateSKU :=
  match args with
  | [uuid] =>
      let msg := mkMsgDeactivateSKU from uuid in
      succeeds (MsgDeactivateSKU_Validate msg);; Some msg
  | _ => None
  end.

Definition MsgUpdateParams_cmd (allowedListStr : string) (args : list string) : option SkuMsgUpdateParams :=
  match args with
  | [] =>
      let allowedList := if negb (String.eqb allowedListStr "") then splitAddresses allowedListStr else [] in
      let msg := mkSkuMsgUpdateParams from (mkSkuParams allowedList) in
      succeeds (SkuMsgUpdateParams_Validate msg);; Some msg
  | _ => None
  end.

Definition GetCmdQueryProviders (activeOnly : bool) (flags : PageFlags) (args : list string) : option QueryProvidersRequest :=
  match args with
  | [] =>
      flagSet ← FlagSetWithPageKeyDecoded flags;
      pageReq ← ReadPageRequest flagSet;
      Some (mkQueryProvidersRequest (Some pageReq) activeOnly)
  | _ => None
  end.

Definition GetCmdQuerySKUs (activeOnly : bool) (flags : PageFlags) (args : list string) : option QuerySKUsRequest :=
  match args with
  | [] =>
      flagSet ← FlagSetWithPageKeyDecoded flags;
      pageReq ← ReadPageRequest flagSet;
      Some (mkQuerySKUsRequest (Some pageReq) activeOnly)
  | _ => None
  end.

Definition GetCmdQuerySKUsByProvider (activeOnly : bool) (flags : PageFlags) (args : list string) : option QuerySKUsByProviderRequest :=
  match args with
  | [providerUUID] =>
      flagSet ← FlagSetWithPageKeyDecoded flags;
      pageReq ← ReadPageRequest flagSet;
      Some (mkQuerySKUsByProviderRequest providerUUID (Some pageReq) activeOnly)
  | _ => None
  end.

Definition GetCmdQueryProviderByAddress (activeOnly : bool) (flags : PageFlags) (args : list string) : option QueryProviderByAddressRequest :=
  match args with
  | [arg0] =>
      flagSet ← FlagSetWithPageKeyDecoded flags;
      pageReq ← ReadPageRequest flagSet;
      Some (mkQueryProviderByAddressRequest arg0 (Some pageReq) activeOnly)
  | _ => None
  end.

(** The request has no fields. *)
Definition GetCmdQueryParams (args : list string) : option unit :=
  match args with [] => Some tt | _ => None end.

Definition GetCmdQueryProvider (args : list string) : option QueryProviderRequest :=
  match args with [uuid] => Some (mkQueryProviderRequest uuid) | _ => None end.

Definition GetCmdQuerySKU (args : list string) : option QuerySKURequest :=
  match args with [uuid] => Some (mkQuerySKURequest uuid) | _ => None end.

(** ** The manifest module (x/manifest/client/cli/tx.go) *)

(** The body of the loop over the pairings. *)
Definition payout_pairing (pairing : string) : option PayoutPair :=
  match strings_Split pairing colon with
  | [strAddr; strCoin] =>
      AccAddressFromBech32 strAddr;;
      coin ← ParseCoinNormalized strCoin;
      require (Coin_IsValid coin);;
      Some (mkPayoutPair strAddr coin)
  | _ => None
  end.

Definition underscore : ascii := "_".

Definition fromStrToPayout (s : string) : option (list PayoutPair) :=
  mapM payout_pairing (strings_Split (strings_RemoveAll s underscore) comma).

Definition MsgPayout_cmd (args : list string) : option MsgPayout :=
  match args with
  | [arg0] =>
      payoutPairs ← fromStrToPayout arg0;
      let msg := mkMsgPayout from payoutPairs in
      succeeds (MsgPayout_Validate msg);; Some msg
  | _ => None
  end.

Definition MsgBurnCoins_cmd (args : list string) : option MsgBurnHeldBalance :=
  match args with
  | [arg0] =>
      coins ← ParseCoinsNormalized arg0;
      let msg := mkMsgBurnHeldBalance from coins in
      succeeds (MsgBurnHeldBalance_Validate msg);; Some msg
  | _ => None
  end.
End sku_cli.
