(* ===== verification/CliRef.v ===== *)
(** * A client that computes

    An instance of [Client] that satisfies [ClientLaws]: base64 with padding as in RFC 4648, coins
    as a numeral followed by a denom. The theorems on the command line are applied to it. *)

From stdpp Require Import base tactics option list strings gmap.
From Stdlib Require Import ZArith Lia Ascii.
From S2P Require Import Prelude Sdk Uuid GoStd Strconv SkuTypes BillingTypes BillingMsgs Cli.
Open Scope Z_scope.

Definition char_of (n : Z) : ascii := ascii_of_nat (Z.to_nat n).

(** A digit of base 64. *)
Definition b64_char (n : Z) : ascii :=
  char_of (if n <? 26 then 65 + n else if n <? 52 then 71 + n else if n <? 62 then n - 4
           else if n =? 62 then 43 else 47).
Definition b64_digit (c : ascii) : Z :=
  let n := char_code c in
  if n =? 43 then 62 else if n =? 47 then 63 else
  if n <=? 57 then n + 4 else if n <=? 90 then n - 65 else n - 71.
Definition padding : ascii := "=".

Fixpoint b64_encode (s : string) : string :=
  match s with
  | EmptyString => ""%string
  | String a EmptyString =>
      let a := char_code a in
      String (b64_char (a / 4)) (String (b64_char (a mod 4 * 16)) (String padding (String padding "")))
  | String a (String b EmptyString) =>
      let a := char_code a in let b := char_code b in
      String (b64_char (a / 4)) (String (b64_char (a mod 4 * 16 + b / 16))
        (String (b64_char (b mod 16 * 4)) (String padding "")))
  | String a (String b (String c s')) =>
      let a := char_code a in let b := char_code b in let c := char_code c in
      String (b64_char (a / 4)) (String (b64_char (a mod 4 * 16 + b / 16))
        (String (b64_char (b mod 16 * 4 + c / 64)) (String (b64_char (c mod 64)) (b64_encode s'))))
  end.

(** The digits are not checked: the instance is only asked to read what it writes. *)
Fixpoint b64_decode (s : string) : option string :=
  match s with
  | EmptyString => Some ""%string
  | String p (String q (String r (String t s'))) =>
      let p := b64_digit p in let q := b64_digit q in
      let first := char_of (p * 4 + q / 16) in
      if Ascii.eqb r padding then Some (String first "") else
      let r := b64_digit r in
      let second := char_of (q mod 16 * 16 + r / 4) in
      if Ascii.eqb t padding then Some (String first (String second "")) else
      rest ← b64_decode s';
      Some (String first (String second (String (char_of (r mod 4 * 64 + b64_digit t)) rest)))
  | _ => None
  end.

Lemma b64_char_cases n : 0 ≤ n < 64 → b64_digit (b64_char n) = n ∧ Ascii.eqb (b64_char n) padding = false.
Proof.
  intros Hn. assert (∃ k : nat, (k < 64)%nat ∧ n = Z.of_nat k) as (k & Hk & ->) by (exists (Z.to_nat n); lia).
  do 64 (destruct k as [|k]; [done|]). lia.
Qed.

Lemma b64_digit_char n : 0 ≤ n < 64 → b64_digit (b64_char n) = n.
Proof. intros. by apply b64_char_cases. Qed.

Lemma b64_char_not_padding n : 0 ≤ n < 64 → Ascii.eqb (b64_char n) padding = false.
Proof. intros. by apply b64_char_cases. Qed.

Lemma char_of_code c n : n = char_code c → char_of n = c.
Proof. intros ->. unfold char_of, char_code. by rewrite Nat2Z.id, ascii_nat_embedding. Qed.

(** Three bytes at a time. *)
Lemma string_triples (P : string → Prop) :
  P ""%string → (∀ a, P (String a "")) → (∀ a b, P (String a (String b ""))) →
  (∀ a b c s, P s → P (String a (String b (String c s)))) → ∀ s, P s.
Proof.
  intros H0 H1 H2 H3 s. enough (∀ n s, (String.length s ≤ n)%nat → P s) by eauto. clear s.
  induction n as [|n IH]; intros [|a [|b [|c s]]] Hs; cbn in Hs; auto; [lia..|]. apply H3, IH. lia.
Qed.

Ltac byte_arith := Z.to_euclidean_division_equations; lia.

Lemma b64_roundtrip s : b64_decode (b64_encode s) = Some s.
Proof.
  induction s as [|a|a b|a b c s IH] using string_triples; [done|..]; cbn [b64_encode b64_decode];
    repeat match goal with x : ascii |- _ => lazymatch goal with H : 0 ≤ char_code x < 256 |- _ => fail | _ => pose proof (char_code_range x) end end.
  - rewrite !b64_digit_char by byte_arith. cbn. do 2 f_equal. apply char_of_code. byte_arith.
  - rewrite !b64_char_not_padding, !b64_digit_char by byte_arith. cbn.
    repeat f_equal; apply char_of_code; byte_arith.
  - rewrite !b64_char_not_padding, !b64_digit_char by byte_arith. rewrite IH. cbn.
    repeat f_equal; apply char_of_code; byte_arith.
Qed.

Lemma b64_length s : len (b64_encode s) = 4 * ((len s + 2) / 3).
Proof.
  unfold len. induction s as [|a|a b|a b c s IH] using string_triples; [done..|].
  cbn [b64_encode String.length]. byte_arith.
Qed.

(** ** The instance *)

(** The longest prefix of digits, and what follows it. *)
Fixpoint digit_prefix (s : string) : string * string :=
  match s with
  | EmptyString => (""%string, ""%string)
  | String c s' => if is_digit_char c then let '(d, r) := digit_prefix s' in (String c d, r) else (""%string, s)
  end.

#[export] Instance ref_client : Client := {
  ParseCoinNormalized s :=
    let '(digits, denom) := digit_prefix s in
    n ← ParseUint digits 64; if String.eqb denom "" then None else Some (mkCoin denom n);
  ParseCoinsNormalized s :=
    mapM (λ t, let '(digits, denom) := digit_prefix t in
               n ← ParseUint digits 64; if String.eqb denom "" then None else Some (mkCoin denom n))
      (strings_Split s comma);
  ReadPageRequest f :=
    if (1 <? pf_Page f) && (0 <? pf_Offset f) then None else
    Some (mkPageRequest (pf_PageKey f)
      (if 1 <? pf_Page f then wrap_u64 ((pf_Page f - 1) * pf_Limit f) else pf_Offset f)
      (pf_Limit f) (pf_CountTotal f) (pf_Reverse f));
  FlagSetWithPageKeyDecoded f := k ← b64_decode (pf_PageKey f); Some (set_PageKey k f);
  base64 := b64_encode;
}.

#[export] Instance ref_client_laws : ClientLaws ref_client.
Proof.
  split.
  - intros f r. cbn. destruct (_ && _); [done|]. by intros [= <-].
  - intros f k E. cbn in *. by rewrite E, b64_roundtrip.
  - apply b64_length.
Qed.
