(* ===== verification/EndBlocker.v ===== *)
(** * End of block: expiring pending leases (src/x/billing/keeper/keeper.go)

    Collecting the overdue pending leases, at most a hundred per block, and expiring each in a
    cache context of its own. ExpiryInv.v has the theorems. *)

From stdpp Require Import base tactics option list strings gmap sorting fin_maps.
From Stdlib Require Import ZArith Lia.
From S2P Require Import Prelude Sdk SdkRef Uuid GoStd SkuTypes BillingTypes BillingMsgs SkuKeeper Credit Accrual Keeper LeaseStore Settlement Lifecycle.
Open Scope Z_scope.

Section end_blocker.
Context `{SDK} `{SKUKeeper} `{GoStd} (env : Env).

Definition expired (lease : Lease) : Lease :=
  set_ExpiredAt (Some (blockTime env)) (set_State LEASE_STATE_EXPIRED lease).

Definition ExpirePendingLease (lease : Lease) : W unit :=
  if negb (state_is (State lease) LEASE_STATE_PENDING) then err ErrLeaseNotPending else
  params ← GetParams;
  cached (
    SetLease (expired lease);;
    creditAccount ← GetCreditAccount (Tenant lease);
    ca ← lift (ReleaseLeaseReservation (DecrementPendingLeaseCount creditAccount) (expired lease)
                 (MinLeaseDuration params));
    SetCreditAccount ca);;
  emit (EvLeaseExpired (Uuid lease) (Tenant lease) (ProviderUuid lease)).

(** [time.Duration(params.PendingTimeout) * time.Second] is int64 arithmetic. *)
Definition pending_timeout (params : Params) : Z := wrap_i64 (wrap_i64 (PendingTimeout params) * Second).

(** First pass: the UUIDs to expire. *)
Fixpoint collect_expired (pendingTimeout : Z) (w : World) (expiredUUIDs : list string) (uuids : list string)
    : list string :=
  match uuids with
  | [] => expiredUUIDs
  | u :: rest =>
      if MaxPendingLeaseExpirationsPerBlock <=? llen expiredUUIDs then expiredUUIDs else
      match Leases w !! u with
      | None => collect_expired pendingTimeout w expiredUUIDs rest
      | Some lease =>
          if time_After (blockTime env) (time_Add (CreatedAt lease) pendingTimeout)
          then collect_expired pendingTimeout w (expiredUUIDs ++ [u]) rest
          else collect_expired pendingTimeout w expiredUUIDs rest
      end
  end.

(** Second pass: failures are logged and skipped. *)
Definition expire_one (leaseUUID : string) : W unit :=
  l ← try (Leases_Get leaseUUID);
  match l with
  | inr _ => mret tt
  | inl lease => try (ExpirePendingLease lease);; mret tt
  end.

Definition EndBlocker : W unit :=
  params ← GetParams;
  w ← get;
  let uuids := MatchExact (lease_state_is LEASE_STATE_PENDING) w in
  foldlM (λ _ u, expire_one u) tt (collect_expired (pending_timeout params) w [] uuids).
End end_blocker.
