(* ===== verification/Genesis.v ===== *)
(** * Genesis of both modules (src/x/billing/types/genesis.go, src/x/sku/types/genesis.go, and
    InitGenesis and ExportGenesis of the two keepers)

    Validation of a genesis state, loop by loop, its import into an empty store and the export of a
    store. GenesisInv.v has the theorems. *)

From stdpp Require Import base tactics option list strings gmap sorting fin_maps.
From Stdlib Require Import ZArith Lia.
From S2P Require Import Prelude Sdk SdkRef Uuid GoStd SkuTypes BillingTypes BillingMsgs SkuKeeper Credit Accrual Keeper.
Open Scope Z_scope.

(** ** The sku module *)

Record SkuGenesisState : Type := mkSkuGenesisState {
  sg_Params : SkuParams;
  sg_Providers : list Provider;
  sg_Skus : list SKU;
  sg_ProviderSequence : Z;
  sg_SkuSequence : Z }.

Definition sku_DefaultGenesis : SkuGenesisState := mkSkuGenesisState (mkSkuParams []) [] [] 0 0.

Section sku_genesis.
Context `{SDK} `{GoStd}.

Fixpoint genesis_providers (seen : list string) (ps : list Provider) : res (list string) :=
  match ps with
  | [] => Ok seen
  | p :: ps' =>
      check_uuid (prov_Uuid p) sku_ErrInvalidProvider;;
      check (bool_decide (prov_Uuid p ∈ seen)) sku_ErrInvalidProvider;;
      check (String.eqb (prov_Address p) "") sku_ErrInvalidProvider;;
      check_address (prov_Address p) sku_ErrInvalidProvider;;
      check (String.eqb (prov_PayoutAddress p) "") sku_ErrInvalidProvider;;
      check_address (prov_PayoutAddress p) sku_ErrInvalidProvider;;
      (if String.eqb (prov_ApiUrl p) "" then Ok tt
       else wrap_err sku_ErrInvalidProvider (ValidateAPIURL (prov_ApiUrl p)));;
      genesis_providers (prov_Uuid p :: seen) ps'
  end.

Fixpoint genesis_skus (providers seen : list string) (ks : list SKU) : res unit :=
  match ks with
  | [] => Ok tt
  | k :: ks' =>
      check_uuid (sku_Uuid k) sku_ErrInvalidSKU;;
      check (bool_decide (sku_Uuid k ∈ seen)) sku_ErrInvalidSKU;;
      check_uuid (sku_ProviderUuid k) sku_ErrInvalidSKU;;
      check (negb (bool_decide (sku_ProviderUuid k ∈ providers))) sku_ErrInvalidSKU;;
      check (String.eqb (sku_Name k) "") sku_ErrInvalidSKU;;
      check (MaxSKUNameLength <? len (sku_Name k)) sku_ErrInvalidSKU;;
      check (bool_decide (sku_Unit k = UNIT_UNSPECIFIED)) sku_ErrInvalidSKU;;
      check (negb (Coin_IsValid (sku_BasePrice k)) || Coin_IsZero (sku_BasePrice k)) sku_ErrInvalidSKU;;
      wrap_err sku_ErrInvalidSKU (ValidatePriceAndUnit (sku_BasePrice k) (sku_Unit k));;
      genesis_skus providers (sku_Uuid k :: seen) ks'
  end.

Definition sku_Genesis_Validate (gs : SkuGenesisState) : res unit :=
  SkuParams_Validate (sg_Params gs);;
  seenProviderUUIDs ← genesis_providers [] (sg_Providers gs);
  genesis_skus seenProviderUUIDs [] (sg_Skus gs);;
  check (sg_ProviderSequence gs <? llen (sg_Providers gs)) sku_ErrInvalidProvider;;
  check (sg_SkuSequence gs <? llen (sg_Skus gs)) sku_ErrInvalidSKU.

Definition sku_InitGenesis (gs : SkuGenesisState) : M SkuStore unit :=
  sku_SetParams (sg_Params gs);;
  foldlM (λ _ p, SetProvider p) tt (sg_Providers gs);;
  foldlM (λ _ k, SetSKU k) tt (sg_Skus gs);;
  (if 0 <? sg_ProviderSequence gs then modify (set_ProviderSequence (sg_ProviderSequence gs)) else mret tt);;
  (if 0 <? sg_SkuSequence gs then modify (set_SKUSequence (sg_SkuSequence gs)) else mret tt).

(** The errors of the store are panics here. *)
Definition sku_ExportGenesis : M SkuStore SkuGenesisState :=
  s ← get;
  match ss_Params s with
  | None => lift Panic
  | Some params =>
      mret (mkSkuGenesisState params (walk (Providers s)) (walk (SKUs s)) (ProviderSequence s) (SKUSequence s))
  end.
End sku_genesis.

(** ** The billing module *)

Record GenesisState : Type := mkGenesisState {
  gs_Params : Params;
  gs_Leases : list Lease;
  gs_CreditAccounts : list CreditAccount;
  gs_LeaseSequence : Z }.

Definition DefaultGenesis : GenesisState := mkGenesisState DefaultParams [] [] 0.

(** [time.Time.IsZero]: January 1, year 1. *)
Definition zero_time : Z := -62135596800 * Second.
Definition time_IsZero (t : Z) : bool := t =? zero_time.

(** First pass over the items of a lease; counts the items with a service name. *)
Fixpoint genesis_items_fields `{SDK} (items : list LeaseItem) : res Z :=
  match items with
  | [] => Ok 0
  | item :: items' =>
      check (String.eqb (item_SkuUuid item) "") ErrInvalidLease;;
      check (negb (IsValidUUID (item_SkuUuid item))) ErrInvalidLease;;
      check (Quantity item =? 0) ErrInvalidLease;;
      check (negb (Coin_IsValid (LockedPrice item)) || Coin_IsZero (LockedPrice item)) ErrInvalidLease;;
      n ← genesis_items_fields items';
      Ok (if String.eqb (item_ServiceName item) "" then n else n + 1)
  end.

Fixpoint genesis_service_names (seen : list string) (items : list LeaseItem) : res unit :=
  match items with
  | [] => Ok tt
  | item :: items' =>
      check (negb (IsValidDNSLabel (item_ServiceName item))) ErrInvalidServiceName;;
      check (bool_decide (item_ServiceName item ∈ seen)) ErrInvalidServiceName;;
      genesis_service_names (item_ServiceName item :: seen) items'
  end.

Fixpoint genesis_unique_skus (seen : list string) (items : list LeaseItem) : res unit :=
  match items with
  | [] => Ok tt
  | item :: items' =>
      check (bool_decide (item_SkuUuid item ∈ seen)) ErrDuplicateSKU;;
      genesis_unique_skus (item_SkuUuid item :: seen) items'
  end.

(** The number of items that carry service name [s]. *)
Definition service_matches (s : string) (all : list LeaseItem) : Z :=
  llen (filter (λ candidate, item_ServiceName candidate = s) all).

Section billing_genesis.
Context `{SDK} `{SKUKeeper} `{GoStd}.

Fixpoint genesis_domains (reserved : list string) (all items : list LeaseItem) : res unit :=
  match items with
  | [] => Ok tt
  | item :: items' =>
      (if String.eqb (CustomDomain item) "" then Ok tt else
       wrap_err ErrInvalidCustomDomain (IsValidFQDN (CustomDomain item));;
       check (MatchesReservedSuffix (CustomDomain item) reserved) ErrInvalidCustomDomain;;
       check (negb (service_matches (item_ServiceName item) all =? 1)) ErrAmbiguousLeaseItem);;
      genesis_domains reserved all items'
  end.

(** One iteration of the loop over the leases, after the UUID checks. *)
Definition genesis_lease (params : Params) (lease : Lease) : res unit :=
  check (String.eqb (Tenant lease) "") ErrInvalidLease;;
  check_address (Tenant lease) ErrInvalidLease;;
  check (String.eqb (ProviderUuid lease) "") ErrInvalidLease;;
  check (negb (IsValidUUID (ProviderUuid lease))) ErrInvalidLease;;
  check (llen (Items lease) =? 0) ErrInvalidLease;;
  hasServiceName ← genesis_items_fields (Items lease);
  check ((0 <? hasServiceName) && negb (hasServiceName =? llen (Items lease))) ErrInvalidServiceName;;
  (if 0 <? hasServiceName then genesis_service_names [] (Items lease) else genesis_unique_skus [] (Items lease));;
  genesis_domains (ReservedDomainSuffixes params) (Items lease) (Items lease);;
  check (state_is (State lease) LEASE_STATE_UNSPECIFIED) ErrInvalidLease;;
  check (MaxMetaHashLength <? len (MetaHash lease)) ErrInvalidMetaHash;;
  if state_is (State lease) LEASE_STATE_CLOSED
  then match ClosedAt lease with
       | None => Err ErrInvalidLease
       | Some t => check (time_IsZero t) ErrInvalidLease
       end
  else Ok tt.

Fixpoint genesis_leases (params : Params) (seen : list string) (leases : list Lease) : res unit :=
  match leases with
  | [] => Ok tt
  | lease :: leases' =>
      check (String.eqb (Uuid lease) "") ErrInvalidLease;;
      check (negb (IsValidUUID (Uuid lease))) ErrInvalidLease;;
      check (bool_decide (Uuid lease ∈ seen)) ErrInvalidLease;;
      genesis_lease params lease;;
      genesis_leases params (Uuid lease :: seen) leases'
  end.

(** The loop over the credit accounts; returns [seenTenants]. *)
Fixpoint genesis_accounts (seen : list string) (cas : list CreditAccount) : res (list string) :=
  match cas with
  | [] => Ok seen
  | ca :: cas' =>
      check (String.eqb (ca_Tenant ca) "") ErrInvalidCreditOperation;;
      check (bool_decide (ca_Tenant ca ∈ seen)) ErrInvalidCreditOperation;;
      match AccAddressFromBech32 (ca_Tenant ca) with
      | None => Err ErrInvalidCreditOperation
      | Some tenantAddr =>
          check (String.eqb (ca_CreditAddress ca) "") ErrInvalidCreditOperation;;
          check_address (ca_CreditAddress ca) ErrInvalidCreditOperation;;
          check (negb (String.eqb (ca_CreditAddress ca) (AccAddress_String (DeriveCreditAddress tenantAddr))))
            ErrInvalidCreditOperation;;
          check (negb (Coins_IsValid (ReservedAmounts ca))) ErrInvalidCreditOperation;;
          genesis_accounts (ca_Tenant ca :: seen) cas'
      end
  end.

(** One iteration of [CalculateExpectedReservationsByTenant]. *)
Definition expect_reservation (fallbackMinLeaseDuration : Z) (expected : gmap string Coins) (lease : Lease)
    : res (gmap string Coins) :=
  if state_is (State lease) LEASE_STATE_PENDING || state_is (State lease) LEASE_STATE_ACTIVE then
    reservation ← GetLeaseReservationAmount lease fallbackMinLeaseDuration;
    match expected !! Tenant lease with
    | Some existing =>
        sum ← Coins_Add existing reservation;
        Ok (<[Tenant lease := sum]> expected)
    | None => Ok (<[Tenant lease := reservation]> expected)
    end
  else Ok expected.

Definition CalculateExpectedReservationsByTenant (leases : list Lease) (fallbackMinLeaseDuration : Z)
    : res (gmap string Coins) :=
  foldlM (expect_reservation fallbackMinLeaseDuration) ∅ leases.

Fixpoint genesis_reservations (expectedReservations : gmap string Coins) (cas : list CreditAccount) : res unit :=
  match cas with
  | [] => Ok tt
  | ca :: cas' =>
      expected ← match expectedReservations !! ca_Tenant ca with Some e => Ok e | None => NewCoins [] end;
      actualNormalized ← NewCoins (ReservedAmounts ca);
      expectedNormalized ← NewCoins expected;
      check (negb (Coins_Equal actualNormalized expectedNormalized)) ErrInvalidCreditOperation;;
      genesis_reservations expectedReservations cas'
  end.

(** Ranging over the map returns the same error whichever tenant it meets first. *)
Definition genesis_missing_accounts (expectedReservations : gmap string Coins) (seenTenants : list string) : res unit :=
  check (existsb (λ e : string * Coins, negb (Coins_IsZero e.2) && negb (bool_decide (e.1 ∈ seenTenants)))
           (map_to_list expectedReservations)) ErrInvalidCreditOperation.

(** [activeCounts] or [pendingCounts]. *)
Definition count_state (s : LeaseState) (leases : list Lease) : gmap string Z :=
  foldl (λ m l, if state_is (State l) s
                then <[Tenant l := wrap_u64 (default 0 (m !! Tenant l) + 1)]> m else m) ∅ leases.

Fixpoint genesis_counts (active pending : gmap string Z) (cas : list CreditAccount) : res unit :=
  match cas with
  | [] => Ok tt
  | ca :: cas' =>
      check (negb (ActiveLeaseCount ca =? default 0 (active !! ca_Tenant ca))) ErrInvalidCreditOperation;;
      check (negb (PendingLeaseCount ca =? default 0 (pending !! ca_Tenant ca))) ErrInvalidCreditOperation;;
      genesis_counts active pending cas'
  end.

Definition Genesis_Validate (gs : GenesisState) : res unit :=
  wrap_err ErrInvalidParams (Params_Validate (gs_Params gs));;
  genesis_leases (gs_Params gs) [] (gs_Leases gs);;
  seenTenants ← genesis_accounts [] (gs_CreditAccounts gs);
  expectedReservations ← CalculateExpectedReservationsByTenant (gs_Leases gs) (MinLeaseDuration (gs_Params gs));
  genesis_reservations expectedReservations (gs_CreditAccounts gs);;
  genesis_missing_accounts expectedReservations seenTenants;;
  genesis_counts (count_state LEASE_STATE_ACTIVE (gs_Leases gs)) (count_state LEASE_STATE_PENDING (gs_Leases gs))
    (gs_CreditAccounts gs);;
  check (gs_LeaseSequence gs <? llen (gs_Leases gs)) ErrInvalidLease.

Fixpoint genesis_times (blockTime : Z) (leases : list Lease) : res unit :=
  match leases with
  | [] => Ok tt
  | lease :: leases' =>
      check (time_After (LastSettledAt lease) blockTime) ErrInvalidLease;;
      check (time_After (CreatedAt lease) blockTime) ErrInvalidLease;;
      (if state_is (State lease) LEASE_STATE_CLOSED
       then match ClosedAt lease with Some t => check (time_After t blockTime) ErrInvalidLease | None => Ok tt end
       else Ok tt);;
      genesis_times blockTime leases'
  end.

Definition ValidateWithBlockTime (gs : GenesisState) (blockTime : Z) : res unit :=
  genesis_times blockTime (gs_Leases gs).

(** One iteration of the import of leases: the references are checked, then the lease is stored. *)
Definition import_lease (lease : Lease) : W unit :=
  w ← get;
  lift (GetProvider (sku w) (ProviderUuid lease));;
  foldlM (λ _ item,
    k ← lift (GetSKU (sku w) (item_SkuUuid item));
    if negb (String.eqb (sku_ProviderUuid k) (ProviderUuid lease)) then err Plain else mret tt) tt (Items lease);;
  SetLease lease.

Definition InitGenesis (env : Env) (gs : GenesisState) : W unit :=
  lift (ValidateWithBlockTime gs (blockTime env));;
  SetParams (gs_Params gs);;
  foldlM (λ _ lease, import_lease lease) tt (gs_Leases gs);;
  foldlM (λ _ ca, SetCreditAccount ca) tt (gs_CreditAccounts gs);;
  if 0 <? gs_LeaseSequence gs then modify (set_LeaseSequence (gs_LeaseSequence gs)) else mret tt.

Definition ExportGenesis : W GenesisState :=
  w ← get;
  match k_Params w with
  | None => lift Panic
  | Some params => mret (mkGenesisState params (walk (Leases w)) (walk (CreditAccounts w)) (LeaseSequence w))
  end.

(** The store before its import. *)
Definition blank (s : SkuState) (b : Bank) : World := mkWorld None ∅ 0 ∅ ∅ ∅ ∅ s b [].
End billing_genesis.
