(* ===== verification/GenesisCodec.v ===== *)
(** * Marshaling of the genesis states (src/x/billing/types/genesis.pb.go, src/x/sku/types/genesis.pb.go) *)

From stdpp Require Import base tactics option list strings.
From Stdlib Require Import ZArith Lia Ascii.
From S2P Require Import Prelude Sdk SkuTypes BillingTypes Genesis Wire WireProps Codec Gogo BillingCodec SkuCodec.
Open Scope Z_scope.

Section codec.
Context `{Gogo}.

(** ** GenesisState *)

(** As Go decodes it, with the numbers of the enumerations. *)
Definition GoGenesisState : Type :=
  Params * list GoLease * list CreditAccount * Z.

Definition GenesisState_write (m : GenesisState) : writer :=
  if_nonzero (gs_LeaseSequence m) (put_uint 0x20 (gs_LeaseSequence m)) ;;>
  put_each (λ e, put_msg 0x1a (to_sized_buffer (CreditAccount_write e))) (gs_CreditAccounts m) ;;>
  put_each (λ e, put_msg 0x12 (to_sized_buffer (Lease_write e))) (gs_Leases m) ;;>
  put_msg 0xa (to_sized_buffer (Params_write (gs_Params m))).

Definition GenesisState_Size (m : GenesisState) : Z :=
  size_len (Params_Size (gs_Params m)) +
  size_each (λ e, size_len (Lease_Size e)) (gs_Leases m) +
  size_each (λ e, size_len (CreditAccount_Size e)) (gs_CreditAccounts m) +
  size_num (gs_LeaseSequence m).

Definition GenesisState_Marshal (m : GenesisState) : res bytes := marshal (GenesisState_Size m) (GenesisState_write m).

Definition GenesisState_switch (fieldNum wireType : Z) (dAtA : bytes) (iNdEx : Z) (m : GoGenesisState) :
    option (res (GoGenesisState * Z)) :=
  let '(params, leases, creditAccounts, leaseSequence) := m in
  match fieldNum with
  | 1 => Some ('(x, i) ← get_msg (λ b, unmarshal Params_switch b params) wireType dAtA iNdEx;
      Ok ((x, leases, creditAccounts, leaseSequence), i))
  | 2 => Some ('(x, i) ← get_msg Lease_Unmarshal wireType dAtA iNdEx;
      Ok ((params, leases ++ [x], creditAccounts, leaseSequence), i))
  | 3 => Some ('(x, i) ← get_msg CreditAccount_Unmarshal wireType dAtA iNdEx;
      Ok ((params, leases, creditAccounts ++ [x], leaseSequence), i))
  | 4 => Some ('(x, i) ← get_uint wireType dAtA iNdEx; Ok ((params, leases, creditAccounts, x), i))
  | _ => None
  end.

Definition GenesisState_zero : GoGenesisState := (Params_zero, [], [], 0).

Definition GenesisState_go (m : GenesisState) : GoGenesisState :=
  (gs_Params m, go_lease <$> gs_Leases m, gs_CreditAccounts m, gs_LeaseSequence m).

Definition GenesisState_Unmarshal (dAtA : bytes) : res GoGenesisState :=
  unmarshal GenesisState_switch dAtA GenesisState_zero.

Definition GenesisState_wire (m : GenesisState) : bytes :=
  len_field 0xa (Params_wire (gs_Params m)) ++
  enc_each (λ e, len_field 0x12 (Lease_wire e)) (gs_Leases m) ++
  enc_each (λ e, len_field 0x1a (CreditAccount_wire e)) (gs_CreditAccounts m) ++
  enc_uint 0x20 (gs_LeaseSequence m).

(** ** GenesisState *)

(** As Go decodes it, with the numbers of the enumerations. *)
Definition GoSkuGenesisState : Type :=
  SkuParams * list Provider * list (SKU * Z) * Z * Z.

Definition SkuGenesisState_write (m : SkuGenesisState) : writer :=
  if_nonzero (sg_SkuSequence m) (put_uint 0x28 (sg_SkuSequence m)) ;;>
  if_nonzero (sg_ProviderSequence m) (put_uint 0x20 (sg_ProviderSequence m)) ;;>
  put_each (λ e, put_msg 0x1a (to_sized_buffer (SKU_write e))) (sg_Skus m) ;;>
  put_each (λ e, put_msg 0x12 (to_sized_buffer (Provider_write e))) (sg_Providers m) ;;>
  put_msg 0xa (to_sized_buffer (SkuParams_write (sg_Params m))).

Definition SkuGenesisState_Size (m : SkuGenesisState) : Z :=
  size_len (SkuParams_Size (sg_Params m)) +
  size_each (λ e, size_len (Provider_Size e)) (sg_Providers m) +
  size_each (λ e, size_len (SKU_Size e)) (sg_Skus m) +
  size_num (sg_ProviderSequence m) +
  size_num (sg_SkuSequence m).

Definition SkuGenesisState_Marshal (m : SkuGenesisState) : res bytes :=
  marshal (SkuGenesisState_Size m) (SkuGenesisState_write m).

Definition SkuGenesisState_switch (fieldNum wireType : Z) (dAtA : bytes) (iNdEx : Z) (m : GoSkuGenesisState) :
    option (res (GoSkuGenesisState * Z)) :=
  let '(params, providers, skus, providerSequence, skuSequence) := m in
  match fieldNum with
  | 1 => Some ('(x, i) ← get_msg (λ b, unmarshal SkuParams_switch b params) wireType dAtA iNdEx;
      Ok ((x, providers, skus, providerSequence, skuSequence), i))
  | 2 => Some ('(x, i) ← get_msg Provider_Unmarshal wireType dAtA iNdEx;
      Ok ((params, providers ++ [x], skus, providerSequence, skuSequence), i))
  | 3 => Some ('(x, i) ← get_msg SKU_Unmarshal wireType dAtA iNdEx;
      Ok ((params, providers, skus ++ [x], providerSequence, skuSequence), i))
  | 4 => Some ('(x, i) ← get_uint wireType dAtA iNdEx; Ok ((params, providers, skus, x, skuSequence), i))
  | 5 => Some ('(x, i) ← get_uint wireType dAtA iNdEx; Ok ((params, providers, skus, providerSequence, x), i))
  | _ => None
  end.

Definition SkuGenesisState_zero : GoSkuGenesisState := (SkuParams_zero, [], [], 0, 0).

Definition SkuGenesisState_go (m : SkuGenesisState) : GoSkuGenesisState :=
  (sg_Params m, sg_Providers m, SKU_go <$> sg_Skus m, sg_ProviderSequence m, sg_SkuSequence m).

Definition SkuGenesisState_Unmarshal (dAtA : bytes) : res GoSkuGenesisState :=
  unmarshal SkuGenesisState_switch dAtA SkuGenesisState_zero.

Definition SkuGenesisState_wire (m : SkuGenesisState) : bytes :=
  len_field 0xa (SkuParams_wire (sg_Params m)) ++
  enc_each (λ e, len_field 0x12 (Provider_wire e)) (sg_Providers m) ++
  enc_each (λ e, len_field 0x1a (SKU_wire e)) (sg_Skus m) ++
  enc_uint 0x20 (sg_ProviderSequence m) ++
  enc_uint 0x28 (sg_SkuSequence m).
End codec.

(** * The genesis states are lawful *)

Section codec.
Context `{GL : GogoLaws}.

Definition GenesisState_fits (m : GenesisState) : Prop :=
  Params_fits (gs_Params m) ∧ Forall Lease_fits (gs_Leases m) ∧ Forall CreditAccount_fits (gs_CreditAccounts m) ∧ is_u64 (gs_LeaseSequence m).

#[global] Instance GenesisState_lawful :
  lawful GenesisState_fits GenesisState_write GenesisState_Size GenesisState_wire
    GenesisState_switch GenesisState_zero GenesisState_go.
Proof.
  solve_lawful. intros [params leases creditAccounts leaseSequence]; open_decodes Hl.
  dec_sub 1 Hl. dec_subs_go 2 Lease_Unmarshal Hl (λ l, (params, l, [], 0) : GoGenesisState).
  dec_subs 3 CreditAccount_Unmarshal Hl (λ l, (params, go_lease <$> leases, l, 0) : GoGenesisState). dec_uint 4.
Qed.

Definition SkuGenesisState_fits (m : SkuGenesisState) : Prop :=
  Forall SKU_fits (sg_Skus m) ∧ is_u64 (sg_ProviderSequence m) ∧ is_u64 (sg_SkuSequence m).

#[global] Instance SkuGenesisState_lawful :
  lawful SkuGenesisState_fits SkuGenesisState_write SkuGenesisState_Size SkuGenesisState_wire
    SkuGenesisState_switch SkuGenesisState_zero SkuGenesisState_go.
Proof.
  solve_lawful. intros [params providers skus providerSequence skuSequence]; open_decodes Hl.
  dec_sub 1 Hl. dec_subs 2 Provider_Unmarshal Hl (λ l, (params, l, [], 0, 0) : GoSkuGenesisState).
  dec_subs_go 3 SKU_Unmarshal Hl (λ l, (params, providers, l, 0, 0) : GoSkuGenesisState). dec_uint 4. dec_uint 5.
Qed.
End codec.
