(* ===== verification/Invariant.v ===== *)
(** * The billing invariant

    What the credit accounts promise about the leases, and how a write of one lease together with
    the matching change of one account keeps the promise. The handlers collect account changes in
    memory and write them at the end; [Inv accs] is the invariant seen through such a set of
    pending account changes, so that one lemma serves the single and the batch handlers. *)

From stdpp Require Import base tactics option list strings gmap sorting fin_maps.
From Stdlib Require Import ZArith Lia.
From S2P Require Import Prelude Sdk SdkRef Uuid GoStd SkuTypes BillingTypes BillingMsgs SkuKeeper Credit Accrual Keeper LeaseStore Settlement Lifecycle Genesis.
Open Scope Z_scope.

(** ** How a stored lease may change *)

(** PENDING -> ACTIVE -> CLOSED, PENDING -> REJECTED, PENDING -> EXPIRED. *)
Definition state_le (s s' : LeaseState) : Prop :=
  s = s' ∨
  match s, s' with
  | LEASE_STATE_PENDING, (LEASE_STATE_ACTIVE | LEASE_STATE_CLOSED | LEASE_STATE_REJECTED | LEASE_STATE_EXPIRED) => True
  | LEASE_STATE_ACTIVE, LEASE_STATE_CLOSED => True
  | _, _ => False
  end.

(** What of an item is fixed when the lease is created. *)
Definition item_core (i : LeaseItem) : string * Z * Coin * string :=
  (item_SkuUuid i, Quantity i, LockedPrice i, item_ServiceName i).

Record evolves (l l' : Lease) : Prop := mkEvolves {
  ev_uuid : Uuid l' = Uuid l;
  ev_tenant : Tenant l' = Tenant l;
  ev_provider : ProviderUuid l' = ProviderUuid l;
  ev_items : item_core <$> Items l' = item_core <$> Items l;
  ev_created : CreatedAt l' = CreatedAt l;
  ev_meta : MetaHash l' = MetaHash l;
  ev_duration : MinLeaseDurationAtCreation l' = MinLeaseDurationAtCreation l;
  ev_state : state_le (State l) (State l');
  ev_settled : LastSettledAt l ≤ LastSettledAt l' }.

Lemma state_le_trans s1 s2 s3 : state_le s1 s2 → state_le s2 s3 → state_le s1 s3.
Proof. unfold state_le. destruct s1, s2, s3; naive_solver. Qed.

#[global] Instance evolves_preorder : PreOrder evolves.
Proof.
  split.
  - intros l. split; try done. by left.
  - intros l1 l2 l3 [] []. split; try congruence; [by eapply state_le_trans|lia].
Qed.

Definition Leases_evolve (L L' : gmap string Lease) : Prop :=
  ∀ u l, L !! u = Some l → ∃ l', L' !! u = Some l' ∧ evolves l l'.

#[global] Instance Leases_evolve_preorder : PreOrder Leases_evolve.
Proof.
  split.
  - intros L u l Hl. by exists l.
  - intros L1 L2 L3 H12 H23 u l Hl. destruct (H12 u l Hl) as (l2 & Hl2 & ?).
    destruct (H23 u l2 Hl2) as (l3 & ? & ?). exists l3. split; [done|]. by etrans.
Qed.

Lemma Leases_evolve_insert L l l' :
  L !! Uuid l' = Some l → evolves l l' → Leases_evolve L (<[Uuid l' := l']> L).
Proof.
  intros Hl He u k Hk. destruct (decide (u = Uuid l')) as [->|Hne].
  - exists l'. rewrite lookup_insert_eq. simplify_eq. done.
  - exists k. by rewrite lookup_insert_ne.
Qed.

Lemma Leases_evolve_fresh L l' : L !! Uuid l' = None → Leases_evolve L (<[Uuid l' := l']> L).
Proof. intros Hl u k Hk. exists k. rewrite lookup_insert_ne; [done|]. congruence. Qed.

(** Evaluate comparisons of concrete states. *)
Ltac eval_states :=
  repeat match goal with
  | |- context [state_is ?a ?b] =>
      let r := eval vm_compute in (state_is a b) in
      match r with true => idtac | false => idtac end; change (state_is a b) with r
  | |- context [live ?a] =>
      let r := eval vm_compute in (live a) in
      match r with true => idtac | false => idtac end; change (live a) with r
  end; cbn iota.

(** ** Accounts against leases *)

Section invariant.
Context `{SL : SDKLaws} `{SK : SKUKeeper} {KL : SKUKeeperLaws SK} `{GL : GoStdLaws}.
Implicit Types (w : World) (l : Lease) (ca : CreditAccount) (a : Addr) (d : string) (L : gmap string Lease).

Definition owned_by a l : bool := tenant_is a l.
Definition count_of (s : LeaseState) a l : Z := if tenant_is a l && state_is (State l) s then 1 else 0.
Definition resv_of a d l : Z := if tenant_is a l && live (State l) then reserved_for l d else 0.

(** More than this no tenant can hold; it also keeps the uint64 counters from wrapping. *)
Definition max_live : Z := MaxLeasesPerTenantUpperBound + MaxPendingLeasesPerTenantUpperBound.

Record acct_ok L a ca : Prop := mkAcctOk {
  ok_tenant : AccAddressFromBech32 (ca_Tenant ca) = Some a;
  ok_active : ActiveLeaseCount ca = map_sum (count_of LEASE_STATE_ACTIVE a) L;
  ok_pending : PendingLeaseCount ca = map_sum (count_of LEASE_STATE_PENDING a) L;
  ok_valid : valid_coins (ReservedAmounts ca);
  ok_reserved : ∀ d, amt (ReservedAmounts ca) d = map_sum (resv_of a d) L;
  ok_bound : ActiveLeaseCount ca + PendingLeaseCount ca ≤ max_live;
  ok_address : ca_CreditAddress ca = AccAddress_String (DeriveCreditAddress a) }.

Lemma count_nonneg s a l : 0 ≤ count_of s a l ≤ 1.
Proof. unfold count_of. destruct (_ && _); lia. Qed.

(** A lease whose writing leaves account [a] as it is. *)
Lemma acct_ok_same L a ca p l' :
  L !! Uuid l' = Some p →
  (∀ s, count_of s a l' = count_of s a p) → (∀ d, resv_of a d l' = resv_of a d p) →
  acct_ok L a ca → acct_ok (<[Uuid l' := l']> L) a ca.
Proof.
  intros Hp Hc Hr []. split; try done; intros; rewrite map_sum_insert, Hp; cbn;
    rewrite ?Hc, ?Hr; rewrite ?ok_active0, ?ok_pending0, ?ok_reserved0; lia.
Qed.

Lemma rate_evolves p l' d : evolves p l' → rate (Items l') d = rate (Items p) d.
Proof.
  intros He. unfold rate. pose proof (ev_items _ _ He) as Hi. clear He. revert Hi. generalize (Items l') (Items p).
  induction l as [|i l IH]; intros [|j l0]; cbn; try done. intros [=]. rewrite (IH l0) by done.
  unfold item_rate. by repeat match goal with H : _ = _ |- _ => rewrite H end.
Qed.

Lemma reserved_for_evolves p l' d : evolves p l' → reserved_for l' d = reserved_for p d.
Proof. intros He. unfold reserved_for. by rewrite (ev_duration _ _ He), (rate_evolves _ _ d He). Qed.

Lemma tenant_is_evolves p l' a : evolves p l' → tenant_is a l' = tenant_is a p.
Proof. intros He. unfold tenant_is. by rewrite (ev_tenant _ _ He). Qed.

(** An update that keeps the state leaves every account as it is. *)
Lemma acct_ok_same_state L a ca p l' :
  L !! Uuid l' = Some p → evolves p l' → State l' = State p →
  acct_ok L a ca → acct_ok (<[Uuid l' := l']> L) a ca.
Proof.
  intros Hp He Hs. apply (acct_ok_same _ _ _ p); [done|..]; intros; unfold count_of, resv_of;
    rewrite (tenant_is_evolves p l' a He), Hs; [done|]. by rewrite (reserved_for_evolves p l' _ He).
Qed.

(** Any update leaves the accounts of other tenants as they are. *)
Lemma acct_ok_other L a ca p l' :
  L !! Uuid l' = Some p → evolves p l' → AccAddressFromBech32 (Tenant p) ≠ Some a →
  acct_ok L a ca → acct_ok (<[Uuid l' := l']> L) a ca.
Proof.
  intros Hp He Hne. assert (Ht : tenant_is a p = false) by by apply bool_decide_false.
  apply (acct_ok_same _ _ _ p); [done|..]; intros; unfold count_of, resv_of;
    by rewrite (tenant_is_evolves p l' a He), Ht.
Qed.

(** The three account transitions, as changes of the sums. *)
Lemma acct_sums L a ca p l' :
  L !! Uuid l' = Some p → evolves p l' → AccAddressFromBech32 (Tenant p) = Some a →
  (∀ s, map_sum (count_of s a) (<[Uuid l' := l']> L) =
        map_sum (count_of s a) L - (if state_is (State p) s then 1 else 0) + (if state_is (State l') s then 1 else 0)) ∧
  (∀ d, map_sum (resv_of a d) (<[Uuid l' := l']> L) =
        map_sum (resv_of a d) L - (if live (State p) then reserved_for p d else 0)
                                + (if live (State l') then reserved_for p d else 0)).
Proof.
  intros Hp He Ha. assert (Ht : tenant_is a p = true) by by apply bool_decide_true.
  split; intros; rewrite map_sum_insert, Hp; cbn; unfold count_of, resv_of;
    rewrite (tenant_is_evolves p l' a He), Ht, ?(reserved_for_evolves p l' _ He); done.
Qed.

Lemma sum_ge L a p s :
  L !! Uuid p = Some p → AccAddressFromBech32 (Tenant p) = Some a → State p = s →
  1 ≤ map_sum (count_of s a) L.
Proof.
  intros Hp Ha Hs. etrans; [|apply (map_sum_lookup_le (count_of s a) L (Uuid p) p); [intros; apply count_nonneg|done]].
  unfold count_of. rewrite (proj2 (bool_decide_eq_true (AccAddressFromBech32 (Tenant p) = Some a)) Ha : tenant_is a p = true).
  rewrite Hs. unfold state_is. by rewrite bool_decide_true.
Qed.

(** ** Well-formed leases *)

Definition canonical (t : string) : Prop := ∃ a, AccAddressFromBech32 t = Some a ∧ AccAddress_String a = t.

(** What the fields of a lease look like: identifiers, service names, domains, sizes. Items are
    either all named, by distinct DNS labels, or none is and their SKUs are distinct. *)
Record lease_shape l : Prop := mkLeaseShape {
  sh_uuid : IsValidUUID (Uuid l) = true;
  sh_provider : IsValidUUID (ProviderUuid l) = true;
  sh_nonempty : Items l ≠ [];
  sh_skus : Forall (λ i, IsValidUUID (item_SkuUuid i) = true) (Items l);
  sh_mode : Forall (λ i, IsValidDNSLabel (item_ServiceName i) = true) (Items l) ∧ NoDup (item_ServiceName <$> Items l) ∨
            Forall (λ i, item_ServiceName i = ""%string) (Items l) ∧ NoDup (item_SkuUuid <$> Items l);
  sh_domains : ∀ i, i ∈ Items l → CustomDomain i ≠ ""%string →
    IsValidFQDN (CustomDomain i) = Ok tt ∧ service_matches (item_ServiceName i) (Items l) = 1;
  sh_meta : len (MetaHash l) ≤ MaxMetaHashLength;
  sh_state : State l ≠ LEASE_STATE_UNSPECIFIED }.

Record lease_wf (now : Z) (u : string) l : Prop := mkLeaseWf {
  wf_uuid : Uuid l = u;
  wf_tenant : canonical (Tenant l);
  wf_items : Forall item_ok (Items l);
  wf_duration : 0 < MinLeaseDurationAtCreation l;
  wf_time : CreatedAt l ≤ now ∧ zero_time < LastSettledAt l ≤ now;
  wf_closed : State l = LEASE_STATE_CLOSED → ClosedAt l = Some (LastSettledAt l);
  wf_open : State l ≠ LEASE_STATE_CLOSED → ClosedAt l = None;
  wf_shape : lease_shape l }.

(** The shape depends only on what the settling and closing of a lease leave alone. *)
Lemma lease_shape_same l l' :
  Uuid l' = Uuid l → ProviderUuid l' = ProviderUuid l → Items l' = Items l → MetaHash l' = MetaHash l →
  State l' ≠ LEASE_STATE_UNSPECIFIED → lease_shape l → lease_shape l'.
Proof. intros Hu Hp Hi Hm Hs []. split; rewrite ?Hu, ?Hp, ?Hi, ?Hm; done. Qed.

Lemma wf_provider now u l : lease_wf now u l → ProviderUuid l ≠ ""%string.
Proof. intros Hw. apply uuid_nonempty. apply Hw. Qed.

Lemma reserved_for_nonneg now u l d : lease_wf now u l → 0 ≤ reserved_for l d.
Proof. intros []. unfold reserved_for. pose proof (rate_nonneg (Items l) d wf_items0). nia. Qed.

Lemma resv_of_nonneg now u l a d : lease_wf now u l → 0 ≤ resv_of a d l.
Proof. intros Hw. unfold resv_of. pose proof (reserved_for_nonneg now u l d Hw). destruct (_ && _); lia. Qed.

(** A live lease of [a] reserves at most what the account holds reserved. *)
Lemma reserved_for_le now L a p d :
  map_Forall (lease_wf now) L → L !! Uuid p = Some p → AccAddressFromBech32 (Tenant p) = Some a →
  live (State p) = true → reserved_for p d ≤ map_sum (resv_of a d) L.
Proof.
  intros HL Hp Ha Hlive.
  etrans; [|apply (map_sum_lookup_le (resv_of a d) L (Uuid p) p); [|done]].
  - unfold resv_of. rewrite Hlive.
    rewrite (proj2 (bool_decide_eq_true (AccAddressFromBech32 (Tenant p) = Some a)) Ha : tenant_is a p = true). done.
  - intros k v Hk. eapply resv_of_nonneg. by apply HL.
Qed.

Lemma item_core_ok (items items' : list LeaseItem) :
  item_core <$> items' = item_core <$> items → Forall item_ok items → Forall item_ok items'.
Proof.
  intros Hc Hi. apply Forall_forall. intros i Hin.
  assert (Hin' : item_core i ∈ item_core <$> items) by (rewrite <- Hc; by apply list_elem_of_fmap_2).
  apply list_elem_of_fmap in Hin' as (j & Hj & Hjin). rewrite Forall_forall in Hi.
  specialize (Hi j Hjin). unfold item_ok in *. injection Hj as _ Hq Hp _. by rewrite Hq, Hp.
Qed.

(** ** Releasing a reservation *)

Lemma CheckReservationRelease_total (a b : list Coin) :
  valid_coins a → valid_coins b → ∃ r, CheckReservationRelease a b = Ok r.
Proof.
  intros Ha Hb. unfold CheckReservationRelease.
  match goal with |- ∃ r, foldlM ?f _ _ = _ => cut (∀ acc, ∃ r, foldlM f acc b = Ok r); [by intros Hacc; apply Hacc|] end.
  induction b as [|c b IH]; intros acc; cbn [foldlM]; [by eexists|].
  apply valid_coins_cons in Hb as ([? ?] & Hb & _). rewrite Coins_AmountOf_spec by done. cbn.
  destruct (_ <? _) eqn:E; [|by apply IH]. pose proof (amt_range a (Denom c) Ha).
  rewrite int_Sub_total by lia. cbn. by apply IH.
Qed.

Lemma ReleaseLeaseReservation_ok ca l m ca' :
  Forall item_ok (Items l) → 0 < MinLeaseDurationAtCreation l → valid_coins (ReservedAmounts ca) →
  ReleaseLeaseReservation ca l m = Ok ca' →
  ∃ r, ca' = set_ReservedAmounts r ca ∧ valid_coins r ∧
       ∀ d, amt r d = Z.max 0 (amt (ReservedAmounts ca) d - reserved_for l d).
Proof.
  intros Hi Hd Hv E. unfold ReleaseLeaseReservation in E. run_inv.
  match goal with H : GetLeaseReservationAmount _ _ = Ok _ |- _ =>
    apply GetLeaseReservationAmount_ok in H as [Hvr Har]; [|done..] end.
  match goal with H : SubtractReservation _ _ = Ok _ |- _ =>
    apply SubtractReservation_ok in H as [Hvs Has]; [|done..] end.
  eexists. split_and!; [done|done|]. intros d. by rewrite Has, Har.
Qed.

Lemma ReleaseLeaseReservation_total ca l m :
  Forall item_ok (Items l) → 0 < MinLeaseDurationAtCreation l → valid_coins (ReservedAmounts ca) →
  (∀ d, reserved_for l d ≤ max_int) → ∃ ca', ReleaseLeaseReservation ca l m = Ok ca'.
Proof.
  intros Hi Hd Hv Hm. unfold ReleaseLeaseReservation, GetLeaseReservationAmount, reservation_duration.
  destruct (_ =? 0) eqn:E0; [lia|].
  destruct (CalculateLeaseReservation_total (Items l) (MinLeaseDurationAtCreation l)) as [r Hr]; [done|lia| |].
  { intros d. rewrite Z.max_r by lia. apply Hm. }
  rewrite Hr. cbn. apply CalculateLeaseReservation_ok in Hr as [Hvr _]; [|done|lia].
  destruct (CheckReservationRelease_total (ReservedAmounts ca) r Hv Hvr) as [u ->]. cbn.
  destruct (SubtractReservation_spec (ReservedAmounts ca) r Hv Hvr) as (q & -> & _). cbn. eauto.
Qed.

(** ** Account transitions *)

Lemma state_is_true s t : state_is s t = true ↔ s = t.
Proof. unfold state_is. apply bool_decide_eq_true. Qed.

(** Acknowledging: PENDING to ACTIVE. *)
Lemma acct_ok_acknowledge L a ca p l' :
  L !! Uuid p = Some p → Uuid l' = Uuid p → evolves p l' → AccAddressFromBech32 (Tenant p) = Some a →
  State p = LEASE_STATE_PENDING → State l' = LEASE_STATE_ACTIVE → acct_ok L a ca →
  let c := DecrementPendingLeaseCount ca in
  acct_ok (<[Uuid l' := l']> L) a (set_ActiveLeaseCount (wrap_u64 (ActiveLeaseCount c + 1)) c).
Proof.
  intros Hp Hu He Ha Hs Hs' [Ht Hac Hpe Hv Hr Hb]. rewrite Hu.
  pose proof (sum_ge L a p LEASE_STATE_PENDING Hp Ha Hs) as Hge.
  destruct (acct_sums L a ca p l') as [Hc Hrs]; [by rewrite Hu|done|done|]. rewrite Hu, Hs, Hs' in Hc, Hrs.
  assert (0 ≤ ActiveLeaseCount ca) by (rewrite Hac; apply map_sum_nonneg; intros; apply count_nonneg).
  unfold DecrementPendingLeaseCount. cbn. destruct (0 <? _) eqn:E; [|lia].
  split; cbn; try done.
  - rewrite Hc. eval_states. rewrite wrap_u64_id; [lia|]. unfold max_live, max_u64, MaxLeasesPerTenantUpperBound, MaxPendingLeasesPerTenantUpperBound in *. lia.
  - rewrite Hc. eval_states. lia.
  - intros d. etrans; [apply Hr|]. rewrite Hrs. eval_states. lia.
  - rewrite wrap_u64_id; [lia|]. unfold max_live, max_u64, MaxLeasesPerTenantUpperBound, MaxPendingLeasesPerTenantUpperBound in *. lia.
Qed.

(** Ending a lease: its counter goes down and its reservation is released. *)
Lemma acct_ok_end now L a ca p l' m ca' :
  map_Forall (lease_wf now) L → L !! Uuid p = Some p → evolves p l' →
  AccAddressFromBech32 (Tenant p) = Some a → live (State p) = true → live (State l') = false → acct_ok L a ca →
  ReleaseLeaseReservation
    (if decide (State p = LEASE_STATE_ACTIVE) then DecrementActiveLeaseCount ca else DecrementPendingLeaseCount ca)
    l' m = Ok ca' →
  acct_ok (<[Uuid l' := l']> L) a ca' ∧ ca_Tenant ca' = ca_Tenant ca.
Proof.
  intros HL Hp He Ha Hlive Hdead Hok Hrel. pose proof Hok as [Ht Hac Hpe Hv Hr Hb].
  pose proof (HL _ _ Hp) as Hwf. pose proof (ev_uuid _ _ He) as Hu.
  destruct (acct_sums L a ca p l') as [Hc Hrs]; [by rewrite Hu|done|done|].
  set (c := if decide _ then _ else _) in Hrel.
  assert (Hcv : ReservedAmounts c = ReservedAmounts ca ∧ ca_Tenant c = ca_Tenant ca).
  { subst c. unfold DecrementActiveLeaseCount, DecrementPendingLeaseCount. case_decide; destruct (0 <? _); done. }
  apply ReleaseLeaseReservation_ok in Hrel as (r & -> & Hvr & Har);
    [|eapply item_core_ok; [apply He|apply Hwf]|rewrite (ev_duration _ _ He); apply Hwf|by rewrite (proj1 Hcv)].
  assert (HA : 0 ≤ ActiveLeaseCount ca) by (rewrite Hac; apply map_sum_nonneg; intros; apply count_nonneg).
  assert (HP : 0 ≤ PendingLeaseCount ca) by (rewrite Hpe; apply map_sum_nonneg; intros; apply count_nonneg).
  assert (Hres : ∀ d, amt r d = map_sum (resv_of a d) (<[Uuid l' := l']> L)).
  { intros d. rewrite Hrs, Har, (proj1 Hcv), Hr, Hlive, Hdead, (reserved_for_evolves p l' d He).
    pose proof (reserved_for_le now L a p d HL Hp Ha Hlive). lia. }
  assert (Hs' : state_is (State l') LEASE_STATE_ACTIVE = false ∧ state_is (State l') LEASE_STATE_PENDING = false).
  { unfold live in Hdead. apply orb_false_iff in Hdead. tauto. }
  destruct Hs' as [Hs1 Hs2]. split; [|apply Hcv]. subst c.
  unfold live in Hlive. apply orb_true_iff in Hlive as [Hs%state_is_true|Hs%state_is_true].
  - pose proof (sum_ge L a p LEASE_STATE_PENDING Hp Ha Hs). rewrite decide_False by (rewrite Hs; done).
    unfold DecrementPendingLeaseCount. destruct (0 <? _) eqn:E; [|lia].
    split; cbn; try done; rewrite ?Hc, ?Hs, ?Hs1, ?Hs2; eval_states; lia.
  - pose proof (sum_ge L a p LEASE_STATE_ACTIVE Hp Ha Hs). rewrite decide_True by done.
    unfold DecrementActiveLeaseCount. destruct (0 <? _) eqn:E; [|lia].
    split; cbn; try done; rewrite ?Hc, ?Hs, ?Hs1, ?Hs2; eval_states; lia.
Qed.

(** ** The invariant *)

Implicit Types (accs : gmap string CreditAccount) (now : Z).

(** The numeric parameters are uint64. *)
Definition params_u64 (p : Params) : Prop :=
  Forall (λ x, 0 ≤ x ≤ max_u64)
    [MaxLeasesPerTenant p; MaxItemsPerLease p; MinLeaseDuration p; MaxPendingLeasesPerTenant p; PendingTimeout p].

Lemma Params_Validate_bounds p :
  Params_Validate p = Ok tt → params_u64 p →
  0 < MinLeaseDuration p ≤ MaxMinLeaseDuration ∧ 0 < MaxLeasesPerTenant p ≤ MaxLeasesPerTenantUpperBound ∧
  0 < MaxPendingLeasesPerTenant p ≤ MaxPendingLeasesPerTenantUpperBound ∧
  MinPendingTimeout ≤ PendingTimeout p ≤ MaxPendingTimeout.
Proof.
  unfold Params_Validate. intros E Hu. checks_inv. repeat apply Forall_cons in Hu as [? Hu].
  repeat match goal with H : (_ =? _) = false |- _ => apply Z.eqb_neq in H
         | H : (_ <? _) = false |- _ => apply Z.ltb_ge in H end. lia.
Qed.

(** The provider of a lease and the SKUs of its items exist, and the SKUs are that provider's. *)
Definition lease_refs (s : SkuState) l : Prop :=
  (∃ p, GetProvider s (ProviderUuid l) = Ok p) ∧
  ∀ i, i ∈ Items l → ∃ k, GetSKU s (item_SkuUuid i) = Ok k ∧ sku_ProviderUuid k = ProviderUuid l.

(** The account of [a] as the pending changes [accs] will leave it. *)
Definition view accs a ca : CreditAccount := default ca (accs !! AccAddress_String a).

Record Inv accs now w : Prop := mkInv {
  I_leases : map_Forall (lease_wf now) (Leases w);
  I_accts : ∀ a ca, CreditAccounts w !! a = Some ca →
              AccAddressFromBech32 (ca_Tenant ca) = Some a ∧ acct_ok (Leases w) a (view accs a ca);
  I_live : ∀ u l, Leases w !! u = Some l → live (State l) = true →
             ∃ a, AccAddressFromBech32 (Tenant l) = Some a ∧ is_Some (CreditAccounts w !! a);
  I_accs : ∀ t ca, accs !! t = Some ca →
             ∃ a, AccAddressFromBech32 t = Some a ∧ AccAddress_String a = t ∧ is_Some (CreditAccounts w !! a);
  I_dom : DomInv w;
  I_skuidx : SkuIdxInv w;
  I_cidx : (∀ c a, CreditAddressIndex w !! c = Some a → c = DeriveCreditAddress a ∧ is_Some (CreditAccounts w !! a)) ∧
           (∀ a, is_Some (CreditAccounts w !! a) → is_Some (CreditAddressIndex w !! DeriveCreditAddress a));
  I_params : ∃ p, k_Params w = Some p ∧ Params_Validate p = Ok tt ∧ params_u64 p;
  I_sku : sku_inv (sku w);
  I_refs : ∀ u l, Leases w !! u = Some l → lease_refs (sku w) l;
  I_now : zero_time < now;
  I_seq : Z.of_nat (size (Leases w)) ≤ LeaseSequence w ≤ max_u64 }.

Definition BillingInv now w : Prop := Inv ∅ now w.

Lemma BillingInv_acct now w a ca :
  BillingInv now w → CreditAccounts w !! a = Some ca → acct_ok (Leases w) a ca.
Proof. intros HI Hca. destruct (I_accts _ _ _ HI a ca Hca) as [_ Hok]. unfold view in Hok. by rewrite lookup_empty in Hok. Qed.

Lemma item_skus_evolves p l' : evolves p l' → item_SkuUuid <$> Items l' = item_SkuUuid <$> Items p.
Proof.
  intros He. pose proof (ev_items _ _ He) as Hit.
  apply (f_equal (fmap (λ c : string * Z * Coin * string, c.1.1.1))) in Hit. by rewrite <- !list_fmap_compose in Hit.
Qed.

Lemma lease_refs_evolves s p l' : evolves p l' → lease_refs s p → lease_refs s l'.
Proof.
  intros He [Hp Hi]. split; rewrite (ev_provider _ _ He); [done|]. intros i Hin.
  assert (Hk : item_SkuUuid i ∈ (item_SkuUuid <$> Items p)).
  { rewrite <- (item_skus_evolves p l' He). by apply list_elem_of_fmap_2. }
  apply list_elem_of_fmap in Hk as (j & -> & Hj). by apply Hi.
Qed.

(** Bank balances and events are free to change. *)
Lemma Inv_frame accs now w w' :
  Leases w' = Leases w → CreditAccounts w' = CreditAccounts w → CreditAddressIndex w' = CreditAddressIndex w →
  LeaseBySKUIndex w' = LeaseBySKUIndex w → CustomDomainIndex w' = CustomDomainIndex w →
  k_Params w' = k_Params w → sku w' = sku w → LeaseSequence w' = LeaseSequence w →
  Inv accs now w → Inv accs now w'.
Proof.
  intros HL HC HI HK HD HP HS HQ []. split; unfold DomInv, SkuIdxInv, claims in *;
    rewrite ?HL, ?HC, ?HI, ?HK, ?HD, ?HP, ?HS, ?HQ; done.
Qed.

(** Drawing a number from the sequence. *)
Lemma Inv_next accs now w :
  LeaseSequence w < max_u64 → Inv accs now w →
  let w' := set_LeaseSequence (wrap_u64 (LeaseSequence w + 1)) w in
  Inv accs now w' ∧ Z.of_nat (size (Leases w')) < LeaseSequence w'.
Proof.
  intros Hq HI. destruct (I_seq _ _ _ HI). cbn. rewrite wrap_u64_id by lia. split; [|lia].
  split; try apply HI. cbn. lia.
Qed.

Lemma canonical_unique accs now w a a' t :
  Inv accs now w → AccAddressFromBech32 t = Some a → AccAddress_String a = t →
  is_Some (CreditAccounts w !! a') → AccAddress_String a' = t → a' = a.
Proof.
  intros HI Ha Hs [ca Hca] Ha'. destruct (I_accts _ _ _ HI a' ca Hca) as [Ht _].
  apply AccAddress_String_parse in Ht. rewrite Ha' in Ht. congruence.
Qed.

Lemma GetCreditAccount_ok t w ca w' :
  GetCreditAccount t w = (Ok ca, w') → w' = w ∧ ∃ a, AccAddressFromBech32 t = Some a ∧ CreditAccounts w !! a = Some ca.
Proof.
  unfold GetCreditAccount. intros E. destruct (AccAddressFromBech32 t) as [a|]; [|done]. run_inv.
  match goal with H : (match ?o with _ => _ end) _ = _ |- _ => destruct o eqn:Eo; [|done] end. run_inv. eauto.
Qed.

(** Fetching an account into the set of pending changes changes nothing. *)
Lemma Inv_fetch accs now w t a ca :
  Inv accs now w → canonical t → accs !! t = None → AccAddressFromBech32 t = Some a →
  CreditAccounts w !! a = Some ca → Inv (<[t := ca]> accs) now w.
Proof.
  intros HI (a0 & Ha0 & Hs) Hn Ha Hca. assert (a0 = a) as -> by congruence.
  split; try apply HI.
  - intros a' ca' Hca'. destruct (I_accts _ _ _ HI a' ca' Hca') as [Ht Hok]. split; [done|].
    unfold view in *. destruct (decide (AccAddress_String a' = t)) as [Heq|Hne].
    + assert (a' = a) as -> by (eapply canonical_unique; eauto). rewrite Hs, lookup_insert_eq. cbn.
      rewrite Hs, Hn in Hok. cbn in Hok. congruence.
    + by rewrite lookup_insert_ne.
  - intros t' ca' [[<- <-]|[_ Ht']]%lookup_insert_Some; [|by apply (I_accs _ _ _ HI t' ca')].
    exists a. eauto.
Qed.

(** Writing back a pending change. *)
Lemma Inv_SetCreditAccount accs now w t ca u w' :
  Inv accs now w → accs !! t = Some ca → SetCreditAccount ca w = (Ok u, w') →
  Inv (delete t accs) now w' ∧ Leases w' = Leases w ∧
  (∀ a, AccAddressFromBech32 t = Some a → CreditAccounts w' = <[a := ca]> (CreditAccounts w)).
Proof.
  intros HI Ht E. destruct (I_accs _ _ _ HI t ca Ht) as (a & Ha & Hs & ca0 & Hca0).
  destruct (I_accts _ _ _ HI a ca0 Hca0) as [_ Hok]. unfold view in Hok. rewrite Hs, Ht in Hok. cbn in Hok.
  unfold SetCreditAccount in E. rewrite (ok_tenant _ _ _ Hok) in E. run_inv.
  split; [|split; [done|intros a' Ha'; assert (a' = a) as -> by congruence; done]].
  assert (Hdom : ∀ x, is_Some (<[a := ca]> (CreditAccounts w) !! x) ↔ is_Some (CreditAccounts w !! x)).
  { intros x. destruct (decide (x = a)) as [->|]; [rewrite lookup_insert_eq; split; eauto|by rewrite lookup_insert_ne]. }
  split; try apply HI; cbn.
  - intros a' ca' [[<- <-]|[Hne Hca']]%lookup_insert_Some.
    + split; [apply Hok|]. unfold view. rewrite lookup_delete_eq. done.
    + destruct (I_accts _ _ _ HI a' ca' Hca') as [? Hok']. split; [done|]. unfold view in *.
      rewrite lookup_delete_ne; [done|]. intros Heq. apply Hne. symmetry.
      eapply canonical_unique; eauto.
  - intros v l Hl Hlv. destruct (I_live _ _ _ HI v l Hl Hlv) as (x & ? & ?). exists x. by rewrite Hdom.
  - intros t' ca' [_ Ht']%lookup_delete_Some. destruct (I_accs _ _ _ HI t' ca' Ht') as (x & ? & ? & ?).
    exists x. by rewrite Hdom.
  - destruct (I_cidx _ _ _ HI) as [H1 H2]. split.
    + intros c x [[<- <-]|[_ Hc]]%lookup_insert_Some; [split; [done|]; rewrite lookup_insert_eq; eauto|].
      destruct (H1 c x Hc). by rewrite Hdom.
    + intros x Hx%Hdom%H2. destruct (decide (DeriveCreditAddress a = DeriveCreditAddress x)) as [->|];
        [rewrite lookup_insert_eq; eauto|by rewrite lookup_insert_ne].
Qed.

(** Writing a changed lease whose effect on the tenant's account is pending. *)
Lemma Inv_SetLease accs now w p l' a ca ca' u w' :
  Inv accs now w → Leases w !! Uuid p = Some p → evolves p l' → lease_wf now (Uuid p) l' →
  domains_wf (Items l') → AccAddressFromBech32 (Tenant p) = Some a → accs !! Tenant p = Some ca →
  (acct_ok (Leases w) a ca → acct_ok (<[Uuid l' := l']> (Leases w)) a ca') →
  SetLease l' w = (Ok u, w') →
  Inv (<[Tenant p := ca']> accs) now w' ∧ Leases_evolve (Leases w) (Leases w').
Proof.
  intros HI Hp He Hwf Hdw Ha Hca Hacct E. pose proof E as (_ & HL & (HP & HQ & HC & HX & HS & _ & _))%SetLease_ok.
  pose proof (ev_uuid _ _ He) as Hu. destruct (I_accs _ _ _ HI _ _ Hca) as (a0 & Ha0 & Hstr & Hsome).
  assert (a0 = a) as -> by congruence.
  split; [|rewrite HL; apply (Leases_evolve_insert _ p); [by rewrite Hu|done]].
  split; rewrite ?HL, ?HC, ?HX, ?HP, ?HS, ?HQ; try apply HI.
  - rewrite Hu. apply map_Forall_insert_2; [done|apply HI].
  - intros x cx Hx. destruct (I_accts _ _ _ HI x cx Hx) as [? Hok]. split; [done|].
    unfold view in *. destruct (decide (AccAddress_String x = Tenant p)) as [Heq|Hne].
    + assert (x = a) as -> by (eapply canonical_unique; eauto). rewrite Heq, lookup_insert_eq. cbn.
      apply Hacct. rewrite Heq, Hca in Hok. done.
    + rewrite lookup_insert_ne by done. apply (acct_ok_other _ _ _ p); [by rewrite Hu|done| |done]. congruence.
  - intros v l [[<- <-]|[_ Hl]]%lookup_insert_Some Hlv; [|by apply (I_live _ _ _ HI v l)].
    exists a. rewrite (ev_tenant _ _ He). done.
  - intros t' c' [[<- <-]|[_ Ht']]%lookup_insert_Some; [eauto|by apply (I_accs _ _ _ HI t' c')].
  - eapply SetLease_DomInv; [apply HI|done|done].
  - eapply SetLease_SkuIdxInv; [apply HI| |done]. rewrite Hu, Hp. intros q [= <-] k.
    by rewrite (item_skus_evolves p l' He).
  - intros v l [[<- <-]|[_ Hl]]%lookup_insert_Some; [|by apply (I_refs _ _ _ HI v)].
    apply (lease_refs_evolves _ p); [done|]. by apply (I_refs _ _ _ HI (Uuid p)).
  - rewrite map_size_insert_Some by (rewrite Hu; eauto). apply HI.
Qed.

(** Writing a lease whose state did not change needs no account change. *)
Lemma Inv_SetLease_same accs now w p l' u w' :
  Inv accs now w → Leases w !! Uuid p = Some p → evolves p l' → lease_wf now (Uuid p) l' →
  domains_wf (Items l') → State l' = State p → SetLease l' w = (Ok u, w') →
  Inv accs now w' ∧ Leases_evolve (Leases w) (Leases w').
Proof.
  intros HI Hp He Hwf Hdw Hs E. pose proof E as (_ & HL & (HP & HQ & HC & HX & HS & _ & _))%SetLease_ok.
  pose proof (ev_uuid _ _ He) as Hu.
  split; [|rewrite HL; apply (Leases_evolve_insert _ p); [by rewrite Hu|done]].
  split; rewrite ?HL, ?HC, ?HX, ?HP, ?HS, ?HQ; try apply HI.
  - rewrite Hu. apply map_Forall_insert_2; [done|apply HI].
  - intros x cx Hx. destruct (I_accts _ _ _ HI x cx Hx) as [? Hok]. split; [done|].
    apply (acct_ok_same_state _ _ _ p); [by rewrite Hu|done|done|done].
  - intros v l [[<- <-]|[_ Hl]]%lookup_insert_Some Hlv; [|by apply (I_live _ _ _ HI v l)].
    rewrite Hs in Hlv. rewrite (ev_tenant _ _ He). by apply (I_live _ _ _ HI (Uuid p) p).
  - eapply SetLease_DomInv; [apply HI|done|done].
  - eapply SetLease_SkuIdxInv; [apply HI| |done]. rewrite Hu, Hp. intros q [= <-] k.
    by rewrite (item_skus_evolves p l' He).
  - intros v l [[<- <-]|[_ Hl]]%lookup_insert_Some; [|by apply (I_refs _ _ _ HI v)].
    apply (lease_refs_evolves _ p); [done|]. by apply (I_refs _ _ _ HI (Uuid p)).
  - rewrite map_size_insert_Some by (rewrite Hu; eauto). apply HI.
Qed.

(** The loop that writes all pending changes back. *)
Lemma Inv_persist accounts order accs now w u w' :
  Inv accs now w → NoDup order → (∀ t, t ∈ order ↔ is_Some (accs !! t)) →
  (∀ t ca, accs !! t = Some ca → accounts !! t = Some ca) →
  persist_accounts accounts order w = (Ok u, w') → Inv ∅ now w' ∧ Leases w' = Leases w.
Proof.
  intros HI Hn. revert accs w HI. induction Hn as [|t order Ht Hn IH]; intros accs w HI Hdom Hsub E; cbn in E; run_inv.
  - split; [|done]. assert (accs = ∅) as <-; [|done]. apply map_empty. intros t.
    apply eq_None_not_Some. rewrite <- Hdom. set_solver.
  - destruct_units. destruct (proj1 (Hdom t) ltac:(set_solver)) as [ca Hca].
    match goal with H : SetCreditAccount _ _ = (Ok _, ?w1) |- _ =>
      unfold account_of in H; rewrite (Hsub t ca Hca) in H; apply (Inv_SetCreditAccount accs now w t ca) in H as (HI' & HL & _); [|done..] end.
    rewrite <- HL. apply (IH (delete t accs)) in E; [done|exact HI'| |].
    + intros x. destruct (decide (x = t)) as [->|].
      * rewrite lookup_delete_eq. split; [done|by intros []].
      * rewrite lookup_delete_ne by done. rewrite <- Hdom. set_solver.
    + intros x cx [_ Hx]%lookup_delete_Some. by apply Hsub.
Qed.

(** A lease that was not there adds its own counts. *)
Lemma acct_sums_new L a l' :
  L !! Uuid l' = None →
  (∀ s, map_sum (count_of s a) (<[Uuid l' := l']> L) = map_sum (count_of s a) L + count_of s a l') ∧
  (∀ d, map_sum (resv_of a d) (<[Uuid l' := l']> L) = map_sum (resv_of a d) L + resv_of a d l').
Proof. intros Hn. split; intros; rewrite map_sum_insert_None by done; lia. Qed.

Lemma Inv_SetLease_new accs now w l' a ca ca' u w' :
  Inv accs now w → Leases w !! Uuid l' = None → lease_wf now (Uuid l') l' → domains_wf (Items l') →
  lease_refs (sku w) l' → Z.of_nat (size (Leases w)) < LeaseSequence w →
  AccAddressFromBech32 (Tenant l') = Some a → accs !! Tenant l' = Some ca →
  (acct_ok (Leases w) a ca → acct_ok (<[Uuid l' := l']> (Leases w)) a ca') →
  SetLease l' w = (Ok u, w') →
  Inv (<[Tenant l' := ca']> accs) now w' ∧ Leases_evolve (Leases w) (Leases w').
Proof.
  intros HI Hn Hwf Hdw Hrefs Hseq Ha Hca Hacct E. pose proof E as (_ & HL & (HP & HQ & HC & HX & HS & _ & _))%SetLease_ok.
  destruct (I_accs _ _ _ HI _ _ Hca) as (a0 & Ha0 & Hstr & Hsome). assert (a0 = a) as -> by congruence.
  split; [|rewrite HL; by apply Leases_evolve_fresh].
  split; rewrite ?HL, ?HC, ?HX, ?HP, ?HS, ?HQ; try apply HI.
  - apply map_Forall_insert_2; [done|apply HI].
  - intros x cx Hx. destruct (I_accts _ _ _ HI x cx Hx) as [? Hok]. split; [done|].
    unfold view in *. destruct (decide (AccAddress_String x = Tenant l')) as [Heq|Hne].
    + assert (x = a) as -> by (eapply canonical_unique; eauto). rewrite Heq, lookup_insert_eq. cbn.
      apply Hacct. rewrite Heq, Hca in Hok. done.
    + rewrite lookup_insert_ne by done. destruct (acct_sums_new (Leases w) x l' Hn) as [Hc Hr].
      assert (Ht : tenant_is x l' = false) by (apply bool_decide_false; congruence).
      destruct Hok. split; try done; intros; rewrite ?Hc, ?Hr; unfold count_of, resv_of; rewrite ?Ht; cbn -[amt];
        rewrite ?Z.add_0_r; done.
  - intros v l [[<- <-]|[_ Hl]]%lookup_insert_Some Hlv; [eauto|by apply (I_live _ _ _ HI v l)].
  - intros t' c' [[<- <-]|[_ Ht']]%lookup_insert_Some; [eauto|by apply (I_accs _ _ _ HI t' c')].
  - eapply SetLease_DomInv; [apply HI|done|done].
  - eapply SetLease_SkuIdxInv; [apply HI| |done]. by rewrite Hn.
  - intros v l [[<- <-]|[_ Hl]]%lookup_insert_Some; [done|by apply (I_refs _ _ _ HI v)].
  - rewrite map_size_insert_None by done. destruct (I_seq _ _ _ HI). lia.
Qed.

(** ** The empty state *)

Definition genesis (p : Params) (s : SkuState) (b : Bank) : World := mkWorld (Some p) ∅ 0 ∅ ∅ ∅ ∅ s b [].

Lemma genesis_inv now p s b :
  Params_Validate p = Ok tt → params_u64 p → sku_inv s → zero_time < now → BillingInv now (genesis p s b).
Proof.
  intros Hv Hu Hs Hnow. split; cbn.
  - apply map_Forall_empty.
  - intros a ca. by rewrite lookup_empty.
  - intros u l. by rewrite lookup_empty.
  - intros t ca. by rewrite lookup_empty.
  - split.
    + intros u l. cbn. by rewrite lookup_empty.
    + intros d t. cbn. rewrite lookup_empty. split; [done|]. intros (l & i & Hl & _). cbn in Hl. by rewrite lookup_empty in Hl.
  - intros k u v. cbn. rewrite lookup_empty. split; [done|]. intros (_ & l & Hl & _). by rewrite lookup_empty in Hl.
  - split; [intros c a; by rewrite lookup_empty|]. intros a [ca Hca]. by rewrite lookup_empty in Hca.
  - eauto.
  - done.
  - intros u l. by rewrite lookup_empty.
  - done.
  - rewrite map_size_empty. done.
Qed.

Lemma BillingInv_later now now' w : now ≤ now' → BillingInv now w → BillingInv now' w.
Proof.
  intros Hle HI. split; try apply HI; [|pose proof (I_now _ _ _ HI); lia].
  intros u l Hl. destruct (I_leases _ _ _ HI u l Hl) as [Hwu Hwt Hwi Hwd Hwtm Hwc Hwo Hwp]. split; try done. lia.
Qed.
End invariant.
