(* ===== verification/LifecycleInv.v ===== *)
(** * The life-cycle handlers keep the billing invariant

    For every handler of Lifecycle.v: from a state that satisfies the invariant, a successful run
    ends in one, and every lease that existed has only evolved. *)

From stdpp Require Import base tactics option list strings gmap sorting fin_maps.
From Stdlib Require Import ZArith Lia.
From S2P Require Import Prelude Sdk SdkRef Uuid GoStd SkuTypes BillingTypes BillingMsgs SkuKeeper Credit Accrual Keeper LeaseStore Settlement Lifecycle Invariant.
Open Scope Z_scope.

Section lifecycle_inv.
Context `{SL : SDKLaws} `{SK : SKUKeeper} {KL : SKUKeeperLaws SK} `{GL : GoStdLaws} (env : Env).
Implicit Types (w : World) (l : Lease) (accs : gmap string CreditAccount) (b : batch).

Notation now := (blockTime env).

(** What a handler that succeeds establishes. *)
Definition kept w w' : Prop := BillingInv now w' ∧ Leases_evolve (Leases w) (Leases w').

Lemma emit_ok e w u w' : emit e w = (Ok u, w') → w' = set_events (events w ++ [e]) w.
Proof. unfold emit. intros. by run_inv. Qed.

Lemma emit_all_ok evs w u w' : emit_all evs w = (Ok u, w') → w' = set_events (events w ++ evs) w.
Proof.
  revert w. induction evs as [|e evs IH]; intros w E; cbn in E; run_inv.
  - rewrite app_nil_r. by destruct w.
  - match goal with H : emit _ _ = _ |- _ => apply emit_ok in H as -> end. destruct_units.
    apply IH in E as ->. cbn. by rewrite <- app_assoc.
Qed.

Lemma Inv_events accs n w x : Inv accs n w → Inv accs n (set_events x w).
Proof. by apply Inv_frame. Qed.

Lemma kept_set_events w w' x : kept w w' → kept w (set_events x w').
Proof. intros [HI He]. split; [by apply Inv_events|done]. Qed.

End lifecycle_inv.

(** The events a handler emits at its end. *)
Ltac events_inv :=
  repeat first
    [ run_inv_step
    | match goal with
      | H : emit_all _ _ = (Ok _, _) |- _ => apply emit_all_ok in H; subst
      | H : emit _ _ = (Ok _, _) |- _ => apply emit_ok in H; subst
      | H : (if ?b then emit _ else mret tt) _ = (Ok _, _) |- _ => destruct b
      end ]; repeat apply kept_set_events.

Section handlers_inv.
Context `{SL : SDKLaws} `{SK : SKUKeeper} {KL : SKUKeeperLaws SK} `{GL : GoStdLaws} (env : Env).
Implicit Types (w : World) (l : Lease) (accs : gmap string CreditAccount) (b : batch).

Notation now := (blockTime env).

Lemma GetLease_ok u w l w' : GetLease u w = (Ok l, w') → w' = w ∧ Leases w !! u = Some l.
Proof.
  unfold GetLease. intros E. run_inv.
  match goal with H : (match ?o with _ => _ end) _ = _ |- _ => destruct o eqn:?; [|done] end. run_inv. done.
Qed.

Lemma GetParams_ok w p w' : GetParams w = (Ok p, w') → w' = w ∧ k_Params w = Some p.
Proof. unfold GetParams. intros E. run_inv. unfold coll_get in *. by run_split. Qed.

Lemma stored_wf accs n w u l : Inv accs n w → Leases w !! u = Some l → lease_wf n u l ∧ Leases w !! Uuid l = Some l.
Proof.
  intros HI Hl. pose proof (I_leases _ _ _ HI u l Hl) as Hw. split; [done|]. by rewrite (wf_uuid _ _ _ Hw).
Qed.

(** ** Batches *)

(** The leases of a batch are stored, distinct, and their accounts are in memory. *)
Record loop_ok accs n w (ls : list Lease) : Prop := mkLoopOk {
  lo_inv : Inv accs n w;
  lo_stored : Forall (λ l, Leases w !! Uuid l = Some l ∧ is_Some (accs !! Tenant l)) ls;
  lo_nodup : NoDup (Uuid <$> ls) }.

Record batch_ok n w b : Prop := mkBatchOk {
  bo_loop : loop_ok (b_accounts b) n w (b_leases b);
  bo_nodup : NoDup (b_order b);
  bo_dom : ∀ t, t ∈ b_order b ↔ is_Some (b_accounts b !! t) }.

Lemma empty_batch_ok n w : BillingInv n w → batch_ok n w empty_batch.
Proof.
  intros HI. split; cbn.
  - split; [done|constructor|constructor].
  - constructor.
  - intros t. rewrite lookup_empty. split; [set_solver|by intros []].
Qed.

Lemma batch_add_ok n w b u l b' w' :
  batch_ok n w b → Leases w !! u = Some l → u ∉ (Uuid <$> b_leases b) → batch_add b l w = (Ok b', w') →
  w' = w ∧ batch_ok n w b' ∧ b_leases b' = b_leases b ++ [l].
Proof.
  intros [[HI Hst Hnd] Hno Hdom] Hl Hu E. destruct (stored_wf _ _ _ _ _ HI Hl) as [Hwf Hl'].
  pose proof (wf_uuid _ _ _ Hwf) as Huu. unfold batch_add in E.
  assert (Hnd' : NoDup (Uuid <$> b_leases b ++ [l])).
  { rewrite fmap_app. apply NoDup_app. split_and!; [done| |apply NoDup_singleton].
    intros x Hx Hx'. apply list_elem_of_singleton in Hx'. congruence. }
  destruct (b_accounts b !! Tenant l) as [ca|] eqn:Ea.
  - run_inv. split_and!; [done| |done]. split; cbn; [split; [done| |done]|done|done].
    apply Forall_app. split; [done|]. constructor; [eauto|constructor].
  - run_inv. match goal with H : GetCreditAccount _ _ = _ |- _ => apply GetCreditAccount_ok in H as (-> & a & Ha & Hca) end.
    split_and!; [done| |done]. split; cbn; [split; [|apply Forall_app; split|done]| |].
    + eapply Inv_fetch; [done|apply Hwf|done|done|done].
    + eapply Forall_impl; [done|]. intros k [? [c ?]]. split; [done|].
      destruct (decide (Tenant l = Tenant k)) as [->|]; [rewrite lookup_insert_eq; eauto|rewrite lookup_insert_ne by done; eauto].
    + constructor; [|constructor]. rewrite lookup_insert_eq. eauto.
    + apply NoDup_app. split_and!; [done| |apply NoDup_singleton].
      intros y Hy ->%list_elem_of_singleton. apply Hdom in Hy. rewrite Ea in Hy. by destruct Hy.
    + intros t. rewrite elem_of_app, list_elem_of_singleton, Hdom. destruct (decide (Tenant l = t)) as [->|].
      * rewrite lookup_insert_eq. split; eauto.
      * rewrite lookup_insert_ne by done. naive_solver.
Qed.

(** One iteration: the lease [l] became [l'] and its account [ca']. *)
Lemma loop_ok_step accs n w l ls l' ca' w' :
  loop_ok accs n w (l :: ls) → Uuid l' = Uuid l → Leases w' = <[Uuid l' := l']> (Leases w) →
  Inv (<[Tenant l := ca']> accs) n w' →
  loop_ok (<[Tenant l := ca']> accs) n w' ls ∧
  (∀ t, is_Some (<[Tenant l := ca']> accs !! t) ↔ is_Some (accs !! t)).
Proof.
  intros [HI Hst Hnd] Hu HL HI'. apply Forall_cons in Hst as [[Hl Hacc] Hst].
  rewrite fmap_cons in Hnd. apply NoDup_cons in Hnd as [Hnin Hnd].
  assert (Hdom : ∀ t, is_Some (<[Tenant l := ca']> accs !! t) ↔ is_Some (accs !! t)).
  { intros t. destruct (decide (Tenant l = t)) as [<-|]; [rewrite lookup_insert_eq; split; eauto|by rewrite lookup_insert_ne]. }
  split; [|done]. split; [done| |done]. apply Forall_forall. intros k Hk. rewrite Forall_forall in Hst.
  destruct (Hst k Hk) as [Hks Hka]. split; [|by apply Hdom]. rewrite HL, lookup_insert_ne; [done|].
  rewrite Hu. intros Heq. apply Hnin. rewrite Heq. by apply list_elem_of_fmap_2.
Qed.

(** The state and the head of a loop, unpacked. *)
Lemma loop_ok_head accs n w l ls :
  loop_ok accs n w (l :: ls) →
  Inv accs n w ∧ Leases w !! Uuid l = Some l ∧ lease_wf n (Uuid l) l ∧ domains_wf (Items l) ∧
  ∃ a ca, AccAddressFromBech32 (Tenant l) = Some a ∧ accs !! Tenant l = Some ca.
Proof.
  intros [HI Hst _]. apply Forall_cons in Hst as [[Hl [ca Hca]] _].
  destruct (stored_wf _ _ _ _ _ HI Hl) as [Hwf _]. destruct (wf_tenant _ _ _ Hwf) as (a & Ha & _).
  destruct (I_dom _ _ _ HI) as [Hd _]. split_and!; eauto 6.
Qed.

(** A loop over a batch whose body processes one lease at a time. *)
Lemma batch_loop_ok {A} (accs_of : A → gmap string CreditAccount) (P : Lease → Prop)
    (f : A → Lease → M World A) n :
  (∀ x l ls w x' w', P l → loop_ok (accs_of x) n w (l :: ls) → f x l w = (Ok x', w') →
     loop_ok (accs_of x') n w' ls ∧ (∀ t, is_Some (accs_of x' !! t) ↔ is_Some (accs_of x !! t)) ∧
     Leases_evolve (Leases w) (Leases w')) →
  ∀ ls x w x' w', Forall P ls → loop_ok (accs_of x) n w ls → foldlM f x ls w = (Ok x', w') →
    Inv (accs_of x') n w' ∧ (∀ t, is_Some (accs_of x' !! t) ↔ is_Some (accs_of x !! t)) ∧
    Leases_evolve (Leases w) (Leases w').
Proof.
  intros Hf ls. induction ls as [|l ls IH]; intros x w x' w' HP Hok E; cbn in E; run_inv.
  - split_and!; [apply Hok|done|done].
  - apply Forall_cons in HP as [Hl HP].
    match goal with H : f _ _ _ = _ |- _ => apply (Hf _ _ ls) in H as (Hok' & Hdom & Hev); [|done..] end.
    apply IH in E as (HI & Hdom' & Hev'); [|done..]. split_and!; [done| |by etrans].
    intros t. by rewrite Hdom', Hdom.
Qed.

(** Writing the accounts of a processed batch back. *)
Lemma batch_persist_ok n w0 w b accs u w' :
  batch_ok n w0 b → Inv accs n w → (∀ t, is_Some (accs !! t) ↔ is_Some (b_accounts b !! t)) →
  Leases_evolve (Leases w0) (Leases w) → persist_accounts accs (b_order b) w = (Ok u, w') →
  Inv ∅ n w' ∧ Leases_evolve (Leases w0) (Leases w').
Proof.
  intros [_ Hno Hdom] HI Hd Hev E. eapply (Inv_persist accs (b_order b) accs) in E as [? ->]; [done|done|done| |done].
  intros t. by rewrite Hdom, Hd.
Qed.

(** ** Lease updates *)

(** A lease update that keeps what is fixed at creation and the items. *)
Ltac solve_evolves := split; cbn; try done; try lia.

Lemma acknowledged_ok l :
  lease_wf now (Uuid l) l → State l = LEASE_STATE_PENDING →
  evolves l (acknowledged env l) ∧ lease_wf now (Uuid l) (acknowledged env l).
Proof.
  intros [Hwu Hwt Hwi Hwd Hwtm Hwc Hwo Hwp] Hs. split; [solve_evolves; rewrite Hs; by right|].
  split; cbn; try done; [lia|intros _; apply Hwo; by rewrite Hs|by apply (lease_shape_same l)].
Qed.

(** PENDING to a terminal state other than CLOSED. *)
Lemma ended_ok l l' :
  lease_wf now (Uuid l) l → State l = LEASE_STATE_PENDING →
  (State l' = LEASE_STATE_REJECTED ∨ State l' = LEASE_STATE_EXPIRED) →
  Uuid l' = Uuid l → Tenant l' = Tenant l → ProviderUuid l' = ProviderUuid l → Items l' = Items l →
  CreatedAt l' = CreatedAt l → MetaHash l' = MetaHash l → ClosedAt l' = ClosedAt l →
  MinLeaseDurationAtCreation l' = MinLeaseDurationAtCreation l → LastSettledAt l' = LastSettledAt l →
  evolves l l' ∧ lease_wf now (Uuid l) l'.
Proof.
  intros [Hwu Hwt Hwi Hwd Hwtm Hwc Hwo Hwp] Hs Hs' Hu Ht Hp Hi Hc Hm Hcl Hd Hls. split.
  - split; try congruence; [|lia]. rewrite Hs. destruct Hs' as [->| ->]; by right.
  - split; rewrite ?Ht, ?Hi, ?Hd, ?Hc, ?Hls, ?Hcl, ?Hp; try done.
    + destruct Hs' as [->| ->]; done.
    + intros _. apply Hwo. by rewrite Hs.
    + apply (lease_shape_same l); try done. by destruct Hs' as [->| ->].
Qed.

Lemma closed_ok l l' :
  lease_wf now (Uuid l) l → State l = LEASE_STATE_ACTIVE → State l' = LEASE_STATE_CLOSED →
  Uuid l' = Uuid l → Tenant l' = Tenant l → ProviderUuid l' = ProviderUuid l → Items l' = Items l →
  CreatedAt l' = CreatedAt l → MetaHash l' = MetaHash l → ClosedAt l' = Some now →
  MinLeaseDurationAtCreation l' = MinLeaseDurationAtCreation l → LastSettledAt l' = now →
  evolves l l' ∧ lease_wf now (Uuid l) l'.
Proof.
  intros [Hwu Hwt Hwi Hwd Hwtm Hwc Hwo Hwp] Hs Hs' Hu Ht Hp Hi Hc Hm Hcl Hd Hls. split.
  - split; try congruence; [|lia]. rewrite Hs, Hs'. by right.
  - split; rewrite ?Ht, ?Hi, ?Hd, ?Hc, ?Hls, ?Hcl, ?Hs', ?Hp; try done; [lia|]. apply (lease_shape_same l); try done. by rewrite Hs'.
Qed.

(** One iteration of any of the batch loops. *)
Lemma loop_SetLease accs l ls l' ca' w u w' :
  loop_ok accs now w (l :: ls) → evolves l l' → lease_wf now (Uuid l) l' → Items l' = Items l →
  (∀ a, AccAddressFromBech32 (Tenant l) = Some a → acct_ok (Leases w) a (account_of accs (Tenant l)) →
        acct_ok (<[Uuid l' := l']> (Leases w)) a ca') →
  SetLease l' w = (Ok u, w') →
  loop_ok (<[Tenant l := ca']> accs) now w' ls ∧
  (∀ t, is_Some (<[Tenant l := ca']> accs !! t) ↔ is_Some (accs !! t)) ∧
  Leases_evolve (Leases w) (Leases w').
Proof.
  intros Hok He Hwf' Hit Hacct E. destruct (loop_ok_head _ _ _ _ _ Hok) as (HI & Hl & Hwf & Hdw & a & ca & Ha & Hca).
  pose proof E as (_ & HL & _)%SetLease_ok. specialize (Hacct a Ha). unfold account_of in Hacct. rewrite Hca in Hacct.
  destruct (Inv_SetLease accs now w l l' a ca ca' u w') as [HI' Hev]; try done; [by rewrite Hit|].
  destruct (loop_ok_step accs now w l ls l' ca' w') as [? ?]; try done. apply He.
Qed.

(** ** AcknowledgeLease *)

Lemma acknowledge_one_ok accs l ls w accs' w' :
  State l = LEASE_STATE_PENDING → loop_ok accs now w (l :: ls) → acknowledge_one env accs l w = (Ok accs', w') →
  loop_ok accs' now w' ls ∧ (∀ t, is_Some (accs' !! t) ↔ is_Some (accs !! t)) ∧
  Leases_evolve (Leases w) (Leases w').
Proof.
  intros Hs Hok E. destruct (loop_ok_head _ _ _ _ _ Hok) as (HI & Hl & Hwf & _).
  destruct (acknowledged_ok l Hwf Hs) as [He Hwf']. unfold acknowledge_one in E. run_inv.
  eapply loop_SetLease; try done. intros a Ha. by apply (acct_ok_acknowledge _ a _ l).
Qed.

(** What a validation loop has gathered after some UUIDs: a batch of leases in state [s]. *)
Definition gathered n w (s : LeaseState) b (rest : list string) : Prop :=
  batch_ok n w b ∧ Forall (λ l, State l = s) (b_leases b) ∧ Forall (λ u, u ∉ (Uuid <$> b_leases b)) rest.

Lemma gathered_empty n w s rest : BillingInv n w → gathered n w s empty_batch rest.
Proof.
  intros HI. split_and!; [by apply empty_batch_ok|constructor|]. apply Forall_forall. set_solver.
Qed.

(** Adding one more lease of that state. *)
Lemma gathered_add n w s b u rest l b' w' :
  gathered n w s b (u :: rest) → NoDup (u :: rest) → Leases w !! u = Some l → State l = s →
  batch_add b l w = (Ok b', w') → w' = w ∧ gathered n w s b' rest.
Proof.
  intros (Hb & Hst & Hnin) [Hu Hn]%NoDup_cons Hl Hs E. apply Forall_cons in Hnin as [Hub Hnin].
  destruct (stored_wf _ _ _ _ _ (lo_inv _ _ _ _ (bo_loop _ _ _ Hb)) Hl) as [Hwf _].
  eapply batch_add_ok in E as (-> & Hb' & Hls); [|done..]. split; [done|]. split_and!; [done|..]; rewrite Hls.
  - apply Forall_app. split; [done|]. by repeat constructor.
  - rewrite fmap_app. apply Forall_forall. intros v Hv. rewrite Forall_forall in Hnin.
    rewrite not_elem_of_app. split; [by apply Hnin|]. cbn. intros ->%list_elem_of_singleton.
    apply Hu. by rewrite (wf_uuid _ _ _ Hwf) in Hv.
Qed.

Lemma validate_pending_one_ok w acc u rest acc' w' :
  gathered now w LEASE_STATE_PENDING acc.1 (u :: rest) → NoDup (u :: rest) →
  validate_pending_one acc u w = (Ok acc', w') → w' = w ∧ gathered now w LEASE_STATE_PENDING acc'.1 rest.
Proof.
  destruct acc as [b pr]. cbn [fst]. intros Hg Hn E. unfold validate_pending_one in E. run_inv.
  match goal with H : GetLease _ _ = _ |- _ => apply GetLease_ok in H as [-> Hl] end.
  destruct (negb _) eqn:Es in E; [done|]. apply negb_false_iff, state_is_true in Es. run_inv.
  match goal with H : (if String.eqb _ _ then _ else _) ?w0 = (Ok _, ?w1) |- _ => assert (w1 = w0) as -> by (run_split; done); clear H end.
  cbn [fst]. by eapply gathered_add.
Qed.

Lemma validate_pending_ok uuids w acc acc' w' :
  gathered now w LEASE_STATE_PENDING acc.1 uuids → NoDup uuids → foldlM validate_pending_one acc uuids w = (Ok acc', w') →
  w' = w ∧ gathered now w LEASE_STATE_PENDING acc'.1 [].
Proof.
  revert acc. induction uuids as [|u uuids IH]; intros acc Hg Hn E; cbn [foldlM] in E; run_inv; [done|].
  match goal with H : validate_pending_one _ _ _ = _ |- _ => eapply validate_pending_one_ok in H as [-> Hg']; [|done..] end.
  apply NoDup_cons in Hn as [_ Hn]. by apply IH in E.
Qed.

Lemma validatePendingLeaseBatch_ok uuids w b pr w' :
  BillingInv now w → ValidateBatchLeaseUUIDs uuids = Ok tt → validatePendingLeaseBatch uuids w = (Ok (b, pr), w') →
  w' = w ∧ batch_ok now w b ∧ Forall (λ l, State l = LEASE_STATE_PENDING) (b_leases b).
Proof.
  intros HI Hv E. apply (validate_pending_ok uuids w (empty_batch, ""%string) (b, pr)) in E as (-> & ? & ? & _).
  - done.
  - by apply gathered_empty.
  - by apply validate_batch_NoDup.
Qed.

Lemma validateProviderAuthorization_state sender p w r w' :
  validateProviderAuthorization env sender p w = (Ok r, w') → w' = w.
Proof. unfold validateProviderAuthorization. intros E. run_split. done. Qed.

Lemma AcknowledgeLease_kept msg w r w' :
  BillingInv now w → AcknowledgeLease env msg w = (Ok r, w') → kept env w w'.
Proof.
  intros HI E. unfold AcknowledgeLease in E. run_inv. destruct_units.
  match goal with H : MsgAcknowledgeLease_ValidateBasic _ = Ok _ |- _ => unfold MsgAcknowledgeLease_ValidateBasic in H end.
  checks_inv. match goal with H : validatePendingLeaseBatch _ _ = (Ok ?v, _) |- _ => destruct v as [b pr];
    apply validatePendingLeaseBatch_ok in H as (-> & Hb & Hst); [|done..] end.
  run_inv. match goal with H : validateProviderAuthorization _ _ _ _ = _ |- _ => apply validateProviderAuthorization_state in H as -> end.
  match goal with H : foldlM (acknowledge_one _) _ _ _ = _ |- _ =>
    apply (batch_loop_ok id (λ l, State l = LEASE_STATE_PENDING) _ now (λ x l ls w x' w', acknowledge_one_ok x l ls w x' w')) in H
      as (HI' & Hdom & Hev); [|done|apply Hb] end.
  match goal with H : persist_accounts _ _ _ = _ |- _ => eapply batch_persist_ok in H as [HI2 Hev2]; [|done..] end.
  events_inv; by split.
Qed.

(** ** RejectLease *)

Lemma rejected_ok l reason :
  lease_wf now (Uuid l) l → State l = LEASE_STATE_PENDING →
  evolves l (rejected env reason l) ∧ lease_wf now (Uuid l) (rejected env reason l).
Proof. intros Hwf Hs. apply ended_ok; try done. by left. Qed.

(** Ending the head of a loop: account counter and reservation. *)
Lemma loop_end accs l ls l' m ca' w :
  loop_ok accs now w (l :: ls) → evolves l l' → live (State l) = true → live (State l') = false →
  ReleaseLeaseReservation
    (if decide (State l = LEASE_STATE_ACTIVE) then DecrementActiveLeaseCount (account_of accs (Tenant l))
     else DecrementPendingLeaseCount (account_of accs (Tenant l))) l' m = Ok ca' →
  ∀ a, AccAddressFromBech32 (Tenant l) = Some a → acct_ok (Leases w) a (account_of accs (Tenant l)) →
       acct_ok (<[Uuid l' := l']> (Leases w)) a ca'.
Proof.
  intros Hok He Hlv Hdd Hrel a Ha Hacct. destruct (loop_ok_head _ _ _ _ _ Hok) as (HI & Hl & Hwf & _).
  eapply acct_ok_end; try done. apply HI.
Qed.

Lemma reject_one_ok p reason accs l ls w accs' w' :
  State l = LEASE_STATE_PENDING → loop_ok accs now w (l :: ls) → reject_one env p reason accs l w = (Ok accs', w') →
  loop_ok accs' now w' ls ∧ (∀ t, is_Some (accs' !! t) ↔ is_Some (accs !! t)) ∧
  Leases_evolve (Leases w) (Leases w').
Proof.
  intros Hs Hok E. destruct (loop_ok_head _ _ _ _ _ Hok) as (HI & Hl & Hwf & _).
  destruct (rejected_ok l reason Hwf Hs) as [He Hwf']. unfold reject_one in E. run_inv.
  eapply loop_SetLease; try done. eapply loop_end; try done; rewrite Hs; [done|]. by rewrite decide_False.
Qed.

Lemma RejectLease_kept msg w r w' :
  BillingInv now w → RejectLease env msg w = (Ok r, w') → kept env w w'.
Proof.
  intros HI E. unfold RejectLease in E. run_inv. destruct_units.
  match goal with H : MsgRejectLease_ValidateBasic _ = Ok _ |- _ => unfold MsgRejectLease_ValidateBasic in H end.
  checks_inv. destruct_units.
  match goal with H : GetParams _ = _ |- _ => apply GetParams_ok in H as [-> _] end.
  match goal with H : validatePendingLeaseBatch _ _ = (Ok ?v, _) |- _ => destruct v as [b pr];
    apply validatePendingLeaseBatch_ok in H as (-> & Hb & Hst); [|done..] end.
  run_inv. match goal with H : validateProviderAuthorization _ _ _ _ = _ |- _ => apply validateProviderAuthorization_state in H as -> end.
  match goal with H : foldlM (reject_one _ ?p _) _ _ _ = _ |- _ =>
    apply (batch_loop_ok id (λ l, State l = LEASE_STATE_PENDING) _ now (λ x l ls w x' w', reject_one_ok p _ x l ls w x' w')) in H
      as (HI' & Hdom & Hev); [|done|apply Hb] end.
  match goal with H : persist_accounts _ _ _ = _ |- _ => eapply batch_persist_ok in H as [HI2 Hev2]; [|done..] end.
  events_inv; by split.
Qed.

(** ** CancelLease *)

(** One account only: a batch whose accounts are [{[tenant := ca]}]. *)
Lemma cancel_one_ok p t ca l ls w ca' w' :
  State l = LEASE_STATE_PENDING → Tenant l = t → loop_ok {[t := ca]} now w (l :: ls) →
  cancel_one env p ca l w = (Ok ca', w') →
  loop_ok {[t := ca']} now w' ls ∧ Leases_evolve (Leases w) (Leases w').
Proof.
  intros Hs <- Hok E. destruct (loop_ok_head _ _ _ _ _ Hok) as (HI & Hl & Hwf & _).
  destruct (rejected_ok l RejectionReasonCancelledByTenant Hwf Hs) as [He Hwf']. unfold cancel_one in E. run_inv.
  assert (Hca : account_of {[Tenant l := ca]} (Tenant l) = ca) by (unfold account_of; by rewrite lookup_singleton_eq).
  match goal with H : SetLease _ _ = _ |- _ => rename H into E' end.
  destruct (loop_SetLease {[Tenant l := ca]} l ls (rejected env RejectionReasonCancelledByTenant l) ca' w x x0)
    as (Hok' & _ & ?); try done.
  - eapply loop_end; try done; rewrite Hs; [done|]. rewrite decide_False by done. rewrite Hca. done.
  - split; [|done]. by rewrite insert_singleton_eq in Hok'.
Qed.

Lemma cancel_loop_ok p t ls ca w ca' w' :
  Forall (λ l, State l = LEASE_STATE_PENDING ∧ Tenant l = t) ls → loop_ok {[t := ca]} now w ls →
  foldlM (cancel_one env p) ca ls w = (Ok ca', w') →
  Inv {[t := ca']} now w' ∧ Leases_evolve (Leases w) (Leases w').
Proof.
  revert ca w. induction ls as [|l ls IH]; intros ca w HF Hok E; cbn [foldlM] in E; run_inv.
  - split; [apply Hok|done].
  - apply Forall_cons in HF as [[Hs Ht] HF].
    match goal with H : cancel_one _ _ _ _ _ = _ |- _ => eapply cancel_one_ok in H as [Hok' Hev]; [|done..] end.
    apply IH in E as [? ?]; [|done..]. split; [done|]. by etrans.
Qed.

(** What the validation loop of CancelLease has gathered. *)
Definition cancellable (t : string) w (ls : list Lease) : Prop :=
  NoDup (Uuid <$> ls) ∧
  Forall (λ l, State l = LEASE_STATE_PENDING ∧ Tenant l = t ∧ Leases w !! Uuid l = Some l) ls.

Lemma validate_cancel_one_ok t w acc u rest acc' w' :
  Inv ∅ now w → cancellable t w acc → NoDup (u :: rest) → Forall (λ v, v ∉ (Uuid <$> acc)) (u :: rest) →
  validate_cancel_one t acc u w = (Ok acc', w') →
  w' = w ∧ cancellable t w acc' ∧ Forall (λ v, v ∉ (Uuid <$> acc')) rest ∧ canonical t.
Proof.
  intros HI [Hnd HF] [Hu Hn]%NoDup_cons [Hua Hra]%Forall_cons E. unfold validate_cancel_one in E. run_inv.
  match goal with H : GetLease _ _ = _ |- _ => apply GetLease_ok in H as [-> Hl] end.
  destruct (negb (String.eqb _ _)) eqn:Et; [done|]. apply negb_false_iff, String.eqb_eq in Et.
  destruct (negb (state_is _ _)) eqn:Es; [done|]. apply negb_false_iff, state_is_true in Es. run_inv.
  destruct (stored_wf _ _ _ _ _ HI Hl) as [Hwf Hl']. pose proof (wf_uuid _ _ _ Hwf) as Huu.
  split_and!; [done|split|..].
  - rewrite fmap_app. apply NoDup_app. split_and!; [done| |apply NoDup_singleton].
    intros y Hy Hy'%list_elem_of_singleton. congruence.
  - apply Forall_app. split; [done|]. repeat constructor; done.
  - rewrite fmap_app. eapply Forall_forall. intros v Hv. rewrite Forall_forall in Hra.
    rewrite not_elem_of_app. split; [by apply Hra|]. cbn. intros ->%list_elem_of_singleton. congruence.
  - apply Hwf.
Qed.

Lemma validate_cancel_ok t uuids w acc acc' w' :
  Inv ∅ now w → cancellable t w acc → NoDup uuids → Forall (λ v, v ∉ (Uuid <$> acc)) uuids →
  foldlM (validate_cancel_one t) acc uuids w = (Ok acc', w') →
  w' = w ∧ cancellable t w acc' ∧ (uuids ≠ [] → canonical t).
Proof.
  intros HI. revert acc. induction uuids as [|u uuids IH]; intros acc Hc Hn Hr E; cbn [foldlM] in E; run_inv; [done|].
  match goal with H : validate_cancel_one _ _ _ _ = _ |- _ =>
    eapply validate_cancel_one_ok in H as (-> & Hc' & Hr' & Hcan); [|done..] end.
  apply NoDup_cons in Hn as [_ Hn]. apply IH in E as (-> & ? & _); [|done..]. done.
Qed.

Lemma validate_batch_nonempty uuids : ValidateBatchLeaseUUIDs uuids = Ok tt → uuids ≠ [].
Proof. intros E ->. done. Qed.

Lemma CancelLease_kept msg w r w' :
  BillingInv now w → CancelLease env msg w = (Ok r, w') → kept env w w'.
Proof.
  intros HI E. unfold CancelLease in E. run_inv. destruct_units.
  match goal with H : MsgCancelLease_ValidateBasic _ = Ok _ |- _ => unfold MsgCancelLease_ValidateBasic in H end.
  checks_inv. destruct_units.
  match goal with H : ValidateBatchLeaseUUIDs _ = _ |- _ => pose proof (validate_batch_nonempty _ H) as Hne; apply validate_batch_NoDup in H end.
  match goal with H : GetParams _ = _ |- _ => apply GetParams_ok in H as [-> _] end.
  match goal with H : foldlM (validate_cancel_one _) _ _ _ = _ |- _ =>
    apply validate_cancel_ok in H as (-> & [Hnd HF] & Hcan); [|done|by split; constructor|done|apply Forall_forall; set_solver] end.
  specialize (Hcan Hne).
  match goal with H : GetCreditAccount _ _ = _ |- _ => apply GetCreditAccount_ok in H as (-> & a & Ha & Hca) end.
  match goal with H : foldlM (cancel_one _ _) ?c ?ls _ = _ |- _ =>
    apply (cancel_loop_ok _ (kl_Tenant msg)) in H as [HI' Hev];
      [|eapply Forall_impl; [exact HF|]; naive_solver|split; [|eapply Forall_impl; [exact HF|]|done]] end.
  - match goal with H : SetCreditAccount _ _ = _ |- _ =>
      eapply Inv_SetCreditAccount in H as (HI2 & HL & _); [|exact HI'|apply lookup_singleton_eq] end.
    rewrite delete_singleton_eq in HI2. events_inv; split; try done; by rewrite HL.
  - rewrite <- insert_empty. eapply Inv_fetch; [exact HI|done|by rewrite lookup_empty|done|done].
  - intros l (? & Ht & ?). cbn. rewrite Ht, lookup_singleton_eq. eauto.
Qed.

(** ** CloseLease *)

Lemma Inv_moved accs n l a cs w w' : Inv accs n w → moved l a cs w w' → Inv accs n w'.
Proof.
  intros HI Hm. destruct (moved_frame _ _ _ _ _ Hm) as (?&?&?&?&?&?&?&?&?). by eapply Inv_frame; [..|exact HI].
Qed.

Lemma loop_ok_moved accs n ls l a cs w w' : loop_ok accs n w ls → moved l a cs w w' → loop_ok accs n w' ls.
Proof.
  intros [HI Hst Hnd] Hm. destruct (moved_frame _ _ _ _ _ Hm) as (HL & _).
  split; [by eapply Inv_moved|by rewrite HL|done].
Qed.

Lemma close_role_state sender cache l w r w' : close_role env sender cache l w = (Ok r, w') → w' = w.
Proof. unfold close_role. intros E. repeat (run_inv_step || (run_split_step; try discriminate)); done. Qed.

Lemma validate_close_one_ok sender w acc u rest acc' w' :
  gathered now w LEASE_STATE_ACTIVE (c_batch acc) (u :: rest) → NoDup (u :: rest) →
  validate_close_one env sender acc u w = (Ok acc', w') →
  w' = w ∧ gathered now w LEASE_STATE_ACTIVE (c_batch acc') rest.
Proof.
  intros Hg Hn E. unfold validate_close_one in E. run_inv.
  match goal with H : GetLease _ _ = _ |- _ => apply GetLease_ok in H as [-> Hl] end.
  destruct (negb (state_is _ _)) eqn:Es; [done|]. apply negb_false_iff, state_is_true in Es. run_inv.
  match goal with H : close_role _ _ _ _ _ = (Ok ?r, _) |- _ => destruct r; apply close_role_state in H as -> end.
  destruct (String.eqb _ "") in E; [done|]. run_inv.
  match goal with H : (if negb _ then _ else _) ?w0 = (Ok _, ?w1) |- _ => assert (w1 = w0) as -> by (run_split; done); clear H end.
  cbn [c_batch]. by eapply gathered_add.
Qed.

Lemma validate_close_ok sender uuids w acc acc' w' :
  gathered now w LEASE_STATE_ACTIVE (c_batch acc) uuids → NoDup uuids →
  foldlM (validate_close_one env sender) acc uuids w = (Ok acc', w') →
  w' = w ∧ gathered now w LEASE_STATE_ACTIVE (c_batch acc') [].
Proof.
  revert acc. induction uuids as [|u uuids IH]; intros acc Hg Hn E; cbn [foldlM] in E; run_inv; [done|].
  match goal with H : validate_close_one _ _ _ _ _ = _ |- _ => eapply validate_close_one_ok in H as [-> Hg']; [|done..] end.
  apply NoDup_cons in Hn as [_ Hn]. by apply IH in E.
Qed.

(** Settling and closing one lease: the money moved and the lease closed now. *)
Lemma close_settle_ok reason closedBy l w l' cs role w' :
  lease_wf now (Uuid l) l → State l = LEASE_STATE_ACTIVE →
  close_settle env reason closedBy l w = (Ok (l', cs, role), w') →
  (∃ a, AccAddressFromBech32 (Tenant l) = Some a ∧ moved l a cs w w') ∧
  evolves l l' ∧ lease_wf now (Uuid l) l' ∧ Items l' = Items l ∧ State l' = LEASE_STATE_CLOSED ∧ LastSettledAt l' = now.
Proof.
  intros Hwf Hs E. destruct (wf_tenant _ _ _ Hwf) as (a & Ha & _). pose proof (wf_items _ _ _ Hwf) as Hi.
  unfold close_settle in E. run_inv.
  match goal with H : ShouldAutoCloseLease _ _ _ = _ |- _ => eapply ShouldAutoCloseLease_ok in H as (-> & _ & Hr & _); [|done..] end.
  destruct Hr as [-> | ->]; cbn in E; unfold settleLease in *; run_inv.
  - match goal with H : PerformSettlement _ _ _ = _ |- _ => eapply performSettlementCore_ok in H as [Hm _]; [|done..] end.
    split; [by exists a|]. split_and!; try done; apply closed_ok; done.
  - match goal with H : PerformSettlementSilent _ _ _ = _ |- _ => eapply performSettlementCore_ok in H as [Hm _]; [|done..] end.
    split; [by exists a|]. split_and!; try done; apply closed_ok; done.
Qed.

Lemma close_one_ok p reason closedBy x l ls w x' w' :
  State l = LEASE_STATE_ACTIVE → loop_ok (cl_accounts x) now w (l :: ls) →
  close_one env p reason closedBy x l w = (Ok x', w') →
  loop_ok (cl_accounts x') now w' ls ∧ (∀ t, is_Some (cl_accounts x' !! t) ↔ is_Some (cl_accounts x !! t)) ∧
  Leases_evolve (Leases w) (Leases w').
Proof.
  intros Hs Hok E. destruct (loop_ok_head _ _ _ _ _ Hok) as (HI & Hl & Hwf & _).
  unfold close_one in E. run_inv.
  match goal with H : close_settle _ _ _ _ _ = (Ok ?r, _) |- _ => destruct r as [[l' cs] role];
    eapply close_settle_ok in H as ((a & Ha & Hm) & He & Hwf' & Hit & Hs' & _); [|done..] end.
  run_inv. cbn [cl_accounts]. eapply loop_ok_moved in Hok as Hok1; [|done].
  destruct (moved_frame _ _ _ _ _ Hm) as (HL & _). rewrite <- HL.
  eapply loop_SetLease; try done. eapply loop_end; try done; rewrite ?Hs, ?Hs'; done.
Qed.

Lemma CloseLease_kept msg w r w' :
  BillingInv now w → CloseLease env msg w = (Ok r, w') → kept env w w'.
Proof.
  intros HI E. unfold CloseLease in E. run_inv. destruct_units.
  match goal with H : MsgCloseLease_ValidateBasic _ = Ok _ |- _ => unfold MsgCloseLease_ValidateBasic in H end.
  checks_inv. destruct_units.
  match goal with H : GetParams _ = _ |- _ => apply GetParams_ok in H as [-> _] end.
  match goal with H : foldlM (validate_close_one _ _) _ _ _ = (Ok ?acc, _) |- _ =>
    apply validate_close_ok in H as (-> & Hb & Hst & _); [|by apply gathered_empty|by apply validate_batch_NoDup] end.
  run_inv.
  match goal with H : foldlM (close_one _ ?p ?re ?cb) _ _ _ = _ |- _ =>
    apply (batch_loop_ok cl_accounts (λ l, State l = LEASE_STATE_ACTIVE) _ now (λ x l ls w x' w', close_one_ok p re cb x l ls w x' w')) in H
      as (HI' & Hdom & Hev); [|done|apply Hb] end.
  match goal with H : persist_accounts _ _ _ = _ |- _ => eapply batch_persist_ok in H as [HI2 Hev2]; [|done..] end.
  events_inv; by split.
Qed.

(** ** UpdateParams *)

Lemma UpdateParams_kept msg w r w' :
  BillingInv now w → params_u64 (bp_Params msg) → UpdateParams env msg w = (Ok r, w') → kept env w w'.
Proof.
  intros HI Hu E. unfold UpdateParams, SetParams in E. run_inv. destruct_units.
  match goal with H : MsgUpdateParams_ValidateBasic _ = Ok _ |- _ => unfold MsgUpdateParams_ValidateBasic in H end.
  checks_inv. destruct_units. destruct (negb _); [done|]. events_inv. split; [|done].
  destruct HI. split; try done. cbn. eauto.
Qed.

(** ** FundCredit *)

(** A tenant without an account has no live leases. *)
Lemma no_account_sums n w a :
  Inv ∅ n w → CreditAccounts w !! a = None →
  (∀ s, live s = true → map_sum (count_of s a) (Leases w) = 0) ∧
  (∀ d, map_sum (resv_of a d) (Leases w) = 0).
Proof.
  intros HI Hn.
  assert (Hno : ∀ u l, Leases w !! u = Some l → tenant_is a l = true → live (State l) = false).
  { intros u l Hl Ht. apply bool_decide_eq_true in Ht. destruct (live (State l)) eqn:Hlv; [|done].
    destruct (I_live _ _ _ HI u l Hl Hlv) as (x & Hx & [c Hc]). congruence. }
  assert (Hz : ∀ f : Lease → Z, (∀ u l, Leases w !! u = Some l → f l = 0) → map_sum f (Leases w) = 0).
  { intros f Hf. rewrite (map_sum_ext f (λ _, 0)); [|done]. clear. induction (Leases w) as [|k v m Hk IH] using map_ind.
    - apply map_sum_empty.
    - by rewrite map_sum_insert_None. }
  split.
  - intros s Hs. apply Hz. intros u l Hl. unfold count_of. destruct (tenant_is a l) eqn:Ht; [|done].
    specialize (Hno u l Hl Ht). cbn. destruct (state_is (State l) s) eqn:E; [|done].
    apply state_is_true in E. congruence.
  - intros d. apply Hz. intros u l Hl. unfold resv_of. destruct (tenant_is a l) eqn:Ht; [|done].
    by rewrite (Hno u l Hl Ht).
Qed.

(** Writing an account that is right, new or unchanged. *)
Lemma Inv_put_account n w a ca :
  Inv ∅ n w → AccAddressFromBech32 (ca_Tenant ca) = Some a → acct_ok (Leases w) a ca →
  Inv ∅ n (set_CreditAccounts (<[a := ca]> (CreditAccounts w)) (<[DeriveCreditAddress a := a]> (CreditAddressIndex w)) w).
Proof.
  intros HI Ha Hok.
  assert (Hdom : ∀ x, is_Some (CreditAccounts w !! x) → is_Some (<[a := ca]> (CreditAccounts w) !! x)).
  { intros x Hx. destruct (decide (x = a)) as [->|]; [rewrite lookup_insert_eq; eauto|by rewrite lookup_insert_ne]. }
  split; try apply HI; cbn.
  - intros x cx [[<- <-]|[_ Hx]]%lookup_insert_Some; [|by apply HI]. split; [done|].
    unfold view. by rewrite lookup_empty.
  - intros u l Hl Hlv. destruct (I_live _ _ _ HI u l Hl Hlv) as (x & ? & ?). eauto.
  - intros t c. by rewrite lookup_empty.
  - destruct (I_cidx _ _ _ HI) as [H1 H2]. split.
    + intros c x [[<- <-]|[_ Hc]]%lookup_insert_Some; [split; [done|]; rewrite lookup_insert_eq; eauto|].
      destruct (H1 c x Hc). eauto.
    + intros x Hx. destruct (decide (DeriveCreditAddress a = DeriveCreditAddress x)) as [->|Hne];
        [rewrite lookup_insert_eq; eauto|rewrite lookup_insert_ne by done]. apply H2.
      destruct (decide (x = a)) as [->|]; [done|]. by rewrite lookup_insert_ne in Hx.
Qed.

Lemma GetCreditAccount_err t w e w' :
  GetCreditAccount t w = (Err e, w') →
  w' = w ∧ ∀ a, AccAddressFromBech32 t = Some a → CreditAccounts w !! a = None.
Proof.
  unfold GetCreditAccount, mbind, M_bind, get, err. destruct (AccAddressFromBech32 t) as [a|]; [|naive_solver].
  destruct (CreditAccounts w !! a) eqn:E; naive_solver.
Qed.

Lemma bank_SendCoins_ok from to cs w u w' :
  bank_SendCoins from to cs w = (Ok u, w') →
  ∃ bk, SendCoins (bank w) from to cs = (true, bk) ∧ w' = set_bank bk w.
Proof. unfold bank_SendCoins. destruct (SendCoins _ _ _ _) as [[] b]; naive_solver. Qed.

Lemma fund_credit_tx_kept msg s c w u w' :
  BillingInv now w → DeriveCreditAddressFromBech32 (fc_Tenant msg) = Ok c →
  fund_credit_tx msg s c w = (Ok u, w') → kept env w w'.
Proof.
  intros HI Hc E. unfold DeriveCreditAddressFromBech32 in Hc.
  destruct (AccAddressFromBech32 (fc_Tenant msg)) as [a|] eqn:Ha; [|done]. injection Hc as <-. unfold fund_credit_tx in E. run_inv.
  match goal with H : bank_SendCoins _ _ _ _ = _ |- _ => apply bank_SendCoins_ok in H as (b & _ & ->) end.
  assert (HI1 : Inv ∅ now (set_bank b w)) by by apply (Inv_frame _ _ w).
  match goal with H : try _ _ = _ |- _ => apply try_ok in H end.
  assert (Hput : ∀ ca w1 u w2, Inv ∅ now w1 → Leases w1 = Leases w → AccAddressFromBech32 (ca_Tenant ca) = Some a →
            acct_ok (Leases w1) a ca → SetCreditAccount ca w1 = (Ok u, w2) → kept env w w2).
  { intros ca w1 u1 w2 HI' HL Hc Hok Es. unfold SetCreditAccount in Es. rewrite Hc in Es. run_inv.
    split; [by apply Inv_put_account|]. cbn. by rewrite HL. }
  match goal with H : _ ∨ _ |- _ => destruct H as [(ca & -> & Hg)|(e & -> & Hg)] end; run_inv.
  - apply GetCreditAccount_ok in Hg as (-> & a' & Ha' & Hca). assert (a' = a) as -> by congruence.
    destruct (I_accts _ _ _ HI1 a _ Hca) as [Ht Hok]. unfold view in Hok. rewrite lookup_empty in Hok.
    by eapply Hput in E.
  - apply GetCreditAccount_err in Hg as [-> Hno]. specialize (Hno a Ha).
    match goal with H : (if bool_decide ?c then _ else _) _ = _ |- _ => destruct (bool_decide c); [|done] end.
    unfold ensure_account in *. run_inv.
    destruct (no_account_sums _ _ a HI1 Hno) as [Hc Hr].
    eapply Hput in E; [done|..].
    + destruct (HasAccount _ _); [done|]. by apply (Inv_frame _ _ (set_bank b w)).
    + by destruct (HasAccount _ _).
    + done.
    + assert (Leases (if HasAccount (bank (set_bank b w)) (DeriveCreditAddress a) then set_bank b w
        else set_bank (SetNewAccount (bank (set_bank b w)) (DeriveCreditAddress a)) (set_bank b w)) = Leases (set_bank b w)) as ->
        by by destruct (HasAccount _ _).
      split; cbn -[amt DeriveCreditAddress]; try done; [by rewrite Hc..|apply valid_coins_nil].
Qed.

Lemma FundCredit_kept msg w r w' : BillingInv now w → FundCredit msg w = (Ok r, w') → kept env w w'.
Proof.
  intros HI E. unfold FundCredit in E. run_inv. destruct_units.
  match goal with H : MsgFundCredit_ValidateBasic _ = Ok _ |- _ => unfold MsgFundCredit_ValidateBasic in H end.
  checks_inv. match goal with H : fund_credit_tx _ _ _ _ = _ |- _ => apply fund_credit_tx_kept in H; [|done..] end.
  by events_inv.
Qed.
End handlers_inv.

#[export] Hint Resolve FundCredit_kept AcknowledgeLease_kept RejectLease_kept CancelLease_kept
  CloseLease_kept UpdateParams_kept : ledger.
