(* ===== verification/Market.v ===== *)
(** * The market: what the billing module promises, without its bookkeeping

    The abstract machine knows contracts (tenant, provider, priced items, state, settled up to), the
    balances and the payout addresses, and nothing of counters, reservations kept in accounts,
    indexes or events. Its steps are the economic events; [abs] reads a market off the state of the
    program. Refinement.v proves that every message and the end blocker are runs of the machine, and
    what the machine guarantees about the sums charged. *)

From stdpp Require Import base tactics option list strings gmap sorting fin_maps.
From Stdlib Require Import ZArith Lia.
From S2P Require Import Prelude Sdk SdkRef Uuid GoStd SkuTypes BillingTypes BillingMsgs SkuKeeper Credit Accrual Keeper LeaseStore Settlement Lifecycle Genesis Invariant LifecycleInv.
Open Scope Z_scope.

(** ** The machine *)

Record contract : Type := mkContract {
  c_tenant : string; c_provider : string; c_items : list (string * Z * Coin * string);
  c_minimum : Z; c_state : LeaseState; c_since : Z }.

Definition c_rate (c : contract) (d : string) : Z :=
  lsum (λ i : string * Z * Coin * string,
    if decide (Denom i.1.2 = d) then Amount i.1.2 * i.1.1.2 else 0) (c_items c).

Definition with_state (s : LeaseState) (since : Z) (c : contract) : contract :=
  mkContract (c_tenant c) (c_provider c) (c_items c) (c_minimum c) s since.

(** Whole seconds a settlement at [t] covers. *)
Definition c_seconds (c : contract) (t : Z) : Z := Z.max 0 (billed_seconds (c_since c) t).

Record market : Type := mkMarket {
  contracts : gmap string contract;
  m_balance : Addr → string → Z;
  m_payout : string → option Addr }.

(** What happened; a settlement names the contract and what it moved, a deposit who sent it. *)
Inductive label : Type :=
  | Offered (u : string)
  | Accepted (u : string)
  | Declined (u : string)
  | Settled (u : string) (cs : list Coin)
  | Deposited (x a : Addr) (c : Coin)
  | Idle.

Definition charged (u d : string) (tr : list label) : Z :=
  lsum (λ x, match x with Settled u' cs => if decide (u' = u) then amt cs d else 0 | _ => 0 end) tr.

Section machine.
Context `{SDK} (now : Z).
Implicit Types (m : market) (c : contract) (u d : string) (a : Addr).

Definition same_funds m m' : Prop :=
  m_payout m' = m_payout m ∧ ∀ x d, m_balance m' x d = m_balance m x d.

(** [cs] goes from the credit address of [a] to the payout address of the provider. *)
Definition transferred m m' a (provider : string) (cs : Coins) : Prop :=
  m_payout m' = m_payout m ∧
  ∀ x d, m_balance m' x d =
    m_balance m x d - (if decide (x = DeriveCreditAddress a) then amt cs d else 0)
                    + (if decide (m_payout m provider = Some x) then amt cs d else 0).

(** What a settlement takes: what accrued or what is left of it, and beyond the cap of a hundred
    years on one accrual at most what is left. *)
Definition due m c a (cs : Coins) : Prop :=
  (∀ d, 0 ≤ amt cs d ≤ m_balance m (DeriveCreditAddress a) d) ∧
  (c_seconds c now ≤ MaxDurationSeconds →
   ∀ d, amt cs d = Z.min (c_rate c d * c_seconds c now) (m_balance m (DeriveCreditAddress a) d)).

(** What the contracts of [a] that are pending or active hold reserved. *)
Definition reserved_sum m a d : Z :=
  map_sum (λ c, if bool_decide (AccAddressFromBech32 (c_tenant c) = Some a) && live (c_state c)
                then c_rate c d * c_minimum c else 0) (contracts m).

Inductive market_step : label → market → market → Prop :=
  | ms_offer u c a m m' :
      contracts m !! u = None → c_state c = LEASE_STATE_PENDING → c_since c = now →
      AccAddressFromBech32 (c_tenant c) = Some a →
      contracts m' = <[u := c]> (contracts m) → same_funds m m' →
      (∀ d, 0 < c_rate c d → reserved_sum m' a d ≤ m_balance m' (DeriveCreditAddress a) d) →
      market_step (Offered u) m m'
  | ms_accept u c m m' :
      contracts m !! u = Some c → c_state c = LEASE_STATE_PENDING →
      contracts m' = <[u := with_state LEASE_STATE_ACTIVE now c]> (contracts m) → same_funds m m' →
      market_step (Accepted u) m m'
  | ms_decline u c s m m' :
      contracts m !! u = Some c → c_state c = LEASE_STATE_PENDING → s = LEASE_STATE_REJECTED ∨ s = LEASE_STATE_EXPIRED →
      contracts m' = <[u := with_state s (c_since c) c]> (contracts m) → same_funds m m' →
      market_step (Declined u) m m'
  | ms_settle u c a cs s m m' :
      contracts m !! u = Some c → c_state c = LEASE_STATE_ACTIVE → s = LEASE_STATE_ACTIVE ∨ s = LEASE_STATE_CLOSED →
      c_since c ≤ now →
      AccAddressFromBech32 (c_tenant c) = Some a → due m c a cs → transferred m m' a (c_provider c) cs →
      contracts m' = <[u := with_state s now c]> (contracts m) →
      market_step (Settled u cs) m m'
  | ms_deposit a x (coin : Coin) m m' :
      contracts m' = contracts m → m_payout m' = m_payout m → 0 < Amount coin →
      (∀ y d, m_balance m' y d =
         m_balance m y d - (if decide (y = x) then coin_amt d coin else 0)
                         + (if decide (y = DeriveCreditAddress a) then coin_amt d coin else 0)) →
      market_step (Deposited x a coin) m m'
  | ms_idle m m' : contracts m' = contracts m → same_funds m m' → market_step Idle m m'.

Inductive market_run : list label → market → market → Prop :=
  | run_nil m : market_run [] m m
  | run_cons x tr m1 m2 m3 : market_step x m1 m2 → market_run tr m2 m3 → market_run (x :: tr) m1 m3.

Definition runs m m' : Prop := ∃ tr, market_run tr m m'.

(** A run in which only [o] deposits. *)
Definition deposit_by (o : option Addr) (x : label) : Prop := match x with Deposited s _ _ => o = Some s | _ => True end.
Definition runs_by (o : option Addr) m m' : Prop := ∃ tr, market_run tr m m' ∧ Forall (deposit_by o) tr.

Lemma runs_by_runs o m m' : runs_by o m m' → runs m m'.
Proof. intros (tr & Hr & _). by exists tr. Qed.

Lemma market_run_app tr1 tr2 m1 m2 m3 :
  market_run tr1 m1 m2 → market_run tr2 m2 m3 → market_run (tr1 ++ tr2) m1 m3.
Proof. induction 1 as [|x tr m m' m'' Hx _ IH]; [done|]. intros Hr. econstructor; [done|by apply IH]. Qed.

Lemma runs_step o x m m' : market_step x m m' → deposit_by o x → runs_by o m m'.
Proof. intros Hx Ho. exists [x]. split; [econstructor; [done|constructor]|by constructor]. Qed.

#[global] Instance runs_by_preorder o : PreOrder (runs_by o).
Proof.
  split; [intros m; exists []; split; constructor|].
  intros m1 m2 m3 (tr1 & H1 & F1) (tr2 & H2 & F2). exists (tr1 ++ tr2).
  split; [by eapply market_run_app|by apply Forall_app].
Qed.

(** A batch of one-contract steps that move nothing. *)
Lemma runs_batch (R : contract → contract → Prop) us m m' :
  (∀ u c c' K, R c c' → contracts (mkMarket K (m_balance m) (m_payout m)) !! u = Some c →
     runs_by None (mkMarket K (m_balance m) (m_payout m)) (mkMarket (<[u := c']> K) (m_balance m) (m_payout m))) →
  NoDup us → m_balance m' = m_balance m → m_payout m' = m_payout m →
  (∀ u, u ∈ us → ∃ c c', contracts m !! u = Some c ∧ contracts m' !! u = Some c' ∧ R c c') →
  (∀ u, u ∉ us → contracts m' !! u = contracts m !! u) → runs_by None m m'.
Proof.
  intros HR Hnd. destruct m as [K B P], m' as [K' B' P']. cbn in *. intros -> ->. revert K.
  induction Hnd as [|u us Hu _ IH]; intros K Hin Hout.
  - assert (K' = K) as ->; [|reflexivity]. apply map_eq. intros u. apply Hout. set_solver.
  - destruct (Hin u ltac:(set_solver)) as (c & c' & Hc & Hc' & HRc). etrans; [by eapply HR|]. apply IH.
    + intros v Hv. rewrite lookup_insert_ne by (intros ->; done). apply Hin. set_solver.
    + intros v Hv. destruct (decide (v = u)) as [->|Hne]; [by rewrite lookup_insert_eq|].
      rewrite lookup_insert_ne by done. apply Hout. set_solver.
Qed.
End machine.

(** ** Reading a market off the state *)

Definition abs_lease (l : Lease) : contract :=
  mkContract (Tenant l) (ProviderUuid l) (item_core <$> Items l) (MinLeaseDurationAtCreation l) (State l) (LastSettledAt l).

Section abstraction.
Context `{SL : SDKLaws} `{SK : SKUKeeper} {KL : SKUKeeperLaws SK} `{GL : GoStdLaws}.
Implicit Types (w : World) (l : Lease) (d u : string) (a : Addr).

Definition payout_of w (pr : string) : option Addr :=
  match GetProvider (sku w) pr with Ok p => AccAddressFromBech32 (prov_PayoutAddress p) | _ => None end.

Definition abs w : market := mkMarket (abs_lease <$> Leases w) (GetBalance (bank w)) (payout_of w).

Lemma c_rate_abs l d : c_rate (abs_lease l) d = rate (Items l) d.
Proof.
  unfold c_rate, rate, abs_lease. cbn [c_items]. induction (Items l) as [|i items IH]; [done|].
  rewrite fmap_cons. cbn [lsum]. rewrite IH. done.
Qed.

Lemma abs_same w w' :
  abs_lease <$> Leases w' = abs_lease <$> Leases w → bank w' = bank w → sku w' = sku w → abs w' = abs w.
Proof. intros HL HB HS. unfold abs, payout_of. by rewrite HL, HB, HS. Qed.

Lemma reserved_sum_abs w a d : reserved_sum (abs w) a d = map_sum (resv_of a d) (Leases w).
Proof.
  unfold reserved_sum, abs. cbn [contracts]. rewrite map_sum_fmap. apply map_sum_ext. intros u l _.
  unfold compose. rewrite c_rate_abs. done.
Qed.

Lemma abs_lookup w u l : Leases w !! u = Some l → contracts (abs w) !! u = Some (abs_lease l).
Proof. intros Hl. cbn. by rewrite lookup_fmap, Hl. Qed.

Lemma abs_insert w w' u l' :
  Leases w' = <[u := l']> (Leases w) → contracts (abs w') = <[u := abs_lease l']> (contracts (abs w)).
Proof. intros HL. cbn. by rewrite HL, fmap_insert. Qed.

Lemma abs_funds w w' : bank w' = bank w → sku w' = sku w → same_funds (abs w) (abs w').
Proof. intros HB HS. split; cbn; [unfold payout_of; by rewrite HS|by rewrite HB]. Qed.

(** A transfer of the program is one of the machine. *)
Lemma moved_transferred l a cs w w1 w' :
  moved l a cs w w1 → bank w' = bank w1 → sku w' = sku w → transferred (abs w) (abs w') a (ProviderUuid l) cs.
Proof.
  intros (_ & _ & _ & Hb) HB HS. split; [cbn; unfold payout_of; by rewrite HS|]. intros x d. cbn. rewrite HB.
  destruct Hb as [[-> ->]|(p & payout & Hp & Hpay & Hb)].
  - change (amt [] d) with 0. repeat case_decide; lia.
  - rewrite Hb. unfold payout_of. rewrite Hp, Hpay. repeat case_decide; simplify_eq; lia.
Qed.

Lemma settlement_due now l a silent w r w' :
  AccAddressFromBech32 (Tenant l) = Some a → Forall item_ok (Items l) → LastSettledAt l ≤ now →
  performSettlementCore l now silent w = (Ok r, w') → due now (abs w) (abs_lease l) a (TransferAmounts r).
Proof.
  intros Ha Hi Hle E. apply (performSettlementCore_ok l a) in E as [(_ & _ & Hr & _) Hc]; [|done..].
  split; [exact Hr|]. intros Hcap d. cbn [abs m_balance]. rewrite c_rate_abs.
  pose proof (GetBalance_range (bank w) (DeriveCreditAddress a) d).
  change (c_seconds (abs_lease l) now) with (settle_seconds l now) in *. unfold credit_balance in *.
  destruct Hc as [[Hd ->]|[Hd [(acc & Eacc & _ & Ht)|(_ & [e Eerr] & _)]]].
  - rewrite settle_seconds_0 by done. cbn. lia.
  - rewrite Ht, settle_seconds_eq by done. apply accrued_ok in Eacc as [_ Ham]; [|done|lia]. by rewrite Ham.
  - exfalso. rewrite settle_seconds_eq in Hcap by done. apply accrued_err in Eerr; [lia|done|lia].
Qed.

(** Settling the stored active lease [l] and writing it back, active or closed, is one settlement. *)
Lemma settlement_step now l l' a s silent w r w1 w' :
  lease_wf now (Uuid l) l → Leases w !! Uuid l = Some l → State l = LEASE_STATE_ACTIVE →
  s = LEASE_STATE_ACTIVE ∨ s = LEASE_STATE_CLOSED → AccAddressFromBech32 (Tenant l) = Some a →
  performSettlementCore l now silent w = (Ok r, w1) → abs_lease l' = with_state s now (abs_lease l) →
  Leases w' = <[Uuid l := l']> (Leases w) → bank w' = bank w1 → sku w' = sku w →
  market_step now (Settled (Uuid l) (TransferAmounts r)) (abs w) (abs w').
Proof.
  intros Hwf Hl Hs Hs' Ha E Habs HL HB HS. pose proof E as Hm.
  eapply performSettlementCore_ok in Hm as [Hm _]; [|exact Ha|apply Hwf].
  eapply ms_settle; [by apply abs_lookup|exact Hs|exact Hs'|apply Hwf|exact Ha| |by eapply moved_transferred|].
  - eapply settlement_due; [exact Ha|apply Hwf|apply Hwf|exact E].
  - by rewrite (abs_insert _ _ _ _ HL), Habs.
Qed.
End abstraction.
