(* ===== verification/CreateInv.v ===== *)
(** * Lease creation keeps the billing invariant

    What [createLeaseInternal] checks and writes: prices are locked from active SKUs of one
    provider, the reservation is covered by the tenant's credit, the counters stay below their
    limits, and the invariant holds afterwards. *)

From stdpp Require Import base tactics option list strings gmap sorting fin_maps.
From Stdlib Require Import ZArith Lia.
From S2P Require Import Prelude Sdk SdkRef Uuid GoStd SkuTypes BillingTypes BillingMsgs SkuKeeper Credit Accrual Keeper LeaseStore Settlement Lifecycle Genesis Invariant LifecycleInv.
Open Scope Z_scope.

Section creation.
Context `{SL : SDKLaws} `{SK : SKUKeeper} {KL : SKUKeeperLaws SK} `{GL : GoStdLaws} (env : Env).
Implicit Types (w : World) (l : Lease) (accs : gmap string CreditAccount) (b : batch).

Notation now := (blockTime env).
(** ** Lease creation *)

(** The SKU an item was made from, at the time it was made. *)
Definition priced (s : SkuState) (pr : option string) (i : LeaseItem) : Prop :=
  ∃ k, GetSKU s (item_SkuUuid i) = Ok k ∧ sku_Active k = true ∧ pr = Some (sku_ProviderUuid k) ∧
       ConvertBasePriceToPerSecond (sku_BasePrice k) (sku_Unit k) = Ok (LockedPrice i).

(** What the loop over the requested items has built. *)
Record resolved (s : SkuState) (inputs : list LeaseItemInput) (pr : option string) (items : list LeaseItem)
    (rates : Coins) : Prop := mkResolved {
  rs_items : Forall item_ok items;
  rs_valid : valid_coins rates;
  rs_rates : ∀ d, amt rates d = rate items d;
  rs_inputs : (λ i, (item_SkuUuid i, Quantity i, item_ServiceName i)) <$> items =
              (λ i, (in_SkuUuid i, in_Quantity i, in_ServiceName i)) <$> inputs;
  rs_domains : Forall (λ i, CustomDomain i = ""%string) items;
  rs_priced : Forall (priced s pr) items;
  rs_provider : items = [] ↔ pr = None }.

Lemma resolve_item_ok s inputs input pr items rates pr' items' rates' :
  sku_inv s → 0 < in_Quantity input ≤ max_u64 → resolved s inputs pr items rates →
  resolve_item s (pr, items, rates) input = Ok (pr', items', rates') →
  resolved s (inputs ++ [input]) pr' items' rates'.
Proof.
  intros Hs Hq [Hi Hv Hr Hin Hd Hp Hpr] E. unfold resolve_item in E. run_inv.
  match goal with H : GetSKU _ _ = Ok ?k |- _ => rename k into sk; pose proof H as HG; apply GetSKU_price in H as [[Hdn Hpos] _]; [|done] end.
  destruct (negb (sku_Active sk)) eqn:Hact; [done|]. apply negb_false_iff in Hact. run_inv.
  match goal with H : ConvertBasePriceToPerSecond _ _ = Ok ?c |- _ => rename c into price; pose proof H as HC;
    apply ConvertBasePriceToPerSecond_ok in H as (Hpd & Hpv & Hpa); [|lia] end.
  match goal with H : int_Mul _ _ = Ok _ |- _ => apply int_Mul_ok in H as [-> Hmul] end.
  match goal with H : NewCoin _ _ = Ok _ |- _ => apply NewCoin_ok in H as (-> & _ & _) end.
  match goal with H : Coins_Add _ _ = Ok _ |- _ =>
    apply Coins_Add_ok in H as [Hv' Ha']; [|done|apply valid_singleton; split; cbn; [done|nia]] end.
  match goal with H : (match pr with _ => _ end) = Ok ?q |- _ =>
    assert (Hq' : q = sku_ProviderUuid sk ∧ (items = [] ∨ pr = Some q)) end.
  { destruct pr as [q'|]; [|run_inv; split; [done|left; by apply Hpr]].
    destruct (negb _) eqn:Eq; [done|]. apply negb_false_iff, String.eqb_eq in Eq. run_inv. by split; [|right]. }
  destruct Hq' as [-> Hprq]. split.
  - apply Forall_app. split; [done|]. constructor; [|done]. split; cbn; [split; [done|lia]|done].
  - done.
  - intros d. rewrite Ha', Hr, amt_singleton. unfold rate, coin_amt. rewrite lsum_app. cbn [lsum].
    unfold item_rate at 3. cbn [LockedPrice Quantity Denom Amount]. case_decide; lia.
  - rewrite !fmap_app, Hin. done.
  - apply Forall_app. split; [done|]. by constructor.
  - apply Forall_app. split; [destruct Hprq as [->| ->]; done|]. constructor; [|done]. by exists sk.
  - split; [|done]. by destruct items.
Qed.

Lemma resolve_items_ok s inputs pr items rates :
  sku_inv s → Forall (λ i, 0 < in_Quantity i ≤ max_u64) inputs →
  resolve_items s inputs = Ok (pr, items, rates) → resolved s inputs pr items rates.
Proof.
  intros Hs. unfold resolve_items.
  assert (Hgen : ∀ dn pr0 items0 rates0, resolved s dn pr0 items0 rates0 →
    Forall (λ i, 0 < in_Quantity i ≤ max_u64) inputs →
    foldlM (resolve_item s) (pr0, items0, rates0) inputs = Ok (pr, items, rates) →
    resolved s (dn ++ inputs) pr items rates).
  { induction inputs as [|i inputs IH]; intros dn pr0 items0 rates0 Hres Hq E; cbn [foldlM] in E; run_inv.
    - by rewrite app_nil_r.
    - apply Forall_cons in Hq as [Hq0 Hq].
      match goal with H : resolve_item _ _ _ = Ok ?x |- _ => destruct x as [[pr1 items1] rates1];
        eapply resolve_item_ok in H; [|done..] end.
      eapply IH in E; [|done..]. by rewrite <- app_assoc in E. }
  intros Hq E. apply (Hgen []) in E; [done| |done]. split; try done. apply valid_coins_nil.
Qed.

Lemma check_available_ok avail res u :
  valid_coins avail → valid_coins res → check_available avail res = Ok u →
  ∀ d, 0 < amt res d → amt res d ≤ amt avail d.
Proof.
  intros Hav Hres E d Hp. destruct (amt_pos_elem res d Hres Hp) as (c & Hc & <- & ->).
  revert Hc E. pose proof Hres as (_ & _ & Hf). clear Hres Hp.
  induction res as [|r res IH]; [set_solver|]. intros Hc E. cbn in E. apply Forall_cons in Hf as [[Hrd _] Hf].
  rewrite Coins_AmountOf_spec in E by done. cbn in E. destruct (_ <? _) eqn:El; [done|].
  apply elem_of_cons in Hc as [->|Hc]; [lia|]. by apply IH.
Qed.

(** What the reservation step does: the account after it reserves the new lease's amount on top,
    and the credit balance covers all of it. *)
Lemma create_reserve_ok p t a ca items rates w ca' w' :
  AccAddressFromBech32 t = Some a → valid_coins (ReservedAmounts ca) → 0 < MinLeaseDuration p →
  valid_coins rates → (∀ d, amt rates d = rate items d) →
  create_reserve p t ca rates w = (Ok ca', w') →
  w' = w ∧ ∃ r, ca' = set_ReservedAmounts r ca ∧ valid_coins r ∧
    (∀ d, amt r d = amt (ReservedAmounts ca) d + rate items d * MinLeaseDuration p) ∧
    (∀ d, 0 < rate items d → amt r d ≤ credit_balance w a d).
Proof.
  intros Ha Hv Hp Hrv Hr E. unfold create_reserve in E. run_inv.
  match goal with H : CalculateLeaseReservationFromRates _ _ = Ok ?x |- _ => rename x into res;
    apply CalculateLeaseReservationFromRates_ok in H as [Hresv Hres]; [|done|lia] end.
  match goal with H : getCreditBalancesForDenoms _ _ _ = _ |- _ =>
    destruct (getCreditBalancesForDenoms_spec w t a (Denom <$> rates)) as (bal & Eb & Hbv & Hbal);
    [done|apply Hrv|apply Forall_fmap; eapply Forall_impl; [apply Hrv|]; by intros ? [? ?]|]; rewrite Eb in H; injection H as <- <- end.
  match goal with H : GetAvailableCredit _ _ = Ok ?x |- _ => 
    destruct (GetAvailableCredit_spec bal (ReservedAmounts ca) Hbv Hv) as (av & Eav & Hav & Havd); rewrite Eav in H; injection H as <- end.
  match goal with H : check_available _ _ = _ |- _ => rename H into Hchk end.
  match goal with H : AddReservation _ _ = Ok _ |- _ => unfold AddReservation in H; apply Coins_Add_ok in H as [Hsv Hs]; [|done..] end.
  split; [done|]. eexists. split_and!; [done|done| |].
  - intros d. by rewrite Hs, Hres, Hr.
  - intros d Hpos. rewrite Hs. assert (Hrp : 0 < amt res d) by (rewrite Hres, Hr; nia).
    eapply check_available_ok in Hchk; [|done..]. rewrite Havd, Hbal in Hchk.
    pose proof (amt_range (ReservedAmounts ca) d Hv). case_decide; [|lia]. lia.
Qed.

Lemma create_check_limits_ok p t items w ca w' :
  create_check_limits p t items w = (Ok ca, w') →
  w' = w ∧ (∃ a, AccAddressFromBech32 t = Some a ∧ CreditAccounts w !! a = Some ca) ∧
  llen items ≤ MaxItemsPerLease p ∧
  ActiveLeaseCount ca < MaxLeasesPerTenant p ∧ PendingLeaseCount ca < MaxPendingLeasesPerTenant p.
Proof.
  unfold create_check_limits. intros E. destruct (_ <? llen items) eqn:E1; [done|]. run_inv.
  match goal with H : GetCreditAccount _ _ = _ |- _ => apply GetCreditAccount_ok in H as (-> & a & Ha & Hca) end.
  destruct (_ <=? ActiveLeaseCount _) eqn:E2; [done|]. destruct (_ <=? PendingLeaseCount _) eqn:E3; [done|]. run_inv.
  split_and!; [done|by eauto|lia..].
Qed.

Lemma create_check_provider_ok pr w u w' :
  create_check_provider pr w = (Ok u, w') → w' = w ∧ ∃ P, GetProvider (sku w) pr = Ok P ∧ prov_Active P = true.
Proof.
  unfold create_check_provider. intros E. run_inv. destruct (negb (prov_Active _)) eqn:Ea; [done|].
  run_inv. apply negb_false_iff in Ea. eauto.
Qed.

(** The account transition of a creation. *)
Lemma acct_ok_create L a ca l p r :
  L !! Uuid l = None → AccAddressFromBech32 (Tenant l) = Some a → State l = LEASE_STATE_PENDING →
  ActiveLeaseCount ca < MaxLeasesPerTenant p ≤ MaxLeasesPerTenantUpperBound →
  PendingLeaseCount ca < MaxPendingLeasesPerTenant p ≤ MaxPendingLeasesPerTenantUpperBound →
  valid_coins r → (∀ d, amt r d = amt (ReservedAmounts ca) d + reserved_for l d) → acct_ok L a ca →
  let c := set_ReservedAmounts r ca in
  acct_ok (<[Uuid l := l]> L) a (set_PendingLeaseCount (wrap_u64 (PendingLeaseCount c + 1)) c).
Proof.
  intros Hn Ha Hs HA HP Hv Hr [Ht Hac Hpe Hvr Hre Hb]. destruct (acct_sums_new L a l Hn) as [Hc Hrs].
  assert (Hti : tenant_is a l = true) by by apply bool_decide_true.
  assert (0 ≤ PendingLeaseCount ca) by (rewrite Hpe; apply map_sum_nonneg; intros; apply count_nonneg).
  unfold max_live, MaxLeasesPerTenantUpperBound, MaxPendingLeasesPerTenantUpperBound in *.
  assert (Hw : wrap_u64 (PendingLeaseCount ca + 1) = PendingLeaseCount ca + 1) by (apply wrap_u64_id; unfold max_u64; lia).
  assert (H1 : count_of LEASE_STATE_ACTIVE a l = 0 ∧ count_of LEASE_STATE_PENDING a l = 1)
    by (unfold count_of; by rewrite Hti, Hs).
  split; cbn -[amt]; try done; rewrite ?Hw, ?Hc.
  - lia.
  - lia.
  - intros d. rewrite Hr, Hrs, Hre. unfold resv_of at 3. rewrite Hti, Hs. done.
  - unfold max_live, MaxLeasesPerTenantUpperBound, MaxPendingLeasesPerTenantUpperBound. lia.
Qed.

(** Items that passed validation have quantities in range. *)
Lemma validated_quantities items :
  Forall (λ i, 0 ≤ in_Quantity i) items → ValidateLeaseItems items = Ok tt →
  Forall (λ i, 0 < in_Quantity i ≤ max_u64) items.
Proof.
  intros Hq Hv. unfold ValidateLeaseItems in Hv. checks_inv.
  match goal with H : validate_items_fields _ = Ok _ |- _ => apply validate_items_fields_ok in H as [Hf _] end.
  rewrite Forall_forall in Hq, Hf. apply Forall_forall. intros i Hi. specialize (Hq i Hi).
  destruct (Hf i Hi) as (_ & ? & ?). unfold MaxQuantityPerItem, max_u64 in *. lia.
Qed.

Lemma SetCreditAccount_bank ca w u w' : SetCreditAccount ca w = (Ok u, w') → bank w' = bank w ∧ sku w' = sku w.
Proof. unfold SetCreditAccount. intros E. run_split. done. Qed.

Lemma HasAdminPrivileges_ok sender w role w' :
  HasAdminPrivileges env sender w = (Ok role, w') → String.eqb role "" = false →
  w' = w ∧ (sender = authority env ∨ ∃ p, k_Params w = Some p ∧ Params_IsAllowed p sender = true).
Proof.
  unfold HasAdminPrivileges. intros E Hr. destruct (String.eqb_spec sender (authority env)) as [->|]; run_inv; [by eauto|].
  match goal with H : GetParams _ = _ |- _ => apply GetParams_ok in H as [-> Hp] end.
  destruct (Params_IsAllowed _ _) eqn:Ea; [by eauto|done].
Qed.

(** The message was decoded from the wire: quantities are uint64. *)
Definition inputs_u64 (items : list LeaseItemInput) : Prop := Forall (λ i, 0 ≤ in_Quantity i) items.

(** The generated UUID is not taken, and the sequence has not run through all of uint64. *)
Definition fresh_lease w : Prop :=
  Leases w !! GenerateUUIDv7 (block env) ModuleName (LeaseSequence w) = None ∧ LeaseSequence w < max_u64.

(** What a successful creation of lease [u] did. *)
Definition created w (t : string) (inputs : list LeaseItemInput) (meta u : string) w' : Prop :=
  ∃ p a pr items rates,
    k_Params w = Some p ∧ AccAddressFromBech32 t = Some a ∧
    resolved (sku w) inputs pr items rates ∧
    (∃ P, GetProvider (sku w) (default ""%string pr) = Ok P ∧ prov_Active P = true) ∧
    Leases w' = <[u := new_lease env u t (default ""%string pr) meta items p]> (Leases w) ∧
    llen inputs ≤ MaxItemsPerLease p ∧
    map_sum (count_of LEASE_STATE_ACTIVE a) (Leases w) < MaxLeasesPerTenant p ∧
    map_sum (count_of LEASE_STATE_PENDING a) (Leases w) < MaxPendingLeasesPerTenant p ∧
    (∀ d, 0 < rate items d → map_sum (resv_of a d) (Leases w') ≤ credit_balance w' a d) ∧
    Leases w !! u = None ∧ bank w' = bank w ∧ sku w' = sku w.

(** The shape of the new lease is that of the validated inputs. *)
Lemma new_lease_shape u t pr meta items p rates inputs s :
  ValidateLeaseItems inputs = Ok tt → Forall (λ i, 0 ≤ in_Quantity i) inputs → resolved s inputs pr items rates →
  IsValidUUID u = true → IsValidUUID (default ""%string pr) = true → len meta ≤ MaxMetaHashLength →
  lease_shape (new_lease env u t (default ""%string pr) meta items p).
Proof.
  intros Hv Hq [_ _ _ Hin Hd _ _] Hu Hp Hm.
  apply ValidateLeaseItems_iff in Hv as (Hlen & Hf & Hmode); [|done].
  assert (Hs : item_SkuUuid <$> items = in_SkuUuid <$> inputs).
  { apply (f_equal (fmap (λ x : string * Z * string, x.1.1))) in Hin. by rewrite <- !list_fmap_compose in Hin. }
  assert (Hn : item_ServiceName <$> items = in_ServiceName <$> inputs).
  { apply (f_equal (fmap (λ x : string * Z * string, x.2))) in Hin. by rewrite <- !list_fmap_compose in Hin. }
  assert (Hto : ∀ P : string → Prop, Forall (λ i, P (in_ServiceName i)) inputs → Forall (λ i, P (item_ServiceName i)) items).
  { intros P HP. apply (Forall_fmap item_ServiceName P). rewrite Hn. by apply Forall_fmap. }
  split; cbn; try done.
  - intros ->. destruct inputs; [unfold llen in Hlen; cbn in Hlen; lia|done].
  - apply (Forall_fmap item_SkuUuid (λ k, IsValidUUID k = true)). rewrite Hs. apply Forall_fmap.
    eapply Forall_impl; [exact Hf|]. by intros i [? _].
  - rewrite Hs, Hn. destruct Hmode as [[Hl ?]|[Hl ?]]; [left|right]; (split; [|done]).
    + by apply (Hto (λ x, IsValidDNSLabel x = true)).
    + by apply (Hto (λ x, x = ""%string)).
  - intros i Hi Hne. rewrite Forall_forall in Hd. by rewrite (Hd i Hi) in Hne.
Qed.

Lemma new_lease_wf u t pr meta items p rates inputs s :
  canonical t → 0 < MinLeaseDuration p → resolved s inputs pr items rates → zero_time < now →
  lease_shape (new_lease env u t (default ""%string pr) meta items p) →
  lease_wf now u (new_lease env u t (default ""%string pr) meta items p) ∧
  domains_wf items.
Proof.
  intros Ht Hp [Hi _ _ _ Hd _ _] Hnow Hsh. split; [split; cbn; (done || lia)|].
  intros i j Hii _ Hne. rewrite Forall_forall in Hd. by rewrite (Hd i Hii) in Hne.
Qed.

Lemma new_lease_refs s inputs u t pr meta items p rates P :
  resolved s inputs pr items rates → GetProvider s (default ""%string pr) = Ok P →
  lease_refs s (new_lease env u t (default ""%string pr) meta items p).
Proof.
  intros Hres HP. split; cbn; [by exists P|]. intros i Hi. pose proof (rs_priced _ _ _ _ _ Hres) as Hpr.
  rewrite Forall_forall in Hpr. destruct (Hpr i Hi) as (k & Hk & _ & -> & _). eauto.
Qed.

Lemma createLeaseInternal_ok t inputs meta w r w' :
  BillingInv now w → canonical t → ValidateLeaseItems inputs = Ok tt → inputs_u64 inputs →
  len meta ≤ MaxMetaHashLength → fresh_lease w →
  createLeaseInternal env t inputs meta w = (Ok r, w') →
  kept env w w' ∧ created w t inputs meta (cr_leaseUUID r) w'.
Proof.
  intros HI Ht Hvi Hq0 Hmeta [Hfresh Hroom] E. pose proof Ht as (a & Ha & _).
  pose proof (validated_quantities inputs Hq0 Hvi) as Hq. unfold createLeaseInternal in E. run_inv.
  match goal with H : GetParams _ = _ |- _ => apply GetParams_ok in H as [-> Hpar] end.
  destruct (I_params _ _ _ HI) as (p & Hp & Hval & Hu64).
  match goal with H : k_Params w = Some ?x |- _ => assert (x = p) as -> by congruence end.
  destruct (Params_Validate_bounds p Hval Hu64) as (Hdur & HmaxA & HmaxP & _).
  match goal with H : create_check_limits _ _ _ _ = (Ok ?x, _) |- _ => rename x into ca;
    apply create_check_limits_ok in H as (-> & (a' & Ha' & Hca) & Hlen & Hac & Hpe) end.
  assert (a' = a) as -> by congruence.
  match goal with H : resolve_items _ _ = Ok ?x |- _ => destruct x as [[pr items] rates];
    apply resolve_items_ok in H as Hres; [|apply HI|done] end.
  run_inv.
  match goal with H : create_check_provider _ _ = _ |- _ => apply create_check_provider_ok in H as [-> Hprov] end.
  pose proof (BillingInv_acct _ _ _ _ HI Hca) as Hok.
  match goal with H : create_reserve _ _ _ _ _ = _ |- _ => eapply create_reserve_ok in H as (-> & rv & -> & Hrv & Hrd & Hcov);
    [|done|apply Hok|apply Hdur|apply Hres|apply Hres] end.
  unfold GetNextLeaseSequence in *. run_inv. cbn [cr_leaseUUID].
  set (u := GenerateUUIDv7 _ _ _) in *.
  set (l := new_lease env u t (default ""%string pr) meta items p) in *.
  destruct (new_lease_wf u t pr meta items p rates inputs (sku w) Ht (proj1 Hdur) Hres (I_now _ _ _ HI)) as [Hwf Hdw].
  { destruct Hprov as (P & HP & _). eapply new_lease_shape; [done..|apply generated_valid| |done].
    eapply GetProvider_uuid; [apply HI|done]. }
  match goal with H : SetLease l ?w1 = (Ok _, ?w2) |- _ => pose proof H as (_ & HL & (_ & _ & HC & _ & HSK & HB & _))%SetLease_ok;
    destruct (Inv_next (<[t := ca]> ∅) now w Hroom) as [HI1 Hseq];
      [eapply Inv_fetch; [done|done|apply lookup_empty|done|done]|];
    eapply Inv_SetLease_new in H as [HI2 Hev];
      [|exact HI1|exact Hfresh|exact Hwf|exact Hdw|by destruct Hprov as (P & HP & _); eapply new_lease_refs|exact Hseq|exact Ha|apply lookup_insert_eq|] end.
  2: { intros Hok'. apply (acct_ok_create _ a ca l p rv); try done; lia. }
  cbn [Tenant l new_lease] in HI2.
  match goal with H : SetCreditAccount _ _ = _ |- _ => 
    eapply Inv_SetCreditAccount in H as Hset; [|exact HI2|apply lookup_insert_eq] end.
  destruct Hset as (HI3 & HL3 & HC3). specialize (HC3 a Ha).
  rewrite delete_insert_eq, delete_insert_eq, delete_empty in HI3.
  match goal with H : SetCreditAccount _ _ = _ |- _ => apply SetCreditAccount_bank in H as [HB3 HS3] end.
  split; [split; [done|by rewrite HL3]|]. exists p, a, pr, items, rates.
  split_and!; try done; [by rewrite HL3|rewrite <- (ok_active _ _ _ Hok); lia|rewrite <- (ok_pending _ _ _ Hok); lia| |by rewrite HB3, HB|by rewrite HS3, HSK].
  intros d Hd. destruct (I_accts _ _ _ HI3 a _ ltac:(by rewrite HC3, lookup_insert_eq)) as [_ Hok3].
  unfold view in Hok3. rewrite lookup_empty in Hok3. rewrite <- (ok_reserved _ _ _ Hok3 d).
  unfold credit_balance in *. rewrite HB3, HB. by apply Hcov.
Qed.

(** ** The two messages *)

Lemma CreateLease_created msg w u w' :
  BillingInv now w → canonical (cl_Tenant msg) → inputs_u64 (cl_Items msg) →
  fresh_lease w →
  CreateLease env msg w = (Ok u, w') →
  kept env w w' ∧ created w (cl_Tenant msg) (cl_Items msg) (cl_MetaHash msg) u w'.
Proof.
  intros HI Ht Hq Hf E. unfold CreateLease in E. run_inv. destruct_units.
  match goal with H : MsgCreateLease_ValidateBasic _ = Ok _ |- _ => unfold MsgCreateLease_ValidateBasic in H end.
  checks_inv.
  match goal with H : createLeaseInternal _ _ _ _ _ = _ |- _ => apply createLeaseInternal_ok in H as [Hk Hc]; [|done|done|done|done|lia|done] end.
  unfold emitLeaseCreatedEvent in *. events_inv. by split; [apply kept_set_events|].
Qed.

Lemma CreateLeaseForTenant_created msg w u w' :
  BillingInv now w → canonical (ct_Tenant msg) → inputs_u64 (ct_Items msg) →
  fresh_lease w →
  CreateLeaseForTenant env msg w = (Ok u, w') →
  kept env w w' ∧ created w (ct_Tenant msg) (ct_Items msg) (ct_MetaHash msg) u w' ∧
  (ct_Authority msg = authority env ∨ ∃ p, k_Params w = Some p ∧ Params_IsAllowed p (ct_Authority msg) = true).
Proof.
  intros HI Ht Hq Hf E. unfold CreateLeaseForTenant in E. run_inv. destruct_units.
  match goal with H : MsgCreateLeaseForTenant_ValidateBasic _ = Ok _ |- _ => unfold MsgCreateLeaseForTenant_ValidateBasic in H end.
  checks_inv. unfold isAuthorizedForTenantLeaseCreation in *. run_inv.
  destruct (negb _) eqn:Er in E; [done|]. apply negb_false_iff, negb_true_iff in Er. run_inv.
  match goal with H : HasAdminPrivileges _ _ _ = _ |- _ => apply HasAdminPrivileges_ok in H as [-> Hadm]; [|done] end.
  match goal with H : createLeaseInternal _ _ _ _ _ = _ |- _ => apply createLeaseInternal_ok in H as [Hk Hc]; [|done|done|done|done|lia|done] end.
  unfold emitLeaseCreatedEvent in *. events_inv. by split; [apply kept_set_events|].
Qed.

Lemma CreateLease_kept msg w u w' :
  BillingInv now w → canonical (cl_Tenant msg) → inputs_u64 (cl_Items msg) →
  fresh_lease w →
  CreateLease env msg w = (Ok u, w') → kept env w w'.
Proof. intros. by eapply CreateLease_created. Qed.

Lemma CreateLeaseForTenant_kept msg w u w' :
  BillingInv now w → canonical (ct_Tenant msg) → inputs_u64 (ct_Items msg) →
  fresh_lease w →
  CreateLeaseForTenant env msg w = (Ok u, w') → kept env w w'.
Proof. intros. by eapply CreateLeaseForTenant_created. Qed.

End creation.

#[export] Hint Resolve CreateLease_kept CreateLeaseForTenant_kept : ledger.
