(* ===== verification/Scenario.v ===== *)
(** * A concrete run, for the witnesses

    One provider with one SKU at 2 umfx per second; alice funds 20000 umfx of credit, leases one
    unit and the provider acknowledges; every state on the way satisfies the invariant. *)

From stdpp Require Import base tactics option list strings gmap sorting fin_maps.
From Stdlib Require Import ZArith Lia.
From S2P Require Import Prelude Sdk SdkRef Uuid GoStd SkuTypes BillingTypes BillingMsgs SkuKeeper Credit Accrual Keeper LeaseStore Settlement Lifecycle Genesis Invariant LifecycleInv CreateInv.
Open Scope Z_scope.

Definition demo_sku_uuid : string := "0190a1b2-0000-7000-8000-000000000002".
Definition demo_store : SkuStore :=
  mkSkuStore (Some (mkSkuParams [])) {[prov_Uuid example_provider := example_provider]}
    {[demo_sku_uuid := example_sku demo_sku_uuid]} 1 1 [].
Definition demo_env : Env := example_env_at (1000 * Second).

Definition demo_fund : MsgFundCredit := mkMsgFundCredit "alice" "alice" (mkCoin "umfx" 20000).
Definition demo_create : MsgCreateLease := mkMsgCreateLease "alice" [mkItemInput demo_sku_uuid 1 "web"] "".
Definition demo_lease_uuid : string := Eval vm_compute in GenerateUUIDv7 (block demo_env) ModuleName 0.
Definition demo_ack : MsgAcknowledgeLease := mkMsgAcknowledgeLease "prov" [demo_lease_uuid].

Definition demo_genesis : World := genesis DefaultParams demo_store example_bank.
Definition demo_funded : World := deliver (FundCredit demo_fund) demo_genesis.
Definition demo_pending : World := deliver (CreateLease demo_env demo_create) demo_funded.
Definition demo_active : World := deliver (AcknowledgeLease demo_env demo_ack) demo_pending.

Lemma demo_store_inv : SkuInv demo_store.
Proof.
  assert (Hc : valid_coin (mkCoin "umfx" 7200)) by (split; vm_compute; done).
  split.
  - intros u k. unfold demo_store; cbn. intros [<- <-]%lookup_singleton_Some. split_and!; [done|vm_compute; eauto|done|done].
  - intros u p. unfold demo_store; cbn. intros [<- <-]%lookup_singleton_Some. split_and!; vm_compute; first [reflexivity|eauto].
Qed.

Lemma DefaultParams_ok : Params_Validate DefaultParams = Ok tt ∧ params_u64 DefaultParams.
Proof. split; [vm_compute; reflexivity|]. repeat constructor; vm_compute; discriminate. Qed.

Lemma demo_genesis_inv : BillingInv (blockTime demo_env) demo_genesis.
Proof. apply genesis_inv; [apply DefaultParams_ok..|apply demo_store_inv|vm_compute; reflexivity]. Qed.

Lemma alice_canonical : canonical "alice".
Proof. exists "alice"%string. split; vm_compute; reflexivity. Qed.

Lemma demo_funded_inv : BillingInv (blockTime demo_env) demo_funded.
Proof.
  apply (deliver_inv (BillingInv _)); [apply demo_genesis_inv|]. intros r w' E.
  apply (FundCredit_kept demo_env) in E as [? _]; [done|apply demo_genesis_inv].
Qed.

Lemma demo_create_admissible :
  canonical (cl_Tenant demo_create) ∧ inputs_u64 (cl_Items demo_create) ∧
  fresh_lease demo_env demo_funded.
Proof.
  split_and!; [apply alice_canonical|repeat constructor; vm_compute; discriminate|].
  split; vm_compute; reflexivity.
Qed.

Lemma demo_pending_inv : BillingInv (blockTime demo_env) demo_pending.
Proof.
  destruct demo_create_admissible as (? & ? & ?).
  apply (deliver_inv (BillingInv _)); [apply demo_funded_inv|]. intros r w' E.
  apply CreateLease_created in E as [[? _] _]; [done|apply demo_funded_inv|done..].
Qed.

Lemma demo_active_inv : BillingInv (blockTime demo_env) demo_active.
Proof.
  apply (deliver_inv (BillingInv _)); [apply demo_pending_inv|]. intros r w' E.
  apply AcknowledgeLease_kept in E as [? _]; [done|apply demo_pending_inv].
Qed.

(** The run succeeds at every step. *)
Example demo_run :
  (FundCredit demo_fund demo_genesis).1 = Ok (AccAddress_String (DeriveCreditAddress "alice"), 20000) ∧
  (CreateLease demo_env demo_create demo_funded).1 = Ok demo_lease_uuid ∧
  (AcknowledgeLease demo_env demo_ack demo_pending).1 = Ok (blockTime demo_env, 1).
Proof. split_and!; vm_compute; reflexivity. Qed.

(** The account and the lease of the demo run. *)
Definition demo_account : CreditAccount :=
  mkCreditAccount "alice" (AccAddress_String (DeriveCreditAddress "alice")) 0 1 [mkCoin "umfx" 7200].
Definition demo_lease : Lease :=
  new_lease demo_env demo_lease_uuid "alice" (prov_Uuid example_provider) ""
    [mkLeaseItem demo_sku_uuid 1 (mkCoin "umfx" 2) "web" ""] DefaultParams.

Lemma demo_account_stored : CreditAccounts demo_pending !! "alice"%string = Some demo_account.
Proof. vm_compute. reflexivity. Qed.
Lemma demo_lease_stored : Leases demo_pending !! demo_lease_uuid = Some demo_lease.
Proof. vm_compute. reflexivity. Qed.
