(* ===== verification/WithdrawInv.v ===== *)
(** * Withdrawals, auto-close and expiry keep the billing invariant

    The operations that end one lease at a time, and the two withdrawal modes built on them; each
    withdrawal pays for the time since the last settlement and moves the settlement mark, so the
    same second is never paid twice. *)

From stdpp Require Import base tactics option list strings gmap sorting fin_maps.
From Stdlib Require Import ZArith Lia.
From S2P Require Import Prelude Sdk SdkRef Uuid GoStd SkuTypes BillingTypes BillingMsgs SkuKeeper Credit Accrual Keeper LeaseStore Settlement Lifecycle Withdraw EndBlocker Genesis Invariant LifecycleInv Market CreateInv.
Open Scope Z_scope.

Section withdraw_inv.
Context `{SL : SDKLaws} `{SK : SKUKeeper} {KL : SKUKeeperLaws SK} `{GL : GoStdLaws} (env : Env).
Implicit Types (w : World) (l : Lease) (accs : gmap string CreditAccount) (b : batch).

Notation now := (blockTime env).

(** ** Ending one lease *)

(** Storing an ended lease and writing its tenant's account. *)
Lemma end_lease_kept w l l' m ca ca' u1 w1 w2 u3 w3 :
  BillingInv now w → Leases w !! Uuid l = Some l → evolves l l' → lease_wf now (Uuid l) l' → Items l' = Items l →
  live (State l) = true → live (State l') = false →
  SetLease l' w = (Ok u1, w1) → GetCreditAccount (Tenant l) w1 = (Ok ca, w2) →
  ReleaseLeaseReservation
    (if decide (State l = LEASE_STATE_ACTIVE) then DecrementActiveLeaseCount ca else DecrementPendingLeaseCount ca)
    l' m = Ok ca' →
  SetCreditAccount ca' w2 = (Ok u3, w3) →
  kept env w w3 ∧ Leases w3 = <[Uuid l := l']> (Leases w) ∧ bank w3 = bank w ∧ sku w3 = sku w.
Proof.
  intros HI Hl He Hwf Hit Hlv Hdd E1 E2 E3 E4.
  pose proof E1 as (_ & HL & (_ & _ & HC & _ & HS & HB & _))%SetLease_ok.
  apply GetCreditAccount_ok in E2 as (-> & a & Ha & Hca). rewrite HC in Hca.
  destruct (stored_wf _ _ _ _ _ HI Hl) as [Hwf0 _]. pose proof (ev_uuid _ _ He) as Hu.
  assert (HI1 : Inv (<[Tenant l := ca]> ∅) now w).
  { eapply Inv_fetch; [done|apply Hwf0|apply lookup_empty|done|done]. }
  destruct (Inv_SetLease _ now w l l' a ca ca' u1 w1 HI1) as [HI2 Hev]; try done.
  - rewrite Hit. destruct (I_dom _ _ _ HI) as [Hd _]. by eapply Hd.
  - apply lookup_insert_eq.
  - intros Hok. eapply acct_ok_end; try done. apply HI.
  - eapply Inv_SetCreditAccount in E4 as Hset; [|exact HI2|apply lookup_insert_eq].
    destruct Hset as (HI3 & HL3 & _). rewrite delete_insert_eq, delete_insert_eq, delete_empty in HI3.
    apply SetCreditAccount_bank in E4 as [HB3 HS3]. split_and!; [split; [done|by rewrite HL3]| |congruence..].
    by rewrite HL3, HL, Hu.
Qed.

(** ** AutoCloseLease *)

Lemma auto_closed_ok l :
  lease_wf now (Uuid l) l → State l = LEASE_STATE_ACTIVE →
  evolves l (auto_closed now l) ∧ lease_wf now (Uuid l) (auto_closed now l).
Proof. intros Hwf Hs. by apply closed_ok. Qed.

Lemma kept_moved l a cs w w1 w2 : moved l a cs w w1 → kept env w1 w2 → kept env w w2.
Proof. intros Hm [HI Hev]. destruct (moved_frame _ _ _ _ _ Hm) as (HL & _). split; [done|]. by rewrite <- HL. Qed.

Lemma AutoCloseLease_ok w l a m cs w' :
  BillingInv now w → Leases w !! Uuid l = Some l → State l = LEASE_STATE_ACTIVE →
  AccAddressFromBech32 (Tenant l) = Some a → AutoCloseLease l now m w = (Ok cs, w') →
  kept env w w' ∧ Leases w' = <[Uuid l := auto_closed now l]> (Leases w) ∧
  ∃ r w1, PerformSettlementSilent l now w = (Ok r, w1) ∧ moved l a cs w w1 ∧ cs = TransferAmounts r ∧ bank w' = bank w1 ∧ sku w' = sku w.
Proof.
  intros HI Hl Hs Ha E. destruct (stored_wf _ _ _ _ _ HI Hl) as [Hwf _].
  destruct (auto_closed_ok l Hwf Hs) as [He Hwf']. unfold AutoCloseLease in E. run_inv.
  match goal with H : PerformSettlementSilent _ _ _ = _ |- _ => pose proof H as Hset;
    eapply performSettlementCore_ok in H as [Hm _]; [|exact Ha|apply Hwf] end.
  destruct (moved_frame _ _ _ _ _ Hm) as (HL & _ & _ & _ & _ & _ & HS1 & _).
  match goal with H : SetLease _ ?w1 = _ |- _ => assert (HI1 : BillingInv now w1) by (by eapply Inv_moved);
    eapply (end_lease_kept w1 l (auto_closed now l)) in H as (Hk & HL' & HB & HS); try done; [|by rewrite HL|by rewrite Hs|by rewrite Hs] end.
  split_and!; [by eapply kept_moved|by rewrite HL', HL|]. rewrite HS1 in HS. eauto 10.
Qed.

(** ** Settling without closing *)

Lemma settled_ok l t :
  lease_wf now (Uuid l) l → LastSettledAt l ≤ t ≤ now → (State l = LEASE_STATE_CLOSED → t = LastSettledAt l) →
  evolves l (set_LastSettledAt t l) ∧ lease_wf now (Uuid l) (set_LastSettledAt t l).
Proof.
  intros [Hwu Hwt Hwi Hwd Hwtm Hwc Hwo Hwp] Ht Hcl. split; [split; cbn; try done; [by left|lia]|].
  split; cbn; try done; [lia| |by apply (lease_shape_same l); try done; apply Hwp]. intros Hs. by rewrite (Hcl Hs), (Hwc Hs).
Qed.

Lemma SetLease_settled_kept w l t u w' :
  BillingInv now w → Leases w !! Uuid l = Some l → LastSettledAt l ≤ t ≤ now →
  (State l = LEASE_STATE_CLOSED → t = LastSettledAt l) → SetLease (set_LastSettledAt t l) w = (Ok u, w') →
  kept env w w' ∧ Leases w' = <[Uuid l := set_LastSettledAt t l]> (Leases w) ∧ bank w' = bank w ∧ sku w' = sku w.
Proof.
  intros HI Hl Ht Hc E. destruct (stored_wf _ _ _ _ _ HI Hl) as [Hwf _].
  destruct (settled_ok l t Hwf Ht Hc) as [He Hwf'].
  pose proof E as (_ & HL & (_ & _ & _ & _ & HS & HB & _))%SetLease_ok.
  eapply Inv_SetLease_same in E as [HI' Hev]; try done.
  cbn. destruct (I_dom _ _ _ HI) as [Hd _]. by eapply Hd.
Qed.

(** ** What a withdrawal moves *)

(** One transfer from a tenant's credit address to a provider. *)
Record transfer : Type := mkTransfer { t_provider : string; t_tenant : Addr; t_coins : Coins }.

(** The balances after the transfers [ts]. *)
Definition pays w w' (ts : list transfer) : Prop :=
  sku w' = sku w ∧
  ∀ x d, GetBalance (bank w') x d =
    GetBalance (bank w) x d
    - lsum (λ t, if decide (x = DeriveCreditAddress (t_tenant t)) then amt (t_coins t) d else 0) ts
    + lsum (λ t, if decide (payout_of w (t_provider t) = Some x) then amt (t_coins t) d else 0) ts.

(** What they add up to. *)
Definition sums_to (total : Coins) (ts : list transfer) : Prop :=
  ∀ d, amt total d = lsum (λ t, amt (t_coins t) d) ts.

Lemma pays_refl w : pays w w [].
Proof. split; [done|]. intros x d. cbn. lia. Qed.

Lemma pays_trans w1 w2 w3 ts1 ts2 : pays w1 w2 ts1 → pays w2 w3 ts2 → pays w1 w3 (ts1 ++ ts2).
Proof.
  intros [HS1 H1] [HS2 H2]. split; [congruence|]. intros x d. rewrite H2, H1, !lsum_app.
  unfold payout_of. rewrite HS1. lia.
Qed.

Lemma moved_pays l a cs w w1 w' :
  moved l a cs w w1 → bank w' = bank w1 → sku w' = sku w → pays w w' [mkTransfer (ProviderUuid l) a cs].
Proof.
  intros (_ & _ & _ & Hb) HB HS. split; [done|]. intros x d. rewrite HB. cbn [lsum t_tenant t_coins t_provider].
  destruct Hb as [[-> ->]|(p & payout & Hp & Hpay & Hb)].
  - change (amt [] d) with 0. repeat case_decide; lia.
  - rewrite Hb. unfold payout_of. rewrite Hp, Hpay. repeat case_decide; simplify_eq; lia.
Qed.

(** A lease still to be processed. *)
Definition stored w l : Prop := Leases w !! Uuid l = Some l.

Lemma stored_rest w w' l l' ls :
  NoDup (Uuid <$> l :: ls) → Leases w' = <[Uuid l := l']> (Leases w) → Forall (stored w) ls → Forall (stored w') ls.
Proof.
  rewrite fmap_cons, NoDup_cons. intros [Hn _] HL Hst. apply Forall_forall. intros k Hk. rewrite Forall_forall in Hst.
  unfold stored. rewrite HL, lookup_insert_ne; [by apply Hst|]. intros Heq. apply Hn. rewrite Heq. by apply list_elem_of_fmap_2.
Qed.

Lemma settle_time_cases l :
  lease_wf now (Uuid l) l →
  State l = LEASE_STATE_ACTIVE ∧ settle_time env l = now ∨
  State l ≠ LEASE_STATE_ACTIVE ∧ settle_time env l = LastSettledAt l.
Proof.
  intros Hwf. unfold settle_time. destruct (state_is _ _) eqn:Es.
  - apply state_is_true in Es. by left.
  - right. assert (Hne : State l ≠ LEASE_STATE_ACTIVE) by (intros Hs; apply state_is_true in Hs; congruence).
    split; [done|]. destruct (decide (State l = LEASE_STATE_CLOSED)) as [Hc|Hc].
    + by rewrite (wf_closed _ _ _ Hwf Hc).
    + by rewrite (wf_open _ _ _ Hwf Hc).
Qed.

(** Settling one stored lease, however it ends: [cs] is what moved. *)
Record settled_one w l (cs : Coins) w' : Prop := mkSettledOne {
  so_kept : kept env w w';
  so_rest : ∀ ls, NoDup (Uuid <$> l :: ls) → Forall (stored w) ls → Forall (stored w') ls;
  so_valid : valid_coins cs;
  so_pays : ∃ a, pays w w' [mkTransfer (ProviderUuid l) a cs];
  so_market : runs_by now None (abs w) (abs w') }.

Lemma settled_auto w l m cs w' :
  BillingInv now w → stored w l → State l = LEASE_STATE_ACTIVE →
  AutoCloseLease l now m w = (Ok cs, w') → settled_one w l cs w'.
Proof.
  intros HI Hl Hs E. destruct (stored_wf _ _ _ _ _ HI Hl) as [Hwf _].
  destruct (wf_tenant _ _ _ Hwf) as (a & Ha & _).
  eapply AutoCloseLease_ok in E as (Hk & HL & r & w1 & Eset & Hm & _ & HB & HS); [|done..].
  split; [done| |apply Hm|exists a; by eapply moved_pays|].
  - intros ls Hn Hst. by eapply stored_rest.
  - eapply runs_step; [eapply (settlement_step _ l (auto_closed now l) a LEASE_STATE_CLOSED); [exact Hwf|exact Hl|exact Hs|by right|exact Ha|exact Eset|done..]|exact I].
Qed.

Lemma settled_mark w l t silent r w1 u w' :
  BillingInv now w → stored w l → t = now → State l = LEASE_STATE_ACTIVE → LastSettledAt l ≤ t →
  performSettlementCore l t silent w = (Ok r, w1) →
  SetLease (set_LastSettledAt t l) w1 = (Ok u, w') → settled_one w l (TransferAmounts r) w'.
Proof.
  intros HI Hl -> Hs Ht Eset Est. destruct (stored_wf _ _ _ _ _ HI Hl) as [Hwf _].
  destruct (wf_tenant _ _ _ Hwf) as (a & Ha & _).
  pose proof Eset as Hm. eapply performSettlementCore_ok in Hm as [Hm _]; [|exact Ha|apply Hwf].
  destruct (moved_frame _ _ _ _ _ Hm) as (HL & _ & _ & _ & _ & _ & HS1 & _).
  eapply SetLease_settled_kept in Est as (Hk & HL' & HB & HS); [|by eapply Inv_moved|by rewrite HL|lia|by rewrite Hs].
  split; [by eapply kept_moved| |apply Hm|exists a; eapply moved_pays; [done|done|congruence]|].
  - intros ls Hn Hst. eapply stored_rest; [done|by rewrite HL', HL|done].
  - eapply runs_step; [eapply (settlement_step _ l (set_LastSettledAt now l) a LEASE_STATE_ACTIVE); [exact Hwf|exact Hl|exact Hs|by left|exact Ha|exact Eset|..]|exact I].
    + unfold abs_lease, with_state. cbn. by rewrite Hs.
    + by rewrite HL', HL.
    + done.
    + congruence.
Qed.

Lemma settled_nothing w l t r w' :
  BillingInv now w → stored w l → PerformSettlement l t w = (Ok r, w') → (∀ d, amt (TransferAmounts r) d = 0) →
  settled_one w l (TransferAmounts r) w'.
Proof.
  intros HI Hl E Hz. destruct (stored_wf _ _ _ _ _ HI Hl) as [Hwf _]. destruct (wf_tenant _ _ _ Hwf) as (a & Ha & _).
  eapply performSettlementCore_ok in E as [Hm _]; [|exact Ha|apply Hwf].
  destruct (moved_frame _ _ _ _ _ Hm) as (HL & _ & _ & _ & _ & _ & HS & _).
  split; [split; [by eapply Inv_moved|by rewrite HL]| |apply Hm|exists a; by eapply moved_pays|].
  - intros ls _. unfold stored. by rewrite HL.
  - eapply runs_step; [eapply ms_idle; [cbn; by rewrite HL|]|exact I].
    destruct (moved_transferred l a _ w w' w' Hm eq_refl HS) as [Hp Hb]. split; [done|]. intros x d.
    rewrite Hb, Hz. repeat case_decide; lia.
Qed.

(** A settlement that pays nothing leaves nothing to mark: only an active lease has more to pay. *)
Lemma settle_time_pays w l a silent r w' :
  lease_wf now (Uuid l) l → AccAddressFromBech32 (Tenant l) = Some a →
  performSettlementCore l (settle_time env l) silent w = (Ok r, w') →
  Coins_IsZero (AccruedAmounts r) = false → State l = LEASE_STATE_ACTIVE ∧ settle_time env l = now.
Proof.
  intros Hwf Ha E Hz. destruct (settle_time_cases l Hwf) as [?|[_ Ht]]; [done|]. exfalso. rewrite Ht in E.
  eapply performSettlementCore_ok in E as [_ Hc]; [|exact Ha|apply Hwf].
  pose proof (time_Sub_sign (LastSettledAt l) (LastSettledAt l)) as [Hs _].
  destruct Hc as [[_ ->]|[Hd _]]; [|lia].
  cbn in Hz. by rewrite (proj2 (Coins_IsZero_spec [] valid_coins_nil)) in Hz.
Qed.

(** ** withdrawFromLeases *)

(** The loop so far: [ts] are the transfers, and the running total is their sum. *)
Record withdrawing (pr : string) w0 w (ls : list Lease) (total : Coins) : Prop := mkWithdrawing {
  wi_kept : kept env w0 w;
  wi_stored : Forall (stored w) ls;
  wi_nodup : NoDup (Uuid <$> ls);
  wi_provider : Forall (λ l, ProviderUuid l = pr) ls;
  wi_valid : valid_coins total;
  wi_pays : ∃ ts, pays w0 w ts ∧ sums_to total ts ∧ Forall (λ t, t_provider t = pr) ts;
  wi_market : runs_by now None (abs w0) (abs w) }.

Lemma withdrawing_start pr w ls :
  BillingInv now w → Forall (stored w) ls → NoDup (Uuid <$> ls) → Forall (λ l, ProviderUuid l = pr) ls →
  withdrawing pr w w ls [].
Proof.
  intros HI Hst Hn Hp. split; try done; [apply valid_coins_nil|]. exists []. split_and!; [apply pays_refl|done|constructor].
Qed.

Lemma withdrawing_step pr w0 w l ls total cs total' w' :
  withdrawing pr w0 w (l :: ls) total → settled_one w l cs w' → valid_coins total' →
  (∀ d, amt total' d = amt total d + amt cs d) → withdrawing pr w0 w' ls total'.
Proof.
  intros [Hk Hst Hnd Hpr Hv (ts & Hp & Hsum & Hto) Hr] [[HI Hev] Hrest Hvc [a Hpa] Hr'] Hv' Hamt.
  apply Forall_cons in Hst as [Hl Hst], Hpr as [<- Hpr]. split; try done.
  - split; [done|]. etrans; [apply Hk|done].
  - by apply Hrest.
  - rewrite fmap_cons, NoDup_cons in Hnd. apply Hnd.
  - exists (ts ++ [mkTransfer (ProviderUuid l) a cs]). split_and!; [by eapply pays_trans| |].
    + intros d. rewrite lsum_app, Hamt, Hsum. cbn [lsum t_coins]. lia.
    + apply Forall_app. split; [done|by constructor].
  - by etrans.
Qed.

Lemma withdraw_one_ok p pr w0 acc l ls w acc' w' :
  withdrawing pr w0 w (l :: ls) (wl_total acc) → withdraw_one env p acc l w = (Ok acc', w') →
  withdrawing pr w0 w' ls (wl_total acc').
Proof.
  intros Hw E. pose proof Hw as [[HI _] Hst _ _ Hv _ _]. apply Forall_cons in Hst as [Hl _].
  destruct (stored_wf _ _ _ _ _ HI Hl) as [Hwf _]. destruct (wf_tenant _ _ _ Hwf) as (a & Ha & _).
  unfold withdraw_one in E. run_inv.
  match goal with H : (if state_is _ _ then _ else _) ?w1 = (Ok ?o, ?w2) |- _ => rename H into Hac;
    assert (w2 = w1 ∧ (o = None ∨ o = Some now ∧ State l = LEASE_STATE_ACTIVE)) as [-> Ho] end.
  { destruct (state_is _ _) eqn:Es; [apply state_is_true in Es|run_inv; by auto].
    eapply ShouldAutoCloseLease_ok in Hac as (-> & _ & [->| ->] & _); [by auto|by auto|done|apply Hwf|done]. }
  clear Hac. destruct Ho as [->|[-> Hs]]; run_inv.
  - match goal with H : PerformSettlement _ _ _ = (Ok ?r, _) |- _ => rename r into res; rename H into Eset end.
    destruct (Coins_IsZero (AccruedAmounts res)) eqn:Ez.
    + run_inv. pose proof Eset as Hm. eapply performSettlementCore_ok in Hm as [(_ & Hvr & _ & _) Hc]; [|exact Ha|apply Hwf].
      assert (Hz : ∀ d, amt (TransferAmounts res) d = 0); cycle 1.
      { eapply withdrawing_step; [done|by eapply settled_nothing|done|]. intros d. rewrite Hz. lia. }
      intros d.
      destruct Hc as [[_ ->]|[Hd [(acc0 & Eacc & Hac & Ht)|(? & _)]]]; [done| |done].
      apply accrued_ok in Eacc as [Hva _]; [|apply Hwf|lia]. rewrite Hac in Ez. apply Coins_IsZero_spec in Ez; [|done].
      rewrite Ht, Ez. pose proof (GetBalance_range (bank w) (DeriveCreditAddress a) d). unfold credit_balance.
      change (amt [] d) with 0. lia.
    + run_inv. destruct (settle_time_pays w l a false _ _ Hwf Ha Eset Ez) as [Hs Ht].
      match goal with H : SetLease _ _ = _ |- _ =>
        eapply settled_mark in H as Hone; [|exact HI|exact Hl|exact Ht|exact Hs|rewrite Ht; apply Hwf|exact Eset] end.
      match goal with H : Coins_Add _ _ = Ok _ |- _ => apply Coins_Add_ok in H as [Hva Ham]; [|done|apply Hone] end.
      by eapply withdrawing_step.
  - match goal with H : AutoCloseLease _ _ _ _ = (Ok ?c, _) |- _ => rename c into cs;
      eapply settled_auto in H as Hone; [|done..] end.
    pose proof (so_valid _ _ _ _ Hone) as Hvc. destruct (Coins_IsZero cs) eqn:Ez; cbn [negb] in E; run_inv.
    + eapply withdrawing_step; [done|done|done|]. intros d. apply Coins_IsZero_spec in Ez; [|done]. subst.
      change (amt [] d) with 0. cbn -[amt]. lia.
    + match goal with H : Coins_Add _ _ = Ok _ |- _ => apply Coins_Add_ok in H as [Hva Ham]; [|done|done] end.
      by eapply withdrawing_step.
Qed.

Lemma validateProviderAuthorization_ok sender pr w P w' :
  validateProviderAuthorization env sender pr w = (Ok P, w') →
  w' = w ∧ GetProvider (sku w) pr = Ok P ∧ (sender = prov_Address P ∨ sender = authority env).
Proof.
  unfold validateProviderAuthorization. intros E. run_inv. destruct (_ && _) eqn:Ea; [done|]. run_inv.
  split_and!; [done|done|]. apply andb_false_iff in Ea as [Ea|Ea]; apply negb_false_iff, String.eqb_eq in Ea; auto.
Qed.

(** What the validation loop has gathered. *)
Record withdrawable_batch (sender : string) w (acc : list Lease * option (string * Provider)) : Prop := mkWB {
  wb_stored : Forall (stored w) acc.1;
  wb_nodup : NoDup (Uuid <$> acc.1);
  wb_provider : match acc.2 with
                | None => acc.1 = []
                | Some (pr, P) => Forall (λ l, ProviderUuid l = pr) acc.1 ∧ GetProvider (sku w) pr = Ok P ∧
                                  (sender = prov_Address P ∨ sender = authority env)
                end }.

Lemma validate_withdraw_ok sender uuids w acc acc' w' :
  BillingInv now w → withdrawable_batch sender w acc → NoDup uuids → Forall (λ u, u ∉ (Uuid <$> acc.1)) uuids →
  foldlM (validate_withdraw_one env sender) acc uuids w = (Ok acc', w') →
  w' = w ∧ withdrawable_batch sender w acc'.
Proof.
  intros HI. revert acc. induction uuids as [|u uuids IH]; intros [ls o] Hb Hn Hr E; cbn [foldlM] in E; run_inv; [done|].
  apply NoDup_cons in Hn as [Hu Hn]. apply Forall_cons in Hr as [Hul Hr]. destruct Hb as [Hst Hnd Hpr].
  match goal with H : validate_withdraw_one _ _ _ _ _ = _ |- _ => rename H into Ev end.
  unfold validate_withdraw_one in Ev. run_inv.
  match goal with H : GetLease _ _ = (Ok ?k, _) |- _ => rename k into l; apply GetLease_ok in H as [-> Hl] end.
  destruct (stored_wf _ _ _ _ _ HI Hl) as [Hwf Hl']. pose proof (wf_uuid _ _ _ Hwf) as Huu.
  assert (Hst' : Forall (stored w) (ls ++ [l])) by (apply Forall_app; split; [done|by constructor]).
  assert (Hnd' : NoDup (Uuid <$> ls ++ [l])).
  { rewrite fmap_app. apply NoDup_app. split_and!; [done| |apply NoDup_singleton].
    intros y Hy ->%list_elem_of_singleton. apply Hul. by rewrite <- Huu. }
  assert (Hr' : Forall (λ v, v ∉ (Uuid <$> ls ++ [l])) uuids).
  { rewrite fmap_app. eapply Forall_forall. intros v Hv. rewrite Forall_forall in Hr.
    rewrite not_elem_of_app. split; [by apply Hr|]. cbn. intros ->%list_elem_of_singleton. congruence. }
  destruct o as [[pr P]|]; cbn [fst snd] in *.
  - destruct (negb _) eqn:Ep; [done|]. apply negb_false_iff, String.eqb_eq in Ep. run_inv.
    apply IH in E; [done| |done|done]. split; [done|done|]. cbn. destruct Hpr as (? & ? & ?). split_and!; [|done|done].
    apply Forall_app. split; [done|by constructor].
  - run_inv. match goal with H : validateProviderAuthorization _ _ _ _ = _ |- _ =>
      apply validateProviderAuthorization_ok in H as (-> & HP & Hs) end.
    apply IH in E; [done| |done|done]. split; [done|done|]. cbn. subst. split_and!; [by constructor|done|done].
Qed.

(** The run reported [r] after paying [r]'s total to provider [pr] for [sender]. *)
Definition withdrew (sender pr : string) w w' (r : withdraw_response) : Prop :=
  kept env w w' ∧ (∃ P, GetProvider (sku w) pr = Ok P ∧ prov_PayoutAddress P = wr_PayoutAddress r ∧
                        (sender = prov_Address P ∨ sender = authority env)) ∧
  (∃ ts, pays w w' ts ∧ sums_to (wr_TotalAmounts r) ts ∧ Forall (λ t, t_provider t = pr) ts) ∧
  runs_by now None (abs w) (abs w').

Lemma withdraw_loop_ok p pr w0 acc ls w acc' w' :
  withdrawing pr w0 w ls (wl_total acc) → foldlM (withdraw_one env p) acc ls w = (Ok acc', w') →
  withdrawing pr w0 w' [] (wl_total acc').
Proof.
  revert acc w. induction ls as [|l ls IH]; intros acc w Hw E; cbn [foldlM] in E; run_inv; [done|].
  eapply withdraw_one_ok in Hw; [|done]. by eapply IH.
Qed.

Lemma withdrawFromLeases_ok msg w r w' :
  BillingInv now w → ValidateBatchLeaseUUIDs (wd_LeaseUuids msg) = Ok tt →
  withdrawFromLeases env msg w = (Ok r, w') → ∃ pr, withdrew (wd_Sender msg) pr w w' r.
Proof.
  intros HI Hval E. unfold withdrawFromLeases, withdraw_leases_apply in E. run_inv.
  match goal with H : GetParams _ = _ |- _ => apply GetParams_ok in H as [-> _] end.
  match goal with H : foldlM (validate_withdraw_one _ _) _ ?us _ = (Ok ?v, _) |- _ => destruct v as [ls o];
    pose proof H as Hne; apply validate_withdraw_ok in H as [-> [Hst Hnd Hpr]];
    [|done|split; [done|constructor|done]|by apply validate_batch_NoDup|apply Forall_forall; intros ? _; apply not_elem_of_nil] end.
  cbn [fst snd] in *. destruct o as [[pr P]|].
  - cbn in *. run_inv. destruct Hpr as (Hpr & HP & Hs).
    match goal with H : foldlM (withdraw_one _ _) _ _ _ = _ |- _ => apply (withdraw_loop_ok _ pr w) in H as Hw end.
    + destruct (_ && _) in *; [done|]. run_inv. destruct Hw as [Hk _ _ _ _ (ts & Hp & Hsum & Hto) Hr]. exists pr.
      cbn [wr_PayoutAddress wr_TotalAmounts].
      events_inv; (split_and!; [by repeat apply kept_set_events|by exists P|by exists ts|exact Hr]).
    + by apply withdrawing_start.
  - subst. cbn in *. exfalso. run_inv. done.
Qed.

(** ** withdrawFromProvider *)

Lemma provider_settle_one_ok p w l bc cs w' :
  BillingInv now w → stored w l → provider_settle_one env p l w = (Ok (bc, cs), w') → settled_one w l cs w'.
Proof.
  intros HI Hl E. destruct (stored_wf _ _ _ _ _ HI Hl) as [Hwf _]. destruct (wf_tenant _ _ _ Hwf) as (a & Ha & _).
  unfold provider_settle_one in E. run_inv.
  match goal with H : (if state_is _ _ then ShouldAutoCloseLease _ _ else _) ?w1 = (Ok ?o, ?w2) |- _ => rename H into Hac;
    assert (w2 = w1 ∧ (o = None ∨ o = Some now ∧ State l = LEASE_STATE_ACTIVE)) as [-> Ho] end.
  { destruct (state_is _ _) eqn:Es; [apply state_is_true in Es|run_inv; by auto].
    eapply ShouldAutoCloseLease_ok in Hac as (-> & _ & [->| ->] & _); [by auto|by auto|done|apply Hwf|done]. }
  clear Hac. destruct Ho as [->|[-> Hs]]; run_inv; [|by eapply settled_auto].
  match goal with H : (if state_is _ _ then _ else _) _ = (Ok ?t0, ?w2) |- _ => rename t0 into t; rename H into Ht;
    assert (t = settle_time env l ∧ w2 = w) as [-> ->] end.
  { unfold settle_time. destruct (state_is _ _); [by run_inv|]. destruct (ClosedAt l); [by run_inv|done]. }
  clear Ht. destruct (negb (time_After _ _)) eqn:Eaf; [done|]. apply negb_false_iff, Z.ltb_lt in Eaf. run_inv.
  destruct (Coins_IsZero _) in E; [done|]. run_inv.
  destruct (settle_time_cases l Hwf) as [[Hs Ht]|[_ Ht]]; [|lia].
  eapply settled_mark; [exact HI|exact Hl|exact Ht|exact Hs|lia|done|done].
Qed.

Definition of_provider (pr : string) w (u : string) : Prop := ∃ l, Leases w !! u = Some l ∧ ProviderUuid l = pr.

Lemma of_provider_evolves pr w w' u : Leases_evolve (Leases w) (Leases w') → of_provider pr w u → of_provider pr w' u.
Proof. intros He (l & Hl & <-). destruct (He u l Hl) as (l' & ? & Hev). exists l'. split; [done|]. apply Hev. Qed.

Lemma withdrawing_focus pr w0 w total u l :
  withdrawing pr w0 w [] total → Leases w !! u = Some l → ProviderUuid l = pr → withdrawing pr w0 w [l] total.
Proof.
  intros [Hk _ _ _ Hv Hp Hr] Hl Hpr. split; try done.
  - constructor; [|done]. by eapply stored_wf in Hl as [_ ?]; [|apply Hk].
  - apply NoDup_singleton.
  - by constructor.
Qed.

Lemma withdrawing_events pr w0 w total x : withdrawing pr w0 w [] total → withdrawing pr w0 (set_events x w) [] total.
Proof. intros [Hk _ _ _ Hv Hp Hr]. split; try done; [by apply kept_set_events|constructor]. Qed.

Lemma provider_withdraw_one_ok p pr w0 acc u w acc' w' :
  withdrawing pr w0 w [] (pl_total acc) → of_provider pr w u →
  provider_withdraw_one env p acc u w = (Ok acc', w') → withdrawing pr w0 w' [] (pl_total acc').
Proof.
  intros Hw (l & Hl & Hpr) E. unfold provider_withdraw_one in E. run_inv.
  match goal with H : try _ _ = _ |- _ => apply try_ok in H as [(k & -> & Hg)|(e & -> & Hg)] end.
  2: { assert (Hx : GetLease u w = (Ok l, w)) by (unfold GetLease, mbind, M_bind, get; by rewrite Hl). congruence. }
  apply GetLease_ok in Hg as [-> Hl']. assert (k = l) as -> by congruence. run_inv.
  pose proof (withdrawing_focus _ _ _ _ _ _ Hw Hl Hpr) as Hf. pose proof Hf as [[HI _] Hst _ _ Hv _ _].
  apply Forall_cons in Hst as [Hsl _].
  match goal with H : try _ _ = _ |- _ => apply try_ok in H as [([bc cs] & -> & Hc)|(e & -> & Hc)] end.
  2: { apply cached_atomic in Hc as ->; [|done]. by run_inv. }
  apply (proj1 (cached_ok _ _ _ _)) in Hc. match type of Hc with _ = (_, ?y) => rename y into w1 end.
  eapply provider_settle_one_ok in Hc as Hone; [|done..].
  pose proof (so_valid _ _ _ _ Hone) as Hvc.
  assert (Hadd : ∀ total, Coins_Add (pl_total acc) cs = Ok total → withdrawing pr w0 w1 [] total).
  { intros total H. apply Coins_Add_ok in H as [Hva Ham]; [|done..]. by eapply withdrawing_step. }
  destruct bc; run_inv; [|by apply Hadd].
  match goal with H : emit _ _ = _ |- _ => apply emit_ok in H as -> end. destruct (Coins_IsZero cs) eqn:Ez; cbn [negb] in *; run_inv.
  - apply withdrawing_events. eapply withdrawing_step; [done|done|done|]. intros d.
    apply Coins_IsZero_spec in Ez; [|done]. subst. change (amt [] d) with 0. cbn -[amt]. lia.
  - by apply withdrawing_events, Hadd.
Qed.

Lemma provider_withdraw_loop_ok p pr w0 acc us w acc' w' :
  withdrawing pr w0 w [] (pl_total acc) → Forall (of_provider pr w0) us →
  foldlM (provider_withdraw_one env p) acc us w = (Ok acc', w') → withdrawing pr w0 w' [] (pl_total acc').
Proof.
  revert acc w. induction us as [|u us IH]; intros acc w Hw Hus E; cbn [foldlM] in E; run_inv; [done|].
  apply Forall_cons in Hus as [Hu Hus]. eapply provider_withdraw_one_ok in Hw as Hw'; [|by eapply of_provider_evolves; [apply Hw|]|done].
  by eapply IH.
Qed.

Lemma collectLeases_ok limit acc ms us more :
  collectLeases limit acc ms = (us, more) → llen acc ≤ Z.max 0 limit →
  llen us ≤ Z.max 0 limit ∧ (∀ u, u ∈ us → u ∈ acc ∨ u ∈ ms) ∧ (∀ u, u ∈ acc → u ∈ us).
Proof.
  revert acc. induction ms as [|m ms IH]; intros acc E Hlen; cbn in E.
  - injection E as <- <-. auto.
  - destruct (_ <=? _) eqn:El; [injection E as <- <-; auto|]. apply Z.leb_gt in El.
    apply IH in E as (? & Hin & Hsub); [|unfold llen in *; rewrite length_app; cbn; lia].
    split_and!; [done| |].
    + intros u Hu. apply Hin in Hu. rewrite elem_of_app, list_elem_of_singleton in Hu. rewrite elem_of_cons. tauto.
    + intros u Hu. apply Hsub. rewrite elem_of_app. tauto.
Qed.

Lemma collect_provider_ok pr limit w us more :
  collect_provider pr limit w = (us, more) → llen us ≤ Z.max 0 limit ∧ Forall (of_provider pr w) us.
Proof.
  unfold collect_provider. destruct (collectLeases _ [] _) as [us1 more1] eqn:E1.
  assert (Hm : ∀ s u, u ∈ MatchExact (λ l, provider_is pr l && lease_state_is s l) w → of_provider pr w u).
  { intros s u. unfold MatchExact. rewrite list_elem_of_filter. intros [Hp _].
    destruct (Leases w !! u) as [l|] eqn:El; [|done]. cbn in Hp. apply andb_true_iff in Hp as [Hp%String.eqb_eq _].
    exists l. eauto. }
  apply collectLeases_ok in E1 as (Hl1 & Hin1 & _); [|unfold llen; cbn; lia].
  assert (Hin : Forall (of_provider pr w) us1).
  { apply Forall_forall. intros u Hu. apply Hin1 in Hu as [Hu|Hu]; [by apply not_elem_of_nil in Hu|by eapply Hm]. }
  destruct more1; cbn [negb]; intros E2; [by injection E2 as <- <-|].
  apply collectLeases_ok in E2 as (Hl2 & Hin2 & _); [|done]. split; [done|].
  apply Forall_forall. intros u Hu. rewrite Forall_forall in Hin. apply Hin2 in Hu as [Hu|Hu]; [by apply Hin|by eapply Hm].
Qed.

Lemma withdrawFromProvider_ok msg w r w' :
  BillingInv now w → withdrawFromProvider env msg w = (Ok r, w') →
  withdrew (wd_Sender msg) (wd_ProviderUuid msg) w w' r.
Proof.
  intros HI E. unfold withdrawFromProvider in E. run_inv.
  match goal with H : GetParams _ = _ |- _ => apply GetParams_ok in H as [-> _] end.
  match goal with H : validateProviderAuthorization _ _ _ _ = (Ok ?q, _) |- _ => rename q into P;
    apply validateProviderAuthorization_ok in H as (-> & HP & Hs) end.
  match type of E with context [collect_provider ?a ?b ?c] => destruct (collect_provider a b c) as [us more] eqn:Ec end.
  apply collect_provider_ok in Ec as [_ Hus]. run_inv.
  match goal with H : foldlM (provider_withdraw_one _ _) _ _ _ = _ |- _ =>
    apply (provider_withdraw_loop_ok _ (wd_ProviderUuid msg) w) in H as [Hk _ _ _ _ (ts & Hp & Hsum & Hto) Hr]; [|apply withdrawing_start; [done|constructor..]|done] end.
  events_inv. split_and!; [by repeat apply kept_set_events|by exists P|by exists ts|exact Hr].
Qed.

Lemma Withdraw_ok msg w r w' :
  BillingInv now w → Withdraw env msg w = (Ok r, w') → ∃ pr, withdrew (wd_Sender msg) pr w w' r.
Proof.
  intros HI E. unfold Withdraw in E. run_inv. destruct_units.
  match goal with H : MsgWithdraw_ValidateBasic _ = Ok _ |- _ => unfold MsgWithdraw_ValidateBasic in H; rename H into Hval end.
  checks_inv. destruct (String.eqb (wd_ProviderUuid msg) "") eqn:Ep; cbn [negb] in *.
  - rewrite !andb_false_r, !andb_true_r in *. destruct (0 <? _) eqn:El in Hval; [|rewrite El in *; done].
    by eapply withdrawFromLeases_ok.
  - eexists. by eapply withdrawFromProvider_ok.
Qed.

Lemma Withdraw_kept msg w r w' : BillingInv now w → Withdraw env msg w = (Ok r, w') → kept env w w'.
Proof. intros HI E. by destruct (Withdraw_ok msg w r w' HI E) as (pr & Hk & _). Qed.
End withdraw_inv.

#[export] Hint Resolve Withdraw_kept : ledger.
