(* ===== verification/QuerierProps.v ===== *)
(** * Theorems on the billing queries

    The lists are complete: a client that follows the cursor gets each lease once. The pagination
    loop of the SKU query is the shared one. *)

From stdpp Require Import base tactics option list strings gmap sorting fin_maps.
From Stdlib Require Import ZArith Lia.
From S2P Require Import Prelude Sdk SdkRef Pagination Uuid GoStd SkuTypes BillingTypes BillingMsgs SkuKeeper IndexPages Credit Accrual Keeper LeaseStore Settlement Lifecycle Withdraw CustomDomain Querier Genesis Invariant LifecycleInv CreateInv Scenario WithdrawInv.
Open Scope Z_scope.

(** ** The two pagination loops agree *)

Section sku_pages.
Context `{SDK}.

Definition as_sku_page (st : page_state Lease) : sku_page :=
  mkSkuPage (ps_values st) (ps_total st) (ps_skipped st) (ps_nextKey st) (ps_foundStart st).

(** The counter of the shared loop is the number of values collected. *)
Definition counts_values (st : page_state Lease) : Prop := ps_count st = llen (ps_values st).

Definition map_res {A B} (f : A → B) (r : res A) : res B :=
  match r with Ok a => Ok (f a) | Err e => Err e | Panic => Panic end.

Lemma sku_loop_eq getter (r : PageRequest) limit filter iter st :
  counts_values st → llen (ps_values st) + llen iter ≤ max_u64 →
  paginate_sku_loop getter (Key r) (Offset r) limit (CountTotal r) filter iter (as_sku_page st) =
  map_res as_sku_page (page_loop getter r limit filter iter st).
Proof.
  revert st. induction iter as [|u iter IH]; intros [values count total nk found skipped] Hc Hl; [done|].
  unfold counts_values in Hc. cbn [ps_count ps_values] in Hc, Hl. subst count.
  assert (Hlen : llen (u :: iter) = llen iter + 1) by (unfold llen; cbn; lia). rewrite Hlen in Hl.
  assert (Hnn : 0 ≤ llen values ∧ 0 ≤ llen iter) by (unfold llen; lia).
  assert (Hrec : ∀ vs n tot nk' fd sk, n = llen vs → llen vs + llen iter ≤ max_u64 →
    paginate_sku_loop getter (Key r) (Offset r) limit (CountTotal r) filter iter (mkSkuPage vs tot sk nk' fd) =
    map_res as_sku_page (page_loop getter r limit filter iter (mkPageState vs n tot nk' fd sk))).
  { intros vs n tot nk' fd sk -> Hle. apply (IH (mkPageState vs (llen vs) tot nk' fd sk)); [done|exact Hle]. }
  cbn [paginate_sku_loop page_loop as_sku_page]. unfold set_found.
  cbn [ps_values ps_count ps_total ps_nextKey ps_foundStart ps_skipped].
  destruct (negb found && negb (String.eqb (Key r) u)); [apply Hrec; [done|lia]|].
  destruct (getter u) as [v|e|]; [|case_decide; [apply Hrec; [done|lia]|done]|done].
  destruct (keep filter v); cbn [negb]; [|apply Hrec; [done|lia]].
  unfold page_value. destruct (String.eqb (Key r) "" && (skipped <? Offset r)); [apply Hrec; [done|lia]|].
  destruct (limit <=? llen values); [destruct (CountTotal r); cbn [negb]; [apply Hrec; [done|lia]|done]|].
  apply Hrec.
  - rewrite wrap_u64_id by lia. unfold llen. rewrite length_app. cbn. lia.
  - unfold llen in *. rewrite length_app. cbn. lia.
Qed.

(** [paginateSKUIndex], which the billing module has of its own for the SKU index,
    returns the same page, cursor, total and errors as the shared [PaginateStringIndex] for every
    request with a limit in the range of uint64 (including none), filter and getter. *)
Theorem sku_pagination_is_shared iter (getter : string → res Lease) pageReq filter :
  llen iter ≤ max_u64 → (∀ r, pageReq = Some r → 0 ≤ Limit r) →
  paginateSKUIndex iter getter pageReq filter = PaginateStringIndex iter getter pageReq filter.
Proof.
  intros Hl Hlim. unfold paginateSKUIndex, PaginateStringIndex.
  destruct pageReq as [r|]; cbn [from_option id default].
  - assert ((if 0 <? Limit r then Limit r else query_DefaultLimit) = page_limit r) as ->.
    { specialize (Hlim r eq_refl). unfold page_limit. destruct (Z.ltb_spec 0 (Limit r)), (Z.eqb_spec (Limit r) 0); done || lia. }
    pose proof (sku_loop_eq getter r (page_limit r) filter iter (mkPageState [] 0 0 "" (String.eqb (Key r) "") 0)) as Heq.
    unfold as_sku_page at 1 in Heq. cbn [ps_values ps_count ps_total ps_nextKey ps_foundStart ps_skipped] in Heq.
    rewrite Heq by (done || unfold llen in *; cbn; lia). by destruct (page_loop _ _ _ _ _ _).
  - pose proof (sku_loop_eq getter empty_request query_DefaultLimit filter iter (mkPageState [] 0 0 "" true 0)) as Heq.
    unfold as_sku_page at 1 in Heq. cbn [ps_values ps_count ps_total ps_nextKey ps_foundStart ps_skipped empty_request Key Offset CountTotal] in Heq.
    change (String.eqb "" "") with true. rewrite Heq by (done || unfold llen in *; cbn; lia). cbn. by destruct (page_loop _ _ _ _ _ _).
Qed.
End sku_pages.

Lemma sku_pagination_is_shared_witness :
  paginateSKUIndex ["a"; "b"; "c"] (λ u, Ok (example_lease u "")) (Some (mkPageRequest "" 0 2 true false)) None =
  Ok ([example_lease "a" ""; example_lease "b" ""], mkPageResponse "c" 3).
Proof.
  rewrite (sku_pagination_is_shared ["a"; "b"; "c"] (λ u, Ok (example_lease u "")));
    [vm_compute; reflexivity|vm_compute; discriminate|intros r [= <-]; vm_compute; discriminate].
Defined.

(** ** Lists of leases are complete *)

Section listing.
Context `{SL : SDKLaws} `{SK : SKUKeeper} {KL : SKUKeeperLaws SK} `{GL : GoStdLaws}.
Implicit Types (w : World) (l : Lease) (d t : string) (p : Lease → bool).

(** The leases an index selects, in key order. *)
Definition matching_leases p w : list Lease := matching p (Leases w).

Lemma Leases_keys_ok now w : BillingInv now w → keys_ok (Leases w).
Proof.
  intros HI. split; [|pose proof (I_seq _ _ _ HI); lia]. destruct (Leases w !! ""%string) as [l|] eqn:El; [|done].
  pose proof (I_leases _ _ _ HI _ l El) as Hw. exfalso. apply (uuid_nonempty (Uuid l)); [apply Hw|apply Hw].
Qed.

Lemma page_of_index_complete now w p fuel r :
  BillingInv now w → Key r = ""%string → Offset r = 0 → 0 ≤ Limit r → (size (Leases w) < fuel)%nat →
  list_all fuel (λ r', page_of_index p (Some r')) r w = (Ok (ordered r (matching_leases p w), true), w).
Proof.
  intros HI%Leases_keys_ok Hk Ho Hl Hf. rewrite (index_complete fuel _ p None (Leases w) (Status Internal)); try done.
  - do 3 f_equal. apply f_equal, matching_ext. intros l. apply andb_true_r.
  - intros r' _. unfold page_of_index, wrapping. erewrite bind_run by done. unfold lift, wrap_err.
    change (MatchExact p w) with (index_keys p (Leases w)). change (λ u, coll_get (Leases w !! u)) with (map_get (Leases w)).
    by destruct (PaginateStringIndex _ _ _ _).
Qed.

(** The leases that pass the state filter of a request; UNSPECIFIED is no filter. *)
Definition in_state (s : LeaseState) l : bool := state_is s LEASE_STATE_UNSPECIFIED || state_is (State l) s.

Lemma matching_filtered p s w :
  state_is s LEASE_STATE_UNSPECIFIED = false →
  matching_leases (λ l, p l && lease_state_is s l) w = matching_leases (λ l, p l && in_state s l) w.
Proof. intros Hs. apply matching_ext. intros l. unfold in_state, lease_state_is. by rewrite Hs. Qed.

Lemma matching_unfiltered p s w :
  state_is s LEASE_STATE_UNSPECIFIED = true → matching_leases p w = matching_leases (λ l, p l && in_state s l) w.
Proof. intros Hs. apply matching_ext. intros l. unfold in_state. by rewrite Hs, andb_true_r. Qed.

(** C29 (functional): paging through LeasesByTenant or LeasesByProvider to the end never fails and
    returns exactly the tenant's or the provider's leases in the requested state (all states when
    the filter is UNSPECIFIED), each once, in the order of their UUIDs or in reverse, for every page
    size, and the queries change nothing. *)
Theorem lease_listings_complete now w s fuel r :
  BillingInv now w → Key r = ""%string → Offset r = 0 → 0 ≤ Limit r → (size (Leases w) < fuel)%nat →
  (∀ t a, AccAddressFromBech32 t = Some a →
     list_all fuel (λ r', query_LeasesByTenant (Some (mkQueryLeasesByTenantRequest t (Some r') s))) r w =
     (Ok (ordered r (matching_leases (λ l, tenant_is a l && in_state s l) w), true), w)) ∧
  (∀ q, q ≠ ""%string →
     list_all fuel (λ r', query_LeasesByProvider (Some (mkQueryLeasesByProviderRequest q (Some r') s))) r w =
     (Ok (ordered r (matching_leases (λ l, provider_is q l && in_state s l) w), true), w)).
Proof.
  intros HI Hk Ho Hl Hf. split.
  - intros t a Ha.
    assert (Hne : String.eqb t "" = false) by (apply String.eqb_neq; intros ->; by rewrite AccAddressFromBech32_empty in Ha).
    destruct (state_is s LEASE_STATE_UNSPECIFIED) eqn:Es;
      [rewrite <- (matching_unfiltered (tenant_is a) s w Es)|rewrite <- (matching_filtered (tenant_is a) s w Es)];
      rewrite <- (page_of_index_complete now w _ fuel r) by done; apply list_all_ext; intros r' w';
      unfold query_LeasesByTenant, non_nil, non_empty; cbn; by rewrite Hne, Ha, Es.
  - intros q Hq%String.eqb_neq.
    destruct (state_is s LEASE_STATE_UNSPECIFIED) eqn:Es;
      [rewrite <- (matching_unfiltered (provider_is q) s w Es)|rewrite <- (matching_filtered (provider_is q) s w Es)];
      rewrite <- (page_of_index_complete now w _ fuel r) by done; apply list_all_ext; intros r' w';
      unfold query_LeasesByProvider, non_nil, non_empty; cbn; by rewrite Hq, Es.
Qed.
End listing.

Lemma lease_listings_complete_witness :
  list_all 2 (λ r', query_LeasesByTenant (Some (mkQueryLeasesByTenantRequest "alice" (Some r') LEASE_STATE_PENDING)))
    (mkPageRequest "" 0 1 false false) demo_pending = (Ok ([demo_lease], true), demo_pending).
Proof.
  destruct (lease_listings_complete (blockTime demo_env) demo_pending LEASE_STATE_PENDING 2 (mkPageRequest "" 0 1 false false))
    as [Ht _]; [apply demo_pending_inv|reflexivity|reflexivity|discriminate|vm_compute; lia|].
  assert (Hm : matching_leases (λ l, tenant_is "alice" l && in_state LEASE_STATE_PENDING l) demo_pending = [demo_lease])
    by (vm_compute; reflexivity).
  rewrite (Ht "alice"%string "alice"%string) by reflexivity. unfold ordered; cbn [Reverse]. rewrite Hm. reflexivity.
Defined.
