(* ===== verification/CreditEstimate.v ===== *)
(** * The credit estimate (CreditEstimate in src/x/billing/keeper/querier.go)

    The query sums the locked rates of a tenant's active leases and reports for how many seconds the
    credit balance covers them. It never fails on a tenant with a credit account, and for up to a
    hundred active leases the number is exact; beyond uint64 it is reported as zero. *)

From stdpp Require Import base tactics option list strings gmap sorting fin_maps.
From Stdlib Require Import ZArith Lia.
From S2P Require Import Prelude Sdk SdkRef Pagination Uuid GoStd SkuTypes BillingTypes BillingMsgs SkuKeeper Credit Accrual Keeper LeaseStore Settlement Lifecycle CustomDomain Querier Genesis Invariant LifecycleInv CreateInv Scenario WithdrawInv QuerierProps.
Open Scope Z_scope.

(** ** Sums over the keys an index yields *)

Lemma lsum_keys {V} (f : V → Z) (m : gmap string V) :
  lsum (λ k, from_option f 0 (m !! k)) (sorted_keys m) = map_sum f m.
Proof.
  rewrite (lsum_perm _ _ _ (sorted_keys_perm m)). unfold map_sum. rewrite map_fold_foldr.
  assert (Hin : Forall (λ kv, m !! kv.1 = Some kv.2) (map_to_list m))
    by (apply Forall_forall; intros [k v]; by rewrite elem_of_map_to_list).
  induction Hin as [|[k v] kvs Hk _ IH]; [done|]. cbn in *. by rewrite Hk, IH.
Qed.

Lemma lsum_filter {A} (f : A → Z) (P : A → Prop) `{∀ x, Decision (P x)} (xs : list A) :
  lsum f (filter P xs) = lsum (λ x, if decide (P x) then f x else 0) xs.
Proof. induction xs as [|x xs IH]; [done|]. rewrite filter_cons. cbn [lsum]. case_decide; cbn; lia. Qed.

Lemma lsum_take_le {A} (f : A → Z) n (xs : list A) : (∀ x, 0 ≤ f x) → lsum f (take n xs) ≤ lsum f xs.
Proof.
  intros Hf. rewrite <- (take_drop n xs) at 2. rewrite lsum_app.
  pose proof (lsum_nonneg f (drop n xs) ltac:(by apply Forall_forall)). lia.
Qed.

Lemma map_sum_le {V} (f g : V → Z) (m : gmap string V) :
  (∀ k v, m !! k = Some v → f v ≤ g v) → map_sum f m ≤ map_sum g m.
Proof.
  induction m as [|k v m Hk IH] using map_ind; intros Hle; [done|]. rewrite !map_sum_insert_None by done.
  assert (f v ≤ g v) by (apply (Hle k); by simplify_map_eq).
  assert (map_sum f m ≤ map_sum g m); [|lia].
  apply IH. intros k' v' ?. apply (Hle k'). rewrite lookup_insert_ne; [done|]. naive_solver.
Qed.

Lemma elem_of_cons_all {A} (P : A → Prop) x (xs : list A) :
  (∀ y, y ∈ x :: xs → P y) ↔ P x ∧ ∀ y, y ∈ xs → P y.
Proof. split; [intros H; split; [|intros y ?]; apply H; set_solver|]. intros [??] y [-> |]%elem_of_cons; auto. Qed.

Section estimate.
Context `{SL : SDKLaws} `{SK : SKUKeeper} {KL : SKUKeeperLaws SK} `{GL : GoStdLaws}.
Implicit Types (w : World) (l : Lease) (a : Addr) (d t : string) (tot : Coins) (dn : list string).

Lemma MatchExact_sum (f : Lease → Z) (p : Lease → bool) w :
  lsum (λ u, from_option f 0 (Leases w !! u)) (MatchExact p w) = map_sum (λ l, if p l then f l else 0) (Leases w).
Proof.
  unfold MatchExact. rewrite lsum_filter, <- lsum_keys. apply lsum_ext, Forall_forall. intros u _.
  destruct (Leases w !! u) as [l|]; cbn; [|by case_decide]. case_decide as Hp; [by rewrite Hp|].
  by destruct (p l).
Qed.

(** ** The loop over the items *)

(** The running total and the denoms seen so far. *)
Definition est_ok tot dn : Prop :=
  valid_coins tot ∧ NoDup dn ∧ Forall (λ d, ValidateDenom d = true) dn ∧ ∀ d, 0 < amt tot d → d ∈ dn.

Lemma add_denom_spec dn d :
  NoDup dn → NoDup (add_denom dn d) ∧ ∀ x, x ∈ add_denom dn d ↔ x ∈ dn ∨ x = d.
Proof.
  intros Hn. unfold add_denom. case_bool_decide; [split; [done|set_solver]|]. split.
  - apply NoDup_app. split_and!; [done|set_solver|apply NoDup_singleton].
  - intros x. rewrite elem_of_app, list_elem_of_singleton. done.
Qed.

Lemma estimate_item_total tot dn i :
  item_ok i → est_ok tot dn → (∀ d, amt tot d + item_rate d i ≤ max_int) →
  ∃ tot' dn', estimate_item (tot, dn) i = Ok (tot', dn') ∧ est_ok tot' dn' ∧
    ∀ d, amt tot' d = amt tot d + item_rate d i.
Proof.
  intros [[Hden Hpos] Hq] (Hv & Hn & Hf & Hd) Hmax. unfold estimate_item.
  assert (Hi : item_rate (Denom (LockedPrice i)) i = Amount (LockedPrice i) * Quantity i) by (unfold item_rate; by rewrite decide_True).
  pose proof (Hmax (Denom (LockedPrice i))) as Hm. pose proof (amt_range tot (Denom (LockedPrice i)) Hv).
  rewrite Hi in Hm. rewrite int_Mul_total, ok_bind, NewCoin_total, ok_bind by (done || nia).
  set (c := mkCoin _ _).
  destruct (Coins_Add_total tot [c] Hv) as (tot' & -> & Hv' & Ha').
  - apply valid_singleton. split; cbn; [done|nia].
  - intros d. rewrite amt_singleton. specialize (Hmax d). unfold item_rate, coin_amt in *. cbn. case_decide; lia.
  - rewrite ok_bind. assert (Hrate : ∀ d, amt [c] d = item_rate d i).
    { intros d. rewrite amt_singleton. unfold coin_amt, item_rate. done. }
    destruct (add_denom_spec dn (Denom (LockedPrice i)) Hn) as [Hn' Hin].
    exists tot', (add_denom dn (Denom (LockedPrice i))). split_and!; [done| |intros d; by rewrite Ha', Hrate].
    split_and!; [done|done| |].
    + apply Forall_forall. intros d [Hdn| ->]%Hin; [by rewrite Forall_forall in Hf; apply Hf|done].
    + intros d Hp. apply Hin. rewrite Ha', Hrate in Hp. unfold item_rate in Hp. case_decide; [by right|].
      left. apply Hd. lia.
Qed.

Lemma estimate_items_total items tot dn :
  Forall item_ok items → est_ok tot dn → (∀ d, amt tot d + rate items d ≤ max_int) →
  ∃ tot' dn', foldlM estimate_item (tot, dn) items = Ok (tot', dn') ∧ est_ok tot' dn' ∧
    ∀ d, amt tot' d = amt tot d + rate items d.
Proof.
  intros Hi. revert tot dn. induction Hi as [|i items Hx Hi IH]; intros tot dn He Hmax; unfold rate in *; cbn [foldlM lsum] in *.
  { exists tot, dn. split_and!; [done|done|intros; lia]. }
  destruct (estimate_item_total tot dn i Hx He) as (t1 & d1 & -> & He1 & Ha1).
  { intros d. specialize (Hmax d). pose proof (rate_nonneg items d Hi) as Hr. unfold rate in Hr. lia. }
  rewrite ok_bind. destruct (IH t1 d1 He1) as (t2 & d2 & E & He2 & Ha2).
  { intros d. rewrite Ha1. specialize (Hmax d). lia. }
  exists t2, d2. split_and!; [exact E|done|]. intros d. rewrite Ha2, Ha1. lia.
Qed.

(** ** The loop over the leases *)

Definition stored_rate w d (u : string) : Z := from_option (λ l, rate (Items l) d) 0 (Leases w !! u).

Lemma stored_rate_nonneg now w d u : BillingInv now w → 0 ≤ stored_rate w d u.
Proof.
  intros HI. unfold stored_rate. destruct (Leases w !! u) as [l|] eqn:E; cbn; [|done].
  apply rate_nonneg. apply (I_leases _ _ _ HI u l E).
Qed.

Lemma estimate_leases_total now w uuids tot dn n :
  BillingInv now w → (∀ u, u ∈ uuids → is_Some (Leases w !! u)) → est_ok tot dn → 0 ≤ n ≤ 100 →
  (∀ d, amt tot d + lsum (stored_rate w d) (take (Z.to_nat (100 - n)) uuids) ≤ max_int) →
  ∃ tot' dn', estimate_leases (tot, dn) n uuids w = (Ok (tot', dn', Z.min (n + llen uuids) 101), w) ∧ est_ok tot' dn' ∧
    ∀ d, amt tot' d = amt tot d + lsum (stored_rate w d) (take (Z.to_nat (100 - n)) uuids).
Proof.
  intros HI. revert tot dn n. induction uuids as [|u uuids IH]; intros tot dn n Hst He Hn Hmax; cbn [estimate_leases].
  { exists tot, dn. rewrite take_nil. cbn. split_and!; [|done|intros; lia]. unfold llen. cbn. by rewrite Z.add_0_r, Z.min_l by lia. }
  assert (Hlen : llen (u :: uuids) = llen uuids + 1) by (unfold llen; cbn; lia).
  rewrite wrap_u64_id by (unfold max_u64; lia). unfold MaxCreditEstimateLeases.
  destruct (Z.ltb_spec 100 (n + 1)).
  { replace (Z.to_nat (100 - n)) with 0%nat by lia. exists tot, dn. cbn. split_and!; [|done|intros; lia].
    unfold mret, M_ret. do 2 f_equal. f_equal. rewrite Hlen. unfold llen. lia. }
  replace (Z.to_nat (100 - n)) with (S (Z.to_nat (100 - (n + 1)))) in * by lia. cbn [take lsum] in *.
  destruct (Hst u ltac:(set_solver)) as [l Hl]. pose proof (I_leases _ _ _ HI u l Hl) as Hw.
  assert (Hr : ∀ d, stored_rate w d u = rate (Items l) d) by (intros d; unfold stored_rate; by rewrite Hl).
  erewrite bind_run by (unfold Leases_Get, wrapping; erewrite bind_run by done; unfold lift; rewrite Hl; reflexivity).
  destruct (estimate_items_total (Items l) tot dn) as (t1 & d1 & E1 & He1 & Ha1); [apply Hw|done| |].
  { intros d. specialize (Hmax d). rewrite Hr in Hmax.
    pose proof (lsum_nonneg (stored_rate w d) (take (Z.to_nat (100 - (n + 1))) uuids)
      ltac:(apply Forall_forall; intros; by eapply stored_rate_nonneg)). lia. }
  erewrite bind_run by (unfold lift; rewrite E1; reflexivity).
  destruct (IH t1 d1 (n + 1)) as (t2 & d2 & E2 & He2 & Ha2); [intros; apply Hst; set_solver|done|lia| |].
  { intros d. rewrite Ha1. specialize (Hmax d). rewrite Hr in Hmax. lia. }
  exists t2, d2. rewrite E2. split_and!; [|done|].
  - by rewrite Hlen, (Z.add_comm (llen uuids) 1), Z.add_assoc.
  - intros d. rewrite Ha2, Ha1, Hr. lia.
Qed.

(** ** The minimum over the denoms *)

Lemma estimate_min_spec bal acc rates :
  valid_coins bal → valid_coins rates → 0 ≤ acc ≤ max_u64 →
  ∃ m, estimate_min bal acc rates = Ok m ∧ 0 ≤ m ≤ acc ∧
    ∀ k, 0 ≤ k → k ≤ m ↔ k ≤ acc ∧ ∀ c, c ∈ rates → Amount c * k ≤ amt bal (Denom c).
Proof.
  intros Hb. revert acc. induction rates as [|c rates IH]; intros acc Hv Hacc; cbn [estimate_min].
  { exists acc. split_and!; [done|lia|lia|]. intros k Hk. split; [|tauto]. intros ?. split; [done|]. set_solver. }
  apply valid_coins_cons in Hv as ([Hd Hp] & Hv & _). pose proof (amt_range bal (Denom c) Hb) as Hr.
  unfold Coin_IsZero. rewrite (proj2 (Z.eqb_neq _ _)) by lia. rewrite Coins_AmountOf_spec, ok_bind by done.
  destruct (Z.eqb_spec (amt bal (Denom c)) 0) as [E0|E0].
  - exists 0. split_and!; [done|lia|lia|]. intros k Hk. split.
    + intros. assert (k = 0) as -> by lia. split; [lia|]. intros c' _. rewrite Z.mul_0_r. by apply amt_range.
    + intros [_ Hc]. specialize (Hc c ltac:(set_solver)). nia.
  - rewrite int_Quo_spec, ok_bind by lia. set (q := amt bal (Denom c) / Amount c).
    assert (Hq : 0 ≤ q) by (apply Z.div_pos; lia).
    set (dur := if (0 <=? q) && (q <=? max_u64) then q else max_u64).
    assert (Hdur : dur = Z.min q max_u64) by (subst dur; destruct (Z.leb_spec 0 q), (Z.leb_spec q max_u64); cbn; lia).
    destruct (IH (Z.min acc dur) Hv) as (m & -> & Hm & Hk); [lia|]. exists m. split_and!; [done|lia|lia|].
    intros k Hk0. rewrite Hk by done. rewrite elem_of_cons_all. rewrite Z.min_glb_iff, Hdur, Z.min_glb_iff.
    assert (Hkq : k ≤ q ↔ Amount c * k ≤ amt bal (Denom c)).
    { subst q. split; [intros; etrans; [|apply (Z.mul_div_le _ (Amount c)); lia]; nia|intros; apply Z.div_le_lower_bound; lia]. }
    rewrite Hkq. split; [tauto|]. intros [? [? ?]]. split_and!; try done. lia.
Qed.

(** ** The estimate *)

Definition active_of a l : bool := tenant_is a l && lease_state_is LEASE_STATE_ACTIVE l.

(** What the active leases of [a] cost per second, and whether the credit covers [k] seconds. *)
Definition active_rate w a d : Z := map_sum (λ l, if active_of a l then rate (Items l) d else 0) (Leases w).
Definition lasts w a (k : Z) : Prop := ∀ d, active_rate w a d * k ≤ credit_balance w a d.

(** An active lease reserves at least one second of its rate. *)
Lemma active_rate_bound now w a ca d :
  BillingInv now w → CreditAccounts w !! a = Some ca → 0 ≤ active_rate w a d ≤ max_int.
Proof.
  intros HI Hca. pose proof (BillingInv_acct _ _ _ _ HI Hca) as Hok. split.
  - apply map_sum_nonneg. intros u l Hl. pose proof (I_leases _ _ _ HI u l Hl) as Hw.
    pose proof (rate_nonneg (Items l) d (wf_items _ _ _ Hw)). destruct (active_of a l); lia.
  - pose proof (amt_range _ d (ok_valid _ _ _ Hok)) as Hr. rewrite (ok_reserved _ _ _ Hok) in Hr.
    etrans; [|apply Hr]. apply map_sum_le. intros u l Hl. pose proof (I_leases _ _ _ HI u l Hl) as Hw.
    pose proof (rate_nonneg (Items l) d (wf_items _ _ _ Hw)). pose proof (wf_duration _ _ _ Hw).
    unfold resv_of, active_of, live, lease_state_is, reserved_for. destruct (tenant_is a l); cbn; [|done].
    destruct (state_is (State l) LEASE_STATE_ACTIVE); rewrite ?orb_true_r; [nia|]. destruct (_ || _); nia.
Qed.

Lemma active_count now w a ca :
  BillingInv now w → CreditAccounts w !! a = Some ca → llen (MatchExact (active_of a) w) = ActiveLeaseCount ca.
Proof.
  intros HI Hca. pose proof (BillingInv_acct _ _ _ _ HI Hca) as Hok. rewrite (ok_active _ _ _ Hok).
  change (map_sum (count_of LEASE_STATE_ACTIVE a) (Leases w))
    with (map_sum (λ l, if active_of a l then 1 else 0) (Leases w)).
  rewrite <- (MatchExact_sum (λ _, 1)). unfold llen.
  assert (Hall : Forall (λ u, is_Some (Leases w !! u)) (MatchExact (active_of a) w)).
  { apply Forall_forall. intros u [_ Hu]%list_elem_of_filter. by apply elem_of_sorted_keys. }
  induction Hall as [|u us [l Hl] _ IH]; [done|]. cbn [lsum length]. rewrite Hl, <- IH. cbn. lia.
Qed.

Lemma estimated_duration_exact n tot bal :
  valid_coins tot → valid_coins bal → (n = 0 → tot = []) → 0 ≤ n →
  let covered k := ∀ c, c ∈ tot → Amount c * k ≤ amt bal (Denom c) in
  ∃ D, estimated_duration n tot bal = Ok D ∧ 0 ≤ D < max_u64 ∧
    (¬ covered max_u64 → ∀ k, 0 ≤ k → k ≤ D ↔ covered k) ∧ (covered max_u64 → D = 0).
Proof.
  intros Ht Hb Hn H0 covered. unfold estimated_duration.
  assert (Hmono : ∀ j k, j ≤ k → covered k → covered j).
  { intros j k Hjk Hc c Hin. specialize (Hc c Hin). pose proof (valid_coins_elem tot c Ht Hin) as [_ ?]. nia. }
  destruct ((0 <? n) && negb (Coins_IsZero tot)) eqn:E.
  - destruct (estimate_min_spec bal max_u64 tot) as (m & -> & Hm & Hk); [done|done|unfold max_u64; lia|].
    rewrite ok_bind. destruct (Z.eqb_spec m max_u64) as [->|Hne].
    + exists 0. split_and!; [done|done|done| |done]. intros Hc. destruct Hc. by destruct (proj1 (Hk max_u64 ltac:(lia)) ltac:(lia)).
    + exists m. split_and!; [done|lia|lia| |].
      * intros Hc k H0k. rewrite Hk by done. split; [tauto|]. intros Hck. split; [|done].
        destruct (Z.le_gt_cases k max_u64); [done|]. destruct Hc. apply (Hmono _ k); [lia|done].
      * intros Hc. assert (max_u64 ≤ m); [|lia]. apply Hk; [lia|]. done.
  - assert (tot = []) as ->.
    { apply andb_false_iff in E as [?%Z.ltb_ge|E%negb_false_iff]; [apply Hn; lia|]. by apply Coins_IsZero_spec. }
    exists 0. split_and!; [done|done|done| |done]. intros Hc. destruct Hc. intros c Hin. set_solver.
Qed.

Lemma covered_lasts w a dn tot bal k :
  valid_coins tot → (∀ d, 0 < amt tot d → d ∈ dn) → (∀ d, amt tot d = active_rate w a d) →
  (∀ d, amt bal d = if decide (d ∈ dn) then credit_balance w a d else 0) →
  (∀ c, c ∈ tot → Amount c * k ≤ amt bal (Denom c)) ↔ lasts w a k.
Proof.
  intros Hv Hin Hex Hbal. split.
  - intros Hc d. rewrite <- Hex. destruct (Z.eq_dec (amt tot d) 0) as [->|Hp]; [apply GetBalance_range|].
    pose proof (amt_range tot d Hv). destruct (amt_pos_elem tot d Hv ltac:(lia)) as (c & Hc1 & <- & ->).
    specialize (Hc c Hc1). rewrite Hbal in Hc. case_decide; [done|].
    pose proof (GetBalance_range (bank w) (DeriveCreditAddress a) (Denom c)). unfold credit_balance. lia.
  - intros Hl c Hc. specialize (Hl (Denom c)). rewrite <- Hex, (amt_elem tot c Hv Hc) in Hl.
    rewrite Hbal, decide_True; [done|]. apply Hin. rewrite (amt_elem tot c Hv Hc). by apply (valid_coins_elem tot c).
Qed.

(** C28 (functional): CreditEstimate never fails on a tenant that has a credit account and changes
    nothing. It reports the account's active leases, 101 standing for more than a hundred. For up to
    a hundred it reports their summed locked rates exactly, and the duration is the largest number of
    whole seconds the credit balance covers in every denom; when the credit covers 2^64-1 seconds or
    more (as when nothing is charged) the duration is 0. *)
Theorem credit_estimate_exact now w t a ca :
  BillingInv now w → AccAddressFromBech32 t = Some a → CreditAccounts w !! a = Some ca →
  ∃ r, query_CreditEstimate (Some t) w = (Ok r, w) ∧
    ce_ActiveLeaseCount r = Z.min (ActiveLeaseCount ca) 101 ∧
    (ActiveLeaseCount ca ≤ 100 →
       (∀ d, amt (ce_TotalRatePerSecond r) d = active_rate w a d) ∧
       (¬ lasts w a max_u64 → ∀ k, 0 ≤ k → k ≤ ce_EstimatedDurationSeconds r ↔ lasts w a k) ∧
       (lasts w a max_u64 → ce_EstimatedDurationSeconds r = 0)).
Proof.
  intros HI Ha Hca. pose proof (active_count _ _ _ _ HI Hca) as Hcount.
  assert (Hrate : ∀ d, active_rate w a d = lsum (stored_rate w d) (MatchExact (active_of a) w)).
  { intros d. symmetry. apply (MatchExact_sum (λ l, rate (Items l) d)). }
  assert (Hnn : ∀ d u, 0 ≤ stored_rate w d u) by (intros; by eapply stored_rate_nonneg).
  destruct (estimate_leases_total now w (MatchExact (active_of a) w) [] [] 0) as (tot & dn & El & (Hv & Hn & Hf & Hin) & Ham); try done.
  { intros u [_ Hu]%list_elem_of_filter. by apply elem_of_sorted_keys. }
  { split_and!; [apply valid_coins_nil|constructor|constructor|]. intros d. cbn. lia. }
  { intros d. cbn [amt]. pose proof (lsum_take_le (stored_rate w d) (Z.to_nat (100 - 0)) (MatchExact (active_of a) w) (Hnn d)).
    pose proof (active_rate_bound _ _ _ _ d HI Hca). rewrite Hrate in *. cbn. lia. }
  destruct (getCreditBalancesForDenoms_spec w t a dn Ha Hn Hf) as (bal & Eb & Hbv & Hbal).
  rewrite Hcount in El. assert (H0 : 0 ≤ ActiveLeaseCount ca) by (rewrite <- Hcount; unfold llen; lia).
  destruct (estimated_duration_exact (Z.min (0 + ActiveLeaseCount ca) 101) tot bal) as (D & Ed & _ & Hcov & Hcov0); [done|done| |lia|].
  { intros Hz. apply amt_zero_nil; [done|]. intros d. rewrite Ham.
    assert (MatchExact (active_of a) w = []) as ->; [|done]. apply length_zero_iff_nil. unfold llen in Hcount. lia. }
  exists (mkQueryCreditEstimateResponse bal tot D (Z.min (ActiveLeaseCount ca) 101)). split_and!; [|done|].
  - unfold query_CreditEstimate, non_nil, non_empty. rewrite (proj2 (String.eqb_neq t "")), Ha by (intros ->; by rewrite AccAddressFromBech32_empty in Ha).
    erewrite bind_run by done. erewrite bind_run by (unfold wrapping, GetCreditAccount; rewrite Ha; erewrite bind_run by done; rewrite Hca; reflexivity).
    erewrite bind_run by done. erewrite bind_run by exact El. cbv beta iota.
    erewrite bind_run by (unfold wrapping; rewrite Eb; reflexivity). erewrite bind_run by (unfold lift; rewrite Ed; reflexivity).
    done.
  - intros Hle. assert (Hex : ∀ d, amt tot d = active_rate w a d).
    { intros d. rewrite Ham, Hrate, take_ge by (unfold llen in Hcount; lia). done. }
    assert (Hiff : ∀ k, (∀ c, c ∈ tot → Amount c * k ≤ amt bal (Denom c)) ↔ lasts w a k) by (intros k; by apply (covered_lasts _ _ dn)).
    cbn. split_and!; [done| |].
    + intros Hl k Hk. rewrite <- Hiff. apply Hcov; [|done]. by rewrite Hiff.
    + intros Hl. apply Hcov0. by apply Hiff.
Qed.
End estimate.

Lemma credit_estimate_exact_witness :
  ∃ r, query_CreditEstimate (Some "alice"%string) demo_active = (Ok r, demo_active) ∧
    ce_ActiveLeaseCount r = 1 ∧ amt (ce_TotalRatePerSecond r) "umfx" = 2 ∧ ce_EstimatedDurationSeconds r < 10001.
Proof.
  set (ca := mkCreditAccount "alice" (AccAddress_String (DeriveCreditAddress "alice")) 1 0 [mkCoin "umfx" 7200]).
  assert (Hca : CreditAccounts demo_active !! "alice"%string = Some ca) by (vm_compute; reflexivity).
  destruct (credit_estimate_exact (blockTime demo_env) demo_active "alice" "alice" ca demo_active_inv eq_refl Hca)
    as (r & Hr & Hc & Hx).
  destruct (Hx ltac:(vm_compute; discriminate)) as (Hrate & Hl & _).
  exists r. split_and!; [exact Hr|exact Hc| |].
  - rewrite Hrate. vm_compute. reflexivity.
  - assert (Hmax : ¬ lasts demo_active "alice"%string max_u64).
    { intros H. specialize (H "umfx"%string). vm_compute in H. by apply H. }
    destruct (Z.le_gt_cases 10001 (ce_EstimatedDurationSeconds r)) as [Hle|Hgt]; [|exact Hgt].
    apply (Hl Hmax 10001 ltac:(lia)) in Hle. specialize (Hle "umfx"%string). vm_compute in Hle. by destruct Hle.
Defined.
