(* ===== verification/ExpiryInv.v ===== *)
(** * The end blocker: exact effect and totality

    From a state that satisfies the invariant the end blocker never fails: it expires the first
    hundred overdue pending leases in UUID order, releases their reservations, and touches nothing
    else. *)

From stdpp Require Import base tactics option list strings gmap sorting fin_maps.
From Stdlib Require Import ZArith Lia.
From S2P Require Import Prelude Sdk SdkRef Uuid GoStd SkuTypes BillingTypes BillingMsgs SkuKeeper Credit Accrual Keeper LeaseStore Settlement Lifecycle Withdraw EndBlocker Genesis Invariant LifecycleInv CreateInv Scenario WithdrawInv.
Open Scope Z_scope.

Section expiry.
Context `{SL : SDKLaws} `{SK : SKUKeeper} {KL : SKUKeeperLaws SK} `{GL : GoStdLaws} (env : Env).
Implicit Types (w : World) (l : Lease) (accs : gmap string CreditAccount) (b : batch).

Notation now := (blockTime env).

Lemma expired_ok l :
  lease_wf now (Uuid l) l → State l = LEASE_STATE_PENDING →
  evolves l (expired env l) ∧ lease_wf now (Uuid l) (expired env l).
Proof. intros Hwf Hs. apply ended_ok; try done. by right. Qed.

(** Under the invariant the reservation of a live lease can always be released. *)
Lemma release_total w l l' a ca m :
  BillingInv now w → stored w l → live (State l) = true → evolves l l' →
  AccAddressFromBech32 (Tenant l) = Some a → CreditAccounts w !! a = Some ca →
  ∃ ca', ReleaseLeaseReservation
    (if decide (State l = LEASE_STATE_ACTIVE) then DecrementActiveLeaseCount ca else DecrementPendingLeaseCount ca)
    l' m = Ok ca' ∧ ca_Tenant ca' = ca_Tenant ca.
Proof.
  intros HI Hl Hlv He Ha Hca. destruct (stored_wf _ _ _ _ _ HI Hl) as [Hwf _].
  destruct (I_accts _ _ _ HI a ca Hca) as [_ Hok]. unfold view in Hok. rewrite lookup_empty in Hok. cbn in Hok.
  set (c := if decide _ then _ else _).
  assert (Hc : ReservedAmounts c = ReservedAmounts ca ∧ ca_Tenant c = ca_Tenant ca).
  { subst c. unfold DecrementActiveLeaseCount, DecrementPendingLeaseCount. case_decide; destruct (0 <? _); done. }
  assert (Hi : Forall item_ok (Items l')) by (eapply item_core_ok; [apply He|apply Hwf]).
  assert (Hd : 0 < MinLeaseDurationAtCreation l') by (rewrite (ev_duration _ _ He); apply Hwf).
  assert (Hv : valid_coins (ReservedAmounts c)) by (rewrite (proj1 Hc); apply Hok).
  destruct (ReleaseLeaseReservation_total c l' m Hi Hd Hv) as [ca' Hca'].
  { intros d. rewrite (reserved_for_evolves l l' d He). etrans; [by eapply reserved_for_le; [apply HI|..]|].
    rewrite <- (ok_reserved _ _ _ Hok). apply amt_range, Hok. }
  exists ca'. split; [done|]. eapply ReleaseLeaseReservation_ok in Hca' as (r & -> & _); [|done..]. apply Hc.
Qed.

Lemma SetCreditAccount_total ca w :
  is_Some (AccAddressFromBech32 (ca_Tenant ca)) → ∃ w', SetCreditAccount ca w = (Ok tt, w') ∧ k_Params w' = k_Params w.
Proof. intros [a Ha]. unfold SetCreditAccount. rewrite Ha. by eexists. Qed.

Lemma ExpirePendingLease_total w l :
  BillingInv now w → stored w l → State l = LEASE_STATE_PENDING →
  ∃ w', ExpirePendingLease env l w = (Ok tt, w') ∧ kept env w w' ∧
        Leases w' = <[Uuid l := expired env l]> (Leases w) ∧ bank w' = bank w ∧ sku w' = sku w ∧ k_Params w' = k_Params w.
Proof.
  intros HI Hl Hs. destruct (stored_wf _ _ _ _ _ HI Hl) as [Hwf _]. destruct (expired_ok l Hwf Hs) as [He Hwf'].
  destruct (I_params _ _ _ HI) as (p & Hp & _).
  assert (Hlv : live (State l) = true) by by rewrite Hs.
  destruct (I_live _ _ _ HI _ _ Hl Hlv) as (a & Ha & ca & Hca).
  destruct (SetLease_total (expired env l) w) as [w1 E1]; [by exists a|by left|].
  pose proof E1 as (_ & _ & (HP1 & _ & HC & _ & _ & _ & _))%SetLease_ok.
  destruct (release_total w l (expired env l) a ca (MinLeaseDuration p)) as (ca' & E3 & Ht); [done..|].
  assert (E2 : GetCreditAccount (Tenant l) w1 = (Ok ca, w1)).
  { unfold GetCreditAccount. rewrite Ha. unfold mbind, M_bind, get. by rewrite HC, Hca. }
  destruct (SetCreditAccount_total ca' w1) as (w2 & E4 & HP2).
  { rewrite Ht. destruct (I_accts _ _ _ HI a ca Hca) as [-> _]. eauto. }
  eapply end_lease_kept in E4 as Hend; [|exact HI|exact Hl|exact He|exact Hwf'|done|done|done|exact E1|exact E2|exact E3].
  destruct Hend as (Hk & HL & HB & HS).
  eexists. split; [|split_and!; [by eapply kept_set_events|exact HL|exact HB|exact HS|cbn; congruence]].
  unfold ExpirePendingLease. rewrite Hs. change (negb (state_is LEASE_STATE_PENDING LEASE_STATE_PENDING)) with false. cbn iota.
  erewrite bind_run by (unfold GetParams, mbind, M_bind, get, lift; by rewrite Hp).
  assert (E5 : cached (SetLease (expired env l);; creditAccount ← GetCreditAccount (Tenant l);
    ca ← lift (ReleaseLeaseReservation (DecrementPendingLeaseCount creditAccount) (expired env l) (MinLeaseDuration p));
    SetCreditAccount ca) w = (Ok tt, w2)).
  { apply cached_ok. erewrite bind_run by exact E1. erewrite bind_run by exact E2.
    rewrite Hs in E3. rewrite decide_False in E3 by done. erewrite bind_run by (unfold lift; by rewrite E3). done. }
  erewrite bind_run by exact E5. done.
Qed.

(** ** Which leases are due *)

Definition overdue (p : Params) w (u : string) : bool :=
  match Leases w !! u with
  | Some l => state_is (State l) LEASE_STATE_PENDING && (CreatedAt l + PendingTimeout p * Second <? now)
  | None => false
  end.

(** All overdue pending leases, in the order of the store. *)
Definition overdue_leases (p : Params) w : list string :=
  filter (λ u, overdue p w u = true) (sorted_keys (Leases w)).

Lemma pending_timeout_eq p : Params_Validate p = Ok tt → params_u64 p → pending_timeout p = PendingTimeout p * Second.
Proof.
  intros Hv Hu. destruct (Params_Validate_bounds p Hv Hu) as (_ & _ & _ & Hb). unfold pending_timeout.
  unfold MinPendingTimeout, MaxPendingTimeout, Second in *.
  rewrite (wrap_i64_id (PendingTimeout p)); [rewrite wrap_i64_id; [done|]|]; unfold min_i64, max_i64; lia.
Qed.

(** The collecting loop is a filter cut off at the limit. *)
Lemma collect_expired_spec T w acc us :
  llen acc ≤ MaxPendingLeaseExpirationsPerBlock →
  collect_expired env T w acc us =
  acc ++ take (Z.to_nat (MaxPendingLeaseExpirationsPerBlock - llen acc))
    (filter (λ u, from_option (λ l, time_After now (time_Add (CreatedAt l) T)) false (Leases w !! u) = true) us).
Proof.
  revert acc. induction us as [|u us IH]; intros acc Hlen; cbn [collect_expired].
  { rewrite filter_nil, take_nil. by rewrite app_nil_r. }
  destruct (_ <=? llen acc) eqn:El.
  { apply Z.leb_le in El. replace (Z.to_nat _) with 0%nat by lia. by rewrite take_0, app_nil_r. }
  apply Z.leb_gt in El. rewrite filter_cons. destruct (Leases w !! u) as [l|]; cbn [from_option].
  - destruct (time_After _ _) eqn:Et.
    + rewrite decide_True by done.
      assert (Hl1 : llen (acc ++ [u]) = llen acc + 1) by (unfold llen; rewrite length_app; cbn; lia).
      rewrite IH by lia. rewrite <- app_assoc. f_equal. cbn.
      replace (Z.to_nat (MaxPendingLeaseExpirationsPerBlock - llen acc))
        with (S (Z.to_nat (MaxPendingLeaseExpirationsPerBlock - llen (acc ++ [u])))) by lia. done.
    + rewrite decide_False by done. by apply IH.
  - rewrite decide_False by done. by apply IH.
Qed.

Lemma collect_overdue p w :
  Params_Validate p = Ok tt → params_u64 p →
  collect_expired env (pending_timeout p) w [] (MatchExact (lease_state_is LEASE_STATE_PENDING) w) =
  take 100 (overdue_leases p w).
Proof.
  intros Hv Hu. rewrite pending_timeout_eq by done. rewrite collect_expired_spec by (unfold llen; by vm_compute).
  change (Z.to_nat (MaxPendingLeaseExpirationsPerBlock - llen [])) with 100%nat. cbn [app]. f_equal.
  unfold MatchExact, overdue_leases. rewrite list_filter_filter. apply list_filter_iff. intros u. unfold overdue.
  destruct (Leases w !! u) as [l|]; cbn; [|naive_solver]. unfold time_After, time_Add, lease_state_is.
  rewrite andb_true_iff. tauto.
Qed.

(** ** The loop *)

Definition expire_all w (us : list string) (u : string) : option Lease :=
  if decide (u ∈ us) then expired env <$> Leases w !! u else Leases w !! u.

Lemma expire_loop_total us w :
  BillingInv now w → NoDup us → (∀ u, u ∈ us → ∃ l, Leases w !! u = Some l ∧ State l = LEASE_STATE_PENDING) →
  ∃ w', foldlM (λ _ u, expire_one env u) tt us w = (Ok tt, w') ∧ kept env w w' ∧
        (∀ u, Leases w' !! u = expire_all w us u) ∧ bank w' = bank w ∧ sku w' = sku w ∧ k_Params w' = k_Params w.
Proof.
  revert w. induction us as [|u us IH]; intros w HI Hn Hus.
  { exists w. by split_and!. }
  apply NoDup_cons in Hn as [Hu Hn]. destruct (Hus u) as (l & Hl & Hs); [by apply elem_of_cons; left|].
  destruct (stored_wf _ _ _ _ _ HI Hl) as [Hwf Hl']. pose proof (wf_uuid _ _ _ Hwf) as Huu.
  destruct (ExpirePendingLease_total w l HI Hl' Hs) as (w1 & E1 & [HI1 Hev1] & HL1 & HB1 & HS1 & HP1).
  assert (Hother : ∀ v, v ≠ u → Leases w1 !! v = Leases w !! v).
  { intros v Hv. rewrite HL1, lookup_insert_ne; [done|congruence]. }
  destruct (IH w1 HI1 Hn) as (w2 & E2 & [HI2 Hev2] & HL2 & HB2 & HS2 & HP2).
  { intros v Hv. rewrite Hother by congruence. apply Hus. apply elem_of_cons. auto. }
  exists w2. split_and!; [| split; [done|by etrans]| |congruence..].
  - cbn [foldlM]. erewrite bind_run; [exact E2|]. unfold expire_one.
    erewrite bind_run by (unfold try, Leases_Get, mbind, M_bind, get, lift; by rewrite Hl).
    cbn iota. erewrite bind_run by (unfold try; by rewrite E1). done.
  - intros v. rewrite HL2. unfold expire_all. destruct (decide (v = u)) as [->|Hv].
    + rewrite decide_False by done. rewrite decide_True by (apply elem_of_cons; auto).
      rewrite HL1, Huu, lookup_insert_eq, Hl. done.
    + rewrite Hother by done. apply decide_ext. rewrite elem_of_cons. naive_solver.
Qed.

Lemma overdue_pending p w u : u ∈ overdue_leases p w → ∃ l, Leases w !! u = Some l ∧ State l = LEASE_STATE_PENDING.
Proof.
  unfold overdue_leases, overdue. rewrite list_elem_of_filter. intros [Ho _].
  destruct (Leases w !! u) as [l|]; [|done]. apply andb_true_iff in Ho as [Ho%state_is_true _]. eauto.
Qed.

Lemma EndBlocker_total w :
  BillingInv now w →
  ∃ p w', k_Params w = Some p ∧ EndBlocker env w = (Ok tt, w') ∧ kept env w w' ∧
    (∀ u, Leases w' !! u = expire_all w (take 100 (overdue_leases p w)) u) ∧
    bank w' = bank w ∧ sku w' = sku w ∧ k_Params w' = k_Params w.
Proof.
  intros HI. destruct (I_params _ _ _ HI) as (p & Hp & Hv & Hu).
  destruct (expire_loop_total (take 100 (overdue_leases p w)) w) as (w' & E & Hk & HL & HB & HS & HP).
  - done.
  - eapply sublist_NoDup; [|apply sublist_take]. apply NoDup_filter, NoDup_sorted_keys.
  - intros u Hin. eapply overdue_pending, elem_of_take_in, Hin.
  - exists p, w'. split_and!; try done. unfold EndBlocker.
    erewrite bind_run by (unfold GetParams, mbind, M_bind, get, lift; by rewrite Hp).
    erewrite bind_run by done. rewrite collect_overdue by done. done.
Qed.

(** A lease that is overdue and still pending after the block has a hundred expired leases before it. *)
Lemma EndBlocker_queue p w w' u :
  (∀ v, Leases w' !! v = expire_all w (take 100 (overdue_leases p w)) v) →
  overdue p w u = true → (∃ l, Leases w' !! u = Some l ∧ State l = LEASE_STATE_PENDING) →
  length (take 100 (overdue_leases p w)) = 100%nat ∧ ∀ v, v ∈ take 100 (overdue_leases p w) → String.le v u.
Proof.
  intros HL Ho (l & Hl & Hs). set (us := overdue_leases p w) in *.
  assert (Hu : u ∈ us).
  { apply list_elem_of_filter. split; [done|]. apply elem_of_sorted_keys. unfold overdue in Ho. destruct (Leases w !! u); [eauto|done]. }
  assert (Hnt : u ∉ take 100 us).
  { intros Hin. rewrite HL in Hl. unfold expire_all in Hl. rewrite decide_True in Hl by done.
    destruct (Leases w !! u); [|done]. injection Hl as <-. done. }
  assert (Hd : u ∈ drop 100 us).
  { rewrite <- (take_drop 100 us) in Hu. apply elem_of_app in Hu as [?|?]; done. }
  split.
  - rewrite length_take. assert (0 < length (drop 100 us))%nat by (destruct (drop 100 us); [by apply not_elem_of_nil in Hd|cbn; lia]).
    rewrite length_drop in *. lia.
  - intros v Hv. apply (StronglySorted_app_1_elem_of String.le (take 100 us) (drop 100 us)); [|done|done].
    rewrite take_drop. unfold us, overdue_leases. apply StronglySorted_filter, StronglySorted_sorted_keys.
Qed.

(** C10 (termination): the end blocker never returns an error or panics; it expires exactly the
    first hundred pending leases, in UUID order, that are older than the pending timeout,
    releasing what they reserved, and changes no other lease, no parameter and no balance. *)
Theorem end_blocker_exact w :
  BillingInv now w →
  ∃ p w', k_Params w = Some p ∧ EndBlocker env w = (Ok tt, w') ∧ kept env w w' ∧
    (∀ u, Leases w' !! u = if decide (u ∈ take 100 (overdue_leases p w))
                           then expired env <$> Leases w !! u else Leases w !! u) ∧
    bank w' = bank w ∧ sku w' = sku w ∧ k_Params w' = k_Params w.
Proof. apply EndBlocker_total. Qed.

End expiry.

(** ** Witnesses: half an hour later the demo lease is overdue *)

Definition demo_overdue : Env := example_env_at (2801 * Second).

Lemma demo_pending_overdue : BillingInv (blockTime demo_overdue) demo_pending.
Proof. eapply BillingInv_later; [|apply demo_pending_inv]. vm_compute. discriminate. Qed.

Lemma end_blocker_exact_witness :
  ∃ p w', k_Params demo_pending = Some p ∧ EndBlocker demo_overdue demo_pending = (Ok tt, w') ∧
    Leases w' !! demo_lease_uuid =
      if decide (demo_lease_uuid ∈ take 100 (overdue_leases demo_overdue p demo_pending))
      then expired demo_overdue <$> Leases demo_pending !! demo_lease_uuid else Leases demo_pending !! demo_lease_uuid.
Proof.
  destruct (end_blocker_exact demo_overdue demo_pending demo_pending_overdue) as (p & w' & Hp & E & _ & HL & _).
  exists p, w'. split; [exact Hp|]. split; [exact E|]. apply HL.
Defined.

(** The demo lease is indeed on the list, and expires. *)
Example demo_expires :
  overdue_leases demo_overdue DefaultParams demo_pending = [demo_lease_uuid] ∧
  (State <$> Leases (EndBlocker demo_overdue demo_pending).2 !! demo_lease_uuid) = Some LEASE_STATE_EXPIRED.
Proof. split; vm_compute; reflexivity. Qed.
