(* ===== verification/Handlers.v ===== *)
(** * What each message does

    For the batch handlers: exactly the leases named change, exactly as the handler says, and only
    for a caller with the right role. For creation and withdrawal: what is reserved and what is
    paid. *)

From stdpp Require Import base tactics option list strings gmap sorting fin_maps.
From Stdlib Require Import ZArith Lia.
From S2P Require Import Prelude Sdk SdkRef Uuid GoStd SkuTypes BillingTypes BillingMsgs SkuKeeper Credit Accrual Keeper LeaseStore Settlement Lifecycle Withdraw Querier EndBlocker Genesis Invariant LifecycleInv CreateInv Scenario WithdrawInv ExpiryInv.
Open Scope Z_scope.

Section handlers_effect.
Context `{SL : SDKLaws} `{SK : SKUKeeper} {KL : SKUKeeperLaws SK} `{GL : GoStdLaws} (env : Env).
Implicit Types (w : World) (l : Lease) (b : batch).

Notation now := (blockTime env).

(** The leases named by [uuids] were in state [from] and changed by [R]; no other lease changed. *)
Definition batch_effect (from : LeaseState) (R : Lease → Lease → Prop) (uuids : list string) w w' : Prop :=
  (∀ u, u ∈ uuids → ∃ l l', Leases w !! u = Some l ∧ State l = from ∧ Leases w' !! u = Some l' ∧ R l l') ∧
  (∀ u, u ∉ uuids → Leases w' !! u = Leases w !! u).

(** A loop that writes one lease per iteration, with [Q] what happens to the rest of the state. *)
Lemma loop_effect {A} (P : Lease → Prop) (R : Lease → Lease → Prop) (Q : World → World → Prop) `{!PreOrder Q}
    (f : A → Lease → M World A) :
  (∀ x l w x' w', P l → f x l w = (Ok x', w') →
     (∃ l', R l l' ∧ Leases w' = <[Uuid l := l']> (Leases w)) ∧ Q w w') →
  ∀ ls x w x' w', Forall P ls → NoDup (Uuid <$> ls) → foldlM f x ls w = (Ok x', w') →
    (∀ l, l ∈ ls → ∃ l', Leases w' !! Uuid l = Some l' ∧ R l l') ∧
    (∀ u, u ∉ (Uuid <$> ls) → Leases w' !! u = Leases w !! u) ∧ Q w w'.
Proof.
  intros Hf ls. induction ls as [|l ls IH]; intros x w x' w' HP Hn E; cbn [foldlM] in E; run_inv.
  - split_and!; [|done|reflexivity]. intros l Hl. by apply not_elem_of_nil in Hl.
  - apply Forall_cons in HP as [Hl HP]. rewrite fmap_cons in *. apply NoDup_cons in Hn as [Hu Hn].
    match goal with H : f _ _ _ = _ |- _ => apply Hf in H as [(l' & HR & HL) HQ]; [|done] end.
    apply IH in E as (Hin & Hout & HQ'); [|done..]. split_and!; [| |by etrans].
    + intros k [->|Hk]%elem_of_cons; [|by apply Hin]. exists l'. split; [|done].
      rewrite Hout, HL, lookup_insert_eq by done. done.
    + intros u Hnu. apply not_elem_of_cons in Hnu as [Hne Hnu]. rewrite Hout, HL by done. by rewrite lookup_insert_ne.
Qed.

Lemma SetCreditAccount_frame ca w u w' :
  SetCreditAccount ca w = (Ok u, w') → Leases w' = Leases w ∧ bank w' = bank w ∧ sku w' = sku w.
Proof. unfold SetCreditAccount. intros E. run_split. done. Qed.

Lemma persist_accounts_leases accounts order w u w' :
  persist_accounts accounts order w = (Ok u, w') → Leases w' = Leases w ∧ bank w' = bank w ∧ sku w' = sku w.
Proof.
  revert w. induction order as [|t order IH]; intros w E; cbn in E; run_inv; [done|]. destruct_units.
  apply IH in E as (-> & -> & ->). by eapply SetCreditAccount_frame.
Qed.

(** The leases a batch gathered are those stored under the UUIDs, in order. *)
Definition picked w (uuids : list string) (ls : list Lease) : Prop := Forall2 (λ u l, Leases w !! u = Some l) uuids ls.

Lemma picked_uuids n w uuids ls : BillingInv n w → picked w uuids ls → Uuid <$> ls = uuids.
Proof.
  intros HI. induction 1 as [|u l us ls Hl _ IH]; cbn; [done|]. rewrite IH. f_equal.
  apply (wf_uuid _ _ _ (I_leases _ _ _ HI u l Hl)).
Qed.

Lemma picked_elem w uuids ls u : picked w uuids ls → u ∈ uuids → ∃ l, l ∈ ls ∧ Leases w !! u = Some l.
Proof.
  intros Hp Hu. apply list_elem_of_lookup in Hu as [i Hi]. destruct (Forall2_lookup_l _ _ _ _ _ Hp Hi) as (l & Hl & ?).
  exists l. split; [by eapply list_elem_of_lookup_2|done].
Qed.

Lemma picked_stored w uuids ls : BillingInv now w → picked w uuids ls → Forall (λ l, lease_wf now (Uuid l) l) ls.
Proof.
  intros HI Hp. apply Forall_forall. intros l Hl. apply list_elem_of_lookup in Hl as [i Hi].
  destruct (Forall2_lookup_r _ _ _ _ _ Hp Hi) as (u & _ & Hu). destruct (stored_wf _ _ _ _ _ HI Hu) as [Hwf _].
  by rewrite (wf_uuid _ _ _ Hwf).
Qed.

Lemma batch_effect_intro from R uuids ls w w' :
  BillingInv now w → picked w uuids ls → Forall (λ l, State l = from) ls →
  (∀ l, l ∈ ls → ∃ l', Leases w' !! Uuid l = Some l' ∧ R l l') →
  (∀ u, u ∉ (Uuid <$> ls) → Leases w' !! u = Leases w !! u) → batch_effect from R uuids w w'.
Proof.
  intros HI Hp Hst Hin Hout. rewrite (picked_uuids _ _ _ _ HI Hp) in Hout. split; [|done].
  intros u Hu. destruct (picked_elem _ _ _ _ Hp Hu) as (l & Hl & Hlu). destruct (Hin l Hl) as (l' & Hl' & HR).
  destruct (stored_wf _ _ _ _ _ HI Hlu) as [Hwf _]. rewrite (wf_uuid _ _ _ Hwf) in Hl'.
  rewrite Forall_forall in Hst. exists l, l'. by split_and!; [|apply Hst| |].
Qed.

(** Bank and sku state as they were. *)
Definition same_money w w' : Prop := bank w' = bank w ∧ sku w' = sku w.

#[local] Instance same_money_preorder : PreOrder same_money.
Proof. split; [by split|]. intros w1 w2 w3 [] []. split; congruence. Qed.

Definition any_change w w' : Prop := True.
#[local] Instance any_change_preorder : PreOrder any_change.
Proof. by split. Qed.

Lemma SetLease_effect l' w u w' :
  SetLease l' w = (Ok u, w') → Leases w' = <[Uuid l' := l']> (Leases w) ∧ same_money w w'.
Proof. intros (_ & HL & (_ & _ & _ & _ & HS & HB & _))%SetLease_ok. done. Qed.

(** ** Pending leases and their provider *)

Lemma batch_add_leases b l w b' w' : batch_add b l w = (Ok b', w') → w' = w ∧ b_leases b' = b_leases b ++ [l].
Proof.
  unfold batch_add. intros E. destruct (b_accounts b !! _); run_inv; [done|].
  match goal with H : GetCreditAccount _ _ = _ |- _ => apply GetCreditAccount_ok in H as [-> _] end. done.
Qed.

(** The provider of a batch: the one all its leases share. *)
Definition batch_provider (pr : string) (ls : list Lease) : Prop :=
  Forall (λ l, ProviderUuid l = pr) ls ∧ (pr = ""%string ↔ ls = []).

Lemma validate_pending_picked n uuids w b pr seen b' pr' w' :
  BillingInv n w → picked w seen (b_leases b) → batch_provider pr (b_leases b) →
  foldlM validate_pending_one (b, pr) uuids w = (Ok (b', pr'), w') →
  picked w (seen ++ uuids) (b_leases b') ∧ batch_provider pr' (b_leases b').
Proof.
  intros HI. revert b pr seen. induction uuids as [|u uuids IH]; intros b pr seen Hp Hpr E; cbn [foldlM] in E; run_inv.
  - by rewrite app_nil_r.
  - match goal with H : validate_pending_one _ _ _ = (Ok ?x, _) |- _ => destruct x as [b1 pr1]; rename H into E1 end.
    unfold validate_pending_one in E1. run_inv.
    match goal with H : GetLease _ _ = (Ok ?k, _) |- _ => rename k into l; apply GetLease_ok in H as [-> Hl] end.
    destruct (negb _) in E1; [done|]. run_inv.
    match goal with H : (if String.eqb pr _ then _ else _) ?w0 = (Ok ?q, ?w1) |- _ =>
      assert (w1 = w0 ∧ q = ProviderUuid l ∧ (pr = ""%string ∨ pr = ProviderUuid l)) as (-> & -> & Hq) end.
    { destruct (String.eqb_spec pr ""); [run_inv; by auto|]. destruct (negb _) eqn:En; [done|].
      apply negb_false_iff, String.eqb_eq in En. run_inv. by auto. }
    match goal with H : batch_add _ _ _ = _ |- _ => apply batch_add_leases in H as [-> Hb] end.
    destruct Hpr as [HF Hiff]. pose proof (wf_provider _ _ _ (I_leases _ _ _ HI u l Hl)) as Hne.
    apply (IH b1 (ProviderUuid l) (seen ++ [u])) in E; [by rewrite <- app_assoc in E| |].
    + rewrite Hb. apply Forall2_app; [done|by constructor].
    + rewrite Hb. split; [|split; [done|]; by destruct (b_leases b)]. apply Forall_app. split; [|by constructor].
      destruct Hq as [->| ->]; [|done]. by rewrite (proj1 Hiff).
Qed.

(** Who may act for the provider of the batch. *)
Definition provider_acts (sender : string) w (uuids : list string) : Prop :=
  ∃ pr P, GetProvider (sku w) pr = Ok P ∧ (sender = prov_Address P ∨ sender = authority env) ∧
    ∀ u l, u ∈ uuids → Leases w !! u = Some l → ProviderUuid l = pr.

(** What the validation of acknowledge and reject has established. *)
Lemma pending_batch_checked sender uuids w b pr w1 P w2 :
  BillingInv now w → ValidateBatchLeaseUUIDs uuids = Ok tt →
  validatePendingLeaseBatch uuids w = (Ok (b, pr), w1) →
  validateProviderAuthorization env sender pr w1 = (Ok P, w2) →
  w2 = w ∧ picked w uuids (b_leases b) ∧ Forall (λ l, State l = LEASE_STATE_PENDING) (b_leases b) ∧
  NoDup (Uuid <$> b_leases b) ∧ provider_acts sender w uuids.
Proof.
  intros HI Hv E1 E2. pose proof E1 as Ek. apply (validatePendingLeaseBatch_ok env) in Ek as (-> & Hb & Hst); [|done..].
  apply validateProviderAuthorization_ok in E2 as (-> & HP & Hs).
  destruct (validate_pending_picked now uuids w empty_batch "" [] b pr w HI) as [Hp Hpr]; [constructor|split; [constructor|done]|done|].
  split_and!; [done|done|done|apply Hb|]. exists pr, P. split_and!; [done|done|].
  intros u l Hu Hl. destruct (picked_elem _ _ _ _ Hp Hu) as (k & Hk & Hk'). assert (k = l) as -> by congruence.
  destruct Hpr as [HF _]. rewrite Forall_forall in HF. by apply HF.
Qed.

(** ** Acknowledge and reject *)

(** From the loop and the account writes of a handler to its effect. *)
Lemma handler_effect from R uuids ls w w1 w2 x :
  BillingInv now w → picked w uuids ls → Forall (λ l, State l = from) ls →
  (∀ l, l ∈ ls → ∃ l', Leases w1 !! Uuid l = Some l' ∧ R l l') →
  (∀ u, u ∉ (Uuid <$> ls) → Leases w1 !! u = Leases w !! u) →
  Leases w2 = Leases w1 → batch_effect from R uuids w (set_events x w2).
Proof. intros HI Hp Hst Hin Hout HL. eapply batch_effect_intro; [done|done|done|..]; cbn; by rewrite HL. Qed.

Lemma acknowledge_one_effect accs l w accs' w' :
  acknowledge_one env accs l w = (Ok accs', w') →
  (∃ l', l' = acknowledged env l ∧ Leases w' = <[Uuid l := l']> (Leases w)) ∧ same_money w w'.
Proof.
  unfold acknowledge_one. intros E. run_inv.
  match goal with H : SetLease _ _ = _ |- _ => apply SetLease_effect in H as [HL HQ] end. split; [by eexists|done].
Qed.

Lemma AcknowledgeLease_effect msg w r w' :
  BillingInv now w → AcknowledgeLease env msg w = (Ok r, w') →
  batch_effect LEASE_STATE_PENDING (λ l l', l' = acknowledged env l) (al_LeaseUuids msg) w w' ∧
  provider_acts (al_Sender msg) w (al_LeaseUuids msg) ∧ same_money w w' ∧ NoDup (al_LeaseUuids msg).
Proof.
  intros HI E. unfold AcknowledgeLease in E. run_inv. destruct_units.
  match goal with H : MsgAcknowledgeLease_ValidateBasic _ = Ok _ |- _ => unfold MsgAcknowledgeLease_ValidateBasic in H end.
  checks_inv. match goal with H : validatePendingLeaseBatch _ _ = (Ok ?v, _) |- _ => destruct v as [b pr] end.
  run_inv. match goal with H : validatePendingLeaseBatch _ _ = _, H' : validateProviderAuthorization _ _ _ _ = _ |- _ =>
    eapply pending_batch_checked in H' as (Hw & Hp & Hst & Hnd & Hauth); [|done|done|exact H] end. subst.
  match goal with H : foldlM (acknowledge_one _) _ _ _ = _ |- _ =>
    apply (loop_effect (λ _, True) (λ l l', l' = acknowledged env l) same_money) in H as (Hin & Hout & HQ);
      [|intros; by eapply acknowledge_one_effect|by apply Forall_true|done] end.
  match goal with H : persist_accounts _ _ _ = _ |- _ => apply persist_accounts_leases in H as (HL & HB & HS) end.
  destruct HQ as [HB1 HS1]. rewrite (picked_uuids _ _ _ _ HI Hp) in Hnd.
  events_inv; (split_and!; [by eapply handler_effect|done|split; cbn; congruence|done]).
Qed.

Lemma reject_one_effect p reason accs l w accs' w' :
  reject_one env p reason accs l w = (Ok accs', w') →
  (∃ l', l' = rejected env reason l ∧ Leases w' = <[Uuid l := l']> (Leases w)) ∧ same_money w w'.
Proof.
  unfold reject_one. intros E. run_inv.
  match goal with H : SetLease _ _ = _ |- _ => apply SetLease_effect in H as [HL HQ] end. split; [by eexists|done].
Qed.

Lemma RejectLease_effect msg w r w' :
  BillingInv now w → RejectLease env msg w = (Ok r, w') →
  batch_effect LEASE_STATE_PENDING (λ l l', l' = rejected env (rl_Reason msg) l) (rl_LeaseUuids msg) w w' ∧
  provider_acts (rl_Sender msg) w (rl_LeaseUuids msg) ∧ same_money w w' ∧ NoDup (rl_LeaseUuids msg).
Proof.
  intros HI E. unfold RejectLease in E. run_inv. destruct_units.
  match goal with H : MsgRejectLease_ValidateBasic _ = Ok _ |- _ => unfold MsgRejectLease_ValidateBasic in H end.
  checks_inv. destruct_units. match goal with H : GetParams _ = _ |- _ => apply GetParams_ok in H as [-> _] end.
  match goal with H : validatePendingLeaseBatch _ _ = (Ok ?v, _) |- _ => destruct v as [b pr] end.
  run_inv. match goal with H : validatePendingLeaseBatch _ _ = _, H' : validateProviderAuthorization _ _ _ _ = _ |- _ =>
    eapply pending_batch_checked in H' as (Hw & Hp & Hst & Hnd & Hauth); [|done|done|exact H] end. subst.
  match goal with H : foldlM (reject_one _ _ _) _ _ _ = _ |- _ =>
    apply (loop_effect (λ _, True) (λ l l', l' = rejected env (rl_Reason msg) l) same_money) in H as (Hin & Hout & HQ);
      [|intros; by eapply reject_one_effect|by apply Forall_true|done] end.
  match goal with H : persist_accounts _ _ _ = _ |- _ => apply persist_accounts_leases in H as (HL & HB & HS) end.
  destruct HQ as [HB1 HS1]. rewrite (picked_uuids _ _ _ _ HI Hp) in Hnd.
  events_inv; (split_and!; [by eapply handler_effect|done|split; cbn; congruence|done]).
Qed.

(** ** Cancel *)

Lemma validate_cancel_picked t uuids seen acc w acc' w' :
  picked w seen acc → foldlM (validate_cancel_one t) acc uuids w = (Ok acc', w') →
  picked w (seen ++ uuids) acc'.
Proof.
  revert seen acc. induction uuids as [|u uuids IH]; intros seen acc Hp E; cbn [foldlM] in E; run_inv; [by rewrite app_nil_r|].
  match goal with H : validate_cancel_one _ _ _ _ = _ |- _ => rename H into E1 end. unfold validate_cancel_one in E1. run_inv.
  match goal with H : GetLease _ _ = _ |- _ => apply GetLease_ok in H as [-> Hl] end.
  destruct (negb _) in E1; [done|]. destruct (negb _) in E1; [done|]. run_inv.
  apply (IH (seen ++ [u])) in E; [by rewrite <- app_assoc in E|]. apply Forall2_app; [done|by constructor].
Qed.

Lemma cancel_one_effect p ca l w ca' w' :
  cancel_one env p ca l w = (Ok ca', w') →
  (∃ l', l' = rejected env RejectionReasonCancelledByTenant l ∧ Leases w' = <[Uuid l := l']> (Leases w)) ∧ same_money w w'.
Proof.
  unfold cancel_one. intros E. run_inv.
  match goal with H : SetLease _ _ = _ |- _ => apply SetLease_effect in H as [HL HQ] end. split; [by eexists|done].
Qed.

Lemma CancelLease_effect msg w r w' :
  BillingInv now w → CancelLease env msg w = (Ok r, w') →
  batch_effect LEASE_STATE_PENDING (λ l l', l' = rejected env RejectionReasonCancelledByTenant l) (kl_LeaseUuids msg) w w' ∧
  (∀ u l, u ∈ kl_LeaseUuids msg → Leases w !! u = Some l → Tenant l = kl_Tenant msg) ∧ same_money w w' ∧ NoDup (kl_LeaseUuids msg).
Proof.
  intros HI E. unfold CancelLease in E. run_inv. destruct_units.
  match goal with H : MsgCancelLease_ValidateBasic _ = Ok _ |- _ => unfold MsgCancelLease_ValidateBasic in H end.
  checks_inv. destruct_units. match goal with H : GetParams _ = _ |- _ => apply GetParams_ok in H as [-> _] end.
  match goal with H : ValidateBatchLeaseUUIDs _ = _ |- _ => apply validate_batch_NoDup in H as Hnd0 end.
  match goal with H : foldlM (validate_cancel_one _) _ _ _ = _ |- _ =>
    pose proof (validate_cancel_picked _ _ [] _ _ _ _ ltac:(constructor) H) as Hp;
    apply (validate_cancel_ok env) in H as (-> & [Hnd HF] & _); [|done|by split; constructor|done|apply Forall_forall; intros; apply not_elem_of_nil] end.
  match goal with H : GetCreditAccount _ _ = _ |- _ => apply GetCreditAccount_ok in H as [-> _] end.
  match goal with H : foldlM (cancel_one _ _) _ _ _ = _ |- _ =>
    apply (loop_effect (λ _, True) (λ l l', l' = rejected env RejectionReasonCancelledByTenant l) same_money) in H as (Hin & Hout & HQ);
      [|intros; by eapply cancel_one_effect|by apply Forall_true|done] end.
  match goal with H : SetCreditAccount _ _ = _ |- _ => apply SetCreditAccount_frame in H as (HL & HB & HS) end.
  destruct HQ as [HB1 HS1].
  assert (Hten : ∀ u l, u ∈ kl_LeaseUuids msg → Leases w !! u = Some l → Tenant l = kl_Tenant msg).
  { intros u l Hu Hl. destruct (picked_elem _ _ _ _ Hp Hu) as (k & Hk & Hk'). assert (k = l) as -> by congruence.
    rewrite Forall_forall in HF. by apply HF. }
  match type of HF with Forall _ ?ls =>
    assert (Hst : Forall (λ l, State l = LEASE_STATE_PENDING) ls) by (eapply Forall_impl; [exact HF|]; naive_solver) end.
  events_inv; (split_and!; [by eapply handler_effect|done|split; cbn; congruence|done]).
Qed.

(** ** Close *)

Definition provider_is_sender (sender : string) w l : Prop :=
  ∃ P, GetProvider (sku w) (ProviderUuid l) = Ok P ∧ prov_Address P = sender.

Definition cache_ok w (cache : gmap string string) : Prop :=
  ∀ k a, cache !! k = Some a → ∃ P, GetProvider (sku w) k = Ok P ∧ prov_Address P = a.

(** What a role says about a lease. *)
Definition has_role (sender role : string) w l : Prop :=
  (role = "authority"%string ∧ sender = authority env) ∨
  (role = "tenant"%string ∧ sender ≠ authority env ∧ Tenant l = sender) ∨
  (role = "provider"%string ∧ sender ≠ authority env ∧ provider_is_sender sender w l).

Lemma close_role_ok sender cache l w role cache' w' :
  cache_ok w cache → close_role env sender cache l w = (Ok (role, cache'), w') →
  cache_ok w cache' ∧ (role ≠ ""%string → has_role sender role w l).
Proof.
  intros Hc E. unfold close_role in E. unfold has_role.
  destruct (String.eqb_spec sender (authority env)) as [Ha|Ha]; [cbn in E; run_inv; auto|].
  destruct (String.eqb_spec sender (Tenant l)) as [Ht|Ht]; [cbn in E; run_inv; split; [done|]; right; left; by split_and!|].
  cbn [negb String.eqb] in E. cbn in E. run_inv.
  match goal with H : (match cache !! _ with _ => _ end) _ = (Ok ?f, _) |- _ => destruct f as [addr c'];
    assert (Hf : cache_ok w c' ∧ (addr ≠ ""%string → ∃ P, GetProvider (sku w) (ProviderUuid l) = Ok P ∧ prov_Address P = addr)) end.
  { destruct (cache !! ProviderUuid l) as [a|] eqn:Ec; run_inv.
    - split; [done|]. intros _. by apply Hc.
    - destruct (GetProvider (sku w) (ProviderUuid l)) as [P|e|] eqn:EP.
      + run_inv. split; [|eauto]. intros k a [[<- <-]|[_ ?]]%lookup_insert_Some; [eauto|by apply Hc].
      + destruct (bool_decide _); run_inv. split; [done|]. intros Hx. by destruct Hx.
      + run_inv. }
  destruct Hf as [Hc' Haddr]. run_inv. split; [done|]. intros Hne.
  destruct (String.eqb_spec addr "") as [|Hx]; [done|]. cbn in *. destruct (String.eqb_spec sender addr) as [->|]; [|done].
  right. right. split_and!; [done|done|]. by apply Haddr.
Qed.

Lemma validate_close_picked sender uuids seen acc w acc' w' :
  picked w seen (b_leases (c_batch acc)) → cache_ok w (c_providers acc) →
  Forall (has_role sender (c_closedBy acc) w) (b_leases (c_batch acc)) → (c_closedBy acc = ""%string → seen = []) →
  foldlM (validate_close_one env sender) acc uuids w = (Ok acc', w') →
  picked w (seen ++ uuids) (b_leases (c_batch acc')) ∧ Forall (has_role sender (c_closedBy acc') w) (b_leases (c_batch acc')).
Proof.
  revert seen acc. induction uuids as [|u uuids IH]; intros seen acc Hp Hc Hr Hnil E; cbn [foldlM] in E; run_inv; [by rewrite app_nil_r|].
  match goal with H : validate_close_one _ _ _ _ _ = _ |- _ => rename H into E1 end. unfold validate_close_one in E1. run_inv.
  match goal with H : GetLease _ _ = (Ok ?k, _) |- _ => rename k into l; apply GetLease_ok in H as [-> Hl] end.
  destruct (negb (state_is _ _)) in E1; [done|]. run_inv.
  match goal with H : close_role _ _ _ _ _ = (Ok ?r, _) |- _ => destruct r as [role c'];
    pose proof (close_role_state _ _ _ _ _ _ _ H) as ->; apply close_role_ok in H as [Hc' Hrole]; [|done] end.
  destruct (String.eqb_spec role "") as [|Hne] in E1; [done|]. specialize (Hrole Hne). run_inv.
  match goal with H : (if negb _ then _ else _) ?w0 = (Ok ?cb, ?w1) |- _ =>
    assert (w1 = w0 ∧ cb = role ∧ Forall (has_role sender cb w) (b_leases (c_batch acc))) as (-> & -> & Hr') end.
  { destruct (String.eqb_spec sender (authority env)) as [Ha|Ha]; cbn [negb] in *.
    - run_inv. destruct Hrole as [[-> _]|[(_ & ? & _)|(_ & ? & _)]]; [|done..]. split_and!; [done|done|].
      eapply Forall_impl; [done|]. intros k _. by left.
    - destruct (String.eqb_spec (c_closedBy acc) "") as [Hcb|]; run_inv.
      + split_and!; [done|done|]. rewrite (Hnil Hcb) in Hp. by apply Forall2_nil_inv_l in Hp as ->.
      + destruct (negb _) eqn:En; [done|]. apply negb_false_iff, String.eqb_eq in En. run_inv. done. }
  match goal with H : batch_add _ _ _ = _ |- _ => apply batch_add_leases in H as [-> Hb] end.
  eapply (IH (seen ++ [u])) in E; [by rewrite <- app_assoc in E|..]; cbn [c_batch c_providers c_closedBy]; rewrite ?Hb.
  - apply Forall2_app; [done|by constructor].
  - done.
  - apply Forall_app. split; [done|by constructor].
  - done.
Qed.

(** What closing makes of a lease. *)
Definition closed_now l l' : Prop :=
  evolves l l' ∧ State l' = LEASE_STATE_CLOSED ∧ ClosedAt l' = Some now ∧ LastSettledAt l' = now.

Lemma close_one_effect p reason closedBy x l w x' w' :
  lease_wf now (Uuid l) l ∧ State l = LEASE_STATE_ACTIVE →
  close_one env p reason closedBy x l w = (Ok x', w') →
  (∃ l', closed_now l l' ∧ Leases w' = <[Uuid l := l']> (Leases w)) ∧
  ∃ a cs, pays w w' [mkTransfer (ProviderUuid l) a cs] ∧ valid_coins cs ∧
          Coins_Add (cl_settled x) cs = Ok (cl_settled x').
Proof.
  intros [Hwf Hs] E. unfold close_one in E. run_inv.
  match goal with H : close_settle _ _ _ _ _ = (Ok ?r, _) |- _ => destruct r as [[l' cs] role];
    eapply close_settle_ok in H as ((a & Ha & Hm) & He & Hwf' & Hit & Hs' & Hls); [|done..] end.
  run_inv. match goal with H : SetLease _ _ = _ |- _ => apply SetLease_effect in H as [HL [HB HS]] end.
  destruct (moved_frame _ _ _ _ _ Hm) as (HL1 & _ & _ & _ & _ & _ & HS1 & _).
  rewrite (ev_uuid _ _ He), HL1 in HL. pose proof (wf_closed _ _ _ Hwf' Hs') as Hcl.
  split; [exists l'; split; [split_and!; [done|done|congruence|done]|done]|].
  exists a, cs. split_and!; [eapply moved_pays; [done|done|congruence]|apply Hm|done].
Qed.

Lemma close_loop_money p reason closedBy ls x w x' w' :
  Forall (λ l, lease_wf now (Uuid l) l ∧ State l = LEASE_STATE_ACTIVE) ls → valid_coins (cl_settled x) →
  foldlM (close_one env p reason closedBy) x ls w = (Ok x', w') →
  ∃ ts, pays w w' ts ∧ valid_coins (cl_settled x') ∧ t_provider <$> ts = ProviderUuid <$> ls ∧
        ∀ d, amt (cl_settled x') d = amt (cl_settled x) d + lsum (λ t, amt (t_coins t) d) ts.
Proof.
  revert x w. induction ls as [|l ls IH]; intros x w HF Hv E; cbn [foldlM] in E; run_inv.
  - exists []. split_and!; [apply pays_refl|done|done|]. intros d. cbn [lsum]. lia.
  - apply Forall_cons in HF as [Hl HF].
    match goal with H : close_one _ _ _ _ _ _ _ = _ |- _ => eapply close_one_effect in H as (_ & a & cs & Hp & Hcv & Hadd); [|done] end.
    apply Coins_Add_ok in Hadd as [Hv1 Ham]; [|done..]. apply IH in E as (ts & Hpt & Hv' & Hpr & Hsum); [|done..].
    eexists (_ :: ts). split_and!; [by eapply (pays_trans _ _ _ [_])|done| |].
    + by rewrite !fmap_cons, Hpr.
    + intros d. rewrite Hsum, Ham. cbn [lsum t_coins]. lia.
Qed.

Lemma picked_providers w uuids ls (ts : list transfer) :
  picked w uuids ls → t_provider <$> ts = ProviderUuid <$> ls →
  Forall2 (λ u t, ∃ l, Leases w !! u = Some l ∧ t_provider t = ProviderUuid l) uuids ts.
Proof.
  intros Hp. revert ts. induction Hp as [|u l us ls Hl _ IH]; intros [|t ts]; cbn; try done. intros [= Hh Ht].
  constructor; [by exists l|by apply IH].
Qed.

(** Who may close: the authority, the tenant of all the leases or the provider of all of them. *)
Definition may_close (sender : string) w (uuids : list string) : Prop :=
  sender = authority env ∨
  (∀ u l, u ∈ uuids → Leases w !! u = Some l → Tenant l = sender) ∨
  (∀ u l, u ∈ uuids → Leases w !! u = Some l → provider_is_sender sender w l).

Lemma roles_may_close sender role w uuids ls :
  picked w uuids ls → Forall (has_role sender role w) ls → may_close sender w uuids.
Proof.
  intros Hp HF. assert (Hall : ∀ u l, u ∈ uuids → Leases w !! u = Some l → has_role sender role w l).
  { intros u l Hu Hl. destruct (picked_elem _ _ _ _ Hp Hu) as (k & Hk & Hk'). assert (k = l) as -> by congruence.
    rewrite Forall_forall in HF. by apply HF. }
  destruct (decide (sender = authority env)) as [|Hne]; [by left|]. right.
  destruct (decide (role = "tenant"%string)) as [->|Hr]; [left|right]; intros u l Hu Hl;
    destruct (Hall u l Hu Hl) as [(? & ?)|[(? & ? & ?)|(? & ? & ?)]]; done.
Qed.

Lemma CloseLease_effect msg w t n total w' :
  BillingInv now w → CloseLease env msg w = (Ok (t, n, total), w') →
  batch_effect LEASE_STATE_ACTIVE closed_now (xl_LeaseUuids msg) w w' ∧
  may_close (xl_Sender msg) w (xl_LeaseUuids msg) ∧
  ∃ ts, pays w w' ts ∧ sums_to total ts ∧
        Forall2 (λ u t, ∃ l, Leases w !! u = Some l ∧ t_provider t = ProviderUuid l) (xl_LeaseUuids msg) ts.
Proof.
  intros HI E. unfold CloseLease in E. run_inv. destruct_units.
  match goal with H : MsgCloseLease_ValidateBasic _ = Ok _ |- _ => unfold MsgCloseLease_ValidateBasic in H end.
  checks_inv. destruct_units. match goal with H : GetParams _ = _ |- _ => apply GetParams_ok in H as [-> _] end.
  match goal with H : foldlM (validate_close_one _ _) _ _ _ = (Ok ?acc, _) |- _ => rename acc into acc0; rename H into Ev end.
  pose proof Ev as Ek. apply (validate_close_picked _ _ []) in Ek as [Hp Hrole]; [|constructor|done|constructor|done]. cbn [app] in Hp.
  apply validate_close_ok in Ev as (-> & Hb & Hst & _); [|by apply gathered_empty|by apply validate_batch_NoDup].
  run_inv.
  assert (HF : Forall (λ l, lease_wf now (Uuid l) l ∧ State l = LEASE_STATE_ACTIVE) (b_leases (c_batch acc0))).
  { pose proof (picked_stored _ _ _ HI Hp) as Hw. rewrite !Forall_forall in *. auto. }
  match goal with H : foldlM (close_one _ _ _ _) _ _ _ = _ |- _ => rename H into Hloop end.
  pose proof Hloop as Hmoney. apply close_loop_money in Hmoney as (ts & Hpay & Htv & Hprov & Hsum); [|exact HF|apply valid_coins_nil].
  apply (loop_effect (λ l, lease_wf now (Uuid l) l ∧ State l = LEASE_STATE_ACTIVE) closed_now any_change) in Hloop
    as (Hin & Hout & _); [|intros ????? HP Hone; split; [by eapply close_one_effect|done]|exact HF|apply Hb].
  match goal with H : persist_accounts _ _ _ = _ |- _ => apply persist_accounts_leases in H as (HL & HB & HS) end.
  assert (Hts : Forall2 (λ u t, ∃ l, Leases w !! u = Some l ∧ t_provider t = ProviderUuid l) (xl_LeaseUuids msg) ts).
  { by eapply picked_providers. }
  assert (Hpay' : ∀ y z, pays w (set_events y z) ts ↔ pays w z ts) by done.
  cbn [cl_settled] in Hsum.
  events_inv; (split_and!; [by eapply handler_effect|by eapply roles_may_close|exists ts]);
    (split_and!; [|intros d; rewrite Hsum; cbn; lia|done]); apply Hpay'; destruct Hpay as [HS0 Hbal];
    (split; cbn; rewrite ?HB, ?HS; done).
Qed.

(** ** The claims *)

(** C7 (functional): a successful CreateLease stores exactly one new lease, PENDING, whose items are
    the requested ones with prices locked at the per-second rate of active SKUs of one active
    provider; the tenant was below the limits on active and pending leases and on items; and
    afterwards the credit balance covers all reservations of the tenant in every denom the lease
    bills. The account invariant still holds and no other lease changed. *)
Theorem create_lease_covered msg w u w' :
  BillingInv now w → canonical (cl_Tenant msg) → inputs_u64 (cl_Items msg) →
  fresh_lease env w →
  CreateLease env msg w = (Ok u, w') →
  kept env w w' ∧ created env w (cl_Tenant msg) (cl_Items msg) (cl_MetaHash msg) u w'.
Proof. apply CreateLease_created. Qed.

(** C22 (functional): AcknowledgeLease turns exactly the named leases, all PENDING and all of one
    provider, into ACTIVE leases acknowledged and last settled now; the sender is that provider or
    the authority; no money moves and no other lease changes. *)
Theorem acknowledge_exact msg w r w' :
  BillingInv now w → AcknowledgeLease env msg w = (Ok r, w') →
  batch_effect LEASE_STATE_PENDING (λ l l', l' = acknowledged env l) (al_LeaseUuids msg) w w' ∧
  provider_acts (al_Sender msg) w (al_LeaseUuids msg) ∧ bank w' = bank w.
Proof. intros HI E. by destruct (AcknowledgeLease_effect msg w r w' HI E) as (? & ? & [? _] & _). Qed.

(** C5 (functional): CloseLease closes exactly the named active leases, settled up to now, only for
    the authority, the tenant of all of them or the provider of all of them; the only money moved
    is one transfer per lease from a tenant's credit address to that lease's provider, and the
    reported total is the sum of these transfers. *)
Theorem close_exact msg w t n total w' :
  BillingInv now w → CloseLease env msg w = (Ok (t, n, total), w') →
  batch_effect LEASE_STATE_ACTIVE closed_now (xl_LeaseUuids msg) w w' ∧
  may_close (xl_Sender msg) w (xl_LeaseUuids msg) ∧
  ∃ ts, pays w w' ts ∧ sums_to total ts ∧
        Forall2 (λ u t, ∃ l, Leases w !! u = Some l ∧ t_provider t = ProviderUuid l) (xl_LeaseUuids msg) ts.
Proof. apply CloseLease_effect. Qed.

(** C6 (safety): in both modes of Withdraw the only money moved goes from credit addresses to the
    payout address of one provider, on behalf of that provider or of the authority, and the total
    the response reports is exactly the sum moved; the account invariant is kept. *)
Theorem withdraw_pays_reported msg w r w' :
  BillingInv now w → Withdraw env msg w = (Ok r, w') →
  ∃ pr, kept env w w' ∧
    (∃ P, GetProvider (sku w) pr = Ok P ∧ prov_PayoutAddress P = wr_PayoutAddress r ∧
          (wd_Sender msg = prov_Address P ∨ wd_Sender msg = authority env)) ∧
    ∃ ts, pays w w' ts ∧ sums_to (wr_TotalAmounts r) ts ∧ Forall (λ t, t_provider t = pr) ts.
Proof. intros HI E. destruct (Withdraw_ok env msg w r w' HI E) as (pr & Hk & HP & Hts & _). by exists pr. Qed.
End handlers_effect.

(** ** Witnesses: the demo run *)

Definition demo_later : Env := example_env_at (1010 * Second).

Lemma demo_active_later : BillingInv (blockTime demo_later) demo_active.
Proof. eapply BillingInv_later; [|apply demo_active_inv]. vm_compute. discriminate. Qed.

Lemma create_lease_covered_witness :
  created demo_env demo_funded "alice" (cl_Items demo_create) "" demo_lease_uuid
    (CreateLease demo_env demo_create demo_funded).2.
Proof.
  destruct demo_create_admissible as (Hc & Hq & Hf).
  apply (create_lease_covered demo_env demo_create demo_funded demo_lease_uuid _ demo_funded_inv Hc Hq Hf).
  run_by_eval.
Defined.

Lemma acknowledge_exact_witness :
  provider_acts demo_env "prov" demo_pending [demo_lease_uuid] ∧
  bank (AcknowledgeLease demo_env demo_ack demo_pending).2 = bank demo_pending.
Proof.
  apply (acknowledge_exact demo_env demo_ack demo_pending (blockTime demo_env, 1) _ demo_pending_inv).
  run_by_eval.
Defined.

Definition demo_close : MsgCloseLease := mkMsgCloseLease "alice" [demo_lease_uuid] "done".
Definition demo_withdraw : MsgWithdraw := mkMsgWithdraw "prov" [demo_lease_uuid] "" 0.

Lemma close_exact_witness :
  batch_effect LEASE_STATE_ACTIVE (closed_now demo_later) [demo_lease_uuid] demo_active
    (CloseLease demo_later demo_close demo_active).2.
Proof.
  apply (close_exact demo_later demo_close demo_active (blockTime demo_later) 1 [mkCoin "umfx" 20] _ demo_active_later).
  run_by_eval.
Defined.

Lemma withdraw_pays_reported_witness :
  ∃ pr ts, pays demo_active (Withdraw demo_later demo_withdraw demo_active).2 ts ∧
    sums_to [mkCoin "umfx" 20] ts ∧ Forall (λ t, t_provider t = pr) ts.
Proof.
  destruct (withdraw_pays_reported demo_later demo_withdraw demo_active
    (mkWithdrawResponse [mkCoin "umfx" 20] "payout" 1 false) (Withdraw demo_later demo_withdraw demo_active).2 demo_active_later)
    as (pr & _ & _ & ts & Hts).
  - run_by_eval.
  - exists pr, ts. exact Hts.
Defined.

(** ** Two spellings of one address

    bech32 accepts an address all in lower case and all in upper case. The handlers keep the
    accounts of a batch in a map keyed by the tenant string of the lease, while the store keys
    them by the decoded address. *)

Definition alias_create : MsgCreateLease := mkMsgCreateLease "ALICE" [mkItemInput demo_sku_uuid 1 "web"] "".
Definition alias_lease_uuid : string := Eval vm_compute in GenerateUUIDv7 (block demo_env) ModuleName 1.
(** alice has two pending leases, one under each spelling. *)
Definition alias_pending : World := deliver (CreateLease demo_env alias_create) demo_pending.
Definition alias_reject : MsgRejectLease := mkMsgRejectLease "prov" [demo_lease_uuid; alias_lease_uuid] "".

(** The hypothesis that tenants are written canonically is needed. With the two pending
    leases of one tenant stored under two spellings of its address, rejecting both in one batch
    succeeds and leaves no live lease, but the second account copy overwrites the first: the
    account keeps one pending lease counted and 7200 umfx reserved for good. *)
Example alias_batch_leaks_reservation :
  (CreateLease demo_env alias_create demo_pending).1 = Ok alias_lease_uuid ∧
  (RejectLease demo_env alias_reject alias_pending).1 = Ok (blockTime demo_env, 2) ∧
  let w' := deliver (RejectLease demo_env alias_reject) alias_pending in
  map_sum (count_of LEASE_STATE_PENDING "alice") (Leases w') = 0 ∧
  map_sum (resv_of "alice" "umfx") (Leases w') = 0 ∧
  ∃ ca, CreditAccounts w' !! "alice"%string = Some ca ∧ PendingLeaseCount ca = 1 ∧
        ReservedAmounts ca = [mkCoin "umfx" 7200].
Proof.
  split; [vm_compute; reflexivity|]. split; [vm_compute; reflexivity|]. cbv zeta.
  split; [vm_compute; reflexivity|]. split; [vm_compute; reflexivity|].
  eexists. split; [vm_compute; reflexivity|]. split; reflexivity.
Qed.

(** ** Two leases drawing on one balance *)

Definition shared_create : MsgCreateLease := mkMsgCreateLease "alice" [mkItemInput demo_sku_uuid 1 "db"] "".
Definition shared_ack : MsgAcknowledgeLease := mkMsgAcknowledgeLease "prov" [demo_lease_uuid; alias_lease_uuid].
(** alice has two active leases at 2 umfx per second and 20000 umfx of credit. *)
Definition shared_active : World :=
  deliver (AcknowledgeLease demo_env shared_ack) (deliver (CreateLease demo_env shared_create) demo_pending).
(** 7500 seconds later each lease has accrued 15000 umfx. *)
Definition shared_later : Env := example_env_at (8500 * Second).

(** ProviderWithdrawable compares each lease with the tenant's whole balance, so leases
    of one tenant that together accrued more than the balance are counted beyond it. With 20000 umfx
    of credit behind two leases that accrued 15000 each, the query reports 30000 withdrawable; the
    provider-wide Withdraw in the same block pays 20000. *)
Theorem provider_withdrawable_overstates :
  let p := prov_Uuid example_provider in
  (query_ProviderWithdrawable shared_later (Some (mkQueryProviderWithdrawableRequest p 0)) shared_active).1 =
    Ok (mkQueryProviderWithdrawableResponse [mkCoin "umfx" 30000] 2 false) ∧
  credit_balance shared_active "alice"%string "umfx" = 20000 ∧
  (Withdraw shared_later (mkMsgWithdraw "prov" [] p 0) shared_active).1 =
    Ok (mkWithdrawResponse [mkCoin "umfx" 20000] "payout" 2 false).
Proof. cbv zeta. split; [vm_compute; reflexivity|]. split; vm_compute; reflexivity. Qed.
