(* ===== verification/DomainInv.v ===== *)
(** * Custom domains: lookup, claim and release

    The item a service name selects, what [SetItemCustomDomain] writes, and that a domain it
    claimed is found again by [GetLeaseByCustomDomain]. *)

From stdpp Require Import base tactics option list strings gmap sorting fin_maps.
From Stdlib Require Import ZArith Lia.
From S2P Require Import Prelude Sdk SdkRef Uuid GoStd SkuTypes BillingTypes BillingMsgs SkuKeeper Credit Accrual Keeper LeaseStore Settlement Lifecycle CustomDomain Genesis Invariant LifecycleInv CreateInv Scenario.
Open Scope Z_scope.

(** ** The item a service name selects *)

(** The indices at which the loop counts a match. *)
Fixpoint matching (s : string) (i : nat) (items : list LeaseItem) : list nat :=
  match items with
  | [] => []
  | item :: rest => if String.eqb (item_ServiceName item) s then i :: matching s (S i) rest else matching s (S i) rest
  end.

Lemma match_service_eq s items i acc :
  match_service s i items acc =
  ((acc.1 + length (matching s i items))%nat, default acc.2 (last (matching s i items))).
Proof.
  revert i acc. induction items as [|item items IH]; intros i [n k]; cbn [match_service matching fst snd].
  - cbn. by rewrite Nat.add_0_r.
  - rewrite IH. destruct (String.eqb _ s); cbn [fst snd]; [|done]. f_equal; [cbn; lia|].
    rewrite last_cons. by destruct (last _).
Qed.

Lemma elem_of_matching s items i j :
  j ∈ matching s i items ↔ (i ≤ j)%nat ∧ ∃ item, items !! (j - i)%nat = Some item ∧ item_ServiceName item = s.
Proof.
  revert i. induction items as [|item items IH]; intros i; cbn [matching].
  - rewrite elem_of_nil. split; [done|]. intros (_ & item & Hl & _). by rewrite lookup_nil in Hl.
  - assert (Hrest : j ∈ matching s (S i) items ↔
      (i < j)%nat ∧ ∃ item0, (item :: items) !! (j - i)%nat = Some item0 ∧ item_ServiceName item0 = s).
    { rewrite IH. split; intros [Hij (it & Hl & Hs)]; (split; [lia|]); exists it; (split; [|done]).
      - replace (j - i)%nat with (S (j - S i)) by lia. done.
      - by replace (j - i)%nat with (S (j - S i)) in Hl by lia. }
    destruct (String.eqb_spec (item_ServiceName item) s) as [He|Hne]; [rewrite elem_of_cons|]; rewrite Hrest.
    + split; [intros [->|[? ?]]|].
      * split; [lia|]. exists item. by rewrite Nat.sub_diag.
      * split; [lia|done].
      * intros [Hle Hex]. destruct (decide (j = i)) as [->|]; [by left|right; split; [lia|done]].
    + split; [intros [? ?]; split; [lia|done]|]. intros [Hle Hex]. split; [|done].
      destruct (decide (j = i)) as [->|]; [|lia]. destruct Hex as (it & Hl & Hs). rewrite Nat.sub_diag in Hl.
      cbn in Hl. by simplify_eq.
Qed.

Lemma NoDup_matching s i items : NoDup (matching s i items).
Proof.
  revert i. induction items as [|item items IH]; intros i; cbn [matching]; [constructor|].
  destruct (String.eqb _ s); [|apply IH]. constructor; [|apply IH]. rewrite elem_of_matching. lia.
Qed.

(** Multi-item leases in legacy mode have no addressable items. *)
Definition legacy_multi (l : Lease) : Prop :=
  1 < llen (Items l) ∧ ∃ item, Items l !! 0%nat = Some item ∧ item_ServiceName item = ""%string.

Definition selects (l : Lease) (s : string) (idx : nat) : Prop :=
  (∃ item, Items l !! idx = Some item ∧ item_ServiceName item = s) ∧
  ∀ j item, Items l !! j = Some item → item_ServiceName item = s → j = idx.

Lemma matching_singleton l s idx : matching s 0 (Items l) = [idx] ↔ selects l s idx.
Proof.
  assert (Hin : ∀ j, j ∈ matching s 0 (Items l) ↔ ∃ item, Items l !! j = Some item ∧ item_ServiceName item = s).
  { intros j. rewrite elem_of_matching, Nat.sub_0_r. split; [by intros [_ ?]|]. intros ?. split; [lia|done]. }
  split.
  - intros E. rewrite E in Hin. split; [by apply Hin, list_elem_of_singleton|].
    intros j item Hl Hs. apply list_elem_of_singleton, Hin. eauto.
  - intros [Hsel Huniq]. pose proof (NoDup_matching s 0 (Items l)) as Hnd.
    assert (Hall : ∀ j, j ∈ matching s 0 (Items l) → j = idx) by (intros j (item & ? & ?)%Hin; eauto).
    apply Hin in Hsel. destruct (matching s 0 (Items l)) as [|x [|y r]]; [by apply not_elem_of_nil in Hsel| |].
    + by rewrite (Hall x) by (by apply list_elem_of_singleton).
    + exfalso. apply NoDup_cons in Hnd as [Hx _]. apply Hx.
      rewrite (Hall x), <- (Hall y); rewrite ?elem_of_cons; auto.
Qed.

Lemma legacy_guard l :
  (1 <? llen (Items l)) && (match Items l with item :: _ => String.eqb (item_ServiceName item) "" | [] => false end) = true
  ↔ legacy_multi l.
Proof.
  unfold legacy_multi. rewrite andb_true_iff, Z.ltb_lt. destruct (Items l) as [|item items]; cbn.
  - split; [by intros [_ ?]|]. by intros (_ & ? & ? & _).
  - rewrite String.eqb_eq. naive_solver.
Qed.

(** The lookup of an item by service name succeeds exactly when the lease is not
    a multi-item lease in legacy mode and exactly one item carries the name, and then it returns
    that item's index; a name no item carries is reported as not found, and every other failure as
    ambiguous. *)
Lemma findLeaseItem_spec l s :
  (∀ idx, findLeaseItemByServiceName l s = Ok idx ↔ ¬ legacy_multi l ∧ selects l s idx) ∧
  (findLeaseItemByServiceName l s = Err ErrLeaseItemNotFound ↔
     ¬ legacy_multi l ∧ Forall (λ item, item_ServiceName item ≠ s) (Items l)) ∧
  findLeaseItemByServiceName l s ≠ Panic.
Proof.
  unfold findLeaseItemByServiceName. pose proof (legacy_guard l) as Hg. destruct (_ && _).
  { assert (legacy_multi l) by by apply Hg. naive_solver. }
  assert (Hno : ¬ legacy_multi l) by (by intros ?%Hg). rewrite match_service_eq. cbn [fst snd].
  setoid_rewrite <- matching_singleton.
  assert (Hnil : matching s 0 (Items l) = [] ↔ Forall (λ item, item_ServiceName item ≠ s) (Items l)).
  { rewrite Forall_lookup. split.
    - intros E j item Hl Hs. assert (j ∈ matching s 0 (Items l)) as Hj; [|rewrite E in Hj; by apply not_elem_of_nil in Hj].
      apply elem_of_matching. rewrite Nat.sub_0_r. split; [lia|eauto].
    - intros HF. destruct (matching s 0 (Items l)) as [|j r] eqn:E; [done|].
      assert (j ∈ matching s 0 (Items l)) as Hj by (rewrite E; apply elem_of_cons; auto).
      apply elem_of_matching in Hj as (_ & item & Hl & Hs). rewrite Nat.sub_0_r in Hl. by destruct (HF j item). }
  rewrite <- Hnil. destruct (matching s 0 (Items l)) as [|x [|y r]]; cbn; naive_solver.
Qed.

Lemma findLeaseItem_ok l s idx : findLeaseItemByServiceName l s = Ok idx → selects l s idx.
Proof.
  unfold findLeaseItemByServiceName. destruct (_ && _); [done|]. rewrite match_service_eq. cbn [fst snd].
  destruct (matching s 0 (Items l)) as [|x [|y r]] eqn:E; cbn; intros [=]; subst. by apply matching_singleton.
Qed.

(** ** What changing one item's domain does *)

Section domain_inv.
Context `{SL : SDKLaws} `{SK : SKUKeeper} {KL : SKUKeeperLaws SK} `{GL : GoStdLaws} (env : Env).
Implicit Types (w : World) (l : Lease).

Notation now := (blockTime env).

Lemma set_item_domain_lookup i d l j :
  Items (set_item_domain i d l) !! j =
  if decide (j = i) then set_CustomDomain d <$> Items l !! j else Items l !! j.
Proof.
  unfold set_item_domain. cbn. case_decide as Hj; [subst; apply list_lookup_alter_eq|by apply list_lookup_alter_ne].
Qed.

Lemma set_item_domain_core i d l : item_core <$> Items (set_item_domain i d l) = item_core <$> Items l.
Proof.
  apply list_eq. intros j. rewrite !list_lookup_fmap, set_item_domain_lookup. case_decide; [|done].
  by destruct (Items l !! j).
Qed.

Lemma service_matches_names s (items items' : list LeaseItem) :
  item_ServiceName <$> items' = item_ServiceName <$> items → service_matches s items' = service_matches s items.
Proof.
  unfold service_matches, llen. revert items. induction items' as [|i items' IH]; intros [|j items]; try done.
  intros [= Hij Hr]. apply IH in Hr. rewrite !filter_cons, Hij. case_decide; cbn; lia.
Qed.

Lemma selects_matches l s i : selects l s i → service_matches s (Items l) = 1.
Proof.
  intros Hs%matching_singleton. unfold service_matches.
  assert (Hlen : ∀ items n, length (filter (λ c, item_ServiceName c = s) items) = length (matching s n items)).
  { induction items as [|it items IH]; intros n; [done|]. rewrite filter_cons. cbn [matching].
    destruct (String.eqb_spec (item_ServiceName it) s); [rewrite decide_True by done|rewrite decide_False by done]; cbn; auto. }
  unfold llen. by rewrite (Hlen (Items l) 0%nat), Hs.
Qed.

Lemma set_item_domain_shape i s d l :
  selects l s i → d = ""%string ∨ IsValidFQDN d = Ok tt → lease_shape l → lease_shape (set_item_domain i d l).
Proof.
  intros Hsel Hd [Hu Hp Hne Hk Hmode Hdom Hm Hst]. pose proof (set_item_domain_core i d l) as Hcore.
  assert (Hnames : item_ServiceName <$> Items (set_item_domain i d l) = item_ServiceName <$> Items l).
  { apply (f_equal (fmap (λ x : string * Z * Coin * string, x.2))) in Hcore. by rewrite <- !list_fmap_compose in Hcore. }
  assert (Hskus : item_SkuUuid <$> Items (set_item_domain i d l) = item_SkuUuid <$> Items l).
  { apply (f_equal (fmap (λ x : string * Z * Coin * string, x.1.1.1))) in Hcore. by rewrite <- !list_fmap_compose in Hcore. }
  assert (Hto : ∀ P : string → Prop, Forall (λ x, P (item_ServiceName x)) (Items l) →
    Forall (λ x, P (item_ServiceName x)) (Items (set_item_domain i d l))).
  { intros P HP. apply (Forall_fmap item_ServiceName P). rewrite Hnames. by apply Forall_fmap. }
  split; try done.
  - intros Hnil. rewrite Hnil in Hnames. by destruct (Items l).
  - apply (Forall_fmap item_SkuUuid (λ k, IsValidUUID k = true)). rewrite Hskus. by apply Forall_fmap.
  - rewrite Hnames, Hskus. destruct Hmode as [[? ?]|[? ?]]; [left|right]; (split; [|done]).
    + by apply (Hto (λ x, IsValidDNSLabel x = true)).
    + by apply (Hto (λ x, x = ""%string)).
  - intros x [j Hj]%list_elem_of_lookup Hxd. rewrite (service_matches_names _ (Items l)) by done.
    rewrite set_item_domain_lookup in Hj. case_decide as Hij.
    + subst j. pose proof Hsel as [(item & Hi & Hs) _]. rewrite Hi in Hj. injection Hj as <-. cbn in *.
      destruct Hd as [->|Hd]; [done|]. split; [done|]. rewrite Hs. by eapply selects_matches.
    + apply Hdom; [by eapply list_elem_of_lookup_2|done].
Qed.

Lemma set_item_domain_ok n i s d l :
  selects l s i → d = ""%string ∨ IsValidFQDN d = Ok tt →
  lease_wf n (Uuid l) l → evolves l (set_item_domain i d l) ∧ lease_wf n (Uuid l) (set_item_domain i d l).
Proof.
  intros Hsel Hd [Hwu Hwt Hwi Hwd Hwtm Hwc Hwo Hwp]. split.
  - split; try done; [apply set_item_domain_core|by left].
  - split; try done; [|by eapply set_item_domain_shape]. eapply item_core_ok; [apply set_item_domain_core|done].
Qed.

Lemma set_item_domain_wf i d s l :
  selects l s i → domains_wf (Items l) → domains_wf (Items (set_item_domain i d l)).
Proof.
  intros [(item & Hi & Hs) Huniq] Hwf x y Hx Hy Hdx Hdy Hxy.
  apply list_elem_of_lookup in Hx as [jx Hx], Hy as [jy Hy]. rewrite set_item_domain_lookup in Hx, Hy.
  assert (Hname : ∀ j z, (if decide (j = i) then set_CustomDomain d <$> Items l !! j else Items l !! j) = Some z →
            item_ServiceName z = s → j = i).
  { intros j z Hz Hzs. case_decide; [done|]. eauto. }
  destruct (decide (jx = i)) as [->|Hjx], (decide (jy = i)) as [->|Hjy].
  - congruence.
  - rewrite Hi in Hx. injection Hx as <-. cbn in *. exfalso. apply Hjy. apply (Huniq jy y); [done|]. congruence.
  - rewrite Hi in Hy. injection Hy as <-. cbn in *. exfalso. apply Hjx. apply (Huniq jx x); [done|]. congruence.
  - apply Hwf; try done; eapply list_elem_of_lookup_2; done.
Qed.

Lemma set_item_domain_id i item l :
  Items l !! i = Some item → set_item_domain i (CustomDomain item) l = l.
Proof.
  intros Hi. assert (Hit : Items (set_item_domain i (CustomDomain item) l) = Items l).
  { apply list_eq. intros j. rewrite set_item_domain_lookup. case_decide as Hj; [subst|done].
    rewrite Hi. cbn. by destruct item. }
  unfold set_item_domain in *. cbn in Hit. rewrite Hit. by destruct l.
Qed.

Lemma domain_write_kept w l i s d u w' :
  BillingInv now w → Leases w !! Uuid l = Some l → selects l s i → d = ""%string ∨ IsValidFQDN d = Ok tt →
  SetLease (set_item_domain i d l) w = (Ok u, w') →
  kept env w w' ∧ Leases w' = <[Uuid l := set_item_domain i d l]> (Leases w).
Proof.
  intros HI Hl Hsel Hd E. destruct (stored_wf _ _ _ _ _ HI Hl) as [Hwf _].
  destruct (set_item_domain_ok now i s d l Hsel Hd Hwf) as [He Hwf'].
  pose proof E as (_ & HL & _)%SetLease_ok.
  eapply Inv_SetLease_same in E as [HI' Hev]; [by split|exact HI|exact Hl|exact He|exact Hwf'| |done].
  eapply set_item_domain_wf; [done|]. destruct (I_dom _ _ _ HI) as [HD _]. by eapply HD.
Qed.

(** What a successful call established. *)
Lemma IsAuthorizedForTenant_ok sender tenant w role w' :
  IsAuthorizedForTenant env sender tenant w = (Ok role, w') → String.eqb role "" = false →
  w' = w ∧ (sender = tenant ∨ sender = authority env ∨ ∃ p, k_Params w = Some p ∧ Params_IsAllowed p sender = true).
Proof.
  unfold IsAuthorizedForTenant. intros E Hr. destruct (String.eqb tenant ""); [done|].
  destruct (String.eqb_spec sender tenant) as [->|]; [run_inv; by auto|].
  apply HasAdminPrivileges_ok in E as [-> ?]; [|done]. auto.
Qed.

Lemma SetItemCustomDomain_ok sender u s d w role w' :
  BillingInv now w → SetItemCustomDomain env sender u s d w = (Ok role, w') →
  kept env w w' ∧
  ∃ l i, Leases w !! u = Some l ∧ live (State l) = true ∧ selects l s i ∧
    (sender = Tenant l ∨ sender = authority env ∨ ∃ p, k_Params w = Some p ∧ Params_IsAllowed p sender = true) ∧
    let nd := strings_ToLower (strings_TrimSpace d) in
    Leases w' = <[u := set_item_domain i nd l]> (Leases w) ∧
    (nd ≠ ""%string → CustomDomainIndex w' !! nd = Some (mkTarget u s) ∧ IsValidFQDN nd = Ok tt ∧
       ∃ p, k_Params w = Some p ∧ MatchesReservedSuffix nd (ReservedDomainSuffixes p) = false).
Proof.
  intros HI E. unfold SetItemCustomDomain in E. run_inv.
  match goal with H : GetLease _ _ = (Ok ?k, _) |- _ => rename k into l; apply GetLease_ok in H as [-> Hl] end.
  destruct (stored_wf _ _ _ _ _ HI Hl) as [Hwf Hl']. pose proof (wf_uuid _ _ _ Hwf) as Huu.
  destruct (String.eqb _ "") eqn:Er in E; [done|].
  match goal with H : IsAuthorizedForTenant _ _ _ _ = _ |- _ => apply IsAuthorizedForTenant_ok in H as [-> Hauth]; [|done] end.
  destruct (_ && _) eqn:Est in E; [done|].
  assert (Hlv : live (State l) = true) by (unfold live; by destruct (state_is _ LEASE_STATE_PENDING), (state_is _ LEASE_STATE_ACTIVE)).
  run_inv. match goal with H : findLeaseItemByServiceName _ _ = Ok ?k |- _ => rename k into i; apply findLeaseItem_ok in H as Hsel end.
  destruct (Items l !! i) as [item|] eqn:Hi; [|done].
  assert (Hname : item_ServiceName item = s) by (destruct Hsel as [(it & Hit & <-) _]; congruence).
  set (nd := strings_ToLower (strings_TrimSpace d)) in *.
  assert (Hsame : CustomDomain item = nd → kept env w w ∧ Leases w = <[Uuid l := set_item_domain i nd l]> (Leases w)).
  { intros <-. rewrite (set_item_domain_id i item l Hi), insert_id by done. by split. }
  destruct (String.eqb_spec nd "") as [Hnd|Hnd].
  - assert (Hgoal : kept env w w' ∧ Leases w' = <[Uuid l := set_item_domain i nd l]> (Leases w)).
    { unfold clear_item_domain in E. destruct (String.eqb_spec (CustomDomain item) "") as [Hcd|_]; run_inv.
      - apply Hsame. congruence.
      - match goal with H : SetLease _ _ = _ |- _ => rewrite <- Hnd in H;
          eapply domain_write_kept in H as [Hk HL]; [|done..|by left] end.
        events_inv. by split; [apply kept_set_events|]. }
    destruct Hgoal as [Hk HL]. split; [done|]. exists l, i. cbv zeta. split_and!; try done.
  - assert (Hgoal : kept env w w' ∧ Leases w' = <[Uuid l := set_item_domain i nd l]> (Leases w) ∧ IsValidFQDN nd = Ok tt ∧
       ∃ p, k_Params w = Some p ∧ MatchesReservedSuffix nd (ReservedDomainSuffixes p) = false).
    { unfold claim_item_domain in E. run_inv. destruct_units.
      match goal with H : GetParams _ = _ |- _ => apply GetParams_ok in H as [-> Hp] end.
      destruct (MatchesReservedSuffix _ _) eqn:Em in E; [done|]. run_inv.
      destruct (CustomDomainIndex w !! nd) as [t|] eqn:Et.
      - rewrite target_eqb in E. case_bool_decide as Ht; [|done]. run_inv.
        destruct (proj1 (proj2 (I_dom _ _ _ HI) nd _) Et) as (l0 & it & Hl0 & _ & Hit & Hs & Hd & _). cbn in *.
        assert (l0 = l) as -> by congruence. apply list_elem_of_lookup in Hit as [j Hj].
        assert (j = i) as -> by (eapply Hsel; [done|congruence]). assert (it = item) as -> by congruence.
        destruct (Hsame Hd). split_and!; eauto.
      - run_inv. match goal with H : SetLease _ _ = _ |- _ => eapply domain_write_kept in H as [Hk HL]; [|done..|by right] end.
        events_inv. split_and!; [by apply kept_set_events|done|done|by eauto]. }
    destruct Hgoal as (Hk & HL & Hf & Hp). split; [done|]. exists l, i. cbv zeta. split_and!; try done.
    intros _. split_and!; try done. destruct Hk as [HI' _]. apply (proj2 (I_dom _ _ _ HI')). cbn.
    exists (set_item_domain i nd l), (set_CustomDomain nd item). rewrite HL, lookup_insert_eq.
    split_and!; try done. apply list_elem_of_lookup. exists i. by rewrite set_item_domain_lookup, decide_True, Hi.
Qed.

Lemma SetItemCustomDomain_msg_kept msg w r w' :
  BillingInv now w → SetItemCustomDomain_msg env msg w = (Ok r, w') → kept env w w'.
Proof.
  intros HI E. unfold SetItemCustomDomain_msg in E. run_inv. by eapply SetItemCustomDomain_ok.
Qed.

(** C13 (roundtrip): after a successful [SetItemCustomDomain] that sets a domain, looking the domain
    up, in any case and with surrounding space, finds that lease under that service name; the
    lease was pending or active, the caller its tenant, the authority or an allowed address, the
    stored name is a valid FQDN outside the reserved suffixes, and no other item of any live lease
    holds it. *)
Theorem custom_domain_roundtrip sender u s d w role w' :
  BillingInv now w → SetItemCustomDomain env sender u s d w = (Ok role, w') →
  let nd := strings_ToLower (strings_TrimSpace d) in
  nd ≠ ""%string →
  ∃ l', GetLeaseByCustomDomain d w' = (Ok (Some (l', s)), w') ∧ Uuid l' = u ∧ live (State l') = true ∧
    IsValidFQDN nd = Ok tt ∧ (∃ p, k_Params w = Some p ∧ MatchesReservedSuffix nd (ReservedDomainSuffixes p) = false) ∧
    (sender = Tenant l' ∨ sender = authority env ∨ ∃ p, k_Params w = Some p ∧ Params_IsAllowed p sender = true) ∧
    ∀ v s', claims w' v s' nd ↔ v = u ∧ s' = s.
Proof.
  cbv zeta. intros HI E Hnd. apply SetItemCustomDomain_ok in E as ([HI' _] & l & i & Hl & Hlv & Hsel & Hauth & HL & Hc); [|done].
  destruct (Hc Hnd) as (Hidx & Hf & Hp). destruct (stored_wf _ _ _ _ _ HI Hl) as [Hwf _].
  eexists (set_item_domain i _ l). split_and!; try done.
  - unfold GetLeaseByCustomDomain. erewrite bind_run by done. rewrite Hidx.
    erewrite bind_run by (unfold GetLease; erewrite bind_run by done; cbn [tgt_LeaseUuid]; by rewrite HL, lookup_insert_eq).
    done.
  - apply (wf_uuid _ _ _ Hwf).
  - intros v s'. pose proof (proj2 (I_dom _ _ _ HI') (strings_ToLower (strings_TrimSpace d)) (mkTarget v s')) as Hv.
    cbn in Hv. rewrite <- Hv, Hidx. naive_solver.
Qed.
End domain_inv.

#[export] Hint Resolve SetItemCustomDomain_msg_kept : ledger.

(** ** Witnesses *)

Lemma custom_domain_roundtrip_witness :
  ∃ l', GetLeaseByCustomDomain " Shop.Example.com"
          (SetItemCustomDomain demo_env "alice" demo_lease_uuid "web" " Shop.Example.com" demo_active).2 =
        (Ok (Some (l', "web"%string)),
         (SetItemCustomDomain demo_env "alice" demo_lease_uuid "web" " Shop.Example.com" demo_active).2) ∧
        Uuid l' = demo_lease_uuid.
Proof.
  destruct (custom_domain_roundtrip demo_env "alice" demo_lease_uuid "web" " Shop.Example.com" demo_active "tenant"
    (SetItemCustomDomain demo_env "alice" demo_lease_uuid "web" " Shop.Example.com" demo_active).2 demo_active_inv)
    as (l' & Hget & Hu & _).
  - run_by_eval.
  - vm_compute. discriminate.
  - exists l'. split; [exact Hget|exact Hu].
Defined.
