(* ===== verification/Simulation.v ===== *)
(** * The program runs the market

    Every handler and the end blocker is a run of the abstract machine of Market.v: the batch
    handlers one step per lease, a settlement one step, bookkeeping none. *)

From stdpp Require Import base tactics option list strings gmap sorting fin_maps.
From Stdlib Require Import ZArith Lia.
From S2P Require Import Prelude Sdk SdkRef Uuid GoStd SkuTypes BillingTypes BillingMsgs SkuKeeper Credit Accrual Keeper LeaseStore Settlement Lifecycle Withdraw CustomDomain EndBlocker Genesis Invariant LifecycleInv Market CreateInv WithdrawInv ExpiryInv Handlers DomainInv.
Open Scope Z_scope.

(** [market] collects, for every handler, the lemma that a successful run is a run of the machine. *)
Create HintDb market.

Section simulation.
Context `{SL : SDKLaws} `{SK : SKUKeeper} {KL : SKUKeeperLaws SK} `{GL : GoStdLaws} (env : Env).
Implicit Types (w : World) (l : Lease).

Notation now := (blockTime env).
Notation sim w w' := (runs_by now None (abs w) (abs w')).

(** ** Batches that move no money *)

(** The relation of a batch, lifted to contracts, is one step of the machine. *)
Lemma sim_batch (R : Lease → Lease → Prop) (step_of : contract → contract) from uuids w w' :
  (∀ l l', R l l' → abs_lease l' = step_of (abs_lease l)) →
  (∀ u c m m', contracts m !! u = Some c → c_state c = from → contracts m' = <[u := step_of c]> (contracts m) →
     same_funds m m' → ∃ x, market_step now x m m' ∧ deposit_by None x) →
  NoDup uuids → batch_effect from R uuids w w' → bank w' = bank w → sku w' = sku w → sim w w'.
Proof.
  intros HR Hstep Hnd [Hin Hout] HB HS.
  apply (runs_batch now (λ c c', c_state c = from ∧ c' = step_of c) uuids); [|done|cbn; by rewrite HB|cbn; unfold payout_of; by rewrite HS|..].
  - intros u c c' K [Hs ->] Hc. edestruct (Hstep u c) as (x & Hx & Hq); [exact Hc|exact Hs| | |by eapply runs_step]; done.
  - intros u Hu. destruct (Hin u Hu) as (l & l' & Hl & Hs & Hl' & Hr). exists (abs_lease l), (abs_lease l').
    split_and!; [by apply abs_lookup|by apply abs_lookup|exact Hs|by apply HR].
  - intros u Hu. cbn. by rewrite !lookup_fmap, Hout.
Qed.

Lemma accept_step u c m m' :
  contracts m !! u = Some c → c_state c = LEASE_STATE_PENDING →
  contracts m' = <[u := with_state LEASE_STATE_ACTIVE now c]> (contracts m) → same_funds m m' → ∃ x, market_step now x m m' ∧ deposit_by None x.
Proof. intros. eexists. split; [by eapply ms_accept|done]. Qed.

Lemma decline_step s u c m m' :
  s = LEASE_STATE_REJECTED ∨ s = LEASE_STATE_EXPIRED → contracts m !! u = Some c → c_state c = LEASE_STATE_PENDING →
  contracts m' = <[u := with_state s (c_since c) c]> (contracts m) → same_funds m m' → ∃ x, market_step now x m m' ∧ deposit_by None x.
Proof. intros. eexists. split; [by eapply ms_decline|done]. Qed.

Lemma sim_acknowledge msg w r w' : BillingInv now w → AcknowledgeLease env msg w = (Ok r, w') → sim w w'.
Proof.
  intros HI E. destruct (AcknowledgeLease_effect env msg w r w' HI E) as (He & _ & [HB HS] & Hnd).
  eapply (sim_batch (λ l l', l' = acknowledged env l) (with_state LEASE_STATE_ACTIVE now)); [by intros l l' ->|apply accept_step|done..].
Qed.

Lemma sim_rejected from reason uuids w w' :
  from = LEASE_STATE_PENDING → batch_effect from (λ l l', l' = rejected env reason l) uuids w w' → same_money w w' → NoDup uuids → sim w w'.
Proof.
  intros -> He [HB HS] Hnd.
  eapply (sim_batch (λ l l', l' = rejected env reason l) (λ c, with_state LEASE_STATE_REJECTED (c_since c) c));
    [by intros l l' ->|intros u c m m'; apply decline_step; by left|done..].
Qed.

Lemma sim_reject msg w r w' : BillingInv now w → RejectLease env msg w = (Ok r, w') → sim w w'.
Proof. intros HI E. destruct (RejectLease_effect env msg w r w' HI E) as (He & _ & Hm & Hnd). by eapply sim_rejected. Qed.

Lemma sim_cancel msg w r w' : BillingInv now w → CancelLease env msg w = (Ok r, w') → sim w w'.
Proof. intros HI E. destruct (CancelLease_effect env msg w r w' HI E) as (He & _ & Hm & Hnd). by eapply sim_rejected. Qed.

Lemma sim_end_block w w' : BillingInv now w → EndBlocker env w = (Ok tt, w') → sim w w'.
Proof.
  intros HI E. destruct (EndBlocker_total env w HI) as (p & w2 & _ & E2 & _ & HL & HB & HS & _).
  rewrite E in E2. injection E2 as <-. set (us := take 100 (overdue_leases env p w)) in *.
  assert (Hov : ∀ u, u ∈ us → u ∈ overdue_leases env p w).
  { intros u Hu. apply list_elem_of_lookup in Hu as [i Hi]. apply lookup_take_Some in Hi as [Hi _]. by eapply list_elem_of_lookup_2. }
  eapply (sim_batch (λ l l', l' = expired env l) (λ c, with_state LEASE_STATE_EXPIRED (c_since c) c) LEASE_STATE_PENDING us);
    [by intros l l' ->|intros u c m m'; apply decline_step; by right| | |done|done].
  - assert (Hnd : NoDup (overdue_leases env p w)) by apply NoDup_filter, NoDup_sorted_keys.
    eapply sublist_NoDup; [exact Hnd|apply sublist_take].
  - unfold expire_all in HL. split; intros u Hu; rewrite HL; [rewrite decide_True by done|by rewrite decide_False].
    destruct (overdue_pending env p w u (Hov u Hu)) as (l & Hl & Hs). exists l, (expired env l). by rewrite Hl.
Qed.

(** ** Creation and domains *)

Lemma sim_created t inputs meta u w w' : created env w t inputs meta u w' → sim w w'.
Proof.
  intros (p & a & pr & items & rates & _ & Ha & _ & _ & HL & _ & _ & _ & Hcov & Hf & HB & HS).
  set (l := new_lease env u t (default ""%string pr) meta items p) in *.
  eapply runs_step; [eapply (ms_offer now u (abs_lease l) a)|exact I]; [cbn; by rewrite lookup_fmap, Hf|done|done|exact Ha|by apply abs_insert|by apply abs_funds|].
  intros d. rewrite c_rate_abs, reserved_sum_abs. apply Hcov.
Qed.

Lemma SetItemCustomDomain_funds sender u s d w role w' :
  SetItemCustomDomain env sender u s d w = (Ok role, w') → same_money w w'.
Proof.
  unfold SetItemCustomDomain, clear_item_domain, claim_item_domain, IsAuthorizedForTenant, HasAdminPrivileges. intros E.
  run_split; events_inv;
    repeat match goal with H : GetLease _ _ = _ |- _ => apply GetLease_ok in H as [-> _]
                         | H : GetParams _ = _ |- _ => apply GetParams_ok in H as [-> _] end;
    first [done|match goal with H : SetLease _ _ = _ |- _ => by apply SetLease_effect in H as [_ ?] end].
Qed.

Lemma sim_set_domain msg w r w' : BillingInv now w → SetItemCustomDomain_msg env msg w = (Ok r, w') → sim w w'.
Proof.
  intros HI E. unfold SetItemCustomDomain_msg in E. run_inv.
  match goal with H : SetItemCustomDomain _ _ _ _ _ _ = _ |- _ => pose proof (SetItemCustomDomain_funds _ _ _ _ _ _ _ H) as [HB HS];
    apply SetItemCustomDomain_ok in H as (_ & l & i & Hl & _ & _ & _ & HL & _); [|done] end.
  match type of HB with bank ?v = _ => rename v into w1 end.
  rewrite (abs_same w w1); [reflexivity| |done|done]. rewrite HL, fmap_insert.
  assert (Habs : ∀ nd, abs_lease (set_item_domain i nd l) = abs_lease l) by (intros nd; unfold abs_lease; by rewrite set_item_domain_core).
  rewrite Habs. apply insert_id. by rewrite lookup_fmap, Hl.
Qed.

Lemma sim_update_params msg w r w' : UpdateParams env msg w = (Ok r, w') → sim w w'.
Proof.
  intros E. unfold UpdateParams, SetParams in E. run_inv. destruct (negb _); [done|]. events_inv. reflexivity.
Qed.

(** ** Funding *)

Lemma fund_credit_tx_market msg s a w u w' :
  0 < Amount (fc_Amount msg) → Coin_IsValid (fc_Amount msg) = true →
  fund_credit_tx msg s (DeriveCreditAddress a) w = (Ok u, w') → runs_by now (Some s) (abs w) (abs w').
Proof.
  intros Hpos Hval E. unfold fund_credit_tx in E. run_inv.
  destruct (NewCoins_spec [fc_Amount msg]) as (cs & Hn & Hv & Hamt); [apply NoDup_singleton|by constructor|].
  match goal with H : NewCoins _ = Ok _ |- _ => rewrite Hn in H; injection H as <- end.
  match goal with H : bank_SendCoins _ _ _ _ = _ |- _ => apply bank_SendCoins_ok in H as (b & Hb & ->) end.
  assert (Hfin : ∀ w2, Leases w2 = Leases w → sku w2 = sku w → (∀ x d, GetBalance (bank w2) x d = GetBalance b x d) → runs_by now (Some s) (abs w) (abs w2)).
  { intros w2 HL HS HB. eapply runs_step; [eapply (ms_deposit now a s (fc_Amount msg)); cbn; [by rewrite HL|unfold payout_of; by rewrite HS|done|]|done].
    intros y d. rewrite HB, (SendCoins_spec _ _ _ _ _ y d Hv Hb), Hamt, amt_singleton. done. }
  match goal with H : try _ _ = _ |- _ => apply try_ok in H as [(ca & -> & Hg)|(e & -> & Hg)] end; run_inv.
  - apply GetCreditAccount_ok in Hg as (-> & _). apply SetCreditAccount_frame in E as (HL & HB & HS). apply Hfin; [done|done|]. by rewrite HB.
  - apply GetCreditAccount_err in Hg as [-> _].
    match goal with H : (if bool_decide ?c then _ else _) _ = _ |- _ => destruct (bool_decide c); [|done] end.
    unfold ensure_account in *. run_inv. apply SetCreditAccount_frame in E as (HL & HB & HS).
    destruct (HasAccount _ _); apply Hfin; try done; rewrite HB; [done|]. intros y d. apply SetNewAccount_balance.
Qed.

Lemma sim_fund msg w r w' :
  FundCredit msg w = (Ok r, w') → runs_by now (AccAddressFromBech32 (fc_Sender msg)) (abs w) (abs w').
Proof.
  intros E. unfold FundCredit in E. run_inv. destruct_units.
  match goal with H : MsgFundCredit_ValidateBasic _ = Ok _ |- _ => unfold MsgFundCredit_ValidateBasic in H end. checks_inv.
  match goal with H : DeriveCreditAddressFromBech32 _ = Ok _ |- _ => unfold DeriveCreditAddressFromBech32 in H end.
  destruct (AccAddressFromBech32 (fc_Tenant msg)) as [a|]; [|done]. run_inv.
  match goal with H : _ || _ = false |- _ => apply orb_false_iff in H as [Hv%negb_false_iff Hz%Z.eqb_neq] end.
  pose proof (proj1 (Coin_IsValid_spec _) Hv) as [_ ?].
  match goal with H : parse_address _ = Ok _ |- _ => unfold parse_address in H end.
  destruct (AccAddressFromBech32 (fc_Sender msg)) as [s|]; [|done]. run_inv.
  match goal with H : fund_credit_tx _ _ _ _ = _ |- _ => apply fund_credit_tx_market in H; [|lia|done] end.
  by events_inv.
Qed.

(** ** Closing *)

Lemma close_settle_run reason closedBy l w l' cs role w' :
  lease_wf now (Uuid l) l → State l = LEASE_STATE_ACTIVE → close_settle env reason closedBy l w = (Ok (l', cs, role), w') →
  ∃ silent r, performSettlementCore l now silent w = (Ok r, w') ∧ cs = TransferAmounts r ∧
    abs_lease l' = with_state LEASE_STATE_CLOSED now (abs_lease l).
Proof.
  intros Hwf Hs E. destruct (wf_tenant _ _ _ Hwf) as (a & Ha & _). unfold close_settle in E. run_inv.
  match goal with H : ShouldAutoCloseLease _ _ _ = _ |- _ => eapply ShouldAutoCloseLease_ok in H as (-> & _ & Hr & _); [|done|apply Hwf|done] end.
  destruct Hr as [-> | ->]; cbn in E; unfold settleLease in *; run_inv; [exists false|exists true]; eexists; split_and!; done.
Qed.

Lemma close_one_market p reason closedBy x l w x' w' :
  lease_wf now (Uuid l) l → State l = LEASE_STATE_ACTIVE → stored w l →
  close_one env p reason closedBy x l w = (Ok x', w') →
  (∃ l', Leases w' = <[Uuid l := l']> (Leases w)) ∧ sim w w'.
Proof.
  intros Hwf Hs Hl E. destruct (wf_tenant _ _ _ Hwf) as (a & Ha & _). unfold close_one in E. run_inv.
  match goal with H : close_settle _ _ _ _ _ = (Ok ?r, _) |- _ => destruct r as [[l' cs] role];
    pose proof (close_settle_ok _ _ _ _ _ _ _ _ _ Hwf Hs H) as (_ & He & _);
    apply close_settle_run in H as (silent & r & Eset & -> & Habs); [|done..] end.
  run_inv. match goal with H : SetLease _ _ = _ |- _ => apply SetLease_effect in H as [HL [HB HS]] end.
  pose proof Eset as Hm. eapply performSettlementCore_ok in Hm as [Hm _]; [|exact Ha|apply Hwf].
  destruct (moved_frame _ _ _ _ _ Hm) as (HL1 & _ & _ & _ & _ & _ & HS1 & _).
  rewrite (ev_uuid _ _ He), HL1 in HL. split; [by eexists|].
  eapply runs_step; [eapply (settlement_step _ l l' a LEASE_STATE_CLOSED); [done|done|done|by right|done|exact Eset|done|done|done|congruence]|exact I].
Qed.

Lemma close_loop_market p reason closedBy ls x w x' w' :
  Forall (λ l, lease_wf now (Uuid l) l ∧ State l = LEASE_STATE_ACTIVE) ls → NoDup (Uuid <$> ls) → Forall (stored w) ls →
  foldlM (close_one env p reason closedBy) x ls w = (Ok x', w') → sim w w'.
Proof.
  revert x w. induction ls as [|l ls IH]; intros x w HF Hnd Hst E; cbn [foldlM] in E; run_inv; [reflexivity|].
  apply Forall_cons in HF as [[Hwf Hs] HF]. apply Forall_cons in Hst as [Hl Hst].
  match goal with H : close_one _ _ _ _ _ _ _ = _ |- _ => apply close_one_market in H as [[l' HL] Hsim]; [|done..] end.
  etrans; [exact Hsim|]. eapply IH; [done| |by eapply stored_rest|done]. rewrite fmap_cons in Hnd. by apply NoDup_cons in Hnd as [_ ?].
Qed.

Lemma sim_close msg w r w' : BillingInv now w → CloseLease env msg w = (Ok r, w') → sim w w'.
Proof.
  intros HI E. unfold CloseLease in E. run_inv. destruct_units.
  match goal with H : MsgCloseLease_ValidateBasic _ = Ok _ |- _ => unfold MsgCloseLease_ValidateBasic in H end.
  checks_inv. destruct_units. match goal with H : GetParams _ = _ |- _ => apply GetParams_ok in H as [-> _] end.
  match goal with H : foldlM (validate_close_one _ _) _ _ _ = (Ok ?acc, _) |- _ => rename acc into acc0;
    apply validate_close_ok in H as (-> & Hb & Hst & _); [|by apply gathered_empty|by apply validate_batch_NoDup] end.
  destruct Hb as [[_ Hstored Hnd] _ _].
  assert (HS : Forall (stored w) (b_leases (c_batch acc0))) by (eapply Forall_impl; [exact Hstored|]; naive_solver).
  assert (HF : Forall (λ l, lease_wf now (Uuid l) l ∧ State l = LEASE_STATE_ACTIVE) (b_leases (c_batch acc0))).
  { rewrite Forall_forall in *. intros l Hl. split; [apply (I_leases _ _ _ HI _ _ (HS l Hl))|by apply Hst]. }
  run_inv. match goal with H : foldlM (close_one _ _ _ _) _ _ _ = _ |- _ => apply close_loop_market in H as Hsim; [|done..] end.
  match goal with H : persist_accounts _ _ _ = _ |- _ => apply persist_accounts_leases in H as (HL & HB & HS') end.
  rewrite <- (abs_same _ _ (f_equal (fmap abs_lease) HL) HB HS') in Hsim. by events_inv.
Qed.

Lemma sim_withdraw msg w r w' : BillingInv now w → Withdraw env msg w = (Ok r, w') → sim w w'.
Proof. intros HI E. by destruct (Withdraw_ok env msg w r w' HI E) as (pr & _ & _ & _ & Hr). Qed.
End simulation.

#[export] Hint Resolve sim_acknowledge sim_reject sim_cancel sim_created sim_set_domain sim_update_params sim_fund
  sim_close sim_withdraw : market.
