(* ===== verification/GenesisCheck.v ===== *)
(** * What the loops of GenesisState.Validate check

    Each loop over the leases and their items in both directions: what a successful check
    establishes, and that the leases of a state that satisfies the billing invariant pass. *)

From stdpp Require Import base tactics option list strings gmap sorting fin_maps.
From Stdlib Require Import ZArith Lia.
From S2P Require Import Prelude Sdk SdkRef Uuid GoStd SkuTypes BillingTypes BillingMsgs SkuKeeper Credit Accrual Keeper LeaseStore Settlement Lifecycle CustomDomain Genesis Invariant LifecycleInv CreateInv Scenario DomainInv.
Open Scope Z_scope.

Section genesis_check.
Context `{SL : SDKLaws} `{SK : SKUKeeper} {KL : SKUKeeperLaws SK} `{GL : GoStdLaws}.
Implicit Types (w : World) (l : Lease) (ca : CreditAccount) (d t : string) (items : list LeaseItem).

(** ** Items *)

Definition gi_named (i : LeaseItem) : bool := negb (String.eqb (item_ServiceName i) "").

Lemma genesis_items_fields_iff items n :
  Forall (λ i, 0 ≤ Quantity i ≤ max_u64) items →
  genesis_items_fields items = Ok n ↔
  Forall item_ok items ∧ Forall (λ i, IsValidUUID (item_SkuUuid i) = true) items ∧
  n = llen (filter (λ i, gi_named i = true) items).
Proof.
  intros Hq. revert n. induction Hq as [|i items Hqi Hq IH]; intros n; cbn [genesis_items_fields].
  - unfold llen. cbn. naive_solver.
  - rewrite !check_bind, !Forall_cons. unfold item_ok at 1, valid_coin at 1.
    destruct (String.eqb (item_SkuUuid i) "") eqn:E0.
    { apply String.eqb_eq in E0. rewrite E0. split; [done|]. by intros (_ & [? _] & _). }
    destruct (IsValidUUID (item_SkuUuid i)); cbn [negb]; [|naive_solver].
    destruct (Z.eqb_spec (Quantity i) 0) as [E1|E1]; [split; [done|]; intros ([[_ ?] _] & _); lia|].
    pose proof (Coin_IsValid_spec (LockedPrice i)) as Hcv. unfold Coin_IsZero.
    destruct (Coin_IsValid (LockedPrice i)); cbn [negb orb];
      [apply proj1 in Hcv; specialize (Hcv eq_refl)|split; [done|]; intros ([[[? ?] _] _] & _); assert (false = true) by (apply Hcv; split; [done|lia]); done].
    destruct (Z.eqb_spec (Amount (LockedPrice i)) 0) as [E2|E2]; [split; [done|]; intros ([[[_ ?] _] _] & _); lia|].
    assert (Hlen : llen (filter (λ i, gi_named i = true) (i :: items)) =
      if String.eqb (item_ServiceName i) "" then llen (filter (λ i, gi_named i = true) items)
      else llen (filter (λ i, gi_named i = true) items) + 1).
    { rewrite filter_cons. assert (Hg : gi_named i = negb (String.eqb (item_ServiceName i) "")) by done.
      destruct (String.eqb (item_ServiceName i) ""); cbn in Hg; unfold llen;
        [by rewrite decide_False by congruence|rewrite decide_True by done; cbn [length]; lia]. }
    destruct Hcv. rewrite res_bind_ok, Hlen. split.
    + intros (m & (? & ? & ->)%IH & [= <-]). split_and!; (done || lia).
    + intros ([_ ?] & [_ ?] & ->). eexists. split; [by apply IH|done].
Qed.

Lemma genesis_service_names_iff seen items :
  genesis_service_names seen items = Ok tt ↔
  Forall (λ i, IsValidDNSLabel (item_ServiceName i) = true) items ∧ NoDup (item_ServiceName <$> items) ∧
  Forall (λ i, item_ServiceName i ∉ seen) items.
Proof.
  revert seen. induction items as [|i items IH]; intros seen; cbn [genesis_service_names].
  - split; [|done]. intros _. split_and!; [done|constructor|done].
  - rewrite !check_bind, fmap_cons, NoDup_cons, !Forall_cons.
    destruct (IsValidDNSLabel _); cbn [negb]; [|naive_solver].
    case_bool_decide; [naive_solver|]. rewrite IH, !Forall_forall.
    setoid_rewrite not_elem_of_cons. setoid_rewrite list_elem_of_fmap. naive_solver.
Qed.

Lemma genesis_unique_skus_iff seen items :
  genesis_unique_skus seen items = Ok tt ↔
  NoDup (item_SkuUuid <$> items) ∧ Forall (λ i, item_SkuUuid i ∉ seen) items.
Proof.
  revert seen. induction items as [|i items IH]; intros seen; cbn [genesis_unique_skus].
  - split; [|done]. intros _. split; [constructor|done].
  - rewrite !check_bind, fmap_cons, NoDup_cons, !Forall_cons.
    case_bool_decide; [naive_solver|]. rewrite IH, !Forall_forall.
    setoid_rewrite not_elem_of_cons. setoid_rewrite list_elem_of_fmap. naive_solver.
Qed.

Lemma genesis_domains_iff reserved all items :
  genesis_domains reserved all items = Ok tt ↔
  ∀ i, i ∈ items → CustomDomain i ≠ ""%string →
    IsValidFQDN (CustomDomain i) = Ok tt ∧ MatchesReservedSuffix (CustomDomain i) reserved = false ∧
    service_matches (item_ServiceName i) all = 1.
Proof.
  induction items as [|i items IH]; cbn [genesis_domains]; [split; [set_solver|done]|].
  rewrite res_bind_ok.
  assert (Hi : (∃ a : unit, (if String.eqb (CustomDomain i) "" then Ok tt else
       wrap_err ErrInvalidCustomDomain (IsValidFQDN (CustomDomain i));;
       check (MatchesReservedSuffix (CustomDomain i) reserved) ErrInvalidCustomDomain;;
       check (negb (service_matches (item_ServiceName i) all =? 1)) ErrAmbiguousLeaseItem) = Ok a) ↔
    (CustomDomain i ≠ ""%string → IsValidFQDN (CustomDomain i) = Ok tt ∧
      MatchesReservedSuffix (CustomDomain i) reserved = false ∧ service_matches (item_ServiceName i) all = 1)).
  { destruct (String.eqb_spec (CustomDomain i) "") as [|Hne]; [naive_solver|].
    destruct (IsValidFQDN (CustomDomain i)) as [[]| |]; cbn; [|naive_solver..]. unfold check.
    destruct (MatchesReservedSuffix _ _); cbn; [naive_solver|].
    destruct (Z.eqb_spec (service_matches (item_ServiceName i) all) 1); cbn; naive_solver. }
  split.
  - intros (a & Ha & Hr) j [->|Hj]%elem_of_cons; [apply Hi; eauto|by apply IH].
  - intros Hall. destruct (proj2 Hi) as [a Ha]; [apply Hall; set_solver|]. exists a. split; [exact Ha|].
    apply IH. intros j Hj. apply Hall. set_solver.
Qed.

(** An item that is alone with its service name is the only one a domain can be looked up on. *)
Lemma service_matches_wf items :
  (∀ i, i ∈ items → CustomDomain i ≠ ""%string → service_matches (item_ServiceName i) items = 1) → domains_wf items.
Proof.
  intros Hm i j Hi Hj Hdi Hdj Hs. specialize (Hm i Hi Hdi). unfold service_matches, llen in Hm.
  assert (Hone : length (filter (λ c, item_ServiceName c = item_ServiceName i) items) = 1%nat) by lia.
  destruct (filter _ items) as [|x [|y r]] eqn:Hx; [done| |done].
  assert (Hin : ∀ c, c ∈ items → item_ServiceName c = item_ServiceName i → c = x).
  { intros c Hc Hcs. assert (Hcf : c ∈ filter (λ c, item_ServiceName c = item_ServiceName i) items) by by apply list_elem_of_filter.
    rewrite Hx in Hcf. by apply list_elem_of_singleton in Hcf. }
  by rewrite (Hin i Hi eq_refl), (Hin j Hj (eq_sym Hs)).
Qed.


(** ** Leases *)

Lemma filter_gi_named items :
  (0 ≤ llen (filter (λ i, gi_named i = true) items) ≤ llen items) ∧
  (llen (filter (λ i, gi_named i = true) items) = 0 ↔ Forall (λ i, item_ServiceName i = ""%string) items) ∧
  (llen (filter (λ i, gi_named i = true) items) = llen items ↔ Forall (λ i, item_ServiceName i ≠ ""%string) items).
Proof.
  unfold llen. induction items as [|i items (IH1 & IH2 & IH3)]; [by cbn|].
  rewrite filter_cons, !Forall_cons.
  assert (Hn : gi_named i = true ↔ item_ServiceName i ≠ ""%string).
  { unfold gi_named. destruct (String.eqb_spec (item_ServiceName i) ""); cbn; naive_solver. }
  destruct (decide (item_ServiceName i = ""%string)) as [E|E];
    [rewrite !decide_False by naive_solver|rewrite !decide_True by naive_solver];
    cbn [length]; rewrite ?Nat2Z.inj_succ; (split; [lia|]); split.
  - rewrite IH2. naive_solver.
  - split; [lia|]. naive_solver.
  - split; [lia|]. naive_solver.
  - rewrite <- IH3. split; [intros; split; [done|lia]|intros [_ ?]; lia].
Qed.

Lemma genesis_lease_ok p l u :
  genesis_lease p l = Ok u → IsValidUUID (Uuid l) = true → Forall (λ i, 0 ≤ Quantity i ≤ max_u64) (Items l) →
  Forall item_ok (Items l) ∧ domains_wf (Items l) ∧ lease_shape l.
Proof.
  intros E Hu Hq. unfold genesis_lease in E. checks_inv. destruct_units.
  match goal with H : genesis_items_fields _ = Ok _ |- _ => apply genesis_items_fields_iff in H as (Hi & Hk & ->); [|done] end.
  match goal with H : genesis_domains _ _ _ = Ok _ |- _ => pose proof (proj1 (genesis_domains_iff _ _ _) H) as Hdom end.
  assert (Hmatch : ∀ i, i ∈ Items l → CustomDomain i ≠ ""%string → service_matches (item_ServiceName i) (Items l) = 1)
    by (intros i ??; by apply Hdom).
  split_and!; [done|by apply service_matches_wf|].
  destruct (filter_gi_named (Items l)) as (Hr & Hnone & Hall). set (n := llen (filter _ _)) in *.
  repeat match goal with H : negb _ = false |- _ => apply negb_false_iff in H end.
  split; try done.
  - intros Hnil. match goal with H : (llen _ =? 0) = false |- _ => by rewrite Hnil in H end.
  - match goal with H : (if 0 <? n then _ else _) = Ok _ |- _ => destruct (Z.ltb_spec 0 n) as [Hn|Hn] end.
    + left. match goal with H : genesis_service_names _ _ = Ok _ |- _ => apply genesis_service_names_iff in H as (? & ? & _) end. done.
    + right. match goal with H : genesis_unique_skus _ _ = Ok _ |- _ => apply genesis_unique_skus_iff in H as [? _] end.
      split; [apply Hnone; lia|done].
  - intros i ??. destruct (Hdom i) as (? & _ & ?); done.
  - match goal with H : (MaxMetaHashLength <? _) = false |- _ => apply Z.ltb_ge in H; done end.
  - match goal with H : state_is _ LEASE_STATE_UNSPECIFIED = false |- _ => intros Hs; by rewrite Hs in H end.
Qed.

(** The domains of the lease are free of the reserved suffixes. *)
Definition unreserved (p : Params) l : Prop :=
  ∀ i, i ∈ Items l → CustomDomain i ≠ ""%string →
    MatchesReservedSuffix (CustomDomain i) (ReservedDomainSuffixes p) = false.

Lemma genesis_lease_total now p l :
  lease_wf now (Uuid l) l → unreserved p l → genesis_lease p l = Ok tt.
Proof.
  intros [_ (a & Ha & _) Hi _ [_ Ht] Hcl _ [Hu Hp Hne Hk Hmode Hdom Hm Hst]] Hres. unfold genesis_lease.
  assert (Hq : Forall (λ i, 0 ≤ Quantity i ≤ max_u64) (Items l)).
  { eapply Forall_impl; [exact Hi|]. intros i [_ ?]. lia. }
  destruct (filter_gi_named (Items l)) as (Hr & Hnone & Hall). set (n := llen (filter _ _)) in *.
  assert (Hn : (0 < n → n = llen (Items l) ∧ genesis_service_names [] (Items l) = Ok tt) ∧
               (n ≤ 0 → genesis_unique_skus [] (Items l) = Ok tt)).
  { assert (Hpos : 0 < llen (Items l)) by (unfold llen; destruct (Items l); [done|cbn; lia]).
    destruct Hmode as [[Hlab Hnd]|[Hno Hnd]].
    - assert (Hfull : n = llen (Items l)).
      { apply Hall. eapply Forall_impl; [exact Hlab|]. cbn. intros i Hlb Hemp. by rewrite Hemp in Hlb. }
      split; [|lia]. intros _. split; [done|]. apply genesis_service_names_iff. split_and!; [done|done|].
      apply Forall_forall. set_solver.
    - apply Hnone in Hno. split; [lia|]. intros _. apply genesis_unique_skus_iff. split; [done|]. apply Forall_forall. set_solver. }
  rewrite ?check_bind.
  destruct (String.eqb_spec (Tenant l) "") as [Hte|_]; [by rewrite Hte, AccAddressFromBech32_empty in Ha|].
  unfold check_address. rewrite Ha. rewrite ok_bind. rewrite ?check_bind.
  destruct (String.eqb_spec (ProviderUuid l) "") as [Hpe|_]; [by rewrite Hpe in Hp|]. rewrite Hp. cbn [negb].
  destruct (Z.eqb_spec (llen (Items l)) 0) as [Hz|_]; [by destruct (Items l)|].
  rewrite (proj2 (genesis_items_fields_iff (Items l) n Hq)) by done. rewrite ok_bind. rewrite ?check_bind.
  assert (Hd : genesis_domains (ReservedDomainSuffixes p) (Items l) (Items l) = Ok tt).
  { apply genesis_domains_iff. intros i ??. destruct (Hdom i); auto. }
  assert (Hend : (if state_is (State l) LEASE_STATE_CLOSED
    then match ClosedAt l with None => Err ErrInvalidLease | Some t => check (time_IsZero t) ErrInvalidLease end
    else Ok tt) = Ok tt).
  { destruct (state_is (State l) LEASE_STATE_CLOSED) eqn:Es; [|done]. apply state_is_true, Hcl in Es. rewrite Es.
    unfold check, time_IsZero. destruct (Z.eqb_spec (LastSettledAt l) zero_time); [lia|done]. }
  assert (Hus : state_is (State l) LEASE_STATE_UNSPECIFIED = false) by (by apply bool_decide_false).
  assert (Hmm : (MaxMetaHashLength <? len (MetaHash l)) = false) by (by apply Z.ltb_ge).
  destruct (Z.ltb_spec 0 n) as [Hn0|Hn0]; cbn [andb negb].
  - destruct Hn as [Hn _]. destruct (Hn Hn0) as [-> ->]. rewrite Z.eqb_refl. cbn [negb]. rewrite ok_bind.
    rewrite Hd. rewrite ok_bind. by rewrite ?check_bind, Hus, Hmm.
  - destruct Hn as [_ Hn]. rewrite (Hn Hn0). rewrite ok_bind. rewrite Hd. rewrite ok_bind.
    by rewrite ?check_bind, Hus, Hmm.
Qed.

Lemma genesis_leases_ok p seen ls u :
  genesis_leases p seen ls = Ok u →
  NoDup (Uuid <$> ls) ∧ (∀ l, l ∈ ls → Uuid l ∉ seen) ∧
  Forall (λ l, IsValidUUID (Uuid l) = true ∧ genesis_lease p l = Ok tt) ls.
Proof.
  revert seen. induction ls as [|l ls IH]; intros seen E; cbn [genesis_leases] in E.
  { run_inv. split_and!; [constructor|set_solver|done]. }
  checks_inv. destruct_units. apply IH in E as (Hn & Hs & Hf).
  match goal with H : bool_decide (_ ∈ seen) = false |- _ => apply bool_decide_eq_false in H; destruct (seen_cons _ _ _ _ H Hn Hs) end.
  match goal with H : negb (IsValidUUID _) = false |- _ => apply negb_false_iff in H end.
  split_and!; [done..|by constructor].
Qed.

Lemma genesis_leases_total p seen ls :
  NoDup (Uuid <$> ls) → (∀ l, l ∈ ls → Uuid l ∉ seen) →
  Forall (λ l, IsValidUUID (Uuid l) = true ∧ genesis_lease p l = Ok tt) ls → genesis_leases p seen ls = Ok tt.
Proof.
  intros Hn Hs Hf. revert seen Hn Hs. induction Hf as [|l ls [Hu Hl] _ IH]; intros seen Hn Hs; [done|].
  rewrite fmap_cons in Hn. apply NoDup_cons in Hn as [Hx Hn]. cbn [genesis_leases]. rewrite !check_bind.
  destruct (String.eqb_spec (Uuid l) "") as [He|_]; [by rewrite He in Hu|]. rewrite Hu. cbn [negb].
  rewrite bool_decide_false by (apply Hs; set_solver). rewrite Hl. rewrite ok_bind. apply IH; [done|].
  intros l' Hl'. apply not_elem_of_cons. split; [|apply Hs; set_solver]. intros Heq. apply Hx. rewrite <- Heq.
  by apply list_elem_of_fmap_2.
Qed.

Lemma genesis_accounts_ok seen cas r :
  genesis_accounts seen cas = Ok r →
  r = reverse (ca_Tenant <$> cas) ++ seen ∧ NoDup (ca_Tenant <$> cas) ∧ (∀ ca, ca ∈ cas → ca_Tenant ca ∉ seen) ∧
  Forall (λ ca, (∃ a, AccAddressFromBech32 (ca_Tenant ca) = Some a ∧
                      ca_CreditAddress ca = AccAddress_String (DeriveCreditAddress a)) ∧
                valid_coins (ReservedAmounts ca)) cas.
Proof.
  revert seen. induction cas as [|ca cas IH]; intros seen E; cbn [genesis_accounts] in E.
  { run_inv. split_and!; [done|constructor|set_solver|done]. }
  checks_inv. destruct (AccAddressFromBech32 (ca_Tenant ca)) as [a|] eqn:Ea; [|done]. checks_inv.
  apply IH in E as (-> & Hn & Hs & Hf).
  match goal with H : bool_decide _ = false |- _ => apply bool_decide_eq_false in H; destruct (seen_cons _ _ _ _ H Hn Hs) end.
  match goal with H : negb (Coins_IsValid _) = false |- _ => apply negb_false_iff, Coins_IsValid_spec in H end.
  match goal with H : negb (String.eqb _ _) = false |- _ => apply negb_false_iff, String.eqb_eq in H end.
  split_and!; [by rewrite fmap_cons, reverse_cons, <- app_assoc|done..|constructor; [by eauto|done]].
Qed.

Lemma genesis_accounts_total seen cas :
  NoDup (ca_Tenant <$> cas) → (∀ ca, ca ∈ cas → ca_Tenant ca ∉ seen) →
  Forall (λ ca, (∃ a, AccAddressFromBech32 (ca_Tenant ca) = Some a ∧
                      ca_CreditAddress ca = AccAddress_String (DeriveCreditAddress a)) ∧
                valid_coins (ReservedAmounts ca)) cas →
  genesis_accounts seen cas = Ok (reverse (ca_Tenant <$> cas) ++ seen).
Proof.
  intros Hn Hs Hf. revert seen Hn Hs. induction Hf as [|ca cas [(a & Ha & Haddr) Hv] _ IH]; intros seen Hn Hs; [done|].
  rewrite fmap_cons in *. apply NoDup_cons in Hn as [Hx Hn]. cbn [genesis_accounts]. rewrite ?check_bind.
  destruct (String.eqb_spec (ca_Tenant ca) "") as [He|_]; [by rewrite He, AccAddressFromBech32_empty in Ha|].
  rewrite bool_decide_false by (apply Hs; set_solver). rewrite Ha, ?check_bind, Haddr.
  pose proof (address_Module_parse ModuleName (sha256_Sum256 (String.append CreditAccountAddressPrefix a))) as Hpa.
  fold (DeriveCreditAddress a) in Hpa. destruct (String.eqb_spec (AccAddress_String (DeriveCreditAddress a)) "") as [He|_];
    [by rewrite He, AccAddressFromBech32_empty in Hpa|].
  unfold check_address. rewrite Hpa, ok_bind, ?check_bind, String.eqb_refl. cbn [negb].
  rewrite ?check_bind, (proj2 (Coins_IsValid_spec _) Hv). cbn [negb].
  rewrite IH; [by rewrite reverse_cons, <- app_assoc|done|].
  intros cb Hcb. apply not_elem_of_cons. split; [|apply Hs; set_solver]. intros Heq. apply Hx. rewrite <- Heq.
  by apply list_elem_of_fmap_2.
Qed.

End genesis_check.
