(* ===== verification/GenesisInv.v ===== *)
(** * Genesis: what validation guarantees, import and export

    A genesis state that passes Validate and is imported satisfies the billing invariant, under the
    conditions of [genesis_sane], which Validate does not check; and exporting a store and
    importing the result into an empty one gives the store back. The invariant of the sku module holds
    from an imported genesis state on. *)

From stdpp Require Import base tactics option list strings gmap sorting fin_maps.
From Stdlib Require Import ZArith Lia.
From S2P Require Import Prelude Sdk SdkRef Uuid GoStd SkuTypes BillingTypes BillingMsgs SkuKeeper Credit Accrual Keeper LeaseStore Settlement Lifecycle CustomDomain Genesis Invariant LifecycleInv CreateInv Scenario DomainInv GenesisCheck.
Open Scope Z_scope.

(** ** The sku module *)

Section sku_genesis_inv.
Context `{SL : SDKLaws} `{GoStd}.

Lemma genesis_providers_ok seen ps r :
  genesis_providers seen ps = Ok r →
  r = reverse (prov_Uuid <$> ps) ++ seen ∧ NoDup (prov_Uuid <$> ps) ∧ (∀ p, p ∈ ps → prov_Uuid p ∉ seen) ∧
  Forall (λ p, provider_ok (prov_Uuid p) p) ps.
Proof.
  revert seen. induction ps as [|p ps IH]; intros seen E; cbn [genesis_providers] in E.
  { run_inv. split_and!; [done|constructor|set_solver|done]. }
  checks_inv. match goal with H : check_uuid _ _ = Ok _ |- _ => apply check_uuid_ok in H end.
  apply IH in E as (-> & Hn & Hs & Hf).
  match goal with H : bool_decide _ = false |- _ => apply bool_decide_eq_false in H; destruct (seen_cons _ _ _ _ H Hn Hs) end.
  split_and!; [by rewrite fmap_cons, reverse_cons, <- app_assoc|done..|constructor; [by split_and!|done]].
Qed.

Lemma genesis_skus_ok providers seen ks u :
  genesis_skus providers seen ks = Ok u →
  NoDup (sku_Uuid <$> ks) ∧ (∀ k, k ∈ ks → sku_Uuid k ∉ seen) ∧
  Forall (λ k, sku_ProviderUuid k ∈ providers ∧ valid_coin (sku_BasePrice k) ∧
               ValidatePriceAndUnit (sku_BasePrice k) (sku_Unit k) = Ok tt) ks.
Proof.
  revert seen. induction ks as [|k ks IH]; intros seen E; cbn [genesis_skus] in E.
  { run_inv. split_and!; [constructor|set_solver|done]. }
  checks_inv. destruct_units. apply IH in E as (Hn & Hs & Hf).
  match goal with H : bool_decide (_ ∈ seen) = false |- _ => apply bool_decide_eq_false in H; destruct (seen_cons _ _ _ _ H Hn Hs) end.
  match goal with H : negb (bool_decide _) = false |- _ => apply negb_false_iff, bool_decide_eq_true in H end.
  match goal with H : _ || _ = false |- _ => apply orb_false_iff in H as [Hv%negb_false_iff Hz] end.
  apply Coin_IsValid_spec in Hv as [? ?]. unfold Coin_IsZero in Hz.
  split_and!; [done..|constructor; [split_and!; [done|split; [done|lia]|done]|done]].
Qed.

Lemma import_providers_ok ps s u s' :
  foldlM (λ _ p, SetProvider p) tt ps s = (Ok u, s') →
  s' = set_Providers (index_by prov_Uuid (Providers s) ps) s.
Proof.
  revert s. induction ps as [|p ps IH]; intros s E; cbn in E; run_inv; [by destruct s|].
  destruct_units. match goal with H : SetProvider _ _ = _ |- _ => unfold SetProvider in H end. run_split. by apply IH in E.
Qed.

Lemma import_providers_total ps s :
  Forall (λ p, is_Some (AccAddressFromBech32 (prov_Address p))) ps →
  foldlM (λ _ p, SetProvider p) tt ps s = (Ok tt, set_Providers (index_by prov_Uuid (Providers s) ps) s).
Proof.
  intros Hps. revert s. induction Hps as [|p ps [a Ha] _ IH]; intros s; [by destruct s|].
  cbn [foldlM]. erewrite bind_run by (unfold SetProvider; rewrite Ha; reflexivity). by rewrite IH.
Qed.

Lemma import_skus_eq ks s :
  foldlM (λ _ k, SetSKU k) tt ks s = (Ok tt, set_SKUs (index_by sku_Uuid (SKUs s) ks) s).
Proof.
  revert s. induction ks as [|k ks IH]; intros s; [by destruct s|]. cbn [foldlM]. erewrite bind_run by done. by rewrite IH.
Qed.

Definition sku_blank : SkuStore := mkSkuStore None ∅ ∅ 0 0 [].

Lemma sku_InitGenesis_ok gs u s :
  sku_InitGenesis gs sku_blank = (Ok u, s) →
  Providers s = index_by prov_Uuid ∅ (sg_Providers gs) ∧ SKUs s = index_by sku_Uuid ∅ (sg_Skus gs).
Proof.
  unfold sku_InitGenesis, sku_SetParams. intros E. run_inv. destruct_units.
  match goal with H : foldlM (λ _ p, SetProvider p) _ _ _ = _ |- _ => apply import_providers_ok in H as -> end.
  rewrite import_skus_eq in *. simplify_eq. run_split; done.
Qed.

(** A genesis state of the sku module that passes Validate and is imported into an
    empty store gives a store that satisfies the invariant the billing module relies on: every SKU
    has its provider and a price that converts exactly. *)
Lemma sku_import_inv gs u s :
  sku_Genesis_Validate gs = Ok tt → sku_InitGenesis gs sku_blank = (Ok u, s) → SkuInv s.
Proof.
  intros Hv [Hp Hk]%sku_InitGenesis_ok. unfold sku_Genesis_Validate in Hv. checks_inv.
  match goal with H : genesis_providers _ _ = Ok _ |- _ => apply genesis_providers_ok in H as (-> & Hpn & _ & Hpf) end.
  match goal with H : genesis_skus _ _ _ = Ok _ |- _ => apply genesis_skus_ok in H as (Hkn & _ & Hkf) end.
  rewrite Forall_forall in Hpf. rewrite app_nil_r, Forall_forall in Hkf.
  assert (Hnp : new_keys prov_Uuid ∅ (sg_Providers gs)) by (split; [done|intros; apply lookup_empty]).
  assert (Hnk : new_keys sku_Uuid ∅ (sg_Skus gs)) by (split; [done|intros; apply lookup_empty]).
  split; [rewrite Hk; unfold sku_ok; rewrite Hp|rewrite Hp].
  - intros y k [[Hin <-]|?]%index_by_lookup; [|by rewrite lookup_empty in *|done].
    destruct (Hkf k Hin) as (Hpr & ? & ?). split_and!; [done| |done|done].
    rewrite elem_of_reverse in Hpr. apply list_elem_of_fmap in Hpr as (q & -> & Hq).
    exists q. apply index_by_lookup; auto.
  - intros y q [[Hin <-]|?]%index_by_lookup; [|by rewrite lookup_empty in *|done]. by apply Hpf.
Qed.

(** Exporting the sku module and importing the result into an empty store gives
    back every provider, every SKU, the parameters and both sequences, with no error. *)
Lemma sku_genesis_roundtrip s p :
  SkuInv s → ss_Params s = Some p → 0 ≤ ProviderSequence s → 0 ≤ SKUSequence s →
  ∃ gs, sku_ExportGenesis s = (Ok gs, s) ∧ sku_InitGenesis gs sku_blank = (Ok tt, set_sku_events [] s).
Proof.
  intros [Hk Hp] Hpar Hps Hss.
  eexists. split; [unfold sku_ExportGenesis, mbind, M_bind, get; by rewrite Hpar|].
  unfold sku_InitGenesis, sku_SetParams. cbn [sg_Params sg_Providers sg_Skus sg_ProviderSequence sg_SkuSequence].
  erewrite bind_run by done. erewrite bind_run by
    (apply import_providers_total, Forall_forall; intros q [k Hq]%elem_of_walk; by destruct (Hp k q Hq) as (_ & _ & ? & _)).
  erewrite bind_run by apply import_skus_eq. cbn [SKUs Providers set_Providers set_ss_Params sku_blank].
  rewrite !index_by_walk; [|intros k v Hx; by destruct (Hp k v Hx)|intros k v Hx; by destruct (Hk k v Hx)].
  destruct s as [sp P K ps ss ev]; cbn in *; subst sp.
  destruct (Z.ltb_spec 0 ps), (Z.ltb_spec 0 ss); first [done|replace ps with 0 by lia|idtac]; first [done|by replace ss with 0 by lia].
Qed.

(** From a genesis state that passes Validate and is imported, by messages in any order. *)
Inductive sku_reachable : SkuStore → Prop :=
  | sku_reach_genesis gs u s :
      sku_Genesis_Validate gs = Ok tt → sku_InitGenesis gs sku_blank = (Ok u, s) → sku_reachable s
  | sku_reach_step env m s : sku_reachable s → sku_msg_wf m → sku_reachable (sku_deliver env m s).

Lemma sku_reachable_kept s : sku_reachable s → SkuInv s.
Proof. induction 1; [by eapply sku_import_inv|by apply sku_deliver_inv]. Qed.

(** C40 (invariant): in every state that messages of the sku module reach from an imported genesis
    state that passed Validate, every SKU is stored under its own UUID, belongs to a stored provider
    and has a positive base price in a valid denom that converts to a positive per-second rate
    without remainder; every provider is stored under its own valid UUID and has parseable management
    and payout addresses. *)
Theorem sku_reachable_inv s :
  sku_reachable s →
  (∀ u k, SKUs s !! u = Some k →
     sku_Uuid k = u ∧ is_Some (Providers s !! sku_ProviderUuid k) ∧ valid_coin (sku_BasePrice k) ∧
     ∃ secs p, divisorForUnit (sku_Unit k) = Some secs ∧ 0 < p ∧
       CalculatePricePerSecond (sku_BasePrice k) (sku_Unit k) = Ok (Some p) ∧ Amount (sku_BasePrice k) = p * secs) ∧
  (∀ u p, Providers s !! u = Some p →
     prov_Uuid p = u ∧ IsValidUUID u = true ∧ is_Some (AccAddressFromBech32 (prov_Address p)) ∧
     is_Some (AccAddressFromBech32 (prov_PayoutAddress p))).
Proof.
  intros [Hk Hp]%sku_reachable_kept. split; [|exact Hp]. intros u k Hu. destruct (Hk u k Hu) as (? & ? & Hc & Hv).
  split_and!; [done..|]. apply ValidatePriceAndUnit_ok in Hv as (secs & p & ? & ? & ?); [|destruct Hc; lia].
  exists secs, p. split_and!; [done..| |done]. rewrite CalculatePricePerSecond_eq by (destruct Hc; lia).
  match goal with Hd : divisorForUnit _ = Some _, He : Amount _ = _ |- _ => rewrite Hd, He; pose proof (divisor_pos _ _ Hd) end.
  rewrite Z.div_mul, Z.mod_mul by lia. by destruct (Z.eqb_spec p 0); [lia|].
Qed.
End sku_genesis_inv.

(** ** What Genesis.Validate guarantees of leases and accounts *)

Section billing_genesis_inv.
Context `{SL : SDKLaws} `{SK : SKUKeeper} {KL : SKUKeeperLaws SK} `{GL : GoStdLaws}.
Implicit Types (w : World) (l : Lease) (ca : CreditAccount) (d t : string).

(** ** The cross checks: counters and reservations per tenant *)

Definition count_for (x : LeaseState) t l : Z := if decide (Tenant l = t ∧ State l = x) then 1 else 0.
Definition resv_for t d l : Z := if decide (Tenant l = t ∧ live (State l) = true) then reserved_for l d else 0.

Lemma count_for_bounds x t ls : 0 ≤ lsum (count_for x t) ls ≤ llen ls.
Proof.
  unfold llen. induction ls as [|l ls IH]; cbn [lsum length]; [lia|]. unfold count_for at 1 3. case_decide; lia.
Qed.

Lemma count_state_spec x ls t :
  llen ls ≤ max_u64 → default 0 (count_state x ls !! t) = lsum (count_for x t) ls.
Proof.
  unfold count_state. induction ls as [|l ls IH] using rev_ind; intros Hl; [done|].
  unfold llen in *. rewrite length_app in Hl. cbn in Hl. specialize (IH ltac:(lia)).
  rewrite foldl_app, lsum_app. cbn [foldl lsum]. set (m := foldl _ ∅ ls) in *.
  pose proof (count_for_bounds x t ls) as Hb. unfold llen in Hb. unfold count_for at 2. destruct (state_is (State l) x) eqn:Es.
  - apply state_is_true in Es. destruct (decide (Tenant l = t)) as [<-|Hne].
    + rewrite lookup_insert_eq. cbn. rewrite decide_True, IH, wrap_u64_id by (done || unfold max_u64 in *; lia). lia.
    + rewrite lookup_insert_ne by done. rewrite decide_False by naive_solver. lia.
  - rewrite decide_False; [lia|]. intros [_ ?%state_is_true]. congruence.
Qed.

Lemma genesis_counts_ok active pending cas u :
  genesis_counts active pending cas = Ok u →
  Forall (λ ca, ActiveLeaseCount ca = default 0 (active !! ca_Tenant ca) ∧
                PendingLeaseCount ca = default 0 (pending !! ca_Tenant ca)) cas.
Proof.
  induction cas as [|ca cas IH]; intros E; [done|]. cbn [genesis_counts] in E. checks_inv.
  repeat match goal with H : negb (_ =? _) = false |- _ => apply negb_false_iff, Z.eqb_eq in H end. constructor; auto.
Qed.

(** What the map of expected reservations holds after the leases [ls]. *)
Definition expects (E : gmap string Coins) (ls : list Lease) : Prop :=
  (∀ t, valid_coins (default [] (E !! t))) ∧
  (∀ t d, amt (default [] (E !! t)) d = lsum (resv_for t d) ls) ∧
  (∀ l, l ∈ ls → live (State l) = true → is_Some (E !! Tenant l)).

Lemma expect_reservation_ok m E ls l E' :
  Forall item_ok (Items l) → 0 < MinLeaseDurationAtCreation l →
  expects E ls → expect_reservation m E l = Ok E' → expects E' (ls ++ [l]).
Proof.
  intros Hi Hd (Hv & Ha & Hs) Ex. unfold expect_reservation in Ex. fold (live (State l)) in Ex.
  assert (Hsum : ∀ t d, lsum (resv_for t d) (ls ++ [l]) = lsum (resv_for t d) ls + resv_for t d l).
  { intros. rewrite lsum_app. cbn. lia. }
  destruct (live (State l)) eqn:El.
  2:{ run_inv. split_and!; [done| |].
      - intros t d. rewrite Hsum, Ha. unfold resv_for at 3. rewrite decide_False; [lia|]. rewrite El. naive_solver.
      - intros l' [?|Hx%list_elem_of_singleton]%elem_of_app ?; [auto|congruence]. }
  run_inv. match goal with H : GetLeaseReservationAmount _ _ = Ok ?x |- _ => rename x into r;
    apply GetLeaseReservationAmount_ok in H as [Hrv Hra]; [|done..] end.
  assert (Hnew : ∃ c, E' = <[Tenant l := c]> E ∧ valid_coins c ∧ ∀ d, amt c d = amt (default [] (E !! Tenant l)) d + reserved_for l d).
  { destruct (E !! Tenant l) as [e|] eqn:Ee; run_inv.
    - pose proof (Hv (Tenant l)) as Hve. rewrite Ee in Hve. cbn in Hve.
      match goal with H : Coins_Add _ _ = Ok ?c |- _ => apply Coins_Add_ok in H as [Hcv Hca]; [|done..]; exists c end.
      split_and!; [done..|]. intros d. by rewrite Hca, Hra.
    - exists r. split_and!; [done..|]. intros d. cbn -[amt]. by rewrite Hra. }
  destruct Hnew as (c & -> & Hcv & Hca). split_and!.
  - intros t. destruct (decide (Tenant l = t)) as [<-|]; [by rewrite lookup_insert_eq|by rewrite lookup_insert_ne].
  - intros t d. rewrite Hsum. unfold resv_for at 2. destruct (decide (Tenant l = t)) as [<-|Hne].
    + rewrite lookup_insert_eq, decide_True by done. cbn -[amt]. unfold id. by rewrite Hca, Ha.
    + rewrite lookup_insert_ne, decide_False by naive_solver. rewrite Ha. lia.
  - intros l' [Hl'|Hx%list_elem_of_singleton]%elem_of_app Hlv; [|rewrite Hx, lookup_insert_eq; eauto].
    destruct (decide (Tenant l = Tenant l')) as [->|]; [rewrite lookup_insert_eq; eauto|rewrite lookup_insert_ne by done; auto].
Qed.

Lemma expected_reservations_ok m ls E :
  Forall (λ l, Forall item_ok (Items l) ∧ 0 < MinLeaseDurationAtCreation l) ls →
  CalculateExpectedReservationsByTenant ls m = Ok E → expects E ls.
Proof.
  unfold CalculateExpectedReservationsByTenant. intros Hls.
  assert (Hgen : ∀ dn E0, expects E0 dn → foldlM (expect_reservation m) E0 ls = Ok E → expects E (dn ++ ls)).
  { induction Hls as [|l ls [? ?] _ IH]; intros dn E0 HE Ex; cbn [foldlM] in Ex; run_inv; [by rewrite app_nil_r|].
    match goal with H : expect_reservation _ _ _ = Ok _ |- _ => eapply expect_reservation_ok in H; [|done..] end.
    eapply IH in Ex; [|done]. by rewrite <- app_assoc in Ex. }
  intros Ex. apply (Hgen []) in Ex; [done|]. split_and!; [|done|set_solver]. intros t. rewrite lookup_empty. apply valid_coins_nil.
Qed.

Lemma NewCoins_valid (cs r : Coins) : valid_coins cs → NewCoins cs = Ok r → r = cs.
Proof.
  intros Hv E. destruct (NewCoins_spec cs) as (c & Hc & Hcv & Hca).
  - apply Hv.
  - destruct Hv as (_ & _ & Hf). eapply Forall_impl; [exact Hf|]. intros x [? ?]. apply Coin_IsValid_spec. split; [done|lia].
  - rewrite E in Hc. injection Hc as ->. by apply coins_ext.
Qed.

Lemma genesis_reservations_ok E ls cas u :
  expects E ls → Forall (λ ca, valid_coins (ReservedAmounts ca)) cas → genesis_reservations E cas = Ok u →
  Forall (λ ca, ∀ d, amt (ReservedAmounts ca) d = lsum (resv_for (ca_Tenant ca) d) ls) cas.
Proof.
  intros (Hv & Ha & _) Hf. induction Hf as [|ca cas Hc _ IH]; intros Ex; [done|]. cbn [genesis_reservations] in Ex. checks_inv.
  constructor; [|by apply IH]. intros d. rewrite <- Ha.
  match goal with H : NewCoins (ReservedAmounts ca) = Ok _ |- _ => apply NewCoins_valid in H as ->; [|done] end.
  match goal with H : (match _ with _ => _ end) = Ok ?e, H2 : NewCoins ?e = Ok _ |- _ => 
    assert (He : e = default [] (E !! ca_Tenant ca)) by (destruct (E !! ca_Tenant ca); [by injection H|apply NewCoins_valid in H; [done|apply valid_coins_nil]]);
    subst e; apply NewCoins_valid in H2 as ->; [|done] end.
  match goal with H : negb _ = false |- _ => apply negb_false_iff, Coins_Equal_spec in H as ->; done end.
Qed.

(** ** The two import loops *)

Lemma import_lease_ok l w u w' :
  import_lease l w = (Ok u, w') → lease_refs (sku w) l ∧ SetLease l w = (Ok u, w').
Proof.
  unfold import_lease. intros E. run_inv. destruct_units.
  match goal with H : foldlM _ _ _ ?v = _ |- _ => rename v into w end.
  match goal with H : foldlM ?f _ _ _ = _ |- _ =>
    assert (Hloop : ∀ its w0 v w1, foldlM f tt its w0 = (Ok v, w1) → w1 = w0 ∧
      ∀ i, i ∈ its → ∃ k, GetSKU (sku w) (item_SkuUuid i) = Ok k ∧ sku_ProviderUuid k = ProviderUuid l) end.
  { induction its as [|i its IH]; intros w0 v w1 E1; cbn in E1; run_inv; [split; [done|set_solver]|].
    destruct (negb _) eqn:En; [done|]. run_inv. destruct_units. apply negb_false_iff, String.eqb_eq in En.
    apply IH in E1 as [-> Hi]. split; [done|]. intros j [->|Hj]%elem_of_cons; eauto. }
  match goal with H : foldlM _ _ _ _ = _ |- _ => apply Hloop in H as [-> Hi] end. split; [|done]. split; eauto.
Qed.

Lemma import_leases_ok ls w u w' :
  new_keys Uuid (Leases w) ls → Forall (λ l, domains_wf (Items l)) ls → DomInv w → SkuIdxInv w →
  foldlM (λ _ l, import_lease l) tt ls w = (Ok u, w') →
  Leases w' = index_by Uuid (Leases w) ls ∧ DomInv w' ∧ SkuIdxInv w' ∧ lease_frame w w' ∧
  Forall (lease_refs (sku w)) ls.
Proof.
  revert w. induction ls as [|l ls IH]; intros w Hk Hd HD HS E; cbn [foldlM] in E; run_inv; [by split_and!|].
  apply Forall_cons in Hd as [Hd0 Hd]. apply new_keys_cons in Hk as [Hn Hk]. destruct_units.
  match goal with H : import_lease _ _ = (Ok _, ?w1) |- _ => apply import_lease_ok in H as [Hr H];
    pose proof H as (_ & HL & Hfr)%SetLease_ok; rename H into ES; rename w1 into wm end.
  assert (HD1 : DomInv wm) by by eapply SetLease_DomInv.
  assert (HS1 : SkuIdxInv wm) by (eapply SetLease_SkuIdxInv; [done| |exact ES]; by rewrite Hn).
  pose proof Hfr as (? & ? & ? & ? & Hsku & ? & ?).
  apply IH in E as (HL' & ? & ? & (? & ? & ? & ? & ? & ? & ?) & Hf); [|by rewrite HL|done..].
  rewrite Hsku in Hf. split_and!; [by rewrite HL', HL|done|done| |by constructor]. unfold lease_frame. split_and!; congruence.
Qed.

(** The reverse index of credit addresses. *)
Definition cidx_ok w : Prop :=
  (∀ c a, CreditAddressIndex w !! c = Some a → c = DeriveCreditAddress a ∧ is_Some (CreditAccounts w !! a)) ∧
  (∀ a, is_Some (CreditAccounts w !! a) → is_Some (CreditAddressIndex w !! DeriveCreditAddress a)).

Definition acct_key ca : string := default ""%string (AccAddressFromBech32 (ca_Tenant ca)).

(** Everything but the credit accounts is unchanged. *)
Definition acct_frame w w' : Prop :=
  k_Params w' = k_Params w ∧ Leases w' = Leases w ∧ LeaseSequence w' = LeaseSequence w ∧
  LeaseBySKUIndex w' = LeaseBySKUIndex w ∧ CustomDomainIndex w' = CustomDomainIndex w ∧ sku w' = sku w.

Lemma SetCreditAccount_cidx ca a w :
  AccAddressFromBech32 (ca_Tenant ca) = Some a → cidx_ok w →
  ∃ w', SetCreditAccount ca w = (Ok tt, w') ∧ cidx_ok w' ∧
        CreditAccounts w' = <[acct_key ca := ca]> (CreditAccounts w) ∧ acct_frame w w'.
Proof.
  intros Ha [H1 H2]. unfold SetCreditAccount, acct_key. rewrite Ha. eexists. split_and!; [done| |done|by repeat split].
  split; cbn.
  - intros c x [[<- <-]|[_ Hc]]%lookup_insert_Some; [split; [done|]; rewrite lookup_insert_eq; eauto|].
    destruct (H1 c x Hc) as [? Hx]. split; [done|].
    destruct (decide (a = x)) as [->|]; [rewrite lookup_insert_eq; eauto|by rewrite lookup_insert_ne].
  - intros x Hx. destruct (decide (DeriveCreditAddress a = DeriveCreditAddress x)) as [->|Hne]; [rewrite lookup_insert_eq; eauto|].
    rewrite lookup_insert_ne by done. apply H2. rewrite lookup_insert_ne in Hx by naive_solver. done.
Qed.

Lemma import_accounts_eq cas w :
  Forall (λ ca, is_Some (AccAddressFromBech32 (ca_Tenant ca))) cas → cidx_ok w →
  ∃ w', foldlM (λ _ ca, SetCreditAccount ca) tt cas w = (Ok tt, w') ∧ cidx_ok w' ∧
        CreditAccounts w' = index_by acct_key (CreditAccounts w) cas ∧ acct_frame w w'.
Proof.
  intros Hf. revert w. induction Hf as [|ca cas [a Ha] _ IH]; intros w Hc; [exists w; by split_and!|].
  destruct (SetCreditAccount_cidx ca a w Ha Hc) as (w1 & E & Hc1 & HC & Hfr).
  destruct (IH w1 Hc1) as (w2 & E2 & Hc2 & HC2 & Hfr2). exists w2. cbn [foldlM]. erewrite bind_run by exact E.
  split_and!; [done|done|by rewrite HC2, HC|]. unfold acct_frame in *. destruct_and?. split_and!; congruence.
Qed.

(** ** Import establishes the invariant *)

(** What Validate leaves open, and the invariant needs: that tenants are spelled as the SDK prints
    them, that the reservation of a lease was fixed at creation (not a legacy zero), that a closed
    lease was settled when it was closed, that the settlement mark is set, and that the counters respect the bounds of the parameters. *)
Definition lease_sane l : Prop :=
  canonical (Tenant l) ∧ Forall (λ i, 0 ≤ Quantity i ≤ max_u64) (Items l) ∧ 0 < MinLeaseDurationAtCreation l ∧
  zero_time < LastSettledAt l ∧
  ClosedAt l = if decide (State l = LEASE_STATE_CLOSED) then Some (LastSettledAt l) else None.

Record genesis_sane (gs : GenesisState) : Prop := mkGenesisSane {
  sane_params : params_u64 (gs_Params gs);
  sane_sequence : gs_LeaseSequence gs ≤ max_u64;
  sane_leases : Forall lease_sane (gs_Leases gs);
  sane_tenants : Forall (λ ca, canonical (ca_Tenant ca)) (gs_CreditAccounts gs);
  sane_counts : Forall (λ ca, ActiveLeaseCount ca + PendingLeaseCount ca ≤ max_live) (gs_CreditAccounts gs) }.

Lemma genesis_times_ok bt ls u :
  genesis_times bt ls = Ok u → Forall (λ l, CreatedAt l ≤ bt ∧ LastSettledAt l ≤ bt) ls.
Proof.
  induction ls as [|l ls IH]; intros E; [done|]. cbn [genesis_times] in E. checks_inv. destruct_units.
  unfold time_After in *. constructor; [lia|auto].
Qed.

(** Canonical tenants are told apart by their spelling. *)
Lemma canonical_same t a l :
  AccAddressFromBech32 t = Some a → canonical t → canonical (Tenant l) → tenant_is a l = true ↔ Tenant l = t.
Proof.
  intros Ha (a' & Ha' & Hs) (b & Hb & Hbs). assert (a' = a) as -> by congruence. unfold tenant_is.
  rewrite bool_decide_eq_true. split; congruence.
Qed.

Lemma sums_by_address t a ls :
  AccAddressFromBech32 t = Some a → canonical t → Forall (λ l, canonical (Tenant l)) ls →
  (∀ x, lsum (count_for x t) ls = lsum (count_of x a) ls) ∧ (∀ d, lsum (resv_for t d) ls = lsum (resv_of a d) ls).
Proof.
  intros Ha Ht Hls. split; intros x; apply lsum_ext; (eapply Forall_impl; [exact Hls|]); intros l Hl;
    pose proof (canonical_same t a l Ha Ht Hl) as Hiff; unfold count_for, count_of, resv_for, resv_of;
    destruct (tenant_is a l); cbn.
  - destruct (state_is (State l) x) eqn:Es; [rewrite decide_True by (split; [by apply Hiff|by apply state_is_true]); done|].
    rewrite decide_False; [done|]. intros [_ ?%state_is_true]. congruence.
  - rewrite decide_False; [done|]. naive_solver.
  - destruct (live (State l)); [rewrite decide_True by (split; [by apply Hiff|done]); done|]. by rewrite decide_False by naive_solver.
  - rewrite decide_False; [done|]. naive_solver.
Qed.

Lemma reserved_positive l :
  Forall item_ok (Items l) → Items l ≠ [] → 0 < MinLeaseDurationAtCreation l → ∃ d, 0 < reserved_for l d.
Proof.
  intros Hi Hne Hd. destruct (Items l) as [|i its] eqn:Ei; [done|]. apply Forall_cons in Hi as [[[_ Hp] Hq] Hi].
  exists (Denom (LockedPrice i)). unfold reserved_for. rewrite Ei. unfold rate. cbn [lsum].
  pose proof (rate_nonneg its (Denom (LockedPrice i)) Hi) as Hr. unfold rate in Hr. unfold item_rate at 1.
  rewrite decide_True by done. nia.
Qed.

Lemma missing_accounts_ok E seen ls u :
  expects E ls → genesis_missing_accounts E seen = Ok u →
  Forall (λ l, Forall item_ok (Items l) ∧ Items l ≠ [] ∧ 0 < MinLeaseDurationAtCreation l) ls →
  ∀ l, l ∈ ls → live (State l) = true → Tenant l ∈ seen.
Proof.
  intros (Hv & Ha & Hs) Ex Hls l Hl Hlv. unfold genesis_missing_accounts in Ex. checks_inv.
  destruct (Hs l Hl Hlv) as [c Hc]. specialize (Hv (Tenant l)). rewrite Hc in Hv. cbn in Hv.
  assert (Hnz : Coins_IsZero c = false).
  { apply not_true_is_false. rewrite Coins_IsZero_spec by done. intros ->.
    rewrite Forall_forall in Hls. destruct (Hls l Hl) as (Hi & Hne & Hd).
    destruct (reserved_positive l Hi Hne Hd) as [d Hpos]. specialize (Ha (Tenant l) d). rewrite Hc in Ha. cbn in Ha.
    apply list_elem_of_split in Hl as (l1 & l2 & ->). rewrite lsum_app in Ha. cbn [lsum] in Ha.
    assert (Hnn : ∀ l', l' ∈ l1 ++ l :: l2 → 0 ≤ resv_for (Tenant l) d l').
    { intros l' Hin. unfold resv_for. case_decide; [|done]. destruct (Hls l' Hin) as (Hi' & _ & ?).
      unfold reserved_for. pose proof (rate_nonneg (Items l') d Hi'). nia. }
    assert (0 ≤ lsum (resv_for (Tenant l) d) l1) by (apply lsum_nonneg, Forall_forall; intros; apply Hnn; set_solver).
    assert (0 ≤ lsum (resv_for (Tenant l) d) l2) by (apply lsum_nonneg, Forall_forall; intros; apply Hnn; set_solver).
    unfold resv_for at 2 in Ha. rewrite decide_True in Ha by done. lia. }
  destruct (decide (Tenant l ∈ seen)) as [|Hni]; [done|]. exfalso.
  match goal with H : existsb _ _ = false |- _ => apply not_true_iff_false in H; apply H end.
  apply existsb_exists. exists (Tenant l, c). split; [apply list_elem_of_In, elem_of_map_to_list; done|].
  cbn. by rewrite Hnz, bool_decide_false.
Qed.

(** What a validated and sane genesis state is known to satisfy. *)
Record genesis_ok (gs : GenesisState) : Prop := mkGenesisOk {
  go_keys : new_keys Uuid ∅ (gs_Leases gs);
  go_leases : Forall (λ l, Forall item_ok (Items l) ∧ domains_wf (Items l) ∧ lease_shape l ∧ lease_sane l) (gs_Leases gs);
  go_tenants : new_keys acct_key ∅ (gs_CreditAccounts gs);
  go_accts : Forall (λ ca, ∃ a, AccAddressFromBech32 (ca_Tenant ca) = Some a ∧
                acct_ok (index_by Uuid ∅ (gs_Leases gs)) a ca) (gs_CreditAccounts gs);
  go_live : ∀ l, l ∈ gs_Leases gs → live (State l) = true → ∃ ca, ca ∈ gs_CreditAccounts gs ∧ ca_Tenant ca = Tenant l;
  go_params : Params_Validate (gs_Params gs) = Ok tt;
  go_sequence : llen (gs_Leases gs) ≤ gs_LeaseSequence gs ≤ max_u64 }.

Lemma canonical_keys cas :
  NoDup (ca_Tenant <$> cas) → Forall (λ ca, canonical (ca_Tenant ca)) cas → new_keys acct_key ∅ cas.
Proof.
  intros Hn Hc. split; [|intros; apply lookup_empty]. revert Hn.
  induction Hc as [|ca cas (a & Ha & Hs) Hc IH]; intros Hn; [constructor|]. rewrite fmap_cons in *.
  apply NoDup_cons in Hn as [Hx Hn]. apply NoDup_cons. split; [|by apply IH].
  intros (cb & Hk & Hin)%list_elem_of_fmap. apply Hx, list_elem_of_fmap. exists cb. split; [|done].
  rewrite Forall_forall in Hc. destruct (Hc cb Hin) as (b & Hb & Hbs). unfold acct_key in Hk. rewrite Ha, Hb in Hk. cbn in Hk. congruence.
Qed.

Lemma Genesis_Validate_ok gs : Genesis_Validate gs = Ok tt → genesis_sane gs → genesis_ok gs.
Proof.
  intros E [Hpu Hseq Hls Htn Hcnt]. unfold Genesis_Validate in E. checks_inv. destruct_units.
  match goal with H : genesis_leases _ _ _ = Ok _ |- _ => apply genesis_leases_ok in H as (Hln & _ & Hlf) end.
  match goal with H : genesis_accounts _ _ = Ok _ |- _ => apply genesis_accounts_ok in H as (-> & Han & _ & Haf) end.
  assert (Hl : Forall (λ l, Forall item_ok (Items l) ∧ domains_wf (Items l) ∧ lease_shape l ∧ lease_sane l) (gs_Leases gs)).
  { rewrite Forall_forall in Hls, Hlf. apply Forall_forall. intros l Hin. destruct (Hls l Hin) as (? & Hq & ? & ? & ?).
    destruct (Hlf l Hin) as [Hu Hgl]. destruct (genesis_lease_ok _ l tt Hgl Hu Hq) as (? & ? & ?). by split_and!. }
  assert (Hk : new_keys Uuid ∅ (gs_Leases gs)) by (split; [done|intros; apply lookup_empty]).
  match goal with H : CalculateExpectedReservationsByTenant _ _ = Ok ?x |- _ => rename x into Ex;
    apply expected_reservations_ok in H as Hexp; [|eapply Forall_impl; [exact Hl|]; by intros l (? & _ & _ & _ & _ & ? & _)] end.
  match goal with H : genesis_counts _ _ _ = Ok _ |- _ => apply genesis_counts_ok in H; rename H into Hco end.
  match goal with H : genesis_reservations _ _ = Ok _ |- _ => eapply genesis_reservations_ok in H; [|done|by eapply Forall_impl; [exact Haf|intros ? [_ ?]]]; rename H into Hre end.
  match goal with H : genesis_missing_accounts _ _ = Ok _ |- _ => rename H into Hmi end.
  match goal with H : (_ <? llen _) = false |- _ => apply Z.ltb_ge in H; rename H into Hlen end.
  assert (Hct : Forall (λ l, canonical (Tenant l)) (gs_Leases gs)) by (eapply Forall_impl; [exact Hls|]; by intros l [? _]).
  split; [done|done| | | |done|lia].
  - by apply canonical_keys.
  - rewrite Forall_forall in Haf, Hco, Hre, Htn, Hcnt. apply Forall_forall. intros ca Hin.
    destruct (Haf ca Hin) as [(a & Ha & Haddr) Hv]. exists a. split; [done|]. destruct (Hco ca Hin) as [HcA HcP].
    rewrite count_state_spec in HcA, HcP by lia.
    destruct (sums_by_address (ca_Tenant ca) a (gs_Leases gs) Ha (Htn ca Hin) Hct) as [Hs1 Hs2].
    split; [done|by rewrite HcA, Hs1, map_sum_index_by|by rewrite HcP, Hs1, map_sum_index_by|done| |by apply Hcnt|done].
    intros d. by rewrite (Hre ca Hin), Hs2, map_sum_index_by.
  - intros l Hin Hlv. eapply missing_accounts_ok in Hlv; [|exact Hexp|exact Hmi| |exact Hin].
    + rewrite app_nil_r, elem_of_reverse in Hlv. apply list_elem_of_fmap in Hlv as (ca & -> & ?). eauto.
    + eapply Forall_impl; [exact Hl|]. intros l' (? & _ & Hsh & _ & _ & ? & _). split_and!; [done|apply Hsh|done].
Qed.

(** What a successful import leaves in the store. *)
Record imported (env : Env) (gs : GenesisState) (s : SkuState) w : Prop := mkImported {
  im_params : k_Params w = Some (gs_Params gs);
  im_leases : Leases w = index_by Uuid ∅ (gs_Leases gs);
  im_accts : CreditAccounts w = index_by acct_key ∅ (gs_CreditAccounts gs);
  im_sequence : LeaseSequence w = Z.max 0 (gs_LeaseSequence gs);
  im_dom : DomInv w;
  im_skuidx : SkuIdxInv w;
  im_cidx : cidx_ok w;
  im_sku : sku w = s;
  im_refs : Forall (lease_refs s) (gs_Leases gs);
  im_times : Forall (λ l, CreatedAt l ≤ blockTime env ∧ LastSettledAt l ≤ blockTime env) (gs_Leases gs) }.

Lemma blank_indexes s b : DomInv (blank s b) ∧ SkuIdxInv (blank s b) ∧ cidx_ok (blank s b).
Proof.
  split_and!.
  - split; [intros u l; cbn; by rewrite lookup_empty|]. intros d t. cbn. rewrite lookup_empty. split; [done|].
    intros (l & i & Hl & _). cbn in Hl. by rewrite lookup_empty in Hl.
  - intros k u v. cbn. rewrite lookup_empty. split; [done|]. intros (_ & l & Hl & _). by rewrite lookup_empty in Hl.
  - split; cbn; [intros c a; by rewrite lookup_empty|]. intros a [ca Hca]. by rewrite lookup_empty in Hca.
Qed.

Lemma import_sequence_eq n w :
  LeaseSequence w = 0 →
  (if 0 <? n then modify (set_LeaseSequence n) else mret tt : M World unit) w = (Ok tt, set_LeaseSequence (Z.max 0 n) w).
Proof.
  intros Hs. destruct (Z.ltb_spec 0 n); [by rewrite Z.max_r by lia|]. rewrite Z.max_l by lia. rewrite <- Hs. by destruct w.
Qed.

Lemma InitGenesis_ok env gs s b u w :
  new_keys Uuid ∅ (gs_Leases gs) → Forall (λ l, domains_wf (Items l)) (gs_Leases gs) →
  Forall (λ ca, is_Some (AccAddressFromBech32 (ca_Tenant ca))) (gs_CreditAccounts gs) →
  InitGenesis env gs (blank s b) = (Ok u, w) → imported env gs s w.
Proof.
  intros Hk Hd Ha E. unfold InitGenesis, SetParams in E. run_inv. destruct_units. destruct (blank_indexes s b) as (HD & HS & HC).
  match goal with H : ValidateWithBlockTime _ _ = Ok _ |- _ => apply genesis_times_ok in H; rename H into Ht end.
  match goal with H : foldlM (λ _ l, import_lease l) _ _ _ = _ |- _ =>
    apply import_leases_ok in H as (HL & HD1 & HS1 & (HP & HSeq & HC1 & HX1 & HK1 & _) & Hr); [|done..] end.
  match goal with H : foldlM (λ _ ca, SetCreditAccount ca) _ _ ?v = _ |- _ =>
    destruct (import_accounts_eq (gs_CreditAccounts gs) v Ha) as (w2 & E2 & Hc2 & HC2 & (HP2 & HL2 & HSeq2 & HI2 & HDom2 & HK2));
    [unfold cidx_ok; rewrite HC1, HX1; exact HC|rewrite E2 in H; injection H as <-] end.
  rewrite import_sequence_eq in E by (rewrite HSeq2, HSeq; done). simplify_eq.
  assert (HD2 : DomInv w2) by (unfold DomInv, claims in *; by rewrite HL2, HDom2).
  assert (HS2 : SkuIdxInv w2) by (unfold SkuIdxInv in *; by rewrite HL2, HI2).
  split; cbn; [by rewrite HP2, HP|by rewrite HL2, HL|by rewrite HC2, HC1|done|exact HD2|exact HS2|exact Hc2|by rewrite HK2, HK1|done|done].
Qed.

Lemma genesis_ok_imports env gs s b u w :
  genesis_ok gs → InitGenesis env gs (blank s b) = (Ok u, w) → imported env gs s w.
Proof.
  intros [Hk Hl _ Ha _ _ _] E. apply InitGenesis_ok in E; [done|done| |].
  - by eapply Forall_impl; [exact Hl|intros l (? & ? & ? & ?)].
  - by eapply Forall_impl; [exact Ha|intros ca (a & -> & _); eauto].
Qed.

Lemma imported_inv env gs s w :
  genesis_ok gs → params_u64 (gs_Params gs) → sku_inv s → zero_time < blockTime env → imported env gs s w →
  BillingInv (blockTime env) w.
Proof.
  intros [Hk Hl Ht Ha Hlv Hpv Hsq] Hpu Hs Hnow [Hpar HL HC Hseq HD HS HX HK Hr Htm].
  rewrite Forall_forall in Hl. rewrite Forall_forall in Ha. rewrite Forall_forall in Hr. rewrite Forall_forall in Htm.
  assert (Hin : ∀ x l, Leases w !! x = Some l → l ∈ gs_Leases gs ∧ Uuid l = x).
  { intros x l. rewrite HL. intros [?|?]%index_by_lookup; [done|by rewrite lookup_empty in *|done]. }
  split; rewrite ?HK.
  - intros x l [Hx <-]%Hin. destruct (Hl l Hx) as (? & _ & ? & (? & _ & ? & ? & Hcl)). split; try done; [destruct (Htm l Hx); lia|..];
      intros Hst; rewrite Hcl; case_decide; done.
  - intros a ca. rewrite HC. intros [[Hx Hkey]|?]%index_by_lookup; [|by rewrite lookup_empty in *|done].
    destruct (Ha ca Hx) as (a' & Ha' & Hok). unfold acct_key in Hkey. rewrite Ha' in Hkey. cbn in Hkey. subst a'.
    split; [done|]. unfold view. rewrite lookup_empty, HL. exact Hok.
  - intros x l [Hx _]%Hin Hlive. destruct (Hlv l Hx Hlive) as (ca & Hca & Htn). destruct (Ha ca Hca) as (a & Haa & _).
    exists a. rewrite <- Htn. split; [done|]. rewrite HC. exists ca. apply index_by_lookup; [done|]. left. split; [done|].
    unfold acct_key. by rewrite Haa.
  - intros t ca. by rewrite lookup_empty.
  - done.
  - done.
  - exact HX.
  - by exists (gs_Params gs).
  - done.
  - intros x l [Hx _]%Hin. by apply Hr.
  - done.
  - rewrite HL, index_by_size by done. rewrite Hseq, map_size_empty. unfold llen in Hsq. lia.
Qed.

(** C14 (invariant): a genesis state that passes Validate, is sane and is imported by InitGenesis
    into an empty store yields exactly its leases and credit accounts, and a state that satisfies
    the billing invariant: counters and reservations agree with the leases, domains are unique,
    indexes are exact, references resolve and no timestamp is in the future. *)
Theorem import_establishes_invariant env gs s b u w :
  Genesis_Validate gs = Ok tt → genesis_sane gs → sku_inv s → zero_time < blockTime env →
  InitGenesis env gs (blank s b) = (Ok u, w) →
  BillingInv (blockTime env) w ∧ Leases w = index_by Uuid ∅ (gs_Leases gs) ∧
  CreditAccounts w = index_by acct_key ∅ (gs_CreditAccounts gs).
Proof.
  intros Hv Hsane Hs Hnow E. pose proof (Genesis_Validate_ok gs Hv Hsane) as Hok. apply genesis_ok_imports in E as Him; [|done].
  split; [|split; apply Him]. eapply imported_inv; [done|apply Hsane|done|done|done].
Qed.

(** ** Export and import *)

Lemma import_lease_total l w w' : lease_refs (sku w) l → SetLease l w = (Ok tt, w') → import_lease l w = (Ok tt, w').
Proof.
  intros [[p Hp] Hi] E. unfold import_lease. erewrite bind_run by done.
  erewrite bind_run by (unfold lift; rewrite Hp; reflexivity).
  erewrite bind_run; [exact E|]. revert Hi. generalize (Items l) as its.
  induction its as [|i its IH]; intros Hi; [done|]. cbn [foldlM]. destruct (Hi i ltac:(set_solver)) as (k & Hk & Hpr).
  erewrite bind_run; [apply IH; intros; apply Hi; set_solver|].
  erewrite bind_run by (unfold lift; rewrite Hk; reflexivity). by rewrite Hpr, String.eqb_refl.
Qed.

(** The domains of a lease of [W] are free in a store that holds a part of the leases of [W]. *)
Lemma domains_free W w l :
  DomInv W → DomInv w → Leases w ⊆ Leases W → Leases W !! Uuid l = Some l → Leases w !! Uuid l = None →
  live (State l) = true → ∀ x d, domains_by_service (Items l) !! x = Some d →
  CustomDomainIndex w !! d = None ∧ ∀ x', domains_by_service (Items l) !! x' = Some d → x' = x.
Proof.
  intros [HwfW HW] [_ Hw] Hsub Hl Hn Hlv x d Hx.
  assert (Hclaim : ∀ y, domains_by_service (Items l) !! y = Some d → CustomDomainIndex W !! d = Some (mkTarget (Uuid l) y)).
  { intros y (i & Hi & Hs & Hd & Hne)%domains_by_service_spec; [|by eapply HwfW]. apply HW. exists l, i. by split_and!. }
  split; [|intros x' Hx'; apply Hclaim in Hx, Hx'; congruence].
  destruct (CustomDomainIndex w !! d) as [t|] eqn:Et; [|done]. exfalso. apply Hw in Et as (k & i & Hk & Hr).
  assert (HtW : CustomDomainIndex W !! d = Some t).
  { apply HW. exists k, i. split; [by eapply lookup_weaken|done]. }
  rewrite (Hclaim x Hx) in HtW. injection HtW as <-. cbn in Hk. congruence.
Qed.

Lemma import_leases_total W ls w :
  DomInv W → DomInv w → Leases w ⊆ Leases W → new_keys Uuid (Leases w) ls →
  Forall (λ l, Leases W !! Uuid l = Some l ∧ is_Some (AccAddressFromBech32 (Tenant l)) ∧ lease_refs (sku w) l) ls →
  ∃ w', foldlM (λ _ l, import_lease l) tt ls w = (Ok tt, w').
Proof.
  intros HW. revert w. induction ls as [|l ls IH]; intros w HD Hsub Hk Hf; [by eexists|].
  apply Forall_cons in Hf as [(Hl & Ht & Hr) Hf]. apply new_keys_cons in Hk as [Hn Hk].
  destruct (SetLease_new_total l w Ht Hn) as [w1 E1]; [by apply (domains_free W)|].
  pose proof E1 as (_ & HL & (_ & _ & _ & _ & HK & _))%SetLease_ok.
  cbn [foldlM]. erewrite bind_run by by apply import_lease_total.
  apply IH; [|rewrite HL|by rewrite HL|by rewrite HK].
  - eapply SetLease_DomInv; [exact HD| |exact E1]. by apply (proj1 HW (Uuid l)).
  - by apply insert_subseteq_l.
Qed.

Lemma genesis_times_total bt ls :
  Forall (λ l, CreatedAt l ≤ bt ∧ LastSettledAt l ≤ bt ∧ (State l = LEASE_STATE_CLOSED → ClosedAt l = Some (LastSettledAt l))) ls →
  genesis_times bt ls = Ok tt.
Proof.
  induction 1 as [|l ls (H1 & H2 & H3) _ IH]; [done|]. cbn [genesis_times]. unfold time_After.
  rewrite !check_bind. destruct (bt <? _) eqn:?; [lia|]. destruct (bt <? CreatedAt l) eqn:?; [lia|].
  destruct (state_is (State l) LEASE_STATE_CLOSED) eqn:Es; [|exact IH]. apply state_is_true, H3 in Es. rewrite Es, check_bind.
  by destruct (bt <? LastSettledAt l) eqn:?.
Qed.

Lemma InitGenesis_total env gs s b W :
  DomInv W → new_keys Uuid ∅ (gs_Leases gs) → genesis_times (blockTime env) (gs_Leases gs) = Ok tt →
  Forall (λ l, Leases W !! Uuid l = Some l ∧ is_Some (AccAddressFromBech32 (Tenant l)) ∧ lease_refs s l) (gs_Leases gs) →
  Forall (λ ca, is_Some (AccAddressFromBech32 (ca_Tenant ca))) (gs_CreditAccounts gs) →
  ∃ w, InitGenesis env gs (blank s b) = (Ok tt, w).
Proof.
  intros HW Hk Ht Hl Ha. destruct (blank_indexes s b) as (HD & HS & HC). unfold InitGenesis, ValidateWithBlockTime.
  erewrite bind_run by (unfold lift; rewrite Ht; reflexivity). erewrite bind_run by done.
  set (w0 := set_Params (gs_Params gs) (blank s b)).
  destruct (import_leases_total W (gs_Leases gs) w0) as [w1 E1]; [done|exact HD|apply map_empty_subseteq|done|done|].
  erewrite bind_run by exact E1.
  apply import_leases_ok in E1 as (_ & _ & _ & (_ & HSeq & HC1 & HX1 & _) & _);
    [|done|eapply Forall_impl; [exact Hl|]; intros l [Hx _]; by apply (proj1 HW (Uuid l))|exact HD|exact HS].
  destruct (import_accounts_eq (gs_CreditAccounts gs) w1 Ha) as (w2 & E2 & _ & _ & (_ & _ & HSeq2 & _));
    [unfold cidx_ok; rewrite HC1, HX1; exact HC|].
  erewrite bind_run by exact E2. rewrite import_sequence_eq by (rewrite HSeq2, HSeq; done). by eexists.
Qed.

(** The index of domains is determined by the leases. *)
Lemma DomInv_unique w w' : DomInv w → DomInv w' → Leases w = Leases w' → CustomDomainIndex w = CustomDomainIndex w'.
Proof.
  intros [_ H1] [_ H2] HL. apply map_eq. intros d. apply option_eq. intros t. rewrite H1, H2. unfold claims. by rewrite HL.
Qed.

(** Exporting the billing module in any state that satisfies its invariant and importing the result
    into an empty store at a later block succeeds and gives back the parameters, every lease and
    credit account, the sequence and the domain index. *)
Lemma genesis_restores env now w :
  BillingInv now w → now ≤ blockTime env →
  ∃ gs w', ExportGenesis w = (Ok gs, w) ∧ InitGenesis env gs (blank (sku w) (bank w)) = (Ok tt, w') ∧
    k_Params w' = k_Params w ∧ Leases w' = Leases w ∧ CreditAccounts w' = CreditAccounts w ∧
    LeaseSequence w' = LeaseSequence w ∧ CustomDomainIndex w' = CustomDomainIndex w ∧ BillingInv (blockTime env) w'.
Proof.
  intros HI Hle. pose proof (I_seq _ _ _ HI) as Hseq. destruct (I_params _ _ _ HI) as (p & Hp & Hpv). apply (BillingInv_later _ _ _ Hle) in HI as HI'.
  set (gs := mkGenesisState p (walk (Leases w)) (walk (CreditAccounts w)) (LeaseSequence w)).
  assert (HkL : ∀ k l, Leases w !! k = Some l → Uuid l = k) by (intros k l Hl; by apply (I_leases _ _ _ HI k)).
  assert (HkA : ∀ k ca, CreditAccounts w !! k = Some ca → acct_key ca = k).
  { intros k ca Hca. destruct (I_accts _ _ _ HI k ca Hca) as [Ht _]. unfold acct_key. by rewrite Ht. }
  assert (Hpa : Forall (λ ca, is_Some (AccAddressFromBech32 (ca_Tenant ca))) (walk (CreditAccounts w))).
  { apply Forall_forall. intros ca [k Hk]%elem_of_walk. destruct (I_accts _ _ _ HI k ca Hk) as [-> _]. eauto. }
  assert (Hin : ∀ l, l ∈ walk (Leases w) → Leases w !! Uuid l = Some l) by (intros l [k Hk]%elem_of_walk; by rewrite (HkL k l Hk)).
  destruct (InitGenesis_total env gs (sku w) (bank w) w) as [w' E]; [apply HI|by apply new_keys_walk| | |exact Hpa|].
  { apply genesis_times_total, Forall_forall. intros l Hl%Hin. destruct (I_leases _ _ _ HI' _ l Hl) as [_ _ _ _ [? [_ ?]] ? _ _]. auto. }
  { apply Forall_forall. intros l Hl%Hin. destruct (wf_tenant _ _ _ (I_leases _ _ _ HI _ l Hl)) as (a & Ha & _).
    split_and!; [done|eauto|by apply (I_refs _ _ _ HI (Uuid l))]. }
  exists gs, w'. split; [unfold ExportGenesis; erewrite bind_run by done; by rewrite Hp|]. split; [done|].
  apply InitGenesis_ok in E as [HP HL HC HS HD HX Hcx HK _ _];
    [|by apply new_keys_walk|apply Forall_forall; intros l Hl%Hin; by apply (proj1 (I_dom _ _ _ HI) (Uuid l))|exact Hpa].
  cbn [gs gs_Params gs_Leases gs_CreditAccounts gs_LeaseSequence] in HP, HL, HC, HS. rewrite index_by_walk in HL by done. rewrite index_by_walk in HC by done. rewrite Z.max_r in HS by lia.
  split_and!; [by rewrite HP|done|done|done|by apply DomInv_unique; [|apply HI|]|].
  split; rewrite ?HL, ?HC, ?HK, ?HP, ?HS; try apply HI'; [exact HD|exact HX|unfold cidx_ok in Hcx; by rewrite HC in Hcx|eauto].
Qed.
End billing_genesis_inv.

(** ** Witnesses *)


Definition demo_blank : World := blank demo_store example_bank.

(** The demo run with its pending lease, as a genesis state. *)
Definition demo_genesis_state : GenesisState := mkGenesisState DefaultParams [demo_lease] [demo_account] 1.

Lemma demo_genesis_sane : genesis_sane demo_genesis_state.
Proof.
  split; [apply DefaultParams_ok|vm_compute; discriminate|constructor; [|constructor]|constructor; [|constructor]|
          constructor; [vm_compute; discriminate|constructor]].
  - split_and!; [apply alice_canonical|constructor; [split; vm_compute; discriminate|constructor]|vm_compute; reflexivity|vm_compute; reflexivity|reflexivity].
  - apply alice_canonical.
Qed.

(** An imported provider with one SKU, after the authority deactivated the SKU. *)
Definition demo_sku_genesis : SkuGenesisState :=
  mkSkuGenesisState (mkSkuParams []) [example_provider] [example_sku demo_sku_uuid] 1 1.
Definition demo_sku_deactivated : SkuStore :=
  sku_deliver demo_env (SkuDeactivateSKU (mkMsgDeactivateSKU "gov" demo_sku_uuid)) (sku_InitGenesis demo_sku_genesis sku_blank).2.

Lemma sku_reachable_inv_witness :
  ∃ k, SKUs demo_sku_deactivated !! demo_sku_uuid = Some k ∧ sku_Active k = false ∧
    is_Some (Providers demo_sku_deactivated !! sku_ProviderUuid k) ∧
    CalculatePricePerSecond (sku_BasePrice k) (sku_Unit k) = Ok (Some 2).
Proof.
  destruct (sku_reachable_inv demo_sku_deactivated) as [Hk _].
  - apply sku_reach_step; [|exact I]. eapply (sku_reach_genesis demo_sku_genesis); [vm_compute; reflexivity|run_by_eval].
  - assert (Hs : SKUs demo_sku_deactivated !! demo_sku_uuid = Some (set_sku_Active false (example_sku demo_sku_uuid))) by (vm_compute; reflexivity).
    destruct (Hk _ _ Hs) as (_ & Hp & _ & secs & p & Hd & _ & Hc & He).
    eexists. split; [exact Hs|]. split; [reflexivity|]. split; [exact Hp|]. rewrite Hc. vm_compute in Hd. injection Hd as <-.
    assert (He' : 7200 = p * 3600) by exact He. f_equal. f_equal. lia.
Defined.

Lemma import_establishes_invariant_witness :
  BillingInv (blockTime demo_env) (InitGenesis demo_env demo_genesis_state demo_blank).2.
Proof.
  eapply (import_establishes_invariant demo_env demo_genesis_state);
    [vm_compute; reflexivity|apply demo_genesis_sane|apply demo_store_inv|vm_compute; reflexivity|run_by_eval].
Defined.
