(* ===== verification/GenesisExport.v ===== *)
(** * The export of a running chain passes its own validation

    Every loop of GenesisState.Validate succeeds on the export of a state that satisfies the billing
    invariant, as long as no claimed domain has come under a reserved suffix and the accounts are
    spelled as the SDK prints addresses. So a chain can be exported, validated and started again. *)

From stdpp Require Import base tactics option list strings gmap sorting fin_maps.
From Stdlib Require Import ZArith Lia.
From S2P Require Import Prelude Sdk SdkRef Uuid GoStd SkuTypes BillingTypes BillingMsgs SkuKeeper Credit Accrual Keeper LeaseStore Settlement Lifecycle CustomDomain Genesis Invariant LifecycleInv CreateInv Scenario DomainInv GenesisCheck GenesisInv.
Open Scope Z_scope.

Section export.
Context `{SL : SDKLaws} `{SK : SKUKeeper} {KL : SKUKeeperLaws SK} `{GL : GoStdLaws}.
Implicit Types (w : World) (l : Lease) (ca : CreditAccount) (d t : string) (ls : list Lease).

(** ** The expected reservations *)

Lemma GetLeaseReservationAmount_total l m :
  Forall item_ok (Items l) → 0 < MinLeaseDurationAtCreation l → (∀ d, reserved_for l d ≤ max_int) →
  ∃ r, GetLeaseReservationAmount l m = Ok r.
Proof.
  intros Hi Hd Hm. unfold GetLeaseReservationAmount, reservation_duration. destruct (_ =? 0) eqn:E0; [lia|].
  apply CalculateLeaseReservation_total; [done|lia|]. intros d. rewrite Z.max_r by lia. apply Hm.
Qed.

Lemma resv_for_nonneg t d l : Forall item_ok (Items l) → 0 < MinLeaseDurationAtCreation l → 0 ≤ resv_for t d l.
Proof.
  intros Hi Hd. unfold resv_for. case_decide; [|done]. unfold reserved_for. pose proof (rate_nonneg (Items l) d Hi). nia.
Qed.

Definition priced_lease l : Prop := Forall item_ok (Items l) ∧ 0 < MinLeaseDurationAtCreation l.

Lemma resv_for_sum_nonneg t d ls : Forall priced_lease ls → 0 ≤ lsum (resv_for t d) ls.
Proof. intros Hls. apply lsum_nonneg. eapply Forall_impl; [exact Hls|]. intros l [? ?]. by apply resv_for_nonneg. Qed.

Lemma expect_reservation_total m E ls l :
  priced_lease l → expects E ls → Forall priced_lease ls →
  (∀ t d, lsum (resv_for t d) ls + resv_for t d l ≤ max_int) →
  ∃ E', expect_reservation m E l = Ok E' ∧ expects E' (ls ++ [l]).
Proof.
  intros [Hi Hd] HE Hls Hmax.
  assert (Hex : ∃ E', expect_reservation m E l = Ok E'); [|destruct Hex as [E' HE']; eauto using expect_reservation_ok].
  unfold expect_reservation. fold (live (State l)). destruct (live (State l)) eqn:El; [|eauto].
  assert (Hres : ∀ d, reserved_for l d ≤ max_int ∧ lsum (resv_for (Tenant l) d) ls + reserved_for l d ≤ max_int).
  { intros d. specialize (Hmax (Tenant l) d). pose proof (resv_for_sum_nonneg (Tenant l) d ls Hls).
    unfold resv_for at 2 in Hmax. rewrite decide_True in Hmax by done. lia. }
  destruct (GetLeaseReservationAmount_total l m Hi Hd) as [r Hr]; [intros d; apply Hres|]. rewrite Hr, ok_bind.
  apply GetLeaseReservationAmount_ok in Hr as [Hrv Hra]; [|done..].
  destruct (E !! Tenant l) as [e|] eqn:Ee; [|eauto]. destruct HE as (Hv & Ha & _).
  specialize (Hv (Tenant l)). rewrite Ee in Hv. cbn in Hv.
  destruct (Coins_Add_total e r Hv Hrv) as (c & Hc & _); [|rewrite Hc, ok_bind; eauto].
  intros d. specialize (Ha (Tenant l) d). rewrite Ee in Ha. cbn -[amt] in Ha. unfold id in Ha. rewrite Ha, Hra. apply Hres.
Qed.

Lemma expected_reservations_total m ls :
  Forall priced_lease ls → (∀ t d, lsum (resv_for t d) ls ≤ max_int) →
  ∃ E, CalculateExpectedReservationsByTenant ls m = Ok E ∧ expects E ls.
Proof.
  unfold CalculateExpectedReservationsByTenant. intros Hls.
  assert (Hgen : ∀ dn E0, expects E0 dn → Forall priced_lease dn →
    (∀ t d, lsum (resv_for t d) dn + lsum (resv_for t d) ls ≤ max_int) →
    ∃ E, foldlM (expect_reservation m) E0 ls = Ok E ∧ expects E (dn ++ ls)).
  { induction Hls as [|l ls Hl Hls IH]; intros dn E0 HE Hdn Hmax; cbn [foldlM]; [exists E0; by rewrite app_nil_r|].
    destruct (expect_reservation_total m E0 dn l Hl HE Hdn) as (E1 & -> & HE1).
    { intros t d. specialize (Hmax t d). cbn [lsum] in Hmax. pose proof (resv_for_sum_nonneg t d ls Hls). lia. }
    rewrite ok_bind. destruct (IH (dn ++ [l]) E1 HE1) as (E & HEq & HEx).
    - apply Forall_app. split; [done|by constructor].
    - intros t d. specialize (Hmax t d). rewrite lsum_app. cbn [lsum] in *. lia.
    - exists E. by rewrite <- app_assoc in HEx. }
  intros Hmax. destruct (Hgen [] ∅) as (E & ? & ?); [|done|by apply Hmax|eauto].
  split_and!; [intros t; rewrite lookup_empty; apply valid_coins_nil|done|set_solver].
Qed.

Lemma NewCoins_self (cs : Coins) : valid_coins cs → NewCoins cs = Ok cs.
Proof.
  intros Hv. destruct (NewCoins_spec cs) as (c & Hc & Hcv & Hca).
  - apply Hv.
  - destruct Hv as (_ & _ & Hf). eapply Forall_impl; [exact Hf|]. intros x [? ?]. apply Coin_IsValid_spec. split; [done|lia].
  - rewrite Hc. f_equal. by apply coins_ext.
Qed.

Lemma genesis_reservations_total E ls cas :
  expects E ls →
  Forall (λ ca, valid_coins (ReservedAmounts ca) ∧
                ∀ d, amt (ReservedAmounts ca) d = lsum (resv_for (ca_Tenant ca) d) ls) cas →
  genesis_reservations E cas = Ok tt.
Proof.
  intros (Hv & Ha & _) Hf. induction Hf as [|ca cas [Hc Hr] _ IH]; [done|]. cbn [genesis_reservations].
  assert (Hexp : (match E !! ca_Tenant ca with Some e => Ok e | None => NewCoins [] end) = Ok (default [] (E !! ca_Tenant ca))).
  { destruct (E !! ca_Tenant ca); [done|]. apply NewCoins_self, valid_coins_nil. }
  rewrite Hexp, ok_bind, (NewCoins_self (ReservedAmounts ca) Hc), ok_bind, (NewCoins_self _ (Hv _)), ok_bind, check_bind.
  assert (Heq : ReservedAmounts ca = default [] (E !! ca_Tenant ca)).
  { apply coins_ext; [done|apply Hv|]. intros d. by rewrite Hr, Ha. }
  rewrite <- Heq. rewrite (proj2 (Coins_Equal_spec _ _ Hc Hc)) by done. cbn [negb]. exact IH.
Qed.

Lemma lsum_pos_elem {A} (f : A → Z) (xs : list A) : 0 < lsum f xs → ∃ x, x ∈ xs ∧ 0 < f x.
Proof.
  induction xs as [|x xs IH]; cbn [lsum]; [lia|]. intros Hp. destruct (decide (0 < f x)) as [|Hn].
  - exists x. split; [set_solver|done].
  - destruct IH as (y & ? & ?); [lia|]. exists y. split; [set_solver|done].
Qed.

Lemma genesis_missing_total E ls seen :
  expects E ls → (∀ l, l ∈ ls → live (State l) = true → Tenant l ∈ seen) →
  genesis_missing_accounts E seen = Ok tt.
Proof.
  intros (Hv & Ha & _) Hseen. unfold genesis_missing_accounts, check.
  destruct (existsb _ _) eqn:Ex; [|done]. exfalso. apply existsb_exists in Ex as ([t c] & Hin & Hb).
  apply list_elem_of_In, elem_of_map_to_list in Hin. cbn in Hb. apply andb_true_iff in Hb as [Hz Hns].
  apply negb_true_iff in Hz, Hns. apply bool_decide_eq_false in Hns.
  specialize (Hv t). rewrite Hin in Hv. cbn in Hv.
  assert (Hc : c ≠ []). { intros ->. rewrite (proj2 (Coins_IsZero_spec [] Hv)) in Hz by done. done. }
  destruct c as [|x c]; [done|]. pose proof (amt_elem (x :: c) x Hv ltac:(set_solver)) as Hx.
  destruct (valid_coins_elem _ x Hv ltac:(set_solver)) as [_ Hpos].
  specialize (Ha t (Denom x)). rewrite Hin in Ha. cbn -[amt] in Ha. unfold id in Ha. rewrite Hx in Ha.
  destruct (lsum_pos_elem (resv_for t (Denom x)) ls) as (l & Hl & Hp); [lia|].
  unfold resv_for in Hp. case_decide as Hd; [|lia]. destruct Hd as [<- ?]. apply Hns. by apply Hseen.
Qed.

Lemma genesis_counts_total active pending cas :
  Forall (λ ca, ActiveLeaseCount ca = default 0 (active !! ca_Tenant ca) ∧
                PendingLeaseCount ca = default 0 (pending !! ca_Tenant ca)) cas →
  genesis_counts active pending cas = Ok tt.
Proof.
  induction 1 as [|ca cas [Ha Hp] _ IH]; [done|]. cbn [genesis_counts]. rewrite ?check_bind, Ha, Hp, !Z.eqb_refl. exact IH.
Qed.

(** ** The whole check *)

(** The accounts of the store are spelled as the SDK prints addresses. *)
Definition canonical_accounts w : Prop := ∀ a ca, CreditAccounts w !! a = Some ca → canonical (ca_Tenant ca).
(** No claimed domain lies below a reserved suffix. *)
Definition domains_unreserved w : Prop :=
  ∀ p u l, k_Params w = Some p → Leases w !! u = Some l → unreserved p l.

Section state.
Context (now : Z) (w : World) (HI : BillingInv now w) (Hcan : canonical_accounts w).

Lemma lease_key k l : Leases w !! k = Some l → Uuid l = k.
Proof. intros Hl. by apply (I_leases _ _ _ HI k). Qed.

Lemma account_key k ca : CreditAccounts w !! k = Some ca → acct_key ca = k.
Proof. intros Hca. destruct (I_accts _ _ _ HI k ca Hca) as [Ht _]. unfold acct_key. by rewrite Ht. Qed.

Lemma exported_leases : Forall (λ l, lease_wf now (Uuid l) l) (walk (Leases w)).
Proof.
  apply Forall_forall. intros l [k Hk]%elem_of_walk. rewrite (lease_key k l Hk). by apply (I_leases _ _ _ HI).
Qed.

Lemma exported_canonical : Forall (λ l, canonical (Tenant l)) (walk (Leases w)).
Proof. eapply Forall_impl; [apply exported_leases|]. intros l Hw. apply Hw. Qed.

Lemma walk_sum f : map_sum f (Leases w) = lsum f (walk (Leases w)).
Proof.
  rewrite <- (index_by_walk Uuid (Leases w)) at 1 by apply lease_key.
  rewrite map_sum_index_by by (apply new_keys_walk, lease_key). by rewrite map_sum_empty.
Qed.

(** The account of an address, against the sums Validate forms over the spelled tenants. *)
Lemma exported_account ca :
  ca ∈ walk (CreditAccounts w) →
  ∃ a, AccAddressFromBech32 (ca_Tenant ca) = Some a ∧ acct_ok (Leases w) a ca ∧
    (∀ x, lsum (count_for x (ca_Tenant ca)) (walk (Leases w)) = map_sum (count_of x a) (Leases w)) ∧
    (∀ d, lsum (resv_for (ca_Tenant ca) d) (walk (Leases w)) = map_sum (resv_of a d) (Leases w)).
Proof.
  intros [a Ha]%elem_of_walk. destruct (I_accts _ _ _ HI a ca Ha) as [Ht Hok]. unfold view in Hok. rewrite lookup_empty in Hok.
  destruct (sums_by_address (ca_Tenant ca) a (walk (Leases w)) Ht (Hcan a ca Ha) exported_canonical) as [Hc Hr].
  exists a. split_and!; [done|exact Hok|intros x; by rewrite Hc, walk_sum|intros d; by rewrite Hr, walk_sum].
Qed.

(** A live lease has an account under the same spelling. *)
Lemma exported_live l :
  l ∈ walk (Leases w) → live (State l) = true → ∃ ca, ca ∈ walk (CreditAccounts w) ∧ ca_Tenant ca = Tenant l.
Proof.
  intros Hl Hlv. pose proof exported_canonical as Hec. rewrite Forall_forall in Hec. destruct (Hec l Hl) as (a & Ha & Hs).
  apply elem_of_walk in Hl as [k Hk]. destruct (I_live _ _ _ HI k l Hk Hlv) as (a' & Ha' & ca & Hca).
  assert (a' = a) as -> by congruence. exists ca. split; [apply elem_of_walk; eauto|].
  destruct (I_accts _ _ _ HI a ca Hca) as [Ht _]. destruct (Hcan a ca Hca) as (b & Hb & Hbs). congruence.
Qed.

Lemma exported_resv_max t d : lsum (resv_for t d) (walk (Leases w)) ≤ max_int.
Proof.
  assert (Hm : 0 ≤ max_int) by (vm_compute; discriminate).
  destruct (decide (0 < lsum (resv_for t d) (walk (Leases w)))) as [Hp|]; [|lia].
  destruct (lsum_pos_elem _ _ Hp) as (l & Hl & Hlp). unfold resv_for in Hlp. case_decide as Hd; [|lia].
  destruct Hd as [<- Hlv]. destruct (exported_live l Hl Hlv) as (ca & Hca & <-).
  destruct (exported_account ca Hca) as (a & _ & Hok & _ & Hr). rewrite Hr, <- (ok_reserved _ _ _ Hok).
  apply amt_range, Hok.
Qed.
End state.

Lemma walk_length {V} (key : V → string) (m : gmap string V) :
  (∀ k v, m !! k = Some v → key v = k) → length (walk m) = size m.
Proof.
  intros Hk. rewrite <- (length_fmap key), (walk_keys key) by done. rewrite sorted_keys_perm.
  rewrite length_fmap. apply length_map_to_list.
Qed.

Lemma export_passes now w :
  BillingInv now w → canonical_accounts w → domains_unreserved w →
  ∃ gs, ExportGenesis w = (Ok gs, w) ∧ Genesis_Validate gs = Ok tt ∧ genesis_sane gs.
Proof.
  intros HI Hcan Hdom. destruct (I_params _ _ _ HI) as (p & Hp & Hpv & Hpu).
  pose proof (exported_leases now w HI) as Hls.
  assert (Hpl : Forall priced_lease (walk (Leases w))).
  { eapply Forall_impl; [exact Hls|]. intros l Hw. split; apply Hw. }
  assert (Hlen : llen (walk (Leases w)) = Z.of_nat (size (Leases w))).
  { unfold llen. by rewrite (walk_length Uuid) by apply (lease_key now w HI). }
  pose proof (I_seq _ _ _ HI) as Hseq.
  destruct (expected_reservations_total (MinLeaseDuration p) (walk (Leases w)) Hpl (exported_resv_max now w HI Hcan)) as (E & HE & Hexp).
  exists (mkGenesisState p (walk (Leases w)) (walk (CreditAccounts w)) (LeaseSequence w)).
  split_and!; [unfold ExportGenesis; erewrite bind_run by done; by rewrite Hp| |].
  - unfold Genesis_Validate. cbn [gs_Params gs_Leases gs_CreditAccounts gs_LeaseSequence].
    rewrite Hpv. cbn [wrap_err]. rewrite ok_bind.
    rewrite genesis_leases_total, ok_bind.
    + rewrite genesis_accounts_total, ok_bind, HE, ok_bind.
      * rewrite (genesis_reservations_total E (walk (Leases w))), ok_bind; [|done|].
        2:{ apply Forall_forall. intros ca Hca. destruct (exported_account now w HI Hcan ca Hca) as (a & _ & Hok & _ & Hr).
            split; [apply Hok|]. intros d. rewrite Hr. apply Hok. }
        rewrite (genesis_missing_total E (walk (Leases w))), ok_bind; [|done|].
        2:{ intros l Hl Hlv. destruct (exported_live now w HI Hcan l Hl Hlv) as (ca & Hca & <-).
            rewrite app_nil_r, elem_of_reverse. by apply list_elem_of_fmap_2. }
        rewrite genesis_counts_total, ok_bind.
        -- unfold check. destruct (_ <? _) eqn:El; [|done]. lia.
        -- apply Forall_forall. intros ca Hca. destruct (exported_account now w HI Hcan ca Hca) as (a & _ & Hok & Hc & _).
           rewrite !count_state_spec, !Hc by lia. split; apply Hok.
      * eapply (NoDup_fmap_1 (λ t, default ""%string (AccAddressFromBech32 t))). rewrite <- list_fmap_compose.
        change (_ ∘ _) with acct_key. rewrite walk_keys by apply (account_key now w HI). apply NoDup_sorted_keys.
      * set_solver.
      * apply Forall_forall. intros ca Hca. destruct (exported_account now w HI Hcan ca Hca) as (a & Ha & Hok & _).
        split; [exists a; split; [done|apply Hok]|apply Hok].
    + rewrite walk_keys by apply (lease_key now w HI). apply NoDup_sorted_keys.
    + set_solver.
    + rewrite Forall_forall in *. intros l Hl. split; [apply (Hls l Hl)|].
      eapply genesis_lease_total; [by apply Hls|]. apply elem_of_walk in Hl as [k Hk]. by eapply Hdom.
  - split; cbn; [done|lia| | |].
    + eapply Forall_impl; [exact Hls|]. intros l [Hu Ht Hi Hd [_ Hset] Hcl Hop _]. split_and!; [done| |done|lia|].
      * eapply Forall_impl; [exact Hi|]. intros i [_ ?]. lia.
      * case_decide; auto.
    + apply Forall_forall. intros ca [a Ha]%elem_of_walk. by apply (Hcan a).
    + apply Forall_forall. intros ca Hca. destruct (exported_account now w HI Hcan ca Hca) as (a & _ & Hok & _). apply Hok.
Qed.

(** Conversely an export that passes has no domain below a reserved suffix. *)
Lemma passes_unreserved w gs :
  ExportGenesis w = (Ok gs, w) → Genesis_Validate gs = Ok tt → domains_unreserved w.
Proof.
  intros He Hv p u l Hp Hl i Hi Hne. unfold ExportGenesis in He. erewrite bind_run in He by done. rewrite Hp in He. injection He as <-.
  unfold Genesis_Validate in Hv. cbn [gs_Params gs_Leases] in Hv. checks_inv. destruct_units.
  match goal with H : genesis_leases _ _ _ = Ok _ |- _ => apply genesis_leases_ok in H as (_ & _ & Hf) end.
  rewrite Forall_forall in Hf. destruct (Hf l) as [_ Hg]; [apply elem_of_walk; eauto|].
  unfold genesis_lease in Hg. checks_inv. destruct_units.
  match goal with H : genesis_domains _ _ _ = Ok _ |- _ => by apply (proj1 (genesis_domains_iff _ _ _) H) end.
Qed.
End export.
