(* ===== verification/Ledger.v ===== *)
(** * The ledger: blocks of messages over the billing, sku and bank state

    A step is one message of the billing or the sku module (with the rollback a failing message
    gets), the end blocker, or anything another module does to the bank. The theorems hold in every
    state such steps reach from an imported genesis state. *)

From stdpp Require Import base tactics option list strings gmap sorting fin_maps.
From Stdlib Require Import ZArith Lia.
From S2P Require Import Prelude Sdk SdkRef Uuid GoStd SkuTypes BillingTypes BillingMsgs SkuKeeper Credit Accrual Keeper LeaseStore Settlement Lifecycle Withdraw CustomDomain EndBlocker Genesis Invariant LifecycleInv CreateInv Scenario WithdrawInv ExpiryInv DomainInv GenesisCheck GenesisInv GenesisExport.
Open Scope Z_scope.

(** The messages of the billing module. *)
Inductive billing_msg : Type :=
  | BFundCredit (m : MsgFundCredit)
  | BCreateLease (m : MsgCreateLease)
  | BCreateLeaseForTenant (m : MsgCreateLeaseForTenant)
  | BAcknowledgeLease (m : MsgAcknowledgeLease)
  | BRejectLease (m : MsgRejectLease)
  | BCancelLease (m : MsgCancelLease)
  | BCloseLease (m : MsgCloseLease)
  | BWithdraw (m : MsgWithdraw)
  | BSetItemCustomDomain (m : MsgSetItemCustomDomain)
  | BUpdateParams (m : MsgUpdateParams).

Section ledger.
Context `{SL : SDKLaws} `{GL : GoStdLaws}.
Implicit Types (w : World) (env : Env).

(** The message server, results dropped. *)
Definition handle env (m : billing_msg) : W unit :=
  match m with
  | BFundCredit m => FundCredit m;; mret tt
  | BCreateLease m => CreateLease env m;; mret tt
  | BCreateLeaseForTenant m => CreateLeaseForTenant env m;; mret tt
  | BAcknowledgeLease m => AcknowledgeLease env m;; mret tt
  | BRejectLease m => RejectLease env m;; mret tt
  | BCancelLease m => CancelLease env m;; mret tt
  | BCloseLease m => CloseLease env m;; mret tt
  | BWithdraw m => Withdraw env m;; mret tt
  | BSetItemCustomDomain m => SetItemCustomDomain_msg env m
  | BUpdateParams m => UpdateParams env m
  end.

(** What the wire format gives (uint64 fields) and, for a creation, that the tenant address is
    written the way the SDK prints it and that the generated UUID is new. *)
Definition admissible env (m : billing_msg) w : Prop :=
  match m with
  | BCreateLease m => canonical (cl_Tenant m) ∧ inputs_u64 (cl_Items m) ∧ fresh_lease env w
  | BCreateLeaseForTenant m => canonical (ct_Tenant m) ∧ inputs_u64 (ct_Items m) ∧ fresh_lease env w
  | BUpdateParams m => params_u64 (bp_Params m)
  | _ => True
  end.

Definition set_sku (s : SkuStore) w : World :=
  mkWorld (k_Params w) (Leases w) (LeaseSequence w) (CreditAccounts w) (CreditAddressIndex w)
    (LeaseBySKUIndex w) (CustomDomainIndex w) s (bank w) (events w).

Inductive step env : World → World → Prop :=
  | step_billing m w : admissible env m w → step env w (deliver (handle env m) w)
  | step_sku m w : sku_msg_wf m → sku_fresh env m (sku w) → step env w (set_sku (sku_deliver env m (sku w)) w)
  | step_end_block w : step env w (deliver (EndBlocker env) w)
  | step_bank b w : step env w (set_bank b w).

(** Block time never goes back. *)
Inductive steps : Z → World → Z → World → Prop :=
  | steps_refl now w : steps now w now w
  | steps_step now w env w1 now' w' :
      now ≤ blockTime env → step env w w1 → steps (blockTime env) w1 now' w' → steps now w now' w'.

(** From a genesis state that passes Validate, is sane and was imported. *)
Definition reachable now w : Prop :=
  ∃ env gs s b w0, Genesis_Validate gs = Ok tt ∧ genesis_sane gs ∧ SkuInv s ∧ zero_time < blockTime env ∧
    InitGenesis env gs (blank s b) = (Ok tt, w0) ∧ steps (blockTime env) w0 now w.

(** ** The invariant along steps *)

Lemma handle_kept env m w u w' :
  BillingInv (blockTime env) w → admissible env m w → handle env m w = (Ok u, w') → kept env w w'.
Proof.
  intros HI Ha E. destruct m; cbn [handle admissible] in *; run_inv; destruct_and?; eauto 3 with ledger.
Qed.

Lemma lease_refs_extends s s' l : sku_extends s s' → lease_refs s l → lease_refs s' l.
Proof.
  intros [Hp Hk] [[p HP] Hi]. split; cbn in *.
  - unfold sku_GetProvider in *. destruct (Providers s !! _) eqn:E; [|done]. destruct (Hp _ ltac:(eauto)) as [q ->]. eauto.
  - intros i (k & HG & Hpr)%Hi. unfold sku_GetSKU in *. destruct (SKUs s !! _) eqn:E; [|done]. simplify_eq.
    destruct (Hk _ _ E) as (k' & -> & Heq). exists k'. by rewrite Heq.
Qed.

Lemma step_kept env w w' : BillingInv (blockTime env) w → step env w w' → kept env w w'.
Proof.
  intros HI Hs. destruct Hs as [m w Ha|m w Hm Hf|w|b w].
  - apply (deliver_inv (kept env w)); [by split|]. intros. by eapply handle_kept.
  - split; [|done]. pose proof (I_sku _ _ _ HI) as Hsku.
    split; try apply HI; [by apply sku_deliver_inv|]. intros u l Hl. destruct (I_refs _ _ _ HI u l Hl) as [Hp Hi].
    by eapply lease_refs_extends; [apply sku_deliver_extends|].
  - destruct (EndBlocker_total env w HI) as (p & w' & _ & E & Hk & _). unfold deliver. by rewrite E.
  - split; [|done]. by apply (Inv_frame _ _ w).
Qed.

Lemma steps_snoc now w now' w' env w2 :
  steps now w now' w' → now' ≤ blockTime env → step env w' w2 → steps now w (blockTime env) w2.
Proof.
  induction 1 as [n v|n v e v1 n' v' Hle Hst _ IH]; intros Hn Hlast.
  - eapply steps_step; [done|done|]. apply steps_refl.
  - eapply steps_step; [done|done|by apply IH].
Qed.

Lemma steps_kept now w now' w' :
  steps now w now' w' → BillingInv now w → now ≤ now' ∧ BillingInv now' w' ∧ Leases_evolve (Leases w) (Leases w').
Proof.
  induction 1 as [now w|now w env w1 now' w' Hle Hs _ IH]; intros HI; [done|].
  apply step_kept in Hs as [HI1 Hev]; [|by eapply BillingInv_later].
  destruct (IH HI1) as (? & ? & ?). split_and!; [lia|done|by etrans].
Qed.

Lemma reachable_inv now w : reachable now w → BillingInv now w.
Proof.
  intros (env & gs & s & b & w0 & Hv & Hsane & Hs & Hnow & E & Hst). pose proof (Genesis_Validate_ok gs Hv Hsane) as Hok.
  apply genesis_ok_imports in E; [|done]. apply imported_inv in E; [|done|apply Hsane|exact Hs|done].
  apply steps_kept in Hst; [|done]. naive_solver.
Qed.

(** ** The claims *)

(** C1 (invariant): in every reachable state the counters of every credit account are exactly the
    numbers of the tenant's active and pending leases, and its reserved amounts are, in every
    denom, exactly the sum of what its live leases reserve (locked rate times the minimum duration
    recorded at creation). Nothing is ever reserved or released twice, or leaked. *)
Theorem accounts_match_leases now w a ca :
  reachable now w → CreditAccounts w !! a = Some ca →
  ActiveLeaseCount ca = map_sum (count_of LEASE_STATE_ACTIVE a) (Leases w) ∧
  PendingLeaseCount ca = map_sum (count_of LEASE_STATE_PENDING a) (Leases w) ∧
  valid_coins (ReservedAmounts ca) ∧
  ∀ d, amt (ReservedAmounts ca) d = map_sum (resv_of a d) (Leases w).
Proof.
  intros Hr%reachable_inv Hca. destruct (I_accts _ _ _ Hr a ca Hca) as [_ []]. done.
Qed.

(** C26 (bounds): no tenant ever has more than 11000 live leases (the parameter caps of 10000 active
    and 1000 pending ones added up), whatever the parameters were set to over time; so the uint64
    counters never wrap. *)
Theorem live_leases_bounded now w a ca :
  reachable now w → CreditAccounts w !! a = Some ca →
  0 ≤ ActiveLeaseCount ca ∧ 0 ≤ PendingLeaseCount ca ∧ ActiveLeaseCount ca + PendingLeaseCount ca ≤ 11000.
Proof.
  intros Hr%reachable_inv Hca. destruct (I_accts _ _ _ Hr a ca Hca) as [_ Hok]. unfold view in Hok.
  rewrite lookup_empty in Hok. destruct Hok as [_ Ha Hp _ _ Hb _]. cbn in *. unfold id in *.
  split_and!; [rewrite Ha; apply map_sum_nonneg; intros; apply count_nonneg|
               rewrite Hp; apply map_sum_nonneg; intros; apply count_nonneg|exact Hb].
Qed.

(** C4 (invariant): once stored a lease only evolves: its UUID, tenant, provider, items with their
    locked prices, creation time and reservation basis never change, its state only moves along
    PENDING to ACTIVE to CLOSED or from PENDING to REJECTED or EXPIRED, a terminal state is final,
    and the settlement mark never moves back, so no period is billed twice. *)
Theorem leases_only_evolve now w now' w' u l :
  reachable now w → steps now w now' w' → Leases w !! u = Some l →
  ∃ l', Leases w' !! u = Some l' ∧ evolves l l' ∧ (live (State l) = false → State l' = State l).
Proof.
  intros Hr%reachable_inv Hs Hl. apply steps_kept in Hs as (_ & _ & Hev); [|done].
  destruct (Hev u l Hl) as (l' & Hl' & He). exists l'. split_and!; [done|done|].
  intros Hd. destruct (ev_state _ _ He) as [Heq|Hst]; [done|]. by destruct (State l), (State l').
Qed.

(** C12 (safety): in every reachable state a custom domain belongs to at most one item of one live
    lease, and the domain index lists exactly these claims: no domain is hijacked and none is
    left behind by a lease that ended. *)
Theorem custom_domains_unique now w :
  reachable now w →
  (∀ d t, CustomDomainIndex w !! d = Some t ↔ claims w (tgt_LeaseUuid t) (tgt_ServiceName t) d) ∧
  ∀ d u s u' s', claims w u s d → claims w u' s' d → u = u' ∧ s = s'.
Proof.
  intros Hr%reachable_inv. destruct (I_dom _ _ _ Hr) as [_ Hidx]. split; [done|].
  intros d u s u' s' H1 H2. apply (Hidx d (mkTarget u s)) in H1. apply (Hidx d (mkTarget u' s')) in H2.
  rewrite H1 in H2. by injection H2.
Qed.

(** C11 (invariant): in every reachable state the SKU index holds exactly the pairs of a SKU and a
    stored lease that has an item of it, so that a listing by SKU iterates over exactly these leases;
    and the reverse index of credit addresses maps exactly the derived addresses of the stored credit
    accounts to their tenants. *)
Theorem indexes_exact now w :
  reachable now w →
  (∀ k u, u ∈ sku_index_uuids k w ↔ ∃ l, Leases w !! u = Some l ∧ k ∈ (item_SkuUuid <$> Items l)) ∧
  (∀ c a, CreditAddressIndex w !! c = Some a → c = DeriveCreditAddress a ∧ is_Some (CreditAccounts w !! a)) ∧
  (∀ a, is_Some (CreditAccounts w !! a) → is_Some (CreditAddressIndex w !! DeriveCreditAddress a)).
Proof.
  intros Hr%reachable_inv. split; [|apply (I_cidx _ _ _ Hr)].
  intros k u. apply elem_of_sku_index_uuids, (I_skuidx _ _ _ Hr).
Qed.


(** C15 (roundtrip): a chain can be restarted from its own export. In every reachable state whose
    accounts are spelled as the SDK prints addresses and whose claimed domains are clear of the
    reserved suffixes, the export passes Validate, importing it at a later block succeeds, restores
    parameters, leases, credit accounts, sequence and domain index, and the result is reachable
    again, so that all theorems on reachable states keep holding. *)
Theorem export_restarts now w :
  reachable now w → canonical_accounts w → domains_unreserved w →
  ∃ gs, ExportGenesis w = (Ok gs, w) ∧ Genesis_Validate gs = Ok tt ∧
    ∀ env, now ≤ blockTime env →
      ∃ w', InitGenesis env gs (blank (sku w) (bank w)) = (Ok tt, w') ∧ reachable (blockTime env) w' ∧
        k_Params w' = k_Params w ∧ Leases w' = Leases w ∧ CreditAccounts w' = CreditAccounts w ∧
        LeaseSequence w' = LeaseSequence w ∧ CustomDomainIndex w' = CustomDomainIndex w.
Proof.
  intros Hr%reachable_inv Hcan Hdom. destruct (export_passes now w Hr Hcan Hdom) as (gs & He & Hv & Hsane).
  exists gs. split_and!; [done..|]. intros env Hle.
  destruct (genesis_restores env now w Hr Hle) as (gs' & w' & He' & Hi & HP & HL & HC & HS & HD & _).
  assert (gs' = gs) as -> by congruence. exists w'. split_and!; try done.
  exists env, gs, (sku w), (bank w), w'. pose proof (I_now _ _ _ Hr).
  split_and!; [done|done|apply Hr|lia|done|apply steps_refl].
Qed.

(** C39 (equivalence): when an export is refused. In every reachable state with canonically spelled
    accounts ExportGenesis succeeds and InitGenesis imports its result at any later block, but
    Validate accepts it exactly when no stored lease has a domain below a suffix that is reserved at
    the time of the export. UpdateParams may reserve a suffix below which domains are claimed (see
    [reserved_suffix_breaks_export]), so a chain can export a genesis file that it refuses to validate. *)
Theorem export_validates_iff now w :
  reachable now w → canonical_accounts w →
  ∃ gs, ExportGenesis w = (Ok gs, w) ∧
    (∀ env, now ≤ blockTime env → ∃ w', InitGenesis env gs (blank (sku w) (bank w)) = (Ok tt, w')) ∧
    (Genesis_Validate gs = Ok tt ↔
     ∀ p u l i, k_Params w = Some p → Leases w !! u = Some l → i ∈ Items l → CustomDomain i ≠ ""%string →
       MatchesReservedSuffix (CustomDomain i) (ReservedDomainSuffixes p) = false).
Proof.
  intros Hr%reachable_inv Hcan. destruct (I_params _ _ _ Hr) as (p & Hp & _).
  set (gs := mkGenesisState p (walk (Leases w)) (walk (CreditAccounts w)) (LeaseSequence w)).
  assert (He : ExportGenesis w = (Ok gs, w)) by (unfold ExportGenesis; erewrite bind_run by done; by rewrite Hp).
  exists gs. split_and!; [done| |split].
  - intros env Hle. destruct (genesis_restores env now w Hr Hle) as (gs' & w' & He' & Hi & _).
    assert (gs' = gs) as -> by congruence. eauto.
  - intros Hv p' u l i Hp' Hl. by apply (passes_unreserved w gs He Hv p' u).
  - intros Hd. destruct (export_passes now w Hr Hcan) as (gs' & He' & Hv & _); [by intros p' u l Hp' Hl i; eapply Hd|].
    by assert (gs' = gs) as -> by congruence.
Qed.

(** ** A pending lease does not wait for ever *)

(** The pending leases up to [u] in the order of the store, and the leases up to [u] that are new in [w']. *)
Definition queue w (u : string) : gset string :=
  filter (λ v, String.le v u ∧ State <$> Leases w !! v = Some LEASE_STATE_PENDING) (dom (Leases w)).
Definition overtaking w w' (u : string) : gset string := filter (λ v, String.le v u) (dom (Leases w') ∖ dom (Leases w)).

(** The timeout of [u] is over by the parameters of the moment. *)
Definition timed_out env w (u : string) : Prop :=
  ∃ p l, k_Params w = Some p ∧ Leases w !! u = Some l ∧ CreatedAt l + PendingTimeout p * Second < blockTime env.

(** Steps of any kind, among them [n] end blocks at which the timeout of [u] is over. *)
Inductive waits (u : string) : nat → Z → World → Z → World → Prop :=
  | waits_refl now w : waits u 0 now w now w
  | waits_step n now w env w1 now' w' :
      now ≤ blockTime env → step env w w1 → waits u n (blockTime env) w1 now' w' → waits u n now w now' w'
  | waits_block n now w env now' w' :
      now ≤ blockTime env → timed_out env w u → waits u n (blockTime env) (deliver (EndBlocker env) w) now' w' →
      waits u (S n) now w now' w'.

Lemma waits_steps u n now w now' w' : waits u n now w now' w' → steps now w now' w'.
Proof. induction 1; [apply steps_refl|by eapply steps_step..|]. eapply steps_step; [done|by constructor|done]. Qed.

Lemma pending_before w w' u :
  Leases_evolve (Leases w) (Leases w') → is_Some (Leases w !! u) →
  State <$> Leases w' !! u = Some LEASE_STATE_PENDING → State <$> Leases w !! u = Some LEASE_STATE_PENDING.
Proof.
  intros Hev [l Hl] Hs. destruct (Hev u l Hl) as (l' & Hl' & He). rewrite Hl' in Hs. injection Hs as Hs. rewrite Hl. cbn.
  f_equal. destruct (ev_state _ _ He) as [Heq|Hlt]; [congruence|]. by rewrite Hs in Hlt; destruct (State l).
Qed.

Lemma queue_grows w w' u : Leases_evolve (Leases w) (Leases w') → queue w' u ⊆ queue w u ∪ overtaking w w' u.
Proof.
  intros Hev v [[Hle Hs] Hv]%elem_of_filter. apply elem_of_union. destruct (Leases w !! v) as [l|] eqn:El.
  - left. apply elem_of_filter. split; [split; [done|]|apply elem_of_dom; eauto]. eapply pending_before; [done|eauto|done].
  - right. apply elem_of_filter. split; [done|]. apply elem_of_difference. split; [done|]. by apply not_elem_of_dom.
Qed.

Lemma evolve_dom (L L' : gmap string Lease) : Leases_evolve L L' → dom L ⊆ dom L'.
Proof. intros Hev v [l Hl]%elem_of_dom. apply elem_of_dom. destruct (Hev v l Hl) as (? & ? & _). eauto. Qed.

Lemma overtaking_trans w w1 w' u :
  Leases_evolve (Leases w) (Leases w1) → Leases_evolve (Leases w1) (Leases w') →
  (size (overtaking w w1 u) + size (overtaking w1 w' u) ≤ size (overtaking w w' u))%nat.
Proof.
  intros He1%evolve_dom He2%evolve_dom. unfold overtaking. rewrite <- size_union by set_solver.
  apply subseteq_size. set_solver.
Qed.

(** A block at which the timeout of [u] is over expires [u] or a hundred leases before it. *)
Lemma block_drains env w u :
  BillingInv (blockTime env) w → timed_out env w u →
  State <$> Leases (deliver (EndBlocker env) w) !! u = Some LEASE_STATE_PENDING →
  dom (Leases (deliver (EndBlocker env) w)) = dom (Leases w) ∧
  (size (queue (deliver (EndBlocker env) w) u) + 100 ≤ size (queue w u))%nat.
Proof.
  intros HI (p & l & Hp & Hl & Ht) Hs. destruct (EndBlocker_total env w HI) as (p' & w2 & Hp' & E & [_ Hev] & HL & _).
  assert (p' = p) as -> by congruence. assert (Hd : deliver (EndBlocker env) w = w2) by (unfold deliver; by rewrite E). rewrite Hd in *. clear Hd E Hp'.
  assert (Hdom : dom (Leases w2) = dom (Leases w)).
  { apply set_eq. intros v. rewrite !elem_of_dom, HL. unfold expire_all. case_decide; [|done].
    destruct (Leases w !! v); split; eauto. }
  split; [done|]. pose proof (pending_before w w2 u Hev ltac:(eauto) Hs) as Hsw.
  assert (Ho : overdue env p w u = true).
  { unfold overdue. rewrite Hl in *. injection Hsw as ->. cbn. by apply Z.ltb_lt. }
  destruct (EndBlocker_queue env p w w2 u HL Ho) as [Hlen Hbef].
  { destruct (Leases w2 !! u) as [l2|]; [|done]. injection Hs as ?. eauto. }
  set (us := take 100 (overdue_leases env p w)) in *.
  assert (Hnd : NoDup us) by (eapply sublist_NoDup; [|apply sublist_take]; apply NoDup_filter, NoDup_sorted_keys).
  assert (Hpend : ∀ v, v ∈ us → ∃ k, Leases w !! v = Some k ∧ State k = LEASE_STATE_PENDING).
  { intros v Hv. eapply overdue_pending, elem_of_take_in, Hv. }
  rewrite <- Hlen, <- (size_list_to_set (C:=gset string) us Hnd), <- size_union.
  - apply subseteq_size. intros v [[[Hle Hv] Hd]%elem_of_filter|Hv%elem_of_list_to_set]%elem_of_union; apply elem_of_filter.
    + rewrite Hdom in Hd. split; [split; [done|]|done]. eapply pending_before; [done|by apply elem_of_dom|done].
    + destruct (Hpend v Hv) as (k & Hk & Hks). rewrite Hk. cbn. split; [split; [by apply Hbef|congruence]|apply elem_of_dom; eauto].
  - intros v [[_ Hv] _]%elem_of_filter Hu%elem_of_list_to_set. rewrite HL in Hv. unfold expire_all in Hv. rewrite decide_True in Hv by done.
    destruct (Leases w !! v); done.
Qed.

Lemma waits_drains u n now w now' w' :
  waits u n now w now' w' → BillingInv now w → is_Some (Leases w !! u) →
  State <$> Leases w' !! u = Some LEASE_STATE_PENDING →
  (size (queue w' u) + 100 * n ≤ size (queue w u) + size (overtaking w w' u))%nat.
Proof.
  induction 1 as [now w|n now w env w1 now' w' Hle Hs Hw IH|n now w env now' w' Hle Ht Hw IH]; intros HI Hu Hp; [lia| |].
  - destruct (step_kept env w w1) as [HI1 Hev]; [by eapply BillingInv_later|done|].
    destruct (steps_kept _ _ _ _ (waits_steps _ _ _ _ _ _ Hw) HI1) as (_ & _ & Hev').
    assert (Hu1 : is_Some (Leases w1 !! u)) by (destruct Hu as [l Hl]; destruct (Hev u l Hl) as (? & ? & _); eauto).
    specialize (IH HI1 Hu1 Hp). pose proof (overtaking_trans w w1 w' u Hev Hev').
    pose proof (subseteq_size _ _ (queue_grows w w1 u Hev)). pose proof (size_union_alt (queue w u) (overtaking w w1 u)).
    pose proof (subseteq_size (overtaking w w1 u ∖ queue w u) (overtaking w w1 u) ltac:(set_solver)). lia.
  - set (w1 := deliver (EndBlocker env) w) in *. assert (HIe : BillingInv (blockTime env) w) by by eapply BillingInv_later.
    destruct (step_kept env w w1) as [HI1 Hev]; [done|constructor|].
    destruct (steps_kept _ _ _ _ (waits_steps _ _ _ _ _ _ Hw) HI1) as (_ & _ & Hev').
    assert (Hu1 : is_Some (Leases w1 !! u)) by (destruct Hu as [l Hl]; destruct (Hev u l Hl) as (? & ? & _); eauto).
    specialize (IH HI1 Hu1 Hp).
    destruct (block_drains env w u HIe Ht) as [Hdom Hq]; [by eapply pending_before|]. fold w1 in Hdom, Hq.
    unfold overtaking in *. rewrite Hdom in IH. lia.
Qed.

(** C23 (liveness): a pending lease does not wait for ever. Take any steps from a reachable state, in
    which lease [u] is stored, and let [n] of them be end blocks at which the timeout of [u] is over
    (by the parameters of the moment). If a hundred leases per such block are enough for the pending
    leases that sort up to [u] at the start and for the leases created meanwhile that sort before it,
    then [u] is no longer pending at the end, whatever else happened in between. *)
Theorem pending_lease_resolved u n now w now' w' :
  reachable now w → is_Some (Leases w !! u) → waits u n now w now' w' →
  (size (queue w u) + size (overtaking w w' u) ≤ 100 * n)%nat →
  ∃ l', Leases w' !! u = Some l' ∧ State l' ≠ LEASE_STATE_PENDING.
Proof.
  intros Hr%reachable_inv Hu Hw Hn. destruct (steps_kept _ _ _ _ (waits_steps _ _ _ _ _ _ Hw) Hr) as (_ & _ & Hev).
  destruct Hu as [l Hl]. destruct (Hev u l Hl) as (l' & Hl' & _). exists l'. split; [done|]. intros Hs.
  assert (Hp : State <$> Leases w' !! u = Some LEASE_STATE_PENDING) by (rewrite Hl'; cbn; congruence).
  pose proof (waits_drains u n _ _ _ _ Hw Hr ltac:(eauto) Hp).
  assert (Hin : u ∈ queue w' u) by (apply elem_of_filter; split; [done|apply elem_of_dom; eauto]).
  assert (size (queue w' u) ≠ 0%nat) by (intros Hz%size_empty_inv; set_solver). lia.
Qed.
End ledger.

(** ** Witnesses: the demo run reaches its states *)

Lemma demo_fund_step : step demo_env demo_genesis demo_funded.
Proof.
  unfold demo_funded. rewrite <- deliver_unit. exact (step_billing demo_env (BFundCredit demo_fund) demo_genesis I).
Qed.

Lemma demo_create_step : step demo_env demo_funded demo_pending.
Proof.
  unfold demo_pending. rewrite <- deliver_unit.
  exact (step_billing demo_env (BCreateLease demo_create) demo_funded demo_create_admissible).
Qed.

Lemma demo_ack_step : step demo_env demo_pending demo_active.
Proof.
  unfold demo_active. rewrite <- deliver_unit. exact (step_billing demo_env (BAcknowledgeLease demo_ack) demo_pending I).
Qed.

Lemma demo_genesis_imported :
  Genesis_Validate DefaultGenesis = Ok tt ∧ genesis_sane DefaultGenesis ∧
  InitGenesis demo_env DefaultGenesis demo_blank = (Ok tt, demo_genesis).
Proof.
  split_and!; [vm_compute; reflexivity| |reflexivity].
  split; [apply DefaultParams_ok|vm_compute; discriminate|constructor..].
Qed.

Lemma demo_reachable w : steps (blockTime demo_env) demo_genesis (blockTime demo_env) w → reachable (blockTime demo_env) w.
Proof.
  intros Hst. destruct demo_genesis_imported as (? & ? & ?). exists demo_env, DefaultGenesis, demo_store, example_bank, demo_genesis.
  split_and!; [done..|apply demo_store_inv|vm_compute; reflexivity|done|done].
Qed.

Lemma demo_pending_steps : steps (blockTime demo_env) demo_genesis (blockTime demo_env) demo_pending.
Proof. eapply steps_snoc; [|done|apply demo_create_step]. eapply steps_snoc; [apply steps_refl|done|apply demo_fund_step]. Qed.

Lemma demo_pending_reachable : reachable (blockTime demo_env) demo_pending.
Proof. apply demo_reachable, demo_pending_steps. Qed.

Lemma demo_ack_steps : steps (blockTime demo_env) demo_pending (blockTime demo_env) demo_active.
Proof. eapply steps_step; [done|apply demo_ack_step|apply steps_refl]. Qed.

Lemma accounts_match_leases_witness :
  amt (ReservedAmounts demo_account) "umfx" = map_sum (resv_of "alice" "umfx") (Leases demo_pending).
Proof.
  destruct (accounts_match_leases _ _ _ _ demo_pending_reachable demo_account_stored) as (_ & _ & _ & Hr).
  exact (Hr "umfx"%string).
Defined.

Lemma live_leases_bounded_witness : ActiveLeaseCount demo_account + PendingLeaseCount demo_account ≤ 11000.
Proof. apply (live_leases_bounded _ _ _ _ demo_pending_reachable demo_account_stored). Defined.

Lemma leases_only_evolve_witness : ∃ l', Leases demo_active !! demo_lease_uuid = Some l' ∧ evolves demo_lease l'.
Proof.
  destruct (leases_only_evolve _ _ _ _ _ _ demo_pending_reachable demo_ack_steps demo_lease_stored) as (l' & Hl & He & _).
  exists l'. split; [exact Hl|exact He].
Defined.

(** In the active lease of the demo run alice puts a domain on the item "web". *)
Definition demo_set_domain : MsgSetItemCustomDomain :=
  mkMsgSetItemCustomDomain "alice" demo_lease_uuid "web" "shop.example.com".
Definition demo_domain : World := deliver (SetItemCustomDomain_msg demo_env demo_set_domain) demo_active.

Definition demo_domain_account : CreditAccount :=
  mkCreditAccount "alice" (AccAddress_String (DeriveCreditAddress "alice")) 1 0 [mkCoin "umfx" 7200].
Definition demo_domain_lease : Lease := set_item_domain 0 "shop.example.com" (acknowledged demo_env demo_lease).

Lemma demo_domain_steps : steps (blockTime demo_env) demo_genesis (blockTime demo_env) demo_domain.
Proof.
  eapply steps_snoc; [eapply steps_snoc; [apply demo_pending_steps|done|apply demo_ack_step]|done|].
  exact (step_billing demo_env (BSetItemCustomDomain demo_set_domain) demo_active I).
Qed.

Lemma demo_domain_reachable : reachable (blockTime demo_env) demo_domain.
Proof. apply demo_reachable, demo_domain_steps. Qed.

Lemma custom_domains_unique_witness : claims demo_domain demo_lease_uuid "web" "shop.example.com".
Proof.
  destruct (custom_domains_unique _ _ demo_domain_reachable) as [Hidx _].
  apply (Hidx "shop.example.com"%string (mkTarget demo_lease_uuid "web")). vm_compute. reflexivity.
Defined.

Lemma indexes_exact_witness :
  demo_lease_uuid ∈ sku_index_uuids demo_sku_uuid demo_pending ↔
  ∃ l, Leases demo_pending !! demo_lease_uuid = Some l ∧ demo_sku_uuid ∈ (item_SkuUuid <$> Items l).
Proof. apply (indexes_exact _ _ demo_pending_reachable). Defined.


(** An hour later the pending lease of the demo run has timed out; one end block is enough. *)
Lemma pending_lease_resolved_witness :
  ∃ l', Leases (deliver (EndBlocker demo_overdue) demo_pending) !! demo_lease_uuid = Some l' ∧ State l' ≠ LEASE_STATE_PENDING.
Proof.
  apply (pending_lease_resolved demo_lease_uuid 1 (blockTime demo_env) demo_pending (blockTime demo_overdue)).
  - apply demo_pending_reachable.
  - exists demo_lease. apply demo_lease_stored.
  - apply waits_block with (env := demo_overdue); [vm_compute; discriminate| |apply waits_refl].
    exists DefaultParams, demo_lease. split_and!; vm_compute; reflexivity.
  - apply Nat.leb_le. vm_compute. reflexivity.
Defined.

Lemma demo_domain_state :
  Leases demo_domain = {[demo_lease_uuid := demo_domain_lease]} ∧
  CreditAccounts demo_domain = {["alice"%string := demo_domain_account]} ∧ k_Params demo_domain = Some DefaultParams.
Proof. split_and!; vm_compute; reflexivity. Qed.

Lemma export_restarts_witness :
  ∃ gs, ExportGenesis demo_domain = (Ok gs, demo_domain) ∧ Genesis_Validate gs = Ok tt.
Proof.
  destruct demo_domain_state as (HL & HC & HP).
  destruct (export_restarts _ _ demo_domain_reachable) as (gs & He & Hv & _).
  - intros a ca. rewrite HC. intros [<- <-]%lookup_singleton_Some. apply alice_canonical.
  - intros p u l. rewrite HP, HL. intros [= <-] [<- <-]%lookup_singleton_Some i Hi Hne. vm_compute. reflexivity.
  - exists gs. split; [exact He|exact Hv].
Defined.

(** ** A reserved suffix added later *)

(** The authority reserves ".example.com" while alice's lease holds "shop.example.com". *)
Definition demo_reserve : MsgUpdateParams :=
  mkMsgUpdateParams (authority demo_env)
    (mkParams (MaxLeasesPerTenant DefaultParams) (AllowedList DefaultParams) (MaxItemsPerLease DefaultParams)
       (MinLeaseDuration DefaultParams) (MaxPendingLeasesPerTenant DefaultParams) (PendingTimeout DefaultParams)
       [".example.com"%string]).
Definition demo_reserved : World := deliver (UpdateParams demo_env demo_reserve) demo_domain.

Definition demo_export : GenesisState := Eval vm_compute in
  match (ExportGenesis demo_reserved).1 with Ok gs => gs | _ => DefaultGenesis end.

Lemma demo_reserved_reachable : reachable (blockTime demo_env) demo_reserved.
Proof.
  apply demo_reachable. eapply steps_snoc; [apply demo_domain_steps|done|]. unfold demo_reserved.
  apply (step_billing demo_env (BUpdateParams demo_reserve)). repeat constructor; vm_compute; discriminate.
Qed.

(** UpdateParams does not look at the domains already claimed, so a reachable state can hold a
    domain below a reserved suffix; its export is refused by Validate. *)
Example reserved_suffix_breaks_export :
  reachable (blockTime demo_env) demo_reserved ∧
  (ExportGenesis demo_reserved).1 = Ok demo_export ∧ Genesis_Validate demo_export = Err ErrInvalidCustomDomain ∧
  (InitGenesis demo_env demo_export demo_blank).1 = Ok tt.
Proof.
  split_and!.
  - apply demo_reserved_reachable.
  - vm_compute. reflexivity.
  - vm_compute. reflexivity.
  - vm_compute. reflexivity.
Qed.

Lemma export_validates_iff_witness :
  ∃ gs, ExportGenesis demo_reserved = (Ok gs, demo_reserved) ∧ Genesis_Validate gs ≠ Ok tt.
Proof.
  destruct (export_validates_iff _ _ demo_reserved_reachable) as (gs & He & _ & Hv).
  - intros a ca Hca. assert (HC : CreditAccounts demo_reserved = {["alice"%string := demo_domain_account]}) by (vm_compute; reflexivity).
    rewrite HC in Hca. apply lookup_singleton_Some in Hca as [<- <-]. apply alice_canonical.
  - exists gs. split; [exact He|]. intros Hok. apply (proj1 Hv) with (p := bp_Params demo_reserve) (u := demo_lease_uuid)
      (l := demo_domain_lease) (i := mkLeaseItem demo_sku_uuid 1 (mkCoin "umfx" 2) "web" "shop.example.com") in Hok.
    + vm_compute in Hok. discriminate.
    + vm_compute. reflexivity.
    + vm_compute. reflexivity.
    + vm_compute. left.
    + discriminate.
Defined.
