(* ===== verification/Refinement.v ===== *)
(** * The ledger implements the market

    The refinement: from every reachable state each billing message and the end blocker take the
    market of Market.v through a run of its own steps, and nothing else touches a contract. A history
    is the labels of these runs with the foreign bank changes between them; it accounts for every
    balance, and bounds what a lease is charged. *)

From stdpp Require Import base tactics option list strings gmap sorting fin_maps.
From Stdlib Require Import ZArith Lia.
From S2P Require Import Prelude Sdk SdkRef Uuid GoStd SkuTypes BillingTypes BillingMsgs SkuKeeper Credit Accrual Keeper LeaseStore Settlement Lifecycle Withdraw CustomDomain EndBlocker Genesis Invariant LifecycleInv Market CreateInv Scenario WithdrawInv ExpiryInv Handlers DomainInv Simulation GenesisInv Ledger.
Open Scope Z_scope.

(** ** What the machine guarantees *)

Section guarantee.
Context `{SL : SDKLaws}.
Implicit Types (m : market) (c : contract) (u d : string) (tr : list label).

(** A contract keeps its price and is settled forward; what it is charged is at most the rate times
    the whole seconds by which it moves. *)
Definition follows d (paid : Z) c c' : Prop :=
  c_items c' = c_items c ∧ c_since c ≤ c_since c' ∧ paid ≤ c_rate c d * ((c_since c' - c_since c) / Second).

Lemma follows_refl d c : follows d 0 c c.
Proof. unfold follows. rewrite Z.sub_diag. split_and!; [done|lia|]. change (0 / Second) with 0. lia. Qed.

Lemma follows_trans d x y c1 c2 c3 :
  0 ≤ c_rate c1 d → follows d x c1 c2 → follows d y c2 c3 → follows d (x + y) c1 c3.
Proof.
  intros Hr (Hi & Hs & Hx) (Hi' & Hs' & Hy). unfold follows.
  assert (Hc : c_rate c2 d = c_rate c1 d) by (unfold c_rate; by rewrite Hi). rewrite Hc in Hy.
  split_and!; [congruence|lia|].
  assert ((c_since c2 - c_since c1) / Second + (c_since c3 - c_since c2) / Second ≤ (c_since c3 - c_since c1) / Second); [|nia].
  unfold Second. Z.div_mod_to_equations. lia.
Qed.

Lemma charged_app u d tr1 tr2 : charged u d (tr1 ++ tr2) = charged u d tr1 + charged u d tr2.
Proof. apply lsum_app. Qed.

Lemma step_follows now x m m' u c d :
  market_step now x m m' → contracts m !! u = Some c → c_since c ≤ now → now - c_since c ≤ MaxDurationSeconds * Second →
  0 ≤ c_rate c d →
  ∃ c', contracts m' !! u = Some c' ∧ c_since c' ≤ now ∧ follows d (charged u d [x]) c c'.
Proof.
  intros Hst Hc Hle Hcap Hr.
  assert (Hsame : ∀ v c0 (K : gmap string contract), K !! u = (<[v := c0]> (contracts m)) !! u → v ≠ u →
    ∃ c', K !! u = Some c' ∧ c_since c' ≤ now ∧ follows d 0 c c').
  { intros v c0 K HK Hne. exists c. rewrite HK, lookup_insert_ne by done. split_and!; [done|done|apply follows_refl]. }
  assert (Hmove : ∀ s t, c_since c ≤ t ≤ now → follows d 0 c (with_state s t c)).
  { intros s t Ht. split_and!; [done|cbn; lia|cbn]. pose proof (Z.div_pos (t - c_since c) Second ltac:(lia) ltac:(unfold Second; lia)). nia. }
  destruct Hst as [v c0 a m m' Hv _ _ _ HK _ _|v c0 m m' Hv _ HK _|v c0 s m m' Hv _ _ HK _|v c0 a cs s m m' Hv _ _ _ _ Hdue _ HK|a y coin m m' HK _ _ _|m m' HK _];
    cbn [charged lsum]; rewrite ?Z.add_0_r.
  - apply (Hsame v c0); [by rewrite HK|congruence].
  - destruct (decide (v = u)) as [->|Hne]; [|apply (Hsame v (with_state LEASE_STATE_ACTIVE now c0)); [by rewrite HK|done]].
    assert (c0 = c) as -> by congruence. eexists. rewrite HK, lookup_insert_eq. split_and!; [done|cbn; lia|apply Hmove; lia].
  - destruct (decide (v = u)) as [->|Hne]; [|apply (Hsame v (with_state s (c_since c0) c0)); [by rewrite HK|done]].
    assert (c0 = c) as -> by congruence. eexists. rewrite HK, lookup_insert_eq. split_and!; [done|done|apply Hmove; lia].
  - destruct (decide (v = u)) as [->|Hne]; [|apply (Hsame v (with_state s now c0)); [by rewrite HK|done]].
    assert (c0 = c) as -> by congruence. eexists. rewrite HK, lookup_insert_eq. split_and!; [done|cbn; lia|]. split_and!; [done|done|cbn].
    assert (Hsec : c_seconds c now = (now - c_since c) / Second).
    { unfold c_seconds. rewrite billed_seconds_floor; [|done|unfold MaxDurationSeconds, Second, max_i64 in *; lia].
      pose proof (Z.div_pos (now - c_since c) Second ltac:(lia) ltac:(unfold Second; lia)). lia. }
    destruct Hdue as [_ Hdue]. rewrite Hdue, Hsec; [lia|]. rewrite Hsec. apply Z.div_le_upper_bound; [unfold Second; lia|lia].
  - exists c. rewrite HK. split_and!; [done|done|apply follows_refl].
  - exists c. rewrite HK. split_and!; [done|done|apply follows_refl].
Qed.

Lemma run_follows now tr m m' u c d :
  market_run now tr m m' → contracts m !! u = Some c → c_since c ≤ now → now - c_since c ≤ MaxDurationSeconds * Second →
  0 ≤ c_rate c d →
  ∃ c', contracts m' !! u = Some c' ∧ c_since c' ≤ now ∧ follows d (charged u d tr) c c'.
Proof.
  intros Hrun. revert c. induction Hrun as [m|x tr m1 m2 m3 Hst _ IH]; intros c Hc Hle Hcap Hr.
  { exists c. split_and!; [done|done|apply follows_refl]. }
  destruct (step_follows _ _ _ _ _ _ _ Hst Hc Hle Hcap Hr) as (c2 & Hc2 & Hle2 & Hf).
  assert (c_rate c2 d = c_rate c d) by (unfold c_rate; by rewrite (proj1 Hf)).
  destruct (IH c2 Hc2 Hle2) as (c3 & Hc3 & Hle3 & Hf3); [destruct Hf as (_ & ? & _); lia|lia|].
  exists c3. split_and!; [done|done|]. change (x :: tr) with ([x] ++ tr). rewrite charged_app. by eapply follows_trans.
Qed.

Lemma run_keeps now tr m m' u c :
  market_run now tr m m' → contracts m !! u = Some c →
  ∃ c', contracts m' !! u = Some c' ∧ c_tenant c' = c_tenant c ∧ c_items c' = c_items c.
Proof.
  intros Hrun. revert c. induction Hrun as [m|x tr m1 m2 m3 Hst _ IH]; intros c Hc; [by exists c|].
  assert (∃ c2, contracts m2 !! u = Some c2 ∧ c_tenant c2 = c_tenant c ∧ c_items c2 = c_items c) as (c2 & Hc2 & Ht & Hi).
  { destruct Hst as [v c0 a m m' Hv _ _ _ HK _ _|v c0 m m' Hv _ HK _|v c0 s m m' Hv _ _ HK _|v c0 a cs s m m' Hv _ _ _ _ _ _ HK|a y coin m m' HK _ _ _|m m' HK _];
      rewrite HK; try (by exists c); destruct (decide (v = u)) as [->|Hne]; rewrite ?lookup_insert_eq, ?lookup_insert_ne by done; simplify_eq; eauto. }
  destruct (IH c2 Hc2) as (c3 & Hc3 & Ht3 & Hi3). exists c3. split_and!; [done|congruence..].
Qed.

(** A contract that is not there yet is charged nothing, and is settled up to now when it appears. *)
Lemma step_fresh now x m m' u d :
  market_step now x m m' → contracts m !! u = None →
  charged u d [x] = 0 ∧ ∀ c, contracts m' !! u = Some c → c_since c = now.
Proof.
  intros Hst Hu.
  destruct Hst as [v c0 a m m' Hv _ Hs _ HK _ _|v c0 m m' Hv _ HK _|v c0 s m m' Hv _ _ HK _|v c0 a cs s m m' Hv _ _ _ _ _ _ HK|a y coin m m' HK _ _ _|m m' HK _];
    cbn [charged lsum]; rewrite ?HK;
    try (destruct (decide (v = u)) as [->|Hne]; [|rewrite lookup_insert_ne by done]); rewrite ?lookup_insert_eq; split; naive_solver.
Qed.

Lemma run_fresh now tr m m' u d :
  market_run now tr m m' → contracts m !! u = None → (∀ c, contracts m' !! u = Some c → 0 ≤ c_rate c d) →
  charged u d tr ≤ 0 ∧ ∀ c, contracts m' !! u = Some c → c_since c = now.
Proof.
  induction 1 as [m|x tr m1 m2 m3 Hst Hrun IH]; intros Hu Hr; [split; [done|congruence]|].
  destruct (step_fresh _ _ _ _ u d Hst Hu) as [H0 Hs]. change (x :: tr) with ([x] ++ tr). rewrite charged_app, H0.
  destruct (contracts m2 !! u) as [c2|] eqn:E2; [|by apply IH].
  specialize (Hs c2 eq_refl). destruct (run_keeps _ _ _ _ _ _ Hrun E2) as (c3 & Hc3 & _ & Hi).
  assert (Hr2 : 0 ≤ c_rate c2 d) by (unfold c_rate; rewrite <- Hi; by apply Hr).
  destruct (run_follows _ _ _ _ _ _ d Hrun E2) as (c4 & Hc4 & Hle & _ & Hge & Hp); [lia|unfold MaxDurationSeconds, Second; lia|done|].
  assert (Heq : c_since c4 = now) by lia. rewrite Heq, Hs, Z.sub_diag in Hp. change (0 / Second) with 0 in Hp.
  split; [lia|]. intros c Hc. congruence.
Qed.

(** ** Whose money a run moves *)

Definition c_credit c : option Addr := DeriveCreditAddress <$> AccAddressFromBech32 (c_tenant c).

(** What deposits take from [x], and what settlements of contracts paid from [x] take. *)
Definition sent (x : Addr) d tr : Z :=
  lsum (λ y, match y with Deposited s _ c => if decide (s = x) then coin_amt d c else 0 | _ => 0 end) tr.
Definition taken (K : gmap string contract) (x : Addr) d tr : Z :=
  lsum (λ y, match y with Settled u cs => if decide (K !! u ≫= c_credit = Some x) then amt cs d else 0 | _ => 0 end) tr.

Definition pays_as (K : gmap string contract) m : Prop := ∀ u c, contracts m !! u = Some c → K !! u ≫= c_credit = c_credit c.

Lemma step_balance now y m m' K x d :
  market_step now y m m' → pays_as K m → m_balance m x d - sent x d [y] - taken K x d [y] ≤ m_balance m' x d.
Proof.
  intros Hst HK. unfold sent, taken. cbn [lsum].
  destruct Hst as [v c0 a m m' Hv _ _ _ _ [_ HB] _|v c0 m m' Hv _ _ [_ HB]|v c0 s m m' Hv _ _ _ [_ HB]|v c0 a cs s m m' Hv _ _ _ Ha [Hdue _] [_ HB] _|a s coin m m' _ _ Hc HB|m m' _ [_ HB]];
    rewrite HB; try lia.
  - rewrite (HK v c0 Hv). unfold c_credit. rewrite Ha. cbn. pose proof (Hdue d). repeat case_decide; simplify_eq; lia.
  - unfold coin_amt. repeat case_decide; simplify_eq; lia.
Qed.

Lemma pays_as_back now tr m m' K : market_run now tr m m' → pays_as K m' → pays_as K m.
Proof.
  intros Hrun HK u c Hc. destruct (run_keeps _ _ _ _ _ _ Hrun Hc) as (c' & Hc' & Ht & _).
  rewrite (HK u c' Hc'). unfold c_credit. by rewrite Ht.
Qed.

Lemma run_balance now tr m m' K x d :
  market_run now tr m m' → pays_as K m' → m_balance m x d - sent x d tr - taken K x d tr ≤ m_balance m' x d.
Proof.
  induction 1 as [m|y tr m1 m2 m3 Hst Hrun IH]; intros HK; [unfold sent, taken; cbn; lia|].
  assert (H1 : pays_as K m1) by (eapply pays_as_back; [econstructor; done|done]).
  pose proof (step_balance _ _ _ _ _ x d Hst H1). specialize (IH HK). unfold sent, taken in *. cbn [lsum] in *. lia.
Qed.
End guarantee.

(** ** The refinement *)

Section refinement.
Context `{SL : SDKLaws} `{GL : GoStdLaws}.
Implicit Types (w : World) (env : Env).

(** Who deposits: the sender of a FundCredit, and nobody in any other message. *)
Definition payer (m : billing_msg) : option Addr :=
  match m with BFundCredit m => AccAddressFromBech32 (fc_Sender m) | _ => None end.

Lemma handle_sim env m w u w' :
  BillingInv (blockTime env) w → admissible env m w → handle env m w = (Ok u, w') → runs_by (blockTime env) (payer m) (abs w) (abs w').
Proof.
  intros HI Ha E. destruct m; cbn [handle admissible payer] in *; run_inv; destruct_and?; eauto 3 with market.
  - match goal with H : CreateLease _ _ _ = _ |- _ => apply CreateLease_created in H as [_ Hc]; [|done..] end. eauto with market.
  - match goal with H : CreateLeaseForTenant _ _ _ = _ |- _ => apply CreateLeaseForTenant_created in H as (_ & Hc & _); [|done..] end.
    eauto with market.
Qed.

Lemma deliver_sim env o (x : M World unit) w :
  (∀ u w', x w = (Ok u, w') → runs_by (blockTime env) o (abs w) (abs w')) →
  runs_by (blockTime env) o (abs w) (abs (deliver x w)).
Proof. intros Hx. unfold deliver. destruct (x w) as [[u|e|] w'] eqn:E; [by eapply Hx|reflexivity..]. Qed.

Lemma message_sim env m w :
  BillingInv (blockTime env) w → admissible env m w →
  runs_by (blockTime env) (payer m) (abs w) (abs (deliver (handle env m) w)).
Proof. intros HI Ha. apply deliver_sim. intros. by eapply handle_sim. Qed.

Lemma end_block_sim env w :
  BillingInv (blockTime env) w → runs_by (blockTime env) None (abs w) (abs (deliver (EndBlocker env) w)).
Proof. intros HI. apply deliver_sim. intros [] w' E. by eapply sim_end_block. Qed.

(** C2 (refinement): the program implements the market. From every reachable state, each billing
    message (successful or rolled back) and the end blocker take the abstract market through a finite
    run of its own steps: offers covered by the credit, acceptances, refusals of pending contracts,
    settlements that move exactly what accrued or what is left, deposits. The market knows nothing of
    the counters, reservations and indexes the program keeps; a sku message or a change of the bank
    by another module leaves every contract as it is. *)
Theorem ledger_refines_market now env w :
  reachable now w → now ≤ blockTime env →
  (∀ m, admissible env m w → runs (blockTime env) (abs w) (abs (deliver (handle env m) w))) ∧
  runs (blockTime env) (abs w) (abs (deliver (EndBlocker env) w)) ∧
  (∀ m, contracts (abs (set_sku (sku_deliver env m (sku w)) w)) = contracts (abs w)) ∧
  (∀ b, contracts (abs (set_bank b w)) = contracts (abs w)).
Proof.
  intros Hr%reachable_inv Hle. assert (HI : BillingInv (blockTime env) w) by by eapply BillingInv_later.
  split_and!; [| |done|done].
  - intros m Ha. by eapply runs_by_runs, message_sim.
  - by eapply runs_by_runs, end_block_sim.
Qed.

(** ** What a lease is charged *)

(** What explains one step of the ledger: a message or an end block is a run of the market with
    exact balances, in which only the sender of a FundCredit deposits; a foreign change of the bank
    is what it adds to each balance. *)
Inductive explained env : World → list label → (Addr → string → Z) → World → Prop :=
  | explained_message m w tr :
      admissible env m w → market_run (blockTime env) tr (abs w) (abs (deliver (handle env m) w)) →
      Forall (deposit_by (payer m)) tr → explained env w tr (λ _ _, 0) (deliver (handle env m) w)
  | explained_end_block w tr :
      market_run (blockTime env) tr (abs w) (abs (deliver (EndBlocker env) w)) →
      Forall (deposit_by None) tr → explained env w tr (λ _ _, 0) (deliver (EndBlocker env) w)
  | explained_sku m w :
      sku_msg_wf m → sku_fresh env m (sku w) → explained env w [] (λ _ _, 0) (set_sku (sku_deliver env m (sku w)) w)
  | explained_bank b w :
      explained env w [] (λ x d, GetBalance b x d - GetBalance (bank w) x d) (set_bank b w).

(** A history explains every step; [f] adds up the foreign changes of the balances. *)
Inductive history : Z → World → list label → (Addr → string → Z) → Z → World → Prop :=
  | history_refl now w : history now w [] (λ _ _, 0) now w
  | history_step now env w tr f w1 tr' f' now' w' :
      now ≤ blockTime env → explained env w tr f w1 → history (blockTime env) w1 tr' f' now' w' →
      history now w (tr ++ tr') (λ x d, f x d + f' x d) now' w'.

Lemma explained_step env w tr f w' : explained env w tr f w' → step env w w'.
Proof. intros []; by constructor. Qed.

Lemma history_steps now w tr f now' w' : history now w tr f now' w' → steps now w now' w'.
Proof. induction 1; [apply steps_refl|]. eapply steps_step; [done|by eapply explained_step|done]. Qed.

Lemma step_explained env w w' : BillingInv (blockTime env) w → step env w w' → ∃ tr f, explained env w tr f w'.
Proof.
  intros HI Hs. destruct Hs as [m v Ha|m v Hm Hf|v|b v].
  - destruct (message_sim env m v HI Ha) as (tr & Hrun & Hd). by exists tr, (λ _ _, 0); constructor.
  - by exists [], (λ _ _, 0); constructor.
  - destruct (end_block_sim env v HI) as (tr & Hrun & Hd). by exists tr, (λ _ _, 0); constructor.
  - eexists [], _. constructor.
Qed.

Lemma steps_history now w now' w' :
  steps now w now' w' → BillingInv now w → ∃ tr f, history now w tr f now' w'.
Proof.
  induction 1 as [now w|now w env w1 now' w' Hle Hs _ IH]; intros HI; [exists [], (λ _ _, 0); constructor|].
  assert (HI' : BillingInv (blockTime env) w) by by eapply BillingInv_later.
  destruct (IH (proj1 (step_kept env w w1 HI' Hs))) as (tr & f & Htr).
  destruct (step_explained env w w1 HI' Hs) as (tr0 & f0 & He). eexists _, _. by eapply history_step.
Qed.

(** Up to when [u] is settled in [w]; a lease that is not there yet starts at [now] at the earliest. *)
Definition settled_from now w (u : string) : Z :=
  match Leases w !! u with Some l => LastSettledAt l | None => now end.

(** A stretch in which [u] is charged [paid] at rate [r], settled from [t] to [t']. *)
Definition advances (r paid t t' : Z) : Prop := t ≤ t' ∧ paid ≤ r * ((t' - t) / Second).

Lemma advances_trans r x y t1 t2 t3 :
  0 ≤ r → advances r x t1 t2 → advances r y t2 t3 → advances r (x + y) t1 t3.
Proof.
  intros Hr [Ht Hx] [Ht' Hy]. split; [lia|].
  assert ((t2 - t1) / Second + (t3 - t2) / Second ≤ (t3 - t1) / Second); [|nia].
  unfold Second. Z.div_mod_to_equations. lia.
Qed.

Lemma advances_idle r t t' : 0 ≤ r → t ≤ t' → advances r 0 t t'.
Proof. intros Hr Ht. split; [done|]. pose proof (Z.div_pos (t' - t) Second ltac:(lia) ltac:(unfold Second; lia)). nia. Qed.

Lemma run_advances now t tr w w1 u d r :
  BillingInv now w → now ≤ t → market_run t tr (abs w) (abs w1) → 0 ≤ r →
  (∀ l, Leases w1 !! u = Some l → rate (Items l) d = r) → t - settled_from now w u ≤ MaxDurationSeconds * Second →
  advances r (charged u d tr) (settled_from now w u) (settled_from t w1 u).
Proof.
  intros HI Hle Hrun Hr Hrate Hcap. unfold settled_from in *. destruct (Leases w !! u) as [l|] eqn:El.
  - pose proof (abs_lookup w u l El) as Hc. destruct (run_keeps _ _ _ _ _ _ Hrun Hc) as (c1 & Hc1 & _ & Hi).
    pose proof (wf_time _ _ _ (I_leases _ _ _ HI u l El)) as [_ ?].
    cbn in Hc1. rewrite lookup_fmap in Hc1. destruct (Leases w1 !! u) as [l1|] eqn:El1; [|done]. injection Hc1 as <-.
    assert (Hcr : c_rate (abs_lease l) d = r) by (unfold c_rate; rewrite <- Hi; by rewrite <- (Hrate l1 eq_refl), <- c_rate_abs).
    destruct (run_follows _ _ _ _ _ _ d Hrun Hc) as (c2 & Hc2 & _ & _ & Hge & Hp); [cbn; lia|done|lia|].
    rewrite (abs_lookup w1 u l1 El1) in Hc2. injection Hc2 as <-. rewrite Hcr in Hp. by split.
  - assert (Hc : contracts (abs w) !! u = None) by (cbn; by rewrite lookup_fmap, El).
    destruct (run_fresh _ _ _ _ u d Hrun Hc) as [Hp Hs].
    { intros c Hc1. cbn in Hc1. rewrite lookup_fmap in Hc1. destruct (Leases w1 !! u) as [l1|]; [|done]. injection Hc1 as <-.
      by rewrite c_rate_abs, Hrate. }
    assert (Heq : match Leases w1 !! u with Some l => LastSettledAt l | None => t end = t).
    { destruct (Leases w1 !! u) as [l1|] eqn:El1; [|done]. by apply (Hs (abs_lease l1)), abs_lookup. }
    rewrite Heq. destruct (advances_idle r now t Hr Hle) as [? ?]. split; lia.
Qed.

Lemma settled_from_later now t w u r : BillingInv now w → now ≤ t → 0 ≤ r → advances r 0 (settled_from now w u) (settled_from t w u).
Proof. intros HI Hle Hr. apply advances_idle; [done|]. unfold settled_from. destruct (Leases w !! u); lia. Qed.

Lemma explained_advances now env w tr f w1 u d r :
  BillingInv now w → now ≤ blockTime env → explained env w tr f w1 → 0 ≤ r →
  (∀ l, Leases w1 !! u = Some l → rate (Items l) d = r) →
  blockTime env - settled_from now w u ≤ MaxDurationSeconds * Second →
  advances r (charged u d tr) (settled_from now w u) (settled_from (blockTime env) w1 u).
Proof.
  intros HI Hle He Hr Hrate Hcap. destruct He as [m v tr0 _ Hrun _|v tr0 Hrun _|m v _ _|b v];
    [by eapply run_advances..| |]; by apply (settled_from_later now (blockTime env) v).
Qed.

Lemma history_advances now w tr f now' w' u d r :
  history now w tr f now' w' → BillingInv now w → 0 ≤ r → (∀ l, Leases w' !! u = Some l → rate (Items l) d = r) →
  now' - settled_from now w u ≤ MaxDurationSeconds * Second →
  advances r (charged u d tr) (settled_from now w u) (settled_from now' w' u).
Proof.
  intros Hh HI Hr. revert HI. induction Hh as [n v|n env v tr f v1 tr' f' n' v' Hle He Hh IH]; intros HI Hrate Hcap.
  { by apply advances_idle. }
  assert (HI1 : BillingInv (blockTime env) v1).
  { eapply step_kept; [by eapply BillingInv_later|by eapply explained_step]. }
  destruct (steps_kept _ _ _ _ (history_steps _ _ _ _ _ _ Hh) HI1) as (Hn & _ & Hev). rewrite charged_app.
  assert (Ha : advances r (charged u d tr) (settled_from n v u) (settled_from (blockTime env) v1 u)).
  { eapply explained_advances; [done..| |lia]. intros l Hl. destruct (Hev u l Hl) as (l' & Hl' & Hlev).
    by rewrite <- (Hrate l' Hl'), (rate_evolves _ _ d Hlev). }
  eapply advances_trans; [done|exact Ha|]. apply IH; [done..|]. destruct Ha. lia.
Qed.

(** ** Whose money paid for it *)

(** The address the settlements of a lease draw on. *)
Definition credit_of (l : Lease) : option Addr := DeriveCreditAddress <$> AccAddressFromBech32 (Tenant l).

Lemma taken_charged (L : gmap string Lease) x d tr :
  (∀ u l, L !! u = Some l → Uuid l = u) →
  taken (abs_lease <$> L) x d tr = map_sum (λ l, if decide (credit_of l = Some x) then charged (Uuid l) d tr else 0) L.
Proof.
  intros Hu. induction tr as [|y tr IH].
  { cbn. rewrite (map_sum_ext _ (λ _, 0)); [by rewrite map_sum_zero|]. intros. by case_decide. }
  set (g tr l := if decide (credit_of l = Some x) then charged (Uuid l) d tr else 0).
  change (taken (abs_lease <$> L) x d ([y] ++ tr) = map_sum (g ([y] ++ tr)) L).
  rewrite (map_sum_ext (g ([y] ++ tr)) (λ l, g [y] l + g tr l) L), map_sum_add.
  2: { intros u l _. unfold g. case_decide; [|done]. apply charged_app. }
  unfold taken in *. rewrite lsum_app, IH. clear IH.
  f_equal. unfold g, charged. cbn [lsum]. destruct y as [| | |v cs| |];
    try (rewrite (map_sum_ext _ (λ _, 0)), map_sum_zero; [done|intros; by case_decide]).
  rewrite (map_sum_ext _ (λ l, if decide (v = Uuid l) then (if decide (credit_of l = Some x) then amt cs d else 0) else 0) L).
  2: { intros. repeat case_decide; lia. }
  rewrite (map_sum_only _ _ v), lookup_fmap.
  2: { intros u l Hl Hne. rewrite (Hu u l Hl), decide_False by done. done. }
  destruct (L !! v) as [l|] eqn:El; cbn; [|done]. rewrite (Hu v l El), (decide_True (P:=v = v)) by done.
  unfold c_credit, credit_of. cbn. lia.
Qed.

Lemma history_balance now w tr f now' w' x d :
  history now w tr f now' w' → BillingInv now w →
  GetBalance (bank w) x d + f x d - sent x d tr - taken (contracts (abs w')) x d tr ≤ GetBalance (bank w') x d.
Proof.
  intros Hh. induction Hh as [n v|n env v tr f v1 tr' f' n' v' Hle He Hh IH]; intros HI; [unfold sent, taken; cbn; lia|].
  assert (HI1 : BillingInv (blockTime env) v1).
  { eapply step_kept; [by eapply BillingInv_later|by eapply explained_step]. }
  destruct (steps_kept _ _ _ _ (history_steps _ _ _ _ _ _ Hh) HI1) as (_ & _ & Hev). specialize (IH HI1).
  assert (HK : pays_as (contracts (abs v')) (abs v1)).
  { intros u c Hc. cbn in *. rewrite lookup_fmap in *. destruct (Leases v1 !! u) as [l|] eqn:El; [|done]. injection Hc as <-.
    destruct (Hev u l El) as (l' & -> & Hlev). cbn. unfold c_credit. cbn. by rewrite (ev_tenant _ _ Hlev). }
  assert (Hsum : ∀ K, sent x d (tr ++ tr') = sent x d tr + sent x d tr' ∧ taken K x d (tr ++ tr') = taken K x d tr + taken K x d tr').
  { intros K. unfold sent, taken. by rewrite !lsum_app. }
  destruct (Hsum (contracts (abs v'))) as [-> ->].
  assert (GetBalance (bank v) x d + f x d - sent x d tr - taken (contracts (abs v')) x d tr ≤ GetBalance (bank v1) x d); [|lia].
  destruct He as [m v tr _ Hrun _|v tr Hrun _|m v _ _|b v].
  - pose proof (run_balance _ _ _ _ _ x d Hrun HK) as Hb. cbn in *. lia.
  - pose proof (run_balance _ _ _ _ _ x d Hrun HK) as Hb. cbn in *. lia.
  - unfold sent, taken. cbn. lia.
  - unfold sent, taken. cbn. lia.
Qed.

(** C3 (safety): no lease is ever overcharged. Whatever messages, blocks and foreign bank changes take
    one reachable state to a later one, every step is explained by a run of the market, and in every
    such explanation (1) no balance, in particular no tenant's credit, falls by more than the foreign
    changes [f], the deposits its own holder sent, and what the settlements of the leases drawn on
    that address are charged; (2) each lease keeps its price and all its settlements together are
    charged, in every denom, at most the locked rate times the whole seconds by which its settlement
    time advanced (counted from [now] when it was created later), for as long as it is not left
    unsettled for a hundred years. *)
Theorem lease_never_overcharged now w now' w' :
  reachable now w → steps now w now' w' →
  (∃ tr f, history now w tr f now' w') ∧
  ∀ tr f, history now w tr f now' w' →
    (∀ x d, GetBalance (bank w) x d + f x d - sent x d tr
            - map_sum (λ l, if decide (credit_of l = Some x) then charged (Uuid l) d tr else 0) (Leases w')
            ≤ GetBalance (bank w') x d) ∧
    (∀ u l, Leases w !! u = Some l → ∃ l', Leases w' !! u = Some l' ∧ ∀ d, rate (Items l') d = rate (Items l) d) ∧
    (∀ u l', Leases w' !! u = Some l' → now' - settled_from now w u ≤ MaxDurationSeconds * Second →
       settled_from now w u ≤ LastSettledAt l' ∧
       ∀ d, charged u d tr ≤ rate (Items l') d * ((LastSettledAt l' - settled_from now w u) / Second)).
Proof.
  intros Hr%reachable_inv Hst. split; [by apply steps_history|]. intros tr f Hh.
  destruct (steps_kept _ _ _ _ Hst Hr) as (_ & HI & Hev). split_and!.
  - intros x d. rewrite <- taken_charged; [by eapply history_balance|]. intros u l Hl. apply (I_leases _ _ _ HI u l Hl).
  - intros u l Hl. destruct (Hev u l Hl) as (l' & Hl' & He). exists l'. split; [done|]. intros d. by rewrite (rate_evolves _ _ d He).
  - intros u l' Hl' Hcap.
    assert (Ha : ∀ d, advances (rate (Items l') d) (charged u d tr) (settled_from now w u) (LastSettledAt l')).
    { intros d. assert (Heq : settled_from now' w' u = LastSettledAt l') by (unfold settled_from; by rewrite Hl'). rewrite <- Heq.
      eapply history_advances; [done|done|apply rate_nonneg, (I_leases _ _ _ HI u l' Hl')|naive_solver|done]. }
    split; [apply (Ha ""%string)|]. intros d. apply Ha.
Qed.
End refinement.

(** ** Witnesses: closing the active lease of the demo run after ten seconds *)

Lemma demo_active_reachable : reachable (blockTime demo_env) demo_active.
Proof. apply demo_reachable. eapply steps_snoc; [apply demo_pending_steps|done|apply demo_ack_step]. Qed.

Definition demo_closed : World := deliver (handle demo_later (BCloseLease demo_close)) demo_active.

Lemma demo_close_steps : steps (blockTime demo_env) demo_active (blockTime demo_later) demo_closed.
Proof.
  eapply steps_step; [|exact (step_billing demo_later (BCloseLease demo_close) demo_active I)|apply steps_refl].
  vm_compute. discriminate.
Qed.

Lemma ledger_refines_market_witness : runs (blockTime demo_later) (abs demo_active) (abs demo_closed).
Proof.
  destruct (ledger_refines_market (blockTime demo_env) demo_later demo_active demo_active_reachable) as [Hm _];
    [vm_compute; discriminate|].
  exact (Hm (BCloseLease demo_close) I).
Defined.

Lemma lease_never_overcharged_witness :
  ∃ tr f, history (blockTime demo_env) demo_active tr f (blockTime demo_later) demo_closed ∧
    charged demo_lease_uuid "umfx" tr ≤ 20 ∧
    GetBalance (bank demo_active) (DeriveCreditAddress "alice") "umfx" + f (DeriveCreditAddress "alice") "umfx"
      - sent (DeriveCreditAddress "alice") "umfx" tr - charged demo_lease_uuid "umfx" tr
      ≤ GetBalance (bank demo_closed) (DeriveCreditAddress "alice") "umfx".
Proof.
  destruct (lease_never_overcharged _ _ _ _ demo_active_reachable demo_close_steps) as [(tr & f & Hh) Hb].
  exists tr, f. split; [exact Hh|]. destruct (Hb tr f Hh) as (Hbal & _ & Hch). clear Hb. split.
  - set (v := (λ l, rate (Items l) "umfx" * ((LastSettledAt l - settled_from (blockTime demo_env) demo_active demo_lease_uuid) / Second))).
    assert (Hv : v <$> Leases demo_closed !! demo_lease_uuid = Some 20) by (vm_compute; reflexivity).
    destruct (Leases demo_closed !! demo_lease_uuid) as [l'|] eqn:El; [|discriminate]. injection Hv as Hv.
    destruct (Hch demo_lease_uuid l' El ltac:(vm_compute; discriminate)) as [_ Hd].
    rewrite <- Hv. exact (Hd "umfx"%string).
  - specialize (Hbal (DeriveCreditAddress "alice") "umfx"%string). revert Hbal.
    assert (HL : ∃ l, Leases demo_closed = {[demo_lease_uuid := l]} ∧ credit_of l = Some (DeriveCreditAddress "alice") ∧ Uuid l = demo_lease_uuid)
      by (eexists; split_and!; vm_compute; reflexivity).
    destruct HL as (l & -> & Hc & Hu). rewrite map_sum_singleton, Hc, Hu, decide_True by done. exact (λ H, H).
Defined.
