(* ===== verification/Transactions.v ===== *)
(** * Messages as bytes

    A transaction carries a message as the URL of its type and its bytes. This file composes the
    generated codecs with the message servers of Ledger.v: decoding is total and inverts encoding, and
    what it returns meets the conditions the ledger puts on typed messages, so a ledger fed with
    arbitrary bytes never leaves the states of the typed one. *)

From stdpp Require Import base tactics option list strings gmap.
From Stdlib Require Import ZArith Lia Ascii.
From S2P Require Import Prelude Sdk SdkRef Uuid GoStd SkuTypes BillingTypes BillingMsgs SkuKeeper Credit Accrual Keeper LeaseStore Settlement Lifecycle Withdraw CustomDomain EndBlocker Genesis Invariant LifecycleInv CreateInv Scenario WithdrawInv ExpiryInv DomainInv GenesisCheck GenesisInv GenesisExport Ledger Wire WireProps Codec Gogo BillingCodec SkuCodec BillingTxCodec.
Open Scope Z_scope.

(** The registered message types. *)
Inductive msg_url : Type :=
  | UFundCredit | UCreateLease | UCreateLeaseForTenant | UAcknowledgeLease | URejectLease | UCancelLease
  | UCloseLease | UWithdraw | USetItemCustomDomain | UUpdateParams
  | UCreateProvider | UUpdateProvider | UDeactivateProvider | UCreateSKU | UUpdateSKU | UDeactivateSKU
  | USkuUpdateParams.

Inductive tx_msg : Type := TBilling (m : billing_msg) | TSku (m : sku_msg).

Definition url_of (m : tx_msg) : msg_url :=
  match m with
  | TBilling (BFundCredit _) => UFundCredit
  | TBilling (BCreateLease _) => UCreateLease
  | TBilling (BCreateLeaseForTenant _) => UCreateLeaseForTenant
  | TBilling (BAcknowledgeLease _) => UAcknowledgeLease
  | TBilling (BRejectLease _) => URejectLease
  | TBilling (BCancelLease _) => UCancelLease
  | TBilling (BCloseLease _) => UCloseLease
  | TBilling (BWithdraw _) => UWithdraw
  | TBilling (BSetItemCustomDomain _) => USetItemCustomDomain
  | TBilling (BUpdateParams _) => UUpdateParams
  | TSku (SkuCreateProvider _) => UCreateProvider
  | TSku (SkuUpdateProvider _) => UUpdateProvider
  | TSku (SkuDeactivateProvider _) => UDeactivateProvider
  | TSku (SkuCreateSKU _) => UCreateSKU
  | TSku (SkuUpdateSKU _) => UUpdateSKU
  | TSku (SkuDeactivateSKU _) => UDeactivateSKU
  | TSku (SkuUpdateParams _) => USkuUpdateParams
  end.

(** A number that names no unit is refused as [UNIT_UNSPECIFIED] is: divisorForUnit has a case for neither. *)
Definition named_unit (n : Z) : Unit := default UNIT_UNSPECIFIED (Unit_of n).
Definition MsgCreateSKU_named (g : MsgCreateSKU * Z) : MsgCreateSKU :=
  let '(mkMsgCreateSKU a p n _ b h, u) := g in mkMsgCreateSKU a p n (named_unit u) b h.
Definition MsgUpdateSKU_named (g : MsgUpdateSKU * Z) : MsgUpdateSKU :=
  let '(mkMsgUpdateSKU a u p n _ b h t, v) := g in mkMsgUpdateSKU a u p n (named_unit v) b h t.

Section tx.
Context `{Gogo}.

Definition msg_Size (m : tx_msg) : Z :=
  match m with
  | TBilling (BFundCredit m) => MsgFundCredit_Size m
  | TBilling (BCreateLease m) => MsgCreateLease_Size m
  | TBilling (BCreateLeaseForTenant m) => MsgCreateLeaseForTenant_Size m
  | TBilling (BAcknowledgeLease m) => MsgAcknowledgeLease_Size m
  | TBilling (BRejectLease m) => MsgRejectLease_Size m
  | TBilling (BCancelLease m) => MsgCancelLease_Size m
  | TBilling (BCloseLease m) => MsgCloseLease_Size m
  | TBilling (BWithdraw m) => MsgWithdraw_Size m
  | TBilling (BSetItemCustomDomain m) => MsgSetItemCustomDomain_Size m
  | TBilling (BUpdateParams m) => MsgUpdateParams_Size m
  | TSku (SkuCreateProvider m) => MsgCreateProvider_Size m
  | TSku (SkuUpdateProvider m) => MsgUpdateProvider_Size m
  | TSku (SkuDeactivateProvider m) => MsgDeactivateProvider_Size m
  | TSku (SkuCreateSKU m) => MsgCreateSKU_Size m
  | TSku (SkuUpdateSKU m) => MsgUpdateSKU_Size m
  | TSku (SkuDeactivateSKU m) => MsgDeactivateSKU_Size m
  | TSku (SkuUpdateParams m) => SkuMsgUpdateParams_Size m
  end.

Definition msg_Marshal (m : tx_msg) : res bytes :=
  match m with
  | TBilling (BFundCredit m) => MsgFundCredit_Marshal m
  | TBilling (BCreateLease m) => MsgCreateLease_Marshal m
  | TBilling (BCreateLeaseForTenant m) => MsgCreateLeaseForTenant_Marshal m
  | TBilling (BAcknowledgeLease m) => MsgAcknowledgeLease_Marshal m
  | TBilling (BRejectLease m) => MsgRejectLease_Marshal m
  | TBilling (BCancelLease m) => MsgCancelLease_Marshal m
  | TBilling (BCloseLease m) => MsgCloseLease_Marshal m
  | TBilling (BWithdraw m) => MsgWithdraw_Marshal m
  | TBilling (BSetItemCustomDomain m) => MsgSetItemCustomDomain_Marshal m
  | TBilling (BUpdateParams m) => MsgUpdateParams_Marshal m
  | TSku (SkuCreateProvider m) => MsgCreateProvider_Marshal m
  | TSku (SkuUpdateProvider m) => MsgUpdateProvider_Marshal m
  | TSku (SkuDeactivateProvider m) => MsgDeactivateProvider_Marshal m
  | TSku (SkuCreateSKU m) => MsgCreateSKU_Marshal m
  | TSku (SkuUpdateSKU m) => MsgUpdateSKU_Marshal m
  | TSku (SkuDeactivateSKU m) => MsgDeactivateSKU_Marshal m
  | TSku (SkuUpdateParams m) => SkuMsgUpdateParams_Marshal m
  end.

Definition msg_Unmarshal (u : msg_url) (b : bytes) : res tx_msg :=
  match u with
  | UFundCredit => m ← MsgFundCredit_Unmarshal b; Ok (TBilling (BFundCredit m))
  | UCreateLease => m ← MsgCreateLease_Unmarshal b; Ok (TBilling (BCreateLease m))
  | UCreateLeaseForTenant => m ← MsgCreateLeaseForTenant_Unmarshal b; Ok (TBilling (BCreateLeaseForTenant m))
  | UAcknowledgeLease => m ← MsgAcknowledgeLease_Unmarshal b; Ok (TBilling (BAcknowledgeLease m))
  | URejectLease => m ← MsgRejectLease_Unmarshal b; Ok (TBilling (BRejectLease m))
  | UCancelLease => m ← MsgCancelLease_Unmarshal b; Ok (TBilling (BCancelLease m))
  | UCloseLease => m ← MsgCloseLease_Unmarshal b; Ok (TBilling (BCloseLease m))
  | UWithdraw => m ← MsgWithdraw_Unmarshal b; Ok (TBilling (BWithdraw m))
  | USetItemCustomDomain => m ← MsgSetItemCustomDomain_Unmarshal b; Ok (TBilling (BSetItemCustomDomain m))
  | UUpdateParams => m ← MsgUpdateParams_Unmarshal b; Ok (TBilling (BUpdateParams m))
  | UCreateProvider => m ← MsgCreateProvider_Unmarshal b; Ok (TSku (SkuCreateProvider m))
  | UUpdateProvider => m ← MsgUpdateProvider_Unmarshal b; Ok (TSku (SkuUpdateProvider m))
  | UDeactivateProvider => m ← MsgDeactivateProvider_Unmarshal b; Ok (TSku (SkuDeactivateProvider m))
  | UCreateSKU => m ← MsgCreateSKU_Unmarshal b; Ok (TSku (SkuCreateSKU (MsgCreateSKU_named m)))
  | UUpdateSKU => m ← MsgUpdateSKU_Unmarshal b; Ok (TSku (SkuUpdateSKU (MsgUpdateSKU_named m)))
  | UDeactivateSKU => m ← MsgDeactivateSKU_Unmarshal b; Ok (TSku (SkuDeactivateSKU m))
  | USkuUpdateParams => m ← SkuMsgUpdateParams_Unmarshal b; Ok (TSku (SkuUpdateParams m))
  end.
End tx.

(** The values a Go message of this type can hold. *)
Definition msg_fits (m : tx_msg) : Prop :=
  match m with
  | TBilling (BFundCredit m) => MsgFundCredit_fits m
  | TBilling (BCreateLease m) => MsgCreateLease_fits m
  | TBilling (BCreateLeaseForTenant m) => MsgCreateLeaseForTenant_fits m
  | TBilling (BWithdraw m) => MsgWithdraw_fits m
  | TBilling (BUpdateParams m) => MsgUpdateParams_fits m
  | TSku (SkuDeactivateProvider m) => MsgDeactivateProvider_fits m
  | TSku (SkuCreateSKU m) => MsgCreateSKU_fits m
  | TSku (SkuUpdateSKU m) => MsgUpdateSKU_fits m
  | _ => True
  end.

Section codecs.
Context `{GG : GogoLaws}.

Lemma named_unit_number u : named_unit (Unit_number u) = u.
Proof. by destruct u. Qed.

(** C17 (roundtrip): every message of the billing and the sku module survives the wire. If its integers
    fit their Go types and its encoding has at most 2^63 - 1 bytes, Marshal succeeds, fills exactly
    the Size bytes it allocated, and Unmarshal of these bytes under the same type returns the message. *)
Theorem messages_roundtrip m :
  msg_fits m → msg_Size m ≤ max_i64 → roundtrips (msg_Marshal m) (msg_Size m) (msg_Unmarshal (url_of m)) m.
Proof.
  intros Hf Hs.
  destruct m as [m|m]; destruct m as [m|m|m|m|m|m|m|m|m|m] || destruct m as [m|m|m|m|m|m|m];
    cbn [msg_fits msg_Size msg_Marshal msg_Unmarshal url_of] in *;
    (eapply roundtrips_map; [by apply lawful_roundtrip|]); try reflexivity.
  all: destruct m; cbn; by rewrite named_unit_number.
Qed.

(** C18 (safety): decoding a message never panics and always ends: for every message type and every
    string of at most 2^63 - 1 bytes, Unmarshal returns a message or an error. No index leaves the
    buffer, and the loops need no more rounds than there are bytes, whatever lengths, tags, groups or
    unknown fields the bytes claim. *)
Theorem decoding_total u b :
  llen b ≤ max_i64 → (∃ m, msg_Unmarshal u b = Ok m) ∨ (∃ e, msg_Unmarshal u b = Err e).
Proof. revert b. fold (returns (msg_Unmarshal u)). destruct u; apply returns_map, lawful_returns. Qed.
End codecs.

(** ** What decoding guarantees *)

Section decoded.
Context `{Gogo}.

Lemma Params_decoded b m m' : Params_fits m → unmarshal Params_switch b m = Ok m' → Params_fits m'.
Proof.
  apply unmarshal_keeps. unfold Params_fits. open_keeps; split_and!; cbn; try done; by eapply get_uint_range.
Qed.

Lemma Params_zero_fits : Params_fits Params_zero.
Proof. split_and!; done. Qed.

Lemma LeaseItemInput_decoded b m : LeaseItemInput_Unmarshal b = Ok m → LeaseItemInput_fits m.
Proof.
  apply unmarshal_keeps; [|done]. unfold LeaseItemInput_fits. open_keeps; try done. by eapply get_uint_range.
Qed.

Lemma snoc_decoded {A} (P : A → Prop) u l wt d i x j :
  (∀ b m, u b = Ok m → P m) → Forall P l → get_msg u wt d i = Ok (x, j) → Forall P (l ++ [x]).
Proof. intros Hu Hl [b Hb]%get_msg_from. apply Forall_app. split; [done|]. repeat constructor. by eapply Hu. Qed.

Lemma MsgCreateLease_decoded b m : MsgCreateLease_Unmarshal b = Ok m → MsgCreateLease_fits m.
Proof.
  apply unmarshal_keeps; [|by apply Forall_nil]. unfold MsgCreateLease_fits.
  open_keeps; try done. by eapply snoc_decoded; [apply LeaseItemInput_decoded|..].
Qed.

Lemma MsgCreateLeaseForTenant_decoded b m : MsgCreateLeaseForTenant_Unmarshal b = Ok m → MsgCreateLeaseForTenant_fits m.
Proof.
  apply unmarshal_keeps; [|by apply Forall_nil]. unfold MsgCreateLeaseForTenant_fits.
  open_keeps; try done. by eapply snoc_decoded; [apply LeaseItemInput_decoded|..].
Qed.

Lemma MsgUpdateParams_decoded b m : MsgUpdateParams_Unmarshal b = Ok m → MsgUpdateParams_fits m.
Proof.
  apply unmarshal_keeps; [|apply Params_zero_fits]. unfold MsgUpdateParams_fits.
  open_keeps; try done. edestruct @get_msg_from as [b' Hb']; [eassumption|]. by eapply Params_decoded; [|exact Hb'].
Qed.

Lemma MsgDeactivateProvider_decoded b m : MsgDeactivateProvider_Unmarshal b = Ok m → MsgDeactivateProvider_fits m.
Proof.
  apply unmarshal_keeps; [|done]. unfold MsgDeactivateProvider_fits. open_keeps; try done. by eapply get_uint_range.
Qed.
End decoded.

(** ** The ledger over bytes *)

Section wire_ledger.
Context `{SL : SDKLaws} `{GL : GoStdLaws} `{GG : Gogo}.
Implicit Types (w : World) (env : Env).

Definition deliver_msg env (m : tx_msg) w : World :=
  match m with
  | TBilling m => deliver (handle env m) w
  | TSku m => set_sku (sku_deliver env m (sku w)) w
  end.

(** BaseApp, which is not part of the repository, refuses bytes that do not decode. *)
Definition deliver_bytes env (u : msg_url) (b : bytes) w : World :=
  match msg_Unmarshal u b with Ok m => deliver_msg env m w | _ => w end.

(** What the codec cannot give: a new lease, provider or SKU gets an unused UUID, and the tenant of a
    new lease is written the way the SDK prints addresses. *)
Definition new_names env (m : tx_msg) w : Prop :=
  match m with
  | TBilling (BCreateLease m) => canonical (cl_Tenant m) ∧ fresh_lease env w
  | TBilling (BCreateLeaseForTenant m) => canonical (ct_Tenant m) ∧ fresh_lease env w
  | TSku m => sku_fresh env m (sku w)
  | _ => True
  end.

Inductive wire_step env : World → World → Prop :=
  | wire_tx u b w : (∀ m, msg_Unmarshal u b = Ok m → new_names env m w) → wire_step env w (deliver_bytes env u b w)
  | wire_end_block w : wire_step env w (deliver (EndBlocker env) w)
  | wire_bank b w : wire_step env w (set_bank b w).

Inductive wire_steps : Z → World → Z → World → Prop :=
  | wire_refl now w : wire_steps now w now w
  | wire_more now w env w1 now' w' :
      now ≤ blockTime env → wire_step env w w1 → wire_steps (blockTime env) w1 now' w' → wire_steps now w now' w'.

Lemma inputs_fit_u64 l : Forall LeaseItemInput_fits l → inputs_u64 l.
Proof. intros Hl. eapply Forall_impl; [exact Hl|]. unfold LeaseItemInput_fits, is_u64. lia. Qed.

Lemma params_fit_u64 p : Params_fits p → params_u64 p.
Proof. intros (? & ? & ? & ? & ?). repeat constructor; done || (unfold is_u64 in *; lia). Qed.

(** A decoded message is one that the typed ledger admits. *)
Lemma decoded_step env u b m w :
  msg_Unmarshal u b = Ok m → new_names env m w → step env w (deliver_msg env m w).
Proof.
  intros E Hn. destruct u; cbn [msg_Unmarshal] in E; run_inv; cbn [deliver_msg new_names] in *;
    first [apply step_billing | apply step_sku; [|exact Hn]]; cbn; try exact I.
  - destruct Hn. split_and!; [done| |done]. by eapply inputs_fit_u64, MsgCreateLease_decoded.
  - destruct Hn. split_and!; [done| |done]. by eapply inputs_fit_u64, MsgCreateLeaseForTenant_decoded.
  - by eapply params_fit_u64, MsgUpdateParams_decoded.
  - by eapply MsgDeactivateProvider_decoded.
Qed.

Lemma wire_step_typed env w w' : wire_step env w w' → step env w w'.
Proof.
  intros [u b v Hn|v|b v]; [|constructor..]. unfold deliver_bytes.
  assert (Hid : step env v v) by (pose proof (step_bank env (bank v) v) as Hb; by destruct v).
  destruct (msg_Unmarshal u b) as [m| |] eqn:E; [|done..]. by eapply decoded_step; [|apply Hn].
Qed.

Lemma wire_steps_typed now w now' w' : wire_steps now w now' w' → steps now w now' w'.
Proof.
  induction 1 as [|now w env w1 now' w' Hle Hs _ IH]; [apply steps_refl|].
  by eapply steps_step; [|apply wire_step_typed|].
Qed.

Lemma steps_app now w now1 w1 now2 w2 : steps now w now1 w1 → steps now1 w1 now2 w2 → steps now w now2 w2.
Proof. induction 1 as [|n v e v1 n' v' Hle Hst _ IH]; intros Hl; [done|]. by eapply steps_step; [| |apply IH]. Qed.

(** A chain that starts in a reachable state and is fed arbitrary bytes under any registered message type
    only reaches reachable states: what Unmarshal accepts meets every condition the typed ledger puts on
    messages (integers within uint64), and only the freshness of generated UUIDs and the spelling of a
    new tenant remain to be assumed. *)
Lemma byte_ledger_refines now w now' w' :
  reachable now w → wire_steps now w now' w' → reachable now' w'.
Proof.
  intros (env & gs & s & b & w0 & Hv & Hs & Hi & Ht & Hg & Hst) Hw%wire_steps_typed.
  exists env, gs, s, b, w0. split_and!; [done..|]. by eapply steps_app.
Qed.
End wire_ledger.

(** ** Witnesses *)

Definition demo_fund_bytes : bytes := Eval vm_compute in
  match msg_Marshal (TBilling (BFundCredit demo_fund)) with Ok b => b | _ => [] end.

(** The fields of the message, each with its tag and length; the coin is a message in turn. *)
Example demo_fund_on_the_wire : of_bytes (drop 2 (take 7 demo_fund_bytes)) = "alice"%string ∧ llen demo_fund_bytes = 29.
Proof. split; vm_compute; reflexivity. Qed.

Lemma messages_roundtrip_witness :
  ∃ b, msg_Marshal (TBilling (BFundCredit demo_fund)) = Ok b ∧
    msg_Unmarshal UFundCredit b = Ok (TBilling (BFundCredit demo_fund)).
Proof.
  destruct (messages_roundtrip (TBilling (BFundCredit demo_fund))) as (b & Hm & _ & Hu).
  - split; [split|]; vm_compute; first [reflexivity|discriminate].
  - vm_compute. discriminate.
  - exists b. split; [exact Hm|exact Hu].
Defined.

(** A length that points behind the end, and one that is negative as an int. *)
Lemma decoding_total_witness :
  ((∃ m, msg_Unmarshal UCloseLease (byte_of <$> [10; 200; 1; 97]) = Ok m) ∨
   (∃ e, msg_Unmarshal UCloseLease (byte_of <$> [10; 200; 1; 97]) = Err e)) ∧
  msg_Unmarshal UCloseLease (byte_of <$> [10; 200; 1; 97]) = Err (Wire ErrUnexpectedEOF) ∧
  msg_Unmarshal UCloseLease (byte_of <$> [10; 255; 255; 255; 255; 255; 255; 255; 255; 255; 1]) = Err (Wire ErrInvalidLength).
Proof.
  split; [|split; vm_compute; reflexivity].
  apply (decoding_total UCloseLease (byte_of <$> [10; 200; 1; 97])). vm_compute. discriminate.
Defined.

Lemma demo_genesis_reachable : reachable (blockTime demo_env) demo_genesis.
Proof. apply demo_reachable, steps_refl. Qed.

Lemma demo_fund_decodes : msg_Unmarshal UFundCredit demo_fund_bytes = Ok (TBilling (BFundCredit demo_fund)).
Proof. vm_compute. reflexivity. Qed.

Lemma demo_fund_delivered : deliver_bytes demo_env UFundCredit demo_fund_bytes demo_genesis = demo_funded.
Proof. unfold deliver_bytes. rewrite demo_fund_decodes. unfold demo_funded. rewrite <- deliver_unit. reflexivity. Qed.

Example demo_fund_bytes_reachable : reachable (blockTime demo_env) demo_funded.
Proof.
  rewrite <- demo_fund_delivered. apply (byte_ledger_refines _ _ _ _ demo_genesis_reachable).
  eapply wire_more; [apply Z.le_refl|apply wire_tx|apply wire_refl].
  intros m. rewrite demo_fund_decodes. intros [= <-]. exact I.
Defined.
