(* ===== verification/StoreCodec.v ===== *)
(** * Stored values as bytes

    The stores keep every value as the bytes of its message. The values of both modules survive Marshal
    and Unmarshal, and fields that a newer binary added are skipped. The migration of the billing store
    from v1 to v2 (src/x/billing/keeper/migrations.go) rewrites nothing. *)

From stdpp Require Import base tactics option list strings gmap.
From Stdlib Require Import ZArith Lia Ascii.
From S2P Require Import Prelude Sdk SdkRef GoStd SkuTypes BillingTypes SkuKeeper Credit Accrual Keeper LeaseStore Settlement Lifecycle CustomDomain Genesis Invariant LifecycleInv CreateInv Scenario DomainInv Wire WireProps Codec Unknown Gogo BillingCodec SkuCodec GenesisCodec.
Open Scope Z_scope.

(** ** The migration *)

(** [Migrator.Migrate1to2]. *)
Definition Migrate1to2 : W unit := mret tt.

Section store.
Context `{GG : GogoLaws}.

(** C16 (roundtrip): what the modules store survives the store. For the parameters, custom-domain
    targets, leases and credit accounts of the billing module, the parameters, providers and SKUs of the
    sku module and both genesis states: if the integers, amounts and times fit their Go types and the
    encoding has at most 2^63 - 1 bytes, Marshal succeeds, its result has exactly Size bytes, and
    Unmarshal returns the value (an enumeration as its number). *)
Theorem stored_values_roundtrip :
  (∀ m, Params_fits m → Params_Size m ≤ max_i64 → roundtrips (Params_Marshal m) (Params_Size m) Params_Unmarshal m) ∧
  (∀ m, Target_Size m ≤ max_i64 → roundtrips (Target_Marshal m) (Target_Size m) Target_Unmarshal m) ∧
  (∀ m, Lease_fits m → Lease_Size m ≤ max_i64 →
     roundtrips (Lease_Marshal m) (Lease_Size m) (λ b, g ← Lease_Unmarshal b; Ok (lease_of_go g)) (Some m)) ∧
  (∀ m, CreditAccount_fits m → CreditAccount_Size m ≤ max_i64 →
     roundtrips (CreditAccount_Marshal m) (CreditAccount_Size m) CreditAccount_Unmarshal m) ∧
  (∀ m, SkuParams_Size m ≤ max_i64 → roundtrips (SkuParams_Marshal m) (SkuParams_Size m) SkuParams_Unmarshal m) ∧
  (∀ m, Provider_Size m ≤ max_i64 → roundtrips (Provider_Marshal m) (Provider_Size m) Provider_Unmarshal m) ∧
  (∀ m, SKU_fits m → SKU_Size m ≤ max_i64 → roundtrips (SKU_Marshal m) (SKU_Size m) SKU_Unmarshal (SKU_go m)) ∧
  (∀ m, GenesisState_fits m → GenesisState_Size m ≤ max_i64 →
     roundtrips (GenesisState_Marshal m) (GenesisState_Size m) GenesisState_Unmarshal (GenesisState_go m)) ∧
  (∀ m, SkuGenesisState_fits m → SkuGenesisState_Size m ≤ max_i64 →
     roundtrips (SkuGenesisState_Marshal m) (SkuGenesisState_Size m) SkuGenesisState_Unmarshal (SkuGenesisState_go m)).
Proof.
  split_and!; intros m; intros; try by eapply lawful_roundtrip_as.
  eapply roundtrips_map; [by apply lawful_roundtrip|]. by rewrite lease_of_go_lease.
Qed.

(** C25 (equivalence): a binary that knows fewer fields reads what a newer one wrote. For every message
    the modules store and both genesis states: Marshal succeeds, and any sequence of fields with
    numbers above the last declared one (up to 2^29 - 1, of any wire type, groups among them) put
    before and behind the bytes it returns is skipped to its end and no further, so that Unmarshal
    returns the value, provided all the bytes together are at most 2^63 - 1. *)
Theorem unknown_fields_skipped :
  (∀ m, Params_fits m → skips_unknown 7 (Params_Marshal m) Params_Unmarshal m) ∧
  (∀ m, skips_unknown 2 (Target_Marshal m) Target_Unmarshal m) ∧
  (∀ m, Lease_fits m → skips_unknown 15 (Lease_Marshal m) (λ b, g ← Lease_Unmarshal b; Ok (lease_of_go g)) (Some m)) ∧
  (∀ m, CreditAccount_fits m → skips_unknown 5 (CreditAccount_Marshal m) CreditAccount_Unmarshal m) ∧
  (∀ m, skips_unknown 1 (SkuParams_Marshal m) SkuParams_Unmarshal m) ∧
  (∀ m, skips_unknown 6 (Provider_Marshal m) Provider_Unmarshal m) ∧
  (∀ m, SKU_fits m → skips_unknown 7 (SKU_Marshal m) SKU_Unmarshal (SKU_go m)) ∧
  (∀ m, GenesisState_fits m → skips_unknown 4 (GenesisState_Marshal m) GenesisState_Unmarshal (GenesisState_go m)) ∧
  (∀ m, SkuGenesisState_fits m →
     skips_unknown 5 (SkuGenesisState_Marshal m) SkuGenesisState_Unmarshal (SkuGenesisState_go m)).
Proof.
  split_and!; intros m; intros; try (eapply lawful_skips; [reflexivity|lia|intros ? ?; solve_not_known|done]).
  eapply skips_map; [eapply lawful_skips; [reflexivity|lia|intros ? ?; solve_not_known|done]|].
  by rewrite lease_of_go_lease.
Qed.
End store.

(** ** Witnesses *)

Lemma stored_values_roundtrip_witness :
  ∃ b, Lease_Marshal demo_lease = Ok b ∧ llen b = Lease_Size demo_lease ∧ (g ← Lease_Unmarshal b; Ok (lease_of_go g)) = Ok (Some demo_lease).
Proof.
  destruct stored_values_roundtrip as (_ & _ & Hlease & _). apply Hlease.
  - split; [|vm_compute; split; congruence..]. repeat constructor; vm_compute; congruence.
  - vm_compute. discriminate.
Defined.

(** Before the lease a field 16 with three bytes, behind it a group 1000 that holds a field 2. *)
Lemma unknown_fields_skipped_witness :
  ∃ b, Lease_Marshal demo_lease = Ok b ∧
    (g ← Lease_Unmarshal ((byte_of <$> [130; 1; 3; 1; 2; 3]) ++ b ++ (byte_of <$> [195; 62; 16; 5; 196; 62])); Ok (lease_of_go g)) =
      Ok (Some demo_lease).
Proof.
  destruct unknown_fields_skipped as (_ & _ & Hlease & _). destruct (Hlease demo_lease) as (b & Hb & Hu).
  - split; [|vm_compute; split; congruence..]. repeat constructor; vm_compute; congruence.
  - exists b. split; [exact Hb|]. apply Hu.
    + exists [byte_of <$> [130; 1; 3; 1; 2; 3]]. split; [reflexivity|]. constructor; [|constructor].
      exists 16. split; [lia|]. exact (raw_len 16 (byte_of <$> [1; 2; 3])).
    + exists [byte_of <$> [195; 62; 16; 5; 196; 62]]. split; [reflexivity|]. constructor; [|constructor].
      exists 1000. split; [lia|].
      assert (H5 : is_u64 5) by (split; vm_compute; congruence). assert (H2 : valid_number 2) by (split; reflexivity).
      exact (raw_group 1000 _ (raw_more 2 _ _ H2 (raw_varint 2 5 H5) raw_none)).
    + assert (Hs : Lease_Marshal demo_lease = Ok (Lease_wire demo_lease)) by (vm_compute; reflexivity).
      rewrite Hs in Hb. injection Hb as <-. vm_compute. discriminate.
Defined.
