(* ===== verification/Registry.v ===== *)
(** * The other generated messages: responses, queries and the messages of the manifest module

    A [generated] value is what the protobuf compiler generates for one message: the fields its Go type
    holds, the statements of MarshalToSizedBuffer, the sum of Size and the switch of Unmarshal.
    Transactions.v and StoreCodec.v have the messages that change and make up the state; this file
    lists the rest and shows that each survives the wire. *)

From stdpp Require Import base tactics option list strings.
From Stdlib Require Import ZArith Lia Ascii.
From S2P Require Import Prelude Sdk Manifest SkuTypes BillingTypes Keeper Withdraw Querier SkuQuerier Wire WireProps Codec Gogo Page SkuCodec BillingCodec BillingTxCodec ManifestCodec SkuQueryCodec BillingQueryCodec.
Open Scope Z_scope.

Record generated : Type := mkGenerated {
  g_message : Type;
  g_decoded : Type;
  g_fits : g_message → Prop;
  g_write : g_message → writer;
  g_Size : g_message → Z;
  g_wire : g_message → bytes;
  g_switch : Z → Z → bytes → Z → g_decoded → option (res (g_decoded * Z));
  g_zero : g_decoded;
  g_go : g_message → g_decoded }.

Definition g_Marshal (M : generated) (m : g_message M) : res bytes := marshal (g_Size M m) (g_write M m).
Definition g_Unmarshal (M : generated) (b : bytes) : res (g_decoded M) := unmarshal (g_switch M) b (g_zero M).

Definition g_lawful (M : generated) : Prop :=
  lawful (g_fits M) (g_write M) (g_Size M) (g_wire M) (g_switch M) (g_zero M) (g_go M).

Section registry.
Context `{GL : GogoLaws} `{PL : PageLaws}.

Definition tx_responses : list generated :=
  [ mkGenerated _ _ (λ _, True) Empty_write Empty_Size Empty_wire Empty_switch Empty_zero id;
    mkGenerated _ _ (λ _, True) MsgCreateProviderResponse_write MsgCreateProviderResponse_Size MsgCreateProviderResponse_wire
      MsgCreateProviderResponse_switch MsgCreateProviderResponse_zero id;
    mkGenerated _ _ MsgDeactivateProviderResponse_fits MsgDeactivateProviderResponse_write MsgDeactivateProviderResponse_Size MsgDeactivateProviderResponse_wire
      MsgDeactivateProviderResponse_switch MsgDeactivateProviderResponse_zero id;
    mkGenerated _ _ (λ _, True) MsgCreateSKUResponse_write MsgCreateSKUResponse_Size MsgCreateSKUResponse_wire
      MsgCreateSKUResponse_switch MsgCreateSKUResponse_zero id;
    mkGenerated _ _ MsgFundCreditResponse_fits MsgFundCreditResponse_write MsgFundCreditResponse_Size MsgFundCreditResponse_wire
      MsgFundCreditResponse_switch MsgFundCreditResponse_zero id;
    mkGenerated _ _ (λ _, True) MsgCreateLeaseResponse_write MsgCreateLeaseResponse_Size MsgCreateLeaseResponse_wire
      MsgCreateLeaseResponse_switch MsgCreateLeaseResponse_zero id;
    mkGenerated _ _ (λ _, True) MsgCreateLeaseForTenantResponse_write MsgCreateLeaseForTenantResponse_Size MsgCreateLeaseForTenantResponse_wire
      MsgCreateLeaseForTenantResponse_switch MsgCreateLeaseForTenantResponse_zero id;
    mkGenerated _ _ MsgCloseLeaseResponse_fits MsgCloseLeaseResponse_write MsgCloseLeaseResponse_Size MsgCloseLeaseResponse_wire
      MsgCloseLeaseResponse_switch MsgCloseLeaseResponse_zero id;
    mkGenerated _ _ MsgWithdrawResponse_fits MsgWithdrawResponse_write MsgWithdrawResponse_Size MsgWithdrawResponse_wire
      MsgWithdrawResponse_switch MsgWithdrawResponse_zero id;
    mkGenerated _ _ MsgAcknowledgeLeaseResponse_fits MsgAcknowledgeLeaseResponse_write MsgAcknowledgeLeaseResponse_Size MsgAcknowledgeLeaseResponse_wire
      MsgAcknowledgeLeaseResponse_switch MsgAcknowledgeLeaseResponse_zero id;
    mkGenerated _ _ MsgRejectLeaseResponse_fits MsgRejectLeaseResponse_write MsgRejectLeaseResponse_Size MsgRejectLeaseResponse_wire
      MsgRejectLeaseResponse_switch MsgRejectLeaseResponse_zero id;
    mkGenerated _ _ MsgCancelLeaseResponse_fits MsgCancelLeaseResponse_write MsgCancelLeaseResponse_Size MsgCancelLeaseResponse_wire
      MsgCancelLeaseResponse_switch MsgCancelLeaseResponse_zero id ].

Definition manifest_messages : list generated :=
  [ mkGenerated _ _ PayoutPair_fits PayoutPair_write PayoutPair_Size PayoutPair_wire
      PayoutPair_switch PayoutPair_zero id;
    mkGenerated _ _ MsgPayout_fits MsgPayout_write MsgPayout_Size MsgPayout_wire
      MsgPayout_switch MsgPayout_zero id;
    mkGenerated _ _ MsgBurnHeldBalance_fits MsgBurnHeldBalance_write MsgBurnHeldBalance_Size MsgBurnHeldBalance_wire
      MsgBurnHeldBalance_switch MsgBurnHeldBalance_zero id ].

Definition billing_queries : list generated :=
  [ mkGenerated _ _ QueryParamsResponse_fits QueryParamsResponse_write QueryParamsResponse_Size QueryParamsResponse_wire
      QueryParamsResponse_switch QueryParamsResponse_zero id;
    mkGenerated _ _ (λ _, True) QueryLeaseRequest_write QueryLeaseRequest_Size QueryLeaseRequest_wire
      QueryLeaseRequest_switch QueryLeaseRequest_zero id;
    mkGenerated _ _ QueryLeaseResponse_fits QueryLeaseResponse_write QueryLeaseResponse_Size QueryLeaseResponse_wire
      QueryLeaseResponse_switch QueryLeaseResponse_zero QueryLeaseResponse_go;
    mkGenerated _ _ QueryLeasesRequest_fits QueryLeasesRequest_write QueryLeasesRequest_Size QueryLeasesRequest_wire
      QueryLeasesRequest_switch QueryLeasesRequest_zero QueryLeasesRequest_go;
    mkGenerated _ _ QueryLeasesResponse_fits QueryLeasesResponse_write QueryLeasesResponse_Size QueryLeasesResponse_wire
      QueryLeasesResponse_switch QueryLeasesResponse_zero QueryLeasesResponse_go;
    mkGenerated _ _ QueryLeasesByTenantRequest_fits QueryLeasesByTenantRequest_write QueryLeasesByTenantRequest_Size QueryLeasesByTenantRequest_wire
      QueryLeasesByTenantRequest_switch QueryLeasesByTenantRequest_zero QueryLeasesByTenantRequest_go;
    mkGenerated _ _ QueryLeasesByTenantResponse_fits QueryLeasesByTenantResponse_write QueryLeasesByTenantResponse_Size QueryLeasesByTenantResponse_wire
      QueryLeasesByTenantResponse_switch QueryLeasesByTenantResponse_zero QueryLeasesByTenantResponse_go;
    mkGenerated _ _ QueryLeasesByProviderRequest_fits QueryLeasesByProviderRequest_write QueryLeasesByProviderRequest_Size QueryLeasesByProviderRequest_wire
      QueryLeasesByProviderRequest_switch QueryLeasesByProviderRequest_zero QueryLeasesByProviderRequest_go;
    mkGenerated _ _ QueryLeasesByProviderResponse_fits QueryLeasesByProviderResponse_write QueryLeasesByProviderResponse_Size QueryLeasesByProviderResponse_wire
      QueryLeasesByProviderResponse_switch QueryLeasesByProviderResponse_zero QueryLeasesByProviderResponse_go;
    mkGenerated _ _ (λ _, True) QueryCreditAccountRequest_write QueryCreditAccountRequest_Size QueryCreditAccountRequest_wire
      QueryCreditAccountRequest_switch QueryCreditAccountRequest_zero id;
    mkGenerated _ _ QueryCreditAccountResponse_fits QueryCreditAccountResponse_write QueryCreditAccountResponse_Size QueryCreditAccountResponse_wire
      QueryCreditAccountResponse_switch QueryCreditAccountResponse_zero id;
    mkGenerated _ _ (λ _, True) QueryCreditAddressRequest_write QueryCreditAddressRequest_Size QueryCreditAddressRequest_wire
      QueryCreditAddressRequest_switch QueryCreditAddressRequest_zero id;
    mkGenerated _ _ (λ _, True) QueryCreditAddressResponse_write QueryCreditAddressResponse_Size QueryCreditAddressResponse_wire
      QueryCreditAddressResponse_switch QueryCreditAddressResponse_zero id;
    mkGenerated _ _ (λ _, True) QueryWithdrawableAmountRequest_write QueryWithdrawableAmountRequest_Size QueryWithdrawableAmountRequest_wire
      QueryWithdrawableAmountRequest_switch QueryWithdrawableAmountRequest_zero id;
    mkGenerated _ _ QueryWithdrawableAmountResponse_fits QueryWithdrawableAmountResponse_write QueryWithdrawableAmountResponse_Size QueryWithdrawableAmountResponse_wire
      QueryWithdrawableAmountResponse_switch QueryWithdrawableAmountResponse_zero id;
    mkGenerated _ _ QueryProviderWithdrawableRequest_fits QueryProviderWithdrawableRequest_write QueryProviderWithdrawableRequest_Size QueryProviderWithdrawableRequest_wire
      QueryProviderWithdrawableRequest_switch QueryProviderWithdrawableRequest_zero id;
    mkGenerated _ _ QueryProviderWithdrawableResponse_fits QueryProviderWithdrawableResponse_write QueryProviderWithdrawableResponse_Size QueryProviderWithdrawableResponse_wire
      QueryProviderWithdrawableResponse_switch QueryProviderWithdrawableResponse_zero id;
    mkGenerated _ _ QueryCreditAccountsRequest_fits QueryCreditAccountsRequest_write QueryCreditAccountsRequest_Size QueryCreditAccountsRequest_wire
      QueryCreditAccountsRequest_switch QueryCreditAccountsRequest_zero id;
    mkGenerated _ _ QueryCreditAccountsResponse_fits QueryCreditAccountsResponse_write QueryCreditAccountsResponse_Size QueryCreditAccountsResponse_wire
      QueryCreditAccountsResponse_switch QueryCreditAccountsResponse_zero id;
    mkGenerated _ _ QueryLeasesBySKURequest_fits QueryLeasesBySKURequest_write QueryLeasesBySKURequest_Size QueryLeasesBySKURequest_wire
      QueryLeasesBySKURequest_switch QueryLeasesBySKURequest_zero QueryLeasesBySKURequest_go;
    mkGenerated _ _ QueryLeasesBySKUResponse_fits QueryLeasesBySKUResponse_write QueryLeasesBySKUResponse_Size QueryLeasesBySKUResponse_wire
      QueryLeasesBySKUResponse_switch QueryLeasesBySKUResponse_zero QueryLeasesBySKUResponse_go;
    mkGenerated _ _ (λ _, True) QueryCreditEstimateRequest_write QueryCreditEstimateRequest_Size QueryCreditEstimateRequest_wire
      QueryCreditEstimateRequest_switch QueryCreditEstimateRequest_zero id;
    mkGenerated _ _ QueryCreditEstimateResponse_fits QueryCreditEstimateResponse_write QueryCreditEstimateResponse_Size QueryCreditEstimateResponse_wire
      QueryCreditEstimateResponse_switch QueryCreditEstimateResponse_zero id;
    mkGenerated _ _ (λ _, True) QueryLeaseByCustomDomainRequest_write QueryLeaseByCustomDomainRequest_Size QueryLeaseByCustomDomainRequest_wire
      QueryLeaseByCustomDomainRequest_switch QueryLeaseByCustomDomainRequest_zero id;
    mkGenerated _ _ QueryLeaseByCustomDomainResponse_fits QueryLeaseByCustomDomainResponse_write QueryLeaseByCustomDomainResponse_Size QueryLeaseByCustomDomainResponse_wire
      QueryLeaseByCustomDomainResponse_switch QueryLeaseByCustomDomainResponse_zero QueryLeaseByCustomDomainResponse_go ].

Definition sku_queries : list generated :=
  [ mkGenerated _ _ (λ _, True) SkuQueryParamsResponse_write SkuQueryParamsResponse_Size SkuQueryParamsResponse_wire
      SkuQueryParamsResponse_switch SkuQueryParamsResponse_zero id;
    mkGenerated _ _ (λ _, True) QueryProviderRequest_write QueryProviderRequest_Size QueryProviderRequest_wire
      QueryProviderRequest_switch QueryProviderRequest_zero id;
    mkGenerated _ _ (λ _, True) QueryProviderResponse_write QueryProviderResponse_Size QueryProviderResponse_wire
      QueryProviderResponse_switch QueryProviderResponse_zero id;
    mkGenerated _ _ QueryProvidersRequest_fits QueryProvidersRequest_write QueryProvidersRequest_Size QueryProvidersRequest_wire
      QueryProvidersRequest_switch QueryProvidersRequest_zero id;
    mkGenerated _ _ QueryProvidersResponse_fits QueryProvidersResponse_write QueryProvidersResponse_Size QueryProvidersResponse_wire
      QueryProvidersResponse_switch QueryProvidersResponse_zero id;
    mkGenerated _ _ (λ _, True) QuerySKURequest_write QuerySKURequest_Size QuerySKURequest_wire
      QuerySKURequest_switch QuerySKURequest_zero id;
    mkGenerated _ _ QuerySKUResponse_fits QuerySKUResponse_write QuerySKUResponse_Size QuerySKUResponse_wire
      QuerySKUResponse_switch QuerySKUResponse_zero QuerySKUResponse_go;
    mkGenerated _ _ QuerySKUsRequest_fits QuerySKUsRequest_write QuerySKUsRequest_Size QuerySKUsRequest_wire
      QuerySKUsRequest_switch QuerySKUsRequest_zero id;
    mkGenerated _ _ QuerySKUsResponse_fits QuerySKUsResponse_write QuerySKUsResponse_Size QuerySKUsResponse_wire
      QuerySKUsResponse_switch QuerySKUsResponse_zero QuerySKUsResponse_go;
    mkGenerated _ _ QuerySKUsByProviderRequest_fits QuerySKUsByProviderRequest_write QuerySKUsByProviderRequest_Size QuerySKUsByProviderRequest_wire
      QuerySKUsByProviderRequest_switch QuerySKUsByProviderRequest_zero id;
    mkGenerated _ _ QuerySKUsByProviderResponse_fits QuerySKUsByProviderResponse_write QuerySKUsByProviderResponse_Size QuerySKUsByProviderResponse_wire
      QuerySKUsByProviderResponse_switch QuerySKUsByProviderResponse_zero QuerySKUsByProviderResponse_go;
    mkGenerated _ _ QueryProviderByAddressRequest_fits QueryProviderByAddressRequest_write QueryProviderByAddressRequest_Size QueryProviderByAddressRequest_wire
      QueryProviderByAddressRequest_switch QueryProviderByAddressRequest_zero id;
    mkGenerated _ _ QueryProviderByAddressResponse_fits QueryProviderByAddressResponse_write QueryProviderByAddressResponse_Size QueryProviderByAddressResponse_wire
      QueryProviderByAddressResponse_switch QueryProviderByAddressResponse_zero id ].

Definition messages : list generated := tx_responses ++ manifest_messages ++ billing_queries ++ sku_queries.

Lemma messages_lawful : Forall g_lawful messages.
Proof. repeat apply Forall_cons_2; try apply Forall_nil_2; unfold g_lawful; cbn; typeclasses eauto. Qed.

(** C30 (roundtrip): the responses of the billing and the sku module, the messages of the manifest module,
    and the requests and responses of every query survive the wire: Marshal succeeds and
    fills exactly Size bytes, Unmarshal of them returns the message; and Unmarshal returns, with a
    message or an error, on every string of at most 2^63 - 1 bytes. *)
Theorem queries_and_responses_roundtrip M :
  M ∈ messages →
  (∀ m, g_fits M m → g_Size M m ≤ max_i64 → roundtrips (g_Marshal M m) (g_Size M m) (g_Unmarshal M) (g_go M m)) ∧
  returns (g_Unmarshal M).
Proof.
  intros HM. pose proof (proj1 (Forall_forall _ _) messages_lawful M HM) as HL. unfold g_lawful in HL. split.
  - intros m. apply (lawful_roundtrip (L := HL)).
  - apply (lawful_returns (L := HL)).
Qed.
End registry.

(** ** Witness: the balance of a tenant, and a page of it that is cut short *)

Definition demo_balance : QueryCreditAccountResponse :=
  mkQueryCreditAccountResponse (mkCreditAccount "alice" "credit" 1 2 [mkCoin "umfx" 7200])
    [mkCoin "umfx" 20000] [mkCoin "umfx" 12800].

Definition balance_message : generated :=
  mkGenerated _ _ QueryCreditAccountResponse_fits QueryCreditAccountResponse_write QueryCreditAccountResponse_Size
    QueryCreditAccountResponse_wire QueryCreditAccountResponse_switch QueryCreditAccountResponse_zero id.

Lemma queries_and_responses_roundtrip_witness :
  roundtrips (QueryCreditAccountResponse_Marshal demo_balance) 65 QueryCreditAccountResponse_Unmarshal demo_balance ∧
  QueryCreditAccountResponse_Unmarshal (byte_of <$> [10; 7; 10]) = Err (Wire ErrUnexpectedEOF).
Proof.
  split; [|vm_compute; reflexivity].
  destruct (queries_and_responses_roundtrip balance_message) as [Hr _].
  - unfold messages. do 2 (apply elem_of_app; right). apply elem_of_app; left. do 10 apply list_elem_of_further. apply list_elem_of_here.
  - replace 65 with (g_Size balance_message demo_balance) by (vm_compute; reflexivity). apply (Hr demo_balance).
    + split_and!; repeat constructor; vm_compute; congruence.
    + vm_compute. discriminate.
Defined.
