(* ===== verification/Pulsar.v ===== *)
(** * The runtime of the API bindings (src/api/liftedinit/*/*.pulsar.go)

    protoc-gen-go-pulsar generates a second set of Go types for the same messages, with the methods
    size, marshal and unmarshal returned by ProtoMethods. They are as uniform as the marshalers of
    Wire.v, and differ from them in that sub-messages are pointers, that a field with an unknown
    number is kept, and that integers and sub-messages are handled by packages outside the
    repository: [Runtime] is what the bindings call of cosmos-proto and of google.golang.org/protobuf.
    This file has the statements the methods are made of, and [api_lawful], what a message owes. *)

From stdpp Require Import base tactics option list strings.
From Stdlib Require Import ZArith Lia Ascii.
From S2P Require Import Prelude Wire WireProps Codec Unknown.
Open Scope Z_scope.

(** A pointer to a message is an [option], [None] for nil. The [options] functions are called with a
    message and find its methods by ProtoReflect().ProtoMethods(); here they are given the method, and
    Unmarshal the empty message of its type. *)
Class Runtime : Type := {
  (* github.com/cosmos/cosmos-proto/runtime *)
  Sov : Z → Z;
  EncodeVarint : bytes → Z → Z → res (bytes * Z);
  Skip : bytes → res Z;
  (* proto.MarshalOptions and proto.UnmarshalOptions, the latter with DiscardUnknown *)
  options_Size : ∀ {M : Type}, (option M → Z) → option M → Z;
  options_Marshal : ∀ {M : Type}, (bytes → option M → res bytes) → option M → res bytes;
  options_Unmarshal : ∀ {M : Type}, M → (bool → bytes → option M → res (option M)) → bool → bytes → option M → res (option M);
}.

(** Sov is the length of a varint, EncodeVarint writes it before an index, Skip finds the end of a
    field; Size and Marshal run the methods that the message provides. So does Unmarshal into an empty
    message; into another one it may merge or start afresh (it resets the message unless Merge is
    set), and of that only is used that it does not panic where the method does not. *)
Class RuntimeLaws `(R : Runtime) : Prop := {
  Sov_varint v : is_u64 v → Sov v = llen (varint v);
  EncodeVarint_writes v : is_u64 v → writes (λ d i, EncodeVarint d i v) (varint v);
  Skip_raw num f rest : valid_number num → raw_field num f → llen (f ++ rest) ≤ max_i64 → Skip (f ++ rest) = Ok (llen f);
  Skip_safe b : llen b ≤ max_i64 → match Skip b with Ok n => 1 ≤ n ≤ max_i64 | Err _ => True | Panic => False end;
  Size_runs {M} (size : option M → Z) x : options_Size size x = size x;
  Marshal_runs {M} (marshal : bytes → option M → res bytes) x : options_Marshal marshal x = marshal [] x;
  Unmarshal_runs {M} new (unmarshal : bool → bytes → option M → res (option M)) discard b :
    options_Unmarshal new unmarshal discard b (Some new) = unmarshal discard b (Some new);
  Unmarshal_safe {M} new (unmarshal : bool → bytes → option M → res (option M)) discard b x :
    (∀ y, unmarshal discard b y ≠ Panic) → options_Unmarshal new unmarshal discard b x ≠ Panic;
}.

(** An instance, with the functions that the generated code of the modules has for the same purpose. *)
#[export] Instance ref_runtime : Runtime := {
  Sov := sov;
  EncodeVarint := encodeVarint;
  Skip := skip;
  options_Size M size x := size x;
  options_Marshal M marshal x := marshal [] x;
  options_Unmarshal M new unmarshal discard b x := unmarshal discard b ((λ _, new) <$> x);
}.

#[export] Instance ref_runtime_laws : RuntimeLaws ref_runtime.
Proof.
  split; try done.
  - intros v Hv. symmetry. by apply varint_length.
  - apply writes_encodeVarint.
  - intros num f rest Hn Hf. by apply (skip_raw num).
  - intros b Hb. cbn [Skip ref_runtime]. unfold skip. pose proof (skip_loop_safe (length b) b 0 0) as Hs.
    destruct (skip_loop _ _ _ _); try done; apply Hs; (lia || unfold llen; lia).
  - intros M new unmarshal discard b x Hu. apply Hu.
Qed.

(** ** Statements *)

Section rt.
Context `{Runtime}.

(** [i = runtime.EncodeVarint(dAtA, i, uint64(v)); i--; dAtA[i] = tag]. *)
Definition rt_put_uint (tag v : Z) : writer := λ dAtA i,
  '(dAtA, i) ← EncodeVarint dAtA i (wrap_u64 v);
  put_tag tag dAtA i.

(** [i -= len(s); copy(dAtA[i:], s)], then length and tag. *)
Definition rt_put_bytes (tag : Z) (s : string) : writer := λ dAtA i,
  let i := i - len s in
  dAtA ← copy_at dAtA i (to_bytes s);
  rt_put_uint tag (len s) dAtA i.

(** [encoded, err := options.Marshal(m)], then the bytes, length and tag. *)
Definition rt_put_msg (tag : Z) (marshaled : res bytes) : writer := λ dAtA i,
  encoded ← marshaled;
  let i := i - llen encoded in
  dAtA ← copy_at dAtA i encoded;
  rt_put_uint tag (llen encoded) dAtA i.

(** [if x.unknownFields != nil { i -= len(x.unknownFields); copy(dAtA[i:], x.unknownFields) }]. *)
Definition rt_put_unknown (unknownFields : bytes) : writer := λ dAtA i,
  let i := i - llen unknownFields in
  dAtA ← copy_at dAtA i unknownFields;
  Ok (dAtA, i).

(** The summands of size. *)
Definition rt_size_len (l : Z) : Z := 1 + l + Sov (wrap_u64 l).
Definition rt_size_str (s : string) : Z := if 0 <? len s then rt_size_len (len s) else 0.
Definition rt_size_num (v : Z) : Z := if v =? 0 then 0 else 1 + Sov (wrap_u64 v).

(** marshal: a nil message leaves the buffer, another one is appended to it. *)
Definition rt_marshal {M} (size : option M → Z) (write : M → writer) (buf : bytes) (x : option M) : res bytes :=
  match x with
  | None => Ok buf
  | Some m =>
      let dAtA := replicate (Z.to_nat (options_Size size x)) (byte_of 0) in
      '(dAtA, _) ← write m dAtA (llen dAtA);
      Ok (buf ++ dAtA)
  end.

(** A sub-message: [if x.F == nil { x.F = &T{} }; options.Unmarshal(dAtA[iNdEx:postIndex], x.F)]. *)
Definition rt_get_msg {M} (unmarshal : bool → bytes → option M → res (option M)) (new : M) (x : option M)
    (discard : bool) (wireType : Z) (dAtA : bytes) (iNdEx : Z) : res (option M * Z) :=
  '(field, iNdEx) ← get_field wireType dAtA iNdEx;
  x ← options_Unmarshal new unmarshal discard field (match x with None => Some new | Some _ => x end);
  Ok (x, iNdEx).

(** The default case of the switch: [keep] appends to x.unknownFields. *)
Definition rt_keep_unknown {M} (keep : bytes → M → M) (discard : bool) (dAtA : bytes) (preIndex : Z) (x : M) : res (M * Z) :=
  rest ← slice dAtA preIndex (llen dAtA);
  skippy ← Skip rest;
  if (skippy <? 0) || (wrap_i64 (preIndex + skippy) <? 0) then Err (Wire ErrInvalidLength) else
  if llen dAtA <? wrap_i64 (preIndex + skippy) then Err (Wire ErrUnexpectedEOF) else
  if discard then Ok (x, wrap_i64 (preIndex + skippy)) else
  field ← slice dAtA preIndex (wrap_i64 (preIndex + skippy));
  Ok (keep field x, wrap_i64 (preIndex + skippy)).

(** unmarshal: a nil message is left alone. *)
Definition rt_unmarshal {M} (switch : bool → Z → Z → bytes → Z → M → option (res (M * Z))) (keep : bytes → M → M)
    (discard : bool) (dAtA : bytes) (x : option M) : res (option M) :=
  match x with
  | None => Ok None
  | Some m => m ← unmarshal_with (switch discard) (rt_keep_unknown keep discard) dAtA m; Ok (Some m)
  end.
End rt.

(** ** Laws of a message *)

(** [wire] is the bytes of a message: its fields in the order of their numbers, then the unknown ones. *)
Record api_lawful {M : Type} (fits : M → Prop) (size : option M → Z) (marshal : bytes → option M → res bytes)
    (unmarshal : bool → bytes → option M → res (option M)) (wire : M → bytes) (new : M) : Prop := mkApiLawful {
  api_size m : fits m → size (Some m) = llen (wire m);
  api_marshal buf m : fits m → marshal buf (Some m) = Ok (buf ++ wire m);
  api_unmarshal m : fits m → llen (wire m) ≤ max_i64 → unmarshal false (wire m) (Some new) = Ok (Some m);
  api_total discard x : total (λ b, unmarshal discard b x) }.
Existing Class api_lawful.

(** Pointers to messages: nil only as the value of a single field. *)
Definition fits_opt {M} (fits : M → Prop) (o : option M) : Prop := from_option fits True o.
Definition fits_each {M} (fits : M → Prop) (l : list (option M)) : Prop := Forall (from_option fits False) l.
Definition wire_ptr {M} (wire : M → bytes) (o : option M) : bytes := from_option wire [] o.

#[global] Arguments fits_opt : simpl never.
#[global] Arguments fits_each : simpl never.
#[global] Arguments wire_ptr : simpl never.

Section statements.
Context `{RL : RuntimeLaws}.

Lemma writes_rt_uint tag v : writes (rt_put_uint tag v) (uint_field tag v).
Proof. exact (writes_andthen _ _ _ _ (EncodeVarint_writes _ (wrap_u64_range v)) (writes_tag tag)). Qed.

Lemma writes_rt_msg tag e : writes (rt_put_msg tag (Ok e)) (len_field tag e).
Proof.
  apply (writes_prefix _ _ _ _ (writes_rt_uint tag _)). intros pre hole post Hh. unfold rt_put_msg; cbn [mbind res_bind].
  apply llen_same_length in Hh as Hl. replace (llen pre + llen hole - llen e) with (llen pre) by lia. by rewrite copy_mid.
Qed.

Lemma writes_rt_bytes tag s : writes (rt_put_bytes tag s) (len_field tag (to_bytes s)).
Proof.
  pose proof (writes_rt_msg tag (to_bytes s)) as Hw. intros pre hole post Hh. specialize (Hw pre hole post Hh).
  unfold rt_put_msg in Hw; cbn [mbind res_bind] in Hw. by rewrite llen_to_bytes in Hw.
Qed.

Lemma writes_rt_unknown u : writes (rt_put_unknown u) u.
Proof.
  intros pre hole post Hh. unfold rt_put_unknown. apply llen_same_length in Hh as Hl.
  replace (llen pre + llen hole - llen u) with (llen pre) by lia. by rewrite copy_mid.
Qed.

Lemma writes_rt_enc_uint tag v : writes (if_nonzero v (rt_put_uint tag v)) (enc_uint tag v).
Proof. unfold if_nonzero, enc_uint. destruct (v =? 0); [apply writes_nothing|apply writes_rt_uint]. Qed.
Lemma writes_rt_enc_str tag s : writes (if_nonempty s (rt_put_bytes tag s)) (enc_str tag s).
Proof. unfold if_nonempty, enc_str. destruct (0 <? len s); [apply writes_rt_bytes|apply writes_nothing]. Qed.

Lemma rt_size_len_eq l : rt_size_len l = size_len l.
Proof. unfold rt_size_len, size_len. by rewrite Sov_varint, varint_length by auto with wire. Qed.
Lemma rt_size_str_eq s : rt_size_str s = size_str s.
Proof. unfold rt_size_str, size_str. by rewrite rt_size_len_eq. Qed.
Lemma rt_size_num_eq v : rt_size_num v = size_num v.
Proof. unfold rt_size_num, size_num, size_uint. by rewrite Sov_varint, varint_length by auto with wire. Qed.
Lemma rt_size_strings_eq l : size_each (λ s, rt_size_len (len s)) l = size_each (λ s, size_len (len s)) l.
Proof. unfold size_each. generalize 0. induction l as [|s l IH]; intros n; cbn; [done|]. by rewrite rt_size_len_eq, IH. Qed.

(** ** Unknown fields *)

Section unknown.
Context {M : Type} (switch : bool → Z → Z → bytes → Z → M → option (res (M * Z))) (keep : bytes → M → M).

Lemma keep_unknown_safe discard : default_safe (rt_keep_unknown keep discard).
Proof.
  intros d i x Hi Hd. unfold rt_keep_unknown. destruct (slice_ok d i (llen d)) as (rest & -> & Hr); [lia..|]. cbn [mbind res_bind].
  pose proof (Skip_safe rest ltac:(lia)) as Hs. destruct (Skip rest) as [k| |]; cbn [mbind res_bind]; [|done..].
  destruct (Z.ltb_spec k 0); [done|]. destruct (Z.ltb_spec (wrap_i64 (i + k)) 0); [done|]. cbn [orb].
  destruct (Z.ltb_spec (llen d) (wrap_i64 (i + k))); [done|]. destruct (wrap_i64_sum i k); [lia..| |lia].
  destruct discard; [cbn; lia|]. destruct (slice_ok d i (wrap_i64 (i + k))) as (f & -> & _); [lia..|]. cbn. lia.
Qed.

(** An unknown field is appended to those that are already kept. *)
Lemma parses_keep num f x : valid_number num → not_known (switch false) num → raw_field num f →
  parses (switch false) (rt_keep_unknown keep false) f x (keep f x).
Proof.
  intros Hn Hd Hf. destruct (raw_field_tag num f Hf) as (wt & payload & E & Hw & H4). destruct (field_tag_length num wt) as [Ht Hlt].
  split; [subst; by destruct (field_tag num wt); [cbn in Hlt; lia|]|].
  intros pre post Hl. unfold unmarshal_field.
  destruct (reads_tag num wt pre (payload ++ post) Hn Hw) as (t & Hg & Hwt & Hnum); [by subst; rewrite <- app_assoc in Hl|].
  rewrite (app_assoc (field_tag num wt)), <- E in Hg. rewrite Hg. cbn [mbind res_bind]. assert (0 < num) by apply Hn.
  rewrite Hwt, Hnum, (proj2 (Z.eqb_neq wt 4)), (proj2 (Z.leb_gt num 0)), Hd by lia.
  unfold rt_keep_unknown. pose proof (slice_mid pre (f ++ post) []) as Hs. rewrite app_nil_r, <- llen_app in Hs. rewrite Hs.
  cbn [mbind res_bind]. rewrite (llen_app pre) in Hl. pose proof (llen_nonneg pre). pose proof (llen_nonneg f).
  rewrite (Skip_raw num) by (done || lia). cbn [mbind res_bind]. rewrite llen_app in Hl. pose proof (llen_nonneg post).
  rewrite wrap_i64_id by (unfold min_i64; lia).
  rewrite (proj2 (Z.ltb_ge (llen f) 0)), (proj2 (Z.ltb_ge (_ + _) 0)) by lia. cbn [orb].
  rewrite (proj2 (Z.ltb_ge _ _)) by (rewrite !llen_app; lia). by rewrite slice_mid.
Qed.

Lemma decodes_unknown last (build : bytes → M) u : 0 ≤ last →
  (∀ num, last < num → not_known (switch false) num) → (∀ u f, keep f (build u) = build (u ++ f)) →
  unknown_fits last u → decodes_by (switch false) (rt_keep_unknown keep false) u (build []) (build u).
Proof.
  intros Hl Hd Hk (fs & -> & Hfs).
  enough (∀ seen, decodes_by (switch false) (rt_keep_unknown keep false) (concat fs) (build seen) (build (seen ++ concat fs))) as He
    by apply (He []).
  induction Hfs as [|f fs (num & Hn & Hf) Hfs IH]; intros seen; cbn [concat].
  - rewrite app_nil_r. apply decodes_nil.
  - eapply decodes_cons; [apply (parses_keep num); [unfold valid_number; lia|apply Hd; lia|done]|]. rewrite Hk, app_assoc. apply IH.
Qed.

(** ** Whole messages *)

Context (size : option M → Z) (write : M → writer) (wire : M → bytes) (fits : M → Prop) (new : M).

Lemma rt_marshal_ok buf m e : writes (write m) e → size (Some m) = llen e → rt_marshal size write buf (Some m) = Ok (buf ++ e).
Proof.
  intros Hw Hs. unfold rt_marshal. rewrite Size_runs, Hs, to_nat_llen.
  specialize (Hw [] (replicate (length e) (byte_of 0)) [] ltac:(by rewrite length_replicate)).
  cbn [app] in Hw. rewrite !app_nil_r in Hw. change (llen []) with 0 in Hw. rewrite Z.add_0_l in Hw. by rewrite Hw.
Qed.

Lemma make_lawful :
  (∀ m, fits m → writes (write m) (wire m)) → (∀ m, fits m → size (Some m) = llen (wire m)) →
  (∀ m, fits m → llen (wire m) ≤ max_i64 → decodes_by (switch false) (rt_keep_unknown keep false) (wire m) new m) →
  (∀ discard, switch_safe (switch discard)) →
  api_lawful fits size (rt_marshal size write) (rt_unmarshal switch keep) wire new.
Proof.
  intros Hw Hs Hd Hsafe. split; [done| | |].
  - intros buf m Hm. apply rt_marshal_ok; auto.
  - intros m Hm Hl. unfold rt_unmarshal. by rewrite (unmarshal_with_decodes _ _ _ _ _ (Hd m Hm Hl) Hl).
  - intros discard [x|] b Hb; [|done]. cbn.
    pose proof (unmarshal_with_total _ _ (Hsafe discard) (keep_unknown_safe discard) x b Hb) as Ht. cbv beta in Ht.
    by destruct (unmarshal_with _ _ b x).
Qed.
End unknown.

(** ** As a field, single or repeated *)

Section fields.
Context {M : Type} {fits : M → Prop} {size : option M → Z} {marshal : bytes → option M → res bytes}.
Context {unmarshal : bool → bytes → option M → res (option M)} {wire : M → bytes} {new : M}.
Context {L : api_lawful fits size marshal unmarshal wire new}.

Lemma writes_ptr tag e : from_option fits False e →
  writes (rt_put_msg tag (options_Marshal marshal e)) (len_field tag (wire_ptr wire e)).
Proof.
  destruct e as [m|]; [|done]. cbn. intros Hm. rewrite Marshal_runs, (api_marshal _ _ _ _ _ _ L) by done. apply writes_rt_msg.
Qed.
Lemma writes_api_opt tag o : fits_opt fits o →
  writes (if_some o (λ e, rt_put_msg tag (options_Marshal marshal (Some e)))) (enc_opt (λ e, len_field tag (wire e)) o).
Proof. intros Ho. apply writes_enc_opt. intros m ->. by apply (writes_ptr tag (Some m)). Qed.
Lemma writes_api_each tag l : fits_each fits l →
  writes (put_each (λ e, rt_put_msg tag (options_Marshal marshal e)) l) (enc_each (λ e, len_field tag (wire_ptr wire e)) l).
Proof. intros Hl. apply writes_enc_each. eapply Forall_impl; [exact Hl|]. apply writes_ptr. Qed.

Lemma size_ptr tag e : from_option fits False e → llen (len_field tag (wire_ptr wire e)) = rt_size_len (options_Size size e).
Proof.
  destruct e as [m|]; [|done]. cbn. intros Hm. by rewrite Size_runs, size_len_field, rt_size_len_eq, (api_size _ _ _ _ _ _ L).
Qed.
Lemma size_api_opt tag o : fits_opt fits o →
  llen (enc_opt (λ e, len_field tag (wire e)) o) = size_opt o (λ e, rt_size_len (options_Size size (Some e))).
Proof. intros Ho. apply size_opt_field. intros m ->. by apply (size_ptr tag (Some m)). Qed.
Lemma size_api_each tag l : fits_each fits l →
  llen (enc_each (λ e, len_field tag (wire_ptr wire e)) l) = size_each (λ e, rt_size_len (options_Size size e)) l.
Proof. intros Hl. apply size_each_field. eapply Forall_impl; [exact Hl|]. apply size_ptr. Qed.

Lemma reads_one tag m : fits_opt fits (Some m) → llen (len_field tag (wire m)) ≤ max_i64 →
  reads (rt_get_msg unmarshal new None false 2) (varint (wrap_u64 (llen (wire m))) ++ wire m) (Some m).
Proof.
  intros Hm Hl. pose proof (llen_len_field tag (wire m)).
  apply (reads_get_msg (λ f, options_Unmarshal new unmarshal false f (Some new))).
  rewrite Unmarshal_runs. apply (api_unmarshal _ _ _ _ _ _ L); [done|lia].
Qed.
Lemma reads_ptr tag e : from_option fits False e → llen (len_field tag (wire_ptr wire e)) ≤ max_i64 →
  reads (rt_get_msg unmarshal new None false 2) (varint (wrap_u64 (llen (wire_ptr wire e))) ++ wire_ptr wire e) e.
Proof.
  destruct e as [m|]; [apply reads_one|done].
Qed.
Lemma reads_each tag l e : fits_each fits l → llen (enc_each (λ e, len_field tag (wire_ptr wire e)) l) ≤ max_i64 → e ∈ l →
  reads (rt_get_msg unmarshal new None false 2) (varint (wrap_u64 (llen (wire_ptr wire e))) ++ wire_ptr wire e) e.
Proof.
  intros Hf Hl He. apply (reads_ptr tag); [by eapply Forall_forall in Hf|].
  pose proof (llen_each (λ e, len_field tag (wire_ptr wire e)) l e He). cbn in *. lia.
Qed.

Lemma safe_get_ptr discard x wt d i : 0 ≤ i ≤ llen d → llen d ≤ max_i64 →
  safe (i + 1) d (rt_get_msg unmarshal new x discard wt d i).
Proof.
  intros Hi Hd. apply (safe_get_msg (λ f, options_Unmarshal new unmarshal discard f (match x with None => Some new | Some _ => x end))); [|done..].
  intros b Hb. apply Unmarshal_safe. intros y. by apply (api_total _ _ _ _ _ _ L).
Qed.
End fields.
End statements.

#[export] Hint Resolve writes_rt_enc_uint writes_rt_enc_str writes_rt_bytes writes_rt_unknown writes_rt_uint : wire.
#[export] Hint Rewrite @rt_size_str_eq @rt_size_num_eq @rt_size_strings_eq using (by eauto with typeclass_instances) : wire_size.
#[export] Hint Extern 1 (writes (if_some _ (λ e, rt_put_msg _ (options_Marshal ?m (Some e)))) _) =>
  eapply (writes_api_opt (marshal := m)) : wire.
#[export] Hint Extern 1 (writes (put_each (λ e, rt_put_msg _ (options_Marshal ?m e)) _) _) =>
  eapply (writes_api_each (marshal := m)) : wire.
#[export] Hint Extern 1 (safe _ _ (rt_get_msg ?u _ _ _ _ _ _)) => eapply (safe_get_ptr (unmarshal := u)) : wire.

(** ** Automation *)

(** The methods of a message fit together. Left is the reading of its bytes. *)
Ltac api_size :=
  match goal with |- ?n = llen ?e => let hn := head_of n in let he := head_of e in unfold hn, he end;
  autorewrite with wire_size;
  repeat match goal with
  | |- context [llen (enc_opt (λ e, len_field _ (@?w e)) ?o)] => rewrite (size_api_opt (wire := w)) by auto with wire
  | |- context [llen (enc_each (λ e, len_field _ (wire_ptr ?w e)) ?l)] => rewrite (size_api_each (wire := w)) by auto with wire
  end; lia.
Ltac api_safe :=
  match goal with |- switch_safe ?f => let h := head_of f in unfold switch_safe, h end;
  intros num wt d i m Hi Hd;
  repeat match goal with
  | |- match (match ?x with _ => _ end) with _ => _ end => is_var x; destruct x; try done
  end;
  first [exact I|
    (eapply safe_mono; [apply Z.le_succ_diag_r|unfold Z.succ]);
    match goal with |- safe _ _ ?t => let h := head_of t in unfold h end; destruct m;
    (apply safe_bind; [auto with wire|intros; cbn; lia])].
Ltac solve_api :=
  match goal with |- api_lawful _ _ ?m ?u _ _ => let hm := head_of m in let hu := head_of u in unfold hm, hu end;
  apply make_lawful; [intros ?; open_fits; solve_writes|intros ?; open_fits; api_size| |intros ?; api_safe].
Ltac open_api Hl :=
  open_fits; intros Hl; cbn in *;
  match goal with |- decodes_by _ _ ?e ?z _ =>
    let he := head_of e in let hz := head_of z in unfold he, hz in * end; cbn in *.

(** The next field, as in Codec.v, through the definition of its case. *)
Ltac api_case :=
  let E := fresh "E" in
  intros ? ? ? E; match goal with |- ?t = _ => let h := head_of t in unfold h end;
  cbv beta iota zeta; match goal with |- Some ?t = _ => let h := head_of t in unfold h end;
  cbv beta iota zeta; rewrite E; reflexivity.
Ltac api_uint n :=
  last_or_app ltac:(eapply (decodes_uint _ _ n); [..|api_case]; [reflexivity|lia|solve [eauto with wire]|intros ->; reflexivity]).
Ltac api_enum n :=
  last_or_app ltac:(eapply (decodes_enum _ _ n); [..|api_case]; [reflexivity|lia|assumption|intros ->; reflexivity]).
Ltac api_bool n :=
  last_or_app ltac:(eapply (decodes_bool _ _ n); [..|api_case]; [reflexivity|lia|intros ->; reflexivity]).
Ltac api_string n :=
  last_or_app ltac:(eapply (decodes_str _ _ n _ _ get_string); [..|api_case]; [reflexivity|lia|apply reads_get_string|intros ->; reflexivity]).
Ltac api_bytes n :=
  last_or_app ltac:(eapply (decodes_str _ _ n _ _ get_bytes); [..|api_case]; [reflexivity|lia|apply reads_get_bytes|intros ->; reflexivity]).
Ltac api_strings n build :=
  last_or_app ltac:(eapply (decodes_each _ _ _ build); intros ? ? ?;
    eapply (decodes_len _ _ n _ _ get_string); [..|api_case]; [reflexivity|lia|apply reads_get_string]).
Ltac ptr_law lemma :=
  match goal with |- reads (rt_get_msg ?u _ _ _ _) _ _ =>
    let L := constr:(_ : api_lawful _ _ _ u _ _) in eapply (lemma _ _ _ _ _ _ _ _ _ L)
  end.
Ltac api_msg n u new build H :=
  last_or_app ltac:(apply (decodes_opt _ _ _ build); intros ? ->;
    eapply (decodes_len _ _ n _ _ (rt_get_msg u new None false)); [..|api_case];
    [reflexivity|lia|eapply (reads_one (unmarshal := u)); [eassumption|part_of H]]).
Ltac api_msgs n u new build H :=
  last_or_app ltac:(eapply (decodes_each _ _ _ build); intros ? ? ?;
    eapply (decodes_len _ _ n _ _ (rt_get_msg u new None false)); [..|api_case];
    [reflexivity|lia|eapply (reads_each (unmarshal := u)); [..|by eassumption]; [by auto with wire|part_of H]]).
Ltac api_unknown last build :=
  eapply (decodes_unknown _ _ last build); [lia|intros ? ?; first [intros ? ? ? ?; reflexivity|solve_not_known]|reflexivity|done].
