(* ===== verification/ApiExternal.v ===== *)
(** * Messages of other repositories in the API bindings

    cosmossdk.io/api/cosmos/base/v1beta1.Coin, google.protobuf.Timestamp and the pagination messages:
    their fields are those of their published definitions, their methods are parameters with the laws
    of a generated message. [ref_external] is an instance made of the same statements as the
    repository's own bindings. *)

From stdpp Require Import base tactics option list strings.
From Stdlib Require Import ZArith Lia Ascii.
From S2P Require Import Prelude Wire WireProps Codec Unknown Pulsar.
Open Scope Z_scope.

(** The last field of every message is unknownFields. *)
Record api_Coin : Type := mk_api_Coin { ac_Denom : string; ac_Amount : string; ac_unknownFields : bytes }.
Record api_Timestamp : Type := mk_api_Timestamp { at_Seconds : Z; at_Nanos : Z; at_unknownFields : bytes }.
Record api_PageRequest : Type := mk_api_PageRequest {
  ap_Key : string; ap_Offset : Z; ap_Limit : Z; ap_CountTotal : bool; ap_Reverse : bool; ap_unknownFields : bytes }.
Record api_PageResponse : Type := mk_api_PageResponse { ar_NextKey : string; ar_Total : Z; ar_unknownFields : bytes }.

Definition api_Coin_new : api_Coin := mk_api_Coin "" "" [].
Definition api_Timestamp_new : api_Timestamp := mk_api_Timestamp 0 0 [].
Definition api_PageRequest_new : api_PageRequest := mk_api_PageRequest "" 0 0 false false [].
Definition api_PageResponse_new : api_PageResponse := mk_api_PageResponse "" 0 [].

Class ApiExternal : Type := {
  api_Coin_size : option api_Coin → Z;
  api_Coin_marshal : bytes → option api_Coin → res bytes;
  api_Coin_unmarshal : bool → bytes → option api_Coin → res (option api_Coin);
  api_Timestamp_size : option api_Timestamp → Z;
  api_Timestamp_marshal : bytes → option api_Timestamp → res bytes;
  api_Timestamp_unmarshal : bool → bytes → option api_Timestamp → res (option api_Timestamp);
  api_PageRequest_size : option api_PageRequest → Z;
  api_PageRequest_marshal : bytes → option api_PageRequest → res bytes;
  api_PageRequest_unmarshal : bool → bytes → option api_PageRequest → res (option api_PageRequest);
  api_PageResponse_size : option api_PageResponse → Z;
  api_PageResponse_marshal : bytes → option api_PageResponse → res bytes;
  api_PageResponse_unmarshal : bool → bytes → option api_PageResponse → res (option api_PageResponse);
}.

(** The values that the Go fields hold. *)
Definition is_i32 (v : Z) : Prop := - 2 ^ 31 ≤ v < 2 ^ 31.
Definition is_i64 (v : Z) : Prop := min_i64 ≤ v ≤ max_i64.
Definition api_Coin_fits (m : api_Coin) : Prop := unknown_fits 2 (ac_unknownFields m).
Definition api_Timestamp_fits (m : api_Timestamp) : Prop :=
  is_i64 (at_Seconds m) ∧ is_i32 (at_Nanos m) ∧ unknown_fits 2 (at_unknownFields m).
Definition api_PageRequest_fits (m : api_PageRequest) : Prop :=
  is_u64 (ap_Offset m) ∧ is_u64 (ap_Limit m) ∧ unknown_fits 5 (ap_unknownFields m).
Definition api_PageResponse_fits (m : api_PageResponse) : Prop := is_u64 (ar_Total m) ∧ unknown_fits 2 (ar_unknownFields m).

(** What marshal returns for a new buffer. *)
Definition marshaled {M} (marshal : bytes → option M → res bytes) (m : M) : bytes :=
  match marshal [] (Some m) with Ok b => b | _ => [] end.

Section bytes_of.
Context `{ApiExternal}.
Definition api_Coin_wire : api_Coin → bytes := marshaled api_Coin_marshal.
Definition api_Timestamp_wire : api_Timestamp → bytes := marshaled api_Timestamp_marshal.
Definition api_PageRequest_wire : api_PageRequest → bytes := marshaled api_PageRequest_marshal.
Definition api_PageResponse_wire : api_PageResponse → bytes := marshaled api_PageResponse_marshal.
End bytes_of.

Class ExternalLaws `(E : ApiExternal) : Prop := {
  api_Coin_lawful :: api_lawful api_Coin_fits api_Coin_size api_Coin_marshal api_Coin_unmarshal api_Coin_wire api_Coin_new;
  api_Timestamp_lawful :: api_lawful api_Timestamp_fits api_Timestamp_size api_Timestamp_marshal api_Timestamp_unmarshal
    api_Timestamp_wire api_Timestamp_new;
  api_PageRequest_lawful :: api_lawful api_PageRequest_fits api_PageRequest_size api_PageRequest_marshal
    api_PageRequest_unmarshal api_PageRequest_wire api_PageRequest_new;
  api_PageResponse_lawful :: api_lawful api_PageResponse_fits api_PageResponse_size api_PageResponse_marshal
    api_PageResponse_unmarshal api_PageResponse_wire api_PageResponse_new;
}.

(** ** A reference instance *)

Module ref.
Section ref.
Context `{RL : RuntimeLaws}.

(** [x.F |= int64(b&0x7F) << shift]. *)
Definition get_int64 (wireType : Z) (dAtA : bytes) (iNdEx : Z) : res (Z * Z) :=
  if negb (wireType =? 0) then Err Plain else get_varint wrap_i64 dAtA iNdEx.

Definition coin_wire (x : api_Coin) : bytes :=
  enc_str 0xa (ac_Denom x) ++ enc_str 0x12 (ac_Amount x) ++ ac_unknownFields x.
Definition coin_size (x : option api_Coin) : Z :=
  match x with None => 0 | Some x => rt_size_str (ac_Denom x) + rt_size_str (ac_Amount x) + llen (ac_unknownFields x) end.
Definition coin_write (x : api_Coin) : writer :=
  rt_put_unknown (ac_unknownFields x) ;;>
  if_nonempty (ac_Amount x) (rt_put_bytes 0x12 (ac_Amount x)) ;;>
  if_nonempty (ac_Denom x) (rt_put_bytes 0xa (ac_Denom x)).
Definition coin_1 (wireType : Z) (dAtA : bytes) (iNdEx : Z) (x : api_Coin) : res (api_Coin * Z) :=
  let 'mk_api_Coin denom amount u := x in '(v, i) ← get_string wireType dAtA iNdEx; Ok (mk_api_Coin v amount u, i).
Definition coin_2 (wireType : Z) (dAtA : bytes) (iNdEx : Z) (x : api_Coin) : res (api_Coin * Z) :=
  let 'mk_api_Coin denom amount u := x in '(v, i) ← get_string wireType dAtA iNdEx; Ok (mk_api_Coin denom v u, i).
Definition coin_switch (discard : bool) (fieldNum wireType : Z) (dAtA : bytes) (iNdEx : Z) (x : api_Coin) :=
  match fieldNum with 1 => Some (coin_1 wireType dAtA iNdEx x) | 2 => Some (coin_2 wireType dAtA iNdEx x) | _ => None end.
Definition coin_keep (f : bytes) (x : api_Coin) : api_Coin :=
  let 'mk_api_Coin denom amount u := x in mk_api_Coin denom amount (u ++ f).
Definition coin_marshal := rt_marshal coin_size coin_write.
Definition coin_unmarshal := rt_unmarshal coin_switch coin_keep.

#[global] Instance coin_lawful : api_lawful api_Coin_fits coin_size coin_marshal coin_unmarshal coin_wire api_Coin_new.
Proof.
  solve_api. intros [denom amount u]; open_api Hl.
  api_string 1. api_string 2. api_unknown 2 (λ u, mk_api_Coin denom amount u).
Qed.

Definition time_wire (x : api_Timestamp) : bytes :=
  enc_uint 0x8 (at_Seconds x) ++ enc_uint 0x10 (at_Nanos x) ++ at_unknownFields x.
Definition time_size (x : option api_Timestamp) : Z :=
  match x with None => 0 | Some x => rt_size_num (at_Seconds x) + rt_size_num (at_Nanos x) + llen (at_unknownFields x) end.
Definition time_write (x : api_Timestamp) : writer :=
  rt_put_unknown (at_unknownFields x) ;;>
  if_nonzero (at_Nanos x) (rt_put_uint 0x10 (at_Nanos x)) ;;>
  if_nonzero (at_Seconds x) (rt_put_uint 0x8 (at_Seconds x)).
Definition time_1 (wireType : Z) (dAtA : bytes) (iNdEx : Z) (x : api_Timestamp) : res (api_Timestamp * Z) :=
  let 'mk_api_Timestamp s n u := x in '(v, i) ← get_int64 wireType dAtA iNdEx; Ok (mk_api_Timestamp v n u, i).
Definition time_2 (wireType : Z) (dAtA : bytes) (iNdEx : Z) (x : api_Timestamp) : res (api_Timestamp * Z) :=
  let 'mk_api_Timestamp s n u := x in '(v, i) ← get_enum wireType dAtA iNdEx; Ok (mk_api_Timestamp s v u, i).
Definition time_switch (discard : bool) (fieldNum wireType : Z) (dAtA : bytes) (iNdEx : Z) (x : api_Timestamp) :=
  match fieldNum with 1 => Some (time_1 wireType dAtA iNdEx x) | 2 => Some (time_2 wireType dAtA iNdEx x) | _ => None end.
Definition time_keep (f : bytes) (x : api_Timestamp) : api_Timestamp :=
  let 'mk_api_Timestamp s n u := x in mk_api_Timestamp s n (u ++ f).
Definition time_marshal := rt_marshal time_size time_write.
Definition time_unmarshal := rt_unmarshal time_switch time_keep.

Lemma reads_get_int64 v : is_i64 v → reads (get_int64 0) (varint (wrap_u64 v)) v.
Proof.
  intros Hv. assert (E : wrap_i64 (wrap_u64 v) = v).
  { rewrite <- (wrap_i64_id v Hv) at 2. apply (conv_ext _ _ i64_converts), (conv_mod _ _ u64_converts). }
  rewrite <- E at 2. apply (reads_varint 64 wrap_i64); auto with wire.
Qed.

Lemma safe_get_int64 wt d i : 0 ≤ i ≤ llen d → safe (i + 1) d (get_int64 wt d i).
Proof. intros. unfold get_int64. destruct (negb _); [done|by apply safe_get_varint]. Qed.
#[local] Hint Resolve safe_get_int64 : wire.

#[global] Instance time_lawful : api_lawful api_Timestamp_fits time_size time_marshal time_unmarshal time_wire api_Timestamp_new.
Proof.
  solve_api. intros [s n u]; open_api Hl. apply decodes_app with (m1 := mk_api_Timestamp s 0 []).
  - unfold enc_uint. destruct (Z.eqb_spec s 0) as [->|]; [apply decodes_nil|].
    eapply (decodes_field _ _ 1 0); [done|lia|lia|done|by apply reads_get_int64|api_case].
  - api_enum 2. api_unknown 2 (λ u, mk_api_Timestamp s n u).
Qed.

Definition request_wire (x : api_PageRequest) : bytes :=
  enc_str 0xa (ap_Key x) ++ enc_uint 0x10 (ap_Offset x) ++ enc_uint 0x18 (ap_Limit x) ++
  enc_bool 0x20 (ap_CountTotal x) ++ enc_bool 0x28 (ap_Reverse x) ++ ap_unknownFields x.
Definition request_size (x : option api_PageRequest) : Z :=
  match x with
  | None => 0
  | Some x => rt_size_str (ap_Key x) + rt_size_num (ap_Offset x) + rt_size_num (ap_Limit x) +
      size_bool (ap_CountTotal x) + size_bool (ap_Reverse x) + llen (ap_unknownFields x)
  end.
Definition request_write (x : api_PageRequest) : writer :=
  rt_put_unknown (ap_unknownFields x) ;;>
  if_true (ap_Reverse x) (put_bool 0x28 (ap_Reverse x)) ;;>
  if_true (ap_CountTotal x) (put_bool 0x20 (ap_CountTotal x)) ;;>
  if_nonzero (ap_Limit x) (rt_put_uint 0x18 (ap_Limit x)) ;;>
  if_nonzero (ap_Offset x) (rt_put_uint 0x10 (ap_Offset x)) ;;>
  if_nonempty (ap_Key x) (rt_put_bytes 0xa (ap_Key x)).
Definition request_1 (wireType : Z) (dAtA : bytes) (iNdEx : Z) (x : api_PageRequest) : res (api_PageRequest * Z) :=
  let 'mk_api_PageRequest k o l c r u := x in '(v, i) ← get_bytes wireType dAtA iNdEx; Ok (mk_api_PageRequest v o l c r u, i).
Definition request_2 (wireType : Z) (dAtA : bytes) (iNdEx : Z) (x : api_PageRequest) : res (api_PageRequest * Z) :=
  let 'mk_api_PageRequest k o l c r u := x in '(v, i) ← get_uint wireType dAtA iNdEx; Ok (mk_api_PageRequest k v l c r u, i).
Definition request_3 (wireType : Z) (dAtA : bytes) (iNdEx : Z) (x : api_PageRequest) : res (api_PageRequest * Z) :=
  let 'mk_api_PageRequest k o l c r u := x in '(v, i) ← get_uint wireType dAtA iNdEx; Ok (mk_api_PageRequest k o v c r u, i).
Definition request_4 (wireType : Z) (dAtA : bytes) (iNdEx : Z) (x : api_PageRequest) : res (api_PageRequest * Z) :=
  let 'mk_api_PageRequest k o l c r u := x in '(v, i) ← get_bool wireType dAtA iNdEx; Ok (mk_api_PageRequest k o l v r u, i).
Definition request_5 (wireType : Z) (dAtA : bytes) (iNdEx : Z) (x : api_PageRequest) : res (api_PageRequest * Z) :=
  let 'mk_api_PageRequest k o l c r u := x in '(v, i) ← get_bool wireType dAtA iNdEx; Ok (mk_api_PageRequest k o l c v u, i).
Definition request_switch (discard : bool) (fieldNum wireType : Z) (dAtA : bytes) (iNdEx : Z) (x : api_PageRequest) :=
  match fieldNum with
  | 1 => Some (request_1 wireType dAtA iNdEx x) | 2 => Some (request_2 wireType dAtA iNdEx x)
  | 3 => Some (request_3 wireType dAtA iNdEx x) | 4 => Some (request_4 wireType dAtA iNdEx x)
  | 5 => Some (request_5 wireType dAtA iNdEx x) | _ => None
  end.
Definition request_keep (f : bytes) (x : api_PageRequest) : api_PageRequest :=
  let 'mk_api_PageRequest k o l c r u := x in mk_api_PageRequest k o l c r (u ++ f).
Definition request_marshal := rt_marshal request_size request_write.
Definition request_unmarshal := rt_unmarshal request_switch request_keep.

#[global] Instance request_lawful :
  api_lawful api_PageRequest_fits request_size request_marshal request_unmarshal request_wire api_PageRequest_new.
Proof.
  solve_api. intros [k o l c r u]; open_api Hl.
  api_bytes 1. api_uint 2. api_uint 3. api_bool 4. api_bool 5. api_unknown 5 (λ u, mk_api_PageRequest k o l c r u).
Qed.

Definition response_wire (x : api_PageResponse) : bytes :=
  enc_str 0xa (ar_NextKey x) ++ enc_uint 0x10 (ar_Total x) ++ ar_unknownFields x.
Definition response_size (x : option api_PageResponse) : Z :=
  match x with None => 0 | Some x => rt_size_str (ar_NextKey x) + rt_size_num (ar_Total x) + llen (ar_unknownFields x) end.
Definition response_write (x : api_PageResponse) : writer :=
  rt_put_unknown (ar_unknownFields x) ;;>
  if_nonzero (ar_Total x) (rt_put_uint 0x10 (ar_Total x)) ;;>
  if_nonempty (ar_NextKey x) (rt_put_bytes 0xa (ar_NextKey x)).
Definition response_1 (wireType : Z) (dAtA : bytes) (iNdEx : Z) (x : api_PageResponse) : res (api_PageResponse * Z) :=
  let 'mk_api_PageResponse k t u := x in '(v, i) ← get_bytes wireType dAtA iNdEx; Ok (mk_api_PageResponse v t u, i).
Definition response_2 (wireType : Z) (dAtA : bytes) (iNdEx : Z) (x : api_PageResponse) : res (api_PageResponse * Z) :=
  let 'mk_api_PageResponse k t u := x in '(v, i) ← get_uint wireType dAtA iNdEx; Ok (mk_api_PageResponse k v u, i).
Definition response_switch (discard : bool) (fieldNum wireType : Z) (dAtA : bytes) (iNdEx : Z) (x : api_PageResponse) :=
  match fieldNum with
  | 1 => Some (response_1 wireType dAtA iNdEx x) | 2 => Some (response_2 wireType dAtA iNdEx x) | _ => None
  end.
Definition response_keep (f : bytes) (x : api_PageResponse) : api_PageResponse :=
  let 'mk_api_PageResponse k t u := x in mk_api_PageResponse k t (u ++ f).
Definition response_marshal := rt_marshal response_size response_write.
Definition response_unmarshal := rt_unmarshal response_switch response_keep.

#[global] Instance response_lawful :
  api_lawful api_PageResponse_fits response_size response_marshal response_unmarshal response_wire api_PageResponse_new.
Proof.
  solve_api. intros [k t u]; open_api Hl.
  api_bytes 1. api_uint 2. api_unknown 2 (λ u, mk_api_PageResponse k t u).
Qed.

(** A lawful message, with its bytes as what its own marshal returns. *)
Lemma lawful_marshaled {M fits size marshal unmarshal wire new} (L : @api_lawful M fits size marshal unmarshal wire new) :
  api_lawful fits size marshal unmarshal (marshaled marshal) new.
Proof.
  assert (E : ∀ m, fits m → marshaled marshal m = wire m)
    by (intros m Hm; unfold marshaled; by rewrite (api_marshal _ _ _ _ _ _ L)).
  split; [intros m Hm; rewrite E by done; by apply L|intros buf m Hm; rewrite E by done; by apply L
    |intros m Hm; rewrite E by done; by apply L|apply (api_total _ _ _ _ _ _ L)].
Qed.
End ref.
End ref.

#[export] Instance ref_external : ApiExternal := {
  api_Coin_size := ref.coin_size; api_Coin_marshal := ref.coin_marshal; api_Coin_unmarshal := ref.coin_unmarshal;
  api_Timestamp_size := ref.time_size; api_Timestamp_marshal := ref.time_marshal; api_Timestamp_unmarshal := ref.time_unmarshal;
  api_PageRequest_size := ref.request_size; api_PageRequest_marshal := ref.request_marshal;
  api_PageRequest_unmarshal := ref.request_unmarshal;
  api_PageResponse_size := ref.response_size; api_PageResponse_marshal := ref.response_marshal;
  api_PageResponse_unmarshal := ref.response_unmarshal;
}.

#[export] Instance ref_external_laws : ExternalLaws ref_external.
Proof.
  split; [apply (ref.lawful_marshaled ref.coin_lawful)|apply (ref.lawful_marshaled ref.time_lawful)
    |apply (ref.lawful_marshaled ref.request_lawful)|apply (ref.lawful_marshaled ref.response_lawful)].
Qed.
