(* ===== verification/ApiManifest.v ===== *)
(** * API bindings of the manifest module (src/api/liftedinit/manifest)

    For every message its fields and the closures size, marshal and unmarshal of ProtoMethods; a case
    of the switch of unmarshal is a definition of its own. At the end the proofs that each is lawful. *)

From stdpp Require Import base tactics option list strings.
From Stdlib Require Import ZArith Lia Ascii.
From S2P Require Import Prelude Wire WireProps Codec Unknown Pulsar ApiExternal.
Open Scope Z_scope.

(** ** Fields *)

Record manifestv1_PayoutPair : Type := mk_manifestv1_PayoutPair {
  manifestv1_PayoutPair_Address : string; manifestv1_PayoutPair_Coin : option api_Coin;
  manifestv1_PayoutPair_unknownFields : bytes }.

Definition manifestv1_PayoutPair_new : manifestv1_PayoutPair := mk_manifestv1_PayoutPair "" None [].

Record manifestv1_MsgPayout : Type := mk_manifestv1_MsgPayout {
  manifestv1_MsgPayout_Authority : string; manifestv1_MsgPayout_PayoutPairs : list (option manifestv1_PayoutPair);
  manifestv1_MsgPayout_unknownFields : bytes }.

Definition manifestv1_MsgPayout_new : manifestv1_MsgPayout := mk_manifestv1_MsgPayout "" [] [].

Record manifestv1_MsgPayoutResponse : Type := mk_manifestv1_MsgPayoutResponse {
  manifestv1_MsgPayoutResponse_unknownFields : bytes }.

Definition manifestv1_MsgPayoutResponse_new : manifestv1_MsgPayoutResponse := mk_manifestv1_MsgPayoutResponse [].

Record manifestv1_MsgBurnHeldBalance : Type := mk_manifestv1_MsgBurnHeldBalance {
  manifestv1_MsgBurnHeldBalance_Authority : string; manifestv1_MsgBurnHeldBalance_BurnCoins : list (option api_Coin);
  manifestv1_MsgBurnHeldBalance_unknownFields : bytes }.

Definition manifestv1_MsgBurnHeldBalance_new : manifestv1_MsgBurnHeldBalance := mk_manifestv1_MsgBurnHeldBalance "" []
  [].

Record manifestv1_MsgBurnHeldBalanceResponse : Type := mk_manifestv1_MsgBurnHeldBalanceResponse {
  manifestv1_MsgBurnHeldBalanceResponse_unknownFields : bytes }.

Definition manifestv1_MsgBurnHeldBalanceResponse_new : manifestv1_MsgBurnHeldBalanceResponse :=
  mk_manifestv1_MsgBurnHeldBalanceResponse [].

Record manifestv1_GenesisState : Type := mk_manifestv1_GenesisState {
  manifestv1_GenesisState_unknownFields : bytes }.

Definition manifestv1_GenesisState_new : manifestv1_GenesisState := mk_manifestv1_GenesisState [].

Record manifest_modulev1_Module : Type := mk_manifest_modulev1_Module {
  manifest_modulev1_Module_unknownFields : bytes }.

Definition manifest_modulev1_Module_new : manifest_modulev1_Module := mk_manifest_modulev1_Module [].

Section codec.
Context `{Runtime} `{ApiExternal}.

(** ** PayoutPair *)

Definition manifestv1_PayoutPair_size (x : option manifestv1_PayoutPair) : Z :=
  match x with
  | None => 0
  | Some x =>
      rt_size_str (manifestv1_PayoutPair_Address x) +
      size_opt (manifestv1_PayoutPair_Coin x) (λ e, rt_size_len (options_Size api_Coin_size (Some e))) +
      llen (manifestv1_PayoutPair_unknownFields x)
  end.

Definition manifestv1_PayoutPair_write (x : manifestv1_PayoutPair) : writer :=
  rt_put_unknown (manifestv1_PayoutPair_unknownFields x) ;;>
  if_some (manifestv1_PayoutPair_Coin x) (λ e, rt_put_msg 0x12 (options_Marshal api_Coin_marshal (Some e))) ;;>
  if_nonempty (manifestv1_PayoutPair_Address x) (rt_put_bytes 0xa (manifestv1_PayoutPair_Address x)).

Definition manifestv1_PayoutPair_marshal : bytes → option manifestv1_PayoutPair → res bytes := rt_marshal
  manifestv1_PayoutPair_size manifestv1_PayoutPair_write.

Definition manifestv1_PayoutPair_case_1 (discard : bool) (wireType : Z) (dAtA : bytes) (iNdEx : Z) (x :
    manifestv1_PayoutPair) : res (manifestv1_PayoutPair * Z) :=
  let 'mk_manifestv1_PayoutPair address coin u := x in
  '(v, iNdEx) ← get_string wireType dAtA iNdEx;
  Ok (mk_manifestv1_PayoutPair v coin u, iNdEx).

Definition manifestv1_PayoutPair_case_2 (discard : bool) (wireType : Z) (dAtA : bytes) (iNdEx : Z) (x :
    manifestv1_PayoutPair) : res (manifestv1_PayoutPair * Z) :=
  let 'mk_manifestv1_PayoutPair address coin u := x in
  '(v, iNdEx) ← rt_get_msg api_Coin_unmarshal api_Coin_new coin discard wireType dAtA iNdEx;
  Ok (mk_manifestv1_PayoutPair address v u, iNdEx).

Definition manifestv1_PayoutPair_switch (discard : bool) (fieldNum wireType : Z) (dAtA : bytes) (iNdEx : Z) (x :
    manifestv1_PayoutPair) : option (res (manifestv1_PayoutPair * Z)) :=
  match fieldNum with
  | 1 => Some (manifestv1_PayoutPair_case_1 discard wireType dAtA iNdEx x)
  | 2 => Some (manifestv1_PayoutPair_case_2 discard wireType dAtA iNdEx x)
  | _ => None
  end.

Definition manifestv1_PayoutPair_keep (f : bytes) (x : manifestv1_PayoutPair) : manifestv1_PayoutPair :=
  let 'mk_manifestv1_PayoutPair address coin u := x in mk_manifestv1_PayoutPair address coin (u ++ f).

Definition manifestv1_PayoutPair_unmarshal : bool → bytes → option manifestv1_PayoutPair → res (option
  manifestv1_PayoutPair) := rt_unmarshal manifestv1_PayoutPair_switch manifestv1_PayoutPair_keep.

Definition manifestv1_PayoutPair_wire (x : manifestv1_PayoutPair) : bytes :=
  enc_str 0xa (manifestv1_PayoutPair_Address x) ++
  enc_opt (λ e, len_field 0x12 (api_Coin_wire e)) (manifestv1_PayoutPair_Coin x) ++
  manifestv1_PayoutPair_unknownFields x.

(** ** MsgPayout *)

Definition manifestv1_MsgPayout_size (x : option manifestv1_MsgPayout) : Z :=
  match x with
  | None => 0
  | Some x =>
      rt_size_str (manifestv1_MsgPayout_Authority x) +
      size_each (λ e, rt_size_len (options_Size manifestv1_PayoutPair_size e)) (manifestv1_MsgPayout_PayoutPairs x) +
      llen (manifestv1_MsgPayout_unknownFields x)
  end.

Definition manifestv1_MsgPayout_write (x : manifestv1_MsgPayout) : writer :=
  rt_put_unknown (manifestv1_MsgPayout_unknownFields x) ;;>
  put_each (λ e, rt_put_msg 0x12 (options_Marshal manifestv1_PayoutPair_marshal e)) (manifestv1_MsgPayout_PayoutPairs x) ;;>
  if_nonempty (manifestv1_MsgPayout_Authority x) (rt_put_bytes 0xa (manifestv1_MsgPayout_Authority x)).

Definition manifestv1_MsgPayout_marshal : bytes → option manifestv1_MsgPayout → res bytes := rt_marshal
  manifestv1_MsgPayout_size manifestv1_MsgPayout_write.

Definition manifestv1_MsgPayout_case_1 (discard : bool) (wireType : Z) (dAtA : bytes) (iNdEx : Z) (x :
    manifestv1_MsgPayout) : res (manifestv1_MsgPayout * Z) :=
  let 'mk_manifestv1_MsgPayout authority payoutPairs u := x in
  '(v, iNdEx) ← get_string wireType dAtA iNdEx;
  Ok (mk_manifestv1_MsgPayout v payoutPairs u, iNdEx).

Definition manifestv1_MsgPayout_case_2 (discard : bool) (wireType : Z) (dAtA : bytes) (iNdEx : Z) (x :
    manifestv1_MsgPayout) : res (manifestv1_MsgPayout * Z) :=
  let 'mk_manifestv1_MsgPayout authority payoutPairs u := x in
  '(v, iNdEx) ← rt_get_msg manifestv1_PayoutPair_unmarshal manifestv1_PayoutPair_new None discard wireType dAtA iNdEx;
  Ok (mk_manifestv1_MsgPayout authority (payoutPairs ++ [v]) u, iNdEx).

Definition manifestv1_MsgPayout_switch (discard : bool) (fieldNum wireType : Z) (dAtA : bytes) (iNdEx : Z) (x :
    manifestv1_MsgPayout) : option (res (manifestv1_MsgPayout * Z)) :=
  match fieldNum with
  | 1 => Some (manifestv1_MsgPayout_case_1 discard wireType dAtA iNdEx x)
  | 2 => Some (manifestv1_MsgPayout_case_2 discard wireType dAtA iNdEx x)
  | _ => None
  end.

Definition manifestv1_MsgPayout_keep (f : bytes) (x : manifestv1_MsgPayout) : manifestv1_MsgPayout :=
  let 'mk_manifestv1_MsgPayout authority payoutPairs u := x in mk_manifestv1_MsgPayout authority payoutPairs (u ++ f).

Definition manifestv1_MsgPayout_unmarshal : bool → bytes → option manifestv1_MsgPayout → res (option
  manifestv1_MsgPayout) := rt_unmarshal manifestv1_MsgPayout_switch manifestv1_MsgPayout_keep.

Definition manifestv1_MsgPayout_wire (x : manifestv1_MsgPayout) : bytes :=
  enc_str 0xa (manifestv1_MsgPayout_Authority x) ++
  enc_each (λ e, len_field 0x12 (wire_ptr manifestv1_PayoutPair_wire e)) (manifestv1_MsgPayout_PayoutPairs x) ++
  manifestv1_MsgPayout_unknownFields x.

(** ** MsgPayoutResponse *)

Definition manifestv1_MsgPayoutResponse_size (x : option manifestv1_MsgPayoutResponse) : Z :=
  match x with
  | None => 0
  | Some x =>
      llen (manifestv1_MsgPayoutResponse_unknownFields x)
  end.

Definition manifestv1_MsgPayoutResponse_write (x : manifestv1_MsgPayoutResponse) : writer :=
  rt_put_unknown (manifestv1_MsgPayoutResponse_unknownFields x).

Definition manifestv1_MsgPayoutResponse_marshal : bytes → option manifestv1_MsgPayoutResponse → res bytes :=
  rt_marshal manifestv1_MsgPayoutResponse_size manifestv1_MsgPayoutResponse_write.

Definition manifestv1_MsgPayoutResponse_switch (discard : bool) (fieldNum wireType : Z) (dAtA : bytes) (iNdEx : Z) (x
    : manifestv1_MsgPayoutResponse) : option (res (manifestv1_MsgPayoutResponse * Z)) :=
  None.

Definition manifestv1_MsgPayoutResponse_keep (f : bytes) (x : manifestv1_MsgPayoutResponse) :
    manifestv1_MsgPayoutResponse :=
  let 'mk_manifestv1_MsgPayoutResponse u := x in mk_manifestv1_MsgPayoutResponse (u ++ f).

Definition manifestv1_MsgPayoutResponse_unmarshal : bool → bytes → option manifestv1_MsgPayoutResponse → res (option
  manifestv1_MsgPayoutResponse) := rt_unmarshal manifestv1_MsgPayoutResponse_switch manifestv1_MsgPayoutResponse_keep.

Definition manifestv1_MsgPayoutResponse_wire (x : manifestv1_MsgPayoutResponse) : bytes :=
  manifestv1_MsgPayoutResponse_unknownFields x.

(** ** MsgBurnHeldBalance *)

Definition manifestv1_MsgBurnHeldBalance_size (x : option manifestv1_MsgBurnHeldBalance) : Z :=
  match x with
  | None => 0
  | Some x =>
      rt_size_str (manifestv1_MsgBurnHeldBalance_Authority x) +
      size_each (λ e, rt_size_len (options_Size api_Coin_size e)) (manifestv1_MsgBurnHeldBalance_BurnCoins x) +
      llen (manifestv1_MsgBurnHeldBalance_unknownFields x)
  end.

Definition manifestv1_MsgBurnHeldBalance_write (x : manifestv1_MsgBurnHeldBalance) : writer :=
  rt_put_unknown (manifestv1_MsgBurnHeldBalance_unknownFields x) ;;>
  put_each (λ e, rt_put_msg 0x12 (options_Marshal api_Coin_marshal e)) (manifestv1_MsgBurnHeldBalance_BurnCoins x) ;;>
  if_nonempty (manifestv1_MsgBurnHeldBalance_Authority x) (rt_put_bytes 0xa (manifestv1_MsgBurnHeldBalance_Authority x)).

Definition manifestv1_MsgBurnHeldBalance_marshal : bytes → option manifestv1_MsgBurnHeldBalance → res bytes :=
  rt_marshal manifestv1_MsgBurnHeldBalance_size manifestv1_MsgBurnHeldBalance_write.

Definition manifestv1_MsgBurnHeldBalance_case_1 (discard : bool) (wireType : Z) (dAtA : bytes) (iNdEx : Z) (x :
    manifestv1_MsgBurnHeldBalance) : res (manifestv1_MsgBurnHeldBalance * Z) :=
  let 'mk_manifestv1_MsgBurnHeldBalance authority burnCoins u := x in
  '(v, iNdEx) ← get_string wireType dAtA iNdEx;
  Ok (mk_manifestv1_MsgBurnHeldBalance v burnCoins u, iNdEx).

Definition manifestv1_MsgBurnHeldBalance_case_2 (discard : bool) (wireType : Z) (dAtA : bytes) (iNdEx : Z) (x :
    manifestv1_MsgBurnHeldBalance) : res (manifestv1_MsgBurnHeldBalance * Z) :=
  let 'mk_manifestv1_MsgBurnHeldBalance authority burnCoins u := x in
  '(v, iNdEx) ← rt_get_msg api_Coin_unmarshal api_Coin_new None discard wireType dAtA iNdEx;
  Ok (mk_manifestv1_MsgBurnHeldBalance authority (burnCoins ++ [v]) u, iNdEx).

Definition manifestv1_MsgBurnHeldBalance_switch (discard : bool) (fieldNum wireType : Z) (dAtA : bytes) (iNdEx : Z) (x
    : manifestv1_MsgBurnHeldBalance) : option (res (manifestv1_MsgBurnHeldBalance * Z)) :=
  match fieldNum with
  | 1 => Some (manifestv1_MsgBurnHeldBalance_case_1 discard wireType dAtA iNdEx x)
  | 2 => Some (manifestv1_MsgBurnHeldBalance_case_2 discard wireType dAtA iNdEx x)
  | _ => None
  end.

Definition manifestv1_MsgBurnHeldBalance_keep (f : bytes) (x : manifestv1_MsgBurnHeldBalance) :
    manifestv1_MsgBurnHeldBalance :=
  let 'mk_manifestv1_MsgBurnHeldBalance authority burnCoins u := x in mk_manifestv1_MsgBurnHeldBalance authority
    burnCoins (u ++ f).

Definition manifestv1_MsgBurnHeldBalance_unmarshal : bool → bytes → option manifestv1_MsgBurnHeldBalance → res (option
  manifestv1_MsgBurnHeldBalance) := rt_unmarshal manifestv1_MsgBurnHeldBalance_switch
  manifestv1_MsgBurnHeldBalance_keep.

Definition manifestv1_MsgBurnHeldBalance_wire (x : manifestv1_MsgBurnHeldBalance) : bytes :=
  enc_str 0xa (manifestv1_MsgBurnHeldBalance_Authority x) ++
  enc_each (λ e, len_field 0x12 (wire_ptr api_Coin_wire e)) (manifestv1_MsgBurnHeldBalance_BurnCoins x) ++
  manifestv1_MsgBurnHeldBalance_unknownFields x.

(** ** MsgBurnHeldBalanceResponse *)

Definition manifestv1_MsgBurnHeldBalanceResponse_size (x : option manifestv1_MsgBurnHeldBalanceResponse) : Z :=
  match x with
  | None => 0
  | Some x =>
      llen (manifestv1_MsgBurnHeldBalanceResponse_unknownFields x)
  end.

Definition manifestv1_MsgBurnHeldBalanceResponse_write (x : manifestv1_MsgBurnHeldBalanceResponse) : writer :=
  rt_put_unknown (manifestv1_MsgBurnHeldBalanceResponse_unknownFields x).

Definition manifestv1_MsgBurnHeldBalanceResponse_marshal : bytes → option manifestv1_MsgBurnHeldBalanceResponse → res
  bytes := rt_marshal manifestv1_MsgBurnHeldBalanceResponse_size manifestv1_MsgBurnHeldBalanceResponse_write.

Definition manifestv1_MsgBurnHeldBalanceResponse_switch (discard : bool) (fieldNum wireType : Z) (dAtA : bytes) (iNdEx
    : Z) (x : manifestv1_MsgBurnHeldBalanceResponse) : option (res (manifestv1_MsgBurnHeldBalanceResponse * Z)) :=
  None.

Definition manifestv1_MsgBurnHeldBalanceResponse_keep (f : bytes) (x : manifestv1_MsgBurnHeldBalanceResponse) :
    manifestv1_MsgBurnHeldBalanceResponse :=
  let 'mk_manifestv1_MsgBurnHeldBalanceResponse u := x in mk_manifestv1_MsgBurnHeldBalanceResponse (u ++ f).

Definition manifestv1_MsgBurnHeldBalanceResponse_unmarshal : bool → bytes → option
  manifestv1_MsgBurnHeldBalanceResponse → res (option manifestv1_MsgBurnHeldBalanceResponse) := rt_unmarshal
  manifestv1_MsgBurnHeldBalanceResponse_switch manifestv1_MsgBurnHeldBalanceResponse_keep.

Definition manifestv1_MsgBurnHeldBalanceResponse_wire (x : manifestv1_MsgBurnHeldBalanceResponse) : bytes :=
  manifestv1_MsgBurnHeldBalanceResponse_unknownFields x.

(** ** GenesisState *)

Definition manifestv1_GenesisState_size (x : option manifestv1_GenesisState) : Z :=
  match x with
  | None => 0
  | Some x =>
      llen (manifestv1_GenesisState_unknownFields x)
  end.

Definition manifestv1_GenesisState_write (x : manifestv1_GenesisState) : writer :=
  rt_put_unknown (manifestv1_GenesisState_unknownFields x).

Definition manifestv1_GenesisState_marshal : bytes → option manifestv1_GenesisState → res bytes := rt_marshal
  manifestv1_GenesisState_size manifestv1_GenesisState_write.

Definition manifestv1_GenesisState_switch (discard : bool) (fieldNum wireType : Z) (dAtA : bytes) (iNdEx : Z) (x :
    manifestv1_GenesisState) : option (res (manifestv1_GenesisState * Z)) :=
  None.

Definition manifestv1_GenesisState_keep (f : bytes) (x : manifestv1_GenesisState) : manifestv1_GenesisState :=
  let 'mk_manifestv1_GenesisState u := x in mk_manifestv1_GenesisState (u ++ f).

Definition manifestv1_GenesisState_unmarshal : bool → bytes → option manifestv1_GenesisState → res (option
  manifestv1_GenesisState) := rt_unmarshal manifestv1_GenesisState_switch manifestv1_GenesisState_keep.

Definition manifestv1_GenesisState_wire (x : manifestv1_GenesisState) : bytes :=
  manifestv1_GenesisState_unknownFields x.

(** ** Module *)

Definition manifest_modulev1_Module_size (x : option manifest_modulev1_Module) : Z :=
  match x with
  | None => 0
  | Some x =>
      llen (manifest_modulev1_Module_unknownFields x)
  end.

Definition manifest_modulev1_Module_write (x : manifest_modulev1_Module) : writer :=
  rt_put_unknown (manifest_modulev1_Module_unknownFields x).

Definition manifest_modulev1_Module_marshal : bytes → option manifest_modulev1_Module → res bytes := rt_marshal
  manifest_modulev1_Module_size manifest_modulev1_Module_write.

Definition manifest_modulev1_Module_switch (discard : bool) (fieldNum wireType : Z) (dAtA : bytes) (iNdEx : Z) (x :
    manifest_modulev1_Module) : option (res (manifest_modulev1_Module * Z)) :=
  None.

Definition manifest_modulev1_Module_keep (f : bytes) (x : manifest_modulev1_Module) : manifest_modulev1_Module :=
  let 'mk_manifest_modulev1_Module u := x in mk_manifest_modulev1_Module (u ++ f).

Definition manifest_modulev1_Module_unmarshal : bool → bytes → option manifest_modulev1_Module → res (option
  manifest_modulev1_Module) := rt_unmarshal manifest_modulev1_Module_switch manifest_modulev1_Module_keep.

Definition manifest_modulev1_Module_wire (x : manifest_modulev1_Module) : bytes :=
  manifest_modulev1_Module_unknownFields x.

End codec.

(** ** Lawful messages *)

Section laws.
Context `{RL : RuntimeLaws} `{EL : ExternalLaws}.

Definition manifestv1_PayoutPair_fits (x : manifestv1_PayoutPair) : Prop := fits_opt api_Coin_fits
  (manifestv1_PayoutPair_Coin x) ∧ unknown_fits 2 (manifestv1_PayoutPair_unknownFields x).

#[global] Instance manifestv1_PayoutPair_lawful :
  api_lawful manifestv1_PayoutPair_fits manifestv1_PayoutPair_size manifestv1_PayoutPair_marshal
    manifestv1_PayoutPair_unmarshal manifestv1_PayoutPair_wire manifestv1_PayoutPair_new.
Proof.
  solve_api. intros [address coin u]; open_api Hl.
  api_string 1. api_msg 2 api_Coin_unmarshal api_Coin_new (λ l, mk_manifestv1_PayoutPair address l []) Hl. api_unknown
  2 (λ u, mk_manifestv1_PayoutPair address coin u).
Qed.

Definition manifestv1_MsgPayout_fits (x : manifestv1_MsgPayout) : Prop := fits_each manifestv1_PayoutPair_fits
  (manifestv1_MsgPayout_PayoutPairs x) ∧ unknown_fits 2 (manifestv1_MsgPayout_unknownFields x).

#[global] Instance manifestv1_MsgPayout_lawful :
  api_lawful manifestv1_MsgPayout_fits manifestv1_MsgPayout_size manifestv1_MsgPayout_marshal
    manifestv1_MsgPayout_unmarshal manifestv1_MsgPayout_wire manifestv1_MsgPayout_new.
Proof.
  solve_api. intros [authority payoutPairs u]; open_api Hl.
  api_string 1. api_msgs 2 manifestv1_PayoutPair_unmarshal manifestv1_PayoutPair_new (λ l, mk_manifestv1_MsgPayout
  authority l []) Hl. api_unknown 2 (λ u, mk_manifestv1_MsgPayout authority payoutPairs u).
Qed.

Definition manifestv1_MsgPayoutResponse_fits (x : manifestv1_MsgPayoutResponse) : Prop := unknown_fits 0
  (manifestv1_MsgPayoutResponse_unknownFields x).

#[global] Instance manifestv1_MsgPayoutResponse_lawful :
  api_lawful manifestv1_MsgPayoutResponse_fits manifestv1_MsgPayoutResponse_size manifestv1_MsgPayoutResponse_marshal
    manifestv1_MsgPayoutResponse_unmarshal manifestv1_MsgPayoutResponse_wire manifestv1_MsgPayoutResponse_new.
Proof. solve_api. intros [u] Hu _. change (unknown_fits 0 u) in Hu. api_unknown 0 mk_manifestv1_MsgPayoutResponse. Qed.

Definition manifestv1_MsgBurnHeldBalance_fits (x : manifestv1_MsgBurnHeldBalance) : Prop := fits_each api_Coin_fits
  (manifestv1_MsgBurnHeldBalance_BurnCoins x) ∧ unknown_fits 2 (manifestv1_MsgBurnHeldBalance_unknownFields x).

#[global] Instance manifestv1_MsgBurnHeldBalance_lawful :
  api_lawful manifestv1_MsgBurnHeldBalance_fits manifestv1_MsgBurnHeldBalance_size
    manifestv1_MsgBurnHeldBalance_marshal manifestv1_MsgBurnHeldBalance_unmarshal manifestv1_MsgBurnHeldBalance_wire
    manifestv1_MsgBurnHeldBalance_new.
Proof.
  solve_api. intros [authority burnCoins u]; open_api Hl.
  api_string 1. api_msgs 2 api_Coin_unmarshal api_Coin_new (λ l, mk_manifestv1_MsgBurnHeldBalance authority l []) Hl.
  api_unknown 2 (λ u, mk_manifestv1_MsgBurnHeldBalance authority burnCoins u).
Qed.

Definition manifestv1_MsgBurnHeldBalanceResponse_fits (x : manifestv1_MsgBurnHeldBalanceResponse) : Prop :=
  unknown_fits 0 (manifestv1_MsgBurnHeldBalanceResponse_unknownFields x).

#[global] Instance manifestv1_MsgBurnHeldBalanceResponse_lawful :
  api_lawful manifestv1_MsgBurnHeldBalanceResponse_fits manifestv1_MsgBurnHeldBalanceResponse_size
    manifestv1_MsgBurnHeldBalanceResponse_marshal manifestv1_MsgBurnHeldBalanceResponse_unmarshal
    manifestv1_MsgBurnHeldBalanceResponse_wire manifestv1_MsgBurnHeldBalanceResponse_new.
Proof. solve_api. intros [u] Hu _. change (unknown_fits 0 u) in Hu. api_unknown 0 mk_manifestv1_MsgBurnHeldBalanceResponse. Qed.

Definition manifestv1_GenesisState_fits (x : manifestv1_GenesisState) : Prop := unknown_fits 0
  (manifestv1_GenesisState_unknownFields x).

#[global] Instance manifestv1_GenesisState_lawful :
  api_lawful manifestv1_GenesisState_fits manifestv1_GenesisState_size manifestv1_GenesisState_marshal
    manifestv1_GenesisState_unmarshal manifestv1_GenesisState_wire manifestv1_GenesisState_new.
Proof. solve_api. intros [u] Hu _. change (unknown_fits 0 u) in Hu. api_unknown 0 mk_manifestv1_GenesisState. Qed.

Definition manifest_modulev1_Module_fits (x : manifest_modulev1_Module) : Prop := unknown_fits 0
  (manifest_modulev1_Module_unknownFields x).

#[global] Instance manifest_modulev1_Module_lawful :
  api_lawful manifest_modulev1_Module_fits manifest_modulev1_Module_size manifest_modulev1_Module_marshal
    manifest_modulev1_Module_unmarshal manifest_modulev1_Module_wire manifest_modulev1_Module_new.
Proof. solve_api. intros [u] Hu _. change (unknown_fits 0 u) in Hu. api_unknown 0 mk_manifest_modulev1_Module. Qed.

End laws.
