(* ===== verification/ApiSku.v ===== *)
(** * API bindings of the sku module: types and transactions (src/api/liftedinit/sku)

    For every message its fields and the closures size, marshal and unmarshal of ProtoMethods; a case
    of the switch of unmarshal is a definition of its own. At the end the proofs that each is lawful. *)

From stdpp Require Import base tactics option list strings.
From Stdlib Require Import ZArith Lia Ascii.
From S2P Require Import Prelude Wire WireProps Codec Unknown Pulsar ApiExternal.
Open Scope Z_scope.

(** ** Fields *)

Record skuv1_Params : Type := mk_skuv1_Params {
  skuv1_Params_AllowedList : list string; skuv1_Params_unknownFields : bytes }.

Definition skuv1_Params_new : skuv1_Params := mk_skuv1_Params [] [].

Record skuv1_Provider : Type := mk_skuv1_Provider {
  skuv1_Provider_Uuid : string; skuv1_Provider_Address : string; skuv1_Provider_PayoutAddress : string;
  skuv1_Provider_MetaHash : string; skuv1_Provider_Active : bool; skuv1_Provider_ApiUrl : string;
  skuv1_Provider_unknownFields : bytes }.

Definition skuv1_Provider_new : skuv1_Provider := mk_skuv1_Provider "" "" "" "" false "" [].

Record skuv1_SKU : Type := mk_skuv1_SKU {
  skuv1_SKU_Uuid : string; skuv1_SKU_ProviderUuid : string; skuv1_SKU_Name : string; skuv1_SKU_Unit : Z;
  skuv1_SKU_BasePrice : option api_Coin; skuv1_SKU_MetaHash : string; skuv1_SKU_Active : bool; skuv1_SKU_unknownFields
  : bytes }.

Definition skuv1_SKU_new : skuv1_SKU := mk_skuv1_SKU "" "" "" 0 None "" false [].

Record skuv1_MsgCreateProvider : Type := mk_skuv1_MsgCreateProvider {
  skuv1_MsgCreateProvider_Authority : string; skuv1_MsgCreateProvider_Address : string;
  skuv1_MsgCreateProvider_PayoutAddress : string; skuv1_MsgCreateProvider_MetaHash : string;
  skuv1_MsgCreateProvider_ApiUrl : string; skuv1_MsgCreateProvider_unknownFields : bytes }.

Definition skuv1_MsgCreateProvider_new : skuv1_MsgCreateProvider := mk_skuv1_MsgCreateProvider "" "" "" "" "" [].

Record skuv1_MsgCreateProviderResponse : Type := mk_skuv1_MsgCreateProviderResponse {
  skuv1_MsgCreateProviderResponse_Uuid : string; skuv1_MsgCreateProviderResponse_unknownFields : bytes }.

Definition skuv1_MsgCreateProviderResponse_new : skuv1_MsgCreateProviderResponse := mk_skuv1_MsgCreateProviderResponse
  "" [].

Record skuv1_MsgUpdateProvider : Type := mk_skuv1_MsgUpdateProvider {
  skuv1_MsgUpdateProvider_Authority : string; skuv1_MsgUpdateProvider_Uuid : string; skuv1_MsgUpdateProvider_Address :
  string; skuv1_MsgUpdateProvider_PayoutAddress : string; skuv1_MsgUpdateProvider_MetaHash : string;
  skuv1_MsgUpdateProvider_Active : bool; skuv1_MsgUpdateProvider_ApiUrl : string;
  skuv1_MsgUpdateProvider_unknownFields : bytes }.

Definition skuv1_MsgUpdateProvider_new : skuv1_MsgUpdateProvider := mk_skuv1_MsgUpdateProvider "" "" "" "" "" false ""
  [].

Record skuv1_MsgUpdateProviderResponse : Type := mk_skuv1_MsgUpdateProviderResponse {
  skuv1_MsgUpdateProviderResponse_unknownFields : bytes }.

Definition skuv1_MsgUpdateProviderResponse_new : skuv1_MsgUpdateProviderResponse := mk_skuv1_MsgUpdateProviderResponse
  [].

Record skuv1_MsgDeactivateProvider : Type := mk_skuv1_MsgDeactivateProvider {
  skuv1_MsgDeactivateProvider_Authority : string; skuv1_MsgDeactivateProvider_Uuid : string;
  skuv1_MsgDeactivateProvider_Limit : Z; skuv1_MsgDeactivateProvider_unknownFields : bytes }.

Definition skuv1_MsgDeactivateProvider_new : skuv1_MsgDeactivateProvider := mk_skuv1_MsgDeactivateProvider "" "" 0 [].

Record skuv1_MsgDeactivateProviderResponse : Type := mk_skuv1_MsgDeactivateProviderResponse {
  skuv1_MsgDeactivateProviderResponse_DeactivatedSkuCount : Z; skuv1_MsgDeactivateProviderResponse_HasMore : bool;
  skuv1_MsgDeactivateProviderResponse_unknownFields : bytes }.

Definition skuv1_MsgDeactivateProviderResponse_new : skuv1_MsgDeactivateProviderResponse :=
  mk_skuv1_MsgDeactivateProviderResponse 0 false [].

Record skuv1_MsgCreateSKU : Type := mk_skuv1_MsgCreateSKU {
  skuv1_MsgCreateSKU_Authority : string; skuv1_MsgCreateSKU_ProviderUuid : string; skuv1_MsgCreateSKU_Name : string;
  skuv1_MsgCreateSKU_Unit : Z; skuv1_MsgCreateSKU_BasePrice : option api_Coin; skuv1_MsgCreateSKU_MetaHash : string;
  skuv1_MsgCreateSKU_unknownFields : bytes }.

Definition skuv1_MsgCreateSKU_new : skuv1_MsgCreateSKU := mk_skuv1_MsgCreateSKU "" "" "" 0 None "" [].

Record skuv1_MsgCreateSKUResponse : Type := mk_skuv1_MsgCreateSKUResponse {
  skuv1_MsgCreateSKUResponse_Uuid : string; skuv1_MsgCreateSKUResponse_unknownFields : bytes }.

Definition skuv1_MsgCreateSKUResponse_new : skuv1_MsgCreateSKUResponse := mk_skuv1_MsgCreateSKUResponse "" [].

Record skuv1_MsgUpdateSKU : Type := mk_skuv1_MsgUpdateSKU {
  skuv1_MsgUpdateSKU_Authority : string; skuv1_MsgUpdateSKU_Uuid : string; skuv1_MsgUpdateSKU_ProviderUuid : string;
  skuv1_MsgUpdateSKU_Name : string; skuv1_MsgUpdateSKU_Unit : Z; skuv1_MsgUpdateSKU_BasePrice : option api_Coin;
  skuv1_MsgUpdateSKU_MetaHash : string; skuv1_MsgUpdateSKU_Active : bool; skuv1_MsgUpdateSKU_unknownFields : bytes }.

Definition skuv1_MsgUpdateSKU_new : skuv1_MsgUpdateSKU := mk_skuv1_MsgUpdateSKU "" "" "" "" 0 None "" false [].

Record skuv1_MsgUpdateSKUResponse : Type := mk_skuv1_MsgUpdateSKUResponse {
  skuv1_MsgUpdateSKUResponse_unknownFields : bytes }.

Definition skuv1_MsgUpdateSKUResponse_new : skuv1_MsgUpdateSKUResponse := mk_skuv1_MsgUpdateSKUResponse [].

Record skuv1_MsgDeactivateSKU : Type := mk_skuv1_MsgDeactivateSKU {
  skuv1_MsgDeactivateSKU_Authority : string; skuv1_MsgDeactivateSKU_Uuid : string;
  skuv1_MsgDeactivateSKU_unknownFields : bytes }.

Definition skuv1_MsgDeactivateSKU_new : skuv1_MsgDeactivateSKU := mk_skuv1_MsgDeactivateSKU "" "" [].

Record skuv1_MsgDeactivateSKUResponse : Type := mk_skuv1_MsgDeactivateSKUResponse {
  skuv1_MsgDeactivateSKUResponse_unknownFields : bytes }.

Definition skuv1_MsgDeactivateSKUResponse_new : skuv1_MsgDeactivateSKUResponse := mk_skuv1_MsgDeactivateSKUResponse
  [].

Record skuv1_MsgUpdateParams : Type := mk_skuv1_MsgUpdateParams {
  skuv1_MsgUpdateParams_Authority : string; skuv1_MsgUpdateParams_Params : option skuv1_Params;
  skuv1_MsgUpdateParams_unknownFields : bytes }.

Definition skuv1_MsgUpdateParams_new : skuv1_MsgUpdateParams := mk_skuv1_MsgUpdateParams "" None [].

Record skuv1_MsgUpdateParamsResponse : Type := mk_skuv1_MsgUpdateParamsResponse {
  skuv1_MsgUpdateParamsResponse_unknownFields : bytes }.

Definition skuv1_MsgUpdateParamsResponse_new : skuv1_MsgUpdateParamsResponse := mk_skuv1_MsgUpdateParamsResponse [].

Record sku_modulev1_Module : Type := mk_sku_modulev1_Module {
  sku_modulev1_Module_unknownFields : bytes }.

Definition sku_modulev1_Module_new : sku_modulev1_Module := mk_sku_modulev1_Module [].

Section codec.
Context `{Runtime} `{ApiExternal}.

(** ** Params *)

Definition skuv1_Params_size (x : option skuv1_Params) : Z :=
  match x with
  | None => 0
  | Some x =>
      size_each (λ s, rt_size_len (len s)) (skuv1_Params_AllowedList x) +
      llen (skuv1_Params_unknownFields x)
  end.

Definition skuv1_Params_write (x : skuv1_Params) : writer :=
  rt_put_unknown (skuv1_Params_unknownFields x) ;;>
  put_each (λ s, rt_put_bytes 0xa s) (skuv1_Params_AllowedList x).

Definition skuv1_Params_marshal : bytes → option skuv1_Params → res bytes := rt_marshal skuv1_Params_size
  skuv1_Params_write.

Definition skuv1_Params_case_1 (discard : bool) (wireType : Z) (dAtA : bytes) (iNdEx : Z) (x : skuv1_Params) : res
    (skuv1_Params * Z) :=
  let 'mk_skuv1_Params allowedList u := x in
  '(v, iNdEx) ← get_string wireType dAtA iNdEx;
  Ok (mk_skuv1_Params (allowedList ++ [v]) u, iNdEx).

Definition skuv1_Params_switch (discard : bool) (fieldNum wireType : Z) (dAtA : bytes) (iNdEx : Z) (x : skuv1_Params)
    : option (res (skuv1_Params * Z)) :=
  match fieldNum with
  | 1 => Some (skuv1_Params_case_1 discard wireType dAtA iNdEx x)
  | _ => None
  end.

Definition skuv1_Params_keep (f : bytes) (x : skuv1_Params) : skuv1_Params :=
  let 'mk_skuv1_Params allowedList u := x in mk_skuv1_Params allowedList (u ++ f).

Definition skuv1_Params_unmarshal : bool → bytes → option skuv1_Params → res (option skuv1_Params) := rt_unmarshal
  skuv1_Params_switch skuv1_Params_keep.

Definition skuv1_Params_wire (x : skuv1_Params) : bytes :=
  enc_each (λ s, len_field 0xa (to_bytes s)) (skuv1_Params_AllowedList x) ++
  skuv1_Params_unknownFields x.

(** ** Provider *)

Definition skuv1_Provider_size (x : option skuv1_Provider) : Z :=
  match x with
  | None => 0
  | Some x =>
      rt_size_str (skuv1_Provider_Uuid x) +
      rt_size_str (skuv1_Provider_Address x) +
      rt_size_str (skuv1_Provider_PayoutAddress x) +
      rt_size_str (skuv1_Provider_MetaHash x) +
      size_bool (skuv1_Provider_Active x) +
      rt_size_str (skuv1_Provider_ApiUrl x) +
      llen (skuv1_Provider_unknownFields x)
  end.

Definition skuv1_Provider_write (x : skuv1_Provider) : writer :=
  rt_put_unknown (skuv1_Provider_unknownFields x) ;;>
  if_nonempty (skuv1_Provider_ApiUrl x) (rt_put_bytes 0x32 (skuv1_Provider_ApiUrl x)) ;;>
  if_true (skuv1_Provider_Active x) (put_bool 0x28 (skuv1_Provider_Active x)) ;;>
  if_nonempty (skuv1_Provider_MetaHash x) (rt_put_bytes 0x22 (skuv1_Provider_MetaHash x)) ;;>
  if_nonempty (skuv1_Provider_PayoutAddress x) (rt_put_bytes 0x1a (skuv1_Provider_PayoutAddress x)) ;;>
  if_nonempty (skuv1_Provider_Address x) (rt_put_bytes 0x12 (skuv1_Provider_Address x)) ;;>
  if_nonempty (skuv1_Provider_Uuid x) (rt_put_bytes 0xa (skuv1_Provider_Uuid x)).

Definition skuv1_Provider_marshal : bytes → option skuv1_Provider → res bytes := rt_marshal skuv1_Provider_size
  skuv1_Provider_write.

Definition skuv1_Provider_case_1 (discard : bool) (wireType : Z) (dAtA : bytes) (iNdEx : Z) (x : skuv1_Provider) : res
    (skuv1_Provider * Z) :=
  let 'mk_skuv1_Provider uuid address payoutAddress metaHash active apiUrl u := x in
  '(v, iNdEx) ← get_string wireType dAtA iNdEx;
  Ok (mk_skuv1_Provider v address payoutAddress metaHash active apiUrl u, iNdEx).

Definition skuv1_Provider_case_2 (discard : bool) (wireType : Z) (dAtA : bytes) (iNdEx : Z) (x : skuv1_Provider) : res
    (skuv1_Provider * Z) :=
  let 'mk_skuv1_Provider uuid address payoutAddress metaHash active apiUrl u := x in
  '(v, iNdEx) ← get_string wireType dAtA iNdEx;
  Ok (mk_skuv1_Provider uuid v payoutAddress metaHash active apiUrl u, iNdEx).

Definition skuv1_Provider_case_3 (discard : bool) (wireType : Z) (dAtA : bytes) (iNdEx : Z) (x : skuv1_Provider) : res
    (skuv1_Provider * Z) :=
  let 'mk_skuv1_Provider uuid address payoutAddress metaHash active apiUrl u := x in
  '(v, iNdEx) ← get_string wireType dAtA iNdEx;
  Ok (mk_skuv1_Provider uuid address v metaHash active apiUrl u, iNdEx).

Definition skuv1_Provider_case_4 (discard : bool) (wireType : Z) (dAtA : bytes) (iNdEx : Z) (x : skuv1_Provider) : res
    (skuv1_Provider * Z) :=
  let 'mk_skuv1_Provider uuid address payoutAddress metaHash active apiUrl u := x in
  '(v, iNdEx) ← get_bytes wireType dAtA iNdEx;
  Ok (mk_skuv1_Provider uuid address payoutAddress v active apiUrl u, iNdEx).

Definition skuv1_Provider_case_5 (discard : bool) (wireType : Z) (dAtA : bytes) (iNdEx : Z) (x : skuv1_Provider) : res
    (skuv1_Provider * Z) :=
  let 'mk_skuv1_Provider uuid address payoutAddress metaHash active apiUrl u := x in
  '(v, iNdEx) ← get_bool wireType dAtA iNdEx;
  Ok (mk_skuv1_Provider uuid address payoutAddress metaHash v apiUrl u, iNdEx).

Definition skuv1_Provider_case_6 (discard : bool) (wireType : Z) (dAtA : bytes) (iNdEx : Z) (x : skuv1_Provider) : res
    (skuv1_Provider * Z) :=
  let 'mk_skuv1_Provider uuid address payoutAddress metaHash active apiUrl u := x in
  '(v, iNdEx) ← get_string wireType dAtA iNdEx;
  Ok (mk_skuv1_Provider uuid address payoutAddress metaHash active v u, iNdEx).

Definition skuv1_Provider_switch (discard : bool) (fieldNum wireType : Z) (dAtA : bytes) (iNdEx : Z) (x :
    skuv1_Provider) : option (res (skuv1_Provider * Z)) :=
  match fieldNum with
  | 1 => Some (skuv1_Provider_case_1 discard wireType dAtA iNdEx x)
  | 2 => Some (skuv1_Provider_case_2 discard wireType dAtA iNdEx x)
  | 3 => Some (skuv1_Provider_case_3 discard wireType dAtA iNdEx x)
  | 4 => Some (skuv1_Provider_case_4 discard wireType dAtA iNdEx x)
  | 5 => Some (skuv1_Provider_case_5 discard wireType dAtA iNdEx x)
  | 6 => Some (skuv1_Provider_case_6 discard wireType dAtA iNdEx x)
  | _ => None
  end.

Definition skuv1_Provider_keep (f : bytes) (x : skuv1_Provider) : skuv1_Provider :=
  let 'mk_skuv1_Provider uuid address payoutAddress metaHash active apiUrl u := x in mk_skuv1_Provider uuid address
    payoutAddress metaHash active apiUrl (u ++ f).

Definition skuv1_Provider_unmarshal : bool → bytes → option skuv1_Provider → res (option skuv1_Provider) :=
  rt_unmarshal skuv1_Provider_switch skuv1_Provider_keep.

Definition skuv1_Provider_wire (x : skuv1_Provider) : bytes :=
  enc_str 0xa (skuv1_Provider_Uuid x) ++
  enc_str 0x12 (skuv1_Provider_Address x) ++
  enc_str 0x1a (skuv1_Provider_PayoutAddress x) ++
  enc_str 0x22 (skuv1_Provider_MetaHash x) ++
  enc_bool 0x28 (skuv1_Provider_Active x) ++
  enc_str 0x32 (skuv1_Provider_ApiUrl x) ++
  skuv1_Provider_unknownFields x.

(** ** SKU *)

Definition skuv1_SKU_size (x : option skuv1_SKU) : Z :=
  match x with
  | None => 0
  | Some x =>
      rt_size_str (skuv1_SKU_Uuid x) +
      rt_size_str (skuv1_SKU_ProviderUuid x) +
      rt_size_str (skuv1_SKU_Name x) +
      rt_size_num (skuv1_SKU_Unit x) +
      size_opt (skuv1_SKU_BasePrice x) (λ e, rt_size_len (options_Size api_Coin_size (Some e))) +
      rt_size_str (skuv1_SKU_MetaHash x) +
      size_bool (skuv1_SKU_Active x) +
      llen (skuv1_SKU_unknownFields x)
  end.

Definition skuv1_SKU_write (x : skuv1_SKU) : writer :=
  rt_put_unknown (skuv1_SKU_unknownFields x) ;;>
  if_true (skuv1_SKU_Active x) (put_bool 0x38 (skuv1_SKU_Active x)) ;;>
  if_nonempty (skuv1_SKU_MetaHash x) (rt_put_bytes 0x32 (skuv1_SKU_MetaHash x)) ;;>
  if_some (skuv1_SKU_BasePrice x) (λ e, rt_put_msg 0x2a (options_Marshal api_Coin_marshal (Some e))) ;;>
  if_nonzero (skuv1_SKU_Unit x) (rt_put_uint 0x20 (skuv1_SKU_Unit x)) ;;>
  if_nonempty (skuv1_SKU_Name x) (rt_put_bytes 0x1a (skuv1_SKU_Name x)) ;;>
  if_nonempty (skuv1_SKU_ProviderUuid x) (rt_put_bytes 0x12 (skuv1_SKU_ProviderUuid x)) ;;>
  if_nonempty (skuv1_SKU_Uuid x) (rt_put_bytes 0xa (skuv1_SKU_Uuid x)).

Definition skuv1_SKU_marshal : bytes → option skuv1_SKU → res bytes := rt_marshal skuv1_SKU_size skuv1_SKU_write.

Definition skuv1_SKU_case_1 (discard : bool) (wireType : Z) (dAtA : bytes) (iNdEx : Z) (x : skuv1_SKU) : res
    (skuv1_SKU * Z) :=
  let 'mk_skuv1_SKU uuid providerUuid name unit basePrice metaHash active u := x in
  '(v, iNdEx) ← get_string wireType dAtA iNdEx;
  Ok (mk_skuv1_SKU v providerUuid name unit basePrice metaHash active u, iNdEx).

Definition skuv1_SKU_case_2 (discard : bool) (wireType : Z) (dAtA : bytes) (iNdEx : Z) (x : skuv1_SKU) : res
    (skuv1_SKU * Z) :=
  let 'mk_skuv1_SKU uuid providerUuid name unit basePrice metaHash active u := x in
  '(v, iNdEx) ← get_string wireType dAtA iNdEx;
  Ok (mk_skuv1_SKU uuid v name unit basePrice metaHash active u, iNdEx).

Definition skuv1_SKU_case_3 (discard : bool) (wireType : Z) (dAtA : bytes) (iNdEx : Z) (x : skuv1_SKU) : res
    (skuv1_SKU * Z) :=
  let 'mk_skuv1_SKU uuid providerUuid name unit basePrice metaHash active u := x in
  '(v, iNdEx) ← get_string wireType dAtA iNdEx;
  Ok (mk_skuv1_SKU uuid providerUuid v unit basePrice metaHash active u, iNdEx).

Definition skuv1_SKU_case_4 (discard : bool) (wireType : Z) (dAtA : bytes) (iNdEx : Z) (x : skuv1_SKU) : res
    (skuv1_SKU * Z) :=
  let 'mk_skuv1_SKU uuid providerUuid name unit basePrice metaHash active u := x in
  '(v, iNdEx) ← get_enum wireType dAtA iNdEx;
  Ok (mk_skuv1_SKU uuid providerUuid name v basePrice metaHash active u, iNdEx).

Definition skuv1_SKU_case_5 (discard : bool) (wireType : Z) (dAtA : bytes) (iNdEx : Z) (x : skuv1_SKU) : res
    (skuv1_SKU * Z) :=
  let 'mk_skuv1_SKU uuid providerUuid name unit basePrice metaHash active u := x in
  '(v, iNdEx) ← rt_get_msg api_Coin_unmarshal api_Coin_new basePrice discard wireType dAtA iNdEx;
  Ok (mk_skuv1_SKU uuid providerUuid name unit v metaHash active u, iNdEx).

Definition skuv1_SKU_case_6 (discard : bool) (wireType : Z) (dAtA : bytes) (iNdEx : Z) (x : skuv1_SKU) : res
    (skuv1_SKU * Z) :=
  let 'mk_skuv1_SKU uuid providerUuid name unit basePrice metaHash active u := x in
  '(v, iNdEx) ← get_bytes wireType dAtA iNdEx;
  Ok (mk_skuv1_SKU uuid providerUuid name unit basePrice v active u, iNdEx).

Definition skuv1_SKU_case_7 (discard : bool) (wireType : Z) (dAtA : bytes) (iNdEx : Z) (x : skuv1_SKU) : res
    (skuv1_SKU * Z) :=
  let 'mk_skuv1_SKU uuid providerUuid name unit basePrice metaHash active u := x in
  '(v, iNdEx) ← get_bool wireType dAtA iNdEx;
  Ok (mk_skuv1_SKU uuid providerUuid name unit basePrice metaHash v u, iNdEx).

Definition skuv1_SKU_switch (discard : bool) (fieldNum wireType : Z) (dAtA : bytes) (iNdEx : Z) (x : skuv1_SKU) :
    option (res (skuv1_SKU * Z)) :=
  match fieldNum with
  | 1 => Some (skuv1_SKU_case_1 discard wireType dAtA iNdEx x)
  | 2 => Some (skuv1_SKU_case_2 discard wireType dAtA iNdEx x)
  | 3 => Some (skuv1_SKU_case_3 discard wireType dAtA iNdEx x)
  | 4 => Some (skuv1_SKU_case_4 discard wireType dAtA iNdEx x)
  | 5 => Some (skuv1_SKU_case_5 discard wireType dAtA iNdEx x)
  | 6 => Some (skuv1_SKU_case_6 discard wireType dAtA iNdEx x)
  | 7 => Some (skuv1_SKU_case_7 discard wireType dAtA iNdEx x)
  | _ => None
  end.

Definition skuv1_SKU_keep (f : bytes) (x : skuv1_SKU) : skuv1_SKU :=
  let 'mk_skuv1_SKU uuid providerUuid name unit basePrice metaHash active u := x in mk_skuv1_SKU uuid providerUuid
    name unit basePrice metaHash active (u ++ f).

Definition skuv1_SKU_unmarshal : bool → bytes → option skuv1_SKU → res (option skuv1_SKU) := rt_unmarshal
  skuv1_SKU_switch skuv1_SKU_keep.

Definition skuv1_SKU_wire (x : skuv1_SKU) : bytes :=
  enc_str 0xa (skuv1_SKU_Uuid x) ++
  enc_str 0x12 (skuv1_SKU_ProviderUuid x) ++
  enc_str 0x1a (skuv1_SKU_Name x) ++
  enc_uint 0x20 (skuv1_SKU_Unit x) ++
  enc_opt (λ e, len_field 0x2a (api_Coin_wire e)) (skuv1_SKU_BasePrice x) ++
  enc_str 0x32 (skuv1_SKU_MetaHash x) ++
  enc_bool 0x38 (skuv1_SKU_Active x) ++
  skuv1_SKU_unknownFields x.

(** ** MsgCreateProvider *)

Definition skuv1_MsgCreateProvider_size (x : option skuv1_MsgCreateProvider) : Z :=
  match x with
  | None => 0
  | Some x =>
      rt_size_str (skuv1_MsgCreateProvider_Authority x) +
      rt_size_str (skuv1_MsgCreateProvider_Address x) +
      rt_size_str (skuv1_MsgCreateProvider_PayoutAddress x) +
      rt_size_str (skuv1_MsgCreateProvider_MetaHash x) +
      rt_size_str (skuv1_MsgCreateProvider_ApiUrl x) +
      llen (skuv1_MsgCreateProvider_unknownFields x)
  end.

Definition skuv1_MsgCreateProvider_write (x : skuv1_MsgCreateProvider) : writer :=
  rt_put_unknown (skuv1_MsgCreateProvider_unknownFields x) ;;>
  if_nonempty (skuv1_MsgCreateProvider_ApiUrl x) (rt_put_bytes 0x2a (skuv1_MsgCreateProvider_ApiUrl x)) ;;>
  if_nonempty (skuv1_MsgCreateProvider_MetaHash x) (rt_put_bytes 0x22 (skuv1_MsgCreateProvider_MetaHash x)) ;;>
  if_nonempty (skuv1_MsgCreateProvider_PayoutAddress x) (rt_put_bytes 0x1a (skuv1_MsgCreateProvider_PayoutAddress x)) ;;>
  if_nonempty (skuv1_MsgCreateProvider_Address x) (rt_put_bytes 0x12 (skuv1_MsgCreateProvider_Address x)) ;;>
  if_nonempty (skuv1_MsgCreateProvider_Authority x) (rt_put_bytes 0xa (skuv1_MsgCreateProvider_Authority x)).

Definition skuv1_MsgCreateProvider_marshal : bytes → option skuv1_MsgCreateProvider → res bytes := rt_marshal
  skuv1_MsgCreateProvider_size skuv1_MsgCreateProvider_write.

Definition skuv1_MsgCreateProvider_case_1 (discard : bool) (wireType : Z) (dAtA : bytes) (iNdEx : Z) (x :
    skuv1_MsgCreateProvider) : res (skuv1_MsgCreateProvider * Z) :=
  let 'mk_skuv1_MsgCreateProvider authority address payoutAddress metaHash apiUrl u := x in
  '(v, iNdEx) ← get_string wireType dAtA iNdEx;
  Ok (mk_skuv1_MsgCreateProvider v address payoutAddress metaHash apiUrl u, iNdEx).

Definition skuv1_MsgCreateProvider_case_2 (discard : bool) (wireType : Z) (dAtA : bytes) (iNdEx : Z) (x :
    skuv1_MsgCreateProvider) : res (skuv1_MsgCreateProvider * Z) :=
  let 'mk_skuv1_MsgCreateProvider authority address payoutAddress metaHash apiUrl u := x in
  '(v, iNdEx) ← get_string wireType dAtA iNdEx;
  Ok (mk_skuv1_MsgCreateProvider authority v payoutAddress metaHash apiUrl u, iNdEx).

Definition skuv1_MsgCreateProvider_case_3 (discard : bool) (wireType : Z) (dAtA : bytes) (iNdEx : Z) (x :
    skuv1_MsgCreateProvider) : res (skuv1_MsgCreateProvider * Z) :=
  let 'mk_skuv1_MsgCreateProvider authority address payoutAddress metaHash apiUrl u := x in
  '(v, iNdEx) ← get_string wireType dAtA iNdEx;
  Ok (mk_skuv1_MsgCreateProvider authority address v metaHash apiUrl u, iNdEx).

Definition skuv1_MsgCreateProvider_case_4 (discard : bool) (wireType : Z) (dAtA : bytes) (iNdEx : Z) (x :
    skuv1_MsgCreateProvider) : res (skuv1_MsgCreateProvider * Z) :=
  let 'mk_skuv1_MsgCreateProvider authority address payoutAddress metaHash apiUrl u := x in
  '(v, iNdEx) ← get_bytes wireType dAtA iNdEx;
  Ok (mk_skuv1_MsgCreateProvider authority address payoutAddress v apiUrl u, iNdEx).

Definition skuv1_MsgCreateProvider_case_5 (discard : bool) (wireType : Z) (dAtA : bytes) (iNdEx : Z) (x :
    skuv1_MsgCreateProvider) : res (skuv1_MsgCreateProvider * Z) :=
  let 'mk_skuv1_MsgCreateProvider authority address payoutAddress metaHash apiUrl u := x in
  '(v, iNdEx) ← get_string wireType dAtA iNdEx;
  Ok (mk_skuv1_MsgCreateProvider authority address payoutAddress metaHash v u, iNdEx).

Definition skuv1_MsgCreateProvider_switch (discard : bool) (fieldNum wireType : Z) (dAtA : bytes) (iNdEx : Z) (x :
    skuv1_MsgCreateProvider) : option (res (skuv1_MsgCreateProvider * Z)) :=
  match fieldNum with
  | 1 => Some (skuv1_MsgCreateProvider_case_1 discard wireType dAtA iNdEx x)
  | 2 => Some (skuv1_MsgCreateProvider_case_2 discard wireType dAtA iNdEx x)
  | 3 => Some (skuv1_MsgCreateProvider_case_3 discard wireType dAtA iNdEx x)
  | 4 => Some (skuv1_MsgCreateProvider_case_4 discard wireType dAtA iNdEx x)
  | 5 => Some (skuv1_MsgCreateProvider_case_5 discard wireType dAtA iNdEx x)
  | _ => None
  end.

Definition skuv1_MsgCreateProvider_keep (f : bytes) (x : skuv1_MsgCreateProvider) : skuv1_MsgCreateProvider :=
  let 'mk_skuv1_MsgCreateProvider authority address payoutAddress metaHash apiUrl u := x in mk_skuv1_MsgCreateProvider
    authority address payoutAddress metaHash apiUrl (u ++ f).

Definition skuv1_MsgCreateProvider_unmarshal : bool → bytes → option skuv1_MsgCreateProvider → res (option
  skuv1_MsgCreateProvider) := rt_unmarshal skuv1_MsgCreateProvider_switch skuv1_MsgCreateProvider_keep.

Definition skuv1_MsgCreateProvider_wire (x : skuv1_MsgCreateProvider) : bytes :=
  enc_str 0xa (skuv1_MsgCreateProvider_Authority x) ++
  enc_str 0x12 (skuv1_MsgCreateProvider_Address x) ++
  enc_str 0x1a (skuv1_MsgCreateProvider_PayoutAddress x) ++
  enc_str 0x22 (skuv1_MsgCreateProvider_MetaHash x) ++
  enc_str 0x2a (skuv1_MsgCreateProvider_ApiUrl x) ++
  skuv1_MsgCreateProvider_unknownFields x.

(** ** MsgCreateProviderResponse *)

Definition skuv1_MsgCreateProviderResponse_size (x : option skuv1_MsgCreateProviderResponse) : Z :=
  match x with
  | None => 0
  | Some x =>
      rt_size_str (skuv1_MsgCreateProviderResponse_Uuid x) +
      llen (skuv1_MsgCreateProviderResponse_unknownFields x)
  end.

Definition skuv1_MsgCreateProviderResponse_write (x : skuv1_MsgCreateProviderResponse) : writer :=
  rt_put_unknown (skuv1_MsgCreateProviderResponse_unknownFields x) ;;>
  if_nonempty (skuv1_MsgCreateProviderResponse_Uuid x) (rt_put_bytes 0xa (skuv1_MsgCreateProviderResponse_Uuid x)).

Definition skuv1_MsgCreateProviderResponse_marshal : bytes → option skuv1_MsgCreateProviderResponse → res bytes :=
  rt_marshal skuv1_MsgCreateProviderResponse_size skuv1_MsgCreateProviderResponse_write.

Definition skuv1_MsgCreateProviderResponse_case_1 (discard : bool) (wireType : Z) (dAtA : bytes) (iNdEx : Z) (x :
    skuv1_MsgCreateProviderResponse) : res (skuv1_MsgCreateProviderResponse * Z) :=
  let 'mk_skuv1_MsgCreateProviderResponse uuid u := x in
  '(v, iNdEx) ← get_string wireType dAtA iNdEx;
  Ok (mk_skuv1_MsgCreateProviderResponse v u, iNdEx).

Definition skuv1_MsgCreateProviderResponse_switch (discard : bool) (fieldNum wireType : Z) (dAtA : bytes) (iNdEx : Z)
    (x : skuv1_MsgCreateProviderResponse) : option (res (skuv1_MsgCreateProviderResponse * Z)) :=
  match fieldNum with
  | 1 => Some (skuv1_MsgCreateProviderResponse_case_1 discard wireType dAtA iNdEx x)
  | _ => None
  end.

Definition skuv1_MsgCreateProviderResponse_keep (f : bytes) (x : skuv1_MsgCreateProviderResponse) :
    skuv1_MsgCreateProviderResponse :=
  let 'mk_skuv1_MsgCreateProviderResponse uuid u := x in mk_skuv1_MsgCreateProviderResponse uuid (u ++ f).

Definition skuv1_MsgCreateProviderResponse_unmarshal : bool → bytes → option skuv1_MsgCreateProviderResponse → res
  (option skuv1_MsgCreateProviderResponse) := rt_unmarshal skuv1_MsgCreateProviderResponse_switch
  skuv1_MsgCreateProviderResponse_keep.

Definition skuv1_MsgCreateProviderResponse_wire (x : skuv1_MsgCreateProviderResponse) : bytes :=
  enc_str 0xa (skuv1_MsgCreateProviderResponse_Uuid x) ++
  skuv1_MsgCreateProviderResponse_unknownFields x.

(** ** MsgUpdateProvider *)

Definition skuv1_MsgUpdateProvider_size (x : option skuv1_MsgUpdateProvider) : Z :=
  match x with
  | None => 0
  | Some x =>
      rt_size_str (skuv1_MsgUpdateProvider_Authority x) +
      rt_size_str (skuv1_MsgUpdateProvider_Uuid x) +
      rt_size_str (skuv1_MsgUpdateProvider_Address x) +
      rt_size_str (skuv1_MsgUpdateProvider_PayoutAddress x) +
      rt_size_str (skuv1_MsgUpdateProvider_MetaHash x) +
      size_bool (skuv1_MsgUpdateProvider_Active x) +
      rt_size_str (skuv1_MsgUpdateProvider_ApiUrl x) +
      llen (skuv1_MsgUpdateProvider_unknownFields x)
  end.

Definition skuv1_MsgUpdateProvider_write (x : skuv1_MsgUpdateProvider) : writer :=
  rt_put_unknown (skuv1_MsgUpdateProvider_unknownFields x) ;;>
  if_nonempty (skuv1_MsgUpdateProvider_ApiUrl x) (rt_put_bytes 0x3a (skuv1_MsgUpdateProvider_ApiUrl x)) ;;>
  if_true (skuv1_MsgUpdateProvider_Active x) (put_bool 0x30 (skuv1_MsgUpdateProvider_Active x)) ;;>
  if_nonempty (skuv1_MsgUpdateProvider_MetaHash x) (rt_put_bytes 0x2a (skuv1_MsgUpdateProvider_MetaHash x)) ;;>
  if_nonempty (skuv1_MsgUpdateProvider_PayoutAddress x) (rt_put_bytes 0x22 (skuv1_MsgUpdateProvider_PayoutAddress x)) ;;>
  if_nonempty (skuv1_MsgUpdateProvider_Address x) (rt_put_bytes 0x1a (skuv1_MsgUpdateProvider_Address x)) ;;>
  if_nonempty (skuv1_MsgUpdateProvider_Uuid x) (rt_put_bytes 0x12 (skuv1_MsgUpdateProvider_Uuid x)) ;;>
  if_nonempty (skuv1_MsgUpdateProvider_Authority x) (rt_put_bytes 0xa (skuv1_MsgUpdateProvider_Authority x)).

Definition skuv1_MsgUpdateProvider_marshal : bytes → option skuv1_MsgUpdateProvider → res bytes := rt_marshal
  skuv1_MsgUpdateProvider_size skuv1_MsgUpdateProvider_write.

Definition skuv1_MsgUpdateProvider_case_1 (discard : bool) (wireType : Z) (dAtA : bytes) (iNdEx : Z) (x :
    skuv1_MsgUpdateProvider) : res (skuv1_MsgUpdateProvider * Z) :=
  let 'mk_skuv1_MsgUpdateProvider authority uuid address payoutAddress metaHash active apiUrl u := x in
  '(v, iNdEx) ← get_string wireType dAtA iNdEx;
  Ok (mk_skuv1_MsgUpdateProvider v uuid address payoutAddress metaHash active apiUrl u, iNdEx).

Definition skuv1_MsgUpdateProvider_case_2 (discard : bool) (wireType : Z) (dAtA : bytes) (iNdEx : Z) (x :
    skuv1_MsgUpdateProvider) : res (skuv1_MsgUpdateProvider * Z) :=
  let 'mk_skuv1_MsgUpdateProvider authority uuid address payoutAddress metaHash active apiUrl u := x in
  '(v, iNdEx) ← get_string wireType dAtA iNdEx;
  Ok (mk_skuv1_MsgUpdateProvider authority v address payoutAddress metaHash active apiUrl u, iNdEx).

Definition skuv1_MsgUpdateProvider_case_3 (discard : bool) (wireType : Z) (dAtA : bytes) (iNdEx : Z) (x :
    skuv1_MsgUpdateProvider) : res (skuv1_MsgUpdateProvider * Z) :=
  let 'mk_skuv1_MsgUpdateProvider authority uuid address payoutAddress metaHash active apiUrl u := x in
  '(v, iNdEx) ← get_string wireType dAtA iNdEx;
  Ok (mk_skuv1_MsgUpdateProvider authority uuid v payoutAddress metaHash active apiUrl u, iNdEx).

Definition skuv1_MsgUpdateProvider_case_4 (discard : bool) (wireType : Z) (dAtA : bytes) (iNdEx : Z) (x :
    skuv1_MsgUpdateProvider) : res (skuv1_MsgUpdateProvider * Z) :=
  let 'mk_skuv1_MsgUpdateProvider authority uuid address payoutAddress metaHash active apiUrl u := x in
  '(v, iNdEx) ← get_string wireType dAtA iNdEx;
  Ok (mk_skuv1_MsgUpdateProvider authority uuid address v metaHash active apiUrl u, iNdEx).

Definition skuv1_MsgUpdateProvider_case_5 (discard : bool) (wireType : Z) (dAtA : bytes) (iNdEx : Z) (x :
    skuv1_MsgUpdateProvider) : res (skuv1_MsgUpdateProvider * Z) :=
  let 'mk_skuv1_MsgUpdateProvider authority uuid address payoutAddress metaHash active apiUrl u := x in
  '(v, iNdEx) ← get_bytes wireType dAtA iNdEx;
  Ok (mk_skuv1_MsgUpdateProvider authority uuid address payoutAddress v active apiUrl u, iNdEx).

Definition skuv1_MsgUpdateProvider_case_6 (discard : bool) (wireType : Z) (dAtA : bytes) (iNdEx : Z) (x :
    skuv1_MsgUpdateProvider) : res (skuv1_MsgUpdateProvider * Z) :=
  let 'mk_skuv1_MsgUpdateProvider authority uuid address payoutAddress metaHash active apiUrl u := x in
  '(v, iNdEx) ← get_bool wireType dAtA iNdEx;
  Ok (mk_skuv1_MsgUpdateProvider authority uuid address payoutAddress metaHash v apiUrl u, iNdEx).

Definition skuv1_MsgUpdateProvider_case_7 (discard : bool) (wireType : Z) (dAtA : bytes) (iNdEx : Z) (x :
    skuv1_MsgUpdateProvider) : res (skuv1_MsgUpdateProvider * Z) :=
  let 'mk_skuv1_MsgUpdateProvider authority uuid address payoutAddress metaHash active apiUrl u := x in
  '(v, iNdEx) ← get_string wireType dAtA iNdEx;
  Ok (mk_skuv1_MsgUpdateProvider authority uuid address payoutAddress metaHash active v u, iNdEx).

Definition skuv1_MsgUpdateProvider_switch (discard : bool) (fieldNum wireType : Z) (dAtA : bytes) (iNdEx : Z) (x :
    skuv1_MsgUpdateProvider) : option (res (skuv1_MsgUpdateProvider * Z)) :=
  match fieldNum with
  | 1 => Some (skuv1_MsgUpdateProvider_case_1 discard wireType dAtA iNdEx x)
  | 2 => Some (skuv1_MsgUpdateProvider_case_2 discard wireType dAtA iNdEx x)
  | 3 => Some (skuv1_MsgUpdateProvider_case_3 discard wireType dAtA iNdEx x)
  | 4 => Some (skuv1_MsgUpdateProvider_case_4 discard wireType dAtA iNdEx x)
  | 5 => Some (skuv1_MsgUpdateProvider_case_5 discard wireType dAtA iNdEx x)
  | 6 => Some (skuv1_MsgUpdateProvider_case_6 discard wireType dAtA iNdEx x)
  | 7 => Some (skuv1_MsgUpdateProvider_case_7 discard wireType dAtA iNdEx x)
  | _ => None
  end.

Definition skuv1_MsgUpdateProvider_keep (f : bytes) (x : skuv1_MsgUpdateProvider) : skuv1_MsgUpdateProvider :=
  let 'mk_skuv1_MsgUpdateProvider authority uuid address payoutAddress metaHash active apiUrl u := x in
    mk_skuv1_MsgUpdateProvider authority uuid address payoutAddress metaHash active apiUrl (u ++ f).

Definition skuv1_MsgUpdateProvider_unmarshal : bool → bytes → option skuv1_MsgUpdateProvider → res (option
  skuv1_MsgUpdateProvider) := rt_unmarshal skuv1_MsgUpdateProvider_switch skuv1_MsgUpdateProvider_keep.

Definition skuv1_MsgUpdateProvider_wire (x : skuv1_MsgUpdateProvider) : bytes :=
  enc_str 0xa (skuv1_MsgUpdateProvider_Authority x) ++
  enc_str 0x12 (skuv1_MsgUpdateProvider_Uuid x) ++
  enc_str 0x1a (skuv1_MsgUpdateProvider_Address x) ++
  enc_str 0x22 (skuv1_MsgUpdateProvider_PayoutAddress x) ++
  enc_str 0x2a (skuv1_MsgUpdateProvider_MetaHash x) ++
  enc_bool 0x30 (skuv1_MsgUpdateProvider_Active x) ++
  enc_str 0x3a (skuv1_MsgUpdateProvider_ApiUrl x) ++
  skuv1_MsgUpdateProvider_unknownFields x.

(** ** MsgUpdateProviderResponse *)

Definition skuv1_MsgUpdateProviderResponse_size (x : option skuv1_MsgUpdateProviderResponse) : Z :=
  match x with
  | None => 0
  | Some x =>
      llen (skuv1_MsgUpdateProviderResponse_unknownFields x)
  end.

Definition skuv1_MsgUpdateProviderResponse_write (x : skuv1_MsgUpdateProviderResponse) : writer :=
  rt_put_unknown (skuv1_MsgUpdateProviderResponse_unknownFields x).

Definition skuv1_MsgUpdateProviderResponse_marshal : bytes → option skuv1_MsgUpdateProviderResponse → res bytes :=
  rt_marshal skuv1_MsgUpdateProviderResponse_size skuv1_MsgUpdateProviderResponse_write.

Definition skuv1_MsgUpdateProviderResponse_switch (discard : bool) (fieldNum wireType : Z) (dAtA : bytes) (iNdEx : Z)
    (x : skuv1_MsgUpdateProviderResponse) : option (res (skuv1_MsgUpdateProviderResponse * Z)) :=
  None.

Definition skuv1_MsgUpdateProviderResponse_keep (f : bytes) (x : skuv1_MsgUpdateProviderResponse) :
    skuv1_MsgUpdateProviderResponse :=
  let 'mk_skuv1_MsgUpdateProviderResponse u := x in mk_skuv1_MsgUpdateProviderResponse (u ++ f).

Definition skuv1_MsgUpdateProviderResponse_unmarshal : bool → bytes → option skuv1_MsgUpdateProviderResponse → res
  (option skuv1_MsgUpdateProviderResponse) := rt_unmarshal skuv1_MsgUpdateProviderResponse_switch
  skuv1_MsgUpdateProviderResponse_keep.

Definition skuv1_MsgUpdateProviderResponse_wire (x : skuv1_MsgUpdateProviderResponse) : bytes :=
  skuv1_MsgUpdateProviderResponse_unknownFields x.

(** ** MsgDeactivateProvider *)

Definition skuv1_MsgDeactivateProvider_size (x : option skuv1_MsgDeactivateProvider) : Z :=
  match x with
  | None => 0
  | Some x =>
      rt_size_str (skuv1_MsgDeactivateProvider_Authority x) +
      rt_size_str (skuv1_MsgDeactivateProvider_Uuid x) +
      rt_size_num (skuv1_MsgDeactivateProvider_Limit x) +
      llen (skuv1_MsgDeactivateProvider_unknownFields x)
  end.

Definition skuv1_MsgDeactivateProvider_write (x : skuv1_MsgDeactivateProvider) : writer :=
  rt_put_unknown (skuv1_MsgDeactivateProvider_unknownFields x) ;;>
  if_nonzero (skuv1_MsgDeactivateProvider_Limit x) (rt_put_uint 0x18 (skuv1_MsgDeactivateProvider_Limit x)) ;;>
  if_nonempty (skuv1_MsgDeactivateProvider_Uuid x) (rt_put_bytes 0x12 (skuv1_MsgDeactivateProvider_Uuid x)) ;;>
  if_nonempty (skuv1_MsgDeactivateProvider_Authority x) (rt_put_bytes 0xa (skuv1_MsgDeactivateProvider_Authority x)).

Definition skuv1_MsgDeactivateProvider_marshal : bytes → option skuv1_MsgDeactivateProvider → res bytes := rt_marshal
  skuv1_MsgDeactivateProvider_size skuv1_MsgDeactivateProvider_write.

Definition skuv1_MsgDeactivateProvider_case_1 (discard : bool) (wireType : Z) (dAtA : bytes) (iNdEx : Z) (x :
    skuv1_MsgDeactivateProvider) : res (skuv1_MsgDeactivateProvider * Z) :=
  let 'mk_skuv1_MsgDeactivateProvider authority uuid limit u := x in
  '(v, iNdEx) ← get_string wireType dAtA iNdEx;
  Ok (mk_skuv1_MsgDeactivateProvider v uuid limit u, iNdEx).

Definition skuv1_MsgDeactivateProvider_case_2 (discard : bool) (wireType : Z) (dAtA : bytes) (iNdEx : Z) (x :
    skuv1_MsgDeactivateProvider) : res (skuv1_MsgDeactivateProvider * Z) :=
  let 'mk_skuv1_MsgDeactivateProvider authority uuid limit u := x in
  '(v, iNdEx) ← get_string wireType dAtA iNdEx;
  Ok (mk_skuv1_MsgDeactivateProvider authority v limit u, iNdEx).

Definition skuv1_MsgDeactivateProvider_case_3 (discard : bool) (wireType : Z) (dAtA : bytes) (iNdEx : Z) (x :
    skuv1_MsgDeactivateProvider) : res (skuv1_MsgDeactivateProvider * Z) :=
  let 'mk_skuv1_MsgDeactivateProvider authority uuid limit u := x in
  '(v, iNdEx) ← get_uint wireType dAtA iNdEx;
  Ok (mk_skuv1_MsgDeactivateProvider authority uuid v u, iNdEx).

Definition skuv1_MsgDeactivateProvider_switch (discard : bool) (fieldNum wireType : Z) (dAtA : bytes) (iNdEx : Z) (x :
    skuv1_MsgDeactivateProvider) : option (res (skuv1_MsgDeactivateProvider * Z)) :=
  match fieldNum with
  | 1 => Some (skuv1_MsgDeactivateProvider_case_1 discard wireType dAtA iNdEx x)
  | 2 => Some (skuv1_MsgDeactivateProvider_case_2 discard wireType dAtA iNdEx x)
  | 3 => Some (skuv1_MsgDeactivateProvider_case_3 discard wireType dAtA iNdEx x)
  | _ => None
  end.

Definition skuv1_MsgDeactivateProvider_keep (f : bytes) (x : skuv1_MsgDeactivateProvider) :
    skuv1_MsgDeactivateProvider :=
  let 'mk_skuv1_MsgDeactivateProvider authority uuid limit u := x in mk_skuv1_MsgDeactivateProvider authority uuid
    limit (u ++ f).

Definition skuv1_MsgDeactivateProvider_unmarshal : bool → bytes → option skuv1_MsgDeactivateProvider → res (option
  skuv1_MsgDeactivateProvider) := rt_unmarshal skuv1_MsgDeactivateProvider_switch skuv1_MsgDeactivateProvider_keep.

Definition skuv1_MsgDeactivateProvider_wire (x : skuv1_MsgDeactivateProvider) : bytes :=
  enc_str 0xa (skuv1_MsgDeactivateProvider_Authority x) ++
  enc_str 0x12 (skuv1_MsgDeactivateProvider_Uuid x) ++
  enc_uint 0x18 (skuv1_MsgDeactivateProvider_Limit x) ++
  skuv1_MsgDeactivateProvider_unknownFields x.

(** ** MsgDeactivateProviderResponse *)

Definition skuv1_MsgDeactivateProviderResponse_size (x : option skuv1_MsgDeactivateProviderResponse) : Z :=
  match x with
  | None => 0
  | Some x =>
      rt_size_num (skuv1_MsgDeactivateProviderResponse_DeactivatedSkuCount x) +
      size_bool (skuv1_MsgDeactivateProviderResponse_HasMore x) +
      llen (skuv1_MsgDeactivateProviderResponse_unknownFields x)
  end.

Definition skuv1_MsgDeactivateProviderResponse_write (x : skuv1_MsgDeactivateProviderResponse) : writer :=
  rt_put_unknown (skuv1_MsgDeactivateProviderResponse_unknownFields x) ;;>
  if_true (skuv1_MsgDeactivateProviderResponse_HasMore x) (put_bool 0x10 (skuv1_MsgDeactivateProviderResponse_HasMore x)) ;;>
  if_nonzero (skuv1_MsgDeactivateProviderResponse_DeactivatedSkuCount x) (rt_put_uint 0x8 (skuv1_MsgDeactivateProviderResponse_DeactivatedSkuCount x)).

Definition skuv1_MsgDeactivateProviderResponse_marshal : bytes → option skuv1_MsgDeactivateProviderResponse → res
  bytes := rt_marshal skuv1_MsgDeactivateProviderResponse_size skuv1_MsgDeactivateProviderResponse_write.

Definition skuv1_MsgDeactivateProviderResponse_case_1 (discard : bool) (wireType : Z) (dAtA : bytes) (iNdEx : Z) (x :
    skuv1_MsgDeactivateProviderResponse) : res (skuv1_MsgDeactivateProviderResponse * Z) :=
  let 'mk_skuv1_MsgDeactivateProviderResponse deactivatedSkuCount hasMore u := x in
  '(v, iNdEx) ← get_uint wireType dAtA iNdEx;
  Ok (mk_skuv1_MsgDeactivateProviderResponse v hasMore u, iNdEx).

Definition skuv1_MsgDeactivateProviderResponse_case_2 (discard : bool) (wireType : Z) (dAtA : bytes) (iNdEx : Z) (x :
    skuv1_MsgDeactivateProviderResponse) : res (skuv1_MsgDeactivateProviderResponse * Z) :=
  let 'mk_skuv1_MsgDeactivateProviderResponse deactivatedSkuCount hasMore u := x in
  '(v, iNdEx) ← get_bool wireType dAtA iNdEx;
  Ok (mk_skuv1_MsgDeactivateProviderResponse deactivatedSkuCount v u, iNdEx).

Definition skuv1_MsgDeactivateProviderResponse_switch (discard : bool) (fieldNum wireType : Z) (dAtA : bytes) (iNdEx :
    Z) (x : skuv1_MsgDeactivateProviderResponse) : option (res (skuv1_MsgDeactivateProviderResponse * Z)) :=
  match fieldNum with
  | 1 => Some (skuv1_MsgDeactivateProviderResponse_case_1 discard wireType dAtA iNdEx x)
  | 2 => Some (skuv1_MsgDeactivateProviderResponse_case_2 discard wireType dAtA iNdEx x)
  | _ => None
  end.

Definition skuv1_MsgDeactivateProviderResponse_keep (f : bytes) (x : skuv1_MsgDeactivateProviderResponse) :
    skuv1_MsgDeactivateProviderResponse :=
  let 'mk_skuv1_MsgDeactivateProviderResponse deactivatedSkuCount hasMore u := x in
    mk_skuv1_MsgDeactivateProviderResponse deactivatedSkuCount hasMore (u ++ f).

Definition skuv1_MsgDeactivateProviderResponse_unmarshal : bool → bytes → option skuv1_MsgDeactivateProviderResponse →
  res (option skuv1_MsgDeactivateProviderResponse) := rt_unmarshal skuv1_MsgDeactivateProviderResponse_switch
  skuv1_MsgDeactivateProviderResponse_keep.

Definition skuv1_MsgDeactivateProviderResponse_wire (x : skuv1_MsgDeactivateProviderResponse) : bytes :=
  enc_uint 0x8 (skuv1_MsgDeactivateProviderResponse_DeactivatedSkuCount x) ++
  enc_bool 0x10 (skuv1_MsgDeactivateProviderResponse_HasMore x) ++
  skuv1_MsgDeactivateProviderResponse_unknownFields x.

(** ** MsgCreateSKU *)

Definition skuv1_MsgCreateSKU_size (x : option skuv1_MsgCreateSKU) : Z :=
  match x with
  | None => 0
  | Some x =>
      rt_size_str (skuv1_MsgCreateSKU_Authority x) +
      rt_size_str (skuv1_MsgCreateSKU_ProviderUuid x) +
      rt_size_str (skuv1_MsgCreateSKU_Name x) +
      rt_size_num (skuv1_MsgCreateSKU_Unit x) +
      size_opt (skuv1_MsgCreateSKU_BasePrice x) (λ e, rt_size_len (options_Size api_Coin_size (Some e))) +
      rt_size_str (skuv1_MsgCreateSKU_MetaHash x) +
      llen (skuv1_MsgCreateSKU_unknownFields x)
  end.

Definition skuv1_MsgCreateSKU_write (x : skuv1_MsgCreateSKU) : writer :=
  rt_put_unknown (skuv1_MsgCreateSKU_unknownFields x) ;;>
  if_nonempty (skuv1_MsgCreateSKU_MetaHash x) (rt_put_bytes 0x32 (skuv1_MsgCreateSKU_MetaHash x)) ;;>
  if_some (skuv1_MsgCreateSKU_BasePrice x) (λ e, rt_put_msg 0x2a (options_Marshal api_Coin_marshal (Some e))) ;;>
  if_nonzero (skuv1_MsgCreateSKU_Unit x) (rt_put_uint 0x20 (skuv1_MsgCreateSKU_Unit x)) ;;>
  if_nonempty (skuv1_MsgCreateSKU_Name x) (rt_put_bytes 0x1a (skuv1_MsgCreateSKU_Name x)) ;;>
  if_nonempty (skuv1_MsgCreateSKU_ProviderUuid x) (rt_put_bytes 0x12 (skuv1_MsgCreateSKU_ProviderUuid x)) ;;>
  if_nonempty (skuv1_MsgCreateSKU_Authority x) (rt_put_bytes 0xa (skuv1_MsgCreateSKU_Authority x)).

Definition skuv1_MsgCreateSKU_marshal : bytes → option skuv1_MsgCreateSKU → res bytes := rt_marshal
  skuv1_MsgCreateSKU_size skuv1_MsgCreateSKU_write.

Definition skuv1_MsgCreateSKU_case_1 (discard : bool) (wireType : Z) (dAtA : bytes) (iNdEx : Z) (x :
    skuv1_MsgCreateSKU) : res (skuv1_MsgCreateSKU * Z) :=
  let 'mk_skuv1_MsgCreateSKU authority providerUuid name unit basePrice metaHash u := x in
  '(v, iNdEx) ← get_string wireType dAtA iNdEx;
  Ok (mk_skuv1_MsgCreateSKU v providerUuid name unit basePrice metaHash u, iNdEx).

Definition skuv1_MsgCreateSKU_case_2 (discard : bool) (wireType : Z) (dAtA : bytes) (iNdEx : Z) (x :
    skuv1_MsgCreateSKU) : res (skuv1_MsgCreateSKU * Z) :=
  let 'mk_skuv1_MsgCreateSKU authority providerUuid name unit basePrice metaHash u := x in
  '(v, iNdEx) ← get_string wireType dAtA iNdEx;
  Ok (mk_skuv1_MsgCreateSKU authority v name unit basePrice metaHash u, iNdEx).

Definition skuv1_MsgCreateSKU_case_3 (discard : bool) (wireType : Z) (dAtA : bytes) (iNdEx : Z) (x :
    skuv1_MsgCreateSKU) : res (skuv1_MsgCreateSKU * Z) :=
  let 'mk_skuv1_MsgCreateSKU authority providerUuid name unit basePrice metaHash u := x in
  '(v, iNdEx) ← get_string wireType dAtA iNdEx;
  Ok (mk_skuv1_MsgCreateSKU authority providerUuid v unit basePrice metaHash u, iNdEx).

Definition skuv1_MsgCreateSKU_case_4 (discard : bool) (wireType : Z) (dAtA : bytes) (iNdEx : Z) (x :
    skuv1_MsgCreateSKU) : res (skuv1_MsgCreateSKU * Z) :=
  let 'mk_skuv1_MsgCreateSKU authority providerUuid name unit basePrice metaHash u := x in
  '(v, iNdEx) ← get_enum wireType dAtA iNdEx;
  Ok (mk_skuv1_MsgCreateSKU authority providerUuid name v basePrice metaHash u, iNdEx).

Definition skuv1_MsgCreateSKU_case_5 (discard : bool) (wireType : Z) (dAtA : bytes) (iNdEx : Z) (x :
    skuv1_MsgCreateSKU) : res (skuv1_MsgCreateSKU * Z) :=
  let 'mk_skuv1_MsgCreateSKU authority providerUuid name unit basePrice metaHash u := x in
  '(v, iNdEx) ← rt_get_msg api_Coin_unmarshal api_Coin_new basePrice discard wireType dAtA iNdEx;
  Ok (mk_skuv1_MsgCreateSKU authority providerUuid name unit v metaHash u, iNdEx).

Definition skuv1_MsgCreateSKU_case_6 (discard : bool) (wireType : Z) (dAtA : bytes) (iNdEx : Z) (x :
    skuv1_MsgCreateSKU) : res (skuv1_MsgCreateSKU * Z) :=
  let 'mk_skuv1_MsgCreateSKU authority providerUuid name unit basePrice metaHash u := x in
  '(v, iNdEx) ← get_bytes wireType dAtA iNdEx;
  Ok (mk_skuv1_MsgCreateSKU authority providerUuid name unit basePrice v u, iNdEx).

Definition skuv1_MsgCreateSKU_switch (discard : bool) (fieldNum wireType : Z) (dAtA : bytes) (iNdEx : Z) (x :
    skuv1_MsgCreateSKU) : option (res (skuv1_MsgCreateSKU * Z)) :=
  match fieldNum with
  | 1 => Some (skuv1_MsgCreateSKU_case_1 discard wireType dAtA iNdEx x)
  | 2 => Some (skuv1_MsgCreateSKU_case_2 discard wireType dAtA iNdEx x)
  | 3 => Some (skuv1_MsgCreateSKU_case_3 discard wireType dAtA iNdEx x)
  | 4 => Some (skuv1_MsgCreateSKU_case_4 discard wireType dAtA iNdEx x)
  | 5 => Some (skuv1_MsgCreateSKU_case_5 discard wireType dAtA iNdEx x)
  | 6 => Some (skuv1_MsgCreateSKU_case_6 discard wireType dAtA iNdEx x)
  | _ => None
  end.

Definition skuv1_MsgCreateSKU_keep (f : bytes) (x : skuv1_MsgCreateSKU) : skuv1_MsgCreateSKU :=
  let 'mk_skuv1_MsgCreateSKU authority providerUuid name unit basePrice metaHash u := x in mk_skuv1_MsgCreateSKU
    authority providerUuid name unit basePrice metaHash (u ++ f).

Definition skuv1_MsgCreateSKU_unmarshal : bool → bytes → option skuv1_MsgCreateSKU → res (option skuv1_MsgCreateSKU)
  := rt_unmarshal skuv1_MsgCreateSKU_switch skuv1_MsgCreateSKU_keep.

Definition skuv1_MsgCreateSKU_wire (x : skuv1_MsgCreateSKU) : bytes :=
  enc_str 0xa (skuv1_MsgCreateSKU_Authority x) ++
  enc_str 0x12 (skuv1_MsgCreateSKU_ProviderUuid x) ++
  enc_str 0x1a (skuv1_MsgCreateSKU_Name x) ++
  enc_uint 0x20 (skuv1_MsgCreateSKU_Unit x) ++
  enc_opt (λ e, len_field 0x2a (api_Coin_wire e)) (skuv1_MsgCreateSKU_BasePrice x) ++
  enc_str 0x32 (skuv1_MsgCreateSKU_MetaHash x) ++
  skuv1_MsgCreateSKU_unknownFields x.

(** ** MsgCreateSKUResponse *)

Definition skuv1_MsgCreateSKUResponse_size (x : option skuv1_MsgCreateSKUResponse) : Z :=
  match x with
  | None => 0
  | Some x =>
      rt_size_str (skuv1_MsgCreateSKUResponse_Uuid x) +
      llen (skuv1_MsgCreateSKUResponse_unknownFields x)
  end.

Definition skuv1_MsgCreateSKUResponse_write (x : skuv1_MsgCreateSKUResponse) : writer :=
  rt_put_unknown (skuv1_MsgCreateSKUResponse_unknownFields x) ;;>
  if_nonempty (skuv1_MsgCreateSKUResponse_Uuid x) (rt_put_bytes 0xa (skuv1_MsgCreateSKUResponse_Uuid x)).

Definition skuv1_MsgCreateSKUResponse_marshal : bytes → option skuv1_MsgCreateSKUResponse → res bytes := rt_marshal
  skuv1_MsgCreateSKUResponse_size skuv1_MsgCreateSKUResponse_write.

Definition skuv1_MsgCreateSKUResponse_case_1 (discard : bool) (wireType : Z) (dAtA : bytes) (iNdEx : Z) (x :
    skuv1_MsgCreateSKUResponse) : res (skuv1_MsgCreateSKUResponse * Z) :=
  let 'mk_skuv1_MsgCreateSKUResponse uuid u := x in
  '(v, iNdEx) ← get_string wireType dAtA iNdEx;
  Ok (mk_skuv1_MsgCreateSKUResponse v u, iNdEx).

Definition skuv1_MsgCreateSKUResponse_switch (discard : bool) (fieldNum wireType : Z) (dAtA : bytes) (iNdEx : Z) (x :
    skuv1_MsgCreateSKUResponse) : option (res (skuv1_MsgCreateSKUResponse * Z)) :=
  match fieldNum with
  | 1 => Some (skuv1_MsgCreateSKUResponse_case_1 discard wireType dAtA iNdEx x)
  | _ => None
  end.

Definition skuv1_MsgCreateSKUResponse_keep (f : bytes) (x : skuv1_MsgCreateSKUResponse) : skuv1_MsgCreateSKUResponse
    :=
  let 'mk_skuv1_MsgCreateSKUResponse uuid u := x in mk_skuv1_MsgCreateSKUResponse uuid (u ++ f).

Definition skuv1_MsgCreateSKUResponse_unmarshal : bool → bytes → option skuv1_MsgCreateSKUResponse → res (option
  skuv1_MsgCreateSKUResponse) := rt_unmarshal skuv1_MsgCreateSKUResponse_switch skuv1_MsgCreateSKUResponse_keep.

Definition skuv1_MsgCreateSKUResponse_wire (x : skuv1_MsgCreateSKUResponse) : bytes :=
  enc_str 0xa (skuv1_MsgCreateSKUResponse_Uuid x) ++
  skuv1_MsgCreateSKUResponse_unknownFields x.

(** ** MsgUpdateSKU *)

Definition skuv1_MsgUpdateSKU_size (x : option skuv1_MsgUpdateSKU) : Z :=
  match x with
  | None => 0
  | Some x =>
      rt_size_str (skuv1_MsgUpdateSKU_Authority x) +
      rt_size_str (skuv1_MsgUpdateSKU_Uuid x) +
      rt_size_str (skuv1_MsgUpdateSKU_ProviderUuid x) +
      rt_size_str (skuv1_MsgUpdateSKU_Name x) +
      rt_size_num (skuv1_MsgUpdateSKU_Unit x) +
      size_opt (skuv1_MsgUpdateSKU_BasePrice x) (λ e, rt_size_len (options_Size api_Coin_size (Some e))) +
      rt_size_str (skuv1_MsgUpdateSKU_MetaHash x) +
      size_bool (skuv1_MsgUpdateSKU_Active x) +
      llen (skuv1_MsgUpdateSKU_unknownFields x)
  end.

Definition skuv1_MsgUpdateSKU_write (x : skuv1_MsgUpdateSKU) : writer :=
  rt_put_unknown (skuv1_MsgUpdateSKU_unknownFields x) ;;>
  if_true (skuv1_MsgUpdateSKU_Active x) (put_bool 0x40 (skuv1_MsgUpdateSKU_Active x)) ;;>
  if_nonempty (skuv1_MsgUpdateSKU_MetaHash x) (rt_put_bytes 0x3a (skuv1_MsgUpdateSKU_MetaHash x)) ;;>
  if_some (skuv1_MsgUpdateSKU_BasePrice x) (λ e, rt_put_msg 0x32 (options_Marshal api_Coin_marshal (Some e))) ;;>
  if_nonzero (skuv1_MsgUpdateSKU_Unit x) (rt_put_uint 0x28 (skuv1_MsgUpdateSKU_Unit x)) ;;>
  if_nonempty (skuv1_MsgUpdateSKU_Name x) (rt_put_bytes 0x22 (skuv1_MsgUpdateSKU_Name x)) ;;>
  if_nonempty (skuv1_MsgUpdateSKU_ProviderUuid x) (rt_put_bytes 0x1a (skuv1_MsgUpdateSKU_ProviderUuid x)) ;;>
  if_nonempty (skuv1_MsgUpdateSKU_Uuid x) (rt_put_bytes 0x12 (skuv1_MsgUpdateSKU_Uuid x)) ;;>
  if_nonempty (skuv1_MsgUpdateSKU_Authority x) (rt_put_bytes 0xa (skuv1_MsgUpdateSKU_Authority x)).

Definition skuv1_MsgUpdateSKU_marshal : bytes → option skuv1_MsgUpdateSKU → res bytes := rt_marshal
  skuv1_MsgUpdateSKU_size skuv1_MsgUpdateSKU_write.

Definition skuv1_MsgUpdateSKU_case_1 (discard : bool) (wireType : Z) (dAtA : bytes) (iNdEx : Z) (x :
    skuv1_MsgUpdateSKU) : res (skuv1_MsgUpdateSKU * Z) :=
  let 'mk_skuv1_MsgUpdateSKU authority uuid providerUuid name unit basePrice metaHash active u := x in
  '(v, iNdEx) ← get_string wireType dAtA iNdEx;
  Ok (mk_skuv1_MsgUpdateSKU v uuid providerUuid name unit basePrice metaHash active u, iNdEx).

Definition skuv1_MsgUpdateSKU_case_2 (discard : bool) (wireType : Z) (dAtA : bytes) (iNdEx : Z) (x :
    skuv1_MsgUpdateSKU) : res (skuv1_MsgUpdateSKU * Z) :=
  let 'mk_skuv1_MsgUpdateSKU authority uuid providerUuid name unit basePrice metaHash active u := x in
  '(v, iNdEx) ← get_string wireType dAtA iNdEx;
  Ok (mk_skuv1_MsgUpdateSKU authority v providerUuid name unit basePrice metaHash active u, iNdEx).

Definition skuv1_MsgUpdateSKU_case_3 (discard : bool) (wireType : Z) (dAtA : bytes) (iNdEx : Z) (x :
    skuv1_MsgUpdateSKU) : res (skuv1_MsgUpdateSKU * Z) :=
  let 'mk_skuv1_MsgUpdateSKU authority uuid providerUuid name unit basePrice metaHash active u := x in
  '(v, iNdEx) ← get_string wireType dAtA iNdEx;
  Ok (mk_skuv1_MsgUpdateSKU authority uuid v name unit basePrice metaHash active u, iNdEx).

Definition skuv1_MsgUpdateSKU_case_4 (discard : bool) (wireType : Z) (dAtA : bytes) (iNdEx : Z) (x :
    skuv1_MsgUpdateSKU) : res (skuv1_MsgUpdateSKU * Z) :=
  let 'mk_skuv1_MsgUpdateSKU authority uuid providerUuid name unit basePrice metaHash active u := x in
  '(v, iNdEx) ← get_string wireType dAtA iNdEx;
  Ok (mk_skuv1_MsgUpdateSKU authority uuid providerUuid v unit basePrice metaHash active u, iNdEx).

Definition skuv1_MsgUpdateSKU_case_5 (discard : bool) (wireType : Z) (dAtA : bytes) (iNdEx : Z) (x :
    skuv1_MsgUpdateSKU) : res (skuv1_MsgUpdateSKU * Z) :=
  let 'mk_skuv1_MsgUpdateSKU authority uuid providerUuid name unit basePrice metaHash active u := x in
  '(v, iNdEx) ← get_enum wireType dAtA iNdEx;
  Ok (mk_skuv1_MsgUpdateSKU authority uuid providerUuid name v basePrice metaHash active u, iNdEx).

Definition skuv1_MsgUpdateSKU_case_6 (discard : bool) (wireType : Z) (dAtA : bytes) (iNdEx : Z) (x :
    skuv1_MsgUpdateSKU) : res (skuv1_MsgUpdateSKU * Z) :=
  let 'mk_skuv1_MsgUpdateSKU authority uuid providerUuid name unit basePrice metaHash active u := x in
  '(v, iNdEx) ← rt_get_msg api_Coin_unmarshal api_Coin_new basePrice discard wireType dAtA iNdEx;
  Ok (mk_skuv1_MsgUpdateSKU authority uuid providerUuid name unit v metaHash active u, iNdEx).

Definition skuv1_MsgUpdateSKU_case_7 (discard : bool) (wireType : Z) (dAtA : bytes) (iNdEx : Z) (x :
    skuv1_MsgUpdateSKU) : res (skuv1_MsgUpdateSKU * Z) :=
  let 'mk_skuv1_MsgUpdateSKU authority uuid providerUuid name unit basePrice metaHash active u := x in
  '(v, iNdEx) ← get_bytes wireType dAtA iNdEx;
  Ok (mk_skuv1_MsgUpdateSKU authority uuid providerUuid name unit basePrice v active u, iNdEx).

Definition skuv1_MsgUpdateSKU_case_8 (discard : bool) (wireType : Z) (dAtA : bytes) (iNdEx : Z) (x :
    skuv1_MsgUpdateSKU) : res (skuv1_MsgUpdateSKU * Z) :=
  let 'mk_skuv1_MsgUpdateSKU authority uuid providerUuid name unit basePrice metaHash active u := x in
  '(v, iNdEx) ← get_bool wireType dAtA iNdEx;
  Ok (mk_skuv1_MsgUpdateSKU authority uuid providerUuid name unit basePrice metaHash v u, iNdEx).

Definition skuv1_MsgUpdateSKU_switch (discard : bool) (fieldNum wireType : Z) (dAtA : bytes) (iNdEx : Z) (x :
    skuv1_MsgUpdateSKU) : option (res (skuv1_MsgUpdateSKU * Z)) :=
  match fieldNum with
  | 1 => Some (skuv1_MsgUpdateSKU_case_1 discard wireType dAtA iNdEx x)
  | 2 => Some (skuv1_MsgUpdateSKU_case_2 discard wireType dAtA iNdEx x)
  | 3 => Some (skuv1_MsgUpdateSKU_case_3 discard wireType dAtA iNdEx x)
  | 4 => Some (skuv1_MsgUpdateSKU_case_4 discard wireType dAtA iNdEx x)
  | 5 => Some (skuv1_MsgUpdateSKU_case_5 discard wireType dAtA iNdEx x)
  | 6 => Some (skuv1_MsgUpdateSKU_case_6 discard wireType dAtA iNdEx x)
  | 7 => Some (skuv1_MsgUpdateSKU_case_7 discard wireType dAtA iNdEx x)
  | 8 => Some (skuv1_MsgUpdateSKU_case_8 discard wireType dAtA iNdEx x)
  | _ => None
  end.

Definition skuv1_MsgUpdateSKU_keep (f : bytes) (x : skuv1_MsgUpdateSKU) : skuv1_MsgUpdateSKU :=
  let 'mk_skuv1_MsgUpdateSKU authority uuid providerUuid name unit basePrice metaHash active u := x in
    mk_skuv1_MsgUpdateSKU authority uuid providerUuid name unit basePrice metaHash active (u ++ f).

Definition skuv1_MsgUpdateSKU_unmarshal : bool → bytes → option skuv1_MsgUpdateSKU → res (option skuv1_MsgUpdateSKU)
  := rt_unmarshal skuv1_MsgUpdateSKU_switch skuv1_MsgUpdateSKU_keep.

Definition skuv1_MsgUpdateSKU_wire (x : skuv1_MsgUpdateSKU) : bytes :=
  enc_str 0xa (skuv1_MsgUpdateSKU_Authority x) ++
  enc_str 0x12 (skuv1_MsgUpdateSKU_Uuid x) ++
  enc_str 0x1a (skuv1_MsgUpdateSKU_ProviderUuid x) ++
  enc_str 0x22 (skuv1_MsgUpdateSKU_Name x) ++
  enc_uint 0x28 (skuv1_MsgUpdateSKU_Unit x) ++
  enc_opt (λ e, len_field 0x32 (api_Coin_wire e)) (skuv1_MsgUpdateSKU_BasePrice x) ++
  enc_str 0x3a (skuv1_MsgUpdateSKU_MetaHash x) ++
  enc_bool 0x40 (skuv1_MsgUpdateSKU_Active x) ++
  skuv1_MsgUpdateSKU_unknownFields x.

(** ** MsgUpdateSKUResponse *)

Definition skuv1_MsgUpdateSKUResponse_size (x : option skuv1_MsgUpdateSKUResponse) : Z :=
  match x with
  | None => 0
  | Some x =>
      llen (skuv1_MsgUpdateSKUResponse_unknownFields x)
  end.

Definition skuv1_MsgUpdateSKUResponse_write (x : skuv1_MsgUpdateSKUResponse) : writer :=
  rt_put_unknown (skuv1_MsgUpdateSKUResponse_unknownFields x).

Definition skuv1_MsgUpdateSKUResponse_marshal : bytes → option skuv1_MsgUpdateSKUResponse → res bytes := rt_marshal
  skuv1_MsgUpdateSKUResponse_size skuv1_MsgUpdateSKUResponse_write.

Definition skuv1_MsgUpdateSKUResponse_switch (discard : bool) (fieldNum wireType : Z) (dAtA : bytes) (iNdEx : Z) (x :
    skuv1_MsgUpdateSKUResponse) : option (res (skuv1_MsgUpdateSKUResponse * Z)) :=
  None.

Definition skuv1_MsgUpdateSKUResponse_keep (f : bytes) (x : skuv1_MsgUpdateSKUResponse) : skuv1_MsgUpdateSKUResponse
    :=
  let 'mk_skuv1_MsgUpdateSKUResponse u := x in mk_skuv1_MsgUpdateSKUResponse (u ++ f).

Definition skuv1_MsgUpdateSKUResponse_unmarshal : bool → bytes → option skuv1_MsgUpdateSKUResponse → res (option
  skuv1_MsgUpdateSKUResponse) := rt_unmarshal skuv1_MsgUpdateSKUResponse_switch skuv1_MsgUpdateSKUResponse_keep.

Definition skuv1_MsgUpdateSKUResponse_wire (x : skuv1_MsgUpdateSKUResponse) : bytes :=
  skuv1_MsgUpdateSKUResponse_unknownFields x.

(** ** MsgDeactivateSKU *)

Definition skuv1_MsgDeactivateSKU_size (x : option skuv1_MsgDeactivateSKU) : Z :=
  match x with
  | None => 0
  | Some x =>
      rt_size_str (skuv1_MsgDeactivateSKU_Authority x) +
      rt_size_str (skuv1_MsgDeactivateSKU_Uuid x) +
      llen (skuv1_MsgDeactivateSKU_unknownFields x)
  end.

Definition skuv1_MsgDeactivateSKU_write (x : skuv1_MsgDeactivateSKU) : writer :=
  rt_put_unknown (skuv1_MsgDeactivateSKU_unknownFields x) ;;>
  if_nonempty (skuv1_MsgDeactivateSKU_Uuid x) (rt_put_bytes 0x12 (skuv1_MsgDeactivateSKU_Uuid x)) ;;>
  if_nonempty (skuv1_MsgDeactivateSKU_Authority x) (rt_put_bytes 0xa (skuv1_MsgDeactivateSKU_Authority x)).

Definition skuv1_MsgDeactivateSKU_marshal : bytes → option skuv1_MsgDeactivateSKU → res bytes := rt_marshal
  skuv1_MsgDeactivateSKU_size skuv1_MsgDeactivateSKU_write.

Definition skuv1_MsgDeactivateSKU_case_1 (discard : bool) (wireType : Z) (dAtA : bytes) (iNdEx : Z) (x :
    skuv1_MsgDeactivateSKU) : res (skuv1_MsgDeactivateSKU * Z) :=
  let 'mk_skuv1_MsgDeactivateSKU authority uuid u := x in
  '(v, iNdEx) ← get_string wireType dAtA iNdEx;
  Ok (mk_skuv1_MsgDeactivateSKU v uuid u, iNdEx).

Definition skuv1_MsgDeactivateSKU_case_2 (discard : bool) (wireType : Z) (dAtA : bytes) (iNdEx : Z) (x :
    skuv1_MsgDeactivateSKU) : res (skuv1_MsgDeactivateSKU * Z) :=
  let 'mk_skuv1_MsgDeactivateSKU authority uuid u := x in
  '(v, iNdEx) ← get_string wireType dAtA iNdEx;
  Ok (mk_skuv1_MsgDeactivateSKU authority v u, iNdEx).

Definition skuv1_MsgDeactivateSKU_switch (discard : bool) (fieldNum wireType : Z) (dAtA : bytes) (iNdEx : Z) (x :
    skuv1_MsgDeactivateSKU) : option (res (skuv1_MsgDeactivateSKU * Z)) :=
  match fieldNum with
  | 1 => Some (skuv1_MsgDeactivateSKU_case_1 discard wireType dAtA iNdEx x)
  | 2 => Some (skuv1_MsgDeactivateSKU_case_2 discard wireType dAtA iNdEx x)
  | _ => None
  end.

Definition skuv1_MsgDeactivateSKU_keep (f : bytes) (x : skuv1_MsgDeactivateSKU) : skuv1_MsgDeactivateSKU :=
  let 'mk_skuv1_MsgDeactivateSKU authority uuid u := x in mk_skuv1_MsgDeactivateSKU authority uuid (u ++ f).

Definition skuv1_MsgDeactivateSKU_unmarshal : bool → bytes → option skuv1_MsgDeactivateSKU → res (option
  skuv1_MsgDeactivateSKU) := rt_unmarshal skuv1_MsgDeactivateSKU_switch skuv1_MsgDeactivateSKU_keep.

Definition skuv1_MsgDeactivateSKU_wire (x : skuv1_MsgDeactivateSKU) : bytes :=
  enc_str 0xa (skuv1_MsgDeactivateSKU_Authority x) ++
  enc_str 0x12 (skuv1_MsgDeactivateSKU_Uuid x) ++
  skuv1_MsgDeactivateSKU_unknownFields x.

(** ** MsgDeactivateSKUResponse *)

Definition skuv1_MsgDeactivateSKUResponse_size (x : option skuv1_MsgDeactivateSKUResponse) : Z :=
  match x with
  | None => 0
  | Some x =>
      llen (skuv1_MsgDeactivateSKUResponse_unknownFields x)
  end.

Definition skuv1_MsgDeactivateSKUResponse_write (x : skuv1_MsgDeactivateSKUResponse) : writer :=
  rt_put_unknown (skuv1_MsgDeactivateSKUResponse_unknownFields x).

Definition skuv1_MsgDeactivateSKUResponse_marshal : bytes → option skuv1_MsgDeactivateSKUResponse → res bytes :=
  rt_marshal skuv1_MsgDeactivateSKUResponse_size skuv1_MsgDeactivateSKUResponse_write.

Definition skuv1_MsgDeactivateSKUResponse_switch (discard : bool) (fieldNum wireType : Z) (dAtA : bytes) (iNdEx : Z)
    (x : skuv1_MsgDeactivateSKUResponse) : option (res (skuv1_MsgDeactivateSKUResponse * Z)) :=
  None.

Definition skuv1_MsgDeactivateSKUResponse_keep (f : bytes) (x : skuv1_MsgDeactivateSKUResponse) :
    skuv1_MsgDeactivateSKUResponse :=
  let 'mk_skuv1_MsgDeactivateSKUResponse u := x in mk_skuv1_MsgDeactivateSKUResponse (u ++ f).

Definition skuv1_MsgDeactivateSKUResponse_unmarshal : bool → bytes → option skuv1_MsgDeactivateSKUResponse → res
  (option skuv1_MsgDeactivateSKUResponse) := rt_unmarshal skuv1_MsgDeactivateSKUResponse_switch
  skuv1_MsgDeactivateSKUResponse_keep.

Definition skuv1_MsgDeactivateSKUResponse_wire (x : skuv1_MsgDeactivateSKUResponse) : bytes :=
  skuv1_MsgDeactivateSKUResponse_unknownFields x.

(** ** MsgUpdateParams *)

Definition skuv1_MsgUpdateParams_size (x : option skuv1_MsgUpdateParams) : Z :=
  match x with
  | None => 0
  | Some x =>
      rt_size_str (skuv1_MsgUpdateParams_Authority x) +
      size_opt (skuv1_MsgUpdateParams_Params x) (λ e, rt_size_len (options_Size skuv1_Params_size (Some e))) +
      llen (skuv1_MsgUpdateParams_unknownFields x)
  end.

Definition skuv1_MsgUpdateParams_write (x : skuv1_MsgUpdateParams) : writer :=
  rt_put_unknown (skuv1_MsgUpdateParams_unknownFields x) ;;>
  if_some (skuv1_MsgUpdateParams_Params x) (λ e, rt_put_msg 0x12 (options_Marshal skuv1_Params_marshal (Some e))) ;;>
  if_nonempty (skuv1_MsgUpdateParams_Authority x) (rt_put_bytes 0xa (skuv1_MsgUpdateParams_Authority x)).

Definition skuv1_MsgUpdateParams_marshal : bytes → option skuv1_MsgUpdateParams → res bytes := rt_marshal
  skuv1_MsgUpdateParams_size skuv1_MsgUpdateParams_write.

Definition skuv1_MsgUpdateParams_case_1 (discard : bool) (wireType : Z) (dAtA : bytes) (iNdEx : Z) (x :
    skuv1_MsgUpdateParams) : res (skuv1_MsgUpdateParams * Z) :=
  let 'mk_skuv1_MsgUpdateParams authority params u := x in
  '(v, iNdEx) ← get_string wireType dAtA iNdEx;
  Ok (mk_skuv1_MsgUpdateParams v params u, iNdEx).

Definition skuv1_MsgUpdateParams_case_2 (discard : bool) (wireType : Z) (dAtA : bytes) (iNdEx : Z) (x :
    skuv1_MsgUpdateParams) : res (skuv1_MsgUpdateParams * Z) :=
  let 'mk_skuv1_MsgUpdateParams authority params u := x in
  '(v, iNdEx) ← rt_get_msg skuv1_Params_unmarshal skuv1_Params_new params discard wireType dAtA iNdEx;
  Ok (mk_skuv1_MsgUpdateParams authority v u, iNdEx).

Definition skuv1_MsgUpdateParams_switch (discard : bool) (fieldNum wireType : Z) (dAtA : bytes) (iNdEx : Z) (x :
    skuv1_MsgUpdateParams) : option (res (skuv1_MsgUpdateParams * Z)) :=
  match fieldNum with
  | 1 => Some (skuv1_MsgUpdateParams_case_1 discard wireType dAtA iNdEx x)
  | 2 => Some (skuv1_MsgUpdateParams_case_2 discard wireType dAtA iNdEx x)
  | _ => None
  end.

Definition skuv1_MsgUpdateParams_keep (f : bytes) (x : skuv1_MsgUpdateParams) : skuv1_MsgUpdateParams :=
  let 'mk_skuv1_MsgUpdateParams authority params u := x in mk_skuv1_MsgUpdateParams authority params (u ++ f).

Definition skuv1_MsgUpdateParams_unmarshal : bool → bytes → option skuv1_MsgUpdateParams → res (option
  skuv1_MsgUpdateParams) := rt_unmarshal skuv1_MsgUpdateParams_switch skuv1_MsgUpdateParams_keep.

Definition skuv1_MsgUpdateParams_wire (x : skuv1_MsgUpdateParams) : bytes :=
  enc_str 0xa (skuv1_MsgUpdateParams_Authority x) ++
  enc_opt (λ e, len_field 0x12 (skuv1_Params_wire e)) (skuv1_MsgUpdateParams_Params x) ++
  skuv1_MsgUpdateParams_unknownFields x.

(** ** MsgUpdateParamsResponse *)

Definition skuv1_MsgUpdateParamsResponse_size (x : option skuv1_MsgUpdateParamsResponse) : Z :=
  match x with
  | None => 0
  | Some x =>
      llen (skuv1_MsgUpdateParamsResponse_unknownFields x)
  end.

Definition skuv1_MsgUpdateParamsResponse_write (x : skuv1_MsgUpdateParamsResponse) : writer :=
  rt_put_unknown (skuv1_MsgUpdateParamsResponse_unknownFields x).

Definition skuv1_MsgUpdateParamsResponse_marshal : bytes → option skuv1_MsgUpdateParamsResponse → res bytes :=
  rt_marshal skuv1_MsgUpdateParamsResponse_size skuv1_MsgUpdateParamsResponse_write.

Definition skuv1_MsgUpdateParamsResponse_switch (discard : bool) (fieldNum wireType : Z) (dAtA : bytes) (iNdEx : Z) (x
    : skuv1_MsgUpdateParamsResponse) : option (res (skuv1_MsgUpdateParamsResponse * Z)) :=
  None.

Definition skuv1_MsgUpdateParamsResponse_keep (f : bytes) (x : skuv1_MsgUpdateParamsResponse) :
    skuv1_MsgUpdateParamsResponse :=
  let 'mk_skuv1_MsgUpdateParamsResponse u := x in mk_skuv1_MsgUpdateParamsResponse (u ++ f).

Definition skuv1_MsgUpdateParamsResponse_unmarshal : bool → bytes → option skuv1_MsgUpdateParamsResponse → res (option
  skuv1_MsgUpdateParamsResponse) := rt_unmarshal skuv1_MsgUpdateParamsResponse_switch
  skuv1_MsgUpdateParamsResponse_keep.

Definition skuv1_MsgUpdateParamsResponse_wire (x : skuv1_MsgUpdateParamsResponse) : bytes :=
  skuv1_MsgUpdateParamsResponse_unknownFields x.

(** ** Module *)

Definition sku_modulev1_Module_size (x : option sku_modulev1_Module) : Z :=
  match x with
  | None => 0
  | Some x =>
      llen (sku_modulev1_Module_unknownFields x)
  end.

Definition sku_modulev1_Module_write (x : sku_modulev1_Module) : writer :=
  rt_put_unknown (sku_modulev1_Module_unknownFields x).

Definition sku_modulev1_Module_marshal : bytes → option sku_modulev1_Module → res bytes := rt_marshal
  sku_modulev1_Module_size sku_modulev1_Module_write.

Definition sku_modulev1_Module_switch (discard : bool) (fieldNum wireType : Z) (dAtA : bytes) (iNdEx : Z) (x :
    sku_modulev1_Module) : option (res (sku_modulev1_Module * Z)) :=
  None.

Definition sku_modulev1_Module_keep (f : bytes) (x : sku_modulev1_Module) : sku_modulev1_Module :=
  let 'mk_sku_modulev1_Module u := x in mk_sku_modulev1_Module (u ++ f).

Definition sku_modulev1_Module_unmarshal : bool → bytes → option sku_modulev1_Module → res (option
  sku_modulev1_Module) := rt_unmarshal sku_modulev1_Module_switch sku_modulev1_Module_keep.

Definition sku_modulev1_Module_wire (x : sku_modulev1_Module) : bytes :=
  sku_modulev1_Module_unknownFields x.

End codec.

(** ** Lawful messages *)

Section laws.
Context `{RL : RuntimeLaws} `{EL : ExternalLaws}.

Definition skuv1_Params_fits (x : skuv1_Params) : Prop := unknown_fits 1 (skuv1_Params_unknownFields x).

#[global] Instance skuv1_Params_lawful :
  api_lawful skuv1_Params_fits skuv1_Params_size skuv1_Params_marshal skuv1_Params_unmarshal skuv1_Params_wire
    skuv1_Params_new.
Proof.
  solve_api. intros [allowedList u]; open_api Hl.
  api_strings 1 (λ l, mk_skuv1_Params l []). api_unknown 1 (λ u, mk_skuv1_Params allowedList u).
Qed.

Definition skuv1_Provider_fits (x : skuv1_Provider) : Prop := unknown_fits 6 (skuv1_Provider_unknownFields x).

#[global] Instance skuv1_Provider_lawful :
  api_lawful skuv1_Provider_fits skuv1_Provider_size skuv1_Provider_marshal skuv1_Provider_unmarshal
    skuv1_Provider_wire skuv1_Provider_new.
Proof.
  solve_api. intros [uuid address payoutAddress metaHash active apiUrl u]; open_api Hl.
  api_string 1. api_string 2. api_string 3. api_bytes 4. api_bool 5. api_string 6. api_unknown 6 (λ u,
  mk_skuv1_Provider uuid address payoutAddress metaHash active apiUrl u).
Qed.

Definition skuv1_SKU_fits (x : skuv1_SKU) : Prop := is_i32 (skuv1_SKU_Unit x) ∧ fits_opt api_Coin_fits
  (skuv1_SKU_BasePrice x) ∧ unknown_fits 7 (skuv1_SKU_unknownFields x).

#[global] Instance skuv1_SKU_lawful :
  api_lawful skuv1_SKU_fits skuv1_SKU_size skuv1_SKU_marshal skuv1_SKU_unmarshal skuv1_SKU_wire skuv1_SKU_new.
Proof.
  solve_api. intros [uuid providerUuid name unit basePrice metaHash active u]; open_api Hl.
  api_string 1. api_string 2. api_string 3. api_enum 4. api_msg 5 api_Coin_unmarshal api_Coin_new (λ l, mk_skuv1_SKU
  uuid providerUuid name unit l "" false []) Hl. api_bytes 6. api_bool 7. api_unknown 7 (λ u, mk_skuv1_SKU uuid
  providerUuid name unit basePrice metaHash active u).
Qed.

Definition skuv1_MsgCreateProvider_fits (x : skuv1_MsgCreateProvider) : Prop := unknown_fits 5
  (skuv1_MsgCreateProvider_unknownFields x).

#[global] Instance skuv1_MsgCreateProvider_lawful :
  api_lawful skuv1_MsgCreateProvider_fits skuv1_MsgCreateProvider_size skuv1_MsgCreateProvider_marshal
    skuv1_MsgCreateProvider_unmarshal skuv1_MsgCreateProvider_wire skuv1_MsgCreateProvider_new.
Proof.
  solve_api. intros [authority address payoutAddress metaHash apiUrl u]; open_api Hl.
  api_string 1. api_string 2. api_string 3. api_bytes 4. api_string 5. api_unknown 5 (λ u, mk_skuv1_MsgCreateProvider
  authority address payoutAddress metaHash apiUrl u).
Qed.

Definition skuv1_MsgCreateProviderResponse_fits (x : skuv1_MsgCreateProviderResponse) : Prop := unknown_fits 1
  (skuv1_MsgCreateProviderResponse_unknownFields x).

#[global] Instance skuv1_MsgCreateProviderResponse_lawful :
  api_lawful skuv1_MsgCreateProviderResponse_fits skuv1_MsgCreateProviderResponse_size
    skuv1_MsgCreateProviderResponse_marshal skuv1_MsgCreateProviderResponse_unmarshal
    skuv1_MsgCreateProviderResponse_wire skuv1_MsgCreateProviderResponse_new.
Proof.
  solve_api. intros [uuid u]; open_api Hl.
  api_string 1. api_unknown 1 (λ u, mk_skuv1_MsgCreateProviderResponse uuid u).
Qed.

Definition skuv1_MsgUpdateProvider_fits (x : skuv1_MsgUpdateProvider) : Prop := unknown_fits 7
  (skuv1_MsgUpdateProvider_unknownFields x).

#[global] Instance skuv1_MsgUpdateProvider_lawful :
  api_lawful skuv1_MsgUpdateProvider_fits skuv1_MsgUpdateProvider_size skuv1_MsgUpdateProvider_marshal
    skuv1_MsgUpdateProvider_unmarshal skuv1_MsgUpdateProvider_wire skuv1_MsgUpdateProvider_new.
Proof.
  solve_api. intros [authority uuid address payoutAddress metaHash active apiUrl u]; open_api Hl.
  api_string 1. api_string 2. api_string 3. api_string 4. api_bytes 5. api_bool 6. api_string 7. api_unknown 7 (λ u,
  mk_skuv1_MsgUpdateProvider authority uuid address payoutAddress metaHash active apiUrl u).
Qed.

Definition skuv1_MsgUpdateProviderResponse_fits (x : skuv1_MsgUpdateProviderResponse) : Prop := unknown_fits 0
  (skuv1_MsgUpdateProviderResponse_unknownFields x).

#[global] Instance skuv1_MsgUpdateProviderResponse_lawful :
  api_lawful skuv1_MsgUpdateProviderResponse_fits skuv1_MsgUpdateProviderResponse_size
    skuv1_MsgUpdateProviderResponse_marshal skuv1_MsgUpdateProviderResponse_unmarshal
    skuv1_MsgUpdateProviderResponse_wire skuv1_MsgUpdateProviderResponse_new.
Proof. solve_api. intros [u] Hu _. change (unknown_fits 0 u) in Hu. api_unknown 0 mk_skuv1_MsgUpdateProviderResponse. Qed.

Definition skuv1_MsgDeactivateProvider_fits (x : skuv1_MsgDeactivateProvider) : Prop := is_u64
  (skuv1_MsgDeactivateProvider_Limit x) ∧ unknown_fits 3 (skuv1_MsgDeactivateProvider_unknownFields x).

#[global] Instance skuv1_MsgDeactivateProvider_lawful :
  api_lawful skuv1_MsgDeactivateProvider_fits skuv1_MsgDeactivateProvider_size skuv1_MsgDeactivateProvider_marshal
    skuv1_MsgDeactivateProvider_unmarshal skuv1_MsgDeactivateProvider_wire skuv1_MsgDeactivateProvider_new.
Proof.
  solve_api. intros [authority uuid limit u]; open_api Hl.
  api_string 1. api_string 2. api_uint 3. api_unknown 3 (λ u, mk_skuv1_MsgDeactivateProvider authority uuid limit u).
Qed.

Definition skuv1_MsgDeactivateProviderResponse_fits (x : skuv1_MsgDeactivateProviderResponse) : Prop := is_u64
  (skuv1_MsgDeactivateProviderResponse_DeactivatedSkuCount x) ∧ unknown_fits 2
  (skuv1_MsgDeactivateProviderResponse_unknownFields x).

#[global] Instance skuv1_MsgDeactivateProviderResponse_lawful :
  api_lawful skuv1_MsgDeactivateProviderResponse_fits skuv1_MsgDeactivateProviderResponse_size
    skuv1_MsgDeactivateProviderResponse_marshal skuv1_MsgDeactivateProviderResponse_unmarshal
    skuv1_MsgDeactivateProviderResponse_wire skuv1_MsgDeactivateProviderResponse_new.
Proof.
  solve_api. intros [deactivatedSkuCount hasMore u]; open_api Hl.
  api_uint 1. api_bool 2. api_unknown 2 (λ u, mk_skuv1_MsgDeactivateProviderResponse deactivatedSkuCount hasMore u).
Qed.

Definition skuv1_MsgCreateSKU_fits (x : skuv1_MsgCreateSKU) : Prop := is_i32 (skuv1_MsgCreateSKU_Unit x) ∧ fits_opt
  api_Coin_fits (skuv1_MsgCreateSKU_BasePrice x) ∧ unknown_fits 6 (skuv1_MsgCreateSKU_unknownFields x).

#[global] Instance skuv1_MsgCreateSKU_lawful :
  api_lawful skuv1_MsgCreateSKU_fits skuv1_MsgCreateSKU_size skuv1_MsgCreateSKU_marshal skuv1_MsgCreateSKU_unmarshal
    skuv1_MsgCreateSKU_wire skuv1_MsgCreateSKU_new.
Proof.
  solve_api. intros [authority providerUuid name unit basePrice metaHash u]; open_api Hl.
  api_string 1. api_string 2. api_string 3. api_enum 4. api_msg 5 api_Coin_unmarshal api_Coin_new (λ l,
  mk_skuv1_MsgCreateSKU authority providerUuid name unit l "" []) Hl. api_bytes 6. api_unknown 6 (λ u,
  mk_skuv1_MsgCreateSKU authority providerUuid name unit basePrice metaHash u).
Qed.

Definition skuv1_MsgCreateSKUResponse_fits (x : skuv1_MsgCreateSKUResponse) : Prop := unknown_fits 1
  (skuv1_MsgCreateSKUResponse_unknownFields x).

#[global] Instance skuv1_MsgCreateSKUResponse_lawful :
  api_lawful skuv1_MsgCreateSKUResponse_fits skuv1_MsgCreateSKUResponse_size skuv1_MsgCreateSKUResponse_marshal
    skuv1_MsgCreateSKUResponse_unmarshal skuv1_MsgCreateSKUResponse_wire skuv1_MsgCreateSKUResponse_new.
Proof.
  solve_api. intros [uuid u]; open_api Hl.
  api_string 1. api_unknown 1 (λ u, mk_skuv1_MsgCreateSKUResponse uuid u).
Qed.

Definition skuv1_MsgUpdateSKU_fits (x : skuv1_MsgUpdateSKU) : Prop := is_i32 (skuv1_MsgUpdateSKU_Unit x) ∧ fits_opt
  api_Coin_fits (skuv1_MsgUpdateSKU_BasePrice x) ∧ unknown_fits 8 (skuv1_MsgUpdateSKU_unknownFields x).

#[global] Instance skuv1_MsgUpdateSKU_lawful :
  api_lawful skuv1_MsgUpdateSKU_fits skuv1_MsgUpdateSKU_size skuv1_MsgUpdateSKU_marshal skuv1_MsgUpdateSKU_unmarshal
    skuv1_MsgUpdateSKU_wire skuv1_MsgUpdateSKU_new.
Proof.
  solve_api. intros [authority uuid providerUuid name unit basePrice metaHash active u]; open_api Hl.
  api_string 1. api_string 2. api_string 3. api_string 4. api_enum 5. api_msg 6 api_Coin_unmarshal api_Coin_new (λ l,
  mk_skuv1_MsgUpdateSKU authority uuid providerUuid name unit l "" false []) Hl. api_bytes 7. api_bool 8. api_unknown
  8 (λ u, mk_skuv1_MsgUpdateSKU authority uuid providerUuid name unit basePrice metaHash active u).
Qed.

Definition skuv1_MsgUpdateSKUResponse_fits (x : skuv1_MsgUpdateSKUResponse) : Prop := unknown_fits 0
  (skuv1_MsgUpdateSKUResponse_unknownFields x).

#[global] Instance skuv1_MsgUpdateSKUResponse_lawful :
  api_lawful skuv1_MsgUpdateSKUResponse_fits skuv1_MsgUpdateSKUResponse_size skuv1_MsgUpdateSKUResponse_marshal
    skuv1_MsgUpdateSKUResponse_unmarshal skuv1_MsgUpdateSKUResponse_wire skuv1_MsgUpdateSKUResponse_new.
Proof. solve_api. intros [u] Hu _. change (unknown_fits 0 u) in Hu. api_unknown 0 mk_skuv1_MsgUpdateSKUResponse. Qed.

Definition skuv1_MsgDeactivateSKU_fits (x : skuv1_MsgDeactivateSKU) : Prop := unknown_fits 2
  (skuv1_MsgDeactivateSKU_unknownFields x).

#[global] Instance skuv1_MsgDeactivateSKU_lawful :
  api_lawful skuv1_MsgDeactivateSKU_fits skuv1_MsgDeactivateSKU_size skuv1_MsgDeactivateSKU_marshal
    skuv1_MsgDeactivateSKU_unmarshal skuv1_MsgDeactivateSKU_wire skuv1_MsgDeactivateSKU_new.
Proof.
  solve_api. intros [authority uuid u]; open_api Hl.
  api_string 1. api_string 2. api_unknown 2 (λ u, mk_skuv1_MsgDeactivateSKU authority uuid u).
Qed.

Definition skuv1_MsgDeactivateSKUResponse_fits (x : skuv1_MsgDeactivateSKUResponse) : Prop := unknown_fits 0
  (skuv1_MsgDeactivateSKUResponse_unknownFields x).

#[global] Instance skuv1_MsgDeactivateSKUResponse_lawful :
  api_lawful skuv1_MsgDeactivateSKUResponse_fits skuv1_MsgDeactivateSKUResponse_size
    skuv1_MsgDeactivateSKUResponse_marshal skuv1_MsgDeactivateSKUResponse_unmarshal
    skuv1_MsgDeactivateSKUResponse_wire skuv1_MsgDeactivateSKUResponse_new.
Proof. solve_api. intros [u] Hu _. change (unknown_fits 0 u) in Hu. api_unknown 0 mk_skuv1_MsgDeactivateSKUResponse. Qed.

Definition skuv1_MsgUpdateParams_fits (x : skuv1_MsgUpdateParams) : Prop := fits_opt skuv1_Params_fits
  (skuv1_MsgUpdateParams_Params x) ∧ unknown_fits 2 (skuv1_MsgUpdateParams_unknownFields x).

#[global] Instance skuv1_MsgUpdateParams_lawful :
  api_lawful skuv1_MsgUpdateParams_fits skuv1_MsgUpdateParams_size skuv1_MsgUpdateParams_marshal
    skuv1_MsgUpdateParams_unmarshal skuv1_MsgUpdateParams_wire skuv1_MsgUpdateParams_new.
Proof.
  solve_api. intros [authority params u]; open_api Hl.
  api_string 1. api_msg 2 skuv1_Params_unmarshal skuv1_Params_new (λ l, mk_skuv1_MsgUpdateParams authority l []) Hl.
  api_unknown 2 (λ u, mk_skuv1_MsgUpdateParams authority params u).
Qed.

Definition skuv1_MsgUpdateParamsResponse_fits (x : skuv1_MsgUpdateParamsResponse) : Prop := unknown_fits 0
  (skuv1_MsgUpdateParamsResponse_unknownFields x).

#[global] Instance skuv1_MsgUpdateParamsResponse_lawful :
  api_lawful skuv1_MsgUpdateParamsResponse_fits skuv1_MsgUpdateParamsResponse_size
    skuv1_MsgUpdateParamsResponse_marshal skuv1_MsgUpdateParamsResponse_unmarshal skuv1_MsgUpdateParamsResponse_wire
    skuv1_MsgUpdateParamsResponse_new.
Proof. solve_api. intros [u] Hu _. change (unknown_fits 0 u) in Hu. api_unknown 0 mk_skuv1_MsgUpdateParamsResponse. Qed.

Definition sku_modulev1_Module_fits (x : sku_modulev1_Module) : Prop := unknown_fits 0
  (sku_modulev1_Module_unknownFields x).

#[global] Instance sku_modulev1_Module_lawful :
  api_lawful sku_modulev1_Module_fits sku_modulev1_Module_size sku_modulev1_Module_marshal
    sku_modulev1_Module_unmarshal sku_modulev1_Module_wire sku_modulev1_Module_new.
Proof. solve_api. intros [u] Hu _. change (unknown_fits 0 u) in Hu. api_unknown 0 mk_sku_modulev1_Module. Qed.

End laws.
