(* ===== verification/ApiSkuQuery.v ===== *)
(** * API bindings of the sku module: queries and genesis (src/api/liftedinit/sku/v1)

    For every message its fields and the closures size, marshal and unmarshal of ProtoMethods; a case
    of the switch of unmarshal is a definition of its own. At the end the proofs that each is lawful. *)

From stdpp Require Import base tactics option list strings.
From Stdlib Require Import ZArith Lia Ascii.
From S2P Require Import Prelude Wire WireProps Codec Unknown Pulsar ApiExternal ApiSku.
Open Scope Z_scope.

(** ** Fields *)

Record skuv1_QueryParamsRequest : Type := mk_skuv1_QueryParamsRequest {
  skuv1_QueryParamsRequest_unknownFields : bytes }.

Definition skuv1_QueryParamsRequest_new : skuv1_QueryParamsRequest := mk_skuv1_QueryParamsRequest [].

Record skuv1_QueryParamsResponse : Type := mk_skuv1_QueryParamsResponse {
  skuv1_QueryParamsResponse_Params : option skuv1_Params; skuv1_QueryParamsResponse_unknownFields : bytes }.

Definition skuv1_QueryParamsResponse_new : skuv1_QueryParamsResponse := mk_skuv1_QueryParamsResponse None [].

Record skuv1_QueryProviderRequest : Type := mk_skuv1_QueryProviderRequest {
  skuv1_QueryProviderRequest_Uuid : string; skuv1_QueryProviderRequest_unknownFields : bytes }.

Definition skuv1_QueryProviderRequest_new : skuv1_QueryProviderRequest := mk_skuv1_QueryProviderRequest "" [].

Record skuv1_QueryProviderResponse : Type := mk_skuv1_QueryProviderResponse {
  skuv1_QueryProviderResponse_Provider : option skuv1_Provider; skuv1_QueryProviderResponse_unknownFields : bytes }.

Definition skuv1_QueryProviderResponse_new : skuv1_QueryProviderResponse := mk_skuv1_QueryProviderResponse None [].

Record skuv1_QueryProvidersRequest : Type := mk_skuv1_QueryProvidersRequest {
  skuv1_QueryProvidersRequest_Pagination : option api_PageRequest; skuv1_QueryProvidersRequest_ActiveOnly : bool;
  skuv1_QueryProvidersRequest_unknownFields : bytes }.

Definition skuv1_QueryProvidersRequest_new : skuv1_QueryProvidersRequest := mk_skuv1_QueryProvidersRequest None false
  [].

Record skuv1_QueryProvidersResponse : Type := mk_skuv1_QueryProvidersResponse {
  skuv1_QueryProvidersResponse_Providers : list (option skuv1_Provider); skuv1_QueryProvidersResponse_Pagination :
  option api_PageResponse; skuv1_QueryProvidersResponse_unknownFields : bytes }.

Definition skuv1_QueryProvidersResponse_new : skuv1_QueryProvidersResponse := mk_skuv1_QueryProvidersResponse [] None
  [].

Record skuv1_QuerySKURequest : Type := mk_skuv1_QuerySKURequest {
  skuv1_QuerySKURequest_Uuid : string; skuv1_QuerySKURequest_unknownFields : bytes }.

Definition skuv1_QuerySKURequest_new : skuv1_QuerySKURequest := mk_skuv1_QuerySKURequest "" [].

Record skuv1_QuerySKUResponse : Type := mk_skuv1_QuerySKUResponse {
  skuv1_QuerySKUResponse_Sku : option skuv1_SKU; skuv1_QuerySKUResponse_unknownFields : bytes }.

Definition skuv1_QuerySKUResponse_new : skuv1_QuerySKUResponse := mk_skuv1_QuerySKUResponse None [].

Record skuv1_QuerySKUsRequest : Type := mk_skuv1_QuerySKUsRequest {
  skuv1_QuerySKUsRequest_Pagination : option api_PageRequest; skuv1_QuerySKUsRequest_ActiveOnly : bool;
  skuv1_QuerySKUsRequest_unknownFields : bytes }.

Definition skuv1_QuerySKUsRequest_new : skuv1_QuerySKUsRequest := mk_skuv1_QuerySKUsRequest None false [].

Record skuv1_QuerySKUsResponse : Type := mk_skuv1_QuerySKUsResponse {
  skuv1_QuerySKUsResponse_Skus : list (option skuv1_SKU); skuv1_QuerySKUsResponse_Pagination : option
  api_PageResponse; skuv1_QuerySKUsResponse_unknownFields : bytes }.

Definition skuv1_QuerySKUsResponse_new : skuv1_QuerySKUsResponse := mk_skuv1_QuerySKUsResponse [] None [].

Record skuv1_QuerySKUsByProviderRequest : Type := mk_skuv1_QuerySKUsByProviderRequest {
  skuv1_QuerySKUsByProviderRequest_ProviderUuid : string; skuv1_QuerySKUsByProviderRequest_Pagination : option
  api_PageRequest; skuv1_QuerySKUsByProviderRequest_ActiveOnly : bool; skuv1_QuerySKUsByProviderRequest_unknownFields
  : bytes }.

Definition skuv1_QuerySKUsByProviderRequest_new : skuv1_QuerySKUsByProviderRequest :=
  mk_skuv1_QuerySKUsByProviderRequest "" None false [].

Record skuv1_QuerySKUsByProviderResponse : Type := mk_skuv1_QuerySKUsByProviderResponse {
  skuv1_QuerySKUsByProviderResponse_Skus : list (option skuv1_SKU); skuv1_QuerySKUsByProviderResponse_Pagination :
  option api_PageResponse; skuv1_QuerySKUsByProviderResponse_unknownFields : bytes }.

Definition skuv1_QuerySKUsByProviderResponse_new : skuv1_QuerySKUsByProviderResponse :=
  mk_skuv1_QuerySKUsByProviderResponse [] None [].

Record skuv1_QueryProviderByAddressRequest : Type := mk_skuv1_QueryProviderByAddressRequest {
  skuv1_QueryProviderByAddressRequest_Address : string; skuv1_QueryProviderByAddressRequest_Pagination : option
  api_PageRequest; skuv1_QueryProviderByAddressRequest_ActiveOnly : bool;
  skuv1_QueryProviderByAddressRequest_unknownFields : bytes }.

Definition skuv1_QueryProviderByAddressRequest_new : skuv1_QueryProviderByAddressRequest :=
  mk_skuv1_QueryProviderByAddressRequest "" None false [].

Record skuv1_QueryProviderByAddressResponse : Type := mk_skuv1_QueryProviderByAddressResponse {
  skuv1_QueryProviderByAddressResponse_Providers : list (option skuv1_Provider);
  skuv1_QueryProviderByAddressResponse_Pagination : option api_PageResponse;
  skuv1_QueryProviderByAddressResponse_unknownFields : bytes }.

Definition skuv1_QueryProviderByAddressResponse_new : skuv1_QueryProviderByAddressResponse :=
  mk_skuv1_QueryProviderByAddressResponse [] None [].

Record skuv1_GenesisState : Type := mk_skuv1_GenesisState {
  skuv1_GenesisState_Params : option skuv1_Params; skuv1_GenesisState_Providers : list (option skuv1_Provider);
  skuv1_GenesisState_Skus : list (option skuv1_SKU); skuv1_GenesisState_ProviderSequence : Z;
  skuv1_GenesisState_SkuSequence : Z; skuv1_GenesisState_unknownFields : bytes }.

Definition skuv1_GenesisState_new : skuv1_GenesisState := mk_skuv1_GenesisState None [] [] 0 0 [].

Section codec.
Context `{Runtime} `{ApiExternal}.

(** ** QueryParamsRequest *)

Definition skuv1_QueryParamsRequest_size (x : option skuv1_QueryParamsRequest) : Z :=
  match x with
  | None => 0
  | Some x =>
      llen (skuv1_QueryParamsRequest_unknownFields x)
  end.

Definition skuv1_QueryParamsRequest_write (x : skuv1_QueryParamsRequest) : writer :=
  rt_put_unknown (skuv1_QueryParamsRequest_unknownFields x).

Definition skuv1_QueryParamsRequest_marshal : bytes → option skuv1_QueryParamsRequest → res bytes := rt_marshal
  skuv1_QueryParamsRequest_size skuv1_QueryParamsRequest_write.

Definition skuv1_QueryParamsRequest_switch (discard : bool) (fieldNum wireType : Z) (dAtA : bytes) (iNdEx : Z) (x :
    skuv1_QueryParamsRequest) : option (res (skuv1_QueryParamsRequest * Z)) :=
  None.

Definition skuv1_QueryParamsRequest_keep (f : bytes) (x : skuv1_QueryParamsRequest) : skuv1_QueryParamsRequest :=
  let 'mk_skuv1_QueryParamsRequest u := x in mk_skuv1_QueryParamsRequest (u ++ f).

Definition skuv1_QueryParamsRequest_unmarshal : bool → bytes → option skuv1_QueryParamsRequest → res (option
  skuv1_QueryParamsRequest) := rt_unmarshal skuv1_QueryParamsRequest_switch skuv1_QueryParamsRequest_keep.

Definition skuv1_QueryParamsRequest_wire (x : skuv1_QueryParamsRequest) : bytes :=
  skuv1_QueryParamsRequest_unknownFields x.

(** ** QueryParamsResponse *)

Definition skuv1_QueryParamsResponse_size (x : option skuv1_QueryParamsResponse) : Z :=
  match x with
  | None => 0
  | Some x =>
      size_opt (skuv1_QueryParamsResponse_Params x) (λ e, rt_size_len (options_Size skuv1_Params_size (Some e))) +
      llen (skuv1_QueryParamsResponse_unknownFields x)
  end.

Definition skuv1_QueryParamsResponse_write (x : skuv1_QueryParamsResponse) : writer :=
  rt_put_unknown (skuv1_QueryParamsResponse_unknownFields x) ;;>
  if_some (skuv1_QueryParamsResponse_Params x) (λ e, rt_put_msg 0xa (options_Marshal skuv1_Params_marshal (Some e))).

Definition skuv1_QueryParamsResponse_marshal : bytes → option skuv1_QueryParamsResponse → res bytes := rt_marshal
  skuv1_QueryParamsResponse_size skuv1_QueryParamsResponse_write.

Definition skuv1_QueryParamsResponse_case_1 (discard : bool) (wireType : Z) (dAtA : bytes) (iNdEx : Z) (x :
    skuv1_QueryParamsResponse) : res (skuv1_QueryParamsResponse * Z) :=
  let 'mk_skuv1_QueryParamsResponse params u := x in
  '(v, iNdEx) ← rt_get_msg skuv1_Params_unmarshal skuv1_Params_new params discard wireType dAtA iNdEx;
  Ok (mk_skuv1_QueryParamsResponse v u, iNdEx).

Definition skuv1_QueryParamsResponse_switch (discard : bool) (fieldNum wireType : Z) (dAtA : bytes) (iNdEx : Z) (x :
    skuv1_QueryParamsResponse) : option (res (skuv1_QueryParamsResponse * Z)) :=
  match fieldNum with
  | 1 => Some (skuv1_QueryParamsResponse_case_1 discard wireType dAtA iNdEx x)
  | _ => None
  end.

Definition skuv1_QueryParamsResponse_keep (f : bytes) (x : skuv1_QueryParamsResponse) : skuv1_QueryParamsResponse :=
  let 'mk_skuv1_QueryParamsResponse params u := x in mk_skuv1_QueryParamsResponse params (u ++ f).

Definition skuv1_QueryParamsResponse_unmarshal : bool → bytes → option skuv1_QueryParamsResponse → res (option
  skuv1_QueryParamsResponse) := rt_unmarshal skuv1_QueryParamsResponse_switch skuv1_QueryParamsResponse_keep.

Definition skuv1_QueryParamsResponse_wire (x : skuv1_QueryParamsResponse) : bytes :=
  enc_opt (λ e, len_field 0xa (skuv1_Params_wire e)) (skuv1_QueryParamsResponse_Params x) ++
  skuv1_QueryParamsResponse_unknownFields x.

(** ** QueryProviderRequest *)

Definition skuv1_QueryProviderRequest_size (x : option skuv1_QueryProviderRequest) : Z :=
  match x with
  | None => 0
  | Some x =>
      rt_size_str (skuv1_QueryProviderRequest_Uuid x) +
      llen (skuv1_QueryProviderRequest_unknownFields x)
  end.

Definition skuv1_QueryProviderRequest_write (x : skuv1_QueryProviderRequest) : writer :=
  rt_put_unknown (skuv1_QueryProviderRequest_unknownFields x) ;;>
  if_nonempty (skuv1_QueryProviderRequest_Uuid x) (rt_put_bytes 0xa (skuv1_QueryProviderRequest_Uuid x)).

Definition skuv1_QueryProviderRequest_marshal : bytes → option skuv1_QueryProviderRequest → res bytes := rt_marshal
  skuv1_QueryProviderRequest_size skuv1_QueryProviderRequest_write.

Definition skuv1_QueryProviderRequest_case_1 (discard : bool) (wireType : Z) (dAtA : bytes) (iNdEx : Z) (x :
    skuv1_QueryProviderRequest) : res (skuv1_QueryProviderRequest * Z) :=
  let 'mk_skuv1_QueryProviderRequest uuid u := x in
  '(v, iNdEx) ← get_string wireType dAtA iNdEx;
  Ok (mk_skuv1_QueryProviderRequest v u, iNdEx).

Definition skuv1_QueryProviderRequest_switch (discard : bool) (fieldNum wireType : Z) (dAtA : bytes) (iNdEx : Z) (x :
    skuv1_QueryProviderRequest) : option (res (skuv1_QueryProviderRequest * Z)) :=
  match fieldNum with
  | 1 => Some (skuv1_QueryProviderRequest_case_1 discard wireType dAtA iNdEx x)
  | _ => None
  end.

Definition skuv1_QueryProviderRequest_keep (f : bytes) (x : skuv1_QueryProviderRequest) : skuv1_QueryProviderRequest
    :=
  let 'mk_skuv1_QueryProviderRequest uuid u := x in mk_skuv1_QueryProviderRequest uuid (u ++ f).

Definition skuv1_QueryProviderRequest_unmarshal : bool → bytes → option skuv1_QueryProviderRequest → res (option
  skuv1_QueryProviderRequest) := rt_unmarshal skuv1_QueryProviderRequest_switch skuv1_QueryProviderRequest_keep.

Definition skuv1_QueryProviderRequest_wire (x : skuv1_QueryProviderRequest) : bytes :=
  enc_str 0xa (skuv1_QueryProviderRequest_Uuid x) ++
  skuv1_QueryProviderRequest_unknownFields x.

(** ** QueryProviderResponse *)

Definition skuv1_QueryProviderResponse_size (x : option skuv1_QueryProviderResponse) : Z :=
  match x with
  | None => 0
  | Some x =>
      size_opt (skuv1_QueryProviderResponse_Provider x) (λ e, rt_size_len (options_Size skuv1_Provider_size (Some e))) +
      llen (skuv1_QueryProviderResponse_unknownFields x)
  end.

Definition skuv1_QueryProviderResponse_write (x : skuv1_QueryProviderResponse) : writer :=
  rt_put_unknown (skuv1_QueryProviderResponse_unknownFields x) ;;>
  if_some (skuv1_QueryProviderResponse_Provider x) (λ e, rt_put_msg 0xa (options_Marshal skuv1_Provider_marshal (Some e))).

Definition skuv1_QueryProviderResponse_marshal : bytes → option skuv1_QueryProviderResponse → res bytes := rt_marshal
  skuv1_QueryProviderResponse_size skuv1_QueryProviderResponse_write.

Definition skuv1_QueryProviderResponse_case_1 (discard : bool) (wireType : Z) (dAtA : bytes) (iNdEx : Z) (x :
    skuv1_QueryProviderResponse) : res (skuv1_QueryProviderResponse * Z) :=
  let 'mk_skuv1_QueryProviderResponse provider u := x in
  '(v, iNdEx) ← rt_get_msg skuv1_Provider_unmarshal skuv1_Provider_new provider discard wireType dAtA iNdEx;
  Ok (mk_skuv1_QueryProviderResponse v u, iNdEx).

Definition skuv1_QueryProviderResponse_switch (discard : bool) (fieldNum wireType : Z) (dAtA : bytes) (iNdEx : Z) (x :
    skuv1_QueryProviderResponse) : option (res (skuv1_QueryProviderResponse * Z)) :=
  match fieldNum with
  | 1 => Some (skuv1_QueryProviderResponse_case_1 discard wireType dAtA iNdEx x)
  | _ => None
  end.

Definition skuv1_QueryProviderResponse_keep (f : bytes) (x : skuv1_QueryProviderResponse) :
    skuv1_QueryProviderResponse :=
  let 'mk_skuv1_QueryProviderResponse provider u := x in mk_skuv1_QueryProviderResponse provider (u ++ f).

Definition skuv1_QueryProviderResponse_unmarshal : bool → bytes → option skuv1_QueryProviderResponse → res (option
  skuv1_QueryProviderResponse) := rt_unmarshal skuv1_QueryProviderResponse_switch skuv1_QueryProviderResponse_keep.

Definition skuv1_QueryProviderResponse_wire (x : skuv1_QueryProviderResponse) : bytes :=
  enc_opt (λ e, len_field 0xa (skuv1_Provider_wire e)) (skuv1_QueryProviderResponse_Provider x) ++
  skuv1_QueryProviderResponse_unknownFields x.

(** ** QueryProvidersRequest *)

Definition skuv1_QueryProvidersRequest_size (x : option skuv1_QueryProvidersRequest) : Z :=
  match x with
  | None => 0
  | Some x =>
      size_opt (skuv1_QueryProvidersRequest_Pagination x) (λ e, rt_size_len (options_Size api_PageRequest_size (Some e))) +
      size_bool (skuv1_QueryProvidersRequest_ActiveOnly x) +
      llen (skuv1_QueryProvidersRequest_unknownFields x)
  end.

Definition skuv1_QueryProvidersRequest_write (x : skuv1_QueryProvidersRequest) : writer :=
  rt_put_unknown (skuv1_QueryProvidersRequest_unknownFields x) ;;>
  if_true (skuv1_QueryProvidersRequest_ActiveOnly x) (put_bool 0x10 (skuv1_QueryProvidersRequest_ActiveOnly x)) ;;>
  if_some (skuv1_QueryProvidersRequest_Pagination x) (λ e, rt_put_msg 0xa (options_Marshal api_PageRequest_marshal (Some e))).

Definition skuv1_QueryProvidersRequest_marshal : bytes → option skuv1_QueryProvidersRequest → res bytes := rt_marshal
  skuv1_QueryProvidersRequest_size skuv1_QueryProvidersRequest_write.

Definition skuv1_QueryProvidersRequest_case_1 (discard : bool) (wireType : Z) (dAtA : bytes) (iNdEx : Z) (x :
    skuv1_QueryProvidersRequest) : res (skuv1_QueryProvidersRequest * Z) :=
  let 'mk_skuv1_QueryProvidersRequest pagination activeOnly u := x in
  '(v, iNdEx) ← rt_get_msg api_PageRequest_unmarshal api_PageRequest_new pagination discard wireType dAtA iNdEx;
  Ok (mk_skuv1_QueryProvidersRequest v activeOnly u, iNdEx).

Definition skuv1_QueryProvidersRequest_case_2 (discard : bool) (wireType : Z) (dAtA : bytes) (iNdEx : Z) (x :
    skuv1_QueryProvidersRequest) : res (skuv1_QueryProvidersRequest * Z) :=
  let 'mk_skuv1_QueryProvidersRequest pagination activeOnly u := x in
  '(v, iNdEx) ← get_bool wireType dAtA iNdEx;
  Ok (mk_skuv1_QueryProvidersRequest pagination v u, iNdEx).

Definition skuv1_QueryProvidersRequest_switch (discard : bool) (fieldNum wireType : Z) (dAtA : bytes) (iNdEx : Z) (x :
    skuv1_QueryProvidersRequest) : option (res (skuv1_QueryProvidersRequest * Z)) :=
  match fieldNum with
  | 1 => Some (skuv1_QueryProvidersRequest_case_1 discard wireType dAtA iNdEx x)
  | 2 => Some (skuv1_QueryProvidersRequest_case_2 discard wireType dAtA iNdEx x)
  | _ => None
  end.

Definition skuv1_QueryProvidersRequest_keep (f : bytes) (x : skuv1_QueryProvidersRequest) :
    skuv1_QueryProvidersRequest :=
  let 'mk_skuv1_QueryProvidersRequest pagination activeOnly u := x in mk_skuv1_QueryProvidersRequest pagination
    activeOnly (u ++ f).

Definition skuv1_QueryProvidersRequest_unmarshal : bool → bytes → option skuv1_QueryProvidersRequest → res (option
  skuv1_QueryProvidersRequest) := rt_unmarshal skuv1_QueryProvidersRequest_switch skuv1_QueryProvidersRequest_keep.

Definition skuv1_QueryProvidersRequest_wire (x : skuv1_QueryProvidersRequest) : bytes :=
  enc_opt (λ e, len_field 0xa (api_PageRequest_wire e)) (skuv1_QueryProvidersRequest_Pagination x) ++
  enc_bool 0x10 (skuv1_QueryProvidersRequest_ActiveOnly x) ++
  skuv1_QueryProvidersRequest_unknownFields x.

(** ** QueryProvidersResponse *)

Definition skuv1_QueryProvidersResponse_size (x : option skuv1_QueryProvidersResponse) : Z :=
  match x with
  | None => 0
  | Some x =>
      size_each (λ e, rt_size_len (options_Size skuv1_Provider_size e)) (skuv1_QueryProvidersResponse_Providers x) +
      size_opt (skuv1_QueryProvidersResponse_Pagination x) (λ e, rt_size_len (options_Size api_PageResponse_size (Some e))) +
      llen (skuv1_QueryProvidersResponse_unknownFields x)
  end.

Definition skuv1_QueryProvidersResponse_write (x : skuv1_QueryProvidersResponse) : writer :=
  rt_put_unknown (skuv1_QueryProvidersResponse_unknownFields x) ;;>
  if_some (skuv1_QueryProvidersResponse_Pagination x) (λ e, rt_put_msg 0x12 (options_Marshal api_PageResponse_marshal (Some e))) ;;>
  put_each (λ e, rt_put_msg 0xa (options_Marshal skuv1_Provider_marshal e)) (skuv1_QueryProvidersResponse_Providers x).

Definition skuv1_QueryProvidersResponse_marshal : bytes → option skuv1_QueryProvidersResponse → res bytes :=
  rt_marshal skuv1_QueryProvidersResponse_size skuv1_QueryProvidersResponse_write.

Definition skuv1_QueryProvidersResponse_case_1 (discard : bool) (wireType : Z) (dAtA : bytes) (iNdEx : Z) (x :
    skuv1_QueryProvidersResponse) : res (skuv1_QueryProvidersResponse * Z) :=
  let 'mk_skuv1_QueryProvidersResponse providers pagination u := x in
  '(v, iNdEx) ← rt_get_msg skuv1_Provider_unmarshal skuv1_Provider_new None discard wireType dAtA iNdEx;
  Ok (mk_skuv1_QueryProvidersResponse (providers ++ [v]) pagination u, iNdEx).

Definition skuv1_QueryProvidersResponse_case_2 (discard : bool) (wireType : Z) (dAtA : bytes) (iNdEx : Z) (x :
    skuv1_QueryProvidersResponse) : res (skuv1_QueryProvidersResponse * Z) :=
  let 'mk_skuv1_QueryProvidersResponse providers pagination u := x in
  '(v, iNdEx) ← rt_get_msg api_PageResponse_unmarshal api_PageResponse_new pagination discard wireType dAtA iNdEx;
  Ok (mk_skuv1_QueryProvidersResponse providers v u, iNdEx).

Definition skuv1_QueryProvidersResponse_switch (discard : bool) (fieldNum wireType : Z) (dAtA : bytes) (iNdEx : Z) (x
    : skuv1_QueryProvidersResponse) : option (res (skuv1_QueryProvidersResponse * Z)) :=
  match fieldNum with
  | 1 => Some (skuv1_QueryProvidersResponse_case_1 discard wireType dAtA iNdEx x)
  | 2 => Some (skuv1_QueryProvidersResponse_case_2 discard wireType dAtA iNdEx x)
  | _ => None
  end.

Definition skuv1_QueryProvidersResponse_keep (f : bytes) (x : skuv1_QueryProvidersResponse) :
    skuv1_QueryProvidersResponse :=
  let 'mk_skuv1_QueryProvidersResponse providers pagination u := x in mk_skuv1_QueryProvidersResponse providers
    pagination (u ++ f).

Definition skuv1_QueryProvidersResponse_unmarshal : bool → bytes → option skuv1_QueryProvidersResponse → res (option
  skuv1_QueryProvidersResponse) := rt_unmarshal skuv1_QueryProvidersResponse_switch skuv1_QueryProvidersResponse_keep.

Definition skuv1_QueryProvidersResponse_wire (x : skuv1_QueryProvidersResponse) : bytes :=
  enc_each (λ e, len_field 0xa (wire_ptr skuv1_Provider_wire e)) (skuv1_QueryProvidersResponse_Providers x) ++
  enc_opt (λ e, len_field 0x12 (api_PageResponse_wire e)) (skuv1_QueryProvidersResponse_Pagination x) ++
  skuv1_QueryProvidersResponse_unknownFields x.

(** ** QuerySKURequest *)

Definition skuv1_QuerySKURequest_size (x : option skuv1_QuerySKURequest) : Z :=
  match x with
  | None => 0
  | Some x =>
      rt_size_str (skuv1_QuerySKURequest_Uuid x) +
      llen (skuv1_QuerySKURequest_unknownFields x)
  end.

Definition skuv1_QuerySKURequest_write (x : skuv1_QuerySKURequest) : writer :=
  rt_put_unknown (skuv1_QuerySKURequest_unknownFields x) ;;>
  if_nonempty (skuv1_QuerySKURequest_Uuid x) (rt_put_bytes 0xa (skuv1_QuerySKURequest_Uuid x)).

Definition skuv1_QuerySKURequest_marshal : bytes → option skuv1_QuerySKURequest → res bytes := rt_marshal
  skuv1_QuerySKURequest_size skuv1_QuerySKURequest_write.

Definition skuv1_QuerySKURequest_case_1 (discard : bool) (wireType : Z) (dAtA : bytes) (iNdEx : Z) (x :
    skuv1_QuerySKURequest) : res (skuv1_QuerySKURequest * Z) :=
  let 'mk_skuv1_QuerySKURequest uuid u := x in
  '(v, iNdEx) ← get_string wireType dAtA iNdEx;
  Ok (mk_skuv1_QuerySKURequest v u, iNdEx).

Definition skuv1_QuerySKURequest_switch (discard : bool) (fieldNum wireType : Z) (dAtA : bytes) (iNdEx : Z) (x :
    skuv1_QuerySKURequest) : option (res (skuv1_QuerySKURequest * Z)) :=
  match fieldNum with
  | 1 => Some (skuv1_QuerySKURequest_case_1 discard wireType dAtA iNdEx x)
  | _ => None
  end.

Definition skuv1_QuerySKURequest_keep (f : bytes) (x : skuv1_QuerySKURequest) : skuv1_QuerySKURequest :=
  let 'mk_skuv1_QuerySKURequest uuid u := x in mk_skuv1_QuerySKURequest uuid (u ++ f).

Definition skuv1_QuerySKURequest_unmarshal : bool → bytes → option skuv1_QuerySKURequest → res (option
  skuv1_QuerySKURequest) := rt_unmarshal skuv1_QuerySKURequest_switch skuv1_QuerySKURequest_keep.

Definition skuv1_QuerySKURequest_wire (x : skuv1_QuerySKURequest) : bytes :=
  enc_str 0xa (skuv1_QuerySKURequest_Uuid x) ++
  skuv1_QuerySKURequest_unknownFields x.

(** ** QuerySKUResponse *)

Definition skuv1_QuerySKUResponse_size (x : option skuv1_QuerySKUResponse) : Z :=
  match x with
  | None => 0
  | Some x =>
      size_opt (skuv1_QuerySKUResponse_Sku x) (λ e, rt_size_len (options_Size skuv1_SKU_size (Some e))) +
      llen (skuv1_QuerySKUResponse_unknownFields x)
  end.

Definition skuv1_QuerySKUResponse_write (x : skuv1_QuerySKUResponse) : writer :=
  rt_put_unknown (skuv1_QuerySKUResponse_unknownFields x) ;;>
  if_some (skuv1_QuerySKUResponse_Sku x) (λ e, rt_put_msg 0xa (options_Marshal skuv1_SKU_marshal (Some e))).

Definition skuv1_QuerySKUResponse_marshal : bytes → option skuv1_QuerySKUResponse → res bytes := rt_marshal
  skuv1_QuerySKUResponse_size skuv1_QuerySKUResponse_write.

Definition skuv1_QuerySKUResponse_case_1 (discard : bool) (wireType : Z) (dAtA : bytes) (iNdEx : Z) (x :
    skuv1_QuerySKUResponse) : res (skuv1_QuerySKUResponse * Z) :=
  let 'mk_skuv1_QuerySKUResponse sku u := x in
  '(v, iNdEx) ← rt_get_msg skuv1_SKU_unmarshal skuv1_SKU_new sku discard wireType dAtA iNdEx;
  Ok (mk_skuv1_QuerySKUResponse v u, iNdEx).

Definition skuv1_QuerySKUResponse_switch (discard : bool) (fieldNum wireType : Z) (dAtA : bytes) (iNdEx : Z) (x :
    skuv1_QuerySKUResponse) : option (res (skuv1_QuerySKUResponse * Z)) :=
  match fieldNum with
  | 1 => Some (skuv1_QuerySKUResponse_case_1 discard wireType dAtA iNdEx x)
  | _ => None
  end.

Definition skuv1_QuerySKUResponse_keep (f : bytes) (x : skuv1_QuerySKUResponse) : skuv1_QuerySKUResponse :=
  let 'mk_skuv1_QuerySKUResponse sku u := x in mk_skuv1_QuerySKUResponse sku (u ++ f).

Definition skuv1_QuerySKUResponse_unmarshal : bool → bytes → option skuv1_QuerySKUResponse → res (option
  skuv1_QuerySKUResponse) := rt_unmarshal skuv1_QuerySKUResponse_switch skuv1_QuerySKUResponse_keep.

Definition skuv1_QuerySKUResponse_wire (x : skuv1_QuerySKUResponse) : bytes :=
  enc_opt (λ e, len_field 0xa (skuv1_SKU_wire e)) (skuv1_QuerySKUResponse_Sku x) ++
  skuv1_QuerySKUResponse_unknownFields x.

(** ** QuerySKUsRequest *)

Definition skuv1_QuerySKUsRequest_size (x : option skuv1_QuerySKUsRequest) : Z :=
  match x with
  | None => 0
  | Some x =>
      size_opt (skuv1_QuerySKUsRequest_Pagination x) (λ e, rt_size_len (options_Size api_PageRequest_size (Some e))) +
      size_bool (skuv1_QuerySKUsRequest_ActiveOnly x) +
      llen (skuv1_QuerySKUsRequest_unknownFields x)
  end.

Definition skuv1_QuerySKUsRequest_write (x : skuv1_QuerySKUsRequest) : writer :=
  rt_put_unknown (skuv1_QuerySKUsRequest_unknownFields x) ;;>
  if_true (skuv1_QuerySKUsRequest_ActiveOnly x) (put_bool 0x10 (skuv1_QuerySKUsRequest_ActiveOnly x)) ;;>
  if_some (skuv1_QuerySKUsRequest_Pagination x) (λ e, rt_put_msg 0xa (options_Marshal api_PageRequest_marshal (Some e))).

Definition skuv1_QuerySKUsRequest_marshal : bytes → option skuv1_QuerySKUsRequest → res bytes := rt_marshal
  skuv1_QuerySKUsRequest_size skuv1_QuerySKUsRequest_write.

Definition skuv1_QuerySKUsRequest_case_1 (discard : bool) (wireType : Z) (dAtA : bytes) (iNdEx : Z) (x :
    skuv1_QuerySKUsRequest) : res (skuv1_QuerySKUsRequest * Z) :=
  let 'mk_skuv1_QuerySKUsRequest pagination activeOnly u := x in
  '(v, iNdEx) ← rt_get_msg api_PageRequest_unmarshal api_PageRequest_new pagination discard wireType dAtA iNdEx;
  Ok (mk_skuv1_QuerySKUsRequest v activeOnly u, iNdEx).

Definition skuv1_QuerySKUsRequest_case_2 (discard : bool) (wireType : Z) (dAtA : bytes) (iNdEx : Z) (x :
    skuv1_QuerySKUsRequest) : res (skuv1_QuerySKUsRequest * Z) :=
  let 'mk_skuv1_QuerySKUsRequest pagination activeOnly u := x in
  '(v, iNdEx) ← get_bool wireType dAtA iNdEx;
  Ok (mk_skuv1_QuerySKUsRequest pagination v u, iNdEx).

Definition skuv1_QuerySKUsRequest_switch (discard : bool) (fieldNum wireType : Z) (dAtA : bytes) (iNdEx : Z) (x :
    skuv1_QuerySKUsRequest) : option (res (skuv1_QuerySKUsRequest * Z)) :=
  match fieldNum with
  | 1 => Some (skuv1_QuerySKUsRequest_case_1 discard wireType dAtA iNdEx x)
  | 2 => Some (skuv1_QuerySKUsRequest_case_2 discard wireType dAtA iNdEx x)
  | _ => None
  end.

Definition skuv1_QuerySKUsRequest_keep (f : bytes) (x : skuv1_QuerySKUsRequest) : skuv1_QuerySKUsRequest :=
  let 'mk_skuv1_QuerySKUsRequest pagination activeOnly u := x in mk_skuv1_QuerySKUsRequest pagination activeOnly (u ++
    f).

Definition skuv1_QuerySKUsRequest_unmarshal : bool → bytes → option skuv1_QuerySKUsRequest → res (option
  skuv1_QuerySKUsRequest) := rt_unmarshal skuv1_QuerySKUsRequest_switch skuv1_QuerySKUsRequest_keep.

Definition skuv1_QuerySKUsRequest_wire (x : skuv1_QuerySKUsRequest) : bytes :=
  enc_opt (λ e, len_field 0xa (api_PageRequest_wire e)) (skuv1_QuerySKUsRequest_Pagination x) ++
  enc_bool 0x10 (skuv1_QuerySKUsRequest_ActiveOnly x) ++
  skuv1_QuerySKUsRequest_unknownFields x.

(** ** QuerySKUsResponse *)

Definition skuv1_QuerySKUsResponse_size (x : option skuv1_QuerySKUsResponse) : Z :=
  match x with
  | None => 0
  | Some x =>
      size_each (λ e, rt_size_len (options_Size skuv1_SKU_size e)) (skuv1_QuerySKUsResponse_Skus x) +
      size_opt (skuv1_QuerySKUsResponse_Pagination x) (λ e, rt_size_len (options_Size api_PageResponse_size (Some e))) +
      llen (skuv1_QuerySKUsResponse_unknownFields x)
  end.

Definition skuv1_QuerySKUsResponse_write (x : skuv1_QuerySKUsResponse) : writer :=
  rt_put_unknown (skuv1_QuerySKUsResponse_unknownFields x) ;;>
  if_some (skuv1_QuerySKUsResponse_Pagination x) (λ e, rt_put_msg 0x12 (options_Marshal api_PageResponse_marshal (Some e))) ;;>
  put_each (λ e, rt_put_msg 0xa (options_Marshal skuv1_SKU_marshal e)) (skuv1_QuerySKUsResponse_Skus x).

Definition skuv1_QuerySKUsResponse_marshal : bytes → option skuv1_QuerySKUsResponse → res bytes := rt_marshal
  skuv1_QuerySKUsResponse_size skuv1_QuerySKUsResponse_write.

Definition skuv1_QuerySKUsResponse_case_1 (discard : bool) (wireType : Z) (dAtA : bytes) (iNdEx : Z) (x :
    skuv1_QuerySKUsResponse) : res (skuv1_QuerySKUsResponse * Z) :=
  let 'mk_skuv1_QuerySKUsResponse skus pagination u := x in
  '(v, iNdEx) ← rt_get_msg skuv1_SKU_unmarshal skuv1_SKU_new None discard wireType dAtA iNdEx;
  Ok (mk_skuv1_QuerySKUsResponse (skus ++ [v]) pagination u, iNdEx).

Definition skuv1_QuerySKUsResponse_case_2 (discard : bool) (wireType : Z) (dAtA : bytes) (iNdEx : Z) (x :
    skuv1_QuerySKUsResponse) : res (skuv1_QuerySKUsResponse * Z) :=
  let 'mk_skuv1_QuerySKUsResponse skus pagination u := x in
  '(v, iNdEx) ← rt_get_msg api_PageResponse_unmarshal api_PageResponse_new pagination discard wireType dAtA iNdEx;
  Ok (mk_skuv1_QuerySKUsResponse skus v u, iNdEx).

Definition skuv1_QuerySKUsResponse_switch (discard : bool) (fieldNum wireType : Z) (dAtA : bytes) (iNdEx : Z) (x :
    skuv1_QuerySKUsResponse) : option (res (skuv1_QuerySKUsResponse * Z)) :=
  match fieldNum with
  | 1 => Some (skuv1_QuerySKUsResponse_case_1 discard wireType dAtA iNdEx x)
  | 2 => Some (skuv1_QuerySKUsResponse_case_2 discard wireType dAtA iNdEx x)
  | _ => None
  end.

Definition skuv1_QuerySKUsResponse_keep (f : bytes) (x : skuv1_QuerySKUsResponse) : skuv1_QuerySKUsResponse :=
  let 'mk_skuv1_QuerySKUsResponse skus pagination u := x in mk_skuv1_QuerySKUsResponse skus pagination (u ++ f).

Definition skuv1_QuerySKUsResponse_unmarshal : bool → bytes → option skuv1_QuerySKUsResponse → res (option
  skuv1_QuerySKUsResponse) := rt_unmarshal skuv1_QuerySKUsResponse_switch skuv1_QuerySKUsResponse_keep.

Definition skuv1_QuerySKUsResponse_wire (x : skuv1_QuerySKUsResponse) : bytes :=
  enc_each (λ e, len_field 0xa (wire_ptr skuv1_SKU_wire e)) (skuv1_QuerySKUsResponse_Skus x) ++
  enc_opt (λ e, len_field 0x12 (api_PageResponse_wire e)) (skuv1_QuerySKUsResponse_Pagination x) ++
  skuv1_QuerySKUsResponse_unknownFields x.

(** ** QuerySKUsByProviderRequest *)

Definition skuv1_QuerySKUsByProviderRequest_size (x : option skuv1_QuerySKUsByProviderRequest) : Z :=
  match x with
  | None => 0
  | Some x =>
      rt_size_str (skuv1_QuerySKUsByProviderRequest_ProviderUuid x) +
      size_opt (skuv1_QuerySKUsByProviderRequest_Pagination x) (λ e, rt_size_len (options_Size api_PageRequest_size (Some e))) +
      size_bool (skuv1_QuerySKUsByProviderRequest_ActiveOnly x) +
      llen (skuv1_QuerySKUsByProviderRequest_unknownFields x)
  end.

Definition skuv1_QuerySKUsByProviderRequest_write (x : skuv1_QuerySKUsByProviderRequest) : writer :=
  rt_put_unknown (skuv1_QuerySKUsByProviderRequest_unknownFields x) ;;>
  if_true (skuv1_QuerySKUsByProviderRequest_ActiveOnly x) (put_bool 0x18 (skuv1_QuerySKUsByProviderRequest_ActiveOnly x)) ;;>
  if_some (skuv1_QuerySKUsByProviderRequest_Pagination x) (λ e, rt_put_msg 0x12 (options_Marshal api_PageRequest_marshal (Some e))) ;;>
  if_nonempty (skuv1_QuerySKUsByProviderRequest_ProviderUuid x) (rt_put_bytes 0xa (skuv1_QuerySKUsByProviderRequest_ProviderUuid x)).

Definition skuv1_QuerySKUsByProviderRequest_marshal : bytes → option skuv1_QuerySKUsByProviderRequest → res bytes :=
  rt_marshal skuv1_QuerySKUsByProviderRequest_size skuv1_QuerySKUsByProviderRequest_write.

Definition skuv1_QuerySKUsByProviderRequest_case_1 (discard : bool) (wireType : Z) (dAtA : bytes) (iNdEx : Z) (x :
    skuv1_QuerySKUsByProviderRequest) : res (skuv1_QuerySKUsByProviderRequest * Z) :=
  let 'mk_skuv1_QuerySKUsByProviderRequest providerUuid pagination activeOnly u := x in
  '(v, iNdEx) ← get_string wireType dAtA iNdEx;
  Ok (mk_skuv1_QuerySKUsByProviderRequest v pagination activeOnly u, iNdEx).

Definition skuv1_QuerySKUsByProviderRequest_case_2 (discard : bool) (wireType : Z) (dAtA : bytes) (iNdEx : Z) (x :
    skuv1_QuerySKUsByProviderRequest) : res (skuv1_QuerySKUsByProviderRequest * Z) :=
  let 'mk_skuv1_QuerySKUsByProviderRequest providerUuid pagination activeOnly u := x in
  '(v, iNdEx) ← rt_get_msg api_PageRequest_unmarshal api_PageRequest_new pagination discard wireType dAtA iNdEx;
  Ok (mk_skuv1_QuerySKUsByProviderRequest providerUuid v activeOnly u, iNdEx).

Definition skuv1_QuerySKUsByProviderRequest_case_3 (discard : bool) (wireType : Z) (dAtA : bytes) (iNdEx : Z) (x :
    skuv1_QuerySKUsByProviderRequest) : res (skuv1_QuerySKUsByProviderRequest * Z) :=
  let 'mk_skuv1_QuerySKUsByProviderRequest providerUuid pagination activeOnly u := x in
  '(v, iNdEx) ← get_bool wireType dAtA iNdEx;
  Ok (mk_skuv1_QuerySKUsByProviderRequest providerUuid pagination v u, iNdEx).

Definition skuv1_QuerySKUsByProviderRequest_switch (discard : bool) (fieldNum wireType : Z) (dAtA : bytes) (iNdEx : Z)
    (x : skuv1_QuerySKUsByProviderRequest) : option (res (skuv1_QuerySKUsByProviderRequest * Z)) :=
  match fieldNum with
  | 1 => Some (skuv1_QuerySKUsByProviderRequest_case_1 discard wireType dAtA iNdEx x)
  | 2 => Some (skuv1_QuerySKUsByProviderRequest_case_2 discard wireType dAtA iNdEx x)
  | 3 => Some (skuv1_QuerySKUsByProviderRequest_case_3 discard wireType dAtA iNdEx x)
  | _ => None
  end.

Definition skuv1_QuerySKUsByProviderRequest_keep (f : bytes) (x : skuv1_QuerySKUsByProviderRequest) :
    skuv1_QuerySKUsByProviderRequest :=
  let 'mk_skuv1_QuerySKUsByProviderRequest providerUuid pagination activeOnly u := x in
    mk_skuv1_QuerySKUsByProviderRequest providerUuid pagination activeOnly (u ++ f).

Definition skuv1_QuerySKUsByProviderRequest_unmarshal : bool → bytes → option skuv1_QuerySKUsByProviderRequest → res
  (option skuv1_QuerySKUsByProviderRequest) := rt_unmarshal skuv1_QuerySKUsByProviderRequest_switch
  skuv1_QuerySKUsByProviderRequest_keep.

Definition skuv1_QuerySKUsByProviderRequest_wire (x : skuv1_QuerySKUsByProviderRequest) : bytes :=
  enc_str 0xa (skuv1_QuerySKUsByProviderRequest_ProviderUuid x) ++
  enc_opt (λ e, len_field 0x12 (api_PageRequest_wire e)) (skuv1_QuerySKUsByProviderRequest_Pagination x) ++
  enc_bool 0x18 (skuv1_QuerySKUsByProviderRequest_ActiveOnly x) ++
  skuv1_QuerySKUsByProviderRequest_unknownFields x.

(** ** QuerySKUsByProviderResponse *)

Definition skuv1_QuerySKUsByProviderResponse_size (x : option skuv1_QuerySKUsByProviderResponse) : Z :=
  match x with
  | None => 0
  | Some x =>
      size_each (λ e, rt_size_len (options_Size skuv1_SKU_size e)) (skuv1_QuerySKUsByProviderResponse_Skus x) +
      size_opt (skuv1_QuerySKUsByProviderResponse_Pagination x) (λ e, rt_size_len (options_Size api_PageResponse_size (Some e))) +
      llen (skuv1_QuerySKUsByProviderResponse_unknownFields x)
  end.

Definition skuv1_QuerySKUsByProviderResponse_write (x : skuv1_QuerySKUsByProviderResponse) : writer :=
  rt_put_unknown (skuv1_QuerySKUsByProviderResponse_unknownFields x) ;;>
  if_some (skuv1_QuerySKUsByProviderResponse_Pagination x) (λ e, rt_put_msg 0x12 (options_Marshal api_PageResponse_marshal (Some e))) ;;>
  put_each (λ e, rt_put_msg 0xa (options_Marshal skuv1_SKU_marshal e)) (skuv1_QuerySKUsByProviderResponse_Skus x).

Definition skuv1_QuerySKUsByProviderResponse_marshal : bytes → option skuv1_QuerySKUsByProviderResponse → res bytes :=
  rt_marshal skuv1_QuerySKUsByProviderResponse_size skuv1_QuerySKUsByProviderResponse_write.

Definition skuv1_QuerySKUsByProviderResponse_case_1 (discard : bool) (wireType : Z) (dAtA : bytes) (iNdEx : Z) (x :
    skuv1_QuerySKUsByProviderResponse) : res (skuv1_QuerySKUsByProviderResponse * Z) :=
  let 'mk_skuv1_QuerySKUsByProviderResponse skus pagination u := x in
  '(v, iNdEx) ← rt_get_msg skuv1_SKU_unmarshal skuv1_SKU_new None discard wireType dAtA iNdEx;
  Ok (mk_skuv1_QuerySKUsByProviderResponse (skus ++ [v]) pagination u, iNdEx).

Definition skuv1_QuerySKUsByProviderResponse_case_2 (discard : bool) (wireType : Z) (dAtA : bytes) (iNdEx : Z) (x :
    skuv1_QuerySKUsByProviderResponse) : res (skuv1_QuerySKUsByProviderResponse * Z) :=
  let 'mk_skuv1_QuerySKUsByProviderResponse skus pagination u := x in
  '(v, iNdEx) ← rt_get_msg api_PageResponse_unmarshal api_PageResponse_new pagination discard wireType dAtA iNdEx;
  Ok (mk_skuv1_QuerySKUsByProviderResponse skus v u, iNdEx).

Definition skuv1_QuerySKUsByProviderResponse_switch (discard : bool) (fieldNum wireType : Z) (dAtA : bytes) (iNdEx :
    Z) (x : skuv1_QuerySKUsByProviderResponse) : option (res (skuv1_QuerySKUsByProviderResponse * Z)) :=
  match fieldNum with
  | 1 => Some (skuv1_QuerySKUsByProviderResponse_case_1 discard wireType dAtA iNdEx x)
  | 2 => Some (skuv1_QuerySKUsByProviderResponse_case_2 discard wireType dAtA iNdEx x)
  | _ => None
  end.

Definition skuv1_QuerySKUsByProviderResponse_keep (f : bytes) (x : skuv1_QuerySKUsByProviderResponse) :
    skuv1_QuerySKUsByProviderResponse :=
  let 'mk_skuv1_QuerySKUsByProviderResponse skus pagination u := x in mk_skuv1_QuerySKUsByProviderResponse skus
    pagination (u ++ f).

Definition skuv1_QuerySKUsByProviderResponse_unmarshal : bool → bytes → option skuv1_QuerySKUsByProviderResponse → res
  (option skuv1_QuerySKUsByProviderResponse) := rt_unmarshal skuv1_QuerySKUsByProviderResponse_switch
  skuv1_QuerySKUsByProviderResponse_keep.

Definition skuv1_QuerySKUsByProviderResponse_wire (x : skuv1_QuerySKUsByProviderResponse) : bytes :=
  enc_each (λ e, len_field 0xa (wire_ptr skuv1_SKU_wire e)) (skuv1_QuerySKUsByProviderResponse_Skus x) ++
  enc_opt (λ e, len_field 0x12 (api_PageResponse_wire e)) (skuv1_QuerySKUsByProviderResponse_Pagination x) ++
  skuv1_QuerySKUsByProviderResponse_unknownFields x.

(** ** QueryProviderByAddressRequest *)

Definition skuv1_QueryProviderByAddressRequest_size (x : option skuv1_QueryProviderByAddressRequest) : Z :=
  match x with
  | None => 0
  | Some x =>
      rt_size_str (skuv1_QueryProviderByAddressRequest_Address x) +
      size_opt (skuv1_QueryProviderByAddressRequest_Pagination x) (λ e, rt_size_len (options_Size api_PageRequest_size (Some e))) +
      size_bool (skuv1_QueryProviderByAddressRequest_ActiveOnly x) +
      llen (skuv1_QueryProviderByAddressRequest_unknownFields x)
  end.

Definition skuv1_QueryProviderByAddressRequest_write (x : skuv1_QueryProviderByAddressRequest) : writer :=
  rt_put_unknown (skuv1_QueryProviderByAddressRequest_unknownFields x) ;;>
  if_true (skuv1_QueryProviderByAddressRequest_ActiveOnly x) (put_bool 0x18 (skuv1_QueryProviderByAddressRequest_ActiveOnly x)) ;;>
  if_some (skuv1_QueryProviderByAddressRequest_Pagination x) (λ e, rt_put_msg 0x12 (options_Marshal api_PageRequest_marshal (Some e))) ;;>
  if_nonempty (skuv1_QueryProviderByAddressRequest_Address x) (rt_put_bytes 0xa (skuv1_QueryProviderByAddressRequest_Address x)).

Definition skuv1_QueryProviderByAddressRequest_marshal : bytes → option skuv1_QueryProviderByAddressRequest → res
  bytes := rt_marshal skuv1_QueryProviderByAddressRequest_size skuv1_QueryProviderByAddressRequest_write.

Definition skuv1_QueryProviderByAddressRequest_case_1 (discard : bool) (wireType : Z) (dAtA : bytes) (iNdEx : Z) (x :
    skuv1_QueryProviderByAddressRequest) : res (skuv1_QueryProviderByAddressRequest * Z) :=
  let 'mk_skuv1_QueryProviderByAddressRequest address pagination activeOnly u := x in
  '(v, iNdEx) ← get_string wireType dAtA iNdEx;
  Ok (mk_skuv1_QueryProviderByAddressRequest v pagination activeOnly u, iNdEx).

Definition skuv1_QueryProviderByAddressRequest_case_2 (discard : bool) (wireType : Z) (dAtA : bytes) (iNdEx : Z) (x :
    skuv1_QueryProviderByAddressRequest) : res (skuv1_QueryProviderByAddressRequest * Z) :=
  let 'mk_skuv1_QueryProviderByAddressRequest address pagination activeOnly u := x in
  '(v, iNdEx) ← rt_get_msg api_PageRequest_unmarshal api_PageRequest_new pagination discard wireType dAtA iNdEx;
  Ok (mk_skuv1_QueryProviderByAddressRequest address v activeOnly u, iNdEx).

Definition skuv1_QueryProviderByAddressRequest_case_3 (discard : bool) (wireType : Z) (dAtA : bytes) (iNdEx : Z) (x :
    skuv1_QueryProviderByAddressRequest) : res (skuv1_QueryProviderByAddressRequest * Z) :=
  let 'mk_skuv1_QueryProviderByAddressRequest address pagination activeOnly u := x in
  '(v, iNdEx) ← get_bool wireType dAtA iNdEx;
  Ok (mk_skuv1_QueryProviderByAddressRequest address pagination v u, iNdEx).

Definition skuv1_QueryProviderByAddressRequest_switch (discard : bool) (fieldNum wireType : Z) (dAtA : bytes) (iNdEx :
    Z) (x : skuv1_QueryProviderByAddressRequest) : option (res (skuv1_QueryProviderByAddressRequest * Z)) :=
  match fieldNum with
  | 1 => Some (skuv1_QueryProviderByAddressRequest_case_1 discard wireType dAtA iNdEx x)
  | 2 => Some (skuv1_QueryProviderByAddressRequest_case_2 discard wireType dAtA iNdEx x)
  | 3 => Some (skuv1_QueryProviderByAddressRequest_case_3 discard wireType dAtA iNdEx x)
  | _ => None
  end.

Definition skuv1_QueryProviderByAddressRequest_keep (f : bytes) (x : skuv1_QueryProviderByAddressRequest) :
    skuv1_QueryProviderByAddressRequest :=
  let 'mk_skuv1_QueryProviderByAddressRequest address pagination activeOnly u := x in
    mk_skuv1_QueryProviderByAddressRequest address pagination activeOnly (u ++ f).

Definition skuv1_QueryProviderByAddressRequest_unmarshal : bool → bytes → option skuv1_QueryProviderByAddressRequest →
  res (option skuv1_QueryProviderByAddressRequest) := rt_unmarshal skuv1_QueryProviderByAddressRequest_switch
  skuv1_QueryProviderByAddressRequest_keep.

Definition skuv1_QueryProviderByAddressRequest_wire (x : skuv1_QueryProviderByAddressRequest) : bytes :=
  enc_str 0xa (skuv1_QueryProviderByAddressRequest_Address x) ++
  enc_opt (λ e, len_field 0x12 (api_PageRequest_wire e)) (skuv1_QueryProviderByAddressRequest_Pagination x) ++
  enc_bool 0x18 (skuv1_QueryProviderByAddressRequest_ActiveOnly x) ++
  skuv1_QueryProviderByAddressRequest_unknownFields x.

(** ** QueryProviderByAddressResponse *)

Definition skuv1_QueryProviderByAddressResponse_size (x : option skuv1_QueryProviderByAddressResponse) : Z :=
  match x with
  | None => 0
  | Some x =>
      size_each (λ e, rt_size_len (options_Size skuv1_Provider_size e)) (skuv1_QueryProviderByAddressResponse_Providers x) +
      size_opt (skuv1_QueryProviderByAddressResponse_Pagination x) (λ e, rt_size_len (options_Size api_PageResponse_size (Some e))) +
      llen (skuv1_QueryProviderByAddressResponse_unknownFields x)
  end.

Definition skuv1_QueryProviderByAddressResponse_write (x : skuv1_QueryProviderByAddressResponse) : writer :=
  rt_put_unknown (skuv1_QueryProviderByAddressResponse_unknownFields x) ;;>
  if_some (skuv1_QueryProviderByAddressResponse_Pagination x) (λ e, rt_put_msg 0x12 (options_Marshal api_PageResponse_marshal (Some e))) ;;>
  put_each (λ e, rt_put_msg 0xa (options_Marshal skuv1_Provider_marshal e)) (skuv1_QueryProviderByAddressResponse_Providers x).

Definition skuv1_QueryProviderByAddressResponse_marshal : bytes → option skuv1_QueryProviderByAddressResponse → res
  bytes := rt_marshal skuv1_QueryProviderByAddressResponse_size skuv1_QueryProviderByAddressResponse_write.

Definition skuv1_QueryProviderByAddressResponse_case_1 (discard : bool) (wireType : Z) (dAtA : bytes) (iNdEx : Z) (x :
    skuv1_QueryProviderByAddressResponse) : res (skuv1_QueryProviderByAddressResponse * Z) :=
  let 'mk_skuv1_QueryProviderByAddressResponse providers pagination u := x in
  '(v, iNdEx) ← rt_get_msg skuv1_Provider_unmarshal skuv1_Provider_new None discard wireType dAtA iNdEx;
  Ok (mk_skuv1_QueryProviderByAddressResponse (providers ++ [v]) pagination u, iNdEx).

Definition skuv1_QueryProviderByAddressResponse_case_2 (discard : bool) (wireType : Z) (dAtA : bytes) (iNdEx : Z) (x :
    skuv1_QueryProviderByAddressResponse) : res (skuv1_QueryProviderByAddressResponse * Z) :=
  let 'mk_skuv1_QueryProviderByAddressResponse providers pagination u := x in
  '(v, iNdEx) ← rt_get_msg api_PageResponse_unmarshal api_PageResponse_new pagination discard wireType dAtA iNdEx;
  Ok (mk_skuv1_QueryProviderByAddressResponse providers v u, iNdEx).

Definition skuv1_QueryProviderByAddressResponse_switch (discard : bool) (fieldNum wireType : Z) (dAtA : bytes) (iNdEx
    : Z) (x : skuv1_QueryProviderByAddressResponse) : option (res (skuv1_QueryProviderByAddressResponse * Z)) :=
  match fieldNum with
  | 1 => Some (skuv1_QueryProviderByAddressResponse_case_1 discard wireType dAtA iNdEx x)
  | 2 => Some (skuv1_QueryProviderByAddressResponse_case_2 discard wireType dAtA iNdEx x)
  | _ => None
  end.

Definition skuv1_QueryProviderByAddressResponse_keep (f : bytes) (x : skuv1_QueryProviderByAddressResponse) :
    skuv1_QueryProviderByAddressResponse :=
  let 'mk_skuv1_QueryProviderByAddressResponse providers pagination u := x in mk_skuv1_QueryProviderByAddressResponse
    providers pagination (u ++ f).

Definition skuv1_QueryProviderByAddressResponse_unmarshal : bool → bytes → option skuv1_QueryProviderByAddressResponse
  → res (option skuv1_QueryProviderByAddressResponse) := rt_unmarshal skuv1_QueryProviderByAddressResponse_switch
  skuv1_QueryProviderByAddressResponse_keep.

Definition skuv1_QueryProviderByAddressResponse_wire (x : skuv1_QueryProviderByAddressResponse) : bytes :=
  enc_each (λ e, len_field 0xa (wire_ptr skuv1_Provider_wire e)) (skuv1_QueryProviderByAddressResponse_Providers x) ++
  enc_opt (λ e, len_field 0x12 (api_PageResponse_wire e)) (skuv1_QueryProviderByAddressResponse_Pagination x) ++
  skuv1_QueryProviderByAddressResponse_unknownFields x.

(** ** GenesisState *)

Definition skuv1_GenesisState_size (x : option skuv1_GenesisState) : Z :=
  match x with
  | None => 0
  | Some x =>
      size_opt (skuv1_GenesisState_Params x) (λ e, rt_size_len (options_Size skuv1_Params_size (Some e))) +
      size_each (λ e, rt_size_len (options_Size skuv1_Provider_size e)) (skuv1_GenesisState_Providers x) +
      size_each (λ e, rt_size_len (options_Size skuv1_SKU_size e)) (skuv1_GenesisState_Skus x) +
      rt_size_num (skuv1_GenesisState_ProviderSequence x) +
      rt_size_num (skuv1_GenesisState_SkuSequence x) +
      llen (skuv1_GenesisState_unknownFields x)
  end.

Definition skuv1_GenesisState_write (x : skuv1_GenesisState) : writer :=
  rt_put_unknown (skuv1_GenesisState_unknownFields x) ;;>
  if_nonzero (skuv1_GenesisState_SkuSequence x) (rt_put_uint 0x28 (skuv1_GenesisState_SkuSequence x)) ;;>
  if_nonzero (skuv1_GenesisState_ProviderSequence x) (rt_put_uint 0x20 (skuv1_GenesisState_ProviderSequence x)) ;;>
  put_each (λ e, rt_put_msg 0x1a (options_Marshal skuv1_SKU_marshal e)) (skuv1_GenesisState_Skus x) ;;>
  put_each (λ e, rt_put_msg 0x12 (options_Marshal skuv1_Provider_marshal e)) (skuv1_GenesisState_Providers x) ;;>
  if_some (skuv1_GenesisState_Params x) (λ e, rt_put_msg 0xa (options_Marshal skuv1_Params_marshal (Some e))).

Definition skuv1_GenesisState_marshal : bytes → option skuv1_GenesisState → res bytes := rt_marshal
  skuv1_GenesisState_size skuv1_GenesisState_write.

Definition skuv1_GenesisState_case_1 (discard : bool) (wireType : Z) (dAtA : bytes) (iNdEx : Z) (x :
    skuv1_GenesisState) : res (skuv1_GenesisState * Z) :=
  let 'mk_skuv1_GenesisState params providers skus providerSequence skuSequence u := x in
  '(v, iNdEx) ← rt_get_msg skuv1_Params_unmarshal skuv1_Params_new params discard wireType dAtA iNdEx;
  Ok (mk_skuv1_GenesisState v providers skus providerSequence skuSequence u, iNdEx).

Definition skuv1_GenesisState_case_2 (discard : bool) (wireType : Z) (dAtA : bytes) (iNdEx : Z) (x :
    skuv1_GenesisState) : res (skuv1_GenesisState * Z) :=
  let 'mk_skuv1_GenesisState params providers skus providerSequence skuSequence u := x in
  '(v, iNdEx) ← rt_get_msg skuv1_Provider_unmarshal skuv1_Provider_new None discard wireType dAtA iNdEx;
  Ok (mk_skuv1_GenesisState params (providers ++ [v]) skus providerSequence skuSequence u, iNdEx).

Definition skuv1_GenesisState_case_3 (discard : bool) (wireType : Z) (dAtA : bytes) (iNdEx : Z) (x :
    skuv1_GenesisState) : res (skuv1_GenesisState * Z) :=
  let 'mk_skuv1_GenesisState params providers skus providerSequence skuSequence u := x in
  '(v, iNdEx) ← rt_get_msg skuv1_SKU_unmarshal skuv1_SKU_new None discard wireType dAtA iNdEx;
  Ok (mk_skuv1_GenesisState params providers (skus ++ [v]) providerSequence skuSequence u, iNdEx).

Definition skuv1_GenesisState_case_4 (discard : bool) (wireType : Z) (dAtA : bytes) (iNdEx : Z) (x :
    skuv1_GenesisState) : res (skuv1_GenesisState * Z) :=
  let 'mk_skuv1_GenesisState params providers skus providerSequence skuSequence u := x in
  '(v, iNdEx) ← get_uint wireType dAtA iNdEx;
  Ok (mk_skuv1_GenesisState params providers skus v skuSequence u, iNdEx).

Definition skuv1_GenesisState_case_5 (discard : bool) (wireType : Z) (dAtA : bytes) (iNdEx : Z) (x :
    skuv1_GenesisState) : res (skuv1_GenesisState * Z) :=
  let 'mk_skuv1_GenesisState params providers skus providerSequence skuSequence u := x in
  '(v, iNdEx) ← get_uint wireType dAtA iNdEx;
  Ok (mk_skuv1_GenesisState params providers skus providerSequence v u, iNdEx).

Definition skuv1_GenesisState_switch (discard : bool) (fieldNum wireType : Z) (dAtA : bytes) (iNdEx : Z) (x :
    skuv1_GenesisState) : option (res (skuv1_GenesisState * Z)) :=
  match fieldNum with
  | 1 => Some (skuv1_GenesisState_case_1 discard wireType dAtA iNdEx x)
  | 2 => Some (skuv1_GenesisState_case_2 discard wireType dAtA iNdEx x)
  | 3 => Some (skuv1_GenesisState_case_3 discard wireType dAtA iNdEx x)
  | 4 => Some (skuv1_GenesisState_case_4 discard wireType dAtA iNdEx x)
  | 5 => Some (skuv1_GenesisState_case_5 discard wireType dAtA iNdEx x)
  | _ => None
  end.

Definition skuv1_GenesisState_keep (f : bytes) (x : skuv1_GenesisState) : skuv1_GenesisState :=
  let 'mk_skuv1_GenesisState params providers skus providerSequence skuSequence u := x in mk_skuv1_GenesisState params
    providers skus providerSequence skuSequence (u ++ f).

Definition skuv1_GenesisState_unmarshal : bool → bytes → option skuv1_GenesisState → res (option skuv1_GenesisState)
  := rt_unmarshal skuv1_GenesisState_switch skuv1_GenesisState_keep.

Definition skuv1_GenesisState_wire (x : skuv1_GenesisState) : bytes :=
  enc_opt (λ e, len_field 0xa (skuv1_Params_wire e)) (skuv1_GenesisState_Params x) ++
  enc_each (λ e, len_field 0x12 (wire_ptr skuv1_Provider_wire e)) (skuv1_GenesisState_Providers x) ++
  enc_each (λ e, len_field 0x1a (wire_ptr skuv1_SKU_wire e)) (skuv1_GenesisState_Skus x) ++
  enc_uint 0x20 (skuv1_GenesisState_ProviderSequence x) ++
  enc_uint 0x28 (skuv1_GenesisState_SkuSequence x) ++
  skuv1_GenesisState_unknownFields x.

End codec.

(** ** Lawful messages *)

Section laws.
Context `{RL : RuntimeLaws} `{EL : ExternalLaws}.

Definition skuv1_QueryParamsRequest_fits (x : skuv1_QueryParamsRequest) : Prop := unknown_fits 0
  (skuv1_QueryParamsRequest_unknownFields x).

#[global] Instance skuv1_QueryParamsRequest_lawful :
  api_lawful skuv1_QueryParamsRequest_fits skuv1_QueryParamsRequest_size skuv1_QueryParamsRequest_marshal
    skuv1_QueryParamsRequest_unmarshal skuv1_QueryParamsRequest_wire skuv1_QueryParamsRequest_new.
Proof. solve_api. intros [u] Hu _. change (unknown_fits 0 u) in Hu. api_unknown 0 mk_skuv1_QueryParamsRequest. Qed.

Definition skuv1_QueryParamsResponse_fits (x : skuv1_QueryParamsResponse) : Prop := fits_opt skuv1_Params_fits
  (skuv1_QueryParamsResponse_Params x) ∧ unknown_fits 1 (skuv1_QueryParamsResponse_unknownFields x).

#[global] Instance skuv1_QueryParamsResponse_lawful :
  api_lawful skuv1_QueryParamsResponse_fits skuv1_QueryParamsResponse_size skuv1_QueryParamsResponse_marshal
    skuv1_QueryParamsResponse_unmarshal skuv1_QueryParamsResponse_wire skuv1_QueryParamsResponse_new.
Proof.
  solve_api. intros [params u]; open_api Hl.
  api_msg 1 skuv1_Params_unmarshal skuv1_Params_new (λ l, mk_skuv1_QueryParamsResponse l []) Hl. api_unknown 1 (λ u,
  mk_skuv1_QueryParamsResponse params u).
Qed.

Definition skuv1_QueryProviderRequest_fits (x : skuv1_QueryProviderRequest) : Prop := unknown_fits 1
  (skuv1_QueryProviderRequest_unknownFields x).

#[global] Instance skuv1_QueryProviderRequest_lawful :
  api_lawful skuv1_QueryProviderRequest_fits skuv1_QueryProviderRequest_size skuv1_QueryProviderRequest_marshal
    skuv1_QueryProviderRequest_unmarshal skuv1_QueryProviderRequest_wire skuv1_QueryProviderRequest_new.
Proof.
  solve_api. intros [uuid u]; open_api Hl.
  api_string 1. api_unknown 1 (λ u, mk_skuv1_QueryProviderRequest uuid u).
Qed.

Definition skuv1_QueryProviderResponse_fits (x : skuv1_QueryProviderResponse) : Prop := fits_opt skuv1_Provider_fits
  (skuv1_QueryProviderResponse_Provider x) ∧ unknown_fits 1 (skuv1_QueryProviderResponse_unknownFields x).

#[global] Instance skuv1_QueryProviderResponse_lawful :
  api_lawful skuv1_QueryProviderResponse_fits skuv1_QueryProviderResponse_size skuv1_QueryProviderResponse_marshal
    skuv1_QueryProviderResponse_unmarshal skuv1_QueryProviderResponse_wire skuv1_QueryProviderResponse_new.
Proof.
  solve_api. intros [provider u]; open_api Hl.
  api_msg 1 skuv1_Provider_unmarshal skuv1_Provider_new (λ l, mk_skuv1_QueryProviderResponse l []) Hl. api_unknown 1
  (λ u, mk_skuv1_QueryProviderResponse provider u).
Qed.

Definition skuv1_QueryProvidersRequest_fits (x : skuv1_QueryProvidersRequest) : Prop := fits_opt api_PageRequest_fits
  (skuv1_QueryProvidersRequest_Pagination x) ∧ unknown_fits 2 (skuv1_QueryProvidersRequest_unknownFields x).

#[global] Instance skuv1_QueryProvidersRequest_lawful :
  api_lawful skuv1_QueryProvidersRequest_fits skuv1_QueryProvidersRequest_size skuv1_QueryProvidersRequest_marshal
    skuv1_QueryProvidersRequest_unmarshal skuv1_QueryProvidersRequest_wire skuv1_QueryProvidersRequest_new.
Proof.
  solve_api. intros [pagination activeOnly u]; open_api Hl.
  api_msg 1 api_PageRequest_unmarshal api_PageRequest_new (λ l, mk_skuv1_QueryProvidersRequest l false []) Hl.
  api_bool 2. api_unknown 2 (λ u, mk_skuv1_QueryProvidersRequest pagination activeOnly u).
Qed.

Definition skuv1_QueryProvidersResponse_fits (x : skuv1_QueryProvidersResponse) : Prop := fits_each
  skuv1_Provider_fits (skuv1_QueryProvidersResponse_Providers x) ∧ fits_opt api_PageResponse_fits
  (skuv1_QueryProvidersResponse_Pagination x) ∧ unknown_fits 2 (skuv1_QueryProvidersResponse_unknownFields x).

#[global] Instance skuv1_QueryProvidersResponse_lawful :
  api_lawful skuv1_QueryProvidersResponse_fits skuv1_QueryProvidersResponse_size skuv1_QueryProvidersResponse_marshal
    skuv1_QueryProvidersResponse_unmarshal skuv1_QueryProvidersResponse_wire skuv1_QueryProvidersResponse_new.
Proof.
  solve_api. intros [providers pagination u]; open_api Hl.
  api_msgs 1 skuv1_Provider_unmarshal skuv1_Provider_new (λ l, mk_skuv1_QueryProvidersResponse l None []) Hl. api_msg
  2 api_PageResponse_unmarshal api_PageResponse_new (λ l, mk_skuv1_QueryProvidersResponse providers l []) Hl.
  api_unknown 2 (λ u, mk_skuv1_QueryProvidersResponse providers pagination u).
Qed.

Definition skuv1_QuerySKURequest_fits (x : skuv1_QuerySKURequest) : Prop := unknown_fits 1
  (skuv1_QuerySKURequest_unknownFields x).

#[global] Instance skuv1_QuerySKURequest_lawful :
  api_lawful skuv1_QuerySKURequest_fits skuv1_QuerySKURequest_size skuv1_QuerySKURequest_marshal
    skuv1_QuerySKURequest_unmarshal skuv1_QuerySKURequest_wire skuv1_QuerySKURequest_new.
Proof.
  solve_api. intros [uuid u]; open_api Hl.
  api_string 1. api_unknown 1 (λ u, mk_skuv1_QuerySKURequest uuid u).
Qed.

Definition skuv1_QuerySKUResponse_fits (x : skuv1_QuerySKUResponse) : Prop := fits_opt skuv1_SKU_fits
  (skuv1_QuerySKUResponse_Sku x) ∧ unknown_fits 1 (skuv1_QuerySKUResponse_unknownFields x).

#[global] Instance skuv1_QuerySKUResponse_lawful :
  api_lawful skuv1_QuerySKUResponse_fits skuv1_QuerySKUResponse_size skuv1_QuerySKUResponse_marshal
    skuv1_QuerySKUResponse_unmarshal skuv1_QuerySKUResponse_wire skuv1_QuerySKUResponse_new.
Proof.
  solve_api. intros [sku u]; open_api Hl.
  api_msg 1 skuv1_SKU_unmarshal skuv1_SKU_new (λ l, mk_skuv1_QuerySKUResponse l []) Hl. api_unknown 1 (λ u,
  mk_skuv1_QuerySKUResponse sku u).
Qed.

Definition skuv1_QuerySKUsRequest_fits (x : skuv1_QuerySKUsRequest) : Prop := fits_opt api_PageRequest_fits
  (skuv1_QuerySKUsRequest_Pagination x) ∧ unknown_fits 2 (skuv1_QuerySKUsRequest_unknownFields x).

#[global] Instance skuv1_QuerySKUsRequest_lawful :
  api_lawful skuv1_QuerySKUsRequest_fits skuv1_QuerySKUsRequest_size skuv1_QuerySKUsRequest_marshal
    skuv1_QuerySKUsRequest_unmarshal skuv1_QuerySKUsRequest_wire skuv1_QuerySKUsRequest_new.
Proof.
  solve_api. intros [pagination activeOnly u]; open_api Hl.
  api_msg 1 api_PageRequest_unmarshal api_PageRequest_new (λ l, mk_skuv1_QuerySKUsRequest l false []) Hl. api_bool 2.
  api_unknown 2 (λ u, mk_skuv1_QuerySKUsRequest pagination activeOnly u).
Qed.

Definition skuv1_QuerySKUsResponse_fits (x : skuv1_QuerySKUsResponse) : Prop := fits_each skuv1_SKU_fits
  (skuv1_QuerySKUsResponse_Skus x) ∧ fits_opt api_PageResponse_fits (skuv1_QuerySKUsResponse_Pagination x) ∧
  unknown_fits 2 (skuv1_QuerySKUsResponse_unknownFields x).

#[global] Instance skuv1_QuerySKUsResponse_lawful :
  api_lawful skuv1_QuerySKUsResponse_fits skuv1_QuerySKUsResponse_size skuv1_QuerySKUsResponse_marshal
    skuv1_QuerySKUsResponse_unmarshal skuv1_QuerySKUsResponse_wire skuv1_QuerySKUsResponse_new.
Proof.
  solve_api. intros [skus pagination u]; open_api Hl.
  api_msgs 1 skuv1_SKU_unmarshal skuv1_SKU_new (λ l, mk_skuv1_QuerySKUsResponse l None []) Hl. api_msg 2
  api_PageResponse_unmarshal api_PageResponse_new (λ l, mk_skuv1_QuerySKUsResponse skus l []) Hl. api_unknown 2 (λ u,
  mk_skuv1_QuerySKUsResponse skus pagination u).
Qed.

Definition skuv1_QuerySKUsByProviderRequest_fits (x : skuv1_QuerySKUsByProviderRequest) : Prop := fits_opt
  api_PageRequest_fits (skuv1_QuerySKUsByProviderRequest_Pagination x) ∧ unknown_fits 3
  (skuv1_QuerySKUsByProviderRequest_unknownFields x).

#[global] Instance skuv1_QuerySKUsByProviderRequest_lawful :
  api_lawful skuv1_QuerySKUsByProviderRequest_fits skuv1_QuerySKUsByProviderRequest_size
    skuv1_QuerySKUsByProviderRequest_marshal skuv1_QuerySKUsByProviderRequest_unmarshal
    skuv1_QuerySKUsByProviderRequest_wire skuv1_QuerySKUsByProviderRequest_new.
Proof.
  solve_api. intros [providerUuid pagination activeOnly u]; open_api Hl.
  api_string 1. api_msg 2 api_PageRequest_unmarshal api_PageRequest_new (λ l, mk_skuv1_QuerySKUsByProviderRequest
  providerUuid l false []) Hl. api_bool 3. api_unknown 3 (λ u, mk_skuv1_QuerySKUsByProviderRequest providerUuid
  pagination activeOnly u).
Qed.

Definition skuv1_QuerySKUsByProviderResponse_fits (x : skuv1_QuerySKUsByProviderResponse) : Prop := fits_each
  skuv1_SKU_fits (skuv1_QuerySKUsByProviderResponse_Skus x) ∧ fits_opt api_PageResponse_fits
  (skuv1_QuerySKUsByProviderResponse_Pagination x) ∧ unknown_fits 2 (skuv1_QuerySKUsByProviderResponse_unknownFields
  x).

#[global] Instance skuv1_QuerySKUsByProviderResponse_lawful :
  api_lawful skuv1_QuerySKUsByProviderResponse_fits skuv1_QuerySKUsByProviderResponse_size
    skuv1_QuerySKUsByProviderResponse_marshal skuv1_QuerySKUsByProviderResponse_unmarshal
    skuv1_QuerySKUsByProviderResponse_wire skuv1_QuerySKUsByProviderResponse_new.
Proof.
  solve_api. intros [skus pagination u]; open_api Hl.
  api_msgs 1 skuv1_SKU_unmarshal skuv1_SKU_new (λ l, mk_skuv1_QuerySKUsByProviderResponse l None []) Hl. api_msg 2
  api_PageResponse_unmarshal api_PageResponse_new (λ l, mk_skuv1_QuerySKUsByProviderResponse skus l []) Hl.
  api_unknown 2 (λ u, mk_skuv1_QuerySKUsByProviderResponse skus pagination u).
Qed.

Definition skuv1_QueryProviderByAddressRequest_fits (x : skuv1_QueryProviderByAddressRequest) : Prop := fits_opt
  api_PageRequest_fits (skuv1_QueryProviderByAddressRequest_Pagination x) ∧ unknown_fits 3
  (skuv1_QueryProviderByAddressRequest_unknownFields x).

#[global] Instance skuv1_QueryProviderByAddressRequest_lawful :
  api_lawful skuv1_QueryProviderByAddressRequest_fits skuv1_QueryProviderByAddressRequest_size
    skuv1_QueryProviderByAddressRequest_marshal skuv1_QueryProviderByAddressRequest_unmarshal
    skuv1_QueryProviderByAddressRequest_wire skuv1_QueryProviderByAddressRequest_new.
Proof.
  solve_api. intros [address pagination activeOnly u]; open_api Hl.
  api_string 1. api_msg 2 api_PageRequest_unmarshal api_PageRequest_new (λ l, mk_skuv1_QueryProviderByAddressRequest
  address l false []) Hl. api_bool 3. api_unknown 3 (λ u, mk_skuv1_QueryProviderByAddressRequest address pagination
  activeOnly u).
Qed.

Definition skuv1_QueryProviderByAddressResponse_fits (x : skuv1_QueryProviderByAddressResponse) : Prop := fits_each
  skuv1_Provider_fits (skuv1_QueryProviderByAddressResponse_Providers x) ∧ fits_opt api_PageResponse_fits
  (skuv1_QueryProviderByAddressResponse_Pagination x) ∧ unknown_fits 2
  (skuv1_QueryProviderByAddressResponse_unknownFields x).

#[global] Instance skuv1_QueryProviderByAddressResponse_lawful :
  api_lawful skuv1_QueryProviderByAddressResponse_fits skuv1_QueryProviderByAddressResponse_size
    skuv1_QueryProviderByAddressResponse_marshal skuv1_QueryProviderByAddressResponse_unmarshal
    skuv1_QueryProviderByAddressResponse_wire skuv1_QueryProviderByAddressResponse_new.
Proof.
  solve_api. intros [providers pagination u]; open_api Hl.
  api_msgs 1 skuv1_Provider_unmarshal skuv1_Provider_new (λ l, mk_skuv1_QueryProviderByAddressResponse l None []) Hl.
  api_msg 2 api_PageResponse_unmarshal api_PageResponse_new (λ l, mk_skuv1_QueryProviderByAddressResponse providers l
  []) Hl. api_unknown 2 (λ u, mk_skuv1_QueryProviderByAddressResponse providers pagination u).
Qed.

Definition skuv1_GenesisState_fits (x : skuv1_GenesisState) : Prop := fits_opt skuv1_Params_fits
  (skuv1_GenesisState_Params x) ∧ fits_each skuv1_Provider_fits (skuv1_GenesisState_Providers x) ∧ fits_each
  skuv1_SKU_fits (skuv1_GenesisState_Skus x) ∧ is_u64 (skuv1_GenesisState_ProviderSequence x) ∧ is_u64
  (skuv1_GenesisState_SkuSequence x) ∧ unknown_fits 5 (skuv1_GenesisState_unknownFields x).

#[global] Instance skuv1_GenesisState_lawful :
  api_lawful skuv1_GenesisState_fits skuv1_GenesisState_size skuv1_GenesisState_marshal skuv1_GenesisState_unmarshal
    skuv1_GenesisState_wire skuv1_GenesisState_new.
Proof.
  solve_api. intros [params providers skus providerSequence skuSequence u]; open_api Hl.
  api_msg 1 skuv1_Params_unmarshal skuv1_Params_new (λ l, mk_skuv1_GenesisState l [] [] 0 0 []) Hl. api_msgs 2
  skuv1_Provider_unmarshal skuv1_Provider_new (λ l, mk_skuv1_GenesisState params l [] 0 0 []) Hl. api_msgs 3
  skuv1_SKU_unmarshal skuv1_SKU_new (λ l, mk_skuv1_GenesisState params providers l 0 0 []) Hl. api_uint 4. api_uint 5.
  api_unknown 5 (λ u, mk_skuv1_GenesisState params providers skus providerSequence skuSequence u).
Qed.

End laws.
