(* ===== verification/ApiBilling.v ===== *)
(** * API bindings of the billing module: types and genesis (src/api/liftedinit/billing)

    For every message its fields and the closures size, marshal and unmarshal of ProtoMethods; a case
    of the switch of unmarshal is a definition of its own. At the end the proofs that each is lawful. *)

From stdpp Require Import base tactics option list strings.
From Stdlib Require Import ZArith Lia Ascii.
From S2P Require Import Prelude Wire WireProps Codec Unknown Pulsar ApiExternal.
Open Scope Z_scope.

(** ** Fields *)

Record billingv1_Params : Type := mk_billingv1_Params {
  billingv1_Params_MaxLeasesPerTenant : Z; billingv1_Params_AllowedList : list string;
  billingv1_Params_MaxItemsPerLease : Z; billingv1_Params_MinLeaseDuration : Z;
  billingv1_Params_MaxPendingLeasesPerTenant : Z; billingv1_Params_PendingTimeout : Z;
  billingv1_Params_ReservedDomainSuffixes : list string; billingv1_Params_unknownFields : bytes }.

Definition billingv1_Params_new : billingv1_Params := mk_billingv1_Params 0 [] 0 0 0 0 [] [].

Record billingv1_LeaseItem : Type := mk_billingv1_LeaseItem {
  billingv1_LeaseItem_SkuUuid : string; billingv1_LeaseItem_Quantity : Z; billingv1_LeaseItem_LockedPrice : option
  api_Coin; billingv1_LeaseItem_ServiceName : string; billingv1_LeaseItem_CustomDomain : string;
  billingv1_LeaseItem_unknownFields : bytes }.

Definition billingv1_LeaseItem_new : billingv1_LeaseItem := mk_billingv1_LeaseItem "" 0 None "" "" [].

Record billingv1_Lease : Type := mk_billingv1_Lease {
  billingv1_Lease_Uuid : string; billingv1_Lease_Tenant : string; billingv1_Lease_ProviderUuid : string;
  billingv1_Lease_Items : list (option billingv1_LeaseItem); billingv1_Lease_State : Z; billingv1_Lease_CreatedAt :
  option api_Timestamp; billingv1_Lease_ClosedAt : option api_Timestamp; billingv1_Lease_LastSettledAt : option
  api_Timestamp; billingv1_Lease_AcknowledgedAt : option api_Timestamp; billingv1_Lease_RejectedAt : option
  api_Timestamp; billingv1_Lease_RejectionReason : string; billingv1_Lease_ExpiredAt : option api_Timestamp;
  billingv1_Lease_ClosureReason : string; billingv1_Lease_MetaHash : string;
  billingv1_Lease_MinLeaseDurationAtCreation : Z; billingv1_Lease_unknownFields : bytes }.

Definition billingv1_Lease_new : billingv1_Lease := mk_billingv1_Lease "" "" "" [] 0 None None None None None "" None
  "" "" 0 [].

Record billingv1_CustomDomainTarget : Type := mk_billingv1_CustomDomainTarget {
  billingv1_CustomDomainTarget_LeaseUuid : string; billingv1_CustomDomainTarget_ServiceName : string;
  billingv1_CustomDomainTarget_unknownFields : bytes }.

Definition billingv1_CustomDomainTarget_new : billingv1_CustomDomainTarget := mk_billingv1_CustomDomainTarget "" ""
  [].

Record billingv1_CreditAccount : Type := mk_billingv1_CreditAccount {
  billingv1_CreditAccount_Tenant : string; billingv1_CreditAccount_CreditAddress : string;
  billingv1_CreditAccount_ActiveLeaseCount : Z; billingv1_CreditAccount_PendingLeaseCount : Z;
  billingv1_CreditAccount_ReservedAmounts : list (option api_Coin); billingv1_CreditAccount_unknownFields : bytes }.

Definition billingv1_CreditAccount_new : billingv1_CreditAccount := mk_billingv1_CreditAccount "" "" 0 0 [] [].

Record billingv1_GenesisState : Type := mk_billingv1_GenesisState {
  billingv1_GenesisState_Params : option billingv1_Params; billingv1_GenesisState_Leases : list (option
  billingv1_Lease); billingv1_GenesisState_CreditAccounts : list (option billingv1_CreditAccount);
  billingv1_GenesisState_LeaseSequence : Z; billingv1_GenesisState_unknownFields : bytes }.

Definition billingv1_GenesisState_new : billingv1_GenesisState := mk_billingv1_GenesisState None [] [] 0 [].

Record billing_modulev1_Module : Type := mk_billing_modulev1_Module {
  billing_modulev1_Module_unknownFields : bytes }.

Definition billing_modulev1_Module_new : billing_modulev1_Module := mk_billing_modulev1_Module [].

Section codec.
Context `{Runtime} `{ApiExternal}.

(** ** Params *)

Definition billingv1_Params_size (x : option billingv1_Params) : Z :=
  match x with
  | None => 0
  | Some x =>
      rt_size_num (billingv1_Params_MaxLeasesPerTenant x) +
      size_each (λ s, rt_size_len (len s)) (billingv1_Params_AllowedList x) +
      rt_size_num (billingv1_Params_MaxItemsPerLease x) +
      rt_size_num (billingv1_Params_MinLeaseDuration x) +
      rt_size_num (billingv1_Params_MaxPendingLeasesPerTenant x) +
      rt_size_num (billingv1_Params_PendingTimeout x) +
      size_each (λ s, rt_size_len (len s)) (billingv1_Params_ReservedDomainSuffixes x) +
      llen (billingv1_Params_unknownFields x)
  end.

Definition billingv1_Params_write (x : billingv1_Params) : writer :=
  rt_put_unknown (billingv1_Params_unknownFields x) ;;>
  put_each (λ s, rt_put_bytes 0x3a s) (billingv1_Params_ReservedDomainSuffixes x) ;;>
  if_nonzero (billingv1_Params_PendingTimeout x) (rt_put_uint 0x30 (billingv1_Params_PendingTimeout x)) ;;>
  if_nonzero (billingv1_Params_MaxPendingLeasesPerTenant x) (rt_put_uint 0x28 (billingv1_Params_MaxPendingLeasesPerTenant x)) ;;>
  if_nonzero (billingv1_Params_MinLeaseDuration x) (rt_put_uint 0x20 (billingv1_Params_MinLeaseDuration x)) ;;>
  if_nonzero (billingv1_Params_MaxItemsPerLease x) (rt_put_uint 0x18 (billingv1_Params_MaxItemsPerLease x)) ;;>
  put_each (λ s, rt_put_bytes 0x12 s) (billingv1_Params_AllowedList x) ;;>
  if_nonzero (billingv1_Params_MaxLeasesPerTenant x) (rt_put_uint 0x8 (billingv1_Params_MaxLeasesPerTenant x)).

Definition billingv1_Params_marshal : bytes → option billingv1_Params → res bytes := rt_marshal billingv1_Params_size
  billingv1_Params_write.

Definition billingv1_Params_case_1 (discard : bool) (wireType : Z) (dAtA : bytes) (iNdEx : Z) (x : billingv1_Params) :
    res (billingv1_Params * Z) :=
  let 'mk_billingv1_Params maxLeasesPerTenant allowedList maxItemsPerLease minLeaseDuration maxPendingLeasesPerTenant
    pendingTimeout reservedDomainSuffixes u := x in
  '(v, iNdEx) ← get_uint wireType dAtA iNdEx;
  Ok (mk_billingv1_Params v allowedList maxItemsPerLease minLeaseDuration maxPendingLeasesPerTenant pendingTimeout
    reservedDomainSuffixes u, iNdEx).

Definition billingv1_Params_case_2 (discard : bool) (wireType : Z) (dAtA : bytes) (iNdEx : Z) (x : billingv1_Params) :
    res (billingv1_Params * Z) :=
  let 'mk_billingv1_Params maxLeasesPerTenant allowedList maxItemsPerLease minLeaseDuration maxPendingLeasesPerTenant
    pendingTimeout reservedDomainSuffixes u := x in
  '(v, iNdEx) ← get_string wireType dAtA iNdEx;
  Ok (mk_billingv1_Params maxLeasesPerTenant (allowedList ++ [v]) maxItemsPerLease minLeaseDuration
    maxPendingLeasesPerTenant pendingTimeout reservedDomainSuffixes u, iNdEx).

Definition billingv1_Params_case_3 (discard : bool) (wireType : Z) (dAtA : bytes) (iNdEx : Z) (x : billingv1_Params) :
    res (billingv1_Params * Z) :=
  let 'mk_billingv1_Params maxLeasesPerTenant allowedList maxItemsPerLease minLeaseDuration maxPendingLeasesPerTenant
    pendingTimeout reservedDomainSuffixes u := x in
  '(v, iNdEx) ← get_uint wireType dAtA iNdEx;
  Ok (mk_billingv1_Params maxLeasesPerTenant allowedList v minLeaseDuration maxPendingLeasesPerTenant pendingTimeout
    reservedDomainSuffixes u, iNdEx).

Definition billingv1_Params_case_4 (discard : bool) (wireType : Z) (dAtA : bytes) (iNdEx : Z) (x : billingv1_Params) :
    res (billingv1_Params * Z) :=
  let 'mk_billingv1_Params maxLeasesPerTenant allowedList maxItemsPerLease minLeaseDuration maxPendingLeasesPerTenant
    pendingTimeout reservedDomainSuffixes u := x in
  '(v, iNdEx) ← get_uint wireType dAtA iNdEx;
  Ok (mk_billingv1_Params maxLeasesPerTenant allowedList maxItemsPerLease v maxPendingLeasesPerTenant pendingTimeout
    reservedDomainSuffixes u, iNdEx).

Definition billingv1_Params_case_5 (discard : bool) (wireType : Z) (dAtA : bytes) (iNdEx : Z) (x : billingv1_Params) :
    res (billingv1_Params * Z) :=
  let 'mk_billingv1_Params maxLeasesPerTenant allowedList maxItemsPerLease minLeaseDuration maxPendingLeasesPerTenant
    pendingTimeout reservedDomainSuffixes u := x in
  '(v, iNdEx) ← get_uint wireType dAtA iNdEx;
  Ok (mk_billingv1_Params maxLeasesPerTenant allowedList maxItemsPerLease minLeaseDuration v pendingTimeout
    reservedDomainSuffixes u, iNdEx).

Definition billingv1_Params_case_6 (discard : bool) (wireType : Z) (dAtA : bytes) (iNdEx : Z) (x : billingv1_Params) :
    res (billingv1_Params * Z) :=
  let 'mk_billingv1_Params maxLeasesPerTenant allowedList maxItemsPerLease minLeaseDuration maxPendingLeasesPerTenant
    pendingTimeout reservedDomainSuffixes u := x in
  '(v, iNdEx) ← get_uint wireType dAtA iNdEx;
  Ok (mk_billingv1_Params maxLeasesPerTenant allowedList maxItemsPerLease minLeaseDuration maxPendingLeasesPerTenant v
    reservedDomainSuffixes u, iNdEx).

Definition billingv1_Params_case_7 (discard : bool) (wireType : Z) (dAtA : bytes) (iNdEx : Z) (x : billingv1_Params) :
    res (billingv1_Params * Z) :=
  let 'mk_billingv1_Params maxLeasesPerTenant allowedList maxItemsPerLease minLeaseDuration maxPendingLeasesPerTenant
    pendingTimeout reservedDomainSuffixes u := x in
  '(v, iNdEx) ← get_string wireType dAtA iNdEx;
  Ok (mk_billingv1_Params maxLeasesPerTenant allowedList maxItemsPerLease minLeaseDuration maxPendingLeasesPerTenant
    pendingTimeout (reservedDomainSuffixes ++ [v]) u, iNdEx).

Definition billingv1_Params_switch (discard : bool) (fieldNum wireType : Z) (dAtA : bytes) (iNdEx : Z) (x :
    billingv1_Params) : option (res (billingv1_Params * Z)) :=
  match fieldNum with
  | 1 => Some (billingv1_Params_case_1 discard wireType dAtA iNdEx x)
  | 2 => Some (billingv1_Params_case_2 discard wireType dAtA iNdEx x)
  | 3 => Some (billingv1_Params_case_3 discard wireType dAtA iNdEx x)
  | 4 => Some (billingv1_Params_case_4 discard wireType dAtA iNdEx x)
  | 5 => Some (billingv1_Params_case_5 discard wireType dAtA iNdEx x)
  | 6 => Some (billingv1_Params_case_6 discard wireType dAtA iNdEx x)
  | 7 => Some (billingv1_Params_case_7 discard wireType dAtA iNdEx x)
  | _ => None
  end.

Definition billingv1_Params_keep (f : bytes) (x : billingv1_Params) : billingv1_Params :=
  let 'mk_billingv1_Params maxLeasesPerTenant allowedList maxItemsPerLease minLeaseDuration maxPendingLeasesPerTenant
    pendingTimeout reservedDomainSuffixes u := x in mk_billingv1_Params maxLeasesPerTenant allowedList
    maxItemsPerLease minLeaseDuration maxPendingLeasesPerTenant pendingTimeout reservedDomainSuffixes (u ++ f).

Definition billingv1_Params_unmarshal : bool → bytes → option billingv1_Params → res (option billingv1_Params) :=
  rt_unmarshal billingv1_Params_switch billingv1_Params_keep.

Definition billingv1_Params_wire (x : billingv1_Params) : bytes :=
  enc_uint 0x8 (billingv1_Params_MaxLeasesPerTenant x) ++
  enc_each (λ s, len_field 0x12 (to_bytes s)) (billingv1_Params_AllowedList x) ++
  enc_uint 0x18 (billingv1_Params_MaxItemsPerLease x) ++
  enc_uint 0x20 (billingv1_Params_MinLeaseDuration x) ++
  enc_uint 0x28 (billingv1_Params_MaxPendingLeasesPerTenant x) ++
  enc_uint 0x30 (billingv1_Params_PendingTimeout x) ++
  enc_each (λ s, len_field 0x3a (to_bytes s)) (billingv1_Params_ReservedDomainSuffixes x) ++
  billingv1_Params_unknownFields x.

(** ** LeaseItem *)

Definition billingv1_LeaseItem_size (x : option billingv1_LeaseItem) : Z :=
  match x with
  | None => 0
  | Some x =>
      rt_size_str (billingv1_LeaseItem_SkuUuid x) +
      rt_size_num (billingv1_LeaseItem_Quantity x) +
      size_opt (billingv1_LeaseItem_LockedPrice x) (λ e, rt_size_len (options_Size api_Coin_size (Some e))) +
      rt_size_str (billingv1_LeaseItem_ServiceName x) +
      rt_size_str (billingv1_LeaseItem_CustomDomain x) +
      llen (billingv1_LeaseItem_unknownFields x)
  end.

Definition billingv1_LeaseItem_write (x : billingv1_LeaseItem) : writer :=
  rt_put_unknown (billingv1_LeaseItem_unknownFields x) ;;>
  if_nonempty (billingv1_LeaseItem_CustomDomain x) (rt_put_bytes 0x2a (billingv1_LeaseItem_CustomDomain x)) ;;>
  if_nonempty (billingv1_LeaseItem_ServiceName x) (rt_put_bytes 0x22 (billingv1_LeaseItem_ServiceName x)) ;;>
  if_some (billingv1_LeaseItem_LockedPrice x) (λ e, rt_put_msg 0x1a (options_Marshal api_Coin_marshal (Some e))) ;;>
  if_nonzero (billingv1_LeaseItem_Quantity x) (rt_put_uint 0x10 (billingv1_LeaseItem_Quantity x)) ;;>
  if_nonempty (billingv1_LeaseItem_SkuUuid x) (rt_put_bytes 0xa (billingv1_LeaseItem_SkuUuid x)).

Definition billingv1_LeaseItem_marshal : bytes → option billingv1_LeaseItem → res bytes := rt_marshal
  billingv1_LeaseItem_size billingv1_LeaseItem_write.

Definition billingv1_LeaseItem_case_1 (discard : bool) (wireType : Z) (dAtA : bytes) (iNdEx : Z) (x :
    billingv1_LeaseItem) : res (billingv1_LeaseItem * Z) :=
  let 'mk_billingv1_LeaseItem skuUuid quantity lockedPrice serviceName customDomain u := x in
  '(v, iNdEx) ← get_string wireType dAtA iNdEx;
  Ok (mk_billingv1_LeaseItem v quantity lockedPrice serviceName customDomain u, iNdEx).

Definition billingv1_LeaseItem_case_2 (discard : bool) (wireType : Z) (dAtA : bytes) (iNdEx : Z) (x :
    billingv1_LeaseItem) : res (billingv1_LeaseItem * Z) :=
  let 'mk_billingv1_LeaseItem skuUuid quantity lockedPrice serviceName customDomain u := x in
  '(v, iNdEx) ← get_uint wireType dAtA iNdEx;
  Ok (mk_billingv1_LeaseItem skuUuid v lockedPrice serviceName customDomain u, iNdEx).

Definition billingv1_LeaseItem_case_3 (discard : bool) (wireType : Z) (dAtA : bytes) (iNdEx : Z) (x :
    billingv1_LeaseItem) : res (billingv1_LeaseItem * Z) :=
  let 'mk_billingv1_LeaseItem skuUuid quantity lockedPrice serviceName customDomain u := x in
  '(v, iNdEx) ← rt_get_msg api_Coin_unmarshal api_Coin_new lockedPrice discard wireType dAtA iNdEx;
  Ok (mk_billingv1_LeaseItem skuUuid quantity v serviceName customDomain u, iNdEx).

Definition billingv1_LeaseItem_case_4 (discard : bool) (wireType : Z) (dAtA : bytes) (iNdEx : Z) (x :
    billingv1_LeaseItem) : res (billingv1_LeaseItem * Z) :=
  let 'mk_billingv1_LeaseItem skuUuid quantity lockedPrice serviceName customDomain u := x in
  '(v, iNdEx) ← get_string wireType dAtA iNdEx;
  Ok (mk_billingv1_LeaseItem skuUuid quantity lockedPrice v customDomain u, iNdEx).

Definition billingv1_LeaseItem_case_5 (discard : bool) (wireType : Z) (dAtA : bytes) (iNdEx : Z) (x :
    billingv1_LeaseItem) : res (billingv1_LeaseItem * Z) :=
  let 'mk_billingv1_LeaseItem skuUuid quantity lockedPrice serviceName customDomain u := x in
  '(v, iNdEx) ← get_string wireType dAtA iNdEx;
  Ok (mk_billingv1_LeaseItem skuUuid quantity lockedPrice serviceName v u, iNdEx).

Definition billingv1_LeaseItem_switch (discard : bool) (fieldNum wireType : Z) (dAtA : bytes) (iNdEx : Z) (x :
    billingv1_LeaseItem) : option (res (billingv1_LeaseItem * Z)) :=
  match fieldNum with
  | 1 => Some (billingv1_LeaseItem_case_1 discard wireType dAtA iNdEx x)
  | 2 => Some (billingv1_LeaseItem_case_2 discard wireType dAtA iNdEx x)
  | 3 => Some (billingv1_LeaseItem_case_3 discard wireType dAtA iNdEx x)
  | 4 => Some (billingv1_LeaseItem_case_4 discard wireType dAtA iNdEx x)
  | 5 => Some (billingv1_LeaseItem_case_5 discard wireType dAtA iNdEx x)
  | _ => None
  end.

Definition billingv1_LeaseItem_keep (f : bytes) (x : billingv1_LeaseItem) : billingv1_LeaseItem :=
  let 'mk_billingv1_LeaseItem skuUuid quantity lockedPrice serviceName customDomain u := x in mk_billingv1_LeaseItem
    skuUuid quantity lockedPrice serviceName customDomain (u ++ f).

Definition billingv1_LeaseItem_unmarshal : bool → bytes → option billingv1_LeaseItem → res (option
  billingv1_LeaseItem) := rt_unmarshal billingv1_LeaseItem_switch billingv1_LeaseItem_keep.

Definition billingv1_LeaseItem_wire (x : billingv1_LeaseItem) : bytes :=
  enc_str 0xa (billingv1_LeaseItem_SkuUuid x) ++
  enc_uint 0x10 (billingv1_LeaseItem_Quantity x) ++
  enc_opt (λ e, len_field 0x1a (api_Coin_wire e)) (billingv1_LeaseItem_LockedPrice x) ++
  enc_str 0x22 (billingv1_LeaseItem_ServiceName x) ++
  enc_str 0x2a (billingv1_LeaseItem_CustomDomain x) ++
  billingv1_LeaseItem_unknownFields x.

(** ** Lease *)

Definition billingv1_Lease_size (x : option billingv1_Lease) : Z :=
  match x with
  | None => 0
  | Some x =>
      rt_size_str (billingv1_Lease_Uuid x) +
      rt_size_str (billingv1_Lease_Tenant x) +
      rt_size_str (billingv1_Lease_ProviderUuid x) +
      size_each (λ e, rt_size_len (options_Size billingv1_LeaseItem_size e)) (billingv1_Lease_Items x) +
      rt_size_num (billingv1_Lease_State x) +
      size_opt (billingv1_Lease_CreatedAt x) (λ e, rt_size_len (options_Size api_Timestamp_size (Some e))) +
      size_opt (billingv1_Lease_ClosedAt x) (λ e, rt_size_len (options_Size api_Timestamp_size (Some e))) +
      size_opt (billingv1_Lease_LastSettledAt x) (λ e, rt_size_len (options_Size api_Timestamp_size (Some e))) +
      size_opt (billingv1_Lease_AcknowledgedAt x) (λ e, rt_size_len (options_Size api_Timestamp_size (Some e))) +
      size_opt (billingv1_Lease_RejectedAt x) (λ e, rt_size_len (options_Size api_Timestamp_size (Some e))) +
      rt_size_str (billingv1_Lease_RejectionReason x) +
      size_opt (billingv1_Lease_ExpiredAt x) (λ e, rt_size_len (options_Size api_Timestamp_size (Some e))) +
      rt_size_str (billingv1_Lease_ClosureReason x) +
      rt_size_str (billingv1_Lease_MetaHash x) +
      rt_size_num (billingv1_Lease_MinLeaseDurationAtCreation x) +
      llen (billingv1_Lease_unknownFields x)
  end.

Definition billingv1_Lease_write (x : billingv1_Lease) : writer :=
  rt_put_unknown (billingv1_Lease_unknownFields x) ;;>
  if_nonzero (billingv1_Lease_MinLeaseDurationAtCreation x) (rt_put_uint 0x78 (billingv1_Lease_MinLeaseDurationAtCreation x)) ;;>
  if_nonempty (billingv1_Lease_MetaHash x) (rt_put_bytes 0x72 (billingv1_Lease_MetaHash x)) ;;>
  if_nonempty (billingv1_Lease_ClosureReason x) (rt_put_bytes 0x6a (billingv1_Lease_ClosureReason x)) ;;>
  if_some (billingv1_Lease_ExpiredAt x) (λ e, rt_put_msg 0x62 (options_Marshal api_Timestamp_marshal (Some e))) ;;>
  if_nonempty (billingv1_Lease_RejectionReason x) (rt_put_bytes 0x5a (billingv1_Lease_RejectionReason x)) ;;>
  if_some (billingv1_Lease_RejectedAt x) (λ e, rt_put_msg 0x52 (options_Marshal api_Timestamp_marshal (Some e))) ;;>
  if_some (billingv1_Lease_AcknowledgedAt x) (λ e, rt_put_msg 0x4a (options_Marshal api_Timestamp_marshal (Some e))) ;;>
  if_some (billingv1_Lease_LastSettledAt x) (λ e, rt_put_msg 0x42 (options_Marshal api_Timestamp_marshal (Some e))) ;;>
  if_some (billingv1_Lease_ClosedAt x) (λ e, rt_put_msg 0x3a (options_Marshal api_Timestamp_marshal (Some e))) ;;>
  if_some (billingv1_Lease_CreatedAt x) (λ e, rt_put_msg 0x32 (options_Marshal api_Timestamp_marshal (Some e))) ;;>
  if_nonzero (billingv1_Lease_State x) (rt_put_uint 0x28 (billingv1_Lease_State x)) ;;>
  put_each (λ e, rt_put_msg 0x22 (options_Marshal billingv1_LeaseItem_marshal e)) (billingv1_Lease_Items x) ;;>
  if_nonempty (billingv1_Lease_ProviderUuid x) (rt_put_bytes 0x1a (billingv1_Lease_ProviderUuid x)) ;;>
  if_nonempty (billingv1_Lease_Tenant x) (rt_put_bytes 0x12 (billingv1_Lease_Tenant x)) ;;>
  if_nonempty (billingv1_Lease_Uuid x) (rt_put_bytes 0xa (billingv1_Lease_Uuid x)).

Definition billingv1_Lease_marshal : bytes → option billingv1_Lease → res bytes := rt_marshal billingv1_Lease_size
  billingv1_Lease_write.

Definition billingv1_Lease_case_1 (discard : bool) (wireType : Z) (dAtA : bytes) (iNdEx : Z) (x : billingv1_Lease) :
    res (billingv1_Lease * Z) :=
  let 'mk_billingv1_Lease uuid tenant providerUuid items state createdAt closedAt lastSettledAt acknowledgedAt
    rejectedAt rejectionReason expiredAt closureReason metaHash minLeaseDurationAtCreation u := x in
  '(v, iNdEx) ← get_string wireType dAtA iNdEx;
  Ok (mk_billingv1_Lease v tenant providerUuid items state createdAt closedAt lastSettledAt acknowledgedAt rejectedAt
    rejectionReason expiredAt closureReason metaHash minLeaseDurationAtCreation u, iNdEx).

Definition billingv1_Lease_case_2 (discard : bool) (wireType : Z) (dAtA : bytes) (iNdEx : Z) (x : billingv1_Lease) :
    res (billingv1_Lease * Z) :=
  let 'mk_billingv1_Lease uuid tenant providerUuid items state createdAt closedAt lastSettledAt acknowledgedAt
    rejectedAt rejectionReason expiredAt closureReason metaHash minLeaseDurationAtCreation u := x in
  '(v, iNdEx) ← get_string wireType dAtA iNdEx;
  Ok (mk_billingv1_Lease uuid v providerUuid items state createdAt closedAt lastSettledAt acknowledgedAt rejectedAt
    rejectionReason expiredAt closureReason metaHash minLeaseDurationAtCreation u, iNdEx).

Definition billingv1_Lease_case_3 (discard : bool) (wireType : Z) (dAtA : bytes) (iNdEx : Z) (x : billingv1_Lease) :
    res (billingv1_Lease * Z) :=
  let 'mk_billingv1_Lease uuid tenant providerUuid items state createdAt closedAt lastSettledAt acknowledgedAt
    rejectedAt rejectionReason expiredAt closureReason metaHash minLeaseDurationAtCreation u := x in
  '(v, iNdEx) ← get_string wireType dAtA iNdEx;
  Ok (mk_billingv1_Lease uuid tenant v items state createdAt closedAt lastSettledAt acknowledgedAt rejectedAt
    rejectionReason expiredAt closureReason metaHash minLeaseDurationAtCreation u, iNdEx).

Definition billingv1_Lease_case_4 (discard : bool) (wireType : Z) (dAtA : bytes) (iNdEx : Z) (x : billingv1_Lease) :
    res (billingv1_Lease * Z) :=
  let 'mk_billingv1_Lease uuid tenant providerUuid items state createdAt closedAt lastSettledAt acknowledgedAt
    rejectedAt rejectionReason expiredAt closureReason metaHash minLeaseDurationAtCreation u := x in
  '(v, iNdEx) ← rt_get_msg billingv1_LeaseItem_unmarshal billingv1_LeaseItem_new None discard wireType dAtA iNdEx;
  Ok (mk_billingv1_Lease uuid tenant providerUuid (items ++ [v]) state createdAt closedAt lastSettledAt acknowledgedAt
    rejectedAt rejectionReason expiredAt closureReason metaHash minLeaseDurationAtCreation u, iNdEx).

Definition billingv1_Lease_case_5 (discard : bool) (wireType : Z) (dAtA : bytes) (iNdEx : Z) (x : billingv1_Lease) :
    res (billingv1_Lease * Z) :=
  let 'mk_billingv1_Lease uuid tenant providerUuid items state createdAt closedAt lastSettledAt acknowledgedAt
    rejectedAt rejectionReason expiredAt closureReason metaHash minLeaseDurationAtCreation u := x in
  '(v, iNdEx) ← get_enum wireType dAtA iNdEx;
  Ok (mk_billingv1_Lease uuid tenant providerUuid items v createdAt closedAt lastSettledAt acknowledgedAt rejectedAt
    rejectionReason expiredAt closureReason metaHash minLeaseDurationAtCreation u, iNdEx).

Definition billingv1_Lease_case_6 (discard : bool) (wireType : Z) (dAtA : bytes) (iNdEx : Z) (x : billingv1_Lease) :
    res (billingv1_Lease * Z) :=
  let 'mk_billingv1_Lease uuid tenant providerUuid items state createdAt closedAt lastSettledAt acknowledgedAt
    rejectedAt rejectionReason expiredAt closureReason metaHash minLeaseDurationAtCreation u := x in
  '(v, iNdEx) ← rt_get_msg api_Timestamp_unmarshal api_Timestamp_new createdAt discard wireType dAtA iNdEx;
  Ok (mk_billingv1_Lease uuid tenant providerUuid items state v closedAt lastSettledAt acknowledgedAt rejectedAt
    rejectionReason expiredAt closureReason metaHash minLeaseDurationAtCreation u, iNdEx).

Definition billingv1_Lease_case_7 (discard : bool) (wireType : Z) (dAtA : bytes) (iNdEx : Z) (x : billingv1_Lease) :
    res (billingv1_Lease * Z) :=
  let 'mk_billingv1_Lease uuid tenant providerUuid items state createdAt closedAt lastSettledAt acknowledgedAt
    rejectedAt rejectionReason expiredAt closureReason metaHash minLeaseDurationAtCreation u := x in
  '(v, iNdEx) ← rt_get_msg api_Timestamp_unmarshal api_Timestamp_new closedAt discard wireType dAtA iNdEx;
  Ok (mk_billingv1_Lease uuid tenant providerUuid items state createdAt v lastSettledAt acknowledgedAt rejectedAt
    rejectionReason expiredAt closureReason metaHash minLeaseDurationAtCreation u, iNdEx).

Definition billingv1_Lease_case_8 (discard : bool) (wireType : Z) (dAtA : bytes) (iNdEx : Z) (x : billingv1_Lease) :
    res (billingv1_Lease * Z) :=
  let 'mk_billingv1_Lease uuid tenant providerUuid items state createdAt closedAt lastSettledAt acknowledgedAt
    rejectedAt rejectionReason expiredAt closureReason metaHash minLeaseDurationAtCreation u := x in
  '(v, iNdEx) ← rt_get_msg api_Timestamp_unmarshal api_Timestamp_new lastSettledAt discard wireType dAtA iNdEx;
  Ok (mk_billingv1_Lease uuid tenant providerUuid items state createdAt closedAt v acknowledgedAt rejectedAt
    rejectionReason expiredAt closureReason metaHash minLeaseDurationAtCreation u, iNdEx).

Definition billingv1_Lease_case_9 (discard : bool) (wireType : Z) (dAtA : bytes) (iNdEx : Z) (x : billingv1_Lease) :
    res (billingv1_Lease * Z) :=
  let 'mk_billingv1_Lease uuid tenant providerUuid items state createdAt closedAt lastSettledAt acknowledgedAt
    rejectedAt rejectionReason expiredAt closureReason metaHash minLeaseDurationAtCreation u := x in
  '(v, iNdEx) ← rt_get_msg api_Timestamp_unmarshal api_Timestamp_new acknowledgedAt discard wireType dAtA iNdEx;
  Ok (mk_billingv1_Lease uuid tenant providerUuid items state createdAt closedAt lastSettledAt v rejectedAt
    rejectionReason expiredAt closureReason metaHash minLeaseDurationAtCreation u, iNdEx).

Definition billingv1_Lease_case_10 (discard : bool) (wireType : Z) (dAtA : bytes) (iNdEx : Z) (x : billingv1_Lease) :
    res (billingv1_Lease * Z) :=
  let 'mk_billingv1_Lease uuid tenant providerUuid items state createdAt closedAt lastSettledAt acknowledgedAt
    rejectedAt rejectionReason expiredAt closureReason metaHash minLeaseDurationAtCreation u := x in
  '(v, iNdEx) ← rt_get_msg api_Timestamp_unmarshal api_Timestamp_new rejectedAt discard wireType dAtA iNdEx;
  Ok (mk_billingv1_Lease uuid tenant providerUuid items state createdAt closedAt lastSettledAt acknowledgedAt v
    rejectionReason expiredAt closureReason metaHash minLeaseDurationAtCreation u, iNdEx).

Definition billingv1_Lease_case_11 (discard : bool) (wireType : Z) (dAtA : bytes) (iNdEx : Z) (x : billingv1_Lease) :
    res (billingv1_Lease * Z) :=
  let 'mk_billingv1_Lease uuid tenant providerUuid items state createdAt closedAt lastSettledAt acknowledgedAt
    rejectedAt rejectionReason expiredAt closureReason metaHash minLeaseDurationAtCreation u := x in
  '(v, iNdEx) ← get_string wireType dAtA iNdEx;
  Ok (mk_billingv1_Lease uuid tenant providerUuid items state createdAt closedAt lastSettledAt acknowledgedAt
    rejectedAt v expiredAt closureReason metaHash minLeaseDurationAtCreation u, iNdEx).

Definition billingv1_Lease_case_12 (discard : bool) (wireType : Z) (dAtA : bytes) (iNdEx : Z) (x : billingv1_Lease) :
    res (billingv1_Lease * Z) :=
  let 'mk_billingv1_Lease uuid tenant providerUuid items state createdAt closedAt lastSettledAt acknowledgedAt
    rejectedAt rejectionReason expiredAt closureReason metaHash minLeaseDurationAtCreation u := x in
  '(v, iNdEx) ← rt_get_msg api_Timestamp_unmarshal api_Timestamp_new expiredAt discard wireType dAtA iNdEx;
  Ok (mk_billingv1_Lease uuid tenant providerUuid items state createdAt closedAt lastSettledAt acknowledgedAt
    rejectedAt rejectionReason v closureReason metaHash minLeaseDurationAtCreation u, iNdEx).

Definition billingv1_Lease_case_13 (discard : bool) (wireType : Z) (dAtA : bytes) (iNdEx : Z) (x : billingv1_Lease) :
    res (billingv1_Lease * Z) :=
  let 'mk_billingv1_Lease uuid tenant providerUuid items state createdAt closedAt lastSettledAt acknowledgedAt
    rejectedAt rejectionReason expiredAt closureReason metaHash minLeaseDurationAtCreation u := x in
  '(v, iNdEx) ← get_string wireType dAtA iNdEx;
  Ok (mk_billingv1_Lease uuid tenant providerUuid items state createdAt closedAt lastSettledAt acknowledgedAt
    rejectedAt rejectionReason expiredAt v metaHash minLeaseDurationAtCreation u, iNdEx).

Definition billingv1_Lease_case_14 (discard : bool) (wireType : Z) (dAtA : bytes) (iNdEx : Z) (x : billingv1_Lease) :
    res (billingv1_Lease * Z) :=
  let 'mk_billingv1_Lease uuid tenant providerUuid items state createdAt closedAt lastSettledAt acknowledgedAt
    rejectedAt rejectionReason expiredAt closureReason metaHash minLeaseDurationAtCreation u := x in
  '(v, iNdEx) ← get_bytes wireType dAtA iNdEx;
  Ok (mk_billingv1_Lease uuid tenant providerUuid items state createdAt closedAt lastSettledAt acknowledgedAt
    rejectedAt rejectionReason expiredAt closureReason v minLeaseDurationAtCreation u, iNdEx).

Definition billingv1_Lease_case_15 (discard : bool) (wireType : Z) (dAtA : bytes) (iNdEx : Z) (x : billingv1_Lease) :
    res (billingv1_Lease * Z) :=
  let 'mk_billingv1_Lease uuid tenant providerUuid items state createdAt closedAt lastSettledAt acknowledgedAt
    rejectedAt rejectionReason expiredAt closureReason metaHash minLeaseDurationAtCreation u := x in
  '(v, iNdEx) ← get_uint wireType dAtA iNdEx;
  Ok (mk_billingv1_Lease uuid tenant providerUuid items state createdAt closedAt lastSettledAt acknowledgedAt
    rejectedAt rejectionReason expiredAt closureReason metaHash v u, iNdEx).

Definition billingv1_Lease_switch (discard : bool) (fieldNum wireType : Z) (dAtA : bytes) (iNdEx : Z) (x :
    billingv1_Lease) : option (res (billingv1_Lease * Z)) :=
  match fieldNum with
  | 1 => Some (billingv1_Lease_case_1 discard wireType dAtA iNdEx x)
  | 2 => Some (billingv1_Lease_case_2 discard wireType dAtA iNdEx x)
  | 3 => Some (billingv1_Lease_case_3 discard wireType dAtA iNdEx x)
  | 4 => Some (billingv1_Lease_case_4 discard wireType dAtA iNdEx x)
  | 5 => Some (billingv1_Lease_case_5 discard wireType dAtA iNdEx x)
  | 6 => Some (billingv1_Lease_case_6 discard wireType dAtA iNdEx x)
  | 7 => Some (billingv1_Lease_case_7 discard wireType dAtA iNdEx x)
  | 8 => Some (billingv1_Lease_case_8 discard wireType dAtA iNdEx x)
  | 9 => Some (billingv1_Lease_case_9 discard wireType dAtA iNdEx x)
  | 10 => Some (billingv1_Lease_case_10 discard wireType dAtA iNdEx x)
  | 11 => Some (billingv1_Lease_case_11 discard wireType dAtA iNdEx x)
  | 12 => Some (billingv1_Lease_case_12 discard wireType dAtA iNdEx x)
  | 13 => Some (billingv1_Lease_case_13 discard wireType dAtA iNdEx x)
  | 14 => Some (billingv1_Lease_case_14 discard wireType dAtA iNdEx x)
  | 15 => Some (billingv1_Lease_case_15 discard wireType dAtA iNdEx x)
  | _ => None
  end.

Definition billingv1_Lease_keep (f : bytes) (x : billingv1_Lease) : billingv1_Lease :=
  let 'mk_billingv1_Lease uuid tenant providerUuid items state createdAt closedAt lastSettledAt acknowledgedAt
    rejectedAt rejectionReason expiredAt closureReason metaHash minLeaseDurationAtCreation u := x in
    mk_billingv1_Lease uuid tenant providerUuid items state createdAt closedAt lastSettledAt acknowledgedAt rejectedAt
    rejectionReason expiredAt closureReason metaHash minLeaseDurationAtCreation (u ++ f).

Definition billingv1_Lease_unmarshal : bool → bytes → option billingv1_Lease → res (option billingv1_Lease) :=
  rt_unmarshal billingv1_Lease_switch billingv1_Lease_keep.

Definition billingv1_Lease_wire (x : billingv1_Lease) : bytes :=
  enc_str 0xa (billingv1_Lease_Uuid x) ++
  enc_str 0x12 (billingv1_Lease_Tenant x) ++
  enc_str 0x1a (billingv1_Lease_ProviderUuid x) ++
  enc_each (λ e, len_field 0x22 (wire_ptr billingv1_LeaseItem_wire e)) (billingv1_Lease_Items x) ++
  enc_uint 0x28 (billingv1_Lease_State x) ++
  enc_opt (λ e, len_field 0x32 (api_Timestamp_wire e)) (billingv1_Lease_CreatedAt x) ++
  enc_opt (λ e, len_field 0x3a (api_Timestamp_wire e)) (billingv1_Lease_ClosedAt x) ++
  enc_opt (λ e, len_field 0x42 (api_Timestamp_wire e)) (billingv1_Lease_LastSettledAt x) ++
  enc_opt (λ e, len_field 0x4a (api_Timestamp_wire e)) (billingv1_Lease_AcknowledgedAt x) ++
  enc_opt (λ e, len_field 0x52 (api_Timestamp_wire e)) (billingv1_Lease_RejectedAt x) ++
  enc_str 0x5a (billingv1_Lease_RejectionReason x) ++
  enc_opt (λ e, len_field 0x62 (api_Timestamp_wire e)) (billingv1_Lease_ExpiredAt x) ++
  enc_str 0x6a (billingv1_Lease_ClosureReason x) ++
  enc_str 0x72 (billingv1_Lease_MetaHash x) ++
  enc_uint 0x78 (billingv1_Lease_MinLeaseDurationAtCreation x) ++
  billingv1_Lease_unknownFields x.

(** ** CustomDomainTarget *)

Definition billingv1_CustomDomainTarget_size (x : option billingv1_CustomDomainTarget) : Z :=
  match x with
  | None => 0
  | Some x =>
      rt_size_str (billingv1_CustomDomainTarget_LeaseUuid x) +
      rt_size_str (billingv1_CustomDomainTarget_ServiceName x) +
      llen (billingv1_CustomDomainTarget_unknownFields x)
  end.

Definition billingv1_CustomDomainTarget_write (x : billingv1_CustomDomainTarget) : writer :=
  rt_put_unknown (billingv1_CustomDomainTarget_unknownFields x) ;;>
  if_nonempty (billingv1_CustomDomainTarget_ServiceName x) (rt_put_bytes 0x12 (billingv1_CustomDomainTarget_ServiceName x)) ;;>
  if_nonempty (billingv1_CustomDomainTarget_LeaseUuid x) (rt_put_bytes 0xa (billingv1_CustomDomainTarget_LeaseUuid x)).

Definition billingv1_CustomDomainTarget_marshal : bytes → option billingv1_CustomDomainTarget → res bytes :=
  rt_marshal billingv1_CustomDomainTarget_size billingv1_CustomDomainTarget_write.

Definition billingv1_CustomDomainTarget_case_1 (discard : bool) (wireType : Z) (dAtA : bytes) (iNdEx : Z) (x :
    billingv1_CustomDomainTarget) : res (billingv1_CustomDomainTarget * Z) :=
  let 'mk_billingv1_CustomDomainTarget leaseUuid serviceName u := x in
  '(v, iNdEx) ← get_string wireType dAtA iNdEx;
  Ok (mk_billingv1_CustomDomainTarget v serviceName u, iNdEx).

Definition billingv1_CustomDomainTarget_case_2 (discard : bool) (wireType : Z) (dAtA : bytes) (iNdEx : Z) (x :
    billingv1_CustomDomainTarget) : res (billingv1_CustomDomainTarget * Z) :=
  let 'mk_billingv1_CustomDomainTarget leaseUuid serviceName u := x in
  '(v, iNdEx) ← get_string wireType dAtA iNdEx;
  Ok (mk_billingv1_CustomDomainTarget leaseUuid v u, iNdEx).

Definition billingv1_CustomDomainTarget_switch (discard : bool) (fieldNum wireType : Z) (dAtA : bytes) (iNdEx : Z) (x
    : billingv1_CustomDomainTarget) : option (res (billingv1_CustomDomainTarget * Z)) :=
  match fieldNum with
  | 1 => Some (billingv1_CustomDomainTarget_case_1 discard wireType dAtA iNdEx x)
  | 2 => Some (billingv1_CustomDomainTarget_case_2 discard wireType dAtA iNdEx x)
  | _ => None
  end.

Definition billingv1_CustomDomainTarget_keep (f : bytes) (x : billingv1_CustomDomainTarget) :
    billingv1_CustomDomainTarget :=
  let 'mk_billingv1_CustomDomainTarget leaseUuid serviceName u := x in mk_billingv1_CustomDomainTarget leaseUuid
    serviceName (u ++ f).

Definition billingv1_CustomDomainTarget_unmarshal : bool → bytes → option billingv1_CustomDomainTarget → res (option
  billingv1_CustomDomainTarget) := rt_unmarshal billingv1_CustomDomainTarget_switch billingv1_CustomDomainTarget_keep.

Definition billingv1_CustomDomainTarget_wire (x : billingv1_CustomDomainTarget) : bytes :=
  enc_str 0xa (billingv1_CustomDomainTarget_LeaseUuid x) ++
  enc_str 0x12 (billingv1_CustomDomainTarget_ServiceName x) ++
  billingv1_CustomDomainTarget_unknownFields x.

(** ** CreditAccount *)

Definition billingv1_CreditAccount_size (x : option billingv1_CreditAccount) : Z :=
  match x with
  | None => 0
  | Some x =>
      rt_size_str (billingv1_CreditAccount_Tenant x) +
      rt_size_str (billingv1_CreditAccount_CreditAddress x) +
      rt_size_num (billingv1_CreditAccount_ActiveLeaseCount x) +
      rt_size_num (billingv1_CreditAccount_PendingLeaseCount x) +
      size_each (λ e, rt_size_len (options_Size api_Coin_size e)) (billingv1_CreditAccount_ReservedAmounts x) +
      llen (billingv1_CreditAccount_unknownFields x)
  end.

Definition billingv1_CreditAccount_write (x : billingv1_CreditAccount) : writer :=
  rt_put_unknown (billingv1_CreditAccount_unknownFields x) ;;>
  put_each (λ e, rt_put_msg 0x2a (options_Marshal api_Coin_marshal e)) (billingv1_CreditAccount_ReservedAmounts x) ;;>
  if_nonzero (billingv1_CreditAccount_PendingLeaseCount x) (rt_put_uint 0x20 (billingv1_CreditAccount_PendingLeaseCount x)) ;;>
  if_nonzero (billingv1_CreditAccount_ActiveLeaseCount x) (rt_put_uint 0x18 (billingv1_CreditAccount_ActiveLeaseCount x)) ;;>
  if_nonempty (billingv1_CreditAccount_CreditAddress x) (rt_put_bytes 0x12 (billingv1_CreditAccount_CreditAddress x)) ;;>
  if_nonempty (billingv1_CreditAccount_Tenant x) (rt_put_bytes 0xa (billingv1_CreditAccount_Tenant x)).

Definition billingv1_CreditAccount_marshal : bytes → option billingv1_CreditAccount → res bytes := rt_marshal
  billingv1_CreditAccount_size billingv1_CreditAccount_write.

Definition billingv1_CreditAccount_case_1 (discard : bool) (wireType : Z) (dAtA : bytes) (iNdEx : Z) (x :
    billingv1_CreditAccount) : res (billingv1_CreditAccount * Z) :=
  let 'mk_billingv1_CreditAccount tenant creditAddress activeLeaseCount pendingLeaseCount reservedAmounts u := x in
  '(v, iNdEx) ← get_string wireType dAtA iNdEx;
  Ok (mk_billingv1_CreditAccount v creditAddress activeLeaseCount pendingLeaseCount reservedAmounts u, iNdEx).

Definition billingv1_CreditAccount_case_2 (discard : bool) (wireType : Z) (dAtA : bytes) (iNdEx : Z) (x :
    billingv1_CreditAccount) : res (billingv1_CreditAccount * Z) :=
  let 'mk_billingv1_CreditAccount tenant creditAddress activeLeaseCount pendingLeaseCount reservedAmounts u := x in
  '(v, iNdEx) ← get_string wireType dAtA iNdEx;
  Ok (mk_billingv1_CreditAccount tenant v activeLeaseCount pendingLeaseCount reservedAmounts u, iNdEx).

Definition billingv1_CreditAccount_case_3 (discard : bool) (wireType : Z) (dAtA : bytes) (iNdEx : Z) (x :
    billingv1_CreditAccount) : res (billingv1_CreditAccount * Z) :=
  let 'mk_billingv1_CreditAccount tenant creditAddress activeLeaseCount pendingLeaseCount reservedAmounts u := x in
  '(v, iNdEx) ← get_uint wireType dAtA iNdEx;
  Ok (mk_billingv1_CreditAccount tenant creditAddress v pendingLeaseCount reservedAmounts u, iNdEx).

Definition billingv1_CreditAccount_case_4 (discard : bool) (wireType : Z) (dAtA : bytes) (iNdEx : Z) (x :
    billingv1_CreditAccount) : res (billingv1_CreditAccount * Z) :=
  let 'mk_billingv1_CreditAccount tenant creditAddress activeLeaseCount pendingLeaseCount reservedAmounts u := x in
  '(v, iNdEx) ← get_uint wireType dAtA iNdEx;
  Ok (mk_billingv1_CreditAccount tenant creditAddress activeLeaseCount v reservedAmounts u, iNdEx).

Definition billingv1_CreditAccount_case_5 (discard : bool) (wireType : Z) (dAtA : bytes) (iNdEx : Z) (x :
    billingv1_CreditAccount) : res (billingv1_CreditAccount * Z) :=
  let 'mk_billingv1_CreditAccount tenant creditAddress activeLeaseCount pendingLeaseCount reservedAmounts u := x in
  '(v, iNdEx) ← rt_get_msg api_Coin_unmarshal api_Coin_new None discard wireType dAtA iNdEx;
  Ok (mk_billingv1_CreditAccount tenant creditAddress activeLeaseCount pendingLeaseCount (reservedAmounts ++ [v]) u,
    iNdEx).

Definition billingv1_CreditAccount_switch (discard : bool) (fieldNum wireType : Z) (dAtA : bytes) (iNdEx : Z) (x :
    billingv1_CreditAccount) : option (res (billingv1_CreditAccount * Z)) :=
  match fieldNum with
  | 1 => Some (billingv1_CreditAccount_case_1 discard wireType dAtA iNdEx x)
  | 2 => Some (billingv1_CreditAccount_case_2 discard wireType dAtA iNdEx x)
  | 3 => Some (billingv1_CreditAccount_case_3 discard wireType dAtA iNdEx x)
  | 4 => Some (billingv1_CreditAccount_case_4 discard wireType dAtA iNdEx x)
  | 5 => Some (billingv1_CreditAccount_case_5 discard wireType dAtA iNdEx x)
  | _ => None
  end.

Definition billingv1_CreditAccount_keep (f : bytes) (x : billingv1_CreditAccount) : billingv1_CreditAccount :=
  let 'mk_billingv1_CreditAccount tenant creditAddress activeLeaseCount pendingLeaseCount reservedAmounts u := x in
    mk_billingv1_CreditAccount tenant creditAddress activeLeaseCount pendingLeaseCount reservedAmounts (u ++ f).

Definition billingv1_CreditAccount_unmarshal : bool → bytes → option billingv1_CreditAccount → res (option
  billingv1_CreditAccount) := rt_unmarshal billingv1_CreditAccount_switch billingv1_CreditAccount_keep.

Definition billingv1_CreditAccount_wire (x : billingv1_CreditAccount) : bytes :=
  enc_str 0xa (billingv1_CreditAccount_Tenant x) ++
  enc_str 0x12 (billingv1_CreditAccount_CreditAddress x) ++
  enc_uint 0x18 (billingv1_CreditAccount_ActiveLeaseCount x) ++
  enc_uint 0x20 (billingv1_CreditAccount_PendingLeaseCount x) ++
  enc_each (λ e, len_field 0x2a (wire_ptr api_Coin_wire e)) (billingv1_CreditAccount_ReservedAmounts x) ++
  billingv1_CreditAccount_unknownFields x.

(** ** GenesisState *)

Definition billingv1_GenesisState_size (x : option billingv1_GenesisState) : Z :=
  match x with
  | None => 0
  | Some x =>
      size_opt (billingv1_GenesisState_Params x) (λ e, rt_size_len (options_Size billingv1_Params_size (Some e))) +
      size_each (λ e, rt_size_len (options_Size billingv1_Lease_size e)) (billingv1_GenesisState_Leases x) +
      size_each (λ e, rt_size_len (options_Size billingv1_CreditAccount_size e)) (billingv1_GenesisState_CreditAccounts x) +
      rt_size_num (billingv1_GenesisState_LeaseSequence x) +
      llen (billingv1_GenesisState_unknownFields x)
  end.

Definition billingv1_GenesisState_write (x : billingv1_GenesisState) : writer :=
  rt_put_unknown (billingv1_GenesisState_unknownFields x) ;;>
  if_nonzero (billingv1_GenesisState_LeaseSequence x) (rt_put_uint 0x20 (billingv1_GenesisState_LeaseSequence x)) ;;>
  put_each (λ e, rt_put_msg 0x1a (options_Marshal billingv1_CreditAccount_marshal e)) (billingv1_GenesisState_CreditAccounts x) ;;>
  put_each (λ e, rt_put_msg 0x12 (options_Marshal billingv1_Lease_marshal e)) (billingv1_GenesisState_Leases x) ;;>
  if_some (billingv1_GenesisState_Params x) (λ e, rt_put_msg 0xa (options_Marshal billingv1_Params_marshal (Some e))).

Definition billingv1_GenesisState_marshal : bytes → option billingv1_GenesisState → res bytes := rt_marshal
  billingv1_GenesisState_size billingv1_GenesisState_write.

Definition billingv1_GenesisState_case_1 (discard : bool) (wireType : Z) (dAtA : bytes) (iNdEx : Z) (x :
    billingv1_GenesisState) : res (billingv1_GenesisState * Z) :=
  let 'mk_billingv1_GenesisState params leases creditAccounts leaseSequence u := x in
  '(v, iNdEx) ← rt_get_msg billingv1_Params_unmarshal billingv1_Params_new params discard wireType dAtA iNdEx;
  Ok (mk_billingv1_GenesisState v leases creditAccounts leaseSequence u, iNdEx).

Definition billingv1_GenesisState_case_2 (discard : bool) (wireType : Z) (dAtA : bytes) (iNdEx : Z) (x :
    billingv1_GenesisState) : res (billingv1_GenesisState * Z) :=
  let 'mk_billingv1_GenesisState params leases creditAccounts leaseSequence u := x in
  '(v, iNdEx) ← rt_get_msg billingv1_Lease_unmarshal billingv1_Lease_new None discard wireType dAtA iNdEx;
  Ok (mk_billingv1_GenesisState params (leases ++ [v]) creditAccounts leaseSequence u, iNdEx).

Definition billingv1_GenesisState_case_3 (discard : bool) (wireType : Z) (dAtA : bytes) (iNdEx : Z) (x :
    billingv1_GenesisState) : res (billingv1_GenesisState * Z) :=
  let 'mk_billingv1_GenesisState params leases creditAccounts leaseSequence u := x in
  '(v, iNdEx) ← rt_get_msg billingv1_CreditAccount_unmarshal billingv1_CreditAccount_new None discard wireType dAtA
    iNdEx;
  Ok (mk_billingv1_GenesisState params leases (creditAccounts ++ [v]) leaseSequence u, iNdEx).

Definition billingv1_GenesisState_case_4 (discard : bool) (wireType : Z) (dAtA : bytes) (iNdEx : Z) (x :
    billingv1_GenesisState) : res (billingv1_GenesisState * Z) :=
  let 'mk_billingv1_GenesisState params leases creditAccounts leaseSequence u := x in
  '(v, iNdEx) ← get_uint wireType dAtA iNdEx;
  Ok (mk_billingv1_GenesisState params leases creditAccounts v u, iNdEx).

Definition billingv1_GenesisState_switch (discard : bool) (fieldNum wireType : Z) (dAtA : bytes) (iNdEx : Z) (x :
    billingv1_GenesisState) : option (res (billingv1_GenesisState * Z)) :=
  match fieldNum with
  | 1 => Some (billingv1_GenesisState_case_1 discard wireType dAtA iNdEx x)
  | 2 => Some (billingv1_GenesisState_case_2 discard wireType dAtA iNdEx x)
  | 3 => Some (billingv1_GenesisState_case_3 discard wireType dAtA iNdEx x)
  | 4 => Some (billingv1_GenesisState_case_4 discard wireType dAtA iNdEx x)
  | _ => None
  end.

Definition billingv1_GenesisState_keep (f : bytes) (x : billingv1_GenesisState) : billingv1_GenesisState :=
  let 'mk_billingv1_GenesisState params leases creditAccounts leaseSequence u := x in mk_billingv1_GenesisState params
    leases creditAccounts leaseSequence (u ++ f).

Definition billingv1_GenesisState_unmarshal : bool → bytes → option billingv1_GenesisState → res (option
  billingv1_GenesisState) := rt_unmarshal billingv1_GenesisState_switch billingv1_GenesisState_keep.

Definition billingv1_GenesisState_wire (x : billingv1_GenesisState) : bytes :=
  enc_opt (λ e, len_field 0xa (billingv1_Params_wire e)) (billingv1_GenesisState_Params x) ++
  enc_each (λ e, len_field 0x12 (wire_ptr billingv1_Lease_wire e)) (billingv1_GenesisState_Leases x) ++
  enc_each (λ e, len_field 0x1a (wire_ptr billingv1_CreditAccount_wire e)) (billingv1_GenesisState_CreditAccounts x) ++
  enc_uint 0x20 (billingv1_GenesisState_LeaseSequence x) ++
  billingv1_GenesisState_unknownFields x.

(** ** Module *)

Definition billing_modulev1_Module_size (x : option billing_modulev1_Module) : Z :=
  match x with
  | None => 0
  | Some x =>
      llen (billing_modulev1_Module_unknownFields x)
  end.

Definition billing_modulev1_Module_write (x : billing_modulev1_Module) : writer :=
  rt_put_unknown (billing_modulev1_Module_unknownFields x).

Definition billing_modulev1_Module_marshal : bytes → option billing_modulev1_Module → res bytes := rt_marshal
  billing_modulev1_Module_size billing_modulev1_Module_write.

Definition billing_modulev1_Module_switch (discard : bool) (fieldNum wireType : Z) (dAtA : bytes) (iNdEx : Z) (x :
    billing_modulev1_Module) : option (res (billing_modulev1_Module * Z)) :=
  None.

Definition billing_modulev1_Module_keep (f : bytes) (x : billing_modulev1_Module) : billing_modulev1_Module :=
  let 'mk_billing_modulev1_Module u := x in mk_billing_modulev1_Module (u ++ f).

Definition billing_modulev1_Module_unmarshal : bool → bytes → option billing_modulev1_Module → res (option
  billing_modulev1_Module) := rt_unmarshal billing_modulev1_Module_switch billing_modulev1_Module_keep.

Definition billing_modulev1_Module_wire (x : billing_modulev1_Module) : bytes :=
  billing_modulev1_Module_unknownFields x.

End codec.

(** ** Lawful messages *)

Section laws.
Context `{RL : RuntimeLaws} `{EL : ExternalLaws}.

Definition billingv1_Params_fits (x : billingv1_Params) : Prop := is_u64 (billingv1_Params_MaxLeasesPerTenant x) ∧
  is_u64 (billingv1_Params_MaxItemsPerLease x) ∧ is_u64 (billingv1_Params_MinLeaseDuration x) ∧ is_u64
  (billingv1_Params_MaxPendingLeasesPerTenant x) ∧ is_u64 (billingv1_Params_PendingTimeout x) ∧ unknown_fits 7
  (billingv1_Params_unknownFields x).

#[global] Instance billingv1_Params_lawful :
  api_lawful billingv1_Params_fits billingv1_Params_size billingv1_Params_marshal billingv1_Params_unmarshal
    billingv1_Params_wire billingv1_Params_new.
Proof.
  solve_api. intros [maxLeasesPerTenant allowedList maxItemsPerLease minLeaseDuration maxPendingLeasesPerTenant
    pendingTimeout reservedDomainSuffixes u]; open_api Hl.
  api_uint 1. api_strings 2 (λ l, mk_billingv1_Params maxLeasesPerTenant l 0 0 0 0 [] []). api_uint 3. api_uint 4.
  api_uint 5. api_uint 6. api_strings 7 (λ l, mk_billingv1_Params maxLeasesPerTenant allowedList maxItemsPerLease
  minLeaseDuration maxPendingLeasesPerTenant pendingTimeout l []). api_unknown 7 (λ u, mk_billingv1_Params
  maxLeasesPerTenant allowedList maxItemsPerLease minLeaseDuration maxPendingLeasesPerTenant pendingTimeout
  reservedDomainSuffixes u).
Qed.

Definition billingv1_LeaseItem_fits (x : billingv1_LeaseItem) : Prop := is_u64 (billingv1_LeaseItem_Quantity x) ∧
  fits_opt api_Coin_fits (billingv1_LeaseItem_LockedPrice x) ∧ unknown_fits 5 (billingv1_LeaseItem_unknownFields x).

#[global] Instance billingv1_LeaseItem_lawful :
  api_lawful billingv1_LeaseItem_fits billingv1_LeaseItem_size billingv1_LeaseItem_marshal
    billingv1_LeaseItem_unmarshal billingv1_LeaseItem_wire billingv1_LeaseItem_new.
Proof.
  solve_api. intros [skuUuid quantity lockedPrice serviceName customDomain u]; open_api Hl.
  api_string 1. api_uint 2. api_msg 3 api_Coin_unmarshal api_Coin_new (λ l, mk_billingv1_LeaseItem skuUuid quantity l
  "" "" []) Hl. api_string 4. api_string 5. api_unknown 5 (λ u, mk_billingv1_LeaseItem skuUuid quantity lockedPrice
  serviceName customDomain u).
Qed.

Definition billingv1_Lease_fits (x : billingv1_Lease) : Prop := fits_each billingv1_LeaseItem_fits
  (billingv1_Lease_Items x) ∧ is_i32 (billingv1_Lease_State x) ∧ fits_opt api_Timestamp_fits
  (billingv1_Lease_CreatedAt x) ∧ fits_opt api_Timestamp_fits (billingv1_Lease_ClosedAt x) ∧ fits_opt
  api_Timestamp_fits (billingv1_Lease_LastSettledAt x) ∧ fits_opt api_Timestamp_fits (billingv1_Lease_AcknowledgedAt
  x) ∧ fits_opt api_Timestamp_fits (billingv1_Lease_RejectedAt x) ∧ fits_opt api_Timestamp_fits
  (billingv1_Lease_ExpiredAt x) ∧ is_u64 (billingv1_Lease_MinLeaseDurationAtCreation x) ∧ unknown_fits 15
  (billingv1_Lease_unknownFields x).

#[global] Instance billingv1_Lease_lawful :
  api_lawful billingv1_Lease_fits billingv1_Lease_size billingv1_Lease_marshal billingv1_Lease_unmarshal
    billingv1_Lease_wire billingv1_Lease_new.
Proof.
  solve_api. intros [uuid tenant providerUuid items state createdAt closedAt lastSettledAt acknowledgedAt rejectedAt
    rejectionReason expiredAt closureReason metaHash minLeaseDurationAtCreation u]; open_api Hl.
  api_string 1. api_string 2. api_string 3. api_msgs 4 billingv1_LeaseItem_unmarshal billingv1_LeaseItem_new (λ l,
  mk_billingv1_Lease uuid tenant providerUuid l 0 None None None None None "" None "" "" 0 []) Hl. api_enum 5. api_msg
  6 api_Timestamp_unmarshal api_Timestamp_new (λ l, mk_billingv1_Lease uuid tenant providerUuid items state l None
  None None None "" None "" "" 0 []) Hl. api_msg 7 api_Timestamp_unmarshal api_Timestamp_new (λ l, mk_billingv1_Lease
  uuid tenant providerUuid items state createdAt l None None None "" None "" "" 0 []) Hl. api_msg 8
  api_Timestamp_unmarshal api_Timestamp_new (λ l, mk_billingv1_Lease uuid tenant providerUuid items state createdAt
  closedAt l None None "" None "" "" 0 []) Hl. api_msg 9 api_Timestamp_unmarshal api_Timestamp_new (λ l,
  mk_billingv1_Lease uuid tenant providerUuid items state createdAt closedAt lastSettledAt l None "" None "" "" 0 [])
  Hl. api_msg 10 api_Timestamp_unmarshal api_Timestamp_new (λ l, mk_billingv1_Lease uuid tenant providerUuid items
  state createdAt closedAt lastSettledAt acknowledgedAt l "" None "" "" 0 []) Hl. api_string 11. api_msg 12
  api_Timestamp_unmarshal api_Timestamp_new (λ l, mk_billingv1_Lease uuid tenant providerUuid items state createdAt
  closedAt lastSettledAt acknowledgedAt rejectedAt rejectionReason l "" "" 0 []) Hl. api_string 13. api_bytes 14.
  api_uint 15. api_unknown 15 (λ u, mk_billingv1_Lease uuid tenant providerUuid items state createdAt closedAt
  lastSettledAt acknowledgedAt rejectedAt rejectionReason expiredAt closureReason metaHash minLeaseDurationAtCreation
  u).
Qed.

Definition billingv1_CustomDomainTarget_fits (x : billingv1_CustomDomainTarget) : Prop := unknown_fits 2
  (billingv1_CustomDomainTarget_unknownFields x).

#[global] Instance billingv1_CustomDomainTarget_lawful :
  api_lawful billingv1_CustomDomainTarget_fits billingv1_CustomDomainTarget_size billingv1_CustomDomainTarget_marshal
    billingv1_CustomDomainTarget_unmarshal billingv1_CustomDomainTarget_wire billingv1_CustomDomainTarget_new.
Proof.
  solve_api. intros [leaseUuid serviceName u]; open_api Hl.
  api_string 1. api_string 2. api_unknown 2 (λ u, mk_billingv1_CustomDomainTarget leaseUuid serviceName u).
Qed.

Definition billingv1_CreditAccount_fits (x : billingv1_CreditAccount) : Prop := is_u64
  (billingv1_CreditAccount_ActiveLeaseCount x) ∧ is_u64 (billingv1_CreditAccount_PendingLeaseCount x) ∧ fits_each
  api_Coin_fits (billingv1_CreditAccount_ReservedAmounts x) ∧ unknown_fits 5 (billingv1_CreditAccount_unknownFields
  x).

#[global] Instance billingv1_CreditAccount_lawful :
  api_lawful billingv1_CreditAccount_fits billingv1_CreditAccount_size billingv1_CreditAccount_marshal
    billingv1_CreditAccount_unmarshal billingv1_CreditAccount_wire billingv1_CreditAccount_new.
Proof.
  solve_api. intros [tenant creditAddress activeLeaseCount pendingLeaseCount reservedAmounts u]; open_api Hl.
  api_string 1. api_string 2. api_uint 3. api_uint 4. api_msgs 5 api_Coin_unmarshal api_Coin_new (λ l,
  mk_billingv1_CreditAccount tenant creditAddress activeLeaseCount pendingLeaseCount l []) Hl. api_unknown 5 (λ u,
  mk_billingv1_CreditAccount tenant creditAddress activeLeaseCount pendingLeaseCount reservedAmounts u).
Qed.

Definition billingv1_GenesisState_fits (x : billingv1_GenesisState) : Prop := fits_opt billingv1_Params_fits
  (billingv1_GenesisState_Params x) ∧ fits_each billingv1_Lease_fits (billingv1_GenesisState_Leases x) ∧ fits_each
  billingv1_CreditAccount_fits (billingv1_GenesisState_CreditAccounts x) ∧ is_u64
  (billingv1_GenesisState_LeaseSequence x) ∧ unknown_fits 4 (billingv1_GenesisState_unknownFields x).

#[global] Instance billingv1_GenesisState_lawful :
  api_lawful billingv1_GenesisState_fits billingv1_GenesisState_size billingv1_GenesisState_marshal
    billingv1_GenesisState_unmarshal billingv1_GenesisState_wire billingv1_GenesisState_new.
Proof.
  solve_api. intros [params leases creditAccounts leaseSequence u]; open_api Hl.
  api_msg 1 billingv1_Params_unmarshal billingv1_Params_new (λ l, mk_billingv1_GenesisState l [] [] 0 []) Hl. api_msgs
  2 billingv1_Lease_unmarshal billingv1_Lease_new (λ l, mk_billingv1_GenesisState params l [] 0 []) Hl. api_msgs 3
  billingv1_CreditAccount_unmarshal billingv1_CreditAccount_new (λ l, mk_billingv1_GenesisState params leases l 0 [])
  Hl. api_uint 4. api_unknown 4 (λ u, mk_billingv1_GenesisState params leases creditAccounts leaseSequence u).
Qed.

Definition billing_modulev1_Module_fits (x : billing_modulev1_Module) : Prop := unknown_fits 0
  (billing_modulev1_Module_unknownFields x).

#[global] Instance billing_modulev1_Module_lawful :
  api_lawful billing_modulev1_Module_fits billing_modulev1_Module_size billing_modulev1_Module_marshal
    billing_modulev1_Module_unmarshal billing_modulev1_Module_wire billing_modulev1_Module_new.
Proof. solve_api. intros [u] Hu _. change (unknown_fits 0 u) in Hu. api_unknown 0 mk_billing_modulev1_Module. Qed.

End laws.
