(* ===== verification/ApiBillingTx.v ===== *)
(** * API bindings of the billing module: transactions (src/api/liftedinit/billing/v1/tx.pulsar.go)

    For every message its fields and the closures size, marshal and unmarshal of ProtoMethods; a case
    of the switch of unmarshal is a definition of its own. At the end the proofs that each is lawful. *)

From stdpp Require Import base tactics option list strings.
From Stdlib Require Import ZArith Lia Ascii.
From S2P Require Import Prelude Wire WireProps Codec Unknown Pulsar ApiExternal ApiBilling.
Open Scope Z_scope.

(** ** Fields *)

Record billingv1_LeaseItemInput : Type := mk_billingv1_LeaseItemInput {
  billingv1_LeaseItemInput_SkuUuid : string; billingv1_LeaseItemInput_Quantity : Z;
  billingv1_LeaseItemInput_ServiceName : string; billingv1_LeaseItemInput_unknownFields : bytes }.

Definition billingv1_LeaseItemInput_new : billingv1_LeaseItemInput := mk_billingv1_LeaseItemInput "" 0 "" [].

Record billingv1_MsgFundCredit : Type := mk_billingv1_MsgFundCredit {
  billingv1_MsgFundCredit_Sender : string; billingv1_MsgFundCredit_Tenant : string; billingv1_MsgFundCredit_Amount :
  option api_Coin; billingv1_MsgFundCredit_unknownFields : bytes }.

Definition billingv1_MsgFundCredit_new : billingv1_MsgFundCredit := mk_billingv1_MsgFundCredit "" "" None [].

Record billingv1_MsgFundCreditResponse : Type := mk_billingv1_MsgFundCreditResponse {
  billingv1_MsgFundCreditResponse_CreditAddress : string; billingv1_MsgFundCreditResponse_NewBalance : option
  api_Coin; billingv1_MsgFundCreditResponse_unknownFields : bytes }.

Definition billingv1_MsgFundCreditResponse_new : billingv1_MsgFundCreditResponse := mk_billingv1_MsgFundCreditResponse
  "" None [].

Record billingv1_MsgCreateLease : Type := mk_billingv1_MsgCreateLease {
  billingv1_MsgCreateLease_Tenant : string; billingv1_MsgCreateLease_Items : list (option billingv1_LeaseItemInput);
  billingv1_MsgCreateLease_MetaHash : string; billingv1_MsgCreateLease_unknownFields : bytes }.

Definition billingv1_MsgCreateLease_new : billingv1_MsgCreateLease := mk_billingv1_MsgCreateLease "" [] "" [].

Record billingv1_MsgCreateLeaseResponse : Type := mk_billingv1_MsgCreateLeaseResponse {
  billingv1_MsgCreateLeaseResponse_LeaseUuid : string; billingv1_MsgCreateLeaseResponse_unknownFields : bytes }.

Definition billingv1_MsgCreateLeaseResponse_new : billingv1_MsgCreateLeaseResponse :=
  mk_billingv1_MsgCreateLeaseResponse "" [].

Record billingv1_MsgCreateLeaseForTenant : Type := mk_billingv1_MsgCreateLeaseForTenant {
  billingv1_MsgCreateLeaseForTenant_Authority : string; billingv1_MsgCreateLeaseForTenant_Tenant : string;
  billingv1_MsgCreateLeaseForTenant_Items : list (option billingv1_LeaseItemInput);
  billingv1_MsgCreateLeaseForTenant_MetaHash : string; billingv1_MsgCreateLeaseForTenant_unknownFields : bytes }.

Definition billingv1_MsgCreateLeaseForTenant_new : billingv1_MsgCreateLeaseForTenant :=
  mk_billingv1_MsgCreateLeaseForTenant "" "" [] "" [].

Record billingv1_MsgCreateLeaseForTenantResponse : Type := mk_billingv1_MsgCreateLeaseForTenantResponse {
  billingv1_MsgCreateLeaseForTenantResponse_LeaseUuid : string;
  billingv1_MsgCreateLeaseForTenantResponse_unknownFields : bytes }.

Definition billingv1_MsgCreateLeaseForTenantResponse_new : billingv1_MsgCreateLeaseForTenantResponse :=
  mk_billingv1_MsgCreateLeaseForTenantResponse "" [].

Record billingv1_MsgCloseLease : Type := mk_billingv1_MsgCloseLease {
  billingv1_MsgCloseLease_Sender : string; billingv1_MsgCloseLease_LeaseUuids : list string;
  billingv1_MsgCloseLease_Reason : string; billingv1_MsgCloseLease_unknownFields : bytes }.

Definition billingv1_MsgCloseLease_new : billingv1_MsgCloseLease := mk_billingv1_MsgCloseLease "" [] "" [].

Record billingv1_MsgCloseLeaseResponse : Type := mk_billingv1_MsgCloseLeaseResponse {
  billingv1_MsgCloseLeaseResponse_ClosedAt : option api_Timestamp; billingv1_MsgCloseLeaseResponse_ClosedCount : Z;
  billingv1_MsgCloseLeaseResponse_TotalSettledAmounts : list (option api_Coin);
  billingv1_MsgCloseLeaseResponse_unknownFields : bytes }.

Definition billingv1_MsgCloseLeaseResponse_new : billingv1_MsgCloseLeaseResponse := mk_billingv1_MsgCloseLeaseResponse
  None 0 [] [].

Record billingv1_MsgWithdraw : Type := mk_billingv1_MsgWithdraw {
  billingv1_MsgWithdraw_Sender : string; billingv1_MsgWithdraw_LeaseUuids : list string;
  billingv1_MsgWithdraw_ProviderUuid : string; billingv1_MsgWithdraw_Limit : Z; billingv1_MsgWithdraw_unknownFields :
  bytes }.

Definition billingv1_MsgWithdraw_new : billingv1_MsgWithdraw := mk_billingv1_MsgWithdraw "" [] "" 0 [].

Record billingv1_MsgWithdrawResponse : Type := mk_billingv1_MsgWithdrawResponse {
  billingv1_MsgWithdrawResponse_TotalAmounts : list (option api_Coin); billingv1_MsgWithdrawResponse_PayoutAddress :
  string; billingv1_MsgWithdrawResponse_WithdrawalCount : Z; billingv1_MsgWithdrawResponse_HasMore : bool;
  billingv1_MsgWithdrawResponse_unknownFields : bytes }.

Definition billingv1_MsgWithdrawResponse_new : billingv1_MsgWithdrawResponse := mk_billingv1_MsgWithdrawResponse [] ""
  0 false [].

Record billingv1_MsgUpdateParams : Type := mk_billingv1_MsgUpdateParams {
  billingv1_MsgUpdateParams_Authority : string; billingv1_MsgUpdateParams_Params : option billingv1_Params;
  billingv1_MsgUpdateParams_unknownFields : bytes }.

Definition billingv1_MsgUpdateParams_new : billingv1_MsgUpdateParams := mk_billingv1_MsgUpdateParams "" None [].

Record billingv1_MsgUpdateParamsResponse : Type := mk_billingv1_MsgUpdateParamsResponse {
  billingv1_MsgUpdateParamsResponse_unknownFields : bytes }.

Definition billingv1_MsgUpdateParamsResponse_new : billingv1_MsgUpdateParamsResponse :=
  mk_billingv1_MsgUpdateParamsResponse [].

Record billingv1_MsgAcknowledgeLease : Type := mk_billingv1_MsgAcknowledgeLease {
  billingv1_MsgAcknowledgeLease_Sender : string; billingv1_MsgAcknowledgeLease_LeaseUuids : list string;
  billingv1_MsgAcknowledgeLease_unknownFields : bytes }.

Definition billingv1_MsgAcknowledgeLease_new : billingv1_MsgAcknowledgeLease := mk_billingv1_MsgAcknowledgeLease "" []
  [].

Record billingv1_MsgAcknowledgeLeaseResponse : Type := mk_billingv1_MsgAcknowledgeLeaseResponse {
  billingv1_MsgAcknowledgeLeaseResponse_AcknowledgedAt : option api_Timestamp;
  billingv1_MsgAcknowledgeLeaseResponse_AcknowledgedCount : Z; billingv1_MsgAcknowledgeLeaseResponse_unknownFields :
  bytes }.

Definition billingv1_MsgAcknowledgeLeaseResponse_new : billingv1_MsgAcknowledgeLeaseResponse :=
  mk_billingv1_MsgAcknowledgeLeaseResponse None 0 [].

Record billingv1_MsgRejectLease : Type := mk_billingv1_MsgRejectLease {
  billingv1_MsgRejectLease_Sender : string; billingv1_MsgRejectLease_LeaseUuids : list string;
  billingv1_MsgRejectLease_Reason : string; billingv1_MsgRejectLease_unknownFields : bytes }.

Definition billingv1_MsgRejectLease_new : billingv1_MsgRejectLease := mk_billingv1_MsgRejectLease "" [] "" [].

Record billingv1_MsgRejectLeaseResponse : Type := mk_billingv1_MsgRejectLeaseResponse {
  billingv1_MsgRejectLeaseResponse_RejectedAt : option api_Timestamp; billingv1_MsgRejectLeaseResponse_RejectedCount :
  Z; billingv1_MsgRejectLeaseResponse_unknownFields : bytes }.

Definition billingv1_MsgRejectLeaseResponse_new : billingv1_MsgRejectLeaseResponse :=
  mk_billingv1_MsgRejectLeaseResponse None 0 [].

Record billingv1_MsgCancelLease : Type := mk_billingv1_MsgCancelLease {
  billingv1_MsgCancelLease_Tenant : string; billingv1_MsgCancelLease_LeaseUuids : list string;
  billingv1_MsgCancelLease_unknownFields : bytes }.

Definition billingv1_MsgCancelLease_new : billingv1_MsgCancelLease := mk_billingv1_MsgCancelLease "" [] [].

Record billingv1_MsgCancelLeaseResponse : Type := mk_billingv1_MsgCancelLeaseResponse {
  billingv1_MsgCancelLeaseResponse_CancelledAt : option api_Timestamp; billingv1_MsgCancelLeaseResponse_CancelledCount
  : Z; billingv1_MsgCancelLeaseResponse_unknownFields : bytes }.

Definition billingv1_MsgCancelLeaseResponse_new : billingv1_MsgCancelLeaseResponse :=
  mk_billingv1_MsgCancelLeaseResponse None 0 [].

Record billingv1_MsgSetItemCustomDomain : Type := mk_billingv1_MsgSetItemCustomDomain {
  billingv1_MsgSetItemCustomDomain_Sender : string; billingv1_MsgSetItemCustomDomain_LeaseUuid : string;
  billingv1_MsgSetItemCustomDomain_ServiceName : string; billingv1_MsgSetItemCustomDomain_CustomDomain : string;
  billingv1_MsgSetItemCustomDomain_unknownFields : bytes }.

Definition billingv1_MsgSetItemCustomDomain_new : billingv1_MsgSetItemCustomDomain :=
  mk_billingv1_MsgSetItemCustomDomain "" "" "" "" [].

Record billingv1_MsgSetItemCustomDomainResponse : Type := mk_billingv1_MsgSetItemCustomDomainResponse {
  billingv1_MsgSetItemCustomDomainResponse_unknownFields : bytes }.

Definition billingv1_MsgSetItemCustomDomainResponse_new : billingv1_MsgSetItemCustomDomainResponse :=
  mk_billingv1_MsgSetItemCustomDomainResponse [].

Section codec.
Context `{Runtime} `{ApiExternal}.

(** ** LeaseItemInput *)

Definition billingv1_LeaseItemInput_size (x : option billingv1_LeaseItemInput) : Z :=
  match x with
  | None => 0
  | Some x =>
      rt_size_str (billingv1_LeaseItemInput_SkuUuid x) +
      rt_size_num (billingv1_LeaseItemInput_Quantity x) +
      rt_size_str (billingv1_LeaseItemInput_ServiceName x) +
      llen (billingv1_LeaseItemInput_unknownFields x)
  end.

Definition billingv1_LeaseItemInput_write (x : billingv1_LeaseItemInput) : writer :=
  rt_put_unknown (billingv1_LeaseItemInput_unknownFields x) ;;>
  if_nonempty (billingv1_LeaseItemInput_ServiceName x) (rt_put_bytes 0x1a (billingv1_LeaseItemInput_ServiceName x)) ;;>
  if_nonzero (billingv1_LeaseItemInput_Quantity x) (rt_put_uint 0x10 (billingv1_LeaseItemInput_Quantity x)) ;;>
  if_nonempty (billingv1_LeaseItemInput_SkuUuid x) (rt_put_bytes 0xa (billingv1_LeaseItemInput_SkuUuid x)).

Definition billingv1_LeaseItemInput_marshal : bytes → option billingv1_LeaseItemInput → res bytes := rt_marshal
  billingv1_LeaseItemInput_size billingv1_LeaseItemInput_write.

Definition billingv1_LeaseItemInput_case_1 (discard : bool) (wireType : Z) (dAtA : bytes) (iNdEx : Z) (x :
    billingv1_LeaseItemInput) : res (billingv1_LeaseItemInput * Z) :=
  let 'mk_billingv1_LeaseItemInput skuUuid quantity serviceName u := x in
  '(v, iNdEx) ← get_string wireType dAtA iNdEx;
  Ok (mk_billingv1_LeaseItemInput v quantity serviceName u, iNdEx).

Definition billingv1_LeaseItemInput_case_2 (discard : bool) (wireType : Z) (dAtA : bytes) (iNdEx : Z) (x :
    billingv1_LeaseItemInput) : res (billingv1_LeaseItemInput * Z) :=
  let 'mk_billingv1_LeaseItemInput skuUuid quantity serviceName u := x in
  '(v, iNdEx) ← get_uint wireType dAtA iNdEx;
  Ok (mk_billingv1_LeaseItemInput skuUuid v serviceName u, iNdEx).

Definition billingv1_LeaseItemInput_case_3 (discard : bool) (wireType : Z) (dAtA : bytes) (iNdEx : Z) (x :
    billingv1_LeaseItemInput) : res (billingv1_LeaseItemInput * Z) :=
  let 'mk_billingv1_LeaseItemInput skuUuid quantity serviceName u := x in
  '(v, iNdEx) ← get_string wireType dAtA iNdEx;
  Ok (mk_billingv1_LeaseItemInput skuUuid quantity v u, iNdEx).

Definition billingv1_LeaseItemInput_switch (discard : bool) (fieldNum wireType : Z) (dAtA : bytes) (iNdEx : Z) (x :
    billingv1_LeaseItemInput) : option (res (billingv1_LeaseItemInput * Z)) :=
  match fieldNum with
  | 1 => Some (billingv1_LeaseItemInput_case_1 discard wireType dAtA iNdEx x)
  | 2 => Some (billingv1_LeaseItemInput_case_2 discard wireType dAtA iNdEx x)
  | 3 => Some (billingv1_LeaseItemInput_case_3 discard wireType dAtA iNdEx x)
  | _ => None
  end.

Definition billingv1_LeaseItemInput_keep (f : bytes) (x : billingv1_LeaseItemInput) : billingv1_LeaseItemInput :=
  let 'mk_billingv1_LeaseItemInput skuUuid quantity serviceName u := x in mk_billingv1_LeaseItemInput skuUuid quantity
    serviceName (u ++ f).

Definition billingv1_LeaseItemInput_unmarshal : bool → bytes → option billingv1_LeaseItemInput → res (option
  billingv1_LeaseItemInput) := rt_unmarshal billingv1_LeaseItemInput_switch billingv1_LeaseItemInput_keep.

Definition billingv1_LeaseItemInput_wire (x : billingv1_LeaseItemInput) : bytes :=
  enc_str 0xa (billingv1_LeaseItemInput_SkuUuid x) ++
  enc_uint 0x10 (billingv1_LeaseItemInput_Quantity x) ++
  enc_str 0x1a (billingv1_LeaseItemInput_ServiceName x) ++
  billingv1_LeaseItemInput_unknownFields x.

(** ** MsgFundCredit *)

Definition billingv1_MsgFundCredit_size (x : option billingv1_MsgFundCredit) : Z :=
  match x with
  | None => 0
  | Some x =>
      rt_size_str (billingv1_MsgFundCredit_Sender x) +
      rt_size_str (billingv1_MsgFundCredit_Tenant x) +
      size_opt (billingv1_MsgFundCredit_Amount x) (λ e, rt_size_len (options_Size api_Coin_size (Some e))) +
      llen (billingv1_MsgFundCredit_unknownFields x)
  end.

Definition billingv1_MsgFundCredit_write (x : billingv1_MsgFundCredit) : writer :=
  rt_put_unknown (billingv1_MsgFundCredit_unknownFields x) ;;>
  if_some (billingv1_MsgFundCredit_Amount x) (λ e, rt_put_msg 0x1a (options_Marshal api_Coin_marshal (Some e))) ;;>
  if_nonempty (billingv1_MsgFundCredit_Tenant x) (rt_put_bytes 0x12 (billingv1_MsgFundCredit_Tenant x)) ;;>
  if_nonempty (billingv1_MsgFundCredit_Sender x) (rt_put_bytes 0xa (billingv1_MsgFundCredit_Sender x)).

Definition billingv1_MsgFundCredit_marshal : bytes → option billingv1_MsgFundCredit → res bytes := rt_marshal
  billingv1_MsgFundCredit_size billingv1_MsgFundCredit_write.

Definition billingv1_MsgFundCredit_case_1 (discard : bool) (wireType : Z) (dAtA : bytes) (iNdEx : Z) (x :
    billingv1_MsgFundCredit) : res (billingv1_MsgFundCredit * Z) :=
  let 'mk_billingv1_MsgFundCredit sender tenant amount u := x in
  '(v, iNdEx) ← get_string wireType dAtA iNdEx;
  Ok (mk_billingv1_MsgFundCredit v tenant amount u, iNdEx).

Definition billingv1_MsgFundCredit_case_2 (discard : bool) (wireType : Z) (dAtA : bytes) (iNdEx : Z) (x :
    billingv1_MsgFundCredit) : res (billingv1_MsgFundCredit * Z) :=
  let 'mk_billingv1_MsgFundCredit sender tenant amount u := x in
  '(v, iNdEx) ← get_string wireType dAtA iNdEx;
  Ok (mk_billingv1_MsgFundCredit sender v amount u, iNdEx).

Definition billingv1_MsgFundCredit_case_3 (discard : bool) (wireType : Z) (dAtA : bytes) (iNdEx : Z) (x :
    billingv1_MsgFundCredit) : res (billingv1_MsgFundCredit * Z) :=
  let 'mk_billingv1_MsgFundCredit sender tenant amount u := x in
  '(v, iNdEx) ← rt_get_msg api_Coin_unmarshal api_Coin_new amount discard wireType dAtA iNdEx;
  Ok (mk_billingv1_MsgFundCredit sender tenant v u, iNdEx).

Definition billingv1_MsgFundCredit_switch (discard : bool) (fieldNum wireType : Z) (dAtA : bytes) (iNdEx : Z) (x :
    billingv1_MsgFundCredit) : option (res (billingv1_MsgFundCredit * Z)) :=
  match fieldNum with
  | 1 => Some (billingv1_MsgFundCredit_case_1 discard wireType dAtA iNdEx x)
  | 2 => Some (billingv1_MsgFundCredit_case_2 discard wireType dAtA iNdEx x)
  | 3 => Some (billingv1_MsgFundCredit_case_3 discard wireType dAtA iNdEx x)
  | _ => None
  end.

Definition billingv1_MsgFundCredit_keep (f : bytes) (x : billingv1_MsgFundCredit) : billingv1_MsgFundCredit :=
  let 'mk_billingv1_MsgFundCredit sender tenant amount u := x in mk_billingv1_MsgFundCredit sender tenant amount (u ++
    f).

Definition billingv1_MsgFundCredit_unmarshal : bool → bytes → option billingv1_MsgFundCredit → res (option
  billingv1_MsgFundCredit) := rt_unmarshal billingv1_MsgFundCredit_switch billingv1_MsgFundCredit_keep.

Definition billingv1_MsgFundCredit_wire (x : billingv1_MsgFundCredit) : bytes :=
  enc_str 0xa (billingv1_MsgFundCredit_Sender x) ++
  enc_str 0x12 (billingv1_MsgFundCredit_Tenant x) ++
  enc_opt (λ e, len_field 0x1a (api_Coin_wire e)) (billingv1_MsgFundCredit_Amount x) ++
  billingv1_MsgFundCredit_unknownFields x.

(** ** MsgFundCreditResponse *)

Definition billingv1_MsgFundCreditResponse_size (x : option billingv1_MsgFundCreditResponse) : Z :=
  match x with
  | None => 0
  | Some x =>
      rt_size_str (billingv1_MsgFundCreditResponse_CreditAddress x) +
      size_opt (billingv1_MsgFundCreditResponse_NewBalance x) (λ e, rt_size_len (options_Size api_Coin_size (Some e))) +
      llen (billingv1_MsgFundCreditResponse_unknownFields x)
  end.

Definition billingv1_MsgFundCreditResponse_write (x : billingv1_MsgFundCreditResponse) : writer :=
  rt_put_unknown (billingv1_MsgFundCreditResponse_unknownFields x) ;;>
  if_some (billingv1_MsgFundCreditResponse_NewBalance x) (λ e, rt_put_msg 0x12 (options_Marshal api_Coin_marshal (Some e))) ;;>
  if_nonempty (billingv1_MsgFundCreditResponse_CreditAddress x) (rt_put_bytes 0xa (billingv1_MsgFundCreditResponse_CreditAddress x)).

Definition billingv1_MsgFundCreditResponse_marshal : bytes → option billingv1_MsgFundCreditResponse → res bytes :=
  rt_marshal billingv1_MsgFundCreditResponse_size billingv1_MsgFundCreditResponse_write.

Definition billingv1_MsgFundCreditResponse_case_1 (discard : bool) (wireType : Z) (dAtA : bytes) (iNdEx : Z) (x :
    billingv1_MsgFundCreditResponse) : res (billingv1_MsgFundCreditResponse * Z) :=
  let 'mk_billingv1_MsgFundCreditResponse creditAddress newBalance u := x in
  '(v, iNdEx) ← get_string wireType dAtA iNdEx;
  Ok (mk_billingv1_MsgFundCreditResponse v newBalance u, iNdEx).

Definition billingv1_MsgFundCreditResponse_case_2 (discard : bool) (wireType : Z) (dAtA : bytes) (iNdEx : Z) (x :
    billingv1_MsgFundCreditResponse) : res (billingv1_MsgFundCreditResponse * Z) :=
  let 'mk_billingv1_MsgFundCreditResponse creditAddress newBalance u := x in
  '(v, iNdEx) ← rt_get_msg api_Coin_unmarshal api_Coin_new newBalance discard wireType dAtA iNdEx;
  Ok (mk_billingv1_MsgFundCreditResponse creditAddress v u, iNdEx).

Definition billingv1_MsgFundCreditResponse_switch (discard : bool) (fieldNum wireType : Z) (dAtA : bytes) (iNdEx : Z)
    (x : billingv1_MsgFundCreditResponse) : option (res (billingv1_MsgFundCreditResponse * Z)) :=
  match fieldNum with
  | 1 => Some (billingv1_MsgFundCreditResponse_case_1 discard wireType dAtA iNdEx x)
  | 2 => Some (billingv1_MsgFundCreditResponse_case_2 discard wireType dAtA iNdEx x)
  | _ => None
  end.

Definition billingv1_MsgFundCreditResponse_keep (f : bytes) (x : billingv1_MsgFundCreditResponse) :
    billingv1_MsgFundCreditResponse :=
  let 'mk_billingv1_MsgFundCreditResponse creditAddress newBalance u := x in mk_billingv1_MsgFundCreditResponse
    creditAddress newBalance (u ++ f).

Definition billingv1_MsgFundCreditResponse_unmarshal : bool → bytes → option billingv1_MsgFundCreditResponse → res
  (option billingv1_MsgFundCreditResponse) := rt_unmarshal billingv1_MsgFundCreditResponse_switch
  billingv1_MsgFundCreditResponse_keep.

Definition billingv1_MsgFundCreditResponse_wire (x : billingv1_MsgFundCreditResponse) : bytes :=
  enc_str 0xa (billingv1_MsgFundCreditResponse_CreditAddress x) ++
  enc_opt (λ e, len_field 0x12 (api_Coin_wire e)) (billingv1_MsgFundCreditResponse_NewBalance x) ++
  billingv1_MsgFundCreditResponse_unknownFields x.

(** ** MsgCreateLease *)

Definition billingv1_MsgCreateLease_size (x : option billingv1_MsgCreateLease) : Z :=
  match x with
  | None => 0
  | Some x =>
      rt_size_str (billingv1_MsgCreateLease_Tenant x) +
      size_each (λ e, rt_size_len (options_Size billingv1_LeaseItemInput_size e)) (billingv1_MsgCreateLease_Items x) +
      rt_size_str (billingv1_MsgCreateLease_MetaHash x) +
      llen (billingv1_MsgCreateLease_unknownFields x)
  end.

Definition billingv1_MsgCreateLease_write (x : billingv1_MsgCreateLease) : writer :=
  rt_put_unknown (billingv1_MsgCreateLease_unknownFields x) ;;>
  if_nonempty (billingv1_MsgCreateLease_MetaHash x) (rt_put_bytes 0x1a (billingv1_MsgCreateLease_MetaHash x)) ;;>
  put_each (λ e, rt_put_msg 0x12 (options_Marshal billingv1_LeaseItemInput_marshal e)) (billingv1_MsgCreateLease_Items x) ;;>
  if_nonempty (billingv1_MsgCreateLease_Tenant x) (rt_put_bytes 0xa (billingv1_MsgCreateLease_Tenant x)).

Definition billingv1_MsgCreateLease_marshal : bytes → option billingv1_MsgCreateLease → res bytes := rt_marshal
  billingv1_MsgCreateLease_size billingv1_MsgCreateLease_write.

Definition billingv1_MsgCreateLease_case_1 (discard : bool) (wireType : Z) (dAtA : bytes) (iNdEx : Z) (x :
    billingv1_MsgCreateLease) : res (billingv1_MsgCreateLease * Z) :=
  let 'mk_billingv1_MsgCreateLease tenant items metaHash u := x in
  '(v, iNdEx) ← get_string wireType dAtA iNdEx;
  Ok (mk_billingv1_MsgCreateLease v items metaHash u, iNdEx).

Definition billingv1_MsgCreateLease_case_2 (discard : bool) (wireType : Z) (dAtA : bytes) (iNdEx : Z) (x :
    billingv1_MsgCreateLease) : res (billingv1_MsgCreateLease * Z) :=
  let 'mk_billingv1_MsgCreateLease tenant items metaHash u := x in
  '(v, iNdEx) ← rt_get_msg billingv1_LeaseItemInput_unmarshal billingv1_LeaseItemInput_new None discard wireType dAtA
    iNdEx;
  Ok (mk_billingv1_MsgCreateLease tenant (items ++ [v]) metaHash u, iNdEx).

Definition billingv1_MsgCreateLease_case_3 (discard : bool) (wireType : Z) (dAtA : bytes) (iNdEx : Z) (x :
    billingv1_MsgCreateLease) : res (billingv1_MsgCreateLease * Z) :=
  let 'mk_billingv1_MsgCreateLease tenant items metaHash u := x in
  '(v, iNdEx) ← get_bytes wireType dAtA iNdEx;
  Ok (mk_billingv1_MsgCreateLease tenant items v u, iNdEx).

Definition billingv1_MsgCreateLease_switch (discard : bool) (fieldNum wireType : Z) (dAtA : bytes) (iNdEx : Z) (x :
    billingv1_MsgCreateLease) : option (res (billingv1_MsgCreateLease * Z)) :=
  match fieldNum with
  | 1 => Some (billingv1_MsgCreateLease_case_1 discard wireType dAtA iNdEx x)
  | 2 => Some (billingv1_MsgCreateLease_case_2 discard wireType dAtA iNdEx x)
  | 3 => Some (billingv1_MsgCreateLease_case_3 discard wireType dAtA iNdEx x)
  | _ => None
  end.

Definition billingv1_MsgCreateLease_keep (f : bytes) (x : billingv1_MsgCreateLease) : billingv1_MsgCreateLease :=
  let 'mk_billingv1_MsgCreateLease tenant items metaHash u := x in mk_billingv1_MsgCreateLease tenant items metaHash
    (u ++ f).

Definition billingv1_MsgCreateLease_unmarshal : bool → bytes → option billingv1_MsgCreateLease → res (option
  billingv1_MsgCreateLease) := rt_unmarshal billingv1_MsgCreateLease_switch billingv1_MsgCreateLease_keep.

Definition billingv1_MsgCreateLease_wire (x : billingv1_MsgCreateLease) : bytes :=
  enc_str 0xa (billingv1_MsgCreateLease_Tenant x) ++
  enc_each (λ e, len_field 0x12 (wire_ptr billingv1_LeaseItemInput_wire e)) (billingv1_MsgCreateLease_Items x) ++
  enc_str 0x1a (billingv1_MsgCreateLease_MetaHash x) ++
  billingv1_MsgCreateLease_unknownFields x.

(** ** MsgCreateLeaseResponse *)

Definition billingv1_MsgCreateLeaseResponse_size (x : option billingv1_MsgCreateLeaseResponse) : Z :=
  match x with
  | None => 0
  | Some x =>
      rt_size_str (billingv1_MsgCreateLeaseResponse_LeaseUuid x) +
      llen (billingv1_MsgCreateLeaseResponse_unknownFields x)
  end.

Definition billingv1_MsgCreateLeaseResponse_write (x : billingv1_MsgCreateLeaseResponse) : writer :=
  rt_put_unknown (billingv1_MsgCreateLeaseResponse_unknownFields x) ;;>
  if_nonempty (billingv1_MsgCreateLeaseResponse_LeaseUuid x) (rt_put_bytes 0xa (billingv1_MsgCreateLeaseResponse_LeaseUuid x)).

Definition billingv1_MsgCreateLeaseResponse_marshal : bytes → option billingv1_MsgCreateLeaseResponse → res bytes :=
  rt_marshal billingv1_MsgCreateLeaseResponse_size billingv1_MsgCreateLeaseResponse_write.

Definition billingv1_MsgCreateLeaseResponse_case_1 (discard : bool) (wireType : Z) (dAtA : bytes) (iNdEx : Z) (x :
    billingv1_MsgCreateLeaseResponse) : res (billingv1_MsgCreateLeaseResponse * Z) :=
  let 'mk_billingv1_MsgCreateLeaseResponse leaseUuid u := x in
  '(v, iNdEx) ← get_string wireType dAtA iNdEx;
  Ok (mk_billingv1_MsgCreateLeaseResponse v u, iNdEx).

Definition billingv1_MsgCreateLeaseResponse_switch (discard : bool) (fieldNum wireType : Z) (dAtA : bytes) (iNdEx : Z)
    (x : billingv1_MsgCreateLeaseResponse) : option (res (billingv1_MsgCreateLeaseResponse * Z)) :=
  match fieldNum with
  | 1 => Some (billingv1_MsgCreateLeaseResponse_case_1 discard wireType dAtA iNdEx x)
  | _ => None
  end.

Definition billingv1_MsgCreateLeaseResponse_keep (f : bytes) (x : billingv1_MsgCreateLeaseResponse) :
    billingv1_MsgCreateLeaseResponse :=
  let 'mk_billingv1_MsgCreateLeaseResponse leaseUuid u := x in mk_billingv1_MsgCreateLeaseResponse leaseUuid (u ++ f).

Definition billingv1_MsgCreateLeaseResponse_unmarshal : bool → bytes → option billingv1_MsgCreateLeaseResponse → res
  (option billingv1_MsgCreateLeaseResponse) := rt_unmarshal billingv1_MsgCreateLeaseResponse_switch
  billingv1_MsgCreateLeaseResponse_keep.

Definition billingv1_MsgCreateLeaseResponse_wire (x : billingv1_MsgCreateLeaseResponse) : bytes :=
  enc_str 0xa (billingv1_MsgCreateLeaseResponse_LeaseUuid x) ++
  billingv1_MsgCreateLeaseResponse_unknownFields x.

(** ** MsgCreateLeaseForTenant *)

Definition billingv1_MsgCreateLeaseForTenant_size (x : option billingv1_MsgCreateLeaseForTenant) : Z :=
  match x with
  | None => 0
  | Some x =>
      rt_size_str (billingv1_MsgCreateLeaseForTenant_Authority x) +
      rt_size_str (billingv1_MsgCreateLeaseForTenant_Tenant x) +
      size_each (λ e, rt_size_len (options_Size billingv1_LeaseItemInput_size e)) (billingv1_MsgCreateLeaseForTenant_Items x) +
      rt_size_str (billingv1_MsgCreateLeaseForTenant_MetaHash x) +
      llen (billingv1_MsgCreateLeaseForTenant_unknownFields x)
  end.

Definition billingv1_MsgCreateLeaseForTenant_write (x : billingv1_MsgCreateLeaseForTenant) : writer :=
  rt_put_unknown (billingv1_MsgCreateLeaseForTenant_unknownFields x) ;;>
  if_nonempty (billingv1_MsgCreateLeaseForTenant_MetaHash x) (rt_put_bytes 0x22 (billingv1_MsgCreateLeaseForTenant_MetaHash x)) ;;>
  put_each (λ e, rt_put_msg 0x1a (options_Marshal billingv1_LeaseItemInput_marshal e)) (billingv1_MsgCreateLeaseForTenant_Items x) ;;>
  if_nonempty (billingv1_MsgCreateLeaseForTenant_Tenant x) (rt_put_bytes 0x12 (billingv1_MsgCreateLeaseForTenant_Tenant x)) ;;>
  if_nonempty (billingv1_MsgCreateLeaseForTenant_Authority x) (rt_put_bytes 0xa (billingv1_MsgCreateLeaseForTenant_Authority x)).

Definition billingv1_MsgCreateLeaseForTenant_marshal : bytes → option billingv1_MsgCreateLeaseForTenant → res bytes :=
  rt_marshal billingv1_MsgCreateLeaseForTenant_size billingv1_MsgCreateLeaseForTenant_write.

Definition billingv1_MsgCreateLeaseForTenant_case_1 (discard : bool) (wireType : Z) (dAtA : bytes) (iNdEx : Z) (x :
    billingv1_MsgCreateLeaseForTenant) : res (billingv1_MsgCreateLeaseForTenant * Z) :=
  let 'mk_billingv1_MsgCreateLeaseForTenant authority tenant items metaHash u := x in
  '(v, iNdEx) ← get_string wireType dAtA iNdEx;
  Ok (mk_billingv1_MsgCreateLeaseForTenant v tenant items metaHash u, iNdEx).

Definition billingv1_MsgCreateLeaseForTenant_case_2 (discard : bool) (wireType : Z) (dAtA : bytes) (iNdEx : Z) (x :
    billingv1_MsgCreateLeaseForTenant) : res (billingv1_MsgCreateLeaseForTenant * Z) :=
  let 'mk_billingv1_MsgCreateLeaseForTenant authority tenant items metaHash u := x in
  '(v, iNdEx) ← get_string wireType dAtA iNdEx;
  Ok (mk_billingv1_MsgCreateLeaseForTenant authority v items metaHash u, iNdEx).

Definition billingv1_MsgCreateLeaseForTenant_case_3 (discard : bool) (wireType : Z) (dAtA : bytes) (iNdEx : Z) (x :
    billingv1_MsgCreateLeaseForTenant) : res (billingv1_MsgCreateLeaseForTenant * Z) :=
  let 'mk_billingv1_MsgCreateLeaseForTenant authority tenant items metaHash u := x in
  '(v, iNdEx) ← rt_get_msg billingv1_LeaseItemInput_unmarshal billingv1_LeaseItemInput_new None discard wireType dAtA
    iNdEx;
  Ok (mk_billingv1_MsgCreateLeaseForTenant authority tenant (items ++ [v]) metaHash u, iNdEx).

Definition billingv1_MsgCreateLeaseForTenant_case_4 (discard : bool) (wireType : Z) (dAtA : bytes) (iNdEx : Z) (x :
    billingv1_MsgCreateLeaseForTenant) : res (billingv1_MsgCreateLeaseForTenant * Z) :=
  let 'mk_billingv1_MsgCreateLeaseForTenant authority tenant items metaHash u := x in
  '(v, iNdEx) ← get_bytes wireType dAtA iNdEx;
  Ok (mk_billingv1_MsgCreateLeaseForTenant authority tenant items v u, iNdEx).

Definition billingv1_MsgCreateLeaseForTenant_switch (discard : bool) (fieldNum wireType : Z) (dAtA : bytes) (iNdEx :
    Z) (x : billingv1_MsgCreateLeaseForTenant) : option (res (billingv1_MsgCreateLeaseForTenant * Z)) :=
  match fieldNum with
  | 1 => Some (billingv1_MsgCreateLeaseForTenant_case_1 discard wireType dAtA iNdEx x)
  | 2 => Some (billingv1_MsgCreateLeaseForTenant_case_2 discard wireType dAtA iNdEx x)
  | 3 => Some (billingv1_MsgCreateLeaseForTenant_case_3 discard wireType dAtA iNdEx x)
  | 4 => Some (billingv1_MsgCreateLeaseForTenant_case_4 discard wireType dAtA iNdEx x)
  | _ => None
  end.

Definition billingv1_MsgCreateLeaseForTenant_keep (f : bytes) (x : billingv1_MsgCreateLeaseForTenant) :
    billingv1_MsgCreateLeaseForTenant :=
  let 'mk_billingv1_MsgCreateLeaseForTenant authority tenant items metaHash u := x in
    mk_billingv1_MsgCreateLeaseForTenant authority tenant items metaHash (u ++ f).

Definition billingv1_MsgCreateLeaseForTenant_unmarshal : bool → bytes → option billingv1_MsgCreateLeaseForTenant → res
  (option billingv1_MsgCreateLeaseForTenant) := rt_unmarshal billingv1_MsgCreateLeaseForTenant_switch
  billingv1_MsgCreateLeaseForTenant_keep.

Definition billingv1_MsgCreateLeaseForTenant_wire (x : billingv1_MsgCreateLeaseForTenant) : bytes :=
  enc_str 0xa (billingv1_MsgCreateLeaseForTenant_Authority x) ++
  enc_str 0x12 (billingv1_MsgCreateLeaseForTenant_Tenant x) ++
  enc_each (λ e, len_field 0x1a (wire_ptr billingv1_LeaseItemInput_wire e)) (billingv1_MsgCreateLeaseForTenant_Items x) ++
  enc_str 0x22 (billingv1_MsgCreateLeaseForTenant_MetaHash x) ++
  billingv1_MsgCreateLeaseForTenant_unknownFields x.

(** ** MsgCreateLeaseForTenantResponse *)

Definition billingv1_MsgCreateLeaseForTenantResponse_size (x : option billingv1_MsgCreateLeaseForTenantResponse) : Z :=
  match x with
  | None => 0
  | Some x =>
      rt_size_str (billingv1_MsgCreateLeaseForTenantResponse_LeaseUuid x) +
      llen (billingv1_MsgCreateLeaseForTenantResponse_unknownFields x)
  end.

Definition billingv1_MsgCreateLeaseForTenantResponse_write (x : billingv1_MsgCreateLeaseForTenantResponse) : writer :=
  rt_put_unknown (billingv1_MsgCreateLeaseForTenantResponse_unknownFields x) ;;>
  if_nonempty (billingv1_MsgCreateLeaseForTenantResponse_LeaseUuid x) (rt_put_bytes 0xa (billingv1_MsgCreateLeaseForTenantResponse_LeaseUuid x)).

Definition billingv1_MsgCreateLeaseForTenantResponse_marshal : bytes → option
  billingv1_MsgCreateLeaseForTenantResponse → res bytes := rt_marshal billingv1_MsgCreateLeaseForTenantResponse_size
  billingv1_MsgCreateLeaseForTenantResponse_write.

Definition billingv1_MsgCreateLeaseForTenantResponse_case_1 (discard : bool) (wireType : Z) (dAtA : bytes) (iNdEx : Z)
    (x : billingv1_MsgCreateLeaseForTenantResponse) : res (billingv1_MsgCreateLeaseForTenantResponse * Z) :=
  let 'mk_billingv1_MsgCreateLeaseForTenantResponse leaseUuid u := x in
  '(v, iNdEx) ← get_string wireType dAtA iNdEx;
  Ok (mk_billingv1_MsgCreateLeaseForTenantResponse v u, iNdEx).

Definition billingv1_MsgCreateLeaseForTenantResponse_switch (discard : bool) (fieldNum wireType : Z) (dAtA : bytes)
    (iNdEx : Z) (x : billingv1_MsgCreateLeaseForTenantResponse) : option (res
    (billingv1_MsgCreateLeaseForTenantResponse * Z)) :=
  match fieldNum with
  | 1 => Some (billingv1_MsgCreateLeaseForTenantResponse_case_1 discard wireType dAtA iNdEx x)
  | _ => None
  end.

Definition billingv1_MsgCreateLeaseForTenantResponse_keep (f : bytes) (x : billingv1_MsgCreateLeaseForTenantResponse)
    : billingv1_MsgCreateLeaseForTenantResponse :=
  let 'mk_billingv1_MsgCreateLeaseForTenantResponse leaseUuid u := x in mk_billingv1_MsgCreateLeaseForTenantResponse
    leaseUuid (u ++ f).

Definition billingv1_MsgCreateLeaseForTenantResponse_unmarshal : bool → bytes → option
  billingv1_MsgCreateLeaseForTenantResponse → res (option billingv1_MsgCreateLeaseForTenantResponse) := rt_unmarshal
  billingv1_MsgCreateLeaseForTenantResponse_switch billingv1_MsgCreateLeaseForTenantResponse_keep.

Definition billingv1_MsgCreateLeaseForTenantResponse_wire (x : billingv1_MsgCreateLeaseForTenantResponse) : bytes :=
  enc_str 0xa (billingv1_MsgCreateLeaseForTenantResponse_LeaseUuid x) ++
  billingv1_MsgCreateLeaseForTenantResponse_unknownFields x.

(** ** MsgCloseLease *)

Definition billingv1_MsgCloseLease_size (x : option billingv1_MsgCloseLease) : Z :=
  match x with
  | None => 0
  | Some x =>
      rt_size_str (billingv1_MsgCloseLease_Sender x) +
      size_each (λ s, rt_size_len (len s)) (billingv1_MsgCloseLease_LeaseUuids x) +
      rt_size_str (billingv1_MsgCloseLease_Reason x) +
      llen (billingv1_MsgCloseLease_unknownFields x)
  end.

Definition billingv1_MsgCloseLease_write (x : billingv1_MsgCloseLease) : writer :=
  rt_put_unknown (billingv1_MsgCloseLease_unknownFields x) ;;>
  if_nonempty (billingv1_MsgCloseLease_Reason x) (rt_put_bytes 0x1a (billingv1_MsgCloseLease_Reason x)) ;;>
  put_each (λ s, rt_put_bytes 0x12 s) (billingv1_MsgCloseLease_LeaseUuids x) ;;>
  if_nonempty (billingv1_MsgCloseLease_Sender x) (rt_put_bytes 0xa (billingv1_MsgCloseLease_Sender x)).

Definition billingv1_MsgCloseLease_marshal : bytes → option billingv1_MsgCloseLease → res bytes := rt_marshal
  billingv1_MsgCloseLease_size billingv1_MsgCloseLease_write.

Definition billingv1_MsgCloseLease_case_1 (discard : bool) (wireType : Z) (dAtA : bytes) (iNdEx : Z) (x :
    billingv1_MsgCloseLease) : res (billingv1_MsgCloseLease * Z) :=
  let 'mk_billingv1_MsgCloseLease sender leaseUuids reason u := x in
  '(v, iNdEx) ← get_string wireType dAtA iNdEx;
  Ok (mk_billingv1_MsgCloseLease v leaseUuids reason u, iNdEx).

Definition billingv1_MsgCloseLease_case_2 (discard : bool) (wireType : Z) (dAtA : bytes) (iNdEx : Z) (x :
    billingv1_MsgCloseLease) : res (billingv1_MsgCloseLease * Z) :=
  let 'mk_billingv1_MsgCloseLease sender leaseUuids reason u := x in
  '(v, iNdEx) ← get_string wireType dAtA iNdEx;
  Ok (mk_billingv1_MsgCloseLease sender (leaseUuids ++ [v]) reason u, iNdEx).

Definition billingv1_MsgCloseLease_case_3 (discard : bool) (wireType : Z) (dAtA : bytes) (iNdEx : Z) (x :
    billingv1_MsgCloseLease) : res (billingv1_MsgCloseLease * Z) :=
  let 'mk_billingv1_MsgCloseLease sender leaseUuids reason u := x in
  '(v, iNdEx) ← get_string wireType dAtA iNdEx;
  Ok (mk_billingv1_MsgCloseLease sender leaseUuids v u, iNdEx).

Definition billingv1_MsgCloseLease_switch (discard : bool) (fieldNum wireType : Z) (dAtA : bytes) (iNdEx : Z) (x :
    billingv1_MsgCloseLease) : option (res (billingv1_MsgCloseLease * Z)) :=
  match fieldNum with
  | 1 => Some (billingv1_MsgCloseLease_case_1 discard wireType dAtA iNdEx x)
  | 2 => Some (billingv1_MsgCloseLease_case_2 discard wireType dAtA iNdEx x)
  | 3 => Some (billingv1_MsgCloseLease_case_3 discard wireType dAtA iNdEx x)
  | _ => None
  end.

Definition billingv1_MsgCloseLease_keep (f : bytes) (x : billingv1_MsgCloseLease) : billingv1_MsgCloseLease :=
  let 'mk_billingv1_MsgCloseLease sender leaseUuids reason u := x in mk_billingv1_MsgCloseLease sender leaseUuids
    reason (u ++ f).

Definition billingv1_MsgCloseLease_unmarshal : bool → bytes → option billingv1_MsgCloseLease → res (option
  billingv1_MsgCloseLease) := rt_unmarshal billingv1_MsgCloseLease_switch billingv1_MsgCloseLease_keep.

Definition billingv1_MsgCloseLease_wire (x : billingv1_MsgCloseLease) : bytes :=
  enc_str 0xa (billingv1_MsgCloseLease_Sender x) ++
  enc_each (λ s, len_field 0x12 (to_bytes s)) (billingv1_MsgCloseLease_LeaseUuids x) ++
  enc_str 0x1a (billingv1_MsgCloseLease_Reason x) ++
  billingv1_MsgCloseLease_unknownFields x.

(** ** MsgCloseLeaseResponse *)

Definition billingv1_MsgCloseLeaseResponse_size (x : option billingv1_MsgCloseLeaseResponse) : Z :=
  match x with
  | None => 0
  | Some x =>
      size_opt (billingv1_MsgCloseLeaseResponse_ClosedAt x) (λ e, rt_size_len (options_Size api_Timestamp_size (Some e))) +
      rt_size_num (billingv1_MsgCloseLeaseResponse_ClosedCount x) +
      size_each (λ e, rt_size_len (options_Size api_Coin_size e)) (billingv1_MsgCloseLeaseResponse_TotalSettledAmounts x) +
      llen (billingv1_MsgCloseLeaseResponse_unknownFields x)
  end.

Definition billingv1_MsgCloseLeaseResponse_write (x : billingv1_MsgCloseLeaseResponse) : writer :=
  rt_put_unknown (billingv1_MsgCloseLeaseResponse_unknownFields x) ;;>
  put_each (λ e, rt_put_msg 0x1a (options_Marshal api_Coin_marshal e)) (billingv1_MsgCloseLeaseResponse_TotalSettledAmounts x) ;;>
  if_nonzero (billingv1_MsgCloseLeaseResponse_ClosedCount x) (rt_put_uint 0x10 (billingv1_MsgCloseLeaseResponse_ClosedCount x)) ;;>
  if_some (billingv1_MsgCloseLeaseResponse_ClosedAt x) (λ e, rt_put_msg 0xa (options_Marshal api_Timestamp_marshal (Some e))).

Definition billingv1_MsgCloseLeaseResponse_marshal : bytes → option billingv1_MsgCloseLeaseResponse → res bytes :=
  rt_marshal billingv1_MsgCloseLeaseResponse_size billingv1_MsgCloseLeaseResponse_write.

Definition billingv1_MsgCloseLeaseResponse_case_1 (discard : bool) (wireType : Z) (dAtA : bytes) (iNdEx : Z) (x :
    billingv1_MsgCloseLeaseResponse) : res (billingv1_MsgCloseLeaseResponse * Z) :=
  let 'mk_billingv1_MsgCloseLeaseResponse closedAt closedCount totalSettledAmounts u := x in
  '(v, iNdEx) ← rt_get_msg api_Timestamp_unmarshal api_Timestamp_new closedAt discard wireType dAtA iNdEx;
  Ok (mk_billingv1_MsgCloseLeaseResponse v closedCount totalSettledAmounts u, iNdEx).

Definition billingv1_MsgCloseLeaseResponse_case_2 (discard : bool) (wireType : Z) (dAtA : bytes) (iNdEx : Z) (x :
    billingv1_MsgCloseLeaseResponse) : res (billingv1_MsgCloseLeaseResponse * Z) :=
  let 'mk_billingv1_MsgCloseLeaseResponse closedAt closedCount totalSettledAmounts u := x in
  '(v, iNdEx) ← get_uint wireType dAtA iNdEx;
  Ok (mk_billingv1_MsgCloseLeaseResponse closedAt v totalSettledAmounts u, iNdEx).

Definition billingv1_MsgCloseLeaseResponse_case_3 (discard : bool) (wireType : Z) (dAtA : bytes) (iNdEx : Z) (x :
    billingv1_MsgCloseLeaseResponse) : res (billingv1_MsgCloseLeaseResponse * Z) :=
  let 'mk_billingv1_MsgCloseLeaseResponse closedAt closedCount totalSettledAmounts u := x in
  '(v, iNdEx) ← rt_get_msg api_Coin_unmarshal api_Coin_new None discard wireType dAtA iNdEx;
  Ok (mk_billingv1_MsgCloseLeaseResponse closedAt closedCount (totalSettledAmounts ++ [v]) u, iNdEx).

Definition billingv1_MsgCloseLeaseResponse_switch (discard : bool) (fieldNum wireType : Z) (dAtA : bytes) (iNdEx : Z)
    (x : billingv1_MsgCloseLeaseResponse) : option (res (billingv1_MsgCloseLeaseResponse * Z)) :=
  match fieldNum with
  | 1 => Some (billingv1_MsgCloseLeaseResponse_case_1 discard wireType dAtA iNdEx x)
  | 2 => Some (billingv1_MsgCloseLeaseResponse_case_2 discard wireType dAtA iNdEx x)
  | 3 => Some (billingv1_MsgCloseLeaseResponse_case_3 discard wireType dAtA iNdEx x)
  | _ => None
  end.

Definition billingv1_MsgCloseLeaseResponse_keep (f : bytes) (x : billingv1_MsgCloseLeaseResponse) :
    billingv1_MsgCloseLeaseResponse :=
  let 'mk_billingv1_MsgCloseLeaseResponse closedAt closedCount totalSettledAmounts u := x in
    mk_billingv1_MsgCloseLeaseResponse closedAt closedCount totalSettledAmounts (u ++ f).

Definition billingv1_MsgCloseLeaseResponse_unmarshal : bool → bytes → option billingv1_MsgCloseLeaseResponse → res
  (option billingv1_MsgCloseLeaseResponse) := rt_unmarshal billingv1_MsgCloseLeaseResponse_switch
  billingv1_MsgCloseLeaseResponse_keep.

Definition billingv1_MsgCloseLeaseResponse_wire (x : billingv1_MsgCloseLeaseResponse) : bytes :=
  enc_opt (λ e, len_field 0xa (api_Timestamp_wire e)) (billingv1_MsgCloseLeaseResponse_ClosedAt x) ++
  enc_uint 0x10 (billingv1_MsgCloseLeaseResponse_ClosedCount x) ++
  enc_each (λ e, len_field 0x1a (wire_ptr api_Coin_wire e)) (billingv1_MsgCloseLeaseResponse_TotalSettledAmounts x) ++
  billingv1_MsgCloseLeaseResponse_unknownFields x.

(** ** MsgWithdraw *)

Definition billingv1_MsgWithdraw_size (x : option billingv1_MsgWithdraw) : Z :=
  match x with
  | None => 0
  | Some x =>
      rt_size_str (billingv1_MsgWithdraw_Sender x) +
      size_each (λ s, rt_size_len (len s)) (billingv1_MsgWithdraw_LeaseUuids x) +
      rt_size_str (billingv1_MsgWithdraw_ProviderUuid x) +
      rt_size_num (billingv1_MsgWithdraw_Limit x) +
      llen (billingv1_MsgWithdraw_unknownFields x)
  end.

Definition billingv1_MsgWithdraw_write (x : billingv1_MsgWithdraw) : writer :=
  rt_put_unknown (billingv1_MsgWithdraw_unknownFields x) ;;>
  if_nonzero (billingv1_MsgWithdraw_Limit x) (rt_put_uint 0x20 (billingv1_MsgWithdraw_Limit x)) ;;>
  if_nonempty (billingv1_MsgWithdraw_ProviderUuid x) (rt_put_bytes 0x1a (billingv1_MsgWithdraw_ProviderUuid x)) ;;>
  put_each (λ s, rt_put_bytes 0x12 s) (billingv1_MsgWithdraw_LeaseUuids x) ;;>
  if_nonempty (billingv1_MsgWithdraw_Sender x) (rt_put_bytes 0xa (billingv1_MsgWithdraw_Sender x)).

Definition billingv1_MsgWithdraw_marshal : bytes → option billingv1_MsgWithdraw → res bytes := rt_marshal
  billingv1_MsgWithdraw_size billingv1_MsgWithdraw_write.

Definition billingv1_MsgWithdraw_case_1 (discard : bool) (wireType : Z) (dAtA : bytes) (iNdEx : Z) (x :
    billingv1_MsgWithdraw) : res (billingv1_MsgWithdraw * Z) :=
  let 'mk_billingv1_MsgWithdraw sender leaseUuids providerUuid limit u := x in
  '(v, iNdEx) ← get_string wireType dAtA iNdEx;
  Ok (mk_billingv1_MsgWithdraw v leaseUuids providerUuid limit u, iNdEx).

Definition billingv1_MsgWithdraw_case_2 (discard : bool) (wireType : Z) (dAtA : bytes) (iNdEx : Z) (x :
    billingv1_MsgWithdraw) : res (billingv1_MsgWithdraw * Z) :=
  let 'mk_billingv1_MsgWithdraw sender leaseUuids providerUuid limit u := x in
  '(v, iNdEx) ← get_string wireType dAtA iNdEx;
  Ok (mk_billingv1_MsgWithdraw sender (leaseUuids ++ [v]) providerUuid limit u, iNdEx).

Definition billingv1_MsgWithdraw_case_3 (discard : bool) (wireType : Z) (dAtA : bytes) (iNdEx : Z) (x :
    billingv1_MsgWithdraw) : res (billingv1_MsgWithdraw * Z) :=
  let 'mk_billingv1_MsgWithdraw sender leaseUuids providerUuid limit u := x in
  '(v, iNdEx) ← get_string wireType dAtA iNdEx;
  Ok (mk_billingv1_MsgWithdraw sender leaseUuids v limit u, iNdEx).

Definition billingv1_MsgWithdraw_case_4 (discard : bool) (wireType : Z) (dAtA : bytes) (iNdEx : Z) (x :
    billingv1_MsgWithdraw) : res (billingv1_MsgWithdraw * Z) :=
  let 'mk_billingv1_MsgWithdraw sender leaseUuids providerUuid limit u := x in
  '(v, iNdEx) ← get_uint wireType dAtA iNdEx;
  Ok (mk_billingv1_MsgWithdraw sender leaseUuids providerUuid v u, iNdEx).

Definition billingv1_MsgWithdraw_switch (discard : bool) (fieldNum wireType : Z) (dAtA : bytes) (iNdEx : Z) (x :
    billingv1_MsgWithdraw) : option (res (billingv1_MsgWithdraw * Z)) :=
  match fieldNum with
  | 1 => Some (billingv1_MsgWithdraw_case_1 discard wireType dAtA iNdEx x)
  | 2 => Some (billingv1_MsgWithdraw_case_2 discard wireType dAtA iNdEx x)
  | 3 => Some (billingv1_MsgWithdraw_case_3 discard wireType dAtA iNdEx x)
  | 4 => Some (billingv1_MsgWithdraw_case_4 discard wireType dAtA iNdEx x)
  | _ => None
  end.

Definition billingv1_MsgWithdraw_keep (f : bytes) (x : billingv1_MsgWithdraw) : billingv1_MsgWithdraw :=
  let 'mk_billingv1_MsgWithdraw sender leaseUuids providerUuid limit u := x in mk_billingv1_MsgWithdraw sender
    leaseUuids providerUuid limit (u ++ f).

Definition billingv1_MsgWithdraw_unmarshal : bool → bytes → option billingv1_MsgWithdraw → res (option
  billingv1_MsgWithdraw) := rt_unmarshal billingv1_MsgWithdraw_switch billingv1_MsgWithdraw_keep.

Definition billingv1_MsgWithdraw_wire (x : billingv1_MsgWithdraw) : bytes :=
  enc_str 0xa (billingv1_MsgWithdraw_Sender x) ++
  enc_each (λ s, len_field 0x12 (to_bytes s)) (billingv1_MsgWithdraw_LeaseUuids x) ++
  enc_str 0x1a (billingv1_MsgWithdraw_ProviderUuid x) ++
  enc_uint 0x20 (billingv1_MsgWithdraw_Limit x) ++
  billingv1_MsgWithdraw_unknownFields x.

(** ** MsgWithdrawResponse *)

Definition billingv1_MsgWithdrawResponse_size (x : option billingv1_MsgWithdrawResponse) : Z :=
  match x with
  | None => 0
  | Some x =>
      size_each (λ e, rt_size_len (options_Size api_Coin_size e)) (billingv1_MsgWithdrawResponse_TotalAmounts x) +
      rt_size_str (billingv1_MsgWithdrawResponse_PayoutAddress x) +
      rt_size_num (billingv1_MsgWithdrawResponse_WithdrawalCount x) +
      size_bool (billingv1_MsgWithdrawResponse_HasMore x) +
      llen (billingv1_MsgWithdrawResponse_unknownFields x)
  end.

Definition billingv1_MsgWithdrawResponse_write (x : billingv1_MsgWithdrawResponse) : writer :=
  rt_put_unknown (billingv1_MsgWithdrawResponse_unknownFields x) ;;>
  if_true (billingv1_MsgWithdrawResponse_HasMore x) (put_bool 0x20 (billingv1_MsgWithdrawResponse_HasMore x)) ;;>
  if_nonzero (billingv1_MsgWithdrawResponse_WithdrawalCount x) (rt_put_uint 0x18 (billingv1_MsgWithdrawResponse_WithdrawalCount x)) ;;>
  if_nonempty (billingv1_MsgWithdrawResponse_PayoutAddress x) (rt_put_bytes 0x12 (billingv1_MsgWithdrawResponse_PayoutAddress x)) ;;>
  put_each (λ e, rt_put_msg 0xa (options_Marshal api_Coin_marshal e)) (billingv1_MsgWithdrawResponse_TotalAmounts x).

Definition billingv1_MsgWithdrawResponse_marshal : bytes → option billingv1_MsgWithdrawResponse → res bytes :=
  rt_marshal billingv1_MsgWithdrawResponse_size billingv1_MsgWithdrawResponse_write.

Definition billingv1_MsgWithdrawResponse_case_1 (discard : bool) (wireType : Z) (dAtA : bytes) (iNdEx : Z) (x :
    billingv1_MsgWithdrawResponse) : res (billingv1_MsgWithdrawResponse * Z) :=
  let 'mk_billingv1_MsgWithdrawResponse totalAmounts payoutAddress withdrawalCount hasMore u := x in
  '(v, iNdEx) ← rt_get_msg api_Coin_unmarshal api_Coin_new None discard wireType dAtA iNdEx;
  Ok (mk_billingv1_MsgWithdrawResponse (totalAmounts ++ [v]) payoutAddress withdrawalCount hasMore u, iNdEx).

Definition billingv1_MsgWithdrawResponse_case_2 (discard : bool) (wireType : Z) (dAtA : bytes) (iNdEx : Z) (x :
    billingv1_MsgWithdrawResponse) : res (billingv1_MsgWithdrawResponse * Z) :=
  let 'mk_billingv1_MsgWithdrawResponse totalAmounts payoutAddress withdrawalCount hasMore u := x in
  '(v, iNdEx) ← get_string wireType dAtA iNdEx;
  Ok (mk_billingv1_MsgWithdrawResponse totalAmounts v withdrawalCount hasMore u, iNdEx).

Definition billingv1_MsgWithdrawResponse_case_3 (discard : bool) (wireType : Z) (dAtA : bytes) (iNdEx : Z) (x :
    billingv1_MsgWithdrawResponse) : res (billingv1_MsgWithdrawResponse * Z) :=
  let 'mk_billingv1_MsgWithdrawResponse totalAmounts payoutAddress withdrawalCount hasMore u := x in
  '(v, iNdEx) ← get_uint wireType dAtA iNdEx;
  Ok (mk_billingv1_MsgWithdrawResponse totalAmounts payoutAddress v hasMore u, iNdEx).

Definition billingv1_MsgWithdrawResponse_case_4 (discard : bool) (wireType : Z) (dAtA : bytes) (iNdEx : Z) (x :
    billingv1_MsgWithdrawResponse) : res (billingv1_MsgWithdrawResponse * Z) :=
  let 'mk_billingv1_MsgWithdrawResponse totalAmounts payoutAddress withdrawalCount hasMore u := x in
  '(v, iNdEx) ← get_bool wireType dAtA iNdEx;
  Ok (mk_billingv1_MsgWithdrawResponse totalAmounts payoutAddress withdrawalCount v u, iNdEx).

Definition billingv1_MsgWithdrawResponse_switch (discard : bool) (fieldNum wireType : Z) (dAtA : bytes) (iNdEx : Z) (x
    : billingv1_MsgWithdrawResponse) : option (res (billingv1_MsgWithdrawResponse * Z)) :=
  match fieldNum with
  | 1 => Some (billingv1_MsgWithdrawResponse_case_1 discard wireType dAtA iNdEx x)
  | 2 => Some (billingv1_MsgWithdrawResponse_case_2 discard wireType dAtA iNdEx x)
  | 3 => Some (billingv1_MsgWithdrawResponse_case_3 discard wireType dAtA iNdEx x)
  | 4 => Some (billingv1_MsgWithdrawResponse_case_4 discard wireType dAtA iNdEx x)
  | _ => None
  end.

Definition billingv1_MsgWithdrawResponse_keep (f : bytes) (x : billingv1_MsgWithdrawResponse) :
    billingv1_MsgWithdrawResponse :=
  let 'mk_billingv1_MsgWithdrawResponse totalAmounts payoutAddress withdrawalCount hasMore u := x in
    mk_billingv1_MsgWithdrawResponse totalAmounts payoutAddress withdrawalCount hasMore (u ++ f).

Definition billingv1_MsgWithdrawResponse_unmarshal : bool → bytes → option billingv1_MsgWithdrawResponse → res (option
  billingv1_MsgWithdrawResponse) := rt_unmarshal billingv1_MsgWithdrawResponse_switch
  billingv1_MsgWithdrawResponse_keep.

Definition billingv1_MsgWithdrawResponse_wire (x : billingv1_MsgWithdrawResponse) : bytes :=
  enc_each (λ e, len_field 0xa (wire_ptr api_Coin_wire e)) (billingv1_MsgWithdrawResponse_TotalAmounts x) ++
  enc_str 0x12 (billingv1_MsgWithdrawResponse_PayoutAddress x) ++
  enc_uint 0x18 (billingv1_MsgWithdrawResponse_WithdrawalCount x) ++
  enc_bool 0x20 (billingv1_MsgWithdrawResponse_HasMore x) ++
  billingv1_MsgWithdrawResponse_unknownFields x.

(** ** MsgUpdateParams *)

Definition billingv1_MsgUpdateParams_size (x : option billingv1_MsgUpdateParams) : Z :=
  match x with
  | None => 0
  | Some x =>
      rt_size_str (billingv1_MsgUpdateParams_Authority x) +
      size_opt (billingv1_MsgUpdateParams_Params x) (λ e, rt_size_len (options_Size billingv1_Params_size (Some e))) +
      llen (billingv1_MsgUpdateParams_unknownFields x)
  end.

Definition billingv1_MsgUpdateParams_write (x : billingv1_MsgUpdateParams) : writer :=
  rt_put_unknown (billingv1_MsgUpdateParams_unknownFields x) ;;>
  if_some (billingv1_MsgUpdateParams_Params x) (λ e, rt_put_msg 0x12 (options_Marshal billingv1_Params_marshal (Some e))) ;;>
  if_nonempty (billingv1_MsgUpdateParams_Authority x) (rt_put_bytes 0xa (billingv1_MsgUpdateParams_Authority x)).

Definition billingv1_MsgUpdateParams_marshal : bytes → option billingv1_MsgUpdateParams → res bytes := rt_marshal
  billingv1_MsgUpdateParams_size billingv1_MsgUpdateParams_write.

Definition billingv1_MsgUpdateParams_case_1 (discard : bool) (wireType : Z) (dAtA : bytes) (iNdEx : Z) (x :
    billingv1_MsgUpdateParams) : res (billingv1_MsgUpdateParams * Z) :=
  let 'mk_billingv1_MsgUpdateParams authority params u := x in
  '(v, iNdEx) ← get_string wireType dAtA iNdEx;
  Ok (mk_billingv1_MsgUpdateParams v params u, iNdEx).

Definition billingv1_MsgUpdateParams_case_2 (discard : bool) (wireType : Z) (dAtA : bytes) (iNdEx : Z) (x :
    billingv1_MsgUpdateParams) : res (billingv1_MsgUpdateParams * Z) :=
  let 'mk_billingv1_MsgUpdateParams authority params u := x in
  '(v, iNdEx) ← rt_get_msg billingv1_Params_unmarshal billingv1_Params_new params discard wireType dAtA iNdEx;
  Ok (mk_billingv1_MsgUpdateParams authority v u, iNdEx).

Definition billingv1_MsgUpdateParams_switch (discard : bool) (fieldNum wireType : Z) (dAtA : bytes) (iNdEx : Z) (x :
    billingv1_MsgUpdateParams) : option (res (billingv1_MsgUpdateParams * Z)) :=
  match fieldNum with
  | 1 => Some (billingv1_MsgUpdateParams_case_1 discard wireType dAtA iNdEx x)
  | 2 => Some (billingv1_MsgUpdateParams_case_2 discard wireType dAtA iNdEx x)
  | _ => None
  end.

Definition billingv1_MsgUpdateParams_keep (f : bytes) (x : billingv1_MsgUpdateParams) : billingv1_MsgUpdateParams :=
  let 'mk_billingv1_MsgUpdateParams authority params u := x in mk_billingv1_MsgUpdateParams authority params (u ++ f).

Definition billingv1_MsgUpdateParams_unmarshal : bool → bytes → option billingv1_MsgUpdateParams → res (option
  billingv1_MsgUpdateParams) := rt_unmarshal billingv1_MsgUpdateParams_switch billingv1_MsgUpdateParams_keep.

Definition billingv1_MsgUpdateParams_wire (x : billingv1_MsgUpdateParams) : bytes :=
  enc_str 0xa (billingv1_MsgUpdateParams_Authority x) ++
  enc_opt (λ e, len_field 0x12 (billingv1_Params_wire e)) (billingv1_MsgUpdateParams_Params x) ++
  billingv1_MsgUpdateParams_unknownFields x.

(** ** MsgUpdateParamsResponse *)

Definition billingv1_MsgUpdateParamsResponse_size (x : option billingv1_MsgUpdateParamsResponse) : Z :=
  match x with
  | None => 0
  | Some x =>
      llen (billingv1_MsgUpdateParamsResponse_unknownFields x)
  end.

Definition billingv1_MsgUpdateParamsResponse_write (x : billingv1_MsgUpdateParamsResponse) : writer :=
  rt_put_unknown (billingv1_MsgUpdateParamsResponse_unknownFields x).

Definition billingv1_MsgUpdateParamsResponse_marshal : bytes → option billingv1_MsgUpdateParamsResponse → res bytes :=
  rt_marshal billingv1_MsgUpdateParamsResponse_size billingv1_MsgUpdateParamsResponse_write.

Definition billingv1_MsgUpdateParamsResponse_switch (discard : bool) (fieldNum wireType : Z) (dAtA : bytes) (iNdEx :
    Z) (x : billingv1_MsgUpdateParamsResponse) : option (res (billingv1_MsgUpdateParamsResponse * Z)) :=
  None.

Definition billingv1_MsgUpdateParamsResponse_keep (f : bytes) (x : billingv1_MsgUpdateParamsResponse) :
    billingv1_MsgUpdateParamsResponse :=
  let 'mk_billingv1_MsgUpdateParamsResponse u := x in mk_billingv1_MsgUpdateParamsResponse (u ++ f).

Definition billingv1_MsgUpdateParamsResponse_unmarshal : bool → bytes → option billingv1_MsgUpdateParamsResponse → res
  (option billingv1_MsgUpdateParamsResponse) := rt_unmarshal billingv1_MsgUpdateParamsResponse_switch
  billingv1_MsgUpdateParamsResponse_keep.

Definition billingv1_MsgUpdateParamsResponse_wire (x : billingv1_MsgUpdateParamsResponse) : bytes :=
  billingv1_MsgUpdateParamsResponse_unknownFields x.

(** ** MsgAcknowledgeLease *)

Definition billingv1_MsgAcknowledgeLease_size (x : option billingv1_MsgAcknowledgeLease) : Z :=
  match x with
  | None => 0
  | Some x =>
      rt_size_str (billingv1_MsgAcknowledgeLease_Sender x) +
      size_each (λ s, rt_size_len (len s)) (billingv1_MsgAcknowledgeLease_LeaseUuids x) +
      llen (billingv1_MsgAcknowledgeLease_unknownFields x)
  end.

Definition billingv1_MsgAcknowledgeLease_write (x : billingv1_MsgAcknowledgeLease) : writer :=
  rt_put_unknown (billingv1_MsgAcknowledgeLease_unknownFields x) ;;>
  put_each (λ s, rt_put_bytes 0x12 s) (billingv1_MsgAcknowledgeLease_LeaseUuids x) ;;>
  if_nonempty (billingv1_MsgAcknowledgeLease_Sender x) (rt_put_bytes 0xa (billingv1_MsgAcknowledgeLease_Sender x)).

Definition billingv1_MsgAcknowledgeLease_marshal : bytes → option billingv1_MsgAcknowledgeLease → res bytes :=
  rt_marshal billingv1_MsgAcknowledgeLease_size billingv1_MsgAcknowledgeLease_write.

Definition billingv1_MsgAcknowledgeLease_case_1 (discard : bool) (wireType : Z) (dAtA : bytes) (iNdEx : Z) (x :
    billingv1_MsgAcknowledgeLease) : res (billingv1_MsgAcknowledgeLease * Z) :=
  let 'mk_billingv1_MsgAcknowledgeLease sender leaseUuids u := x in
  '(v, iNdEx) ← get_string wireType dAtA iNdEx;
  Ok (mk_billingv1_MsgAcknowledgeLease v leaseUuids u, iNdEx).

Definition billingv1_MsgAcknowledgeLease_case_2 (discard : bool) (wireType : Z) (dAtA : bytes) (iNdEx : Z) (x :
    billingv1_MsgAcknowledgeLease) : res (billingv1_MsgAcknowledgeLease * Z) :=
  let 'mk_billingv1_MsgAcknowledgeLease sender leaseUuids u := x in
  '(v, iNdEx) ← get_string wireType dAtA iNdEx;
  Ok (mk_billingv1_MsgAcknowledgeLease sender (leaseUuids ++ [v]) u, iNdEx).

Definition billingv1_MsgAcknowledgeLease_switch (discard : bool) (fieldNum wireType : Z) (dAtA : bytes) (iNdEx : Z) (x
    : billingv1_MsgAcknowledgeLease) : option (res (billingv1_MsgAcknowledgeLease * Z)) :=
  match fieldNum with
  | 1 => Some (billingv1_MsgAcknowledgeLease_case_1 discard wireType dAtA iNdEx x)
  | 2 => Some (billingv1_MsgAcknowledgeLease_case_2 discard wireType dAtA iNdEx x)
  | _ => None
  end.

Definition billingv1_MsgAcknowledgeLease_keep (f : bytes) (x : billingv1_MsgAcknowledgeLease) :
    billingv1_MsgAcknowledgeLease :=
  let 'mk_billingv1_MsgAcknowledgeLease sender leaseUuids u := x in mk_billingv1_MsgAcknowledgeLease sender leaseUuids
    (u ++ f).

Definition billingv1_MsgAcknowledgeLease_unmarshal : bool → bytes → option billingv1_MsgAcknowledgeLease → res (option
  billingv1_MsgAcknowledgeLease) := rt_unmarshal billingv1_MsgAcknowledgeLease_switch
  billingv1_MsgAcknowledgeLease_keep.

Definition billingv1_MsgAcknowledgeLease_wire (x : billingv1_MsgAcknowledgeLease) : bytes :=
  enc_str 0xa (billingv1_MsgAcknowledgeLease_Sender x) ++
  enc_each (λ s, len_field 0x12 (to_bytes s)) (billingv1_MsgAcknowledgeLease_LeaseUuids x) ++
  billingv1_MsgAcknowledgeLease_unknownFields x.

(** ** MsgAcknowledgeLeaseResponse *)

Definition billingv1_MsgAcknowledgeLeaseResponse_size (x : option billingv1_MsgAcknowledgeLeaseResponse) : Z :=
  match x with
  | None => 0
  | Some x =>
      size_opt (billingv1_MsgAcknowledgeLeaseResponse_AcknowledgedAt x) (λ e, rt_size_len (options_Size api_Timestamp_size (Some e))) +
      rt_size_num (billingv1_MsgAcknowledgeLeaseResponse_AcknowledgedCount x) +
      llen (billingv1_MsgAcknowledgeLeaseResponse_unknownFields x)
  end.

Definition billingv1_MsgAcknowledgeLeaseResponse_write (x : billingv1_MsgAcknowledgeLeaseResponse) : writer :=
  rt_put_unknown (billingv1_MsgAcknowledgeLeaseResponse_unknownFields x) ;;>
  if_nonzero (billingv1_MsgAcknowledgeLeaseResponse_AcknowledgedCount x) (rt_put_uint 0x10 (billingv1_MsgAcknowledgeLeaseResponse_AcknowledgedCount x)) ;;>
  if_some (billingv1_MsgAcknowledgeLeaseResponse_AcknowledgedAt x) (λ e, rt_put_msg 0xa (options_Marshal api_Timestamp_marshal (Some e))).

Definition billingv1_MsgAcknowledgeLeaseResponse_marshal : bytes → option billingv1_MsgAcknowledgeLeaseResponse → res
  bytes := rt_marshal billingv1_MsgAcknowledgeLeaseResponse_size billingv1_MsgAcknowledgeLeaseResponse_write.

Definition billingv1_MsgAcknowledgeLeaseResponse_case_1 (discard : bool) (wireType : Z) (dAtA : bytes) (iNdEx : Z) (x
    : billingv1_MsgAcknowledgeLeaseResponse) : res (billingv1_MsgAcknowledgeLeaseResponse * Z) :=
  let 'mk_billingv1_MsgAcknowledgeLeaseResponse acknowledgedAt acknowledgedCount u := x in
  '(v, iNdEx) ← rt_get_msg api_Timestamp_unmarshal api_Timestamp_new acknowledgedAt discard wireType dAtA iNdEx;
  Ok (mk_billingv1_MsgAcknowledgeLeaseResponse v acknowledgedCount u, iNdEx).

Definition billingv1_MsgAcknowledgeLeaseResponse_case_2 (discard : bool) (wireType : Z) (dAtA : bytes) (iNdEx : Z) (x
    : billingv1_MsgAcknowledgeLeaseResponse) : res (billingv1_MsgAcknowledgeLeaseResponse * Z) :=
  let 'mk_billingv1_MsgAcknowledgeLeaseResponse acknowledgedAt acknowledgedCount u := x in
  '(v, iNdEx) ← get_uint wireType dAtA iNdEx;
  Ok (mk_billingv1_MsgAcknowledgeLeaseResponse acknowledgedAt v u, iNdEx).

Definition billingv1_MsgAcknowledgeLeaseResponse_switch (discard : bool) (fieldNum wireType : Z) (dAtA : bytes) (iNdEx
    : Z) (x : billingv1_MsgAcknowledgeLeaseResponse) : option (res (billingv1_MsgAcknowledgeLeaseResponse * Z)) :=
  match fieldNum with
  | 1 => Some (billingv1_MsgAcknowledgeLeaseResponse_case_1 discard wireType dAtA iNdEx x)
  | 2 => Some (billingv1_MsgAcknowledgeLeaseResponse_case_2 discard wireType dAtA iNdEx x)
  | _ => None
  end.

Definition billingv1_MsgAcknowledgeLeaseResponse_keep (f : bytes) (x : billingv1_MsgAcknowledgeLeaseResponse) :
    billingv1_MsgAcknowledgeLeaseResponse :=
  let 'mk_billingv1_MsgAcknowledgeLeaseResponse acknowledgedAt acknowledgedCount u := x in
    mk_billingv1_MsgAcknowledgeLeaseResponse acknowledgedAt acknowledgedCount (u ++ f).

Definition billingv1_MsgAcknowledgeLeaseResponse_unmarshal : bool → bytes → option
  billingv1_MsgAcknowledgeLeaseResponse → res (option billingv1_MsgAcknowledgeLeaseResponse) := rt_unmarshal
  billingv1_MsgAcknowledgeLeaseResponse_switch billingv1_MsgAcknowledgeLeaseResponse_keep.

Definition billingv1_MsgAcknowledgeLeaseResponse_wire (x : billingv1_MsgAcknowledgeLeaseResponse) : bytes :=
  enc_opt (λ e, len_field 0xa (api_Timestamp_wire e)) (billingv1_MsgAcknowledgeLeaseResponse_AcknowledgedAt x) ++
  enc_uint 0x10 (billingv1_MsgAcknowledgeLeaseResponse_AcknowledgedCount x) ++
  billingv1_MsgAcknowledgeLeaseResponse_unknownFields x.

(** ** MsgRejectLease *)

Definition billingv1_MsgRejectLease_size (x : option billingv1_MsgRejectLease) : Z :=
  match x with
  | None => 0
  | Some x =>
      rt_size_str (billingv1_MsgRejectLease_Sender x) +
      size_each (λ s, rt_size_len (len s)) (billingv1_MsgRejectLease_LeaseUuids x) +
      rt_size_str (billingv1_MsgRejectLease_Reason x) +
      llen (billingv1_MsgRejectLease_unknownFields x)
  end.

Definition billingv1_MsgRejectLease_write (x : billingv1_MsgRejectLease) : writer :=
  rt_put_unknown (billingv1_MsgRejectLease_unknownFields x) ;;>
  if_nonempty (billingv1_MsgRejectLease_Reason x) (rt_put_bytes 0x1a (billingv1_MsgRejectLease_Reason x)) ;;>
  put_each (λ s, rt_put_bytes 0x12 s) (billingv1_MsgRejectLease_LeaseUuids x) ;;>
  if_nonempty (billingv1_MsgRejectLease_Sender x) (rt_put_bytes 0xa (billingv1_MsgRejectLease_Sender x)).

Definition billingv1_MsgRejectLease_marshal : bytes → option billingv1_MsgRejectLease → res bytes := rt_marshal
  billingv1_MsgRejectLease_size billingv1_MsgRejectLease_write.

Definition billingv1_MsgRejectLease_case_1 (discard : bool) (wireType : Z) (dAtA : bytes) (iNdEx : Z) (x :
    billingv1_MsgRejectLease) : res (billingv1_MsgRejectLease * Z) :=
  let 'mk_billingv1_MsgRejectLease sender leaseUuids reason u := x in
  '(v, iNdEx) ← get_string wireType dAtA iNdEx;
  Ok (mk_billingv1_MsgRejectLease v leaseUuids reason u, iNdEx).

Definition billingv1_MsgRejectLease_case_2 (discard : bool) (wireType : Z) (dAtA : bytes) (iNdEx : Z) (x :
    billingv1_MsgRejectLease) : res (billingv1_MsgRejectLease * Z) :=
  let 'mk_billingv1_MsgRejectLease sender leaseUuids reason u := x in
  '(v, iNdEx) ← get_string wireType dAtA iNdEx;
  Ok (mk_billingv1_MsgRejectLease sender (leaseUuids ++ [v]) reason u, iNdEx).

Definition billingv1_MsgRejectLease_case_3 (discard : bool) (wireType : Z) (dAtA : bytes) (iNdEx : Z) (x :
    billingv1_MsgRejectLease) : res (billingv1_MsgRejectLease * Z) :=
  let 'mk_billingv1_MsgRejectLease sender leaseUuids reason u := x in
  '(v, iNdEx) ← get_string wireType dAtA iNdEx;
  Ok (mk_billingv1_MsgRejectLease sender leaseUuids v u, iNdEx).

Definition billingv1_MsgRejectLease_switch (discard : bool) (fieldNum wireType : Z) (dAtA : bytes) (iNdEx : Z) (x :
    billingv1_MsgRejectLease) : option (res (billingv1_MsgRejectLease * Z)) :=
  match fieldNum with
  | 1 => Some (billingv1_MsgRejectLease_case_1 discard wireType dAtA iNdEx x)
  | 2 => Some (billingv1_MsgRejectLease_case_2 discard wireType dAtA iNdEx x)
  | 3 => Some (billingv1_MsgRejectLease_case_3 discard wireType dAtA iNdEx x)
  | _ => None
  end.

Definition billingv1_MsgRejectLease_keep (f : bytes) (x : billingv1_MsgRejectLease) : billingv1_MsgRejectLease :=
  let 'mk_billingv1_MsgRejectLease sender leaseUuids reason u := x in mk_billingv1_MsgRejectLease sender leaseUuids
    reason (u ++ f).

Definition billingv1_MsgRejectLease_unmarshal : bool → bytes → option billingv1_MsgRejectLease → res (option
  billingv1_MsgRejectLease) := rt_unmarshal billingv1_MsgRejectLease_switch billingv1_MsgRejectLease_keep.

Definition billingv1_MsgRejectLease_wire (x : billingv1_MsgRejectLease) : bytes :=
  enc_str 0xa (billingv1_MsgRejectLease_Sender x) ++
  enc_each (λ s, len_field 0x12 (to_bytes s)) (billingv1_MsgRejectLease_LeaseUuids x) ++
  enc_str 0x1a (billingv1_MsgRejectLease_Reason x) ++
  billingv1_MsgRejectLease_unknownFields x.

(** ** MsgRejectLeaseResponse *)

Definition billingv1_MsgRejectLeaseResponse_size (x : option billingv1_MsgRejectLeaseResponse) : Z :=
  match x with
  | None => 0
  | Some x =>
      size_opt (billingv1_MsgRejectLeaseResponse_RejectedAt x) (λ e, rt_size_len (options_Size api_Timestamp_size (Some e))) +
      rt_size_num (billingv1_MsgRejectLeaseResponse_RejectedCount x) +
      llen (billingv1_MsgRejectLeaseResponse_unknownFields x)
  end.

Definition billingv1_MsgRejectLeaseResponse_write (x : billingv1_MsgRejectLeaseResponse) : writer :=
  rt_put_unknown (billingv1_MsgRejectLeaseResponse_unknownFields x) ;;>
  if_nonzero (billingv1_MsgRejectLeaseResponse_RejectedCount x) (rt_put_uint 0x10 (billingv1_MsgRejectLeaseResponse_RejectedCount x)) ;;>
  if_some (billingv1_MsgRejectLeaseResponse_RejectedAt x) (λ e, rt_put_msg 0xa (options_Marshal api_Timestamp_marshal (Some e))).

Definition billingv1_MsgRejectLeaseResponse_marshal : bytes → option billingv1_MsgRejectLeaseResponse → res bytes :=
  rt_marshal billingv1_MsgRejectLeaseResponse_size billingv1_MsgRejectLeaseResponse_write.

Definition billingv1_MsgRejectLeaseResponse_case_1 (discard : bool) (wireType : Z) (dAtA : bytes) (iNdEx : Z) (x :
    billingv1_MsgRejectLeaseResponse) : res (billingv1_MsgRejectLeaseResponse * Z) :=
  let 'mk_billingv1_MsgRejectLeaseResponse rejectedAt rejectedCount u := x in
  '(v, iNdEx) ← rt_get_msg api_Timestamp_unmarshal api_Timestamp_new rejectedAt discard wireType dAtA iNdEx;
  Ok (mk_billingv1_MsgRejectLeaseResponse v rejectedCount u, iNdEx).

Definition billingv1_MsgRejectLeaseResponse_case_2 (discard : bool) (wireType : Z) (dAtA : bytes) (iNdEx : Z) (x :
    billingv1_MsgRejectLeaseResponse) : res (billingv1_MsgRejectLeaseResponse * Z) :=
  let 'mk_billingv1_MsgRejectLeaseResponse rejectedAt rejectedCount u := x in
  '(v, iNdEx) ← get_uint wireType dAtA iNdEx;
  Ok (mk_billingv1_MsgRejectLeaseResponse rejectedAt v u, iNdEx).

Definition billingv1_MsgRejectLeaseResponse_switch (discard : bool) (fieldNum wireType : Z) (dAtA : bytes) (iNdEx : Z)
    (x : billingv1_MsgRejectLeaseResponse) : option (res (billingv1_MsgRejectLeaseResponse * Z)) :=
  match fieldNum with
  | 1 => Some (billingv1_MsgRejectLeaseResponse_case_1 discard wireType dAtA iNdEx x)
  | 2 => Some (billingv1_MsgRejectLeaseResponse_case_2 discard wireType dAtA iNdEx x)
  | _ => None
  end.

Definition billingv1_MsgRejectLeaseResponse_keep (f : bytes) (x : billingv1_MsgRejectLeaseResponse) :
    billingv1_MsgRejectLeaseResponse :=
  let 'mk_billingv1_MsgRejectLeaseResponse rejectedAt rejectedCount u := x in mk_billingv1_MsgRejectLeaseResponse
    rejectedAt rejectedCount (u ++ f).

Definition billingv1_MsgRejectLeaseResponse_unmarshal : bool → bytes → option billingv1_MsgRejectLeaseResponse → res
  (option billingv1_MsgRejectLeaseResponse) := rt_unmarshal billingv1_MsgRejectLeaseResponse_switch
  billingv1_MsgRejectLeaseResponse_keep.

Definition billingv1_MsgRejectLeaseResponse_wire (x : billingv1_MsgRejectLeaseResponse) : bytes :=
  enc_opt (λ e, len_field 0xa (api_Timestamp_wire e)) (billingv1_MsgRejectLeaseResponse_RejectedAt x) ++
  enc_uint 0x10 (billingv1_MsgRejectLeaseResponse_RejectedCount x) ++
  billingv1_MsgRejectLeaseResponse_unknownFields x.

(** ** MsgCancelLease *)

Definition billingv1_MsgCancelLease_size (x : option billingv1_MsgCancelLease) : Z :=
  match x with
  | None => 0
  | Some x =>
      rt_size_str (billingv1_MsgCancelLease_Tenant x) +
      size_each (λ s, rt_size_len (len s)) (billingv1_MsgCancelLease_LeaseUuids x) +
      llen (billingv1_MsgCancelLease_unknownFields x)
  end.

Definition billingv1_MsgCancelLease_write (x : billingv1_MsgCancelLease) : writer :=
  rt_put_unknown (billingv1_MsgCancelLease_unknownFields x) ;;>
  put_each (λ s, rt_put_bytes 0x12 s) (billingv1_MsgCancelLease_LeaseUuids x) ;;>
  if_nonempty (billingv1_MsgCancelLease_Tenant x) (rt_put_bytes 0xa (billingv1_MsgCancelLease_Tenant x)).

Definition billingv1_MsgCancelLease_marshal : bytes → option billingv1_MsgCancelLease → res bytes := rt_marshal
  billingv1_MsgCancelLease_size billingv1_MsgCancelLease_write.

Definition billingv1_MsgCancelLease_case_1 (discard : bool) (wireType : Z) (dAtA : bytes) (iNdEx : Z) (x :
    billingv1_MsgCancelLease) : res (billingv1_MsgCancelLease * Z) :=
  let 'mk_billingv1_MsgCancelLease tenant leaseUuids u := x in
  '(v, iNdEx) ← get_string wireType dAtA iNdEx;
  Ok (mk_billingv1_MsgCancelLease v leaseUuids u, iNdEx).

Definition billingv1_MsgCancelLease_case_2 (discard : bool) (wireType : Z) (dAtA : bytes) (iNdEx : Z) (x :
    billingv1_MsgCancelLease) : res (billingv1_MsgCancelLease * Z) :=
  let 'mk_billingv1_MsgCancelLease tenant leaseUuids u := x in
  '(v, iNdEx) ← get_string wireType dAtA iNdEx;
  Ok (mk_billingv1_MsgCancelLease tenant (leaseUuids ++ [v]) u, iNdEx).

Definition billingv1_MsgCancelLease_switch (discard : bool) (fieldNum wireType : Z) (dAtA : bytes) (iNdEx : Z) (x :
    billingv1_MsgCancelLease) : option (res (billingv1_MsgCancelLease * Z)) :=
  match fieldNum with
  | 1 => Some (billingv1_MsgCancelLease_case_1 discard wireType dAtA iNdEx x)
  | 2 => Some (billingv1_MsgCancelLease_case_2 discard wireType dAtA iNdEx x)
  | _ => None
  end.

Definition billingv1_MsgCancelLease_keep (f : bytes) (x : billingv1_MsgCancelLease) : billingv1_MsgCancelLease :=
  let 'mk_billingv1_MsgCancelLease tenant leaseUuids u := x in mk_billingv1_MsgCancelLease tenant leaseUuids (u ++ f).

Definition billingv1_MsgCancelLease_unmarshal : bool → bytes → option billingv1_MsgCancelLease → res (option
  billingv1_MsgCancelLease) := rt_unmarshal billingv1_MsgCancelLease_switch billingv1_MsgCancelLease_keep.

Definition billingv1_MsgCancelLease_wire (x : billingv1_MsgCancelLease) : bytes :=
  enc_str 0xa (billingv1_MsgCancelLease_Tenant x) ++
  enc_each (λ s, len_field 0x12 (to_bytes s)) (billingv1_MsgCancelLease_LeaseUuids x) ++
  billingv1_MsgCancelLease_unknownFields x.

(** ** MsgCancelLeaseResponse *)

Definition billingv1_MsgCancelLeaseResponse_size (x : option billingv1_MsgCancelLeaseResponse) : Z :=
  match x with
  | None => 0
  | Some x =>
      size_opt (billingv1_MsgCancelLeaseResponse_CancelledAt x) (λ e, rt_size_len (options_Size api_Timestamp_size (Some e))) +
      rt_size_num (billingv1_MsgCancelLeaseResponse_CancelledCount x) +
      llen (billingv1_MsgCancelLeaseResponse_unknownFields x)
  end.

Definition billingv1_MsgCancelLeaseResponse_write (x : billingv1_MsgCancelLeaseResponse) : writer :=
  rt_put_unknown (billingv1_MsgCancelLeaseResponse_unknownFields x) ;;>
  if_nonzero (billingv1_MsgCancelLeaseResponse_CancelledCount x) (rt_put_uint 0x10 (billingv1_MsgCancelLeaseResponse_CancelledCount x)) ;;>
  if_some (billingv1_MsgCancelLeaseResponse_CancelledAt x) (λ e, rt_put_msg 0xa (options_Marshal api_Timestamp_marshal (Some e))).

Definition billingv1_MsgCancelLeaseResponse_marshal : bytes → option billingv1_MsgCancelLeaseResponse → res bytes :=
  rt_marshal billingv1_MsgCancelLeaseResponse_size billingv1_MsgCancelLeaseResponse_write.

Definition billingv1_MsgCancelLeaseResponse_case_1 (discard : bool) (wireType : Z) (dAtA : bytes) (iNdEx : Z) (x :
    billingv1_MsgCancelLeaseResponse) : res (billingv1_MsgCancelLeaseResponse * Z) :=
  let 'mk_billingv1_MsgCancelLeaseResponse cancelledAt cancelledCount u := x in
  '(v, iNdEx) ← rt_get_msg api_Timestamp_unmarshal api_Timestamp_new cancelledAt discard wireType dAtA iNdEx;
  Ok (mk_billingv1_MsgCancelLeaseResponse v cancelledCount u, iNdEx).

Definition billingv1_MsgCancelLeaseResponse_case_2 (discard : bool) (wireType : Z) (dAtA : bytes) (iNdEx : Z) (x :
    billingv1_MsgCancelLeaseResponse) : res (billingv1_MsgCancelLeaseResponse * Z) :=
  let 'mk_billingv1_MsgCancelLeaseResponse cancelledAt cancelledCount u := x in
  '(v, iNdEx) ← get_uint wireType dAtA iNdEx;
  Ok (mk_billingv1_MsgCancelLeaseResponse cancelledAt v u, iNdEx).

Definition billingv1_MsgCancelLeaseResponse_switch (discard : bool) (fieldNum wireType : Z) (dAtA : bytes) (iNdEx : Z)
    (x : billingv1_MsgCancelLeaseResponse) : option (res (billingv1_MsgCancelLeaseResponse * Z)) :=
  match fieldNum with
  | 1 => Some (billingv1_MsgCancelLeaseResponse_case_1 discard wireType dAtA iNdEx x)
  | 2 => Some (billingv1_MsgCancelLeaseResponse_case_2 discard wireType dAtA iNdEx x)
  | _ => None
  end.

Definition billingv1_MsgCancelLeaseResponse_keep (f : bytes) (x : billingv1_MsgCancelLeaseResponse) :
    billingv1_MsgCancelLeaseResponse :=
  let 'mk_billingv1_MsgCancelLeaseResponse cancelledAt cancelledCount u := x in mk_billingv1_MsgCancelLeaseResponse
    cancelledAt cancelledCount (u ++ f).

Definition billingv1_MsgCancelLeaseResponse_unmarshal : bool → bytes → option billingv1_MsgCancelLeaseResponse → res
  (option billingv1_MsgCancelLeaseResponse) := rt_unmarshal billingv1_MsgCancelLeaseResponse_switch
  billingv1_MsgCancelLeaseResponse_keep.

Definition billingv1_MsgCancelLeaseResponse_wire (x : billingv1_MsgCancelLeaseResponse) : bytes :=
  enc_opt (λ e, len_field 0xa (api_Timestamp_wire e)) (billingv1_MsgCancelLeaseResponse_CancelledAt x) ++
  enc_uint 0x10 (billingv1_MsgCancelLeaseResponse_CancelledCount x) ++
  billingv1_MsgCancelLeaseResponse_unknownFields x.

(** ** MsgSetItemCustomDomain *)

Definition billingv1_MsgSetItemCustomDomain_size (x : option billingv1_MsgSetItemCustomDomain) : Z :=
  match x with
  | None => 0
  | Some x =>
      rt_size_str (billingv1_MsgSetItemCustomDomain_Sender x) +
      rt_size_str (billingv1_MsgSetItemCustomDomain_LeaseUuid x) +
      rt_size_str (billingv1_MsgSetItemCustomDomain_ServiceName x) +
      rt_size_str (billingv1_MsgSetItemCustomDomain_CustomDomain x) +
      llen (billingv1_MsgSetItemCustomDomain_unknownFields x)
  end.

Definition billingv1_MsgSetItemCustomDomain_write (x : billingv1_MsgSetItemCustomDomain) : writer :=
  rt_put_unknown (billingv1_MsgSetItemCustomDomain_unknownFields x) ;;>
  if_nonempty (billingv1_MsgSetItemCustomDomain_CustomDomain x) (rt_put_bytes 0x22 (billingv1_MsgSetItemCustomDomain_CustomDomain x)) ;;>
  if_nonempty (billingv1_MsgSetItemCustomDomain_ServiceName x) (rt_put_bytes 0x1a (billingv1_MsgSetItemCustomDomain_ServiceName x)) ;;>
  if_nonempty (billingv1_MsgSetItemCustomDomain_LeaseUuid x) (rt_put_bytes 0x12 (billingv1_MsgSetItemCustomDomain_LeaseUuid x)) ;;>
  if_nonempty (billingv1_MsgSetItemCustomDomain_Sender x) (rt_put_bytes 0xa (billingv1_MsgSetItemCustomDomain_Sender x)).

Definition billingv1_MsgSetItemCustomDomain_marshal : bytes → option billingv1_MsgSetItemCustomDomain → res bytes :=
  rt_marshal billingv1_MsgSetItemCustomDomain_size billingv1_MsgSetItemCustomDomain_write.

Definition billingv1_MsgSetItemCustomDomain_case_1 (discard : bool) (wireType : Z) (dAtA : bytes) (iNdEx : Z) (x :
    billingv1_MsgSetItemCustomDomain) : res (billingv1_MsgSetItemCustomDomain * Z) :=
  let 'mk_billingv1_MsgSetItemCustomDomain sender leaseUuid serviceName customDomain u := x in
  '(v, iNdEx) ← get_string wireType dAtA iNdEx;
  Ok (mk_billingv1_MsgSetItemCustomDomain v leaseUuid serviceName customDomain u, iNdEx).

Definition billingv1_MsgSetItemCustomDomain_case_2 (discard : bool) (wireType : Z) (dAtA : bytes) (iNdEx : Z) (x :
    billingv1_MsgSetItemCustomDomain) : res (billingv1_MsgSetItemCustomDomain * Z) :=
  let 'mk_billingv1_MsgSetItemCustomDomain sender leaseUuid serviceName customDomain u := x in
  '(v, iNdEx) ← get_string wireType dAtA iNdEx;
  Ok (mk_billingv1_MsgSetItemCustomDomain sender v serviceName customDomain u, iNdEx).

Definition billingv1_MsgSetItemCustomDomain_case_3 (discard : bool) (wireType : Z) (dAtA : bytes) (iNdEx : Z) (x :
    billingv1_MsgSetItemCustomDomain) : res (billingv1_MsgSetItemCustomDomain * Z) :=
  let 'mk_billingv1_MsgSetItemCustomDomain sender leaseUuid serviceName customDomain u := x in
  '(v, iNdEx) ← get_string wireType dAtA iNdEx;
  Ok (mk_billingv1_MsgSetItemCustomDomain sender leaseUuid v customDomain u, iNdEx).

Definition billingv1_MsgSetItemCustomDomain_case_4 (discard : bool) (wireType : Z) (dAtA : bytes) (iNdEx : Z) (x :
    billingv1_MsgSetItemCustomDomain) : res (billingv1_MsgSetItemCustomDomain * Z) :=
  let 'mk_billingv1_MsgSetItemCustomDomain sender leaseUuid serviceName customDomain u := x in
  '(v, iNdEx) ← get_string wireType dAtA iNdEx;
  Ok (mk_billingv1_MsgSetItemCustomDomain sender leaseUuid serviceName v u, iNdEx).

Definition billingv1_MsgSetItemCustomDomain_switch (discard : bool) (fieldNum wireType : Z) (dAtA : bytes) (iNdEx : Z)
    (x : billingv1_MsgSetItemCustomDomain) : option (res (billingv1_MsgSetItemCustomDomain * Z)) :=
  match fieldNum with
  | 1 => Some (billingv1_MsgSetItemCustomDomain_case_1 discard wireType dAtA iNdEx x)
  | 2 => Some (billingv1_MsgSetItemCustomDomain_case_2 discard wireType dAtA iNdEx x)
  | 3 => Some (billingv1_MsgSetItemCustomDomain_case_3 discard wireType dAtA iNdEx x)
  | 4 => Some (billingv1_MsgSetItemCustomDomain_case_4 discard wireType dAtA iNdEx x)
  | _ => None
  end.

Definition billingv1_MsgSetItemCustomDomain_keep (f : bytes) (x : billingv1_MsgSetItemCustomDomain) :
    billingv1_MsgSetItemCustomDomain :=
  let 'mk_billingv1_MsgSetItemCustomDomain sender leaseUuid serviceName customDomain u := x in
    mk_billingv1_MsgSetItemCustomDomain sender leaseUuid serviceName customDomain (u ++ f).

Definition billingv1_MsgSetItemCustomDomain_unmarshal : bool → bytes → option billingv1_MsgSetItemCustomDomain → res
  (option billingv1_MsgSetItemCustomDomain) := rt_unmarshal billingv1_MsgSetItemCustomDomain_switch
  billingv1_MsgSetItemCustomDomain_keep.

Definition billingv1_MsgSetItemCustomDomain_wire (x : billingv1_MsgSetItemCustomDomain) : bytes :=
  enc_str 0xa (billingv1_MsgSetItemCustomDomain_Sender x) ++
  enc_str 0x12 (billingv1_MsgSetItemCustomDomain_LeaseUuid x) ++
  enc_str 0x1a (billingv1_MsgSetItemCustomDomain_ServiceName x) ++
  enc_str 0x22 (billingv1_MsgSetItemCustomDomain_CustomDomain x) ++
  billingv1_MsgSetItemCustomDomain_unknownFields x.

(** ** MsgSetItemCustomDomainResponse *)

Definition billingv1_MsgSetItemCustomDomainResponse_size (x : option billingv1_MsgSetItemCustomDomainResponse) : Z :=
  match x with
  | None => 0
  | Some x =>
      llen (billingv1_MsgSetItemCustomDomainResponse_unknownFields x)
  end.

Definition billingv1_MsgSetItemCustomDomainResponse_write (x : billingv1_MsgSetItemCustomDomainResponse) : writer :=
  rt_put_unknown (billingv1_MsgSetItemCustomDomainResponse_unknownFields x).

Definition billingv1_MsgSetItemCustomDomainResponse_marshal : bytes → option billingv1_MsgSetItemCustomDomainResponse
  → res bytes := rt_marshal billingv1_MsgSetItemCustomDomainResponse_size
  billingv1_MsgSetItemCustomDomainResponse_write.

Definition billingv1_MsgSetItemCustomDomainResponse_switch (discard : bool) (fieldNum wireType : Z) (dAtA : bytes)
    (iNdEx : Z) (x : billingv1_MsgSetItemCustomDomainResponse) : option (res (billingv1_MsgSetItemCustomDomainResponse
    * Z)) :=
  None.

Definition billingv1_MsgSetItemCustomDomainResponse_keep (f : bytes) (x : billingv1_MsgSetItemCustomDomainResponse) :
    billingv1_MsgSetItemCustomDomainResponse :=
  let 'mk_billingv1_MsgSetItemCustomDomainResponse u := x in mk_billingv1_MsgSetItemCustomDomainResponse (u ++ f).

Definition billingv1_MsgSetItemCustomDomainResponse_unmarshal : bool → bytes → option
  billingv1_MsgSetItemCustomDomainResponse → res (option billingv1_MsgSetItemCustomDomainResponse) := rt_unmarshal
  billingv1_MsgSetItemCustomDomainResponse_switch billingv1_MsgSetItemCustomDomainResponse_keep.

Definition billingv1_MsgSetItemCustomDomainResponse_wire (x : billingv1_MsgSetItemCustomDomainResponse) : bytes :=
  billingv1_MsgSetItemCustomDomainResponse_unknownFields x.

End codec.

(** ** Lawful messages *)

Section laws.
Context `{RL : RuntimeLaws} `{EL : ExternalLaws}.

Definition billingv1_LeaseItemInput_fits (x : billingv1_LeaseItemInput) : Prop := is_u64
  (billingv1_LeaseItemInput_Quantity x) ∧ unknown_fits 3 (billingv1_LeaseItemInput_unknownFields x).

#[global] Instance billingv1_LeaseItemInput_lawful :
  api_lawful billingv1_LeaseItemInput_fits billingv1_LeaseItemInput_size billingv1_LeaseItemInput_marshal
    billingv1_LeaseItemInput_unmarshal billingv1_LeaseItemInput_wire billingv1_LeaseItemInput_new.
Proof.
  solve_api. intros [skuUuid quantity serviceName u]; open_api Hl.
  api_string 1. api_uint 2. api_string 3. api_unknown 3 (λ u, mk_billingv1_LeaseItemInput skuUuid quantity serviceName
  u).
Qed.

Definition billingv1_MsgFundCredit_fits (x : billingv1_MsgFundCredit) : Prop := fits_opt api_Coin_fits
  (billingv1_MsgFundCredit_Amount x) ∧ unknown_fits 3 (billingv1_MsgFundCredit_unknownFields x).

#[global] Instance billingv1_MsgFundCredit_lawful :
  api_lawful billingv1_MsgFundCredit_fits billingv1_MsgFundCredit_size billingv1_MsgFundCredit_marshal
    billingv1_MsgFundCredit_unmarshal billingv1_MsgFundCredit_wire billingv1_MsgFundCredit_new.
Proof.
  solve_api. intros [sender tenant amount u]; open_api Hl.
  api_string 1. api_string 2. api_msg 3 api_Coin_unmarshal api_Coin_new (λ l, mk_billingv1_MsgFundCredit sender tenant
  l []) Hl. api_unknown 3 (λ u, mk_billingv1_MsgFundCredit sender tenant amount u).
Qed.

Definition billingv1_MsgFundCreditResponse_fits (x : billingv1_MsgFundCreditResponse) : Prop := fits_opt api_Coin_fits
  (billingv1_MsgFundCreditResponse_NewBalance x) ∧ unknown_fits 2 (billingv1_MsgFundCreditResponse_unknownFields x).

#[global] Instance billingv1_MsgFundCreditResponse_lawful :
  api_lawful billingv1_MsgFundCreditResponse_fits billingv1_MsgFundCreditResponse_size
    billingv1_MsgFundCreditResponse_marshal billingv1_MsgFundCreditResponse_unmarshal
    billingv1_MsgFundCreditResponse_wire billingv1_MsgFundCreditResponse_new.
Proof.
  solve_api. intros [creditAddress newBalance u]; open_api Hl.
  api_string 1. api_msg 2 api_Coin_unmarshal api_Coin_new (λ l, mk_billingv1_MsgFundCreditResponse creditAddress l [])
  Hl. api_unknown 2 (λ u, mk_billingv1_MsgFundCreditResponse creditAddress newBalance u).
Qed.

Definition billingv1_MsgCreateLease_fits (x : billingv1_MsgCreateLease) : Prop := fits_each
  billingv1_LeaseItemInput_fits (billingv1_MsgCreateLease_Items x) ∧ unknown_fits 3
  (billingv1_MsgCreateLease_unknownFields x).

#[global] Instance billingv1_MsgCreateLease_lawful :
  api_lawful billingv1_MsgCreateLease_fits billingv1_MsgCreateLease_size billingv1_MsgCreateLease_marshal
    billingv1_MsgCreateLease_unmarshal billingv1_MsgCreateLease_wire billingv1_MsgCreateLease_new.
Proof.
  solve_api. intros [tenant items metaHash u]; open_api Hl.
  api_string 1. api_msgs 2 billingv1_LeaseItemInput_unmarshal billingv1_LeaseItemInput_new (λ l,
  mk_billingv1_MsgCreateLease tenant l "" []) Hl. api_bytes 3. api_unknown 3 (λ u, mk_billingv1_MsgCreateLease tenant
  items metaHash u).
Qed.

Definition billingv1_MsgCreateLeaseResponse_fits (x : billingv1_MsgCreateLeaseResponse) : Prop := unknown_fits 1
  (billingv1_MsgCreateLeaseResponse_unknownFields x).

#[global] Instance billingv1_MsgCreateLeaseResponse_lawful :
  api_lawful billingv1_MsgCreateLeaseResponse_fits billingv1_MsgCreateLeaseResponse_size
    billingv1_MsgCreateLeaseResponse_marshal billingv1_MsgCreateLeaseResponse_unmarshal
    billingv1_MsgCreateLeaseResponse_wire billingv1_MsgCreateLeaseResponse_new.
Proof.
  solve_api. intros [leaseUuid u]; open_api Hl.
  api_string 1. api_unknown 1 (λ u, mk_billingv1_MsgCreateLeaseResponse leaseUuid u).
Qed.

Definition billingv1_MsgCreateLeaseForTenant_fits (x : billingv1_MsgCreateLeaseForTenant) : Prop := fits_each
  billingv1_LeaseItemInput_fits (billingv1_MsgCreateLeaseForTenant_Items x) ∧ unknown_fits 4
  (billingv1_MsgCreateLeaseForTenant_unknownFields x).

#[global] Instance billingv1_MsgCreateLeaseForTenant_lawful :
  api_lawful billingv1_MsgCreateLeaseForTenant_fits billingv1_MsgCreateLeaseForTenant_size
    billingv1_MsgCreateLeaseForTenant_marshal billingv1_MsgCreateLeaseForTenant_unmarshal
    billingv1_MsgCreateLeaseForTenant_wire billingv1_MsgCreateLeaseForTenant_new.
Proof.
  solve_api. intros [authority tenant items metaHash u]; open_api Hl.
  api_string 1. api_string 2. api_msgs 3 billingv1_LeaseItemInput_unmarshal billingv1_LeaseItemInput_new (λ l,
  mk_billingv1_MsgCreateLeaseForTenant authority tenant l "" []) Hl. api_bytes 4. api_unknown 4 (λ u,
  mk_billingv1_MsgCreateLeaseForTenant authority tenant items metaHash u).
Qed.

Definition billingv1_MsgCreateLeaseForTenantResponse_fits (x : billingv1_MsgCreateLeaseForTenantResponse) : Prop :=
  unknown_fits 1 (billingv1_MsgCreateLeaseForTenantResponse_unknownFields x).

#[global] Instance billingv1_MsgCreateLeaseForTenantResponse_lawful :
  api_lawful billingv1_MsgCreateLeaseForTenantResponse_fits billingv1_MsgCreateLeaseForTenantResponse_size
    billingv1_MsgCreateLeaseForTenantResponse_marshal billingv1_MsgCreateLeaseForTenantResponse_unmarshal
    billingv1_MsgCreateLeaseForTenantResponse_wire billingv1_MsgCreateLeaseForTenantResponse_new.
Proof.
  solve_api. intros [leaseUuid u]; open_api Hl.
  api_string 1. api_unknown 1 (λ u, mk_billingv1_MsgCreateLeaseForTenantResponse leaseUuid u).
Qed.

Definition billingv1_MsgCloseLease_fits (x : billingv1_MsgCloseLease) : Prop := unknown_fits 3
  (billingv1_MsgCloseLease_unknownFields x).

#[global] Instance billingv1_MsgCloseLease_lawful :
  api_lawful billingv1_MsgCloseLease_fits billingv1_MsgCloseLease_size billingv1_MsgCloseLease_marshal
    billingv1_MsgCloseLease_unmarshal billingv1_MsgCloseLease_wire billingv1_MsgCloseLease_new.
Proof.
  solve_api. intros [sender leaseUuids reason u]; open_api Hl.
  api_string 1. api_strings 2 (λ l, mk_billingv1_MsgCloseLease sender l "" []). api_string 3. api_unknown 3 (λ u,
  mk_billingv1_MsgCloseLease sender leaseUuids reason u).
Qed.

Definition billingv1_MsgCloseLeaseResponse_fits (x : billingv1_MsgCloseLeaseResponse) : Prop := fits_opt
  api_Timestamp_fits (billingv1_MsgCloseLeaseResponse_ClosedAt x) ∧ is_u64
  (billingv1_MsgCloseLeaseResponse_ClosedCount x) ∧ fits_each api_Coin_fits
  (billingv1_MsgCloseLeaseResponse_TotalSettledAmounts x) ∧ unknown_fits 3
  (billingv1_MsgCloseLeaseResponse_unknownFields x).

#[global] Instance billingv1_MsgCloseLeaseResponse_lawful :
  api_lawful billingv1_MsgCloseLeaseResponse_fits billingv1_MsgCloseLeaseResponse_size
    billingv1_MsgCloseLeaseResponse_marshal billingv1_MsgCloseLeaseResponse_unmarshal
    billingv1_MsgCloseLeaseResponse_wire billingv1_MsgCloseLeaseResponse_new.
Proof.
  solve_api. intros [closedAt closedCount totalSettledAmounts u]; open_api Hl.
  api_msg 1 api_Timestamp_unmarshal api_Timestamp_new (λ l, mk_billingv1_MsgCloseLeaseResponse l 0 [] []) Hl. api_uint
  2. api_msgs 3 api_Coin_unmarshal api_Coin_new (λ l, mk_billingv1_MsgCloseLeaseResponse closedAt closedCount l [])
  Hl. api_unknown 3 (λ u, mk_billingv1_MsgCloseLeaseResponse closedAt closedCount totalSettledAmounts u).
Qed.

Definition billingv1_MsgWithdraw_fits (x : billingv1_MsgWithdraw) : Prop := is_u64 (billingv1_MsgWithdraw_Limit x) ∧
  unknown_fits 4 (billingv1_MsgWithdraw_unknownFields x).

#[global] Instance billingv1_MsgWithdraw_lawful :
  api_lawful billingv1_MsgWithdraw_fits billingv1_MsgWithdraw_size billingv1_MsgWithdraw_marshal
    billingv1_MsgWithdraw_unmarshal billingv1_MsgWithdraw_wire billingv1_MsgWithdraw_new.
Proof.
  solve_api. intros [sender leaseUuids providerUuid limit u]; open_api Hl.
  api_string 1. api_strings 2 (λ l, mk_billingv1_MsgWithdraw sender l "" 0 []). api_string 3. api_uint 4. api_unknown
  4 (λ u, mk_billingv1_MsgWithdraw sender leaseUuids providerUuid limit u).
Qed.

Definition billingv1_MsgWithdrawResponse_fits (x : billingv1_MsgWithdrawResponse) : Prop := fits_each api_Coin_fits
  (billingv1_MsgWithdrawResponse_TotalAmounts x) ∧ is_u64 (billingv1_MsgWithdrawResponse_WithdrawalCount x) ∧
  unknown_fits 4 (billingv1_MsgWithdrawResponse_unknownFields x).

#[global] Instance billingv1_MsgWithdrawResponse_lawful :
  api_lawful billingv1_MsgWithdrawResponse_fits billingv1_MsgWithdrawResponse_size
    billingv1_MsgWithdrawResponse_marshal billingv1_MsgWithdrawResponse_unmarshal billingv1_MsgWithdrawResponse_wire
    billingv1_MsgWithdrawResponse_new.
Proof.
  solve_api. intros [totalAmounts payoutAddress withdrawalCount hasMore u]; open_api Hl.
  api_msgs 1 api_Coin_unmarshal api_Coin_new (λ l, mk_billingv1_MsgWithdrawResponse l "" 0 false []) Hl. api_string 2.
  api_uint 3. api_bool 4. api_unknown 4 (λ u, mk_billingv1_MsgWithdrawResponse totalAmounts payoutAddress
  withdrawalCount hasMore u).
Qed.

Definition billingv1_MsgUpdateParams_fits (x : billingv1_MsgUpdateParams) : Prop := fits_opt billingv1_Params_fits
  (billingv1_MsgUpdateParams_Params x) ∧ unknown_fits 2 (billingv1_MsgUpdateParams_unknownFields x).

#[global] Instance billingv1_MsgUpdateParams_lawful :
  api_lawful billingv1_MsgUpdateParams_fits billingv1_MsgUpdateParams_size billingv1_MsgUpdateParams_marshal
    billingv1_MsgUpdateParams_unmarshal billingv1_MsgUpdateParams_wire billingv1_MsgUpdateParams_new.
Proof.
  solve_api. intros [authority params u]; open_api Hl.
  api_string 1. api_msg 2 billingv1_Params_unmarshal billingv1_Params_new (λ l, mk_billingv1_MsgUpdateParams authority
  l []) Hl. api_unknown 2 (λ u, mk_billingv1_MsgUpdateParams authority params u).
Qed.

Definition billingv1_MsgUpdateParamsResponse_fits (x : billingv1_MsgUpdateParamsResponse) : Prop := unknown_fits 0
  (billingv1_MsgUpdateParamsResponse_unknownFields x).

#[global] Instance billingv1_MsgUpdateParamsResponse_lawful :
  api_lawful billingv1_MsgUpdateParamsResponse_fits billingv1_MsgUpdateParamsResponse_size
    billingv1_MsgUpdateParamsResponse_marshal billingv1_MsgUpdateParamsResponse_unmarshal
    billingv1_MsgUpdateParamsResponse_wire billingv1_MsgUpdateParamsResponse_new.
Proof. solve_api. intros [u] Hu _. change (unknown_fits 0 u) in Hu. api_unknown 0 mk_billingv1_MsgUpdateParamsResponse. Qed.

Definition billingv1_MsgAcknowledgeLease_fits (x : billingv1_MsgAcknowledgeLease) : Prop := unknown_fits 2
  (billingv1_MsgAcknowledgeLease_unknownFields x).

#[global] Instance billingv1_MsgAcknowledgeLease_lawful :
  api_lawful billingv1_MsgAcknowledgeLease_fits billingv1_MsgAcknowledgeLease_size
    billingv1_MsgAcknowledgeLease_marshal billingv1_MsgAcknowledgeLease_unmarshal billingv1_MsgAcknowledgeLease_wire
    billingv1_MsgAcknowledgeLease_new.
Proof.
  solve_api. intros [sender leaseUuids u]; open_api Hl.
  api_string 1. api_strings 2 (λ l, mk_billingv1_MsgAcknowledgeLease sender l []). api_unknown 2 (λ u,
  mk_billingv1_MsgAcknowledgeLease sender leaseUuids u).
Qed.

Definition billingv1_MsgAcknowledgeLeaseResponse_fits (x : billingv1_MsgAcknowledgeLeaseResponse) : Prop := fits_opt
  api_Timestamp_fits (billingv1_MsgAcknowledgeLeaseResponse_AcknowledgedAt x) ∧ is_u64
  (billingv1_MsgAcknowledgeLeaseResponse_AcknowledgedCount x) ∧ unknown_fits 2
  (billingv1_MsgAcknowledgeLeaseResponse_unknownFields x).

#[global] Instance billingv1_MsgAcknowledgeLeaseResponse_lawful :
  api_lawful billingv1_MsgAcknowledgeLeaseResponse_fits billingv1_MsgAcknowledgeLeaseResponse_size
    billingv1_MsgAcknowledgeLeaseResponse_marshal billingv1_MsgAcknowledgeLeaseResponse_unmarshal
    billingv1_MsgAcknowledgeLeaseResponse_wire billingv1_MsgAcknowledgeLeaseResponse_new.
Proof.
  solve_api. intros [acknowledgedAt acknowledgedCount u]; open_api Hl.
  api_msg 1 api_Timestamp_unmarshal api_Timestamp_new (λ l, mk_billingv1_MsgAcknowledgeLeaseResponse l 0 []) Hl.
  api_uint 2. api_unknown 2 (λ u, mk_billingv1_MsgAcknowledgeLeaseResponse acknowledgedAt acknowledgedCount u).
Qed.

Definition billingv1_MsgRejectLease_fits (x : billingv1_MsgRejectLease) : Prop := unknown_fits 3
  (billingv1_MsgRejectLease_unknownFields x).

#[global] Instance billingv1_MsgRejectLease_lawful :
  api_lawful billingv1_MsgRejectLease_fits billingv1_MsgRejectLease_size billingv1_MsgRejectLease_marshal
    billingv1_MsgRejectLease_unmarshal billingv1_MsgRejectLease_wire billingv1_MsgRejectLease_new.
Proof.
  solve_api. intros [sender leaseUuids reason u]; open_api Hl.
  api_string 1. api_strings 2 (λ l, mk_billingv1_MsgRejectLease sender l "" []). api_string 3. api_unknown 3 (λ u,
  mk_billingv1_MsgRejectLease sender leaseUuids reason u).
Qed.

Definition billingv1_MsgRejectLeaseResponse_fits (x : billingv1_MsgRejectLeaseResponse) : Prop := fits_opt
  api_Timestamp_fits (billingv1_MsgRejectLeaseResponse_RejectedAt x) ∧ is_u64
  (billingv1_MsgRejectLeaseResponse_RejectedCount x) ∧ unknown_fits 2 (billingv1_MsgRejectLeaseResponse_unknownFields
  x).

#[global] Instance billingv1_MsgRejectLeaseResponse_lawful :
  api_lawful billingv1_MsgRejectLeaseResponse_fits billingv1_MsgRejectLeaseResponse_size
    billingv1_MsgRejectLeaseResponse_marshal billingv1_MsgRejectLeaseResponse_unmarshal
    billingv1_MsgRejectLeaseResponse_wire billingv1_MsgRejectLeaseResponse_new.
Proof.
  solve_api. intros [rejectedAt rejectedCount u]; open_api Hl.
  api_msg 1 api_Timestamp_unmarshal api_Timestamp_new (λ l, mk_billingv1_MsgRejectLeaseResponse l 0 []) Hl. api_uint
  2. api_unknown 2 (λ u, mk_billingv1_MsgRejectLeaseResponse rejectedAt rejectedCount u).
Qed.

Definition billingv1_MsgCancelLease_fits (x : billingv1_MsgCancelLease) : Prop := unknown_fits 2
  (billingv1_MsgCancelLease_unknownFields x).

#[global] Instance billingv1_MsgCancelLease_lawful :
  api_lawful billingv1_MsgCancelLease_fits billingv1_MsgCancelLease_size billingv1_MsgCancelLease_marshal
    billingv1_MsgCancelLease_unmarshal billingv1_MsgCancelLease_wire billingv1_MsgCancelLease_new.
Proof.
  solve_api. intros [tenant leaseUuids u]; open_api Hl.
  api_string 1. api_strings 2 (λ l, mk_billingv1_MsgCancelLease tenant l []). api_unknown 2 (λ u,
  mk_billingv1_MsgCancelLease tenant leaseUuids u).
Qed.

Definition billingv1_MsgCancelLeaseResponse_fits (x : billingv1_MsgCancelLeaseResponse) : Prop := fits_opt
  api_Timestamp_fits (billingv1_MsgCancelLeaseResponse_CancelledAt x) ∧ is_u64
  (billingv1_MsgCancelLeaseResponse_CancelledCount x) ∧ unknown_fits 2 (billingv1_MsgCancelLeaseResponse_unknownFields
  x).

#[global] Instance billingv1_MsgCancelLeaseResponse_lawful :
  api_lawful billingv1_MsgCancelLeaseResponse_fits billingv1_MsgCancelLeaseResponse_size
    billingv1_MsgCancelLeaseResponse_marshal billingv1_MsgCancelLeaseResponse_unmarshal
    billingv1_MsgCancelLeaseResponse_wire billingv1_MsgCancelLeaseResponse_new.
Proof.
  solve_api. intros [cancelledAt cancelledCount u]; open_api Hl.
  api_msg 1 api_Timestamp_unmarshal api_Timestamp_new (λ l, mk_billingv1_MsgCancelLeaseResponse l 0 []) Hl. api_uint
  2. api_unknown 2 (λ u, mk_billingv1_MsgCancelLeaseResponse cancelledAt cancelledCount u).
Qed.

Definition billingv1_MsgSetItemCustomDomain_fits (x : billingv1_MsgSetItemCustomDomain) : Prop := unknown_fits 4
  (billingv1_MsgSetItemCustomDomain_unknownFields x).

#[global] Instance billingv1_MsgSetItemCustomDomain_lawful :
  api_lawful billingv1_MsgSetItemCustomDomain_fits billingv1_MsgSetItemCustomDomain_size
    billingv1_MsgSetItemCustomDomain_marshal billingv1_MsgSetItemCustomDomain_unmarshal
    billingv1_MsgSetItemCustomDomain_wire billingv1_MsgSetItemCustomDomain_new.
Proof.
  solve_api. intros [sender leaseUuid serviceName customDomain u]; open_api Hl.
  api_string 1. api_string 2. api_string 3. api_string 4. api_unknown 4 (λ u, mk_billingv1_MsgSetItemCustomDomain
  sender leaseUuid serviceName customDomain u).
Qed.

Definition billingv1_MsgSetItemCustomDomainResponse_fits (x : billingv1_MsgSetItemCustomDomainResponse) : Prop :=
  unknown_fits 0 (billingv1_MsgSetItemCustomDomainResponse_unknownFields x).

#[global] Instance billingv1_MsgSetItemCustomDomainResponse_lawful :
  api_lawful billingv1_MsgSetItemCustomDomainResponse_fits billingv1_MsgSetItemCustomDomainResponse_size
    billingv1_MsgSetItemCustomDomainResponse_marshal billingv1_MsgSetItemCustomDomainResponse_unmarshal
    billingv1_MsgSetItemCustomDomainResponse_wire billingv1_MsgSetItemCustomDomainResponse_new.
Proof. solve_api. intros [u] Hu _. change (unknown_fits 0 u) in Hu. api_unknown 0 mk_billingv1_MsgSetItemCustomDomainResponse. Qed.

End laws.
