(* ===== verification/ApiBillingQuery.v ===== *)
(** * API bindings of the billing module: queries (src/api/liftedinit/billing/v1/query.pulsar.go)

    For every message its fields and the closures size, marshal and unmarshal of ProtoMethods; a case
    of the switch of unmarshal is a definition of its own. At the end the proofs that each is lawful. *)

From stdpp Require Import base tactics option list strings.
From Stdlib Require Import ZArith Lia Ascii.
From S2P Require Import Prelude Wire WireProps Codec Unknown Pulsar ApiExternal ApiBilling.
Open Scope Z_scope.

(** ** Fields *)

Record billingv1_QueryParamsRequest : Type := mk_billingv1_QueryParamsRequest {
  billingv1_QueryParamsRequest_unknownFields : bytes }.

Definition billingv1_QueryParamsRequest_new : billingv1_QueryParamsRequest := mk_billingv1_QueryParamsRequest [].

Record billingv1_QueryParamsResponse : Type := mk_billingv1_QueryParamsResponse {
  billingv1_QueryParamsResponse_Params : option billingv1_Params; billingv1_QueryParamsResponse_unknownFields : bytes
  }.

Definition billingv1_QueryParamsResponse_new : billingv1_QueryParamsResponse := mk_billingv1_QueryParamsResponse None
  [].

Record billingv1_QueryLeaseRequest : Type := mk_billingv1_QueryLeaseRequest {
  billingv1_QueryLeaseRequest_LeaseUuid : string; billingv1_QueryLeaseRequest_unknownFields : bytes }.

Definition billingv1_QueryLeaseRequest_new : billingv1_QueryLeaseRequest := mk_billingv1_QueryLeaseRequest "" [].

Record billingv1_QueryLeaseResponse : Type := mk_billingv1_QueryLeaseResponse {
  billingv1_QueryLeaseResponse_Lease : option billingv1_Lease; billingv1_QueryLeaseResponse_unknownFields : bytes }.

Definition billingv1_QueryLeaseResponse_new : billingv1_QueryLeaseResponse := mk_billingv1_QueryLeaseResponse None [].

Record billingv1_QueryLeasesRequest : Type := mk_billingv1_QueryLeasesRequest {
  billingv1_QueryLeasesRequest_Pagination : option api_PageRequest; billingv1_QueryLeasesRequest_StateFilter : Z;
  billingv1_QueryLeasesRequest_unknownFields : bytes }.

Definition billingv1_QueryLeasesRequest_new : billingv1_QueryLeasesRequest := mk_billingv1_QueryLeasesRequest None 0
  [].

Record billingv1_QueryLeasesResponse : Type := mk_billingv1_QueryLeasesResponse {
  billingv1_QueryLeasesResponse_Leases : list (option billingv1_Lease); billingv1_QueryLeasesResponse_Pagination :
  option api_PageResponse; billingv1_QueryLeasesResponse_unknownFields : bytes }.

Definition billingv1_QueryLeasesResponse_new : billingv1_QueryLeasesResponse := mk_billingv1_QueryLeasesResponse []
  None [].

Record billingv1_QueryLeasesByTenantRequest : Type := mk_billingv1_QueryLeasesByTenantRequest {
  billingv1_QueryLeasesByTenantRequest_Tenant : string; billingv1_QueryLeasesByTenantRequest_Pagination : option
  api_PageRequest; billingv1_QueryLeasesByTenantRequest_StateFilter : Z;
  billingv1_QueryLeasesByTenantRequest_unknownFields : bytes }.

Definition billingv1_QueryLeasesByTenantRequest_new : billingv1_QueryLeasesByTenantRequest :=
  mk_billingv1_QueryLeasesByTenantRequest "" None 0 [].

Record billingv1_QueryLeasesByTenantResponse : Type := mk_billingv1_QueryLeasesByTenantResponse {
  billingv1_QueryLeasesByTenantResponse_Leases : list (option billingv1_Lease);
  billingv1_QueryLeasesByTenantResponse_Pagination : option api_PageResponse;
  billingv1_QueryLeasesByTenantResponse_unknownFields : bytes }.

Definition billingv1_QueryLeasesByTenantResponse_new : billingv1_QueryLeasesByTenantResponse :=
  mk_billingv1_QueryLeasesByTenantResponse [] None [].

Record billingv1_QueryLeasesByProviderRequest : Type := mk_billingv1_QueryLeasesByProviderRequest {
  billingv1_QueryLeasesByProviderRequest_ProviderUuid : string; billingv1_QueryLeasesByProviderRequest_Pagination :
  option api_PageRequest; billingv1_QueryLeasesByProviderRequest_StateFilter : Z;
  billingv1_QueryLeasesByProviderRequest_unknownFields : bytes }.

Definition billingv1_QueryLeasesByProviderRequest_new : billingv1_QueryLeasesByProviderRequest :=
  mk_billingv1_QueryLeasesByProviderRequest "" None 0 [].

Record billingv1_QueryLeasesByProviderResponse : Type := mk_billingv1_QueryLeasesByProviderResponse {
  billingv1_QueryLeasesByProviderResponse_Leases : list (option billingv1_Lease);
  billingv1_QueryLeasesByProviderResponse_Pagination : option api_PageResponse;
  billingv1_QueryLeasesByProviderResponse_unknownFields : bytes }.

Definition billingv1_QueryLeasesByProviderResponse_new : billingv1_QueryLeasesByProviderResponse :=
  mk_billingv1_QueryLeasesByProviderResponse [] None [].

Record billingv1_QueryCreditAccountRequest : Type := mk_billingv1_QueryCreditAccountRequest {
  billingv1_QueryCreditAccountRequest_Tenant : string; billingv1_QueryCreditAccountRequest_unknownFields : bytes }.

Definition billingv1_QueryCreditAccountRequest_new : billingv1_QueryCreditAccountRequest :=
  mk_billingv1_QueryCreditAccountRequest "" [].

Record billingv1_QueryCreditAccountResponse : Type := mk_billingv1_QueryCreditAccountResponse {
  billingv1_QueryCreditAccountResponse_CreditAccount : option billingv1_CreditAccount;
  billingv1_QueryCreditAccountResponse_Balances : list (option api_Coin);
  billingv1_QueryCreditAccountResponse_AvailableBalances : list (option api_Coin);
  billingv1_QueryCreditAccountResponse_unknownFields : bytes }.

Definition billingv1_QueryCreditAccountResponse_new : billingv1_QueryCreditAccountResponse :=
  mk_billingv1_QueryCreditAccountResponse None [] [] [].

Record billingv1_QueryCreditAddressRequest : Type := mk_billingv1_QueryCreditAddressRequest {
  billingv1_QueryCreditAddressRequest_Tenant : string; billingv1_QueryCreditAddressRequest_unknownFields : bytes }.

Definition billingv1_QueryCreditAddressRequest_new : billingv1_QueryCreditAddressRequest :=
  mk_billingv1_QueryCreditAddressRequest "" [].

Record billingv1_QueryCreditAddressResponse : Type := mk_billingv1_QueryCreditAddressResponse {
  billingv1_QueryCreditAddressResponse_CreditAddress : string; billingv1_QueryCreditAddressResponse_unknownFields :
  bytes }.

Definition billingv1_QueryCreditAddressResponse_new : billingv1_QueryCreditAddressResponse :=
  mk_billingv1_QueryCreditAddressResponse "" [].

Record billingv1_QueryWithdrawableAmountRequest : Type := mk_billingv1_QueryWithdrawableAmountRequest {
  billingv1_QueryWithdrawableAmountRequest_LeaseUuid : string; billingv1_QueryWithdrawableAmountRequest_unknownFields
  : bytes }.

Definition billingv1_QueryWithdrawableAmountRequest_new : billingv1_QueryWithdrawableAmountRequest :=
  mk_billingv1_QueryWithdrawableAmountRequest "" [].

Record billingv1_QueryWithdrawableAmountResponse : Type := mk_billingv1_QueryWithdrawableAmountResponse {
  billingv1_QueryWithdrawableAmountResponse_Amounts : list (option api_Coin);
  billingv1_QueryWithdrawableAmountResponse_unknownFields : bytes }.

Definition billingv1_QueryWithdrawableAmountResponse_new : billingv1_QueryWithdrawableAmountResponse :=
  mk_billingv1_QueryWithdrawableAmountResponse [] [].

Record billingv1_QueryProviderWithdrawableRequest : Type := mk_billingv1_QueryProviderWithdrawableRequest {
  billingv1_QueryProviderWithdrawableRequest_ProviderUuid : string; billingv1_QueryProviderWithdrawableRequest_Limit :
  Z; billingv1_QueryProviderWithdrawableRequest_unknownFields : bytes }.

Definition billingv1_QueryProviderWithdrawableRequest_new : billingv1_QueryProviderWithdrawableRequest :=
  mk_billingv1_QueryProviderWithdrawableRequest "" 0 [].

Record billingv1_QueryProviderWithdrawableResponse : Type := mk_billingv1_QueryProviderWithdrawableResponse {
  billingv1_QueryProviderWithdrawableResponse_Amounts : list (option api_Coin);
  billingv1_QueryProviderWithdrawableResponse_LeaseCount : Z; billingv1_QueryProviderWithdrawableResponse_HasMore :
  bool; billingv1_QueryProviderWithdrawableResponse_unknownFields : bytes }.

Definition billingv1_QueryProviderWithdrawableResponse_new : billingv1_QueryProviderWithdrawableResponse :=
  mk_billingv1_QueryProviderWithdrawableResponse [] 0 false [].

Record billingv1_QueryCreditAccountsRequest : Type := mk_billingv1_QueryCreditAccountsRequest {
  billingv1_QueryCreditAccountsRequest_Pagination : option api_PageRequest;
  billingv1_QueryCreditAccountsRequest_unknownFields : bytes }.

Definition billingv1_QueryCreditAccountsRequest_new : billingv1_QueryCreditAccountsRequest :=
  mk_billingv1_QueryCreditAccountsRequest None [].

Record billingv1_QueryCreditAccountsResponse : Type := mk_billingv1_QueryCreditAccountsResponse {
  billingv1_QueryCreditAccountsResponse_CreditAccounts : list (option billingv1_CreditAccount);
  billingv1_QueryCreditAccountsResponse_Pagination : option api_PageResponse;
  billingv1_QueryCreditAccountsResponse_unknownFields : bytes }.

Definition billingv1_QueryCreditAccountsResponse_new : billingv1_QueryCreditAccountsResponse :=
  mk_billingv1_QueryCreditAccountsResponse [] None [].

Record billingv1_QueryLeasesBySKURequest : Type := mk_billingv1_QueryLeasesBySKURequest {
  billingv1_QueryLeasesBySKURequest_SkuUuid : string; billingv1_QueryLeasesBySKURequest_Pagination : option
  api_PageRequest; billingv1_QueryLeasesBySKURequest_StateFilter : Z; billingv1_QueryLeasesBySKURequest_unknownFields
  : bytes }.

Definition billingv1_QueryLeasesBySKURequest_new : billingv1_QueryLeasesBySKURequest :=
  mk_billingv1_QueryLeasesBySKURequest "" None 0 [].

Record billingv1_QueryLeasesBySKUResponse : Type := mk_billingv1_QueryLeasesBySKUResponse {
  billingv1_QueryLeasesBySKUResponse_Leases : list (option billingv1_Lease);
  billingv1_QueryLeasesBySKUResponse_Pagination : option api_PageResponse;
  billingv1_QueryLeasesBySKUResponse_unknownFields : bytes }.

Definition billingv1_QueryLeasesBySKUResponse_new : billingv1_QueryLeasesBySKUResponse :=
  mk_billingv1_QueryLeasesBySKUResponse [] None [].

Record billingv1_QueryCreditEstimateRequest : Type := mk_billingv1_QueryCreditEstimateRequest {
  billingv1_QueryCreditEstimateRequest_Tenant : string; billingv1_QueryCreditEstimateRequest_unknownFields : bytes }.

Definition billingv1_QueryCreditEstimateRequest_new : billingv1_QueryCreditEstimateRequest :=
  mk_billingv1_QueryCreditEstimateRequest "" [].

Record billingv1_QueryCreditEstimateResponse : Type := mk_billingv1_QueryCreditEstimateResponse {
  billingv1_QueryCreditEstimateResponse_CurrentBalance : list (option api_Coin);
  billingv1_QueryCreditEstimateResponse_TotalRatePerSecond : list (option api_Coin);
  billingv1_QueryCreditEstimateResponse_EstimatedDurationSeconds : Z;
  billingv1_QueryCreditEstimateResponse_ActiveLeaseCount : Z; billingv1_QueryCreditEstimateResponse_unknownFields :
  bytes }.

Definition billingv1_QueryCreditEstimateResponse_new : billingv1_QueryCreditEstimateResponse :=
  mk_billingv1_QueryCreditEstimateResponse [] [] 0 0 [].

Record billingv1_QueryLeaseByCustomDomainRequest : Type := mk_billingv1_QueryLeaseByCustomDomainRequest {
  billingv1_QueryLeaseByCustomDomainRequest_CustomDomain : string;
  billingv1_QueryLeaseByCustomDomainRequest_unknownFields : bytes }.

Definition billingv1_QueryLeaseByCustomDomainRequest_new : billingv1_QueryLeaseByCustomDomainRequest :=
  mk_billingv1_QueryLeaseByCustomDomainRequest "" [].

Record billingv1_QueryLeaseByCustomDomainResponse : Type := mk_billingv1_QueryLeaseByCustomDomainResponse {
  billingv1_QueryLeaseByCustomDomainResponse_Lease : option billingv1_Lease;
  billingv1_QueryLeaseByCustomDomainResponse_ServiceName : string;
  billingv1_QueryLeaseByCustomDomainResponse_unknownFields : bytes }.

Definition billingv1_QueryLeaseByCustomDomainResponse_new : billingv1_QueryLeaseByCustomDomainResponse :=
  mk_billingv1_QueryLeaseByCustomDomainResponse None "" [].

Section codec.
Context `{Runtime} `{ApiExternal}.

(** ** QueryParamsRequest *)

Definition billingv1_QueryParamsRequest_size (x : option billingv1_QueryParamsRequest) : Z :=
  match x with
  | None => 0
  | Some x =>
      llen (billingv1_QueryParamsRequest_unknownFields x)
  end.

Definition billingv1_QueryParamsRequest_write (x : billingv1_QueryParamsRequest) : writer :=
  rt_put_unknown (billingv1_QueryParamsRequest_unknownFields x).

Definition billingv1_QueryParamsRequest_marshal : bytes → option billingv1_QueryParamsRequest → res bytes :=
  rt_marshal billingv1_QueryParamsRequest_size billingv1_QueryParamsRequest_write.

Definition billingv1_QueryParamsRequest_switch (discard : bool) (fieldNum wireType : Z) (dAtA : bytes) (iNdEx : Z) (x
    : billingv1_QueryParamsRequest) : option (res (billingv1_QueryParamsRequest * Z)) :=
  None.

Definition billingv1_QueryParamsRequest_keep (f : bytes) (x : billingv1_QueryParamsRequest) :
    billingv1_QueryParamsRequest :=
  let 'mk_billingv1_QueryParamsRequest u := x in mk_billingv1_QueryParamsRequest (u ++ f).

Definition billingv1_QueryParamsRequest_unmarshal : bool → bytes → option billingv1_QueryParamsRequest → res (option
  billingv1_QueryParamsRequest) := rt_unmarshal billingv1_QueryParamsRequest_switch billingv1_QueryParamsRequest_keep.

Definition billingv1_QueryParamsRequest_wire (x : billingv1_QueryParamsRequest) : bytes :=
  billingv1_QueryParamsRequest_unknownFields x.

(** ** QueryParamsResponse *)

Definition billingv1_QueryParamsResponse_size (x : option billingv1_QueryParamsResponse) : Z :=
  match x with
  | None => 0
  | Some x =>
      size_opt (billingv1_QueryParamsResponse_Params x) (λ e, rt_size_len (options_Size billingv1_Params_size (Some e))) +
      llen (billingv1_QueryParamsResponse_unknownFields x)
  end.

Definition billingv1_QueryParamsResponse_write (x : billingv1_QueryParamsResponse) : writer :=
  rt_put_unknown (billingv1_QueryParamsResponse_unknownFields x) ;;>
  if_some (billingv1_QueryParamsResponse_Params x) (λ e, rt_put_msg 0xa (options_Marshal billingv1_Params_marshal (Some e))).

Definition billingv1_QueryParamsResponse_marshal : bytes → option billingv1_QueryParamsResponse → res bytes :=
  rt_marshal billingv1_QueryParamsResponse_size billingv1_QueryParamsResponse_write.

Definition billingv1_QueryParamsResponse_case_1 (discard : bool) (wireType : Z) (dAtA : bytes) (iNdEx : Z) (x :
    billingv1_QueryParamsResponse) : res (billingv1_QueryParamsResponse * Z) :=
  let 'mk_billingv1_QueryParamsResponse params u := x in
  '(v, iNdEx) ← rt_get_msg billingv1_Params_unmarshal billingv1_Params_new params discard wireType dAtA iNdEx;
  Ok (mk_billingv1_QueryParamsResponse v u, iNdEx).

Definition billingv1_QueryParamsResponse_switch (discard : bool) (fieldNum wireType : Z) (dAtA : bytes) (iNdEx : Z) (x
    : billingv1_QueryParamsResponse) : option (res (billingv1_QueryParamsResponse * Z)) :=
  match fieldNum with
  | 1 => Some (billingv1_QueryParamsResponse_case_1 discard wireType dAtA iNdEx x)
  | _ => None
  end.

Definition billingv1_QueryParamsResponse_keep (f : bytes) (x : billingv1_QueryParamsResponse) :
    billingv1_QueryParamsResponse :=
  let 'mk_billingv1_QueryParamsResponse params u := x in mk_billingv1_QueryParamsResponse params (u ++ f).

Definition billingv1_QueryParamsResponse_unmarshal : bool → bytes → option billingv1_QueryParamsResponse → res (option
  billingv1_QueryParamsResponse) := rt_unmarshal billingv1_QueryParamsResponse_switch
  billingv1_QueryParamsResponse_keep.

Definition billingv1_QueryParamsResponse_wire (x : billingv1_QueryParamsResponse) : bytes :=
  enc_opt (λ e, len_field 0xa (billingv1_Params_wire e)) (billingv1_QueryParamsResponse_Params x) ++
  billingv1_QueryParamsResponse_unknownFields x.

(** ** QueryLeaseRequest *)

Definition billingv1_QueryLeaseRequest_size (x : option billingv1_QueryLeaseRequest) : Z :=
  match x with
  | None => 0
  | Some x =>
      rt_size_str (billingv1_QueryLeaseRequest_LeaseUuid x) +
      llen (billingv1_QueryLeaseRequest_unknownFields x)
  end.

Definition billingv1_QueryLeaseRequest_write (x : billingv1_QueryLeaseRequest) : writer :=
  rt_put_unknown (billingv1_QueryLeaseRequest_unknownFields x) ;;>
  if_nonempty (billingv1_QueryLeaseRequest_LeaseUuid x) (rt_put_bytes 0xa (billingv1_QueryLeaseRequest_LeaseUuid x)).

Definition billingv1_QueryLeaseRequest_marshal : bytes → option billingv1_QueryLeaseRequest → res bytes := rt_marshal
  billingv1_QueryLeaseRequest_size billingv1_QueryLeaseRequest_write.

Definition billingv1_QueryLeaseRequest_case_1 (discard : bool) (wireType : Z) (dAtA : bytes) (iNdEx : Z) (x :
    billingv1_QueryLeaseRequest) : res (billingv1_QueryLeaseRequest * Z) :=
  let 'mk_billingv1_QueryLeaseRequest leaseUuid u := x in
  '(v, iNdEx) ← get_string wireType dAtA iNdEx;
  Ok (mk_billingv1_QueryLeaseRequest v u, iNdEx).

Definition billingv1_QueryLeaseRequest_switch (discard : bool) (fieldNum wireType : Z) (dAtA : bytes) (iNdEx : Z) (x :
    billingv1_QueryLeaseRequest) : option (res (billingv1_QueryLeaseRequest * Z)) :=
  match fieldNum with
  | 1 => Some (billingv1_QueryLeaseRequest_case_1 discard wireType dAtA iNdEx x)
  | _ => None
  end.

Definition billingv1_QueryLeaseRequest_keep (f : bytes) (x : billingv1_QueryLeaseRequest) :
    billingv1_QueryLeaseRequest :=
  let 'mk_billingv1_QueryLeaseRequest leaseUuid u := x in mk_billingv1_QueryLeaseRequest leaseUuid (u ++ f).

Definition billingv1_QueryLeaseRequest_unmarshal : bool → bytes → option billingv1_QueryLeaseRequest → res (option
  billingv1_QueryLeaseRequest) := rt_unmarshal billingv1_QueryLeaseRequest_switch billingv1_QueryLeaseRequest_keep.

Definition billingv1_QueryLeaseRequest_wire (x : billingv1_QueryLeaseRequest) : bytes :=
  enc_str 0xa (billingv1_QueryLeaseRequest_LeaseUuid x) ++
  billingv1_QueryLeaseRequest_unknownFields x.

(** ** QueryLeaseResponse *)

Definition billingv1_QueryLeaseResponse_size (x : option billingv1_QueryLeaseResponse) : Z :=
  match x with
  | None => 0
  | Some x =>
      size_opt (billingv1_QueryLeaseResponse_Lease x) (λ e, rt_size_len (options_Size billingv1_Lease_size (Some e))) +
      llen (billingv1_QueryLeaseResponse_unknownFields x)
  end.

Definition billingv1_QueryLeaseResponse_write (x : billingv1_QueryLeaseResponse) : writer :=
  rt_put_unknown (billingv1_QueryLeaseResponse_unknownFields x) ;;>
  if_some (billingv1_QueryLeaseResponse_Lease x) (λ e, rt_put_msg 0xa (options_Marshal billingv1_Lease_marshal (Some e))).

Definition billingv1_QueryLeaseResponse_marshal : bytes → option billingv1_QueryLeaseResponse → res bytes :=
  rt_marshal billingv1_QueryLeaseResponse_size billingv1_QueryLeaseResponse_write.

Definition billingv1_QueryLeaseResponse_case_1 (discard : bool) (wireType : Z) (dAtA : bytes) (iNdEx : Z) (x :
    billingv1_QueryLeaseResponse) : res (billingv1_QueryLeaseResponse * Z) :=
  let 'mk_billingv1_QueryLeaseResponse lease u := x in
  '(v, iNdEx) ← rt_get_msg billingv1_Lease_unmarshal billingv1_Lease_new lease discard wireType dAtA iNdEx;
  Ok (mk_billingv1_QueryLeaseResponse v u, iNdEx).

Definition billingv1_QueryLeaseResponse_switch (discard : bool) (fieldNum wireType : Z) (dAtA : bytes) (iNdEx : Z) (x
    : billingv1_QueryLeaseResponse) : option (res (billingv1_QueryLeaseResponse * Z)) :=
  match fieldNum with
  | 1 => Some (billingv1_QueryLeaseResponse_case_1 discard wireType dAtA iNdEx x)
  | _ => None
  end.

Definition billingv1_QueryLeaseResponse_keep (f : bytes) (x : billingv1_QueryLeaseResponse) :
    billingv1_QueryLeaseResponse :=
  let 'mk_billingv1_QueryLeaseResponse lease u := x in mk_billingv1_QueryLeaseResponse lease (u ++ f).

Definition billingv1_QueryLeaseResponse_unmarshal : bool → bytes → option billingv1_QueryLeaseResponse → res (option
  billingv1_QueryLeaseResponse) := rt_unmarshal billingv1_QueryLeaseResponse_switch billingv1_QueryLeaseResponse_keep.

Definition billingv1_QueryLeaseResponse_wire (x : billingv1_QueryLeaseResponse) : bytes :=
  enc_opt (λ e, len_field 0xa (billingv1_Lease_wire e)) (billingv1_QueryLeaseResponse_Lease x) ++
  billingv1_QueryLeaseResponse_unknownFields x.

(** ** QueryLeasesRequest *)

Definition billingv1_QueryLeasesRequest_size (x : option billingv1_QueryLeasesRequest) : Z :=
  match x with
  | None => 0
  | Some x =>
      size_opt (billingv1_QueryLeasesRequest_Pagination x) (λ e, rt_size_len (options_Size api_PageRequest_size (Some e))) +
      rt_size_num (billingv1_QueryLeasesRequest_StateFilter x) +
      llen (billingv1_QueryLeasesRequest_unknownFields x)
  end.

Definition billingv1_QueryLeasesRequest_write (x : billingv1_QueryLeasesRequest) : writer :=
  rt_put_unknown (billingv1_QueryLeasesRequest_unknownFields x) ;;>
  if_nonzero (billingv1_QueryLeasesRequest_StateFilter x) (rt_put_uint 0x10 (billingv1_QueryLeasesRequest_StateFilter x)) ;;>
  if_some (billingv1_QueryLeasesRequest_Pagination x) (λ e, rt_put_msg 0xa (options_Marshal api_PageRequest_marshal (Some e))).

Definition billingv1_QueryLeasesRequest_marshal : bytes → option billingv1_QueryLeasesRequest → res bytes :=
  rt_marshal billingv1_QueryLeasesRequest_size billingv1_QueryLeasesRequest_write.

Definition billingv1_QueryLeasesRequest_case_1 (discard : bool) (wireType : Z) (dAtA : bytes) (iNdEx : Z) (x :
    billingv1_QueryLeasesRequest) : res (billingv1_QueryLeasesRequest * Z) :=
  let 'mk_billingv1_QueryLeasesRequest pagination stateFilter u := x in
  '(v, iNdEx) ← rt_get_msg api_PageRequest_unmarshal api_PageRequest_new pagination discard wireType dAtA iNdEx;
  Ok (mk_billingv1_QueryLeasesRequest v stateFilter u, iNdEx).

Definition billingv1_QueryLeasesRequest_case_2 (discard : bool) (wireType : Z) (dAtA : bytes) (iNdEx : Z) (x :
    billingv1_QueryLeasesRequest) : res (billingv1_QueryLeasesRequest * Z) :=
  let 'mk_billingv1_QueryLeasesRequest pagination stateFilter u := x in
  '(v, iNdEx) ← get_enum wireType dAtA iNdEx;
  Ok (mk_billingv1_QueryLeasesRequest pagination v u, iNdEx).

Definition billingv1_QueryLeasesRequest_switch (discard : bool) (fieldNum wireType : Z) (dAtA : bytes) (iNdEx : Z) (x
    : billingv1_QueryLeasesRequest) : option (res (billingv1_QueryLeasesRequest * Z)) :=
  match fieldNum with
  | 1 => Some (billingv1_QueryLeasesRequest_case_1 discard wireType dAtA iNdEx x)
  | 2 => Some (billingv1_QueryLeasesRequest_case_2 discard wireType dAtA iNdEx x)
  | _ => None
  end.

Definition billingv1_QueryLeasesRequest_keep (f : bytes) (x : billingv1_QueryLeasesRequest) :
    billingv1_QueryLeasesRequest :=
  let 'mk_billingv1_QueryLeasesRequest pagination stateFilter u := x in mk_billingv1_QueryLeasesRequest pagination
    stateFilter (u ++ f).

Definition billingv1_QueryLeasesRequest_unmarshal : bool → bytes → option billingv1_QueryLeasesRequest → res (option
  billingv1_QueryLeasesRequest) := rt_unmarshal billingv1_QueryLeasesRequest_switch billingv1_QueryLeasesRequest_keep.

Definition billingv1_QueryLeasesRequest_wire (x : billingv1_QueryLeasesRequest) : bytes :=
  enc_opt (λ e, len_field 0xa (api_PageRequest_wire e)) (billingv1_QueryLeasesRequest_Pagination x) ++
  enc_uint 0x10 (billingv1_QueryLeasesRequest_StateFilter x) ++
  billingv1_QueryLeasesRequest_unknownFields x.

(** ** QueryLeasesResponse *)

Definition billingv1_QueryLeasesResponse_size (x : option billingv1_QueryLeasesResponse) : Z :=
  match x with
  | None => 0
  | Some x =>
      size_each (λ e, rt_size_len (options_Size billingv1_Lease_size e)) (billingv1_QueryLeasesResponse_Leases x) +
      size_opt (billingv1_QueryLeasesResponse_Pagination x) (λ e, rt_size_len (options_Size api_PageResponse_size (Some e))) +
      llen (billingv1_QueryLeasesResponse_unknownFields x)
  end.

Definition billingv1_QueryLeasesResponse_write (x : billingv1_QueryLeasesResponse) : writer :=
  rt_put_unknown (billingv1_QueryLeasesResponse_unknownFields x) ;;>
  if_some (billingv1_QueryLeasesResponse_Pagination x) (λ e, rt_put_msg 0x12 (options_Marshal api_PageResponse_marshal (Some e))) ;;>
  put_each (λ e, rt_put_msg 0xa (options_Marshal billingv1_Lease_marshal e)) (billingv1_QueryLeasesResponse_Leases x).

Definition billingv1_QueryLeasesResponse_marshal : bytes → option billingv1_QueryLeasesResponse → res bytes :=
  rt_marshal billingv1_QueryLeasesResponse_size billingv1_QueryLeasesResponse_write.

Definition billingv1_QueryLeasesResponse_case_1 (discard : bool) (wireType : Z) (dAtA : bytes) (iNdEx : Z) (x :
    billingv1_QueryLeasesResponse) : res (billingv1_QueryLeasesResponse * Z) :=
  let 'mk_billingv1_QueryLeasesResponse leases pagination u := x in
  '(v, iNdEx) ← rt_get_msg billingv1_Lease_unmarshal billingv1_Lease_new None discard wireType dAtA iNdEx;
  Ok (mk_billingv1_QueryLeasesResponse (leases ++ [v]) pagination u, iNdEx).

Definition billingv1_QueryLeasesResponse_case_2 (discard : bool) (wireType : Z) (dAtA : bytes) (iNdEx : Z) (x :
    billingv1_QueryLeasesResponse) : res (billingv1_QueryLeasesResponse * Z) :=
  let 'mk_billingv1_QueryLeasesResponse leases pagination u := x in
  '(v, iNdEx) ← rt_get_msg api_PageResponse_unmarshal api_PageResponse_new pagination discard wireType dAtA iNdEx;
  Ok (mk_billingv1_QueryLeasesResponse leases v u, iNdEx).

Definition billingv1_QueryLeasesResponse_switch (discard : bool) (fieldNum wireType : Z) (dAtA : bytes) (iNdEx : Z) (x
    : billingv1_QueryLeasesResponse) : option (res (billingv1_QueryLeasesResponse * Z)) :=
  match fieldNum with
  | 1 => Some (billingv1_QueryLeasesResponse_case_1 discard wireType dAtA iNdEx x)
  | 2 => Some (billingv1_QueryLeasesResponse_case_2 discard wireType dAtA iNdEx x)
  | _ => None
  end.

Definition billingv1_QueryLeasesResponse_keep (f : bytes) (x : billingv1_QueryLeasesResponse) :
    billingv1_QueryLeasesResponse :=
  let 'mk_billingv1_QueryLeasesResponse leases pagination u := x in mk_billingv1_QueryLeasesResponse leases pagination
    (u ++ f).

Definition billingv1_QueryLeasesResponse_unmarshal : bool → bytes → option billingv1_QueryLeasesResponse → res (option
  billingv1_QueryLeasesResponse) := rt_unmarshal billingv1_QueryLeasesResponse_switch
  billingv1_QueryLeasesResponse_keep.

Definition billingv1_QueryLeasesResponse_wire (x : billingv1_QueryLeasesResponse) : bytes :=
  enc_each (λ e, len_field 0xa (wire_ptr billingv1_Lease_wire e)) (billingv1_QueryLeasesResponse_Leases x) ++
  enc_opt (λ e, len_field 0x12 (api_PageResponse_wire e)) (billingv1_QueryLeasesResponse_Pagination x) ++
  billingv1_QueryLeasesResponse_unknownFields x.

(** ** QueryLeasesByTenantRequest *)

Definition billingv1_QueryLeasesByTenantRequest_size (x : option billingv1_QueryLeasesByTenantRequest) : Z :=
  match x with
  | None => 0
  | Some x =>
      rt_size_str (billingv1_QueryLeasesByTenantRequest_Tenant x) +
      size_opt (billingv1_QueryLeasesByTenantRequest_Pagination x) (λ e, rt_size_len (options_Size api_PageRequest_size (Some e))) +
      rt_size_num (billingv1_QueryLeasesByTenantRequest_StateFilter x) +
      llen (billingv1_QueryLeasesByTenantRequest_unknownFields x)
  end.

Definition billingv1_QueryLeasesByTenantRequest_write (x : billingv1_QueryLeasesByTenantRequest) : writer :=
  rt_put_unknown (billingv1_QueryLeasesByTenantRequest_unknownFields x) ;;>
  if_nonzero (billingv1_QueryLeasesByTenantRequest_StateFilter x) (rt_put_uint 0x18 (billingv1_QueryLeasesByTenantRequest_StateFilter x)) ;;>
  if_some (billingv1_QueryLeasesByTenantRequest_Pagination x) (λ e, rt_put_msg 0x12 (options_Marshal api_PageRequest_marshal (Some e))) ;;>
  if_nonempty (billingv1_QueryLeasesByTenantRequest_Tenant x) (rt_put_bytes 0xa (billingv1_QueryLeasesByTenantRequest_Tenant x)).

Definition billingv1_QueryLeasesByTenantRequest_marshal : bytes → option billingv1_QueryLeasesByTenantRequest → res
  bytes := rt_marshal billingv1_QueryLeasesByTenantRequest_size billingv1_QueryLeasesByTenantRequest_write.

Definition billingv1_QueryLeasesByTenantRequest_case_1 (discard : bool) (wireType : Z) (dAtA : bytes) (iNdEx : Z) (x :
    billingv1_QueryLeasesByTenantRequest) : res (billingv1_QueryLeasesByTenantRequest * Z) :=
  let 'mk_billingv1_QueryLeasesByTenantRequest tenant pagination stateFilter u := x in
  '(v, iNdEx) ← get_string wireType dAtA iNdEx;
  Ok (mk_billingv1_QueryLeasesByTenantRequest v pagination stateFilter u, iNdEx).

Definition billingv1_QueryLeasesByTenantRequest_case_2 (discard : bool) (wireType : Z) (dAtA : bytes) (iNdEx : Z) (x :
    billingv1_QueryLeasesByTenantRequest) : res (billingv1_QueryLeasesByTenantRequest * Z) :=
  let 'mk_billingv1_QueryLeasesByTenantRequest tenant pagination stateFilter u := x in
  '(v, iNdEx) ← rt_get_msg api_PageRequest_unmarshal api_PageRequest_new pagination discard wireType dAtA iNdEx;
  Ok (mk_billingv1_QueryLeasesByTenantRequest tenant v stateFilter u, iNdEx).

Definition billingv1_QueryLeasesByTenantRequest_case_3 (discard : bool) (wireType : Z) (dAtA : bytes) (iNdEx : Z) (x :
    billingv1_QueryLeasesByTenantRequest) : res (billingv1_QueryLeasesByTenantRequest * Z) :=
  let 'mk_billingv1_QueryLeasesByTenantRequest tenant pagination stateFilter u := x in
  '(v, iNdEx) ← get_enum wireType dAtA iNdEx;
  Ok (mk_billingv1_QueryLeasesByTenantRequest tenant pagination v u, iNdEx).

Definition billingv1_QueryLeasesByTenantRequest_switch (discard : bool) (fieldNum wireType : Z) (dAtA : bytes) (iNdEx
    : Z) (x : billingv1_QueryLeasesByTenantRequest) : option (res (billingv1_QueryLeasesByTenantRequest * Z)) :=
  match fieldNum with
  | 1 => Some (billingv1_QueryLeasesByTenantRequest_case_1 discard wireType dAtA iNdEx x)
  | 2 => Some (billingv1_QueryLeasesByTenantRequest_case_2 discard wireType dAtA iNdEx x)
  | 3 => Some (billingv1_QueryLeasesByTenantRequest_case_3 discard wireType dAtA iNdEx x)
  | _ => None
  end.

Definition billingv1_QueryLeasesByTenantRequest_keep (f : bytes) (x : billingv1_QueryLeasesByTenantRequest) :
    billingv1_QueryLeasesByTenantRequest :=
  let 'mk_billingv1_QueryLeasesByTenantRequest tenant pagination stateFilter u := x in
    mk_billingv1_QueryLeasesByTenantRequest tenant pagination stateFilter (u ++ f).

Definition billingv1_QueryLeasesByTenantRequest_unmarshal : bool → bytes → option billingv1_QueryLeasesByTenantRequest
  → res (option billingv1_QueryLeasesByTenantRequest) := rt_unmarshal billingv1_QueryLeasesByTenantRequest_switch
  billingv1_QueryLeasesByTenantRequest_keep.

Definition billingv1_QueryLeasesByTenantRequest_wire (x : billingv1_QueryLeasesByTenantRequest) : bytes :=
  enc_str 0xa (billingv1_QueryLeasesByTenantRequest_Tenant x) ++
  enc_opt (λ e, len_field 0x12 (api_PageRequest_wire e)) (billingv1_QueryLeasesByTenantRequest_Pagination x) ++
  enc_uint 0x18 (billingv1_QueryLeasesByTenantRequest_StateFilter x) ++
  billingv1_QueryLeasesByTenantRequest_unknownFields x.

(** ** QueryLeasesByTenantResponse *)

Definition billingv1_QueryLeasesByTenantResponse_size (x : option billingv1_QueryLeasesByTenantResponse) : Z :=
  match x with
  | None => 0
  | Some x =>
      size_each (λ e, rt_size_len (options_Size billingv1_Lease_size e)) (billingv1_QueryLeasesByTenantResponse_Leases x) +
      size_opt (billingv1_QueryLeasesByTenantResponse_Pagination x) (λ e, rt_size_len (options_Size api_PageResponse_size (Some e))) +
      llen (billingv1_QueryLeasesByTenantResponse_unknownFields x)
  end.

Definition billingv1_QueryLeasesByTenantResponse_write (x : billingv1_QueryLeasesByTenantResponse) : writer :=
  rt_put_unknown (billingv1_QueryLeasesByTenantResponse_unknownFields x) ;;>
  if_some (billingv1_QueryLeasesByTenantResponse_Pagination x) (λ e, rt_put_msg 0x12 (options_Marshal api_PageResponse_marshal (Some e))) ;;>
  put_each (λ e, rt_put_msg 0xa (options_Marshal billingv1_Lease_marshal e)) (billingv1_QueryLeasesByTenantResponse_Leases x).

Definition billingv1_QueryLeasesByTenantResponse_marshal : bytes → option billingv1_QueryLeasesByTenantResponse → res
  bytes := rt_marshal billingv1_QueryLeasesByTenantResponse_size billingv1_QueryLeasesByTenantResponse_write.

Definition billingv1_QueryLeasesByTenantResponse_case_1 (discard : bool) (wireType : Z) (dAtA : bytes) (iNdEx : Z) (x
    : billingv1_QueryLeasesByTenantResponse) : res (billingv1_QueryLeasesByTenantResponse * Z) :=
  let 'mk_billingv1_QueryLeasesByTenantResponse leases pagination u := x in
  '(v, iNdEx) ← rt_get_msg billingv1_Lease_unmarshal billingv1_Lease_new None discard wireType dAtA iNdEx;
  Ok (mk_billingv1_QueryLeasesByTenantResponse (leases ++ [v]) pagination u, iNdEx).

Definition billingv1_QueryLeasesByTenantResponse_case_2 (discard : bool) (wireType : Z) (dAtA : bytes) (iNdEx : Z) (x
    : billingv1_QueryLeasesByTenantResponse) : res (billingv1_QueryLeasesByTenantResponse * Z) :=
  let 'mk_billingv1_QueryLeasesByTenantResponse leases pagination u := x in
  '(v, iNdEx) ← rt_get_msg api_PageResponse_unmarshal api_PageResponse_new pagination discard wireType dAtA iNdEx;
  Ok (mk_billingv1_QueryLeasesByTenantResponse leases v u, iNdEx).

Definition billingv1_QueryLeasesByTenantResponse_switch (discard : bool) (fieldNum wireType : Z) (dAtA : bytes) (iNdEx
    : Z) (x : billingv1_QueryLeasesByTenantResponse) : option (res (billingv1_QueryLeasesByTenantResponse * Z)) :=
  match fieldNum with
  | 1 => Some (billingv1_QueryLeasesByTenantResponse_case_1 discard wireType dAtA iNdEx x)
  | 2 => Some (billingv1_QueryLeasesByTenantResponse_case_2 discard wireType dAtA iNdEx x)
  | _ => None
  end.

Definition billingv1_QueryLeasesByTenantResponse_keep (f : bytes) (x : billingv1_QueryLeasesByTenantResponse) :
    billingv1_QueryLeasesByTenantResponse :=
  let 'mk_billingv1_QueryLeasesByTenantResponse leases pagination u := x in mk_billingv1_QueryLeasesByTenantResponse
    leases pagination (u ++ f).

Definition billingv1_QueryLeasesByTenantResponse_unmarshal : bool → bytes → option
  billingv1_QueryLeasesByTenantResponse → res (option billingv1_QueryLeasesByTenantResponse) := rt_unmarshal
  billingv1_QueryLeasesByTenantResponse_switch billingv1_QueryLeasesByTenantResponse_keep.

Definition billingv1_QueryLeasesByTenantResponse_wire (x : billingv1_QueryLeasesByTenantResponse) : bytes :=
  enc_each (λ e, len_field 0xa (wire_ptr billingv1_Lease_wire e)) (billingv1_QueryLeasesByTenantResponse_Leases x) ++
  enc_opt (λ e, len_field 0x12 (api_PageResponse_wire e)) (billingv1_QueryLeasesByTenantResponse_Pagination x) ++
  billingv1_QueryLeasesByTenantResponse_unknownFields x.

(** ** QueryLeasesByProviderRequest *)

Definition billingv1_QueryLeasesByProviderRequest_size (x : option billingv1_QueryLeasesByProviderRequest) : Z :=
  match x with
  | None => 0
  | Some x =>
      rt_size_str (billingv1_QueryLeasesByProviderRequest_ProviderUuid x) +
      size_opt (billingv1_QueryLeasesByProviderRequest_Pagination x) (λ e, rt_size_len (options_Size api_PageRequest_size (Some e))) +
      rt_size_num (billingv1_QueryLeasesByProviderRequest_StateFilter x) +
      llen (billingv1_QueryLeasesByProviderRequest_unknownFields x)
  end.

Definition billingv1_QueryLeasesByProviderRequest_write (x : billingv1_QueryLeasesByProviderRequest) : writer :=
  rt_put_unknown (billingv1_QueryLeasesByProviderRequest_unknownFields x) ;;>
  if_nonzero (billingv1_QueryLeasesByProviderRequest_StateFilter x) (rt_put_uint 0x18 (billingv1_QueryLeasesByProviderRequest_StateFilter x)) ;;>
  if_some (billingv1_QueryLeasesByProviderRequest_Pagination x) (λ e, rt_put_msg 0x12 (options_Marshal api_PageRequest_marshal (Some e))) ;;>
  if_nonempty (billingv1_QueryLeasesByProviderRequest_ProviderUuid x) (rt_put_bytes 0xa (billingv1_QueryLeasesByProviderRequest_ProviderUuid x)).

Definition billingv1_QueryLeasesByProviderRequest_marshal : bytes → option billingv1_QueryLeasesByProviderRequest →
  res bytes := rt_marshal billingv1_QueryLeasesByProviderRequest_size billingv1_QueryLeasesByProviderRequest_write.

Definition billingv1_QueryLeasesByProviderRequest_case_1 (discard : bool) (wireType : Z) (dAtA : bytes) (iNdEx : Z) (x
    : billingv1_QueryLeasesByProviderRequest) : res (billingv1_QueryLeasesByProviderRequest * Z) :=
  let 'mk_billingv1_QueryLeasesByProviderRequest providerUuid pagination stateFilter u := x in
  '(v, iNdEx) ← get_string wireType dAtA iNdEx;
  Ok (mk_billingv1_QueryLeasesByProviderRequest v pagination stateFilter u, iNdEx).

Definition billingv1_QueryLeasesByProviderRequest_case_2 (discard : bool) (wireType : Z) (dAtA : bytes) (iNdEx : Z) (x
    : billingv1_QueryLeasesByProviderRequest) : res (billingv1_QueryLeasesByProviderRequest * Z) :=
  let 'mk_billingv1_QueryLeasesByProviderRequest providerUuid pagination stateFilter u := x in
  '(v, iNdEx) ← rt_get_msg api_PageRequest_unmarshal api_PageRequest_new pagination discard wireType dAtA iNdEx;
  Ok (mk_billingv1_QueryLeasesByProviderRequest providerUuid v stateFilter u, iNdEx).

Definition billingv1_QueryLeasesByProviderRequest_case_3 (discard : bool) (wireType : Z) (dAtA : bytes) (iNdEx : Z) (x
    : billingv1_QueryLeasesByProviderRequest) : res (billingv1_QueryLeasesByProviderRequest * Z) :=
  let 'mk_billingv1_QueryLeasesByProviderRequest providerUuid pagination stateFilter u := x in
  '(v, iNdEx) ← get_enum wireType dAtA iNdEx;
  Ok (mk_billingv1_QueryLeasesByProviderRequest providerUuid pagination v u, iNdEx).

Definition billingv1_QueryLeasesByProviderRequest_switch (discard : bool) (fieldNum wireType : Z) (dAtA : bytes)
    (iNdEx : Z) (x : billingv1_QueryLeasesByProviderRequest) : option (res (billingv1_QueryLeasesByProviderRequest *
    Z)) :=
  match fieldNum with
  | 1 => Some (billingv1_QueryLeasesByProviderRequest_case_1 discard wireType dAtA iNdEx x)
  | 2 => Some (billingv1_QueryLeasesByProviderRequest_case_2 discard wireType dAtA iNdEx x)
  | 3 => Some (billingv1_QueryLeasesByProviderRequest_case_3 discard wireType dAtA iNdEx x)
  | _ => None
  end.

Definition billingv1_QueryLeasesByProviderRequest_keep (f : bytes) (x : billingv1_QueryLeasesByProviderRequest) :
    billingv1_QueryLeasesByProviderRequest :=
  let 'mk_billingv1_QueryLeasesByProviderRequest providerUuid pagination stateFilter u := x in
    mk_billingv1_QueryLeasesByProviderRequest providerUuid pagination stateFilter (u ++ f).

Definition billingv1_QueryLeasesByProviderRequest_unmarshal : bool → bytes → option
  billingv1_QueryLeasesByProviderRequest → res (option billingv1_QueryLeasesByProviderRequest) := rt_unmarshal
  billingv1_QueryLeasesByProviderRequest_switch billingv1_QueryLeasesByProviderRequest_keep.

Definition billingv1_QueryLeasesByProviderRequest_wire (x : billingv1_QueryLeasesByProviderRequest) : bytes :=
  enc_str 0xa (billingv1_QueryLeasesByProviderRequest_ProviderUuid x) ++
  enc_opt (λ e, len_field 0x12 (api_PageRequest_wire e)) (billingv1_QueryLeasesByProviderRequest_Pagination x) ++
  enc_uint 0x18 (billingv1_QueryLeasesByProviderRequest_StateFilter x) ++
  billingv1_QueryLeasesByProviderRequest_unknownFields x.

(** ** QueryLeasesByProviderResponse *)

Definition billingv1_QueryLeasesByProviderResponse_size (x : option billingv1_QueryLeasesByProviderResponse) : Z :=
  match x with
  | None => 0
  | Some x =>
      size_each (λ e, rt_size_len (options_Size billingv1_Lease_size e)) (billingv1_QueryLeasesByProviderResponse_Leases x) +
      size_opt (billingv1_QueryLeasesByProviderResponse_Pagination x) (λ e, rt_size_len (options_Size api_PageResponse_size (Some e))) +
      llen (billingv1_QueryLeasesByProviderResponse_unknownFields x)
  end.

Definition billingv1_QueryLeasesByProviderResponse_write (x : billingv1_QueryLeasesByProviderResponse) : writer :=
  rt_put_unknown (billingv1_QueryLeasesByProviderResponse_unknownFields x) ;;>
  if_some (billingv1_QueryLeasesByProviderResponse_Pagination x) (λ e, rt_put_msg 0x12 (options_Marshal api_PageResponse_marshal (Some e))) ;;>
  put_each (λ e, rt_put_msg 0xa (options_Marshal billingv1_Lease_marshal e)) (billingv1_QueryLeasesByProviderResponse_Leases x).

Definition billingv1_QueryLeasesByProviderResponse_marshal : bytes → option billingv1_QueryLeasesByProviderResponse →
  res bytes := rt_marshal billingv1_QueryLeasesByProviderResponse_size billingv1_QueryLeasesByProviderResponse_write.

Definition billingv1_QueryLeasesByProviderResponse_case_1 (discard : bool) (wireType : Z) (dAtA : bytes) (iNdEx : Z)
    (x : billingv1_QueryLeasesByProviderResponse) : res (billingv1_QueryLeasesByProviderResponse * Z) :=
  let 'mk_billingv1_QueryLeasesByProviderResponse leases pagination u := x in
  '(v, iNdEx) ← rt_get_msg billingv1_Lease_unmarshal billingv1_Lease_new None discard wireType dAtA iNdEx;
  Ok (mk_billingv1_QueryLeasesByProviderResponse (leases ++ [v]) pagination u, iNdEx).

Definition billingv1_QueryLeasesByProviderResponse_case_2 (discard : bool) (wireType : Z) (dAtA : bytes) (iNdEx : Z)
    (x : billingv1_QueryLeasesByProviderResponse) : res (billingv1_QueryLeasesByProviderResponse * Z) :=
  let 'mk_billingv1_QueryLeasesByProviderResponse leases pagination u := x in
  '(v, iNdEx) ← rt_get_msg api_PageResponse_unmarshal api_PageResponse_new pagination discard wireType dAtA iNdEx;
  Ok (mk_billingv1_QueryLeasesByProviderResponse leases v u, iNdEx).

Definition billingv1_QueryLeasesByProviderResponse_switch (discard : bool) (fieldNum wireType : Z) (dAtA : bytes)
    (iNdEx : Z) (x : billingv1_QueryLeasesByProviderResponse) : option (res (billingv1_QueryLeasesByProviderResponse *
    Z)) :=
  match fieldNum with
  | 1 => Some (billingv1_QueryLeasesByProviderResponse_case_1 discard wireType dAtA iNdEx x)
  | 2 => Some (billingv1_QueryLeasesByProviderResponse_case_2 discard wireType dAtA iNdEx x)
  | _ => None
  end.

Definition billingv1_QueryLeasesByProviderResponse_keep (f : bytes) (x : billingv1_QueryLeasesByProviderResponse) :
    billingv1_QueryLeasesByProviderResponse :=
  let 'mk_billingv1_QueryLeasesByProviderResponse leases pagination u := x in
    mk_billingv1_QueryLeasesByProviderResponse leases pagination (u ++ f).

Definition billingv1_QueryLeasesByProviderResponse_unmarshal : bool → bytes → option
  billingv1_QueryLeasesByProviderResponse → res (option billingv1_QueryLeasesByProviderResponse) := rt_unmarshal
  billingv1_QueryLeasesByProviderResponse_switch billingv1_QueryLeasesByProviderResponse_keep.

Definition billingv1_QueryLeasesByProviderResponse_wire (x : billingv1_QueryLeasesByProviderResponse) : bytes :=
  enc_each (λ e, len_field 0xa (wire_ptr billingv1_Lease_wire e)) (billingv1_QueryLeasesByProviderResponse_Leases x) ++
  enc_opt (λ e, len_field 0x12 (api_PageResponse_wire e)) (billingv1_QueryLeasesByProviderResponse_Pagination x) ++
  billingv1_QueryLeasesByProviderResponse_unknownFields x.

(** ** QueryCreditAccountRequest *)

Definition billingv1_QueryCreditAccountRequest_size (x : option billingv1_QueryCreditAccountRequest) : Z :=
  match x with
  | None => 0
  | Some x =>
      rt_size_str (billingv1_QueryCreditAccountRequest_Tenant x) +
      llen (billingv1_QueryCreditAccountRequest_unknownFields x)
  end.

Definition billingv1_QueryCreditAccountRequest_write (x : billingv1_QueryCreditAccountRequest) : writer :=
  rt_put_unknown (billingv1_QueryCreditAccountRequest_unknownFields x) ;;>
  if_nonempty (billingv1_QueryCreditAccountRequest_Tenant x) (rt_put_bytes 0xa (billingv1_QueryCreditAccountRequest_Tenant x)).

Definition billingv1_QueryCreditAccountRequest_marshal : bytes → option billingv1_QueryCreditAccountRequest → res
  bytes := rt_marshal billingv1_QueryCreditAccountRequest_size billingv1_QueryCreditAccountRequest_write.

Definition billingv1_QueryCreditAccountRequest_case_1 (discard : bool) (wireType : Z) (dAtA : bytes) (iNdEx : Z) (x :
    billingv1_QueryCreditAccountRequest) : res (billingv1_QueryCreditAccountRequest * Z) :=
  let 'mk_billingv1_QueryCreditAccountRequest tenant u := x in
  '(v, iNdEx) ← get_string wireType dAtA iNdEx;
  Ok (mk_billingv1_QueryCreditAccountRequest v u, iNdEx).

Definition billingv1_QueryCreditAccountRequest_switch (discard : bool) (fieldNum wireType : Z) (dAtA : bytes) (iNdEx :
    Z) (x : billingv1_QueryCreditAccountRequest) : option (res (billingv1_QueryCreditAccountRequest * Z)) :=
  match fieldNum with
  | 1 => Some (billingv1_QueryCreditAccountRequest_case_1 discard wireType dAtA iNdEx x)
  | _ => None
  end.

Definition billingv1_QueryCreditAccountRequest_keep (f : bytes) (x : billingv1_QueryCreditAccountRequest) :
    billingv1_QueryCreditAccountRequest :=
  let 'mk_billingv1_QueryCreditAccountRequest tenant u := x in mk_billingv1_QueryCreditAccountRequest tenant (u ++ f).

Definition billingv1_QueryCreditAccountRequest_unmarshal : bool → bytes → option billingv1_QueryCreditAccountRequest →
  res (option billingv1_QueryCreditAccountRequest) := rt_unmarshal billingv1_QueryCreditAccountRequest_switch
  billingv1_QueryCreditAccountRequest_keep.

Definition billingv1_QueryCreditAccountRequest_wire (x : billingv1_QueryCreditAccountRequest) : bytes :=
  enc_str 0xa (billingv1_QueryCreditAccountRequest_Tenant x) ++
  billingv1_QueryCreditAccountRequest_unknownFields x.

(** ** QueryCreditAccountResponse *)

Definition billingv1_QueryCreditAccountResponse_size (x : option billingv1_QueryCreditAccountResponse) : Z :=
  match x with
  | None => 0
  | Some x =>
      size_opt (billingv1_QueryCreditAccountResponse_CreditAccount x) (λ e, rt_size_len (options_Size billingv1_CreditAccount_size (Some e))) +
      size_each (λ e, rt_size_len (options_Size api_Coin_size e)) (billingv1_QueryCreditAccountResponse_Balances x) +
      size_each (λ e, rt_size_len (options_Size api_Coin_size e)) (billingv1_QueryCreditAccountResponse_AvailableBalances x) +
      llen (billingv1_QueryCreditAccountResponse_unknownFields x)
  end.

Definition billingv1_QueryCreditAccountResponse_write (x : billingv1_QueryCreditAccountResponse) : writer :=
  rt_put_unknown (billingv1_QueryCreditAccountResponse_unknownFields x) ;;>
  put_each (λ e, rt_put_msg 0x1a (options_Marshal api_Coin_marshal e)) (billingv1_QueryCreditAccountResponse_AvailableBalances x) ;;>
  put_each (λ e, rt_put_msg 0x12 (options_Marshal api_Coin_marshal e)) (billingv1_QueryCreditAccountResponse_Balances x) ;;>
  if_some (billingv1_QueryCreditAccountResponse_CreditAccount x) (λ e, rt_put_msg 0xa (options_Marshal billingv1_CreditAccount_marshal (Some e))).

Definition billingv1_QueryCreditAccountResponse_marshal : bytes → option billingv1_QueryCreditAccountResponse → res
  bytes := rt_marshal billingv1_QueryCreditAccountResponse_size billingv1_QueryCreditAccountResponse_write.

Definition billingv1_QueryCreditAccountResponse_case_1 (discard : bool) (wireType : Z) (dAtA : bytes) (iNdEx : Z) (x :
    billingv1_QueryCreditAccountResponse) : res (billingv1_QueryCreditAccountResponse * Z) :=
  let 'mk_billingv1_QueryCreditAccountResponse creditAccount balances availableBalances u := x in
  '(v, iNdEx) ← rt_get_msg billingv1_CreditAccount_unmarshal billingv1_CreditAccount_new creditAccount discard
    wireType dAtA iNdEx;
  Ok (mk_billingv1_QueryCreditAccountResponse v balances availableBalances u, iNdEx).

Definition billingv1_QueryCreditAccountResponse_case_2 (discard : bool) (wireType : Z) (dAtA : bytes) (iNdEx : Z) (x :
    billingv1_QueryCreditAccountResponse) : res (billingv1_QueryCreditAccountResponse * Z) :=
  let 'mk_billingv1_QueryCreditAccountResponse creditAccount balances availableBalances u := x in
  '(v, iNdEx) ← rt_get_msg api_Coin_unmarshal api_Coin_new None discard wireType dAtA iNdEx;
  Ok (mk_billingv1_QueryCreditAccountResponse creditAccount (balances ++ [v]) availableBalances u, iNdEx).

Definition billingv1_QueryCreditAccountResponse_case_3 (discard : bool) (wireType : Z) (dAtA : bytes) (iNdEx : Z) (x :
    billingv1_QueryCreditAccountResponse) : res (billingv1_QueryCreditAccountResponse * Z) :=
  let 'mk_billingv1_QueryCreditAccountResponse creditAccount balances availableBalances u := x in
  '(v, iNdEx) ← rt_get_msg api_Coin_unmarshal api_Coin_new None discard wireType dAtA iNdEx;
  Ok (mk_billingv1_QueryCreditAccountResponse creditAccount balances (availableBalances ++ [v]) u, iNdEx).

Definition billingv1_QueryCreditAccountResponse_switch (discard : bool) (fieldNum wireType : Z) (dAtA : bytes) (iNdEx
    : Z) (x : billingv1_QueryCreditAccountResponse) : option (res (billingv1_QueryCreditAccountResponse * Z)) :=
  match fieldNum with
  | 1 => Some (billingv1_QueryCreditAccountResponse_case_1 discard wireType dAtA iNdEx x)
  | 2 => Some (billingv1_QueryCreditAccountResponse_case_2 discard wireType dAtA iNdEx x)
  | 3 => Some (billingv1_QueryCreditAccountResponse_case_3 discard wireType dAtA iNdEx x)
  | _ => None
  end.

Definition billingv1_QueryCreditAccountResponse_keep (f : bytes) (x : billingv1_QueryCreditAccountResponse) :
    billingv1_QueryCreditAccountResponse :=
  let 'mk_billingv1_QueryCreditAccountResponse creditAccount balances availableBalances u := x in
    mk_billingv1_QueryCreditAccountResponse creditAccount balances availableBalances (u ++ f).

Definition billingv1_QueryCreditAccountResponse_unmarshal : bool → bytes → option billingv1_QueryCreditAccountResponse
  → res (option billingv1_QueryCreditAccountResponse) := rt_unmarshal billingv1_QueryCreditAccountResponse_switch
  billingv1_QueryCreditAccountResponse_keep.

Definition billingv1_QueryCreditAccountResponse_wire (x : billingv1_QueryCreditAccountResponse) : bytes :=
  enc_opt (λ e, len_field 0xa (billingv1_CreditAccount_wire e)) (billingv1_QueryCreditAccountResponse_CreditAccount x) ++
  enc_each (λ e, len_field 0x12 (wire_ptr api_Coin_wire e)) (billingv1_QueryCreditAccountResponse_Balances x) ++
  enc_each (λ e, len_field 0x1a (wire_ptr api_Coin_wire e)) (billingv1_QueryCreditAccountResponse_AvailableBalances x) ++
  billingv1_QueryCreditAccountResponse_unknownFields x.

(** ** QueryCreditAddressRequest *)

Definition billingv1_QueryCreditAddressRequest_size (x : option billingv1_QueryCreditAddressRequest) : Z :=
  match x with
  | None => 0
  | Some x =>
      rt_size_str (billingv1_QueryCreditAddressRequest_Tenant x) +
      llen (billingv1_QueryCreditAddressRequest_unknownFields x)
  end.

Definition billingv1_QueryCreditAddressRequest_write (x : billingv1_QueryCreditAddressRequest) : writer :=
  rt_put_unknown (billingv1_QueryCreditAddressRequest_unknownFields x) ;;>
  if_nonempty (billingv1_QueryCreditAddressRequest_Tenant x) (rt_put_bytes 0xa (billingv1_QueryCreditAddressRequest_Tenant x)).

Definition billingv1_QueryCreditAddressRequest_marshal : bytes → option billingv1_QueryCreditAddressRequest → res
  bytes := rt_marshal billingv1_QueryCreditAddressRequest_size billingv1_QueryCreditAddressRequest_write.

Definition billingv1_QueryCreditAddressRequest_case_1 (discard : bool) (wireType : Z) (dAtA : bytes) (iNdEx : Z) (x :
    billingv1_QueryCreditAddressRequest) : res (billingv1_QueryCreditAddressRequest * Z) :=
  let 'mk_billingv1_QueryCreditAddressRequest tenant u := x in
  '(v, iNdEx) ← get_string wireType dAtA iNdEx;
  Ok (mk_billingv1_QueryCreditAddressRequest v u, iNdEx).

Definition billingv1_QueryCreditAddressRequest_switch (discard : bool) (fieldNum wireType : Z) (dAtA : bytes) (iNdEx :
    Z) (x : billingv1_QueryCreditAddressRequest) : option (res (billingv1_QueryCreditAddressRequest * Z)) :=
  match fieldNum with
  | 1 => Some (billingv1_QueryCreditAddressRequest_case_1 discard wireType dAtA iNdEx x)
  | _ => None
  end.

Definition billingv1_QueryCreditAddressRequest_keep (f : bytes) (x : billingv1_QueryCreditAddressRequest) :
    billingv1_QueryCreditAddressRequest :=
  let 'mk_billingv1_QueryCreditAddressRequest tenant u := x in mk_billingv1_QueryCreditAddressRequest tenant (u ++ f).

Definition billingv1_QueryCreditAddressRequest_unmarshal : bool → bytes → option billingv1_QueryCreditAddressRequest →
  res (option billingv1_QueryCreditAddressRequest) := rt_unmarshal billingv1_QueryCreditAddressRequest_switch
  billingv1_QueryCreditAddressRequest_keep.

Definition billingv1_QueryCreditAddressRequest_wire (x : billingv1_QueryCreditAddressRequest) : bytes :=
  enc_str 0xa (billingv1_QueryCreditAddressRequest_Tenant x) ++
  billingv1_QueryCreditAddressRequest_unknownFields x.

(** ** QueryCreditAddressResponse *)

Definition billingv1_QueryCreditAddressResponse_size (x : option billingv1_QueryCreditAddressResponse) : Z :=
  match x with
  | None => 0
  | Some x =>
      rt_size_str (billingv1_QueryCreditAddressResponse_CreditAddress x) +
      llen (billingv1_QueryCreditAddressResponse_unknownFields x)
  end.

Definition billingv1_QueryCreditAddressResponse_write (x : billingv1_QueryCreditAddressResponse) : writer :=
  rt_put_unknown (billingv1_QueryCreditAddressResponse_unknownFields x) ;;>
  if_nonempty (billingv1_QueryCreditAddressResponse_CreditAddress x) (rt_put_bytes 0xa (billingv1_QueryCreditAddressResponse_CreditAddress x)).

Definition billingv1_QueryCreditAddressResponse_marshal : bytes → option billingv1_QueryCreditAddressResponse → res
  bytes := rt_marshal billingv1_QueryCreditAddressResponse_size billingv1_QueryCreditAddressResponse_write.

Definition billingv1_QueryCreditAddressResponse_case_1 (discard : bool) (wireType : Z) (dAtA : bytes) (iNdEx : Z) (x :
    billingv1_QueryCreditAddressResponse) : res (billingv1_QueryCreditAddressResponse * Z) :=
  let 'mk_billingv1_QueryCreditAddressResponse creditAddress u := x in
  '(v, iNdEx) ← get_string wireType dAtA iNdEx;
  Ok (mk_billingv1_QueryCreditAddressResponse v u, iNdEx).

Definition billingv1_QueryCreditAddressResponse_switch (discard : bool) (fieldNum wireType : Z) (dAtA : bytes) (iNdEx
    : Z) (x : billingv1_QueryCreditAddressResponse) : option (res (billingv1_QueryCreditAddressResponse * Z)) :=
  match fieldNum with
  | 1 => Some (billingv1_QueryCreditAddressResponse_case_1 discard wireType dAtA iNdEx x)
  | _ => None
  end.

Definition billingv1_QueryCreditAddressResponse_keep (f : bytes) (x : billingv1_QueryCreditAddressResponse) :
    billingv1_QueryCreditAddressResponse :=
  let 'mk_billingv1_QueryCreditAddressResponse creditAddress u := x in mk_billingv1_QueryCreditAddressResponse
    creditAddress (u ++ f).

Definition billingv1_QueryCreditAddressResponse_unmarshal : bool → bytes → option billingv1_QueryCreditAddressResponse
  → res (option billingv1_QueryCreditAddressResponse) := rt_unmarshal billingv1_QueryCreditAddressResponse_switch
  billingv1_QueryCreditAddressResponse_keep.

Definition billingv1_QueryCreditAddressResponse_wire (x : billingv1_QueryCreditAddressResponse) : bytes :=
  enc_str 0xa (billingv1_QueryCreditAddressResponse_CreditAddress x) ++
  billingv1_QueryCreditAddressResponse_unknownFields x.

(** ** QueryWithdrawableAmountRequest *)

Definition billingv1_QueryWithdrawableAmountRequest_size (x : option billingv1_QueryWithdrawableAmountRequest) : Z :=
  match x with
  | None => 0
  | Some x =>
      rt_size_str (billingv1_QueryWithdrawableAmountRequest_LeaseUuid x) +
      llen (billingv1_QueryWithdrawableAmountRequest_unknownFields x)
  end.

Definition billingv1_QueryWithdrawableAmountRequest_write (x : billingv1_QueryWithdrawableAmountRequest) : writer :=
  rt_put_unknown (billingv1_QueryWithdrawableAmountRequest_unknownFields x) ;;>
  if_nonempty (billingv1_QueryWithdrawableAmountRequest_LeaseUuid x) (rt_put_bytes 0xa (billingv1_QueryWithdrawableAmountRequest_LeaseUuid x)).

Definition billingv1_QueryWithdrawableAmountRequest_marshal : bytes → option billingv1_QueryWithdrawableAmountRequest
  → res bytes := rt_marshal billingv1_QueryWithdrawableAmountRequest_size
  billingv1_QueryWithdrawableAmountRequest_write.

Definition billingv1_QueryWithdrawableAmountRequest_case_1 (discard : bool) (wireType : Z) (dAtA : bytes) (iNdEx : Z)
    (x : billingv1_QueryWithdrawableAmountRequest) : res (billingv1_QueryWithdrawableAmountRequest * Z) :=
  let 'mk_billingv1_QueryWithdrawableAmountRequest leaseUuid u := x in
  '(v, iNdEx) ← get_string wireType dAtA iNdEx;
  Ok (mk_billingv1_QueryWithdrawableAmountRequest v u, iNdEx).

Definition billingv1_QueryWithdrawableAmountRequest_switch (discard : bool) (fieldNum wireType : Z) (dAtA : bytes)
    (iNdEx : Z) (x : billingv1_QueryWithdrawableAmountRequest) : option (res (billingv1_QueryWithdrawableAmountRequest
    * Z)) :=
  match fieldNum with
  | 1 => Some (billingv1_QueryWithdrawableAmountRequest_case_1 discard wireType dAtA iNdEx x)
  | _ => None
  end.

Definition billingv1_QueryWithdrawableAmountRequest_keep (f : bytes) (x : billingv1_QueryWithdrawableAmountRequest) :
    billingv1_QueryWithdrawableAmountRequest :=
  let 'mk_billingv1_QueryWithdrawableAmountRequest leaseUuid u := x in mk_billingv1_QueryWithdrawableAmountRequest
    leaseUuid (u ++ f).

Definition billingv1_QueryWithdrawableAmountRequest_unmarshal : bool → bytes → option
  billingv1_QueryWithdrawableAmountRequest → res (option billingv1_QueryWithdrawableAmountRequest) := rt_unmarshal
  billingv1_QueryWithdrawableAmountRequest_switch billingv1_QueryWithdrawableAmountRequest_keep.

Definition billingv1_QueryWithdrawableAmountRequest_wire (x : billingv1_QueryWithdrawableAmountRequest) : bytes :=
  enc_str 0xa (billingv1_QueryWithdrawableAmountRequest_LeaseUuid x) ++
  billingv1_QueryWithdrawableAmountRequest_unknownFields x.

(** ** QueryWithdrawableAmountResponse *)

Definition billingv1_QueryWithdrawableAmountResponse_size (x : option billingv1_QueryWithdrawableAmountResponse) : Z :=
  match x with
  | None => 0
  | Some x =>
      size_each (λ e, rt_size_len (options_Size api_Coin_size e)) (billingv1_QueryWithdrawableAmountResponse_Amounts x) +
      llen (billingv1_QueryWithdrawableAmountResponse_unknownFields x)
  end.

Definition billingv1_QueryWithdrawableAmountResponse_write (x : billingv1_QueryWithdrawableAmountResponse) : writer :=
  rt_put_unknown (billingv1_QueryWithdrawableAmountResponse_unknownFields x) ;;>
  put_each (λ e, rt_put_msg 0xa (options_Marshal api_Coin_marshal e)) (billingv1_QueryWithdrawableAmountResponse_Amounts x).

Definition billingv1_QueryWithdrawableAmountResponse_marshal : bytes → option
  billingv1_QueryWithdrawableAmountResponse → res bytes := rt_marshal billingv1_QueryWithdrawableAmountResponse_size
  billingv1_QueryWithdrawableAmountResponse_write.

Definition billingv1_QueryWithdrawableAmountResponse_case_1 (discard : bool) (wireType : Z) (dAtA : bytes) (iNdEx : Z)
    (x : billingv1_QueryWithdrawableAmountResponse) : res (billingv1_QueryWithdrawableAmountResponse * Z) :=
  let 'mk_billingv1_QueryWithdrawableAmountResponse amounts u := x in
  '(v, iNdEx) ← rt_get_msg api_Coin_unmarshal api_Coin_new None discard wireType dAtA iNdEx;
  Ok (mk_billingv1_QueryWithdrawableAmountResponse (amounts ++ [v]) u, iNdEx).

Definition billingv1_QueryWithdrawableAmountResponse_switch (discard : bool) (fieldNum wireType : Z) (dAtA : bytes)
    (iNdEx : Z) (x : billingv1_QueryWithdrawableAmountResponse) : option (res
    (billingv1_QueryWithdrawableAmountResponse * Z)) :=
  match fieldNum with
  | 1 => Some (billingv1_QueryWithdrawableAmountResponse_case_1 discard wireType dAtA iNdEx x)
  | _ => None
  end.

Definition billingv1_QueryWithdrawableAmountResponse_keep (f : bytes) (x : billingv1_QueryWithdrawableAmountResponse)
    : billingv1_QueryWithdrawableAmountResponse :=
  let 'mk_billingv1_QueryWithdrawableAmountResponse amounts u := x in mk_billingv1_QueryWithdrawableAmountResponse
    amounts (u ++ f).

Definition billingv1_QueryWithdrawableAmountResponse_unmarshal : bool → bytes → option
  billingv1_QueryWithdrawableAmountResponse → res (option billingv1_QueryWithdrawableAmountResponse) := rt_unmarshal
  billingv1_QueryWithdrawableAmountResponse_switch billingv1_QueryWithdrawableAmountResponse_keep.

Definition billingv1_QueryWithdrawableAmountResponse_wire (x : billingv1_QueryWithdrawableAmountResponse) : bytes :=
  enc_each (λ e, len_field 0xa (wire_ptr api_Coin_wire e)) (billingv1_QueryWithdrawableAmountResponse_Amounts x) ++
  billingv1_QueryWithdrawableAmountResponse_unknownFields x.

(** ** QueryProviderWithdrawableRequest *)

Definition billingv1_QueryProviderWithdrawableRequest_size (x : option billingv1_QueryProviderWithdrawableRequest) : Z :=
  match x with
  | None => 0
  | Some x =>
      rt_size_str (billingv1_QueryProviderWithdrawableRequest_ProviderUuid x) +
      rt_size_num (billingv1_QueryProviderWithdrawableRequest_Limit x) +
      llen (billingv1_QueryProviderWithdrawableRequest_unknownFields x)
  end.

Definition billingv1_QueryProviderWithdrawableRequest_write (x : billingv1_QueryProviderWithdrawableRequest) : writer :=
  rt_put_unknown (billingv1_QueryProviderWithdrawableRequest_unknownFields x) ;;>
  if_nonzero (billingv1_QueryProviderWithdrawableRequest_Limit x) (rt_put_uint 0x10 (billingv1_QueryProviderWithdrawableRequest_Limit x)) ;;>
  if_nonempty (billingv1_QueryProviderWithdrawableRequest_ProviderUuid x) (rt_put_bytes 0xa (billingv1_QueryProviderWithdrawableRequest_ProviderUuid x)).

Definition billingv1_QueryProviderWithdrawableRequest_marshal : bytes → option
  billingv1_QueryProviderWithdrawableRequest → res bytes := rt_marshal billingv1_QueryProviderWithdrawableRequest_size
  billingv1_QueryProviderWithdrawableRequest_write.

Definition billingv1_QueryProviderWithdrawableRequest_case_1 (discard : bool) (wireType : Z) (dAtA : bytes) (iNdEx :
    Z) (x : billingv1_QueryProviderWithdrawableRequest) : res (billingv1_QueryProviderWithdrawableRequest * Z) :=
  let 'mk_billingv1_QueryProviderWithdrawableRequest providerUuid limit u := x in
  '(v, iNdEx) ← get_string wireType dAtA iNdEx;
  Ok (mk_billingv1_QueryProviderWithdrawableRequest v limit u, iNdEx).

Definition billingv1_QueryProviderWithdrawableRequest_case_2 (discard : bool) (wireType : Z) (dAtA : bytes) (iNdEx :
    Z) (x : billingv1_QueryProviderWithdrawableRequest) : res (billingv1_QueryProviderWithdrawableRequest * Z) :=
  let 'mk_billingv1_QueryProviderWithdrawableRequest providerUuid limit u := x in
  '(v, iNdEx) ← get_uint wireType dAtA iNdEx;
  Ok (mk_billingv1_QueryProviderWithdrawableRequest providerUuid v u, iNdEx).

Definition billingv1_QueryProviderWithdrawableRequest_switch (discard : bool) (fieldNum wireType : Z) (dAtA : bytes)
    (iNdEx : Z) (x : billingv1_QueryProviderWithdrawableRequest) : option (res
    (billingv1_QueryProviderWithdrawableRequest * Z)) :=
  match fieldNum with
  | 1 => Some (billingv1_QueryProviderWithdrawableRequest_case_1 discard wireType dAtA iNdEx x)
  | 2 => Some (billingv1_QueryProviderWithdrawableRequest_case_2 discard wireType dAtA iNdEx x)
  | _ => None
  end.

Definition billingv1_QueryProviderWithdrawableRequest_keep (f : bytes) (x :
    billingv1_QueryProviderWithdrawableRequest) : billingv1_QueryProviderWithdrawableRequest :=
  let 'mk_billingv1_QueryProviderWithdrawableRequest providerUuid limit u := x in
    mk_billingv1_QueryProviderWithdrawableRequest providerUuid limit (u ++ f).

Definition billingv1_QueryProviderWithdrawableRequest_unmarshal : bool → bytes → option
  billingv1_QueryProviderWithdrawableRequest → res (option billingv1_QueryProviderWithdrawableRequest) := rt_unmarshal
  billingv1_QueryProviderWithdrawableRequest_switch billingv1_QueryProviderWithdrawableRequest_keep.

Definition billingv1_QueryProviderWithdrawableRequest_wire (x : billingv1_QueryProviderWithdrawableRequest) : bytes :=
  enc_str 0xa (billingv1_QueryProviderWithdrawableRequest_ProviderUuid x) ++
  enc_uint 0x10 (billingv1_QueryProviderWithdrawableRequest_Limit x) ++
  billingv1_QueryProviderWithdrawableRequest_unknownFields x.

(** ** QueryProviderWithdrawableResponse *)

Definition billingv1_QueryProviderWithdrawableResponse_size (x : option billingv1_QueryProviderWithdrawableResponse) : Z :=
  match x with
  | None => 0
  | Some x =>
      size_each (λ e, rt_size_len (options_Size api_Coin_size e)) (billingv1_QueryProviderWithdrawableResponse_Amounts x) +
      rt_size_num (billingv1_QueryProviderWithdrawableResponse_LeaseCount x) +
      size_bool (billingv1_QueryProviderWithdrawableResponse_HasMore x) +
      llen (billingv1_QueryProviderWithdrawableResponse_unknownFields x)
  end.

Definition billingv1_QueryProviderWithdrawableResponse_write (x : billingv1_QueryProviderWithdrawableResponse) : writer :=
  rt_put_unknown (billingv1_QueryProviderWithdrawableResponse_unknownFields x) ;;>
  if_true (billingv1_QueryProviderWithdrawableResponse_HasMore x) (put_bool 0x18 (billingv1_QueryProviderWithdrawableResponse_HasMore x)) ;;>
  if_nonzero (billingv1_QueryProviderWithdrawableResponse_LeaseCount x) (rt_put_uint 0x10 (billingv1_QueryProviderWithdrawableResponse_LeaseCount x)) ;;>
  put_each (λ e, rt_put_msg 0xa (options_Marshal api_Coin_marshal e)) (billingv1_QueryProviderWithdrawableResponse_Amounts x).

Definition billingv1_QueryProviderWithdrawableResponse_marshal : bytes → option
  billingv1_QueryProviderWithdrawableResponse → res bytes := rt_marshal
  billingv1_QueryProviderWithdrawableResponse_size billingv1_QueryProviderWithdrawableResponse_write.

Definition billingv1_QueryProviderWithdrawableResponse_case_1 (discard : bool) (wireType : Z) (dAtA : bytes) (iNdEx :
    Z) (x : billingv1_QueryProviderWithdrawableResponse) : res (billingv1_QueryProviderWithdrawableResponse * Z) :=
  let 'mk_billingv1_QueryProviderWithdrawableResponse amounts leaseCount hasMore u := x in
  '(v, iNdEx) ← rt_get_msg api_Coin_unmarshal api_Coin_new None discard wireType dAtA iNdEx;
  Ok (mk_billingv1_QueryProviderWithdrawableResponse (amounts ++ [v]) leaseCount hasMore u, iNdEx).

Definition billingv1_QueryProviderWithdrawableResponse_case_2 (discard : bool) (wireType : Z) (dAtA : bytes) (iNdEx :
    Z) (x : billingv1_QueryProviderWithdrawableResponse) : res (billingv1_QueryProviderWithdrawableResponse * Z) :=
  let 'mk_billingv1_QueryProviderWithdrawableResponse amounts leaseCount hasMore u := x in
  '(v, iNdEx) ← get_uint wireType dAtA iNdEx;
  Ok (mk_billingv1_QueryProviderWithdrawableResponse amounts v hasMore u, iNdEx).

Definition billingv1_QueryProviderWithdrawableResponse_case_3 (discard : bool) (wireType : Z) (dAtA : bytes) (iNdEx :
    Z) (x : billingv1_QueryProviderWithdrawableResponse) : res (billingv1_QueryProviderWithdrawableResponse * Z) :=
  let 'mk_billingv1_QueryProviderWithdrawableResponse amounts leaseCount hasMore u := x in
  '(v, iNdEx) ← get_bool wireType dAtA iNdEx;
  Ok (mk_billingv1_QueryProviderWithdrawableResponse amounts leaseCount v u, iNdEx).

Definition billingv1_QueryProviderWithdrawableResponse_switch (discard : bool) (fieldNum wireType : Z) (dAtA : bytes)
    (iNdEx : Z) (x : billingv1_QueryProviderWithdrawableResponse) : option (res
    (billingv1_QueryProviderWithdrawableResponse * Z)) :=
  match fieldNum with
  | 1 => Some (billingv1_QueryProviderWithdrawableResponse_case_1 discard wireType dAtA iNdEx x)
  | 2 => Some (billingv1_QueryProviderWithdrawableResponse_case_2 discard wireType dAtA iNdEx x)
  | 3 => Some (billingv1_QueryProviderWithdrawableResponse_case_3 discard wireType dAtA iNdEx x)
  | _ => None
  end.

Definition billingv1_QueryProviderWithdrawableResponse_keep (f : bytes) (x :
    billingv1_QueryProviderWithdrawableResponse) : billingv1_QueryProviderWithdrawableResponse :=
  let 'mk_billingv1_QueryProviderWithdrawableResponse amounts leaseCount hasMore u := x in
    mk_billingv1_QueryProviderWithdrawableResponse amounts leaseCount hasMore (u ++ f).

Definition billingv1_QueryProviderWithdrawableResponse_unmarshal : bool → bytes → option
  billingv1_QueryProviderWithdrawableResponse → res (option billingv1_QueryProviderWithdrawableResponse) :=
  rt_unmarshal billingv1_QueryProviderWithdrawableResponse_switch billingv1_QueryProviderWithdrawableResponse_keep.

Definition billingv1_QueryProviderWithdrawableResponse_wire (x : billingv1_QueryProviderWithdrawableResponse) : bytes :=
  enc_each (λ e, len_field 0xa (wire_ptr api_Coin_wire e)) (billingv1_QueryProviderWithdrawableResponse_Amounts x) ++
  enc_uint 0x10 (billingv1_QueryProviderWithdrawableResponse_LeaseCount x) ++
  enc_bool 0x18 (billingv1_QueryProviderWithdrawableResponse_HasMore x) ++
  billingv1_QueryProviderWithdrawableResponse_unknownFields x.

(** ** QueryCreditAccountsRequest *)

Definition billingv1_QueryCreditAccountsRequest_size (x : option billingv1_QueryCreditAccountsRequest) : Z :=
  match x with
  | None => 0
  | Some x =>
      size_opt (billingv1_QueryCreditAccountsRequest_Pagination x) (λ e, rt_size_len (options_Size api_PageRequest_size (Some e))) +
      llen (billingv1_QueryCreditAccountsRequest_unknownFields x)
  end.

Definition billingv1_QueryCreditAccountsRequest_write (x : billingv1_QueryCreditAccountsRequest) : writer :=
  rt_put_unknown (billingv1_QueryCreditAccountsRequest_unknownFields x) ;;>
  if_some (billingv1_QueryCreditAccountsRequest_Pagination x) (λ e, rt_put_msg 0xa (options_Marshal api_PageRequest_marshal (Some e))).

Definition billingv1_QueryCreditAccountsRequest_marshal : bytes → option billingv1_QueryCreditAccountsRequest → res
  bytes := rt_marshal billingv1_QueryCreditAccountsRequest_size billingv1_QueryCreditAccountsRequest_write.

Definition billingv1_QueryCreditAccountsRequest_case_1 (discard : bool) (wireType : Z) (dAtA : bytes) (iNdEx : Z) (x :
    billingv1_QueryCreditAccountsRequest) : res (billingv1_QueryCreditAccountsRequest * Z) :=
  let 'mk_billingv1_QueryCreditAccountsRequest pagination u := x in
  '(v, iNdEx) ← rt_get_msg api_PageRequest_unmarshal api_PageRequest_new pagination discard wireType dAtA iNdEx;
  Ok (mk_billingv1_QueryCreditAccountsRequest v u, iNdEx).

Definition billingv1_QueryCreditAccountsRequest_switch (discard : bool) (fieldNum wireType : Z) (dAtA : bytes) (iNdEx
    : Z) (x : billingv1_QueryCreditAccountsRequest) : option (res (billingv1_QueryCreditAccountsRequest * Z)) :=
  match fieldNum with
  | 1 => Some (billingv1_QueryCreditAccountsRequest_case_1 discard wireType dAtA iNdEx x)
  | _ => None
  end.

Definition billingv1_QueryCreditAccountsRequest_keep (f : bytes) (x : billingv1_QueryCreditAccountsRequest) :
    billingv1_QueryCreditAccountsRequest :=
  let 'mk_billingv1_QueryCreditAccountsRequest pagination u := x in mk_billingv1_QueryCreditAccountsRequest pagination
    (u ++ f).

Definition billingv1_QueryCreditAccountsRequest_unmarshal : bool → bytes → option billingv1_QueryCreditAccountsRequest
  → res (option billingv1_QueryCreditAccountsRequest) := rt_unmarshal billingv1_QueryCreditAccountsRequest_switch
  billingv1_QueryCreditAccountsRequest_keep.

Definition billingv1_QueryCreditAccountsRequest_wire (x : billingv1_QueryCreditAccountsRequest) : bytes :=
  enc_opt (λ e, len_field 0xa (api_PageRequest_wire e)) (billingv1_QueryCreditAccountsRequest_Pagination x) ++
  billingv1_QueryCreditAccountsRequest_unknownFields x.

(** ** QueryCreditAccountsResponse *)

Definition billingv1_QueryCreditAccountsResponse_size (x : option billingv1_QueryCreditAccountsResponse) : Z :=
  match x with
  | None => 0
  | Some x =>
      size_each (λ e, rt_size_len (options_Size billingv1_CreditAccount_size e)) (billingv1_QueryCreditAccountsResponse_CreditAccounts x) +
      size_opt (billingv1_QueryCreditAccountsResponse_Pagination x) (λ e, rt_size_len (options_Size api_PageResponse_size (Some e))) +
      llen (billingv1_QueryCreditAccountsResponse_unknownFields x)
  end.

Definition billingv1_QueryCreditAccountsResponse_write (x : billingv1_QueryCreditAccountsResponse) : writer :=
  rt_put_unknown (billingv1_QueryCreditAccountsResponse_unknownFields x) ;;>
  if_some (billingv1_QueryCreditAccountsResponse_Pagination x) (λ e, rt_put_msg 0x12 (options_Marshal api_PageResponse_marshal (Some e))) ;;>
  put_each (λ e, rt_put_msg 0xa (options_Marshal billingv1_CreditAccount_marshal e)) (billingv1_QueryCreditAccountsResponse_CreditAccounts x).

Definition billingv1_QueryCreditAccountsResponse_marshal : bytes → option billingv1_QueryCreditAccountsResponse → res
  bytes := rt_marshal billingv1_QueryCreditAccountsResponse_size billingv1_QueryCreditAccountsResponse_write.

Definition billingv1_QueryCreditAccountsResponse_case_1 (discard : bool) (wireType : Z) (dAtA : bytes) (iNdEx : Z) (x
    : billingv1_QueryCreditAccountsResponse) : res (billingv1_QueryCreditAccountsResponse * Z) :=
  let 'mk_billingv1_QueryCreditAccountsResponse creditAccounts pagination u := x in
  '(v, iNdEx) ← rt_get_msg billingv1_CreditAccount_unmarshal billingv1_CreditAccount_new None discard wireType dAtA
    iNdEx;
  Ok (mk_billingv1_QueryCreditAccountsResponse (creditAccounts ++ [v]) pagination u, iNdEx).

Definition billingv1_QueryCreditAccountsResponse_case_2 (discard : bool) (wireType : Z) (dAtA : bytes) (iNdEx : Z) (x
    : billingv1_QueryCreditAccountsResponse) : res (billingv1_QueryCreditAccountsResponse * Z) :=
  let 'mk_billingv1_QueryCreditAccountsResponse creditAccounts pagination u := x in
  '(v, iNdEx) ← rt_get_msg api_PageResponse_unmarshal api_PageResponse_new pagination discard wireType dAtA iNdEx;
  Ok (mk_billingv1_QueryCreditAccountsResponse creditAccounts v u, iNdEx).

Definition billingv1_QueryCreditAccountsResponse_switch (discard : bool) (fieldNum wireType : Z) (dAtA : bytes) (iNdEx
    : Z) (x : billingv1_QueryCreditAccountsResponse) : option (res (billingv1_QueryCreditAccountsResponse * Z)) :=
  match fieldNum with
  | 1 => Some (billingv1_QueryCreditAccountsResponse_case_1 discard wireType dAtA iNdEx x)
  | 2 => Some (billingv1_QueryCreditAccountsResponse_case_2 discard wireType dAtA iNdEx x)
  | _ => None
  end.

Definition billingv1_QueryCreditAccountsResponse_keep (f : bytes) (x : billingv1_QueryCreditAccountsResponse) :
    billingv1_QueryCreditAccountsResponse :=
  let 'mk_billingv1_QueryCreditAccountsResponse creditAccounts pagination u := x in
    mk_billingv1_QueryCreditAccountsResponse creditAccounts pagination (u ++ f).

Definition billingv1_QueryCreditAccountsResponse_unmarshal : bool → bytes → option
  billingv1_QueryCreditAccountsResponse → res (option billingv1_QueryCreditAccountsResponse) := rt_unmarshal
  billingv1_QueryCreditAccountsResponse_switch billingv1_QueryCreditAccountsResponse_keep.

Definition billingv1_QueryCreditAccountsResponse_wire (x : billingv1_QueryCreditAccountsResponse) : bytes :=
  enc_each (λ e, len_field 0xa (wire_ptr billingv1_CreditAccount_wire e)) (billingv1_QueryCreditAccountsResponse_CreditAccounts x) ++
  enc_opt (λ e, len_field 0x12 (api_PageResponse_wire e)) (billingv1_QueryCreditAccountsResponse_Pagination x) ++
  billingv1_QueryCreditAccountsResponse_unknownFields x.

(** ** QueryLeasesBySKURequest *)

Definition billingv1_QueryLeasesBySKURequest_size (x : option billingv1_QueryLeasesBySKURequest) : Z :=
  match x with
  | None => 0
  | Some x =>
      rt_size_str (billingv1_QueryLeasesBySKURequest_SkuUuid x) +
      size_opt (billingv1_QueryLeasesBySKURequest_Pagination x) (λ e, rt_size_len (options_Size api_PageRequest_size (Some e))) +
      rt_size_num (billingv1_QueryLeasesBySKURequest_StateFilter x) +
      llen (billingv1_QueryLeasesBySKURequest_unknownFields x)
  end.

Definition billingv1_QueryLeasesBySKURequest_write (x : billingv1_QueryLeasesBySKURequest) : writer :=
  rt_put_unknown (billingv1_QueryLeasesBySKURequest_unknownFields x) ;;>
  if_nonzero (billingv1_QueryLeasesBySKURequest_StateFilter x) (rt_put_uint 0x18 (billingv1_QueryLeasesBySKURequest_StateFilter x)) ;;>
  if_some (billingv1_QueryLeasesBySKURequest_Pagination x) (λ e, rt_put_msg 0x12 (options_Marshal api_PageRequest_marshal (Some e))) ;;>
  if_nonempty (billingv1_QueryLeasesBySKURequest_SkuUuid x) (rt_put_bytes 0xa (billingv1_QueryLeasesBySKURequest_SkuUuid x)).

Definition billingv1_QueryLeasesBySKURequest_marshal : bytes → option billingv1_QueryLeasesBySKURequest → res bytes :=
  rt_marshal billingv1_QueryLeasesBySKURequest_size billingv1_QueryLeasesBySKURequest_write.

Definition billingv1_QueryLeasesBySKURequest_case_1 (discard : bool) (wireType : Z) (dAtA : bytes) (iNdEx : Z) (x :
    billingv1_QueryLeasesBySKURequest) : res (billingv1_QueryLeasesBySKURequest * Z) :=
  let 'mk_billingv1_QueryLeasesBySKURequest skuUuid pagination stateFilter u := x in
  '(v, iNdEx) ← get_string wireType dAtA iNdEx;
  Ok (mk_billingv1_QueryLeasesBySKURequest v pagination stateFilter u, iNdEx).

Definition billingv1_QueryLeasesBySKURequest_case_2 (discard : bool) (wireType : Z) (dAtA : bytes) (iNdEx : Z) (x :
    billingv1_QueryLeasesBySKURequest) : res (billingv1_QueryLeasesBySKURequest * Z) :=
  let 'mk_billingv1_QueryLeasesBySKURequest skuUuid pagination stateFilter u := x in
  '(v, iNdEx) ← rt_get_msg api_PageRequest_unmarshal api_PageRequest_new pagination discard wireType dAtA iNdEx;
  Ok (mk_billingv1_QueryLeasesBySKURequest skuUuid v stateFilter u, iNdEx).

Definition billingv1_QueryLeasesBySKURequest_case_3 (discard : bool) (wireType : Z) (dAtA : bytes) (iNdEx : Z) (x :
    billingv1_QueryLeasesBySKURequest) : res (billingv1_QueryLeasesBySKURequest * Z) :=
  let 'mk_billingv1_QueryLeasesBySKURequest skuUuid pagination stateFilter u := x in
  '(v, iNdEx) ← get_enum wireType dAtA iNdEx;
  Ok (mk_billingv1_QueryLeasesBySKURequest skuUuid pagination v u, iNdEx).

Definition billingv1_QueryLeasesBySKURequest_switch (discard : bool) (fieldNum wireType : Z) (dAtA : bytes) (iNdEx :
    Z) (x : billingv1_QueryLeasesBySKURequest) : option (res (billingv1_QueryLeasesBySKURequest * Z)) :=
  match fieldNum with
  | 1 => Some (billingv1_QueryLeasesBySKURequest_case_1 discard wireType dAtA iNdEx x)
  | 2 => Some (billingv1_QueryLeasesBySKURequest_case_2 discard wireType dAtA iNdEx x)
  | 3 => Some (billingv1_QueryLeasesBySKURequest_case_3 discard wireType dAtA iNdEx x)
  | _ => None
  end.

Definition billingv1_QueryLeasesBySKURequest_keep (f : bytes) (x : billingv1_QueryLeasesBySKURequest) :
    billingv1_QueryLeasesBySKURequest :=
  let 'mk_billingv1_QueryLeasesBySKURequest skuUuid pagination stateFilter u := x in
    mk_billingv1_QueryLeasesBySKURequest skuUuid pagination stateFilter (u ++ f).

Definition billingv1_QueryLeasesBySKURequest_unmarshal : bool → bytes → option billingv1_QueryLeasesBySKURequest → res
  (option billingv1_QueryLeasesBySKURequest) := rt_unmarshal billingv1_QueryLeasesBySKURequest_switch
  billingv1_QueryLeasesBySKURequest_keep.

Definition billingv1_QueryLeasesBySKURequest_wire (x : billingv1_QueryLeasesBySKURequest) : bytes :=
  enc_str 0xa (billingv1_QueryLeasesBySKURequest_SkuUuid x) ++
  enc_opt (λ e, len_field 0x12 (api_PageRequest_wire e)) (billingv1_QueryLeasesBySKURequest_Pagination x) ++
  enc_uint 0x18 (billingv1_QueryLeasesBySKURequest_StateFilter x) ++
  billingv1_QueryLeasesBySKURequest_unknownFields x.

(** ** QueryLeasesBySKUResponse *)

Definition billingv1_QueryLeasesBySKUResponse_size (x : option billingv1_QueryLeasesBySKUResponse) : Z :=
  match x with
  | None => 0
  | Some x =>
      size_each (λ e, rt_size_len (options_Size billingv1_Lease_size e)) (billingv1_QueryLeasesBySKUResponse_Leases x) +
      size_opt (billingv1_QueryLeasesBySKUResponse_Pagination x) (λ e, rt_size_len (options_Size api_PageResponse_size (Some e))) +
      llen (billingv1_QueryLeasesBySKUResponse_unknownFields x)
  end.

Definition billingv1_QueryLeasesBySKUResponse_write (x : billingv1_QueryLeasesBySKUResponse) : writer :=
  rt_put_unknown (billingv1_QueryLeasesBySKUResponse_unknownFields x) ;;>
  if_some (billingv1_QueryLeasesBySKUResponse_Pagination x) (λ e, rt_put_msg 0x12 (options_Marshal api_PageResponse_marshal (Some e))) ;;>
  put_each (λ e, rt_put_msg 0xa (options_Marshal billingv1_Lease_marshal e)) (billingv1_QueryLeasesBySKUResponse_Leases x).

Definition billingv1_QueryLeasesBySKUResponse_marshal : bytes → option billingv1_QueryLeasesBySKUResponse → res bytes
  := rt_marshal billingv1_QueryLeasesBySKUResponse_size billingv1_QueryLeasesBySKUResponse_write.

Definition billingv1_QueryLeasesBySKUResponse_case_1 (discard : bool) (wireType : Z) (dAtA : bytes) (iNdEx : Z) (x :
    billingv1_QueryLeasesBySKUResponse) : res (billingv1_QueryLeasesBySKUResponse * Z) :=
  let 'mk_billingv1_QueryLeasesBySKUResponse leases pagination u := x in
  '(v, iNdEx) ← rt_get_msg billingv1_Lease_unmarshal billingv1_Lease_new None discard wireType dAtA iNdEx;
  Ok (mk_billingv1_QueryLeasesBySKUResponse (leases ++ [v]) pagination u, iNdEx).

Definition billingv1_QueryLeasesBySKUResponse_case_2 (discard : bool) (wireType : Z) (dAtA : bytes) (iNdEx : Z) (x :
    billingv1_QueryLeasesBySKUResponse) : res (billingv1_QueryLeasesBySKUResponse * Z) :=
  let 'mk_billingv1_QueryLeasesBySKUResponse leases pagination u := x in
  '(v, iNdEx) ← rt_get_msg api_PageResponse_unmarshal api_PageResponse_new pagination discard wireType dAtA iNdEx;
  Ok (mk_billingv1_QueryLeasesBySKUResponse leases v u, iNdEx).

Definition billingv1_QueryLeasesBySKUResponse_switch (discard : bool) (fieldNum wireType : Z) (dAtA : bytes) (iNdEx :
    Z) (x : billingv1_QueryLeasesBySKUResponse) : option (res (billingv1_QueryLeasesBySKUResponse * Z)) :=
  match fieldNum with
  | 1 => Some (billingv1_QueryLeasesBySKUResponse_case_1 discard wireType dAtA iNdEx x)
  | 2 => Some (billingv1_QueryLeasesBySKUResponse_case_2 discard wireType dAtA iNdEx x)
  | _ => None
  end.

Definition billingv1_QueryLeasesBySKUResponse_keep (f : bytes) (x : billingv1_QueryLeasesBySKUResponse) :
    billingv1_QueryLeasesBySKUResponse :=
  let 'mk_billingv1_QueryLeasesBySKUResponse leases pagination u := x in mk_billingv1_QueryLeasesBySKUResponse leases
    pagination (u ++ f).

Definition billingv1_QueryLeasesBySKUResponse_unmarshal : bool → bytes → option billingv1_QueryLeasesBySKUResponse →
  res (option billingv1_QueryLeasesBySKUResponse) := rt_unmarshal billingv1_QueryLeasesBySKUResponse_switch
  billingv1_QueryLeasesBySKUResponse_keep.

Definition billingv1_QueryLeasesBySKUResponse_wire (x : billingv1_QueryLeasesBySKUResponse) : bytes :=
  enc_each (λ e, len_field 0xa (wire_ptr billingv1_Lease_wire e)) (billingv1_QueryLeasesBySKUResponse_Leases x) ++
  enc_opt (λ e, len_field 0x12 (api_PageResponse_wire e)) (billingv1_QueryLeasesBySKUResponse_Pagination x) ++
  billingv1_QueryLeasesBySKUResponse_unknownFields x.

(** ** QueryCreditEstimateRequest *)

Definition billingv1_QueryCreditEstimateRequest_size (x : option billingv1_QueryCreditEstimateRequest) : Z :=
  match x with
  | None => 0
  | Some x =>
      rt_size_str (billingv1_QueryCreditEstimateRequest_Tenant x) +
      llen (billingv1_QueryCreditEstimateRequest_unknownFields x)
  end.

Definition billingv1_QueryCreditEstimateRequest_write (x : billingv1_QueryCreditEstimateRequest) : writer :=
  rt_put_unknown (billingv1_QueryCreditEstimateRequest_unknownFields x) ;;>
  if_nonempty (billingv1_QueryCreditEstimateRequest_Tenant x) (rt_put_bytes 0xa (billingv1_QueryCreditEstimateRequest_Tenant x)).

Definition billingv1_QueryCreditEstimateRequest_marshal : bytes → option billingv1_QueryCreditEstimateRequest → res
  bytes := rt_marshal billingv1_QueryCreditEstimateRequest_size billingv1_QueryCreditEstimateRequest_write.

Definition billingv1_QueryCreditEstimateRequest_case_1 (discard : bool) (wireType : Z) (dAtA : bytes) (iNdEx : Z) (x :
    billingv1_QueryCreditEstimateRequest) : res (billingv1_QueryCreditEstimateRequest * Z) :=
  let 'mk_billingv1_QueryCreditEstimateRequest tenant u := x in
  '(v, iNdEx) ← get_string wireType dAtA iNdEx;
  Ok (mk_billingv1_QueryCreditEstimateRequest v u, iNdEx).

Definition billingv1_QueryCreditEstimateRequest_switch (discard : bool) (fieldNum wireType : Z) (dAtA : bytes) (iNdEx
    : Z) (x : billingv1_QueryCreditEstimateRequest) : option (res (billingv1_QueryCreditEstimateRequest * Z)) :=
  match fieldNum with
  | 1 => Some (billingv1_QueryCreditEstimateRequest_case_1 discard wireType dAtA iNdEx x)
  | _ => None
  end.

Definition billingv1_QueryCreditEstimateRequest_keep (f : bytes) (x : billingv1_QueryCreditEstimateRequest) :
    billingv1_QueryCreditEstimateRequest :=
  let 'mk_billingv1_QueryCreditEstimateRequest tenant u := x in mk_billingv1_QueryCreditEstimateRequest tenant (u ++
    f).

Definition billingv1_QueryCreditEstimateRequest_unmarshal : bool → bytes → option billingv1_QueryCreditEstimateRequest
  → res (option billingv1_QueryCreditEstimateRequest) := rt_unmarshal billingv1_QueryCreditEstimateRequest_switch
  billingv1_QueryCreditEstimateRequest_keep.

Definition billingv1_QueryCreditEstimateRequest_wire (x : billingv1_QueryCreditEstimateRequest) : bytes :=
  enc_str 0xa (billingv1_QueryCreditEstimateRequest_Tenant x) ++
  billingv1_QueryCreditEstimateRequest_unknownFields x.

(** ** QueryCreditEstimateResponse *)

Definition billingv1_QueryCreditEstimateResponse_size (x : option billingv1_QueryCreditEstimateResponse) : Z :=
  match x with
  | None => 0
  | Some x =>
      size_each (λ e, rt_size_len (options_Size api_Coin_size e)) (billingv1_QueryCreditEstimateResponse_CurrentBalance x) +
      size_each (λ e, rt_size_len (options_Size api_Coin_size e)) (billingv1_QueryCreditEstimateResponse_TotalRatePerSecond x) +
      rt_size_num (billingv1_QueryCreditEstimateResponse_EstimatedDurationSeconds x) +
      rt_size_num (billingv1_QueryCreditEstimateResponse_ActiveLeaseCount x) +
      llen (billingv1_QueryCreditEstimateResponse_unknownFields x)
  end.

Definition billingv1_QueryCreditEstimateResponse_write (x : billingv1_QueryCreditEstimateResponse) : writer :=
  rt_put_unknown (billingv1_QueryCreditEstimateResponse_unknownFields x) ;;>
  if_nonzero (billingv1_QueryCreditEstimateResponse_ActiveLeaseCount x) (rt_put_uint 0x20 (billingv1_QueryCreditEstimateResponse_ActiveLeaseCount x)) ;;>
  if_nonzero (billingv1_QueryCreditEstimateResponse_EstimatedDurationSeconds x) (rt_put_uint 0x18 (billingv1_QueryCreditEstimateResponse_EstimatedDurationSeconds x)) ;;>
  put_each (λ e, rt_put_msg 0x12 (options_Marshal api_Coin_marshal e)) (billingv1_QueryCreditEstimateResponse_TotalRatePerSecond x) ;;>
  put_each (λ e, rt_put_msg 0xa (options_Marshal api_Coin_marshal e)) (billingv1_QueryCreditEstimateResponse_CurrentBalance x).

Definition billingv1_QueryCreditEstimateResponse_marshal : bytes → option billingv1_QueryCreditEstimateResponse → res
  bytes := rt_marshal billingv1_QueryCreditEstimateResponse_size billingv1_QueryCreditEstimateResponse_write.

Definition billingv1_QueryCreditEstimateResponse_case_1 (discard : bool) (wireType : Z) (dAtA : bytes) (iNdEx : Z) (x
    : billingv1_QueryCreditEstimateResponse) : res (billingv1_QueryCreditEstimateResponse * Z) :=
  let 'mk_billingv1_QueryCreditEstimateResponse currentBalance totalRatePerSecond estimatedDurationSeconds
    activeLeaseCount u := x in
  '(v, iNdEx) ← rt_get_msg api_Coin_unmarshal api_Coin_new None discard wireType dAtA iNdEx;
  Ok (mk_billingv1_QueryCreditEstimateResponse (currentBalance ++ [v]) totalRatePerSecond estimatedDurationSeconds
    activeLeaseCount u, iNdEx).

Definition billingv1_QueryCreditEstimateResponse_case_2 (discard : bool) (wireType : Z) (dAtA : bytes) (iNdEx : Z) (x
    : billingv1_QueryCreditEstimateResponse) : res (billingv1_QueryCreditEstimateResponse * Z) :=
  let 'mk_billingv1_QueryCreditEstimateResponse currentBalance totalRatePerSecond estimatedDurationSeconds
    activeLeaseCount u := x in
  '(v, iNdEx) ← rt_get_msg api_Coin_unmarshal api_Coin_new None discard wireType dAtA iNdEx;
  Ok (mk_billingv1_QueryCreditEstimateResponse currentBalance (totalRatePerSecond ++ [v]) estimatedDurationSeconds
    activeLeaseCount u, iNdEx).

Definition billingv1_QueryCreditEstimateResponse_case_3 (discard : bool) (wireType : Z) (dAtA : bytes) (iNdEx : Z) (x
    : billingv1_QueryCreditEstimateResponse) : res (billingv1_QueryCreditEstimateResponse * Z) :=
  let 'mk_billingv1_QueryCreditEstimateResponse currentBalance totalRatePerSecond estimatedDurationSeconds
    activeLeaseCount u := x in
  '(v, iNdEx) ← get_uint wireType dAtA iNdEx;
  Ok (mk_billingv1_QueryCreditEstimateResponse currentBalance totalRatePerSecond v activeLeaseCount u, iNdEx).

Definition billingv1_QueryCreditEstimateResponse_case_4 (discard : bool) (wireType : Z) (dAtA : bytes) (iNdEx : Z) (x
    : billingv1_QueryCreditEstimateResponse) : res (billingv1_QueryCreditEstimateResponse * Z) :=
  let 'mk_billingv1_QueryCreditEstimateResponse currentBalance totalRatePerSecond estimatedDurationSeconds
    activeLeaseCount u := x in
  '(v, iNdEx) ← get_uint wireType dAtA iNdEx;
  Ok (mk_billingv1_QueryCreditEstimateResponse currentBalance totalRatePerSecond estimatedDurationSeconds v u, iNdEx).

Definition billingv1_QueryCreditEstimateResponse_switch (discard : bool) (fieldNum wireType : Z) (dAtA : bytes) (iNdEx
    : Z) (x : billingv1_QueryCreditEstimateResponse) : option (res (billingv1_QueryCreditEstimateResponse * Z)) :=
  match fieldNum with
  | 1 => Some (billingv1_QueryCreditEstimateResponse_case_1 discard wireType dAtA iNdEx x)
  | 2 => Some (billingv1_QueryCreditEstimateResponse_case_2 discard wireType dAtA iNdEx x)
  | 3 => Some (billingv1_QueryCreditEstimateResponse_case_3 discard wireType dAtA iNdEx x)
  | 4 => Some (billingv1_QueryCreditEstimateResponse_case_4 discard wireType dAtA iNdEx x)
  | _ => None
  end.

Definition billingv1_QueryCreditEstimateResponse_keep (f : bytes) (x : billingv1_QueryCreditEstimateResponse) :
    billingv1_QueryCreditEstimateResponse :=
  let 'mk_billingv1_QueryCreditEstimateResponse currentBalance totalRatePerSecond estimatedDurationSeconds
    activeLeaseCount u := x in mk_billingv1_QueryCreditEstimateResponse currentBalance totalRatePerSecond
    estimatedDurationSeconds activeLeaseCount (u ++ f).

Definition billingv1_QueryCreditEstimateResponse_unmarshal : bool → bytes → option
  billingv1_QueryCreditEstimateResponse → res (option billingv1_QueryCreditEstimateResponse) := rt_unmarshal
  billingv1_QueryCreditEstimateResponse_switch billingv1_QueryCreditEstimateResponse_keep.

Definition billingv1_QueryCreditEstimateResponse_wire (x : billingv1_QueryCreditEstimateResponse) : bytes :=
  enc_each (λ e, len_field 0xa (wire_ptr api_Coin_wire e)) (billingv1_QueryCreditEstimateResponse_CurrentBalance x) ++
  enc_each (λ e, len_field 0x12 (wire_ptr api_Coin_wire e)) (billingv1_QueryCreditEstimateResponse_TotalRatePerSecond x) ++
  enc_uint 0x18 (billingv1_QueryCreditEstimateResponse_EstimatedDurationSeconds x) ++
  enc_uint 0x20 (billingv1_QueryCreditEstimateResponse_ActiveLeaseCount x) ++
  billingv1_QueryCreditEstimateResponse_unknownFields x.

(** ** QueryLeaseByCustomDomainRequest *)

Definition billingv1_QueryLeaseByCustomDomainRequest_size (x : option billingv1_QueryLeaseByCustomDomainRequest) : Z :=
  match x with
  | None => 0
  | Some x =>
      rt_size_str (billingv1_QueryLeaseByCustomDomainRequest_CustomDomain x) +
      llen (billingv1_QueryLeaseByCustomDomainRequest_unknownFields x)
  end.

Definition billingv1_QueryLeaseByCustomDomainRequest_write (x : billingv1_QueryLeaseByCustomDomainRequest) : writer :=
  rt_put_unknown (billingv1_QueryLeaseByCustomDomainRequest_unknownFields x) ;;>
  if_nonempty (billingv1_QueryLeaseByCustomDomainRequest_CustomDomain x) (rt_put_bytes 0xa (billingv1_QueryLeaseByCustomDomainRequest_CustomDomain x)).

Definition billingv1_QueryLeaseByCustomDomainRequest_marshal : bytes → option
  billingv1_QueryLeaseByCustomDomainRequest → res bytes := rt_marshal billingv1_QueryLeaseByCustomDomainRequest_size
  billingv1_QueryLeaseByCustomDomainRequest_write.

Definition billingv1_QueryLeaseByCustomDomainRequest_case_1 (discard : bool) (wireType : Z) (dAtA : bytes) (iNdEx : Z)
    (x : billingv1_QueryLeaseByCustomDomainRequest) : res (billingv1_QueryLeaseByCustomDomainRequest * Z) :=
  let 'mk_billingv1_QueryLeaseByCustomDomainRequest customDomain u := x in
  '(v, iNdEx) ← get_string wireType dAtA iNdEx;
  Ok (mk_billingv1_QueryLeaseByCustomDomainRequest v u, iNdEx).

Definition billingv1_QueryLeaseByCustomDomainRequest_switch (discard : bool) (fieldNum wireType : Z) (dAtA : bytes)
    (iNdEx : Z) (x : billingv1_QueryLeaseByCustomDomainRequest) : option (res
    (billingv1_QueryLeaseByCustomDomainRequest * Z)) :=
  match fieldNum with
  | 1 => Some (billingv1_QueryLeaseByCustomDomainRequest_case_1 discard wireType dAtA iNdEx x)
  | _ => None
  end.

Definition billingv1_QueryLeaseByCustomDomainRequest_keep (f : bytes) (x : billingv1_QueryLeaseByCustomDomainRequest)
    : billingv1_QueryLeaseByCustomDomainRequest :=
  let 'mk_billingv1_QueryLeaseByCustomDomainRequest customDomain u := x in
    mk_billingv1_QueryLeaseByCustomDomainRequest customDomain (u ++ f).

Definition billingv1_QueryLeaseByCustomDomainRequest_unmarshal : bool → bytes → option
  billingv1_QueryLeaseByCustomDomainRequest → res (option billingv1_QueryLeaseByCustomDomainRequest) := rt_unmarshal
  billingv1_QueryLeaseByCustomDomainRequest_switch billingv1_QueryLeaseByCustomDomainRequest_keep.

Definition billingv1_QueryLeaseByCustomDomainRequest_wire (x : billingv1_QueryLeaseByCustomDomainRequest) : bytes :=
  enc_str 0xa (billingv1_QueryLeaseByCustomDomainRequest_CustomDomain x) ++
  billingv1_QueryLeaseByCustomDomainRequest_unknownFields x.

(** ** QueryLeaseByCustomDomainResponse *)

Definition billingv1_QueryLeaseByCustomDomainResponse_size (x : option billingv1_QueryLeaseByCustomDomainResponse) : Z :=
  match x with
  | None => 0
  | Some x =>
      size_opt (billingv1_QueryLeaseByCustomDomainResponse_Lease x) (λ e, rt_size_len (options_Size billingv1_Lease_size (Some e))) +
      rt_size_str (billingv1_QueryLeaseByCustomDomainResponse_ServiceName x) +
      llen (billingv1_QueryLeaseByCustomDomainResponse_unknownFields x)
  end.

Definition billingv1_QueryLeaseByCustomDomainResponse_write (x : billingv1_QueryLeaseByCustomDomainResponse) : writer :=
  rt_put_unknown (billingv1_QueryLeaseByCustomDomainResponse_unknownFields x) ;;>
  if_nonempty (billingv1_QueryLeaseByCustomDomainResponse_ServiceName x) (rt_put_bytes 0x12 (billingv1_QueryLeaseByCustomDomainResponse_ServiceName x)) ;;>
  if_some (billingv1_QueryLeaseByCustomDomainResponse_Lease x) (λ e, rt_put_msg 0xa (options_Marshal billingv1_Lease_marshal (Some e))).

Definition billingv1_QueryLeaseByCustomDomainResponse_marshal : bytes → option
  billingv1_QueryLeaseByCustomDomainResponse → res bytes := rt_marshal billingv1_QueryLeaseByCustomDomainResponse_size
  billingv1_QueryLeaseByCustomDomainResponse_write.

Definition billingv1_QueryLeaseByCustomDomainResponse_case_1 (discard : bool) (wireType : Z) (dAtA : bytes) (iNdEx :
    Z) (x : billingv1_QueryLeaseByCustomDomainResponse) : res (billingv1_QueryLeaseByCustomDomainResponse * Z) :=
  let 'mk_billingv1_QueryLeaseByCustomDomainResponse lease serviceName u := x in
  '(v, iNdEx) ← rt_get_msg billingv1_Lease_unmarshal billingv1_Lease_new lease discard wireType dAtA iNdEx;
  Ok (mk_billingv1_QueryLeaseByCustomDomainResponse v serviceName u, iNdEx).

Definition billingv1_QueryLeaseByCustomDomainResponse_case_2 (discard : bool) (wireType : Z) (dAtA : bytes) (iNdEx :
    Z) (x : billingv1_QueryLeaseByCustomDomainResponse) : res (billingv1_QueryLeaseByCustomDomainResponse * Z) :=
  let 'mk_billingv1_QueryLeaseByCustomDomainResponse lease serviceName u := x in
  '(v, iNdEx) ← get_string wireType dAtA iNdEx;
  Ok (mk_billingv1_QueryLeaseByCustomDomainResponse lease v u, iNdEx).

Definition billingv1_QueryLeaseByCustomDomainResponse_switch (discard : bool) (fieldNum wireType : Z) (dAtA : bytes)
    (iNdEx : Z) (x : billingv1_QueryLeaseByCustomDomainResponse) : option (res
    (billingv1_QueryLeaseByCustomDomainResponse * Z)) :=
  match fieldNum with
  | 1 => Some (billingv1_QueryLeaseByCustomDomainResponse_case_1 discard wireType dAtA iNdEx x)
  | 2 => Some (billingv1_QueryLeaseByCustomDomainResponse_case_2 discard wireType dAtA iNdEx x)
  | _ => None
  end.

Definition billingv1_QueryLeaseByCustomDomainResponse_keep (f : bytes) (x :
    billingv1_QueryLeaseByCustomDomainResponse) : billingv1_QueryLeaseByCustomDomainResponse :=
  let 'mk_billingv1_QueryLeaseByCustomDomainResponse lease serviceName u := x in
    mk_billingv1_QueryLeaseByCustomDomainResponse lease serviceName (u ++ f).

Definition billingv1_QueryLeaseByCustomDomainResponse_unmarshal : bool → bytes → option
  billingv1_QueryLeaseByCustomDomainResponse → res (option billingv1_QueryLeaseByCustomDomainResponse) := rt_unmarshal
  billingv1_QueryLeaseByCustomDomainResponse_switch billingv1_QueryLeaseByCustomDomainResponse_keep.

Definition billingv1_QueryLeaseByCustomDomainResponse_wire (x : billingv1_QueryLeaseByCustomDomainResponse) : bytes :=
  enc_opt (λ e, len_field 0xa (billingv1_Lease_wire e)) (billingv1_QueryLeaseByCustomDomainResponse_Lease x) ++
  enc_str 0x12 (billingv1_QueryLeaseByCustomDomainResponse_ServiceName x) ++
  billingv1_QueryLeaseByCustomDomainResponse_unknownFields x.

End codec.

(** ** Lawful messages *)

Section laws.
Context `{RL : RuntimeLaws} `{EL : ExternalLaws}.

Definition billingv1_QueryParamsRequest_fits (x : billingv1_QueryParamsRequest) : Prop := unknown_fits 0
  (billingv1_QueryParamsRequest_unknownFields x).

#[global] Instance billingv1_QueryParamsRequest_lawful :
  api_lawful billingv1_QueryParamsRequest_fits billingv1_QueryParamsRequest_size billingv1_QueryParamsRequest_marshal
    billingv1_QueryParamsRequest_unmarshal billingv1_QueryParamsRequest_wire billingv1_QueryParamsRequest_new.
Proof. solve_api. intros [u] Hu _. change (unknown_fits 0 u) in Hu. api_unknown 0 mk_billingv1_QueryParamsRequest. Qed.

Definition billingv1_QueryParamsResponse_fits (x : billingv1_QueryParamsResponse) : Prop := fits_opt
  billingv1_Params_fits (billingv1_QueryParamsResponse_Params x) ∧ unknown_fits 1
  (billingv1_QueryParamsResponse_unknownFields x).

#[global] Instance billingv1_QueryParamsResponse_lawful :
  api_lawful billingv1_QueryParamsResponse_fits billingv1_QueryParamsResponse_size
    billingv1_QueryParamsResponse_marshal billingv1_QueryParamsResponse_unmarshal billingv1_QueryParamsResponse_wire
    billingv1_QueryParamsResponse_new.
Proof.
  solve_api. intros [params u]; open_api Hl.
  api_msg 1 billingv1_Params_unmarshal billingv1_Params_new (λ l, mk_billingv1_QueryParamsResponse l []) Hl.
  api_unknown 1 (λ u, mk_billingv1_QueryParamsResponse params u).
Qed.

Definition billingv1_QueryLeaseRequest_fits (x : billingv1_QueryLeaseRequest) : Prop := unknown_fits 1
  (billingv1_QueryLeaseRequest_unknownFields x).

#[global] Instance billingv1_QueryLeaseRequest_lawful :
  api_lawful billingv1_QueryLeaseRequest_fits billingv1_QueryLeaseRequest_size billingv1_QueryLeaseRequest_marshal
    billingv1_QueryLeaseRequest_unmarshal billingv1_QueryLeaseRequest_wire billingv1_QueryLeaseRequest_new.
Proof.
  solve_api. intros [leaseUuid u]; open_api Hl.
  api_string 1. api_unknown 1 (λ u, mk_billingv1_QueryLeaseRequest leaseUuid u).
Qed.

Definition billingv1_QueryLeaseResponse_fits (x : billingv1_QueryLeaseResponse) : Prop := fits_opt
  billingv1_Lease_fits (billingv1_QueryLeaseResponse_Lease x) ∧ unknown_fits 1
  (billingv1_QueryLeaseResponse_unknownFields x).

#[global] Instance billingv1_QueryLeaseResponse_lawful :
  api_lawful billingv1_QueryLeaseResponse_fits billingv1_QueryLeaseResponse_size billingv1_QueryLeaseResponse_marshal
    billingv1_QueryLeaseResponse_unmarshal billingv1_QueryLeaseResponse_wire billingv1_QueryLeaseResponse_new.
Proof.
  solve_api. intros [lease u]; open_api Hl.
  api_msg 1 billingv1_Lease_unmarshal billingv1_Lease_new (λ l, mk_billingv1_QueryLeaseResponse l []) Hl. api_unknown
  1 (λ u, mk_billingv1_QueryLeaseResponse lease u).
Qed.

Definition billingv1_QueryLeasesRequest_fits (x : billingv1_QueryLeasesRequest) : Prop := fits_opt
  api_PageRequest_fits (billingv1_QueryLeasesRequest_Pagination x) ∧ is_i32 (billingv1_QueryLeasesRequest_StateFilter
  x) ∧ unknown_fits 2 (billingv1_QueryLeasesRequest_unknownFields x).

#[global] Instance billingv1_QueryLeasesRequest_lawful :
  api_lawful billingv1_QueryLeasesRequest_fits billingv1_QueryLeasesRequest_size billingv1_QueryLeasesRequest_marshal
    billingv1_QueryLeasesRequest_unmarshal billingv1_QueryLeasesRequest_wire billingv1_QueryLeasesRequest_new.
Proof.
  solve_api. intros [pagination stateFilter u]; open_api Hl.
  api_msg 1 api_PageRequest_unmarshal api_PageRequest_new (λ l, mk_billingv1_QueryLeasesRequest l 0 []) Hl. api_enum
  2. api_unknown 2 (λ u, mk_billingv1_QueryLeasesRequest pagination stateFilter u).
Qed.

Definition billingv1_QueryLeasesResponse_fits (x : billingv1_QueryLeasesResponse) : Prop := fits_each
  billingv1_Lease_fits (billingv1_QueryLeasesResponse_Leases x) ∧ fits_opt api_PageResponse_fits
  (billingv1_QueryLeasesResponse_Pagination x) ∧ unknown_fits 2 (billingv1_QueryLeasesResponse_unknownFields x).

#[global] Instance billingv1_QueryLeasesResponse_lawful :
  api_lawful billingv1_QueryLeasesResponse_fits billingv1_QueryLeasesResponse_size
    billingv1_QueryLeasesResponse_marshal billingv1_QueryLeasesResponse_unmarshal billingv1_QueryLeasesResponse_wire
    billingv1_QueryLeasesResponse_new.
Proof.
  solve_api. intros [leases pagination u]; open_api Hl.
  api_msgs 1 billingv1_Lease_unmarshal billingv1_Lease_new (λ l, mk_billingv1_QueryLeasesResponse l None []) Hl.
  api_msg 2 api_PageResponse_unmarshal api_PageResponse_new (λ l, mk_billingv1_QueryLeasesResponse leases l []) Hl.
  api_unknown 2 (λ u, mk_billingv1_QueryLeasesResponse leases pagination u).
Qed.

Definition billingv1_QueryLeasesByTenantRequest_fits (x : billingv1_QueryLeasesByTenantRequest) : Prop := fits_opt
  api_PageRequest_fits (billingv1_QueryLeasesByTenantRequest_Pagination x) ∧ is_i32
  (billingv1_QueryLeasesByTenantRequest_StateFilter x) ∧ unknown_fits 3
  (billingv1_QueryLeasesByTenantRequest_unknownFields x).

#[global] Instance billingv1_QueryLeasesByTenantRequest_lawful :
  api_lawful billingv1_QueryLeasesByTenantRequest_fits billingv1_QueryLeasesByTenantRequest_size
    billingv1_QueryLeasesByTenantRequest_marshal billingv1_QueryLeasesByTenantRequest_unmarshal
    billingv1_QueryLeasesByTenantRequest_wire billingv1_QueryLeasesByTenantRequest_new.
Proof.
  solve_api. intros [tenant pagination stateFilter u]; open_api Hl.
  api_string 1. api_msg 2 api_PageRequest_unmarshal api_PageRequest_new (λ l, mk_billingv1_QueryLeasesByTenantRequest
  tenant l 0 []) Hl. api_enum 3. api_unknown 3 (λ u, mk_billingv1_QueryLeasesByTenantRequest tenant pagination
  stateFilter u).
Qed.

Definition billingv1_QueryLeasesByTenantResponse_fits (x : billingv1_QueryLeasesByTenantResponse) : Prop := fits_each
  billingv1_Lease_fits (billingv1_QueryLeasesByTenantResponse_Leases x) ∧ fits_opt api_PageResponse_fits
  (billingv1_QueryLeasesByTenantResponse_Pagination x) ∧ unknown_fits 2
  (billingv1_QueryLeasesByTenantResponse_unknownFields x).

#[global] Instance billingv1_QueryLeasesByTenantResponse_lawful :
  api_lawful billingv1_QueryLeasesByTenantResponse_fits billingv1_QueryLeasesByTenantResponse_size
    billingv1_QueryLeasesByTenantResponse_marshal billingv1_QueryLeasesByTenantResponse_unmarshal
    billingv1_QueryLeasesByTenantResponse_wire billingv1_QueryLeasesByTenantResponse_new.
Proof.
  solve_api. intros [leases pagination u]; open_api Hl.
  api_msgs 1 billingv1_Lease_unmarshal billingv1_Lease_new (λ l, mk_billingv1_QueryLeasesByTenantResponse l None [])
  Hl. api_msg 2 api_PageResponse_unmarshal api_PageResponse_new (λ l, mk_billingv1_QueryLeasesByTenantResponse leases
  l []) Hl. api_unknown 2 (λ u, mk_billingv1_QueryLeasesByTenantResponse leases pagination u).
Qed.

Definition billingv1_QueryLeasesByProviderRequest_fits (x : billingv1_QueryLeasesByProviderRequest) : Prop := fits_opt
  api_PageRequest_fits (billingv1_QueryLeasesByProviderRequest_Pagination x) ∧ is_i32
  (billingv1_QueryLeasesByProviderRequest_StateFilter x) ∧ unknown_fits 3
  (billingv1_QueryLeasesByProviderRequest_unknownFields x).

#[global] Instance billingv1_QueryLeasesByProviderRequest_lawful :
  api_lawful billingv1_QueryLeasesByProviderRequest_fits billingv1_QueryLeasesByProviderRequest_size
    billingv1_QueryLeasesByProviderRequest_marshal billingv1_QueryLeasesByProviderRequest_unmarshal
    billingv1_QueryLeasesByProviderRequest_wire billingv1_QueryLeasesByProviderRequest_new.
Proof.
  solve_api. intros [providerUuid pagination stateFilter u]; open_api Hl.
  api_string 1. api_msg 2 api_PageRequest_unmarshal api_PageRequest_new (λ l,
  mk_billingv1_QueryLeasesByProviderRequest providerUuid l 0 []) Hl. api_enum 3. api_unknown 3 (λ u,
  mk_billingv1_QueryLeasesByProviderRequest providerUuid pagination stateFilter u).
Qed.

Definition billingv1_QueryLeasesByProviderResponse_fits (x : billingv1_QueryLeasesByProviderResponse) : Prop :=
  fits_each billingv1_Lease_fits (billingv1_QueryLeasesByProviderResponse_Leases x) ∧ fits_opt api_PageResponse_fits
  (billingv1_QueryLeasesByProviderResponse_Pagination x) ∧ unknown_fits 2
  (billingv1_QueryLeasesByProviderResponse_unknownFields x).

#[global] Instance billingv1_QueryLeasesByProviderResponse_lawful :
  api_lawful billingv1_QueryLeasesByProviderResponse_fits billingv1_QueryLeasesByProviderResponse_size
    billingv1_QueryLeasesByProviderResponse_marshal billingv1_QueryLeasesByProviderResponse_unmarshal
    billingv1_QueryLeasesByProviderResponse_wire billingv1_QueryLeasesByProviderResponse_new.
Proof.
  solve_api. intros [leases pagination u]; open_api Hl.
  api_msgs 1 billingv1_Lease_unmarshal billingv1_Lease_new (λ l, mk_billingv1_QueryLeasesByProviderResponse l None [])
  Hl. api_msg 2 api_PageResponse_unmarshal api_PageResponse_new (λ l, mk_billingv1_QueryLeasesByProviderResponse
  leases l []) Hl. api_unknown 2 (λ u, mk_billingv1_QueryLeasesByProviderResponse leases pagination u).
Qed.

Definition billingv1_QueryCreditAccountRequest_fits (x : billingv1_QueryCreditAccountRequest) : Prop := unknown_fits 1
  (billingv1_QueryCreditAccountRequest_unknownFields x).

#[global] Instance billingv1_QueryCreditAccountRequest_lawful :
  api_lawful billingv1_QueryCreditAccountRequest_fits billingv1_QueryCreditAccountRequest_size
    billingv1_QueryCreditAccountRequest_marshal billingv1_QueryCreditAccountRequest_unmarshal
    billingv1_QueryCreditAccountRequest_wire billingv1_QueryCreditAccountRequest_new.
Proof.
  solve_api. intros [tenant u]; open_api Hl.
  api_string 1. api_unknown 1 (λ u, mk_billingv1_QueryCreditAccountRequest tenant u).
Qed.

Definition billingv1_QueryCreditAccountResponse_fits (x : billingv1_QueryCreditAccountResponse) : Prop := fits_opt
  billingv1_CreditAccount_fits (billingv1_QueryCreditAccountResponse_CreditAccount x) ∧ fits_each api_Coin_fits
  (billingv1_QueryCreditAccountResponse_Balances x) ∧ fits_each api_Coin_fits
  (billingv1_QueryCreditAccountResponse_AvailableBalances x) ∧ unknown_fits 3
  (billingv1_QueryCreditAccountResponse_unknownFields x).

#[global] Instance billingv1_QueryCreditAccountResponse_lawful :
  api_lawful billingv1_QueryCreditAccountResponse_fits billingv1_QueryCreditAccountResponse_size
    billingv1_QueryCreditAccountResponse_marshal billingv1_QueryCreditAccountResponse_unmarshal
    billingv1_QueryCreditAccountResponse_wire billingv1_QueryCreditAccountResponse_new.
Proof.
  solve_api. intros [creditAccount balances availableBalances u]; open_api Hl.
  api_msg 1 billingv1_CreditAccount_unmarshal billingv1_CreditAccount_new (λ l,
  mk_billingv1_QueryCreditAccountResponse l [] [] []) Hl. api_msgs 2 api_Coin_unmarshal api_Coin_new (λ l,
  mk_billingv1_QueryCreditAccountResponse creditAccount l [] []) Hl. api_msgs 3 api_Coin_unmarshal api_Coin_new (λ l,
  mk_billingv1_QueryCreditAccountResponse creditAccount balances l []) Hl. api_unknown 3 (λ u,
  mk_billingv1_QueryCreditAccountResponse creditAccount balances availableBalances u).
Qed.

Definition billingv1_QueryCreditAddressRequest_fits (x : billingv1_QueryCreditAddressRequest) : Prop := unknown_fits 1
  (billingv1_QueryCreditAddressRequest_unknownFields x).

#[global] Instance billingv1_QueryCreditAddressRequest_lawful :
  api_lawful billingv1_QueryCreditAddressRequest_fits billingv1_QueryCreditAddressRequest_size
    billingv1_QueryCreditAddressRequest_marshal billingv1_QueryCreditAddressRequest_unmarshal
    billingv1_QueryCreditAddressRequest_wire billingv1_QueryCreditAddressRequest_new.
Proof.
  solve_api. intros [tenant u]; open_api Hl.
  api_string 1. api_unknown 1 (λ u, mk_billingv1_QueryCreditAddressRequest tenant u).
Qed.

Definition billingv1_QueryCreditAddressResponse_fits (x : billingv1_QueryCreditAddressResponse) : Prop := unknown_fits
  1 (billingv1_QueryCreditAddressResponse_unknownFields x).

#[global] Instance billingv1_QueryCreditAddressResponse_lawful :
  api_lawful billingv1_QueryCreditAddressResponse_fits billingv1_QueryCreditAddressResponse_size
    billingv1_QueryCreditAddressResponse_marshal billingv1_QueryCreditAddressResponse_unmarshal
    billingv1_QueryCreditAddressResponse_wire billingv1_QueryCreditAddressResponse_new.
Proof.
  solve_api. intros [creditAddress u]; open_api Hl.
  api_string 1. api_unknown 1 (λ u, mk_billingv1_QueryCreditAddressResponse creditAddress u).
Qed.

Definition billingv1_QueryWithdrawableAmountRequest_fits (x : billingv1_QueryWithdrawableAmountRequest) : Prop :=
  unknown_fits 1 (billingv1_QueryWithdrawableAmountRequest_unknownFields x).

#[global] Instance billingv1_QueryWithdrawableAmountRequest_lawful :
  api_lawful billingv1_QueryWithdrawableAmountRequest_fits billingv1_QueryWithdrawableAmountRequest_size
    billingv1_QueryWithdrawableAmountRequest_marshal billingv1_QueryWithdrawableAmountRequest_unmarshal
    billingv1_QueryWithdrawableAmountRequest_wire billingv1_QueryWithdrawableAmountRequest_new.
Proof.
  solve_api. intros [leaseUuid u]; open_api Hl.
  api_string 1. api_unknown 1 (λ u, mk_billingv1_QueryWithdrawableAmountRequest leaseUuid u).
Qed.

Definition billingv1_QueryWithdrawableAmountResponse_fits (x : billingv1_QueryWithdrawableAmountResponse) : Prop :=
  fits_each api_Coin_fits (billingv1_QueryWithdrawableAmountResponse_Amounts x) ∧ unknown_fits 1
  (billingv1_QueryWithdrawableAmountResponse_unknownFields x).

#[global] Instance billingv1_QueryWithdrawableAmountResponse_lawful :
  api_lawful billingv1_QueryWithdrawableAmountResponse_fits billingv1_QueryWithdrawableAmountResponse_size
    billingv1_QueryWithdrawableAmountResponse_marshal billingv1_QueryWithdrawableAmountResponse_unmarshal
    billingv1_QueryWithdrawableAmountResponse_wire billingv1_QueryWithdrawableAmountResponse_new.
Proof.
  solve_api. intros [amounts u]; open_api Hl.
  api_msgs 1 api_Coin_unmarshal api_Coin_new (λ l, mk_billingv1_QueryWithdrawableAmountResponse l []) Hl. api_unknown
  1 (λ u, mk_billingv1_QueryWithdrawableAmountResponse amounts u).
Qed.

Definition billingv1_QueryProviderWithdrawableRequest_fits (x : billingv1_QueryProviderWithdrawableRequest) : Prop :=
  is_u64 (billingv1_QueryProviderWithdrawableRequest_Limit x) ∧ unknown_fits 2
  (billingv1_QueryProviderWithdrawableRequest_unknownFields x).

#[global] Instance billingv1_QueryProviderWithdrawableRequest_lawful :
  api_lawful billingv1_QueryProviderWithdrawableRequest_fits billingv1_QueryProviderWithdrawableRequest_size
    billingv1_QueryProviderWithdrawableRequest_marshal billingv1_QueryProviderWithdrawableRequest_unmarshal
    billingv1_QueryProviderWithdrawableRequest_wire billingv1_QueryProviderWithdrawableRequest_new.
Proof.
  solve_api. intros [providerUuid limit u]; open_api Hl.
  api_string 1. api_uint 2. api_unknown 2 (λ u, mk_billingv1_QueryProviderWithdrawableRequest providerUuid limit u).
Qed.

Definition billingv1_QueryProviderWithdrawableResponse_fits (x : billingv1_QueryProviderWithdrawableResponse) : Prop
  := fits_each api_Coin_fits (billingv1_QueryProviderWithdrawableResponse_Amounts x) ∧ is_u64
  (billingv1_QueryProviderWithdrawableResponse_LeaseCount x) ∧ unknown_fits 3
  (billingv1_QueryProviderWithdrawableResponse_unknownFields x).

#[global] Instance billingv1_QueryProviderWithdrawableResponse_lawful :
  api_lawful billingv1_QueryProviderWithdrawableResponse_fits billingv1_QueryProviderWithdrawableResponse_size
    billingv1_QueryProviderWithdrawableResponse_marshal billingv1_QueryProviderWithdrawableResponse_unmarshal
    billingv1_QueryProviderWithdrawableResponse_wire billingv1_QueryProviderWithdrawableResponse_new.
Proof.
  solve_api. intros [amounts leaseCount hasMore u]; open_api Hl.
  api_msgs 1 api_Coin_unmarshal api_Coin_new (λ l, mk_billingv1_QueryProviderWithdrawableResponse l 0 false []) Hl.
  api_uint 2. api_bool 3. api_unknown 3 (λ u, mk_billingv1_QueryProviderWithdrawableResponse amounts leaseCount
  hasMore u).
Qed.

Definition billingv1_QueryCreditAccountsRequest_fits (x : billingv1_QueryCreditAccountsRequest) : Prop := fits_opt
  api_PageRequest_fits (billingv1_QueryCreditAccountsRequest_Pagination x) ∧ unknown_fits 1
  (billingv1_QueryCreditAccountsRequest_unknownFields x).

#[global] Instance billingv1_QueryCreditAccountsRequest_lawful :
  api_lawful billingv1_QueryCreditAccountsRequest_fits billingv1_QueryCreditAccountsRequest_size
    billingv1_QueryCreditAccountsRequest_marshal billingv1_QueryCreditAccountsRequest_unmarshal
    billingv1_QueryCreditAccountsRequest_wire billingv1_QueryCreditAccountsRequest_new.
Proof.
  solve_api. intros [pagination u]; open_api Hl.
  api_msg 1 api_PageRequest_unmarshal api_PageRequest_new (λ l, mk_billingv1_QueryCreditAccountsRequest l []) Hl.
  api_unknown 1 (λ u, mk_billingv1_QueryCreditAccountsRequest pagination u).
Qed.

Definition billingv1_QueryCreditAccountsResponse_fits (x : billingv1_QueryCreditAccountsResponse) : Prop := fits_each
  billingv1_CreditAccount_fits (billingv1_QueryCreditAccountsResponse_CreditAccounts x) ∧ fits_opt
  api_PageResponse_fits (billingv1_QueryCreditAccountsResponse_Pagination x) ∧ unknown_fits 2
  (billingv1_QueryCreditAccountsResponse_unknownFields x).

#[global] Instance billingv1_QueryCreditAccountsResponse_lawful :
  api_lawful billingv1_QueryCreditAccountsResponse_fits billingv1_QueryCreditAccountsResponse_size
    billingv1_QueryCreditAccountsResponse_marshal billingv1_QueryCreditAccountsResponse_unmarshal
    billingv1_QueryCreditAccountsResponse_wire billingv1_QueryCreditAccountsResponse_new.
Proof.
  solve_api. intros [creditAccounts pagination u]; open_api Hl.
  api_msgs 1 billingv1_CreditAccount_unmarshal billingv1_CreditAccount_new (λ l,
  mk_billingv1_QueryCreditAccountsResponse l None []) Hl. api_msg 2 api_PageResponse_unmarshal api_PageResponse_new (λ
  l, mk_billingv1_QueryCreditAccountsResponse creditAccounts l []) Hl. api_unknown 2 (λ u,
  mk_billingv1_QueryCreditAccountsResponse creditAccounts pagination u).
Qed.

Definition billingv1_QueryLeasesBySKURequest_fits (x : billingv1_QueryLeasesBySKURequest) : Prop := fits_opt
  api_PageRequest_fits (billingv1_QueryLeasesBySKURequest_Pagination x) ∧ is_i32
  (billingv1_QueryLeasesBySKURequest_StateFilter x) ∧ unknown_fits 3 (billingv1_QueryLeasesBySKURequest_unknownFields
  x).

#[global] Instance billingv1_QueryLeasesBySKURequest_lawful :
  api_lawful billingv1_QueryLeasesBySKURequest_fits billingv1_QueryLeasesBySKURequest_size
    billingv1_QueryLeasesBySKURequest_marshal billingv1_QueryLeasesBySKURequest_unmarshal
    billingv1_QueryLeasesBySKURequest_wire billingv1_QueryLeasesBySKURequest_new.
Proof.
  solve_api. intros [skuUuid pagination stateFilter u]; open_api Hl.
  api_string 1. api_msg 2 api_PageRequest_unmarshal api_PageRequest_new (λ l, mk_billingv1_QueryLeasesBySKURequest
  skuUuid l 0 []) Hl. api_enum 3. api_unknown 3 (λ u, mk_billingv1_QueryLeasesBySKURequest skuUuid pagination
  stateFilter u).
Qed.

Definition billingv1_QueryLeasesBySKUResponse_fits (x : billingv1_QueryLeasesBySKUResponse) : Prop := fits_each
  billingv1_Lease_fits (billingv1_QueryLeasesBySKUResponse_Leases x) ∧ fits_opt api_PageResponse_fits
  (billingv1_QueryLeasesBySKUResponse_Pagination x) ∧ unknown_fits 2 (billingv1_QueryLeasesBySKUResponse_unknownFields
  x).

#[global] Instance billingv1_QueryLeasesBySKUResponse_lawful :
  api_lawful billingv1_QueryLeasesBySKUResponse_fits billingv1_QueryLeasesBySKUResponse_size
    billingv1_QueryLeasesBySKUResponse_marshal billingv1_QueryLeasesBySKUResponse_unmarshal
    billingv1_QueryLeasesBySKUResponse_wire billingv1_QueryLeasesBySKUResponse_new.
Proof.
  solve_api. intros [leases pagination u]; open_api Hl.
  api_msgs 1 billingv1_Lease_unmarshal billingv1_Lease_new (λ l, mk_billingv1_QueryLeasesBySKUResponse l None []) Hl.
  api_msg 2 api_PageResponse_unmarshal api_PageResponse_new (λ l, mk_billingv1_QueryLeasesBySKUResponse leases l [])
  Hl. api_unknown 2 (λ u, mk_billingv1_QueryLeasesBySKUResponse leases pagination u).
Qed.

Definition billingv1_QueryCreditEstimateRequest_fits (x : billingv1_QueryCreditEstimateRequest) : Prop := unknown_fits
  1 (billingv1_QueryCreditEstimateRequest_unknownFields x).

#[global] Instance billingv1_QueryCreditEstimateRequest_lawful :
  api_lawful billingv1_QueryCreditEstimateRequest_fits billingv1_QueryCreditEstimateRequest_size
    billingv1_QueryCreditEstimateRequest_marshal billingv1_QueryCreditEstimateRequest_unmarshal
    billingv1_QueryCreditEstimateRequest_wire billingv1_QueryCreditEstimateRequest_new.
Proof.
  solve_api. intros [tenant u]; open_api Hl.
  api_string 1. api_unknown 1 (λ u, mk_billingv1_QueryCreditEstimateRequest tenant u).
Qed.

Definition billingv1_QueryCreditEstimateResponse_fits (x : billingv1_QueryCreditEstimateResponse) : Prop := fits_each
  api_Coin_fits (billingv1_QueryCreditEstimateResponse_CurrentBalance x) ∧ fits_each api_Coin_fits
  (billingv1_QueryCreditEstimateResponse_TotalRatePerSecond x) ∧ is_u64
  (billingv1_QueryCreditEstimateResponse_EstimatedDurationSeconds x) ∧ is_u64
  (billingv1_QueryCreditEstimateResponse_ActiveLeaseCount x) ∧ unknown_fits 4
  (billingv1_QueryCreditEstimateResponse_unknownFields x).

#[global] Instance billingv1_QueryCreditEstimateResponse_lawful :
  api_lawful billingv1_QueryCreditEstimateResponse_fits billingv1_QueryCreditEstimateResponse_size
    billingv1_QueryCreditEstimateResponse_marshal billingv1_QueryCreditEstimateResponse_unmarshal
    billingv1_QueryCreditEstimateResponse_wire billingv1_QueryCreditEstimateResponse_new.
Proof.
  solve_api. intros [currentBalance totalRatePerSecond estimatedDurationSeconds activeLeaseCount u]; open_api Hl.
  api_msgs 1 api_Coin_unmarshal api_Coin_new (λ l, mk_billingv1_QueryCreditEstimateResponse l [] 0 0 []) Hl. api_msgs
  2 api_Coin_unmarshal api_Coin_new (λ l, mk_billingv1_QueryCreditEstimateResponse currentBalance l 0 0 []) Hl.
  api_uint 3. api_uint 4. api_unknown 4 (λ u, mk_billingv1_QueryCreditEstimateResponse currentBalance
  totalRatePerSecond estimatedDurationSeconds activeLeaseCount u).
Qed.

Definition billingv1_QueryLeaseByCustomDomainRequest_fits (x : billingv1_QueryLeaseByCustomDomainRequest) : Prop :=
  unknown_fits 1 (billingv1_QueryLeaseByCustomDomainRequest_unknownFields x).

#[global] Instance billingv1_QueryLeaseByCustomDomainRequest_lawful :
  api_lawful billingv1_QueryLeaseByCustomDomainRequest_fits billingv1_QueryLeaseByCustomDomainRequest_size
    billingv1_QueryLeaseByCustomDomainRequest_marshal billingv1_QueryLeaseByCustomDomainRequest_unmarshal
    billingv1_QueryLeaseByCustomDomainRequest_wire billingv1_QueryLeaseByCustomDomainRequest_new.
Proof.
  solve_api. intros [customDomain u]; open_api Hl.
  api_string 1. api_unknown 1 (λ u, mk_billingv1_QueryLeaseByCustomDomainRequest customDomain u).
Qed.

Definition billingv1_QueryLeaseByCustomDomainResponse_fits (x : billingv1_QueryLeaseByCustomDomainResponse) : Prop :=
  fits_opt billingv1_Lease_fits (billingv1_QueryLeaseByCustomDomainResponse_Lease x) ∧ unknown_fits 2
  (billingv1_QueryLeaseByCustomDomainResponse_unknownFields x).

#[global] Instance billingv1_QueryLeaseByCustomDomainResponse_lawful :
  api_lawful billingv1_QueryLeaseByCustomDomainResponse_fits billingv1_QueryLeaseByCustomDomainResponse_size
    billingv1_QueryLeaseByCustomDomainResponse_marshal billingv1_QueryLeaseByCustomDomainResponse_unmarshal
    billingv1_QueryLeaseByCustomDomainResponse_wire billingv1_QueryLeaseByCustomDomainResponse_new.
Proof.
  solve_api. intros [lease serviceName u]; open_api Hl.
  api_msg 1 billingv1_Lease_unmarshal billingv1_Lease_new (λ l, mk_billingv1_QueryLeaseByCustomDomainResponse l "" [])
  Hl. api_string 2. api_unknown 2 (λ u, mk_billingv1_QueryLeaseByCustomDomainResponse lease serviceName u).
Qed.

End laws.
