(* ===== verification/ApiAgreement.v ===== *)
(** * The API bindings agree with the codecs of the modules

    A client that works with the types under src/api and a node that works with those of src/x
    exchange bytes. For every message there is a translation from the type of the module to that of the
    API ([billingv1_of_Lease] and its like: values become pointers, amounts and times the messages
    of their packages), and both sides write the same bytes for it and read them back. *)

From stdpp Require Import base tactics option list strings.
From Stdlib Require Import ZArith Lia Ascii.
From S2P Require Import Prelude Sdk Strconv Manifest SkuTypes BillingTypes Keeper Withdraw Querier SkuQuerier Genesis Wire WireProps Codec Unknown Gogo Page SkuCodec BillingCodec BillingTxCodec ManifestCodec SkuQueryCodec BillingQueryCodec GenesisCodec Registry Pulsar ApiExternal ApiManifest ApiSku ApiSkuQuery ApiBilling ApiBillingTx ApiBillingQuery.
Open Scope Z_scope.

(** ** Translations *)

Definition api_of_coin (c : Coin) : api_Coin := mk_api_Coin (Denom c) (FormatUint (Amount c)) [].
Definition api_of_time (t : Z) : api_Timestamp := mk_api_Timestamp (t / Second) (t mod Second) [].
Definition api_of_request (p : PageRequest) : api_PageRequest :=
  mk_api_PageRequest (Key p) (Offset p) (Limit p) (CountTotal p) (Reverse p) [].
Definition api_of_response (p : PageResponse) : api_PageResponse := mk_api_PageResponse (NextKey p) (Total p) [].

(** A slice of values as a slice of pointers. *)
Definition each {A B} (f : A → B) (l : list A) : list (option B) := (λ x, Some (f x)) <$> l.

Definition manifestv1_of_PayoutPair (m : PayoutPair) : manifestv1_PayoutPair :=
  mk_manifestv1_PayoutPair (pp_Address m) (Some (api_of_coin (pp_Coin m))) [].

Definition manifestv1_of_MsgPayout (m : MsgPayout) : manifestv1_MsgPayout :=
  mk_manifestv1_MsgPayout (mp_Authority m) (each manifestv1_of_PayoutPair (mp_PayoutPairs m)) [].

Definition manifestv1_of_MsgBurnHeldBalance (m : MsgBurnHeldBalance) : manifestv1_MsgBurnHeldBalance :=
  mk_manifestv1_MsgBurnHeldBalance (mb_Authority m) (each api_of_coin (mb_BurnCoins m)) [].

Definition skuv1_of_SkuParams (m : SkuParams) : skuv1_Params :=
  mk_skuv1_Params (sku_AllowedList m) [].

Definition skuv1_of_Provider (m : Provider) : skuv1_Provider :=
  mk_skuv1_Provider (prov_Uuid m) (prov_Address m) (prov_PayoutAddress m) (prov_MetaHash m) (prov_Active m)
    (prov_ApiUrl m) [].

Definition skuv1_of_SKU (m : SKU) : skuv1_SKU :=
  mk_skuv1_SKU (sku_Uuid m) (sku_ProviderUuid m) (sku_Name m) (Unit_number (sku_Unit m)) (Some (api_of_coin
    (sku_BasePrice m))) (sku_MetaHash m) (sku_Active m) [].

Definition skuv1_of_MsgCreateProvider (m : MsgCreateProvider) : skuv1_MsgCreateProvider :=
  mk_skuv1_MsgCreateProvider (cp_Authority m) (cp_Address m) (cp_PayoutAddress m) (cp_MetaHash m) (cp_ApiUrl m) [].

Definition skuv1_of_MsgCreateProviderResponse (m : MsgCreateProviderResponse) : skuv1_MsgCreateProviderResponse :=
  mk_skuv1_MsgCreateProviderResponse (cpr_Uuid m) [].

Definition skuv1_of_MsgUpdateProvider (m : MsgUpdateProvider) : skuv1_MsgUpdateProvider :=
  mk_skuv1_MsgUpdateProvider (up_Authority m) (up_Uuid m) (up_Address m) (up_PayoutAddress m) (up_MetaHash m)
    (up_Active m) (up_ApiUrl m) [].

Definition skuv1_of_MsgDeactivateProvider (m : MsgDeactivateProvider) : skuv1_MsgDeactivateProvider :=
  mk_skuv1_MsgDeactivateProvider (dp_Authority m) (dp_Uuid m) (dp_Limit m) [].

Definition skuv1_of_MsgDeactivateProviderResponse (m : MsgDeactivateProviderResponse) : skuv1_MsgDeactivateProviderResponse :=
  mk_skuv1_MsgDeactivateProviderResponse (dpr_DeactivatedSkuCount m) (dpr_HasMore m) [].

Definition skuv1_of_MsgCreateSKU (m : MsgCreateSKU) : skuv1_MsgCreateSKU :=
  mk_skuv1_MsgCreateSKU (cs_Authority m) (cs_ProviderUuid m) (cs_Name m) (Unit_number (cs_Unit m)) (Some (api_of_coin
    (cs_BasePrice m))) (cs_MetaHash m) [].

Definition skuv1_of_MsgCreateSKUResponse (m : MsgCreateSKUResponse) : skuv1_MsgCreateSKUResponse :=
  mk_skuv1_MsgCreateSKUResponse (csr_Uuid m) [].

Definition skuv1_of_MsgUpdateSKU (m : MsgUpdateSKU) : skuv1_MsgUpdateSKU :=
  mk_skuv1_MsgUpdateSKU (us_Authority m) (us_Uuid m) (us_ProviderUuid m) (us_Name m) (Unit_number (us_Unit m)) (Some
    (api_of_coin (us_BasePrice m))) (us_MetaHash m) (us_Active m) [].

Definition skuv1_of_MsgDeactivateSKU (m : MsgDeactivateSKU) : skuv1_MsgDeactivateSKU :=
  mk_skuv1_MsgDeactivateSKU (ds_Authority m) (ds_Uuid m) [].

Definition skuv1_of_SkuMsgUpdateParams (m : SkuMsgUpdateParams) : skuv1_MsgUpdateParams :=
  mk_skuv1_MsgUpdateParams (sp_Authority m) (Some (skuv1_of_SkuParams (sp_Params m))) [].

Definition skuv1_of_SkuQueryParamsResponse (m : SkuQueryParamsResponse) : skuv1_QueryParamsResponse :=
  mk_skuv1_QueryParamsResponse (Some (skuv1_of_SkuParams (sqpr_Params m))) [].

Definition skuv1_of_QueryProviderRequest (m : QueryProviderRequest) : skuv1_QueryProviderRequest :=
  mk_skuv1_QueryProviderRequest (qpv_Uuid m) [].

Definition skuv1_of_QueryProviderResponse (m : QueryProviderResponse) : skuv1_QueryProviderResponse :=
  mk_skuv1_QueryProviderResponse (Some (skuv1_of_Provider (qpvr_Provider m))) [].

Definition skuv1_of_QueryProvidersRequest (m : QueryProvidersRequest) : skuv1_QueryProvidersRequest :=
  mk_skuv1_QueryProvidersRequest (api_of_request <$> qp_Pagination m) (qp_ActiveOnly m) [].

Definition skuv1_of_QueryProvidersResponse (m : QueryProvidersResponse) : skuv1_QueryProvidersResponse :=
  mk_skuv1_QueryProvidersResponse (each skuv1_of_Provider (qpsr_Providers m)) (api_of_response <$> qpsr_Pagination m)
    [].

Definition skuv1_of_QuerySKURequest (m : QuerySKURequest) : skuv1_QuerySKURequest :=
  mk_skuv1_QuerySKURequest (qk_Uuid m) [].

Definition skuv1_of_QuerySKUResponse (m : QuerySKUResponse) : skuv1_QuerySKUResponse :=
  mk_skuv1_QuerySKUResponse (Some (skuv1_of_SKU (qkr_Sku m))) [].

Definition skuv1_of_QuerySKUsRequest (m : QuerySKUsRequest) : skuv1_QuerySKUsRequest :=
  mk_skuv1_QuerySKUsRequest (api_of_request <$> qs_Pagination m) (qs_ActiveOnly m) [].

Definition skuv1_of_QuerySKUsResponse (m : QuerySKUsResponse) : skuv1_QuerySKUsResponse :=
  mk_skuv1_QuerySKUsResponse (each skuv1_of_SKU (qsr_Skus m)) (api_of_response <$> qsr_Pagination m) [].

Definition skuv1_of_QuerySKUsByProviderRequest (m : QuerySKUsByProviderRequest) : skuv1_QuerySKUsByProviderRequest :=
  mk_skuv1_QuerySKUsByProviderRequest (qsp_ProviderUuid m) (api_of_request <$> qsp_Pagination m) (qsp_ActiveOnly m)
    [].

Definition skuv1_of_QuerySKUsByProviderResponse (m : QuerySKUsByProviderResponse) : skuv1_QuerySKUsByProviderResponse :=
  mk_skuv1_QuerySKUsByProviderResponse (each skuv1_of_SKU (qspr_Skus m)) (api_of_response <$> qspr_Pagination m) [].

Definition skuv1_of_QueryProviderByAddressRequest (m : QueryProviderByAddressRequest) : skuv1_QueryProviderByAddressRequest :=
  mk_skuv1_QueryProviderByAddressRequest (qpa_Address m) (api_of_request <$> qpa_Pagination m) (qpa_ActiveOnly m) [].

Definition skuv1_of_QueryProviderByAddressResponse (m : QueryProviderByAddressResponse) : skuv1_QueryProviderByAddressResponse :=
  mk_skuv1_QueryProviderByAddressResponse (each skuv1_of_Provider (qpar_Providers m)) (api_of_response <$>
    qpar_Pagination m) [].

Definition skuv1_of_SkuGenesisState (m : SkuGenesisState) : skuv1_GenesisState :=
  mk_skuv1_GenesisState (Some (skuv1_of_SkuParams (sg_Params m))) (each skuv1_of_Provider (sg_Providers m)) (each
    skuv1_of_SKU (sg_Skus m)) (sg_ProviderSequence m) (sg_SkuSequence m) [].

Definition billingv1_of_Params (m : Params) : billingv1_Params :=
  mk_billingv1_Params (MaxLeasesPerTenant m) (AllowedList m) (MaxItemsPerLease m) (MinLeaseDuration m)
    (MaxPendingLeasesPerTenant m) (PendingTimeout m) (ReservedDomainSuffixes m) [].

Definition billingv1_of_LeaseItem (m : LeaseItem) : billingv1_LeaseItem :=
  mk_billingv1_LeaseItem (item_SkuUuid m) (Quantity m) (Some (api_of_coin (LockedPrice m))) (item_ServiceName m)
    (CustomDomain m) [].

Definition billingv1_of_Lease (m : Lease) : billingv1_Lease :=
  mk_billingv1_Lease (Uuid m) (Tenant m) (ProviderUuid m) (each billingv1_of_LeaseItem (Items m)) (LeaseState_value
    (State m)) (Some (api_of_time (CreatedAt m))) (api_of_time <$> ClosedAt m) (Some (api_of_time (LastSettledAt m)))
    (api_of_time <$> AcknowledgedAt m) (api_of_time <$> RejectedAt m) (RejectionReason m) (api_of_time <$> ExpiredAt
    m) (ClosureReason m) (MetaHash m) (MinLeaseDurationAtCreation m) [].

Definition billingv1_of_Target (m : CustomDomainTarget) : billingv1_CustomDomainTarget :=
  mk_billingv1_CustomDomainTarget (tgt_LeaseUuid m) (tgt_ServiceName m) [].

Definition billingv1_of_CreditAccount (m : CreditAccount) : billingv1_CreditAccount :=
  mk_billingv1_CreditAccount (ca_Tenant m) (ca_CreditAddress m) (ActiveLeaseCount m) (PendingLeaseCount m) (each
    api_of_coin (ReservedAmounts m)) [].

Definition billingv1_of_LeaseItemInput (m : LeaseItemInput) : billingv1_LeaseItemInput :=
  mk_billingv1_LeaseItemInput (in_SkuUuid m) (in_Quantity m) (in_ServiceName m) [].

Definition billingv1_of_MsgFundCredit (m : MsgFundCredit) : billingv1_MsgFundCredit :=
  mk_billingv1_MsgFundCredit (fc_Sender m) (fc_Tenant m) (Some (api_of_coin (fc_Amount m))) [].

Definition billingv1_of_MsgFundCreditResponse (m : MsgFundCreditResponse) : billingv1_MsgFundCreditResponse :=
  mk_billingv1_MsgFundCreditResponse (fcr_CreditAddress m) (Some (api_of_coin (fcr_NewBalance m))) [].

Definition billingv1_of_MsgCreateLease (m : MsgCreateLease) : billingv1_MsgCreateLease :=
  mk_billingv1_MsgCreateLease (cl_Tenant m) (each billingv1_of_LeaseItemInput (cl_Items m)) (cl_MetaHash m) [].

Definition billingv1_of_MsgCreateLeaseResponse (m : MsgCreateLeaseResponse) : billingv1_MsgCreateLeaseResponse :=
  mk_billingv1_MsgCreateLeaseResponse (clr_LeaseUuid m) [].

Definition billingv1_of_MsgCreateLeaseForTenant (m : MsgCreateLeaseForTenant) : billingv1_MsgCreateLeaseForTenant :=
  mk_billingv1_MsgCreateLeaseForTenant (ct_Authority m) (ct_Tenant m) (each billingv1_of_LeaseItemInput (ct_Items m))
    (ct_MetaHash m) [].

Definition billingv1_of_MsgCreateLeaseForTenantResponse (m : MsgCreateLeaseForTenantResponse) : billingv1_MsgCreateLeaseForTenantResponse :=
  mk_billingv1_MsgCreateLeaseForTenantResponse (ctr_LeaseUuid m) [].

Definition billingv1_of_MsgCloseLease (m : MsgCloseLease) : billingv1_MsgCloseLease :=
  mk_billingv1_MsgCloseLease (xl_Sender m) (xl_LeaseUuids m) (xl_Reason m) [].

Definition billingv1_of_MsgCloseLeaseResponse (m : MsgCloseLeaseResponse) : billingv1_MsgCloseLeaseResponse :=
  mk_billingv1_MsgCloseLeaseResponse (Some (api_of_time (xlr_ClosedAt m))) (xlr_ClosedCount m) (each api_of_coin
    (xlr_TotalSettledAmounts m)) [].

Definition billingv1_of_MsgWithdraw (m : MsgWithdraw) : billingv1_MsgWithdraw :=
  mk_billingv1_MsgWithdraw (wd_Sender m) (wd_LeaseUuids m) (wd_ProviderUuid m) (wd_Limit m) [].

Definition billingv1_of_MsgWithdrawResponse (m : withdraw_response) : billingv1_MsgWithdrawResponse :=
  mk_billingv1_MsgWithdrawResponse (each api_of_coin (wr_TotalAmounts m)) (wr_PayoutAddress m) (wr_WithdrawalCount m)
    (wr_HasMore m) [].

Definition billingv1_of_MsgUpdateParams (m : MsgUpdateParams) : billingv1_MsgUpdateParams :=
  mk_billingv1_MsgUpdateParams (bp_Authority m) (Some (billingv1_of_Params (bp_Params m))) [].

Definition billingv1_of_MsgAcknowledgeLease (m : MsgAcknowledgeLease) : billingv1_MsgAcknowledgeLease :=
  mk_billingv1_MsgAcknowledgeLease (al_Sender m) (al_LeaseUuids m) [].

Definition billingv1_of_MsgAcknowledgeLeaseResponse (m : MsgAcknowledgeLeaseResponse) : billingv1_MsgAcknowledgeLeaseResponse :=
  mk_billingv1_MsgAcknowledgeLeaseResponse (Some (api_of_time (alr_AcknowledgedAt m))) (alr_AcknowledgedCount m) [].

Definition billingv1_of_MsgRejectLease (m : MsgRejectLease) : billingv1_MsgRejectLease :=
  mk_billingv1_MsgRejectLease (rl_Sender m) (rl_LeaseUuids m) (rl_Reason m) [].

Definition billingv1_of_MsgRejectLeaseResponse (m : MsgRejectLeaseResponse) : billingv1_MsgRejectLeaseResponse :=
  mk_billingv1_MsgRejectLeaseResponse (Some (api_of_time (rlr_RejectedAt m))) (rlr_RejectedCount m) [].

Definition billingv1_of_MsgCancelLease (m : MsgCancelLease) : billingv1_MsgCancelLease :=
  mk_billingv1_MsgCancelLease (kl_Tenant m) (kl_LeaseUuids m) [].

Definition billingv1_of_MsgCancelLeaseResponse (m : MsgCancelLeaseResponse) : billingv1_MsgCancelLeaseResponse :=
  mk_billingv1_MsgCancelLeaseResponse (Some (api_of_time (klr_CancelledAt m))) (klr_CancelledCount m) [].

Definition billingv1_of_MsgSetItemCustomDomain (m : MsgSetItemCustomDomain) : billingv1_MsgSetItemCustomDomain :=
  mk_billingv1_MsgSetItemCustomDomain (cd_Sender m) (cd_LeaseUuid m) (cd_ServiceName m) (cd_CustomDomain m) [].

Definition billingv1_of_QueryParamsResponse (m : QueryParamsResponse) : billingv1_QueryParamsResponse :=
  mk_billingv1_QueryParamsResponse (Some (billingv1_of_Params (qpr_Params m))) [].

Definition billingv1_of_QueryLeaseRequest (m : QueryLeaseRequest) : billingv1_QueryLeaseRequest :=
  mk_billingv1_QueryLeaseRequest (ql_LeaseUuid m) [].

Definition billingv1_of_QueryLeaseResponse (m : QueryLeaseResponse) : billingv1_QueryLeaseResponse :=
  mk_billingv1_QueryLeaseResponse (Some (billingv1_of_Lease (qlr_Lease m))) [].

Definition billingv1_of_QueryLeasesRequest (m : QueryLeasesRequest) : billingv1_QueryLeasesRequest :=
  mk_billingv1_QueryLeasesRequest (api_of_request <$> qls_Pagination m) (LeaseState_value (qls_StateFilter m)) [].

Definition billingv1_of_QueryLeasesResponse (m : QueryLeasesResponse) : billingv1_QueryLeasesResponse :=
  mk_billingv1_QueryLeasesResponse (each billingv1_of_Lease (qlsr_Leases m)) (api_of_response <$> qlsr_Pagination m)
    [].

Definition billingv1_of_QueryLeasesByTenantRequest (m : QueryLeasesByTenantRequest) : billingv1_QueryLeasesByTenantRequest :=
  mk_billingv1_QueryLeasesByTenantRequest (qlt_Tenant m) (api_of_request <$> qlt_Pagination m) (LeaseState_value
    (qlt_StateFilter m)) [].

Definition billingv1_of_QueryLeasesByTenantResponse (m : QueryLeasesByTenantResponse) : billingv1_QueryLeasesByTenantResponse :=
  mk_billingv1_QueryLeasesByTenantResponse (each billingv1_of_Lease (qltr_Leases m)) (api_of_response <$>
    qltr_Pagination m) [].

Definition billingv1_of_QueryLeasesByProviderRequest (m : QueryLeasesByProviderRequest) : billingv1_QueryLeasesByProviderRequest :=
  mk_billingv1_QueryLeasesByProviderRequest (qlp_ProviderUuid m) (api_of_request <$> qlp_Pagination m)
    (LeaseState_value (qlp_StateFilter m)) [].

Definition billingv1_of_QueryLeasesByProviderResponse (m : QueryLeasesByProviderResponse) : billingv1_QueryLeasesByProviderResponse :=
  mk_billingv1_QueryLeasesByProviderResponse (each billingv1_of_Lease (qlpr_Leases m)) (api_of_response <$>
    qlpr_Pagination m) [].

Definition billingv1_of_QueryCreditAccountRequest (m : QueryCreditAccountRequest) : billingv1_QueryCreditAccountRequest :=
  mk_billingv1_QueryCreditAccountRequest (qcar_Tenant m) [].

Definition billingv1_of_QueryCreditAccountResponse (m : QueryCreditAccountResponse) : billingv1_QueryCreditAccountResponse :=
  mk_billingv1_QueryCreditAccountResponse (Some (billingv1_of_CreditAccount (qca_CreditAccount m))) (each api_of_coin
    (qca_Balances m)) (each api_of_coin (qca_AvailableBalances m)) [].

Definition billingv1_of_QueryCreditAddressRequest (m : QueryCreditAddressRequest) : billingv1_QueryCreditAddressRequest :=
  mk_billingv1_QueryCreditAddressRequest (qad_Tenant m) [].

Definition billingv1_of_QueryCreditAddressResponse (m : QueryCreditAddressResponse) : billingv1_QueryCreditAddressResponse :=
  mk_billingv1_QueryCreditAddressResponse (qadr_CreditAddress m) [].

Definition billingv1_of_QueryWithdrawableAmountRequest (m : QueryWithdrawableAmountRequest) : billingv1_QueryWithdrawableAmountRequest :=
  mk_billingv1_QueryWithdrawableAmountRequest (qwa_LeaseUuid m) [].

Definition billingv1_of_QueryWithdrawableAmountResponse (m : QueryWithdrawableAmountResponse) : billingv1_QueryWithdrawableAmountResponse :=
  mk_billingv1_QueryWithdrawableAmountResponse (each api_of_coin (qwar_Amounts m)) [].

Definition billingv1_of_QueryProviderWithdrawableRequest (m : QueryProviderWithdrawableRequest) : billingv1_QueryProviderWithdrawableRequest :=
  mk_billingv1_QueryProviderWithdrawableRequest (qpw_ProviderUuid m) (qpw_Limit m) [].

Definition billingv1_of_QueryProviderWithdrawableResponse (m : QueryProviderWithdrawableResponse) : billingv1_QueryProviderWithdrawableResponse :=
  mk_billingv1_QueryProviderWithdrawableResponse (each api_of_coin (pw_Amounts m)) (pw_LeaseCount m) (pw_HasMore m)
    [].

Definition billingv1_of_QueryCreditAccountsRequest (m : QueryCreditAccountsRequest) : billingv1_QueryCreditAccountsRequest :=
  mk_billingv1_QueryCreditAccountsRequest (api_of_request <$> qcas_Pagination m) [].

Definition billingv1_of_QueryCreditAccountsResponse (m : QueryCreditAccountsResponse) : billingv1_QueryCreditAccountsResponse :=
  mk_billingv1_QueryCreditAccountsResponse (each billingv1_of_CreditAccount (qcasr_CreditAccounts m)) (api_of_response
    <$> qcasr_Pagination m) [].

Definition billingv1_of_QueryLeasesBySKURequest (m : QueryLeasesBySKURequest) : billingv1_QueryLeasesBySKURequest :=
  mk_billingv1_QueryLeasesBySKURequest (qlk_SkuUuid m) (api_of_request <$> qlk_Pagination m) (LeaseState_value
    (qlk_StateFilter m)) [].

Definition billingv1_of_QueryLeasesBySKUResponse (m : QueryLeasesBySKUResponse) : billingv1_QueryLeasesBySKUResponse :=
  mk_billingv1_QueryLeasesBySKUResponse (each billingv1_of_Lease (qlkr_Leases m)) (api_of_response <$> qlkr_Pagination
    m) [].

Definition billingv1_of_QueryCreditEstimateRequest (m : QueryCreditEstimateRequest) : billingv1_QueryCreditEstimateRequest :=
  mk_billingv1_QueryCreditEstimateRequest (qce_Tenant m) [].

Definition billingv1_of_QueryCreditEstimateResponse (m : QueryCreditEstimateResponse) : billingv1_QueryCreditEstimateResponse :=
  mk_billingv1_QueryCreditEstimateResponse (each api_of_coin (ce_CurrentBalance m)) (each api_of_coin
    (ce_TotalRatePerSecond m)) (ce_EstimatedDurationSeconds m) (ce_ActiveLeaseCount m) [].

Definition billingv1_of_QueryLeaseByCustomDomainRequest (m : QueryLeaseByCustomDomainRequest) : billingv1_QueryLeaseByCustomDomainRequest :=
  mk_billingv1_QueryLeaseByCustomDomainRequest (qcd_CustomDomain m) [].

Definition billingv1_of_QueryLeaseByCustomDomainResponse (m : QueryLeaseByCustomDomainResponse) : billingv1_QueryLeaseByCustomDomainResponse :=
  mk_billingv1_QueryLeaseByCustomDomainResponse (Some (billingv1_of_Lease (qcdr_Lease m))) (qcdr_ServiceName m) [].

Definition billingv1_of_GenesisState (m : GenesisState) : billingv1_GenesisState :=
  mk_billingv1_GenesisState (Some (billingv1_of_Params (gs_Params m))) (each billingv1_of_Lease (gs_Leases m)) (each
    billingv1_of_CreditAccount (gs_CreditAccounts m)) (gs_LeaseSequence m) [].

(** ** Agreement *)

(** The translation of a message that fits its Go type fits the other one, and has the same bytes. *)
Record agrees {A B : Type} (fits : A → Prop) (wire : A → bytes) (api_fits : B → Prop) (api_wire : B → bytes)
    (f : A → B) : Prop := mkAgrees {
  agree_fits m : fits m → api_fits (f m);
  agree_wire m : fits m → api_wire (f m) = wire m }.
Existing Class agrees.

(** The packages of coins, times and pages implement the same published messages on both sides. *)
Class Interop `{Gogo} `{PageCodec} `{ApiExternal} : Prop := {
  coin_agrees :: agrees coin_fits coin_bytes api_Coin_fits api_Coin_wire api_of_coin;
  time_agrees :: agrees time_fits time_bytes api_Timestamp_fits api_Timestamp_wire api_of_time;
  request_agrees :: agrees PageRequest_fits PageRequest_bytes api_PageRequest_fits api_PageRequest_wire api_of_request;
  response_agrees :: agrees PageResponse_fits PageResponse_bytes api_PageResponse_fits api_PageResponse_wire api_of_response;
}.

Section fields.
Context {A B : Type} {fits : A → Prop} {wire : A → bytes} {api_fits : B → Prop} {api_wire : B → bytes} {f : A → B}.
Context {L : agrees fits wire api_fits api_wire f}.

Lemma agree_some m : fits m → fits_opt api_fits (Some (f m)).
Proof. apply (agree_fits _ _ _ _ _ L). Qed.
Lemma agree_opt o : from_option fits True o → fits_opt api_fits (f <$> o).
Proof. destruct o; [apply agree_some|done]. Qed.
Lemma agree_each l : Forall fits l → fits_each api_fits (each f l).
Proof. intros Hl. apply Forall_fmap. eapply Forall_impl; [exact Hl|]. apply (agree_fits _ _ _ _ _ L). Qed.

Lemma agree_wire_some tag m : fits m → enc_opt (λ e, len_field tag (api_wire e)) (Some (f m)) = len_field tag (wire m).
Proof. intros Hm. cbv [enc_opt from_option]. by rewrite (agree_wire _ _ _ _ _ L). Qed.
Lemma agree_wire_opt tag o : from_option fits True o →
  enc_opt (λ e, len_field tag (api_wire e)) (f <$> o) = enc_opt (λ e, len_field tag (wire e)) o.
Proof. destruct o; [apply agree_wire_some|done]. Qed.
Lemma agree_wire_each tag l : Forall fits l →
  enc_each (λ e, len_field tag (wire_ptr api_wire e)) (each f l) = enc_each (λ e, len_field tag (wire e)) l.
Proof.
  intros Hl. unfold enc_each, each. rewrite <- list_fmap_compose. f_equal. apply list_fmap_ext. intros i x Hx.
  apply Forall_lookup_1 with (i := i) (x := x) in Hl; [|done]. unfold compose, wire_ptr; cbn. by rewrite (agree_wire _ _ _ _ _ L).
Qed.
End fields.

#[export] Hint Resolve unknown_fits_nil : wire.
#[export] Hint Extern 1 (fits_opt _ (Some (?f _))) => eapply (agree_some (f := f)) : wire.
#[export] Hint Extern 1 (fits_opt _ (?f <$> _)) => eapply (agree_opt (f := f)) : wire.
#[export] Hint Extern 1 (fits_each _ (each ?f _)) => eapply (agree_each (f := f)) : wire.
#[export] Hint Extern 1 (is_i32 _) => unfold is_i32 : wire.
#[export] Hint Extern 1 (from_option _ _ _) => assumption : wire.

Ltac solve_agrees :=
  split; intros m Hfits;
  first
    [ match type of Hfits with Lease_fits _ => destruct Hfits end
    | match type of Hfits with ?t => let h := head_of t in unfold h in Hfits end; destruct_and? Hfits
    | idtac ];
  [ match goal with |- ?t => let h := head_of t in unfold h end; cbn; split_and?; solve [auto with wire]
  | match goal with |- ?a = ?b => let ha := head_of a in let hb := head_of b in unfold ha, hb end; cbn;
    repeat match goal with
    | |- context [enc_opt (λ e, len_field _ (@?w e)) (Some (?f ?m))] => rewrite (agree_wire_some (f := f)) by auto with wire
    | |- context [enc_opt (λ e, len_field _ (@?w e)) (?f <$> ?o)] => rewrite (agree_wire_opt (f := f)) by auto with wire
    | |- context [enc_each _ (each ?f ?l)] => rewrite (agree_wire_each (f := f)) by auto with wire
    end; rewrite ?app_nil_r; reflexivity ].

Section agreement.
Context `{RL : RuntimeLaws} `{GL : GogoLaws} `{PL : PageLaws} `{EL : ExternalLaws}.
Context {I : Interop}.

#[global] Instance manifestv1_PayoutPair_agrees : agrees PayoutPair_fits PayoutPair_wire manifestv1_PayoutPair_fits manifestv1_PayoutPair_wire manifestv1_of_PayoutPair.
Proof. solve_agrees. Qed.

#[global] Instance manifestv1_MsgPayout_agrees : agrees MsgPayout_fits MsgPayout_wire manifestv1_MsgPayout_fits manifestv1_MsgPayout_wire manifestv1_of_MsgPayout.
Proof. solve_agrees. Qed.

#[global] Instance manifestv1_MsgPayoutResponse_agrees : agrees (λ _, True) Empty_wire manifestv1_MsgPayoutResponse_fits manifestv1_MsgPayoutResponse_wire (λ _, manifestv1_MsgPayoutResponse_new).
Proof. solve_agrees. Qed.

#[global] Instance manifestv1_MsgBurnHeldBalance_agrees : agrees MsgBurnHeldBalance_fits MsgBurnHeldBalance_wire manifestv1_MsgBurnHeldBalance_fits manifestv1_MsgBurnHeldBalance_wire manifestv1_of_MsgBurnHeldBalance.
Proof. solve_agrees. Qed.

#[global] Instance manifestv1_MsgBurnHeldBalanceResponse_agrees : agrees (λ _, True) Empty_wire manifestv1_MsgBurnHeldBalanceResponse_fits manifestv1_MsgBurnHeldBalanceResponse_wire (λ _, manifestv1_MsgBurnHeldBalanceResponse_new).
Proof. solve_agrees. Qed.

#[global] Instance manifestv1_GenesisState_agrees : agrees (λ _, True) Empty_wire manifestv1_GenesisState_fits manifestv1_GenesisState_wire (λ _, manifestv1_GenesisState_new).
Proof. solve_agrees. Qed.

#[global] Instance skuv1_Params_agrees : agrees (λ _, True) SkuParams_wire skuv1_Params_fits skuv1_Params_wire skuv1_of_SkuParams.
Proof. solve_agrees. Qed.

#[global] Instance skuv1_Provider_agrees : agrees (λ _, True) Provider_wire skuv1_Provider_fits skuv1_Provider_wire skuv1_of_Provider.
Proof. solve_agrees. Qed.

#[global] Instance skuv1_SKU_agrees : agrees SKU_fits SKU_wire skuv1_SKU_fits skuv1_SKU_wire skuv1_of_SKU.
Proof. solve_agrees. Qed.

#[global] Instance skuv1_MsgCreateProvider_agrees : agrees (λ _, True) MsgCreateProvider_wire skuv1_MsgCreateProvider_fits skuv1_MsgCreateProvider_wire skuv1_of_MsgCreateProvider.
Proof. solve_agrees. Qed.

#[global] Instance skuv1_MsgCreateProviderResponse_agrees : agrees (λ _, True) MsgCreateProviderResponse_wire skuv1_MsgCreateProviderResponse_fits skuv1_MsgCreateProviderResponse_wire skuv1_of_MsgCreateProviderResponse.
Proof. solve_agrees. Qed.

#[global] Instance skuv1_MsgUpdateProvider_agrees : agrees (λ _, True) MsgUpdateProvider_wire skuv1_MsgUpdateProvider_fits skuv1_MsgUpdateProvider_wire skuv1_of_MsgUpdateProvider.
Proof. solve_agrees. Qed.

#[global] Instance skuv1_MsgUpdateProviderResponse_agrees : agrees (λ _, True) Empty_wire skuv1_MsgUpdateProviderResponse_fits skuv1_MsgUpdateProviderResponse_wire (λ _, skuv1_MsgUpdateProviderResponse_new).
Proof. solve_agrees. Qed.

#[global] Instance skuv1_MsgDeactivateProvider_agrees : agrees MsgDeactivateProvider_fits MsgDeactivateProvider_wire skuv1_MsgDeactivateProvider_fits skuv1_MsgDeactivateProvider_wire skuv1_of_MsgDeactivateProvider.
Proof. solve_agrees. Qed.

#[global] Instance skuv1_MsgDeactivateProviderResponse_agrees : agrees MsgDeactivateProviderResponse_fits MsgDeactivateProviderResponse_wire skuv1_MsgDeactivateProviderResponse_fits skuv1_MsgDeactivateProviderResponse_wire skuv1_of_MsgDeactivateProviderResponse.
Proof. solve_agrees. Qed.

#[global] Instance skuv1_MsgCreateSKU_agrees : agrees MsgCreateSKU_fits MsgCreateSKU_wire skuv1_MsgCreateSKU_fits skuv1_MsgCreateSKU_wire skuv1_of_MsgCreateSKU.
Proof. solve_agrees. Qed.

#[global] Instance skuv1_MsgCreateSKUResponse_agrees : agrees (λ _, True) MsgCreateSKUResponse_wire skuv1_MsgCreateSKUResponse_fits skuv1_MsgCreateSKUResponse_wire skuv1_of_MsgCreateSKUResponse.
Proof. solve_agrees. Qed.

#[global] Instance skuv1_MsgUpdateSKU_agrees : agrees MsgUpdateSKU_fits MsgUpdateSKU_wire skuv1_MsgUpdateSKU_fits skuv1_MsgUpdateSKU_wire skuv1_of_MsgUpdateSKU.
Proof. solve_agrees. Qed.

#[global] Instance skuv1_MsgUpdateSKUResponse_agrees : agrees (λ _, True) Empty_wire skuv1_MsgUpdateSKUResponse_fits skuv1_MsgUpdateSKUResponse_wire (λ _, skuv1_MsgUpdateSKUResponse_new).
Proof. solve_agrees. Qed.

#[global] Instance skuv1_MsgDeactivateSKU_agrees : agrees (λ _, True) MsgDeactivateSKU_wire skuv1_MsgDeactivateSKU_fits skuv1_MsgDeactivateSKU_wire skuv1_of_MsgDeactivateSKU.
Proof. solve_agrees. Qed.

#[global] Instance skuv1_MsgDeactivateSKUResponse_agrees : agrees (λ _, True) Empty_wire skuv1_MsgDeactivateSKUResponse_fits skuv1_MsgDeactivateSKUResponse_wire (λ _, skuv1_MsgDeactivateSKUResponse_new).
Proof. solve_agrees. Qed.

#[global] Instance skuv1_MsgUpdateParams_agrees : agrees (λ _, True) SkuMsgUpdateParams_wire skuv1_MsgUpdateParams_fits skuv1_MsgUpdateParams_wire skuv1_of_SkuMsgUpdateParams.
Proof. solve_agrees. Qed.

#[global] Instance skuv1_MsgUpdateParamsResponse_agrees : agrees (λ _, True) Empty_wire skuv1_MsgUpdateParamsResponse_fits skuv1_MsgUpdateParamsResponse_wire (λ _, skuv1_MsgUpdateParamsResponse_new).
Proof. solve_agrees. Qed.

#[global] Instance skuv1_QueryParamsRequest_agrees : agrees (λ _, True) Empty_wire skuv1_QueryParamsRequest_fits skuv1_QueryParamsRequest_wire (λ _, skuv1_QueryParamsRequest_new).
Proof. solve_agrees. Qed.

#[global] Instance skuv1_QueryParamsResponse_agrees : agrees (λ _, True) SkuQueryParamsResponse_wire skuv1_QueryParamsResponse_fits skuv1_QueryParamsResponse_wire skuv1_of_SkuQueryParamsResponse.
Proof. solve_agrees. Qed.

#[global] Instance skuv1_QueryProviderRequest_agrees : agrees (λ _, True) QueryProviderRequest_wire skuv1_QueryProviderRequest_fits skuv1_QueryProviderRequest_wire skuv1_of_QueryProviderRequest.
Proof. solve_agrees. Qed.

#[global] Instance skuv1_QueryProviderResponse_agrees : agrees (λ _, True) QueryProviderResponse_wire skuv1_QueryProviderResponse_fits skuv1_QueryProviderResponse_wire skuv1_of_QueryProviderResponse.
Proof. solve_agrees. Qed.

#[global] Instance skuv1_QueryProvidersRequest_agrees : agrees QueryProvidersRequest_fits QueryProvidersRequest_wire skuv1_QueryProvidersRequest_fits skuv1_QueryProvidersRequest_wire skuv1_of_QueryProvidersRequest.
Proof. solve_agrees. Qed.

#[global] Instance skuv1_QueryProvidersResponse_agrees : agrees QueryProvidersResponse_fits QueryProvidersResponse_wire skuv1_QueryProvidersResponse_fits skuv1_QueryProvidersResponse_wire skuv1_of_QueryProvidersResponse.
Proof. solve_agrees. Qed.

#[global] Instance skuv1_QuerySKURequest_agrees : agrees (λ _, True) QuerySKURequest_wire skuv1_QuerySKURequest_fits skuv1_QuerySKURequest_wire skuv1_of_QuerySKURequest.
Proof. solve_agrees. Qed.

#[global] Instance skuv1_QuerySKUResponse_agrees : agrees QuerySKUResponse_fits QuerySKUResponse_wire skuv1_QuerySKUResponse_fits skuv1_QuerySKUResponse_wire skuv1_of_QuerySKUResponse.
Proof. solve_agrees. Qed.

#[global] Instance skuv1_QuerySKUsRequest_agrees : agrees QuerySKUsRequest_fits QuerySKUsRequest_wire skuv1_QuerySKUsRequest_fits skuv1_QuerySKUsRequest_wire skuv1_of_QuerySKUsRequest.
Proof. solve_agrees. Qed.

#[global] Instance skuv1_QuerySKUsResponse_agrees : agrees QuerySKUsResponse_fits QuerySKUsResponse_wire skuv1_QuerySKUsResponse_fits skuv1_QuerySKUsResponse_wire skuv1_of_QuerySKUsResponse.
Proof. solve_agrees. Qed.

#[global] Instance skuv1_QuerySKUsByProviderRequest_agrees : agrees QuerySKUsByProviderRequest_fits QuerySKUsByProviderRequest_wire skuv1_QuerySKUsByProviderRequest_fits skuv1_QuerySKUsByProviderRequest_wire skuv1_of_QuerySKUsByProviderRequest.
Proof. solve_agrees. Qed.

#[global] Instance skuv1_QuerySKUsByProviderResponse_agrees : agrees QuerySKUsByProviderResponse_fits QuerySKUsByProviderResponse_wire skuv1_QuerySKUsByProviderResponse_fits skuv1_QuerySKUsByProviderResponse_wire skuv1_of_QuerySKUsByProviderResponse.
Proof. solve_agrees. Qed.

#[global] Instance skuv1_QueryProviderByAddressRequest_agrees : agrees QueryProviderByAddressRequest_fits QueryProviderByAddressRequest_wire skuv1_QueryProviderByAddressRequest_fits skuv1_QueryProviderByAddressRequest_wire skuv1_of_QueryProviderByAddressRequest.
Proof. solve_agrees. Qed.

#[global] Instance skuv1_QueryProviderByAddressResponse_agrees : agrees QueryProviderByAddressResponse_fits QueryProviderByAddressResponse_wire skuv1_QueryProviderByAddressResponse_fits skuv1_QueryProviderByAddressResponse_wire skuv1_of_QueryProviderByAddressResponse.
Proof. solve_agrees. Qed.

#[global] Instance skuv1_GenesisState_agrees : agrees SkuGenesisState_fits SkuGenesisState_wire skuv1_GenesisState_fits skuv1_GenesisState_wire skuv1_of_SkuGenesisState.
Proof. solve_agrees. Qed.

#[global] Instance billingv1_Params_agrees : agrees Params_fits Params_wire billingv1_Params_fits billingv1_Params_wire billingv1_of_Params.
Proof. solve_agrees. Qed.

#[global] Instance billingv1_LeaseItem_agrees : agrees LeaseItem_fits LeaseItem_wire billingv1_LeaseItem_fits billingv1_LeaseItem_wire billingv1_of_LeaseItem.
Proof. solve_agrees. Qed.

#[global] Instance billingv1_Lease_agrees : agrees Lease_fits Lease_wire billingv1_Lease_fits billingv1_Lease_wire billingv1_of_Lease.
Proof. solve_agrees. Qed.

#[global] Instance billingv1_CustomDomainTarget_agrees : agrees (λ _, True) Target_wire billingv1_CustomDomainTarget_fits billingv1_CustomDomainTarget_wire billingv1_of_Target.
Proof. solve_agrees. Qed.

#[global] Instance billingv1_CreditAccount_agrees : agrees CreditAccount_fits CreditAccount_wire billingv1_CreditAccount_fits billingv1_CreditAccount_wire billingv1_of_CreditAccount.
Proof. solve_agrees. Qed.

#[global] Instance billingv1_LeaseItemInput_agrees : agrees LeaseItemInput_fits LeaseItemInput_wire billingv1_LeaseItemInput_fits billingv1_LeaseItemInput_wire billingv1_of_LeaseItemInput.
Proof. solve_agrees. Qed.

#[global] Instance billingv1_MsgFundCredit_agrees : agrees MsgFundCredit_fits MsgFundCredit_wire billingv1_MsgFundCredit_fits billingv1_MsgFundCredit_wire billingv1_of_MsgFundCredit.
Proof. solve_agrees. Qed.

#[global] Instance billingv1_MsgFundCreditResponse_agrees : agrees MsgFundCreditResponse_fits MsgFundCreditResponse_wire billingv1_MsgFundCreditResponse_fits billingv1_MsgFundCreditResponse_wire billingv1_of_MsgFundCreditResponse.
Proof. solve_agrees. Qed.

#[global] Instance billingv1_MsgCreateLease_agrees : agrees MsgCreateLease_fits MsgCreateLease_wire billingv1_MsgCreateLease_fits billingv1_MsgCreateLease_wire billingv1_of_MsgCreateLease.
Proof. solve_agrees. Qed.

#[global] Instance billingv1_MsgCreateLeaseResponse_agrees : agrees (λ _, True) MsgCreateLeaseResponse_wire billingv1_MsgCreateLeaseResponse_fits billingv1_MsgCreateLeaseResponse_wire billingv1_of_MsgCreateLeaseResponse.
Proof. solve_agrees. Qed.

#[global] Instance billingv1_MsgCreateLeaseForTenant_agrees : agrees MsgCreateLeaseForTenant_fits MsgCreateLeaseForTenant_wire billingv1_MsgCreateLeaseForTenant_fits billingv1_MsgCreateLeaseForTenant_wire billingv1_of_MsgCreateLeaseForTenant.
Proof. solve_agrees. Qed.

#[global] Instance billingv1_MsgCreateLeaseForTenantResponse_agrees : agrees (λ _, True) MsgCreateLeaseForTenantResponse_wire billingv1_MsgCreateLeaseForTenantResponse_fits billingv1_MsgCreateLeaseForTenantResponse_wire billingv1_of_MsgCreateLeaseForTenantResponse.
Proof. solve_agrees. Qed.

#[global] Instance billingv1_MsgCloseLease_agrees : agrees (λ _, True) MsgCloseLease_wire billingv1_MsgCloseLease_fits billingv1_MsgCloseLease_wire billingv1_of_MsgCloseLease.
Proof. solve_agrees. Qed.

#[global] Instance billingv1_MsgCloseLeaseResponse_agrees : agrees MsgCloseLeaseResponse_fits MsgCloseLeaseResponse_wire billingv1_MsgCloseLeaseResponse_fits billingv1_MsgCloseLeaseResponse_wire billingv1_of_MsgCloseLeaseResponse.
Proof. solve_agrees. Qed.

#[global] Instance billingv1_MsgWithdraw_agrees : agrees MsgWithdraw_fits MsgWithdraw_wire billingv1_MsgWithdraw_fits billingv1_MsgWithdraw_wire billingv1_of_MsgWithdraw.
Proof. solve_agrees. Qed.

#[global] Instance billingv1_MsgWithdrawResponse_agrees : agrees MsgWithdrawResponse_fits MsgWithdrawResponse_wire billingv1_MsgWithdrawResponse_fits billingv1_MsgWithdrawResponse_wire billingv1_of_MsgWithdrawResponse.
Proof. solve_agrees. Qed.

#[global] Instance billingv1_MsgUpdateParams_agrees : agrees MsgUpdateParams_fits MsgUpdateParams_wire billingv1_MsgUpdateParams_fits billingv1_MsgUpdateParams_wire billingv1_of_MsgUpdateParams.
Proof. solve_agrees. Qed.

#[global] Instance billingv1_MsgUpdateParamsResponse_agrees : agrees (λ _, True) Empty_wire billingv1_MsgUpdateParamsResponse_fits billingv1_MsgUpdateParamsResponse_wire (λ _, billingv1_MsgUpdateParamsResponse_new).
Proof. solve_agrees. Qed.

#[global] Instance billingv1_MsgAcknowledgeLease_agrees : agrees (λ _, True) MsgAcknowledgeLease_wire billingv1_MsgAcknowledgeLease_fits billingv1_MsgAcknowledgeLease_wire billingv1_of_MsgAcknowledgeLease.
Proof. solve_agrees. Qed.

#[global] Instance billingv1_MsgAcknowledgeLeaseResponse_agrees : agrees MsgAcknowledgeLeaseResponse_fits MsgAcknowledgeLeaseResponse_wire billingv1_MsgAcknowledgeLeaseResponse_fits billingv1_MsgAcknowledgeLeaseResponse_wire billingv1_of_MsgAcknowledgeLeaseResponse.
Proof. solve_agrees. Qed.

#[global] Instance billingv1_MsgRejectLease_agrees : agrees (λ _, True) MsgRejectLease_wire billingv1_MsgRejectLease_fits billingv1_MsgRejectLease_wire billingv1_of_MsgRejectLease.
Proof. solve_agrees. Qed.

#[global] Instance billingv1_MsgRejectLeaseResponse_agrees : agrees MsgRejectLeaseResponse_fits MsgRejectLeaseResponse_wire billingv1_MsgRejectLeaseResponse_fits billingv1_MsgRejectLeaseResponse_wire billingv1_of_MsgRejectLeaseResponse.
Proof. solve_agrees. Qed.

#[global] Instance billingv1_MsgCancelLease_agrees : agrees (λ _, True) MsgCancelLease_wire billingv1_MsgCancelLease_fits billingv1_MsgCancelLease_wire billingv1_of_MsgCancelLease.
Proof. solve_agrees. Qed.

#[global] Instance billingv1_MsgCancelLeaseResponse_agrees : agrees MsgCancelLeaseResponse_fits MsgCancelLeaseResponse_wire billingv1_MsgCancelLeaseResponse_fits billingv1_MsgCancelLeaseResponse_wire billingv1_of_MsgCancelLeaseResponse.
Proof. solve_agrees. Qed.

#[global] Instance billingv1_MsgSetItemCustomDomain_agrees : agrees (λ _, True) MsgSetItemCustomDomain_wire billingv1_MsgSetItemCustomDomain_fits billingv1_MsgSetItemCustomDomain_wire billingv1_of_MsgSetItemCustomDomain.
Proof. solve_agrees. Qed.

#[global] Instance billingv1_MsgSetItemCustomDomainResponse_agrees : agrees (λ _, True) Empty_wire billingv1_MsgSetItemCustomDomainResponse_fits billingv1_MsgSetItemCustomDomainResponse_wire (λ _, billingv1_MsgSetItemCustomDomainResponse_new).
Proof. solve_agrees. Qed.

#[global] Instance billingv1_QueryParamsRequest_agrees : agrees (λ _, True) Empty_wire billingv1_QueryParamsRequest_fits billingv1_QueryParamsRequest_wire (λ _, billingv1_QueryParamsRequest_new).
Proof. solve_agrees. Qed.

#[global] Instance billingv1_QueryParamsResponse_agrees : agrees QueryParamsResponse_fits QueryParamsResponse_wire billingv1_QueryParamsResponse_fits billingv1_QueryParamsResponse_wire billingv1_of_QueryParamsResponse.
Proof. solve_agrees. Qed.

#[global] Instance billingv1_QueryLeaseRequest_agrees : agrees (λ _, True) QueryLeaseRequest_wire billingv1_QueryLeaseRequest_fits billingv1_QueryLeaseRequest_wire billingv1_of_QueryLeaseRequest.
Proof. solve_agrees. Qed.

#[global] Instance billingv1_QueryLeaseResponse_agrees : agrees QueryLeaseResponse_fits QueryLeaseResponse_wire billingv1_QueryLeaseResponse_fits billingv1_QueryLeaseResponse_wire billingv1_of_QueryLeaseResponse.
Proof. solve_agrees. Qed.

#[global] Instance billingv1_QueryLeasesRequest_agrees : agrees QueryLeasesRequest_fits QueryLeasesRequest_wire billingv1_QueryLeasesRequest_fits billingv1_QueryLeasesRequest_wire billingv1_of_QueryLeasesRequest.
Proof. solve_agrees. Qed.

#[global] Instance billingv1_QueryLeasesResponse_agrees : agrees QueryLeasesResponse_fits QueryLeasesResponse_wire billingv1_QueryLeasesResponse_fits billingv1_QueryLeasesResponse_wire billingv1_of_QueryLeasesResponse.
Proof. solve_agrees. Qed.

#[global] Instance billingv1_QueryLeasesByTenantRequest_agrees : agrees QueryLeasesByTenantRequest_fits QueryLeasesByTenantRequest_wire billingv1_QueryLeasesByTenantRequest_fits billingv1_QueryLeasesByTenantRequest_wire billingv1_of_QueryLeasesByTenantRequest.
Proof. solve_agrees. Qed.

#[global] Instance billingv1_QueryLeasesByTenantResponse_agrees : agrees QueryLeasesByTenantResponse_fits QueryLeasesByTenantResponse_wire billingv1_QueryLeasesByTenantResponse_fits billingv1_QueryLeasesByTenantResponse_wire billingv1_of_QueryLeasesByTenantResponse.
Proof. solve_agrees. Qed.

#[global] Instance billingv1_QueryLeasesByProviderRequest_agrees : agrees QueryLeasesByProviderRequest_fits QueryLeasesByProviderRequest_wire billingv1_QueryLeasesByProviderRequest_fits billingv1_QueryLeasesByProviderRequest_wire billingv1_of_QueryLeasesByProviderRequest.
Proof. solve_agrees. Qed.

#[global] Instance billingv1_QueryLeasesByProviderResponse_agrees : agrees QueryLeasesByProviderResponse_fits QueryLeasesByProviderResponse_wire billingv1_QueryLeasesByProviderResponse_fits billingv1_QueryLeasesByProviderResponse_wire billingv1_of_QueryLeasesByProviderResponse.
Proof. solve_agrees. Qed.

#[global] Instance billingv1_QueryCreditAccountRequest_agrees : agrees (λ _, True) QueryCreditAccountRequest_wire billingv1_QueryCreditAccountRequest_fits billingv1_QueryCreditAccountRequest_wire billingv1_of_QueryCreditAccountRequest.
Proof. solve_agrees. Qed.

#[global] Instance billingv1_QueryCreditAccountResponse_agrees : agrees QueryCreditAccountResponse_fits QueryCreditAccountResponse_wire billingv1_QueryCreditAccountResponse_fits billingv1_QueryCreditAccountResponse_wire billingv1_of_QueryCreditAccountResponse.
Proof. solve_agrees. Qed.

#[global] Instance billingv1_QueryCreditAddressRequest_agrees : agrees (λ _, True) QueryCreditAddressRequest_wire billingv1_QueryCreditAddressRequest_fits billingv1_QueryCreditAddressRequest_wire billingv1_of_QueryCreditAddressRequest.
Proof. solve_agrees. Qed.

#[global] Instance billingv1_QueryCreditAddressResponse_agrees : agrees (λ _, True) QueryCreditAddressResponse_wire billingv1_QueryCreditAddressResponse_fits billingv1_QueryCreditAddressResponse_wire billingv1_of_QueryCreditAddressResponse.
Proof. solve_agrees. Qed.

#[global] Instance billingv1_QueryWithdrawableAmountRequest_agrees : agrees (λ _, True) QueryWithdrawableAmountRequest_wire billingv1_QueryWithdrawableAmountRequest_fits billingv1_QueryWithdrawableAmountRequest_wire billingv1_of_QueryWithdrawableAmountRequest.
Proof. solve_agrees. Qed.

#[global] Instance billingv1_QueryWithdrawableAmountResponse_agrees : agrees QueryWithdrawableAmountResponse_fits QueryWithdrawableAmountResponse_wire billingv1_QueryWithdrawableAmountResponse_fits billingv1_QueryWithdrawableAmountResponse_wire billingv1_of_QueryWithdrawableAmountResponse.
Proof. solve_agrees. Qed.

#[global] Instance billingv1_QueryProviderWithdrawableRequest_agrees : agrees QueryProviderWithdrawableRequest_fits QueryProviderWithdrawableRequest_wire billingv1_QueryProviderWithdrawableRequest_fits billingv1_QueryProviderWithdrawableRequest_wire billingv1_of_QueryProviderWithdrawableRequest.
Proof. solve_agrees. Qed.

#[global] Instance billingv1_QueryProviderWithdrawableResponse_agrees : agrees QueryProviderWithdrawableResponse_fits QueryProviderWithdrawableResponse_wire billingv1_QueryProviderWithdrawableResponse_fits billingv1_QueryProviderWithdrawableResponse_wire billingv1_of_QueryProviderWithdrawableResponse.
Proof. solve_agrees. Qed.

#[global] Instance billingv1_QueryCreditAccountsRequest_agrees : agrees QueryCreditAccountsRequest_fits QueryCreditAccountsRequest_wire billingv1_QueryCreditAccountsRequest_fits billingv1_QueryCreditAccountsRequest_wire billingv1_of_QueryCreditAccountsRequest.
Proof. solve_agrees. Qed.

#[global] Instance billingv1_QueryCreditAccountsResponse_agrees : agrees QueryCreditAccountsResponse_fits QueryCreditAccountsResponse_wire billingv1_QueryCreditAccountsResponse_fits billingv1_QueryCreditAccountsResponse_wire billingv1_of_QueryCreditAccountsResponse.
Proof. solve_agrees. Qed.

#[global] Instance billingv1_QueryLeasesBySKURequest_agrees : agrees QueryLeasesBySKURequest_fits QueryLeasesBySKURequest_wire billingv1_QueryLeasesBySKURequest_fits billingv1_QueryLeasesBySKURequest_wire billingv1_of_QueryLeasesBySKURequest.
Proof. solve_agrees. Qed.

#[global] Instance billingv1_QueryLeasesBySKUResponse_agrees : agrees QueryLeasesBySKUResponse_fits QueryLeasesBySKUResponse_wire billingv1_QueryLeasesBySKUResponse_fits billingv1_QueryLeasesBySKUResponse_wire billingv1_of_QueryLeasesBySKUResponse.
Proof. solve_agrees. Qed.

#[global] Instance billingv1_QueryCreditEstimateRequest_agrees : agrees (λ _, True) QueryCreditEstimateRequest_wire billingv1_QueryCreditEstimateRequest_fits billingv1_QueryCreditEstimateRequest_wire billingv1_of_QueryCreditEstimateRequest.
Proof. solve_agrees. Qed.

#[global] Instance billingv1_QueryCreditEstimateResponse_agrees : agrees QueryCreditEstimateResponse_fits QueryCreditEstimateResponse_wire billingv1_QueryCreditEstimateResponse_fits billingv1_QueryCreditEstimateResponse_wire billingv1_of_QueryCreditEstimateResponse.
Proof. solve_agrees. Qed.

#[global] Instance billingv1_QueryLeaseByCustomDomainRequest_agrees : agrees (λ _, True) QueryLeaseByCustomDomainRequest_wire billingv1_QueryLeaseByCustomDomainRequest_fits billingv1_QueryLeaseByCustomDomainRequest_wire billingv1_of_QueryLeaseByCustomDomainRequest.
Proof. solve_agrees. Qed.

#[global] Instance billingv1_QueryLeaseByCustomDomainResponse_agrees : agrees QueryLeaseByCustomDomainResponse_fits QueryLeaseByCustomDomainResponse_wire billingv1_QueryLeaseByCustomDomainResponse_fits billingv1_QueryLeaseByCustomDomainResponse_wire billingv1_of_QueryLeaseByCustomDomainResponse.
Proof. solve_agrees. Qed.

#[global] Instance billingv1_GenesisState_agrees : agrees GenesisState_fits GenesisState_wire billingv1_GenesisState_fits billingv1_GenesisState_wire billingv1_of_GenesisState.
Proof. solve_agrees. Qed.

(** ** Every message *)

(** A message as the modules and as the API bindings have it. *)
Record binding : Type := mkBinding {
  b_module : generated;
  b_message : Type;
  b_fits : b_message → Prop;
  b_size : option b_message → Z;
  b_marshal : bytes → option b_message → res bytes;
  b_unmarshal : bool → bytes → option b_message → res (option b_message);
  b_wire : b_message → bytes;
  b_new : b_message;
  b_of : g_message b_module → b_message }.

Definition manifest_bindings : list binding :=
  [ mkBinding (mkGenerated _ _ PayoutPair_fits PayoutPair_write PayoutPair_Size PayoutPair_wire PayoutPair_switch
      PayoutPair_zero id) _ manifestv1_PayoutPair_fits manifestv1_PayoutPair_size manifestv1_PayoutPair_marshal
      manifestv1_PayoutPair_unmarshal manifestv1_PayoutPair_wire manifestv1_PayoutPair_new
      manifestv1_of_PayoutPair;
    mkBinding (mkGenerated _ _ MsgPayout_fits MsgPayout_write MsgPayout_Size MsgPayout_wire MsgPayout_switch
      MsgPayout_zero id) _ manifestv1_MsgPayout_fits manifestv1_MsgPayout_size manifestv1_MsgPayout_marshal
      manifestv1_MsgPayout_unmarshal manifestv1_MsgPayout_wire manifestv1_MsgPayout_new manifestv1_of_MsgPayout;
    mkBinding (mkGenerated _ _ (λ _, True) Empty_write Empty_Size Empty_wire Empty_switch Empty_zero id) _
      manifestv1_MsgPayoutResponse_fits manifestv1_MsgPayoutResponse_size manifestv1_MsgPayoutResponse_marshal
      manifestv1_MsgPayoutResponse_unmarshal manifestv1_MsgPayoutResponse_wire manifestv1_MsgPayoutResponse_new
      (λ _, manifestv1_MsgPayoutResponse_new);
    mkBinding (mkGenerated _ _ MsgBurnHeldBalance_fits MsgBurnHeldBalance_write MsgBurnHeldBalance_Size
      MsgBurnHeldBalance_wire MsgBurnHeldBalance_switch MsgBurnHeldBalance_zero id) _
      manifestv1_MsgBurnHeldBalance_fits manifestv1_MsgBurnHeldBalance_size
      manifestv1_MsgBurnHeldBalance_marshal manifestv1_MsgBurnHeldBalance_unmarshal
      manifestv1_MsgBurnHeldBalance_wire manifestv1_MsgBurnHeldBalance_new manifestv1_of_MsgBurnHeldBalance;
    mkBinding (mkGenerated _ _ (λ _, True) Empty_write Empty_Size Empty_wire Empty_switch Empty_zero id) _
      manifestv1_MsgBurnHeldBalanceResponse_fits manifestv1_MsgBurnHeldBalanceResponse_size
      manifestv1_MsgBurnHeldBalanceResponse_marshal manifestv1_MsgBurnHeldBalanceResponse_unmarshal
      manifestv1_MsgBurnHeldBalanceResponse_wire manifestv1_MsgBurnHeldBalanceResponse_new (λ _,
      manifestv1_MsgBurnHeldBalanceResponse_new);
    mkBinding (mkGenerated _ _ (λ _, True) Empty_write Empty_Size Empty_wire Empty_switch Empty_zero id) _
      manifestv1_GenesisState_fits manifestv1_GenesisState_size manifestv1_GenesisState_marshal
      manifestv1_GenesisState_unmarshal manifestv1_GenesisState_wire manifestv1_GenesisState_new (λ _,
      manifestv1_GenesisState_new) ].

Definition sku_bindings : list binding :=
  [ mkBinding (mkGenerated _ _ (λ _, True) SkuParams_write SkuParams_Size SkuParams_wire SkuParams_switch
      SkuParams_zero id) _ skuv1_Params_fits skuv1_Params_size skuv1_Params_marshal skuv1_Params_unmarshal
      skuv1_Params_wire skuv1_Params_new skuv1_of_SkuParams;
    mkBinding (mkGenerated _ _ (λ _, True) Provider_write Provider_Size Provider_wire Provider_switch Provider_zero
      id) _ skuv1_Provider_fits skuv1_Provider_size skuv1_Provider_marshal skuv1_Provider_unmarshal
      skuv1_Provider_wire skuv1_Provider_new skuv1_of_Provider;
    mkBinding (mkGenerated _ _ SKU_fits SKU_write SKU_Size SKU_wire SKU_switch SKU_zero SKU_go) _ skuv1_SKU_fits
      skuv1_SKU_size skuv1_SKU_marshal skuv1_SKU_unmarshal skuv1_SKU_wire skuv1_SKU_new skuv1_of_SKU;
    mkBinding (mkGenerated _ _ (λ _, True) MsgCreateProvider_write MsgCreateProvider_Size MsgCreateProvider_wire
      MsgCreateProvider_switch MsgCreateProvider_zero id) _ skuv1_MsgCreateProvider_fits
      skuv1_MsgCreateProvider_size skuv1_MsgCreateProvider_marshal skuv1_MsgCreateProvider_unmarshal
      skuv1_MsgCreateProvider_wire skuv1_MsgCreateProvider_new skuv1_of_MsgCreateProvider;
    mkBinding (mkGenerated _ _ (λ _, True) MsgCreateProviderResponse_write MsgCreateProviderResponse_Size
      MsgCreateProviderResponse_wire MsgCreateProviderResponse_switch MsgCreateProviderResponse_zero id) _
      skuv1_MsgCreateProviderResponse_fits skuv1_MsgCreateProviderResponse_size
      skuv1_MsgCreateProviderResponse_marshal skuv1_MsgCreateProviderResponse_unmarshal
      skuv1_MsgCreateProviderResponse_wire skuv1_MsgCreateProviderResponse_new
      skuv1_of_MsgCreateProviderResponse;
    mkBinding (mkGenerated _ _ (λ _, True) MsgUpdateProvider_write MsgUpdateProvider_Size MsgUpdateProvider_wire
      MsgUpdateProvider_switch MsgUpdateProvider_zero id) _ skuv1_MsgUpdateProvider_fits
      skuv1_MsgUpdateProvider_size skuv1_MsgUpdateProvider_marshal skuv1_MsgUpdateProvider_unmarshal
      skuv1_MsgUpdateProvider_wire skuv1_MsgUpdateProvider_new skuv1_of_MsgUpdateProvider;
    mkBinding (mkGenerated _ _ (λ _, True) Empty_write Empty_Size Empty_wire Empty_switch Empty_zero id) _
      skuv1_MsgUpdateProviderResponse_fits skuv1_MsgUpdateProviderResponse_size
      skuv1_MsgUpdateProviderResponse_marshal skuv1_MsgUpdateProviderResponse_unmarshal
      skuv1_MsgUpdateProviderResponse_wire skuv1_MsgUpdateProviderResponse_new (λ _,
      skuv1_MsgUpdateProviderResponse_new);
    mkBinding (mkGenerated _ _ MsgDeactivateProvider_fits MsgDeactivateProvider_write MsgDeactivateProvider_Size
      MsgDeactivateProvider_wire MsgDeactivateProvider_switch MsgDeactivateProvider_zero id) _
      skuv1_MsgDeactivateProvider_fits skuv1_MsgDeactivateProvider_size skuv1_MsgDeactivateProvider_marshal
      skuv1_MsgDeactivateProvider_unmarshal skuv1_MsgDeactivateProvider_wire skuv1_MsgDeactivateProvider_new
      skuv1_of_MsgDeactivateProvider;
    mkBinding (mkGenerated _ _ MsgDeactivateProviderResponse_fits MsgDeactivateProviderResponse_write
      MsgDeactivateProviderResponse_Size MsgDeactivateProviderResponse_wire MsgDeactivateProviderResponse_switch
      MsgDeactivateProviderResponse_zero id) _ skuv1_MsgDeactivateProviderResponse_fits
      skuv1_MsgDeactivateProviderResponse_size skuv1_MsgDeactivateProviderResponse_marshal
      skuv1_MsgDeactivateProviderResponse_unmarshal skuv1_MsgDeactivateProviderResponse_wire
      skuv1_MsgDeactivateProviderResponse_new skuv1_of_MsgDeactivateProviderResponse;
    mkBinding (mkGenerated _ _ MsgCreateSKU_fits MsgCreateSKU_write MsgCreateSKU_Size MsgCreateSKU_wire
      MsgCreateSKU_switch MsgCreateSKU_zero MsgCreateSKU_go) _ skuv1_MsgCreateSKU_fits skuv1_MsgCreateSKU_size
      skuv1_MsgCreateSKU_marshal skuv1_MsgCreateSKU_unmarshal skuv1_MsgCreateSKU_wire skuv1_MsgCreateSKU_new
      skuv1_of_MsgCreateSKU;
    mkBinding (mkGenerated _ _ (λ _, True) MsgCreateSKUResponse_write MsgCreateSKUResponse_Size
      MsgCreateSKUResponse_wire MsgCreateSKUResponse_switch MsgCreateSKUResponse_zero id) _
      skuv1_MsgCreateSKUResponse_fits skuv1_MsgCreateSKUResponse_size skuv1_MsgCreateSKUResponse_marshal
      skuv1_MsgCreateSKUResponse_unmarshal skuv1_MsgCreateSKUResponse_wire skuv1_MsgCreateSKUResponse_new
      skuv1_of_MsgCreateSKUResponse;
    mkBinding (mkGenerated _ _ MsgUpdateSKU_fits MsgUpdateSKU_write MsgUpdateSKU_Size MsgUpdateSKU_wire
      MsgUpdateSKU_switch MsgUpdateSKU_zero MsgUpdateSKU_go) _ skuv1_MsgUpdateSKU_fits skuv1_MsgUpdateSKU_size
      skuv1_MsgUpdateSKU_marshal skuv1_MsgUpdateSKU_unmarshal skuv1_MsgUpdateSKU_wire skuv1_MsgUpdateSKU_new
      skuv1_of_MsgUpdateSKU;
    mkBinding (mkGenerated _ _ (λ _, True) Empty_write Empty_Size Empty_wire Empty_switch Empty_zero id) _
      skuv1_MsgUpdateSKUResponse_fits skuv1_MsgUpdateSKUResponse_size skuv1_MsgUpdateSKUResponse_marshal
      skuv1_MsgUpdateSKUResponse_unmarshal skuv1_MsgUpdateSKUResponse_wire skuv1_MsgUpdateSKUResponse_new (λ _,
      skuv1_MsgUpdateSKUResponse_new);
    mkBinding (mkGenerated _ _ (λ _, True) MsgDeactivateSKU_write MsgDeactivateSKU_Size MsgDeactivateSKU_wire
      MsgDeactivateSKU_switch MsgDeactivateSKU_zero id) _ skuv1_MsgDeactivateSKU_fits
      skuv1_MsgDeactivateSKU_size skuv1_MsgDeactivateSKU_marshal skuv1_MsgDeactivateSKU_unmarshal
      skuv1_MsgDeactivateSKU_wire skuv1_MsgDeactivateSKU_new skuv1_of_MsgDeactivateSKU;
    mkBinding (mkGenerated _ _ (λ _, True) Empty_write Empty_Size Empty_wire Empty_switch Empty_zero id) _
      skuv1_MsgDeactivateSKUResponse_fits skuv1_MsgDeactivateSKUResponse_size
      skuv1_MsgDeactivateSKUResponse_marshal skuv1_MsgDeactivateSKUResponse_unmarshal
      skuv1_MsgDeactivateSKUResponse_wire skuv1_MsgDeactivateSKUResponse_new (λ _,
      skuv1_MsgDeactivateSKUResponse_new);
    mkBinding (mkGenerated _ _ (λ _, True) SkuMsgUpdateParams_write SkuMsgUpdateParams_Size SkuMsgUpdateParams_wire
      SkuMsgUpdateParams_switch SkuMsgUpdateParams_zero id) _ skuv1_MsgUpdateParams_fits
      skuv1_MsgUpdateParams_size skuv1_MsgUpdateParams_marshal skuv1_MsgUpdateParams_unmarshal
      skuv1_MsgUpdateParams_wire skuv1_MsgUpdateParams_new skuv1_of_SkuMsgUpdateParams;
    mkBinding (mkGenerated _ _ (λ _, True) Empty_write Empty_Size Empty_wire Empty_switch Empty_zero id) _
      skuv1_MsgUpdateParamsResponse_fits skuv1_MsgUpdateParamsResponse_size
      skuv1_MsgUpdateParamsResponse_marshal skuv1_MsgUpdateParamsResponse_unmarshal
      skuv1_MsgUpdateParamsResponse_wire skuv1_MsgUpdateParamsResponse_new (λ _,
      skuv1_MsgUpdateParamsResponse_new);
    mkBinding (mkGenerated _ _ (λ _, True) Empty_write Empty_Size Empty_wire Empty_switch Empty_zero id) _
      skuv1_QueryParamsRequest_fits skuv1_QueryParamsRequest_size skuv1_QueryParamsRequest_marshal
      skuv1_QueryParamsRequest_unmarshal skuv1_QueryParamsRequest_wire skuv1_QueryParamsRequest_new (λ _,
      skuv1_QueryParamsRequest_new);
    mkBinding (mkGenerated _ _ (λ _, True) SkuQueryParamsResponse_write SkuQueryParamsResponse_Size
      SkuQueryParamsResponse_wire SkuQueryParamsResponse_switch SkuQueryParamsResponse_zero id) _
      skuv1_QueryParamsResponse_fits skuv1_QueryParamsResponse_size skuv1_QueryParamsResponse_marshal
      skuv1_QueryParamsResponse_unmarshal skuv1_QueryParamsResponse_wire skuv1_QueryParamsResponse_new
      skuv1_of_SkuQueryParamsResponse;
    mkBinding (mkGenerated _ _ (λ _, True) QueryProviderRequest_write QueryProviderRequest_Size
      QueryProviderRequest_wire QueryProviderRequest_switch QueryProviderRequest_zero id) _
      skuv1_QueryProviderRequest_fits skuv1_QueryProviderRequest_size skuv1_QueryProviderRequest_marshal
      skuv1_QueryProviderRequest_unmarshal skuv1_QueryProviderRequest_wire skuv1_QueryProviderRequest_new
      skuv1_of_QueryProviderRequest;
    mkBinding (mkGenerated _ _ (λ _, True) QueryProviderResponse_write QueryProviderResponse_Size
      QueryProviderResponse_wire QueryProviderResponse_switch QueryProviderResponse_zero id) _
      skuv1_QueryProviderResponse_fits skuv1_QueryProviderResponse_size skuv1_QueryProviderResponse_marshal
      skuv1_QueryProviderResponse_unmarshal skuv1_QueryProviderResponse_wire skuv1_QueryProviderResponse_new
      skuv1_of_QueryProviderResponse;
    mkBinding (mkGenerated _ _ QueryProvidersRequest_fits QueryProvidersRequest_write QueryProvidersRequest_Size
      QueryProvidersRequest_wire QueryProvidersRequest_switch QueryProvidersRequest_zero id) _
      skuv1_QueryProvidersRequest_fits skuv1_QueryProvidersRequest_size skuv1_QueryProvidersRequest_marshal
      skuv1_QueryProvidersRequest_unmarshal skuv1_QueryProvidersRequest_wire skuv1_QueryProvidersRequest_new
      skuv1_of_QueryProvidersRequest;
    mkBinding (mkGenerated _ _ QueryProvidersResponse_fits QueryProvidersResponse_write QueryProvidersResponse_Size
      QueryProvidersResponse_wire QueryProvidersResponse_switch QueryProvidersResponse_zero id) _
      skuv1_QueryProvidersResponse_fits skuv1_QueryProvidersResponse_size skuv1_QueryProvidersResponse_marshal
      skuv1_QueryProvidersResponse_unmarshal skuv1_QueryProvidersResponse_wire skuv1_QueryProvidersResponse_new
      skuv1_of_QueryProvidersResponse;
    mkBinding (mkGenerated _ _ (λ _, True) QuerySKURequest_write QuerySKURequest_Size QuerySKURequest_wire
      QuerySKURequest_switch QuerySKURequest_zero id) _ skuv1_QuerySKURequest_fits skuv1_QuerySKURequest_size
      skuv1_QuerySKURequest_marshal skuv1_QuerySKURequest_unmarshal skuv1_QuerySKURequest_wire
      skuv1_QuerySKURequest_new skuv1_of_QuerySKURequest;
    mkBinding (mkGenerated _ _ QuerySKUResponse_fits QuerySKUResponse_write QuerySKUResponse_Size
      QuerySKUResponse_wire QuerySKUResponse_switch QuerySKUResponse_zero QuerySKUResponse_go) _
      skuv1_QuerySKUResponse_fits skuv1_QuerySKUResponse_size skuv1_QuerySKUResponse_marshal
      skuv1_QuerySKUResponse_unmarshal skuv1_QuerySKUResponse_wire skuv1_QuerySKUResponse_new
      skuv1_of_QuerySKUResponse;
    mkBinding (mkGenerated _ _ QuerySKUsRequest_fits QuerySKUsRequest_write QuerySKUsRequest_Size
      QuerySKUsRequest_wire QuerySKUsRequest_switch QuerySKUsRequest_zero id) _ skuv1_QuerySKUsRequest_fits
      skuv1_QuerySKUsRequest_size skuv1_QuerySKUsRequest_marshal skuv1_QuerySKUsRequest_unmarshal
      skuv1_QuerySKUsRequest_wire skuv1_QuerySKUsRequest_new skuv1_of_QuerySKUsRequest;
    mkBinding (mkGenerated _ _ QuerySKUsResponse_fits QuerySKUsResponse_write QuerySKUsResponse_Size
      QuerySKUsResponse_wire QuerySKUsResponse_switch QuerySKUsResponse_zero QuerySKUsResponse_go) _
      skuv1_QuerySKUsResponse_fits skuv1_QuerySKUsResponse_size skuv1_QuerySKUsResponse_marshal
      skuv1_QuerySKUsResponse_unmarshal skuv1_QuerySKUsResponse_wire skuv1_QuerySKUsResponse_new
      skuv1_of_QuerySKUsResponse;
    mkBinding (mkGenerated _ _ QuerySKUsByProviderRequest_fits QuerySKUsByProviderRequest_write
      QuerySKUsByProviderRequest_Size QuerySKUsByProviderRequest_wire QuerySKUsByProviderRequest_switch
      QuerySKUsByProviderRequest_zero id) _ skuv1_QuerySKUsByProviderRequest_fits
      skuv1_QuerySKUsByProviderRequest_size skuv1_QuerySKUsByProviderRequest_marshal
      skuv1_QuerySKUsByProviderRequest_unmarshal skuv1_QuerySKUsByProviderRequest_wire
      skuv1_QuerySKUsByProviderRequest_new skuv1_of_QuerySKUsByProviderRequest;
    mkBinding (mkGenerated _ _ QuerySKUsByProviderResponse_fits QuerySKUsByProviderResponse_write
      QuerySKUsByProviderResponse_Size QuerySKUsByProviderResponse_wire QuerySKUsByProviderResponse_switch
      QuerySKUsByProviderResponse_zero QuerySKUsByProviderResponse_go) _ skuv1_QuerySKUsByProviderResponse_fits
      skuv1_QuerySKUsByProviderResponse_size skuv1_QuerySKUsByProviderResponse_marshal
      skuv1_QuerySKUsByProviderResponse_unmarshal skuv1_QuerySKUsByProviderResponse_wire
      skuv1_QuerySKUsByProviderResponse_new skuv1_of_QuerySKUsByProviderResponse;
    mkBinding (mkGenerated _ _ QueryProviderByAddressRequest_fits QueryProviderByAddressRequest_write
      QueryProviderByAddressRequest_Size QueryProviderByAddressRequest_wire QueryProviderByAddressRequest_switch
      QueryProviderByAddressRequest_zero id) _ skuv1_QueryProviderByAddressRequest_fits
      skuv1_QueryProviderByAddressRequest_size skuv1_QueryProviderByAddressRequest_marshal
      skuv1_QueryProviderByAddressRequest_unmarshal skuv1_QueryProviderByAddressRequest_wire
      skuv1_QueryProviderByAddressRequest_new skuv1_of_QueryProviderByAddressRequest;
    mkBinding (mkGenerated _ _ QueryProviderByAddressResponse_fits QueryProviderByAddressResponse_write
      QueryProviderByAddressResponse_Size QueryProviderByAddressResponse_wire
      QueryProviderByAddressResponse_switch QueryProviderByAddressResponse_zero id) _
      skuv1_QueryProviderByAddressResponse_fits skuv1_QueryProviderByAddressResponse_size
      skuv1_QueryProviderByAddressResponse_marshal skuv1_QueryProviderByAddressResponse_unmarshal
      skuv1_QueryProviderByAddressResponse_wire skuv1_QueryProviderByAddressResponse_new
      skuv1_of_QueryProviderByAddressResponse;
    mkBinding (mkGenerated _ _ SkuGenesisState_fits SkuGenesisState_write SkuGenesisState_Size SkuGenesisState_wire
      SkuGenesisState_switch SkuGenesisState_zero SkuGenesisState_go) _ skuv1_GenesisState_fits
      skuv1_GenesisState_size skuv1_GenesisState_marshal skuv1_GenesisState_unmarshal skuv1_GenesisState_wire
      skuv1_GenesisState_new skuv1_of_SkuGenesisState ].

Definition billing_bindings : list binding :=
  [ mkBinding (mkGenerated _ _ Params_fits Params_write Params_Size Params_wire Params_switch Params_zero id) _
      billingv1_Params_fits billingv1_Params_size billingv1_Params_marshal billingv1_Params_unmarshal
      billingv1_Params_wire billingv1_Params_new billingv1_of_Params;
    mkBinding (mkGenerated _ _ LeaseItem_fits LeaseItem_write LeaseItem_Size LeaseItem_wire LeaseItem_switch
      LeaseItem_zero id) _ billingv1_LeaseItem_fits billingv1_LeaseItem_size billingv1_LeaseItem_marshal
      billingv1_LeaseItem_unmarshal billingv1_LeaseItem_wire billingv1_LeaseItem_new billingv1_of_LeaseItem;
    mkBinding (mkGenerated _ _ Lease_fits Lease_write Lease_Size Lease_wire Lease_switch Lease_zero go_lease) _
      billingv1_Lease_fits billingv1_Lease_size billingv1_Lease_marshal billingv1_Lease_unmarshal
      billingv1_Lease_wire billingv1_Lease_new billingv1_of_Lease;
    mkBinding (mkGenerated _ _ (λ _, True) Target_write Target_Size Target_wire Target_switch Target_zero id) _
      billingv1_CustomDomainTarget_fits billingv1_CustomDomainTarget_size billingv1_CustomDomainTarget_marshal
      billingv1_CustomDomainTarget_unmarshal billingv1_CustomDomainTarget_wire billingv1_CustomDomainTarget_new
      billingv1_of_Target;
    mkBinding (mkGenerated _ _ CreditAccount_fits CreditAccount_write CreditAccount_Size CreditAccount_wire
      CreditAccount_switch CreditAccount_zero id) _ billingv1_CreditAccount_fits billingv1_CreditAccount_size
      billingv1_CreditAccount_marshal billingv1_CreditAccount_unmarshal billingv1_CreditAccount_wire
      billingv1_CreditAccount_new billingv1_of_CreditAccount;
    mkBinding (mkGenerated _ _ LeaseItemInput_fits LeaseItemInput_write LeaseItemInput_Size LeaseItemInput_wire
      LeaseItemInput_switch LeaseItemInput_zero id) _ billingv1_LeaseItemInput_fits
      billingv1_LeaseItemInput_size billingv1_LeaseItemInput_marshal billingv1_LeaseItemInput_unmarshal
      billingv1_LeaseItemInput_wire billingv1_LeaseItemInput_new billingv1_of_LeaseItemInput;
    mkBinding (mkGenerated _ _ MsgFundCredit_fits MsgFundCredit_write MsgFundCredit_Size MsgFundCredit_wire
      MsgFundCredit_switch MsgFundCredit_zero id) _ billingv1_MsgFundCredit_fits billingv1_MsgFundCredit_size
      billingv1_MsgFundCredit_marshal billingv1_MsgFundCredit_unmarshal billingv1_MsgFundCredit_wire
      billingv1_MsgFundCredit_new billingv1_of_MsgFundCredit;
    mkBinding (mkGenerated _ _ MsgFundCreditResponse_fits MsgFundCreditResponse_write MsgFundCreditResponse_Size
      MsgFundCreditResponse_wire MsgFundCreditResponse_switch MsgFundCreditResponse_zero id) _
      billingv1_MsgFundCreditResponse_fits billingv1_MsgFundCreditResponse_size
      billingv1_MsgFundCreditResponse_marshal billingv1_MsgFundCreditResponse_unmarshal
      billingv1_MsgFundCreditResponse_wire billingv1_MsgFundCreditResponse_new
      billingv1_of_MsgFundCreditResponse;
    mkBinding (mkGenerated _ _ MsgCreateLease_fits MsgCreateLease_write MsgCreateLease_Size MsgCreateLease_wire
      MsgCreateLease_switch MsgCreateLease_zero id) _ billingv1_MsgCreateLease_fits
      billingv1_MsgCreateLease_size billingv1_MsgCreateLease_marshal billingv1_MsgCreateLease_unmarshal
      billingv1_MsgCreateLease_wire billingv1_MsgCreateLease_new billingv1_of_MsgCreateLease;
    mkBinding (mkGenerated _ _ (λ _, True) MsgCreateLeaseResponse_write MsgCreateLeaseResponse_Size
      MsgCreateLeaseResponse_wire MsgCreateLeaseResponse_switch MsgCreateLeaseResponse_zero id) _
      billingv1_MsgCreateLeaseResponse_fits billingv1_MsgCreateLeaseResponse_size
      billingv1_MsgCreateLeaseResponse_marshal billingv1_MsgCreateLeaseResponse_unmarshal
      billingv1_MsgCreateLeaseResponse_wire billingv1_MsgCreateLeaseResponse_new
      billingv1_of_MsgCreateLeaseResponse;
    mkBinding (mkGenerated _ _ MsgCreateLeaseForTenant_fits MsgCreateLeaseForTenant_write
      MsgCreateLeaseForTenant_Size MsgCreateLeaseForTenant_wire MsgCreateLeaseForTenant_switch
      MsgCreateLeaseForTenant_zero id) _ billingv1_MsgCreateLeaseForTenant_fits
      billingv1_MsgCreateLeaseForTenant_size billingv1_MsgCreateLeaseForTenant_marshal
      billingv1_MsgCreateLeaseForTenant_unmarshal billingv1_MsgCreateLeaseForTenant_wire
      billingv1_MsgCreateLeaseForTenant_new billingv1_of_MsgCreateLeaseForTenant;
    mkBinding (mkGenerated _ _ (λ _, True) MsgCreateLeaseForTenantResponse_write
      MsgCreateLeaseForTenantResponse_Size MsgCreateLeaseForTenantResponse_wire
      MsgCreateLeaseForTenantResponse_switch MsgCreateLeaseForTenantResponse_zero id) _
      billingv1_MsgCreateLeaseForTenantResponse_fits billingv1_MsgCreateLeaseForTenantResponse_size
      billingv1_MsgCreateLeaseForTenantResponse_marshal billingv1_MsgCreateLeaseForTenantResponse_unmarshal
      billingv1_MsgCreateLeaseForTenantResponse_wire billingv1_MsgCreateLeaseForTenantResponse_new
      billingv1_of_MsgCreateLeaseForTenantResponse;
    mkBinding (mkGenerated _ _ (λ _, True) MsgCloseLease_write MsgCloseLease_Size MsgCloseLease_wire
      MsgCloseLease_switch MsgCloseLease_zero id) _ billingv1_MsgCloseLease_fits billingv1_MsgCloseLease_size
      billingv1_MsgCloseLease_marshal billingv1_MsgCloseLease_unmarshal billingv1_MsgCloseLease_wire
      billingv1_MsgCloseLease_new billingv1_of_MsgCloseLease;
    mkBinding (mkGenerated _ _ MsgCloseLeaseResponse_fits MsgCloseLeaseResponse_write MsgCloseLeaseResponse_Size
      MsgCloseLeaseResponse_wire MsgCloseLeaseResponse_switch MsgCloseLeaseResponse_zero id) _
      billingv1_MsgCloseLeaseResponse_fits billingv1_MsgCloseLeaseResponse_size
      billingv1_MsgCloseLeaseResponse_marshal billingv1_MsgCloseLeaseResponse_unmarshal
      billingv1_MsgCloseLeaseResponse_wire billingv1_MsgCloseLeaseResponse_new
      billingv1_of_MsgCloseLeaseResponse;
    mkBinding (mkGenerated _ _ MsgWithdraw_fits MsgWithdraw_write MsgWithdraw_Size MsgWithdraw_wire
      MsgWithdraw_switch MsgWithdraw_zero id) _ billingv1_MsgWithdraw_fits billingv1_MsgWithdraw_size
      billingv1_MsgWithdraw_marshal billingv1_MsgWithdraw_unmarshal billingv1_MsgWithdraw_wire
      billingv1_MsgWithdraw_new billingv1_of_MsgWithdraw;
    mkBinding (mkGenerated _ _ MsgWithdrawResponse_fits MsgWithdrawResponse_write MsgWithdrawResponse_Size
      MsgWithdrawResponse_wire MsgWithdrawResponse_switch MsgWithdrawResponse_zero id) _
      billingv1_MsgWithdrawResponse_fits billingv1_MsgWithdrawResponse_size
      billingv1_MsgWithdrawResponse_marshal billingv1_MsgWithdrawResponse_unmarshal
      billingv1_MsgWithdrawResponse_wire billingv1_MsgWithdrawResponse_new billingv1_of_MsgWithdrawResponse;
    mkBinding (mkGenerated _ _ MsgUpdateParams_fits MsgUpdateParams_write MsgUpdateParams_Size MsgUpdateParams_wire
      MsgUpdateParams_switch MsgUpdateParams_zero id) _ billingv1_MsgUpdateParams_fits
      billingv1_MsgUpdateParams_size billingv1_MsgUpdateParams_marshal billingv1_MsgUpdateParams_unmarshal
      billingv1_MsgUpdateParams_wire billingv1_MsgUpdateParams_new billingv1_of_MsgUpdateParams;
    mkBinding (mkGenerated _ _ (λ _, True) Empty_write Empty_Size Empty_wire Empty_switch Empty_zero id) _
      billingv1_MsgUpdateParamsResponse_fits billingv1_MsgUpdateParamsResponse_size
      billingv1_MsgUpdateParamsResponse_marshal billingv1_MsgUpdateParamsResponse_unmarshal
      billingv1_MsgUpdateParamsResponse_wire billingv1_MsgUpdateParamsResponse_new (λ _,
      billingv1_MsgUpdateParamsResponse_new);
    mkBinding (mkGenerated _ _ (λ _, True) MsgAcknowledgeLease_write MsgAcknowledgeLease_Size
      MsgAcknowledgeLease_wire MsgAcknowledgeLease_switch MsgAcknowledgeLease_zero id) _
      billingv1_MsgAcknowledgeLease_fits billingv1_MsgAcknowledgeLease_size
      billingv1_MsgAcknowledgeLease_marshal billingv1_MsgAcknowledgeLease_unmarshal
      billingv1_MsgAcknowledgeLease_wire billingv1_MsgAcknowledgeLease_new billingv1_of_MsgAcknowledgeLease;
    mkBinding (mkGenerated _ _ MsgAcknowledgeLeaseResponse_fits MsgAcknowledgeLeaseResponse_write
      MsgAcknowledgeLeaseResponse_Size MsgAcknowledgeLeaseResponse_wire MsgAcknowledgeLeaseResponse_switch
      MsgAcknowledgeLeaseResponse_zero id) _ billingv1_MsgAcknowledgeLeaseResponse_fits
      billingv1_MsgAcknowledgeLeaseResponse_size billingv1_MsgAcknowledgeLeaseResponse_marshal
      billingv1_MsgAcknowledgeLeaseResponse_unmarshal billingv1_MsgAcknowledgeLeaseResponse_wire
      billingv1_MsgAcknowledgeLeaseResponse_new billingv1_of_MsgAcknowledgeLeaseResponse;
    mkBinding (mkGenerated _ _ (λ _, True) MsgRejectLease_write MsgRejectLease_Size MsgRejectLease_wire
      MsgRejectLease_switch MsgRejectLease_zero id) _ billingv1_MsgRejectLease_fits
      billingv1_MsgRejectLease_size billingv1_MsgRejectLease_marshal billingv1_MsgRejectLease_unmarshal
      billingv1_MsgRejectLease_wire billingv1_MsgRejectLease_new billingv1_of_MsgRejectLease;
    mkBinding (mkGenerated _ _ MsgRejectLeaseResponse_fits MsgRejectLeaseResponse_write MsgRejectLeaseResponse_Size
      MsgRejectLeaseResponse_wire MsgRejectLeaseResponse_switch MsgRejectLeaseResponse_zero id) _
      billingv1_MsgRejectLeaseResponse_fits billingv1_MsgRejectLeaseResponse_size
      billingv1_MsgRejectLeaseResponse_marshal billingv1_MsgRejectLeaseResponse_unmarshal
      billingv1_MsgRejectLeaseResponse_wire billingv1_MsgRejectLeaseResponse_new
      billingv1_of_MsgRejectLeaseResponse;
    mkBinding (mkGenerated _ _ (λ _, True) MsgCancelLease_write MsgCancelLease_Size MsgCancelLease_wire
      MsgCancelLease_switch MsgCancelLease_zero id) _ billingv1_MsgCancelLease_fits
      billingv1_MsgCancelLease_size billingv1_MsgCancelLease_marshal billingv1_MsgCancelLease_unmarshal
      billingv1_MsgCancelLease_wire billingv1_MsgCancelLease_new billingv1_of_MsgCancelLease;
    mkBinding (mkGenerated _ _ MsgCancelLeaseResponse_fits MsgCancelLeaseResponse_write MsgCancelLeaseResponse_Size
      MsgCancelLeaseResponse_wire MsgCancelLeaseResponse_switch MsgCancelLeaseResponse_zero id) _
      billingv1_MsgCancelLeaseResponse_fits billingv1_MsgCancelLeaseResponse_size
      billingv1_MsgCancelLeaseResponse_marshal billingv1_MsgCancelLeaseResponse_unmarshal
      billingv1_MsgCancelLeaseResponse_wire billingv1_MsgCancelLeaseResponse_new
      billingv1_of_MsgCancelLeaseResponse;
    mkBinding (mkGenerated _ _ (λ _, True) MsgSetItemCustomDomain_write MsgSetItemCustomDomain_Size
      MsgSetItemCustomDomain_wire MsgSetItemCustomDomain_switch MsgSetItemCustomDomain_zero id) _
      billingv1_MsgSetItemCustomDomain_fits billingv1_MsgSetItemCustomDomain_size
      billingv1_MsgSetItemCustomDomain_marshal billingv1_MsgSetItemCustomDomain_unmarshal
      billingv1_MsgSetItemCustomDomain_wire billingv1_MsgSetItemCustomDomain_new
      billingv1_of_MsgSetItemCustomDomain;
    mkBinding (mkGenerated _ _ (λ _, True) Empty_write Empty_Size Empty_wire Empty_switch Empty_zero id) _
      billingv1_MsgSetItemCustomDomainResponse_fits billingv1_MsgSetItemCustomDomainResponse_size
      billingv1_MsgSetItemCustomDomainResponse_marshal billingv1_MsgSetItemCustomDomainResponse_unmarshal
      billingv1_MsgSetItemCustomDomainResponse_wire billingv1_MsgSetItemCustomDomainResponse_new (λ _,
      billingv1_MsgSetItemCustomDomainResponse_new);
    mkBinding (mkGenerated _ _ (λ _, True) Empty_write Empty_Size Empty_wire Empty_switch Empty_zero id) _
      billingv1_QueryParamsRequest_fits billingv1_QueryParamsRequest_size billingv1_QueryParamsRequest_marshal
      billingv1_QueryParamsRequest_unmarshal billingv1_QueryParamsRequest_wire billingv1_QueryParamsRequest_new
      (λ _, billingv1_QueryParamsRequest_new);
    mkBinding (mkGenerated _ _ QueryParamsResponse_fits QueryParamsResponse_write QueryParamsResponse_Size
      QueryParamsResponse_wire QueryParamsResponse_switch QueryParamsResponse_zero id) _
      billingv1_QueryParamsResponse_fits billingv1_QueryParamsResponse_size
      billingv1_QueryParamsResponse_marshal billingv1_QueryParamsResponse_unmarshal
      billingv1_QueryParamsResponse_wire billingv1_QueryParamsResponse_new billingv1_of_QueryParamsResponse;
    mkBinding (mkGenerated _ _ (λ _, True) QueryLeaseRequest_write QueryLeaseRequest_Size QueryLeaseRequest_wire
      QueryLeaseRequest_switch QueryLeaseRequest_zero id) _ billingv1_QueryLeaseRequest_fits
      billingv1_QueryLeaseRequest_size billingv1_QueryLeaseRequest_marshal billingv1_QueryLeaseRequest_unmarshal
      billingv1_QueryLeaseRequest_wire billingv1_QueryLeaseRequest_new billingv1_of_QueryLeaseRequest;
    mkBinding (mkGenerated _ _ QueryLeaseResponse_fits QueryLeaseResponse_write QueryLeaseResponse_Size
      QueryLeaseResponse_wire QueryLeaseResponse_switch QueryLeaseResponse_zero QueryLeaseResponse_go) _
      billingv1_QueryLeaseResponse_fits billingv1_QueryLeaseResponse_size billingv1_QueryLeaseResponse_marshal
      billingv1_QueryLeaseResponse_unmarshal billingv1_QueryLeaseResponse_wire billingv1_QueryLeaseResponse_new
      billingv1_of_QueryLeaseResponse;
    mkBinding (mkGenerated _ _ QueryLeasesRequest_fits QueryLeasesRequest_write QueryLeasesRequest_Size
      QueryLeasesRequest_wire QueryLeasesRequest_switch QueryLeasesRequest_zero QueryLeasesRequest_go) _
      billingv1_QueryLeasesRequest_fits billingv1_QueryLeasesRequest_size billingv1_QueryLeasesRequest_marshal
      billingv1_QueryLeasesRequest_unmarshal billingv1_QueryLeasesRequest_wire billingv1_QueryLeasesRequest_new
      billingv1_of_QueryLeasesRequest;
    mkBinding (mkGenerated _ _ QueryLeasesResponse_fits QueryLeasesResponse_write QueryLeasesResponse_Size
      QueryLeasesResponse_wire QueryLeasesResponse_switch QueryLeasesResponse_zero QueryLeasesResponse_go) _
      billingv1_QueryLeasesResponse_fits billingv1_QueryLeasesResponse_size
      billingv1_QueryLeasesResponse_marshal billingv1_QueryLeasesResponse_unmarshal
      billingv1_QueryLeasesResponse_wire billingv1_QueryLeasesResponse_new billingv1_of_QueryLeasesResponse;
    mkBinding (mkGenerated _ _ QueryLeasesByTenantRequest_fits QueryLeasesByTenantRequest_write
      QueryLeasesByTenantRequest_Size QueryLeasesByTenantRequest_wire QueryLeasesByTenantRequest_switch
      QueryLeasesByTenantRequest_zero QueryLeasesByTenantRequest_go) _ billingv1_QueryLeasesByTenantRequest_fits
      billingv1_QueryLeasesByTenantRequest_size billingv1_QueryLeasesByTenantRequest_marshal
      billingv1_QueryLeasesByTenantRequest_unmarshal billingv1_QueryLeasesByTenantRequest_wire
      billingv1_QueryLeasesByTenantRequest_new billingv1_of_QueryLeasesByTenantRequest;
    mkBinding (mkGenerated _ _ QueryLeasesByTenantResponse_fits QueryLeasesByTenantResponse_write
      QueryLeasesByTenantResponse_Size QueryLeasesByTenantResponse_wire QueryLeasesByTenantResponse_switch
      QueryLeasesByTenantResponse_zero QueryLeasesByTenantResponse_go) _
      billingv1_QueryLeasesByTenantResponse_fits billingv1_QueryLeasesByTenantResponse_size
      billingv1_QueryLeasesByTenantResponse_marshal billingv1_QueryLeasesByTenantResponse_unmarshal
      billingv1_QueryLeasesByTenantResponse_wire billingv1_QueryLeasesByTenantResponse_new
      billingv1_of_QueryLeasesByTenantResponse;
    mkBinding (mkGenerated _ _ QueryLeasesByProviderRequest_fits QueryLeasesByProviderRequest_write
      QueryLeasesByProviderRequest_Size QueryLeasesByProviderRequest_wire QueryLeasesByProviderRequest_switch
      QueryLeasesByProviderRequest_zero QueryLeasesByProviderRequest_go) _
      billingv1_QueryLeasesByProviderRequest_fits billingv1_QueryLeasesByProviderRequest_size
      billingv1_QueryLeasesByProviderRequest_marshal billingv1_QueryLeasesByProviderRequest_unmarshal
      billingv1_QueryLeasesByProviderRequest_wire billingv1_QueryLeasesByProviderRequest_new
      billingv1_of_QueryLeasesByProviderRequest;
    mkBinding (mkGenerated _ _ QueryLeasesByProviderResponse_fits QueryLeasesByProviderResponse_write
      QueryLeasesByProviderResponse_Size QueryLeasesByProviderResponse_wire QueryLeasesByProviderResponse_switch
      QueryLeasesByProviderResponse_zero QueryLeasesByProviderResponse_go) _
      billingv1_QueryLeasesByProviderResponse_fits billingv1_QueryLeasesByProviderResponse_size
      billingv1_QueryLeasesByProviderResponse_marshal billingv1_QueryLeasesByProviderResponse_unmarshal
      billingv1_QueryLeasesByProviderResponse_wire billingv1_QueryLeasesByProviderResponse_new
      billingv1_of_QueryLeasesByProviderResponse;
    mkBinding (mkGenerated _ _ (λ _, True) QueryCreditAccountRequest_write QueryCreditAccountRequest_Size
      QueryCreditAccountRequest_wire QueryCreditAccountRequest_switch QueryCreditAccountRequest_zero id) _
      billingv1_QueryCreditAccountRequest_fits billingv1_QueryCreditAccountRequest_size
      billingv1_QueryCreditAccountRequest_marshal billingv1_QueryCreditAccountRequest_unmarshal
      billingv1_QueryCreditAccountRequest_wire billingv1_QueryCreditAccountRequest_new
      billingv1_of_QueryCreditAccountRequest;
    mkBinding (mkGenerated _ _ QueryCreditAccountResponse_fits QueryCreditAccountResponse_write
      QueryCreditAccountResponse_Size QueryCreditAccountResponse_wire QueryCreditAccountResponse_switch
      QueryCreditAccountResponse_zero id) _ billingv1_QueryCreditAccountResponse_fits
      billingv1_QueryCreditAccountResponse_size billingv1_QueryCreditAccountResponse_marshal
      billingv1_QueryCreditAccountResponse_unmarshal billingv1_QueryCreditAccountResponse_wire
      billingv1_QueryCreditAccountResponse_new billingv1_of_QueryCreditAccountResponse;
    mkBinding (mkGenerated _ _ (λ _, True) QueryCreditAddressRequest_write QueryCreditAddressRequest_Size
      QueryCreditAddressRequest_wire QueryCreditAddressRequest_switch QueryCreditAddressRequest_zero id) _
      billingv1_QueryCreditAddressRequest_fits billingv1_QueryCreditAddressRequest_size
      billingv1_QueryCreditAddressRequest_marshal billingv1_QueryCreditAddressRequest_unmarshal
      billingv1_QueryCreditAddressRequest_wire billingv1_QueryCreditAddressRequest_new
      billingv1_of_QueryCreditAddressRequest;
    mkBinding (mkGenerated _ _ (λ _, True) QueryCreditAddressResponse_write QueryCreditAddressResponse_Size
      QueryCreditAddressResponse_wire QueryCreditAddressResponse_switch QueryCreditAddressResponse_zero id) _
      billingv1_QueryCreditAddressResponse_fits billingv1_QueryCreditAddressResponse_size
      billingv1_QueryCreditAddressResponse_marshal billingv1_QueryCreditAddressResponse_unmarshal
      billingv1_QueryCreditAddressResponse_wire billingv1_QueryCreditAddressResponse_new
      billingv1_of_QueryCreditAddressResponse;
    mkBinding (mkGenerated _ _ (λ _, True) QueryWithdrawableAmountRequest_write QueryWithdrawableAmountRequest_Size
      QueryWithdrawableAmountRequest_wire QueryWithdrawableAmountRequest_switch
      QueryWithdrawableAmountRequest_zero id) _ billingv1_QueryWithdrawableAmountRequest_fits
      billingv1_QueryWithdrawableAmountRequest_size billingv1_QueryWithdrawableAmountRequest_marshal
      billingv1_QueryWithdrawableAmountRequest_unmarshal billingv1_QueryWithdrawableAmountRequest_wire
      billingv1_QueryWithdrawableAmountRequest_new billingv1_of_QueryWithdrawableAmountRequest;
    mkBinding (mkGenerated _ _ QueryWithdrawableAmountResponse_fits QueryWithdrawableAmountResponse_write
      QueryWithdrawableAmountResponse_Size QueryWithdrawableAmountResponse_wire
      QueryWithdrawableAmountResponse_switch QueryWithdrawableAmountResponse_zero id) _
      billingv1_QueryWithdrawableAmountResponse_fits billingv1_QueryWithdrawableAmountResponse_size
      billingv1_QueryWithdrawableAmountResponse_marshal billingv1_QueryWithdrawableAmountResponse_unmarshal
      billingv1_QueryWithdrawableAmountResponse_wire billingv1_QueryWithdrawableAmountResponse_new
      billingv1_of_QueryWithdrawableAmountResponse;
    mkBinding (mkGenerated _ _ QueryProviderWithdrawableRequest_fits QueryProviderWithdrawableRequest_write
      QueryProviderWithdrawableRequest_Size QueryProviderWithdrawableRequest_wire
      QueryProviderWithdrawableRequest_switch QueryProviderWithdrawableRequest_zero id) _
      billingv1_QueryProviderWithdrawableRequest_fits billingv1_QueryProviderWithdrawableRequest_size
      billingv1_QueryProviderWithdrawableRequest_marshal billingv1_QueryProviderWithdrawableRequest_unmarshal
      billingv1_QueryProviderWithdrawableRequest_wire billingv1_QueryProviderWithdrawableRequest_new
      billingv1_of_QueryProviderWithdrawableRequest;
    mkBinding (mkGenerated _ _ QueryProviderWithdrawableResponse_fits QueryProviderWithdrawableResponse_write
      QueryProviderWithdrawableResponse_Size QueryProviderWithdrawableResponse_wire
      QueryProviderWithdrawableResponse_switch QueryProviderWithdrawableResponse_zero id) _
      billingv1_QueryProviderWithdrawableResponse_fits billingv1_QueryProviderWithdrawableResponse_size
      billingv1_QueryProviderWithdrawableResponse_marshal billingv1_QueryProviderWithdrawableResponse_unmarshal
      billingv1_QueryProviderWithdrawableResponse_wire billingv1_QueryProviderWithdrawableResponse_new
      billingv1_of_QueryProviderWithdrawableResponse;
    mkBinding (mkGenerated _ _ QueryCreditAccountsRequest_fits QueryCreditAccountsRequest_write
      QueryCreditAccountsRequest_Size QueryCreditAccountsRequest_wire QueryCreditAccountsRequest_switch
      QueryCreditAccountsRequest_zero id) _ billingv1_QueryCreditAccountsRequest_fits
      billingv1_QueryCreditAccountsRequest_size billingv1_QueryCreditAccountsRequest_marshal
      billingv1_QueryCreditAccountsRequest_unmarshal billingv1_QueryCreditAccountsRequest_wire
      billingv1_QueryCreditAccountsRequest_new billingv1_of_QueryCreditAccountsRequest;
    mkBinding (mkGenerated _ _ QueryCreditAccountsResponse_fits QueryCreditAccountsResponse_write
      QueryCreditAccountsResponse_Size QueryCreditAccountsResponse_wire QueryCreditAccountsResponse_switch
      QueryCreditAccountsResponse_zero id) _ billingv1_QueryCreditAccountsResponse_fits
      billingv1_QueryCreditAccountsResponse_size billingv1_QueryCreditAccountsResponse_marshal
      billingv1_QueryCreditAccountsResponse_unmarshal billingv1_QueryCreditAccountsResponse_wire
      billingv1_QueryCreditAccountsResponse_new billingv1_of_QueryCreditAccountsResponse;
    mkBinding (mkGenerated _ _ QueryLeasesBySKURequest_fits QueryLeasesBySKURequest_write
      QueryLeasesBySKURequest_Size QueryLeasesBySKURequest_wire QueryLeasesBySKURequest_switch
      QueryLeasesBySKURequest_zero QueryLeasesBySKURequest_go) _ billingv1_QueryLeasesBySKURequest_fits
      billingv1_QueryLeasesBySKURequest_size billingv1_QueryLeasesBySKURequest_marshal
      billingv1_QueryLeasesBySKURequest_unmarshal billingv1_QueryLeasesBySKURequest_wire
      billingv1_QueryLeasesBySKURequest_new billingv1_of_QueryLeasesBySKURequest;
    mkBinding (mkGenerated _ _ QueryLeasesBySKUResponse_fits QueryLeasesBySKUResponse_write
      QueryLeasesBySKUResponse_Size QueryLeasesBySKUResponse_wire QueryLeasesBySKUResponse_switch
      QueryLeasesBySKUResponse_zero QueryLeasesBySKUResponse_go) _ billingv1_QueryLeasesBySKUResponse_fits
      billingv1_QueryLeasesBySKUResponse_size billingv1_QueryLeasesBySKUResponse_marshal
      billingv1_QueryLeasesBySKUResponse_unmarshal billingv1_QueryLeasesBySKUResponse_wire
      billingv1_QueryLeasesBySKUResponse_new billingv1_of_QueryLeasesBySKUResponse;
    mkBinding (mkGenerated _ _ (λ _, True) QueryCreditEstimateRequest_write QueryCreditEstimateRequest_Size
      QueryCreditEstimateRequest_wire QueryCreditEstimateRequest_switch QueryCreditEstimateRequest_zero id) _
      billingv1_QueryCreditEstimateRequest_fits billingv1_QueryCreditEstimateRequest_size
      billingv1_QueryCreditEstimateRequest_marshal billingv1_QueryCreditEstimateRequest_unmarshal
      billingv1_QueryCreditEstimateRequest_wire billingv1_QueryCreditEstimateRequest_new
      billingv1_of_QueryCreditEstimateRequest;
    mkBinding (mkGenerated _ _ QueryCreditEstimateResponse_fits QueryCreditEstimateResponse_write
      QueryCreditEstimateResponse_Size QueryCreditEstimateResponse_wire QueryCreditEstimateResponse_switch
      QueryCreditEstimateResponse_zero id) _ billingv1_QueryCreditEstimateResponse_fits
      billingv1_QueryCreditEstimateResponse_size billingv1_QueryCreditEstimateResponse_marshal
      billingv1_QueryCreditEstimateResponse_unmarshal billingv1_QueryCreditEstimateResponse_wire
      billingv1_QueryCreditEstimateResponse_new billingv1_of_QueryCreditEstimateResponse;
    mkBinding (mkGenerated _ _ (λ _, True) QueryLeaseByCustomDomainRequest_write
      QueryLeaseByCustomDomainRequest_Size QueryLeaseByCustomDomainRequest_wire
      QueryLeaseByCustomDomainRequest_switch QueryLeaseByCustomDomainRequest_zero id) _
      billingv1_QueryLeaseByCustomDomainRequest_fits billingv1_QueryLeaseByCustomDomainRequest_size
      billingv1_QueryLeaseByCustomDomainRequest_marshal billingv1_QueryLeaseByCustomDomainRequest_unmarshal
      billingv1_QueryLeaseByCustomDomainRequest_wire billingv1_QueryLeaseByCustomDomainRequest_new
      billingv1_of_QueryLeaseByCustomDomainRequest;
    mkBinding (mkGenerated _ _ QueryLeaseByCustomDomainResponse_fits QueryLeaseByCustomDomainResponse_write
      QueryLeaseByCustomDomainResponse_Size QueryLeaseByCustomDomainResponse_wire
      QueryLeaseByCustomDomainResponse_switch QueryLeaseByCustomDomainResponse_zero
      QueryLeaseByCustomDomainResponse_go) _ billingv1_QueryLeaseByCustomDomainResponse_fits
      billingv1_QueryLeaseByCustomDomainResponse_size billingv1_QueryLeaseByCustomDomainResponse_marshal
      billingv1_QueryLeaseByCustomDomainResponse_unmarshal billingv1_QueryLeaseByCustomDomainResponse_wire
      billingv1_QueryLeaseByCustomDomainResponse_new billingv1_of_QueryLeaseByCustomDomainResponse;
    mkBinding (mkGenerated _ _ GenesisState_fits GenesisState_write GenesisState_Size GenesisState_wire
      GenesisState_switch GenesisState_zero GenesisState_go) _ billingv1_GenesisState_fits
      billingv1_GenesisState_size billingv1_GenesisState_marshal billingv1_GenesisState_unmarshal
      billingv1_GenesisState_wire billingv1_GenesisState_new billingv1_of_GenesisState ].


Definition bindings : list binding := manifest_bindings ++ sku_bindings ++ billing_bindings.

Definition b_lawful (B : binding) : Prop :=
  g_lawful (b_module B) ∧ api_lawful (b_fits B) (b_size B) (b_marshal B) (b_unmarshal B) (b_wire B) (b_new B) ∧
  agrees (g_fits (b_module B)) (g_wire (b_module B)) (b_fits B) (b_wire B) (b_of B).

Lemma bindings_lawful : Forall b_lawful bindings.
Proof.
  repeat apply Forall_cons_2; try apply Forall_nil_2; unfold b_lawful, g_lawful; cbn; split_and!; typeclasses eauto.
Qed.

Definition interoperates (B : binding) (m : g_message (b_module B)) : Prop :=
  ∃ b, g_Marshal (b_module B) m = Ok b ∧ b_marshal B [] (Some (b_of B m)) = Ok b ∧
    llen b = g_Size (b_module B) m ∧ b_size B (Some (b_of B m)) = llen b ∧
    b_unmarshal B false b (Some (b_new B)) = Ok (Some (b_of B m)) ∧
    g_Unmarshal (b_module B) b = Ok (g_go (b_module B) m).

Lemma lawful_interoperates B m : b_lawful B → g_fits (b_module B) m → g_Size (b_module B) m ≤ max_i64 → interoperates B m.
Proof.
  intros (Lg & La & Hag) Hm Hs. pose proof (agree_fits _ _ _ _ _ Hag m Hm) as Hf. pose proof (agree_wire _ _ _ _ _ Hag m Hm) as Hw.
  pose proof (law_size _ _ _ _ _ _ _ Lg m Hm) as Hl. exists (g_wire (b_module B) m). split_and!.
  - by apply (lawful_marshal (L := Lg)).
  - by rewrite (api_marshal _ _ _ _ _ _ La), Hw.
  - done.
  - by rewrite (api_size _ _ _ _ _ _ La), Hw.
  - rewrite <- Hw. apply (api_unmarshal _ _ _ _ _ _ La); [done|]. rewrite Hw. lia.
  - apply (lawful_reads (L := Lg)); [done|lia].
Qed.

(** C19 (equivalence): client and node agree on the wire. For each of the 91 messages of the three modules, the
    bytes that the codec of the module marshals are those that the API binding marshals for the
    translated message, with the same size; and each side reads them back to its own form of the message. *)
Theorem api_interoperates B m :
  B ∈ bindings → g_fits (b_module B) m → g_Size (b_module B) m ≤ max_i64 → interoperates B m.
Proof. intros HB. apply lawful_interoperates. exact (proj1 (Forall_forall _ _) bindings_lawful B HB). Qed.

(** C20 (roundtrip): every message of the API bindings, whatever unknown fields it has picked up, is read
    back from what its marshal method writes. For each of the 91 messages, when its integers are in the
    range of their Go types, its lists hold no nil pointers, and its unknown fields and those of its
    sub-messages are a sequence of fields of any wire type with numbers above the last declared one
    (up to 2^29 - 1): marshal appends exactly size bytes to the buffer it is given, and unmarshal of
    them into a new message gives the message with its unknown fields. And unmarshal returns, with a
    message or an error, on all bytes, whether it keeps or drops unknown fields. *)
Theorem api_messages_roundtrip B :
  B ∈ bindings →
  (∀ x buf, b_fits B x → b_size B (Some x) ≤ max_i64 →
     ∃ b, b_marshal B buf (Some x) = Ok (buf ++ b) ∧ llen b = b_size B (Some x) ∧
       b_unmarshal B false b (Some (b_new B)) = Ok (Some x)) ∧
  (∀ discard x, returns (λ b, b_unmarshal B discard b x)).
Proof.
  intros HB. destruct (proj1 (Forall_forall _ _) bindings_lawful B HB) as (_ & La & _). split.
  - intros x buf Hx Hs. rewrite (api_size _ _ _ _ _ _ La) in Hs by done. exists (b_wire B x). split_and!.
    + by apply (api_marshal _ _ _ _ _ _ La).
    + symmetry. by apply (api_size _ _ _ _ _ _ La).
    + by apply (api_unmarshal _ _ _ _ _ _ La).
  - intros discard x. apply total_returns, (api_total _ _ _ _ _ _ La).
Qed.
End agreement.

(** ** The reference instances agree *)

Lemma marshaled_wire {M fits size marshal unmarshal wire new} (L : @api_lawful M fits size marshal unmarshal wire new) m :
  fits m → marshaled marshal m = wire m.
Proof. intros Hm. unfold marshaled. by rewrite (api_marshal _ _ _ _ _ _ L). Qed.

Lemma enc_uint_wrap tag v : is_i64 v → enc_uint tag (wrap_u64 v) = enc_uint tag v.
Proof.
  intros Hv. unfold enc_uint, uint_field. rewrite (wrap_u64_id (wrap_u64 v)) by apply wrap_u64_range.
  destruct (Z.eqb_spec v 0) as [->|Hn]; [done|]. rewrite (proj2 (Z.eqb_neq (wrap_u64 v) 0)); [done|].
  unfold wrap_u64, is_i64, min_i64, max_i64 in *. Z.to_euclidean_division_equations. nia.
Qed.

#[export] Instance ref_interop : Interop.
Proof.
  split; split.
  - intros c _. apply unknown_fits_nil.
  - intros c [Ha _]. etrans; [apply (marshaled_wire ref.coin_lawful), unknown_fits_nil|]. rewrite ref_coin_bytes.
    unfold ref.coin_wire, ref_coin_wire; cbn [ac_Denom ac_Amount ac_unknownFields api_of_coin]. rewrite app_nil_r. f_equal.
    unfold enc_str. destruct (FormatUint_numeral 256 (Amount c) Ha) as (Hne & _). rewrite (proj2 (Z.ltb_lt _ _)); [done|].
    destruct (FormatUint (Amount c)); [done|]. unfold len; cbn; lia.
  - intros t Ht. split_and!; [| |apply unknown_fits_nil]; cbn; unfold time_fits, no_time, is_i64, is_i32, min_i64, max_i64, Second in *;
      Z.to_euclidean_division_equations; lia.
  - intros t Ht. assert (Hi : is_i64 (t / Second)).
    { unfold time_fits, no_time, is_i64, min_i64, max_i64, Second in *. Z.to_euclidean_division_equations. lia. }
    etrans; [apply (marshaled_wire ref.time_lawful)|].
    + split_and!; [done| |apply unknown_fits_nil]. unfold is_i32; cbn. pose proof (Z.mod_pos_bound t Second). unfold Second in *. lia.
    + rewrite ref_time_bytes. unfold ref.time_wire, ref_time_wire; cbn [at_Seconds at_Nanos at_unknownFields api_of_time].
      by rewrite app_nil_r, enc_uint_wrap.
  - intros p [Ho Hl]. split_and!; [done..|apply unknown_fits_nil].
  - intros p Hp. etrans; [apply (marshaled_wire ref.request_lawful)|].
    + destruct Hp. split_and!; [done..|apply unknown_fits_nil].
    + etrans; [|symmetry; by apply (written_wire (L := ref_request_lawful))]. unfold ref.request_wire, ref_request_wire; cbn.
      by rewrite app_nil_r.
  - intros p Hp. split_and!; [done|apply unknown_fits_nil].
  - intros p Hp. etrans; [apply (marshaled_wire ref.response_lawful)|].
    + split_and!; [done|apply unknown_fits_nil].
    + etrans; [|symmetry; by apply (written_wire (L := ref_response_lawful))]. unfold ref.response_wire, ref_response_wire; cbn.
      by rewrite app_nil_r.
Qed.

(** ** Witnesses: funding a credit account, and a message with a field of a later version *)

Definition demo_fund : MsgFundCredit := mkMsgFundCredit "alice" "bob" (mkCoin "umfx" 7200).

Definition fund_binding : binding :=
  mkBinding (mkGenerated _ _ MsgFundCredit_fits MsgFundCredit_write MsgFundCredit_Size MsgFundCredit_wire
    MsgFundCredit_switch MsgFundCredit_zero id) _ billingv1_MsgFundCredit_fits billingv1_MsgFundCredit_size
    billingv1_MsgFundCredit_marshal billingv1_MsgFundCredit_unmarshal billingv1_MsgFundCredit_wire
    billingv1_MsgFundCredit_new billingv1_of_MsgFundCredit.

Lemma fund_binding_listed : fund_binding ∈ bindings.
Proof. unfold bindings. do 2 (apply elem_of_app; right). do 6 apply list_elem_of_further. apply list_elem_of_here. Qed.

Lemma api_interoperates_witness :
  interoperates fund_binding demo_fund ∧
  billingv1_MsgFundCredit_marshal [] (Some (billingv1_of_MsgFundCredit demo_fund)) = MsgFundCredit_Marshal demo_fund.
Proof.
  assert (Hi : interoperates fund_binding demo_fund).
  { apply api_interoperates; [apply fund_binding_listed|vm_compute; repeat split; congruence|vm_compute; discriminate]. }
  split; [exact Hi|]. destruct Hi as (b & Hm & Ha & _). etrans; [exact Ha|symmetry; exact Hm].
Defined.

(** Field 100, a number that MsgFundCredit does not have. *)
Definition demo_later : billingv1_MsgFundCredit :=
  mk_billingv1_MsgFundCredit "alice" "bob" (Some (api_of_coin (mkCoin "umfx" 7200))) (byte_of <$> [160; 6; 5]).

Lemma api_messages_roundtrip_witness :
  ∃ b, billingv1_MsgFundCredit_marshal [] (Some demo_later) = Ok b ∧ llen b = 29 ∧
    billingv1_MsgFundCredit_unmarshal false b (Some billingv1_MsgFundCredit_new) = Ok (Some demo_later).
Proof.
  destruct (api_messages_roundtrip fund_binding fund_binding_listed) as [Hr _].
  destruct (Hr demo_later []) as (b & Hm & Hl & Hu).
  - split; [apply unknown_fits_nil|]. exists [byte_of <$> [160; 6; 5]]. split; [reflexivity|].
    constructor; [|constructor]. exists 100. split; [lia|].
    assert (H5 : is_u64 5) by (unfold is_u64, max_u64; lia). exact (raw_varint 100 5 H5).
  - vm_compute. discriminate.
  - exists b. split; [exact Hm|]. split; [rewrite Hl; vm_compute; reflexivity|exact Hu].
Defined.
