(* ===== verification/Reflect.v ===== *)
(** * Reflection over the API messages (the fastReflection types of src/api/liftedinit)

    The bindings implement protoreflect.Message: a message is a map from field descriptors to values.
    A descriptor is its full name; a value is one of the kinds that the fields have. A view of a list is
    a pointer to a slice and a view of a message is a pointer: what is written through a view is what
    Set stores in the field, so a view is its content, [None] the view of nothing that Get returns for
    an empty list. [contract] is the documented behaviour of the interface. *)

From stdpp Require Import base tactics option list strings.
From Stdlib Require Import ZArith Lia Ascii.
From S2P Require Import Prelude Wire Pulsar ApiExternal ApiManifest ApiSku ApiSkuQuery ApiBilling ApiBillingTx ApiBillingQuery.
Open Scope Z_scope.

(** ** Values *)

(** A pointer to a message in a protoreflect.Message: the types that fields have, and any other. *)
Inductive any : Type :=
  | A_manifestv1_PayoutPair (m : option manifestv1_PayoutPair)
  | A_api_Coin (m : option api_Coin)
  | A_skuv1_Params (m : option skuv1_Params)
  | A_skuv1_Provider (m : option skuv1_Provider)
  | A_api_PageRequest (m : option api_PageRequest)
  | A_api_PageResponse (m : option api_PageResponse)
  | A_skuv1_SKU (m : option skuv1_SKU)
  | A_billingv1_LeaseItem (m : option billingv1_LeaseItem)
  | A_api_Timestamp (m : option api_Timestamp)
  | A_billingv1_LeaseItemInput (m : option billingv1_LeaseItemInput)
  | A_billingv1_Params (m : option billingv1_Params)
  | A_billingv1_Lease (m : option billingv1_Lease)
  | A_billingv1_CreditAccount (m : option billingv1_CreditAccount)
  | A_other (name : string).

(** The list types of the bindings, one per repeated field. *)
Inductive list_value : Type :=
  | L_manifestv1_MsgPayout_2 (list : option (list (option manifestv1_PayoutPair)))
  | L_manifestv1_MsgBurnHeldBalance_2 (list : option (list (option api_Coin)))
  | L_skuv1_Params_1 (list : option (list string))
  | L_skuv1_QueryProvidersResponse_1 (list : option (list (option skuv1_Provider)))
  | L_skuv1_QuerySKUsResponse_1 (list : option (list (option skuv1_SKU)))
  | L_skuv1_QuerySKUsByProviderResponse_1 (list : option (list (option skuv1_SKU)))
  | L_skuv1_QueryProviderByAddressResponse_1 (list : option (list (option skuv1_Provider)))
  | L_skuv1_GenesisState_2 (list : option (list (option skuv1_Provider)))
  | L_skuv1_GenesisState_3 (list : option (list (option skuv1_SKU)))
  | L_billingv1_Params_2 (list : option (list string))
  | L_billingv1_Params_7 (list : option (list string))
  | L_billingv1_Lease_4 (list : option (list (option billingv1_LeaseItem)))
  | L_billingv1_CreditAccount_5 (list : option (list (option api_Coin)))
  | L_billingv1_MsgCreateLease_2 (list : option (list (option billingv1_LeaseItemInput)))
  | L_billingv1_MsgCreateLeaseForTenant_3 (list : option (list (option billingv1_LeaseItemInput)))
  | L_billingv1_MsgCloseLease_2 (list : option (list string))
  | L_billingv1_MsgCloseLeaseResponse_3 (list : option (list (option api_Coin)))
  | L_billingv1_MsgWithdraw_2 (list : option (list string))
  | L_billingv1_MsgWithdrawResponse_1 (list : option (list (option api_Coin)))
  | L_billingv1_MsgAcknowledgeLease_2 (list : option (list string))
  | L_billingv1_MsgRejectLease_2 (list : option (list string))
  | L_billingv1_MsgCancelLease_2 (list : option (list string))
  | L_billingv1_QueryLeasesResponse_1 (list : option (list (option billingv1_Lease)))
  | L_billingv1_QueryLeasesByTenantResponse_1 (list : option (list (option billingv1_Lease)))
  | L_billingv1_QueryLeasesByProviderResponse_1 (list : option (list (option billingv1_Lease)))
  | L_billingv1_QueryCreditAccountResponse_2 (list : option (list (option api_Coin)))
  | L_billingv1_QueryCreditAccountResponse_3 (list : option (list (option api_Coin)))
  | L_billingv1_QueryWithdrawableAmountResponse_1 (list : option (list (option api_Coin)))
  | L_billingv1_QueryProviderWithdrawableResponse_1 (list : option (list (option api_Coin)))
  | L_billingv1_QueryCreditAccountsResponse_1 (list : option (list (option billingv1_CreditAccount)))
  | L_billingv1_QueryLeasesBySKUResponse_1 (list : option (list (option billingv1_Lease)))
  | L_billingv1_QueryCreditEstimateResponse_1 (list : option (list (option api_Coin)))
  | L_billingv1_QueryCreditEstimateResponse_2 (list : option (list (option api_Coin)))
  | L_billingv1_GenesisState_2 (list : option (list (option billingv1_Lease)))
  | L_billingv1_GenesisState_3 (list : option (list (option billingv1_CreditAccount))).

(** protoreflect.Value. [VOther] is a value of a kind that no field has. *)
Inductive value : Type :=
  | VString (s : string) | VBytes (b : string) | VBool (b : bool) | VUint32 (n : Z) | VUint64 (n : Z) | VEnum (n : Z)
  | VMessage (m : any) | VList (l : list_value) | VOther (n : Z).

(** [value.Interface().(string)], [value.Bytes()], [value.Bool()], [value.Uint()] and [value.Enum()]
    panic for a value of another kind. *)
Definition as_string (v : value) : res string := match v with VString s => Ok s | _ => Panic end.
Definition as_bytes (v : value) : res string := match v with VBytes b => Ok b | _ => Panic end.
Definition as_bool (v : value) : res bool := match v with VBool b => Ok b | _ => Panic end.
Definition as_uint (v : value) : res Z := match v with VUint32 n | VUint64 n => Ok n | _ => Panic end.
Definition as_enum (v : value) : res Z := match v with VEnum n => Ok n | _ => Panic end.

(** [value.Message().Interface().( *T)] panics unless the message is of that type, nil included. *)
Definition as_manifestv1_PayoutPair (v : value) : res (option manifestv1_PayoutPair) := match v with VMessage (A_manifestv1_PayoutPair m) => Ok m | _ => Panic end.
Definition as_api_Coin (v : value) : res (option api_Coin) := match v with VMessage (A_api_Coin m) => Ok m | _ => Panic end.
Definition as_skuv1_Params (v : value) : res (option skuv1_Params) := match v with VMessage (A_skuv1_Params m) => Ok m | _ => Panic end.
Definition as_skuv1_Provider (v : value) : res (option skuv1_Provider) := match v with VMessage (A_skuv1_Provider m) => Ok m | _ => Panic end.
Definition as_api_PageRequest (v : value) : res (option api_PageRequest) := match v with VMessage (A_api_PageRequest m) => Ok m | _ => Panic end.
Definition as_api_PageResponse (v : value) : res (option api_PageResponse) := match v with VMessage (A_api_PageResponse m) => Ok m | _ => Panic end.
Definition as_skuv1_SKU (v : value) : res (option skuv1_SKU) := match v with VMessage (A_skuv1_SKU m) => Ok m | _ => Panic end.
Definition as_billingv1_LeaseItem (v : value) : res (option billingv1_LeaseItem) := match v with VMessage (A_billingv1_LeaseItem m) => Ok m | _ => Panic end.
Definition as_api_Timestamp (v : value) : res (option api_Timestamp) := match v with VMessage (A_api_Timestamp m) => Ok m | _ => Panic end.
Definition as_billingv1_LeaseItemInput (v : value) : res (option billingv1_LeaseItemInput) := match v with VMessage (A_billingv1_LeaseItemInput m) => Ok m | _ => Panic end.
Definition as_billingv1_Params (v : value) : res (option billingv1_Params) := match v with VMessage (A_billingv1_Params m) => Ok m | _ => Panic end.
Definition as_billingv1_Lease (v : value) : res (option billingv1_Lease) := match v with VMessage (A_billingv1_Lease m) => Ok m | _ => Panic end.
Definition as_billingv1_CreditAccount (v : value) : res (option billingv1_CreditAccount) := match v with VMessage (A_billingv1_CreditAccount m) => Ok m | _ => Panic end.

(** [*value.List().( *_T_n_list).list] panics unless the list is of that type and is not the empty view. *)
Definition as_L_manifestv1_MsgPayout_2 (v : value) : res (list (option manifestv1_PayoutPair)) :=
  match v with VList (L_manifestv1_MsgPayout_2 (Some l)) => Ok l | _ => Panic end.
Definition as_L_manifestv1_MsgBurnHeldBalance_2 (v : value) : res (list (option api_Coin)) :=
  match v with VList (L_manifestv1_MsgBurnHeldBalance_2 (Some l)) => Ok l | _ => Panic end.
Definition as_L_skuv1_Params_1 (v : value) : res (list string) :=
  match v with VList (L_skuv1_Params_1 (Some l)) => Ok l | _ => Panic end.
Definition as_L_skuv1_QueryProvidersResponse_1 (v : value) : res (list (option skuv1_Provider)) :=
  match v with VList (L_skuv1_QueryProvidersResponse_1 (Some l)) => Ok l | _ => Panic end.
Definition as_L_skuv1_QuerySKUsResponse_1 (v : value) : res (list (option skuv1_SKU)) :=
  match v with VList (L_skuv1_QuerySKUsResponse_1 (Some l)) => Ok l | _ => Panic end.
Definition as_L_skuv1_QuerySKUsByProviderResponse_1 (v : value) : res (list (option skuv1_SKU)) :=
  match v with VList (L_skuv1_QuerySKUsByProviderResponse_1 (Some l)) => Ok l | _ => Panic end.
Definition as_L_skuv1_QueryProviderByAddressResponse_1 (v : value) : res (list (option skuv1_Provider)) :=
  match v with VList (L_skuv1_QueryProviderByAddressResponse_1 (Some l)) => Ok l | _ => Panic end.
Definition as_L_skuv1_GenesisState_2 (v : value) : res (list (option skuv1_Provider)) :=
  match v with VList (L_skuv1_GenesisState_2 (Some l)) => Ok l | _ => Panic end.
Definition as_L_skuv1_GenesisState_3 (v : value) : res (list (option skuv1_SKU)) :=
  match v with VList (L_skuv1_GenesisState_3 (Some l)) => Ok l | _ => Panic end.
Definition as_L_billingv1_Params_2 (v : value) : res (list string) :=
  match v with VList (L_billingv1_Params_2 (Some l)) => Ok l | _ => Panic end.
Definition as_L_billingv1_Params_7 (v : value) : res (list string) :=
  match v with VList (L_billingv1_Params_7 (Some l)) => Ok l | _ => Panic end.
Definition as_L_billingv1_Lease_4 (v : value) : res (list (option billingv1_LeaseItem)) :=
  match v with VList (L_billingv1_Lease_4 (Some l)) => Ok l | _ => Panic end.
Definition as_L_billingv1_CreditAccount_5 (v : value) : res (list (option api_Coin)) :=
  match v with VList (L_billingv1_CreditAccount_5 (Some l)) => Ok l | _ => Panic end.
Definition as_L_billingv1_MsgCreateLease_2 (v : value) : res (list (option billingv1_LeaseItemInput)) :=
  match v with VList (L_billingv1_MsgCreateLease_2 (Some l)) => Ok l | _ => Panic end.
Definition as_L_billingv1_MsgCreateLeaseForTenant_3 (v : value) : res (list (option billingv1_LeaseItemInput)) :=
  match v with VList (L_billingv1_MsgCreateLeaseForTenant_3 (Some l)) => Ok l | _ => Panic end.
Definition as_L_billingv1_MsgCloseLease_2 (v : value) : res (list string) :=
  match v with VList (L_billingv1_MsgCloseLease_2 (Some l)) => Ok l | _ => Panic end.
Definition as_L_billingv1_MsgCloseLeaseResponse_3 (v : value) : res (list (option api_Coin)) :=
  match v with VList (L_billingv1_MsgCloseLeaseResponse_3 (Some l)) => Ok l | _ => Panic end.
Definition as_L_billingv1_MsgWithdraw_2 (v : value) : res (list string) :=
  match v with VList (L_billingv1_MsgWithdraw_2 (Some l)) => Ok l | _ => Panic end.
Definition as_L_billingv1_MsgWithdrawResponse_1 (v : value) : res (list (option api_Coin)) :=
  match v with VList (L_billingv1_MsgWithdrawResponse_1 (Some l)) => Ok l | _ => Panic end.
Definition as_L_billingv1_MsgAcknowledgeLease_2 (v : value) : res (list string) :=
  match v with VList (L_billingv1_MsgAcknowledgeLease_2 (Some l)) => Ok l | _ => Panic end.
Definition as_L_billingv1_MsgRejectLease_2 (v : value) : res (list string) :=
  match v with VList (L_billingv1_MsgRejectLease_2 (Some l)) => Ok l | _ => Panic end.
Definition as_L_billingv1_MsgCancelLease_2 (v : value) : res (list string) :=
  match v with VList (L_billingv1_MsgCancelLease_2 (Some l)) => Ok l | _ => Panic end.
Definition as_L_billingv1_QueryLeasesResponse_1 (v : value) : res (list (option billingv1_Lease)) :=
  match v with VList (L_billingv1_QueryLeasesResponse_1 (Some l)) => Ok l | _ => Panic end.
Definition as_L_billingv1_QueryLeasesByTenantResponse_1 (v : value) : res (list (option billingv1_Lease)) :=
  match v with VList (L_billingv1_QueryLeasesByTenantResponse_1 (Some l)) => Ok l | _ => Panic end.
Definition as_L_billingv1_QueryLeasesByProviderResponse_1 (v : value) : res (list (option billingv1_Lease)) :=
  match v with VList (L_billingv1_QueryLeasesByProviderResponse_1 (Some l)) => Ok l | _ => Panic end.
Definition as_L_billingv1_QueryCreditAccountResponse_2 (v : value) : res (list (option api_Coin)) :=
  match v with VList (L_billingv1_QueryCreditAccountResponse_2 (Some l)) => Ok l | _ => Panic end.
Definition as_L_billingv1_QueryCreditAccountResponse_3 (v : value) : res (list (option api_Coin)) :=
  match v with VList (L_billingv1_QueryCreditAccountResponse_3 (Some l)) => Ok l | _ => Panic end.
Definition as_L_billingv1_QueryWithdrawableAmountResponse_1 (v : value) : res (list (option api_Coin)) :=
  match v with VList (L_billingv1_QueryWithdrawableAmountResponse_1 (Some l)) => Ok l | _ => Panic end.
Definition as_L_billingv1_QueryProviderWithdrawableResponse_1 (v : value) : res (list (option api_Coin)) :=
  match v with VList (L_billingv1_QueryProviderWithdrawableResponse_1 (Some l)) => Ok l | _ => Panic end.
Definition as_L_billingv1_QueryCreditAccountsResponse_1 (v : value) : res (list (option billingv1_CreditAccount)) :=
  match v with VList (L_billingv1_QueryCreditAccountsResponse_1 (Some l)) => Ok l | _ => Panic end.
Definition as_L_billingv1_QueryLeasesBySKUResponse_1 (v : value) : res (list (option billingv1_Lease)) :=
  match v with VList (L_billingv1_QueryLeasesBySKUResponse_1 (Some l)) => Ok l | _ => Panic end.
Definition as_L_billingv1_QueryCreditEstimateResponse_1 (v : value) : res (list (option api_Coin)) :=
  match v with VList (L_billingv1_QueryCreditEstimateResponse_1 (Some l)) => Ok l | _ => Panic end.
Definition as_L_billingv1_QueryCreditEstimateResponse_2 (v : value) : res (list (option api_Coin)) :=
  match v with VList (L_billingv1_QueryCreditEstimateResponse_2 (Some l)) => Ok l | _ => Panic end.
Definition as_L_billingv1_GenesisState_2 (v : value) : res (list (option billingv1_Lease)) :=
  match v with VList (L_billingv1_GenesisState_2 (Some l)) => Ok l | _ => Panic end.
Definition as_L_billingv1_GenesisState_3 (v : value) : res (list (option billingv1_CreditAccount)) :=
  match v with VList (L_billingv1_GenesisState_3 (Some l)) => Ok l | _ => Panic end.

(** ** Lists *)

(** [value.String()] of protoreflect, which is the string of a string value and a text for others. *)
Class ValueString : Type := value_String : value → string.
Class ValueStringLaws `(V : ValueString) : Prop := value_String_string s : value_String (VString s) = s.

(** The methods of a list type; [T] is the type of its elements. A list is a pointer to a slice: [None]
    is nil. A slice may be cut to a length up to its capacity: [spare] are the elements behind it, and
    Truncate gives those that are behind the slice it leaves. *)
Record list_methods (T : Type) : Type := mkListMethods {
  l_Len : option (list T) → Z;
  l_Get : option (list T) → Z → res value;
  l_Set : option (list T) → Z → value → res (option (list T));
  l_Append : option (list T) → value → res (option (list T));
  l_AppendMutable : option (list T) → res (option (list T) * value);
  l_Truncate : option (list T) → list T → Z → res (option (list T) * list T);
  l_NewElement : value;
  l_IsValid : option (list T) → bool }.
#[global] Arguments mkListMethods {T}.
#[global] Arguments l_Len {T}.
#[global] Arguments l_Get {T}.
#[global] Arguments l_Set {T}.
#[global] Arguments l_Append {T}.
#[global] Arguments l_AppendMutable {T}.
#[global] Arguments l_Truncate {T}.
#[global] Arguments l_NewElement {T}.
#[global] Arguments l_IsValid {T}.

Definition deref {X} (p : option X) : res X := match p with Some x => Ok x | None => Panic end.
Definition not_nil {X} (p : option X) : bool := match p with Some _ => true | None => false end.
Definition index {T} (l : list T) (i : Z) : res T := if 0 <=? i then deref (l !! Z.to_nat i) else Panic.

(** [cleared] is what Truncate makes of an element that it cuts off: messages are set to nil. *)
Definition list_of {T} (unwrap : value → res T) (wrap : T → value) (new : T) (mutable : bool) (cleared : T → T) : list_methods T := {|
  l_Len p := match p with None => 0 | Some l => llen l end;
  l_Get p i := l ← deref p; x ← index l i; Ok (wrap x);
  l_Set p i v := x ← unwrap v; l ← deref p; _ ← index l i; Ok (Some (<[Z.to_nat i := x]> l));
  l_Append p v := x ← unwrap v; l ← deref p; Ok (Some (l ++ [x]));
  l_AppendMutable p := if mutable then l ← deref p; Ok (Some (l ++ [new]), wrap new) else Panic;
  l_Truncate p spare n :=
    l ← deref p;
    if (n <? 0) || (llen l + llen spare <? n) then Panic
    else Ok (Some (take (Z.to_nat n) (l ++ spare)), map cleared (drop (Z.to_nat n) l) ++ drop (Z.to_nat n - length l) spare);
  l_NewElement := wrap new;
  l_IsValid := not_nil |}.

(** Elements that are strings, and elements that are pointers to messages. *)
Definition string_list `{ValueString} : list_methods string :=
  list_of (λ v, Ok (value_String v)) VString "" false id.
Definition message_list {X} (as_message : value → res (option X)) (of_message : option X → any) (new : X) : list_methods (option X) :=
  list_of as_message (λ m, VMessage (of_message m)) (Some new) true (λ _, None).

(** ** Fields *)

(** The case of a switch on the full name: 1 for the first field, 0 for no field. *)
Fixpoint field_number (fields : list string) (fd : string) : Z :=
  match fields with
  | [] => 0
  | f :: fields' => if String.eqb fd f then 1 else let n := field_number fields' fd in if n =? 0 then 0 else n + 1
  end.

Definition has_string (s : string) : bool := negb (String.eqb s "").
Definition has_bytes (s : string) : bool := negb (len s =? 0).
Definition has_num (n : Z) : bool := negb (n =? 0).
Definition has_list {T} (l : list T) : bool := negb (llen l =? 0).

(** A list as Get returns it: the empty view when there is nothing. *)
Definition view {T} (l : list T) : option (list T) := if llen l =? 0 then None else Some l.

(** Range: for each field in turn, if it is populated, call [f] and go on if it returns true. *)
Fixpoint visit {S} (f : S → string → value → S * bool) (l : list (bool * string * value)) (s : S) : S :=
  match l with
  | [] => s
  | (has, fd, v) :: l' =>
      if (has : bool) then let '(s, more) := f s fd v in if (more : bool) then visit f l' s else s
      else visit f l' s
  end.

(** ** The contract of protoreflect.List *)

Record list_contract {T} (L : list_methods T) : Prop := mkListContract {
  (* the empty view has no element and cannot be read or written *)
  lc_nil v : l_IsValid L None = false ∧ l_Len L None = 0 ∧ (∀ i, l_Get L None i = Panic) ∧ ∀ q, l_Append L None v ≠ Ok q;
  (* Get retrieves the elements below the length and panics beyond *)
  lc_get p i : 0 ≤ i < l_Len L p ↔ ∃ v, l_Get L p i = Ok v;
  (* Set stores a value for an element, and what Get returns for an element may be stored in any other *)
  lc_set p i v p' : l_Set L p i v = Ok p' →
    l_Len L p' = l_Len L p ∧ 0 ≤ i < l_Len L p ∧ ∀ j, j ≠ i → l_Get L p' j = l_Get L p j;
  lc_set_get p i v q j : l_Get L p i = Ok v → 0 ≤ j < l_Len L q → ∃ q', l_Set L q j v = Ok q' ∧ l_Get L q' j = Ok v;
  (* Append appends a value to the end of the list *)
  lc_append p v p' : l_Append L p v = Ok p' →
    l_Len L p' = l_Len L p + 1 ∧ ∀ i, i < l_Len L p → l_Get L p' i = l_Get L p i;
  lc_append_get p i v q : l_Get L p i = Ok v → l_IsValid L q = true →
    ∃ q', l_Append L q v = Ok q' ∧ l_Get L q' (l_Len L q) = Ok v;
  (* NewElement is assignable; AppendMutable appends such an element and returns it *)
  lc_new q : l_IsValid L q = true → ∃ q', l_Append L q (l_NewElement L) = Ok q' ∧ l_Get L q' (l_Len L q) = Ok (l_NewElement L);
  lc_append_mutable p p' v : l_AppendMutable L p = Ok (p', v) → v = l_NewElement L ∧ l_Append L p v = Ok p';
  (* Truncate truncates the list to a smaller length *)
  lc_truncate p spare n : l_IsValid L p = true → 0 ≤ n ≤ l_Len L p →
    ∃ p' spare', l_Truncate L p spare n = Ok (p', spare') ∧ l_Len L p' = n ∧ ∀ i, i < n → l_Get L p' i = l_Get L p i }.
(** ** The contract of protoreflect.Message *)

Record reflected : Type := mkReflected {
  r_message : Type;
  r_fields : list string;
  r_Range : ∀ S : Type, option r_message → (S → string → value → S * bool) → S → res S;
  r_Has : option r_message → string → res bool;
  r_Clear : option r_message → string → res (option r_message);
  r_Get : option r_message → string → res value;
  r_Set : option r_message → string → value → res (option r_message);
  r_Mutable : option r_message → string → res (option r_message * value);
  r_NewField : string → res value;
  r_New : r_message;
  r_GetUnknown : option r_message → res bytes;
  r_SetUnknown : option r_message → bytes → res (option r_message);
  r_getters : list (string * (option r_message → value)) }.

(** Uint() of a uint32 is stored as a uint64. *)
Definition stored (v : value) : value := match v with VUint32 n => VUint64 n | _ => v end.

(** [y] has in every field but [fd] what [x] has, and its unknown fields. *)
Definition elsewhere (R : reflected) (fd : string) (x y : option (r_message R)) : Prop :=
  (∀ fd', fd' ≠ fd → r_Has R y fd' = r_Has R x fd' ∧ r_Get R y fd' = r_Get R x fd') ∧ r_GetUnknown R y = r_GetUnknown R x.

(** The contract of protoreflect.Message, for messages that are not nil. *)
Record contract (R : reflected) : Prop := mkContract {
  (* Has reports whether a field is populated; other descriptors panic *)
  ct_has x fd : fd ∈ r_fields R → ∃ b v, r_Has R (Some x) fd = Ok b ∧ r_Get R (Some x) fd = Ok v;
  ct_foreign x fd v : fd ∉ r_fields R → r_Has R (Some x) fd = Panic ∧ r_Clear R (Some x) fd = Panic ∧
    r_Get R (Some x) fd = Panic ∧ r_Set R (Some x) fd v = Panic ∧ r_Mutable R (Some x) fd = Panic ∧ r_NewField R fd = Panic;
  (* Clear clears the field such that a subsequent Has call reports false *)
  ct_clear x fd : fd ∈ r_fields R →
    ∃ x', r_Clear R (Some x) fd = Ok (Some x') ∧ r_Has R (Some x') fd = Ok false ∧ elsewhere R fd (Some x) (Some x');
  (* Set stores the value for a field; Get retrieves it *)
  ct_set x fd v y : r_Set R (Some x) fd v = Ok y → ∃ x', y = Some x' ∧ elsewhere R fd (Some x) (Some x') ∧
    (r_Has R (Some x') fd = Ok true → r_Get R (Some x') fd = Ok (stored v));
  (* what Get returns for a populated field can be stored in any other message *)
  ct_copy x y fd v : r_Has R (Some y) fd = Ok true → r_Get R (Some y) fd = Ok v →
    ∃ x', r_Set R (Some x) fd v = Ok (Some x') ∧ r_Has R (Some x') fd = Ok true ∧ r_Get R (Some x') fd = Ok v;
  (* NewField returns a new value that is assignable to the field *)
  ct_new x fd : fd ∈ r_fields R → ∃ v x', r_NewField R fd = Ok v ∧ r_Set R (Some x) fd v = Ok (Some x');
  (* Mutable returns a reference to a composite value that may have been allocated, and changes nothing else *)
  ct_mutable x fd y v : r_Mutable R (Some x) fd = Ok (y, v) → elsewhere R fd (Some x) y ∧ r_Set R y fd v = Ok y ∧
    (r_Has R (Some x) fd = Ok true → y = Some x ∧ r_Get R (Some x) fd = Ok v);
  (* Range iterates over every populated field and returns immediately if f returns false *)
  ct_range x : ∃ entries,
    (∀ S (f : S → string → value → S * bool) s, r_Range R S (Some x) f s = Ok (visit f entries s)) ∧
    Forall2 (λ fd '(has, fd', v), fd' = fd ∧ r_Has R (Some x) fd = Ok has ∧ (has = true → r_Get R (Some x) fd = Ok v))
      (r_fields R) entries;
  (* New returns a message with no populated field *)
  ct_new_message fd : fd ∈ r_fields R → r_Has R (Some (r_New R)) fd = Ok false;
  (* SetUnknown sets the unknown fields and GetUnknown retrieves them *)
  ct_unknown x b : ∃ x', r_SetUnknown R (Some x) b = Ok (Some x') ∧ r_GetUnknown R (Some x') = Ok b ∧
    ∀ fd, r_Has R (Some x') fd = r_Has R (Some x) fd ∧ r_Get R (Some x') fd = r_Get R (Some x) fd;
  (* a getter returns what Get returns, and for a nil message what a new message has *)
  ct_getters x : Forall2 (λ fd '(fd', get), fd' = fd ∧ r_Get R (Some x) fd = Ok (get (Some x)) ∧
    r_Get R (Some (r_New R)) fd = Ok (get None)) (r_fields R) (r_getters R) }.

(** ** Lemmas and automation *)

Lemma field_number_bounds fields fd : 0 ≤ field_number fields fd ≤ llen fields.
Proof.
  unfold llen. induction fields as [|f fields IH]; cbn -[Z.of_nat]; [lia|].
  destruct (_ =? _)%string; [lia|]. destruct (_ =? 0); lia.
Qed.

Lemma field_number_0 fields fd : field_number fields fd = 0 ↔ fd ∉ fields.
Proof.
  induction fields as [|f fields IH]; cbn; [split; [intros _; apply not_elem_of_nil|done]|].
  pose proof (field_number_bounds fields fd). rewrite not_elem_of_cons.
  destruct (String.eqb_spec fd f) as [->|Hne]; [naive_solver|].
  destruct (Z.eqb_spec (field_number fields fd) 0) as [E|E]; [naive_solver|]. split; [lia|naive_solver].
Qed.

Lemma field_number_lookup fields fd n : field_number fields fd = n → n ≠ 0 → fields !! Z.to_nat (n - 1) = Some fd.
Proof.
  revert n. induction fields as [|f fields IH]; cbn; intros n; [lia|].
  pose proof (field_number_bounds fields fd).
  destruct (String.eqb_spec fd f) as [->|Hne]; [by intros <-|].
  destruct (Z.eqb_spec (field_number fields fd) 0) as [E|E]; [lia|]. intros <- _.
  replace (Z.to_nat (field_number fields fd + 1 - 1)) with (S (Z.to_nat (field_number fields fd - 1))) by lia.
  by apply IH.
Qed.

(** Different fields have different numbers. *)
Lemma field_number_ne fields fd fd' n : field_number fields fd = n → n ≠ 0 → fd' ≠ fd → field_number fields fd' ≠ n.
Proof. intros E Hn Hne E'. apply field_number_lookup in E, E'; [|done..]. congruence. Qed.

Lemma field_number_elem fields fd : fd ∈ fields → 0 < field_number fields fd ≤ llen fields.
Proof.
  intros H. pose proof (field_number_bounds fields fd).
  destruct (decide (field_number fields fd = 0)) as [E|E]; [by apply field_number_0 in E|lia].
Qed.

Lemma view_has {T} (l : list T) : has_list l = true → view l = Some l.
Proof. unfold has_list, view. by destruct (_ =? 0). Qed.

#[global] Arguments field_number : simpl never.

Lemma index_Ok {T} (l : list T) i x : index l i = Ok x ↔ 0 ≤ i ∧ l !! Z.to_nat i = Some x.
Proof.
  unfold index. destruct (Z.leb_spec 0 i); [|split; [done|lia]].
  destruct (l !! Z.to_nat i) as [y|] eqn:E; cbn; split; intros; destruct_and?; simplify_eq; try split; auto with lia.
Qed.

Lemma index_lt {T} (l : list T) i : 0 ≤ i < llen l ↔ ∃ x, index l i = Ok x.
Proof.
  unfold llen. setoid_rewrite index_Ok. split; [intros Hi|intros (x & Hi & Hx)].
  - destruct (lookup_lt_is_Some_2 l (Z.to_nat i)) as [x Hx]; [lia|]. exists x. split; [lia|done].
  - apply lookup_lt_Some in Hx. lia.
Qed.

Lemma index_app {T} (l l' : list T) i : i < llen l → index (l ++ l') i = index l i.
Proof. unfold index, llen. intros. destruct (Z.leb_spec 0 i); [|done]. by rewrite lookup_app_l by lia. Qed.

Lemma index_end {T} (l : list T) x : index (l ++ [x]) (llen l) = Ok x.
Proof. apply index_Ok. unfold llen. rewrite Nat2Z.id, list_lookup_middle by done. split; [lia|done]. Qed.

Lemma index_insert {T} (l : list T) i x : 0 ≤ i < llen l → index (<[Z.to_nat i := x]> l) i = Ok x.
Proof. unfold llen. intros. apply index_Ok. split; [lia|]. apply list_lookup_insert_eq. lia. Qed.

Lemma index_insert_ne {T} (l : list T) i j x : j ≠ i → 0 ≤ i → index (<[Z.to_nat i := x]> l) j = index l j.
Proof. unfold index. intros. destruct (Z.leb_spec 0 j); [|done]. by rewrite list_lookup_insert_ne by lia. Qed.

Lemma index_take {T} (l : list T) n i : i < n → index (take (Z.to_nat n) l) i = index l i.
Proof. unfold index. intros. destruct (Z.leb_spec 0 i); [|done]. by rewrite lookup_take_lt by lia. Qed.

Lemma list_of_contract {T} unwrap wrap (new : T) mutable cleared :
  (∀ x, unwrap (wrap x) = Ok x) → list_contract (list_of unwrap wrap new mutable cleared).
Proof.
  intros Huw. constructor; cbn.
  - intros v. repeat split. intros q. by destruct (unwrap v).
  - intros [l|] i; cbn; [|split; [lia|by intros [? ?]]]. rewrite index_lt. split; intros [x Hx].
    + rewrite Hx. cbn. eauto.
    + destruct (index l i); [eauto|done..].
  - intros [l|] i v p'; destruct (unwrap v) as [x| |]; cbn; try done. intros H.
    destruct (index l i) as [y| |] eqn:E; cbn in H; try done. injection H as <-.
    assert (0 ≤ i < llen l) as Hi by (apply index_lt; eauto). cbn. unfold llen. rewrite length_insert.
    split; [done|split; [done|]]. intros j Hj. rewrite index_insert_ne by lia. done.
  - intros p i v [l|] j Hv Hj; [|lia]. destruct p as [l0|]; [|done]. cbn in Hv.
    destruct (index l0 i) as [x| |]; try done. cbn in Hv. injection Hv as <-. rewrite Huw. cbn.
    destruct (proj1 (index_lt l j) Hj) as [y ->]. cbn. eexists. split; [done|]. cbn. by rewrite index_insert.
  - intros [l|] v p'; destruct (unwrap v) as [x| |]; cbn; try done. intros [= <-]. cbn.
    split; [unfold llen; rewrite length_app; cbn; lia|]. intros i Hi. by rewrite index_app.
  - intros p i v [l|] Hv Hq; [|done]. destruct p as [l0|]; [|done]. cbn in Hv.
    destruct (index l0 i) as [x| |]; try done. cbn in Hv. injection Hv as <-. rewrite Huw. cbn.
    eexists. split; [done|]. cbn. by rewrite index_end.
  - intros [l|] Hq; [|done]. rewrite Huw. cbn. eexists. split; [done|]. cbn. by rewrite index_end.
  - intros [l|] p' v; destruct mutable; cbn; try done. intros [= <- <-]. by rewrite Huw.
  - intros [l|] spare n Hp Hn; [|done]. cbn.
    replace ((n <? 0) || (llen l + llen spare <? n)) with false by (unfold llen in *; symmetry; apply orb_false_iff; split; apply Z.ltb_ge; lia).
    eexists _, _. split; [done|]. cbn. split; [unfold llen in *; rewrite length_take, length_app; lia|].
    intros i Hi. rewrite index_take by lia. rewrite index_app by lia. done.
Qed.

Lemma string_list_contract `{ValueStringLaws} : list_contract string_list.
Proof. apply list_of_contract. intros s. by rewrite value_String_string. Qed.

Lemma message_list_contract {X} as_message of_message (new : X) :
  (∀ m, as_message (VMessage (of_message m)) = Ok m) → list_contract (message_list as_message of_message new).
Proof. intros H. by apply list_of_contract. Qed.

Ltac solve_lists := repeat apply Forall_cons_2; try apply Forall_nil_2;
  first [apply string_list_contract | apply message_list_contract; reflexivity].

(** Split on the number of a field, [H : a < n ≤ b]. *)
Ltac each_number H :=
  lazymatch type of H with
  | ?a < ?n ≤ ?a => exfalso; clear -H; lia
  | ?a < ?n ≤ ?b =>
      let c := eval vm_compute in (a + 1) in
      let E := fresh "E" in
      assert (n = c ∨ c < n ≤ b) as [E|E] by (clear -H; lia); clear H; [|each_number E]
  end.

Ltac number_bound H := lazymatch type of H with
  | ?a < ?n ≤ ?b => let k := eval vm_compute in b in change (a < n ≤ k) in H end.

Ltac use_number := repeat match goal with E : field_number _ _ = _ |- _ => rewrite !E end.

(** The field [fd] is one of the fields of the message: a goal for each. *)
Ltac split_field Hin :=
  apply field_number_elem in Hin; number_bound Hin; each_number Hin;
  use_number; cbn.

(** [H] is the result of a method for [fd]: it did not panic, so [fd] is a field. *)
Ltac split_result H :=
  lazymatch type of H with context [field_number ?F ?fd] =>
    destruct (decide (fd ∈ F)) as [Hin|Hin];
      [apply field_number_elem in Hin; number_bound Hin; each_number Hin;
        match goal with E : field_number _ _ = _ |- _ => rewrite E in H; rewrite ?E end; cbn in H |- *
      |apply field_number_0 in Hin; rewrite Hin in H; discriminate H]
  end.

(** The other fields are as they were. *)
Ltac solve_elsewhere :=
  let fd' := fresh "fd'" in let Hne := fresh "Hne" in let n := fresh "n" in
  split; [|reflexivity]; intros fd' Hne;
  match goal with E : field_number ?F ?fd = ?k |- _ =>
    pose proof (field_number_ne F fd fd' k E ltac:(clear; lia) Hne) as Hn; clear E;
    generalize dependent (field_number F fd') end;
  intros n Hn;
  repeat match goal with |- context [match ?v with _ => _ end] => is_var v; destruct v end;
  first [split; reflexivity | exfalso; clear -Hn; lia].

(** A value that was unwrapped is of the kind of the field. *)
Ltac unwrap v H :=
  destruct v; try discriminate H; cbn in H;
  repeat match type of H with context [match ?m with _ => _ end] => is_var m; destruct m; try discriminate H end.

Ltac solve_has := intros [] fd Hin; split_field Hin; eexists _, _; split; reflexivity.
Ltac solve_foreign := intros [] fd v Hin; apply field_number_0 in Hin; rewrite ?Hin; repeat split.
Ltac solve_clear := intros [] fd Hin; split_field Hin; (eexists; split; [reflexivity|split; [reflexivity|solve_elsewhere]]).
Ltac solve_populated := use_number; cbn; intros Hhas; try injection Hhas as Hhas; rewrite ?view_has by exact Hhas; reflexivity.
Ltac solve_set := intros [] fd v y H; cbn in H; split_result H; unwrap v H; injection H as <-;
  (eexists; split; [reflexivity|split; [solve_elsewhere|solve_populated]]).
Ltac solve_copy := intros [] [] fd v Hhas H; cbn in H, Hhas; split_result H;
  match goal with E : field_number _ _ = _ |- _ => rewrite E in Hhas end; cbn in Hhas;
  injection Hhas as Hhas; injection H as <-; rewrite ?view_has by exact Hhas; cbn;
  use_number; cbn; (eexists; split_and!; [reflexivity|cbn; by rewrite ?Hhas|cbn; by rewrite ?view_has by exact Hhas]).
Ltac solve_new := intros [] fd Hin; split_field Hin; eexists _, _; split; reflexivity.
Ltac solve_mutable := intros [] fd y v H; try discriminate H; cbn in H; split_result H; try discriminate H;
  repeat match type of H with context [match ?m with _ => _ end] => is_var m; destruct m end;
  injection H as <- <-;
  (split; [solve_elsewhere|split; [use_number; reflexivity|
    use_number; intros Hhas; first [discriminate Hhas | split; [reflexivity|revert Hhas; solve_populated]]]]).
(** The number of a field that is given by its name. *)
Ltac compute_number := match goal with |- context [field_number ?F ?fd] =>
  let k := eval vm_compute in (field_number F fd) in replace (field_number F fd) with k by (vm_compute; reflexivity) end.

Ltac solve_range := intros []; eexists; split; [intros; reflexivity|];
  repeat first [apply Forall2_nil_2 | apply Forall2_cons_2];
  (split_and!; [reflexivity|compute_number; reflexivity|
    compute_number; cbn; intros Hhas; rewrite ?view_has by exact Hhas; reflexivity]).
Ltac solve_new_message := intros fd Hin; split_field Hin; reflexivity.
Ltac solve_unknown := intros [] b; eexists; split_and!; [reflexivity|reflexivity|];
  intros fd; match goal with |- context [field_number ?F ?fd] => generalize (field_number F fd) end; intros n;
  repeat match goal with |- context [match ?v with _ => _ end] => is_var v; destruct v end; split; reflexivity.
Ltac solve_getters := intros []; repeat first [apply Forall2_nil_2 | apply Forall2_cons_2];
  (split_and!; [reflexivity|compute_number; reflexivity|compute_number; reflexivity]).

Ltac open_contract := constructor;
  cbn [r_message r_fields r_Range r_Has r_Clear r_Get r_Set r_Mutable r_NewField r_New r_GetUnknown r_SetUnknown r_getters]; unfold elsewhere;
  cbn [r_message r_fields r_Range r_Has r_Clear r_Get r_Set r_Mutable r_NewField r_New r_GetUnknown r_SetUnknown r_getters].
Tactic Notation "solve_contract" "by" tactic3(unfold_methods) :=
  open_contract; unfold_methods;
  [solve_has|solve_foreign|solve_clear|solve_set|solve_copy|solve_new|solve_mutable|solve_range|
   solve_new_message|solve_unknown|solve_getters].

(** A message without fields. *)
Tactic Notation "solve_empty_contract" "by" tactic3(unfold_methods) :=
  open_contract; unfold_methods; try (intros; discriminate); try (intros x fd Hin; destruct (not_elem_of_nil fd Hin));
  [intros; repeat split|intros x; exists []; split; [reflexivity|apply Forall2_nil_2]|
   intros fd Hin; destruct (not_elem_of_nil fd Hin)|intros [] b; eexists; repeat split|intros x; apply Forall2_nil_2].
