(* ===== verification/ReflectManifest.v ===== *)
(** * Reflection over the API messages of the manifest module

    Range, Has, Clear, Get, Set, Mutable and NewField of every message, and the methods of its list types;
    then the proofs that each meets the contract of protoreflect.Message. *)

From stdpp Require Import base tactics option list strings.
From Stdlib Require Import ZArith Lia Ascii.
From S2P Require Import Prelude Wire Pulsar ApiExternal ApiManifest ApiSku ApiSkuQuery ApiBilling ApiBillingTx ApiBillingQuery Reflect.
Open Scope Z_scope.

(** ** PayoutPair *)

Definition manifestv1_PayoutPair_fields : list string :=
  ["liftedinit.manifest.v1.PayoutPair.address";
   "liftedinit.manifest.v1.PayoutPair.coin"]%string.

Definition manifestv1_PayoutPair_Range (S : Type) (p : option manifestv1_PayoutPair) (f : S → string → value → S * bool) (s : S) : res S :=
  x ← deref p;
  Ok (visit f
   [(has_string (manifestv1_PayoutPair_Address x), "liftedinit.manifest.v1.PayoutPair.address"%string, VString (manifestv1_PayoutPair_Address x));
    (not_nil (manifestv1_PayoutPair_Coin x), "liftedinit.manifest.v1.PayoutPair.coin"%string, VMessage (A_api_Coin (manifestv1_PayoutPair_Coin x)))] s).

Definition manifestv1_PayoutPair_Has (p : option manifestv1_PayoutPair) (fd : string) : res bool :=
  x ← deref p;
  match field_number manifestv1_PayoutPair_fields fd with
  | 1 => Ok (has_string (manifestv1_PayoutPair_Address x))
  | 2 => Ok (not_nil (manifestv1_PayoutPair_Coin x))
  | _ => Panic
  end.

Definition manifestv1_PayoutPair_Clear (p : option manifestv1_PayoutPair) (fd : string) : res (option manifestv1_PayoutPair) :=
  x ← deref p;
  let 'mk_manifestv1_PayoutPair address coin u := x in
  match field_number manifestv1_PayoutPair_fields fd with
  | 1 => Ok (Some (mk_manifestv1_PayoutPair "" coin u))
  | 2 => Ok (Some (mk_manifestv1_PayoutPair address None u))
  | _ => Panic
  end.

Definition manifestv1_PayoutPair_Get (p : option manifestv1_PayoutPair) (fd : string) : res value :=
  x ← deref p;
  match field_number manifestv1_PayoutPair_fields fd with
  | 1 => Ok (VString (manifestv1_PayoutPair_Address x))
  | 2 => Ok (VMessage (A_api_Coin (manifestv1_PayoutPair_Coin x)))
  | _ => Panic
  end.

Definition manifestv1_PayoutPair_Set (p : option manifestv1_PayoutPair) (fd : string) (value : value) : res (option manifestv1_PayoutPair) :=
  x ← deref p;
  let 'mk_manifestv1_PayoutPair address coin u := x in
  match field_number manifestv1_PayoutPair_fields fd with
  | 1 => v ← as_string value; Ok (Some (mk_manifestv1_PayoutPair v coin u))
  | 2 => v ← as_api_Coin value; Ok (Some (mk_manifestv1_PayoutPair address v u))
  | _ => Panic
  end.

Definition manifestv1_PayoutPair_Mutable (p : option manifestv1_PayoutPair) (fd : string) : res (option manifestv1_PayoutPair * value) :=
  x ← deref p;
  let 'mk_manifestv1_PayoutPair address coin u := x in
  match field_number manifestv1_PayoutPair_fields fd with
  | 2 => let v := match coin with None => Some api_Coin_new | Some _ => coin end in
      Ok (Some (mk_manifestv1_PayoutPair address v u), VMessage (A_api_Coin v))
  | _ => Panic
  end.

Definition manifestv1_PayoutPair_NewField (fd : string) : res value :=
  match field_number manifestv1_PayoutPair_fields fd with
  | 1 => Ok (VString "")
  | 2 => Ok (VMessage (A_api_Coin (Some api_Coin_new)))
  | _ => Panic
  end.

Definition manifestv1_PayoutPair_GetUnknown (p : option manifestv1_PayoutPair) : res bytes := x ← deref p; Ok (manifestv1_PayoutPair_unknownFields x).

Definition manifestv1_PayoutPair_SetUnknown (p : option manifestv1_PayoutPair) (fields : bytes) : res (option manifestv1_PayoutPair) :=
  x ← deref p;
  let 'mk_manifestv1_PayoutPair address coin _ := x in
  Ok (Some (mk_manifestv1_PayoutPair address coin fields)).

Definition manifestv1_PayoutPair_GetAddress (p : option manifestv1_PayoutPair) : string := match p with Some x => manifestv1_PayoutPair_Address x | None => "" end.
Definition manifestv1_PayoutPair_GetCoin (p : option manifestv1_PayoutPair) : option api_Coin := match p with Some x => manifestv1_PayoutPair_Coin x | None => None end.

Definition manifestv1_PayoutPair_getters : list (string * (option manifestv1_PayoutPair → value)) :=
  [("liftedinit.manifest.v1.PayoutPair.address", λ p, VString (manifestv1_PayoutPair_GetAddress p));
   ("liftedinit.manifest.v1.PayoutPair.coin", λ p, VMessage (A_api_Coin (manifestv1_PayoutPair_GetCoin p)))]%string.

Definition manifestv1_PayoutPair_reflected : reflected :=
  mkReflected manifestv1_PayoutPair manifestv1_PayoutPair_fields manifestv1_PayoutPair_Range manifestv1_PayoutPair_Has
    manifestv1_PayoutPair_Clear manifestv1_PayoutPair_Get manifestv1_PayoutPair_Set manifestv1_PayoutPair_Mutable
    manifestv1_PayoutPair_NewField manifestv1_PayoutPair_new manifestv1_PayoutPair_GetUnknown
    manifestv1_PayoutPair_SetUnknown manifestv1_PayoutPair_getters.

(** ** MsgPayout *)

Definition manifestv1_MsgPayout_fields : list string :=
  ["liftedinit.manifest.v1.MsgPayout.authority";
   "liftedinit.manifest.v1.MsgPayout.payout_pairs"]%string.

Definition manifestv1_MsgPayout_Range (S : Type) (p : option manifestv1_MsgPayout) (f : S → string → value → S * bool) (s : S) : res S :=
  x ← deref p;
  Ok (visit f
   [(has_string (manifestv1_MsgPayout_Authority x), "liftedinit.manifest.v1.MsgPayout.authority"%string, VString (manifestv1_MsgPayout_Authority x));
    (has_list (manifestv1_MsgPayout_PayoutPairs x), "liftedinit.manifest.v1.MsgPayout.payout_pairs"%string, VList (L_manifestv1_MsgPayout_2 (Some (manifestv1_MsgPayout_PayoutPairs x))))] s).

Definition manifestv1_MsgPayout_Has (p : option manifestv1_MsgPayout) (fd : string) : res bool :=
  x ← deref p;
  match field_number manifestv1_MsgPayout_fields fd with
  | 1 => Ok (has_string (manifestv1_MsgPayout_Authority x))
  | 2 => Ok (has_list (manifestv1_MsgPayout_PayoutPairs x))
  | _ => Panic
  end.

Definition manifestv1_MsgPayout_Clear (p : option manifestv1_MsgPayout) (fd : string) : res (option manifestv1_MsgPayout) :=
  x ← deref p;
  let 'mk_manifestv1_MsgPayout authority payoutPairs u := x in
  match field_number manifestv1_MsgPayout_fields fd with
  | 1 => Ok (Some (mk_manifestv1_MsgPayout "" payoutPairs u))
  | 2 => Ok (Some (mk_manifestv1_MsgPayout authority [] u))
  | _ => Panic
  end.

Definition manifestv1_MsgPayout_Get (p : option manifestv1_MsgPayout) (fd : string) : res value :=
  x ← deref p;
  match field_number manifestv1_MsgPayout_fields fd with
  | 1 => Ok (VString (manifestv1_MsgPayout_Authority x))
  | 2 => Ok (VList (L_manifestv1_MsgPayout_2 (view (manifestv1_MsgPayout_PayoutPairs x))))
  | _ => Panic
  end.

Definition manifestv1_MsgPayout_Set (p : option manifestv1_MsgPayout) (fd : string) (value : value) : res (option manifestv1_MsgPayout) :=
  x ← deref p;
  let 'mk_manifestv1_MsgPayout authority payoutPairs u := x in
  match field_number manifestv1_MsgPayout_fields fd with
  | 1 => v ← as_string value; Ok (Some (mk_manifestv1_MsgPayout v payoutPairs u))
  | 2 => v ← as_L_manifestv1_MsgPayout_2 value; Ok (Some (mk_manifestv1_MsgPayout authority v u))
  | _ => Panic
  end.

Definition manifestv1_MsgPayout_Mutable (p : option manifestv1_MsgPayout) (fd : string) : res (option manifestv1_MsgPayout * value) :=
  x ← deref p;
  let 'mk_manifestv1_MsgPayout authority payoutPairs u := x in
  match field_number manifestv1_MsgPayout_fields fd with
  | 2 => Ok (Some x, VList (L_manifestv1_MsgPayout_2 (Some payoutPairs)))
  | _ => Panic
  end.

Definition manifestv1_MsgPayout_NewField (fd : string) : res value :=
  match field_number manifestv1_MsgPayout_fields fd with
  | 1 => Ok (VString "")
  | 2 => Ok (VList (L_manifestv1_MsgPayout_2 (Some [])))
  | _ => Panic
  end.

Definition manifestv1_MsgPayout_GetUnknown (p : option manifestv1_MsgPayout) : res bytes := x ← deref p; Ok (manifestv1_MsgPayout_unknownFields x).

Definition manifestv1_MsgPayout_SetUnknown (p : option manifestv1_MsgPayout) (fields : bytes) : res (option manifestv1_MsgPayout) :=
  x ← deref p;
  let 'mk_manifestv1_MsgPayout authority payoutPairs _ := x in
  Ok (Some (mk_manifestv1_MsgPayout authority payoutPairs fields)).

Definition manifestv1_MsgPayout_GetAuthority (p : option manifestv1_MsgPayout) : string := match p with Some x => manifestv1_MsgPayout_Authority x | None => "" end.
Definition manifestv1_MsgPayout_GetPayoutPairs (p : option manifestv1_MsgPayout) : list (option manifestv1_PayoutPair) := match p with Some x => manifestv1_MsgPayout_PayoutPairs x | None => [] end.

Definition manifestv1_MsgPayout_getters : list (string * (option manifestv1_MsgPayout → value)) :=
  [("liftedinit.manifest.v1.MsgPayout.authority", λ p, VString (manifestv1_MsgPayout_GetAuthority p));
   ("liftedinit.manifest.v1.MsgPayout.payout_pairs", λ p, VList (L_manifestv1_MsgPayout_2 (view (manifestv1_MsgPayout_GetPayoutPairs p))))]%string.

Definition manifestv1_MsgPayout_reflected : reflected :=
  mkReflected manifestv1_MsgPayout manifestv1_MsgPayout_fields manifestv1_MsgPayout_Range manifestv1_MsgPayout_Has
    manifestv1_MsgPayout_Clear manifestv1_MsgPayout_Get manifestv1_MsgPayout_Set manifestv1_MsgPayout_Mutable
    manifestv1_MsgPayout_NewField manifestv1_MsgPayout_new manifestv1_MsgPayout_GetUnknown
    manifestv1_MsgPayout_SetUnknown manifestv1_MsgPayout_getters.

Definition manifestv1_MsgPayout_2_list : list_methods (option manifestv1_PayoutPair) :=
  message_list as_manifestv1_PayoutPair A_manifestv1_PayoutPair manifestv1_PayoutPair_new.

(** ** MsgPayoutResponse *)

Definition manifestv1_MsgPayoutResponse_fields : list string :=
  []%string.

Definition manifestv1_MsgPayoutResponse_Range (S : Type) (p : option manifestv1_MsgPayoutResponse) (f : S → string → value → S * bool) (s : S) : res S :=
  Ok (visit f [] s).

Definition manifestv1_MsgPayoutResponse_Has (p : option manifestv1_MsgPayoutResponse) (fd : string) : res bool := Panic.

Definition manifestv1_MsgPayoutResponse_Clear (p : option manifestv1_MsgPayoutResponse) (fd : string) : res (option manifestv1_MsgPayoutResponse) := Panic.

Definition manifestv1_MsgPayoutResponse_Get (p : option manifestv1_MsgPayoutResponse) (fd : string) : res value := Panic.

Definition manifestv1_MsgPayoutResponse_Set (p : option manifestv1_MsgPayoutResponse) (fd : string) (value : value) : res (option manifestv1_MsgPayoutResponse) := Panic.

Definition manifestv1_MsgPayoutResponse_Mutable (p : option manifestv1_MsgPayoutResponse) (fd : string) : res (option manifestv1_MsgPayoutResponse * value) := Panic.

Definition manifestv1_MsgPayoutResponse_NewField (fd : string) : res value := Panic.

Definition manifestv1_MsgPayoutResponse_GetUnknown (p : option manifestv1_MsgPayoutResponse) : res bytes := x ← deref p; Ok (manifestv1_MsgPayoutResponse_unknownFields x).

Definition manifestv1_MsgPayoutResponse_SetUnknown (p : option manifestv1_MsgPayoutResponse) (fields : bytes) : res (option manifestv1_MsgPayoutResponse) :=
  x ← deref p;
  let 'mk_manifestv1_MsgPayoutResponse _ := x in
  Ok (Some (mk_manifestv1_MsgPayoutResponse fields)).

Definition manifestv1_MsgPayoutResponse_getters : list (string * (option manifestv1_MsgPayoutResponse → value)) :=
  []%string.

Definition manifestv1_MsgPayoutResponse_reflected : reflected :=
  mkReflected manifestv1_MsgPayoutResponse manifestv1_MsgPayoutResponse_fields manifestv1_MsgPayoutResponse_Range
    manifestv1_MsgPayoutResponse_Has manifestv1_MsgPayoutResponse_Clear manifestv1_MsgPayoutResponse_Get
    manifestv1_MsgPayoutResponse_Set manifestv1_MsgPayoutResponse_Mutable manifestv1_MsgPayoutResponse_NewField
    manifestv1_MsgPayoutResponse_new manifestv1_MsgPayoutResponse_GetUnknown manifestv1_MsgPayoutResponse_SetUnknown
    manifestv1_MsgPayoutResponse_getters.

(** ** MsgBurnHeldBalance *)

Definition manifestv1_MsgBurnHeldBalance_fields : list string :=
  ["liftedinit.manifest.v1.MsgBurnHeldBalance.authority";
   "liftedinit.manifest.v1.MsgBurnHeldBalance.burn_coins"]%string.

Definition manifestv1_MsgBurnHeldBalance_Range (S : Type) (p : option manifestv1_MsgBurnHeldBalance) (f : S → string → value → S * bool) (s : S) : res S :=
  x ← deref p;
  Ok (visit f
   [(has_string (manifestv1_MsgBurnHeldBalance_Authority x), "liftedinit.manifest.v1.MsgBurnHeldBalance.authority"%string, VString (manifestv1_MsgBurnHeldBalance_Authority x));
    (has_list (manifestv1_MsgBurnHeldBalance_BurnCoins x), "liftedinit.manifest.v1.MsgBurnHeldBalance.burn_coins"%string, VList (L_manifestv1_MsgBurnHeldBalance_2 (Some (manifestv1_MsgBurnHeldBalance_BurnCoins x))))] s).

Definition manifestv1_MsgBurnHeldBalance_Has (p : option manifestv1_MsgBurnHeldBalance) (fd : string) : res bool :=
  x ← deref p;
  match field_number manifestv1_MsgBurnHeldBalance_fields fd with
  | 1 => Ok (has_string (manifestv1_MsgBurnHeldBalance_Authority x))
  | 2 => Ok (has_list (manifestv1_MsgBurnHeldBalance_BurnCoins x))
  | _ => Panic
  end.

Definition manifestv1_MsgBurnHeldBalance_Clear (p : option manifestv1_MsgBurnHeldBalance) (fd : string) : res (option manifestv1_MsgBurnHeldBalance) :=
  x ← deref p;
  let 'mk_manifestv1_MsgBurnHeldBalance authority burnCoins u := x in
  match field_number manifestv1_MsgBurnHeldBalance_fields fd with
  | 1 => Ok (Some (mk_manifestv1_MsgBurnHeldBalance "" burnCoins u))
  | 2 => Ok (Some (mk_manifestv1_MsgBurnHeldBalance authority [] u))
  | _ => Panic
  end.

Definition manifestv1_MsgBurnHeldBalance_Get (p : option manifestv1_MsgBurnHeldBalance) (fd : string) : res value :=
  x ← deref p;
  match field_number manifestv1_MsgBurnHeldBalance_fields fd with
  | 1 => Ok (VString (manifestv1_MsgBurnHeldBalance_Authority x))
  | 2 => Ok (VList (L_manifestv1_MsgBurnHeldBalance_2 (view (manifestv1_MsgBurnHeldBalance_BurnCoins x))))
  | _ => Panic
  end.

Definition manifestv1_MsgBurnHeldBalance_Set (p : option manifestv1_MsgBurnHeldBalance) (fd : string) (value : value) : res (option manifestv1_MsgBurnHeldBalance) :=
  x ← deref p;
  let 'mk_manifestv1_MsgBurnHeldBalance authority burnCoins u := x in
  match field_number manifestv1_MsgBurnHeldBalance_fields fd with
  | 1 => v ← as_string value; Ok (Some (mk_manifestv1_MsgBurnHeldBalance v burnCoins u))
  | 2 => v ← as_L_manifestv1_MsgBurnHeldBalance_2 value; Ok (Some (mk_manifestv1_MsgBurnHeldBalance authority v u))
  | _ => Panic
  end.

Definition manifestv1_MsgBurnHeldBalance_Mutable (p : option manifestv1_MsgBurnHeldBalance) (fd : string) : res (option manifestv1_MsgBurnHeldBalance * value) :=
  x ← deref p;
  let 'mk_manifestv1_MsgBurnHeldBalance authority burnCoins u := x in
  match field_number manifestv1_MsgBurnHeldBalance_fields fd with
  | 2 => Ok (Some x, VList (L_manifestv1_MsgBurnHeldBalance_2 (Some burnCoins)))
  | _ => Panic
  end.

Definition manifestv1_MsgBurnHeldBalance_NewField (fd : string) : res value :=
  match field_number manifestv1_MsgBurnHeldBalance_fields fd with
  | 1 => Ok (VString "")
  | 2 => Ok (VList (L_manifestv1_MsgBurnHeldBalance_2 (Some [])))
  | _ => Panic
  end.

Definition manifestv1_MsgBurnHeldBalance_GetUnknown (p : option manifestv1_MsgBurnHeldBalance) : res bytes := x ← deref p; Ok (manifestv1_MsgBurnHeldBalance_unknownFields x).

Definition manifestv1_MsgBurnHeldBalance_SetUnknown (p : option manifestv1_MsgBurnHeldBalance) (fields : bytes) : res (option manifestv1_MsgBurnHeldBalance) :=
  x ← deref p;
  let 'mk_manifestv1_MsgBurnHeldBalance authority burnCoins _ := x in
  Ok (Some (mk_manifestv1_MsgBurnHeldBalance authority burnCoins fields)).

Definition manifestv1_MsgBurnHeldBalance_GetAuthority (p : option manifestv1_MsgBurnHeldBalance) : string := match p with Some x => manifestv1_MsgBurnHeldBalance_Authority x | None => "" end.
Definition manifestv1_MsgBurnHeldBalance_GetBurnCoins (p : option manifestv1_MsgBurnHeldBalance) : list (option api_Coin) := match p with Some x => manifestv1_MsgBurnHeldBalance_BurnCoins x | None => [] end.

Definition manifestv1_MsgBurnHeldBalance_getters : list (string * (option manifestv1_MsgBurnHeldBalance → value)) :=
  [("liftedinit.manifest.v1.MsgBurnHeldBalance.authority", λ p, VString (manifestv1_MsgBurnHeldBalance_GetAuthority p));
   ("liftedinit.manifest.v1.MsgBurnHeldBalance.burn_coins", λ p, VList (L_manifestv1_MsgBurnHeldBalance_2 (view (manifestv1_MsgBurnHeldBalance_GetBurnCoins p))))]%string.

Definition manifestv1_MsgBurnHeldBalance_reflected : reflected :=
  mkReflected manifestv1_MsgBurnHeldBalance manifestv1_MsgBurnHeldBalance_fields manifestv1_MsgBurnHeldBalance_Range
    manifestv1_MsgBurnHeldBalance_Has manifestv1_MsgBurnHeldBalance_Clear manifestv1_MsgBurnHeldBalance_Get
    manifestv1_MsgBurnHeldBalance_Set manifestv1_MsgBurnHeldBalance_Mutable manifestv1_MsgBurnHeldBalance_NewField
    manifestv1_MsgBurnHeldBalance_new manifestv1_MsgBurnHeldBalance_GetUnknown
    manifestv1_MsgBurnHeldBalance_SetUnknown manifestv1_MsgBurnHeldBalance_getters.

Definition manifestv1_MsgBurnHeldBalance_2_list : list_methods (option api_Coin) :=
  message_list as_api_Coin A_api_Coin api_Coin_new.

(** ** MsgBurnHeldBalanceResponse *)

Definition manifestv1_MsgBurnHeldBalanceResponse_fields : list string :=
  []%string.

Definition manifestv1_MsgBurnHeldBalanceResponse_Range (S : Type) (p : option manifestv1_MsgBurnHeldBalanceResponse) (f : S → string → value → S * bool) (s : S) : res S :=
  Ok (visit f [] s).

Definition manifestv1_MsgBurnHeldBalanceResponse_Has (p : option manifestv1_MsgBurnHeldBalanceResponse) (fd : string) : res bool := Panic.

Definition manifestv1_MsgBurnHeldBalanceResponse_Clear (p : option manifestv1_MsgBurnHeldBalanceResponse) (fd : string) : res (option manifestv1_MsgBurnHeldBalanceResponse) := Panic.

Definition manifestv1_MsgBurnHeldBalanceResponse_Get (p : option manifestv1_MsgBurnHeldBalanceResponse) (fd : string) : res value := Panic.

Definition manifestv1_MsgBurnHeldBalanceResponse_Set (p : option manifestv1_MsgBurnHeldBalanceResponse) (fd : string) (value : value) : res (option manifestv1_MsgBurnHeldBalanceResponse) := Panic.

Definition manifestv1_MsgBurnHeldBalanceResponse_Mutable (p : option manifestv1_MsgBurnHeldBalanceResponse) (fd : string) : res (option manifestv1_MsgBurnHeldBalanceResponse * value) := Panic.

Definition manifestv1_MsgBurnHeldBalanceResponse_NewField (fd : string) : res value := Panic.

Definition manifestv1_MsgBurnHeldBalanceResponse_GetUnknown (p : option manifestv1_MsgBurnHeldBalanceResponse) : res bytes := x ← deref p; Ok (manifestv1_MsgBurnHeldBalanceResponse_unknownFields x).

Definition manifestv1_MsgBurnHeldBalanceResponse_SetUnknown (p : option manifestv1_MsgBurnHeldBalanceResponse) (fields : bytes) : res (option manifestv1_MsgBurnHeldBalanceResponse) :=
  x ← deref p;
  let 'mk_manifestv1_MsgBurnHeldBalanceResponse _ := x in
  Ok (Some (mk_manifestv1_MsgBurnHeldBalanceResponse fields)).

Definition manifestv1_MsgBurnHeldBalanceResponse_getters : list (string * (option manifestv1_MsgBurnHeldBalanceResponse → value)) :=
  []%string.

Definition manifestv1_MsgBurnHeldBalanceResponse_reflected : reflected :=
  mkReflected manifestv1_MsgBurnHeldBalanceResponse manifestv1_MsgBurnHeldBalanceResponse_fields
    manifestv1_MsgBurnHeldBalanceResponse_Range manifestv1_MsgBurnHeldBalanceResponse_Has
    manifestv1_MsgBurnHeldBalanceResponse_Clear manifestv1_MsgBurnHeldBalanceResponse_Get
    manifestv1_MsgBurnHeldBalanceResponse_Set manifestv1_MsgBurnHeldBalanceResponse_Mutable
    manifestv1_MsgBurnHeldBalanceResponse_NewField manifestv1_MsgBurnHeldBalanceResponse_new
    manifestv1_MsgBurnHeldBalanceResponse_GetUnknown manifestv1_MsgBurnHeldBalanceResponse_SetUnknown
    manifestv1_MsgBurnHeldBalanceResponse_getters.

(** ** GenesisState *)

Definition manifestv1_GenesisState_fields : list string :=
  []%string.

Definition manifestv1_GenesisState_Range (S : Type) (p : option manifestv1_GenesisState) (f : S → string → value → S * bool) (s : S) : res S :=
  Ok (visit f [] s).

Definition manifestv1_GenesisState_Has (p : option manifestv1_GenesisState) (fd : string) : res bool := Panic.

Definition manifestv1_GenesisState_Clear (p : option manifestv1_GenesisState) (fd : string) : res (option manifestv1_GenesisState) := Panic.

Definition manifestv1_GenesisState_Get (p : option manifestv1_GenesisState) (fd : string) : res value := Panic.

Definition manifestv1_GenesisState_Set (p : option manifestv1_GenesisState) (fd : string) (value : value) : res (option manifestv1_GenesisState) := Panic.

Definition manifestv1_GenesisState_Mutable (p : option manifestv1_GenesisState) (fd : string) : res (option manifestv1_GenesisState * value) := Panic.

Definition manifestv1_GenesisState_NewField (fd : string) : res value := Panic.

Definition manifestv1_GenesisState_GetUnknown (p : option manifestv1_GenesisState) : res bytes := x ← deref p; Ok (manifestv1_GenesisState_unknownFields x).

Definition manifestv1_GenesisState_SetUnknown (p : option manifestv1_GenesisState) (fields : bytes) : res (option manifestv1_GenesisState) :=
  x ← deref p;
  let 'mk_manifestv1_GenesisState _ := x in
  Ok (Some (mk_manifestv1_GenesisState fields)).

Definition manifestv1_GenesisState_getters : list (string * (option manifestv1_GenesisState → value)) :=
  []%string.

Definition manifestv1_GenesisState_reflected : reflected :=
  mkReflected manifestv1_GenesisState manifestv1_GenesisState_fields manifestv1_GenesisState_Range
    manifestv1_GenesisState_Has manifestv1_GenesisState_Clear manifestv1_GenesisState_Get manifestv1_GenesisState_Set
    manifestv1_GenesisState_Mutable manifestv1_GenesisState_NewField manifestv1_GenesisState_new
    manifestv1_GenesisState_GetUnknown manifestv1_GenesisState_SetUnknown manifestv1_GenesisState_getters.

(** ** Module *)

Definition manifest_modulev1_Module_fields : list string :=
  []%string.

Definition manifest_modulev1_Module_Range (S : Type) (p : option manifest_modulev1_Module) (f : S → string → value → S * bool) (s : S) : res S :=
  Ok (visit f [] s).

Definition manifest_modulev1_Module_Has (p : option manifest_modulev1_Module) (fd : string) : res bool := Panic.

Definition manifest_modulev1_Module_Clear (p : option manifest_modulev1_Module) (fd : string) : res (option manifest_modulev1_Module) := Panic.

Definition manifest_modulev1_Module_Get (p : option manifest_modulev1_Module) (fd : string) : res value := Panic.

Definition manifest_modulev1_Module_Set (p : option manifest_modulev1_Module) (fd : string) (value : value) : res (option manifest_modulev1_Module) := Panic.

Definition manifest_modulev1_Module_Mutable (p : option manifest_modulev1_Module) (fd : string) : res (option manifest_modulev1_Module * value) := Panic.

Definition manifest_modulev1_Module_NewField (fd : string) : res value := Panic.

Definition manifest_modulev1_Module_GetUnknown (p : option manifest_modulev1_Module) : res bytes := x ← deref p; Ok (manifest_modulev1_Module_unknownFields x).

Definition manifest_modulev1_Module_SetUnknown (p : option manifest_modulev1_Module) (fields : bytes) : res (option manifest_modulev1_Module) :=
  x ← deref p;
  let 'mk_manifest_modulev1_Module _ := x in
  Ok (Some (mk_manifest_modulev1_Module fields)).

Definition manifest_modulev1_Module_getters : list (string * (option manifest_modulev1_Module → value)) :=
  []%string.

Definition manifest_modulev1_Module_reflected : reflected :=
  mkReflected manifest_modulev1_Module manifest_modulev1_Module_fields manifest_modulev1_Module_Range
    manifest_modulev1_Module_Has manifest_modulev1_Module_Clear manifest_modulev1_Module_Get
    manifest_modulev1_Module_Set manifest_modulev1_Module_Mutable manifest_modulev1_Module_NewField
    manifest_modulev1_Module_new manifest_modulev1_Module_GetUnknown manifest_modulev1_Module_SetUnknown
    manifest_modulev1_Module_getters.

Definition manifest_reflected : list reflected :=
  [manifestv1_PayoutPair_reflected; manifestv1_MsgPayout_reflected; manifestv1_MsgPayoutResponse_reflected;
   manifestv1_MsgBurnHeldBalance_reflected; manifestv1_MsgBurnHeldBalanceResponse_reflected;
   manifestv1_GenesisState_reflected; manifest_modulev1_Module_reflected].

Definition manifest_lists : list {T & list_methods T} :=
  [existT _ manifestv1_MsgPayout_2_list; existT _ manifestv1_MsgBurnHeldBalance_2_list].

(** ** Contracts *)

Lemma manifestv1_PayoutPair_contract : contract manifestv1_PayoutPair_reflected.
Proof.
  unfold manifestv1_PayoutPair_reflected; solve_contract by unfold manifestv1_PayoutPair_Range,
    manifestv1_PayoutPair_Has, manifestv1_PayoutPair_Clear, manifestv1_PayoutPair_Get, manifestv1_PayoutPair_Set,
    manifestv1_PayoutPair_Mutable, manifestv1_PayoutPair_NewField, manifestv1_PayoutPair_GetUnknown,
    manifestv1_PayoutPair_SetUnknown, manifestv1_PayoutPair_getters.
Qed.

Lemma manifestv1_MsgPayout_contract : contract manifestv1_MsgPayout_reflected.
Proof.
  unfold manifestv1_MsgPayout_reflected; solve_contract by unfold manifestv1_MsgPayout_Range,
    manifestv1_MsgPayout_Has, manifestv1_MsgPayout_Clear, manifestv1_MsgPayout_Get, manifestv1_MsgPayout_Set,
    manifestv1_MsgPayout_Mutable, manifestv1_MsgPayout_NewField, manifestv1_MsgPayout_GetUnknown,
    manifestv1_MsgPayout_SetUnknown, manifestv1_MsgPayout_getters.
Qed.

Lemma manifestv1_MsgPayoutResponse_contract : contract manifestv1_MsgPayoutResponse_reflected.
Proof.
  unfold manifestv1_MsgPayoutResponse_reflected; solve_empty_contract by unfold manifestv1_MsgPayoutResponse_Range,
    manifestv1_MsgPayoutResponse_Has, manifestv1_MsgPayoutResponse_Clear, manifestv1_MsgPayoutResponse_Get,
    manifestv1_MsgPayoutResponse_Set, manifestv1_MsgPayoutResponse_Mutable, manifestv1_MsgPayoutResponse_NewField,
    manifestv1_MsgPayoutResponse_GetUnknown, manifestv1_MsgPayoutResponse_SetUnknown,
    manifestv1_MsgPayoutResponse_getters.
Qed.

Lemma manifestv1_MsgBurnHeldBalance_contract : contract manifestv1_MsgBurnHeldBalance_reflected.
Proof.
  unfold manifestv1_MsgBurnHeldBalance_reflected; solve_contract by unfold manifestv1_MsgBurnHeldBalance_Range,
    manifestv1_MsgBurnHeldBalance_Has, manifestv1_MsgBurnHeldBalance_Clear, manifestv1_MsgBurnHeldBalance_Get,
    manifestv1_MsgBurnHeldBalance_Set, manifestv1_MsgBurnHeldBalance_Mutable, manifestv1_MsgBurnHeldBalance_NewField,
    manifestv1_MsgBurnHeldBalance_GetUnknown, manifestv1_MsgBurnHeldBalance_SetUnknown,
    manifestv1_MsgBurnHeldBalance_getters.
Qed.

Lemma manifestv1_MsgBurnHeldBalanceResponse_contract : contract manifestv1_MsgBurnHeldBalanceResponse_reflected.
Proof.
  unfold manifestv1_MsgBurnHeldBalanceResponse_reflected; solve_empty_contract by unfold
    manifestv1_MsgBurnHeldBalanceResponse_Range, manifestv1_MsgBurnHeldBalanceResponse_Has,
    manifestv1_MsgBurnHeldBalanceResponse_Clear, manifestv1_MsgBurnHeldBalanceResponse_Get,
    manifestv1_MsgBurnHeldBalanceResponse_Set, manifestv1_MsgBurnHeldBalanceResponse_Mutable,
    manifestv1_MsgBurnHeldBalanceResponse_NewField, manifestv1_MsgBurnHeldBalanceResponse_GetUnknown,
    manifestv1_MsgBurnHeldBalanceResponse_SetUnknown, manifestv1_MsgBurnHeldBalanceResponse_getters.
Qed.

Lemma manifestv1_GenesisState_contract : contract manifestv1_GenesisState_reflected.
Proof.
  unfold manifestv1_GenesisState_reflected; solve_empty_contract by unfold manifestv1_GenesisState_Range,
    manifestv1_GenesisState_Has, manifestv1_GenesisState_Clear, manifestv1_GenesisState_Get,
    manifestv1_GenesisState_Set, manifestv1_GenesisState_Mutable, manifestv1_GenesisState_NewField,
    manifestv1_GenesisState_GetUnknown, manifestv1_GenesisState_SetUnknown, manifestv1_GenesisState_getters.
Qed.

Lemma manifest_modulev1_Module_contract : contract manifest_modulev1_Module_reflected.
Proof.
  unfold manifest_modulev1_Module_reflected; solve_empty_contract by unfold manifest_modulev1_Module_Range,
    manifest_modulev1_Module_Has, manifest_modulev1_Module_Clear, manifest_modulev1_Module_Get,
    manifest_modulev1_Module_Set, manifest_modulev1_Module_Mutable, manifest_modulev1_Module_NewField,
    manifest_modulev1_Module_GetUnknown, manifest_modulev1_Module_SetUnknown, manifest_modulev1_Module_getters.
Qed.

Lemma manifest_reflected_contract : Forall contract manifest_reflected.
Proof.
  repeat apply Forall_cons_2; try apply Forall_nil_2.
  - apply manifestv1_PayoutPair_contract.
  - apply manifestv1_MsgPayout_contract.
  - apply manifestv1_MsgPayoutResponse_contract.
  - apply manifestv1_MsgBurnHeldBalance_contract.
  - apply manifestv1_MsgBurnHeldBalanceResponse_contract.
  - apply manifestv1_GenesisState_contract.
  - apply manifest_modulev1_Module_contract.
Qed.

Lemma manifest_lists_contract : Forall (λ L, list_contract (projT2 L)) manifest_lists.
Proof. solve_lists. Qed.
