(* ===== verification/ReflectSku.v ===== *)
(** * Reflection over the API messages of the sku module

    Range, Has, Clear, Get, Set, Mutable and NewField of every message, and the methods of its list types;
    then the proofs that each meets the contract of protoreflect.Message. *)

From stdpp Require Import base tactics option list strings.
From Stdlib Require Import ZArith Lia Ascii.
From S2P Require Import Prelude Wire Pulsar ApiExternal ApiManifest ApiSku ApiSkuQuery ApiBilling ApiBillingTx ApiBillingQuery Reflect.
Open Scope Z_scope.

(** ** Params *)

Definition skuv1_Params_fields : list string :=
  ["liftedinit.sku.v1.Params.allowed_list"]%string.

Definition skuv1_Params_Range (S : Type) (p : option skuv1_Params) (f : S → string → value → S * bool) (s : S) : res S :=
  x ← deref p;
  Ok (visit f
   [(has_list (skuv1_Params_AllowedList x), "liftedinit.sku.v1.Params.allowed_list"%string, VList (L_skuv1_Params_1 (Some (skuv1_Params_AllowedList x))))] s).

Definition skuv1_Params_Has (p : option skuv1_Params) (fd : string) : res bool :=
  x ← deref p;
  match field_number skuv1_Params_fields fd with
  | 1 => Ok (has_list (skuv1_Params_AllowedList x))
  | _ => Panic
  end.

Definition skuv1_Params_Clear (p : option skuv1_Params) (fd : string) : res (option skuv1_Params) :=
  x ← deref p;
  let 'mk_skuv1_Params allowedList u := x in
  match field_number skuv1_Params_fields fd with
  | 1 => Ok (Some (mk_skuv1_Params [] u))
  | _ => Panic
  end.

Definition skuv1_Params_Get (p : option skuv1_Params) (fd : string) : res value :=
  x ← deref p;
  match field_number skuv1_Params_fields fd with
  | 1 => Ok (VList (L_skuv1_Params_1 (view (skuv1_Params_AllowedList x))))
  | _ => Panic
  end.

Definition skuv1_Params_Set (p : option skuv1_Params) (fd : string) (value : value) : res (option skuv1_Params) :=
  x ← deref p;
  let 'mk_skuv1_Params allowedList u := x in
  match field_number skuv1_Params_fields fd with
  | 1 => v ← as_L_skuv1_Params_1 value; Ok (Some (mk_skuv1_Params v u))
  | _ => Panic
  end.

Definition skuv1_Params_Mutable (p : option skuv1_Params) (fd : string) : res (option skuv1_Params * value) :=
  x ← deref p;
  let 'mk_skuv1_Params allowedList u := x in
  match field_number skuv1_Params_fields fd with
  | 1 => Ok (Some x, VList (L_skuv1_Params_1 (Some allowedList)))
  | _ => Panic
  end.

Definition skuv1_Params_NewField (fd : string) : res value :=
  match field_number skuv1_Params_fields fd with
  | 1 => Ok (VList (L_skuv1_Params_1 (Some [])))
  | _ => Panic
  end.

Definition skuv1_Params_GetUnknown (p : option skuv1_Params) : res bytes := x ← deref p; Ok (skuv1_Params_unknownFields x).

Definition skuv1_Params_SetUnknown (p : option skuv1_Params) (fields : bytes) : res (option skuv1_Params) :=
  x ← deref p;
  let 'mk_skuv1_Params allowedList _ := x in
  Ok (Some (mk_skuv1_Params allowedList fields)).

Definition skuv1_Params_GetAllowedList (p : option skuv1_Params) : list string := match p with Some x => skuv1_Params_AllowedList x | None => [] end.

Definition skuv1_Params_getters : list (string * (option skuv1_Params → value)) :=
  [("liftedinit.sku.v1.Params.allowed_list", λ p, VList (L_skuv1_Params_1 (view (skuv1_Params_GetAllowedList p))))]%string.

Definition skuv1_Params_reflected : reflected :=
  mkReflected skuv1_Params skuv1_Params_fields skuv1_Params_Range skuv1_Params_Has skuv1_Params_Clear skuv1_Params_Get
    skuv1_Params_Set skuv1_Params_Mutable skuv1_Params_NewField skuv1_Params_new skuv1_Params_GetUnknown
    skuv1_Params_SetUnknown skuv1_Params_getters.

Definition skuv1_Params_1_list `{ValueString} : list_methods string := string_list.

(** ** Provider *)

Definition skuv1_Provider_fields : list string :=
  ["liftedinit.sku.v1.Provider.uuid";
   "liftedinit.sku.v1.Provider.address";
   "liftedinit.sku.v1.Provider.payout_address";
   "liftedinit.sku.v1.Provider.meta_hash";
   "liftedinit.sku.v1.Provider.active";
   "liftedinit.sku.v1.Provider.api_url"]%string.

Definition skuv1_Provider_Range (S : Type) (p : option skuv1_Provider) (f : S → string → value → S * bool) (s : S) : res S :=
  x ← deref p;
  Ok (visit f
   [(has_string (skuv1_Provider_Uuid x), "liftedinit.sku.v1.Provider.uuid"%string, VString (skuv1_Provider_Uuid x));
    (has_string (skuv1_Provider_Address x), "liftedinit.sku.v1.Provider.address"%string, VString (skuv1_Provider_Address x));
    (has_string (skuv1_Provider_PayoutAddress x), "liftedinit.sku.v1.Provider.payout_address"%string, VString (skuv1_Provider_PayoutAddress x));
    (has_bytes (skuv1_Provider_MetaHash x), "liftedinit.sku.v1.Provider.meta_hash"%string, VBytes (skuv1_Provider_MetaHash x));
    ((skuv1_Provider_Active x), "liftedinit.sku.v1.Provider.active"%string, VBool (skuv1_Provider_Active x));
    (has_string (skuv1_Provider_ApiUrl x), "liftedinit.sku.v1.Provider.api_url"%string, VString (skuv1_Provider_ApiUrl x))] s).

Definition skuv1_Provider_Has (p : option skuv1_Provider) (fd : string) : res bool :=
  x ← deref p;
  match field_number skuv1_Provider_fields fd with
  | 1 => Ok (has_string (skuv1_Provider_Uuid x))
  | 2 => Ok (has_string (skuv1_Provider_Address x))
  | 3 => Ok (has_string (skuv1_Provider_PayoutAddress x))
  | 4 => Ok (has_bytes (skuv1_Provider_MetaHash x))
  | 5 => Ok ((skuv1_Provider_Active x))
  | 6 => Ok (has_string (skuv1_Provider_ApiUrl x))
  | _ => Panic
  end.

Definition skuv1_Provider_Clear (p : option skuv1_Provider) (fd : string) : res (option skuv1_Provider) :=
  x ← deref p;
  let 'mk_skuv1_Provider uuid address payoutAddress metaHash active apiUrl u := x in
  match field_number skuv1_Provider_fields fd with
  | 1 => Ok (Some (mk_skuv1_Provider "" address payoutAddress metaHash active apiUrl u))
  | 2 => Ok (Some (mk_skuv1_Provider uuid "" payoutAddress metaHash active apiUrl u))
  | 3 => Ok (Some (mk_skuv1_Provider uuid address "" metaHash active apiUrl u))
  | 4 => Ok (Some (mk_skuv1_Provider uuid address payoutAddress "" active apiUrl u))
  | 5 => Ok (Some (mk_skuv1_Provider uuid address payoutAddress metaHash false apiUrl u))
  | 6 => Ok (Some (mk_skuv1_Provider uuid address payoutAddress metaHash active "" u))
  | _ => Panic
  end.

Definition skuv1_Provider_Get (p : option skuv1_Provider) (fd : string) : res value :=
  x ← deref p;
  match field_number skuv1_Provider_fields fd with
  | 1 => Ok (VString (skuv1_Provider_Uuid x))
  | 2 => Ok (VString (skuv1_Provider_Address x))
  | 3 => Ok (VString (skuv1_Provider_PayoutAddress x))
  | 4 => Ok (VBytes (skuv1_Provider_MetaHash x))
  | 5 => Ok (VBool (skuv1_Provider_Active x))
  | 6 => Ok (VString (skuv1_Provider_ApiUrl x))
  | _ => Panic
  end.

Definition skuv1_Provider_Set (p : option skuv1_Provider) (fd : string) (value : value) : res (option skuv1_Provider) :=
  x ← deref p;
  let 'mk_skuv1_Provider uuid address payoutAddress metaHash active apiUrl u := x in
  match field_number skuv1_Provider_fields fd with
  | 1 => v ← as_string value; Ok (Some (mk_skuv1_Provider v address payoutAddress metaHash active apiUrl u))
  | 2 => v ← as_string value; Ok (Some (mk_skuv1_Provider uuid v payoutAddress metaHash active apiUrl u))
  | 3 => v ← as_string value; Ok (Some (mk_skuv1_Provider uuid address v metaHash active apiUrl u))
  | 4 => v ← as_bytes value; Ok (Some (mk_skuv1_Provider uuid address payoutAddress v active apiUrl u))
  | 5 => v ← as_bool value; Ok (Some (mk_skuv1_Provider uuid address payoutAddress metaHash v apiUrl u))
  | 6 => v ← as_string value; Ok (Some (mk_skuv1_Provider uuid address payoutAddress metaHash active v u))
  | _ => Panic
  end.

Definition skuv1_Provider_Mutable (p : option skuv1_Provider) (fd : string) : res (option skuv1_Provider * value) := Panic.

Definition skuv1_Provider_NewField (fd : string) : res value :=
  match field_number skuv1_Provider_fields fd with
  | 1 => Ok (VString "")
  | 2 => Ok (VString "")
  | 3 => Ok (VString "")
  | 4 => Ok (VBytes "")
  | 5 => Ok (VBool false)
  | 6 => Ok (VString "")
  | _ => Panic
  end.

Definition skuv1_Provider_GetUnknown (p : option skuv1_Provider) : res bytes := x ← deref p; Ok (skuv1_Provider_unknownFields x).

Definition skuv1_Provider_SetUnknown (p : option skuv1_Provider) (fields : bytes) : res (option skuv1_Provider) :=
  x ← deref p;
  let 'mk_skuv1_Provider uuid address payoutAddress metaHash active apiUrl _ := x in
  Ok (Some (mk_skuv1_Provider uuid address payoutAddress metaHash active apiUrl fields)).

Definition skuv1_Provider_GetUuid (p : option skuv1_Provider) : string := match p with Some x => skuv1_Provider_Uuid x | None => "" end.
Definition skuv1_Provider_GetAddress (p : option skuv1_Provider) : string := match p with Some x => skuv1_Provider_Address x | None => "" end.
Definition skuv1_Provider_GetPayoutAddress (p : option skuv1_Provider) : string := match p with Some x => skuv1_Provider_PayoutAddress x | None => "" end.
Definition skuv1_Provider_GetMetaHash (p : option skuv1_Provider) : string := match p with Some x => skuv1_Provider_MetaHash x | None => "" end.
Definition skuv1_Provider_GetActive (p : option skuv1_Provider) : bool := match p with Some x => skuv1_Provider_Active x | None => false end.
Definition skuv1_Provider_GetApiUrl (p : option skuv1_Provider) : string := match p with Some x => skuv1_Provider_ApiUrl x | None => "" end.

Definition skuv1_Provider_getters : list (string * (option skuv1_Provider → value)) :=
  [("liftedinit.sku.v1.Provider.uuid", λ p, VString (skuv1_Provider_GetUuid p));
   ("liftedinit.sku.v1.Provider.address", λ p, VString (skuv1_Provider_GetAddress p));
   ("liftedinit.sku.v1.Provider.payout_address", λ p, VString (skuv1_Provider_GetPayoutAddress p));
   ("liftedinit.sku.v1.Provider.meta_hash", λ p, VBytes (skuv1_Provider_GetMetaHash p));
   ("liftedinit.sku.v1.Provider.active", λ p, VBool (skuv1_Provider_GetActive p));
   ("liftedinit.sku.v1.Provider.api_url", λ p, VString (skuv1_Provider_GetApiUrl p))]%string.

Definition skuv1_Provider_reflected : reflected :=
  mkReflected skuv1_Provider skuv1_Provider_fields skuv1_Provider_Range skuv1_Provider_Has skuv1_Provider_Clear
    skuv1_Provider_Get skuv1_Provider_Set skuv1_Provider_Mutable skuv1_Provider_NewField skuv1_Provider_new
    skuv1_Provider_GetUnknown skuv1_Provider_SetUnknown skuv1_Provider_getters.

(** ** SKU *)

Definition skuv1_SKU_fields : list string :=
  ["liftedinit.sku.v1.SKU.uuid";
   "liftedinit.sku.v1.SKU.provider_uuid";
   "liftedinit.sku.v1.SKU.name";
   "liftedinit.sku.v1.SKU.unit";
   "liftedinit.sku.v1.SKU.base_price";
   "liftedinit.sku.v1.SKU.meta_hash";
   "liftedinit.sku.v1.SKU.active"]%string.

Definition skuv1_SKU_Range (S : Type) (p : option skuv1_SKU) (f : S → string → value → S * bool) (s : S) : res S :=
  x ← deref p;
  Ok (visit f
   [(has_string (skuv1_SKU_Uuid x), "liftedinit.sku.v1.SKU.uuid"%string, VString (skuv1_SKU_Uuid x));
    (has_string (skuv1_SKU_ProviderUuid x), "liftedinit.sku.v1.SKU.provider_uuid"%string, VString (skuv1_SKU_ProviderUuid x));
    (has_string (skuv1_SKU_Name x), "liftedinit.sku.v1.SKU.name"%string, VString (skuv1_SKU_Name x));
    (has_num (skuv1_SKU_Unit x), "liftedinit.sku.v1.SKU.unit"%string, VEnum (skuv1_SKU_Unit x));
    (not_nil (skuv1_SKU_BasePrice x), "liftedinit.sku.v1.SKU.base_price"%string, VMessage (A_api_Coin (skuv1_SKU_BasePrice x)));
    (has_bytes (skuv1_SKU_MetaHash x), "liftedinit.sku.v1.SKU.meta_hash"%string, VBytes (skuv1_SKU_MetaHash x));
    ((skuv1_SKU_Active x), "liftedinit.sku.v1.SKU.active"%string, VBool (skuv1_SKU_Active x))] s).

Definition skuv1_SKU_Has (p : option skuv1_SKU) (fd : string) : res bool :=
  x ← deref p;
  match field_number skuv1_SKU_fields fd with
  | 1 => Ok (has_string (skuv1_SKU_Uuid x))
  | 2 => Ok (has_string (skuv1_SKU_ProviderUuid x))
  | 3 => Ok (has_string (skuv1_SKU_Name x))
  | 4 => Ok (has_num (skuv1_SKU_Unit x))
  | 5 => Ok (not_nil (skuv1_SKU_BasePrice x))
  | 6 => Ok (has_bytes (skuv1_SKU_MetaHash x))
  | 7 => Ok ((skuv1_SKU_Active x))
  | _ => Panic
  end.

Definition skuv1_SKU_Clear (p : option skuv1_SKU) (fd : string) : res (option skuv1_SKU) :=
  x ← deref p;
  let 'mk_skuv1_SKU uuid providerUuid name unit basePrice metaHash active u := x in
  match field_number skuv1_SKU_fields fd with
  | 1 => Ok (Some (mk_skuv1_SKU "" providerUuid name unit basePrice metaHash active u))
  | 2 => Ok (Some (mk_skuv1_SKU uuid "" name unit basePrice metaHash active u))
  | 3 => Ok (Some (mk_skuv1_SKU uuid providerUuid "" unit basePrice metaHash active u))
  | 4 => Ok (Some (mk_skuv1_SKU uuid providerUuid name 0 basePrice metaHash active u))
  | 5 => Ok (Some (mk_skuv1_SKU uuid providerUuid name unit None metaHash active u))
  | 6 => Ok (Some (mk_skuv1_SKU uuid providerUuid name unit basePrice "" active u))
  | 7 => Ok (Some (mk_skuv1_SKU uuid providerUuid name unit basePrice metaHash false u))
  | _ => Panic
  end.

Definition skuv1_SKU_Get (p : option skuv1_SKU) (fd : string) : res value :=
  x ← deref p;
  match field_number skuv1_SKU_fields fd with
  | 1 => Ok (VString (skuv1_SKU_Uuid x))
  | 2 => Ok (VString (skuv1_SKU_ProviderUuid x))
  | 3 => Ok (VString (skuv1_SKU_Name x))
  | 4 => Ok (VEnum (skuv1_SKU_Unit x))
  | 5 => Ok (VMessage (A_api_Coin (skuv1_SKU_BasePrice x)))
  | 6 => Ok (VBytes (skuv1_SKU_MetaHash x))
  | 7 => Ok (VBool (skuv1_SKU_Active x))
  | _ => Panic
  end.

Definition skuv1_SKU_Set (p : option skuv1_SKU) (fd : string) (value : value) : res (option skuv1_SKU) :=
  x ← deref p;
  let 'mk_skuv1_SKU uuid providerUuid name unit basePrice metaHash active u := x in
  match field_number skuv1_SKU_fields fd with
  | 1 => v ← as_string value; Ok (Some (mk_skuv1_SKU v providerUuid name unit basePrice metaHash active u))
  | 2 => v ← as_string value; Ok (Some (mk_skuv1_SKU uuid v name unit basePrice metaHash active u))
  | 3 => v ← as_string value; Ok (Some (mk_skuv1_SKU uuid providerUuid v unit basePrice metaHash active u))
  | 4 => v ← as_enum value; Ok (Some (mk_skuv1_SKU uuid providerUuid name v basePrice metaHash active u))
  | 5 => v ← as_api_Coin value; Ok (Some (mk_skuv1_SKU uuid providerUuid name unit v metaHash active u))
  | 6 => v ← as_bytes value; Ok (Some (mk_skuv1_SKU uuid providerUuid name unit basePrice v active u))
  | 7 => v ← as_bool value; Ok (Some (mk_skuv1_SKU uuid providerUuid name unit basePrice metaHash v u))
  | _ => Panic
  end.

Definition skuv1_SKU_Mutable (p : option skuv1_SKU) (fd : string) : res (option skuv1_SKU * value) :=
  x ← deref p;
  let 'mk_skuv1_SKU uuid providerUuid name unit basePrice metaHash active u := x in
  match field_number skuv1_SKU_fields fd with
  | 5 => let v := match basePrice with None => Some api_Coin_new | Some _ => basePrice end in
      Ok (Some (mk_skuv1_SKU uuid providerUuid name unit v metaHash active u), VMessage (A_api_Coin v))
  | _ => Panic
  end.

Definition skuv1_SKU_NewField (fd : string) : res value :=
  match field_number skuv1_SKU_fields fd with
  | 1 => Ok (VString "")
  | 2 => Ok (VString "")
  | 3 => Ok (VString "")
  | 4 => Ok (VEnum 0)
  | 5 => Ok (VMessage (A_api_Coin (Some api_Coin_new)))
  | 6 => Ok (VBytes "")
  | 7 => Ok (VBool false)
  | _ => Panic
  end.

Definition skuv1_SKU_GetUnknown (p : option skuv1_SKU) : res bytes := x ← deref p; Ok (skuv1_SKU_unknownFields x).

Definition skuv1_SKU_SetUnknown (p : option skuv1_SKU) (fields : bytes) : res (option skuv1_SKU) :=
  x ← deref p;
  let 'mk_skuv1_SKU uuid providerUuid name unit basePrice metaHash active _ := x in
  Ok (Some (mk_skuv1_SKU uuid providerUuid name unit basePrice metaHash active fields)).

Definition skuv1_SKU_GetUuid (p : option skuv1_SKU) : string := match p with Some x => skuv1_SKU_Uuid x | None => "" end.
Definition skuv1_SKU_GetProviderUuid (p : option skuv1_SKU) : string := match p with Some x => skuv1_SKU_ProviderUuid x | None => "" end.
Definition skuv1_SKU_GetName (p : option skuv1_SKU) : string := match p with Some x => skuv1_SKU_Name x | None => "" end.
Definition skuv1_SKU_GetUnit (p : option skuv1_SKU) : Z := match p with Some x => skuv1_SKU_Unit x | None => 0 end.
Definition skuv1_SKU_GetBasePrice (p : option skuv1_SKU) : option api_Coin := match p with Some x => skuv1_SKU_BasePrice x | None => None end.
Definition skuv1_SKU_GetMetaHash (p : option skuv1_SKU) : string := match p with Some x => skuv1_SKU_MetaHash x | None => "" end.
Definition skuv1_SKU_GetActive (p : option skuv1_SKU) : bool := match p with Some x => skuv1_SKU_Active x | None => false end.

Definition skuv1_SKU_getters : list (string * (option skuv1_SKU → value)) :=
  [("liftedinit.sku.v1.SKU.uuid", λ p, VString (skuv1_SKU_GetUuid p));
   ("liftedinit.sku.v1.SKU.provider_uuid", λ p, VString (skuv1_SKU_GetProviderUuid p));
   ("liftedinit.sku.v1.SKU.name", λ p, VString (skuv1_SKU_GetName p));
   ("liftedinit.sku.v1.SKU.unit", λ p, VEnum (skuv1_SKU_GetUnit p));
   ("liftedinit.sku.v1.SKU.base_price", λ p, VMessage (A_api_Coin (skuv1_SKU_GetBasePrice p)));
   ("liftedinit.sku.v1.SKU.meta_hash", λ p, VBytes (skuv1_SKU_GetMetaHash p));
   ("liftedinit.sku.v1.SKU.active", λ p, VBool (skuv1_SKU_GetActive p))]%string.

Definition skuv1_SKU_reflected : reflected :=
  mkReflected skuv1_SKU skuv1_SKU_fields skuv1_SKU_Range skuv1_SKU_Has skuv1_SKU_Clear skuv1_SKU_Get skuv1_SKU_Set
    skuv1_SKU_Mutable skuv1_SKU_NewField skuv1_SKU_new skuv1_SKU_GetUnknown skuv1_SKU_SetUnknown skuv1_SKU_getters.

(** ** MsgCreateProvider *)

Definition skuv1_MsgCreateProvider_fields : list string :=
  ["liftedinit.sku.v1.MsgCreateProvider.authority";
   "liftedinit.sku.v1.MsgCreateProvider.address";
   "liftedinit.sku.v1.MsgCreateProvider.payout_address";
   "liftedinit.sku.v1.MsgCreateProvider.meta_hash";
   "liftedinit.sku.v1.MsgCreateProvider.api_url"]%string.

Definition skuv1_MsgCreateProvider_Range (S : Type) (p : option skuv1_MsgCreateProvider) (f : S → string → value → S * bool) (s : S) : res S :=
  x ← deref p;
  Ok (visit f
   [(has_string (skuv1_MsgCreateProvider_Authority x), "liftedinit.sku.v1.MsgCreateProvider.authority"%string, VString (skuv1_MsgCreateProvider_Authority x));
    (has_string (skuv1_MsgCreateProvider_Address x), "liftedinit.sku.v1.MsgCreateProvider.address"%string, VString (skuv1_MsgCreateProvider_Address x));
    (has_string (skuv1_MsgCreateProvider_PayoutAddress x), "liftedinit.sku.v1.MsgCreateProvider.payout_address"%string, VString (skuv1_MsgCreateProvider_PayoutAddress x));
    (has_bytes (skuv1_MsgCreateProvider_MetaHash x), "liftedinit.sku.v1.MsgCreateProvider.meta_hash"%string, VBytes (skuv1_MsgCreateProvider_MetaHash x));
    (has_string (skuv1_MsgCreateProvider_ApiUrl x), "liftedinit.sku.v1.MsgCreateProvider.api_url"%string, VString (skuv1_MsgCreateProvider_ApiUrl x))] s).

Definition skuv1_MsgCreateProvider_Has (p : option skuv1_MsgCreateProvider) (fd : string) : res bool :=
  x ← deref p;
  match field_number skuv1_MsgCreateProvider_fields fd with
  | 1 => Ok (has_string (skuv1_MsgCreateProvider_Authority x))
  | 2 => Ok (has_string (skuv1_MsgCreateProvider_Address x))
  | 3 => Ok (has_string (skuv1_MsgCreateProvider_PayoutAddress x))
  | 4 => Ok (has_bytes (skuv1_MsgCreateProvider_MetaHash x))
  | 5 => Ok (has_string (skuv1_MsgCreateProvider_ApiUrl x))
  | _ => Panic
  end.

Definition skuv1_MsgCreateProvider_Clear (p : option skuv1_MsgCreateProvider) (fd : string) : res (option skuv1_MsgCreateProvider) :=
  x ← deref p;
  let 'mk_skuv1_MsgCreateProvider authority address payoutAddress metaHash apiUrl u := x in
  match field_number skuv1_MsgCreateProvider_fields fd with
  | 1 => Ok (Some (mk_skuv1_MsgCreateProvider "" address payoutAddress metaHash apiUrl u))
  | 2 => Ok (Some (mk_skuv1_MsgCreateProvider authority "" payoutAddress metaHash apiUrl u))
  | 3 => Ok (Some (mk_skuv1_MsgCreateProvider authority address "" metaHash apiUrl u))
  | 4 => Ok (Some (mk_skuv1_MsgCreateProvider authority address payoutAddress "" apiUrl u))
  | 5 => Ok (Some (mk_skuv1_MsgCreateProvider authority address payoutAddress metaHash "" u))
  | _ => Panic
  end.

Definition skuv1_MsgCreateProvider_Get (p : option skuv1_MsgCreateProvider) (fd : string) : res value :=
  x ← deref p;
  match field_number skuv1_MsgCreateProvider_fields fd with
  | 1 => Ok (VString (skuv1_MsgCreateProvider_Authority x))
  | 2 => Ok (VString (skuv1_MsgCreateProvider_Address x))
  | 3 => Ok (VString (skuv1_MsgCreateProvider_PayoutAddress x))
  | 4 => Ok (VBytes (skuv1_MsgCreateProvider_MetaHash x))
  | 5 => Ok (VString (skuv1_MsgCreateProvider_ApiUrl x))
  | _ => Panic
  end.

Definition skuv1_MsgCreateProvider_Set (p : option skuv1_MsgCreateProvider) (fd : string) (value : value) : res (option skuv1_MsgCreateProvider) :=
  x ← deref p;
  let 'mk_skuv1_MsgCreateProvider authority address payoutAddress metaHash apiUrl u := x in
  match field_number skuv1_MsgCreateProvider_fields fd with
  | 1 => v ← as_string value; Ok (Some (mk_skuv1_MsgCreateProvider v address payoutAddress metaHash apiUrl u))
  | 2 => v ← as_string value; Ok (Some (mk_skuv1_MsgCreateProvider authority v payoutAddress metaHash apiUrl u))
  | 3 => v ← as_string value; Ok (Some (mk_skuv1_MsgCreateProvider authority address v metaHash apiUrl u))
  | 4 => v ← as_bytes value; Ok (Some (mk_skuv1_MsgCreateProvider authority address payoutAddress v apiUrl u))
  | 5 => v ← as_string value; Ok (Some (mk_skuv1_MsgCreateProvider authority address payoutAddress metaHash v u))
  | _ => Panic
  end.

Definition skuv1_MsgCreateProvider_Mutable (p : option skuv1_MsgCreateProvider) (fd : string) : res (option skuv1_MsgCreateProvider * value) := Panic.

Definition skuv1_MsgCreateProvider_NewField (fd : string) : res value :=
  match field_number skuv1_MsgCreateProvider_fields fd with
  | 1 => Ok (VString "")
  | 2 => Ok (VString "")
  | 3 => Ok (VString "")
  | 4 => Ok (VBytes "")
  | 5 => Ok (VString "")
  | _ => Panic
  end.

Definition skuv1_MsgCreateProvider_GetUnknown (p : option skuv1_MsgCreateProvider) : res bytes := x ← deref p; Ok (skuv1_MsgCreateProvider_unknownFields x).

Definition skuv1_MsgCreateProvider_SetUnknown (p : option skuv1_MsgCreateProvider) (fields : bytes) : res (option skuv1_MsgCreateProvider) :=
  x ← deref p;
  let 'mk_skuv1_MsgCreateProvider authority address payoutAddress metaHash apiUrl _ := x in
  Ok (Some (mk_skuv1_MsgCreateProvider authority address payoutAddress metaHash apiUrl fields)).

Definition skuv1_MsgCreateProvider_GetAuthority (p : option skuv1_MsgCreateProvider) : string := match p with Some x => skuv1_MsgCreateProvider_Authority x | None => "" end.
Definition skuv1_MsgCreateProvider_GetAddress (p : option skuv1_MsgCreateProvider) : string := match p with Some x => skuv1_MsgCreateProvider_Address x | None => "" end.
Definition skuv1_MsgCreateProvider_GetPayoutAddress (p : option skuv1_MsgCreateProvider) : string := match p with Some x => skuv1_MsgCreateProvider_PayoutAddress x | None => "" end.
Definition skuv1_MsgCreateProvider_GetMetaHash (p : option skuv1_MsgCreateProvider) : string := match p with Some x => skuv1_MsgCreateProvider_MetaHash x | None => "" end.
Definition skuv1_MsgCreateProvider_GetApiUrl (p : option skuv1_MsgCreateProvider) : string := match p with Some x => skuv1_MsgCreateProvider_ApiUrl x | None => "" end.

Definition skuv1_MsgCreateProvider_getters : list (string * (option skuv1_MsgCreateProvider → value)) :=
  [("liftedinit.sku.v1.MsgCreateProvider.authority", λ p, VString (skuv1_MsgCreateProvider_GetAuthority p));
   ("liftedinit.sku.v1.MsgCreateProvider.address", λ p, VString (skuv1_MsgCreateProvider_GetAddress p));
   ("liftedinit.sku.v1.MsgCreateProvider.payout_address", λ p, VString (skuv1_MsgCreateProvider_GetPayoutAddress p));
   ("liftedinit.sku.v1.MsgCreateProvider.meta_hash", λ p, VBytes (skuv1_MsgCreateProvider_GetMetaHash p));
   ("liftedinit.sku.v1.MsgCreateProvider.api_url", λ p, VString (skuv1_MsgCreateProvider_GetApiUrl p))]%string.

Definition skuv1_MsgCreateProvider_reflected : reflected :=
  mkReflected skuv1_MsgCreateProvider skuv1_MsgCreateProvider_fields skuv1_MsgCreateProvider_Range
    skuv1_MsgCreateProvider_Has skuv1_MsgCreateProvider_Clear skuv1_MsgCreateProvider_Get skuv1_MsgCreateProvider_Set
    skuv1_MsgCreateProvider_Mutable skuv1_MsgCreateProvider_NewField skuv1_MsgCreateProvider_new
    skuv1_MsgCreateProvider_GetUnknown skuv1_MsgCreateProvider_SetUnknown skuv1_MsgCreateProvider_getters.

(** ** MsgCreateProviderResponse *)

Definition skuv1_MsgCreateProviderResponse_fields : list string :=
  ["liftedinit.sku.v1.MsgCreateProviderResponse.uuid"]%string.

Definition skuv1_MsgCreateProviderResponse_Range (S : Type) (p : option skuv1_MsgCreateProviderResponse) (f : S → string → value → S * bool) (s : S) : res S :=
  x ← deref p;
  Ok (visit f
   [(has_string (skuv1_MsgCreateProviderResponse_Uuid x), "liftedinit.sku.v1.MsgCreateProviderResponse.uuid"%string, VString (skuv1_MsgCreateProviderResponse_Uuid x))] s).

Definition skuv1_MsgCreateProviderResponse_Has (p : option skuv1_MsgCreateProviderResponse) (fd : string) : res bool :=
  x ← deref p;
  match field_number skuv1_MsgCreateProviderResponse_fields fd with
  | 1 => Ok (has_string (skuv1_MsgCreateProviderResponse_Uuid x))
  | _ => Panic
  end.

Definition skuv1_MsgCreateProviderResponse_Clear (p : option skuv1_MsgCreateProviderResponse) (fd : string) : res (option skuv1_MsgCreateProviderResponse) :=
  x ← deref p;
  let 'mk_skuv1_MsgCreateProviderResponse uuid u := x in
  match field_number skuv1_MsgCreateProviderResponse_fields fd with
  | 1 => Ok (Some (mk_skuv1_MsgCreateProviderResponse "" u))
  | _ => Panic
  end.

Definition skuv1_MsgCreateProviderResponse_Get (p : option skuv1_MsgCreateProviderResponse) (fd : string) : res value :=
  x ← deref p;
  match field_number skuv1_MsgCreateProviderResponse_fields fd with
  | 1 => Ok (VString (skuv1_MsgCreateProviderResponse_Uuid x))
  | _ => Panic
  end.

Definition skuv1_MsgCreateProviderResponse_Set (p : option skuv1_MsgCreateProviderResponse) (fd : string) (value : value) : res (option skuv1_MsgCreateProviderResponse) :=
  x ← deref p;
  let 'mk_skuv1_MsgCreateProviderResponse uuid u := x in
  match field_number skuv1_MsgCreateProviderResponse_fields fd with
  | 1 => v ← as_string value; Ok (Some (mk_skuv1_MsgCreateProviderResponse v u))
  | _ => Panic
  end.

Definition skuv1_MsgCreateProviderResponse_Mutable (p : option skuv1_MsgCreateProviderResponse) (fd : string) : res (option skuv1_MsgCreateProviderResponse * value) := Panic.

Definition skuv1_MsgCreateProviderResponse_NewField (fd : string) : res value :=
  match field_number skuv1_MsgCreateProviderResponse_fields fd with
  | 1 => Ok (VString "")
  | _ => Panic
  end.

Definition skuv1_MsgCreateProviderResponse_GetUnknown (p : option skuv1_MsgCreateProviderResponse) : res bytes := x ← deref p; Ok (skuv1_MsgCreateProviderResponse_unknownFields x).

Definition skuv1_MsgCreateProviderResponse_SetUnknown (p : option skuv1_MsgCreateProviderResponse) (fields : bytes) : res (option skuv1_MsgCreateProviderResponse) :=
  x ← deref p;
  let 'mk_skuv1_MsgCreateProviderResponse uuid _ := x in
  Ok (Some (mk_skuv1_MsgCreateProviderResponse uuid fields)).

Definition skuv1_MsgCreateProviderResponse_GetUuid (p : option skuv1_MsgCreateProviderResponse) : string := match p with Some x => skuv1_MsgCreateProviderResponse_Uuid x | None => "" end.

Definition skuv1_MsgCreateProviderResponse_getters : list (string * (option skuv1_MsgCreateProviderResponse → value)) :=
  [("liftedinit.sku.v1.MsgCreateProviderResponse.uuid", λ p, VString (skuv1_MsgCreateProviderResponse_GetUuid p))]%string.

Definition skuv1_MsgCreateProviderResponse_reflected : reflected :=
  mkReflected skuv1_MsgCreateProviderResponse skuv1_MsgCreateProviderResponse_fields
    skuv1_MsgCreateProviderResponse_Range skuv1_MsgCreateProviderResponse_Has skuv1_MsgCreateProviderResponse_Clear
    skuv1_MsgCreateProviderResponse_Get skuv1_MsgCreateProviderResponse_Set skuv1_MsgCreateProviderResponse_Mutable
    skuv1_MsgCreateProviderResponse_NewField skuv1_MsgCreateProviderResponse_new
    skuv1_MsgCreateProviderResponse_GetUnknown skuv1_MsgCreateProviderResponse_SetUnknown
    skuv1_MsgCreateProviderResponse_getters.

(** ** MsgUpdateProvider *)

Definition skuv1_MsgUpdateProvider_fields : list string :=
  ["liftedinit.sku.v1.MsgUpdateProvider.authority";
   "liftedinit.sku.v1.MsgUpdateProvider.uuid";
   "liftedinit.sku.v1.MsgUpdateProvider.address";
   "liftedinit.sku.v1.MsgUpdateProvider.payout_address";
   "liftedinit.sku.v1.MsgUpdateProvider.meta_hash";
   "liftedinit.sku.v1.MsgUpdateProvider.active";
   "liftedinit.sku.v1.MsgUpdateProvider.api_url"]%string.

Definition skuv1_MsgUpdateProvider_Range (S : Type) (p : option skuv1_MsgUpdateProvider) (f : S → string → value → S * bool) (s : S) : res S :=
  x ← deref p;
  Ok (visit f
   [(has_string (skuv1_MsgUpdateProvider_Authority x), "liftedinit.sku.v1.MsgUpdateProvider.authority"%string, VString (skuv1_MsgUpdateProvider_Authority x));
    (has_string (skuv1_MsgUpdateProvider_Uuid x), "liftedinit.sku.v1.MsgUpdateProvider.uuid"%string, VString (skuv1_MsgUpdateProvider_Uuid x));
    (has_string (skuv1_MsgUpdateProvider_Address x), "liftedinit.sku.v1.MsgUpdateProvider.address"%string, VString (skuv1_MsgUpdateProvider_Address x));
    (has_string (skuv1_MsgUpdateProvider_PayoutAddress x), "liftedinit.sku.v1.MsgUpdateProvider.payout_address"%string, VString (skuv1_MsgUpdateProvider_PayoutAddress x));
    (has_bytes (skuv1_MsgUpdateProvider_MetaHash x), "liftedinit.sku.v1.MsgUpdateProvider.meta_hash"%string, VBytes (skuv1_MsgUpdateProvider_MetaHash x));
    ((skuv1_MsgUpdateProvider_Active x), "liftedinit.sku.v1.MsgUpdateProvider.active"%string, VBool (skuv1_MsgUpdateProvider_Active x));
    (has_string (skuv1_MsgUpdateProvider_ApiUrl x), "liftedinit.sku.v1.MsgUpdateProvider.api_url"%string, VString (skuv1_MsgUpdateProvider_ApiUrl x))] s).

Definition skuv1_MsgUpdateProvider_Has (p : option skuv1_MsgUpdateProvider) (fd : string) : res bool :=
  x ← deref p;
  match field_number skuv1_MsgUpdateProvider_fields fd with
  | 1 => Ok (has_string (skuv1_MsgUpdateProvider_Authority x))
  | 2 => Ok (has_string (skuv1_MsgUpdateProvider_Uuid x))
  | 3 => Ok (has_string (skuv1_MsgUpdateProvider_Address x))
  | 4 => Ok (has_string (skuv1_MsgUpdateProvider_PayoutAddress x))
  | 5 => Ok (has_bytes (skuv1_MsgUpdateProvider_MetaHash x))
  | 6 => Ok ((skuv1_MsgUpdateProvider_Active x))
  | 7 => Ok (has_string (skuv1_MsgUpdateProvider_ApiUrl x))
  | _ => Panic
  end.

Definition skuv1_MsgUpdateProvider_Clear (p : option skuv1_MsgUpdateProvider) (fd : string) : res (option skuv1_MsgUpdateProvider) :=
  x ← deref p;
  let 'mk_skuv1_MsgUpdateProvider authority uuid address payoutAddress metaHash active apiUrl u := x in
  match field_number skuv1_MsgUpdateProvider_fields fd with
  | 1 => Ok (Some (mk_skuv1_MsgUpdateProvider "" uuid address payoutAddress metaHash active apiUrl u))
  | 2 => Ok (Some (mk_skuv1_MsgUpdateProvider authority "" address payoutAddress metaHash active apiUrl u))
  | 3 => Ok (Some (mk_skuv1_MsgUpdateProvider authority uuid "" payoutAddress metaHash active apiUrl u))
  | 4 => Ok (Some (mk_skuv1_MsgUpdateProvider authority uuid address "" metaHash active apiUrl u))
  | 5 => Ok (Some (mk_skuv1_MsgUpdateProvider authority uuid address payoutAddress "" active apiUrl u))
  | 6 => Ok (Some (mk_skuv1_MsgUpdateProvider authority uuid address payoutAddress metaHash false apiUrl u))
  | 7 => Ok (Some (mk_skuv1_MsgUpdateProvider authority uuid address payoutAddress metaHash active "" u))
  | _ => Panic
  end.

Definition skuv1_MsgUpdateProvider_Get (p : option skuv1_MsgUpdateProvider) (fd : string) : res value :=
  x ← deref p;
  match field_number skuv1_MsgUpdateProvider_fields fd with
  | 1 => Ok (VString (skuv1_MsgUpdateProvider_Authority x))
  | 2 => Ok (VString (skuv1_MsgUpdateProvider_Uuid x))
  | 3 => Ok (VString (skuv1_MsgUpdateProvider_Address x))
  | 4 => Ok (VString (skuv1_MsgUpdateProvider_PayoutAddress x))
  | 5 => Ok (VBytes (skuv1_MsgUpdateProvider_MetaHash x))
  | 6 => Ok (VBool (skuv1_MsgUpdateProvider_Active x))
  | 7 => Ok (VString (skuv1_MsgUpdateProvider_ApiUrl x))
  | _ => Panic
  end.

Definition skuv1_MsgUpdateProvider_Set (p : option skuv1_MsgUpdateProvider) (fd : string) (value : value) : res (option skuv1_MsgUpdateProvider) :=
  x ← deref p;
  let 'mk_skuv1_MsgUpdateProvider authority uuid address payoutAddress metaHash active apiUrl u := x in
  match field_number skuv1_MsgUpdateProvider_fields fd with
  | 1 => v ← as_string value; Ok (Some (mk_skuv1_MsgUpdateProvider v uuid address payoutAddress metaHash active apiUrl u))
  | 2 => v ← as_string value; Ok (Some (mk_skuv1_MsgUpdateProvider authority v address payoutAddress metaHash active apiUrl u))
  | 3 => v ← as_string value; Ok (Some (mk_skuv1_MsgUpdateProvider authority uuid v payoutAddress metaHash active apiUrl u))
  | 4 => v ← as_string value; Ok (Some (mk_skuv1_MsgUpdateProvider authority uuid address v metaHash active apiUrl u))
  | 5 => v ← as_bytes value; Ok (Some (mk_skuv1_MsgUpdateProvider authority uuid address payoutAddress v active apiUrl u))
  | 6 => v ← as_bool value; Ok (Some (mk_skuv1_MsgUpdateProvider authority uuid address payoutAddress metaHash v apiUrl u))
  | 7 => v ← as_string value; Ok (Some (mk_skuv1_MsgUpdateProvider authority uuid address payoutAddress metaHash active v u))
  | _ => Panic
  end.

Definition skuv1_MsgUpdateProvider_Mutable (p : option skuv1_MsgUpdateProvider) (fd : string) : res (option skuv1_MsgUpdateProvider * value) := Panic.

Definition skuv1_MsgUpdateProvider_NewField (fd : string) : res value :=
  match field_number skuv1_MsgUpdateProvider_fields fd with
  | 1 => Ok (VString "")
  | 2 => Ok (VString "")
  | 3 => Ok (VString "")
  | 4 => Ok (VString "")
  | 5 => Ok (VBytes "")
  | 6 => Ok (VBool false)
  | 7 => Ok (VString "")
  | _ => Panic
  end.

Definition skuv1_MsgUpdateProvider_GetUnknown (p : option skuv1_MsgUpdateProvider) : res bytes := x ← deref p; Ok (skuv1_MsgUpdateProvider_unknownFields x).

Definition skuv1_MsgUpdateProvider_SetUnknown (p : option skuv1_MsgUpdateProvider) (fields : bytes) : res (option skuv1_MsgUpdateProvider) :=
  x ← deref p;
  let 'mk_skuv1_MsgUpdateProvider authority uuid address payoutAddress metaHash active apiUrl _ := x in
  Ok (Some (mk_skuv1_MsgUpdateProvider authority uuid address payoutAddress metaHash active apiUrl fields)).

Definition skuv1_MsgUpdateProvider_GetAuthority (p : option skuv1_MsgUpdateProvider) : string := match p with Some x => skuv1_MsgUpdateProvider_Authority x | None => "" end.
Definition skuv1_MsgUpdateProvider_GetUuid (p : option skuv1_MsgUpdateProvider) : string := match p with Some x => skuv1_MsgUpdateProvider_Uuid x | None => "" end.
Definition skuv1_MsgUpdateProvider_GetAddress (p : option skuv1_MsgUpdateProvider) : string := match p with Some x => skuv1_MsgUpdateProvider_Address x | None => "" end.
Definition skuv1_MsgUpdateProvider_GetPayoutAddress (p : option skuv1_MsgUpdateProvider) : string := match p with Some x => skuv1_MsgUpdateProvider_PayoutAddress x | None => "" end.
Definition skuv1_MsgUpdateProvider_GetMetaHash (p : option skuv1_MsgUpdateProvider) : string := match p with Some x => skuv1_MsgUpdateProvider_MetaHash x | None => "" end.
Definition skuv1_MsgUpdateProvider_GetActive (p : option skuv1_MsgUpdateProvider) : bool := match p with Some x => skuv1_MsgUpdateProvider_Active x | None => false end.
Definition skuv1_MsgUpdateProvider_GetApiUrl (p : option skuv1_MsgUpdateProvider) : string := match p with Some x => skuv1_MsgUpdateProvider_ApiUrl x | None => "" end.

Definition skuv1_MsgUpdateProvider_getters : list (string * (option skuv1_MsgUpdateProvider → value)) :=
  [("liftedinit.sku.v1.MsgUpdateProvider.authority", λ p, VString (skuv1_MsgUpdateProvider_GetAuthority p));
   ("liftedinit.sku.v1.MsgUpdateProvider.uuid", λ p, VString (skuv1_MsgUpdateProvider_GetUuid p));
   ("liftedinit.sku.v1.MsgUpdateProvider.address", λ p, VString (skuv1_MsgUpdateProvider_GetAddress p));
   ("liftedinit.sku.v1.MsgUpdateProvider.payout_address", λ p, VString (skuv1_MsgUpdateProvider_GetPayoutAddress p));
   ("liftedinit.sku.v1.MsgUpdateProvider.meta_hash", λ p, VBytes (skuv1_MsgUpdateProvider_GetMetaHash p));
   ("liftedinit.sku.v1.MsgUpdateProvider.active", λ p, VBool (skuv1_MsgUpdateProvider_GetActive p));
   ("liftedinit.sku.v1.MsgUpdateProvider.api_url", λ p, VString (skuv1_MsgUpdateProvider_GetApiUrl p))]%string.

Definition skuv1_MsgUpdateProvider_reflected : reflected :=
  mkReflected skuv1_MsgUpdateProvider skuv1_MsgUpdateProvider_fields skuv1_MsgUpdateProvider_Range
    skuv1_MsgUpdateProvider_Has skuv1_MsgUpdateProvider_Clear skuv1_MsgUpdateProvider_Get skuv1_MsgUpdateProvider_Set
    skuv1_MsgUpdateProvider_Mutable skuv1_MsgUpdateProvider_NewField skuv1_MsgUpdateProvider_new
    skuv1_MsgUpdateProvider_GetUnknown skuv1_MsgUpdateProvider_SetUnknown skuv1_MsgUpdateProvider_getters.

(** ** MsgUpdateProviderResponse *)

Definition skuv1_MsgUpdateProviderResponse_fields : list string :=
  []%string.

Definition skuv1_MsgUpdateProviderResponse_Range (S : Type) (p : option skuv1_MsgUpdateProviderResponse) (f : S → string → value → S * bool) (s : S) : res S :=
  Ok (visit f [] s).

Definition skuv1_MsgUpdateProviderResponse_Has (p : option skuv1_MsgUpdateProviderResponse) (fd : string) : res bool := Panic.

Definition skuv1_MsgUpdateProviderResponse_Clear (p : option skuv1_MsgUpdateProviderResponse) (fd : string) : res (option skuv1_MsgUpdateProviderResponse) := Panic.

Definition skuv1_MsgUpdateProviderResponse_Get (p : option skuv1_MsgUpdateProviderResponse) (fd : string) : res value := Panic.

Definition skuv1_MsgUpdateProviderResponse_Set (p : option skuv1_MsgUpdateProviderResponse) (fd : string) (value : value) : res (option skuv1_MsgUpdateProviderResponse) := Panic.

Definition skuv1_MsgUpdateProviderResponse_Mutable (p : option skuv1_MsgUpdateProviderResponse) (fd : string) : res (option skuv1_MsgUpdateProviderResponse * value) := Panic.

Definition skuv1_MsgUpdateProviderResponse_NewField (fd : string) : res value := Panic.

Definition skuv1_MsgUpdateProviderResponse_GetUnknown (p : option skuv1_MsgUpdateProviderResponse) : res bytes := x ← deref p; Ok (skuv1_MsgUpdateProviderResponse_unknownFields x).

Definition skuv1_MsgUpdateProviderResponse_SetUnknown (p : option skuv1_MsgUpdateProviderResponse) (fields : bytes) : res (option skuv1_MsgUpdateProviderResponse) :=
  x ← deref p;
  let 'mk_skuv1_MsgUpdateProviderResponse _ := x in
  Ok (Some (mk_skuv1_MsgUpdateProviderResponse fields)).

Definition skuv1_MsgUpdateProviderResponse_getters : list (string * (option skuv1_MsgUpdateProviderResponse → value)) :=
  []%string.

Definition skuv1_MsgUpdateProviderResponse_reflected : reflected :=
  mkReflected skuv1_MsgUpdateProviderResponse skuv1_MsgUpdateProviderResponse_fields
    skuv1_MsgUpdateProviderResponse_Range skuv1_MsgUpdateProviderResponse_Has skuv1_MsgUpdateProviderResponse_Clear
    skuv1_MsgUpdateProviderResponse_Get skuv1_MsgUpdateProviderResponse_Set skuv1_MsgUpdateProviderResponse_Mutable
    skuv1_MsgUpdateProviderResponse_NewField skuv1_MsgUpdateProviderResponse_new
    skuv1_MsgUpdateProviderResponse_GetUnknown skuv1_MsgUpdateProviderResponse_SetUnknown
    skuv1_MsgUpdateProviderResponse_getters.

(** ** MsgDeactivateProvider *)

Definition skuv1_MsgDeactivateProvider_fields : list string :=
  ["liftedinit.sku.v1.MsgDeactivateProvider.authority";
   "liftedinit.sku.v1.MsgDeactivateProvider.uuid";
   "liftedinit.sku.v1.MsgDeactivateProvider.limit"]%string.

Definition skuv1_MsgDeactivateProvider_Range (S : Type) (p : option skuv1_MsgDeactivateProvider) (f : S → string → value → S * bool) (s : S) : res S :=
  x ← deref p;
  Ok (visit f
   [(has_string (skuv1_MsgDeactivateProvider_Authority x), "liftedinit.sku.v1.MsgDeactivateProvider.authority"%string, VString (skuv1_MsgDeactivateProvider_Authority x));
    (has_string (skuv1_MsgDeactivateProvider_Uuid x), "liftedinit.sku.v1.MsgDeactivateProvider.uuid"%string, VString (skuv1_MsgDeactivateProvider_Uuid x));
    (has_num (skuv1_MsgDeactivateProvider_Limit x), "liftedinit.sku.v1.MsgDeactivateProvider.limit"%string, VUint64 (skuv1_MsgDeactivateProvider_Limit x))] s).

Definition skuv1_MsgDeactivateProvider_Has (p : option skuv1_MsgDeactivateProvider) (fd : string) : res bool :=
  x ← deref p;
  match field_number skuv1_MsgDeactivateProvider_fields fd with
  | 1 => Ok (has_string (skuv1_MsgDeactivateProvider_Authority x))
  | 2 => Ok (has_string (skuv1_MsgDeactivateProvider_Uuid x))
  | 3 => Ok (has_num (skuv1_MsgDeactivateProvider_Limit x))
  | _ => Panic
  end.

Definition skuv1_MsgDeactivateProvider_Clear (p : option skuv1_MsgDeactivateProvider) (fd : string) : res (option skuv1_MsgDeactivateProvider) :=
  x ← deref p;
  let 'mk_skuv1_MsgDeactivateProvider authority uuid limit u := x in
  match field_number skuv1_MsgDeactivateProvider_fields fd with
  | 1 => Ok (Some (mk_skuv1_MsgDeactivateProvider "" uuid limit u))
  | 2 => Ok (Some (mk_skuv1_MsgDeactivateProvider authority "" limit u))
  | 3 => Ok (Some (mk_skuv1_MsgDeactivateProvider authority uuid 0 u))
  | _ => Panic
  end.

Definition skuv1_MsgDeactivateProvider_Get (p : option skuv1_MsgDeactivateProvider) (fd : string) : res value :=
  x ← deref p;
  match field_number skuv1_MsgDeactivateProvider_fields fd with
  | 1 => Ok (VString (skuv1_MsgDeactivateProvider_Authority x))
  | 2 => Ok (VString (skuv1_MsgDeactivateProvider_Uuid x))
  | 3 => Ok (VUint64 (skuv1_MsgDeactivateProvider_Limit x))
  | _ => Panic
  end.

Definition skuv1_MsgDeactivateProvider_Set (p : option skuv1_MsgDeactivateProvider) (fd : string) (value : value) : res (option skuv1_MsgDeactivateProvider) :=
  x ← deref p;
  let 'mk_skuv1_MsgDeactivateProvider authority uuid limit u := x in
  match field_number skuv1_MsgDeactivateProvider_fields fd with
  | 1 => v ← as_string value; Ok (Some (mk_skuv1_MsgDeactivateProvider v uuid limit u))
  | 2 => v ← as_string value; Ok (Some (mk_skuv1_MsgDeactivateProvider authority v limit u))
  | 3 => v ← as_uint value; Ok (Some (mk_skuv1_MsgDeactivateProvider authority uuid v u))
  | _ => Panic
  end.

Definition skuv1_MsgDeactivateProvider_Mutable (p : option skuv1_MsgDeactivateProvider) (fd : string) : res (option skuv1_MsgDeactivateProvider * value) := Panic.

Definition skuv1_MsgDeactivateProvider_NewField (fd : string) : res value :=
  match field_number skuv1_MsgDeactivateProvider_fields fd with
  | 1 => Ok (VString "")
  | 2 => Ok (VString "")
  | 3 => Ok (VUint64 0)
  | _ => Panic
  end.

Definition skuv1_MsgDeactivateProvider_GetUnknown (p : option skuv1_MsgDeactivateProvider) : res bytes := x ← deref p; Ok (skuv1_MsgDeactivateProvider_unknownFields x).

Definition skuv1_MsgDeactivateProvider_SetUnknown (p : option skuv1_MsgDeactivateProvider) (fields : bytes) : res (option skuv1_MsgDeactivateProvider) :=
  x ← deref p;
  let 'mk_skuv1_MsgDeactivateProvider authority uuid limit _ := x in
  Ok (Some (mk_skuv1_MsgDeactivateProvider authority uuid limit fields)).

Definition skuv1_MsgDeactivateProvider_GetAuthority (p : option skuv1_MsgDeactivateProvider) : string := match p with Some x => skuv1_MsgDeactivateProvider_Authority x | None => "" end.
Definition skuv1_MsgDeactivateProvider_GetUuid (p : option skuv1_MsgDeactivateProvider) : string := match p with Some x => skuv1_MsgDeactivateProvider_Uuid x | None => "" end.
Definition skuv1_MsgDeactivateProvider_GetLimit (p : option skuv1_MsgDeactivateProvider) : Z := match p with Some x => skuv1_MsgDeactivateProvider_Limit x | None => 0 end.

Definition skuv1_MsgDeactivateProvider_getters : list (string * (option skuv1_MsgDeactivateProvider → value)) :=
  [("liftedinit.sku.v1.MsgDeactivateProvider.authority", λ p, VString (skuv1_MsgDeactivateProvider_GetAuthority p));
   ("liftedinit.sku.v1.MsgDeactivateProvider.uuid", λ p, VString (skuv1_MsgDeactivateProvider_GetUuid p));
   ("liftedinit.sku.v1.MsgDeactivateProvider.limit", λ p, VUint64 (skuv1_MsgDeactivateProvider_GetLimit p))]%string.

Definition skuv1_MsgDeactivateProvider_reflected : reflected :=
  mkReflected skuv1_MsgDeactivateProvider skuv1_MsgDeactivateProvider_fields skuv1_MsgDeactivateProvider_Range
    skuv1_MsgDeactivateProvider_Has skuv1_MsgDeactivateProvider_Clear skuv1_MsgDeactivateProvider_Get
    skuv1_MsgDeactivateProvider_Set skuv1_MsgDeactivateProvider_Mutable skuv1_MsgDeactivateProvider_NewField
    skuv1_MsgDeactivateProvider_new skuv1_MsgDeactivateProvider_GetUnknown skuv1_MsgDeactivateProvider_SetUnknown
    skuv1_MsgDeactivateProvider_getters.

(** ** MsgDeactivateProviderResponse *)

Definition skuv1_MsgDeactivateProviderResponse_fields : list string :=
  ["liftedinit.sku.v1.MsgDeactivateProviderResponse.deactivated_sku_count";
   "liftedinit.sku.v1.MsgDeactivateProviderResponse.has_more"]%string.

Definition skuv1_MsgDeactivateProviderResponse_Range (S : Type) (p : option skuv1_MsgDeactivateProviderResponse) (f : S → string → value → S * bool) (s : S) : res S :=
  x ← deref p;
  Ok (visit f
   [(has_num (skuv1_MsgDeactivateProviderResponse_DeactivatedSkuCount x), "liftedinit.sku.v1.MsgDeactivateProviderResponse.deactivated_sku_count"%string, VUint64 (skuv1_MsgDeactivateProviderResponse_DeactivatedSkuCount x));
    ((skuv1_MsgDeactivateProviderResponse_HasMore x), "liftedinit.sku.v1.MsgDeactivateProviderResponse.has_more"%string, VBool (skuv1_MsgDeactivateProviderResponse_HasMore x))] s).

Definition skuv1_MsgDeactivateProviderResponse_Has (p : option skuv1_MsgDeactivateProviderResponse) (fd : string) : res bool :=
  x ← deref p;
  match field_number skuv1_MsgDeactivateProviderResponse_fields fd with
  | 1 => Ok (has_num (skuv1_MsgDeactivateProviderResponse_DeactivatedSkuCount x))
  | 2 => Ok ((skuv1_MsgDeactivateProviderResponse_HasMore x))
  | _ => Panic
  end.

Definition skuv1_MsgDeactivateProviderResponse_Clear (p : option skuv1_MsgDeactivateProviderResponse) (fd : string) : res (option skuv1_MsgDeactivateProviderResponse) :=
  x ← deref p;
  let 'mk_skuv1_MsgDeactivateProviderResponse deactivatedSkuCount hasMore u := x in
  match field_number skuv1_MsgDeactivateProviderResponse_fields fd with
  | 1 => Ok (Some (mk_skuv1_MsgDeactivateProviderResponse 0 hasMore u))
  | 2 => Ok (Some (mk_skuv1_MsgDeactivateProviderResponse deactivatedSkuCount false u))
  | _ => Panic
  end.

Definition skuv1_MsgDeactivateProviderResponse_Get (p : option skuv1_MsgDeactivateProviderResponse) (fd : string) : res value :=
  x ← deref p;
  match field_number skuv1_MsgDeactivateProviderResponse_fields fd with
  | 1 => Ok (VUint64 (skuv1_MsgDeactivateProviderResponse_DeactivatedSkuCount x))
  | 2 => Ok (VBool (skuv1_MsgDeactivateProviderResponse_HasMore x))
  | _ => Panic
  end.

Definition skuv1_MsgDeactivateProviderResponse_Set (p : option skuv1_MsgDeactivateProviderResponse) (fd : string) (value : value) : res (option skuv1_MsgDeactivateProviderResponse) :=
  x ← deref p;
  let 'mk_skuv1_MsgDeactivateProviderResponse deactivatedSkuCount hasMore u := x in
  match field_number skuv1_MsgDeactivateProviderResponse_fields fd with
  | 1 => v ← as_uint value; Ok (Some (mk_skuv1_MsgDeactivateProviderResponse v hasMore u))
  | 2 => v ← as_bool value; Ok (Some (mk_skuv1_MsgDeactivateProviderResponse deactivatedSkuCount v u))
  | _ => Panic
  end.

Definition skuv1_MsgDeactivateProviderResponse_Mutable (p : option skuv1_MsgDeactivateProviderResponse) (fd : string) : res (option skuv1_MsgDeactivateProviderResponse * value) := Panic.

Definition skuv1_MsgDeactivateProviderResponse_NewField (fd : string) : res value :=
  match field_number skuv1_MsgDeactivateProviderResponse_fields fd with
  | 1 => Ok (VUint64 0)
  | 2 => Ok (VBool false)
  | _ => Panic
  end.

Definition skuv1_MsgDeactivateProviderResponse_GetUnknown (p : option skuv1_MsgDeactivateProviderResponse) : res bytes := x ← deref p; Ok (skuv1_MsgDeactivateProviderResponse_unknownFields x).

Definition skuv1_MsgDeactivateProviderResponse_SetUnknown (p : option skuv1_MsgDeactivateProviderResponse) (fields : bytes) : res (option skuv1_MsgDeactivateProviderResponse) :=
  x ← deref p;
  let 'mk_skuv1_MsgDeactivateProviderResponse deactivatedSkuCount hasMore _ := x in
  Ok (Some (mk_skuv1_MsgDeactivateProviderResponse deactivatedSkuCount hasMore fields)).

Definition skuv1_MsgDeactivateProviderResponse_GetDeactivatedSkuCount (p : option skuv1_MsgDeactivateProviderResponse) : Z := match p with Some x => skuv1_MsgDeactivateProviderResponse_DeactivatedSkuCount x | None => 0 end.
Definition skuv1_MsgDeactivateProviderResponse_GetHasMore (p : option skuv1_MsgDeactivateProviderResponse) : bool := match p with Some x => skuv1_MsgDeactivateProviderResponse_HasMore x | None => false end.

Definition skuv1_MsgDeactivateProviderResponse_getters : list (string * (option skuv1_MsgDeactivateProviderResponse → value)) :=
  [("liftedinit.sku.v1.MsgDeactivateProviderResponse.deactivated_sku_count", λ p, VUint64 (skuv1_MsgDeactivateProviderResponse_GetDeactivatedSkuCount p));
   ("liftedinit.sku.v1.MsgDeactivateProviderResponse.has_more", λ p, VBool (skuv1_MsgDeactivateProviderResponse_GetHasMore p))]%string.

Definition skuv1_MsgDeactivateProviderResponse_reflected : reflected :=
  mkReflected skuv1_MsgDeactivateProviderResponse skuv1_MsgDeactivateProviderResponse_fields
    skuv1_MsgDeactivateProviderResponse_Range skuv1_MsgDeactivateProviderResponse_Has
    skuv1_MsgDeactivateProviderResponse_Clear skuv1_MsgDeactivateProviderResponse_Get
    skuv1_MsgDeactivateProviderResponse_Set skuv1_MsgDeactivateProviderResponse_Mutable
    skuv1_MsgDeactivateProviderResponse_NewField skuv1_MsgDeactivateProviderResponse_new
    skuv1_MsgDeactivateProviderResponse_GetUnknown skuv1_MsgDeactivateProviderResponse_SetUnknown
    skuv1_MsgDeactivateProviderResponse_getters.

(** ** MsgCreateSKU *)

Definition skuv1_MsgCreateSKU_fields : list string :=
  ["liftedinit.sku.v1.MsgCreateSKU.authority";
   "liftedinit.sku.v1.MsgCreateSKU.provider_uuid";
   "liftedinit.sku.v1.MsgCreateSKU.name";
   "liftedinit.sku.v1.MsgCreateSKU.unit";
   "liftedinit.sku.v1.MsgCreateSKU.base_price";
   "liftedinit.sku.v1.MsgCreateSKU.meta_hash"]%string.

Definition skuv1_MsgCreateSKU_Range (S : Type) (p : option skuv1_MsgCreateSKU) (f : S → string → value → S * bool) (s : S) : res S :=
  x ← deref p;
  Ok (visit f
   [(has_string (skuv1_MsgCreateSKU_Authority x), "liftedinit.sku.v1.MsgCreateSKU.authority"%string, VString (skuv1_MsgCreateSKU_Authority x));
    (has_string (skuv1_MsgCreateSKU_ProviderUuid x), "liftedinit.sku.v1.MsgCreateSKU.provider_uuid"%string, VString (skuv1_MsgCreateSKU_ProviderUuid x));
    (has_string (skuv1_MsgCreateSKU_Name x), "liftedinit.sku.v1.MsgCreateSKU.name"%string, VString (skuv1_MsgCreateSKU_Name x));
    (has_num (skuv1_MsgCreateSKU_Unit x), "liftedinit.sku.v1.MsgCreateSKU.unit"%string, VEnum (skuv1_MsgCreateSKU_Unit x));
    (not_nil (skuv1_MsgCreateSKU_BasePrice x), "liftedinit.sku.v1.MsgCreateSKU.base_price"%string, VMessage (A_api_Coin (skuv1_MsgCreateSKU_BasePrice x)));
    (has_bytes (skuv1_MsgCreateSKU_MetaHash x), "liftedinit.sku.v1.MsgCreateSKU.meta_hash"%string, VBytes (skuv1_MsgCreateSKU_MetaHash x))] s).

Definition skuv1_MsgCreateSKU_Has (p : option skuv1_MsgCreateSKU) (fd : string) : res bool :=
  x ← deref p;
  match field_number skuv1_MsgCreateSKU_fields fd with
  | 1 => Ok (has_string (skuv1_MsgCreateSKU_Authority x))
  | 2 => Ok (has_string (skuv1_MsgCreateSKU_ProviderUuid x))
  | 3 => Ok (has_string (skuv1_MsgCreateSKU_Name x))
  | 4 => Ok (has_num (skuv1_MsgCreateSKU_Unit x))
  | 5 => Ok (not_nil (skuv1_MsgCreateSKU_BasePrice x))
  | 6 => Ok (has_bytes (skuv1_MsgCreateSKU_MetaHash x))
  | _ => Panic
  end.

Definition skuv1_MsgCreateSKU_Clear (p : option skuv1_MsgCreateSKU) (fd : string) : res (option skuv1_MsgCreateSKU) :=
  x ← deref p;
  let 'mk_skuv1_MsgCreateSKU authority providerUuid name unit basePrice metaHash u := x in
  match field_number skuv1_MsgCreateSKU_fields fd with
  | 1 => Ok (Some (mk_skuv1_MsgCreateSKU "" providerUuid name unit basePrice metaHash u))
  | 2 => Ok (Some (mk_skuv1_MsgCreateSKU authority "" name unit basePrice metaHash u))
  | 3 => Ok (Some (mk_skuv1_MsgCreateSKU authority providerUuid "" unit basePrice metaHash u))
  | 4 => Ok (Some (mk_skuv1_MsgCreateSKU authority providerUuid name 0 basePrice metaHash u))
  | 5 => Ok (Some (mk_skuv1_MsgCreateSKU authority providerUuid name unit None metaHash u))
  | 6 => Ok (Some (mk_skuv1_MsgCreateSKU authority providerUuid name unit basePrice "" u))
  | _ => Panic
  end.

Definition skuv1_MsgCreateSKU_Get (p : option skuv1_MsgCreateSKU) (fd : string) : res value :=
  x ← deref p;
  match field_number skuv1_MsgCreateSKU_fields fd with
  | 1 => Ok (VString (skuv1_MsgCreateSKU_Authority x))
  | 2 => Ok (VString (skuv1_MsgCreateSKU_ProviderUuid x))
  | 3 => Ok (VString (skuv1_MsgCreateSKU_Name x))
  | 4 => Ok (VEnum (skuv1_MsgCreateSKU_Unit x))
  | 5 => Ok (VMessage (A_api_Coin (skuv1_MsgCreateSKU_BasePrice x)))
  | 6 => Ok (VBytes (skuv1_MsgCreateSKU_MetaHash x))
  | _ => Panic
  end.

Definition skuv1_MsgCreateSKU_Set (p : option skuv1_MsgCreateSKU) (fd : string) (value : value) : res (option skuv1_MsgCreateSKU) :=
  x ← deref p;
  let 'mk_skuv1_MsgCreateSKU authority providerUuid name unit basePrice metaHash u := x in
  match field_number skuv1_MsgCreateSKU_fields fd with
  | 1 => v ← as_string value; Ok (Some (mk_skuv1_MsgCreateSKU v providerUuid name unit basePrice metaHash u))
  | 2 => v ← as_string value; Ok (Some (mk_skuv1_MsgCreateSKU authority v name unit basePrice metaHash u))
  | 3 => v ← as_string value; Ok (Some (mk_skuv1_MsgCreateSKU authority providerUuid v unit basePrice metaHash u))
  | 4 => v ← as_enum value; Ok (Some (mk_skuv1_MsgCreateSKU authority providerUuid name v basePrice metaHash u))
  | 5 => v ← as_api_Coin value; Ok (Some (mk_skuv1_MsgCreateSKU authority providerUuid name unit v metaHash u))
  | 6 => v ← as_bytes value; Ok (Some (mk_skuv1_MsgCreateSKU authority providerUuid name unit basePrice v u))
  | _ => Panic
  end.

Definition skuv1_MsgCreateSKU_Mutable (p : option skuv1_MsgCreateSKU) (fd : string) : res (option skuv1_MsgCreateSKU * value) :=
  x ← deref p;
  let 'mk_skuv1_MsgCreateSKU authority providerUuid name unit basePrice metaHash u := x in
  match field_number skuv1_MsgCreateSKU_fields fd with
  | 5 => let v := match basePrice with None => Some api_Coin_new | Some _ => basePrice end in
      Ok (Some (mk_skuv1_MsgCreateSKU authority providerUuid name unit v metaHash u), VMessage (A_api_Coin v))
  | _ => Panic
  end.

Definition skuv1_MsgCreateSKU_NewField (fd : string) : res value :=
  match field_number skuv1_MsgCreateSKU_fields fd with
  | 1 => Ok (VString "")
  | 2 => Ok (VString "")
  | 3 => Ok (VString "")
  | 4 => Ok (VEnum 0)
  | 5 => Ok (VMessage (A_api_Coin (Some api_Coin_new)))
  | 6 => Ok (VBytes "")
  | _ => Panic
  end.

Definition skuv1_MsgCreateSKU_GetUnknown (p : option skuv1_MsgCreateSKU) : res bytes := x ← deref p; Ok (skuv1_MsgCreateSKU_unknownFields x).

Definition skuv1_MsgCreateSKU_SetUnknown (p : option skuv1_MsgCreateSKU) (fields : bytes) : res (option skuv1_MsgCreateSKU) :=
  x ← deref p;
  let 'mk_skuv1_MsgCreateSKU authority providerUuid name unit basePrice metaHash _ := x in
  Ok (Some (mk_skuv1_MsgCreateSKU authority providerUuid name unit basePrice metaHash fields)).

Definition skuv1_MsgCreateSKU_GetAuthority (p : option skuv1_MsgCreateSKU) : string := match p with Some x => skuv1_MsgCreateSKU_Authority x | None => "" end.
Definition skuv1_MsgCreateSKU_GetProviderUuid (p : option skuv1_MsgCreateSKU) : string := match p with Some x => skuv1_MsgCreateSKU_ProviderUuid x | None => "" end.
Definition skuv1_MsgCreateSKU_GetName (p : option skuv1_MsgCreateSKU) : string := match p with Some x => skuv1_MsgCreateSKU_Name x | None => "" end.
Definition skuv1_MsgCreateSKU_GetUnit (p : option skuv1_MsgCreateSKU) : Z := match p with Some x => skuv1_MsgCreateSKU_Unit x | None => 0 end.
Definition skuv1_MsgCreateSKU_GetBasePrice (p : option skuv1_MsgCreateSKU) : option api_Coin := match p with Some x => skuv1_MsgCreateSKU_BasePrice x | None => None end.
Definition skuv1_MsgCreateSKU_GetMetaHash (p : option skuv1_MsgCreateSKU) : string := match p with Some x => skuv1_MsgCreateSKU_MetaHash x | None => "" end.

Definition skuv1_MsgCreateSKU_getters : list (string * (option skuv1_MsgCreateSKU → value)) :=
  [("liftedinit.sku.v1.MsgCreateSKU.authority", λ p, VString (skuv1_MsgCreateSKU_GetAuthority p));
   ("liftedinit.sku.v1.MsgCreateSKU.provider_uuid", λ p, VString (skuv1_MsgCreateSKU_GetProviderUuid p));
   ("liftedinit.sku.v1.MsgCreateSKU.name", λ p, VString (skuv1_MsgCreateSKU_GetName p));
   ("liftedinit.sku.v1.MsgCreateSKU.unit", λ p, VEnum (skuv1_MsgCreateSKU_GetUnit p));
   ("liftedinit.sku.v1.MsgCreateSKU.base_price", λ p, VMessage (A_api_Coin (skuv1_MsgCreateSKU_GetBasePrice p)));
   ("liftedinit.sku.v1.MsgCreateSKU.meta_hash", λ p, VBytes (skuv1_MsgCreateSKU_GetMetaHash p))]%string.

Definition skuv1_MsgCreateSKU_reflected : reflected :=
  mkReflected skuv1_MsgCreateSKU skuv1_MsgCreateSKU_fields skuv1_MsgCreateSKU_Range skuv1_MsgCreateSKU_Has
    skuv1_MsgCreateSKU_Clear skuv1_MsgCreateSKU_Get skuv1_MsgCreateSKU_Set skuv1_MsgCreateSKU_Mutable
    skuv1_MsgCreateSKU_NewField skuv1_MsgCreateSKU_new skuv1_MsgCreateSKU_GetUnknown skuv1_MsgCreateSKU_SetUnknown
    skuv1_MsgCreateSKU_getters.

(** ** MsgCreateSKUResponse *)

Definition skuv1_MsgCreateSKUResponse_fields : list string :=
  ["liftedinit.sku.v1.MsgCreateSKUResponse.uuid"]%string.

Definition skuv1_MsgCreateSKUResponse_Range (S : Type) (p : option skuv1_MsgCreateSKUResponse) (f : S → string → value → S * bool) (s : S) : res S :=
  x ← deref p;
  Ok (visit f
   [(has_string (skuv1_MsgCreateSKUResponse_Uuid x), "liftedinit.sku.v1.MsgCreateSKUResponse.uuid"%string, VString (skuv1_MsgCreateSKUResponse_Uuid x))] s).

Definition skuv1_MsgCreateSKUResponse_Has (p : option skuv1_MsgCreateSKUResponse) (fd : string) : res bool :=
  x ← deref p;
  match field_number skuv1_MsgCreateSKUResponse_fields fd with
  | 1 => Ok (has_string (skuv1_MsgCreateSKUResponse_Uuid x))
  | _ => Panic
  end.

Definition skuv1_MsgCreateSKUResponse_Clear (p : option skuv1_MsgCreateSKUResponse) (fd : string) : res (option skuv1_MsgCreateSKUResponse) :=
  x ← deref p;
  let 'mk_skuv1_MsgCreateSKUResponse uuid u := x in
  match field_number skuv1_MsgCreateSKUResponse_fields fd with
  | 1 => Ok (Some (mk_skuv1_MsgCreateSKUResponse "" u))
  | _ => Panic
  end.

Definition skuv1_MsgCreateSKUResponse_Get (p : option skuv1_MsgCreateSKUResponse) (fd : string) : res value :=
  x ← deref p;
  match field_number skuv1_MsgCreateSKUResponse_fields fd with
  | 1 => Ok (VString (skuv1_MsgCreateSKUResponse_Uuid x))
  | _ => Panic
  end.

Definition skuv1_MsgCreateSKUResponse_Set (p : option skuv1_MsgCreateSKUResponse) (fd : string) (value : value) : res (option skuv1_MsgCreateSKUResponse) :=
  x ← deref p;
  let 'mk_skuv1_MsgCreateSKUResponse uuid u := x in
  match field_number skuv1_MsgCreateSKUResponse_fields fd with
  | 1 => v ← as_string value; Ok (Some (mk_skuv1_MsgCreateSKUResponse v u))
  | _ => Panic
  end.

Definition skuv1_MsgCreateSKUResponse_Mutable (p : option skuv1_MsgCreateSKUResponse) (fd : string) : res (option skuv1_MsgCreateSKUResponse * value) := Panic.

Definition skuv1_MsgCreateSKUResponse_NewField (fd : string) : res value :=
  match field_number skuv1_MsgCreateSKUResponse_fields fd with
  | 1 => Ok (VString "")
  | _ => Panic
  end.

Definition skuv1_MsgCreateSKUResponse_GetUnknown (p : option skuv1_MsgCreateSKUResponse) : res bytes := x ← deref p; Ok (skuv1_MsgCreateSKUResponse_unknownFields x).

Definition skuv1_MsgCreateSKUResponse_SetUnknown (p : option skuv1_MsgCreateSKUResponse) (fields : bytes) : res (option skuv1_MsgCreateSKUResponse) :=
  x ← deref p;
  let 'mk_skuv1_MsgCreateSKUResponse uuid _ := x in
  Ok (Some (mk_skuv1_MsgCreateSKUResponse uuid fields)).

Definition skuv1_MsgCreateSKUResponse_GetUuid (p : option skuv1_MsgCreateSKUResponse) : string := match p with Some x => skuv1_MsgCreateSKUResponse_Uuid x | None => "" end.

Definition skuv1_MsgCreateSKUResponse_getters : list (string * (option skuv1_MsgCreateSKUResponse → value)) :=
  [("liftedinit.sku.v1.MsgCreateSKUResponse.uuid", λ p, VString (skuv1_MsgCreateSKUResponse_GetUuid p))]%string.

Definition skuv1_MsgCreateSKUResponse_reflected : reflected :=
  mkReflected skuv1_MsgCreateSKUResponse skuv1_MsgCreateSKUResponse_fields skuv1_MsgCreateSKUResponse_Range
    skuv1_MsgCreateSKUResponse_Has skuv1_MsgCreateSKUResponse_Clear skuv1_MsgCreateSKUResponse_Get
    skuv1_MsgCreateSKUResponse_Set skuv1_MsgCreateSKUResponse_Mutable skuv1_MsgCreateSKUResponse_NewField
    skuv1_MsgCreateSKUResponse_new skuv1_MsgCreateSKUResponse_GetUnknown skuv1_MsgCreateSKUResponse_SetUnknown
    skuv1_MsgCreateSKUResponse_getters.

(** ** MsgUpdateSKU *)

Definition skuv1_MsgUpdateSKU_fields : list string :=
  ["liftedinit.sku.v1.MsgUpdateSKU.authority";
   "liftedinit.sku.v1.MsgUpdateSKU.uuid";
   "liftedinit.sku.v1.MsgUpdateSKU.provider_uuid";
   "liftedinit.sku.v1.MsgUpdateSKU.name";
   "liftedinit.sku.v1.MsgUpdateSKU.unit";
   "liftedinit.sku.v1.MsgUpdateSKU.base_price";
   "liftedinit.sku.v1.MsgUpdateSKU.meta_hash";
   "liftedinit.sku.v1.MsgUpdateSKU.active"]%string.

Definition skuv1_MsgUpdateSKU_Range (S : Type) (p : option skuv1_MsgUpdateSKU) (f : S → string → value → S * bool) (s : S) : res S :=
  x ← deref p;
  Ok (visit f
   [(has_string (skuv1_MsgUpdateSKU_Authority x), "liftedinit.sku.v1.MsgUpdateSKU.authority"%string, VString (skuv1_MsgUpdateSKU_Authority x));
    (has_string (skuv1_MsgUpdateSKU_Uuid x), "liftedinit.sku.v1.MsgUpdateSKU.uuid"%string, VString (skuv1_MsgUpdateSKU_Uuid x));
    (has_string (skuv1_MsgUpdateSKU_ProviderUuid x), "liftedinit.sku.v1.MsgUpdateSKU.provider_uuid"%string, VString (skuv1_MsgUpdateSKU_ProviderUuid x));
    (has_string (skuv1_MsgUpdateSKU_Name x), "liftedinit.sku.v1.MsgUpdateSKU.name"%string, VString (skuv1_MsgUpdateSKU_Name x));
    (has_num (skuv1_MsgUpdateSKU_Unit x), "liftedinit.sku.v1.MsgUpdateSKU.unit"%string, VEnum (skuv1_MsgUpdateSKU_Unit x));
    (not_nil (skuv1_MsgUpdateSKU_BasePrice x), "liftedinit.sku.v1.MsgUpdateSKU.base_price"%string, VMessage (A_api_Coin (skuv1_MsgUpdateSKU_BasePrice x)));
    (has_bytes (skuv1_MsgUpdateSKU_MetaHash x), "liftedinit.sku.v1.MsgUpdateSKU.meta_hash"%string, VBytes (skuv1_MsgUpdateSKU_MetaHash x));
    ((skuv1_MsgUpdateSKU_Active x), "liftedinit.sku.v1.MsgUpdateSKU.active"%string, VBool (skuv1_MsgUpdateSKU_Active x))] s).

Definition skuv1_MsgUpdateSKU_Has (p : option skuv1_MsgUpdateSKU) (fd : string) : res bool :=
  x ← deref p;
  match field_number skuv1_MsgUpdateSKU_fields fd with
  | 1 => Ok (has_string (skuv1_MsgUpdateSKU_Authority x))
  | 2 => Ok (has_string (skuv1_MsgUpdateSKU_Uuid x))
  | 3 => Ok (has_string (skuv1_MsgUpdateSKU_ProviderUuid x))
  | 4 => Ok (has_string (skuv1_MsgUpdateSKU_Name x))
  | 5 => Ok (has_num (skuv1_MsgUpdateSKU_Unit x))
  | 6 => Ok (not_nil (skuv1_MsgUpdateSKU_BasePrice x))
  | 7 => Ok (has_bytes (skuv1_MsgUpdateSKU_MetaHash x))
  | 8 => Ok ((skuv1_MsgUpdateSKU_Active x))
  | _ => Panic
  end.

Definition skuv1_MsgUpdateSKU_Clear (p : option skuv1_MsgUpdateSKU) (fd : string) : res (option skuv1_MsgUpdateSKU) :=
  x ← deref p;
  let 'mk_skuv1_MsgUpdateSKU authority uuid providerUuid name unit basePrice metaHash active u := x in
  match field_number skuv1_MsgUpdateSKU_fields fd with
  | 1 => Ok (Some (mk_skuv1_MsgUpdateSKU "" uuid providerUuid name unit basePrice metaHash active u))
  | 2 => Ok (Some (mk_skuv1_MsgUpdateSKU authority "" providerUuid name unit basePrice metaHash active u))
  | 3 => Ok (Some (mk_skuv1_MsgUpdateSKU authority uuid "" name unit basePrice metaHash active u))
  | 4 => Ok (Some (mk_skuv1_MsgUpdateSKU authority uuid providerUuid "" unit basePrice metaHash active u))
  | 5 => Ok (Some (mk_skuv1_MsgUpdateSKU authority uuid providerUuid name 0 basePrice metaHash active u))
  | 6 => Ok (Some (mk_skuv1_MsgUpdateSKU authority uuid providerUuid name unit None metaHash active u))
  | 7 => Ok (Some (mk_skuv1_MsgUpdateSKU authority uuid providerUuid name unit basePrice "" active u))
  | 8 => Ok (Some (mk_skuv1_MsgUpdateSKU authority uuid providerUuid name unit basePrice metaHash false u))
  | _ => Panic
  end.

Definition skuv1_MsgUpdateSKU_Get (p : option skuv1_MsgUpdateSKU) (fd : string) : res value :=
  x ← deref p;
  match field_number skuv1_MsgUpdateSKU_fields fd with
  | 1 => Ok (VString (skuv1_MsgUpdateSKU_Authority x))
  | 2 => Ok (VString (skuv1_MsgUpdateSKU_Uuid x))
  | 3 => Ok (VString (skuv1_MsgUpdateSKU_ProviderUuid x))
  | 4 => Ok (VString (skuv1_MsgUpdateSKU_Name x))
  | 5 => Ok (VEnum (skuv1_MsgUpdateSKU_Unit x))
  | 6 => Ok (VMessage (A_api_Coin (skuv1_MsgUpdateSKU_BasePrice x)))
  | 7 => Ok (VBytes (skuv1_MsgUpdateSKU_MetaHash x))
  | 8 => Ok (VBool (skuv1_MsgUpdateSKU_Active x))
  | _ => Panic
  end.

Definition skuv1_MsgUpdateSKU_Set (p : option skuv1_MsgUpdateSKU) (fd : string) (value : value) : res (option skuv1_MsgUpdateSKU) :=
  x ← deref p;
  let 'mk_skuv1_MsgUpdateSKU authority uuid providerUuid name unit basePrice metaHash active u := x in
  match field_number skuv1_MsgUpdateSKU_fields fd with
  | 1 => v ← as_string value; Ok (Some (mk_skuv1_MsgUpdateSKU v uuid providerUuid name unit basePrice metaHash active u))
  | 2 => v ← as_string value; Ok (Some (mk_skuv1_MsgUpdateSKU authority v providerUuid name unit basePrice metaHash active u))
  | 3 => v ← as_string value; Ok (Some (mk_skuv1_MsgUpdateSKU authority uuid v name unit basePrice metaHash active u))
  | 4 => v ← as_string value; Ok (Some (mk_skuv1_MsgUpdateSKU authority uuid providerUuid v unit basePrice metaHash active u))
  | 5 => v ← as_enum value; Ok (Some (mk_skuv1_MsgUpdateSKU authority uuid providerUuid name v basePrice metaHash active u))
  | 6 => v ← as_api_Coin value; Ok (Some (mk_skuv1_MsgUpdateSKU authority uuid providerUuid name unit v metaHash active u))
  | 7 => v ← as_bytes value; Ok (Some (mk_skuv1_MsgUpdateSKU authority uuid providerUuid name unit basePrice v active u))
  | 8 => v ← as_bool value; Ok (Some (mk_skuv1_MsgUpdateSKU authority uuid providerUuid name unit basePrice metaHash v u))
  | _ => Panic
  end.

Definition skuv1_MsgUpdateSKU_Mutable (p : option skuv1_MsgUpdateSKU) (fd : string) : res (option skuv1_MsgUpdateSKU * value) :=
  x ← deref p;
  let 'mk_skuv1_MsgUpdateSKU authority uuid providerUuid name unit basePrice metaHash active u := x in
  match field_number skuv1_MsgUpdateSKU_fields fd with
  | 6 => let v := match basePrice with None => Some api_Coin_new | Some _ => basePrice end in
      Ok (Some (mk_skuv1_MsgUpdateSKU authority uuid providerUuid name unit v metaHash active u), VMessage (A_api_Coin v))
  | _ => Panic
  end.

Definition skuv1_MsgUpdateSKU_NewField (fd : string) : res value :=
  match field_number skuv1_MsgUpdateSKU_fields fd with
  | 1 => Ok (VString "")
  | 2 => Ok (VString "")
  | 3 => Ok (VString "")
  | 4 => Ok (VString "")
  | 5 => Ok (VEnum 0)
  | 6 => Ok (VMessage (A_api_Coin (Some api_Coin_new)))
  | 7 => Ok (VBytes "")
  | 8 => Ok (VBool false)
  | _ => Panic
  end.

Definition skuv1_MsgUpdateSKU_GetUnknown (p : option skuv1_MsgUpdateSKU) : res bytes := x ← deref p; Ok (skuv1_MsgUpdateSKU_unknownFields x).

Definition skuv1_MsgUpdateSKU_SetUnknown (p : option skuv1_MsgUpdateSKU) (fields : bytes) : res (option skuv1_MsgUpdateSKU) :=
  x ← deref p;
  let 'mk_skuv1_MsgUpdateSKU authority uuid providerUuid name unit basePrice metaHash active _ := x in
  Ok (Some (mk_skuv1_MsgUpdateSKU authority uuid providerUuid name unit basePrice metaHash active fields)).

Definition skuv1_MsgUpdateSKU_GetAuthority (p : option skuv1_MsgUpdateSKU) : string := match p with Some x => skuv1_MsgUpdateSKU_Authority x | None => "" end.
Definition skuv1_MsgUpdateSKU_GetUuid (p : option skuv1_MsgUpdateSKU) : string := match p with Some x => skuv1_MsgUpdateSKU_Uuid x | None => "" end.
Definition skuv1_MsgUpdateSKU_GetProviderUuid (p : option skuv1_MsgUpdateSKU) : string := match p with Some x => skuv1_MsgUpdateSKU_ProviderUuid x | None => "" end.
Definition skuv1_MsgUpdateSKU_GetName (p : option skuv1_MsgUpdateSKU) : string := match p with Some x => skuv1_MsgUpdateSKU_Name x | None => "" end.
Definition skuv1_MsgUpdateSKU_GetUnit (p : option skuv1_MsgUpdateSKU) : Z := match p with Some x => skuv1_MsgUpdateSKU_Unit x | None => 0 end.
Definition skuv1_MsgUpdateSKU_GetBasePrice (p : option skuv1_MsgUpdateSKU) : option api_Coin := match p with Some x => skuv1_MsgUpdateSKU_BasePrice x | None => None end.
Definition skuv1_MsgUpdateSKU_GetMetaHash (p : option skuv1_MsgUpdateSKU) : string := match p with Some x => skuv1_MsgUpdateSKU_MetaHash x | None => "" end.
Definition skuv1_MsgUpdateSKU_GetActive (p : option skuv1_MsgUpdateSKU) : bool := match p with Some x => skuv1_MsgUpdateSKU_Active x | None => false end.

Definition skuv1_MsgUpdateSKU_getters : list (string * (option skuv1_MsgUpdateSKU → value)) :=
  [("liftedinit.sku.v1.MsgUpdateSKU.authority", λ p, VString (skuv1_MsgUpdateSKU_GetAuthority p));
   ("liftedinit.sku.v1.MsgUpdateSKU.uuid", λ p, VString (skuv1_MsgUpdateSKU_GetUuid p));
   ("liftedinit.sku.v1.MsgUpdateSKU.provider_uuid", λ p, VString (skuv1_MsgUpdateSKU_GetProviderUuid p));
   ("liftedinit.sku.v1.MsgUpdateSKU.name", λ p, VString (skuv1_MsgUpdateSKU_GetName p));
   ("liftedinit.sku.v1.MsgUpdateSKU.unit", λ p, VEnum (skuv1_MsgUpdateSKU_GetUnit p));
   ("liftedinit.sku.v1.MsgUpdateSKU.base_price", λ p, VMessage (A_api_Coin (skuv1_MsgUpdateSKU_GetBasePrice p)));
   ("liftedinit.sku.v1.MsgUpdateSKU.meta_hash", λ p, VBytes (skuv1_MsgUpdateSKU_GetMetaHash p));
   ("liftedinit.sku.v1.MsgUpdateSKU.active", λ p, VBool (skuv1_MsgUpdateSKU_GetActive p))]%string.

Definition skuv1_MsgUpdateSKU_reflected : reflected :=
  mkReflected skuv1_MsgUpdateSKU skuv1_MsgUpdateSKU_fields skuv1_MsgUpdateSKU_Range skuv1_MsgUpdateSKU_Has
    skuv1_MsgUpdateSKU_Clear skuv1_MsgUpdateSKU_Get skuv1_MsgUpdateSKU_Set skuv1_MsgUpdateSKU_Mutable
    skuv1_MsgUpdateSKU_NewField skuv1_MsgUpdateSKU_new skuv1_MsgUpdateSKU_GetUnknown skuv1_MsgUpdateSKU_SetUnknown
    skuv1_MsgUpdateSKU_getters.

(** ** MsgUpdateSKUResponse *)

Definition skuv1_MsgUpdateSKUResponse_fields : list string :=
  []%string.

Definition skuv1_MsgUpdateSKUResponse_Range (S : Type) (p : option skuv1_MsgUpdateSKUResponse) (f : S → string → value → S * bool) (s : S) : res S :=
  Ok (visit f [] s).

Definition skuv1_MsgUpdateSKUResponse_Has (p : option skuv1_MsgUpdateSKUResponse) (fd : string) : res bool := Panic.

Definition skuv1_MsgUpdateSKUResponse_Clear (p : option skuv1_MsgUpdateSKUResponse) (fd : string) : res (option skuv1_MsgUpdateSKUResponse) := Panic.

Definition skuv1_MsgUpdateSKUResponse_Get (p : option skuv1_MsgUpdateSKUResponse) (fd : string) : res value := Panic.

Definition skuv1_MsgUpdateSKUResponse_Set (p : option skuv1_MsgUpdateSKUResponse) (fd : string) (value : value) : res (option skuv1_MsgUpdateSKUResponse) := Panic.

Definition skuv1_MsgUpdateSKUResponse_Mutable (p : option skuv1_MsgUpdateSKUResponse) (fd : string) : res (option skuv1_MsgUpdateSKUResponse * value) := Panic.

Definition skuv1_MsgUpdateSKUResponse_NewField (fd : string) : res value := Panic.

Definition skuv1_MsgUpdateSKUResponse_GetUnknown (p : option skuv1_MsgUpdateSKUResponse) : res bytes := x ← deref p; Ok (skuv1_MsgUpdateSKUResponse_unknownFields x).

Definition skuv1_MsgUpdateSKUResponse_SetUnknown (p : option skuv1_MsgUpdateSKUResponse) (fields : bytes) : res (option skuv1_MsgUpdateSKUResponse) :=
  x ← deref p;
  let 'mk_skuv1_MsgUpdateSKUResponse _ := x in
  Ok (Some (mk_skuv1_MsgUpdateSKUResponse fields)).

Definition skuv1_MsgUpdateSKUResponse_getters : list (string * (option skuv1_MsgUpdateSKUResponse → value)) :=
  []%string.

Definition skuv1_MsgUpdateSKUResponse_reflected : reflected :=
  mkReflected skuv1_MsgUpdateSKUResponse skuv1_MsgUpdateSKUResponse_fields skuv1_MsgUpdateSKUResponse_Range
    skuv1_MsgUpdateSKUResponse_Has skuv1_MsgUpdateSKUResponse_Clear skuv1_MsgUpdateSKUResponse_Get
    skuv1_MsgUpdateSKUResponse_Set skuv1_MsgUpdateSKUResponse_Mutable skuv1_MsgUpdateSKUResponse_NewField
    skuv1_MsgUpdateSKUResponse_new skuv1_MsgUpdateSKUResponse_GetUnknown skuv1_MsgUpdateSKUResponse_SetUnknown
    skuv1_MsgUpdateSKUResponse_getters.

(** ** MsgDeactivateSKU *)

Definition skuv1_MsgDeactivateSKU_fields : list string :=
  ["liftedinit.sku.v1.MsgDeactivateSKU.authority";
   "liftedinit.sku.v1.MsgDeactivateSKU.uuid"]%string.

Definition skuv1_MsgDeactivateSKU_Range (S : Type) (p : option skuv1_MsgDeactivateSKU) (f : S → string → value → S * bool) (s : S) : res S :=
  x ← deref p;
  Ok (visit f
   [(has_string (skuv1_MsgDeactivateSKU_Authority x), "liftedinit.sku.v1.MsgDeactivateSKU.authority"%string, VString (skuv1_MsgDeactivateSKU_Authority x));
    (has_string (skuv1_MsgDeactivateSKU_Uuid x), "liftedinit.sku.v1.MsgDeactivateSKU.uuid"%string, VString (skuv1_MsgDeactivateSKU_Uuid x))] s).

Definition skuv1_MsgDeactivateSKU_Has (p : option skuv1_MsgDeactivateSKU) (fd : string) : res bool :=
  x ← deref p;
  match field_number skuv1_MsgDeactivateSKU_fields fd with
  | 1 => Ok (has_string (skuv1_MsgDeactivateSKU_Authority x))
  | 2 => Ok (has_string (skuv1_MsgDeactivateSKU_Uuid x))
  | _ => Panic
  end.

Definition skuv1_MsgDeactivateSKU_Clear (p : option skuv1_MsgDeactivateSKU) (fd : string) : res (option skuv1_MsgDeactivateSKU) :=
  x ← deref p;
  let 'mk_skuv1_MsgDeactivateSKU authority uuid u := x in
  match field_number skuv1_MsgDeactivateSKU_fields fd with
  | 1 => Ok (Some (mk_skuv1_MsgDeactivateSKU "" uuid u))
  | 2 => Ok (Some (mk_skuv1_MsgDeactivateSKU authority "" u))
  | _ => Panic
  end.

Definition skuv1_MsgDeactivateSKU_Get (p : option skuv1_MsgDeactivateSKU) (fd : string) : res value :=
  x ← deref p;
  match field_number skuv1_MsgDeactivateSKU_fields fd with
  | 1 => Ok (VString (skuv1_MsgDeactivateSKU_Authority x))
  | 2 => Ok (VString (skuv1_MsgDeactivateSKU_Uuid x))
  | _ => Panic
  end.

Definition skuv1_MsgDeactivateSKU_Set (p : option skuv1_MsgDeactivateSKU) (fd : string) (value : value) : res (option skuv1_MsgDeactivateSKU) :=
  x ← deref p;
  let 'mk_skuv1_MsgDeactivateSKU authority uuid u := x in
  match field_number skuv1_MsgDeactivateSKU_fields fd with
  | 1 => v ← as_string value; Ok (Some (mk_skuv1_MsgDeactivateSKU v uuid u))
  | 2 => v ← as_string value; Ok (Some (mk_skuv1_MsgDeactivateSKU authority v u))
  | _ => Panic
  end.

Definition skuv1_MsgDeactivateSKU_Mutable (p : option skuv1_MsgDeactivateSKU) (fd : string) : res (option skuv1_MsgDeactivateSKU * value) := Panic.

Definition skuv1_MsgDeactivateSKU_NewField (fd : string) : res value :=
  match field_number skuv1_MsgDeactivateSKU_fields fd with
  | 1 => Ok (VString "")
  | 2 => Ok (VString "")
  | _ => Panic
  end.

Definition skuv1_MsgDeactivateSKU_GetUnknown (p : option skuv1_MsgDeactivateSKU) : res bytes := x ← deref p; Ok (skuv1_MsgDeactivateSKU_unknownFields x).

Definition skuv1_MsgDeactivateSKU_SetUnknown (p : option skuv1_MsgDeactivateSKU) (fields : bytes) : res (option skuv1_MsgDeactivateSKU) :=
  x ← deref p;
  let 'mk_skuv1_MsgDeactivateSKU authority uuid _ := x in
  Ok (Some (mk_skuv1_MsgDeactivateSKU authority uuid fields)).

Definition skuv1_MsgDeactivateSKU_GetAuthority (p : option skuv1_MsgDeactivateSKU) : string := match p with Some x => skuv1_MsgDeactivateSKU_Authority x | None => "" end.
Definition skuv1_MsgDeactivateSKU_GetUuid (p : option skuv1_MsgDeactivateSKU) : string := match p with Some x => skuv1_MsgDeactivateSKU_Uuid x | None => "" end.

Definition skuv1_MsgDeactivateSKU_getters : list (string * (option skuv1_MsgDeactivateSKU → value)) :=
  [("liftedinit.sku.v1.MsgDeactivateSKU.authority", λ p, VString (skuv1_MsgDeactivateSKU_GetAuthority p));
   ("liftedinit.sku.v1.MsgDeactivateSKU.uuid", λ p, VString (skuv1_MsgDeactivateSKU_GetUuid p))]%string.

Definition skuv1_MsgDeactivateSKU_reflected : reflected :=
  mkReflected skuv1_MsgDeactivateSKU skuv1_MsgDeactivateSKU_fields skuv1_MsgDeactivateSKU_Range
    skuv1_MsgDeactivateSKU_Has skuv1_MsgDeactivateSKU_Clear skuv1_MsgDeactivateSKU_Get skuv1_MsgDeactivateSKU_Set
    skuv1_MsgDeactivateSKU_Mutable skuv1_MsgDeactivateSKU_NewField skuv1_MsgDeactivateSKU_new
    skuv1_MsgDeactivateSKU_GetUnknown skuv1_MsgDeactivateSKU_SetUnknown skuv1_MsgDeactivateSKU_getters.

(** ** MsgDeactivateSKUResponse *)

Definition skuv1_MsgDeactivateSKUResponse_fields : list string :=
  []%string.

Definition skuv1_MsgDeactivateSKUResponse_Range (S : Type) (p : option skuv1_MsgDeactivateSKUResponse) (f : S → string → value → S * bool) (s : S) : res S :=
  Ok (visit f [] s).

Definition skuv1_MsgDeactivateSKUResponse_Has (p : option skuv1_MsgDeactivateSKUResponse) (fd : string) : res bool := Panic.

Definition skuv1_MsgDeactivateSKUResponse_Clear (p : option skuv1_MsgDeactivateSKUResponse) (fd : string) : res (option skuv1_MsgDeactivateSKUResponse) := Panic.

Definition skuv1_MsgDeactivateSKUResponse_Get (p : option skuv1_MsgDeactivateSKUResponse) (fd : string) : res value := Panic.

Definition skuv1_MsgDeactivateSKUResponse_Set (p : option skuv1_MsgDeactivateSKUResponse) (fd : string) (value : value) : res (option skuv1_MsgDeactivateSKUResponse) := Panic.

Definition skuv1_MsgDeactivateSKUResponse_Mutable (p : option skuv1_MsgDeactivateSKUResponse) (fd : string) : res (option skuv1_MsgDeactivateSKUResponse * value) := Panic.

Definition skuv1_MsgDeactivateSKUResponse_NewField (fd : string) : res value := Panic.

Definition skuv1_MsgDeactivateSKUResponse_GetUnknown (p : option skuv1_MsgDeactivateSKUResponse) : res bytes := x ← deref p; Ok (skuv1_MsgDeactivateSKUResponse_unknownFields x).

Definition skuv1_MsgDeactivateSKUResponse_SetUnknown (p : option skuv1_MsgDeactivateSKUResponse) (fields : bytes) : res (option skuv1_MsgDeactivateSKUResponse) :=
  x ← deref p;
  let 'mk_skuv1_MsgDeactivateSKUResponse _ := x in
  Ok (Some (mk_skuv1_MsgDeactivateSKUResponse fields)).

Definition skuv1_MsgDeactivateSKUResponse_getters : list (string * (option skuv1_MsgDeactivateSKUResponse → value)) :=
  []%string.

Definition skuv1_MsgDeactivateSKUResponse_reflected : reflected :=
  mkReflected skuv1_MsgDeactivateSKUResponse skuv1_MsgDeactivateSKUResponse_fields
    skuv1_MsgDeactivateSKUResponse_Range skuv1_MsgDeactivateSKUResponse_Has skuv1_MsgDeactivateSKUResponse_Clear
    skuv1_MsgDeactivateSKUResponse_Get skuv1_MsgDeactivateSKUResponse_Set skuv1_MsgDeactivateSKUResponse_Mutable
    skuv1_MsgDeactivateSKUResponse_NewField skuv1_MsgDeactivateSKUResponse_new
    skuv1_MsgDeactivateSKUResponse_GetUnknown skuv1_MsgDeactivateSKUResponse_SetUnknown
    skuv1_MsgDeactivateSKUResponse_getters.

(** ** MsgUpdateParams *)

Definition skuv1_MsgUpdateParams_fields : list string :=
  ["liftedinit.sku.v1.MsgUpdateParams.authority";
   "liftedinit.sku.v1.MsgUpdateParams.params"]%string.

Definition skuv1_MsgUpdateParams_Range (S : Type) (p : option skuv1_MsgUpdateParams) (f : S → string → value → S * bool) (s : S) : res S :=
  x ← deref p;
  Ok (visit f
   [(has_string (skuv1_MsgUpdateParams_Authority x), "liftedinit.sku.v1.MsgUpdateParams.authority"%string, VString (skuv1_MsgUpdateParams_Authority x));
    (not_nil (skuv1_MsgUpdateParams_Params x), "liftedinit.sku.v1.MsgUpdateParams.params"%string, VMessage (A_skuv1_Params (skuv1_MsgUpdateParams_Params x)))] s).

Definition skuv1_MsgUpdateParams_Has (p : option skuv1_MsgUpdateParams) (fd : string) : res bool :=
  x ← deref p;
  match field_number skuv1_MsgUpdateParams_fields fd with
  | 1 => Ok (has_string (skuv1_MsgUpdateParams_Authority x))
  | 2 => Ok (not_nil (skuv1_MsgUpdateParams_Params x))
  | _ => Panic
  end.

Definition skuv1_MsgUpdateParams_Clear (p : option skuv1_MsgUpdateParams) (fd : string) : res (option skuv1_MsgUpdateParams) :=
  x ← deref p;
  let 'mk_skuv1_MsgUpdateParams authority params u := x in
  match field_number skuv1_MsgUpdateParams_fields fd with
  | 1 => Ok (Some (mk_skuv1_MsgUpdateParams "" params u))
  | 2 => Ok (Some (mk_skuv1_MsgUpdateParams authority None u))
  | _ => Panic
  end.

Definition skuv1_MsgUpdateParams_Get (p : option skuv1_MsgUpdateParams) (fd : string) : res value :=
  x ← deref p;
  match field_number skuv1_MsgUpdateParams_fields fd with
  | 1 => Ok (VString (skuv1_MsgUpdateParams_Authority x))
  | 2 => Ok (VMessage (A_skuv1_Params (skuv1_MsgUpdateParams_Params x)))
  | _ => Panic
  end.

Definition skuv1_MsgUpdateParams_Set (p : option skuv1_MsgUpdateParams) (fd : string) (value : value) : res (option skuv1_MsgUpdateParams) :=
  x ← deref p;
  let 'mk_skuv1_MsgUpdateParams authority params u := x in
  match field_number skuv1_MsgUpdateParams_fields fd with
  | 1 => v ← as_string value; Ok (Some (mk_skuv1_MsgUpdateParams v params u))
  | 2 => v ← as_skuv1_Params value; Ok (Some (mk_skuv1_MsgUpdateParams authority v u))
  | _ => Panic
  end.

Definition skuv1_MsgUpdateParams_Mutable (p : option skuv1_MsgUpdateParams) (fd : string) : res (option skuv1_MsgUpdateParams * value) :=
  x ← deref p;
  let 'mk_skuv1_MsgUpdateParams authority params u := x in
  match field_number skuv1_MsgUpdateParams_fields fd with
  | 2 => let v := match params with None => Some skuv1_Params_new | Some _ => params end in
      Ok (Some (mk_skuv1_MsgUpdateParams authority v u), VMessage (A_skuv1_Params v))
  | _ => Panic
  end.

Definition skuv1_MsgUpdateParams_NewField (fd : string) : res value :=
  match field_number skuv1_MsgUpdateParams_fields fd with
  | 1 => Ok (VString "")
  | 2 => Ok (VMessage (A_skuv1_Params (Some skuv1_Params_new)))
  | _ => Panic
  end.

Definition skuv1_MsgUpdateParams_GetUnknown (p : option skuv1_MsgUpdateParams) : res bytes := x ← deref p; Ok (skuv1_MsgUpdateParams_unknownFields x).

Definition skuv1_MsgUpdateParams_SetUnknown (p : option skuv1_MsgUpdateParams) (fields : bytes) : res (option skuv1_MsgUpdateParams) :=
  x ← deref p;
  let 'mk_skuv1_MsgUpdateParams authority params _ := x in
  Ok (Some (mk_skuv1_MsgUpdateParams authority params fields)).

Definition skuv1_MsgUpdateParams_GetAuthority (p : option skuv1_MsgUpdateParams) : string := match p with Some x => skuv1_MsgUpdateParams_Authority x | None => "" end.
Definition skuv1_MsgUpdateParams_GetParams (p : option skuv1_MsgUpdateParams) : option skuv1_Params := match p with Some x => skuv1_MsgUpdateParams_Params x | None => None end.

Definition skuv1_MsgUpdateParams_getters : list (string * (option skuv1_MsgUpdateParams → value)) :=
  [("liftedinit.sku.v1.MsgUpdateParams.authority", λ p, VString (skuv1_MsgUpdateParams_GetAuthority p));
   ("liftedinit.sku.v1.MsgUpdateParams.params", λ p, VMessage (A_skuv1_Params (skuv1_MsgUpdateParams_GetParams p)))]%string.

Definition skuv1_MsgUpdateParams_reflected : reflected :=
  mkReflected skuv1_MsgUpdateParams skuv1_MsgUpdateParams_fields skuv1_MsgUpdateParams_Range skuv1_MsgUpdateParams_Has
    skuv1_MsgUpdateParams_Clear skuv1_MsgUpdateParams_Get skuv1_MsgUpdateParams_Set skuv1_MsgUpdateParams_Mutable
    skuv1_MsgUpdateParams_NewField skuv1_MsgUpdateParams_new skuv1_MsgUpdateParams_GetUnknown
    skuv1_MsgUpdateParams_SetUnknown skuv1_MsgUpdateParams_getters.

(** ** MsgUpdateParamsResponse *)

Definition skuv1_MsgUpdateParamsResponse_fields : list string :=
  []%string.

Definition skuv1_MsgUpdateParamsResponse_Range (S : Type) (p : option skuv1_MsgUpdateParamsResponse) (f : S → string → value → S * bool) (s : S) : res S :=
  Ok (visit f [] s).

Definition skuv1_MsgUpdateParamsResponse_Has (p : option skuv1_MsgUpdateParamsResponse) (fd : string) : res bool := Panic.

Definition skuv1_MsgUpdateParamsResponse_Clear (p : option skuv1_MsgUpdateParamsResponse) (fd : string) : res (option skuv1_MsgUpdateParamsResponse) := Panic.

Definition skuv1_MsgUpdateParamsResponse_Get (p : option skuv1_MsgUpdateParamsResponse) (fd : string) : res value := Panic.

Definition skuv1_MsgUpdateParamsResponse_Set (p : option skuv1_MsgUpdateParamsResponse) (fd : string) (value : value) : res (option skuv1_MsgUpdateParamsResponse) := Panic.

Definition skuv1_MsgUpdateParamsResponse_Mutable (p : option skuv1_MsgUpdateParamsResponse) (fd : string) : res (option skuv1_MsgUpdateParamsResponse * value) := Panic.

Definition skuv1_MsgUpdateParamsResponse_NewField (fd : string) : res value := Panic.

Definition skuv1_MsgUpdateParamsResponse_GetUnknown (p : option skuv1_MsgUpdateParamsResponse) : res bytes := x ← deref p; Ok (skuv1_MsgUpdateParamsResponse_unknownFields x).

Definition skuv1_MsgUpdateParamsResponse_SetUnknown (p : option skuv1_MsgUpdateParamsResponse) (fields : bytes) : res (option skuv1_MsgUpdateParamsResponse) :=
  x ← deref p;
  let 'mk_skuv1_MsgUpdateParamsResponse _ := x in
  Ok (Some (mk_skuv1_MsgUpdateParamsResponse fields)).

Definition skuv1_MsgUpdateParamsResponse_getters : list (string * (option skuv1_MsgUpdateParamsResponse → value)) :=
  []%string.

Definition skuv1_MsgUpdateParamsResponse_reflected : reflected :=
  mkReflected skuv1_MsgUpdateParamsResponse skuv1_MsgUpdateParamsResponse_fields skuv1_MsgUpdateParamsResponse_Range
    skuv1_MsgUpdateParamsResponse_Has skuv1_MsgUpdateParamsResponse_Clear skuv1_MsgUpdateParamsResponse_Get
    skuv1_MsgUpdateParamsResponse_Set skuv1_MsgUpdateParamsResponse_Mutable skuv1_MsgUpdateParamsResponse_NewField
    skuv1_MsgUpdateParamsResponse_new skuv1_MsgUpdateParamsResponse_GetUnknown
    skuv1_MsgUpdateParamsResponse_SetUnknown skuv1_MsgUpdateParamsResponse_getters.

(** ** QueryParamsRequest *)

Definition skuv1_QueryParamsRequest_fields : list string :=
  []%string.

Definition skuv1_QueryParamsRequest_Range (S : Type) (p : option skuv1_QueryParamsRequest) (f : S → string → value → S * bool) (s : S) : res S :=
  Ok (visit f [] s).

Definition skuv1_QueryParamsRequest_Has (p : option skuv1_QueryParamsRequest) (fd : string) : res bool := Panic.

Definition skuv1_QueryParamsRequest_Clear (p : option skuv1_QueryParamsRequest) (fd : string) : res (option skuv1_QueryParamsRequest) := Panic.

Definition skuv1_QueryParamsRequest_Get (p : option skuv1_QueryParamsRequest) (fd : string) : res value := Panic.

Definition skuv1_QueryParamsRequest_Set (p : option skuv1_QueryParamsRequest) (fd : string) (value : value) : res (option skuv1_QueryParamsRequest) := Panic.

Definition skuv1_QueryParamsRequest_Mutable (p : option skuv1_QueryParamsRequest) (fd : string) : res (option skuv1_QueryParamsRequest * value) := Panic.

Definition skuv1_QueryParamsRequest_NewField (fd : string) : res value := Panic.

Definition skuv1_QueryParamsRequest_GetUnknown (p : option skuv1_QueryParamsRequest) : res bytes := x ← deref p; Ok (skuv1_QueryParamsRequest_unknownFields x).

Definition skuv1_QueryParamsRequest_SetUnknown (p : option skuv1_QueryParamsRequest) (fields : bytes) : res (option skuv1_QueryParamsRequest) :=
  x ← deref p;
  let 'mk_skuv1_QueryParamsRequest _ := x in
  Ok (Some (mk_skuv1_QueryParamsRequest fields)).

Definition skuv1_QueryParamsRequest_getters : list (string * (option skuv1_QueryParamsRequest → value)) :=
  []%string.

Definition skuv1_QueryParamsRequest_reflected : reflected :=
  mkReflected skuv1_QueryParamsRequest skuv1_QueryParamsRequest_fields skuv1_QueryParamsRequest_Range
    skuv1_QueryParamsRequest_Has skuv1_QueryParamsRequest_Clear skuv1_QueryParamsRequest_Get
    skuv1_QueryParamsRequest_Set skuv1_QueryParamsRequest_Mutable skuv1_QueryParamsRequest_NewField
    skuv1_QueryParamsRequest_new skuv1_QueryParamsRequest_GetUnknown skuv1_QueryParamsRequest_SetUnknown
    skuv1_QueryParamsRequest_getters.

(** ** QueryParamsResponse *)

Definition skuv1_QueryParamsResponse_fields : list string :=
  ["liftedinit.sku.v1.QueryParamsResponse.params"]%string.

Definition skuv1_QueryParamsResponse_Range (S : Type) (p : option skuv1_QueryParamsResponse) (f : S → string → value → S * bool) (s : S) : res S :=
  x ← deref p;
  Ok (visit f
   [(not_nil (skuv1_QueryParamsResponse_Params x), "liftedinit.sku.v1.QueryParamsResponse.params"%string, VMessage (A_skuv1_Params (skuv1_QueryParamsResponse_Params x)))] s).

Definition skuv1_QueryParamsResponse_Has (p : option skuv1_QueryParamsResponse) (fd : string) : res bool :=
  x ← deref p;
  match field_number skuv1_QueryParamsResponse_fields fd with
  | 1 => Ok (not_nil (skuv1_QueryParamsResponse_Params x))
  | _ => Panic
  end.

Definition skuv1_QueryParamsResponse_Clear (p : option skuv1_QueryParamsResponse) (fd : string) : res (option skuv1_QueryParamsResponse) :=
  x ← deref p;
  let 'mk_skuv1_QueryParamsResponse params u := x in
  match field_number skuv1_QueryParamsResponse_fields fd with
  | 1 => Ok (Some (mk_skuv1_QueryParamsResponse None u))
  | _ => Panic
  end.

Definition skuv1_QueryParamsResponse_Get (p : option skuv1_QueryParamsResponse) (fd : string) : res value :=
  x ← deref p;
  match field_number skuv1_QueryParamsResponse_fields fd with
  | 1 => Ok (VMessage (A_skuv1_Params (skuv1_QueryParamsResponse_Params x)))
  | _ => Panic
  end.

Definition skuv1_QueryParamsResponse_Set (p : option skuv1_QueryParamsResponse) (fd : string) (value : value) : res (option skuv1_QueryParamsResponse) :=
  x ← deref p;
  let 'mk_skuv1_QueryParamsResponse params u := x in
  match field_number skuv1_QueryParamsResponse_fields fd with
  | 1 => v ← as_skuv1_Params value; Ok (Some (mk_skuv1_QueryParamsResponse v u))
  | _ => Panic
  end.

Definition skuv1_QueryParamsResponse_Mutable (p : option skuv1_QueryParamsResponse) (fd : string) : res (option skuv1_QueryParamsResponse * value) :=
  x ← deref p;
  let 'mk_skuv1_QueryParamsResponse params u := x in
  match field_number skuv1_QueryParamsResponse_fields fd with
  | 1 => let v := match params with None => Some skuv1_Params_new | Some _ => params end in
      Ok (Some (mk_skuv1_QueryParamsResponse v u), VMessage (A_skuv1_Params v))
  | _ => Panic
  end.

Definition skuv1_QueryParamsResponse_NewField (fd : string) : res value :=
  match field_number skuv1_QueryParamsResponse_fields fd with
  | 1 => Ok (VMessage (A_skuv1_Params (Some skuv1_Params_new)))
  | _ => Panic
  end.

Definition skuv1_QueryParamsResponse_GetUnknown (p : option skuv1_QueryParamsResponse) : res bytes := x ← deref p; Ok (skuv1_QueryParamsResponse_unknownFields x).

Definition skuv1_QueryParamsResponse_SetUnknown (p : option skuv1_QueryParamsResponse) (fields : bytes) : res (option skuv1_QueryParamsResponse) :=
  x ← deref p;
  let 'mk_skuv1_QueryParamsResponse params _ := x in
  Ok (Some (mk_skuv1_QueryParamsResponse params fields)).

Definition skuv1_QueryParamsResponse_GetParams (p : option skuv1_QueryParamsResponse) : option skuv1_Params := match p with Some x => skuv1_QueryParamsResponse_Params x | None => None end.

Definition skuv1_QueryParamsResponse_getters : list (string * (option skuv1_QueryParamsResponse → value)) :=
  [("liftedinit.sku.v1.QueryParamsResponse.params", λ p, VMessage (A_skuv1_Params (skuv1_QueryParamsResponse_GetParams p)))]%string.

Definition skuv1_QueryParamsResponse_reflected : reflected :=
  mkReflected skuv1_QueryParamsResponse skuv1_QueryParamsResponse_fields skuv1_QueryParamsResponse_Range
    skuv1_QueryParamsResponse_Has skuv1_QueryParamsResponse_Clear skuv1_QueryParamsResponse_Get
    skuv1_QueryParamsResponse_Set skuv1_QueryParamsResponse_Mutable skuv1_QueryParamsResponse_NewField
    skuv1_QueryParamsResponse_new skuv1_QueryParamsResponse_GetUnknown skuv1_QueryParamsResponse_SetUnknown
    skuv1_QueryParamsResponse_getters.

(** ** QueryProviderRequest *)

Definition skuv1_QueryProviderRequest_fields : list string :=
  ["liftedinit.sku.v1.QueryProviderRequest.uuid"]%string.

Definition skuv1_QueryProviderRequest_Range (S : Type) (p : option skuv1_QueryProviderRequest) (f : S → string → value → S * bool) (s : S) : res S :=
  x ← deref p;
  Ok (visit f
   [(has_string (skuv1_QueryProviderRequest_Uuid x), "liftedinit.sku.v1.QueryProviderRequest.uuid"%string, VString (skuv1_QueryProviderRequest_Uuid x))] s).

Definition skuv1_QueryProviderRequest_Has (p : option skuv1_QueryProviderRequest) (fd : string) : res bool :=
  x ← deref p;
  match field_number skuv1_QueryProviderRequest_fields fd with
  | 1 => Ok (has_string (skuv1_QueryProviderRequest_Uuid x))
  | _ => Panic
  end.

Definition skuv1_QueryProviderRequest_Clear (p : option skuv1_QueryProviderRequest) (fd : string) : res (option skuv1_QueryProviderRequest) :=
  x ← deref p;
  let 'mk_skuv1_QueryProviderRequest uuid u := x in
  match field_number skuv1_QueryProviderRequest_fields fd with
  | 1 => Ok (Some (mk_skuv1_QueryProviderRequest "" u))
  | _ => Panic
  end.

Definition skuv1_QueryProviderRequest_Get (p : option skuv1_QueryProviderRequest) (fd : string) : res value :=
  x ← deref p;
  match field_number skuv1_QueryProviderRequest_fields fd with
  | 1 => Ok (VString (skuv1_QueryProviderRequest_Uuid x))
  | _ => Panic
  end.

Definition skuv1_QueryProviderRequest_Set (p : option skuv1_QueryProviderRequest) (fd : string) (value : value) : res (option skuv1_QueryProviderRequest) :=
  x ← deref p;
  let 'mk_skuv1_QueryProviderRequest uuid u := x in
  match field_number skuv1_QueryProviderRequest_fields fd with
  | 1 => v ← as_string value; Ok (Some (mk_skuv1_QueryProviderRequest v u))
  | _ => Panic
  end.

Definition skuv1_QueryProviderRequest_Mutable (p : option skuv1_QueryProviderRequest) (fd : string) : res (option skuv1_QueryProviderRequest * value) := Panic.

Definition skuv1_QueryProviderRequest_NewField (fd : string) : res value :=
  match field_number skuv1_QueryProviderRequest_fields fd with
  | 1 => Ok (VString "")
  | _ => Panic
  end.

Definition skuv1_QueryProviderRequest_GetUnknown (p : option skuv1_QueryProviderRequest) : res bytes := x ← deref p; Ok (skuv1_QueryProviderRequest_unknownFields x).

Definition skuv1_QueryProviderRequest_SetUnknown (p : option skuv1_QueryProviderRequest) (fields : bytes) : res (option skuv1_QueryProviderRequest) :=
  x ← deref p;
  let 'mk_skuv1_QueryProviderRequest uuid _ := x in
  Ok (Some (mk_skuv1_QueryProviderRequest uuid fields)).

Definition skuv1_QueryProviderRequest_GetUuid (p : option skuv1_QueryProviderRequest) : string := match p with Some x => skuv1_QueryProviderRequest_Uuid x | None => "" end.

Definition skuv1_QueryProviderRequest_getters : list (string * (option skuv1_QueryProviderRequest → value)) :=
  [("liftedinit.sku.v1.QueryProviderRequest.uuid", λ p, VString (skuv1_QueryProviderRequest_GetUuid p))]%string.

Definition skuv1_QueryProviderRequest_reflected : reflected :=
  mkReflected skuv1_QueryProviderRequest skuv1_QueryProviderRequest_fields skuv1_QueryProviderRequest_Range
    skuv1_QueryProviderRequest_Has skuv1_QueryProviderRequest_Clear skuv1_QueryProviderRequest_Get
    skuv1_QueryProviderRequest_Set skuv1_QueryProviderRequest_Mutable skuv1_QueryProviderRequest_NewField
    skuv1_QueryProviderRequest_new skuv1_QueryProviderRequest_GetUnknown skuv1_QueryProviderRequest_SetUnknown
    skuv1_QueryProviderRequest_getters.

(** ** QueryProviderResponse *)

Definition skuv1_QueryProviderResponse_fields : list string :=
  ["liftedinit.sku.v1.QueryProviderResponse.provider"]%string.

Definition skuv1_QueryProviderResponse_Range (S : Type) (p : option skuv1_QueryProviderResponse) (f : S → string → value → S * bool) (s : S) : res S :=
  x ← deref p;
  Ok (visit f
   [(not_nil (skuv1_QueryProviderResponse_Provider x), "liftedinit.sku.v1.QueryProviderResponse.provider"%string, VMessage (A_skuv1_Provider (skuv1_QueryProviderResponse_Provider x)))] s).

Definition skuv1_QueryProviderResponse_Has (p : option skuv1_QueryProviderResponse) (fd : string) : res bool :=
  x ← deref p;
  match field_number skuv1_QueryProviderResponse_fields fd with
  | 1 => Ok (not_nil (skuv1_QueryProviderResponse_Provider x))
  | _ => Panic
  end.

Definition skuv1_QueryProviderResponse_Clear (p : option skuv1_QueryProviderResponse) (fd : string) : res (option skuv1_QueryProviderResponse) :=
  x ← deref p;
  let 'mk_skuv1_QueryProviderResponse provider u := x in
  match field_number skuv1_QueryProviderResponse_fields fd with
  | 1 => Ok (Some (mk_skuv1_QueryProviderResponse None u))
  | _ => Panic
  end.

Definition skuv1_QueryProviderResponse_Get (p : option skuv1_QueryProviderResponse) (fd : string) : res value :=
  x ← deref p;
  match field_number skuv1_QueryProviderResponse_fields fd with
  | 1 => Ok (VMessage (A_skuv1_Provider (skuv1_QueryProviderResponse_Provider x)))
  | _ => Panic
  end.

Definition skuv1_QueryProviderResponse_Set (p : option skuv1_QueryProviderResponse) (fd : string) (value : value) : res (option skuv1_QueryProviderResponse) :=
  x ← deref p;
  let 'mk_skuv1_QueryProviderResponse provider u := x in
  match field_number skuv1_QueryProviderResponse_fields fd with
  | 1 => v ← as_skuv1_Provider value; Ok (Some (mk_skuv1_QueryProviderResponse v u))
  | _ => Panic
  end.

Definition skuv1_QueryProviderResponse_Mutable (p : option skuv1_QueryProviderResponse) (fd : string) : res (option skuv1_QueryProviderResponse * value) :=
  x ← deref p;
  let 'mk_skuv1_QueryProviderResponse provider u := x in
  match field_number skuv1_QueryProviderResponse_fields fd with
  | 1 => let v := match provider with None => Some skuv1_Provider_new | Some _ => provider end in
      Ok (Some (mk_skuv1_QueryProviderResponse v u), VMessage (A_skuv1_Provider v))
  | _ => Panic
  end.

Definition skuv1_QueryProviderResponse_NewField (fd : string) : res value :=
  match field_number skuv1_QueryProviderResponse_fields fd with
  | 1 => Ok (VMessage (A_skuv1_Provider (Some skuv1_Provider_new)))
  | _ => Panic
  end.

Definition skuv1_QueryProviderResponse_GetUnknown (p : option skuv1_QueryProviderResponse) : res bytes := x ← deref p; Ok (skuv1_QueryProviderResponse_unknownFields x).

Definition skuv1_QueryProviderResponse_SetUnknown (p : option skuv1_QueryProviderResponse) (fields : bytes) : res (option skuv1_QueryProviderResponse) :=
  x ← deref p;
  let 'mk_skuv1_QueryProviderResponse provider _ := x in
  Ok (Some (mk_skuv1_QueryProviderResponse provider fields)).

Definition skuv1_QueryProviderResponse_GetProvider (p : option skuv1_QueryProviderResponse) : option skuv1_Provider := match p with Some x => skuv1_QueryProviderResponse_Provider x | None => None end.

Definition skuv1_QueryProviderResponse_getters : list (string * (option skuv1_QueryProviderResponse → value)) :=
  [("liftedinit.sku.v1.QueryProviderResponse.provider", λ p, VMessage (A_skuv1_Provider (skuv1_QueryProviderResponse_GetProvider p)))]%string.

Definition skuv1_QueryProviderResponse_reflected : reflected :=
  mkReflected skuv1_QueryProviderResponse skuv1_QueryProviderResponse_fields skuv1_QueryProviderResponse_Range
    skuv1_QueryProviderResponse_Has skuv1_QueryProviderResponse_Clear skuv1_QueryProviderResponse_Get
    skuv1_QueryProviderResponse_Set skuv1_QueryProviderResponse_Mutable skuv1_QueryProviderResponse_NewField
    skuv1_QueryProviderResponse_new skuv1_QueryProviderResponse_GetUnknown skuv1_QueryProviderResponse_SetUnknown
    skuv1_QueryProviderResponse_getters.

(** ** QueryProvidersRequest *)

Definition skuv1_QueryProvidersRequest_fields : list string :=
  ["liftedinit.sku.v1.QueryProvidersRequest.pagination";
   "liftedinit.sku.v1.QueryProvidersRequest.active_only"]%string.

Definition skuv1_QueryProvidersRequest_Range (S : Type) (p : option skuv1_QueryProvidersRequest) (f : S → string → value → S * bool) (s : S) : res S :=
  x ← deref p;
  Ok (visit f
   [(not_nil (skuv1_QueryProvidersRequest_Pagination x), "liftedinit.sku.v1.QueryProvidersRequest.pagination"%string, VMessage (A_api_PageRequest (skuv1_QueryProvidersRequest_Pagination x)));
    ((skuv1_QueryProvidersRequest_ActiveOnly x), "liftedinit.sku.v1.QueryProvidersRequest.active_only"%string, VBool (skuv1_QueryProvidersRequest_ActiveOnly x))] s).

Definition skuv1_QueryProvidersRequest_Has (p : option skuv1_QueryProvidersRequest) (fd : string) : res bool :=
  x ← deref p;
  match field_number skuv1_QueryProvidersRequest_fields fd with
  | 1 => Ok (not_nil (skuv1_QueryProvidersRequest_Pagination x))
  | 2 => Ok ((skuv1_QueryProvidersRequest_ActiveOnly x))
  | _ => Panic
  end.

Definition skuv1_QueryProvidersRequest_Clear (p : option skuv1_QueryProvidersRequest) (fd : string) : res (option skuv1_QueryProvidersRequest) :=
  x ← deref p;
  let 'mk_skuv1_QueryProvidersRequest pagination activeOnly u := x in
  match field_number skuv1_QueryProvidersRequest_fields fd with
  | 1 => Ok (Some (mk_skuv1_QueryProvidersRequest None activeOnly u))
  | 2 => Ok (Some (mk_skuv1_QueryProvidersRequest pagination false u))
  | _ => Panic
  end.

Definition skuv1_QueryProvidersRequest_Get (p : option skuv1_QueryProvidersRequest) (fd : string) : res value :=
  x ← deref p;
  match field_number skuv1_QueryProvidersRequest_fields fd with
  | 1 => Ok (VMessage (A_api_PageRequest (skuv1_QueryProvidersRequest_Pagination x)))
  | 2 => Ok (VBool (skuv1_QueryProvidersRequest_ActiveOnly x))
  | _ => Panic
  end.

Definition skuv1_QueryProvidersRequest_Set (p : option skuv1_QueryProvidersRequest) (fd : string) (value : value) : res (option skuv1_QueryProvidersRequest) :=
  x ← deref p;
  let 'mk_skuv1_QueryProvidersRequest pagination activeOnly u := x in
  match field_number skuv1_QueryProvidersRequest_fields fd with
  | 1 => v ← as_api_PageRequest value; Ok (Some (mk_skuv1_QueryProvidersRequest v activeOnly u))
  | 2 => v ← as_bool value; Ok (Some (mk_skuv1_QueryProvidersRequest pagination v u))
  | _ => Panic
  end.

Definition skuv1_QueryProvidersRequest_Mutable (p : option skuv1_QueryProvidersRequest) (fd : string) : res (option skuv1_QueryProvidersRequest * value) :=
  x ← deref p;
  let 'mk_skuv1_QueryProvidersRequest pagination activeOnly u := x in
  match field_number skuv1_QueryProvidersRequest_fields fd with
  | 1 => let v := match pagination with None => Some api_PageRequest_new | Some _ => pagination end in
      Ok (Some (mk_skuv1_QueryProvidersRequest v activeOnly u), VMessage (A_api_PageRequest v))
  | _ => Panic
  end.

Definition skuv1_QueryProvidersRequest_NewField (fd : string) : res value :=
  match field_number skuv1_QueryProvidersRequest_fields fd with
  | 1 => Ok (VMessage (A_api_PageRequest (Some api_PageRequest_new)))
  | 2 => Ok (VBool false)
  | _ => Panic
  end.

Definition skuv1_QueryProvidersRequest_GetUnknown (p : option skuv1_QueryProvidersRequest) : res bytes := x ← deref p; Ok (skuv1_QueryProvidersRequest_unknownFields x).

Definition skuv1_QueryProvidersRequest_SetUnknown (p : option skuv1_QueryProvidersRequest) (fields : bytes) : res (option skuv1_QueryProvidersRequest) :=
  x ← deref p;
  let 'mk_skuv1_QueryProvidersRequest pagination activeOnly _ := x in
  Ok (Some (mk_skuv1_QueryProvidersRequest pagination activeOnly fields)).

Definition skuv1_QueryProvidersRequest_GetPagination (p : option skuv1_QueryProvidersRequest) : option api_PageRequest := match p with Some x => skuv1_QueryProvidersRequest_Pagination x | None => None end.
Definition skuv1_QueryProvidersRequest_GetActiveOnly (p : option skuv1_QueryProvidersRequest) : bool := match p with Some x => skuv1_QueryProvidersRequest_ActiveOnly x | None => false end.

Definition skuv1_QueryProvidersRequest_getters : list (string * (option skuv1_QueryProvidersRequest → value)) :=
  [("liftedinit.sku.v1.QueryProvidersRequest.pagination", λ p, VMessage (A_api_PageRequest (skuv1_QueryProvidersRequest_GetPagination p)));
   ("liftedinit.sku.v1.QueryProvidersRequest.active_only", λ p, VBool (skuv1_QueryProvidersRequest_GetActiveOnly p))]%string.

Definition skuv1_QueryProvidersRequest_reflected : reflected :=
  mkReflected skuv1_QueryProvidersRequest skuv1_QueryProvidersRequest_fields skuv1_QueryProvidersRequest_Range
    skuv1_QueryProvidersRequest_Has skuv1_QueryProvidersRequest_Clear skuv1_QueryProvidersRequest_Get
    skuv1_QueryProvidersRequest_Set skuv1_QueryProvidersRequest_Mutable skuv1_QueryProvidersRequest_NewField
    skuv1_QueryProvidersRequest_new skuv1_QueryProvidersRequest_GetUnknown skuv1_QueryProvidersRequest_SetUnknown
    skuv1_QueryProvidersRequest_getters.

(** ** QueryProvidersResponse *)

Definition skuv1_QueryProvidersResponse_fields : list string :=
  ["liftedinit.sku.v1.QueryProvidersResponse.providers";
   "liftedinit.sku.v1.QueryProvidersResponse.pagination"]%string.

Definition skuv1_QueryProvidersResponse_Range (S : Type) (p : option skuv1_QueryProvidersResponse) (f : S → string → value → S * bool) (s : S) : res S :=
  x ← deref p;
  Ok (visit f
   [(has_list (skuv1_QueryProvidersResponse_Providers x), "liftedinit.sku.v1.QueryProvidersResponse.providers"%string, VList (L_skuv1_QueryProvidersResponse_1 (Some (skuv1_QueryProvidersResponse_Providers x))));
    (not_nil (skuv1_QueryProvidersResponse_Pagination x), "liftedinit.sku.v1.QueryProvidersResponse.pagination"%string, VMessage (A_api_PageResponse (skuv1_QueryProvidersResponse_Pagination x)))] s).

Definition skuv1_QueryProvidersResponse_Has (p : option skuv1_QueryProvidersResponse) (fd : string) : res bool :=
  x ← deref p;
  match field_number skuv1_QueryProvidersResponse_fields fd with
  | 1 => Ok (has_list (skuv1_QueryProvidersResponse_Providers x))
  | 2 => Ok (not_nil (skuv1_QueryProvidersResponse_Pagination x))
  | _ => Panic
  end.

Definition skuv1_QueryProvidersResponse_Clear (p : option skuv1_QueryProvidersResponse) (fd : string) : res (option skuv1_QueryProvidersResponse) :=
  x ← deref p;
  let 'mk_skuv1_QueryProvidersResponse providers pagination u := x in
  match field_number skuv1_QueryProvidersResponse_fields fd with
  | 1 => Ok (Some (mk_skuv1_QueryProvidersResponse [] pagination u))
  | 2 => Ok (Some (mk_skuv1_QueryProvidersResponse providers None u))
  | _ => Panic
  end.

Definition skuv1_QueryProvidersResponse_Get (p : option skuv1_QueryProvidersResponse) (fd : string) : res value :=
  x ← deref p;
  match field_number skuv1_QueryProvidersResponse_fields fd with
  | 1 => Ok (VList (L_skuv1_QueryProvidersResponse_1 (view (skuv1_QueryProvidersResponse_Providers x))))
  | 2 => Ok (VMessage (A_api_PageResponse (skuv1_QueryProvidersResponse_Pagination x)))
  | _ => Panic
  end.

Definition skuv1_QueryProvidersResponse_Set (p : option skuv1_QueryProvidersResponse) (fd : string) (value : value) : res (option skuv1_QueryProvidersResponse) :=
  x ← deref p;
  let 'mk_skuv1_QueryProvidersResponse providers pagination u := x in
  match field_number skuv1_QueryProvidersResponse_fields fd with
  | 1 => v ← as_L_skuv1_QueryProvidersResponse_1 value; Ok (Some (mk_skuv1_QueryProvidersResponse v pagination u))
  | 2 => v ← as_api_PageResponse value; Ok (Some (mk_skuv1_QueryProvidersResponse providers v u))
  | _ => Panic
  end.

Definition skuv1_QueryProvidersResponse_Mutable (p : option skuv1_QueryProvidersResponse) (fd : string) : res (option skuv1_QueryProvidersResponse * value) :=
  x ← deref p;
  let 'mk_skuv1_QueryProvidersResponse providers pagination u := x in
  match field_number skuv1_QueryProvidersResponse_fields fd with
  | 1 => Ok (Some x, VList (L_skuv1_QueryProvidersResponse_1 (Some providers)))
  | 2 => let v := match pagination with None => Some api_PageResponse_new | Some _ => pagination end in
      Ok (Some (mk_skuv1_QueryProvidersResponse providers v u), VMessage (A_api_PageResponse v))
  | _ => Panic
  end.

Definition skuv1_QueryProvidersResponse_NewField (fd : string) : res value :=
  match field_number skuv1_QueryProvidersResponse_fields fd with
  | 1 => Ok (VList (L_skuv1_QueryProvidersResponse_1 (Some [])))
  | 2 => Ok (VMessage (A_api_PageResponse (Some api_PageResponse_new)))
  | _ => Panic
  end.

Definition skuv1_QueryProvidersResponse_GetUnknown (p : option skuv1_QueryProvidersResponse) : res bytes := x ← deref p; Ok (skuv1_QueryProvidersResponse_unknownFields x).

Definition skuv1_QueryProvidersResponse_SetUnknown (p : option skuv1_QueryProvidersResponse) (fields : bytes) : res (option skuv1_QueryProvidersResponse) :=
  x ← deref p;
  let 'mk_skuv1_QueryProvidersResponse providers pagination _ := x in
  Ok (Some (mk_skuv1_QueryProvidersResponse providers pagination fields)).

Definition skuv1_QueryProvidersResponse_GetProviders (p : option skuv1_QueryProvidersResponse) : list (option skuv1_Provider) := match p with Some x => skuv1_QueryProvidersResponse_Providers x | None => [] end.
Definition skuv1_QueryProvidersResponse_GetPagination (p : option skuv1_QueryProvidersResponse) : option api_PageResponse := match p with Some x => skuv1_QueryProvidersResponse_Pagination x | None => None end.

Definition skuv1_QueryProvidersResponse_getters : list (string * (option skuv1_QueryProvidersResponse → value)) :=
  [("liftedinit.sku.v1.QueryProvidersResponse.providers", λ p, VList (L_skuv1_QueryProvidersResponse_1 (view (skuv1_QueryProvidersResponse_GetProviders p))));
   ("liftedinit.sku.v1.QueryProvidersResponse.pagination", λ p, VMessage (A_api_PageResponse (skuv1_QueryProvidersResponse_GetPagination p)))]%string.

Definition skuv1_QueryProvidersResponse_reflected : reflected :=
  mkReflected skuv1_QueryProvidersResponse skuv1_QueryProvidersResponse_fields skuv1_QueryProvidersResponse_Range
    skuv1_QueryProvidersResponse_Has skuv1_QueryProvidersResponse_Clear skuv1_QueryProvidersResponse_Get
    skuv1_QueryProvidersResponse_Set skuv1_QueryProvidersResponse_Mutable skuv1_QueryProvidersResponse_NewField
    skuv1_QueryProvidersResponse_new skuv1_QueryProvidersResponse_GetUnknown skuv1_QueryProvidersResponse_SetUnknown
    skuv1_QueryProvidersResponse_getters.

Definition skuv1_QueryProvidersResponse_1_list : list_methods (option skuv1_Provider) :=
  message_list as_skuv1_Provider A_skuv1_Provider skuv1_Provider_new.

(** ** QuerySKURequest *)

Definition skuv1_QuerySKURequest_fields : list string :=
  ["liftedinit.sku.v1.QuerySKURequest.uuid"]%string.

Definition skuv1_QuerySKURequest_Range (S : Type) (p : option skuv1_QuerySKURequest) (f : S → string → value → S * bool) (s : S) : res S :=
  x ← deref p;
  Ok (visit f
   [(has_string (skuv1_QuerySKURequest_Uuid x), "liftedinit.sku.v1.QuerySKURequest.uuid"%string, VString (skuv1_QuerySKURequest_Uuid x))] s).

Definition skuv1_QuerySKURequest_Has (p : option skuv1_QuerySKURequest) (fd : string) : res bool :=
  x ← deref p;
  match field_number skuv1_QuerySKURequest_fields fd with
  | 1 => Ok (has_string (skuv1_QuerySKURequest_Uuid x))
  | _ => Panic
  end.

Definition skuv1_QuerySKURequest_Clear (p : option skuv1_QuerySKURequest) (fd : string) : res (option skuv1_QuerySKURequest) :=
  x ← deref p;
  let 'mk_skuv1_QuerySKURequest uuid u := x in
  match field_number skuv1_QuerySKURequest_fields fd with
  | 1 => Ok (Some (mk_skuv1_QuerySKURequest "" u))
  | _ => Panic
  end.

Definition skuv1_QuerySKURequest_Get (p : option skuv1_QuerySKURequest) (fd : string) : res value :=
  x ← deref p;
  match field_number skuv1_QuerySKURequest_fields fd with
  | 1 => Ok (VString (skuv1_QuerySKURequest_Uuid x))
  | _ => Panic
  end.

Definition skuv1_QuerySKURequest_Set (p : option skuv1_QuerySKURequest) (fd : string) (value : value) : res (option skuv1_QuerySKURequest) :=
  x ← deref p;
  let 'mk_skuv1_QuerySKURequest uuid u := x in
  match field_number skuv1_QuerySKURequest_fields fd with
  | 1 => v ← as_string value; Ok (Some (mk_skuv1_QuerySKURequest v u))
  | _ => Panic
  end.

Definition skuv1_QuerySKURequest_Mutable (p : option skuv1_QuerySKURequest) (fd : string) : res (option skuv1_QuerySKURequest * value) := Panic.

Definition skuv1_QuerySKURequest_NewField (fd : string) : res value :=
  match field_number skuv1_QuerySKURequest_fields fd with
  | 1 => Ok (VString "")
  | _ => Panic
  end.

Definition skuv1_QuerySKURequest_GetUnknown (p : option skuv1_QuerySKURequest) : res bytes := x ← deref p; Ok (skuv1_QuerySKURequest_unknownFields x).

Definition skuv1_QuerySKURequest_SetUnknown (p : option skuv1_QuerySKURequest) (fields : bytes) : res (option skuv1_QuerySKURequest) :=
  x ← deref p;
  let 'mk_skuv1_QuerySKURequest uuid _ := x in
  Ok (Some (mk_skuv1_QuerySKURequest uuid fields)).

Definition skuv1_QuerySKURequest_GetUuid (p : option skuv1_QuerySKURequest) : string := match p with Some x => skuv1_QuerySKURequest_Uuid x | None => "" end.

Definition skuv1_QuerySKURequest_getters : list (string * (option skuv1_QuerySKURequest → value)) :=
  [("liftedinit.sku.v1.QuerySKURequest.uuid", λ p, VString (skuv1_QuerySKURequest_GetUuid p))]%string.

Definition skuv1_QuerySKURequest_reflected : reflected :=
  mkReflected skuv1_QuerySKURequest skuv1_QuerySKURequest_fields skuv1_QuerySKURequest_Range skuv1_QuerySKURequest_Has
    skuv1_QuerySKURequest_Clear skuv1_QuerySKURequest_Get skuv1_QuerySKURequest_Set skuv1_QuerySKURequest_Mutable
    skuv1_QuerySKURequest_NewField skuv1_QuerySKURequest_new skuv1_QuerySKURequest_GetUnknown
    skuv1_QuerySKURequest_SetUnknown skuv1_QuerySKURequest_getters.

(** ** QuerySKUResponse *)

Definition skuv1_QuerySKUResponse_fields : list string :=
  ["liftedinit.sku.v1.QuerySKUResponse.sku"]%string.

Definition skuv1_QuerySKUResponse_Range (S : Type) (p : option skuv1_QuerySKUResponse) (f : S → string → value → S * bool) (s : S) : res S :=
  x ← deref p;
  Ok (visit f
   [(not_nil (skuv1_QuerySKUResponse_Sku x), "liftedinit.sku.v1.QuerySKUResponse.sku"%string, VMessage (A_skuv1_SKU (skuv1_QuerySKUResponse_Sku x)))] s).

Definition skuv1_QuerySKUResponse_Has (p : option skuv1_QuerySKUResponse) (fd : string) : res bool :=
  x ← deref p;
  match field_number skuv1_QuerySKUResponse_fields fd with
  | 1 => Ok (not_nil (skuv1_QuerySKUResponse_Sku x))
  | _ => Panic
  end.

Definition skuv1_QuerySKUResponse_Clear (p : option skuv1_QuerySKUResponse) (fd : string) : res (option skuv1_QuerySKUResponse) :=
  x ← deref p;
  let 'mk_skuv1_QuerySKUResponse sku u := x in
  match field_number skuv1_QuerySKUResponse_fields fd with
  | 1 => Ok (Some (mk_skuv1_QuerySKUResponse None u))
  | _ => Panic
  end.

Definition skuv1_QuerySKUResponse_Get (p : option skuv1_QuerySKUResponse) (fd : string) : res value :=
  x ← deref p;
  match field_number skuv1_QuerySKUResponse_fields fd with
  | 1 => Ok (VMessage (A_skuv1_SKU (skuv1_QuerySKUResponse_Sku x)))
  | _ => Panic
  end.

Definition skuv1_QuerySKUResponse_Set (p : option skuv1_QuerySKUResponse) (fd : string) (value : value) : res (option skuv1_QuerySKUResponse) :=
  x ← deref p;
  let 'mk_skuv1_QuerySKUResponse sku u := x in
  match field_number skuv1_QuerySKUResponse_fields fd with
  | 1 => v ← as_skuv1_SKU value; Ok (Some (mk_skuv1_QuerySKUResponse v u))
  | _ => Panic
  end.

Definition skuv1_QuerySKUResponse_Mutable (p : option skuv1_QuerySKUResponse) (fd : string) : res (option skuv1_QuerySKUResponse * value) :=
  x ← deref p;
  let 'mk_skuv1_QuerySKUResponse sku u := x in
  match field_number skuv1_QuerySKUResponse_fields fd with
  | 1 => let v := match sku with None => Some skuv1_SKU_new | Some _ => sku end in
      Ok (Some (mk_skuv1_QuerySKUResponse v u), VMessage (A_skuv1_SKU v))
  | _ => Panic
  end.

Definition skuv1_QuerySKUResponse_NewField (fd : string) : res value :=
  match field_number skuv1_QuerySKUResponse_fields fd with
  | 1 => Ok (VMessage (A_skuv1_SKU (Some skuv1_SKU_new)))
  | _ => Panic
  end.

Definition skuv1_QuerySKUResponse_GetUnknown (p : option skuv1_QuerySKUResponse) : res bytes := x ← deref p; Ok (skuv1_QuerySKUResponse_unknownFields x).

Definition skuv1_QuerySKUResponse_SetUnknown (p : option skuv1_QuerySKUResponse) (fields : bytes) : res (option skuv1_QuerySKUResponse) :=
  x ← deref p;
  let 'mk_skuv1_QuerySKUResponse sku _ := x in
  Ok (Some (mk_skuv1_QuerySKUResponse sku fields)).

Definition skuv1_QuerySKUResponse_GetSku (p : option skuv1_QuerySKUResponse) : option skuv1_SKU := match p with Some x => skuv1_QuerySKUResponse_Sku x | None => None end.

Definition skuv1_QuerySKUResponse_getters : list (string * (option skuv1_QuerySKUResponse → value)) :=
  [("liftedinit.sku.v1.QuerySKUResponse.sku", λ p, VMessage (A_skuv1_SKU (skuv1_QuerySKUResponse_GetSku p)))]%string.

Definition skuv1_QuerySKUResponse_reflected : reflected :=
  mkReflected skuv1_QuerySKUResponse skuv1_QuerySKUResponse_fields skuv1_QuerySKUResponse_Range
    skuv1_QuerySKUResponse_Has skuv1_QuerySKUResponse_Clear skuv1_QuerySKUResponse_Get skuv1_QuerySKUResponse_Set
    skuv1_QuerySKUResponse_Mutable skuv1_QuerySKUResponse_NewField skuv1_QuerySKUResponse_new
    skuv1_QuerySKUResponse_GetUnknown skuv1_QuerySKUResponse_SetUnknown skuv1_QuerySKUResponse_getters.

(** ** QuerySKUsRequest *)

Definition skuv1_QuerySKUsRequest_fields : list string :=
  ["liftedinit.sku.v1.QuerySKUsRequest.pagination";
   "liftedinit.sku.v1.QuerySKUsRequest.active_only"]%string.

Definition skuv1_QuerySKUsRequest_Range (S : Type) (p : option skuv1_QuerySKUsRequest) (f : S → string → value → S * bool) (s : S) : res S :=
  x ← deref p;
  Ok (visit f
   [(not_nil (skuv1_QuerySKUsRequest_Pagination x), "liftedinit.sku.v1.QuerySKUsRequest.pagination"%string, VMessage (A_api_PageRequest (skuv1_QuerySKUsRequest_Pagination x)));
    ((skuv1_QuerySKUsRequest_ActiveOnly x), "liftedinit.sku.v1.QuerySKUsRequest.active_only"%string, VBool (skuv1_QuerySKUsRequest_ActiveOnly x))] s).

Definition skuv1_QuerySKUsRequest_Has (p : option skuv1_QuerySKUsRequest) (fd : string) : res bool :=
  x ← deref p;
  match field_number skuv1_QuerySKUsRequest_fields fd with
  | 1 => Ok (not_nil (skuv1_QuerySKUsRequest_Pagination x))
  | 2 => Ok ((skuv1_QuerySKUsRequest_ActiveOnly x))
  | _ => Panic
  end.

Definition skuv1_QuerySKUsRequest_Clear (p : option skuv1_QuerySKUsRequest) (fd : string) : res (option skuv1_QuerySKUsRequest) :=
  x ← deref p;
  let 'mk_skuv1_QuerySKUsRequest pagination activeOnly u := x in
  match field_number skuv1_QuerySKUsRequest_fields fd with
  | 1 => Ok (Some (mk_skuv1_QuerySKUsRequest None activeOnly u))
  | 2 => Ok (Some (mk_skuv1_QuerySKUsRequest pagination false u))
  | _ => Panic
  end.

Definition skuv1_QuerySKUsRequest_Get (p : option skuv1_QuerySKUsRequest) (fd : string) : res value :=
  x ← deref p;
  match field_number skuv1_QuerySKUsRequest_fields fd with
  | 1 => Ok (VMessage (A_api_PageRequest (skuv1_QuerySKUsRequest_Pagination x)))
  | 2 => Ok (VBool (skuv1_QuerySKUsRequest_ActiveOnly x))
  | _ => Panic
  end.

Definition skuv1_QuerySKUsRequest_Set (p : option skuv1_QuerySKUsRequest) (fd : string) (value : value) : res (option skuv1_QuerySKUsRequest) :=
  x ← deref p;
  let 'mk_skuv1_QuerySKUsRequest pagination activeOnly u := x in
  match field_number skuv1_QuerySKUsRequest_fields fd with
  | 1 => v ← as_api_PageRequest value; Ok (Some (mk_skuv1_QuerySKUsRequest v activeOnly u))
  | 2 => v ← as_bool value; Ok (Some (mk_skuv1_QuerySKUsRequest pagination v u))
  | _ => Panic
  end.

Definition skuv1_QuerySKUsRequest_Mutable (p : option skuv1_QuerySKUsRequest) (fd : string) : res (option skuv1_QuerySKUsRequest * value) :=
  x ← deref p;
  let 'mk_skuv1_QuerySKUsRequest pagination activeOnly u := x in
  match field_number skuv1_QuerySKUsRequest_fields fd with
  | 1 => let v := match pagination with None => Some api_PageRequest_new | Some _ => pagination end in
      Ok (Some (mk_skuv1_QuerySKUsRequest v activeOnly u), VMessage (A_api_PageRequest v))
  | _ => Panic
  end.

Definition skuv1_QuerySKUsRequest_NewField (fd : string) : res value :=
  match field_number skuv1_QuerySKUsRequest_fields fd with
  | 1 => Ok (VMessage (A_api_PageRequest (Some api_PageRequest_new)))
  | 2 => Ok (VBool false)
  | _ => Panic
  end.

Definition skuv1_QuerySKUsRequest_GetUnknown (p : option skuv1_QuerySKUsRequest) : res bytes := x ← deref p; Ok (skuv1_QuerySKUsRequest_unknownFields x).

Definition skuv1_QuerySKUsRequest_SetUnknown (p : option skuv1_QuerySKUsRequest) (fields : bytes) : res (option skuv1_QuerySKUsRequest) :=
  x ← deref p;
  let 'mk_skuv1_QuerySKUsRequest pagination activeOnly _ := x in
  Ok (Some (mk_skuv1_QuerySKUsRequest pagination activeOnly fields)).

Definition skuv1_QuerySKUsRequest_GetPagination (p : option skuv1_QuerySKUsRequest) : option api_PageRequest := match p with Some x => skuv1_QuerySKUsRequest_Pagination x | None => None end.
Definition skuv1_QuerySKUsRequest_GetActiveOnly (p : option skuv1_QuerySKUsRequest) : bool := match p with Some x => skuv1_QuerySKUsRequest_ActiveOnly x | None => false end.

Definition skuv1_QuerySKUsRequest_getters : list (string * (option skuv1_QuerySKUsRequest → value)) :=
  [("liftedinit.sku.v1.QuerySKUsRequest.pagination", λ p, VMessage (A_api_PageRequest (skuv1_QuerySKUsRequest_GetPagination p)));
   ("liftedinit.sku.v1.QuerySKUsRequest.active_only", λ p, VBool (skuv1_QuerySKUsRequest_GetActiveOnly p))]%string.

Definition skuv1_QuerySKUsRequest_reflected : reflected :=
  mkReflected skuv1_QuerySKUsRequest skuv1_QuerySKUsRequest_fields skuv1_QuerySKUsRequest_Range
    skuv1_QuerySKUsRequest_Has skuv1_QuerySKUsRequest_Clear skuv1_QuerySKUsRequest_Get skuv1_QuerySKUsRequest_Set
    skuv1_QuerySKUsRequest_Mutable skuv1_QuerySKUsRequest_NewField skuv1_QuerySKUsRequest_new
    skuv1_QuerySKUsRequest_GetUnknown skuv1_QuerySKUsRequest_SetUnknown skuv1_QuerySKUsRequest_getters.

(** ** QuerySKUsResponse *)

Definition skuv1_QuerySKUsResponse_fields : list string :=
  ["liftedinit.sku.v1.QuerySKUsResponse.skus";
   "liftedinit.sku.v1.QuerySKUsResponse.pagination"]%string.

Definition skuv1_QuerySKUsResponse_Range (S : Type) (p : option skuv1_QuerySKUsResponse) (f : S → string → value → S * bool) (s : S) : res S :=
  x ← deref p;
  Ok (visit f
   [(has_list (skuv1_QuerySKUsResponse_Skus x), "liftedinit.sku.v1.QuerySKUsResponse.skus"%string, VList (L_skuv1_QuerySKUsResponse_1 (Some (skuv1_QuerySKUsResponse_Skus x))));
    (not_nil (skuv1_QuerySKUsResponse_Pagination x), "liftedinit.sku.v1.QuerySKUsResponse.pagination"%string, VMessage (A_api_PageResponse (skuv1_QuerySKUsResponse_Pagination x)))] s).

Definition skuv1_QuerySKUsResponse_Has (p : option skuv1_QuerySKUsResponse) (fd : string) : res bool :=
  x ← deref p;
  match field_number skuv1_QuerySKUsResponse_fields fd with
  | 1 => Ok (has_list (skuv1_QuerySKUsResponse_Skus x))
  | 2 => Ok (not_nil (skuv1_QuerySKUsResponse_Pagination x))
  | _ => Panic
  end.

Definition skuv1_QuerySKUsResponse_Clear (p : option skuv1_QuerySKUsResponse) (fd : string) : res (option skuv1_QuerySKUsResponse) :=
  x ← deref p;
  let 'mk_skuv1_QuerySKUsResponse skus pagination u := x in
  match field_number skuv1_QuerySKUsResponse_fields fd with
  | 1 => Ok (Some (mk_skuv1_QuerySKUsResponse [] pagination u))
  | 2 => Ok (Some (mk_skuv1_QuerySKUsResponse skus None u))
  | _ => Panic
  end.

Definition skuv1_QuerySKUsResponse_Get (p : option skuv1_QuerySKUsResponse) (fd : string) : res value :=
  x ← deref p;
  match field_number skuv1_QuerySKUsResponse_fields fd with
  | 1 => Ok (VList (L_skuv1_QuerySKUsResponse_1 (view (skuv1_QuerySKUsResponse_Skus x))))
  | 2 => Ok (VMessage (A_api_PageResponse (skuv1_QuerySKUsResponse_Pagination x)))
  | _ => Panic
  end.

Definition skuv1_QuerySKUsResponse_Set (p : option skuv1_QuerySKUsResponse) (fd : string) (value : value) : res (option skuv1_QuerySKUsResponse) :=
  x ← deref p;
  let 'mk_skuv1_QuerySKUsResponse skus pagination u := x in
  match field_number skuv1_QuerySKUsResponse_fields fd with
  | 1 => v ← as_L_skuv1_QuerySKUsResponse_1 value; Ok (Some (mk_skuv1_QuerySKUsResponse v pagination u))
  | 2 => v ← as_api_PageResponse value; Ok (Some (mk_skuv1_QuerySKUsResponse skus v u))
  | _ => Panic
  end.

Definition skuv1_QuerySKUsResponse_Mutable (p : option skuv1_QuerySKUsResponse) (fd : string) : res (option skuv1_QuerySKUsResponse * value) :=
  x ← deref p;
  let 'mk_skuv1_QuerySKUsResponse skus pagination u := x in
  match field_number skuv1_QuerySKUsResponse_fields fd with
  | 1 => Ok (Some x, VList (L_skuv1_QuerySKUsResponse_1 (Some skus)))
  | 2 => let v := match pagination with None => Some api_PageResponse_new | Some _ => pagination end in
      Ok (Some (mk_skuv1_QuerySKUsResponse skus v u), VMessage (A_api_PageResponse v))
  | _ => Panic
  end.

Definition skuv1_QuerySKUsResponse_NewField (fd : string) : res value :=
  match field_number skuv1_QuerySKUsResponse_fields fd with
  | 1 => Ok (VList (L_skuv1_QuerySKUsResponse_1 (Some [])))
  | 2 => Ok (VMessage (A_api_PageResponse (Some api_PageResponse_new)))
  | _ => Panic
  end.

Definition skuv1_QuerySKUsResponse_GetUnknown (p : option skuv1_QuerySKUsResponse) : res bytes := x ← deref p; Ok (skuv1_QuerySKUsResponse_unknownFields x).

Definition skuv1_QuerySKUsResponse_SetUnknown (p : option skuv1_QuerySKUsResponse) (fields : bytes) : res (option skuv1_QuerySKUsResponse) :=
  x ← deref p;
  let 'mk_skuv1_QuerySKUsResponse skus pagination _ := x in
  Ok (Some (mk_skuv1_QuerySKUsResponse skus pagination fields)).

Definition skuv1_QuerySKUsResponse_GetSkus (p : option skuv1_QuerySKUsResponse) : list (option skuv1_SKU) := match p with Some x => skuv1_QuerySKUsResponse_Skus x | None => [] end.
Definition skuv1_QuerySKUsResponse_GetPagination (p : option skuv1_QuerySKUsResponse) : option api_PageResponse := match p with Some x => skuv1_QuerySKUsResponse_Pagination x | None => None end.

Definition skuv1_QuerySKUsResponse_getters : list (string * (option skuv1_QuerySKUsResponse → value)) :=
  [("liftedinit.sku.v1.QuerySKUsResponse.skus", λ p, VList (L_skuv1_QuerySKUsResponse_1 (view (skuv1_QuerySKUsResponse_GetSkus p))));
   ("liftedinit.sku.v1.QuerySKUsResponse.pagination", λ p, VMessage (A_api_PageResponse (skuv1_QuerySKUsResponse_GetPagination p)))]%string.

Definition skuv1_QuerySKUsResponse_reflected : reflected :=
  mkReflected skuv1_QuerySKUsResponse skuv1_QuerySKUsResponse_fields skuv1_QuerySKUsResponse_Range
    skuv1_QuerySKUsResponse_Has skuv1_QuerySKUsResponse_Clear skuv1_QuerySKUsResponse_Get skuv1_QuerySKUsResponse_Set
    skuv1_QuerySKUsResponse_Mutable skuv1_QuerySKUsResponse_NewField skuv1_QuerySKUsResponse_new
    skuv1_QuerySKUsResponse_GetUnknown skuv1_QuerySKUsResponse_SetUnknown skuv1_QuerySKUsResponse_getters.

Definition skuv1_QuerySKUsResponse_1_list : list_methods (option skuv1_SKU) :=
  message_list as_skuv1_SKU A_skuv1_SKU skuv1_SKU_new.

(** ** QuerySKUsByProviderRequest *)

Definition skuv1_QuerySKUsByProviderRequest_fields : list string :=
  ["liftedinit.sku.v1.QuerySKUsByProviderRequest.provider_uuid";
   "liftedinit.sku.v1.QuerySKUsByProviderRequest.pagination";
   "liftedinit.sku.v1.QuerySKUsByProviderRequest.active_only"]%string.

Definition skuv1_QuerySKUsByProviderRequest_Range (S : Type) (p : option skuv1_QuerySKUsByProviderRequest) (f : S → string → value → S * bool) (s : S) : res S :=
  x ← deref p;
  Ok (visit f
   [(has_string (skuv1_QuerySKUsByProviderRequest_ProviderUuid x), "liftedinit.sku.v1.QuerySKUsByProviderRequest.provider_uuid"%string, VString (skuv1_QuerySKUsByProviderRequest_ProviderUuid x));
    (not_nil (skuv1_QuerySKUsByProviderRequest_Pagination x), "liftedinit.sku.v1.QuerySKUsByProviderRequest.pagination"%string, VMessage (A_api_PageRequest (skuv1_QuerySKUsByProviderRequest_Pagination x)));
    ((skuv1_QuerySKUsByProviderRequest_ActiveOnly x), "liftedinit.sku.v1.QuerySKUsByProviderRequest.active_only"%string, VBool (skuv1_QuerySKUsByProviderRequest_ActiveOnly x))] s).

Definition skuv1_QuerySKUsByProviderRequest_Has (p : option skuv1_QuerySKUsByProviderRequest) (fd : string) : res bool :=
  x ← deref p;
  match field_number skuv1_QuerySKUsByProviderRequest_fields fd with
  | 1 => Ok (has_string (skuv1_QuerySKUsByProviderRequest_ProviderUuid x))
  | 2 => Ok (not_nil (skuv1_QuerySKUsByProviderRequest_Pagination x))
  | 3 => Ok ((skuv1_QuerySKUsByProviderRequest_ActiveOnly x))
  | _ => Panic
  end.

Definition skuv1_QuerySKUsByProviderRequest_Clear (p : option skuv1_QuerySKUsByProviderRequest) (fd : string) : res (option skuv1_QuerySKUsByProviderRequest) :=
  x ← deref p;
  let 'mk_skuv1_QuerySKUsByProviderRequest providerUuid pagination activeOnly u := x in
  match field_number skuv1_QuerySKUsByProviderRequest_fields fd with
  | 1 => Ok (Some (mk_skuv1_QuerySKUsByProviderRequest "" pagination activeOnly u))
  | 2 => Ok (Some (mk_skuv1_QuerySKUsByProviderRequest providerUuid None activeOnly u))
  | 3 => Ok (Some (mk_skuv1_QuerySKUsByProviderRequest providerUuid pagination false u))
  | _ => Panic
  end.

Definition skuv1_QuerySKUsByProviderRequest_Get (p : option skuv1_QuerySKUsByProviderRequest) (fd : string) : res value :=
  x ← deref p;
  match field_number skuv1_QuerySKUsByProviderRequest_fields fd with
  | 1 => Ok (VString (skuv1_QuerySKUsByProviderRequest_ProviderUuid x))
  | 2 => Ok (VMessage (A_api_PageRequest (skuv1_QuerySKUsByProviderRequest_Pagination x)))
  | 3 => Ok (VBool (skuv1_QuerySKUsByProviderRequest_ActiveOnly x))
  | _ => Panic
  end.

Definition skuv1_QuerySKUsByProviderRequest_Set (p : option skuv1_QuerySKUsByProviderRequest) (fd : string) (value : value) : res (option skuv1_QuerySKUsByProviderRequest) :=
  x ← deref p;
  let 'mk_skuv1_QuerySKUsByProviderRequest providerUuid pagination activeOnly u := x in
  match field_number skuv1_QuerySKUsByProviderRequest_fields fd with
  | 1 => v ← as_string value; Ok (Some (mk_skuv1_QuerySKUsByProviderRequest v pagination activeOnly u))
  | 2 => v ← as_api_PageRequest value; Ok (Some (mk_skuv1_QuerySKUsByProviderRequest providerUuid v activeOnly u))
  | 3 => v ← as_bool value; Ok (Some (mk_skuv1_QuerySKUsByProviderRequest providerUuid pagination v u))
  | _ => Panic
  end.

Definition skuv1_QuerySKUsByProviderRequest_Mutable (p : option skuv1_QuerySKUsByProviderRequest) (fd : string) : res (option skuv1_QuerySKUsByProviderRequest * value) :=
  x ← deref p;
  let 'mk_skuv1_QuerySKUsByProviderRequest providerUuid pagination activeOnly u := x in
  match field_number skuv1_QuerySKUsByProviderRequest_fields fd with
  | 2 => let v := match pagination with None => Some api_PageRequest_new | Some _ => pagination end in
      Ok (Some (mk_skuv1_QuerySKUsByProviderRequest providerUuid v activeOnly u), VMessage (A_api_PageRequest v))
  | _ => Panic
  end.

Definition skuv1_QuerySKUsByProviderRequest_NewField (fd : string) : res value :=
  match field_number skuv1_QuerySKUsByProviderRequest_fields fd with
  | 1 => Ok (VString "")
  | 2 => Ok (VMessage (A_api_PageRequest (Some api_PageRequest_new)))
  | 3 => Ok (VBool false)
  | _ => Panic
  end.

Definition skuv1_QuerySKUsByProviderRequest_GetUnknown (p : option skuv1_QuerySKUsByProviderRequest) : res bytes := x ← deref p; Ok (skuv1_QuerySKUsByProviderRequest_unknownFields x).

Definition skuv1_QuerySKUsByProviderRequest_SetUnknown (p : option skuv1_QuerySKUsByProviderRequest) (fields : bytes) : res (option skuv1_QuerySKUsByProviderRequest) :=
  x ← deref p;
  let 'mk_skuv1_QuerySKUsByProviderRequest providerUuid pagination activeOnly _ := x in
  Ok (Some (mk_skuv1_QuerySKUsByProviderRequest providerUuid pagination activeOnly fields)).

Definition skuv1_QuerySKUsByProviderRequest_GetProviderUuid (p : option skuv1_QuerySKUsByProviderRequest) : string := match p with Some x => skuv1_QuerySKUsByProviderRequest_ProviderUuid x | None => "" end.
Definition skuv1_QuerySKUsByProviderRequest_GetPagination (p : option skuv1_QuerySKUsByProviderRequest) : option api_PageRequest := match p with Some x => skuv1_QuerySKUsByProviderRequest_Pagination x | None => None end.
Definition skuv1_QuerySKUsByProviderRequest_GetActiveOnly (p : option skuv1_QuerySKUsByProviderRequest) : bool := match p with Some x => skuv1_QuerySKUsByProviderRequest_ActiveOnly x | None => false end.

Definition skuv1_QuerySKUsByProviderRequest_getters : list (string * (option skuv1_QuerySKUsByProviderRequest → value)) :=
  [("liftedinit.sku.v1.QuerySKUsByProviderRequest.provider_uuid", λ p, VString (skuv1_QuerySKUsByProviderRequest_GetProviderUuid p));
   ("liftedinit.sku.v1.QuerySKUsByProviderRequest.pagination", λ p, VMessage (A_api_PageRequest (skuv1_QuerySKUsByProviderRequest_GetPagination p)));
   ("liftedinit.sku.v1.QuerySKUsByProviderRequest.active_only", λ p, VBool (skuv1_QuerySKUsByProviderRequest_GetActiveOnly p))]%string.

Definition skuv1_QuerySKUsByProviderRequest_reflected : reflected :=
  mkReflected skuv1_QuerySKUsByProviderRequest skuv1_QuerySKUsByProviderRequest_fields
    skuv1_QuerySKUsByProviderRequest_Range skuv1_QuerySKUsByProviderRequest_Has skuv1_QuerySKUsByProviderRequest_Clear
    skuv1_QuerySKUsByProviderRequest_Get skuv1_QuerySKUsByProviderRequest_Set skuv1_QuerySKUsByProviderRequest_Mutable
    skuv1_QuerySKUsByProviderRequest_NewField skuv1_QuerySKUsByProviderRequest_new
    skuv1_QuerySKUsByProviderRequest_GetUnknown skuv1_QuerySKUsByProviderRequest_SetUnknown
    skuv1_QuerySKUsByProviderRequest_getters.

(** ** QuerySKUsByProviderResponse *)

Definition skuv1_QuerySKUsByProviderResponse_fields : list string :=
  ["liftedinit.sku.v1.QuerySKUsByProviderResponse.skus";
   "liftedinit.sku.v1.QuerySKUsByProviderResponse.pagination"]%string.

Definition skuv1_QuerySKUsByProviderResponse_Range (S : Type) (p : option skuv1_QuerySKUsByProviderResponse) (f : S → string → value → S * bool) (s : S) : res S :=
  x ← deref p;
  Ok (visit f
   [(has_list (skuv1_QuerySKUsByProviderResponse_Skus x), "liftedinit.sku.v1.QuerySKUsByProviderResponse.skus"%string, VList (L_skuv1_QuerySKUsByProviderResponse_1 (Some (skuv1_QuerySKUsByProviderResponse_Skus x))));
    (not_nil (skuv1_QuerySKUsByProviderResponse_Pagination x), "liftedinit.sku.v1.QuerySKUsByProviderResponse.pagination"%string, VMessage (A_api_PageResponse (skuv1_QuerySKUsByProviderResponse_Pagination x)))] s).

Definition skuv1_QuerySKUsByProviderResponse_Has (p : option skuv1_QuerySKUsByProviderResponse) (fd : string) : res bool :=
  x ← deref p;
  match field_number skuv1_QuerySKUsByProviderResponse_fields fd with
  | 1 => Ok (has_list (skuv1_QuerySKUsByProviderResponse_Skus x))
  | 2 => Ok (not_nil (skuv1_QuerySKUsByProviderResponse_Pagination x))
  | _ => Panic
  end.

Definition skuv1_QuerySKUsByProviderResponse_Clear (p : option skuv1_QuerySKUsByProviderResponse) (fd : string) : res (option skuv1_QuerySKUsByProviderResponse) :=
  x ← deref p;
  let 'mk_skuv1_QuerySKUsByProviderResponse skus pagination u := x in
  match field_number skuv1_QuerySKUsByProviderResponse_fields fd with
  | 1 => Ok (Some (mk_skuv1_QuerySKUsByProviderResponse [] pagination u))
  | 2 => Ok (Some (mk_skuv1_QuerySKUsByProviderResponse skus None u))
  | _ => Panic
  end.

Definition skuv1_QuerySKUsByProviderResponse_Get (p : option skuv1_QuerySKUsByProviderResponse) (fd : string) : res value :=
  x ← deref p;
  match field_number skuv1_QuerySKUsByProviderResponse_fields fd with
  | 1 => Ok (VList (L_skuv1_QuerySKUsByProviderResponse_1 (view (skuv1_QuerySKUsByProviderResponse_Skus x))))
  | 2 => Ok (VMessage (A_api_PageResponse (skuv1_QuerySKUsByProviderResponse_Pagination x)))
  | _ => Panic
  end.

Definition skuv1_QuerySKUsByProviderResponse_Set (p : option skuv1_QuerySKUsByProviderResponse) (fd : string) (value : value) : res (option skuv1_QuerySKUsByProviderResponse) :=
  x ← deref p;
  let 'mk_skuv1_QuerySKUsByProviderResponse skus pagination u := x in
  match field_number skuv1_QuerySKUsByProviderResponse_fields fd with
  | 1 => v ← as_L_skuv1_QuerySKUsByProviderResponse_1 value; Ok (Some (mk_skuv1_QuerySKUsByProviderResponse v pagination u))
  | 2 => v ← as_api_PageResponse value; Ok (Some (mk_skuv1_QuerySKUsByProviderResponse skus v u))
  | _ => Panic
  end.

Definition skuv1_QuerySKUsByProviderResponse_Mutable (p : option skuv1_QuerySKUsByProviderResponse) (fd : string) : res (option skuv1_QuerySKUsByProviderResponse * value) :=
  x ← deref p;
  let 'mk_skuv1_QuerySKUsByProviderResponse skus pagination u := x in
  match field_number skuv1_QuerySKUsByProviderResponse_fields fd with
  | 1 => Ok (Some x, VList (L_skuv1_QuerySKUsByProviderResponse_1 (Some skus)))
  | 2 => let v := match pagination with None => Some api_PageResponse_new | Some _ => pagination end in
      Ok (Some (mk_skuv1_QuerySKUsByProviderResponse skus v u), VMessage (A_api_PageResponse v))
  | _ => Panic
  end.

Definition skuv1_QuerySKUsByProviderResponse_NewField (fd : string) : res value :=
  match field_number skuv1_QuerySKUsByProviderResponse_fields fd with
  | 1 => Ok (VList (L_skuv1_QuerySKUsByProviderResponse_1 (Some [])))
  | 2 => Ok (VMessage (A_api_PageResponse (Some api_PageResponse_new)))
  | _ => Panic
  end.

Definition skuv1_QuerySKUsByProviderResponse_GetUnknown (p : option skuv1_QuerySKUsByProviderResponse) : res bytes := x ← deref p; Ok (skuv1_QuerySKUsByProviderResponse_unknownFields x).

Definition skuv1_QuerySKUsByProviderResponse_SetUnknown (p : option skuv1_QuerySKUsByProviderResponse) (fields : bytes) : res (option skuv1_QuerySKUsByProviderResponse) :=
  x ← deref p;
  let 'mk_skuv1_QuerySKUsByProviderResponse skus pagination _ := x in
  Ok (Some (mk_skuv1_QuerySKUsByProviderResponse skus pagination fields)).

Definition skuv1_QuerySKUsByProviderResponse_GetSkus (p : option skuv1_QuerySKUsByProviderResponse) : list (option skuv1_SKU) := match p with Some x => skuv1_QuerySKUsByProviderResponse_Skus x | None => [] end.
Definition skuv1_QuerySKUsByProviderResponse_GetPagination (p : option skuv1_QuerySKUsByProviderResponse) : option api_PageResponse := match p with Some x => skuv1_QuerySKUsByProviderResponse_Pagination x | None => None end.

Definition skuv1_QuerySKUsByProviderResponse_getters : list (string * (option skuv1_QuerySKUsByProviderResponse → value)) :=
  [("liftedinit.sku.v1.QuerySKUsByProviderResponse.skus", λ p, VList (L_skuv1_QuerySKUsByProviderResponse_1 (view (skuv1_QuerySKUsByProviderResponse_GetSkus p))));
   ("liftedinit.sku.v1.QuerySKUsByProviderResponse.pagination", λ p, VMessage (A_api_PageResponse (skuv1_QuerySKUsByProviderResponse_GetPagination p)))]%string.

Definition skuv1_QuerySKUsByProviderResponse_reflected : reflected :=
  mkReflected skuv1_QuerySKUsByProviderResponse skuv1_QuerySKUsByProviderResponse_fields
    skuv1_QuerySKUsByProviderResponse_Range skuv1_QuerySKUsByProviderResponse_Has
    skuv1_QuerySKUsByProviderResponse_Clear skuv1_QuerySKUsByProviderResponse_Get
    skuv1_QuerySKUsByProviderResponse_Set skuv1_QuerySKUsByProviderResponse_Mutable
    skuv1_QuerySKUsByProviderResponse_NewField skuv1_QuerySKUsByProviderResponse_new
    skuv1_QuerySKUsByProviderResponse_GetUnknown skuv1_QuerySKUsByProviderResponse_SetUnknown
    skuv1_QuerySKUsByProviderResponse_getters.

Definition skuv1_QuerySKUsByProviderResponse_1_list : list_methods (option skuv1_SKU) :=
  message_list as_skuv1_SKU A_skuv1_SKU skuv1_SKU_new.

(** ** QueryProviderByAddressRequest *)

Definition skuv1_QueryProviderByAddressRequest_fields : list string :=
  ["liftedinit.sku.v1.QueryProviderByAddressRequest.address";
   "liftedinit.sku.v1.QueryProviderByAddressRequest.pagination";
   "liftedinit.sku.v1.QueryProviderByAddressRequest.active_only"]%string.

Definition skuv1_QueryProviderByAddressRequest_Range (S : Type) (p : option skuv1_QueryProviderByAddressRequest) (f : S → string → value → S * bool) (s : S) : res S :=
  x ← deref p;
  Ok (visit f
   [(has_string (skuv1_QueryProviderByAddressRequest_Address x), "liftedinit.sku.v1.QueryProviderByAddressRequest.address"%string, VString (skuv1_QueryProviderByAddressRequest_Address x));
    (not_nil (skuv1_QueryProviderByAddressRequest_Pagination x), "liftedinit.sku.v1.QueryProviderByAddressRequest.pagination"%string, VMessage (A_api_PageRequest (skuv1_QueryProviderByAddressRequest_Pagination x)));
    ((skuv1_QueryProviderByAddressRequest_ActiveOnly x), "liftedinit.sku.v1.QueryProviderByAddressRequest.active_only"%string, VBool (skuv1_QueryProviderByAddressRequest_ActiveOnly x))] s).

Definition skuv1_QueryProviderByAddressRequest_Has (p : option skuv1_QueryProviderByAddressRequest) (fd : string) : res bool :=
  x ← deref p;
  match field_number skuv1_QueryProviderByAddressRequest_fields fd with
  | 1 => Ok (has_string (skuv1_QueryProviderByAddressRequest_Address x))
  | 2 => Ok (not_nil (skuv1_QueryProviderByAddressRequest_Pagination x))
  | 3 => Ok ((skuv1_QueryProviderByAddressRequest_ActiveOnly x))
  | _ => Panic
  end.

Definition skuv1_QueryProviderByAddressRequest_Clear (p : option skuv1_QueryProviderByAddressRequest) (fd : string) : res (option skuv1_QueryProviderByAddressRequest) :=
  x ← deref p;
  let 'mk_skuv1_QueryProviderByAddressRequest address pagination activeOnly u := x in
  match field_number skuv1_QueryProviderByAddressRequest_fields fd with
  | 1 => Ok (Some (mk_skuv1_QueryProviderByAddressRequest "" pagination activeOnly u))
  | 2 => Ok (Some (mk_skuv1_QueryProviderByAddressRequest address None activeOnly u))
  | 3 => Ok (Some (mk_skuv1_QueryProviderByAddressRequest address pagination false u))
  | _ => Panic
  end.

Definition skuv1_QueryProviderByAddressRequest_Get (p : option skuv1_QueryProviderByAddressRequest) (fd : string) : res value :=
  x ← deref p;
  match field_number skuv1_QueryProviderByAddressRequest_fields fd with
  | 1 => Ok (VString (skuv1_QueryProviderByAddressRequest_Address x))
  | 2 => Ok (VMessage (A_api_PageRequest (skuv1_QueryProviderByAddressRequest_Pagination x)))
  | 3 => Ok (VBool (skuv1_QueryProviderByAddressRequest_ActiveOnly x))
  | _ => Panic
  end.

Definition skuv1_QueryProviderByAddressRequest_Set (p : option skuv1_QueryProviderByAddressRequest) (fd : string) (value : value) : res (option skuv1_QueryProviderByAddressRequest) :=
  x ← deref p;
  let 'mk_skuv1_QueryProviderByAddressRequest address pagination activeOnly u := x in
  match field_number skuv1_QueryProviderByAddressRequest_fields fd with
  | 1 => v ← as_string value; Ok (Some (mk_skuv1_QueryProviderByAddressRequest v pagination activeOnly u))
  | 2 => v ← as_api_PageRequest value; Ok (Some (mk_skuv1_QueryProviderByAddressRequest address v activeOnly u))
  | 3 => v ← as_bool value; Ok (Some (mk_skuv1_QueryProviderByAddressRequest address pagination v u))
  | _ => Panic
  end.

Definition skuv1_QueryProviderByAddressRequest_Mutable (p : option skuv1_QueryProviderByAddressRequest) (fd : string) : res (option skuv1_QueryProviderByAddressRequest * value) :=
  x ← deref p;
  let 'mk_skuv1_QueryProviderByAddressRequest address pagination activeOnly u := x in
  match field_number skuv1_QueryProviderByAddressRequest_fields fd with
  | 2 => let v := match pagination with None => Some api_PageRequest_new | Some _ => pagination end in
      Ok (Some (mk_skuv1_QueryProviderByAddressRequest address v activeOnly u), VMessage (A_api_PageRequest v))
  | _ => Panic
  end.

Definition skuv1_QueryProviderByAddressRequest_NewField (fd : string) : res value :=
  match field_number skuv1_QueryProviderByAddressRequest_fields fd with
  | 1 => Ok (VString "")
  | 2 => Ok (VMessage (A_api_PageRequest (Some api_PageRequest_new)))
  | 3 => Ok (VBool false)
  | _ => Panic
  end.

Definition skuv1_QueryProviderByAddressRequest_GetUnknown (p : option skuv1_QueryProviderByAddressRequest) : res bytes := x ← deref p; Ok (skuv1_QueryProviderByAddressRequest_unknownFields x).

Definition skuv1_QueryProviderByAddressRequest_SetUnknown (p : option skuv1_QueryProviderByAddressRequest) (fields : bytes) : res (option skuv1_QueryProviderByAddressRequest) :=
  x ← deref p;
  let 'mk_skuv1_QueryProviderByAddressRequest address pagination activeOnly _ := x in
  Ok (Some (mk_skuv1_QueryProviderByAddressRequest address pagination activeOnly fields)).

Definition skuv1_QueryProviderByAddressRequest_GetAddress (p : option skuv1_QueryProviderByAddressRequest) : string := match p with Some x => skuv1_QueryProviderByAddressRequest_Address x | None => "" end.
Definition skuv1_QueryProviderByAddressRequest_GetPagination (p : option skuv1_QueryProviderByAddressRequest) : option api_PageRequest := match p with Some x => skuv1_QueryProviderByAddressRequest_Pagination x | None => None end.
Definition skuv1_QueryProviderByAddressRequest_GetActiveOnly (p : option skuv1_QueryProviderByAddressRequest) : bool := match p with Some x => skuv1_QueryProviderByAddressRequest_ActiveOnly x | None => false end.

Definition skuv1_QueryProviderByAddressRequest_getters : list (string * (option skuv1_QueryProviderByAddressRequest → value)) :=
  [("liftedinit.sku.v1.QueryProviderByAddressRequest.address", λ p, VString (skuv1_QueryProviderByAddressRequest_GetAddress p));
   ("liftedinit.sku.v1.QueryProviderByAddressRequest.pagination", λ p, VMessage (A_api_PageRequest (skuv1_QueryProviderByAddressRequest_GetPagination p)));
   ("liftedinit.sku.v1.QueryProviderByAddressRequest.active_only", λ p, VBool (skuv1_QueryProviderByAddressRequest_GetActiveOnly p))]%string.

Definition skuv1_QueryProviderByAddressRequest_reflected : reflected :=
  mkReflected skuv1_QueryProviderByAddressRequest skuv1_QueryProviderByAddressRequest_fields
    skuv1_QueryProviderByAddressRequest_Range skuv1_QueryProviderByAddressRequest_Has
    skuv1_QueryProviderByAddressRequest_Clear skuv1_QueryProviderByAddressRequest_Get
    skuv1_QueryProviderByAddressRequest_Set skuv1_QueryProviderByAddressRequest_Mutable
    skuv1_QueryProviderByAddressRequest_NewField skuv1_QueryProviderByAddressRequest_new
    skuv1_QueryProviderByAddressRequest_GetUnknown skuv1_QueryProviderByAddressRequest_SetUnknown
    skuv1_QueryProviderByAddressRequest_getters.

(** ** QueryProviderByAddressResponse *)

Definition skuv1_QueryProviderByAddressResponse_fields : list string :=
  ["liftedinit.sku.v1.QueryProviderByAddressResponse.providers";
   "liftedinit.sku.v1.QueryProviderByAddressResponse.pagination"]%string.

Definition skuv1_QueryProviderByAddressResponse_Range (S : Type) (p : option skuv1_QueryProviderByAddressResponse) (f : S → string → value → S * bool) (s : S) : res S :=
  x ← deref p;
  Ok (visit f
   [(has_list (skuv1_QueryProviderByAddressResponse_Providers x), "liftedinit.sku.v1.QueryProviderByAddressResponse.providers"%string, VList (L_skuv1_QueryProviderByAddressResponse_1 (Some (skuv1_QueryProviderByAddressResponse_Providers x))));
    (not_nil (skuv1_QueryProviderByAddressResponse_Pagination x), "liftedinit.sku.v1.QueryProviderByAddressResponse.pagination"%string, VMessage (A_api_PageResponse (skuv1_QueryProviderByAddressResponse_Pagination x)))] s).

Definition skuv1_QueryProviderByAddressResponse_Has (p : option skuv1_QueryProviderByAddressResponse) (fd : string) : res bool :=
  x ← deref p;
  match field_number skuv1_QueryProviderByAddressResponse_fields fd with
  | 1 => Ok (has_list (skuv1_QueryProviderByAddressResponse_Providers x))
  | 2 => Ok (not_nil (skuv1_QueryProviderByAddressResponse_Pagination x))
  | _ => Panic
  end.

Definition skuv1_QueryProviderByAddressResponse_Clear (p : option skuv1_QueryProviderByAddressResponse) (fd : string) : res (option skuv1_QueryProviderByAddressResponse) :=
  x ← deref p;
  let 'mk_skuv1_QueryProviderByAddressResponse providers pagination u := x in
  match field_number skuv1_QueryProviderByAddressResponse_fields fd with
  | 1 => Ok (Some (mk_skuv1_QueryProviderByAddressResponse [] pagination u))
  | 2 => Ok (Some (mk_skuv1_QueryProviderByAddressResponse providers None u))
  | _ => Panic
  end.

Definition skuv1_QueryProviderByAddressResponse_Get (p : option skuv1_QueryProviderByAddressResponse) (fd : string) : res value :=
  x ← deref p;
  match field_number skuv1_QueryProviderByAddressResponse_fields fd with
  | 1 => Ok (VList (L_skuv1_QueryProviderByAddressResponse_1 (view (skuv1_QueryProviderByAddressResponse_Providers x))))
  | 2 => Ok (VMessage (A_api_PageResponse (skuv1_QueryProviderByAddressResponse_Pagination x)))
  | _ => Panic
  end.

Definition skuv1_QueryProviderByAddressResponse_Set (p : option skuv1_QueryProviderByAddressResponse) (fd : string) (value : value) : res (option skuv1_QueryProviderByAddressResponse) :=
  x ← deref p;
  let 'mk_skuv1_QueryProviderByAddressResponse providers pagination u := x in
  match field_number skuv1_QueryProviderByAddressResponse_fields fd with
  | 1 => v ← as_L_skuv1_QueryProviderByAddressResponse_1 value; Ok (Some (mk_skuv1_QueryProviderByAddressResponse v pagination u))
  | 2 => v ← as_api_PageResponse value; Ok (Some (mk_skuv1_QueryProviderByAddressResponse providers v u))
  | _ => Panic
  end.

Definition skuv1_QueryProviderByAddressResponse_Mutable (p : option skuv1_QueryProviderByAddressResponse) (fd : string) : res (option skuv1_QueryProviderByAddressResponse * value) :=
  x ← deref p;
  let 'mk_skuv1_QueryProviderByAddressResponse providers pagination u := x in
  match field_number skuv1_QueryProviderByAddressResponse_fields fd with
  | 1 => Ok (Some x, VList (L_skuv1_QueryProviderByAddressResponse_1 (Some providers)))
  | 2 => let v := match pagination with None => Some api_PageResponse_new | Some _ => pagination end in
      Ok (Some (mk_skuv1_QueryProviderByAddressResponse providers v u), VMessage (A_api_PageResponse v))
  | _ => Panic
  end.

Definition skuv1_QueryProviderByAddressResponse_NewField (fd : string) : res value :=
  match field_number skuv1_QueryProviderByAddressResponse_fields fd with
  | 1 => Ok (VList (L_skuv1_QueryProviderByAddressResponse_1 (Some [])))
  | 2 => Ok (VMessage (A_api_PageResponse (Some api_PageResponse_new)))
  | _ => Panic
  end.

Definition skuv1_QueryProviderByAddressResponse_GetUnknown (p : option skuv1_QueryProviderByAddressResponse) : res bytes := x ← deref p; Ok (skuv1_QueryProviderByAddressResponse_unknownFields x).

Definition skuv1_QueryProviderByAddressResponse_SetUnknown (p : option skuv1_QueryProviderByAddressResponse) (fields : bytes) : res (option skuv1_QueryProviderByAddressResponse) :=
  x ← deref p;
  let 'mk_skuv1_QueryProviderByAddressResponse providers pagination _ := x in
  Ok (Some (mk_skuv1_QueryProviderByAddressResponse providers pagination fields)).

Definition skuv1_QueryProviderByAddressResponse_GetProviders (p : option skuv1_QueryProviderByAddressResponse) : list (option skuv1_Provider) := match p with Some x => skuv1_QueryProviderByAddressResponse_Providers x | None => [] end.
Definition skuv1_QueryProviderByAddressResponse_GetPagination (p : option skuv1_QueryProviderByAddressResponse) : option api_PageResponse := match p with Some x => skuv1_QueryProviderByAddressResponse_Pagination x | None => None end.

Definition skuv1_QueryProviderByAddressResponse_getters : list (string * (option skuv1_QueryProviderByAddressResponse → value)) :=
  [("liftedinit.sku.v1.QueryProviderByAddressResponse.providers", λ p, VList (L_skuv1_QueryProviderByAddressResponse_1 (view (skuv1_QueryProviderByAddressResponse_GetProviders p))));
   ("liftedinit.sku.v1.QueryProviderByAddressResponse.pagination", λ p, VMessage (A_api_PageResponse (skuv1_QueryProviderByAddressResponse_GetPagination p)))]%string.

Definition skuv1_QueryProviderByAddressResponse_reflected : reflected :=
  mkReflected skuv1_QueryProviderByAddressResponse skuv1_QueryProviderByAddressResponse_fields
    skuv1_QueryProviderByAddressResponse_Range skuv1_QueryProviderByAddressResponse_Has
    skuv1_QueryProviderByAddressResponse_Clear skuv1_QueryProviderByAddressResponse_Get
    skuv1_QueryProviderByAddressResponse_Set skuv1_QueryProviderByAddressResponse_Mutable
    skuv1_QueryProviderByAddressResponse_NewField skuv1_QueryProviderByAddressResponse_new
    skuv1_QueryProviderByAddressResponse_GetUnknown skuv1_QueryProviderByAddressResponse_SetUnknown
    skuv1_QueryProviderByAddressResponse_getters.

Definition skuv1_QueryProviderByAddressResponse_1_list : list_methods (option skuv1_Provider) :=
  message_list as_skuv1_Provider A_skuv1_Provider skuv1_Provider_new.

(** ** GenesisState *)

Definition skuv1_GenesisState_fields : list string :=
  ["liftedinit.sku.v1.GenesisState.params";
   "liftedinit.sku.v1.GenesisState.providers";
   "liftedinit.sku.v1.GenesisState.skus";
   "liftedinit.sku.v1.GenesisState.provider_sequence";
   "liftedinit.sku.v1.GenesisState.sku_sequence"]%string.

Definition skuv1_GenesisState_Range (S : Type) (p : option skuv1_GenesisState) (f : S → string → value → S * bool) (s : S) : res S :=
  x ← deref p;
  Ok (visit f
   [(not_nil (skuv1_GenesisState_Params x), "liftedinit.sku.v1.GenesisState.params"%string, VMessage (A_skuv1_Params (skuv1_GenesisState_Params x)));
    (has_list (skuv1_GenesisState_Providers x), "liftedinit.sku.v1.GenesisState.providers"%string, VList (L_skuv1_GenesisState_2 (Some (skuv1_GenesisState_Providers x))));
    (has_list (skuv1_GenesisState_Skus x), "liftedinit.sku.v1.GenesisState.skus"%string, VList (L_skuv1_GenesisState_3 (Some (skuv1_GenesisState_Skus x))));
    (has_num (skuv1_GenesisState_ProviderSequence x), "liftedinit.sku.v1.GenesisState.provider_sequence"%string, VUint64 (skuv1_GenesisState_ProviderSequence x));
    (has_num (skuv1_GenesisState_SkuSequence x), "liftedinit.sku.v1.GenesisState.sku_sequence"%string, VUint64 (skuv1_GenesisState_SkuSequence x))] s).

Definition skuv1_GenesisState_Has (p : option skuv1_GenesisState) (fd : string) : res bool :=
  x ← deref p;
  match field_number skuv1_GenesisState_fields fd with
  | 1 => Ok (not_nil (skuv1_GenesisState_Params x))
  | 2 => Ok (has_list (skuv1_GenesisState_Providers x))
  | 3 => Ok (has_list (skuv1_GenesisState_Skus x))
  | 4 => Ok (has_num (skuv1_GenesisState_ProviderSequence x))
  | 5 => Ok (has_num (skuv1_GenesisState_SkuSequence x))
  | _ => Panic
  end.

Definition skuv1_GenesisState_Clear (p : option skuv1_GenesisState) (fd : string) : res (option skuv1_GenesisState) :=
  x ← deref p;
  let 'mk_skuv1_GenesisState params providers skus providerSequence skuSequence u := x in
  match field_number skuv1_GenesisState_fields fd with
  | 1 => Ok (Some (mk_skuv1_GenesisState None providers skus providerSequence skuSequence u))
  | 2 => Ok (Some (mk_skuv1_GenesisState params [] skus providerSequence skuSequence u))
  | 3 => Ok (Some (mk_skuv1_GenesisState params providers [] providerSequence skuSequence u))
  | 4 => Ok (Some (mk_skuv1_GenesisState params providers skus 0 skuSequence u))
  | 5 => Ok (Some (mk_skuv1_GenesisState params providers skus providerSequence 0 u))
  | _ => Panic
  end.

Definition skuv1_GenesisState_Get (p : option skuv1_GenesisState) (fd : string) : res value :=
  x ← deref p;
  match field_number skuv1_GenesisState_fields fd with
  | 1 => Ok (VMessage (A_skuv1_Params (skuv1_GenesisState_Params x)))
  | 2 => Ok (VList (L_skuv1_GenesisState_2 (view (skuv1_GenesisState_Providers x))))
  | 3 => Ok (VList (L_skuv1_GenesisState_3 (view (skuv1_GenesisState_Skus x))))
  | 4 => Ok (VUint64 (skuv1_GenesisState_ProviderSequence x))
  | 5 => Ok (VUint64 (skuv1_GenesisState_SkuSequence x))
  | _ => Panic
  end.

Definition skuv1_GenesisState_Set (p : option skuv1_GenesisState) (fd : string) (value : value) : res (option skuv1_GenesisState) :=
  x ← deref p;
  let 'mk_skuv1_GenesisState params providers skus providerSequence skuSequence u := x in
  match field_number skuv1_GenesisState_fields fd with
  | 1 => v ← as_skuv1_Params value; Ok (Some (mk_skuv1_GenesisState v providers skus providerSequence skuSequence u))
  | 2 => v ← as_L_skuv1_GenesisState_2 value; Ok (Some (mk_skuv1_GenesisState params v skus providerSequence skuSequence u))
  | 3 => v ← as_L_skuv1_GenesisState_3 value; Ok (Some (mk_skuv1_GenesisState params providers v providerSequence skuSequence u))
  | 4 => v ← as_uint value; Ok (Some (mk_skuv1_GenesisState params providers skus v skuSequence u))
  | 5 => v ← as_uint value; Ok (Some (mk_skuv1_GenesisState params providers skus providerSequence v u))
  | _ => Panic
  end.

Definition skuv1_GenesisState_Mutable (p : option skuv1_GenesisState) (fd : string) : res (option skuv1_GenesisState * value) :=
  x ← deref p;
  let 'mk_skuv1_GenesisState params providers skus providerSequence skuSequence u := x in
  match field_number skuv1_GenesisState_fields fd with
  | 1 => let v := match params with None => Some skuv1_Params_new | Some _ => params end in
      Ok (Some (mk_skuv1_GenesisState v providers skus providerSequence skuSequence u), VMessage (A_skuv1_Params v))
  | 2 => Ok (Some x, VList (L_skuv1_GenesisState_2 (Some providers)))
  | 3 => Ok (Some x, VList (L_skuv1_GenesisState_3 (Some skus)))
  | _ => Panic
  end.

Definition skuv1_GenesisState_NewField (fd : string) : res value :=
  match field_number skuv1_GenesisState_fields fd with
  | 1 => Ok (VMessage (A_skuv1_Params (Some skuv1_Params_new)))
  | 2 => Ok (VList (L_skuv1_GenesisState_2 (Some [])))
  | 3 => Ok (VList (L_skuv1_GenesisState_3 (Some [])))
  | 4 => Ok (VUint64 0)
  | 5 => Ok (VUint64 0)
  | _ => Panic
  end.

Definition skuv1_GenesisState_GetUnknown (p : option skuv1_GenesisState) : res bytes := x ← deref p; Ok (skuv1_GenesisState_unknownFields x).

Definition skuv1_GenesisState_SetUnknown (p : option skuv1_GenesisState) (fields : bytes) : res (option skuv1_GenesisState) :=
  x ← deref p;
  let 'mk_skuv1_GenesisState params providers skus providerSequence skuSequence _ := x in
  Ok (Some (mk_skuv1_GenesisState params providers skus providerSequence skuSequence fields)).

Definition skuv1_GenesisState_GetParams (p : option skuv1_GenesisState) : option skuv1_Params := match p with Some x => skuv1_GenesisState_Params x | None => None end.
Definition skuv1_GenesisState_GetProviders (p : option skuv1_GenesisState) : list (option skuv1_Provider) := match p with Some x => skuv1_GenesisState_Providers x | None => [] end.
Definition skuv1_GenesisState_GetSkus (p : option skuv1_GenesisState) : list (option skuv1_SKU) := match p with Some x => skuv1_GenesisState_Skus x | None => [] end.
Definition skuv1_GenesisState_GetProviderSequence (p : option skuv1_GenesisState) : Z := match p with Some x => skuv1_GenesisState_ProviderSequence x | None => 0 end.
Definition skuv1_GenesisState_GetSkuSequence (p : option skuv1_GenesisState) : Z := match p with Some x => skuv1_GenesisState_SkuSequence x | None => 0 end.

Definition skuv1_GenesisState_getters : list (string * (option skuv1_GenesisState → value)) :=
  [("liftedinit.sku.v1.GenesisState.params", λ p, VMessage (A_skuv1_Params (skuv1_GenesisState_GetParams p)));
   ("liftedinit.sku.v1.GenesisState.providers", λ p, VList (L_skuv1_GenesisState_2 (view (skuv1_GenesisState_GetProviders p))));
   ("liftedinit.sku.v1.GenesisState.skus", λ p, VList (L_skuv1_GenesisState_3 (view (skuv1_GenesisState_GetSkus p))));
   ("liftedinit.sku.v1.GenesisState.provider_sequence", λ p, VUint64 (skuv1_GenesisState_GetProviderSequence p));
   ("liftedinit.sku.v1.GenesisState.sku_sequence", λ p, VUint64 (skuv1_GenesisState_GetSkuSequence p))]%string.

Definition skuv1_GenesisState_reflected : reflected :=
  mkReflected skuv1_GenesisState skuv1_GenesisState_fields skuv1_GenesisState_Range skuv1_GenesisState_Has
    skuv1_GenesisState_Clear skuv1_GenesisState_Get skuv1_GenesisState_Set skuv1_GenesisState_Mutable
    skuv1_GenesisState_NewField skuv1_GenesisState_new skuv1_GenesisState_GetUnknown skuv1_GenesisState_SetUnknown
    skuv1_GenesisState_getters.

Definition skuv1_GenesisState_2_list : list_methods (option skuv1_Provider) :=
  message_list as_skuv1_Provider A_skuv1_Provider skuv1_Provider_new.

Definition skuv1_GenesisState_3_list : list_methods (option skuv1_SKU) :=
  message_list as_skuv1_SKU A_skuv1_SKU skuv1_SKU_new.

(** ** Module *)

Definition sku_modulev1_Module_fields : list string :=
  []%string.

Definition sku_modulev1_Module_Range (S : Type) (p : option sku_modulev1_Module) (f : S → string → value → S * bool) (s : S) : res S :=
  Ok (visit f [] s).

Definition sku_modulev1_Module_Has (p : option sku_modulev1_Module) (fd : string) : res bool := Panic.

Definition sku_modulev1_Module_Clear (p : option sku_modulev1_Module) (fd : string) : res (option sku_modulev1_Module) := Panic.

Definition sku_modulev1_Module_Get (p : option sku_modulev1_Module) (fd : string) : res value := Panic.

Definition sku_modulev1_Module_Set (p : option sku_modulev1_Module) (fd : string) (value : value) : res (option sku_modulev1_Module) := Panic.

Definition sku_modulev1_Module_Mutable (p : option sku_modulev1_Module) (fd : string) : res (option sku_modulev1_Module * value) := Panic.

Definition sku_modulev1_Module_NewField (fd : string) : res value := Panic.

Definition sku_modulev1_Module_GetUnknown (p : option sku_modulev1_Module) : res bytes := x ← deref p; Ok (sku_modulev1_Module_unknownFields x).

Definition sku_modulev1_Module_SetUnknown (p : option sku_modulev1_Module) (fields : bytes) : res (option sku_modulev1_Module) :=
  x ← deref p;
  let 'mk_sku_modulev1_Module _ := x in
  Ok (Some (mk_sku_modulev1_Module fields)).

Definition sku_modulev1_Module_getters : list (string * (option sku_modulev1_Module → value)) :=
  []%string.

Definition sku_modulev1_Module_reflected : reflected :=
  mkReflected sku_modulev1_Module sku_modulev1_Module_fields sku_modulev1_Module_Range sku_modulev1_Module_Has
    sku_modulev1_Module_Clear sku_modulev1_Module_Get sku_modulev1_Module_Set sku_modulev1_Module_Mutable
    sku_modulev1_Module_NewField sku_modulev1_Module_new sku_modulev1_Module_GetUnknown sku_modulev1_Module_SetUnknown
    sku_modulev1_Module_getters.

Definition sku_reflected : list reflected :=
  [skuv1_Params_reflected; skuv1_Provider_reflected; skuv1_SKU_reflected; skuv1_MsgCreateProvider_reflected;
   skuv1_MsgCreateProviderResponse_reflected; skuv1_MsgUpdateProvider_reflected;
   skuv1_MsgUpdateProviderResponse_reflected; skuv1_MsgDeactivateProvider_reflected;
   skuv1_MsgDeactivateProviderResponse_reflected; skuv1_MsgCreateSKU_reflected; skuv1_MsgCreateSKUResponse_reflected;
   skuv1_MsgUpdateSKU_reflected; skuv1_MsgUpdateSKUResponse_reflected; skuv1_MsgDeactivateSKU_reflected;
   skuv1_MsgDeactivateSKUResponse_reflected; skuv1_MsgUpdateParams_reflected; skuv1_MsgUpdateParamsResponse_reflected;
   skuv1_QueryParamsRequest_reflected; skuv1_QueryParamsResponse_reflected; skuv1_QueryProviderRequest_reflected;
   skuv1_QueryProviderResponse_reflected; skuv1_QueryProvidersRequest_reflected;
   skuv1_QueryProvidersResponse_reflected; skuv1_QuerySKURequest_reflected; skuv1_QuerySKUResponse_reflected;
   skuv1_QuerySKUsRequest_reflected; skuv1_QuerySKUsResponse_reflected; skuv1_QuerySKUsByProviderRequest_reflected;
   skuv1_QuerySKUsByProviderResponse_reflected; skuv1_QueryProviderByAddressRequest_reflected;
   skuv1_QueryProviderByAddressResponse_reflected; skuv1_GenesisState_reflected; sku_modulev1_Module_reflected].

Definition sku_lists `{ValueString} : list {T & list_methods T} :=
  [existT _ skuv1_Params_1_list; existT _ skuv1_QueryProvidersResponse_1_list; existT _
   skuv1_QuerySKUsResponse_1_list; existT _ skuv1_QuerySKUsByProviderResponse_1_list; existT _
   skuv1_QueryProviderByAddressResponse_1_list; existT _ skuv1_GenesisState_2_list; existT _
   skuv1_GenesisState_3_list].

(** ** Contracts *)

Lemma skuv1_Params_contract : contract skuv1_Params_reflected.
Proof.
  unfold skuv1_Params_reflected; solve_contract by unfold skuv1_Params_Range, skuv1_Params_Has, skuv1_Params_Clear,
    skuv1_Params_Get, skuv1_Params_Set, skuv1_Params_Mutable, skuv1_Params_NewField, skuv1_Params_GetUnknown,
    skuv1_Params_SetUnknown, skuv1_Params_getters.
Qed.

Lemma skuv1_Provider_contract : contract skuv1_Provider_reflected.
Proof.
  unfold skuv1_Provider_reflected; solve_contract by unfold skuv1_Provider_Range, skuv1_Provider_Has,
    skuv1_Provider_Clear, skuv1_Provider_Get, skuv1_Provider_Set, skuv1_Provider_Mutable, skuv1_Provider_NewField,
    skuv1_Provider_GetUnknown, skuv1_Provider_SetUnknown, skuv1_Provider_getters.
Qed.

Lemma skuv1_SKU_contract : contract skuv1_SKU_reflected.
Proof.
  unfold skuv1_SKU_reflected; solve_contract by unfold skuv1_SKU_Range, skuv1_SKU_Has, skuv1_SKU_Clear, skuv1_SKU_Get,
    skuv1_SKU_Set, skuv1_SKU_Mutable, skuv1_SKU_NewField, skuv1_SKU_GetUnknown, skuv1_SKU_SetUnknown,
    skuv1_SKU_getters.
Qed.

Lemma skuv1_MsgCreateProvider_contract : contract skuv1_MsgCreateProvider_reflected.
Proof.
  unfold skuv1_MsgCreateProvider_reflected; solve_contract by unfold skuv1_MsgCreateProvider_Range,
    skuv1_MsgCreateProvider_Has, skuv1_MsgCreateProvider_Clear, skuv1_MsgCreateProvider_Get,
    skuv1_MsgCreateProvider_Set, skuv1_MsgCreateProvider_Mutable, skuv1_MsgCreateProvider_NewField,
    skuv1_MsgCreateProvider_GetUnknown, skuv1_MsgCreateProvider_SetUnknown, skuv1_MsgCreateProvider_getters.
Qed.

Lemma skuv1_MsgCreateProviderResponse_contract : contract skuv1_MsgCreateProviderResponse_reflected.
Proof.
  unfold skuv1_MsgCreateProviderResponse_reflected; solve_contract by unfold skuv1_MsgCreateProviderResponse_Range,
    skuv1_MsgCreateProviderResponse_Has, skuv1_MsgCreateProviderResponse_Clear, skuv1_MsgCreateProviderResponse_Get,
    skuv1_MsgCreateProviderResponse_Set, skuv1_MsgCreateProviderResponse_Mutable,
    skuv1_MsgCreateProviderResponse_NewField, skuv1_MsgCreateProviderResponse_GetUnknown,
    skuv1_MsgCreateProviderResponse_SetUnknown, skuv1_MsgCreateProviderResponse_getters.
Qed.

Lemma skuv1_MsgUpdateProvider_contract : contract skuv1_MsgUpdateProvider_reflected.
Proof.
  unfold skuv1_MsgUpdateProvider_reflected; solve_contract by unfold skuv1_MsgUpdateProvider_Range,
    skuv1_MsgUpdateProvider_Has, skuv1_MsgUpdateProvider_Clear, skuv1_MsgUpdateProvider_Get,
    skuv1_MsgUpdateProvider_Set, skuv1_MsgUpdateProvider_Mutable, skuv1_MsgUpdateProvider_NewField,
    skuv1_MsgUpdateProvider_GetUnknown, skuv1_MsgUpdateProvider_SetUnknown, skuv1_MsgUpdateProvider_getters.
Qed.

Lemma skuv1_MsgUpdateProviderResponse_contract : contract skuv1_MsgUpdateProviderResponse_reflected.
Proof.
  unfold skuv1_MsgUpdateProviderResponse_reflected; solve_empty_contract by unfold
    skuv1_MsgUpdateProviderResponse_Range, skuv1_MsgUpdateProviderResponse_Has, skuv1_MsgUpdateProviderResponse_Clear,
    skuv1_MsgUpdateProviderResponse_Get, skuv1_MsgUpdateProviderResponse_Set, skuv1_MsgUpdateProviderResponse_Mutable,
    skuv1_MsgUpdateProviderResponse_NewField, skuv1_MsgUpdateProviderResponse_GetUnknown,
    skuv1_MsgUpdateProviderResponse_SetUnknown, skuv1_MsgUpdateProviderResponse_getters.
Qed.

Lemma skuv1_MsgDeactivateProvider_contract : contract skuv1_MsgDeactivateProvider_reflected.
Proof.
  unfold skuv1_MsgDeactivateProvider_reflected; solve_contract by unfold skuv1_MsgDeactivateProvider_Range,
    skuv1_MsgDeactivateProvider_Has, skuv1_MsgDeactivateProvider_Clear, skuv1_MsgDeactivateProvider_Get,
    skuv1_MsgDeactivateProvider_Set, skuv1_MsgDeactivateProvider_Mutable, skuv1_MsgDeactivateProvider_NewField,
    skuv1_MsgDeactivateProvider_GetUnknown, skuv1_MsgDeactivateProvider_SetUnknown,
    skuv1_MsgDeactivateProvider_getters.
Qed.

Lemma skuv1_MsgDeactivateProviderResponse_contract : contract skuv1_MsgDeactivateProviderResponse_reflected.
Proof.
  unfold skuv1_MsgDeactivateProviderResponse_reflected; solve_contract by unfold
    skuv1_MsgDeactivateProviderResponse_Range, skuv1_MsgDeactivateProviderResponse_Has,
    skuv1_MsgDeactivateProviderResponse_Clear, skuv1_MsgDeactivateProviderResponse_Get,
    skuv1_MsgDeactivateProviderResponse_Set, skuv1_MsgDeactivateProviderResponse_Mutable,
    skuv1_MsgDeactivateProviderResponse_NewField, skuv1_MsgDeactivateProviderResponse_GetUnknown,
    skuv1_MsgDeactivateProviderResponse_SetUnknown, skuv1_MsgDeactivateProviderResponse_getters.
Qed.

Lemma skuv1_MsgCreateSKU_contract : contract skuv1_MsgCreateSKU_reflected.
Proof.
  unfold skuv1_MsgCreateSKU_reflected; solve_contract by unfold skuv1_MsgCreateSKU_Range, skuv1_MsgCreateSKU_Has,
    skuv1_MsgCreateSKU_Clear, skuv1_MsgCreateSKU_Get, skuv1_MsgCreateSKU_Set, skuv1_MsgCreateSKU_Mutable,
    skuv1_MsgCreateSKU_NewField, skuv1_MsgCreateSKU_GetUnknown, skuv1_MsgCreateSKU_SetUnknown,
    skuv1_MsgCreateSKU_getters.
Qed.

Lemma skuv1_MsgCreateSKUResponse_contract : contract skuv1_MsgCreateSKUResponse_reflected.
Proof.
  unfold skuv1_MsgCreateSKUResponse_reflected; solve_contract by unfold skuv1_MsgCreateSKUResponse_Range,
    skuv1_MsgCreateSKUResponse_Has, skuv1_MsgCreateSKUResponse_Clear, skuv1_MsgCreateSKUResponse_Get,
    skuv1_MsgCreateSKUResponse_Set, skuv1_MsgCreateSKUResponse_Mutable, skuv1_MsgCreateSKUResponse_NewField,
    skuv1_MsgCreateSKUResponse_GetUnknown, skuv1_MsgCreateSKUResponse_SetUnknown, skuv1_MsgCreateSKUResponse_getters.
Qed.

Lemma skuv1_MsgUpdateSKU_contract : contract skuv1_MsgUpdateSKU_reflected.
Proof.
  unfold skuv1_MsgUpdateSKU_reflected; solve_contract by unfold skuv1_MsgUpdateSKU_Range, skuv1_MsgUpdateSKU_Has,
    skuv1_MsgUpdateSKU_Clear, skuv1_MsgUpdateSKU_Get, skuv1_MsgUpdateSKU_Set, skuv1_MsgUpdateSKU_Mutable,
    skuv1_MsgUpdateSKU_NewField, skuv1_MsgUpdateSKU_GetUnknown, skuv1_MsgUpdateSKU_SetUnknown,
    skuv1_MsgUpdateSKU_getters.
Qed.

Lemma skuv1_MsgUpdateSKUResponse_contract : contract skuv1_MsgUpdateSKUResponse_reflected.
Proof.
  unfold skuv1_MsgUpdateSKUResponse_reflected; solve_empty_contract by unfold skuv1_MsgUpdateSKUResponse_Range,
    skuv1_MsgUpdateSKUResponse_Has, skuv1_MsgUpdateSKUResponse_Clear, skuv1_MsgUpdateSKUResponse_Get,
    skuv1_MsgUpdateSKUResponse_Set, skuv1_MsgUpdateSKUResponse_Mutable, skuv1_MsgUpdateSKUResponse_NewField,
    skuv1_MsgUpdateSKUResponse_GetUnknown, skuv1_MsgUpdateSKUResponse_SetUnknown, skuv1_MsgUpdateSKUResponse_getters.
Qed.

Lemma skuv1_MsgDeactivateSKU_contract : contract skuv1_MsgDeactivateSKU_reflected.
Proof.
  unfold skuv1_MsgDeactivateSKU_reflected; solve_contract by unfold skuv1_MsgDeactivateSKU_Range,
    skuv1_MsgDeactivateSKU_Has, skuv1_MsgDeactivateSKU_Clear, skuv1_MsgDeactivateSKU_Get, skuv1_MsgDeactivateSKU_Set,
    skuv1_MsgDeactivateSKU_Mutable, skuv1_MsgDeactivateSKU_NewField, skuv1_MsgDeactivateSKU_GetUnknown,
    skuv1_MsgDeactivateSKU_SetUnknown, skuv1_MsgDeactivateSKU_getters.
Qed.

Lemma skuv1_MsgDeactivateSKUResponse_contract : contract skuv1_MsgDeactivateSKUResponse_reflected.
Proof.
  unfold skuv1_MsgDeactivateSKUResponse_reflected; solve_empty_contract by unfold
    skuv1_MsgDeactivateSKUResponse_Range, skuv1_MsgDeactivateSKUResponse_Has, skuv1_MsgDeactivateSKUResponse_Clear,
    skuv1_MsgDeactivateSKUResponse_Get, skuv1_MsgDeactivateSKUResponse_Set, skuv1_MsgDeactivateSKUResponse_Mutable,
    skuv1_MsgDeactivateSKUResponse_NewField, skuv1_MsgDeactivateSKUResponse_GetUnknown,
    skuv1_MsgDeactivateSKUResponse_SetUnknown, skuv1_MsgDeactivateSKUResponse_getters.
Qed.

Lemma skuv1_MsgUpdateParams_contract : contract skuv1_MsgUpdateParams_reflected.
Proof.
  unfold skuv1_MsgUpdateParams_reflected; solve_contract by unfold skuv1_MsgUpdateParams_Range,
    skuv1_MsgUpdateParams_Has, skuv1_MsgUpdateParams_Clear, skuv1_MsgUpdateParams_Get, skuv1_MsgUpdateParams_Set,
    skuv1_MsgUpdateParams_Mutable, skuv1_MsgUpdateParams_NewField, skuv1_MsgUpdateParams_GetUnknown,
    skuv1_MsgUpdateParams_SetUnknown, skuv1_MsgUpdateParams_getters.
Qed.

Lemma skuv1_MsgUpdateParamsResponse_contract : contract skuv1_MsgUpdateParamsResponse_reflected.
Proof.
  unfold skuv1_MsgUpdateParamsResponse_reflected; solve_empty_contract by unfold skuv1_MsgUpdateParamsResponse_Range,
    skuv1_MsgUpdateParamsResponse_Has, skuv1_MsgUpdateParamsResponse_Clear, skuv1_MsgUpdateParamsResponse_Get,
    skuv1_MsgUpdateParamsResponse_Set, skuv1_MsgUpdateParamsResponse_Mutable, skuv1_MsgUpdateParamsResponse_NewField,
    skuv1_MsgUpdateParamsResponse_GetUnknown, skuv1_MsgUpdateParamsResponse_SetUnknown,
    skuv1_MsgUpdateParamsResponse_getters.
Qed.

Lemma skuv1_QueryParamsRequest_contract : contract skuv1_QueryParamsRequest_reflected.
Proof.
  unfold skuv1_QueryParamsRequest_reflected; solve_empty_contract by unfold skuv1_QueryParamsRequest_Range,
    skuv1_QueryParamsRequest_Has, skuv1_QueryParamsRequest_Clear, skuv1_QueryParamsRequest_Get,
    skuv1_QueryParamsRequest_Set, skuv1_QueryParamsRequest_Mutable, skuv1_QueryParamsRequest_NewField,
    skuv1_QueryParamsRequest_GetUnknown, skuv1_QueryParamsRequest_SetUnknown, skuv1_QueryParamsRequest_getters.
Qed.

Lemma skuv1_QueryParamsResponse_contract : contract skuv1_QueryParamsResponse_reflected.
Proof.
  unfold skuv1_QueryParamsResponse_reflected; solve_contract by unfold skuv1_QueryParamsResponse_Range,
    skuv1_QueryParamsResponse_Has, skuv1_QueryParamsResponse_Clear, skuv1_QueryParamsResponse_Get,
    skuv1_QueryParamsResponse_Set, skuv1_QueryParamsResponse_Mutable, skuv1_QueryParamsResponse_NewField,
    skuv1_QueryParamsResponse_GetUnknown, skuv1_QueryParamsResponse_SetUnknown, skuv1_QueryParamsResponse_getters.
Qed.

Lemma skuv1_QueryProviderRequest_contract : contract skuv1_QueryProviderRequest_reflected.
Proof.
  unfold skuv1_QueryProviderRequest_reflected; solve_contract by unfold skuv1_QueryProviderRequest_Range,
    skuv1_QueryProviderRequest_Has, skuv1_QueryProviderRequest_Clear, skuv1_QueryProviderRequest_Get,
    skuv1_QueryProviderRequest_Set, skuv1_QueryProviderRequest_Mutable, skuv1_QueryProviderRequest_NewField,
    skuv1_QueryProviderRequest_GetUnknown, skuv1_QueryProviderRequest_SetUnknown, skuv1_QueryProviderRequest_getters.
Qed.

Lemma skuv1_QueryProviderResponse_contract : contract skuv1_QueryProviderResponse_reflected.
Proof.
  unfold skuv1_QueryProviderResponse_reflected; solve_contract by unfold skuv1_QueryProviderResponse_Range,
    skuv1_QueryProviderResponse_Has, skuv1_QueryProviderResponse_Clear, skuv1_QueryProviderResponse_Get,
    skuv1_QueryProviderResponse_Set, skuv1_QueryProviderResponse_Mutable, skuv1_QueryProviderResponse_NewField,
    skuv1_QueryProviderResponse_GetUnknown, skuv1_QueryProviderResponse_SetUnknown,
    skuv1_QueryProviderResponse_getters.
Qed.

Lemma skuv1_QueryProvidersRequest_contract : contract skuv1_QueryProvidersRequest_reflected.
Proof.
  unfold skuv1_QueryProvidersRequest_reflected; solve_contract by unfold skuv1_QueryProvidersRequest_Range,
    skuv1_QueryProvidersRequest_Has, skuv1_QueryProvidersRequest_Clear, skuv1_QueryProvidersRequest_Get,
    skuv1_QueryProvidersRequest_Set, skuv1_QueryProvidersRequest_Mutable, skuv1_QueryProvidersRequest_NewField,
    skuv1_QueryProvidersRequest_GetUnknown, skuv1_QueryProvidersRequest_SetUnknown,
    skuv1_QueryProvidersRequest_getters.
Qed.

Lemma skuv1_QueryProvidersResponse_contract : contract skuv1_QueryProvidersResponse_reflected.
Proof.
  unfold skuv1_QueryProvidersResponse_reflected; solve_contract by unfold skuv1_QueryProvidersResponse_Range,
    skuv1_QueryProvidersResponse_Has, skuv1_QueryProvidersResponse_Clear, skuv1_QueryProvidersResponse_Get,
    skuv1_QueryProvidersResponse_Set, skuv1_QueryProvidersResponse_Mutable, skuv1_QueryProvidersResponse_NewField,
    skuv1_QueryProvidersResponse_GetUnknown, skuv1_QueryProvidersResponse_SetUnknown,
    skuv1_QueryProvidersResponse_getters.
Qed.

Lemma skuv1_QuerySKURequest_contract : contract skuv1_QuerySKURequest_reflected.
Proof.
  unfold skuv1_QuerySKURequest_reflected; solve_contract by unfold skuv1_QuerySKURequest_Range,
    skuv1_QuerySKURequest_Has, skuv1_QuerySKURequest_Clear, skuv1_QuerySKURequest_Get, skuv1_QuerySKURequest_Set,
    skuv1_QuerySKURequest_Mutable, skuv1_QuerySKURequest_NewField, skuv1_QuerySKURequest_GetUnknown,
    skuv1_QuerySKURequest_SetUnknown, skuv1_QuerySKURequest_getters.
Qed.

Lemma skuv1_QuerySKUResponse_contract : contract skuv1_QuerySKUResponse_reflected.
Proof.
  unfold skuv1_QuerySKUResponse_reflected; solve_contract by unfold skuv1_QuerySKUResponse_Range,
    skuv1_QuerySKUResponse_Has, skuv1_QuerySKUResponse_Clear, skuv1_QuerySKUResponse_Get, skuv1_QuerySKUResponse_Set,
    skuv1_QuerySKUResponse_Mutable, skuv1_QuerySKUResponse_NewField, skuv1_QuerySKUResponse_GetUnknown,
    skuv1_QuerySKUResponse_SetUnknown, skuv1_QuerySKUResponse_getters.
Qed.

Lemma skuv1_QuerySKUsRequest_contract : contract skuv1_QuerySKUsRequest_reflected.
Proof.
  unfold skuv1_QuerySKUsRequest_reflected; solve_contract by unfold skuv1_QuerySKUsRequest_Range,
    skuv1_QuerySKUsRequest_Has, skuv1_QuerySKUsRequest_Clear, skuv1_QuerySKUsRequest_Get, skuv1_QuerySKUsRequest_Set,
    skuv1_QuerySKUsRequest_Mutable, skuv1_QuerySKUsRequest_NewField, skuv1_QuerySKUsRequest_GetUnknown,
    skuv1_QuerySKUsRequest_SetUnknown, skuv1_QuerySKUsRequest_getters.
Qed.

Lemma skuv1_QuerySKUsResponse_contract : contract skuv1_QuerySKUsResponse_reflected.
Proof.
  unfold skuv1_QuerySKUsResponse_reflected; solve_contract by unfold skuv1_QuerySKUsResponse_Range,
    skuv1_QuerySKUsResponse_Has, skuv1_QuerySKUsResponse_Clear, skuv1_QuerySKUsResponse_Get,
    skuv1_QuerySKUsResponse_Set, skuv1_QuerySKUsResponse_Mutable, skuv1_QuerySKUsResponse_NewField,
    skuv1_QuerySKUsResponse_GetUnknown, skuv1_QuerySKUsResponse_SetUnknown, skuv1_QuerySKUsResponse_getters.
Qed.

Lemma skuv1_QuerySKUsByProviderRequest_contract : contract skuv1_QuerySKUsByProviderRequest_reflected.
Proof.
  unfold skuv1_QuerySKUsByProviderRequest_reflected; solve_contract by unfold skuv1_QuerySKUsByProviderRequest_Range,
    skuv1_QuerySKUsByProviderRequest_Has, skuv1_QuerySKUsByProviderRequest_Clear,
    skuv1_QuerySKUsByProviderRequest_Get, skuv1_QuerySKUsByProviderRequest_Set,
    skuv1_QuerySKUsByProviderRequest_Mutable, skuv1_QuerySKUsByProviderRequest_NewField,
    skuv1_QuerySKUsByProviderRequest_GetUnknown, skuv1_QuerySKUsByProviderRequest_SetUnknown,
    skuv1_QuerySKUsByProviderRequest_getters.
Qed.

Lemma skuv1_QuerySKUsByProviderResponse_contract : contract skuv1_QuerySKUsByProviderResponse_reflected.
Proof.
  unfold skuv1_QuerySKUsByProviderResponse_reflected; solve_contract by unfold
    skuv1_QuerySKUsByProviderResponse_Range, skuv1_QuerySKUsByProviderResponse_Has,
    skuv1_QuerySKUsByProviderResponse_Clear, skuv1_QuerySKUsByProviderResponse_Get,
    skuv1_QuerySKUsByProviderResponse_Set, skuv1_QuerySKUsByProviderResponse_Mutable,
    skuv1_QuerySKUsByProviderResponse_NewField, skuv1_QuerySKUsByProviderResponse_GetUnknown,
    skuv1_QuerySKUsByProviderResponse_SetUnknown, skuv1_QuerySKUsByProviderResponse_getters.
Qed.

Lemma skuv1_QueryProviderByAddressRequest_contract : contract skuv1_QueryProviderByAddressRequest_reflected.
Proof.
  unfold skuv1_QueryProviderByAddressRequest_reflected; solve_contract by unfold
    skuv1_QueryProviderByAddressRequest_Range, skuv1_QueryProviderByAddressRequest_Has,
    skuv1_QueryProviderByAddressRequest_Clear, skuv1_QueryProviderByAddressRequest_Get,
    skuv1_QueryProviderByAddressRequest_Set, skuv1_QueryProviderByAddressRequest_Mutable,
    skuv1_QueryProviderByAddressRequest_NewField, skuv1_QueryProviderByAddressRequest_GetUnknown,
    skuv1_QueryProviderByAddressRequest_SetUnknown, skuv1_QueryProviderByAddressRequest_getters.
Qed.

Lemma skuv1_QueryProviderByAddressResponse_contract : contract skuv1_QueryProviderByAddressResponse_reflected.
Proof.
  unfold skuv1_QueryProviderByAddressResponse_reflected; solve_contract by unfold
    skuv1_QueryProviderByAddressResponse_Range, skuv1_QueryProviderByAddressResponse_Has,
    skuv1_QueryProviderByAddressResponse_Clear, skuv1_QueryProviderByAddressResponse_Get,
    skuv1_QueryProviderByAddressResponse_Set, skuv1_QueryProviderByAddressResponse_Mutable,
    skuv1_QueryProviderByAddressResponse_NewField, skuv1_QueryProviderByAddressResponse_GetUnknown,
    skuv1_QueryProviderByAddressResponse_SetUnknown, skuv1_QueryProviderByAddressResponse_getters.
Qed.

Lemma skuv1_GenesisState_contract : contract skuv1_GenesisState_reflected.
Proof.
  unfold skuv1_GenesisState_reflected; solve_contract by unfold skuv1_GenesisState_Range, skuv1_GenesisState_Has,
    skuv1_GenesisState_Clear, skuv1_GenesisState_Get, skuv1_GenesisState_Set, skuv1_GenesisState_Mutable,
    skuv1_GenesisState_NewField, skuv1_GenesisState_GetUnknown, skuv1_GenesisState_SetUnknown,
    skuv1_GenesisState_getters.
Qed.

Lemma sku_modulev1_Module_contract : contract sku_modulev1_Module_reflected.
Proof.
  unfold sku_modulev1_Module_reflected; solve_empty_contract by unfold sku_modulev1_Module_Range,
    sku_modulev1_Module_Has, sku_modulev1_Module_Clear, sku_modulev1_Module_Get, sku_modulev1_Module_Set,
    sku_modulev1_Module_Mutable, sku_modulev1_Module_NewField, sku_modulev1_Module_GetUnknown,
    sku_modulev1_Module_SetUnknown, sku_modulev1_Module_getters.
Qed.

Lemma sku_reflected_contract : Forall contract sku_reflected.
Proof.
  repeat apply Forall_cons_2; try apply Forall_nil_2.
  - apply skuv1_Params_contract.
  - apply skuv1_Provider_contract.
  - apply skuv1_SKU_contract.
  - apply skuv1_MsgCreateProvider_contract.
  - apply skuv1_MsgCreateProviderResponse_contract.
  - apply skuv1_MsgUpdateProvider_contract.
  - apply skuv1_MsgUpdateProviderResponse_contract.
  - apply skuv1_MsgDeactivateProvider_contract.
  - apply skuv1_MsgDeactivateProviderResponse_contract.
  - apply skuv1_MsgCreateSKU_contract.
  - apply skuv1_MsgCreateSKUResponse_contract.
  - apply skuv1_MsgUpdateSKU_contract.
  - apply skuv1_MsgUpdateSKUResponse_contract.
  - apply skuv1_MsgDeactivateSKU_contract.
  - apply skuv1_MsgDeactivateSKUResponse_contract.
  - apply skuv1_MsgUpdateParams_contract.
  - apply skuv1_MsgUpdateParamsResponse_contract.
  - apply skuv1_QueryParamsRequest_contract.
  - apply skuv1_QueryParamsResponse_contract.
  - apply skuv1_QueryProviderRequest_contract.
  - apply skuv1_QueryProviderResponse_contract.
  - apply skuv1_QueryProvidersRequest_contract.
  - apply skuv1_QueryProvidersResponse_contract.
  - apply skuv1_QuerySKURequest_contract.
  - apply skuv1_QuerySKUResponse_contract.
  - apply skuv1_QuerySKUsRequest_contract.
  - apply skuv1_QuerySKUsResponse_contract.
  - apply skuv1_QuerySKUsByProviderRequest_contract.
  - apply skuv1_QuerySKUsByProviderResponse_contract.
  - apply skuv1_QueryProviderByAddressRequest_contract.
  - apply skuv1_QueryProviderByAddressResponse_contract.
  - apply skuv1_GenesisState_contract.
  - apply sku_modulev1_Module_contract.
Qed.

Lemma sku_lists_contract `{ValueStringLaws} : Forall (λ L, list_contract (projT2 L)) sku_lists.
Proof. solve_lists. Qed.
