(* ===== verification/ReflectBilling.v ===== *)
(** * Reflection over the API messages of the billing module: types, genesis and transactions

    Range, Has, Clear, Get, Set, Mutable and NewField of every message, and the methods of its list types;
    then the proofs that each meets the contract of protoreflect.Message. *)

From stdpp Require Import base tactics option list strings.
From Stdlib Require Import ZArith Lia Ascii.
From S2P Require Import Prelude Wire Pulsar ApiExternal ApiManifest ApiSku ApiSkuQuery ApiBilling ApiBillingTx ApiBillingQuery Reflect.
Open Scope Z_scope.

(** ** Params *)

Definition billingv1_Params_fields : list string :=
  ["liftedinit.billing.v1.Params.max_leases_per_tenant";
   "liftedinit.billing.v1.Params.allowed_list";
   "liftedinit.billing.v1.Params.max_items_per_lease";
   "liftedinit.billing.v1.Params.min_lease_duration";
   "liftedinit.billing.v1.Params.max_pending_leases_per_tenant";
   "liftedinit.billing.v1.Params.pending_timeout";
   "liftedinit.billing.v1.Params.reserved_domain_suffixes"]%string.

Definition billingv1_Params_Range (S : Type) (p : option billingv1_Params) (f : S → string → value → S * bool) (s : S) : res S :=
  x ← deref p;
  Ok (visit f
   [(has_num (billingv1_Params_MaxLeasesPerTenant x), "liftedinit.billing.v1.Params.max_leases_per_tenant"%string, VUint64 (billingv1_Params_MaxLeasesPerTenant x));
    (has_list (billingv1_Params_AllowedList x), "liftedinit.billing.v1.Params.allowed_list"%string, VList (L_billingv1_Params_2 (Some (billingv1_Params_AllowedList x))));
    (has_num (billingv1_Params_MaxItemsPerLease x), "liftedinit.billing.v1.Params.max_items_per_lease"%string, VUint64 (billingv1_Params_MaxItemsPerLease x));
    (has_num (billingv1_Params_MinLeaseDuration x), "liftedinit.billing.v1.Params.min_lease_duration"%string, VUint64 (billingv1_Params_MinLeaseDuration x));
    (has_num (billingv1_Params_MaxPendingLeasesPerTenant x), "liftedinit.billing.v1.Params.max_pending_leases_per_tenant"%string, VUint64 (billingv1_Params_MaxPendingLeasesPerTenant x));
    (has_num (billingv1_Params_PendingTimeout x), "liftedinit.billing.v1.Params.pending_timeout"%string, VUint64 (billingv1_Params_PendingTimeout x));
    (has_list (billingv1_Params_ReservedDomainSuffixes x), "liftedinit.billing.v1.Params.reserved_domain_suffixes"%string, VList (L_billingv1_Params_7 (Some (billingv1_Params_ReservedDomainSuffixes x))))] s).

Definition billingv1_Params_Has (p : option billingv1_Params) (fd : string) : res bool :=
  x ← deref p;
  match field_number billingv1_Params_fields fd with
  | 1 => Ok (has_num (billingv1_Params_MaxLeasesPerTenant x))
  | 2 => Ok (has_list (billingv1_Params_AllowedList x))
  | 3 => Ok (has_num (billingv1_Params_MaxItemsPerLease x))
  | 4 => Ok (has_num (billingv1_Params_MinLeaseDuration x))
  | 5 => Ok (has_num (billingv1_Params_MaxPendingLeasesPerTenant x))
  | 6 => Ok (has_num (billingv1_Params_PendingTimeout x))
  | 7 => Ok (has_list (billingv1_Params_ReservedDomainSuffixes x))
  | _ => Panic
  end.

Definition billingv1_Params_Clear (p : option billingv1_Params) (fd : string) : res (option billingv1_Params) :=
  x ← deref p;
  let 'mk_billingv1_Params maxLeasesPerTenant allowedList maxItemsPerLease minLeaseDuration maxPendingLeasesPerTenant
    pendingTimeout reservedDomainSuffixes u := x in
  match field_number billingv1_Params_fields fd with
  | 1 => Ok (Some (mk_billingv1_Params 0 allowedList maxItemsPerLease minLeaseDuration maxPendingLeasesPerTenant pendingTimeout reservedDomainSuffixes u))
  | 2 => Ok (Some (mk_billingv1_Params maxLeasesPerTenant [] maxItemsPerLease minLeaseDuration maxPendingLeasesPerTenant pendingTimeout reservedDomainSuffixes u))
  | 3 => Ok (Some (mk_billingv1_Params maxLeasesPerTenant allowedList 0 minLeaseDuration maxPendingLeasesPerTenant pendingTimeout reservedDomainSuffixes u))
  | 4 => Ok (Some (mk_billingv1_Params maxLeasesPerTenant allowedList maxItemsPerLease 0 maxPendingLeasesPerTenant pendingTimeout reservedDomainSuffixes u))
  | 5 => Ok (Some (mk_billingv1_Params maxLeasesPerTenant allowedList maxItemsPerLease minLeaseDuration 0 pendingTimeout reservedDomainSuffixes u))
  | 6 => Ok (Some (mk_billingv1_Params maxLeasesPerTenant allowedList maxItemsPerLease minLeaseDuration maxPendingLeasesPerTenant 0 reservedDomainSuffixes u))
  | 7 => Ok (Some (mk_billingv1_Params maxLeasesPerTenant allowedList maxItemsPerLease minLeaseDuration maxPendingLeasesPerTenant pendingTimeout [] u))
  | _ => Panic
  end.

Definition billingv1_Params_Get (p : option billingv1_Params) (fd : string) : res value :=
  x ← deref p;
  match field_number billingv1_Params_fields fd with
  | 1 => Ok (VUint64 (billingv1_Params_MaxLeasesPerTenant x))
  | 2 => Ok (VList (L_billingv1_Params_2 (view (billingv1_Params_AllowedList x))))
  | 3 => Ok (VUint64 (billingv1_Params_MaxItemsPerLease x))
  | 4 => Ok (VUint64 (billingv1_Params_MinLeaseDuration x))
  | 5 => Ok (VUint64 (billingv1_Params_MaxPendingLeasesPerTenant x))
  | 6 => Ok (VUint64 (billingv1_Params_PendingTimeout x))
  | 7 => Ok (VList (L_billingv1_Params_7 (view (billingv1_Params_ReservedDomainSuffixes x))))
  | _ => Panic
  end.

Definition billingv1_Params_Set (p : option billingv1_Params) (fd : string) (value : value) : res (option billingv1_Params) :=
  x ← deref p;
  let 'mk_billingv1_Params maxLeasesPerTenant allowedList maxItemsPerLease minLeaseDuration maxPendingLeasesPerTenant
    pendingTimeout reservedDomainSuffixes u := x in
  match field_number billingv1_Params_fields fd with
  | 1 => v ← as_uint value; Ok (Some (mk_billingv1_Params v allowedList maxItemsPerLease minLeaseDuration maxPendingLeasesPerTenant pendingTimeout reservedDomainSuffixes u))
  | 2 => v ← as_L_billingv1_Params_2 value; Ok (Some (mk_billingv1_Params maxLeasesPerTenant v maxItemsPerLease minLeaseDuration maxPendingLeasesPerTenant pendingTimeout reservedDomainSuffixes u))
  | 3 => v ← as_uint value; Ok (Some (mk_billingv1_Params maxLeasesPerTenant allowedList v minLeaseDuration maxPendingLeasesPerTenant pendingTimeout reservedDomainSuffixes u))
  | 4 => v ← as_uint value; Ok (Some (mk_billingv1_Params maxLeasesPerTenant allowedList maxItemsPerLease v maxPendingLeasesPerTenant pendingTimeout reservedDomainSuffixes u))
  | 5 => v ← as_uint value; Ok (Some (mk_billingv1_Params maxLeasesPerTenant allowedList maxItemsPerLease minLeaseDuration v pendingTimeout reservedDomainSuffixes u))
  | 6 => v ← as_uint value; Ok (Some (mk_billingv1_Params maxLeasesPerTenant allowedList maxItemsPerLease minLeaseDuration maxPendingLeasesPerTenant v reservedDomainSuffixes u))
  | 7 => v ← as_L_billingv1_Params_7 value; Ok (Some (mk_billingv1_Params maxLeasesPerTenant allowedList maxItemsPerLease minLeaseDuration maxPendingLeasesPerTenant pendingTimeout v u))
  | _ => Panic
  end.

Definition billingv1_Params_Mutable (p : option billingv1_Params) (fd : string) : res (option billingv1_Params * value) :=
  x ← deref p;
  let 'mk_billingv1_Params maxLeasesPerTenant allowedList maxItemsPerLease minLeaseDuration maxPendingLeasesPerTenant
    pendingTimeout reservedDomainSuffixes u := x in
  match field_number billingv1_Params_fields fd with
  | 2 => Ok (Some x, VList (L_billingv1_Params_2 (Some allowedList)))
  | 7 => Ok (Some x, VList (L_billingv1_Params_7 (Some reservedDomainSuffixes)))
  | _ => Panic
  end.

Definition billingv1_Params_NewField (fd : string) : res value :=
  match field_number billingv1_Params_fields fd with
  | 1 => Ok (VUint64 0)
  | 2 => Ok (VList (L_billingv1_Params_2 (Some [])))
  | 3 => Ok (VUint64 0)
  | 4 => Ok (VUint64 0)
  | 5 => Ok (VUint64 0)
  | 6 => Ok (VUint64 0)
  | 7 => Ok (VList (L_billingv1_Params_7 (Some [])))
  | _ => Panic
  end.

Definition billingv1_Params_GetUnknown (p : option billingv1_Params) : res bytes := x ← deref p; Ok (billingv1_Params_unknownFields x).

Definition billingv1_Params_SetUnknown (p : option billingv1_Params) (fields : bytes) : res (option billingv1_Params) :=
  x ← deref p;
  let 'mk_billingv1_Params maxLeasesPerTenant allowedList maxItemsPerLease minLeaseDuration maxPendingLeasesPerTenant
    pendingTimeout reservedDomainSuffixes _ := x in
  Ok (Some (mk_billingv1_Params maxLeasesPerTenant allowedList maxItemsPerLease minLeaseDuration maxPendingLeasesPerTenant pendingTimeout reservedDomainSuffixes fields)).

Definition billingv1_Params_GetMaxLeasesPerTenant (p : option billingv1_Params) : Z := match p with Some x => billingv1_Params_MaxLeasesPerTenant x | None => 0 end.
Definition billingv1_Params_GetAllowedList (p : option billingv1_Params) : list string := match p with Some x => billingv1_Params_AllowedList x | None => [] end.
Definition billingv1_Params_GetMaxItemsPerLease (p : option billingv1_Params) : Z := match p with Some x => billingv1_Params_MaxItemsPerLease x | None => 0 end.
Definition billingv1_Params_GetMinLeaseDuration (p : option billingv1_Params) : Z := match p with Some x => billingv1_Params_MinLeaseDuration x | None => 0 end.
Definition billingv1_Params_GetMaxPendingLeasesPerTenant (p : option billingv1_Params) : Z := match p with Some x => billingv1_Params_MaxPendingLeasesPerTenant x | None => 0 end.
Definition billingv1_Params_GetPendingTimeout (p : option billingv1_Params) : Z := match p with Some x => billingv1_Params_PendingTimeout x | None => 0 end.
Definition billingv1_Params_GetReservedDomainSuffixes (p : option billingv1_Params) : list string := match p with Some x => billingv1_Params_ReservedDomainSuffixes x | None => [] end.

Definition billingv1_Params_getters : list (string * (option billingv1_Params → value)) :=
  [("liftedinit.billing.v1.Params.max_leases_per_tenant", λ p, VUint64 (billingv1_Params_GetMaxLeasesPerTenant p));
   ("liftedinit.billing.v1.Params.allowed_list", λ p, VList (L_billingv1_Params_2 (view (billingv1_Params_GetAllowedList p))));
   ("liftedinit.billing.v1.Params.max_items_per_lease", λ p, VUint64 (billingv1_Params_GetMaxItemsPerLease p));
   ("liftedinit.billing.v1.Params.min_lease_duration", λ p, VUint64 (billingv1_Params_GetMinLeaseDuration p));
   ("liftedinit.billing.v1.Params.max_pending_leases_per_tenant", λ p, VUint64 (billingv1_Params_GetMaxPendingLeasesPerTenant p));
   ("liftedinit.billing.v1.Params.pending_timeout", λ p, VUint64 (billingv1_Params_GetPendingTimeout p));
   ("liftedinit.billing.v1.Params.reserved_domain_suffixes", λ p, VList (L_billingv1_Params_7 (view (billingv1_Params_GetReservedDomainSuffixes p))))]%string.

Definition billingv1_Params_reflected : reflected :=
  mkReflected billingv1_Params billingv1_Params_fields billingv1_Params_Range billingv1_Params_Has
    billingv1_Params_Clear billingv1_Params_Get billingv1_Params_Set billingv1_Params_Mutable
    billingv1_Params_NewField billingv1_Params_new billingv1_Params_GetUnknown billingv1_Params_SetUnknown
    billingv1_Params_getters.

Definition billingv1_Params_2_list `{ValueString} : list_methods string := string_list.

Definition billingv1_Params_7_list `{ValueString} : list_methods string := string_list.

(** ** LeaseItem *)

Definition billingv1_LeaseItem_fields : list string :=
  ["liftedinit.billing.v1.LeaseItem.sku_uuid";
   "liftedinit.billing.v1.LeaseItem.quantity";
   "liftedinit.billing.v1.LeaseItem.locked_price";
   "liftedinit.billing.v1.LeaseItem.service_name";
   "liftedinit.billing.v1.LeaseItem.custom_domain"]%string.

Definition billingv1_LeaseItem_Range (S : Type) (p : option billingv1_LeaseItem) (f : S → string → value → S * bool) (s : S) : res S :=
  x ← deref p;
  Ok (visit f
   [(has_string (billingv1_LeaseItem_SkuUuid x), "liftedinit.billing.v1.LeaseItem.sku_uuid"%string, VString (billingv1_LeaseItem_SkuUuid x));
    (has_num (billingv1_LeaseItem_Quantity x), "liftedinit.billing.v1.LeaseItem.quantity"%string, VUint64 (billingv1_LeaseItem_Quantity x));
    (not_nil (billingv1_LeaseItem_LockedPrice x), "liftedinit.billing.v1.LeaseItem.locked_price"%string, VMessage (A_api_Coin (billingv1_LeaseItem_LockedPrice x)));
    (has_string (billingv1_LeaseItem_ServiceName x), "liftedinit.billing.v1.LeaseItem.service_name"%string, VString (billingv1_LeaseItem_ServiceName x));
    (has_string (billingv1_LeaseItem_CustomDomain x), "liftedinit.billing.v1.LeaseItem.custom_domain"%string, VString (billingv1_LeaseItem_CustomDomain x))] s).

Definition billingv1_LeaseItem_Has (p : option billingv1_LeaseItem) (fd : string) : res bool :=
  x ← deref p;
  match field_number billingv1_LeaseItem_fields fd with
  | 1 => Ok (has_string (billingv1_LeaseItem_SkuUuid x))
  | 2 => Ok (has_num (billingv1_LeaseItem_Quantity x))
  | 3 => Ok (not_nil (billingv1_LeaseItem_LockedPrice x))
  | 4 => Ok (has_string (billingv1_LeaseItem_ServiceName x))
  | 5 => Ok (has_string (billingv1_LeaseItem_CustomDomain x))
  | _ => Panic
  end.

Definition billingv1_LeaseItem_Clear (p : option billingv1_LeaseItem) (fd : string) : res (option billingv1_LeaseItem) :=
  x ← deref p;
  let 'mk_billingv1_LeaseItem skuUuid quantity lockedPrice serviceName customDomain u := x in
  match field_number billingv1_LeaseItem_fields fd with
  | 1 => Ok (Some (mk_billingv1_LeaseItem "" quantity lockedPrice serviceName customDomain u))
  | 2 => Ok (Some (mk_billingv1_LeaseItem skuUuid 0 lockedPrice serviceName customDomain u))
  | 3 => Ok (Some (mk_billingv1_LeaseItem skuUuid quantity None serviceName customDomain u))
  | 4 => Ok (Some (mk_billingv1_LeaseItem skuUuid quantity lockedPrice "" customDomain u))
  | 5 => Ok (Some (mk_billingv1_LeaseItem skuUuid quantity lockedPrice serviceName "" u))
  | _ => Panic
  end.

Definition billingv1_LeaseItem_Get (p : option billingv1_LeaseItem) (fd : string) : res value :=
  x ← deref p;
  match field_number billingv1_LeaseItem_fields fd with
  | 1 => Ok (VString (billingv1_LeaseItem_SkuUuid x))
  | 2 => Ok (VUint64 (billingv1_LeaseItem_Quantity x))
  | 3 => Ok (VMessage (A_api_Coin (billingv1_LeaseItem_LockedPrice x)))
  | 4 => Ok (VString (billingv1_LeaseItem_ServiceName x))
  | 5 => Ok (VString (billingv1_LeaseItem_CustomDomain x))
  | _ => Panic
  end.

Definition billingv1_LeaseItem_Set (p : option billingv1_LeaseItem) (fd : string) (value : value) : res (option billingv1_LeaseItem) :=
  x ← deref p;
  let 'mk_billingv1_LeaseItem skuUuid quantity lockedPrice serviceName customDomain u := x in
  match field_number billingv1_LeaseItem_fields fd with
  | 1 => v ← as_string value; Ok (Some (mk_billingv1_LeaseItem v quantity lockedPrice serviceName customDomain u))
  | 2 => v ← as_uint value; Ok (Some (mk_billingv1_LeaseItem skuUuid v lockedPrice serviceName customDomain u))
  | 3 => v ← as_api_Coin value; Ok (Some (mk_billingv1_LeaseItem skuUuid quantity v serviceName customDomain u))
  | 4 => v ← as_string value; Ok (Some (mk_billingv1_LeaseItem skuUuid quantity lockedPrice v customDomain u))
  | 5 => v ← as_string value; Ok (Some (mk_billingv1_LeaseItem skuUuid quantity lockedPrice serviceName v u))
  | _ => Panic
  end.

Definition billingv1_LeaseItem_Mutable (p : option billingv1_LeaseItem) (fd : string) : res (option billingv1_LeaseItem * value) :=
  x ← deref p;
  let 'mk_billingv1_LeaseItem skuUuid quantity lockedPrice serviceName customDomain u := x in
  match field_number billingv1_LeaseItem_fields fd with
  | 3 => let v := match lockedPrice with None => Some api_Coin_new | Some _ => lockedPrice end in
      Ok (Some (mk_billingv1_LeaseItem skuUuid quantity v serviceName customDomain u), VMessage (A_api_Coin v))
  | _ => Panic
  end.

Definition billingv1_LeaseItem_NewField (fd : string) : res value :=
  match field_number billingv1_LeaseItem_fields fd with
  | 1 => Ok (VString "")
  | 2 => Ok (VUint64 0)
  | 3 => Ok (VMessage (A_api_Coin (Some api_Coin_new)))
  | 4 => Ok (VString "")
  | 5 => Ok (VString "")
  | _ => Panic
  end.

Definition billingv1_LeaseItem_GetUnknown (p : option billingv1_LeaseItem) : res bytes := x ← deref p; Ok (billingv1_LeaseItem_unknownFields x).

Definition billingv1_LeaseItem_SetUnknown (p : option billingv1_LeaseItem) (fields : bytes) : res (option billingv1_LeaseItem) :=
  x ← deref p;
  let 'mk_billingv1_LeaseItem skuUuid quantity lockedPrice serviceName customDomain _ := x in
  Ok (Some (mk_billingv1_LeaseItem skuUuid quantity lockedPrice serviceName customDomain fields)).

Definition billingv1_LeaseItem_GetSkuUuid (p : option billingv1_LeaseItem) : string := match p with Some x => billingv1_LeaseItem_SkuUuid x | None => "" end.
Definition billingv1_LeaseItem_GetQuantity (p : option billingv1_LeaseItem) : Z := match p with Some x => billingv1_LeaseItem_Quantity x | None => 0 end.
Definition billingv1_LeaseItem_GetLockedPrice (p : option billingv1_LeaseItem) : option api_Coin := match p with Some x => billingv1_LeaseItem_LockedPrice x | None => None end.
Definition billingv1_LeaseItem_GetServiceName (p : option billingv1_LeaseItem) : string := match p with Some x => billingv1_LeaseItem_ServiceName x | None => "" end.
Definition billingv1_LeaseItem_GetCustomDomain (p : option billingv1_LeaseItem) : string := match p with Some x => billingv1_LeaseItem_CustomDomain x | None => "" end.

Definition billingv1_LeaseItem_getters : list (string * (option billingv1_LeaseItem → value)) :=
  [("liftedinit.billing.v1.LeaseItem.sku_uuid", λ p, VString (billingv1_LeaseItem_GetSkuUuid p));
   ("liftedinit.billing.v1.LeaseItem.quantity", λ p, VUint64 (billingv1_LeaseItem_GetQuantity p));
   ("liftedinit.billing.v1.LeaseItem.locked_price", λ p, VMessage (A_api_Coin (billingv1_LeaseItem_GetLockedPrice p)));
   ("liftedinit.billing.v1.LeaseItem.service_name", λ p, VString (billingv1_LeaseItem_GetServiceName p));
   ("liftedinit.billing.v1.LeaseItem.custom_domain", λ p, VString (billingv1_LeaseItem_GetCustomDomain p))]%string.

Definition billingv1_LeaseItem_reflected : reflected :=
  mkReflected billingv1_LeaseItem billingv1_LeaseItem_fields billingv1_LeaseItem_Range billingv1_LeaseItem_Has
    billingv1_LeaseItem_Clear billingv1_LeaseItem_Get billingv1_LeaseItem_Set billingv1_LeaseItem_Mutable
    billingv1_LeaseItem_NewField billingv1_LeaseItem_new billingv1_LeaseItem_GetUnknown billingv1_LeaseItem_SetUnknown
    billingv1_LeaseItem_getters.

(** ** Lease *)

Definition billingv1_Lease_fields : list string :=
  ["liftedinit.billing.v1.Lease.uuid";
   "liftedinit.billing.v1.Lease.tenant";
   "liftedinit.billing.v1.Lease.provider_uuid";
   "liftedinit.billing.v1.Lease.items";
   "liftedinit.billing.v1.Lease.state";
   "liftedinit.billing.v1.Lease.created_at";
   "liftedinit.billing.v1.Lease.closed_at";
   "liftedinit.billing.v1.Lease.last_settled_at";
   "liftedinit.billing.v1.Lease.acknowledged_at";
   "liftedinit.billing.v1.Lease.rejected_at";
   "liftedinit.billing.v1.Lease.rejection_reason";
   "liftedinit.billing.v1.Lease.expired_at";
   "liftedinit.billing.v1.Lease.closure_reason";
   "liftedinit.billing.v1.Lease.meta_hash";
   "liftedinit.billing.v1.Lease.min_lease_duration_at_creation"]%string.

Definition billingv1_Lease_Range (S : Type) (p : option billingv1_Lease) (f : S → string → value → S * bool) (s : S) : res S :=
  x ← deref p;
  Ok (visit f
   [(has_string (billingv1_Lease_Uuid x), "liftedinit.billing.v1.Lease.uuid"%string, VString (billingv1_Lease_Uuid x));
    (has_string (billingv1_Lease_Tenant x), "liftedinit.billing.v1.Lease.tenant"%string, VString (billingv1_Lease_Tenant x));
    (has_string (billingv1_Lease_ProviderUuid x), "liftedinit.billing.v1.Lease.provider_uuid"%string, VString (billingv1_Lease_ProviderUuid x));
    (has_list (billingv1_Lease_Items x), "liftedinit.billing.v1.Lease.items"%string, VList (L_billingv1_Lease_4 (Some (billingv1_Lease_Items x))));
    (has_num (billingv1_Lease_State x), "liftedinit.billing.v1.Lease.state"%string, VEnum (billingv1_Lease_State x));
    (not_nil (billingv1_Lease_CreatedAt x), "liftedinit.billing.v1.Lease.created_at"%string, VMessage (A_api_Timestamp (billingv1_Lease_CreatedAt x)));
    (not_nil (billingv1_Lease_ClosedAt x), "liftedinit.billing.v1.Lease.closed_at"%string, VMessage (A_api_Timestamp (billingv1_Lease_ClosedAt x)));
    (not_nil (billingv1_Lease_LastSettledAt x), "liftedinit.billing.v1.Lease.last_settled_at"%string, VMessage (A_api_Timestamp (billingv1_Lease_LastSettledAt x)));
    (not_nil (billingv1_Lease_AcknowledgedAt x), "liftedinit.billing.v1.Lease.acknowledged_at"%string, VMessage (A_api_Timestamp (billingv1_Lease_AcknowledgedAt x)));
    (not_nil (billingv1_Lease_RejectedAt x), "liftedinit.billing.v1.Lease.rejected_at"%string, VMessage (A_api_Timestamp (billingv1_Lease_RejectedAt x)));
    (has_string (billingv1_Lease_RejectionReason x), "liftedinit.billing.v1.Lease.rejection_reason"%string, VString (billingv1_Lease_RejectionReason x));
    (not_nil (billingv1_Lease_ExpiredAt x), "liftedinit.billing.v1.Lease.expired_at"%string, VMessage (A_api_Timestamp (billingv1_Lease_ExpiredAt x)));
    (has_string (billingv1_Lease_ClosureReason x), "liftedinit.billing.v1.Lease.closure_reason"%string, VString (billingv1_Lease_ClosureReason x));
    (has_bytes (billingv1_Lease_MetaHash x), "liftedinit.billing.v1.Lease.meta_hash"%string, VBytes (billingv1_Lease_MetaHash x));
    (has_num (billingv1_Lease_MinLeaseDurationAtCreation x), "liftedinit.billing.v1.Lease.min_lease_duration_at_creation"%string, VUint64 (billingv1_Lease_MinLeaseDurationAtCreation x))] s).

Definition billingv1_Lease_Has (p : option billingv1_Lease) (fd : string) : res bool :=
  x ← deref p;
  match field_number billingv1_Lease_fields fd with
  | 1 => Ok (has_string (billingv1_Lease_Uuid x))
  | 2 => Ok (has_string (billingv1_Lease_Tenant x))
  | 3 => Ok (has_string (billingv1_Lease_ProviderUuid x))
  | 4 => Ok (has_list (billingv1_Lease_Items x))
  | 5 => Ok (has_num (billingv1_Lease_State x))
  | 6 => Ok (not_nil (billingv1_Lease_CreatedAt x))
  | 7 => Ok (not_nil (billingv1_Lease_ClosedAt x))
  | 8 => Ok (not_nil (billingv1_Lease_LastSettledAt x))
  | 9 => Ok (not_nil (billingv1_Lease_AcknowledgedAt x))
  | 10 => Ok (not_nil (billingv1_Lease_RejectedAt x))
  | 11 => Ok (has_string (billingv1_Lease_RejectionReason x))
  | 12 => Ok (not_nil (billingv1_Lease_ExpiredAt x))
  | 13 => Ok (has_string (billingv1_Lease_ClosureReason x))
  | 14 => Ok (has_bytes (billingv1_Lease_MetaHash x))
  | 15 => Ok (has_num (billingv1_Lease_MinLeaseDurationAtCreation x))
  | _ => Panic
  end.

Definition billingv1_Lease_Clear (p : option billingv1_Lease) (fd : string) : res (option billingv1_Lease) :=
  x ← deref p;
  let 'mk_billingv1_Lease uuid tenant providerUuid items state createdAt closedAt lastSettledAt acknowledgedAt
    rejectedAt rejectionReason expiredAt closureReason metaHash minLeaseDurationAtCreation u := x in
  match field_number billingv1_Lease_fields fd with
  | 1 => Ok (Some (mk_billingv1_Lease "" tenant providerUuid items state createdAt closedAt lastSettledAt acknowledgedAt rejectedAt rejectionReason expiredAt closureReason metaHash minLeaseDurationAtCreation u))
  | 2 => Ok (Some (mk_billingv1_Lease uuid "" providerUuid items state createdAt closedAt lastSettledAt acknowledgedAt rejectedAt rejectionReason expiredAt closureReason metaHash minLeaseDurationAtCreation u))
  | 3 => Ok (Some (mk_billingv1_Lease uuid tenant "" items state createdAt closedAt lastSettledAt acknowledgedAt rejectedAt rejectionReason expiredAt closureReason metaHash minLeaseDurationAtCreation u))
  | 4 => Ok (Some (mk_billingv1_Lease uuid tenant providerUuid [] state createdAt closedAt lastSettledAt acknowledgedAt rejectedAt rejectionReason expiredAt closureReason metaHash minLeaseDurationAtCreation u))
  | 5 => Ok (Some (mk_billingv1_Lease uuid tenant providerUuid items 0 createdAt closedAt lastSettledAt acknowledgedAt rejectedAt rejectionReason expiredAt closureReason metaHash minLeaseDurationAtCreation u))
  | 6 => Ok (Some (mk_billingv1_Lease uuid tenant providerUuid items state None closedAt lastSettledAt acknowledgedAt rejectedAt rejectionReason expiredAt closureReason metaHash minLeaseDurationAtCreation u))
  | 7 => Ok (Some (mk_billingv1_Lease uuid tenant providerUuid items state createdAt None lastSettledAt acknowledgedAt rejectedAt rejectionReason expiredAt closureReason metaHash minLeaseDurationAtCreation u))
  | 8 => Ok (Some (mk_billingv1_Lease uuid tenant providerUuid items state createdAt closedAt None acknowledgedAt rejectedAt rejectionReason expiredAt closureReason metaHash minLeaseDurationAtCreation u))
  | 9 => Ok (Some (mk_billingv1_Lease uuid tenant providerUuid items state createdAt closedAt lastSettledAt None rejectedAt rejectionReason expiredAt closureReason metaHash minLeaseDurationAtCreation u))
  | 10 => Ok (Some (mk_billingv1_Lease uuid tenant providerUuid items state createdAt closedAt lastSettledAt acknowledgedAt None rejectionReason expiredAt closureReason metaHash minLeaseDurationAtCreation u))
  | 11 => Ok (Some (mk_billingv1_Lease uuid tenant providerUuid items state createdAt closedAt lastSettledAt acknowledgedAt rejectedAt "" expiredAt closureReason metaHash minLeaseDurationAtCreation u))
  | 12 => Ok (Some (mk_billingv1_Lease uuid tenant providerUuid items state createdAt closedAt lastSettledAt acknowledgedAt rejectedAt rejectionReason None closureReason metaHash minLeaseDurationAtCreation u))
  | 13 => Ok (Some (mk_billingv1_Lease uuid tenant providerUuid items state createdAt closedAt lastSettledAt acknowledgedAt rejectedAt rejectionReason expiredAt "" metaHash minLeaseDurationAtCreation u))
  | 14 => Ok (Some (mk_billingv1_Lease uuid tenant providerUuid items state createdAt closedAt lastSettledAt acknowledgedAt rejectedAt rejectionReason expiredAt closureReason "" minLeaseDurationAtCreation u))
  | 15 => Ok (Some (mk_billingv1_Lease uuid tenant providerUuid items state createdAt closedAt lastSettledAt acknowledgedAt rejectedAt rejectionReason expiredAt closureReason metaHash 0 u))
  | _ => Panic
  end.

Definition billingv1_Lease_Get (p : option billingv1_Lease) (fd : string) : res value :=
  x ← deref p;
  match field_number billingv1_Lease_fields fd with
  | 1 => Ok (VString (billingv1_Lease_Uuid x))
  | 2 => Ok (VString (billingv1_Lease_Tenant x))
  | 3 => Ok (VString (billingv1_Lease_ProviderUuid x))
  | 4 => Ok (VList (L_billingv1_Lease_4 (view (billingv1_Lease_Items x))))
  | 5 => Ok (VEnum (billingv1_Lease_State x))
  | 6 => Ok (VMessage (A_api_Timestamp (billingv1_Lease_CreatedAt x)))
  | 7 => Ok (VMessage (A_api_Timestamp (billingv1_Lease_ClosedAt x)))
  | 8 => Ok (VMessage (A_api_Timestamp (billingv1_Lease_LastSettledAt x)))
  | 9 => Ok (VMessage (A_api_Timestamp (billingv1_Lease_AcknowledgedAt x)))
  | 10 => Ok (VMessage (A_api_Timestamp (billingv1_Lease_RejectedAt x)))
  | 11 => Ok (VString (billingv1_Lease_RejectionReason x))
  | 12 => Ok (VMessage (A_api_Timestamp (billingv1_Lease_ExpiredAt x)))
  | 13 => Ok (VString (billingv1_Lease_ClosureReason x))
  | 14 => Ok (VBytes (billingv1_Lease_MetaHash x))
  | 15 => Ok (VUint64 (billingv1_Lease_MinLeaseDurationAtCreation x))
  | _ => Panic
  end.

Definition billingv1_Lease_Set (p : option billingv1_Lease) (fd : string) (value : value) : res (option billingv1_Lease) :=
  x ← deref p;
  let 'mk_billingv1_Lease uuid tenant providerUuid items state createdAt closedAt lastSettledAt acknowledgedAt
    rejectedAt rejectionReason expiredAt closureReason metaHash minLeaseDurationAtCreation u := x in
  match field_number billingv1_Lease_fields fd with
  | 1 => v ← as_string value; Ok (Some (mk_billingv1_Lease v tenant providerUuid items state createdAt closedAt lastSettledAt acknowledgedAt rejectedAt rejectionReason expiredAt closureReason metaHash minLeaseDurationAtCreation u))
  | 2 => v ← as_string value; Ok (Some (mk_billingv1_Lease uuid v providerUuid items state createdAt closedAt lastSettledAt acknowledgedAt rejectedAt rejectionReason expiredAt closureReason metaHash minLeaseDurationAtCreation u))
  | 3 => v ← as_string value; Ok (Some (mk_billingv1_Lease uuid tenant v items state createdAt closedAt lastSettledAt acknowledgedAt rejectedAt rejectionReason expiredAt closureReason metaHash minLeaseDurationAtCreation u))
  | 4 => v ← as_L_billingv1_Lease_4 value; Ok (Some (mk_billingv1_Lease uuid tenant providerUuid v state createdAt closedAt lastSettledAt acknowledgedAt rejectedAt rejectionReason expiredAt closureReason metaHash minLeaseDurationAtCreation u))
  | 5 => v ← as_enum value; Ok (Some (mk_billingv1_Lease uuid tenant providerUuid items v createdAt closedAt lastSettledAt acknowledgedAt rejectedAt rejectionReason expiredAt closureReason metaHash minLeaseDurationAtCreation u))
  | 6 => v ← as_api_Timestamp value; Ok (Some (mk_billingv1_Lease uuid tenant providerUuid items state v closedAt lastSettledAt acknowledgedAt rejectedAt rejectionReason expiredAt closureReason metaHash minLeaseDurationAtCreation u))
  | 7 => v ← as_api_Timestamp value; Ok (Some (mk_billingv1_Lease uuid tenant providerUuid items state createdAt v lastSettledAt acknowledgedAt rejectedAt rejectionReason expiredAt closureReason metaHash minLeaseDurationAtCreation u))
  | 8 => v ← as_api_Timestamp value; Ok (Some (mk_billingv1_Lease uuid tenant providerUuid items state createdAt closedAt v acknowledgedAt rejectedAt rejectionReason expiredAt closureReason metaHash minLeaseDurationAtCreation u))
  | 9 => v ← as_api_Timestamp value; Ok (Some (mk_billingv1_Lease uuid tenant providerUuid items state createdAt closedAt lastSettledAt v rejectedAt rejectionReason expiredAt closureReason metaHash minLeaseDurationAtCreation u))
  | 10 => v ← as_api_Timestamp value; Ok (Some (mk_billingv1_Lease uuid tenant providerUuid items state createdAt closedAt lastSettledAt acknowledgedAt v rejectionReason expiredAt closureReason metaHash minLeaseDurationAtCreation u))
  | 11 => v ← as_string value; Ok (Some (mk_billingv1_Lease uuid tenant providerUuid items state createdAt closedAt lastSettledAt acknowledgedAt rejectedAt v expiredAt closureReason metaHash minLeaseDurationAtCreation u))
  | 12 => v ← as_api_Timestamp value; Ok (Some (mk_billingv1_Lease uuid tenant providerUuid items state createdAt closedAt lastSettledAt acknowledgedAt rejectedAt rejectionReason v closureReason metaHash minLeaseDurationAtCreation u))
  | 13 => v ← as_string value; Ok (Some (mk_billingv1_Lease uuid tenant providerUuid items state createdAt closedAt lastSettledAt acknowledgedAt rejectedAt rejectionReason expiredAt v metaHash minLeaseDurationAtCreation u))
  | 14 => v ← as_bytes value; Ok (Some (mk_billingv1_Lease uuid tenant providerUuid items state createdAt closedAt lastSettledAt acknowledgedAt rejectedAt rejectionReason expiredAt closureReason v minLeaseDurationAtCreation u))
  | 15 => v ← as_uint value; Ok (Some (mk_billingv1_Lease uuid tenant providerUuid items state createdAt closedAt lastSettledAt acknowledgedAt rejectedAt rejectionReason expiredAt closureReason metaHash v u))
  | _ => Panic
  end.

Definition billingv1_Lease_Mutable (p : option billingv1_Lease) (fd : string) : res (option billingv1_Lease * value) :=
  x ← deref p;
  let 'mk_billingv1_Lease uuid tenant providerUuid items state createdAt closedAt lastSettledAt acknowledgedAt
    rejectedAt rejectionReason expiredAt closureReason metaHash minLeaseDurationAtCreation u := x in
  match field_number billingv1_Lease_fields fd with
  | 4 => Ok (Some x, VList (L_billingv1_Lease_4 (Some items)))
  | 6 => let v := match createdAt with None => Some api_Timestamp_new | Some _ => createdAt end in
      Ok (Some (mk_billingv1_Lease uuid tenant providerUuid items state v closedAt lastSettledAt acknowledgedAt rejectedAt rejectionReason expiredAt closureReason metaHash minLeaseDurationAtCreation u), VMessage (A_api_Timestamp v))
  | 7 => let v := match closedAt with None => Some api_Timestamp_new | Some _ => closedAt end in
      Ok (Some (mk_billingv1_Lease uuid tenant providerUuid items state createdAt v lastSettledAt acknowledgedAt rejectedAt rejectionReason expiredAt closureReason metaHash minLeaseDurationAtCreation u), VMessage (A_api_Timestamp v))
  | 8 => let v := match lastSettledAt with None => Some api_Timestamp_new | Some _ => lastSettledAt end in
      Ok (Some (mk_billingv1_Lease uuid tenant providerUuid items state createdAt closedAt v acknowledgedAt rejectedAt rejectionReason expiredAt closureReason metaHash minLeaseDurationAtCreation u), VMessage (A_api_Timestamp v))
  | 9 => let v := match acknowledgedAt with None => Some api_Timestamp_new | Some _ => acknowledgedAt end in
      Ok (Some (mk_billingv1_Lease uuid tenant providerUuid items state createdAt closedAt lastSettledAt v rejectedAt rejectionReason expiredAt closureReason metaHash minLeaseDurationAtCreation u), VMessage (A_api_Timestamp v))
  | 10 => let v := match rejectedAt with None => Some api_Timestamp_new | Some _ => rejectedAt end in
      Ok (Some (mk_billingv1_Lease uuid tenant providerUuid items state createdAt closedAt lastSettledAt acknowledgedAt v rejectionReason expiredAt closureReason metaHash minLeaseDurationAtCreation u), VMessage (A_api_Timestamp v))
  | 12 => let v := match expiredAt with None => Some api_Timestamp_new | Some _ => expiredAt end in
      Ok (Some (mk_billingv1_Lease uuid tenant providerUuid items state createdAt closedAt lastSettledAt acknowledgedAt rejectedAt rejectionReason v closureReason metaHash minLeaseDurationAtCreation u), VMessage (A_api_Timestamp v))
  | _ => Panic
  end.

Definition billingv1_Lease_NewField (fd : string) : res value :=
  match field_number billingv1_Lease_fields fd with
  | 1 => Ok (VString "")
  | 2 => Ok (VString "")
  | 3 => Ok (VString "")
  | 4 => Ok (VList (L_billingv1_Lease_4 (Some [])))
  | 5 => Ok (VEnum 0)
  | 6 => Ok (VMessage (A_api_Timestamp (Some api_Timestamp_new)))
  | 7 => Ok (VMessage (A_api_Timestamp (Some api_Timestamp_new)))
  | 8 => Ok (VMessage (A_api_Timestamp (Some api_Timestamp_new)))
  | 9 => Ok (VMessage (A_api_Timestamp (Some api_Timestamp_new)))
  | 10 => Ok (VMessage (A_api_Timestamp (Some api_Timestamp_new)))
  | 11 => Ok (VString "")
  | 12 => Ok (VMessage (A_api_Timestamp (Some api_Timestamp_new)))
  | 13 => Ok (VString "")
  | 14 => Ok (VBytes "")
  | 15 => Ok (VUint64 0)
  | _ => Panic
  end.

Definition billingv1_Lease_GetUnknown (p : option billingv1_Lease) : res bytes := x ← deref p; Ok (billingv1_Lease_unknownFields x).

Definition billingv1_Lease_SetUnknown (p : option billingv1_Lease) (fields : bytes) : res (option billingv1_Lease) :=
  x ← deref p;
  let 'mk_billingv1_Lease uuid tenant providerUuid items state createdAt closedAt lastSettledAt acknowledgedAt
    rejectedAt rejectionReason expiredAt closureReason metaHash minLeaseDurationAtCreation _ := x in
  Ok (Some (mk_billingv1_Lease uuid tenant providerUuid items state createdAt closedAt lastSettledAt acknowledgedAt rejectedAt rejectionReason expiredAt closureReason metaHash minLeaseDurationAtCreation fields)).

Definition billingv1_Lease_GetUuid (p : option billingv1_Lease) : string := match p with Some x => billingv1_Lease_Uuid x | None => "" end.
Definition billingv1_Lease_GetTenant (p : option billingv1_Lease) : string := match p with Some x => billingv1_Lease_Tenant x | None => "" end.
Definition billingv1_Lease_GetProviderUuid (p : option billingv1_Lease) : string := match p with Some x => billingv1_Lease_ProviderUuid x | None => "" end.
Definition billingv1_Lease_GetItems (p : option billingv1_Lease) : list (option billingv1_LeaseItem) := match p with Some x => billingv1_Lease_Items x | None => [] end.
Definition billingv1_Lease_GetState (p : option billingv1_Lease) : Z := match p with Some x => billingv1_Lease_State x | None => 0 end.
Definition billingv1_Lease_GetCreatedAt (p : option billingv1_Lease) : option api_Timestamp := match p with Some x => billingv1_Lease_CreatedAt x | None => None end.
Definition billingv1_Lease_GetClosedAt (p : option billingv1_Lease) : option api_Timestamp := match p with Some x => billingv1_Lease_ClosedAt x | None => None end.
Definition billingv1_Lease_GetLastSettledAt (p : option billingv1_Lease) : option api_Timestamp := match p with Some x => billingv1_Lease_LastSettledAt x | None => None end.
Definition billingv1_Lease_GetAcknowledgedAt (p : option billingv1_Lease) : option api_Timestamp := match p with Some x => billingv1_Lease_AcknowledgedAt x | None => None end.
Definition billingv1_Lease_GetRejectedAt (p : option billingv1_Lease) : option api_Timestamp := match p with Some x => billingv1_Lease_RejectedAt x | None => None end.
Definition billingv1_Lease_GetRejectionReason (p : option billingv1_Lease) : string := match p with Some x => billingv1_Lease_RejectionReason x | None => "" end.
Definition billingv1_Lease_GetExpiredAt (p : option billingv1_Lease) : option api_Timestamp := match p with Some x => billingv1_Lease_ExpiredAt x | None => None end.
Definition billingv1_Lease_GetClosureReason (p : option billingv1_Lease) : string := match p with Some x => billingv1_Lease_ClosureReason x | None => "" end.
Definition billingv1_Lease_GetMetaHash (p : option billingv1_Lease) : string := match p with Some x => billingv1_Lease_MetaHash x | None => "" end.
Definition billingv1_Lease_GetMinLeaseDurationAtCreation (p : option billingv1_Lease) : Z := match p with Some x => billingv1_Lease_MinLeaseDurationAtCreation x | None => 0 end.

Definition billingv1_Lease_getters : list (string * (option billingv1_Lease → value)) :=
  [("liftedinit.billing.v1.Lease.uuid", λ p, VString (billingv1_Lease_GetUuid p));
   ("liftedinit.billing.v1.Lease.tenant", λ p, VString (billingv1_Lease_GetTenant p));
   ("liftedinit.billing.v1.Lease.provider_uuid", λ p, VString (billingv1_Lease_GetProviderUuid p));
   ("liftedinit.billing.v1.Lease.items", λ p, VList (L_billingv1_Lease_4 (view (billingv1_Lease_GetItems p))));
   ("liftedinit.billing.v1.Lease.state", λ p, VEnum (billingv1_Lease_GetState p));
   ("liftedinit.billing.v1.Lease.created_at", λ p, VMessage (A_api_Timestamp (billingv1_Lease_GetCreatedAt p)));
   ("liftedinit.billing.v1.Lease.closed_at", λ p, VMessage (A_api_Timestamp (billingv1_Lease_GetClosedAt p)));
   ("liftedinit.billing.v1.Lease.last_settled_at", λ p, VMessage (A_api_Timestamp (billingv1_Lease_GetLastSettledAt p)));
   ("liftedinit.billing.v1.Lease.acknowledged_at", λ p, VMessage (A_api_Timestamp (billingv1_Lease_GetAcknowledgedAt p)));
   ("liftedinit.billing.v1.Lease.rejected_at", λ p, VMessage (A_api_Timestamp (billingv1_Lease_GetRejectedAt p)));
   ("liftedinit.billing.v1.Lease.rejection_reason", λ p, VString (billingv1_Lease_GetRejectionReason p));
   ("liftedinit.billing.v1.Lease.expired_at", λ p, VMessage (A_api_Timestamp (billingv1_Lease_GetExpiredAt p)));
   ("liftedinit.billing.v1.Lease.closure_reason", λ p, VString (billingv1_Lease_GetClosureReason p));
   ("liftedinit.billing.v1.Lease.meta_hash", λ p, VBytes (billingv1_Lease_GetMetaHash p));
   ("liftedinit.billing.v1.Lease.min_lease_duration_at_creation", λ p, VUint64 (billingv1_Lease_GetMinLeaseDurationAtCreation p))]%string.

Definition billingv1_Lease_reflected : reflected :=
  mkReflected billingv1_Lease billingv1_Lease_fields billingv1_Lease_Range billingv1_Lease_Has billingv1_Lease_Clear
    billingv1_Lease_Get billingv1_Lease_Set billingv1_Lease_Mutable billingv1_Lease_NewField billingv1_Lease_new
    billingv1_Lease_GetUnknown billingv1_Lease_SetUnknown billingv1_Lease_getters.

Definition billingv1_Lease_4_list : list_methods (option billingv1_LeaseItem) :=
  message_list as_billingv1_LeaseItem A_billingv1_LeaseItem billingv1_LeaseItem_new.

(** ** CustomDomainTarget *)

Definition billingv1_CustomDomainTarget_fields : list string :=
  ["liftedinit.billing.v1.CustomDomainTarget.lease_uuid";
   "liftedinit.billing.v1.CustomDomainTarget.service_name"]%string.

Definition billingv1_CustomDomainTarget_Range (S : Type) (p : option billingv1_CustomDomainTarget) (f : S → string → value → S * bool) (s : S) : res S :=
  x ← deref p;
  Ok (visit f
   [(has_string (billingv1_CustomDomainTarget_LeaseUuid x), "liftedinit.billing.v1.CustomDomainTarget.lease_uuid"%string, VString (billingv1_CustomDomainTarget_LeaseUuid x));
    (has_string (billingv1_CustomDomainTarget_ServiceName x), "liftedinit.billing.v1.CustomDomainTarget.service_name"%string, VString (billingv1_CustomDomainTarget_ServiceName x))] s).

Definition billingv1_CustomDomainTarget_Has (p : option billingv1_CustomDomainTarget) (fd : string) : res bool :=
  x ← deref p;
  match field_number billingv1_CustomDomainTarget_fields fd with
  | 1 => Ok (has_string (billingv1_CustomDomainTarget_LeaseUuid x))
  | 2 => Ok (has_string (billingv1_CustomDomainTarget_ServiceName x))
  | _ => Panic
  end.

Definition billingv1_CustomDomainTarget_Clear (p : option billingv1_CustomDomainTarget) (fd : string) : res (option billingv1_CustomDomainTarget) :=
  x ← deref p;
  let 'mk_billingv1_CustomDomainTarget leaseUuid serviceName u := x in
  match field_number billingv1_CustomDomainTarget_fields fd with
  | 1 => Ok (Some (mk_billingv1_CustomDomainTarget "" serviceName u))
  | 2 => Ok (Some (mk_billingv1_CustomDomainTarget leaseUuid "" u))
  | _ => Panic
  end.

Definition billingv1_CustomDomainTarget_Get (p : option billingv1_CustomDomainTarget) (fd : string) : res value :=
  x ← deref p;
  match field_number billingv1_CustomDomainTarget_fields fd with
  | 1 => Ok (VString (billingv1_CustomDomainTarget_LeaseUuid x))
  | 2 => Ok (VString (billingv1_CustomDomainTarget_ServiceName x))
  | _ => Panic
  end.

Definition billingv1_CustomDomainTarget_Set (p : option billingv1_CustomDomainTarget) (fd : string) (value : value) : res (option billingv1_CustomDomainTarget) :=
  x ← deref p;
  let 'mk_billingv1_CustomDomainTarget leaseUuid serviceName u := x in
  match field_number billingv1_CustomDomainTarget_fields fd with
  | 1 => v ← as_string value; Ok (Some (mk_billingv1_CustomDomainTarget v serviceName u))
  | 2 => v ← as_string value; Ok (Some (mk_billingv1_CustomDomainTarget leaseUuid v u))
  | _ => Panic
  end.

Definition billingv1_CustomDomainTarget_Mutable (p : option billingv1_CustomDomainTarget) (fd : string) : res (option billingv1_CustomDomainTarget * value) := Panic.

Definition billingv1_CustomDomainTarget_NewField (fd : string) : res value :=
  match field_number billingv1_CustomDomainTarget_fields fd with
  | 1 => Ok (VString "")
  | 2 => Ok (VString "")
  | _ => Panic
  end.

Definition billingv1_CustomDomainTarget_GetUnknown (p : option billingv1_CustomDomainTarget) : res bytes := x ← deref p; Ok (billingv1_CustomDomainTarget_unknownFields x).

Definition billingv1_CustomDomainTarget_SetUnknown (p : option billingv1_CustomDomainTarget) (fields : bytes) : res (option billingv1_CustomDomainTarget) :=
  x ← deref p;
  let 'mk_billingv1_CustomDomainTarget leaseUuid serviceName _ := x in
  Ok (Some (mk_billingv1_CustomDomainTarget leaseUuid serviceName fields)).

Definition billingv1_CustomDomainTarget_GetLeaseUuid (p : option billingv1_CustomDomainTarget) : string := match p with Some x => billingv1_CustomDomainTarget_LeaseUuid x | None => "" end.
Definition billingv1_CustomDomainTarget_GetServiceName (p : option billingv1_CustomDomainTarget) : string := match p with Some x => billingv1_CustomDomainTarget_ServiceName x | None => "" end.

Definition billingv1_CustomDomainTarget_getters : list (string * (option billingv1_CustomDomainTarget → value)) :=
  [("liftedinit.billing.v1.CustomDomainTarget.lease_uuid", λ p, VString (billingv1_CustomDomainTarget_GetLeaseUuid p));
   ("liftedinit.billing.v1.CustomDomainTarget.service_name", λ p, VString (billingv1_CustomDomainTarget_GetServiceName p))]%string.

Definition billingv1_CustomDomainTarget_reflected : reflected :=
  mkReflected billingv1_CustomDomainTarget billingv1_CustomDomainTarget_fields billingv1_CustomDomainTarget_Range
    billingv1_CustomDomainTarget_Has billingv1_CustomDomainTarget_Clear billingv1_CustomDomainTarget_Get
    billingv1_CustomDomainTarget_Set billingv1_CustomDomainTarget_Mutable billingv1_CustomDomainTarget_NewField
    billingv1_CustomDomainTarget_new billingv1_CustomDomainTarget_GetUnknown billingv1_CustomDomainTarget_SetUnknown
    billingv1_CustomDomainTarget_getters.

(** ** CreditAccount *)

Definition billingv1_CreditAccount_fields : list string :=
  ["liftedinit.billing.v1.CreditAccount.tenant";
   "liftedinit.billing.v1.CreditAccount.credit_address";
   "liftedinit.billing.v1.CreditAccount.active_lease_count";
   "liftedinit.billing.v1.CreditAccount.pending_lease_count";
   "liftedinit.billing.v1.CreditAccount.reserved_amounts"]%string.

Definition billingv1_CreditAccount_Range (S : Type) (p : option billingv1_CreditAccount) (f : S → string → value → S * bool) (s : S) : res S :=
  x ← deref p;
  Ok (visit f
   [(has_string (billingv1_CreditAccount_Tenant x), "liftedinit.billing.v1.CreditAccount.tenant"%string, VString (billingv1_CreditAccount_Tenant x));
    (has_string (billingv1_CreditAccount_CreditAddress x), "liftedinit.billing.v1.CreditAccount.credit_address"%string, VString (billingv1_CreditAccount_CreditAddress x));
    (has_num (billingv1_CreditAccount_ActiveLeaseCount x), "liftedinit.billing.v1.CreditAccount.active_lease_count"%string, VUint64 (billingv1_CreditAccount_ActiveLeaseCount x));
    (has_num (billingv1_CreditAccount_PendingLeaseCount x), "liftedinit.billing.v1.CreditAccount.pending_lease_count"%string, VUint64 (billingv1_CreditAccount_PendingLeaseCount x));
    (has_list (billingv1_CreditAccount_ReservedAmounts x), "liftedinit.billing.v1.CreditAccount.reserved_amounts"%string, VList (L_billingv1_CreditAccount_5 (Some (billingv1_CreditAccount_ReservedAmounts x))))] s).

Definition billingv1_CreditAccount_Has (p : option billingv1_CreditAccount) (fd : string) : res bool :=
  x ← deref p;
  match field_number billingv1_CreditAccount_fields fd with
  | 1 => Ok (has_string (billingv1_CreditAccount_Tenant x))
  | 2 => Ok (has_string (billingv1_CreditAccount_CreditAddress x))
  | 3 => Ok (has_num (billingv1_CreditAccount_ActiveLeaseCount x))
  | 4 => Ok (has_num (billingv1_CreditAccount_PendingLeaseCount x))
  | 5 => Ok (has_list (billingv1_CreditAccount_ReservedAmounts x))
  | _ => Panic
  end.

Definition billingv1_CreditAccount_Clear (p : option billingv1_CreditAccount) (fd : string) : res (option billingv1_CreditAccount) :=
  x ← deref p;
  let 'mk_billingv1_CreditAccount tenant creditAddress activeLeaseCount pendingLeaseCount reservedAmounts u := x in
  match field_number billingv1_CreditAccount_fields fd with
  | 1 => Ok (Some (mk_billingv1_CreditAccount "" creditAddress activeLeaseCount pendingLeaseCount reservedAmounts u))
  | 2 => Ok (Some (mk_billingv1_CreditAccount tenant "" activeLeaseCount pendingLeaseCount reservedAmounts u))
  | 3 => Ok (Some (mk_billingv1_CreditAccount tenant creditAddress 0 pendingLeaseCount reservedAmounts u))
  | 4 => Ok (Some (mk_billingv1_CreditAccount tenant creditAddress activeLeaseCount 0 reservedAmounts u))
  | 5 => Ok (Some (mk_billingv1_CreditAccount tenant creditAddress activeLeaseCount pendingLeaseCount [] u))
  | _ => Panic
  end.

Definition billingv1_CreditAccount_Get (p : option billingv1_CreditAccount) (fd : string) : res value :=
  x ← deref p;
  match field_number billingv1_CreditAccount_fields fd with
  | 1 => Ok (VString (billingv1_CreditAccount_Tenant x))
  | 2 => Ok (VString (billingv1_CreditAccount_CreditAddress x))
  | 3 => Ok (VUint64 (billingv1_CreditAccount_ActiveLeaseCount x))
  | 4 => Ok (VUint64 (billingv1_CreditAccount_PendingLeaseCount x))
  | 5 => Ok (VList (L_billingv1_CreditAccount_5 (view (billingv1_CreditAccount_ReservedAmounts x))))
  | _ => Panic
  end.

Definition billingv1_CreditAccount_Set (p : option billingv1_CreditAccount) (fd : string) (value : value) : res (option billingv1_CreditAccount) :=
  x ← deref p;
  let 'mk_billingv1_CreditAccount tenant creditAddress activeLeaseCount pendingLeaseCount reservedAmounts u := x in
  match field_number billingv1_CreditAccount_fields fd with
  | 1 => v ← as_string value; Ok (Some (mk_billingv1_CreditAccount v creditAddress activeLeaseCount pendingLeaseCount reservedAmounts u))
  | 2 => v ← as_string value; Ok (Some (mk_billingv1_CreditAccount tenant v activeLeaseCount pendingLeaseCount reservedAmounts u))
  | 3 => v ← as_uint value; Ok (Some (mk_billingv1_CreditAccount tenant creditAddress v pendingLeaseCount reservedAmounts u))
  | 4 => v ← as_uint value; Ok (Some (mk_billingv1_CreditAccount tenant creditAddress activeLeaseCount v reservedAmounts u))
  | 5 => v ← as_L_billingv1_CreditAccount_5 value; Ok (Some (mk_billingv1_CreditAccount tenant creditAddress activeLeaseCount pendingLeaseCount v u))
  | _ => Panic
  end.

Definition billingv1_CreditAccount_Mutable (p : option billingv1_CreditAccount) (fd : string) : res (option billingv1_CreditAccount * value) :=
  x ← deref p;
  let 'mk_billingv1_CreditAccount tenant creditAddress activeLeaseCount pendingLeaseCount reservedAmounts u := x in
  match field_number billingv1_CreditAccount_fields fd with
  | 5 => Ok (Some x, VList (L_billingv1_CreditAccount_5 (Some reservedAmounts)))
  | _ => Panic
  end.

Definition billingv1_CreditAccount_NewField (fd : string) : res value :=
  match field_number billingv1_CreditAccount_fields fd with
  | 1 => Ok (VString "")
  | 2 => Ok (VString "")
  | 3 => Ok (VUint64 0)
  | 4 => Ok (VUint64 0)
  | 5 => Ok (VList (L_billingv1_CreditAccount_5 (Some [])))
  | _ => Panic
  end.

Definition billingv1_CreditAccount_GetUnknown (p : option billingv1_CreditAccount) : res bytes := x ← deref p; Ok (billingv1_CreditAccount_unknownFields x).

Definition billingv1_CreditAccount_SetUnknown (p : option billingv1_CreditAccount) (fields : bytes) : res (option billingv1_CreditAccount) :=
  x ← deref p;
  let 'mk_billingv1_CreditAccount tenant creditAddress activeLeaseCount pendingLeaseCount reservedAmounts _ := x in
  Ok (Some (mk_billingv1_CreditAccount tenant creditAddress activeLeaseCount pendingLeaseCount reservedAmounts fields)).

Definition billingv1_CreditAccount_GetTenant (p : option billingv1_CreditAccount) : string := match p with Some x => billingv1_CreditAccount_Tenant x | None => "" end.
Definition billingv1_CreditAccount_GetCreditAddress (p : option billingv1_CreditAccount) : string := match p with Some x => billingv1_CreditAccount_CreditAddress x | None => "" end.
Definition billingv1_CreditAccount_GetActiveLeaseCount (p : option billingv1_CreditAccount) : Z := match p with Some x => billingv1_CreditAccount_ActiveLeaseCount x | None => 0 end.
Definition billingv1_CreditAccount_GetPendingLeaseCount (p : option billingv1_CreditAccount) : Z := match p with Some x => billingv1_CreditAccount_PendingLeaseCount x | None => 0 end.
Definition billingv1_CreditAccount_GetReservedAmounts (p : option billingv1_CreditAccount) : list (option api_Coin) := match p with Some x => billingv1_CreditAccount_ReservedAmounts x | None => [] end.

Definition billingv1_CreditAccount_getters : list (string * (option billingv1_CreditAccount → value)) :=
  [("liftedinit.billing.v1.CreditAccount.tenant", λ p, VString (billingv1_CreditAccount_GetTenant p));
   ("liftedinit.billing.v1.CreditAccount.credit_address", λ p, VString (billingv1_CreditAccount_GetCreditAddress p));
   ("liftedinit.billing.v1.CreditAccount.active_lease_count", λ p, VUint64 (billingv1_CreditAccount_GetActiveLeaseCount p));
   ("liftedinit.billing.v1.CreditAccount.pending_lease_count", λ p, VUint64 (billingv1_CreditAccount_GetPendingLeaseCount p));
   ("liftedinit.billing.v1.CreditAccount.reserved_amounts", λ p, VList (L_billingv1_CreditAccount_5 (view (billingv1_CreditAccount_GetReservedAmounts p))))]%string.

Definition billingv1_CreditAccount_reflected : reflected :=
  mkReflected billingv1_CreditAccount billingv1_CreditAccount_fields billingv1_CreditAccount_Range
    billingv1_CreditAccount_Has billingv1_CreditAccount_Clear billingv1_CreditAccount_Get billingv1_CreditAccount_Set
    billingv1_CreditAccount_Mutable billingv1_CreditAccount_NewField billingv1_CreditAccount_new
    billingv1_CreditAccount_GetUnknown billingv1_CreditAccount_SetUnknown billingv1_CreditAccount_getters.

Definition billingv1_CreditAccount_5_list : list_methods (option api_Coin) :=
  message_list as_api_Coin A_api_Coin api_Coin_new.

(** ** LeaseItemInput *)

Definition billingv1_LeaseItemInput_fields : list string :=
  ["liftedinit.billing.v1.LeaseItemInput.sku_uuid";
   "liftedinit.billing.v1.LeaseItemInput.quantity";
   "liftedinit.billing.v1.LeaseItemInput.service_name"]%string.

Definition billingv1_LeaseItemInput_Range (S : Type) (p : option billingv1_LeaseItemInput) (f : S → string → value → S * bool) (s : S) : res S :=
  x ← deref p;
  Ok (visit f
   [(has_string (billingv1_LeaseItemInput_SkuUuid x), "liftedinit.billing.v1.LeaseItemInput.sku_uuid"%string, VString (billingv1_LeaseItemInput_SkuUuid x));
    (has_num (billingv1_LeaseItemInput_Quantity x), "liftedinit.billing.v1.LeaseItemInput.quantity"%string, VUint64 (billingv1_LeaseItemInput_Quantity x));
    (has_string (billingv1_LeaseItemInput_ServiceName x), "liftedinit.billing.v1.LeaseItemInput.service_name"%string, VString (billingv1_LeaseItemInput_ServiceName x))] s).

Definition billingv1_LeaseItemInput_Has (p : option billingv1_LeaseItemInput) (fd : string) : res bool :=
  x ← deref p;
  match field_number billingv1_LeaseItemInput_fields fd with
  | 1 => Ok (has_string (billingv1_LeaseItemInput_SkuUuid x))
  | 2 => Ok (has_num (billingv1_LeaseItemInput_Quantity x))
  | 3 => Ok (has_string (billingv1_LeaseItemInput_ServiceName x))
  | _ => Panic
  end.

Definition billingv1_LeaseItemInput_Clear (p : option billingv1_LeaseItemInput) (fd : string) : res (option billingv1_LeaseItemInput) :=
  x ← deref p;
  let 'mk_billingv1_LeaseItemInput skuUuid quantity serviceName u := x in
  match field_number billingv1_LeaseItemInput_fields fd with
  | 1 => Ok (Some (mk_billingv1_LeaseItemInput "" quantity serviceName u))
  | 2 => Ok (Some (mk_billingv1_LeaseItemInput skuUuid 0 serviceName u))
  | 3 => Ok (Some (mk_billingv1_LeaseItemInput skuUuid quantity "" u))
  | _ => Panic
  end.

Definition billingv1_LeaseItemInput_Get (p : option billingv1_LeaseItemInput) (fd : string) : res value :=
  x ← deref p;
  match field_number billingv1_LeaseItemInput_fields fd with
  | 1 => Ok (VString (billingv1_LeaseItemInput_SkuUuid x))
  | 2 => Ok (VUint64 (billingv1_LeaseItemInput_Quantity x))
  | 3 => Ok (VString (billingv1_LeaseItemInput_ServiceName x))
  | _ => Panic
  end.

Definition billingv1_LeaseItemInput_Set (p : option billingv1_LeaseItemInput) (fd : string) (value : value) : res (option billingv1_LeaseItemInput) :=
  x ← deref p;
  let 'mk_billingv1_LeaseItemInput skuUuid quantity serviceName u := x in
  match field_number billingv1_LeaseItemInput_fields fd with
  | 1 => v ← as_string value; Ok (Some (mk_billingv1_LeaseItemInput v quantity serviceName u))
  | 2 => v ← as_uint value; Ok (Some (mk_billingv1_LeaseItemInput skuUuid v serviceName u))
  | 3 => v ← as_string value; Ok (Some (mk_billingv1_LeaseItemInput skuUuid quantity v u))
  | _ => Panic
  end.

Definition billingv1_LeaseItemInput_Mutable (p : option billingv1_LeaseItemInput) (fd : string) : res (option billingv1_LeaseItemInput * value) := Panic.

Definition billingv1_LeaseItemInput_NewField (fd : string) : res value :=
  match field_number billingv1_LeaseItemInput_fields fd with
  | 1 => Ok (VString "")
  | 2 => Ok (VUint64 0)
  | 3 => Ok (VString "")
  | _ => Panic
  end.

Definition billingv1_LeaseItemInput_GetUnknown (p : option billingv1_LeaseItemInput) : res bytes := x ← deref p; Ok (billingv1_LeaseItemInput_unknownFields x).

Definition billingv1_LeaseItemInput_SetUnknown (p : option billingv1_LeaseItemInput) (fields : bytes) : res (option billingv1_LeaseItemInput) :=
  x ← deref p;
  let 'mk_billingv1_LeaseItemInput skuUuid quantity serviceName _ := x in
  Ok (Some (mk_billingv1_LeaseItemInput skuUuid quantity serviceName fields)).

Definition billingv1_LeaseItemInput_GetSkuUuid (p : option billingv1_LeaseItemInput) : string := match p with Some x => billingv1_LeaseItemInput_SkuUuid x | None => "" end.
Definition billingv1_LeaseItemInput_GetQuantity (p : option billingv1_LeaseItemInput) : Z := match p with Some x => billingv1_LeaseItemInput_Quantity x | None => 0 end.
Definition billingv1_LeaseItemInput_GetServiceName (p : option billingv1_LeaseItemInput) : string := match p with Some x => billingv1_LeaseItemInput_ServiceName x | None => "" end.

Definition billingv1_LeaseItemInput_getters : list (string * (option billingv1_LeaseItemInput → value)) :=
  [("liftedinit.billing.v1.LeaseItemInput.sku_uuid", λ p, VString (billingv1_LeaseItemInput_GetSkuUuid p));
   ("liftedinit.billing.v1.LeaseItemInput.quantity", λ p, VUint64 (billingv1_LeaseItemInput_GetQuantity p));
   ("liftedinit.billing.v1.LeaseItemInput.service_name", λ p, VString (billingv1_LeaseItemInput_GetServiceName p))]%string.

Definition billingv1_LeaseItemInput_reflected : reflected :=
  mkReflected billingv1_LeaseItemInput billingv1_LeaseItemInput_fields billingv1_LeaseItemInput_Range
    billingv1_LeaseItemInput_Has billingv1_LeaseItemInput_Clear billingv1_LeaseItemInput_Get
    billingv1_LeaseItemInput_Set billingv1_LeaseItemInput_Mutable billingv1_LeaseItemInput_NewField
    billingv1_LeaseItemInput_new billingv1_LeaseItemInput_GetUnknown billingv1_LeaseItemInput_SetUnknown
    billingv1_LeaseItemInput_getters.

(** ** MsgFundCredit *)

Definition billingv1_MsgFundCredit_fields : list string :=
  ["liftedinit.billing.v1.MsgFundCredit.sender";
   "liftedinit.billing.v1.MsgFundCredit.tenant";
   "liftedinit.billing.v1.MsgFundCredit.amount"]%string.

Definition billingv1_MsgFundCredit_Range (S : Type) (p : option billingv1_MsgFundCredit) (f : S → string → value → S * bool) (s : S) : res S :=
  x ← deref p;
  Ok (visit f
   [(has_string (billingv1_MsgFundCredit_Sender x), "liftedinit.billing.v1.MsgFundCredit.sender"%string, VString (billingv1_MsgFundCredit_Sender x));
    (has_string (billingv1_MsgFundCredit_Tenant x), "liftedinit.billing.v1.MsgFundCredit.tenant"%string, VString (billingv1_MsgFundCredit_Tenant x));
    (not_nil (billingv1_MsgFundCredit_Amount x), "liftedinit.billing.v1.MsgFundCredit.amount"%string, VMessage (A_api_Coin (billingv1_MsgFundCredit_Amount x)))] s).

Definition billingv1_MsgFundCredit_Has (p : option billingv1_MsgFundCredit) (fd : string) : res bool :=
  x ← deref p;
  match field_number billingv1_MsgFundCredit_fields fd with
  | 1 => Ok (has_string (billingv1_MsgFundCredit_Sender x))
  | 2 => Ok (has_string (billingv1_MsgFundCredit_Tenant x))
  | 3 => Ok (not_nil (billingv1_MsgFundCredit_Amount x))
  | _ => Panic
  end.

Definition billingv1_MsgFundCredit_Clear (p : option billingv1_MsgFundCredit) (fd : string) : res (option billingv1_MsgFundCredit) :=
  x ← deref p;
  let 'mk_billingv1_MsgFundCredit sender tenant amount u := x in
  match field_number billingv1_MsgFundCredit_fields fd with
  | 1 => Ok (Some (mk_billingv1_MsgFundCredit "" tenant amount u))
  | 2 => Ok (Some (mk_billingv1_MsgFundCredit sender "" amount u))
  | 3 => Ok (Some (mk_billingv1_MsgFundCredit sender tenant None u))
  | _ => Panic
  end.

Definition billingv1_MsgFundCredit_Get (p : option billingv1_MsgFundCredit) (fd : string) : res value :=
  x ← deref p;
  match field_number billingv1_MsgFundCredit_fields fd with
  | 1 => Ok (VString (billingv1_MsgFundCredit_Sender x))
  | 2 => Ok (VString (billingv1_MsgFundCredit_Tenant x))
  | 3 => Ok (VMessage (A_api_Coin (billingv1_MsgFundCredit_Amount x)))
  | _ => Panic
  end.

Definition billingv1_MsgFundCredit_Set (p : option billingv1_MsgFundCredit) (fd : string) (value : value) : res (option billingv1_MsgFundCredit) :=
  x ← deref p;
  let 'mk_billingv1_MsgFundCredit sender tenant amount u := x in
  match field_number billingv1_MsgFundCredit_fields fd with
  | 1 => v ← as_string value; Ok (Some (mk_billingv1_MsgFundCredit v tenant amount u))
  | 2 => v ← as_string value; Ok (Some (mk_billingv1_MsgFundCredit sender v amount u))
  | 3 => v ← as_api_Coin value; Ok (Some (mk_billingv1_MsgFundCredit sender tenant v u))
  | _ => Panic
  end.

Definition billingv1_MsgFundCredit_Mutable (p : option billingv1_MsgFundCredit) (fd : string) : res (option billingv1_MsgFundCredit * value) :=
  x ← deref p;
  let 'mk_billingv1_MsgFundCredit sender tenant amount u := x in
  match field_number billingv1_MsgFundCredit_fields fd with
  | 3 => let v := match amount with None => Some api_Coin_new | Some _ => amount end in
      Ok (Some (mk_billingv1_MsgFundCredit sender tenant v u), VMessage (A_api_Coin v))
  | _ => Panic
  end.

Definition billingv1_MsgFundCredit_NewField (fd : string) : res value :=
  match field_number billingv1_MsgFundCredit_fields fd with
  | 1 => Ok (VString "")
  | 2 => Ok (VString "")
  | 3 => Ok (VMessage (A_api_Coin (Some api_Coin_new)))
  | _ => Panic
  end.

Definition billingv1_MsgFundCredit_GetUnknown (p : option billingv1_MsgFundCredit) : res bytes := x ← deref p; Ok (billingv1_MsgFundCredit_unknownFields x).

Definition billingv1_MsgFundCredit_SetUnknown (p : option billingv1_MsgFundCredit) (fields : bytes) : res (option billingv1_MsgFundCredit) :=
  x ← deref p;
  let 'mk_billingv1_MsgFundCredit sender tenant amount _ := x in
  Ok (Some (mk_billingv1_MsgFundCredit sender tenant amount fields)).

Definition billingv1_MsgFundCredit_GetSender (p : option billingv1_MsgFundCredit) : string := match p with Some x => billingv1_MsgFundCredit_Sender x | None => "" end.
Definition billingv1_MsgFundCredit_GetTenant (p : option billingv1_MsgFundCredit) : string := match p with Some x => billingv1_MsgFundCredit_Tenant x | None => "" end.
Definition billingv1_MsgFundCredit_GetAmount (p : option billingv1_MsgFundCredit) : option api_Coin := match p with Some x => billingv1_MsgFundCredit_Amount x | None => None end.

Definition billingv1_MsgFundCredit_getters : list (string * (option billingv1_MsgFundCredit → value)) :=
  [("liftedinit.billing.v1.MsgFundCredit.sender", λ p, VString (billingv1_MsgFundCredit_GetSender p));
   ("liftedinit.billing.v1.MsgFundCredit.tenant", λ p, VString (billingv1_MsgFundCredit_GetTenant p));
   ("liftedinit.billing.v1.MsgFundCredit.amount", λ p, VMessage (A_api_Coin (billingv1_MsgFundCredit_GetAmount p)))]%string.

Definition billingv1_MsgFundCredit_reflected : reflected :=
  mkReflected billingv1_MsgFundCredit billingv1_MsgFundCredit_fields billingv1_MsgFundCredit_Range
    billingv1_MsgFundCredit_Has billingv1_MsgFundCredit_Clear billingv1_MsgFundCredit_Get billingv1_MsgFundCredit_Set
    billingv1_MsgFundCredit_Mutable billingv1_MsgFundCredit_NewField billingv1_MsgFundCredit_new
    billingv1_MsgFundCredit_GetUnknown billingv1_MsgFundCredit_SetUnknown billingv1_MsgFundCredit_getters.

(** ** MsgFundCreditResponse *)

Definition billingv1_MsgFundCreditResponse_fields : list string :=
  ["liftedinit.billing.v1.MsgFundCreditResponse.credit_address";
   "liftedinit.billing.v1.MsgFundCreditResponse.new_balance"]%string.

Definition billingv1_MsgFundCreditResponse_Range (S : Type) (p : option billingv1_MsgFundCreditResponse) (f : S → string → value → S * bool) (s : S) : res S :=
  x ← deref p;
  Ok (visit f
   [(has_string (billingv1_MsgFundCreditResponse_CreditAddress x), "liftedinit.billing.v1.MsgFundCreditResponse.credit_address"%string, VString (billingv1_MsgFundCreditResponse_CreditAddress x));
    (not_nil (billingv1_MsgFundCreditResponse_NewBalance x), "liftedinit.billing.v1.MsgFundCreditResponse.new_balance"%string, VMessage (A_api_Coin (billingv1_MsgFundCreditResponse_NewBalance x)))] s).

Definition billingv1_MsgFundCreditResponse_Has (p : option billingv1_MsgFundCreditResponse) (fd : string) : res bool :=
  x ← deref p;
  match field_number billingv1_MsgFundCreditResponse_fields fd with
  | 1 => Ok (has_string (billingv1_MsgFundCreditResponse_CreditAddress x))
  | 2 => Ok (not_nil (billingv1_MsgFundCreditResponse_NewBalance x))
  | _ => Panic
  end.

Definition billingv1_MsgFundCreditResponse_Clear (p : option billingv1_MsgFundCreditResponse) (fd : string) : res (option billingv1_MsgFundCreditResponse) :=
  x ← deref p;
  let 'mk_billingv1_MsgFundCreditResponse creditAddress newBalance u := x in
  match field_number billingv1_MsgFundCreditResponse_fields fd with
  | 1 => Ok (Some (mk_billingv1_MsgFundCreditResponse "" newBalance u))
  | 2 => Ok (Some (mk_billingv1_MsgFundCreditResponse creditAddress None u))
  | _ => Panic
  end.

Definition billingv1_MsgFundCreditResponse_Get (p : option billingv1_MsgFundCreditResponse) (fd : string) : res value :=
  x ← deref p;
  match field_number billingv1_MsgFundCreditResponse_fields fd with
  | 1 => Ok (VString (billingv1_MsgFundCreditResponse_CreditAddress x))
  | 2 => Ok (VMessage (A_api_Coin (billingv1_MsgFundCreditResponse_NewBalance x)))
  | _ => Panic
  end.

Definition billingv1_MsgFundCreditResponse_Set (p : option billingv1_MsgFundCreditResponse) (fd : string) (value : value) : res (option billingv1_MsgFundCreditResponse) :=
  x ← deref p;
  let 'mk_billingv1_MsgFundCreditResponse creditAddress newBalance u := x in
  match field_number billingv1_MsgFundCreditResponse_fields fd with
  | 1 => v ← as_string value; Ok (Some (mk_billingv1_MsgFundCreditResponse v newBalance u))
  | 2 => v ← as_api_Coin value; Ok (Some (mk_billingv1_MsgFundCreditResponse creditAddress v u))
  | _ => Panic
  end.

Definition billingv1_MsgFundCreditResponse_Mutable (p : option billingv1_MsgFundCreditResponse) (fd : string) : res (option billingv1_MsgFundCreditResponse * value) :=
  x ← deref p;
  let 'mk_billingv1_MsgFundCreditResponse creditAddress newBalance u := x in
  match field_number billingv1_MsgFundCreditResponse_fields fd with
  | 2 => let v := match newBalance with None => Some api_Coin_new | Some _ => newBalance end in
      Ok (Some (mk_billingv1_MsgFundCreditResponse creditAddress v u), VMessage (A_api_Coin v))
  | _ => Panic
  end.

Definition billingv1_MsgFundCreditResponse_NewField (fd : string) : res value :=
  match field_number billingv1_MsgFundCreditResponse_fields fd with
  | 1 => Ok (VString "")
  | 2 => Ok (VMessage (A_api_Coin (Some api_Coin_new)))
  | _ => Panic
  end.

Definition billingv1_MsgFundCreditResponse_GetUnknown (p : option billingv1_MsgFundCreditResponse) : res bytes := x ← deref p; Ok (billingv1_MsgFundCreditResponse_unknownFields x).

Definition billingv1_MsgFundCreditResponse_SetUnknown (p : option billingv1_MsgFundCreditResponse) (fields : bytes) : res (option billingv1_MsgFundCreditResponse) :=
  x ← deref p;
  let 'mk_billingv1_MsgFundCreditResponse creditAddress newBalance _ := x in
  Ok (Some (mk_billingv1_MsgFundCreditResponse creditAddress newBalance fields)).

Definition billingv1_MsgFundCreditResponse_GetCreditAddress (p : option billingv1_MsgFundCreditResponse) : string := match p with Some x => billingv1_MsgFundCreditResponse_CreditAddress x | None => "" end.
Definition billingv1_MsgFundCreditResponse_GetNewBalance (p : option billingv1_MsgFundCreditResponse) : option api_Coin := match p with Some x => billingv1_MsgFundCreditResponse_NewBalance x | None => None end.

Definition billingv1_MsgFundCreditResponse_getters : list (string * (option billingv1_MsgFundCreditResponse → value)) :=
  [("liftedinit.billing.v1.MsgFundCreditResponse.credit_address", λ p, VString (billingv1_MsgFundCreditResponse_GetCreditAddress p));
   ("liftedinit.billing.v1.MsgFundCreditResponse.new_balance", λ p, VMessage (A_api_Coin (billingv1_MsgFundCreditResponse_GetNewBalance p)))]%string.

Definition billingv1_MsgFundCreditResponse_reflected : reflected :=
  mkReflected billingv1_MsgFundCreditResponse billingv1_MsgFundCreditResponse_fields
    billingv1_MsgFundCreditResponse_Range billingv1_MsgFundCreditResponse_Has billingv1_MsgFundCreditResponse_Clear
    billingv1_MsgFundCreditResponse_Get billingv1_MsgFundCreditResponse_Set billingv1_MsgFundCreditResponse_Mutable
    billingv1_MsgFundCreditResponse_NewField billingv1_MsgFundCreditResponse_new
    billingv1_MsgFundCreditResponse_GetUnknown billingv1_MsgFundCreditResponse_SetUnknown
    billingv1_MsgFundCreditResponse_getters.

(** ** MsgCreateLease *)

Definition billingv1_MsgCreateLease_fields : list string :=
  ["liftedinit.billing.v1.MsgCreateLease.tenant";
   "liftedinit.billing.v1.MsgCreateLease.items";
   "liftedinit.billing.v1.MsgCreateLease.meta_hash"]%string.

Definition billingv1_MsgCreateLease_Range (S : Type) (p : option billingv1_MsgCreateLease) (f : S → string → value → S * bool) (s : S) : res S :=
  x ← deref p;
  Ok (visit f
   [(has_string (billingv1_MsgCreateLease_Tenant x), "liftedinit.billing.v1.MsgCreateLease.tenant"%string, VString (billingv1_MsgCreateLease_Tenant x));
    (has_list (billingv1_MsgCreateLease_Items x), "liftedinit.billing.v1.MsgCreateLease.items"%string, VList (L_billingv1_MsgCreateLease_2 (Some (billingv1_MsgCreateLease_Items x))));
    (has_bytes (billingv1_MsgCreateLease_MetaHash x), "liftedinit.billing.v1.MsgCreateLease.meta_hash"%string, VBytes (billingv1_MsgCreateLease_MetaHash x))] s).

Definition billingv1_MsgCreateLease_Has (p : option billingv1_MsgCreateLease) (fd : string) : res bool :=
  x ← deref p;
  match field_number billingv1_MsgCreateLease_fields fd with
  | 1 => Ok (has_string (billingv1_MsgCreateLease_Tenant x))
  | 2 => Ok (has_list (billingv1_MsgCreateLease_Items x))
  | 3 => Ok (has_bytes (billingv1_MsgCreateLease_MetaHash x))
  | _ => Panic
  end.

Definition billingv1_MsgCreateLease_Clear (p : option billingv1_MsgCreateLease) (fd : string) : res (option billingv1_MsgCreateLease) :=
  x ← deref p;
  let 'mk_billingv1_MsgCreateLease tenant items metaHash u := x in
  match field_number billingv1_MsgCreateLease_fields fd with
  | 1 => Ok (Some (mk_billingv1_MsgCreateLease "" items metaHash u))
  | 2 => Ok (Some (mk_billingv1_MsgCreateLease tenant [] metaHash u))
  | 3 => Ok (Some (mk_billingv1_MsgCreateLease tenant items "" u))
  | _ => Panic
  end.

Definition billingv1_MsgCreateLease_Get (p : option billingv1_MsgCreateLease) (fd : string) : res value :=
  x ← deref p;
  match field_number billingv1_MsgCreateLease_fields fd with
  | 1 => Ok (VString (billingv1_MsgCreateLease_Tenant x))
  | 2 => Ok (VList (L_billingv1_MsgCreateLease_2 (view (billingv1_MsgCreateLease_Items x))))
  | 3 => Ok (VBytes (billingv1_MsgCreateLease_MetaHash x))
  | _ => Panic
  end.

Definition billingv1_MsgCreateLease_Set (p : option billingv1_MsgCreateLease) (fd : string) (value : value) : res (option billingv1_MsgCreateLease) :=
  x ← deref p;
  let 'mk_billingv1_MsgCreateLease tenant items metaHash u := x in
  match field_number billingv1_MsgCreateLease_fields fd with
  | 1 => v ← as_string value; Ok (Some (mk_billingv1_MsgCreateLease v items metaHash u))
  | 2 => v ← as_L_billingv1_MsgCreateLease_2 value; Ok (Some (mk_billingv1_MsgCreateLease tenant v metaHash u))
  | 3 => v ← as_bytes value; Ok (Some (mk_billingv1_MsgCreateLease tenant items v u))
  | _ => Panic
  end.

Definition billingv1_MsgCreateLease_Mutable (p : option billingv1_MsgCreateLease) (fd : string) : res (option billingv1_MsgCreateLease * value) :=
  x ← deref p;
  let 'mk_billingv1_MsgCreateLease tenant items metaHash u := x in
  match field_number billingv1_MsgCreateLease_fields fd with
  | 2 => Ok (Some x, VList (L_billingv1_MsgCreateLease_2 (Some items)))
  | _ => Panic
  end.

Definition billingv1_MsgCreateLease_NewField (fd : string) : res value :=
  match field_number billingv1_MsgCreateLease_fields fd with
  | 1 => Ok (VString "")
  | 2 => Ok (VList (L_billingv1_MsgCreateLease_2 (Some [])))
  | 3 => Ok (VBytes "")
  | _ => Panic
  end.

Definition billingv1_MsgCreateLease_GetUnknown (p : option billingv1_MsgCreateLease) : res bytes := x ← deref p; Ok (billingv1_MsgCreateLease_unknownFields x).

Definition billingv1_MsgCreateLease_SetUnknown (p : option billingv1_MsgCreateLease) (fields : bytes) : res (option billingv1_MsgCreateLease) :=
  x ← deref p;
  let 'mk_billingv1_MsgCreateLease tenant items metaHash _ := x in
  Ok (Some (mk_billingv1_MsgCreateLease tenant items metaHash fields)).

Definition billingv1_MsgCreateLease_GetTenant (p : option billingv1_MsgCreateLease) : string := match p with Some x => billingv1_MsgCreateLease_Tenant x | None => "" end.
Definition billingv1_MsgCreateLease_GetItems (p : option billingv1_MsgCreateLease) : list (option billingv1_LeaseItemInput) := match p with Some x => billingv1_MsgCreateLease_Items x | None => [] end.
Definition billingv1_MsgCreateLease_GetMetaHash (p : option billingv1_MsgCreateLease) : string := match p with Some x => billingv1_MsgCreateLease_MetaHash x | None => "" end.

Definition billingv1_MsgCreateLease_getters : list (string * (option billingv1_MsgCreateLease → value)) :=
  [("liftedinit.billing.v1.MsgCreateLease.tenant", λ p, VString (billingv1_MsgCreateLease_GetTenant p));
   ("liftedinit.billing.v1.MsgCreateLease.items", λ p, VList (L_billingv1_MsgCreateLease_2 (view (billingv1_MsgCreateLease_GetItems p))));
   ("liftedinit.billing.v1.MsgCreateLease.meta_hash", λ p, VBytes (billingv1_MsgCreateLease_GetMetaHash p))]%string.

Definition billingv1_MsgCreateLease_reflected : reflected :=
  mkReflected billingv1_MsgCreateLease billingv1_MsgCreateLease_fields billingv1_MsgCreateLease_Range
    billingv1_MsgCreateLease_Has billingv1_MsgCreateLease_Clear billingv1_MsgCreateLease_Get
    billingv1_MsgCreateLease_Set billingv1_MsgCreateLease_Mutable billingv1_MsgCreateLease_NewField
    billingv1_MsgCreateLease_new billingv1_MsgCreateLease_GetUnknown billingv1_MsgCreateLease_SetUnknown
    billingv1_MsgCreateLease_getters.

Definition billingv1_MsgCreateLease_2_list : list_methods (option billingv1_LeaseItemInput) :=
  message_list as_billingv1_LeaseItemInput A_billingv1_LeaseItemInput billingv1_LeaseItemInput_new.

(** ** MsgCreateLeaseResponse *)

Definition billingv1_MsgCreateLeaseResponse_fields : list string :=
  ["liftedinit.billing.v1.MsgCreateLeaseResponse.lease_uuid"]%string.

Definition billingv1_MsgCreateLeaseResponse_Range (S : Type) (p : option billingv1_MsgCreateLeaseResponse) (f : S → string → value → S * bool) (s : S) : res S :=
  x ← deref p;
  Ok (visit f
   [(has_string (billingv1_MsgCreateLeaseResponse_LeaseUuid x), "liftedinit.billing.v1.MsgCreateLeaseResponse.lease_uuid"%string, VString (billingv1_MsgCreateLeaseResponse_LeaseUuid x))] s).

Definition billingv1_MsgCreateLeaseResponse_Has (p : option billingv1_MsgCreateLeaseResponse) (fd : string) : res bool :=
  x ← deref p;
  match field_number billingv1_MsgCreateLeaseResponse_fields fd with
  | 1 => Ok (has_string (billingv1_MsgCreateLeaseResponse_LeaseUuid x))
  | _ => Panic
  end.

Definition billingv1_MsgCreateLeaseResponse_Clear (p : option billingv1_MsgCreateLeaseResponse) (fd : string) : res (option billingv1_MsgCreateLeaseResponse) :=
  x ← deref p;
  let 'mk_billingv1_MsgCreateLeaseResponse leaseUuid u := x in
  match field_number billingv1_MsgCreateLeaseResponse_fields fd with
  | 1 => Ok (Some (mk_billingv1_MsgCreateLeaseResponse "" u))
  | _ => Panic
  end.

Definition billingv1_MsgCreateLeaseResponse_Get (p : option billingv1_MsgCreateLeaseResponse) (fd : string) : res value :=
  x ← deref p;
  match field_number billingv1_MsgCreateLeaseResponse_fields fd with
  | 1 => Ok (VString (billingv1_MsgCreateLeaseResponse_LeaseUuid x))
  | _ => Panic
  end.

Definition billingv1_MsgCreateLeaseResponse_Set (p : option billingv1_MsgCreateLeaseResponse) (fd : string) (value : value) : res (option billingv1_MsgCreateLeaseResponse) :=
  x ← deref p;
  let 'mk_billingv1_MsgCreateLeaseResponse leaseUuid u := x in
  match field_number billingv1_MsgCreateLeaseResponse_fields fd with
  | 1 => v ← as_string value; Ok (Some (mk_billingv1_MsgCreateLeaseResponse v u))
  | _ => Panic
  end.

Definition billingv1_MsgCreateLeaseResponse_Mutable (p : option billingv1_MsgCreateLeaseResponse) (fd : string) : res (option billingv1_MsgCreateLeaseResponse * value) := Panic.

Definition billingv1_MsgCreateLeaseResponse_NewField (fd : string) : res value :=
  match field_number billingv1_MsgCreateLeaseResponse_fields fd with
  | 1 => Ok (VString "")
  | _ => Panic
  end.

Definition billingv1_MsgCreateLeaseResponse_GetUnknown (p : option billingv1_MsgCreateLeaseResponse) : res bytes := x ← deref p; Ok (billingv1_MsgCreateLeaseResponse_unknownFields x).

Definition billingv1_MsgCreateLeaseResponse_SetUnknown (p : option billingv1_MsgCreateLeaseResponse) (fields : bytes) : res (option billingv1_MsgCreateLeaseResponse) :=
  x ← deref p;
  let 'mk_billingv1_MsgCreateLeaseResponse leaseUuid _ := x in
  Ok (Some (mk_billingv1_MsgCreateLeaseResponse leaseUuid fields)).

Definition billingv1_MsgCreateLeaseResponse_GetLeaseUuid (p : option billingv1_MsgCreateLeaseResponse) : string := match p with Some x => billingv1_MsgCreateLeaseResponse_LeaseUuid x | None => "" end.

Definition billingv1_MsgCreateLeaseResponse_getters : list (string * (option billingv1_MsgCreateLeaseResponse → value)) :=
  [("liftedinit.billing.v1.MsgCreateLeaseResponse.lease_uuid", λ p, VString (billingv1_MsgCreateLeaseResponse_GetLeaseUuid p))]%string.

Definition billingv1_MsgCreateLeaseResponse_reflected : reflected :=
  mkReflected billingv1_MsgCreateLeaseResponse billingv1_MsgCreateLeaseResponse_fields
    billingv1_MsgCreateLeaseResponse_Range billingv1_MsgCreateLeaseResponse_Has billingv1_MsgCreateLeaseResponse_Clear
    billingv1_MsgCreateLeaseResponse_Get billingv1_MsgCreateLeaseResponse_Set billingv1_MsgCreateLeaseResponse_Mutable
    billingv1_MsgCreateLeaseResponse_NewField billingv1_MsgCreateLeaseResponse_new
    billingv1_MsgCreateLeaseResponse_GetUnknown billingv1_MsgCreateLeaseResponse_SetUnknown
    billingv1_MsgCreateLeaseResponse_getters.

(** ** MsgCreateLeaseForTenant *)

Definition billingv1_MsgCreateLeaseForTenant_fields : list string :=
  ["liftedinit.billing.v1.MsgCreateLeaseForTenant.authority";
   "liftedinit.billing.v1.MsgCreateLeaseForTenant.tenant";
   "liftedinit.billing.v1.MsgCreateLeaseForTenant.items";
   "liftedinit.billing.v1.MsgCreateLeaseForTenant.meta_hash"]%string.

Definition billingv1_MsgCreateLeaseForTenant_Range (S : Type) (p : option billingv1_MsgCreateLeaseForTenant) (f : S → string → value → S * bool) (s : S) : res S :=
  x ← deref p;
  Ok (visit f
   [(has_string (billingv1_MsgCreateLeaseForTenant_Authority x), "liftedinit.billing.v1.MsgCreateLeaseForTenant.authority"%string, VString (billingv1_MsgCreateLeaseForTenant_Authority x));
    (has_string (billingv1_MsgCreateLeaseForTenant_Tenant x), "liftedinit.billing.v1.MsgCreateLeaseForTenant.tenant"%string, VString (billingv1_MsgCreateLeaseForTenant_Tenant x));
    (has_list (billingv1_MsgCreateLeaseForTenant_Items x), "liftedinit.billing.v1.MsgCreateLeaseForTenant.items"%string, VList (L_billingv1_MsgCreateLeaseForTenant_3 (Some (billingv1_MsgCreateLeaseForTenant_Items x))));
    (has_bytes (billingv1_MsgCreateLeaseForTenant_MetaHash x), "liftedinit.billing.v1.MsgCreateLeaseForTenant.meta_hash"%string, VBytes (billingv1_MsgCreateLeaseForTenant_MetaHash x))] s).

Definition billingv1_MsgCreateLeaseForTenant_Has (p : option billingv1_MsgCreateLeaseForTenant) (fd : string) : res bool :=
  x ← deref p;
  match field_number billingv1_MsgCreateLeaseForTenant_fields fd with
  | 1 => Ok (has_string (billingv1_MsgCreateLeaseForTenant_Authority x))
  | 2 => Ok (has_string (billingv1_MsgCreateLeaseForTenant_Tenant x))
  | 3 => Ok (has_list (billingv1_MsgCreateLeaseForTenant_Items x))
  | 4 => Ok (has_bytes (billingv1_MsgCreateLeaseForTenant_MetaHash x))
  | _ => Panic
  end.

Definition billingv1_MsgCreateLeaseForTenant_Clear (p : option billingv1_MsgCreateLeaseForTenant) (fd : string) : res (option billingv1_MsgCreateLeaseForTenant) :=
  x ← deref p;
  let 'mk_billingv1_MsgCreateLeaseForTenant authority tenant items metaHash u := x in
  match field_number billingv1_MsgCreateLeaseForTenant_fields fd with
  | 1 => Ok (Some (mk_billingv1_MsgCreateLeaseForTenant "" tenant items metaHash u))
  | 2 => Ok (Some (mk_billingv1_MsgCreateLeaseForTenant authority "" items metaHash u))
  | 3 => Ok (Some (mk_billingv1_MsgCreateLeaseForTenant authority tenant [] metaHash u))
  | 4 => Ok (Some (mk_billingv1_MsgCreateLeaseForTenant authority tenant items "" u))
  | _ => Panic
  end.

Definition billingv1_MsgCreateLeaseForTenant_Get (p : option billingv1_MsgCreateLeaseForTenant) (fd : string) : res value :=
  x ← deref p;
  match field_number billingv1_MsgCreateLeaseForTenant_fields fd with
  | 1 => Ok (VString (billingv1_MsgCreateLeaseForTenant_Authority x))
  | 2 => Ok (VString (billingv1_MsgCreateLeaseForTenant_Tenant x))
  | 3 => Ok (VList (L_billingv1_MsgCreateLeaseForTenant_3 (view (billingv1_MsgCreateLeaseForTenant_Items x))))
  | 4 => Ok (VBytes (billingv1_MsgCreateLeaseForTenant_MetaHash x))
  | _ => Panic
  end.

Definition billingv1_MsgCreateLeaseForTenant_Set (p : option billingv1_MsgCreateLeaseForTenant) (fd : string) (value : value) : res (option billingv1_MsgCreateLeaseForTenant) :=
  x ← deref p;
  let 'mk_billingv1_MsgCreateLeaseForTenant authority tenant items metaHash u := x in
  match field_number billingv1_MsgCreateLeaseForTenant_fields fd with
  | 1 => v ← as_string value; Ok (Some (mk_billingv1_MsgCreateLeaseForTenant v tenant items metaHash u))
  | 2 => v ← as_string value; Ok (Some (mk_billingv1_MsgCreateLeaseForTenant authority v items metaHash u))
  | 3 => v ← as_L_billingv1_MsgCreateLeaseForTenant_3 value; Ok (Some (mk_billingv1_MsgCreateLeaseForTenant authority tenant v metaHash u))
  | 4 => v ← as_bytes value; Ok (Some (mk_billingv1_MsgCreateLeaseForTenant authority tenant items v u))
  | _ => Panic
  end.

Definition billingv1_MsgCreateLeaseForTenant_Mutable (p : option billingv1_MsgCreateLeaseForTenant) (fd : string) : res (option billingv1_MsgCreateLeaseForTenant * value) :=
  x ← deref p;
  let 'mk_billingv1_MsgCreateLeaseForTenant authority tenant items metaHash u := x in
  match field_number billingv1_MsgCreateLeaseForTenant_fields fd with
  | 3 => Ok (Some x, VList (L_billingv1_MsgCreateLeaseForTenant_3 (Some items)))
  | _ => Panic
  end.

Definition billingv1_MsgCreateLeaseForTenant_NewField (fd : string) : res value :=
  match field_number billingv1_MsgCreateLeaseForTenant_fields fd with
  | 1 => Ok (VString "")
  | 2 => Ok (VString "")
  | 3 => Ok (VList (L_billingv1_MsgCreateLeaseForTenant_3 (Some [])))
  | 4 => Ok (VBytes "")
  | _ => Panic
  end.

Definition billingv1_MsgCreateLeaseForTenant_GetUnknown (p : option billingv1_MsgCreateLeaseForTenant) : res bytes := x ← deref p; Ok (billingv1_MsgCreateLeaseForTenant_unknownFields x).

Definition billingv1_MsgCreateLeaseForTenant_SetUnknown (p : option billingv1_MsgCreateLeaseForTenant) (fields : bytes) : res (option billingv1_MsgCreateLeaseForTenant) :=
  x ← deref p;
  let 'mk_billingv1_MsgCreateLeaseForTenant authority tenant items metaHash _ := x in
  Ok (Some (mk_billingv1_MsgCreateLeaseForTenant authority tenant items metaHash fields)).

Definition billingv1_MsgCreateLeaseForTenant_GetAuthority (p : option billingv1_MsgCreateLeaseForTenant) : string := match p with Some x => billingv1_MsgCreateLeaseForTenant_Authority x | None => "" end.
Definition billingv1_MsgCreateLeaseForTenant_GetTenant (p : option billingv1_MsgCreateLeaseForTenant) : string := match p with Some x => billingv1_MsgCreateLeaseForTenant_Tenant x | None => "" end.
Definition billingv1_MsgCreateLeaseForTenant_GetItems (p : option billingv1_MsgCreateLeaseForTenant) : list (option billingv1_LeaseItemInput) := match p with Some x => billingv1_MsgCreateLeaseForTenant_Items x | None => [] end.
Definition billingv1_MsgCreateLeaseForTenant_GetMetaHash (p : option billingv1_MsgCreateLeaseForTenant) : string := match p with Some x => billingv1_MsgCreateLeaseForTenant_MetaHash x | None => "" end.

Definition billingv1_MsgCreateLeaseForTenant_getters : list (string * (option billingv1_MsgCreateLeaseForTenant → value)) :=
  [("liftedinit.billing.v1.MsgCreateLeaseForTenant.authority", λ p, VString (billingv1_MsgCreateLeaseForTenant_GetAuthority p));
   ("liftedinit.billing.v1.MsgCreateLeaseForTenant.tenant", λ p, VString (billingv1_MsgCreateLeaseForTenant_GetTenant p));
   ("liftedinit.billing.v1.MsgCreateLeaseForTenant.items", λ p, VList (L_billingv1_MsgCreateLeaseForTenant_3 (view (billingv1_MsgCreateLeaseForTenant_GetItems p))));
   ("liftedinit.billing.v1.MsgCreateLeaseForTenant.meta_hash", λ p, VBytes (billingv1_MsgCreateLeaseForTenant_GetMetaHash p))]%string.

Definition billingv1_MsgCreateLeaseForTenant_reflected : reflected :=
  mkReflected billingv1_MsgCreateLeaseForTenant billingv1_MsgCreateLeaseForTenant_fields
    billingv1_MsgCreateLeaseForTenant_Range billingv1_MsgCreateLeaseForTenant_Has
    billingv1_MsgCreateLeaseForTenant_Clear billingv1_MsgCreateLeaseForTenant_Get
    billingv1_MsgCreateLeaseForTenant_Set billingv1_MsgCreateLeaseForTenant_Mutable
    billingv1_MsgCreateLeaseForTenant_NewField billingv1_MsgCreateLeaseForTenant_new
    billingv1_MsgCreateLeaseForTenant_GetUnknown billingv1_MsgCreateLeaseForTenant_SetUnknown
    billingv1_MsgCreateLeaseForTenant_getters.

Definition billingv1_MsgCreateLeaseForTenant_3_list : list_methods (option billingv1_LeaseItemInput) :=
  message_list as_billingv1_LeaseItemInput A_billingv1_LeaseItemInput billingv1_LeaseItemInput_new.

(** ** MsgCreateLeaseForTenantResponse *)

Definition billingv1_MsgCreateLeaseForTenantResponse_fields : list string :=
  ["liftedinit.billing.v1.MsgCreateLeaseForTenantResponse.lease_uuid"]%string.

Definition billingv1_MsgCreateLeaseForTenantResponse_Range (S : Type) (p : option billingv1_MsgCreateLeaseForTenantResponse) (f : S → string → value → S * bool) (s : S) : res S :=
  x ← deref p;
  Ok (visit f
   [(has_string (billingv1_MsgCreateLeaseForTenantResponse_LeaseUuid x), "liftedinit.billing.v1.MsgCreateLeaseForTenantResponse.lease_uuid"%string, VString (billingv1_MsgCreateLeaseForTenantResponse_LeaseUuid x))] s).

Definition billingv1_MsgCreateLeaseForTenantResponse_Has (p : option billingv1_MsgCreateLeaseForTenantResponse) (fd : string) : res bool :=
  x ← deref p;
  match field_number billingv1_MsgCreateLeaseForTenantResponse_fields fd with
  | 1 => Ok (has_string (billingv1_MsgCreateLeaseForTenantResponse_LeaseUuid x))
  | _ => Panic
  end.

Definition billingv1_MsgCreateLeaseForTenantResponse_Clear (p : option billingv1_MsgCreateLeaseForTenantResponse) (fd : string) : res (option billingv1_MsgCreateLeaseForTenantResponse) :=
  x ← deref p;
  let 'mk_billingv1_MsgCreateLeaseForTenantResponse leaseUuid u := x in
  match field_number billingv1_MsgCreateLeaseForTenantResponse_fields fd with
  | 1 => Ok (Some (mk_billingv1_MsgCreateLeaseForTenantResponse "" u))
  | _ => Panic
  end.

Definition billingv1_MsgCreateLeaseForTenantResponse_Get (p : option billingv1_MsgCreateLeaseForTenantResponse) (fd : string) : res value :=
  x ← deref p;
  match field_number billingv1_MsgCreateLeaseForTenantResponse_fields fd with
  | 1 => Ok (VString (billingv1_MsgCreateLeaseForTenantResponse_LeaseUuid x))
  | _ => Panic
  end.

Definition billingv1_MsgCreateLeaseForTenantResponse_Set (p : option billingv1_MsgCreateLeaseForTenantResponse) (fd : string) (value : value) : res (option billingv1_MsgCreateLeaseForTenantResponse) :=
  x ← deref p;
  let 'mk_billingv1_MsgCreateLeaseForTenantResponse leaseUuid u := x in
  match field_number billingv1_MsgCreateLeaseForTenantResponse_fields fd with
  | 1 => v ← as_string value; Ok (Some (mk_billingv1_MsgCreateLeaseForTenantResponse v u))
  | _ => Panic
  end.

Definition billingv1_MsgCreateLeaseForTenantResponse_Mutable (p : option billingv1_MsgCreateLeaseForTenantResponse) (fd : string) : res (option billingv1_MsgCreateLeaseForTenantResponse * value) := Panic.

Definition billingv1_MsgCreateLeaseForTenantResponse_NewField (fd : string) : res value :=
  match field_number billingv1_MsgCreateLeaseForTenantResponse_fields fd with
  | 1 => Ok (VString "")
  | _ => Panic
  end.

Definition billingv1_MsgCreateLeaseForTenantResponse_GetUnknown (p : option billingv1_MsgCreateLeaseForTenantResponse) : res bytes := x ← deref p; Ok (billingv1_MsgCreateLeaseForTenantResponse_unknownFields x).

Definition billingv1_MsgCreateLeaseForTenantResponse_SetUnknown (p : option billingv1_MsgCreateLeaseForTenantResponse) (fields : bytes) : res (option billingv1_MsgCreateLeaseForTenantResponse) :=
  x ← deref p;
  let 'mk_billingv1_MsgCreateLeaseForTenantResponse leaseUuid _ := x in
  Ok (Some (mk_billingv1_MsgCreateLeaseForTenantResponse leaseUuid fields)).

Definition billingv1_MsgCreateLeaseForTenantResponse_GetLeaseUuid (p : option billingv1_MsgCreateLeaseForTenantResponse) : string := match p with Some x => billingv1_MsgCreateLeaseForTenantResponse_LeaseUuid x | None => "" end.

Definition billingv1_MsgCreateLeaseForTenantResponse_getters : list (string * (option billingv1_MsgCreateLeaseForTenantResponse → value)) :=
  [("liftedinit.billing.v1.MsgCreateLeaseForTenantResponse.lease_uuid", λ p, VString (billingv1_MsgCreateLeaseForTenantResponse_GetLeaseUuid p))]%string.

Definition billingv1_MsgCreateLeaseForTenantResponse_reflected : reflected :=
  mkReflected billingv1_MsgCreateLeaseForTenantResponse billingv1_MsgCreateLeaseForTenantResponse_fields
    billingv1_MsgCreateLeaseForTenantResponse_Range billingv1_MsgCreateLeaseForTenantResponse_Has
    billingv1_MsgCreateLeaseForTenantResponse_Clear billingv1_MsgCreateLeaseForTenantResponse_Get
    billingv1_MsgCreateLeaseForTenantResponse_Set billingv1_MsgCreateLeaseForTenantResponse_Mutable
    billingv1_MsgCreateLeaseForTenantResponse_NewField billingv1_MsgCreateLeaseForTenantResponse_new
    billingv1_MsgCreateLeaseForTenantResponse_GetUnknown billingv1_MsgCreateLeaseForTenantResponse_SetUnknown
    billingv1_MsgCreateLeaseForTenantResponse_getters.

(** ** MsgCloseLease *)

Definition billingv1_MsgCloseLease_fields : list string :=
  ["liftedinit.billing.v1.MsgCloseLease.sender";
   "liftedinit.billing.v1.MsgCloseLease.lease_uuids";
   "liftedinit.billing.v1.MsgCloseLease.reason"]%string.

Definition billingv1_MsgCloseLease_Range (S : Type) (p : option billingv1_MsgCloseLease) (f : S → string → value → S * bool) (s : S) : res S :=
  x ← deref p;
  Ok (visit f
   [(has_string (billingv1_MsgCloseLease_Sender x), "liftedinit.billing.v1.MsgCloseLease.sender"%string, VString (billingv1_MsgCloseLease_Sender x));
    (has_list (billingv1_MsgCloseLease_LeaseUuids x), "liftedinit.billing.v1.MsgCloseLease.lease_uuids"%string, VList (L_billingv1_MsgCloseLease_2 (Some (billingv1_MsgCloseLease_LeaseUuids x))));
    (has_string (billingv1_MsgCloseLease_Reason x), "liftedinit.billing.v1.MsgCloseLease.reason"%string, VString (billingv1_MsgCloseLease_Reason x))] s).

Definition billingv1_MsgCloseLease_Has (p : option billingv1_MsgCloseLease) (fd : string) : res bool :=
  x ← deref p;
  match field_number billingv1_MsgCloseLease_fields fd with
  | 1 => Ok (has_string (billingv1_MsgCloseLease_Sender x))
  | 2 => Ok (has_list (billingv1_MsgCloseLease_LeaseUuids x))
  | 3 => Ok (has_string (billingv1_MsgCloseLease_Reason x))
  | _ => Panic
  end.

Definition billingv1_MsgCloseLease_Clear (p : option billingv1_MsgCloseLease) (fd : string) : res (option billingv1_MsgCloseLease) :=
  x ← deref p;
  let 'mk_billingv1_MsgCloseLease sender leaseUuids reason u := x in
  match field_number billingv1_MsgCloseLease_fields fd with
  | 1 => Ok (Some (mk_billingv1_MsgCloseLease "" leaseUuids reason u))
  | 2 => Ok (Some (mk_billingv1_MsgCloseLease sender [] reason u))
  | 3 => Ok (Some (mk_billingv1_MsgCloseLease sender leaseUuids "" u))
  | _ => Panic
  end.

Definition billingv1_MsgCloseLease_Get (p : option billingv1_MsgCloseLease) (fd : string) : res value :=
  x ← deref p;
  match field_number billingv1_MsgCloseLease_fields fd with
  | 1 => Ok (VString (billingv1_MsgCloseLease_Sender x))
  | 2 => Ok (VList (L_billingv1_MsgCloseLease_2 (view (billingv1_MsgCloseLease_LeaseUuids x))))
  | 3 => Ok (VString (billingv1_MsgCloseLease_Reason x))
  | _ => Panic
  end.

Definition billingv1_MsgCloseLease_Set (p : option billingv1_MsgCloseLease) (fd : string) (value : value) : res (option billingv1_MsgCloseLease) :=
  x ← deref p;
  let 'mk_billingv1_MsgCloseLease sender leaseUuids reason u := x in
  match field_number billingv1_MsgCloseLease_fields fd with
  | 1 => v ← as_string value; Ok (Some (mk_billingv1_MsgCloseLease v leaseUuids reason u))
  | 2 => v ← as_L_billingv1_MsgCloseLease_2 value; Ok (Some (mk_billingv1_MsgCloseLease sender v reason u))
  | 3 => v ← as_string value; Ok (Some (mk_billingv1_MsgCloseLease sender leaseUuids v u))
  | _ => Panic
  end.

Definition billingv1_MsgCloseLease_Mutable (p : option billingv1_MsgCloseLease) (fd : string) : res (option billingv1_MsgCloseLease * value) :=
  x ← deref p;
  let 'mk_billingv1_MsgCloseLease sender leaseUuids reason u := x in
  match field_number billingv1_MsgCloseLease_fields fd with
  | 2 => Ok (Some x, VList (L_billingv1_MsgCloseLease_2 (Some leaseUuids)))
  | _ => Panic
  end.

Definition billingv1_MsgCloseLease_NewField (fd : string) : res value :=
  match field_number billingv1_MsgCloseLease_fields fd with
  | 1 => Ok (VString "")
  | 2 => Ok (VList (L_billingv1_MsgCloseLease_2 (Some [])))
  | 3 => Ok (VString "")
  | _ => Panic
  end.

Definition billingv1_MsgCloseLease_GetUnknown (p : option billingv1_MsgCloseLease) : res bytes := x ← deref p; Ok (billingv1_MsgCloseLease_unknownFields x).

Definition billingv1_MsgCloseLease_SetUnknown (p : option billingv1_MsgCloseLease) (fields : bytes) : res (option billingv1_MsgCloseLease) :=
  x ← deref p;
  let 'mk_billingv1_MsgCloseLease sender leaseUuids reason _ := x in
  Ok (Some (mk_billingv1_MsgCloseLease sender leaseUuids reason fields)).

Definition billingv1_MsgCloseLease_GetSender (p : option billingv1_MsgCloseLease) : string := match p with Some x => billingv1_MsgCloseLease_Sender x | None => "" end.
Definition billingv1_MsgCloseLease_GetLeaseUuids (p : option billingv1_MsgCloseLease) : list string := match p with Some x => billingv1_MsgCloseLease_LeaseUuids x | None => [] end.
Definition billingv1_MsgCloseLease_GetReason (p : option billingv1_MsgCloseLease) : string := match p with Some x => billingv1_MsgCloseLease_Reason x | None => "" end.

Definition billingv1_MsgCloseLease_getters : list (string * (option billingv1_MsgCloseLease → value)) :=
  [("liftedinit.billing.v1.MsgCloseLease.sender", λ p, VString (billingv1_MsgCloseLease_GetSender p));
   ("liftedinit.billing.v1.MsgCloseLease.lease_uuids", λ p, VList (L_billingv1_MsgCloseLease_2 (view (billingv1_MsgCloseLease_GetLeaseUuids p))));
   ("liftedinit.billing.v1.MsgCloseLease.reason", λ p, VString (billingv1_MsgCloseLease_GetReason p))]%string.

Definition billingv1_MsgCloseLease_reflected : reflected :=
  mkReflected billingv1_MsgCloseLease billingv1_MsgCloseLease_fields billingv1_MsgCloseLease_Range
    billingv1_MsgCloseLease_Has billingv1_MsgCloseLease_Clear billingv1_MsgCloseLease_Get billingv1_MsgCloseLease_Set
    billingv1_MsgCloseLease_Mutable billingv1_MsgCloseLease_NewField billingv1_MsgCloseLease_new
    billingv1_MsgCloseLease_GetUnknown billingv1_MsgCloseLease_SetUnknown billingv1_MsgCloseLease_getters.

Definition billingv1_MsgCloseLease_2_list `{ValueString} : list_methods string := string_list.

(** ** MsgCloseLeaseResponse *)

Definition billingv1_MsgCloseLeaseResponse_fields : list string :=
  ["liftedinit.billing.v1.MsgCloseLeaseResponse.closed_at";
   "liftedinit.billing.v1.MsgCloseLeaseResponse.closed_count";
   "liftedinit.billing.v1.MsgCloseLeaseResponse.total_settled_amounts"]%string.

Definition billingv1_MsgCloseLeaseResponse_Range (S : Type) (p : option billingv1_MsgCloseLeaseResponse) (f : S → string → value → S * bool) (s : S) : res S :=
  x ← deref p;
  Ok (visit f
   [(not_nil (billingv1_MsgCloseLeaseResponse_ClosedAt x), "liftedinit.billing.v1.MsgCloseLeaseResponse.closed_at"%string, VMessage (A_api_Timestamp (billingv1_MsgCloseLeaseResponse_ClosedAt x)));
    (has_num (billingv1_MsgCloseLeaseResponse_ClosedCount x), "liftedinit.billing.v1.MsgCloseLeaseResponse.closed_count"%string, VUint64 (billingv1_MsgCloseLeaseResponse_ClosedCount x));
    (has_list (billingv1_MsgCloseLeaseResponse_TotalSettledAmounts x), "liftedinit.billing.v1.MsgCloseLeaseResponse.total_settled_amounts"%string, VList (L_billingv1_MsgCloseLeaseResponse_3 (Some (billingv1_MsgCloseLeaseResponse_TotalSettledAmounts x))))] s).

Definition billingv1_MsgCloseLeaseResponse_Has (p : option billingv1_MsgCloseLeaseResponse) (fd : string) : res bool :=
  x ← deref p;
  match field_number billingv1_MsgCloseLeaseResponse_fields fd with
  | 1 => Ok (not_nil (billingv1_MsgCloseLeaseResponse_ClosedAt x))
  | 2 => Ok (has_num (billingv1_MsgCloseLeaseResponse_ClosedCount x))
  | 3 => Ok (has_list (billingv1_MsgCloseLeaseResponse_TotalSettledAmounts x))
  | _ => Panic
  end.

Definition billingv1_MsgCloseLeaseResponse_Clear (p : option billingv1_MsgCloseLeaseResponse) (fd : string) : res (option billingv1_MsgCloseLeaseResponse) :=
  x ← deref p;
  let 'mk_billingv1_MsgCloseLeaseResponse closedAt closedCount totalSettledAmounts u := x in
  match field_number billingv1_MsgCloseLeaseResponse_fields fd with
  | 1 => Ok (Some (mk_billingv1_MsgCloseLeaseResponse None closedCount totalSettledAmounts u))
  | 2 => Ok (Some (mk_billingv1_MsgCloseLeaseResponse closedAt 0 totalSettledAmounts u))
  | 3 => Ok (Some (mk_billingv1_MsgCloseLeaseResponse closedAt closedCount [] u))
  | _ => Panic
  end.

Definition billingv1_MsgCloseLeaseResponse_Get (p : option billingv1_MsgCloseLeaseResponse) (fd : string) : res value :=
  x ← deref p;
  match field_number billingv1_MsgCloseLeaseResponse_fields fd with
  | 1 => Ok (VMessage (A_api_Timestamp (billingv1_MsgCloseLeaseResponse_ClosedAt x)))
  | 2 => Ok (VUint64 (billingv1_MsgCloseLeaseResponse_ClosedCount x))
  | 3 => Ok (VList (L_billingv1_MsgCloseLeaseResponse_3 (view (billingv1_MsgCloseLeaseResponse_TotalSettledAmounts x))))
  | _ => Panic
  end.

Definition billingv1_MsgCloseLeaseResponse_Set (p : option billingv1_MsgCloseLeaseResponse) (fd : string) (value : value) : res (option billingv1_MsgCloseLeaseResponse) :=
  x ← deref p;
  let 'mk_billingv1_MsgCloseLeaseResponse closedAt closedCount totalSettledAmounts u := x in
  match field_number billingv1_MsgCloseLeaseResponse_fields fd with
  | 1 => v ← as_api_Timestamp value; Ok (Some (mk_billingv1_MsgCloseLeaseResponse v closedCount totalSettledAmounts u))
  | 2 => v ← as_uint value; Ok (Some (mk_billingv1_MsgCloseLeaseResponse closedAt v totalSettledAmounts u))
  | 3 => v ← as_L_billingv1_MsgCloseLeaseResponse_3 value; Ok (Some (mk_billingv1_MsgCloseLeaseResponse closedAt closedCount v u))
  | _ => Panic
  end.

Definition billingv1_MsgCloseLeaseResponse_Mutable (p : option billingv1_MsgCloseLeaseResponse) (fd : string) : res (option billingv1_MsgCloseLeaseResponse * value) :=
  x ← deref p;
  let 'mk_billingv1_MsgCloseLeaseResponse closedAt closedCount totalSettledAmounts u := x in
  match field_number billingv1_MsgCloseLeaseResponse_fields fd with
  | 1 => let v := match closedAt with None => Some api_Timestamp_new | Some _ => closedAt end in
      Ok (Some (mk_billingv1_MsgCloseLeaseResponse v closedCount totalSettledAmounts u), VMessage (A_api_Timestamp v))
  | 3 => Ok (Some x, VList (L_billingv1_MsgCloseLeaseResponse_3 (Some totalSettledAmounts)))
  | _ => Panic
  end.

Definition billingv1_MsgCloseLeaseResponse_NewField (fd : string) : res value :=
  match field_number billingv1_MsgCloseLeaseResponse_fields fd with
  | 1 => Ok (VMessage (A_api_Timestamp (Some api_Timestamp_new)))
  | 2 => Ok (VUint64 0)
  | 3 => Ok (VList (L_billingv1_MsgCloseLeaseResponse_3 (Some [])))
  | _ => Panic
  end.

Definition billingv1_MsgCloseLeaseResponse_GetUnknown (p : option billingv1_MsgCloseLeaseResponse) : res bytes := x ← deref p; Ok (billingv1_MsgCloseLeaseResponse_unknownFields x).

Definition billingv1_MsgCloseLeaseResponse_SetUnknown (p : option billingv1_MsgCloseLeaseResponse) (fields : bytes) : res (option billingv1_MsgCloseLeaseResponse) :=
  x ← deref p;
  let 'mk_billingv1_MsgCloseLeaseResponse closedAt closedCount totalSettledAmounts _ := x in
  Ok (Some (mk_billingv1_MsgCloseLeaseResponse closedAt closedCount totalSettledAmounts fields)).

Definition billingv1_MsgCloseLeaseResponse_GetClosedAt (p : option billingv1_MsgCloseLeaseResponse) : option api_Timestamp := match p with Some x => billingv1_MsgCloseLeaseResponse_ClosedAt x | None => None end.
Definition billingv1_MsgCloseLeaseResponse_GetClosedCount (p : option billingv1_MsgCloseLeaseResponse) : Z := match p with Some x => billingv1_MsgCloseLeaseResponse_ClosedCount x | None => 0 end.
Definition billingv1_MsgCloseLeaseResponse_GetTotalSettledAmounts (p : option billingv1_MsgCloseLeaseResponse) : list (option api_Coin) := match p with Some x => billingv1_MsgCloseLeaseResponse_TotalSettledAmounts x | None => [] end.

Definition billingv1_MsgCloseLeaseResponse_getters : list (string * (option billingv1_MsgCloseLeaseResponse → value)) :=
  [("liftedinit.billing.v1.MsgCloseLeaseResponse.closed_at", λ p, VMessage (A_api_Timestamp (billingv1_MsgCloseLeaseResponse_GetClosedAt p)));
   ("liftedinit.billing.v1.MsgCloseLeaseResponse.closed_count", λ p, VUint64 (billingv1_MsgCloseLeaseResponse_GetClosedCount p));
   ("liftedinit.billing.v1.MsgCloseLeaseResponse.total_settled_amounts", λ p, VList (L_billingv1_MsgCloseLeaseResponse_3 (view (billingv1_MsgCloseLeaseResponse_GetTotalSettledAmounts p))))]%string.

Definition billingv1_MsgCloseLeaseResponse_reflected : reflected :=
  mkReflected billingv1_MsgCloseLeaseResponse billingv1_MsgCloseLeaseResponse_fields
    billingv1_MsgCloseLeaseResponse_Range billingv1_MsgCloseLeaseResponse_Has billingv1_MsgCloseLeaseResponse_Clear
    billingv1_MsgCloseLeaseResponse_Get billingv1_MsgCloseLeaseResponse_Set billingv1_MsgCloseLeaseResponse_Mutable
    billingv1_MsgCloseLeaseResponse_NewField billingv1_MsgCloseLeaseResponse_new
    billingv1_MsgCloseLeaseResponse_GetUnknown billingv1_MsgCloseLeaseResponse_SetUnknown
    billingv1_MsgCloseLeaseResponse_getters.

Definition billingv1_MsgCloseLeaseResponse_3_list : list_methods (option api_Coin) :=
  message_list as_api_Coin A_api_Coin api_Coin_new.

(** ** MsgWithdraw *)

Definition billingv1_MsgWithdraw_fields : list string :=
  ["liftedinit.billing.v1.MsgWithdraw.sender";
   "liftedinit.billing.v1.MsgWithdraw.lease_uuids";
   "liftedinit.billing.v1.MsgWithdraw.provider_uuid";
   "liftedinit.billing.v1.MsgWithdraw.limit"]%string.

Definition billingv1_MsgWithdraw_Range (S : Type) (p : option billingv1_MsgWithdraw) (f : S → string → value → S * bool) (s : S) : res S :=
  x ← deref p;
  Ok (visit f
   [(has_string (billingv1_MsgWithdraw_Sender x), "liftedinit.billing.v1.MsgWithdraw.sender"%string, VString (billingv1_MsgWithdraw_Sender x));
    (has_list (billingv1_MsgWithdraw_LeaseUuids x), "liftedinit.billing.v1.MsgWithdraw.lease_uuids"%string, VList (L_billingv1_MsgWithdraw_2 (Some (billingv1_MsgWithdraw_LeaseUuids x))));
    (has_string (billingv1_MsgWithdraw_ProviderUuid x), "liftedinit.billing.v1.MsgWithdraw.provider_uuid"%string, VString (billingv1_MsgWithdraw_ProviderUuid x));
    (has_num (billingv1_MsgWithdraw_Limit x), "liftedinit.billing.v1.MsgWithdraw.limit"%string, VUint64 (billingv1_MsgWithdraw_Limit x))] s).

Definition billingv1_MsgWithdraw_Has (p : option billingv1_MsgWithdraw) (fd : string) : res bool :=
  x ← deref p;
  match field_number billingv1_MsgWithdraw_fields fd with
  | 1 => Ok (has_string (billingv1_MsgWithdraw_Sender x))
  | 2 => Ok (has_list (billingv1_MsgWithdraw_LeaseUuids x))
  | 3 => Ok (has_string (billingv1_MsgWithdraw_ProviderUuid x))
  | 4 => Ok (has_num (billingv1_MsgWithdraw_Limit x))
  | _ => Panic
  end.

Definition billingv1_MsgWithdraw_Clear (p : option billingv1_MsgWithdraw) (fd : string) : res (option billingv1_MsgWithdraw) :=
  x ← deref p;
  let 'mk_billingv1_MsgWithdraw sender leaseUuids providerUuid limit u := x in
  match field_number billingv1_MsgWithdraw_fields fd with
  | 1 => Ok (Some (mk_billingv1_MsgWithdraw "" leaseUuids providerUuid limit u))
  | 2 => Ok (Some (mk_billingv1_MsgWithdraw sender [] providerUuid limit u))
  | 3 => Ok (Some (mk_billingv1_MsgWithdraw sender leaseUuids "" limit u))
  | 4 => Ok (Some (mk_billingv1_MsgWithdraw sender leaseUuids providerUuid 0 u))
  | _ => Panic
  end.

Definition billingv1_MsgWithdraw_Get (p : option billingv1_MsgWithdraw) (fd : string) : res value :=
  x ← deref p;
  match field_number billingv1_MsgWithdraw_fields fd with
  | 1 => Ok (VString (billingv1_MsgWithdraw_Sender x))
  | 2 => Ok (VList (L_billingv1_MsgWithdraw_2 (view (billingv1_MsgWithdraw_LeaseUuids x))))
  | 3 => Ok (VString (billingv1_MsgWithdraw_ProviderUuid x))
  | 4 => Ok (VUint64 (billingv1_MsgWithdraw_Limit x))
  | _ => Panic
  end.

Definition billingv1_MsgWithdraw_Set (p : option billingv1_MsgWithdraw) (fd : string) (value : value) : res (option billingv1_MsgWithdraw) :=
  x ← deref p;
  let 'mk_billingv1_MsgWithdraw sender leaseUuids providerUuid limit u := x in
  match field_number billingv1_MsgWithdraw_fields fd with
  | 1 => v ← as_string value; Ok (Some (mk_billingv1_MsgWithdraw v leaseUuids providerUuid limit u))
  | 2 => v ← as_L_billingv1_MsgWithdraw_2 value; Ok (Some (mk_billingv1_MsgWithdraw sender v providerUuid limit u))
  | 3 => v ← as_string value; Ok (Some (mk_billingv1_MsgWithdraw sender leaseUuids v limit u))
  | 4 => v ← as_uint value; Ok (Some (mk_billingv1_MsgWithdraw sender leaseUuids providerUuid v u))
  | _ => Panic
  end.

Definition billingv1_MsgWithdraw_Mutable (p : option billingv1_MsgWithdraw) (fd : string) : res (option billingv1_MsgWithdraw * value) :=
  x ← deref p;
  let 'mk_billingv1_MsgWithdraw sender leaseUuids providerUuid limit u := x in
  match field_number billingv1_MsgWithdraw_fields fd with
  | 2 => Ok (Some x, VList (L_billingv1_MsgWithdraw_2 (Some leaseUuids)))
  | _ => Panic
  end.

Definition billingv1_MsgWithdraw_NewField (fd : string) : res value :=
  match field_number billingv1_MsgWithdraw_fields fd with
  | 1 => Ok (VString "")
  | 2 => Ok (VList (L_billingv1_MsgWithdraw_2 (Some [])))
  | 3 => Ok (VString "")
  | 4 => Ok (VUint64 0)
  | _ => Panic
  end.

Definition billingv1_MsgWithdraw_GetUnknown (p : option billingv1_MsgWithdraw) : res bytes := x ← deref p; Ok (billingv1_MsgWithdraw_unknownFields x).

Definition billingv1_MsgWithdraw_SetUnknown (p : option billingv1_MsgWithdraw) (fields : bytes) : res (option billingv1_MsgWithdraw) :=
  x ← deref p;
  let 'mk_billingv1_MsgWithdraw sender leaseUuids providerUuid limit _ := x in
  Ok (Some (mk_billingv1_MsgWithdraw sender leaseUuids providerUuid limit fields)).

Definition billingv1_MsgWithdraw_GetSender (p : option billingv1_MsgWithdraw) : string := match p with Some x => billingv1_MsgWithdraw_Sender x | None => "" end.
Definition billingv1_MsgWithdraw_GetLeaseUuids (p : option billingv1_MsgWithdraw) : list string := match p with Some x => billingv1_MsgWithdraw_LeaseUuids x | None => [] end.
Definition billingv1_MsgWithdraw_GetProviderUuid (p : option billingv1_MsgWithdraw) : string := match p with Some x => billingv1_MsgWithdraw_ProviderUuid x | None => "" end.
Definition billingv1_MsgWithdraw_GetLimit (p : option billingv1_MsgWithdraw) : Z := match p with Some x => billingv1_MsgWithdraw_Limit x | None => 0 end.

Definition billingv1_MsgWithdraw_getters : list (string * (option billingv1_MsgWithdraw → value)) :=
  [("liftedinit.billing.v1.MsgWithdraw.sender", λ p, VString (billingv1_MsgWithdraw_GetSender p));
   ("liftedinit.billing.v1.MsgWithdraw.lease_uuids", λ p, VList (L_billingv1_MsgWithdraw_2 (view (billingv1_MsgWithdraw_GetLeaseUuids p))));
   ("liftedinit.billing.v1.MsgWithdraw.provider_uuid", λ p, VString (billingv1_MsgWithdraw_GetProviderUuid p));
   ("liftedinit.billing.v1.MsgWithdraw.limit", λ p, VUint64 (billingv1_MsgWithdraw_GetLimit p))]%string.

Definition billingv1_MsgWithdraw_reflected : reflected :=
  mkReflected billingv1_MsgWithdraw billingv1_MsgWithdraw_fields billingv1_MsgWithdraw_Range billingv1_MsgWithdraw_Has
    billingv1_MsgWithdraw_Clear billingv1_MsgWithdraw_Get billingv1_MsgWithdraw_Set billingv1_MsgWithdraw_Mutable
    billingv1_MsgWithdraw_NewField billingv1_MsgWithdraw_new billingv1_MsgWithdraw_GetUnknown
    billingv1_MsgWithdraw_SetUnknown billingv1_MsgWithdraw_getters.

Definition billingv1_MsgWithdraw_2_list `{ValueString} : list_methods string := string_list.

(** ** MsgWithdrawResponse *)

Definition billingv1_MsgWithdrawResponse_fields : list string :=
  ["liftedinit.billing.v1.MsgWithdrawResponse.total_amounts";
   "liftedinit.billing.v1.MsgWithdrawResponse.payout_address";
   "liftedinit.billing.v1.MsgWithdrawResponse.withdrawal_count";
   "liftedinit.billing.v1.MsgWithdrawResponse.has_more"]%string.

Definition billingv1_MsgWithdrawResponse_Range (S : Type) (p : option billingv1_MsgWithdrawResponse) (f : S → string → value → S * bool) (s : S) : res S :=
  x ← deref p;
  Ok (visit f
   [(has_list (billingv1_MsgWithdrawResponse_TotalAmounts x), "liftedinit.billing.v1.MsgWithdrawResponse.total_amounts"%string, VList (L_billingv1_MsgWithdrawResponse_1 (Some (billingv1_MsgWithdrawResponse_TotalAmounts x))));
    (has_string (billingv1_MsgWithdrawResponse_PayoutAddress x), "liftedinit.billing.v1.MsgWithdrawResponse.payout_address"%string, VString (billingv1_MsgWithdrawResponse_PayoutAddress x));
    (has_num (billingv1_MsgWithdrawResponse_WithdrawalCount x), "liftedinit.billing.v1.MsgWithdrawResponse.withdrawal_count"%string, VUint64 (billingv1_MsgWithdrawResponse_WithdrawalCount x));
    ((billingv1_MsgWithdrawResponse_HasMore x), "liftedinit.billing.v1.MsgWithdrawResponse.has_more"%string, VBool (billingv1_MsgWithdrawResponse_HasMore x))] s).

Definition billingv1_MsgWithdrawResponse_Has (p : option billingv1_MsgWithdrawResponse) (fd : string) : res bool :=
  x ← deref p;
  match field_number billingv1_MsgWithdrawResponse_fields fd with
  | 1 => Ok (has_list (billingv1_MsgWithdrawResponse_TotalAmounts x))
  | 2 => Ok (has_string (billingv1_MsgWithdrawResponse_PayoutAddress x))
  | 3 => Ok (has_num (billingv1_MsgWithdrawResponse_WithdrawalCount x))
  | 4 => Ok ((billingv1_MsgWithdrawResponse_HasMore x))
  | _ => Panic
  end.

Definition billingv1_MsgWithdrawResponse_Clear (p : option billingv1_MsgWithdrawResponse) (fd : string) : res (option billingv1_MsgWithdrawResponse) :=
  x ← deref p;
  let 'mk_billingv1_MsgWithdrawResponse totalAmounts payoutAddress withdrawalCount hasMore u := x in
  match field_number billingv1_MsgWithdrawResponse_fields fd with
  | 1 => Ok (Some (mk_billingv1_MsgWithdrawResponse [] payoutAddress withdrawalCount hasMore u))
  | 2 => Ok (Some (mk_billingv1_MsgWithdrawResponse totalAmounts "" withdrawalCount hasMore u))
  | 3 => Ok (Some (mk_billingv1_MsgWithdrawResponse totalAmounts payoutAddress 0 hasMore u))
  | 4 => Ok (Some (mk_billingv1_MsgWithdrawResponse totalAmounts payoutAddress withdrawalCount false u))
  | _ => Panic
  end.

Definition billingv1_MsgWithdrawResponse_Get (p : option billingv1_MsgWithdrawResponse) (fd : string) : res value :=
  x ← deref p;
  match field_number billingv1_MsgWithdrawResponse_fields fd with
  | 1 => Ok (VList (L_billingv1_MsgWithdrawResponse_1 (view (billingv1_MsgWithdrawResponse_TotalAmounts x))))
  | 2 => Ok (VString (billingv1_MsgWithdrawResponse_PayoutAddress x))
  | 3 => Ok (VUint64 (billingv1_MsgWithdrawResponse_WithdrawalCount x))
  | 4 => Ok (VBool (billingv1_MsgWithdrawResponse_HasMore x))
  | _ => Panic
  end.

Definition billingv1_MsgWithdrawResponse_Set (p : option billingv1_MsgWithdrawResponse) (fd : string) (value : value) : res (option billingv1_MsgWithdrawResponse) :=
  x ← deref p;
  let 'mk_billingv1_MsgWithdrawResponse totalAmounts payoutAddress withdrawalCount hasMore u := x in
  match field_number billingv1_MsgWithdrawResponse_fields fd with
  | 1 => v ← as_L_billingv1_MsgWithdrawResponse_1 value; Ok (Some (mk_billingv1_MsgWithdrawResponse v payoutAddress withdrawalCount hasMore u))
  | 2 => v ← as_string value; Ok (Some (mk_billingv1_MsgWithdrawResponse totalAmounts v withdrawalCount hasMore u))
  | 3 => v ← as_uint value; Ok (Some (mk_billingv1_MsgWithdrawResponse totalAmounts payoutAddress v hasMore u))
  | 4 => v ← as_bool value; Ok (Some (mk_billingv1_MsgWithdrawResponse totalAmounts payoutAddress withdrawalCount v u))
  | _ => Panic
  end.

Definition billingv1_MsgWithdrawResponse_Mutable (p : option billingv1_MsgWithdrawResponse) (fd : string) : res (option billingv1_MsgWithdrawResponse * value) :=
  x ← deref p;
  let 'mk_billingv1_MsgWithdrawResponse totalAmounts payoutAddress withdrawalCount hasMore u := x in
  match field_number billingv1_MsgWithdrawResponse_fields fd with
  | 1 => Ok (Some x, VList (L_billingv1_MsgWithdrawResponse_1 (Some totalAmounts)))
  | _ => Panic
  end.

Definition billingv1_MsgWithdrawResponse_NewField (fd : string) : res value :=
  match field_number billingv1_MsgWithdrawResponse_fields fd with
  | 1 => Ok (VList (L_billingv1_MsgWithdrawResponse_1 (Some [])))
  | 2 => Ok (VString "")
  | 3 => Ok (VUint64 0)
  | 4 => Ok (VBool false)
  | _ => Panic
  end.

Definition billingv1_MsgWithdrawResponse_GetUnknown (p : option billingv1_MsgWithdrawResponse) : res bytes := x ← deref p; Ok (billingv1_MsgWithdrawResponse_unknownFields x).

Definition billingv1_MsgWithdrawResponse_SetUnknown (p : option billingv1_MsgWithdrawResponse) (fields : bytes) : res (option billingv1_MsgWithdrawResponse) :=
  x ← deref p;
  let 'mk_billingv1_MsgWithdrawResponse totalAmounts payoutAddress withdrawalCount hasMore _ := x in
  Ok (Some (mk_billingv1_MsgWithdrawResponse totalAmounts payoutAddress withdrawalCount hasMore fields)).

Definition billingv1_MsgWithdrawResponse_GetTotalAmounts (p : option billingv1_MsgWithdrawResponse) : list (option api_Coin) := match p with Some x => billingv1_MsgWithdrawResponse_TotalAmounts x | None => [] end.
Definition billingv1_MsgWithdrawResponse_GetPayoutAddress (p : option billingv1_MsgWithdrawResponse) : string := match p with Some x => billingv1_MsgWithdrawResponse_PayoutAddress x | None => "" end.
Definition billingv1_MsgWithdrawResponse_GetWithdrawalCount (p : option billingv1_MsgWithdrawResponse) : Z := match p with Some x => billingv1_MsgWithdrawResponse_WithdrawalCount x | None => 0 end.
Definition billingv1_MsgWithdrawResponse_GetHasMore (p : option billingv1_MsgWithdrawResponse) : bool := match p with Some x => billingv1_MsgWithdrawResponse_HasMore x | None => false end.

Definition billingv1_MsgWithdrawResponse_getters : list (string * (option billingv1_MsgWithdrawResponse → value)) :=
  [("liftedinit.billing.v1.MsgWithdrawResponse.total_amounts", λ p, VList (L_billingv1_MsgWithdrawResponse_1 (view (billingv1_MsgWithdrawResponse_GetTotalAmounts p))));
   ("liftedinit.billing.v1.MsgWithdrawResponse.payout_address", λ p, VString (billingv1_MsgWithdrawResponse_GetPayoutAddress p));
   ("liftedinit.billing.v1.MsgWithdrawResponse.withdrawal_count", λ p, VUint64 (billingv1_MsgWithdrawResponse_GetWithdrawalCount p));
   ("liftedinit.billing.v1.MsgWithdrawResponse.has_more", λ p, VBool (billingv1_MsgWithdrawResponse_GetHasMore p))]%string.

Definition billingv1_MsgWithdrawResponse_reflected : reflected :=
  mkReflected billingv1_MsgWithdrawResponse billingv1_MsgWithdrawResponse_fields billingv1_MsgWithdrawResponse_Range
    billingv1_MsgWithdrawResponse_Has billingv1_MsgWithdrawResponse_Clear billingv1_MsgWithdrawResponse_Get
    billingv1_MsgWithdrawResponse_Set billingv1_MsgWithdrawResponse_Mutable billingv1_MsgWithdrawResponse_NewField
    billingv1_MsgWithdrawResponse_new billingv1_MsgWithdrawResponse_GetUnknown
    billingv1_MsgWithdrawResponse_SetUnknown billingv1_MsgWithdrawResponse_getters.

Definition billingv1_MsgWithdrawResponse_1_list : list_methods (option api_Coin) :=
  message_list as_api_Coin A_api_Coin api_Coin_new.

(** ** MsgUpdateParams *)

Definition billingv1_MsgUpdateParams_fields : list string :=
  ["liftedinit.billing.v1.MsgUpdateParams.authority";
   "liftedinit.billing.v1.MsgUpdateParams.params"]%string.

Definition billingv1_MsgUpdateParams_Range (S : Type) (p : option billingv1_MsgUpdateParams) (f : S → string → value → S * bool) (s : S) : res S :=
  x ← deref p;
  Ok (visit f
   [(has_string (billingv1_MsgUpdateParams_Authority x), "liftedinit.billing.v1.MsgUpdateParams.authority"%string, VString (billingv1_MsgUpdateParams_Authority x));
    (not_nil (billingv1_MsgUpdateParams_Params x), "liftedinit.billing.v1.MsgUpdateParams.params"%string, VMessage (A_billingv1_Params (billingv1_MsgUpdateParams_Params x)))] s).

Definition billingv1_MsgUpdateParams_Has (p : option billingv1_MsgUpdateParams) (fd : string) : res bool :=
  x ← deref p;
  match field_number billingv1_MsgUpdateParams_fields fd with
  | 1 => Ok (has_string (billingv1_MsgUpdateParams_Authority x))
  | 2 => Ok (not_nil (billingv1_MsgUpdateParams_Params x))
  | _ => Panic
  end.

Definition billingv1_MsgUpdateParams_Clear (p : option billingv1_MsgUpdateParams) (fd : string) : res (option billingv1_MsgUpdateParams) :=
  x ← deref p;
  let 'mk_billingv1_MsgUpdateParams authority params u := x in
  match field_number billingv1_MsgUpdateParams_fields fd with
  | 1 => Ok (Some (mk_billingv1_MsgUpdateParams "" params u))
  | 2 => Ok (Some (mk_billingv1_MsgUpdateParams authority None u))
  | _ => Panic
  end.

Definition billingv1_MsgUpdateParams_Get (p : option billingv1_MsgUpdateParams) (fd : string) : res value :=
  x ← deref p;
  match field_number billingv1_MsgUpdateParams_fields fd with
  | 1 => Ok (VString (billingv1_MsgUpdateParams_Authority x))
  | 2 => Ok (VMessage (A_billingv1_Params (billingv1_MsgUpdateParams_Params x)))
  | _ => Panic
  end.

Definition billingv1_MsgUpdateParams_Set (p : option billingv1_MsgUpdateParams) (fd : string) (value : value) : res (option billingv1_MsgUpdateParams) :=
  x ← deref p;
  let 'mk_billingv1_MsgUpdateParams authority params u := x in
  match field_number billingv1_MsgUpdateParams_fields fd with
  | 1 => v ← as_string value; Ok (Some (mk_billingv1_MsgUpdateParams v params u))
  | 2 => v ← as_billingv1_Params value; Ok (Some (mk_billingv1_MsgUpdateParams authority v u))
  | _ => Panic
  end.

Definition billingv1_MsgUpdateParams_Mutable (p : option billingv1_MsgUpdateParams) (fd : string) : res (option billingv1_MsgUpdateParams * value) :=
  x ← deref p;
  let 'mk_billingv1_MsgUpdateParams authority params u := x in
  match field_number billingv1_MsgUpdateParams_fields fd with
  | 2 => let v := match params with None => Some billingv1_Params_new | Some _ => params end in
      Ok (Some (mk_billingv1_MsgUpdateParams authority v u), VMessage (A_billingv1_Params v))
  | _ => Panic
  end.

Definition billingv1_MsgUpdateParams_NewField (fd : string) : res value :=
  match field_number billingv1_MsgUpdateParams_fields fd with
  | 1 => Ok (VString "")
  | 2 => Ok (VMessage (A_billingv1_Params (Some billingv1_Params_new)))
  | _ => Panic
  end.

Definition billingv1_MsgUpdateParams_GetUnknown (p : option billingv1_MsgUpdateParams) : res bytes := x ← deref p; Ok (billingv1_MsgUpdateParams_unknownFields x).

Definition billingv1_MsgUpdateParams_SetUnknown (p : option billingv1_MsgUpdateParams) (fields : bytes) : res (option billingv1_MsgUpdateParams) :=
  x ← deref p;
  let 'mk_billingv1_MsgUpdateParams authority params _ := x in
  Ok (Some (mk_billingv1_MsgUpdateParams authority params fields)).

Definition billingv1_MsgUpdateParams_GetAuthority (p : option billingv1_MsgUpdateParams) : string := match p with Some x => billingv1_MsgUpdateParams_Authority x | None => "" end.
Definition billingv1_MsgUpdateParams_GetParams (p : option billingv1_MsgUpdateParams) : option billingv1_Params := match p with Some x => billingv1_MsgUpdateParams_Params x | None => None end.

Definition billingv1_MsgUpdateParams_getters : list (string * (option billingv1_MsgUpdateParams → value)) :=
  [("liftedinit.billing.v1.MsgUpdateParams.authority", λ p, VString (billingv1_MsgUpdateParams_GetAuthority p));
   ("liftedinit.billing.v1.MsgUpdateParams.params", λ p, VMessage (A_billingv1_Params (billingv1_MsgUpdateParams_GetParams p)))]%string.

Definition billingv1_MsgUpdateParams_reflected : reflected :=
  mkReflected billingv1_MsgUpdateParams billingv1_MsgUpdateParams_fields billingv1_MsgUpdateParams_Range
    billingv1_MsgUpdateParams_Has billingv1_MsgUpdateParams_Clear billingv1_MsgUpdateParams_Get
    billingv1_MsgUpdateParams_Set billingv1_MsgUpdateParams_Mutable billingv1_MsgUpdateParams_NewField
    billingv1_MsgUpdateParams_new billingv1_MsgUpdateParams_GetUnknown billingv1_MsgUpdateParams_SetUnknown
    billingv1_MsgUpdateParams_getters.

(** ** MsgUpdateParamsResponse *)

Definition billingv1_MsgUpdateParamsResponse_fields : list string :=
  []%string.

Definition billingv1_MsgUpdateParamsResponse_Range (S : Type) (p : option billingv1_MsgUpdateParamsResponse) (f : S → string → value → S * bool) (s : S) : res S :=
  Ok (visit f [] s).

Definition billingv1_MsgUpdateParamsResponse_Has (p : option billingv1_MsgUpdateParamsResponse) (fd : string) : res bool := Panic.

Definition billingv1_MsgUpdateParamsResponse_Clear (p : option billingv1_MsgUpdateParamsResponse) (fd : string) : res (option billingv1_MsgUpdateParamsResponse) := Panic.

Definition billingv1_MsgUpdateParamsResponse_Get (p : option billingv1_MsgUpdateParamsResponse) (fd : string) : res value := Panic.

Definition billingv1_MsgUpdateParamsResponse_Set (p : option billingv1_MsgUpdateParamsResponse) (fd : string) (value : value) : res (option billingv1_MsgUpdateParamsResponse) := Panic.

Definition billingv1_MsgUpdateParamsResponse_Mutable (p : option billingv1_MsgUpdateParamsResponse) (fd : string) : res (option billingv1_MsgUpdateParamsResponse * value) := Panic.

Definition billingv1_MsgUpdateParamsResponse_NewField (fd : string) : res value := Panic.

Definition billingv1_MsgUpdateParamsResponse_GetUnknown (p : option billingv1_MsgUpdateParamsResponse) : res bytes := x ← deref p; Ok (billingv1_MsgUpdateParamsResponse_unknownFields x).

Definition billingv1_MsgUpdateParamsResponse_SetUnknown (p : option billingv1_MsgUpdateParamsResponse) (fields : bytes) : res (option billingv1_MsgUpdateParamsResponse) :=
  x ← deref p;
  let 'mk_billingv1_MsgUpdateParamsResponse _ := x in
  Ok (Some (mk_billingv1_MsgUpdateParamsResponse fields)).

Definition billingv1_MsgUpdateParamsResponse_getters : list (string * (option billingv1_MsgUpdateParamsResponse → value)) :=
  []%string.

Definition billingv1_MsgUpdateParamsResponse_reflected : reflected :=
  mkReflected billingv1_MsgUpdateParamsResponse billingv1_MsgUpdateParamsResponse_fields
    billingv1_MsgUpdateParamsResponse_Range billingv1_MsgUpdateParamsResponse_Has
    billingv1_MsgUpdateParamsResponse_Clear billingv1_MsgUpdateParamsResponse_Get
    billingv1_MsgUpdateParamsResponse_Set billingv1_MsgUpdateParamsResponse_Mutable
    billingv1_MsgUpdateParamsResponse_NewField billingv1_MsgUpdateParamsResponse_new
    billingv1_MsgUpdateParamsResponse_GetUnknown billingv1_MsgUpdateParamsResponse_SetUnknown
    billingv1_MsgUpdateParamsResponse_getters.

(** ** MsgAcknowledgeLease *)

Definition billingv1_MsgAcknowledgeLease_fields : list string :=
  ["liftedinit.billing.v1.MsgAcknowledgeLease.sender";
   "liftedinit.billing.v1.MsgAcknowledgeLease.lease_uuids"]%string.

Definition billingv1_MsgAcknowledgeLease_Range (S : Type) (p : option billingv1_MsgAcknowledgeLease) (f : S → string → value → S * bool) (s : S) : res S :=
  x ← deref p;
  Ok (visit f
   [(has_string (billingv1_MsgAcknowledgeLease_Sender x), "liftedinit.billing.v1.MsgAcknowledgeLease.sender"%string, VString (billingv1_MsgAcknowledgeLease_Sender x));
    (has_list (billingv1_MsgAcknowledgeLease_LeaseUuids x), "liftedinit.billing.v1.MsgAcknowledgeLease.lease_uuids"%string, VList (L_billingv1_MsgAcknowledgeLease_2 (Some (billingv1_MsgAcknowledgeLease_LeaseUuids x))))] s).

Definition billingv1_MsgAcknowledgeLease_Has (p : option billingv1_MsgAcknowledgeLease) (fd : string) : res bool :=
  x ← deref p;
  match field_number billingv1_MsgAcknowledgeLease_fields fd with
  | 1 => Ok (has_string (billingv1_MsgAcknowledgeLease_Sender x))
  | 2 => Ok (has_list (billingv1_MsgAcknowledgeLease_LeaseUuids x))
  | _ => Panic
  end.

Definition billingv1_MsgAcknowledgeLease_Clear (p : option billingv1_MsgAcknowledgeLease) (fd : string) : res (option billingv1_MsgAcknowledgeLease) :=
  x ← deref p;
  let 'mk_billingv1_MsgAcknowledgeLease sender leaseUuids u := x in
  match field_number billingv1_MsgAcknowledgeLease_fields fd with
  | 1 => Ok (Some (mk_billingv1_MsgAcknowledgeLease "" leaseUuids u))
  | 2 => Ok (Some (mk_billingv1_MsgAcknowledgeLease sender [] u))
  | _ => Panic
  end.

Definition billingv1_MsgAcknowledgeLease_Get (p : option billingv1_MsgAcknowledgeLease) (fd : string) : res value :=
  x ← deref p;
  match field_number billingv1_MsgAcknowledgeLease_fields fd with
  | 1 => Ok (VString (billingv1_MsgAcknowledgeLease_Sender x))
  | 2 => Ok (VList (L_billingv1_MsgAcknowledgeLease_2 (view (billingv1_MsgAcknowledgeLease_LeaseUuids x))))
  | _ => Panic
  end.

Definition billingv1_MsgAcknowledgeLease_Set (p : option billingv1_MsgAcknowledgeLease) (fd : string) (value : value) : res (option billingv1_MsgAcknowledgeLease) :=
  x ← deref p;
  let 'mk_billingv1_MsgAcknowledgeLease sender leaseUuids u := x in
  match field_number billingv1_MsgAcknowledgeLease_fields fd with
  | 1 => v ← as_string value; Ok (Some (mk_billingv1_MsgAcknowledgeLease v leaseUuids u))
  | 2 => v ← as_L_billingv1_MsgAcknowledgeLease_2 value; Ok (Some (mk_billingv1_MsgAcknowledgeLease sender v u))
  | _ => Panic
  end.

Definition billingv1_MsgAcknowledgeLease_Mutable (p : option billingv1_MsgAcknowledgeLease) (fd : string) : res (option billingv1_MsgAcknowledgeLease * value) :=
  x ← deref p;
  let 'mk_billingv1_MsgAcknowledgeLease sender leaseUuids u := x in
  match field_number billingv1_MsgAcknowledgeLease_fields fd with
  | 2 => Ok (Some x, VList (L_billingv1_MsgAcknowledgeLease_2 (Some leaseUuids)))
  | _ => Panic
  end.

Definition billingv1_MsgAcknowledgeLease_NewField (fd : string) : res value :=
  match field_number billingv1_MsgAcknowledgeLease_fields fd with
  | 1 => Ok (VString "")
  | 2 => Ok (VList (L_billingv1_MsgAcknowledgeLease_2 (Some [])))
  | _ => Panic
  end.

Definition billingv1_MsgAcknowledgeLease_GetUnknown (p : option billingv1_MsgAcknowledgeLease) : res bytes := x ← deref p; Ok (billingv1_MsgAcknowledgeLease_unknownFields x).

Definition billingv1_MsgAcknowledgeLease_SetUnknown (p : option billingv1_MsgAcknowledgeLease) (fields : bytes) : res (option billingv1_MsgAcknowledgeLease) :=
  x ← deref p;
  let 'mk_billingv1_MsgAcknowledgeLease sender leaseUuids _ := x in
  Ok (Some (mk_billingv1_MsgAcknowledgeLease sender leaseUuids fields)).

Definition billingv1_MsgAcknowledgeLease_GetSender (p : option billingv1_MsgAcknowledgeLease) : string := match p with Some x => billingv1_MsgAcknowledgeLease_Sender x | None => "" end.
Definition billingv1_MsgAcknowledgeLease_GetLeaseUuids (p : option billingv1_MsgAcknowledgeLease) : list string := match p with Some x => billingv1_MsgAcknowledgeLease_LeaseUuids x | None => [] end.

Definition billingv1_MsgAcknowledgeLease_getters : list (string * (option billingv1_MsgAcknowledgeLease → value)) :=
  [("liftedinit.billing.v1.MsgAcknowledgeLease.sender", λ p, VString (billingv1_MsgAcknowledgeLease_GetSender p));
   ("liftedinit.billing.v1.MsgAcknowledgeLease.lease_uuids", λ p, VList (L_billingv1_MsgAcknowledgeLease_2 (view (billingv1_MsgAcknowledgeLease_GetLeaseUuids p))))]%string.

Definition billingv1_MsgAcknowledgeLease_reflected : reflected :=
  mkReflected billingv1_MsgAcknowledgeLease billingv1_MsgAcknowledgeLease_fields billingv1_MsgAcknowledgeLease_Range
    billingv1_MsgAcknowledgeLease_Has billingv1_MsgAcknowledgeLease_Clear billingv1_MsgAcknowledgeLease_Get
    billingv1_MsgAcknowledgeLease_Set billingv1_MsgAcknowledgeLease_Mutable billingv1_MsgAcknowledgeLease_NewField
    billingv1_MsgAcknowledgeLease_new billingv1_MsgAcknowledgeLease_GetUnknown
    billingv1_MsgAcknowledgeLease_SetUnknown billingv1_MsgAcknowledgeLease_getters.

Definition billingv1_MsgAcknowledgeLease_2_list `{ValueString} : list_methods string := string_list.

(** ** MsgAcknowledgeLeaseResponse *)

Definition billingv1_MsgAcknowledgeLeaseResponse_fields : list string :=
  ["liftedinit.billing.v1.MsgAcknowledgeLeaseResponse.acknowledged_at";
   "liftedinit.billing.v1.MsgAcknowledgeLeaseResponse.acknowledged_count"]%string.

Definition billingv1_MsgAcknowledgeLeaseResponse_Range (S : Type) (p : option billingv1_MsgAcknowledgeLeaseResponse) (f : S → string → value → S * bool) (s : S) : res S :=
  x ← deref p;
  Ok (visit f
   [(not_nil (billingv1_MsgAcknowledgeLeaseResponse_AcknowledgedAt x), "liftedinit.billing.v1.MsgAcknowledgeLeaseResponse.acknowledged_at"%string, VMessage (A_api_Timestamp (billingv1_MsgAcknowledgeLeaseResponse_AcknowledgedAt x)));
    (has_num (billingv1_MsgAcknowledgeLeaseResponse_AcknowledgedCount x), "liftedinit.billing.v1.MsgAcknowledgeLeaseResponse.acknowledged_count"%string, VUint64 (billingv1_MsgAcknowledgeLeaseResponse_AcknowledgedCount x))] s).

Definition billingv1_MsgAcknowledgeLeaseResponse_Has (p : option billingv1_MsgAcknowledgeLeaseResponse) (fd : string) : res bool :=
  x ← deref p;
  match field_number billingv1_MsgAcknowledgeLeaseResponse_fields fd with
  | 1 => Ok (not_nil (billingv1_MsgAcknowledgeLeaseResponse_AcknowledgedAt x))
  | 2 => Ok (has_num (billingv1_MsgAcknowledgeLeaseResponse_AcknowledgedCount x))
  | _ => Panic
  end.

Definition billingv1_MsgAcknowledgeLeaseResponse_Clear (p : option billingv1_MsgAcknowledgeLeaseResponse) (fd : string) : res (option billingv1_MsgAcknowledgeLeaseResponse) :=
  x ← deref p;
  let 'mk_billingv1_MsgAcknowledgeLeaseResponse acknowledgedAt acknowledgedCount u := x in
  match field_number billingv1_MsgAcknowledgeLeaseResponse_fields fd with
  | 1 => Ok (Some (mk_billingv1_MsgAcknowledgeLeaseResponse None acknowledgedCount u))
  | 2 => Ok (Some (mk_billingv1_MsgAcknowledgeLeaseResponse acknowledgedAt 0 u))
  | _ => Panic
  end.

Definition billingv1_MsgAcknowledgeLeaseResponse_Get (p : option billingv1_MsgAcknowledgeLeaseResponse) (fd : string) : res value :=
  x ← deref p;
  match field_number billingv1_MsgAcknowledgeLeaseResponse_fields fd with
  | 1 => Ok (VMessage (A_api_Timestamp (billingv1_MsgAcknowledgeLeaseResponse_AcknowledgedAt x)))
  | 2 => Ok (VUint64 (billingv1_MsgAcknowledgeLeaseResponse_AcknowledgedCount x))
  | _ => Panic
  end.

Definition billingv1_MsgAcknowledgeLeaseResponse_Set (p : option billingv1_MsgAcknowledgeLeaseResponse) (fd : string) (value : value) : res (option billingv1_MsgAcknowledgeLeaseResponse) :=
  x ← deref p;
  let 'mk_billingv1_MsgAcknowledgeLeaseResponse acknowledgedAt acknowledgedCount u := x in
  match field_number billingv1_MsgAcknowledgeLeaseResponse_fields fd with
  | 1 => v ← as_api_Timestamp value; Ok (Some (mk_billingv1_MsgAcknowledgeLeaseResponse v acknowledgedCount u))
  | 2 => v ← as_uint value; Ok (Some (mk_billingv1_MsgAcknowledgeLeaseResponse acknowledgedAt v u))
  | _ => Panic
  end.

Definition billingv1_MsgAcknowledgeLeaseResponse_Mutable (p : option billingv1_MsgAcknowledgeLeaseResponse) (fd : string) : res (option billingv1_MsgAcknowledgeLeaseResponse * value) :=
  x ← deref p;
  let 'mk_billingv1_MsgAcknowledgeLeaseResponse acknowledgedAt acknowledgedCount u := x in
  match field_number billingv1_MsgAcknowledgeLeaseResponse_fields fd with
  | 1 => let v := match acknowledgedAt with None => Some api_Timestamp_new | Some _ => acknowledgedAt end in
      Ok (Some (mk_billingv1_MsgAcknowledgeLeaseResponse v acknowledgedCount u), VMessage (A_api_Timestamp v))
  | _ => Panic
  end.

Definition billingv1_MsgAcknowledgeLeaseResponse_NewField (fd : string) : res value :=
  match field_number billingv1_MsgAcknowledgeLeaseResponse_fields fd with
  | 1 => Ok (VMessage (A_api_Timestamp (Some api_Timestamp_new)))
  | 2 => Ok (VUint64 0)
  | _ => Panic
  end.

Definition billingv1_MsgAcknowledgeLeaseResponse_GetUnknown (p : option billingv1_MsgAcknowledgeLeaseResponse) : res bytes := x ← deref p; Ok (billingv1_MsgAcknowledgeLeaseResponse_unknownFields x).

Definition billingv1_MsgAcknowledgeLeaseResponse_SetUnknown (p : option billingv1_MsgAcknowledgeLeaseResponse) (fields : bytes) : res (option billingv1_MsgAcknowledgeLeaseResponse) :=
  x ← deref p;
  let 'mk_billingv1_MsgAcknowledgeLeaseResponse acknowledgedAt acknowledgedCount _ := x in
  Ok (Some (mk_billingv1_MsgAcknowledgeLeaseResponse acknowledgedAt acknowledgedCount fields)).

Definition billingv1_MsgAcknowledgeLeaseResponse_GetAcknowledgedAt (p : option billingv1_MsgAcknowledgeLeaseResponse) : option api_Timestamp := match p with Some x => billingv1_MsgAcknowledgeLeaseResponse_AcknowledgedAt x | None => None end.
Definition billingv1_MsgAcknowledgeLeaseResponse_GetAcknowledgedCount (p : option billingv1_MsgAcknowledgeLeaseResponse) : Z := match p with Some x => billingv1_MsgAcknowledgeLeaseResponse_AcknowledgedCount x | None => 0 end.

Definition billingv1_MsgAcknowledgeLeaseResponse_getters : list (string * (option billingv1_MsgAcknowledgeLeaseResponse → value)) :=
  [("liftedinit.billing.v1.MsgAcknowledgeLeaseResponse.acknowledged_at", λ p, VMessage (A_api_Timestamp (billingv1_MsgAcknowledgeLeaseResponse_GetAcknowledgedAt p)));
   ("liftedinit.billing.v1.MsgAcknowledgeLeaseResponse.acknowledged_count", λ p, VUint64 (billingv1_MsgAcknowledgeLeaseResponse_GetAcknowledgedCount p))]%string.

Definition billingv1_MsgAcknowledgeLeaseResponse_reflected : reflected :=
  mkReflected billingv1_MsgAcknowledgeLeaseResponse billingv1_MsgAcknowledgeLeaseResponse_fields
    billingv1_MsgAcknowledgeLeaseResponse_Range billingv1_MsgAcknowledgeLeaseResponse_Has
    billingv1_MsgAcknowledgeLeaseResponse_Clear billingv1_MsgAcknowledgeLeaseResponse_Get
    billingv1_MsgAcknowledgeLeaseResponse_Set billingv1_MsgAcknowledgeLeaseResponse_Mutable
    billingv1_MsgAcknowledgeLeaseResponse_NewField billingv1_MsgAcknowledgeLeaseResponse_new
    billingv1_MsgAcknowledgeLeaseResponse_GetUnknown billingv1_MsgAcknowledgeLeaseResponse_SetUnknown
    billingv1_MsgAcknowledgeLeaseResponse_getters.

(** ** MsgRejectLease *)

Definition billingv1_MsgRejectLease_fields : list string :=
  ["liftedinit.billing.v1.MsgRejectLease.sender";
   "liftedinit.billing.v1.MsgRejectLease.lease_uuids";
   "liftedinit.billing.v1.MsgRejectLease.reason"]%string.

Definition billingv1_MsgRejectLease_Range (S : Type) (p : option billingv1_MsgRejectLease) (f : S → string → value → S * bool) (s : S) : res S :=
  x ← deref p;
  Ok (visit f
   [(has_string (billingv1_MsgRejectLease_Sender x), "liftedinit.billing.v1.MsgRejectLease.sender"%string, VString (billingv1_MsgRejectLease_Sender x));
    (has_list (billingv1_MsgRejectLease_LeaseUuids x), "liftedinit.billing.v1.MsgRejectLease.lease_uuids"%string, VList (L_billingv1_MsgRejectLease_2 (Some (billingv1_MsgRejectLease_LeaseUuids x))));
    (has_string (billingv1_MsgRejectLease_Reason x), "liftedinit.billing.v1.MsgRejectLease.reason"%string, VString (billingv1_MsgRejectLease_Reason x))] s).

Definition billingv1_MsgRejectLease_Has (p : option billingv1_MsgRejectLease) (fd : string) : res bool :=
  x ← deref p;
  match field_number billingv1_MsgRejectLease_fields fd with
  | 1 => Ok (has_string (billingv1_MsgRejectLease_Sender x))
  | 2 => Ok (has_list (billingv1_MsgRejectLease_LeaseUuids x))
  | 3 => Ok (has_string (billingv1_MsgRejectLease_Reason x))
  | _ => Panic
  end.

Definition billingv1_MsgRejectLease_Clear (p : option billingv1_MsgRejectLease) (fd : string) : res (option billingv1_MsgRejectLease) :=
  x ← deref p;
  let 'mk_billingv1_MsgRejectLease sender leaseUuids reason u := x in
  match field_number billingv1_MsgRejectLease_fields fd with
  | 1 => Ok (Some (mk_billingv1_MsgRejectLease "" leaseUuids reason u))
  | 2 => Ok (Some (mk_billingv1_MsgRejectLease sender [] reason u))
  | 3 => Ok (Some (mk_billingv1_MsgRejectLease sender leaseUuids "" u))
  | _ => Panic
  end.

Definition billingv1_MsgRejectLease_Get (p : option billingv1_MsgRejectLease) (fd : string) : res value :=
  x ← deref p;
  match field_number billingv1_MsgRejectLease_fields fd with
  | 1 => Ok (VString (billingv1_MsgRejectLease_Sender x))
  | 2 => Ok (VList (L_billingv1_MsgRejectLease_2 (view (billingv1_MsgRejectLease_LeaseUuids x))))
  | 3 => Ok (VString (billingv1_MsgRejectLease_Reason x))
  | _ => Panic
  end.

Definition billingv1_MsgRejectLease_Set (p : option billingv1_MsgRejectLease) (fd : string) (value : value) : res (option billingv1_MsgRejectLease) :=
  x ← deref p;
  let 'mk_billingv1_MsgRejectLease sender leaseUuids reason u := x in
  match field_number billingv1_MsgRejectLease_fields fd with
  | 1 => v ← as_string value; Ok (Some (mk_billingv1_MsgRejectLease v leaseUuids reason u))
  | 2 => v ← as_L_billingv1_MsgRejectLease_2 value; Ok (Some (mk_billingv1_MsgRejectLease sender v reason u))
  | 3 => v ← as_string value; Ok (Some (mk_billingv1_MsgRejectLease sender leaseUuids v u))
  | _ => Panic
  end.

Definition billingv1_MsgRejectLease_Mutable (p : option billingv1_MsgRejectLease) (fd : string) : res (option billingv1_MsgRejectLease * value) :=
  x ← deref p;
  let 'mk_billingv1_MsgRejectLease sender leaseUuids reason u := x in
  match field_number billingv1_MsgRejectLease_fields fd with
  | 2 => Ok (Some x, VList (L_billingv1_MsgRejectLease_2 (Some leaseUuids)))
  | _ => Panic
  end.

Definition billingv1_MsgRejectLease_NewField (fd : string) : res value :=
  match field_number billingv1_MsgRejectLease_fields fd with
  | 1 => Ok (VString "")
  | 2 => Ok (VList (L_billingv1_MsgRejectLease_2 (Some [])))
  | 3 => Ok (VString "")
  | _ => Panic
  end.

Definition billingv1_MsgRejectLease_GetUnknown (p : option billingv1_MsgRejectLease) : res bytes := x ← deref p; Ok (billingv1_MsgRejectLease_unknownFields x).

Definition billingv1_MsgRejectLease_SetUnknown (p : option billingv1_MsgRejectLease) (fields : bytes) : res (option billingv1_MsgRejectLease) :=
  x ← deref p;
  let 'mk_billingv1_MsgRejectLease sender leaseUuids reason _ := x in
  Ok (Some (mk_billingv1_MsgRejectLease sender leaseUuids reason fields)).

Definition billingv1_MsgRejectLease_GetSender (p : option billingv1_MsgRejectLease) : string := match p with Some x => billingv1_MsgRejectLease_Sender x | None => "" end.
Definition billingv1_MsgRejectLease_GetLeaseUuids (p : option billingv1_MsgRejectLease) : list string := match p with Some x => billingv1_MsgRejectLease_LeaseUuids x | None => [] end.
Definition billingv1_MsgRejectLease_GetReason (p : option billingv1_MsgRejectLease) : string := match p with Some x => billingv1_MsgRejectLease_Reason x | None => "" end.

Definition billingv1_MsgRejectLease_getters : list (string * (option billingv1_MsgRejectLease → value)) :=
  [("liftedinit.billing.v1.MsgRejectLease.sender", λ p, VString (billingv1_MsgRejectLease_GetSender p));
   ("liftedinit.billing.v1.MsgRejectLease.lease_uuids", λ p, VList (L_billingv1_MsgRejectLease_2 (view (billingv1_MsgRejectLease_GetLeaseUuids p))));
   ("liftedinit.billing.v1.MsgRejectLease.reason", λ p, VString (billingv1_MsgRejectLease_GetReason p))]%string.

Definition billingv1_MsgRejectLease_reflected : reflected :=
  mkReflected billingv1_MsgRejectLease billingv1_MsgRejectLease_fields billingv1_MsgRejectLease_Range
    billingv1_MsgRejectLease_Has billingv1_MsgRejectLease_Clear billingv1_MsgRejectLease_Get
    billingv1_MsgRejectLease_Set billingv1_MsgRejectLease_Mutable billingv1_MsgRejectLease_NewField
    billingv1_MsgRejectLease_new billingv1_MsgRejectLease_GetUnknown billingv1_MsgRejectLease_SetUnknown
    billingv1_MsgRejectLease_getters.

Definition billingv1_MsgRejectLease_2_list `{ValueString} : list_methods string := string_list.

(** ** MsgRejectLeaseResponse *)

Definition billingv1_MsgRejectLeaseResponse_fields : list string :=
  ["liftedinit.billing.v1.MsgRejectLeaseResponse.rejected_at";
   "liftedinit.billing.v1.MsgRejectLeaseResponse.rejected_count"]%string.

Definition billingv1_MsgRejectLeaseResponse_Range (S : Type) (p : option billingv1_MsgRejectLeaseResponse) (f : S → string → value → S * bool) (s : S) : res S :=
  x ← deref p;
  Ok (visit f
   [(not_nil (billingv1_MsgRejectLeaseResponse_RejectedAt x), "liftedinit.billing.v1.MsgRejectLeaseResponse.rejected_at"%string, VMessage (A_api_Timestamp (billingv1_MsgRejectLeaseResponse_RejectedAt x)));
    (has_num (billingv1_MsgRejectLeaseResponse_RejectedCount x), "liftedinit.billing.v1.MsgRejectLeaseResponse.rejected_count"%string, VUint64 (billingv1_MsgRejectLeaseResponse_RejectedCount x))] s).

Definition billingv1_MsgRejectLeaseResponse_Has (p : option billingv1_MsgRejectLeaseResponse) (fd : string) : res bool :=
  x ← deref p;
  match field_number billingv1_MsgRejectLeaseResponse_fields fd with
  | 1 => Ok (not_nil (billingv1_MsgRejectLeaseResponse_RejectedAt x))
  | 2 => Ok (has_num (billingv1_MsgRejectLeaseResponse_RejectedCount x))
  | _ => Panic
  end.

Definition billingv1_MsgRejectLeaseResponse_Clear (p : option billingv1_MsgRejectLeaseResponse) (fd : string) : res (option billingv1_MsgRejectLeaseResponse) :=
  x ← deref p;
  let 'mk_billingv1_MsgRejectLeaseResponse rejectedAt rejectedCount u := x in
  match field_number billingv1_MsgRejectLeaseResponse_fields fd with
  | 1 => Ok (Some (mk_billingv1_MsgRejectLeaseResponse None rejectedCount u))
  | 2 => Ok (Some (mk_billingv1_MsgRejectLeaseResponse rejectedAt 0 u))
  | _ => Panic
  end.

Definition billingv1_MsgRejectLeaseResponse_Get (p : option billingv1_MsgRejectLeaseResponse) (fd : string) : res value :=
  x ← deref p;
  match field_number billingv1_MsgRejectLeaseResponse_fields fd with
  | 1 => Ok (VMessage (A_api_Timestamp (billingv1_MsgRejectLeaseResponse_RejectedAt x)))
  | 2 => Ok (VUint64 (billingv1_MsgRejectLeaseResponse_RejectedCount x))
  | _ => Panic
  end.

Definition billingv1_MsgRejectLeaseResponse_Set (p : option billingv1_MsgRejectLeaseResponse) (fd : string) (value : value) : res (option billingv1_MsgRejectLeaseResponse) :=
  x ← deref p;
  let 'mk_billingv1_MsgRejectLeaseResponse rejectedAt rejectedCount u := x in
  match field_number billingv1_MsgRejectLeaseResponse_fields fd with
  | 1 => v ← as_api_Timestamp value; Ok (Some (mk_billingv1_MsgRejectLeaseResponse v rejectedCount u))
  | 2 => v ← as_uint value; Ok (Some (mk_billingv1_MsgRejectLeaseResponse rejectedAt v u))
  | _ => Panic
  end.

Definition billingv1_MsgRejectLeaseResponse_Mutable (p : option billingv1_MsgRejectLeaseResponse) (fd : string) : res (option billingv1_MsgRejectLeaseResponse * value) :=
  x ← deref p;
  let 'mk_billingv1_MsgRejectLeaseResponse rejectedAt rejectedCount u := x in
  match field_number billingv1_MsgRejectLeaseResponse_fields fd with
  | 1 => let v := match rejectedAt with None => Some api_Timestamp_new | Some _ => rejectedAt end in
      Ok (Some (mk_billingv1_MsgRejectLeaseResponse v rejectedCount u), VMessage (A_api_Timestamp v))
  | _ => Panic
  end.

Definition billingv1_MsgRejectLeaseResponse_NewField (fd : string) : res value :=
  match field_number billingv1_MsgRejectLeaseResponse_fields fd with
  | 1 => Ok (VMessage (A_api_Timestamp (Some api_Timestamp_new)))
  | 2 => Ok (VUint64 0)
  | _ => Panic
  end.

Definition billingv1_MsgRejectLeaseResponse_GetUnknown (p : option billingv1_MsgRejectLeaseResponse) : res bytes := x ← deref p; Ok (billingv1_MsgRejectLeaseResponse_unknownFields x).

Definition billingv1_MsgRejectLeaseResponse_SetUnknown (p : option billingv1_MsgRejectLeaseResponse) (fields : bytes) : res (option billingv1_MsgRejectLeaseResponse) :=
  x ← deref p;
  let 'mk_billingv1_MsgRejectLeaseResponse rejectedAt rejectedCount _ := x in
  Ok (Some (mk_billingv1_MsgRejectLeaseResponse rejectedAt rejectedCount fields)).

Definition billingv1_MsgRejectLeaseResponse_GetRejectedAt (p : option billingv1_MsgRejectLeaseResponse) : option api_Timestamp := match p with Some x => billingv1_MsgRejectLeaseResponse_RejectedAt x | None => None end.
Definition billingv1_MsgRejectLeaseResponse_GetRejectedCount (p : option billingv1_MsgRejectLeaseResponse) : Z := match p with Some x => billingv1_MsgRejectLeaseResponse_RejectedCount x | None => 0 end.

Definition billingv1_MsgRejectLeaseResponse_getters : list (string * (option billingv1_MsgRejectLeaseResponse → value)) :=
  [("liftedinit.billing.v1.MsgRejectLeaseResponse.rejected_at", λ p, VMessage (A_api_Timestamp (billingv1_MsgRejectLeaseResponse_GetRejectedAt p)));
   ("liftedinit.billing.v1.MsgRejectLeaseResponse.rejected_count", λ p, VUint64 (billingv1_MsgRejectLeaseResponse_GetRejectedCount p))]%string.

Definition billingv1_MsgRejectLeaseResponse_reflected : reflected :=
  mkReflected billingv1_MsgRejectLeaseResponse billingv1_MsgRejectLeaseResponse_fields
    billingv1_MsgRejectLeaseResponse_Range billingv1_MsgRejectLeaseResponse_Has billingv1_MsgRejectLeaseResponse_Clear
    billingv1_MsgRejectLeaseResponse_Get billingv1_MsgRejectLeaseResponse_Set billingv1_MsgRejectLeaseResponse_Mutable
    billingv1_MsgRejectLeaseResponse_NewField billingv1_MsgRejectLeaseResponse_new
    billingv1_MsgRejectLeaseResponse_GetUnknown billingv1_MsgRejectLeaseResponse_SetUnknown
    billingv1_MsgRejectLeaseResponse_getters.

(** ** MsgCancelLease *)

Definition billingv1_MsgCancelLease_fields : list string :=
  ["liftedinit.billing.v1.MsgCancelLease.tenant";
   "liftedinit.billing.v1.MsgCancelLease.lease_uuids"]%string.

Definition billingv1_MsgCancelLease_Range (S : Type) (p : option billingv1_MsgCancelLease) (f : S → string → value → S * bool) (s : S) : res S :=
  x ← deref p;
  Ok (visit f
   [(has_string (billingv1_MsgCancelLease_Tenant x), "liftedinit.billing.v1.MsgCancelLease.tenant"%string, VString (billingv1_MsgCancelLease_Tenant x));
    (has_list (billingv1_MsgCancelLease_LeaseUuids x), "liftedinit.billing.v1.MsgCancelLease.lease_uuids"%string, VList (L_billingv1_MsgCancelLease_2 (Some (billingv1_MsgCancelLease_LeaseUuids x))))] s).

Definition billingv1_MsgCancelLease_Has (p : option billingv1_MsgCancelLease) (fd : string) : res bool :=
  x ← deref p;
  match field_number billingv1_MsgCancelLease_fields fd with
  | 1 => Ok (has_string (billingv1_MsgCancelLease_Tenant x))
  | 2 => Ok (has_list (billingv1_MsgCancelLease_LeaseUuids x))
  | _ => Panic
  end.

Definition billingv1_MsgCancelLease_Clear (p : option billingv1_MsgCancelLease) (fd : string) : res (option billingv1_MsgCancelLease) :=
  x ← deref p;
  let 'mk_billingv1_MsgCancelLease tenant leaseUuids u := x in
  match field_number billingv1_MsgCancelLease_fields fd with
  | 1 => Ok (Some (mk_billingv1_MsgCancelLease "" leaseUuids u))
  | 2 => Ok (Some (mk_billingv1_MsgCancelLease tenant [] u))
  | _ => Panic
  end.

Definition billingv1_MsgCancelLease_Get (p : option billingv1_MsgCancelLease) (fd : string) : res value :=
  x ← deref p;
  match field_number billingv1_MsgCancelLease_fields fd with
  | 1 => Ok (VString (billingv1_MsgCancelLease_Tenant x))
  | 2 => Ok (VList (L_billingv1_MsgCancelLease_2 (view (billingv1_MsgCancelLease_LeaseUuids x))))
  | _ => Panic
  end.

Definition billingv1_MsgCancelLease_Set (p : option billingv1_MsgCancelLease) (fd : string) (value : value) : res (option billingv1_MsgCancelLease) :=
  x ← deref p;
  let 'mk_billingv1_MsgCancelLease tenant leaseUuids u := x in
  match field_number billingv1_MsgCancelLease_fields fd with
  | 1 => v ← as_string value; Ok (Some (mk_billingv1_MsgCancelLease v leaseUuids u))
  | 2 => v ← as_L_billingv1_MsgCancelLease_2 value; Ok (Some (mk_billingv1_MsgCancelLease tenant v u))
  | _ => Panic
  end.

Definition billingv1_MsgCancelLease_Mutable (p : option billingv1_MsgCancelLease) (fd : string) : res (option billingv1_MsgCancelLease * value) :=
  x ← deref p;
  let 'mk_billingv1_MsgCancelLease tenant leaseUuids u := x in
  match field_number billingv1_MsgCancelLease_fields fd with
  | 2 => Ok (Some x, VList (L_billingv1_MsgCancelLease_2 (Some leaseUuids)))
  | _ => Panic
  end.

Definition billingv1_MsgCancelLease_NewField (fd : string) : res value :=
  match field_number billingv1_MsgCancelLease_fields fd with
  | 1 => Ok (VString "")
  | 2 => Ok (VList (L_billingv1_MsgCancelLease_2 (Some [])))
  | _ => Panic
  end.

Definition billingv1_MsgCancelLease_GetUnknown (p : option billingv1_MsgCancelLease) : res bytes := x ← deref p; Ok (billingv1_MsgCancelLease_unknownFields x).

Definition billingv1_MsgCancelLease_SetUnknown (p : option billingv1_MsgCancelLease) (fields : bytes) : res (option billingv1_MsgCancelLease) :=
  x ← deref p;
  let 'mk_billingv1_MsgCancelLease tenant leaseUuids _ := x in
  Ok (Some (mk_billingv1_MsgCancelLease tenant leaseUuids fields)).

Definition billingv1_MsgCancelLease_GetTenant (p : option billingv1_MsgCancelLease) : string := match p with Some x => billingv1_MsgCancelLease_Tenant x | None => "" end.
Definition billingv1_MsgCancelLease_GetLeaseUuids (p : option billingv1_MsgCancelLease) : list string := match p with Some x => billingv1_MsgCancelLease_LeaseUuids x | None => [] end.

Definition billingv1_MsgCancelLease_getters : list (string * (option billingv1_MsgCancelLease → value)) :=
  [("liftedinit.billing.v1.MsgCancelLease.tenant", λ p, VString (billingv1_MsgCancelLease_GetTenant p));
   ("liftedinit.billing.v1.MsgCancelLease.lease_uuids", λ p, VList (L_billingv1_MsgCancelLease_2 (view (billingv1_MsgCancelLease_GetLeaseUuids p))))]%string.

Definition billingv1_MsgCancelLease_reflected : reflected :=
  mkReflected billingv1_MsgCancelLease billingv1_MsgCancelLease_fields billingv1_MsgCancelLease_Range
    billingv1_MsgCancelLease_Has billingv1_MsgCancelLease_Clear billingv1_MsgCancelLease_Get
    billingv1_MsgCancelLease_Set billingv1_MsgCancelLease_Mutable billingv1_MsgCancelLease_NewField
    billingv1_MsgCancelLease_new billingv1_MsgCancelLease_GetUnknown billingv1_MsgCancelLease_SetUnknown
    billingv1_MsgCancelLease_getters.

Definition billingv1_MsgCancelLease_2_list `{ValueString} : list_methods string := string_list.

(** ** MsgCancelLeaseResponse *)

Definition billingv1_MsgCancelLeaseResponse_fields : list string :=
  ["liftedinit.billing.v1.MsgCancelLeaseResponse.cancelled_at";
   "liftedinit.billing.v1.MsgCancelLeaseResponse.cancelled_count"]%string.

Definition billingv1_MsgCancelLeaseResponse_Range (S : Type) (p : option billingv1_MsgCancelLeaseResponse) (f : S → string → value → S * bool) (s : S) : res S :=
  x ← deref p;
  Ok (visit f
   [(not_nil (billingv1_MsgCancelLeaseResponse_CancelledAt x), "liftedinit.billing.v1.MsgCancelLeaseResponse.cancelled_at"%string, VMessage (A_api_Timestamp (billingv1_MsgCancelLeaseResponse_CancelledAt x)));
    (has_num (billingv1_MsgCancelLeaseResponse_CancelledCount x), "liftedinit.billing.v1.MsgCancelLeaseResponse.cancelled_count"%string, VUint64 (billingv1_MsgCancelLeaseResponse_CancelledCount x))] s).

Definition billingv1_MsgCancelLeaseResponse_Has (p : option billingv1_MsgCancelLeaseResponse) (fd : string) : res bool :=
  x ← deref p;
  match field_number billingv1_MsgCancelLeaseResponse_fields fd with
  | 1 => Ok (not_nil (billingv1_MsgCancelLeaseResponse_CancelledAt x))
  | 2 => Ok (has_num (billingv1_MsgCancelLeaseResponse_CancelledCount x))
  | _ => Panic
  end.

Definition billingv1_MsgCancelLeaseResponse_Clear (p : option billingv1_MsgCancelLeaseResponse) (fd : string) : res (option billingv1_MsgCancelLeaseResponse) :=
  x ← deref p;
  let 'mk_billingv1_MsgCancelLeaseResponse cancelledAt cancelledCount u := x in
  match field_number billingv1_MsgCancelLeaseResponse_fields fd with
  | 1 => Ok (Some (mk_billingv1_MsgCancelLeaseResponse None cancelledCount u))
  | 2 => Ok (Some (mk_billingv1_MsgCancelLeaseResponse cancelledAt 0 u))
  | _ => Panic
  end.

Definition billingv1_MsgCancelLeaseResponse_Get (p : option billingv1_MsgCancelLeaseResponse) (fd : string) : res value :=
  x ← deref p;
  match field_number billingv1_MsgCancelLeaseResponse_fields fd with
  | 1 => Ok (VMessage (A_api_Timestamp (billingv1_MsgCancelLeaseResponse_CancelledAt x)))
  | 2 => Ok (VUint64 (billingv1_MsgCancelLeaseResponse_CancelledCount x))
  | _ => Panic
  end.

Definition billingv1_MsgCancelLeaseResponse_Set (p : option billingv1_MsgCancelLeaseResponse) (fd : string) (value : value) : res (option billingv1_MsgCancelLeaseResponse) :=
  x ← deref p;
  let 'mk_billingv1_MsgCancelLeaseResponse cancelledAt cancelledCount u := x in
  match field_number billingv1_MsgCancelLeaseResponse_fields fd with
  | 1 => v ← as_api_Timestamp value; Ok (Some (mk_billingv1_MsgCancelLeaseResponse v cancelledCount u))
  | 2 => v ← as_uint value; Ok (Some (mk_billingv1_MsgCancelLeaseResponse cancelledAt v u))
  | _ => Panic
  end.

Definition billingv1_MsgCancelLeaseResponse_Mutable (p : option billingv1_MsgCancelLeaseResponse) (fd : string) : res (option billingv1_MsgCancelLeaseResponse * value) :=
  x ← deref p;
  let 'mk_billingv1_MsgCancelLeaseResponse cancelledAt cancelledCount u := x in
  match field_number billingv1_MsgCancelLeaseResponse_fields fd with
  | 1 => let v := match cancelledAt with None => Some api_Timestamp_new | Some _ => cancelledAt end in
      Ok (Some (mk_billingv1_MsgCancelLeaseResponse v cancelledCount u), VMessage (A_api_Timestamp v))
  | _ => Panic
  end.

Definition billingv1_MsgCancelLeaseResponse_NewField (fd : string) : res value :=
  match field_number billingv1_MsgCancelLeaseResponse_fields fd with
  | 1 => Ok (VMessage (A_api_Timestamp (Some api_Timestamp_new)))
  | 2 => Ok (VUint64 0)
  | _ => Panic
  end.

Definition billingv1_MsgCancelLeaseResponse_GetUnknown (p : option billingv1_MsgCancelLeaseResponse) : res bytes := x ← deref p; Ok (billingv1_MsgCancelLeaseResponse_unknownFields x).

Definition billingv1_MsgCancelLeaseResponse_SetUnknown (p : option billingv1_MsgCancelLeaseResponse) (fields : bytes) : res (option billingv1_MsgCancelLeaseResponse) :=
  x ← deref p;
  let 'mk_billingv1_MsgCancelLeaseResponse cancelledAt cancelledCount _ := x in
  Ok (Some (mk_billingv1_MsgCancelLeaseResponse cancelledAt cancelledCount fields)).

Definition billingv1_MsgCancelLeaseResponse_GetCancelledAt (p : option billingv1_MsgCancelLeaseResponse) : option api_Timestamp := match p with Some x => billingv1_MsgCancelLeaseResponse_CancelledAt x | None => None end.
Definition billingv1_MsgCancelLeaseResponse_GetCancelledCount (p : option billingv1_MsgCancelLeaseResponse) : Z := match p with Some x => billingv1_MsgCancelLeaseResponse_CancelledCount x | None => 0 end.

Definition billingv1_MsgCancelLeaseResponse_getters : list (string * (option billingv1_MsgCancelLeaseResponse → value)) :=
  [("liftedinit.billing.v1.MsgCancelLeaseResponse.cancelled_at", λ p, VMessage (A_api_Timestamp (billingv1_MsgCancelLeaseResponse_GetCancelledAt p)));
   ("liftedinit.billing.v1.MsgCancelLeaseResponse.cancelled_count", λ p, VUint64 (billingv1_MsgCancelLeaseResponse_GetCancelledCount p))]%string.

Definition billingv1_MsgCancelLeaseResponse_reflected : reflected :=
  mkReflected billingv1_MsgCancelLeaseResponse billingv1_MsgCancelLeaseResponse_fields
    billingv1_MsgCancelLeaseResponse_Range billingv1_MsgCancelLeaseResponse_Has billingv1_MsgCancelLeaseResponse_Clear
    billingv1_MsgCancelLeaseResponse_Get billingv1_MsgCancelLeaseResponse_Set billingv1_MsgCancelLeaseResponse_Mutable
    billingv1_MsgCancelLeaseResponse_NewField billingv1_MsgCancelLeaseResponse_new
    billingv1_MsgCancelLeaseResponse_GetUnknown billingv1_MsgCancelLeaseResponse_SetUnknown
    billingv1_MsgCancelLeaseResponse_getters.

(** ** MsgSetItemCustomDomain *)

Definition billingv1_MsgSetItemCustomDomain_fields : list string :=
  ["liftedinit.billing.v1.MsgSetItemCustomDomain.sender";
   "liftedinit.billing.v1.MsgSetItemCustomDomain.lease_uuid";
   "liftedinit.billing.v1.MsgSetItemCustomDomain.service_name";
   "liftedinit.billing.v1.MsgSetItemCustomDomain.custom_domain"]%string.

Definition billingv1_MsgSetItemCustomDomain_Range (S : Type) (p : option billingv1_MsgSetItemCustomDomain) (f : S → string → value → S * bool) (s : S) : res S :=
  x ← deref p;
  Ok (visit f
   [(has_string (billingv1_MsgSetItemCustomDomain_Sender x), "liftedinit.billing.v1.MsgSetItemCustomDomain.sender"%string, VString (billingv1_MsgSetItemCustomDomain_Sender x));
    (has_string (billingv1_MsgSetItemCustomDomain_LeaseUuid x), "liftedinit.billing.v1.MsgSetItemCustomDomain.lease_uuid"%string, VString (billingv1_MsgSetItemCustomDomain_LeaseUuid x));
    (has_string (billingv1_MsgSetItemCustomDomain_ServiceName x), "liftedinit.billing.v1.MsgSetItemCustomDomain.service_name"%string, VString (billingv1_MsgSetItemCustomDomain_ServiceName x));
    (has_string (billingv1_MsgSetItemCustomDomain_CustomDomain x), "liftedinit.billing.v1.MsgSetItemCustomDomain.custom_domain"%string, VString (billingv1_MsgSetItemCustomDomain_CustomDomain x))] s).

Definition billingv1_MsgSetItemCustomDomain_Has (p : option billingv1_MsgSetItemCustomDomain) (fd : string) : res bool :=
  x ← deref p;
  match field_number billingv1_MsgSetItemCustomDomain_fields fd with
  | 1 => Ok (has_string (billingv1_MsgSetItemCustomDomain_Sender x))
  | 2 => Ok (has_string (billingv1_MsgSetItemCustomDomain_LeaseUuid x))
  | 3 => Ok (has_string (billingv1_MsgSetItemCustomDomain_ServiceName x))
  | 4 => Ok (has_string (billingv1_MsgSetItemCustomDomain_CustomDomain x))
  | _ => Panic
  end.

Definition billingv1_MsgSetItemCustomDomain_Clear (p : option billingv1_MsgSetItemCustomDomain) (fd : string) : res (option billingv1_MsgSetItemCustomDomain) :=
  x ← deref p;
  let 'mk_billingv1_MsgSetItemCustomDomain sender leaseUuid serviceName customDomain u := x in
  match field_number billingv1_MsgSetItemCustomDomain_fields fd with
  | 1 => Ok (Some (mk_billingv1_MsgSetItemCustomDomain "" leaseUuid serviceName customDomain u))
  | 2 => Ok (Some (mk_billingv1_MsgSetItemCustomDomain sender "" serviceName customDomain u))
  | 3 => Ok (Some (mk_billingv1_MsgSetItemCustomDomain sender leaseUuid "" customDomain u))
  | 4 => Ok (Some (mk_billingv1_MsgSetItemCustomDomain sender leaseUuid serviceName "" u))
  | _ => Panic
  end.

Definition billingv1_MsgSetItemCustomDomain_Get (p : option billingv1_MsgSetItemCustomDomain) (fd : string) : res value :=
  x ← deref p;
  match field_number billingv1_MsgSetItemCustomDomain_fields fd with
  | 1 => Ok (VString (billingv1_MsgSetItemCustomDomain_Sender x))
  | 2 => Ok (VString (billingv1_MsgSetItemCustomDomain_LeaseUuid x))
  | 3 => Ok (VString (billingv1_MsgSetItemCustomDomain_ServiceName x))
  | 4 => Ok (VString (billingv1_MsgSetItemCustomDomain_CustomDomain x))
  | _ => Panic
  end.

Definition billingv1_MsgSetItemCustomDomain_Set (p : option billingv1_MsgSetItemCustomDomain) (fd : string) (value : value) : res (option billingv1_MsgSetItemCustomDomain) :=
  x ← deref p;
  let 'mk_billingv1_MsgSetItemCustomDomain sender leaseUuid serviceName customDomain u := x in
  match field_number billingv1_MsgSetItemCustomDomain_fields fd with
  | 1 => v ← as_string value; Ok (Some (mk_billingv1_MsgSetItemCustomDomain v leaseUuid serviceName customDomain u))
  | 2 => v ← as_string value; Ok (Some (mk_billingv1_MsgSetItemCustomDomain sender v serviceName customDomain u))
  | 3 => v ← as_string value; Ok (Some (mk_billingv1_MsgSetItemCustomDomain sender leaseUuid v customDomain u))
  | 4 => v ← as_string value; Ok (Some (mk_billingv1_MsgSetItemCustomDomain sender leaseUuid serviceName v u))
  | _ => Panic
  end.

Definition billingv1_MsgSetItemCustomDomain_Mutable (p : option billingv1_MsgSetItemCustomDomain) (fd : string) : res (option billingv1_MsgSetItemCustomDomain * value) := Panic.

Definition billingv1_MsgSetItemCustomDomain_NewField (fd : string) : res value :=
  match field_number billingv1_MsgSetItemCustomDomain_fields fd with
  | 1 => Ok (VString "")
  | 2 => Ok (VString "")
  | 3 => Ok (VString "")
  | 4 => Ok (VString "")
  | _ => Panic
  end.

Definition billingv1_MsgSetItemCustomDomain_GetUnknown (p : option billingv1_MsgSetItemCustomDomain) : res bytes := x ← deref p; Ok (billingv1_MsgSetItemCustomDomain_unknownFields x).

Definition billingv1_MsgSetItemCustomDomain_SetUnknown (p : option billingv1_MsgSetItemCustomDomain) (fields : bytes) : res (option billingv1_MsgSetItemCustomDomain) :=
  x ← deref p;
  let 'mk_billingv1_MsgSetItemCustomDomain sender leaseUuid serviceName customDomain _ := x in
  Ok (Some (mk_billingv1_MsgSetItemCustomDomain sender leaseUuid serviceName customDomain fields)).

Definition billingv1_MsgSetItemCustomDomain_GetSender (p : option billingv1_MsgSetItemCustomDomain) : string := match p with Some x => billingv1_MsgSetItemCustomDomain_Sender x | None => "" end.
Definition billingv1_MsgSetItemCustomDomain_GetLeaseUuid (p : option billingv1_MsgSetItemCustomDomain) : string := match p with Some x => billingv1_MsgSetItemCustomDomain_LeaseUuid x | None => "" end.
Definition billingv1_MsgSetItemCustomDomain_GetServiceName (p : option billingv1_MsgSetItemCustomDomain) : string := match p with Some x => billingv1_MsgSetItemCustomDomain_ServiceName x | None => "" end.
Definition billingv1_MsgSetItemCustomDomain_GetCustomDomain (p : option billingv1_MsgSetItemCustomDomain) : string := match p with Some x => billingv1_MsgSetItemCustomDomain_CustomDomain x | None => "" end.

Definition billingv1_MsgSetItemCustomDomain_getters : list (string * (option billingv1_MsgSetItemCustomDomain → value)) :=
  [("liftedinit.billing.v1.MsgSetItemCustomDomain.sender", λ p, VString (billingv1_MsgSetItemCustomDomain_GetSender p));
   ("liftedinit.billing.v1.MsgSetItemCustomDomain.lease_uuid", λ p, VString (billingv1_MsgSetItemCustomDomain_GetLeaseUuid p));
   ("liftedinit.billing.v1.MsgSetItemCustomDomain.service_name", λ p, VString (billingv1_MsgSetItemCustomDomain_GetServiceName p));
   ("liftedinit.billing.v1.MsgSetItemCustomDomain.custom_domain", λ p, VString (billingv1_MsgSetItemCustomDomain_GetCustomDomain p))]%string.

Definition billingv1_MsgSetItemCustomDomain_reflected : reflected :=
  mkReflected billingv1_MsgSetItemCustomDomain billingv1_MsgSetItemCustomDomain_fields
    billingv1_MsgSetItemCustomDomain_Range billingv1_MsgSetItemCustomDomain_Has billingv1_MsgSetItemCustomDomain_Clear
    billingv1_MsgSetItemCustomDomain_Get billingv1_MsgSetItemCustomDomain_Set billingv1_MsgSetItemCustomDomain_Mutable
    billingv1_MsgSetItemCustomDomain_NewField billingv1_MsgSetItemCustomDomain_new
    billingv1_MsgSetItemCustomDomain_GetUnknown billingv1_MsgSetItemCustomDomain_SetUnknown
    billingv1_MsgSetItemCustomDomain_getters.

(** ** MsgSetItemCustomDomainResponse *)

Definition billingv1_MsgSetItemCustomDomainResponse_fields : list string :=
  []%string.

Definition billingv1_MsgSetItemCustomDomainResponse_Range (S : Type) (p : option billingv1_MsgSetItemCustomDomainResponse) (f : S → string → value → S * bool) (s : S) : res S :=
  Ok (visit f [] s).

Definition billingv1_MsgSetItemCustomDomainResponse_Has (p : option billingv1_MsgSetItemCustomDomainResponse) (fd : string) : res bool := Panic.

Definition billingv1_MsgSetItemCustomDomainResponse_Clear (p : option billingv1_MsgSetItemCustomDomainResponse) (fd : string) : res (option billingv1_MsgSetItemCustomDomainResponse) := Panic.

Definition billingv1_MsgSetItemCustomDomainResponse_Get (p : option billingv1_MsgSetItemCustomDomainResponse) (fd : string) : res value := Panic.

Definition billingv1_MsgSetItemCustomDomainResponse_Set (p : option billingv1_MsgSetItemCustomDomainResponse) (fd : string) (value : value) : res (option billingv1_MsgSetItemCustomDomainResponse) := Panic.

Definition billingv1_MsgSetItemCustomDomainResponse_Mutable (p : option billingv1_MsgSetItemCustomDomainResponse) (fd : string) : res (option billingv1_MsgSetItemCustomDomainResponse * value) := Panic.

Definition billingv1_MsgSetItemCustomDomainResponse_NewField (fd : string) : res value := Panic.

Definition billingv1_MsgSetItemCustomDomainResponse_GetUnknown (p : option billingv1_MsgSetItemCustomDomainResponse) : res bytes := x ← deref p; Ok (billingv1_MsgSetItemCustomDomainResponse_unknownFields x).

Definition billingv1_MsgSetItemCustomDomainResponse_SetUnknown (p : option billingv1_MsgSetItemCustomDomainResponse) (fields : bytes) : res (option billingv1_MsgSetItemCustomDomainResponse) :=
  x ← deref p;
  let 'mk_billingv1_MsgSetItemCustomDomainResponse _ := x in
  Ok (Some (mk_billingv1_MsgSetItemCustomDomainResponse fields)).

Definition billingv1_MsgSetItemCustomDomainResponse_getters : list (string * (option billingv1_MsgSetItemCustomDomainResponse → value)) :=
  []%string.

Definition billingv1_MsgSetItemCustomDomainResponse_reflected : reflected :=
  mkReflected billingv1_MsgSetItemCustomDomainResponse billingv1_MsgSetItemCustomDomainResponse_fields
    billingv1_MsgSetItemCustomDomainResponse_Range billingv1_MsgSetItemCustomDomainResponse_Has
    billingv1_MsgSetItemCustomDomainResponse_Clear billingv1_MsgSetItemCustomDomainResponse_Get
    billingv1_MsgSetItemCustomDomainResponse_Set billingv1_MsgSetItemCustomDomainResponse_Mutable
    billingv1_MsgSetItemCustomDomainResponse_NewField billingv1_MsgSetItemCustomDomainResponse_new
    billingv1_MsgSetItemCustomDomainResponse_GetUnknown billingv1_MsgSetItemCustomDomainResponse_SetUnknown
    billingv1_MsgSetItemCustomDomainResponse_getters.

(** ** GenesisState *)

Definition billingv1_GenesisState_fields : list string :=
  ["liftedinit.billing.v1.GenesisState.params";
   "liftedinit.billing.v1.GenesisState.leases";
   "liftedinit.billing.v1.GenesisState.credit_accounts";
   "liftedinit.billing.v1.GenesisState.lease_sequence"]%string.

Definition billingv1_GenesisState_Range (S : Type) (p : option billingv1_GenesisState) (f : S → string → value → S * bool) (s : S) : res S :=
  x ← deref p;
  Ok (visit f
   [(not_nil (billingv1_GenesisState_Params x), "liftedinit.billing.v1.GenesisState.params"%string, VMessage (A_billingv1_Params (billingv1_GenesisState_Params x)));
    (has_list (billingv1_GenesisState_Leases x), "liftedinit.billing.v1.GenesisState.leases"%string, VList (L_billingv1_GenesisState_2 (Some (billingv1_GenesisState_Leases x))));
    (has_list (billingv1_GenesisState_CreditAccounts x), "liftedinit.billing.v1.GenesisState.credit_accounts"%string, VList (L_billingv1_GenesisState_3 (Some (billingv1_GenesisState_CreditAccounts x))));
    (has_num (billingv1_GenesisState_LeaseSequence x), "liftedinit.billing.v1.GenesisState.lease_sequence"%string, VUint64 (billingv1_GenesisState_LeaseSequence x))] s).

Definition billingv1_GenesisState_Has (p : option billingv1_GenesisState) (fd : string) : res bool :=
  x ← deref p;
  match field_number billingv1_GenesisState_fields fd with
  | 1 => Ok (not_nil (billingv1_GenesisState_Params x))
  | 2 => Ok (has_list (billingv1_GenesisState_Leases x))
  | 3 => Ok (has_list (billingv1_GenesisState_CreditAccounts x))
  | 4 => Ok (has_num (billingv1_GenesisState_LeaseSequence x))
  | _ => Panic
  end.

Definition billingv1_GenesisState_Clear (p : option billingv1_GenesisState) (fd : string) : res (option billingv1_GenesisState) :=
  x ← deref p;
  let 'mk_billingv1_GenesisState params leases creditAccounts leaseSequence u := x in
  match field_number billingv1_GenesisState_fields fd with
  | 1 => Ok (Some (mk_billingv1_GenesisState None leases creditAccounts leaseSequence u))
  | 2 => Ok (Some (mk_billingv1_GenesisState params [] creditAccounts leaseSequence u))
  | 3 => Ok (Some (mk_billingv1_GenesisState params leases [] leaseSequence u))
  | 4 => Ok (Some (mk_billingv1_GenesisState params leases creditAccounts 0 u))
  | _ => Panic
  end.

Definition billingv1_GenesisState_Get (p : option billingv1_GenesisState) (fd : string) : res value :=
  x ← deref p;
  match field_number billingv1_GenesisState_fields fd with
  | 1 => Ok (VMessage (A_billingv1_Params (billingv1_GenesisState_Params x)))
  | 2 => Ok (VList (L_billingv1_GenesisState_2 (view (billingv1_GenesisState_Leases x))))
  | 3 => Ok (VList (L_billingv1_GenesisState_3 (view (billingv1_GenesisState_CreditAccounts x))))
  | 4 => Ok (VUint64 (billingv1_GenesisState_LeaseSequence x))
  | _ => Panic
  end.

Definition billingv1_GenesisState_Set (p : option billingv1_GenesisState) (fd : string) (value : value) : res (option billingv1_GenesisState) :=
  x ← deref p;
  let 'mk_billingv1_GenesisState params leases creditAccounts leaseSequence u := x in
  match field_number billingv1_GenesisState_fields fd with
  | 1 => v ← as_billingv1_Params value; Ok (Some (mk_billingv1_GenesisState v leases creditAccounts leaseSequence u))
  | 2 => v ← as_L_billingv1_GenesisState_2 value; Ok (Some (mk_billingv1_GenesisState params v creditAccounts leaseSequence u))
  | 3 => v ← as_L_billingv1_GenesisState_3 value; Ok (Some (mk_billingv1_GenesisState params leases v leaseSequence u))
  | 4 => v ← as_uint value; Ok (Some (mk_billingv1_GenesisState params leases creditAccounts v u))
  | _ => Panic
  end.

Definition billingv1_GenesisState_Mutable (p : option billingv1_GenesisState) (fd : string) : res (option billingv1_GenesisState * value) :=
  x ← deref p;
  let 'mk_billingv1_GenesisState params leases creditAccounts leaseSequence u := x in
  match field_number billingv1_GenesisState_fields fd with
  | 1 => let v := match params with None => Some billingv1_Params_new | Some _ => params end in
      Ok (Some (mk_billingv1_GenesisState v leases creditAccounts leaseSequence u), VMessage (A_billingv1_Params v))
  | 2 => Ok (Some x, VList (L_billingv1_GenesisState_2 (Some leases)))
  | 3 => Ok (Some x, VList (L_billingv1_GenesisState_3 (Some creditAccounts)))
  | _ => Panic
  end.

Definition billingv1_GenesisState_NewField (fd : string) : res value :=
  match field_number billingv1_GenesisState_fields fd with
  | 1 => Ok (VMessage (A_billingv1_Params (Some billingv1_Params_new)))
  | 2 => Ok (VList (L_billingv1_GenesisState_2 (Some [])))
  | 3 => Ok (VList (L_billingv1_GenesisState_3 (Some [])))
  | 4 => Ok (VUint64 0)
  | _ => Panic
  end.

Definition billingv1_GenesisState_GetUnknown (p : option billingv1_GenesisState) : res bytes := x ← deref p; Ok (billingv1_GenesisState_unknownFields x).

Definition billingv1_GenesisState_SetUnknown (p : option billingv1_GenesisState) (fields : bytes) : res (option billingv1_GenesisState) :=
  x ← deref p;
  let 'mk_billingv1_GenesisState params leases creditAccounts leaseSequence _ := x in
  Ok (Some (mk_billingv1_GenesisState params leases creditAccounts leaseSequence fields)).

Definition billingv1_GenesisState_GetParams (p : option billingv1_GenesisState) : option billingv1_Params := match p with Some x => billingv1_GenesisState_Params x | None => None end.
Definition billingv1_GenesisState_GetLeases (p : option billingv1_GenesisState) : list (option billingv1_Lease) := match p with Some x => billingv1_GenesisState_Leases x | None => [] end.
Definition billingv1_GenesisState_GetCreditAccounts (p : option billingv1_GenesisState) : list (option billingv1_CreditAccount) := match p with Some x => billingv1_GenesisState_CreditAccounts x | None => [] end.
Definition billingv1_GenesisState_GetLeaseSequence (p : option billingv1_GenesisState) : Z := match p with Some x => billingv1_GenesisState_LeaseSequence x | None => 0 end.

Definition billingv1_GenesisState_getters : list (string * (option billingv1_GenesisState → value)) :=
  [("liftedinit.billing.v1.GenesisState.params", λ p, VMessage (A_billingv1_Params (billingv1_GenesisState_GetParams p)));
   ("liftedinit.billing.v1.GenesisState.leases", λ p, VList (L_billingv1_GenesisState_2 (view (billingv1_GenesisState_GetLeases p))));
   ("liftedinit.billing.v1.GenesisState.credit_accounts", λ p, VList (L_billingv1_GenesisState_3 (view (billingv1_GenesisState_GetCreditAccounts p))));
   ("liftedinit.billing.v1.GenesisState.lease_sequence", λ p, VUint64 (billingv1_GenesisState_GetLeaseSequence p))]%string.

Definition billingv1_GenesisState_reflected : reflected :=
  mkReflected billingv1_GenesisState billingv1_GenesisState_fields billingv1_GenesisState_Range
    billingv1_GenesisState_Has billingv1_GenesisState_Clear billingv1_GenesisState_Get billingv1_GenesisState_Set
    billingv1_GenesisState_Mutable billingv1_GenesisState_NewField billingv1_GenesisState_new
    billingv1_GenesisState_GetUnknown billingv1_GenesisState_SetUnknown billingv1_GenesisState_getters.

Definition billingv1_GenesisState_2_list : list_methods (option billingv1_Lease) :=
  message_list as_billingv1_Lease A_billingv1_Lease billingv1_Lease_new.

Definition billingv1_GenesisState_3_list : list_methods (option billingv1_CreditAccount) :=
  message_list as_billingv1_CreditAccount A_billingv1_CreditAccount billingv1_CreditAccount_new.

(** ** Module *)

Definition billing_modulev1_Module_fields : list string :=
  []%string.

Definition billing_modulev1_Module_Range (S : Type) (p : option billing_modulev1_Module) (f : S → string → value → S * bool) (s : S) : res S :=
  Ok (visit f [] s).

Definition billing_modulev1_Module_Has (p : option billing_modulev1_Module) (fd : string) : res bool := Panic.

Definition billing_modulev1_Module_Clear (p : option billing_modulev1_Module) (fd : string) : res (option billing_modulev1_Module) := Panic.

Definition billing_modulev1_Module_Get (p : option billing_modulev1_Module) (fd : string) : res value := Panic.

Definition billing_modulev1_Module_Set (p : option billing_modulev1_Module) (fd : string) (value : value) : res (option billing_modulev1_Module) := Panic.

Definition billing_modulev1_Module_Mutable (p : option billing_modulev1_Module) (fd : string) : res (option billing_modulev1_Module * value) := Panic.

Definition billing_modulev1_Module_NewField (fd : string) : res value := Panic.

Definition billing_modulev1_Module_GetUnknown (p : option billing_modulev1_Module) : res bytes := x ← deref p; Ok (billing_modulev1_Module_unknownFields x).

Definition billing_modulev1_Module_SetUnknown (p : option billing_modulev1_Module) (fields : bytes) : res (option billing_modulev1_Module) :=
  x ← deref p;
  let 'mk_billing_modulev1_Module _ := x in
  Ok (Some (mk_billing_modulev1_Module fields)).

Definition billing_modulev1_Module_getters : list (string * (option billing_modulev1_Module → value)) :=
  []%string.

Definition billing_modulev1_Module_reflected : reflected :=
  mkReflected billing_modulev1_Module billing_modulev1_Module_fields billing_modulev1_Module_Range
    billing_modulev1_Module_Has billing_modulev1_Module_Clear billing_modulev1_Module_Get billing_modulev1_Module_Set
    billing_modulev1_Module_Mutable billing_modulev1_Module_NewField billing_modulev1_Module_new
    billing_modulev1_Module_GetUnknown billing_modulev1_Module_SetUnknown billing_modulev1_Module_getters.

Definition billing_reflected : list reflected :=
  [billingv1_Params_reflected; billingv1_LeaseItem_reflected; billingv1_Lease_reflected;
   billingv1_CustomDomainTarget_reflected; billingv1_CreditAccount_reflected; billingv1_LeaseItemInput_reflected;
   billingv1_MsgFundCredit_reflected; billingv1_MsgFundCreditResponse_reflected; billingv1_MsgCreateLease_reflected;
   billingv1_MsgCreateLeaseResponse_reflected; billingv1_MsgCreateLeaseForTenant_reflected;
   billingv1_MsgCreateLeaseForTenantResponse_reflected; billingv1_MsgCloseLease_reflected;
   billingv1_MsgCloseLeaseResponse_reflected; billingv1_MsgWithdraw_reflected;
   billingv1_MsgWithdrawResponse_reflected; billingv1_MsgUpdateParams_reflected;
   billingv1_MsgUpdateParamsResponse_reflected; billingv1_MsgAcknowledgeLease_reflected;
   billingv1_MsgAcknowledgeLeaseResponse_reflected; billingv1_MsgRejectLease_reflected;
   billingv1_MsgRejectLeaseResponse_reflected; billingv1_MsgCancelLease_reflected;
   billingv1_MsgCancelLeaseResponse_reflected; billingv1_MsgSetItemCustomDomain_reflected;
   billingv1_MsgSetItemCustomDomainResponse_reflected; billingv1_GenesisState_reflected;
   billing_modulev1_Module_reflected].

Definition billing_lists `{ValueString} : list {T & list_methods T} :=
  [existT _ billingv1_Params_2_list; existT _ billingv1_Params_7_list; existT _ billingv1_Lease_4_list; existT _
   billingv1_CreditAccount_5_list; existT _ billingv1_MsgCreateLease_2_list; existT _
   billingv1_MsgCreateLeaseForTenant_3_list; existT _ billingv1_MsgCloseLease_2_list; existT _
   billingv1_MsgCloseLeaseResponse_3_list; existT _ billingv1_MsgWithdraw_2_list; existT _
   billingv1_MsgWithdrawResponse_1_list; existT _ billingv1_MsgAcknowledgeLease_2_list; existT _
   billingv1_MsgRejectLease_2_list; existT _ billingv1_MsgCancelLease_2_list; existT _ billingv1_GenesisState_2_list;
   existT _ billingv1_GenesisState_3_list].

(** ** Contracts *)

Lemma billingv1_Params_contract : contract billingv1_Params_reflected.
Proof.
  unfold billingv1_Params_reflected; solve_contract by unfold billingv1_Params_Range, billingv1_Params_Has,
    billingv1_Params_Clear, billingv1_Params_Get, billingv1_Params_Set, billingv1_Params_Mutable,
    billingv1_Params_NewField, billingv1_Params_GetUnknown, billingv1_Params_SetUnknown, billingv1_Params_getters.
Qed.

Lemma billingv1_LeaseItem_contract : contract billingv1_LeaseItem_reflected.
Proof.
  unfold billingv1_LeaseItem_reflected; solve_contract by unfold billingv1_LeaseItem_Range, billingv1_LeaseItem_Has,
    billingv1_LeaseItem_Clear, billingv1_LeaseItem_Get, billingv1_LeaseItem_Set, billingv1_LeaseItem_Mutable,
    billingv1_LeaseItem_NewField, billingv1_LeaseItem_GetUnknown, billingv1_LeaseItem_SetUnknown,
    billingv1_LeaseItem_getters.
Qed.

Lemma billingv1_Lease_contract : contract billingv1_Lease_reflected.
Proof.
  unfold billingv1_Lease_reflected; solve_contract by unfold billingv1_Lease_Range, billingv1_Lease_Has,
    billingv1_Lease_Clear, billingv1_Lease_Get, billingv1_Lease_Set, billingv1_Lease_Mutable,
    billingv1_Lease_NewField, billingv1_Lease_GetUnknown, billingv1_Lease_SetUnknown, billingv1_Lease_getters.
Qed.

Lemma billingv1_CustomDomainTarget_contract : contract billingv1_CustomDomainTarget_reflected.
Proof.
  unfold billingv1_CustomDomainTarget_reflected; solve_contract by unfold billingv1_CustomDomainTarget_Range,
    billingv1_CustomDomainTarget_Has, billingv1_CustomDomainTarget_Clear, billingv1_CustomDomainTarget_Get,
    billingv1_CustomDomainTarget_Set, billingv1_CustomDomainTarget_Mutable, billingv1_CustomDomainTarget_NewField,
    billingv1_CustomDomainTarget_GetUnknown, billingv1_CustomDomainTarget_SetUnknown,
    billingv1_CustomDomainTarget_getters.
Qed.

Lemma billingv1_CreditAccount_contract : contract billingv1_CreditAccount_reflected.
Proof.
  unfold billingv1_CreditAccount_reflected; solve_contract by unfold billingv1_CreditAccount_Range,
    billingv1_CreditAccount_Has, billingv1_CreditAccount_Clear, billingv1_CreditAccount_Get,
    billingv1_CreditAccount_Set, billingv1_CreditAccount_Mutable, billingv1_CreditAccount_NewField,
    billingv1_CreditAccount_GetUnknown, billingv1_CreditAccount_SetUnknown, billingv1_CreditAccount_getters.
Qed.

Lemma billingv1_LeaseItemInput_contract : contract billingv1_LeaseItemInput_reflected.
Proof.
  unfold billingv1_LeaseItemInput_reflected; solve_contract by unfold billingv1_LeaseItemInput_Range,
    billingv1_LeaseItemInput_Has, billingv1_LeaseItemInput_Clear, billingv1_LeaseItemInput_Get,
    billingv1_LeaseItemInput_Set, billingv1_LeaseItemInput_Mutable, billingv1_LeaseItemInput_NewField,
    billingv1_LeaseItemInput_GetUnknown, billingv1_LeaseItemInput_SetUnknown, billingv1_LeaseItemInput_getters.
Qed.

Lemma billingv1_MsgFundCredit_contract : contract billingv1_MsgFundCredit_reflected.
Proof.
  unfold billingv1_MsgFundCredit_reflected; solve_contract by unfold billingv1_MsgFundCredit_Range,
    billingv1_MsgFundCredit_Has, billingv1_MsgFundCredit_Clear, billingv1_MsgFundCredit_Get,
    billingv1_MsgFundCredit_Set, billingv1_MsgFundCredit_Mutable, billingv1_MsgFundCredit_NewField,
    billingv1_MsgFundCredit_GetUnknown, billingv1_MsgFundCredit_SetUnknown, billingv1_MsgFundCredit_getters.
Qed.

Lemma billingv1_MsgFundCreditResponse_contract : contract billingv1_MsgFundCreditResponse_reflected.
Proof.
  unfold billingv1_MsgFundCreditResponse_reflected; solve_contract by unfold billingv1_MsgFundCreditResponse_Range,
    billingv1_MsgFundCreditResponse_Has, billingv1_MsgFundCreditResponse_Clear, billingv1_MsgFundCreditResponse_Get,
    billingv1_MsgFundCreditResponse_Set, billingv1_MsgFundCreditResponse_Mutable,
    billingv1_MsgFundCreditResponse_NewField, billingv1_MsgFundCreditResponse_GetUnknown,
    billingv1_MsgFundCreditResponse_SetUnknown, billingv1_MsgFundCreditResponse_getters.
Qed.

Lemma billingv1_MsgCreateLease_contract : contract billingv1_MsgCreateLease_reflected.
Proof.
  unfold billingv1_MsgCreateLease_reflected; solve_contract by unfold billingv1_MsgCreateLease_Range,
    billingv1_MsgCreateLease_Has, billingv1_MsgCreateLease_Clear, billingv1_MsgCreateLease_Get,
    billingv1_MsgCreateLease_Set, billingv1_MsgCreateLease_Mutable, billingv1_MsgCreateLease_NewField,
    billingv1_MsgCreateLease_GetUnknown, billingv1_MsgCreateLease_SetUnknown, billingv1_MsgCreateLease_getters.
Qed.

Lemma billingv1_MsgCreateLeaseResponse_contract : contract billingv1_MsgCreateLeaseResponse_reflected.
Proof.
  unfold billingv1_MsgCreateLeaseResponse_reflected; solve_contract by unfold billingv1_MsgCreateLeaseResponse_Range,
    billingv1_MsgCreateLeaseResponse_Has, billingv1_MsgCreateLeaseResponse_Clear,
    billingv1_MsgCreateLeaseResponse_Get, billingv1_MsgCreateLeaseResponse_Set,
    billingv1_MsgCreateLeaseResponse_Mutable, billingv1_MsgCreateLeaseResponse_NewField,
    billingv1_MsgCreateLeaseResponse_GetUnknown, billingv1_MsgCreateLeaseResponse_SetUnknown,
    billingv1_MsgCreateLeaseResponse_getters.
Qed.

Lemma billingv1_MsgCreateLeaseForTenant_contract : contract billingv1_MsgCreateLeaseForTenant_reflected.
Proof.
  unfold billingv1_MsgCreateLeaseForTenant_reflected; solve_contract by unfold
    billingv1_MsgCreateLeaseForTenant_Range, billingv1_MsgCreateLeaseForTenant_Has,
    billingv1_MsgCreateLeaseForTenant_Clear, billingv1_MsgCreateLeaseForTenant_Get,
    billingv1_MsgCreateLeaseForTenant_Set, billingv1_MsgCreateLeaseForTenant_Mutable,
    billingv1_MsgCreateLeaseForTenant_NewField, billingv1_MsgCreateLeaseForTenant_GetUnknown,
    billingv1_MsgCreateLeaseForTenant_SetUnknown, billingv1_MsgCreateLeaseForTenant_getters.
Qed.

Lemma billingv1_MsgCreateLeaseForTenantResponse_contract : contract billingv1_MsgCreateLeaseForTenantResponse_reflected.
Proof.
  unfold billingv1_MsgCreateLeaseForTenantResponse_reflected; solve_contract by unfold
    billingv1_MsgCreateLeaseForTenantResponse_Range, billingv1_MsgCreateLeaseForTenantResponse_Has,
    billingv1_MsgCreateLeaseForTenantResponse_Clear, billingv1_MsgCreateLeaseForTenantResponse_Get,
    billingv1_MsgCreateLeaseForTenantResponse_Set, billingv1_MsgCreateLeaseForTenantResponse_Mutable,
    billingv1_MsgCreateLeaseForTenantResponse_NewField, billingv1_MsgCreateLeaseForTenantResponse_GetUnknown,
    billingv1_MsgCreateLeaseForTenantResponse_SetUnknown, billingv1_MsgCreateLeaseForTenantResponse_getters.
Qed.

Lemma billingv1_MsgCloseLease_contract : contract billingv1_MsgCloseLease_reflected.
Proof.
  unfold billingv1_MsgCloseLease_reflected; solve_contract by unfold billingv1_MsgCloseLease_Range,
    billingv1_MsgCloseLease_Has, billingv1_MsgCloseLease_Clear, billingv1_MsgCloseLease_Get,
    billingv1_MsgCloseLease_Set, billingv1_MsgCloseLease_Mutable, billingv1_MsgCloseLease_NewField,
    billingv1_MsgCloseLease_GetUnknown, billingv1_MsgCloseLease_SetUnknown, billingv1_MsgCloseLease_getters.
Qed.

Lemma billingv1_MsgCloseLeaseResponse_contract : contract billingv1_MsgCloseLeaseResponse_reflected.
Proof.
  unfold billingv1_MsgCloseLeaseResponse_reflected; solve_contract by unfold billingv1_MsgCloseLeaseResponse_Range,
    billingv1_MsgCloseLeaseResponse_Has, billingv1_MsgCloseLeaseResponse_Clear, billingv1_MsgCloseLeaseResponse_Get,
    billingv1_MsgCloseLeaseResponse_Set, billingv1_MsgCloseLeaseResponse_Mutable,
    billingv1_MsgCloseLeaseResponse_NewField, billingv1_MsgCloseLeaseResponse_GetUnknown,
    billingv1_MsgCloseLeaseResponse_SetUnknown, billingv1_MsgCloseLeaseResponse_getters.
Qed.

Lemma billingv1_MsgWithdraw_contract : contract billingv1_MsgWithdraw_reflected.
Proof.
  unfold billingv1_MsgWithdraw_reflected; solve_contract by unfold billingv1_MsgWithdraw_Range,
    billingv1_MsgWithdraw_Has, billingv1_MsgWithdraw_Clear, billingv1_MsgWithdraw_Get, billingv1_MsgWithdraw_Set,
    billingv1_MsgWithdraw_Mutable, billingv1_MsgWithdraw_NewField, billingv1_MsgWithdraw_GetUnknown,
    billingv1_MsgWithdraw_SetUnknown, billingv1_MsgWithdraw_getters.
Qed.

Lemma billingv1_MsgWithdrawResponse_contract : contract billingv1_MsgWithdrawResponse_reflected.
Proof.
  unfold billingv1_MsgWithdrawResponse_reflected; solve_contract by unfold billingv1_MsgWithdrawResponse_Range,
    billingv1_MsgWithdrawResponse_Has, billingv1_MsgWithdrawResponse_Clear, billingv1_MsgWithdrawResponse_Get,
    billingv1_MsgWithdrawResponse_Set, billingv1_MsgWithdrawResponse_Mutable, billingv1_MsgWithdrawResponse_NewField,
    billingv1_MsgWithdrawResponse_GetUnknown, billingv1_MsgWithdrawResponse_SetUnknown,
    billingv1_MsgWithdrawResponse_getters.
Qed.

Lemma billingv1_MsgUpdateParams_contract : contract billingv1_MsgUpdateParams_reflected.
Proof.
  unfold billingv1_MsgUpdateParams_reflected; solve_contract by unfold billingv1_MsgUpdateParams_Range,
    billingv1_MsgUpdateParams_Has, billingv1_MsgUpdateParams_Clear, billingv1_MsgUpdateParams_Get,
    billingv1_MsgUpdateParams_Set, billingv1_MsgUpdateParams_Mutable, billingv1_MsgUpdateParams_NewField,
    billingv1_MsgUpdateParams_GetUnknown, billingv1_MsgUpdateParams_SetUnknown, billingv1_MsgUpdateParams_getters.
Qed.

Lemma billingv1_MsgUpdateParamsResponse_contract : contract billingv1_MsgUpdateParamsResponse_reflected.
Proof.
  unfold billingv1_MsgUpdateParamsResponse_reflected; solve_empty_contract by unfold
    billingv1_MsgUpdateParamsResponse_Range, billingv1_MsgUpdateParamsResponse_Has,
    billingv1_MsgUpdateParamsResponse_Clear, billingv1_MsgUpdateParamsResponse_Get,
    billingv1_MsgUpdateParamsResponse_Set, billingv1_MsgUpdateParamsResponse_Mutable,
    billingv1_MsgUpdateParamsResponse_NewField, billingv1_MsgUpdateParamsResponse_GetUnknown,
    billingv1_MsgUpdateParamsResponse_SetUnknown, billingv1_MsgUpdateParamsResponse_getters.
Qed.

Lemma billingv1_MsgAcknowledgeLease_contract : contract billingv1_MsgAcknowledgeLease_reflected.
Proof.
  unfold billingv1_MsgAcknowledgeLease_reflected; solve_contract by unfold billingv1_MsgAcknowledgeLease_Range,
    billingv1_MsgAcknowledgeLease_Has, billingv1_MsgAcknowledgeLease_Clear, billingv1_MsgAcknowledgeLease_Get,
    billingv1_MsgAcknowledgeLease_Set, billingv1_MsgAcknowledgeLease_Mutable, billingv1_MsgAcknowledgeLease_NewField,
    billingv1_MsgAcknowledgeLease_GetUnknown, billingv1_MsgAcknowledgeLease_SetUnknown,
    billingv1_MsgAcknowledgeLease_getters.
Qed.

Lemma billingv1_MsgAcknowledgeLeaseResponse_contract : contract billingv1_MsgAcknowledgeLeaseResponse_reflected.
Proof.
  unfold billingv1_MsgAcknowledgeLeaseResponse_reflected; solve_contract by unfold
    billingv1_MsgAcknowledgeLeaseResponse_Range, billingv1_MsgAcknowledgeLeaseResponse_Has,
    billingv1_MsgAcknowledgeLeaseResponse_Clear, billingv1_MsgAcknowledgeLeaseResponse_Get,
    billingv1_MsgAcknowledgeLeaseResponse_Set, billingv1_MsgAcknowledgeLeaseResponse_Mutable,
    billingv1_MsgAcknowledgeLeaseResponse_NewField, billingv1_MsgAcknowledgeLeaseResponse_GetUnknown,
    billingv1_MsgAcknowledgeLeaseResponse_SetUnknown, billingv1_MsgAcknowledgeLeaseResponse_getters.
Qed.

Lemma billingv1_MsgRejectLease_contract : contract billingv1_MsgRejectLease_reflected.
Proof.
  unfold billingv1_MsgRejectLease_reflected; solve_contract by unfold billingv1_MsgRejectLease_Range,
    billingv1_MsgRejectLease_Has, billingv1_MsgRejectLease_Clear, billingv1_MsgRejectLease_Get,
    billingv1_MsgRejectLease_Set, billingv1_MsgRejectLease_Mutable, billingv1_MsgRejectLease_NewField,
    billingv1_MsgRejectLease_GetUnknown, billingv1_MsgRejectLease_SetUnknown, billingv1_MsgRejectLease_getters.
Qed.

Lemma billingv1_MsgRejectLeaseResponse_contract : contract billingv1_MsgRejectLeaseResponse_reflected.
Proof.
  unfold billingv1_MsgRejectLeaseResponse_reflected; solve_contract by unfold billingv1_MsgRejectLeaseResponse_Range,
    billingv1_MsgRejectLeaseResponse_Has, billingv1_MsgRejectLeaseResponse_Clear,
    billingv1_MsgRejectLeaseResponse_Get, billingv1_MsgRejectLeaseResponse_Set,
    billingv1_MsgRejectLeaseResponse_Mutable, billingv1_MsgRejectLeaseResponse_NewField,
    billingv1_MsgRejectLeaseResponse_GetUnknown, billingv1_MsgRejectLeaseResponse_SetUnknown,
    billingv1_MsgRejectLeaseResponse_getters.
Qed.

Lemma billingv1_MsgCancelLease_contract : contract billingv1_MsgCancelLease_reflected.
Proof.
  unfold billingv1_MsgCancelLease_reflected; solve_contract by unfold billingv1_MsgCancelLease_Range,
    billingv1_MsgCancelLease_Has, billingv1_MsgCancelLease_Clear, billingv1_MsgCancelLease_Get,
    billingv1_MsgCancelLease_Set, billingv1_MsgCancelLease_Mutable, billingv1_MsgCancelLease_NewField,
    billingv1_MsgCancelLease_GetUnknown, billingv1_MsgCancelLease_SetUnknown, billingv1_MsgCancelLease_getters.
Qed.

Lemma billingv1_MsgCancelLeaseResponse_contract : contract billingv1_MsgCancelLeaseResponse_reflected.
Proof.
  unfold billingv1_MsgCancelLeaseResponse_reflected; solve_contract by unfold billingv1_MsgCancelLeaseResponse_Range,
    billingv1_MsgCancelLeaseResponse_Has, billingv1_MsgCancelLeaseResponse_Clear,
    billingv1_MsgCancelLeaseResponse_Get, billingv1_MsgCancelLeaseResponse_Set,
    billingv1_MsgCancelLeaseResponse_Mutable, billingv1_MsgCancelLeaseResponse_NewField,
    billingv1_MsgCancelLeaseResponse_GetUnknown, billingv1_MsgCancelLeaseResponse_SetUnknown,
    billingv1_MsgCancelLeaseResponse_getters.
Qed.

Lemma billingv1_MsgSetItemCustomDomain_contract : contract billingv1_MsgSetItemCustomDomain_reflected.
Proof.
  unfold billingv1_MsgSetItemCustomDomain_reflected; solve_contract by unfold billingv1_MsgSetItemCustomDomain_Range,
    billingv1_MsgSetItemCustomDomain_Has, billingv1_MsgSetItemCustomDomain_Clear,
    billingv1_MsgSetItemCustomDomain_Get, billingv1_MsgSetItemCustomDomain_Set,
    billingv1_MsgSetItemCustomDomain_Mutable, billingv1_MsgSetItemCustomDomain_NewField,
    billingv1_MsgSetItemCustomDomain_GetUnknown, billingv1_MsgSetItemCustomDomain_SetUnknown,
    billingv1_MsgSetItemCustomDomain_getters.
Qed.

Lemma billingv1_MsgSetItemCustomDomainResponse_contract : contract billingv1_MsgSetItemCustomDomainResponse_reflected.
Proof.
  unfold billingv1_MsgSetItemCustomDomainResponse_reflected; solve_empty_contract by unfold
    billingv1_MsgSetItemCustomDomainResponse_Range, billingv1_MsgSetItemCustomDomainResponse_Has,
    billingv1_MsgSetItemCustomDomainResponse_Clear, billingv1_MsgSetItemCustomDomainResponse_Get,
    billingv1_MsgSetItemCustomDomainResponse_Set, billingv1_MsgSetItemCustomDomainResponse_Mutable,
    billingv1_MsgSetItemCustomDomainResponse_NewField, billingv1_MsgSetItemCustomDomainResponse_GetUnknown,
    billingv1_MsgSetItemCustomDomainResponse_SetUnknown, billingv1_MsgSetItemCustomDomainResponse_getters.
Qed.

Lemma billingv1_GenesisState_contract : contract billingv1_GenesisState_reflected.
Proof.
  unfold billingv1_GenesisState_reflected; solve_contract by unfold billingv1_GenesisState_Range,
    billingv1_GenesisState_Has, billingv1_GenesisState_Clear, billingv1_GenesisState_Get, billingv1_GenesisState_Set,
    billingv1_GenesisState_Mutable, billingv1_GenesisState_NewField, billingv1_GenesisState_GetUnknown,
    billingv1_GenesisState_SetUnknown, billingv1_GenesisState_getters.
Qed.

Lemma billing_modulev1_Module_contract : contract billing_modulev1_Module_reflected.
Proof.
  unfold billing_modulev1_Module_reflected; solve_empty_contract by unfold billing_modulev1_Module_Range,
    billing_modulev1_Module_Has, billing_modulev1_Module_Clear, billing_modulev1_Module_Get,
    billing_modulev1_Module_Set, billing_modulev1_Module_Mutable, billing_modulev1_Module_NewField,
    billing_modulev1_Module_GetUnknown, billing_modulev1_Module_SetUnknown, billing_modulev1_Module_getters.
Qed.

Lemma billing_reflected_contract : Forall contract billing_reflected.
Proof.
  repeat apply Forall_cons_2; try apply Forall_nil_2.
  - apply billingv1_Params_contract.
  - apply billingv1_LeaseItem_contract.
  - apply billingv1_Lease_contract.
  - apply billingv1_CustomDomainTarget_contract.
  - apply billingv1_CreditAccount_contract.
  - apply billingv1_LeaseItemInput_contract.
  - apply billingv1_MsgFundCredit_contract.
  - apply billingv1_MsgFundCreditResponse_contract.
  - apply billingv1_MsgCreateLease_contract.
  - apply billingv1_MsgCreateLeaseResponse_contract.
  - apply billingv1_MsgCreateLeaseForTenant_contract.
  - apply billingv1_MsgCreateLeaseForTenantResponse_contract.
  - apply billingv1_MsgCloseLease_contract.
  - apply billingv1_MsgCloseLeaseResponse_contract.
  - apply billingv1_MsgWithdraw_contract.
  - apply billingv1_MsgWithdrawResponse_contract.
  - apply billingv1_MsgUpdateParams_contract.
  - apply billingv1_MsgUpdateParamsResponse_contract.
  - apply billingv1_MsgAcknowledgeLease_contract.
  - apply billingv1_MsgAcknowledgeLeaseResponse_contract.
  - apply billingv1_MsgRejectLease_contract.
  - apply billingv1_MsgRejectLeaseResponse_contract.
  - apply billingv1_MsgCancelLease_contract.
  - apply billingv1_MsgCancelLeaseResponse_contract.
  - apply billingv1_MsgSetItemCustomDomain_contract.
  - apply billingv1_MsgSetItemCustomDomainResponse_contract.
  - apply billingv1_GenesisState_contract.
  - apply billing_modulev1_Module_contract.
Qed.

Lemma billing_lists_contract `{ValueStringLaws} : Forall (λ L, list_contract (projT2 L)) billing_lists.
Proof. solve_lists. Qed.
