(* ===== verification/ReflectBillingQuery.v ===== *)
(** * Reflection over the API messages of the billing module: queries

    Range, Has, Clear, Get, Set, Mutable and NewField of every message, and the methods of its list types;
    then the proofs that each meets the contract of protoreflect.Message. *)

From stdpp Require Import base tactics option list strings.
From Stdlib Require Import ZArith Lia Ascii.
From S2P Require Import Prelude Wire Pulsar ApiExternal ApiManifest ApiSku ApiSkuQuery ApiBilling ApiBillingTx ApiBillingQuery Reflect.
Open Scope Z_scope.

(** ** QueryParamsRequest *)

Definition billingv1_QueryParamsRequest_fields : list string :=
  []%string.

Definition billingv1_QueryParamsRequest_Range (S : Type) (p : option billingv1_QueryParamsRequest) (f : S → string → value → S * bool) (s : S) : res S :=
  Ok (visit f [] s).

Definition billingv1_QueryParamsRequest_Has (p : option billingv1_QueryParamsRequest) (fd : string) : res bool := Panic.

Definition billingv1_QueryParamsRequest_Clear (p : option billingv1_QueryParamsRequest) (fd : string) : res (option billingv1_QueryParamsRequest) := Panic.

Definition billingv1_QueryParamsRequest_Get (p : option billingv1_QueryParamsRequest) (fd : string) : res value := Panic.

Definition billingv1_QueryParamsRequest_Set (p : option billingv1_QueryParamsRequest) (fd : string) (value : value) : res (option billingv1_QueryParamsRequest) := Panic.

Definition billingv1_QueryParamsRequest_Mutable (p : option billingv1_QueryParamsRequest) (fd : string) : res (option billingv1_QueryParamsRequest * value) := Panic.

Definition billingv1_QueryParamsRequest_NewField (fd : string) : res value := Panic.

Definition billingv1_QueryParamsRequest_GetUnknown (p : option billingv1_QueryParamsRequest) : res bytes := x ← deref p; Ok (billingv1_QueryParamsRequest_unknownFields x).

Definition billingv1_QueryParamsRequest_SetUnknown (p : option billingv1_QueryParamsRequest) (fields : bytes) : res (option billingv1_QueryParamsRequest) :=
  x ← deref p;
  let 'mk_billingv1_QueryParamsRequest _ := x in
  Ok (Some (mk_billingv1_QueryParamsRequest fields)).

Definition billingv1_QueryParamsRequest_getters : list (string * (option billingv1_QueryParamsRequest → value)) :=
  []%string.

Definition billingv1_QueryParamsRequest_reflected : reflected :=
  mkReflected billingv1_QueryParamsRequest billingv1_QueryParamsRequest_fields billingv1_QueryParamsRequest_Range
    billingv1_QueryParamsRequest_Has billingv1_QueryParamsRequest_Clear billingv1_QueryParamsRequest_Get
    billingv1_QueryParamsRequest_Set billingv1_QueryParamsRequest_Mutable billingv1_QueryParamsRequest_NewField
    billingv1_QueryParamsRequest_new billingv1_QueryParamsRequest_GetUnknown billingv1_QueryParamsRequest_SetUnknown
    billingv1_QueryParamsRequest_getters.

(** ** QueryParamsResponse *)

Definition billingv1_QueryParamsResponse_fields : list string :=
  ["liftedinit.billing.v1.QueryParamsResponse.params"]%string.

Definition billingv1_QueryParamsResponse_Range (S : Type) (p : option billingv1_QueryParamsResponse) (f : S → string → value → S * bool) (s : S) : res S :=
  x ← deref p;
  Ok (visit f
   [(not_nil (billingv1_QueryParamsResponse_Params x), "liftedinit.billing.v1.QueryParamsResponse.params"%string, VMessage (A_billingv1_Params (billingv1_QueryParamsResponse_Params x)))] s).

Definition billingv1_QueryParamsResponse_Has (p : option billingv1_QueryParamsResponse) (fd : string) : res bool :=
  x ← deref p;
  match field_number billingv1_QueryParamsResponse_fields fd with
  | 1 => Ok (not_nil (billingv1_QueryParamsResponse_Params x))
  | _ => Panic
  end.

Definition billingv1_QueryParamsResponse_Clear (p : option billingv1_QueryParamsResponse) (fd : string) : res (option billingv1_QueryParamsResponse) :=
  x ← deref p;
  let 'mk_billingv1_QueryParamsResponse params u := x in
  match field_number billingv1_QueryParamsResponse_fields fd with
  | 1 => Ok (Some (mk_billingv1_QueryParamsResponse None u))
  | _ => Panic
  end.

Definition billingv1_QueryParamsResponse_Get (p : option billingv1_QueryParamsResponse) (fd : string) : res value :=
  x ← deref p;
  match field_number billingv1_QueryParamsResponse_fields fd with
  | 1 => Ok (VMessage (A_billingv1_Params (billingv1_QueryParamsResponse_Params x)))
  | _ => Panic
  end.

Definition billingv1_QueryParamsResponse_Set (p : option billingv1_QueryParamsResponse) (fd : string) (value : value) : res (option billingv1_QueryParamsResponse) :=
  x ← deref p;
  let 'mk_billingv1_QueryParamsResponse params u := x in
  match field_number billingv1_QueryParamsResponse_fields fd with
  | 1 => v ← as_billingv1_Params value; Ok (Some (mk_billingv1_QueryParamsResponse v u))
  | _ => Panic
  end.

Definition billingv1_QueryParamsResponse_Mutable (p : option billingv1_QueryParamsResponse) (fd : string) : res (option billingv1_QueryParamsResponse * value) :=
  x ← deref p;
  let 'mk_billingv1_QueryParamsResponse params u := x in
  match field_number billingv1_QueryParamsResponse_fields fd with
  | 1 => let v := match params with None => Some billingv1_Params_new | Some _ => params end in
      Ok (Some (mk_billingv1_QueryParamsResponse v u), VMessage (A_billingv1_Params v))
  | _ => Panic
  end.

Definition billingv1_QueryParamsResponse_NewField (fd : string) : res value :=
  match field_number billingv1_QueryParamsResponse_fields fd with
  | 1 => Ok (VMessage (A_billingv1_Params (Some billingv1_Params_new)))
  | _ => Panic
  end.

Definition billingv1_QueryParamsResponse_GetUnknown (p : option billingv1_QueryParamsResponse) : res bytes := x ← deref p; Ok (billingv1_QueryParamsResponse_unknownFields x).

Definition billingv1_QueryParamsResponse_SetUnknown (p : option billingv1_QueryParamsResponse) (fields : bytes) : res (option billingv1_QueryParamsResponse) :=
  x ← deref p;
  let 'mk_billingv1_QueryParamsResponse params _ := x in
  Ok (Some (mk_billingv1_QueryParamsResponse params fields)).

Definition billingv1_QueryParamsResponse_GetParams (p : option billingv1_QueryParamsResponse) : option billingv1_Params := match p with Some x => billingv1_QueryParamsResponse_Params x | None => None end.

Definition billingv1_QueryParamsResponse_getters : list (string * (option billingv1_QueryParamsResponse → value)) :=
  [("liftedinit.billing.v1.QueryParamsResponse.params", λ p, VMessage (A_billingv1_Params (billingv1_QueryParamsResponse_GetParams p)))]%string.

Definition billingv1_QueryParamsResponse_reflected : reflected :=
  mkReflected billingv1_QueryParamsResponse billingv1_QueryParamsResponse_fields billingv1_QueryParamsResponse_Range
    billingv1_QueryParamsResponse_Has billingv1_QueryParamsResponse_Clear billingv1_QueryParamsResponse_Get
    billingv1_QueryParamsResponse_Set billingv1_QueryParamsResponse_Mutable billingv1_QueryParamsResponse_NewField
    billingv1_QueryParamsResponse_new billingv1_QueryParamsResponse_GetUnknown
    billingv1_QueryParamsResponse_SetUnknown billingv1_QueryParamsResponse_getters.

(** ** QueryLeaseRequest *)

Definition billingv1_QueryLeaseRequest_fields : list string :=
  ["liftedinit.billing.v1.QueryLeaseRequest.lease_uuid"]%string.

Definition billingv1_QueryLeaseRequest_Range (S : Type) (p : option billingv1_QueryLeaseRequest) (f : S → string → value → S * bool) (s : S) : res S :=
  x ← deref p;
  Ok (visit f
   [(has_string (billingv1_QueryLeaseRequest_LeaseUuid x), "liftedinit.billing.v1.QueryLeaseRequest.lease_uuid"%string, VString (billingv1_QueryLeaseRequest_LeaseUuid x))] s).

Definition billingv1_QueryLeaseRequest_Has (p : option billingv1_QueryLeaseRequest) (fd : string) : res bool :=
  x ← deref p;
  match field_number billingv1_QueryLeaseRequest_fields fd with
  | 1 => Ok (has_string (billingv1_QueryLeaseRequest_LeaseUuid x))
  | _ => Panic
  end.

Definition billingv1_QueryLeaseRequest_Clear (p : option billingv1_QueryLeaseRequest) (fd : string) : res (option billingv1_QueryLeaseRequest) :=
  x ← deref p;
  let 'mk_billingv1_QueryLeaseRequest leaseUuid u := x in
  match field_number billingv1_QueryLeaseRequest_fields fd with
  | 1 => Ok (Some (mk_billingv1_QueryLeaseRequest "" u))
  | _ => Panic
  end.

Definition billingv1_QueryLeaseRequest_Get (p : option billingv1_QueryLeaseRequest) (fd : string) : res value :=
  x ← deref p;
  match field_number billingv1_QueryLeaseRequest_fields fd with
  | 1 => Ok (VString (billingv1_QueryLeaseRequest_LeaseUuid x))
  | _ => Panic
  end.

Definition billingv1_QueryLeaseRequest_Set (p : option billingv1_QueryLeaseRequest) (fd : string) (value : value) : res (option billingv1_QueryLeaseRequest) :=
  x ← deref p;
  let 'mk_billingv1_QueryLeaseRequest leaseUuid u := x in
  match field_number billingv1_QueryLeaseRequest_fields fd with
  | 1 => v ← as_string value; Ok (Some (mk_billingv1_QueryLeaseRequest v u))
  | _ => Panic
  end.

Definition billingv1_QueryLeaseRequest_Mutable (p : option billingv1_QueryLeaseRequest) (fd : string) : res (option billingv1_QueryLeaseRequest * value) := Panic.

Definition billingv1_QueryLeaseRequest_NewField (fd : string) : res value :=
  match field_number billingv1_QueryLeaseRequest_fields fd with
  | 1 => Ok (VString "")
  | _ => Panic
  end.

Definition billingv1_QueryLeaseRequest_GetUnknown (p : option billingv1_QueryLeaseRequest) : res bytes := x ← deref p; Ok (billingv1_QueryLeaseRequest_unknownFields x).

Definition billingv1_QueryLeaseRequest_SetUnknown (p : option billingv1_QueryLeaseRequest) (fields : bytes) : res (option billingv1_QueryLeaseRequest) :=
  x ← deref p;
  let 'mk_billingv1_QueryLeaseRequest leaseUuid _ := x in
  Ok (Some (mk_billingv1_QueryLeaseRequest leaseUuid fields)).

Definition billingv1_QueryLeaseRequest_GetLeaseUuid (p : option billingv1_QueryLeaseRequest) : string := match p with Some x => billingv1_QueryLeaseRequest_LeaseUuid x | None => "" end.

Definition billingv1_QueryLeaseRequest_getters : list (string * (option billingv1_QueryLeaseRequest → value)) :=
  [("liftedinit.billing.v1.QueryLeaseRequest.lease_uuid", λ p, VString (billingv1_QueryLeaseRequest_GetLeaseUuid p))]%string.

Definition billingv1_QueryLeaseRequest_reflected : reflected :=
  mkReflected billingv1_QueryLeaseRequest billingv1_QueryLeaseRequest_fields billingv1_QueryLeaseRequest_Range
    billingv1_QueryLeaseRequest_Has billingv1_QueryLeaseRequest_Clear billingv1_QueryLeaseRequest_Get
    billingv1_QueryLeaseRequest_Set billingv1_QueryLeaseRequest_Mutable billingv1_QueryLeaseRequest_NewField
    billingv1_QueryLeaseRequest_new billingv1_QueryLeaseRequest_GetUnknown billingv1_QueryLeaseRequest_SetUnknown
    billingv1_QueryLeaseRequest_getters.

(** ** QueryLeaseResponse *)

Definition billingv1_QueryLeaseResponse_fields : list string :=
  ["liftedinit.billing.v1.QueryLeaseResponse.lease"]%string.

Definition billingv1_QueryLeaseResponse_Range (S : Type) (p : option billingv1_QueryLeaseResponse) (f : S → string → value → S * bool) (s : S) : res S :=
  x ← deref p;
  Ok (visit f
   [(not_nil (billingv1_QueryLeaseResponse_Lease x), "liftedinit.billing.v1.QueryLeaseResponse.lease"%string, VMessage (A_billingv1_Lease (billingv1_QueryLeaseResponse_Lease x)))] s).

Definition billingv1_QueryLeaseResponse_Has (p : option billingv1_QueryLeaseResponse) (fd : string) : res bool :=
  x ← deref p;
  match field_number billingv1_QueryLeaseResponse_fields fd with
  | 1 => Ok (not_nil (billingv1_QueryLeaseResponse_Lease x))
  | _ => Panic
  end.

Definition billingv1_QueryLeaseResponse_Clear (p : option billingv1_QueryLeaseResponse) (fd : string) : res (option billingv1_QueryLeaseResponse) :=
  x ← deref p;
  let 'mk_billingv1_QueryLeaseResponse lease u := x in
  match field_number billingv1_QueryLeaseResponse_fields fd with
  | 1 => Ok (Some (mk_billingv1_QueryLeaseResponse None u))
  | _ => Panic
  end.

Definition billingv1_QueryLeaseResponse_Get (p : option billingv1_QueryLeaseResponse) (fd : string) : res value :=
  x ← deref p;
  match field_number billingv1_QueryLeaseResponse_fields fd with
  | 1 => Ok (VMessage (A_billingv1_Lease (billingv1_QueryLeaseResponse_Lease x)))
  | _ => Panic
  end.

Definition billingv1_QueryLeaseResponse_Set (p : option billingv1_QueryLeaseResponse) (fd : string) (value : value) : res (option billingv1_QueryLeaseResponse) :=
  x ← deref p;
  let 'mk_billingv1_QueryLeaseResponse lease u := x in
  match field_number billingv1_QueryLeaseResponse_fields fd with
  | 1 => v ← as_billingv1_Lease value; Ok (Some (mk_billingv1_QueryLeaseResponse v u))
  | _ => Panic
  end.

Definition billingv1_QueryLeaseResponse_Mutable (p : option billingv1_QueryLeaseResponse) (fd : string) : res (option billingv1_QueryLeaseResponse * value) :=
  x ← deref p;
  let 'mk_billingv1_QueryLeaseResponse lease u := x in
  match field_number billingv1_QueryLeaseResponse_fields fd with
  | 1 => let v := match lease with None => Some billingv1_Lease_new | Some _ => lease end in
      Ok (Some (mk_billingv1_QueryLeaseResponse v u), VMessage (A_billingv1_Lease v))
  | _ => Panic
  end.

Definition billingv1_QueryLeaseResponse_NewField (fd : string) : res value :=
  match field_number billingv1_QueryLeaseResponse_fields fd with
  | 1 => Ok (VMessage (A_billingv1_Lease (Some billingv1_Lease_new)))
  | _ => Panic
  end.

Definition billingv1_QueryLeaseResponse_GetUnknown (p : option billingv1_QueryLeaseResponse) : res bytes := x ← deref p; Ok (billingv1_QueryLeaseResponse_unknownFields x).

Definition billingv1_QueryLeaseResponse_SetUnknown (p : option billingv1_QueryLeaseResponse) (fields : bytes) : res (option billingv1_QueryLeaseResponse) :=
  x ← deref p;
  let 'mk_billingv1_QueryLeaseResponse lease _ := x in
  Ok (Some (mk_billingv1_QueryLeaseResponse lease fields)).

Definition billingv1_QueryLeaseResponse_GetLease (p : option billingv1_QueryLeaseResponse) : option billingv1_Lease := match p with Some x => billingv1_QueryLeaseResponse_Lease x | None => None end.

Definition billingv1_QueryLeaseResponse_getters : list (string * (option billingv1_QueryLeaseResponse → value)) :=
  [("liftedinit.billing.v1.QueryLeaseResponse.lease", λ p, VMessage (A_billingv1_Lease (billingv1_QueryLeaseResponse_GetLease p)))]%string.

Definition billingv1_QueryLeaseResponse_reflected : reflected :=
  mkReflected billingv1_QueryLeaseResponse billingv1_QueryLeaseResponse_fields billingv1_QueryLeaseResponse_Range
    billingv1_QueryLeaseResponse_Has billingv1_QueryLeaseResponse_Clear billingv1_QueryLeaseResponse_Get
    billingv1_QueryLeaseResponse_Set billingv1_QueryLeaseResponse_Mutable billingv1_QueryLeaseResponse_NewField
    billingv1_QueryLeaseResponse_new billingv1_QueryLeaseResponse_GetUnknown billingv1_QueryLeaseResponse_SetUnknown
    billingv1_QueryLeaseResponse_getters.

(** ** QueryLeasesRequest *)

Definition billingv1_QueryLeasesRequest_fields : list string :=
  ["liftedinit.billing.v1.QueryLeasesRequest.pagination";
   "liftedinit.billing.v1.QueryLeasesRequest.state_filter"]%string.

Definition billingv1_QueryLeasesRequest_Range (S : Type) (p : option billingv1_QueryLeasesRequest) (f : S → string → value → S * bool) (s : S) : res S :=
  x ← deref p;
  Ok (visit f
   [(not_nil (billingv1_QueryLeasesRequest_Pagination x), "liftedinit.billing.v1.QueryLeasesRequest.pagination"%string, VMessage (A_api_PageRequest (billingv1_QueryLeasesRequest_Pagination x)));
    (has_num (billingv1_QueryLeasesRequest_StateFilter x), "liftedinit.billing.v1.QueryLeasesRequest.state_filter"%string, VEnum (billingv1_QueryLeasesRequest_StateFilter x))] s).

Definition billingv1_QueryLeasesRequest_Has (p : option billingv1_QueryLeasesRequest) (fd : string) : res bool :=
  x ← deref p;
  match field_number billingv1_QueryLeasesRequest_fields fd with
  | 1 => Ok (not_nil (billingv1_QueryLeasesRequest_Pagination x))
  | 2 => Ok (has_num (billingv1_QueryLeasesRequest_StateFilter x))
  | _ => Panic
  end.

Definition billingv1_QueryLeasesRequest_Clear (p : option billingv1_QueryLeasesRequest) (fd : string) : res (option billingv1_QueryLeasesRequest) :=
  x ← deref p;
  let 'mk_billingv1_QueryLeasesRequest pagination stateFilter u := x in
  match field_number billingv1_QueryLeasesRequest_fields fd with
  | 1 => Ok (Some (mk_billingv1_QueryLeasesRequest None stateFilter u))
  | 2 => Ok (Some (mk_billingv1_QueryLeasesRequest pagination 0 u))
  | _ => Panic
  end.

Definition billingv1_QueryLeasesRequest_Get (p : option billingv1_QueryLeasesRequest) (fd : string) : res value :=
  x ← deref p;
  match field_number billingv1_QueryLeasesRequest_fields fd with
  | 1 => Ok (VMessage (A_api_PageRequest (billingv1_QueryLeasesRequest_Pagination x)))
  | 2 => Ok (VEnum (billingv1_QueryLeasesRequest_StateFilter x))
  | _ => Panic
  end.

Definition billingv1_QueryLeasesRequest_Set (p : option billingv1_QueryLeasesRequest) (fd : string) (value : value) : res (option billingv1_QueryLeasesRequest) :=
  x ← deref p;
  let 'mk_billingv1_QueryLeasesRequest pagination stateFilter u := x in
  match field_number billingv1_QueryLeasesRequest_fields fd with
  | 1 => v ← as_api_PageRequest value; Ok (Some (mk_billingv1_QueryLeasesRequest v stateFilter u))
  | 2 => v ← as_enum value; Ok (Some (mk_billingv1_QueryLeasesRequest pagination v u))
  | _ => Panic
  end.

Definition billingv1_QueryLeasesRequest_Mutable (p : option billingv1_QueryLeasesRequest) (fd : string) : res (option billingv1_QueryLeasesRequest * value) :=
  x ← deref p;
  let 'mk_billingv1_QueryLeasesRequest pagination stateFilter u := x in
  match field_number billingv1_QueryLeasesRequest_fields fd with
  | 1 => let v := match pagination with None => Some api_PageRequest_new | Some _ => pagination end in
      Ok (Some (mk_billingv1_QueryLeasesRequest v stateFilter u), VMessage (A_api_PageRequest v))
  | _ => Panic
  end.

Definition billingv1_QueryLeasesRequest_NewField (fd : string) : res value :=
  match field_number billingv1_QueryLeasesRequest_fields fd with
  | 1 => Ok (VMessage (A_api_PageRequest (Some api_PageRequest_new)))
  | 2 => Ok (VEnum 0)
  | _ => Panic
  end.

Definition billingv1_QueryLeasesRequest_GetUnknown (p : option billingv1_QueryLeasesRequest) : res bytes := x ← deref p; Ok (billingv1_QueryLeasesRequest_unknownFields x).

Definition billingv1_QueryLeasesRequest_SetUnknown (p : option billingv1_QueryLeasesRequest) (fields : bytes) : res (option billingv1_QueryLeasesRequest) :=
  x ← deref p;
  let 'mk_billingv1_QueryLeasesRequest pagination stateFilter _ := x in
  Ok (Some (mk_billingv1_QueryLeasesRequest pagination stateFilter fields)).

Definition billingv1_QueryLeasesRequest_GetPagination (p : option billingv1_QueryLeasesRequest) : option api_PageRequest := match p with Some x => billingv1_QueryLeasesRequest_Pagination x | None => None end.
Definition billingv1_QueryLeasesRequest_GetStateFilter (p : option billingv1_QueryLeasesRequest) : Z := match p with Some x => billingv1_QueryLeasesRequest_StateFilter x | None => 0 end.

Definition billingv1_QueryLeasesRequest_getters : list (string * (option billingv1_QueryLeasesRequest → value)) :=
  [("liftedinit.billing.v1.QueryLeasesRequest.pagination", λ p, VMessage (A_api_PageRequest (billingv1_QueryLeasesRequest_GetPagination p)));
   ("liftedinit.billing.v1.QueryLeasesRequest.state_filter", λ p, VEnum (billingv1_QueryLeasesRequest_GetStateFilter p))]%string.

Definition billingv1_QueryLeasesRequest_reflected : reflected :=
  mkReflected billingv1_QueryLeasesRequest billingv1_QueryLeasesRequest_fields billingv1_QueryLeasesRequest_Range
    billingv1_QueryLeasesRequest_Has billingv1_QueryLeasesRequest_Clear billingv1_QueryLeasesRequest_Get
    billingv1_QueryLeasesRequest_Set billingv1_QueryLeasesRequest_Mutable billingv1_QueryLeasesRequest_NewField
    billingv1_QueryLeasesRequest_new billingv1_QueryLeasesRequest_GetUnknown billingv1_QueryLeasesRequest_SetUnknown
    billingv1_QueryLeasesRequest_getters.

(** ** QueryLeasesResponse *)

Definition billingv1_QueryLeasesResponse_fields : list string :=
  ["liftedinit.billing.v1.QueryLeasesResponse.leases";
   "liftedinit.billing.v1.QueryLeasesResponse.pagination"]%string.

Definition billingv1_QueryLeasesResponse_Range (S : Type) (p : option billingv1_QueryLeasesResponse) (f : S → string → value → S * bool) (s : S) : res S :=
  x ← deref p;
  Ok (visit f
   [(has_list (billingv1_QueryLeasesResponse_Leases x), "liftedinit.billing.v1.QueryLeasesResponse.leases"%string, VList (L_billingv1_QueryLeasesResponse_1 (Some (billingv1_QueryLeasesResponse_Leases x))));
    (not_nil (billingv1_QueryLeasesResponse_Pagination x), "liftedinit.billing.v1.QueryLeasesResponse.pagination"%string, VMessage (A_api_PageResponse (billingv1_QueryLeasesResponse_Pagination x)))] s).

Definition billingv1_QueryLeasesResponse_Has (p : option billingv1_QueryLeasesResponse) (fd : string) : res bool :=
  x ← deref p;
  match field_number billingv1_QueryLeasesResponse_fields fd with
  | 1 => Ok (has_list (billingv1_QueryLeasesResponse_Leases x))
  | 2 => Ok (not_nil (billingv1_QueryLeasesResponse_Pagination x))
  | _ => Panic
  end.

Definition billingv1_QueryLeasesResponse_Clear (p : option billingv1_QueryLeasesResponse) (fd : string) : res (option billingv1_QueryLeasesResponse) :=
  x ← deref p;
  let 'mk_billingv1_QueryLeasesResponse leases pagination u := x in
  match field_number billingv1_QueryLeasesResponse_fields fd with
  | 1 => Ok (Some (mk_billingv1_QueryLeasesResponse [] pagination u))
  | 2 => Ok (Some (mk_billingv1_QueryLeasesResponse leases None u))
  | _ => Panic
  end.

Definition billingv1_QueryLeasesResponse_Get (p : option billingv1_QueryLeasesResponse) (fd : string) : res value :=
  x ← deref p;
  match field_number billingv1_QueryLeasesResponse_fields fd with
  | 1 => Ok (VList (L_billingv1_QueryLeasesResponse_1 (view (billingv1_QueryLeasesResponse_Leases x))))
  | 2 => Ok (VMessage (A_api_PageResponse (billingv1_QueryLeasesResponse_Pagination x)))
  | _ => Panic
  end.

Definition billingv1_QueryLeasesResponse_Set (p : option billingv1_QueryLeasesResponse) (fd : string) (value : value) : res (option billingv1_QueryLeasesResponse) :=
  x ← deref p;
  let 'mk_billingv1_QueryLeasesResponse leases pagination u := x in
  match field_number billingv1_QueryLeasesResponse_fields fd with
  | 1 => v ← as_L_billingv1_QueryLeasesResponse_1 value; Ok (Some (mk_billingv1_QueryLeasesResponse v pagination u))
  | 2 => v ← as_api_PageResponse value; Ok (Some (mk_billingv1_QueryLeasesResponse leases v u))
  | _ => Panic
  end.

Definition billingv1_QueryLeasesResponse_Mutable (p : option billingv1_QueryLeasesResponse) (fd : string) : res (option billingv1_QueryLeasesResponse * value) :=
  x ← deref p;
  let 'mk_billingv1_QueryLeasesResponse leases pagination u := x in
  match field_number billingv1_QueryLeasesResponse_fields fd with
  | 1 => Ok (Some x, VList (L_billingv1_QueryLeasesResponse_1 (Some leases)))
  | 2 => let v := match pagination with None => Some api_PageResponse_new | Some _ => pagination end in
      Ok (Some (mk_billingv1_QueryLeasesResponse leases v u), VMessage (A_api_PageResponse v))
  | _ => Panic
  end.

Definition billingv1_QueryLeasesResponse_NewField (fd : string) : res value :=
  match field_number billingv1_QueryLeasesResponse_fields fd with
  | 1 => Ok (VList (L_billingv1_QueryLeasesResponse_1 (Some [])))
  | 2 => Ok (VMessage (A_api_PageResponse (Some api_PageResponse_new)))
  | _ => Panic
  end.

Definition billingv1_QueryLeasesResponse_GetUnknown (p : option billingv1_QueryLeasesResponse) : res bytes := x ← deref p; Ok (billingv1_QueryLeasesResponse_unknownFields x).

Definition billingv1_QueryLeasesResponse_SetUnknown (p : option billingv1_QueryLeasesResponse) (fields : bytes) : res (option billingv1_QueryLeasesResponse) :=
  x ← deref p;
  let 'mk_billingv1_QueryLeasesResponse leases pagination _ := x in
  Ok (Some (mk_billingv1_QueryLeasesResponse leases pagination fields)).

Definition billingv1_QueryLeasesResponse_GetLeases (p : option billingv1_QueryLeasesResponse) : list (option billingv1_Lease) := match p with Some x => billingv1_QueryLeasesResponse_Leases x | None => [] end.
Definition billingv1_QueryLeasesResponse_GetPagination (p : option billingv1_QueryLeasesResponse) : option api_PageResponse := match p with Some x => billingv1_QueryLeasesResponse_Pagination x | None => None end.

Definition billingv1_QueryLeasesResponse_getters : list (string * (option billingv1_QueryLeasesResponse → value)) :=
  [("liftedinit.billing.v1.QueryLeasesResponse.leases", λ p, VList (L_billingv1_QueryLeasesResponse_1 (view (billingv1_QueryLeasesResponse_GetLeases p))));
   ("liftedinit.billing.v1.QueryLeasesResponse.pagination", λ p, VMessage (A_api_PageResponse (billingv1_QueryLeasesResponse_GetPagination p)))]%string.

Definition billingv1_QueryLeasesResponse_reflected : reflected :=
  mkReflected billingv1_QueryLeasesResponse billingv1_QueryLeasesResponse_fields billingv1_QueryLeasesResponse_Range
    billingv1_QueryLeasesResponse_Has billingv1_QueryLeasesResponse_Clear billingv1_QueryLeasesResponse_Get
    billingv1_QueryLeasesResponse_Set billingv1_QueryLeasesResponse_Mutable billingv1_QueryLeasesResponse_NewField
    billingv1_QueryLeasesResponse_new billingv1_QueryLeasesResponse_GetUnknown
    billingv1_QueryLeasesResponse_SetUnknown billingv1_QueryLeasesResponse_getters.

Definition billingv1_QueryLeasesResponse_1_list : list_methods (option billingv1_Lease) :=
  message_list as_billingv1_Lease A_billingv1_Lease billingv1_Lease_new.

(** ** QueryLeasesByTenantRequest *)

Definition billingv1_QueryLeasesByTenantRequest_fields : list string :=
  ["liftedinit.billing.v1.QueryLeasesByTenantRequest.tenant";
   "liftedinit.billing.v1.QueryLeasesByTenantRequest.pagination";
   "liftedinit.billing.v1.QueryLeasesByTenantRequest.state_filter"]%string.

Definition billingv1_QueryLeasesByTenantRequest_Range (S : Type) (p : option billingv1_QueryLeasesByTenantRequest) (f : S → string → value → S * bool) (s : S) : res S :=
  x ← deref p;
  Ok (visit f
   [(has_string (billingv1_QueryLeasesByTenantRequest_Tenant x), "liftedinit.billing.v1.QueryLeasesByTenantRequest.tenant"%string, VString (billingv1_QueryLeasesByTenantRequest_Tenant x));
    (not_nil (billingv1_QueryLeasesByTenantRequest_Pagination x), "liftedinit.billing.v1.QueryLeasesByTenantRequest.pagination"%string, VMessage (A_api_PageRequest (billingv1_QueryLeasesByTenantRequest_Pagination x)));
    (has_num (billingv1_QueryLeasesByTenantRequest_StateFilter x), "liftedinit.billing.v1.QueryLeasesByTenantRequest.state_filter"%string, VEnum (billingv1_QueryLeasesByTenantRequest_StateFilter x))] s).

Definition billingv1_QueryLeasesByTenantRequest_Has (p : option billingv1_QueryLeasesByTenantRequest) (fd : string) : res bool :=
  x ← deref p;
  match field_number billingv1_QueryLeasesByTenantRequest_fields fd with
  | 1 => Ok (has_string (billingv1_QueryLeasesByTenantRequest_Tenant x))
  | 2 => Ok (not_nil (billingv1_QueryLeasesByTenantRequest_Pagination x))
  | 3 => Ok (has_num (billingv1_QueryLeasesByTenantRequest_StateFilter x))
  | _ => Panic
  end.

Definition billingv1_QueryLeasesByTenantRequest_Clear (p : option billingv1_QueryLeasesByTenantRequest) (fd : string) : res (option billingv1_QueryLeasesByTenantRequest) :=
  x ← deref p;
  let 'mk_billingv1_QueryLeasesByTenantRequest tenant pagination stateFilter u := x in
  match field_number billingv1_QueryLeasesByTenantRequest_fields fd with
  | 1 => Ok (Some (mk_billingv1_QueryLeasesByTenantRequest "" pagination stateFilter u))
  | 2 => Ok (Some (mk_billingv1_QueryLeasesByTenantRequest tenant None stateFilter u))
  | 3 => Ok (Some (mk_billingv1_QueryLeasesByTenantRequest tenant pagination 0 u))
  | _ => Panic
  end.

Definition billingv1_QueryLeasesByTenantRequest_Get (p : option billingv1_QueryLeasesByTenantRequest) (fd : string) : res value :=
  x ← deref p;
  match field_number billingv1_QueryLeasesByTenantRequest_fields fd with
  | 1 => Ok (VString (billingv1_QueryLeasesByTenantRequest_Tenant x))
  | 2 => Ok (VMessage (A_api_PageRequest (billingv1_QueryLeasesByTenantRequest_Pagination x)))
  | 3 => Ok (VEnum (billingv1_QueryLeasesByTenantRequest_StateFilter x))
  | _ => Panic
  end.

Definition billingv1_QueryLeasesByTenantRequest_Set (p : option billingv1_QueryLeasesByTenantRequest) (fd : string) (value : value) : res (option billingv1_QueryLeasesByTenantRequest) :=
  x ← deref p;
  let 'mk_billingv1_QueryLeasesByTenantRequest tenant pagination stateFilter u := x in
  match field_number billingv1_QueryLeasesByTenantRequest_fields fd with
  | 1 => v ← as_string value; Ok (Some (mk_billingv1_QueryLeasesByTenantRequest v pagination stateFilter u))
  | 2 => v ← as_api_PageRequest value; Ok (Some (mk_billingv1_QueryLeasesByTenantRequest tenant v stateFilter u))
  | 3 => v ← as_enum value; Ok (Some (mk_billingv1_QueryLeasesByTenantRequest tenant pagination v u))
  | _ => Panic
  end.

Definition billingv1_QueryLeasesByTenantRequest_Mutable (p : option billingv1_QueryLeasesByTenantRequest) (fd : string) : res (option billingv1_QueryLeasesByTenantRequest * value) :=
  x ← deref p;
  let 'mk_billingv1_QueryLeasesByTenantRequest tenant pagination stateFilter u := x in
  match field_number billingv1_QueryLeasesByTenantRequest_fields fd with
  | 2 => let v := match pagination with None => Some api_PageRequest_new | Some _ => pagination end in
      Ok (Some (mk_billingv1_QueryLeasesByTenantRequest tenant v stateFilter u), VMessage (A_api_PageRequest v))
  | _ => Panic
  end.

Definition billingv1_QueryLeasesByTenantRequest_NewField (fd : string) : res value :=
  match field_number billingv1_QueryLeasesByTenantRequest_fields fd with
  | 1 => Ok (VString "")
  | 2 => Ok (VMessage (A_api_PageRequest (Some api_PageRequest_new)))
  | 3 => Ok (VEnum 0)
  | _ => Panic
  end.

Definition billingv1_QueryLeasesByTenantRequest_GetUnknown (p : option billingv1_QueryLeasesByTenantRequest) : res bytes := x ← deref p; Ok (billingv1_QueryLeasesByTenantRequest_unknownFields x).

Definition billingv1_QueryLeasesByTenantRequest_SetUnknown (p : option billingv1_QueryLeasesByTenantRequest) (fields : bytes) : res (option billingv1_QueryLeasesByTenantRequest) :=
  x ← deref p;
  let 'mk_billingv1_QueryLeasesByTenantRequest tenant pagination stateFilter _ := x in
  Ok (Some (mk_billingv1_QueryLeasesByTenantRequest tenant pagination stateFilter fields)).

Definition billingv1_QueryLeasesByTenantRequest_GetTenant (p : option billingv1_QueryLeasesByTenantRequest) : string := match p with Some x => billingv1_QueryLeasesByTenantRequest_Tenant x | None => "" end.
Definition billingv1_QueryLeasesByTenantRequest_GetPagination (p : option billingv1_QueryLeasesByTenantRequest) : option api_PageRequest := match p with Some x => billingv1_QueryLeasesByTenantRequest_Pagination x | None => None end.
Definition billingv1_QueryLeasesByTenantRequest_GetStateFilter (p : option billingv1_QueryLeasesByTenantRequest) : Z := match p with Some x => billingv1_QueryLeasesByTenantRequest_StateFilter x | None => 0 end.

Definition billingv1_QueryLeasesByTenantRequest_getters : list (string * (option billingv1_QueryLeasesByTenantRequest → value)) :=
  [("liftedinit.billing.v1.QueryLeasesByTenantRequest.tenant", λ p, VString (billingv1_QueryLeasesByTenantRequest_GetTenant p));
   ("liftedinit.billing.v1.QueryLeasesByTenantRequest.pagination", λ p, VMessage (A_api_PageRequest (billingv1_QueryLeasesByTenantRequest_GetPagination p)));
   ("liftedinit.billing.v1.QueryLeasesByTenantRequest.state_filter", λ p, VEnum (billingv1_QueryLeasesByTenantRequest_GetStateFilter p))]%string.

Definition billingv1_QueryLeasesByTenantRequest_reflected : reflected :=
  mkReflected billingv1_QueryLeasesByTenantRequest billingv1_QueryLeasesByTenantRequest_fields
    billingv1_QueryLeasesByTenantRequest_Range billingv1_QueryLeasesByTenantRequest_Has
    billingv1_QueryLeasesByTenantRequest_Clear billingv1_QueryLeasesByTenantRequest_Get
    billingv1_QueryLeasesByTenantRequest_Set billingv1_QueryLeasesByTenantRequest_Mutable
    billingv1_QueryLeasesByTenantRequest_NewField billingv1_QueryLeasesByTenantRequest_new
    billingv1_QueryLeasesByTenantRequest_GetUnknown billingv1_QueryLeasesByTenantRequest_SetUnknown
    billingv1_QueryLeasesByTenantRequest_getters.

(** ** QueryLeasesByTenantResponse *)

Definition billingv1_QueryLeasesByTenantResponse_fields : list string :=
  ["liftedinit.billing.v1.QueryLeasesByTenantResponse.leases";
   "liftedinit.billing.v1.QueryLeasesByTenantResponse.pagination"]%string.

Definition billingv1_QueryLeasesByTenantResponse_Range (S : Type) (p : option billingv1_QueryLeasesByTenantResponse) (f : S → string → value → S * bool) (s : S) : res S :=
  x ← deref p;
  Ok (visit f
   [(has_list (billingv1_QueryLeasesByTenantResponse_Leases x), "liftedinit.billing.v1.QueryLeasesByTenantResponse.leases"%string, VList (L_billingv1_QueryLeasesByTenantResponse_1 (Some (billingv1_QueryLeasesByTenantResponse_Leases x))));
    (not_nil (billingv1_QueryLeasesByTenantResponse_Pagination x), "liftedinit.billing.v1.QueryLeasesByTenantResponse.pagination"%string, VMessage (A_api_PageResponse (billingv1_QueryLeasesByTenantResponse_Pagination x)))] s).

Definition billingv1_QueryLeasesByTenantResponse_Has (p : option billingv1_QueryLeasesByTenantResponse) (fd : string) : res bool :=
  x ← deref p;
  match field_number billingv1_QueryLeasesByTenantResponse_fields fd with
  | 1 => Ok (has_list (billingv1_QueryLeasesByTenantResponse_Leases x))
  | 2 => Ok (not_nil (billingv1_QueryLeasesByTenantResponse_Pagination x))
  | _ => Panic
  end.

Definition billingv1_QueryLeasesByTenantResponse_Clear (p : option billingv1_QueryLeasesByTenantResponse) (fd : string) : res (option billingv1_QueryLeasesByTenantResponse) :=
  x ← deref p;
  let 'mk_billingv1_QueryLeasesByTenantResponse leases pagination u := x in
  match field_number billingv1_QueryLeasesByTenantResponse_fields fd with
  | 1 => Ok (Some (mk_billingv1_QueryLeasesByTenantResponse [] pagination u))
  | 2 => Ok (Some (mk_billingv1_QueryLeasesByTenantResponse leases None u))
  | _ => Panic
  end.

Definition billingv1_QueryLeasesByTenantResponse_Get (p : option billingv1_QueryLeasesByTenantResponse) (fd : string) : res value :=
  x ← deref p;
  match field_number billingv1_QueryLeasesByTenantResponse_fields fd with
  | 1 => Ok (VList (L_billingv1_QueryLeasesByTenantResponse_1 (view (billingv1_QueryLeasesByTenantResponse_Leases x))))
  | 2 => Ok (VMessage (A_api_PageResponse (billingv1_QueryLeasesByTenantResponse_Pagination x)))
  | _ => Panic
  end.

Definition billingv1_QueryLeasesByTenantResponse_Set (p : option billingv1_QueryLeasesByTenantResponse) (fd : string) (value : value) : res (option billingv1_QueryLeasesByTenantResponse) :=
  x ← deref p;
  let 'mk_billingv1_QueryLeasesByTenantResponse leases pagination u := x in
  match field_number billingv1_QueryLeasesByTenantResponse_fields fd with
  | 1 => v ← as_L_billingv1_QueryLeasesByTenantResponse_1 value; Ok (Some (mk_billingv1_QueryLeasesByTenantResponse v pagination u))
  | 2 => v ← as_api_PageResponse value; Ok (Some (mk_billingv1_QueryLeasesByTenantResponse leases v u))
  | _ => Panic
  end.

Definition billingv1_QueryLeasesByTenantResponse_Mutable (p : option billingv1_QueryLeasesByTenantResponse) (fd : string) : res (option billingv1_QueryLeasesByTenantResponse * value) :=
  x ← deref p;
  let 'mk_billingv1_QueryLeasesByTenantResponse leases pagination u := x in
  match field_number billingv1_QueryLeasesByTenantResponse_fields fd with
  | 1 => Ok (Some x, VList (L_billingv1_QueryLeasesByTenantResponse_1 (Some leases)))
  | 2 => let v := match pagination with None => Some api_PageResponse_new | Some _ => pagination end in
      Ok (Some (mk_billingv1_QueryLeasesByTenantResponse leases v u), VMessage (A_api_PageResponse v))
  | _ => Panic
  end.

Definition billingv1_QueryLeasesByTenantResponse_NewField (fd : string) : res value :=
  match field_number billingv1_QueryLeasesByTenantResponse_fields fd with
  | 1 => Ok (VList (L_billingv1_QueryLeasesByTenantResponse_1 (Some [])))
  | 2 => Ok (VMessage (A_api_PageResponse (Some api_PageResponse_new)))
  | _ => Panic
  end.

Definition billingv1_QueryLeasesByTenantResponse_GetUnknown (p : option billingv1_QueryLeasesByTenantResponse) : res bytes := x ← deref p; Ok (billingv1_QueryLeasesByTenantResponse_unknownFields x).

Definition billingv1_QueryLeasesByTenantResponse_SetUnknown (p : option billingv1_QueryLeasesByTenantResponse) (fields : bytes) : res (option billingv1_QueryLeasesByTenantResponse) :=
  x ← deref p;
  let 'mk_billingv1_QueryLeasesByTenantResponse leases pagination _ := x in
  Ok (Some (mk_billingv1_QueryLeasesByTenantResponse leases pagination fields)).

Definition billingv1_QueryLeasesByTenantResponse_GetLeases (p : option billingv1_QueryLeasesByTenantResponse) : list (option billingv1_Lease) := match p with Some x => billingv1_QueryLeasesByTenantResponse_Leases x | None => [] end.
Definition billingv1_QueryLeasesByTenantResponse_GetPagination (p : option billingv1_QueryLeasesByTenantResponse) : option api_PageResponse := match p with Some x => billingv1_QueryLeasesByTenantResponse_Pagination x | None => None end.

Definition billingv1_QueryLeasesByTenantResponse_getters : list (string * (option billingv1_QueryLeasesByTenantResponse → value)) :=
  [("liftedinit.billing.v1.QueryLeasesByTenantResponse.leases", λ p, VList (L_billingv1_QueryLeasesByTenantResponse_1 (view (billingv1_QueryLeasesByTenantResponse_GetLeases p))));
   ("liftedinit.billing.v1.QueryLeasesByTenantResponse.pagination", λ p, VMessage (A_api_PageResponse (billingv1_QueryLeasesByTenantResponse_GetPagination p)))]%string.

Definition billingv1_QueryLeasesByTenantResponse_reflected : reflected :=
  mkReflected billingv1_QueryLeasesByTenantResponse billingv1_QueryLeasesByTenantResponse_fields
    billingv1_QueryLeasesByTenantResponse_Range billingv1_QueryLeasesByTenantResponse_Has
    billingv1_QueryLeasesByTenantResponse_Clear billingv1_QueryLeasesByTenantResponse_Get
    billingv1_QueryLeasesByTenantResponse_Set billingv1_QueryLeasesByTenantResponse_Mutable
    billingv1_QueryLeasesByTenantResponse_NewField billingv1_QueryLeasesByTenantResponse_new
    billingv1_QueryLeasesByTenantResponse_GetUnknown billingv1_QueryLeasesByTenantResponse_SetUnknown
    billingv1_QueryLeasesByTenantResponse_getters.

Definition billingv1_QueryLeasesByTenantResponse_1_list : list_methods (option billingv1_Lease) :=
  message_list as_billingv1_Lease A_billingv1_Lease billingv1_Lease_new.

(** ** QueryLeasesByProviderRequest *)

Definition billingv1_QueryLeasesByProviderRequest_fields : list string :=
  ["liftedinit.billing.v1.QueryLeasesByProviderRequest.provider_uuid";
   "liftedinit.billing.v1.QueryLeasesByProviderRequest.pagination";
   "liftedinit.billing.v1.QueryLeasesByProviderRequest.state_filter"]%string.

Definition billingv1_QueryLeasesByProviderRequest_Range (S : Type) (p : option billingv1_QueryLeasesByProviderRequest) (f : S → string → value → S * bool) (s : S) : res S :=
  x ← deref p;
  Ok (visit f
   [(has_string (billingv1_QueryLeasesByProviderRequest_ProviderUuid x), "liftedinit.billing.v1.QueryLeasesByProviderRequest.provider_uuid"%string, VString (billingv1_QueryLeasesByProviderRequest_ProviderUuid x));
    (not_nil (billingv1_QueryLeasesByProviderRequest_Pagination x), "liftedinit.billing.v1.QueryLeasesByProviderRequest.pagination"%string, VMessage (A_api_PageRequest (billingv1_QueryLeasesByProviderRequest_Pagination x)));
    (has_num (billingv1_QueryLeasesByProviderRequest_StateFilter x), "liftedinit.billing.v1.QueryLeasesByProviderRequest.state_filter"%string, VEnum (billingv1_QueryLeasesByProviderRequest_StateFilter x))] s).

Definition billingv1_QueryLeasesByProviderRequest_Has (p : option billingv1_QueryLeasesByProviderRequest) (fd : string) : res bool :=
  x ← deref p;
  match field_number billingv1_QueryLeasesByProviderRequest_fields fd with
  | 1 => Ok (has_string (billingv1_QueryLeasesByProviderRequest_ProviderUuid x))
  | 2 => Ok (not_nil (billingv1_QueryLeasesByProviderRequest_Pagination x))
  | 3 => Ok (has_num (billingv1_QueryLeasesByProviderRequest_StateFilter x))
  | _ => Panic
  end.

Definition billingv1_QueryLeasesByProviderRequest_Clear (p : option billingv1_QueryLeasesByProviderRequest) (fd : string) : res (option billingv1_QueryLeasesByProviderRequest) :=
  x ← deref p;
  let 'mk_billingv1_QueryLeasesByProviderRequest providerUuid pagination stateFilter u := x in
  match field_number billingv1_QueryLeasesByProviderRequest_fields fd with
  | 1 => Ok (Some (mk_billingv1_QueryLeasesByProviderRequest "" pagination stateFilter u))
  | 2 => Ok (Some (mk_billingv1_QueryLeasesByProviderRequest providerUuid None stateFilter u))
  | 3 => Ok (Some (mk_billingv1_QueryLeasesByProviderRequest providerUuid pagination 0 u))
  | _ => Panic
  end.

Definition billingv1_QueryLeasesByProviderRequest_Get (p : option billingv1_QueryLeasesByProviderRequest) (fd : string) : res value :=
  x ← deref p;
  match field_number billingv1_QueryLeasesByProviderRequest_fields fd with
  | 1 => Ok (VString (billingv1_QueryLeasesByProviderRequest_ProviderUuid x))
  | 2 => Ok (VMessage (A_api_PageRequest (billingv1_QueryLeasesByProviderRequest_Pagination x)))
  | 3 => Ok (VEnum (billingv1_QueryLeasesByProviderRequest_StateFilter x))
  | _ => Panic
  end.

Definition billingv1_QueryLeasesByProviderRequest_Set (p : option billingv1_QueryLeasesByProviderRequest) (fd : string) (value : value) : res (option billingv1_QueryLeasesByProviderRequest) :=
  x ← deref p;
  let 'mk_billingv1_QueryLeasesByProviderRequest providerUuid pagination stateFilter u := x in
  match field_number billingv1_QueryLeasesByProviderRequest_fields fd with
  | 1 => v ← as_string value; Ok (Some (mk_billingv1_QueryLeasesByProviderRequest v pagination stateFilter u))
  | 2 => v ← as_api_PageRequest value; Ok (Some (mk_billingv1_QueryLeasesByProviderRequest providerUuid v stateFilter u))
  | 3 => v ← as_enum value; Ok (Some (mk_billingv1_QueryLeasesByProviderRequest providerUuid pagination v u))
  | _ => Panic
  end.

Definition billingv1_QueryLeasesByProviderRequest_Mutable (p : option billingv1_QueryLeasesByProviderRequest) (fd : string) : res (option billingv1_QueryLeasesByProviderRequest * value) :=
  x ← deref p;
  let 'mk_billingv1_QueryLeasesByProviderRequest providerUuid pagination stateFilter u := x in
  match field_number billingv1_QueryLeasesByProviderRequest_fields fd with
  | 2 => let v := match pagination with None => Some api_PageRequest_new | Some _ => pagination end in
      Ok (Some (mk_billingv1_QueryLeasesByProviderRequest providerUuid v stateFilter u), VMessage (A_api_PageRequest v))
  | _ => Panic
  end.

Definition billingv1_QueryLeasesByProviderRequest_NewField (fd : string) : res value :=
  match field_number billingv1_QueryLeasesByProviderRequest_fields fd with
  | 1 => Ok (VString "")
  | 2 => Ok (VMessage (A_api_PageRequest (Some api_PageRequest_new)))
  | 3 => Ok (VEnum 0)
  | _ => Panic
  end.

Definition billingv1_QueryLeasesByProviderRequest_GetUnknown (p : option billingv1_QueryLeasesByProviderRequest) : res bytes := x ← deref p; Ok (billingv1_QueryLeasesByProviderRequest_unknownFields x).

Definition billingv1_QueryLeasesByProviderRequest_SetUnknown (p : option billingv1_QueryLeasesByProviderRequest) (fields : bytes) : res (option billingv1_QueryLeasesByProviderRequest) :=
  x ← deref p;
  let 'mk_billingv1_QueryLeasesByProviderRequest providerUuid pagination stateFilter _ := x in
  Ok (Some (mk_billingv1_QueryLeasesByProviderRequest providerUuid pagination stateFilter fields)).

Definition billingv1_QueryLeasesByProviderRequest_GetProviderUuid (p : option billingv1_QueryLeasesByProviderRequest) : string := match p with Some x => billingv1_QueryLeasesByProviderRequest_ProviderUuid x | None => "" end.
Definition billingv1_QueryLeasesByProviderRequest_GetPagination (p : option billingv1_QueryLeasesByProviderRequest) : option api_PageRequest := match p with Some x => billingv1_QueryLeasesByProviderRequest_Pagination x | None => None end.
Definition billingv1_QueryLeasesByProviderRequest_GetStateFilter (p : option billingv1_QueryLeasesByProviderRequest) : Z := match p with Some x => billingv1_QueryLeasesByProviderRequest_StateFilter x | None => 0 end.

Definition billingv1_QueryLeasesByProviderRequest_getters : list (string * (option billingv1_QueryLeasesByProviderRequest → value)) :=
  [("liftedinit.billing.v1.QueryLeasesByProviderRequest.provider_uuid", λ p, VString (billingv1_QueryLeasesByProviderRequest_GetProviderUuid p));
   ("liftedinit.billing.v1.QueryLeasesByProviderRequest.pagination", λ p, VMessage (A_api_PageRequest (billingv1_QueryLeasesByProviderRequest_GetPagination p)));
   ("liftedinit.billing.v1.QueryLeasesByProviderRequest.state_filter", λ p, VEnum (billingv1_QueryLeasesByProviderRequest_GetStateFilter p))]%string.

Definition billingv1_QueryLeasesByProviderRequest_reflected : reflected :=
  mkReflected billingv1_QueryLeasesByProviderRequest billingv1_QueryLeasesByProviderRequest_fields
    billingv1_QueryLeasesByProviderRequest_Range billingv1_QueryLeasesByProviderRequest_Has
    billingv1_QueryLeasesByProviderRequest_Clear billingv1_QueryLeasesByProviderRequest_Get
    billingv1_QueryLeasesByProviderRequest_Set billingv1_QueryLeasesByProviderRequest_Mutable
    billingv1_QueryLeasesByProviderRequest_NewField billingv1_QueryLeasesByProviderRequest_new
    billingv1_QueryLeasesByProviderRequest_GetUnknown billingv1_QueryLeasesByProviderRequest_SetUnknown
    billingv1_QueryLeasesByProviderRequest_getters.

(** ** QueryLeasesByProviderResponse *)

Definition billingv1_QueryLeasesByProviderResponse_fields : list string :=
  ["liftedinit.billing.v1.QueryLeasesByProviderResponse.leases";
   "liftedinit.billing.v1.QueryLeasesByProviderResponse.pagination"]%string.

Definition billingv1_QueryLeasesByProviderResponse_Range (S : Type) (p : option billingv1_QueryLeasesByProviderResponse) (f : S → string → value → S * bool) (s : S) : res S :=
  x ← deref p;
  Ok (visit f
   [(has_list (billingv1_QueryLeasesByProviderResponse_Leases x), "liftedinit.billing.v1.QueryLeasesByProviderResponse.leases"%string, VList (L_billingv1_QueryLeasesByProviderResponse_1 (Some (billingv1_QueryLeasesByProviderResponse_Leases x))));
    (not_nil (billingv1_QueryLeasesByProviderResponse_Pagination x), "liftedinit.billing.v1.QueryLeasesByProviderResponse.pagination"%string, VMessage (A_api_PageResponse (billingv1_QueryLeasesByProviderResponse_Pagination x)))] s).

Definition billingv1_QueryLeasesByProviderResponse_Has (p : option billingv1_QueryLeasesByProviderResponse) (fd : string) : res bool :=
  x ← deref p;
  match field_number billingv1_QueryLeasesByProviderResponse_fields fd with
  | 1 => Ok (has_list (billingv1_QueryLeasesByProviderResponse_Leases x))
  | 2 => Ok (not_nil (billingv1_QueryLeasesByProviderResponse_Pagination x))
  | _ => Panic
  end.

Definition billingv1_QueryLeasesByProviderResponse_Clear (p : option billingv1_QueryLeasesByProviderResponse) (fd : string) : res (option billingv1_QueryLeasesByProviderResponse) :=
  x ← deref p;
  let 'mk_billingv1_QueryLeasesByProviderResponse leases pagination u := x in
  match field_number billingv1_QueryLeasesByProviderResponse_fields fd with
  | 1 => Ok (Some (mk_billingv1_QueryLeasesByProviderResponse [] pagination u))
  | 2 => Ok (Some (mk_billingv1_QueryLeasesByProviderResponse leases None u))
  | _ => Panic
  end.

Definition billingv1_QueryLeasesByProviderResponse_Get (p : option billingv1_QueryLeasesByProviderResponse) (fd : string) : res value :=
  x ← deref p;
  match field_number billingv1_QueryLeasesByProviderResponse_fields fd with
  | 1 => Ok (VList (L_billingv1_QueryLeasesByProviderResponse_1 (view (billingv1_QueryLeasesByProviderResponse_Leases x))))
  | 2 => Ok (VMessage (A_api_PageResponse (billingv1_QueryLeasesByProviderResponse_Pagination x)))
  | _ => Panic
  end.

Definition billingv1_QueryLeasesByProviderResponse_Set (p : option billingv1_QueryLeasesByProviderResponse) (fd : string) (value : value) : res (option billingv1_QueryLeasesByProviderResponse) :=
  x ← deref p;
  let 'mk_billingv1_QueryLeasesByProviderResponse leases pagination u := x in
  match field_number billingv1_QueryLeasesByProviderResponse_fields fd with
  | 1 => v ← as_L_billingv1_QueryLeasesByProviderResponse_1 value; Ok (Some (mk_billingv1_QueryLeasesByProviderResponse v pagination u))
  | 2 => v ← as_api_PageResponse value; Ok (Some (mk_billingv1_QueryLeasesByProviderResponse leases v u))
  | _ => Panic
  end.

Definition billingv1_QueryLeasesByProviderResponse_Mutable (p : option billingv1_QueryLeasesByProviderResponse) (fd : string) : res (option billingv1_QueryLeasesByProviderResponse * value) :=
  x ← deref p;
  let 'mk_billingv1_QueryLeasesByProviderResponse leases pagination u := x in
  match field_number billingv1_QueryLeasesByProviderResponse_fields fd with
  | 1 => Ok (Some x, VList (L_billingv1_QueryLeasesByProviderResponse_1 (Some leases)))
  | 2 => let v := match pagination with None => Some api_PageResponse_new | Some _ => pagination end in
      Ok (Some (mk_billingv1_QueryLeasesByProviderResponse leases v u), VMessage (A_api_PageResponse v))
  | _ => Panic
  end.

Definition billingv1_QueryLeasesByProviderResponse_NewField (fd : string) : res value :=
  match field_number billingv1_QueryLeasesByProviderResponse_fields fd with
  | 1 => Ok (VList (L_billingv1_QueryLeasesByProviderResponse_1 (Some [])))
  | 2 => Ok (VMessage (A_api_PageResponse (Some api_PageResponse_new)))
  | _ => Panic
  end.

Definition billingv1_QueryLeasesByProviderResponse_GetUnknown (p : option billingv1_QueryLeasesByProviderResponse) : res bytes := x ← deref p; Ok (billingv1_QueryLeasesByProviderResponse_unknownFields x).

Definition billingv1_QueryLeasesByProviderResponse_SetUnknown (p : option billingv1_QueryLeasesByProviderResponse) (fields : bytes) : res (option billingv1_QueryLeasesByProviderResponse) :=
  x ← deref p;
  let 'mk_billingv1_QueryLeasesByProviderResponse leases pagination _ := x in
  Ok (Some (mk_billingv1_QueryLeasesByProviderResponse leases pagination fields)).

Definition billingv1_QueryLeasesByProviderResponse_GetLeases (p : option billingv1_QueryLeasesByProviderResponse) : list (option billingv1_Lease) := match p with Some x => billingv1_QueryLeasesByProviderResponse_Leases x | None => [] end.
Definition billingv1_QueryLeasesByProviderResponse_GetPagination (p : option billingv1_QueryLeasesByProviderResponse) : option api_PageResponse := match p with Some x => billingv1_QueryLeasesByProviderResponse_Pagination x | None => None end.

Definition billingv1_QueryLeasesByProviderResponse_getters : list (string * (option billingv1_QueryLeasesByProviderResponse → value)) :=
  [("liftedinit.billing.v1.QueryLeasesByProviderResponse.leases", λ p, VList (L_billingv1_QueryLeasesByProviderResponse_1 (view (billingv1_QueryLeasesByProviderResponse_GetLeases p))));
   ("liftedinit.billing.v1.QueryLeasesByProviderResponse.pagination", λ p, VMessage (A_api_PageResponse (billingv1_QueryLeasesByProviderResponse_GetPagination p)))]%string.

Definition billingv1_QueryLeasesByProviderResponse_reflected : reflected :=
  mkReflected billingv1_QueryLeasesByProviderResponse billingv1_QueryLeasesByProviderResponse_fields
    billingv1_QueryLeasesByProviderResponse_Range billingv1_QueryLeasesByProviderResponse_Has
    billingv1_QueryLeasesByProviderResponse_Clear billingv1_QueryLeasesByProviderResponse_Get
    billingv1_QueryLeasesByProviderResponse_Set billingv1_QueryLeasesByProviderResponse_Mutable
    billingv1_QueryLeasesByProviderResponse_NewField billingv1_QueryLeasesByProviderResponse_new
    billingv1_QueryLeasesByProviderResponse_GetUnknown billingv1_QueryLeasesByProviderResponse_SetUnknown
    billingv1_QueryLeasesByProviderResponse_getters.

Definition billingv1_QueryLeasesByProviderResponse_1_list : list_methods (option billingv1_Lease) :=
  message_list as_billingv1_Lease A_billingv1_Lease billingv1_Lease_new.

(** ** QueryCreditAccountRequest *)

Definition billingv1_QueryCreditAccountRequest_fields : list string :=
  ["liftedinit.billing.v1.QueryCreditAccountRequest.tenant"]%string.

Definition billingv1_QueryCreditAccountRequest_Range (S : Type) (p : option billingv1_QueryCreditAccountRequest) (f : S → string → value → S * bool) (s : S) : res S :=
  x ← deref p;
  Ok (visit f
   [(has_string (billingv1_QueryCreditAccountRequest_Tenant x), "liftedinit.billing.v1.QueryCreditAccountRequest.tenant"%string, VString (billingv1_QueryCreditAccountRequest_Tenant x))] s).

Definition billingv1_QueryCreditAccountRequest_Has (p : option billingv1_QueryCreditAccountRequest) (fd : string) : res bool :=
  x ← deref p;
  match field_number billingv1_QueryCreditAccountRequest_fields fd with
  | 1 => Ok (has_string (billingv1_QueryCreditAccountRequest_Tenant x))
  | _ => Panic
  end.

Definition billingv1_QueryCreditAccountRequest_Clear (p : option billingv1_QueryCreditAccountRequest) (fd : string) : res (option billingv1_QueryCreditAccountRequest) :=
  x ← deref p;
  let 'mk_billingv1_QueryCreditAccountRequest tenant u := x in
  match field_number billingv1_QueryCreditAccountRequest_fields fd with
  | 1 => Ok (Some (mk_billingv1_QueryCreditAccountRequest "" u))
  | _ => Panic
  end.

Definition billingv1_QueryCreditAccountRequest_Get (p : option billingv1_QueryCreditAccountRequest) (fd : string) : res value :=
  x ← deref p;
  match field_number billingv1_QueryCreditAccountRequest_fields fd with
  | 1 => Ok (VString (billingv1_QueryCreditAccountRequest_Tenant x))
  | _ => Panic
  end.

Definition billingv1_QueryCreditAccountRequest_Set (p : option billingv1_QueryCreditAccountRequest) (fd : string) (value : value) : res (option billingv1_QueryCreditAccountRequest) :=
  x ← deref p;
  let 'mk_billingv1_QueryCreditAccountRequest tenant u := x in
  match field_number billingv1_QueryCreditAccountRequest_fields fd with
  | 1 => v ← as_string value; Ok (Some (mk_billingv1_QueryCreditAccountRequest v u))
  | _ => Panic
  end.

Definition billingv1_QueryCreditAccountRequest_Mutable (p : option billingv1_QueryCreditAccountRequest) (fd : string) : res (option billingv1_QueryCreditAccountRequest * value) := Panic.

Definition billingv1_QueryCreditAccountRequest_NewField (fd : string) : res value :=
  match field_number billingv1_QueryCreditAccountRequest_fields fd with
  | 1 => Ok (VString "")
  | _ => Panic
  end.

Definition billingv1_QueryCreditAccountRequest_GetUnknown (p : option billingv1_QueryCreditAccountRequest) : res bytes := x ← deref p; Ok (billingv1_QueryCreditAccountRequest_unknownFields x).

Definition billingv1_QueryCreditAccountRequest_SetUnknown (p : option billingv1_QueryCreditAccountRequest) (fields : bytes) : res (option billingv1_QueryCreditAccountRequest) :=
  x ← deref p;
  let 'mk_billingv1_QueryCreditAccountRequest tenant _ := x in
  Ok (Some (mk_billingv1_QueryCreditAccountRequest tenant fields)).

Definition billingv1_QueryCreditAccountRequest_GetTenant (p : option billingv1_QueryCreditAccountRequest) : string := match p with Some x => billingv1_QueryCreditAccountRequest_Tenant x | None => "" end.

Definition billingv1_QueryCreditAccountRequest_getters : list (string * (option billingv1_QueryCreditAccountRequest → value)) :=
  [("liftedinit.billing.v1.QueryCreditAccountRequest.tenant", λ p, VString (billingv1_QueryCreditAccountRequest_GetTenant p))]%string.

Definition billingv1_QueryCreditAccountRequest_reflected : reflected :=
  mkReflected billingv1_QueryCreditAccountRequest billingv1_QueryCreditAccountRequest_fields
    billingv1_QueryCreditAccountRequest_Range billingv1_QueryCreditAccountRequest_Has
    billingv1_QueryCreditAccountRequest_Clear billingv1_QueryCreditAccountRequest_Get
    billingv1_QueryCreditAccountRequest_Set billingv1_QueryCreditAccountRequest_Mutable
    billingv1_QueryCreditAccountRequest_NewField billingv1_QueryCreditAccountRequest_new
    billingv1_QueryCreditAccountRequest_GetUnknown billingv1_QueryCreditAccountRequest_SetUnknown
    billingv1_QueryCreditAccountRequest_getters.

(** ** QueryCreditAccountResponse *)

Definition billingv1_QueryCreditAccountResponse_fields : list string :=
  ["liftedinit.billing.v1.QueryCreditAccountResponse.credit_account";
   "liftedinit.billing.v1.QueryCreditAccountResponse.balances";
   "liftedinit.billing.v1.QueryCreditAccountResponse.available_balances"]%string.

Definition billingv1_QueryCreditAccountResponse_Range (S : Type) (p : option billingv1_QueryCreditAccountResponse) (f : S → string → value → S * bool) (s : S) : res S :=
  x ← deref p;
  Ok (visit f
   [(not_nil (billingv1_QueryCreditAccountResponse_CreditAccount x), "liftedinit.billing.v1.QueryCreditAccountResponse.credit_account"%string, VMessage (A_billingv1_CreditAccount (billingv1_QueryCreditAccountResponse_CreditAccount x)));
    (has_list (billingv1_QueryCreditAccountResponse_Balances x), "liftedinit.billing.v1.QueryCreditAccountResponse.balances"%string, VList (L_billingv1_QueryCreditAccountResponse_2 (Some (billingv1_QueryCreditAccountResponse_Balances x))));
    (has_list (billingv1_QueryCreditAccountResponse_AvailableBalances x), "liftedinit.billing.v1.QueryCreditAccountResponse.available_balances"%string, VList (L_billingv1_QueryCreditAccountResponse_3 (Some (billingv1_QueryCreditAccountResponse_AvailableBalances x))))] s).

Definition billingv1_QueryCreditAccountResponse_Has (p : option billingv1_QueryCreditAccountResponse) (fd : string) : res bool :=
  x ← deref p;
  match field_number billingv1_QueryCreditAccountResponse_fields fd with
  | 1 => Ok (not_nil (billingv1_QueryCreditAccountResponse_CreditAccount x))
  | 2 => Ok (has_list (billingv1_QueryCreditAccountResponse_Balances x))
  | 3 => Ok (has_list (billingv1_QueryCreditAccountResponse_AvailableBalances x))
  | _ => Panic
  end.

Definition billingv1_QueryCreditAccountResponse_Clear (p : option billingv1_QueryCreditAccountResponse) (fd : string) : res (option billingv1_QueryCreditAccountResponse) :=
  x ← deref p;
  let 'mk_billingv1_QueryCreditAccountResponse creditAccount balances availableBalances u := x in
  match field_number billingv1_QueryCreditAccountResponse_fields fd with
  | 1 => Ok (Some (mk_billingv1_QueryCreditAccountResponse None balances availableBalances u))
  | 2 => Ok (Some (mk_billingv1_QueryCreditAccountResponse creditAccount [] availableBalances u))
  | 3 => Ok (Some (mk_billingv1_QueryCreditAccountResponse creditAccount balances [] u))
  | _ => Panic
  end.

Definition billingv1_QueryCreditAccountResponse_Get (p : option billingv1_QueryCreditAccountResponse) (fd : string) : res value :=
  x ← deref p;
  match field_number billingv1_QueryCreditAccountResponse_fields fd with
  | 1 => Ok (VMessage (A_billingv1_CreditAccount (billingv1_QueryCreditAccountResponse_CreditAccount x)))
  | 2 => Ok (VList (L_billingv1_QueryCreditAccountResponse_2 (view (billingv1_QueryCreditAccountResponse_Balances x))))
  | 3 => Ok (VList (L_billingv1_QueryCreditAccountResponse_3 (view (billingv1_QueryCreditAccountResponse_AvailableBalances x))))
  | _ => Panic
  end.

Definition billingv1_QueryCreditAccountResponse_Set (p : option billingv1_QueryCreditAccountResponse) (fd : string) (value : value) : res (option billingv1_QueryCreditAccountResponse) :=
  x ← deref p;
  let 'mk_billingv1_QueryCreditAccountResponse creditAccount balances availableBalances u := x in
  match field_number billingv1_QueryCreditAccountResponse_fields fd with
  | 1 => v ← as_billingv1_CreditAccount value; Ok (Some (mk_billingv1_QueryCreditAccountResponse v balances availableBalances u))
  | 2 => v ← as_L_billingv1_QueryCreditAccountResponse_2 value; Ok (Some (mk_billingv1_QueryCreditAccountResponse creditAccount v availableBalances u))
  | 3 => v ← as_L_billingv1_QueryCreditAccountResponse_3 value; Ok (Some (mk_billingv1_QueryCreditAccountResponse creditAccount balances v u))
  | _ => Panic
  end.

Definition billingv1_QueryCreditAccountResponse_Mutable (p : option billingv1_QueryCreditAccountResponse) (fd : string) : res (option billingv1_QueryCreditAccountResponse * value) :=
  x ← deref p;
  let 'mk_billingv1_QueryCreditAccountResponse creditAccount balances availableBalances u := x in
  match field_number billingv1_QueryCreditAccountResponse_fields fd with
  | 1 => let v := match creditAccount with None => Some billingv1_CreditAccount_new | Some _ => creditAccount end in
      Ok (Some (mk_billingv1_QueryCreditAccountResponse v balances availableBalances u), VMessage (A_billingv1_CreditAccount v))
  | 2 => Ok (Some x, VList (L_billingv1_QueryCreditAccountResponse_2 (Some balances)))
  | 3 => Ok (Some x, VList (L_billingv1_QueryCreditAccountResponse_3 (Some availableBalances)))
  | _ => Panic
  end.

Definition billingv1_QueryCreditAccountResponse_NewField (fd : string) : res value :=
  match field_number billingv1_QueryCreditAccountResponse_fields fd with
  | 1 => Ok (VMessage (A_billingv1_CreditAccount (Some billingv1_CreditAccount_new)))
  | 2 => Ok (VList (L_billingv1_QueryCreditAccountResponse_2 (Some [])))
  | 3 => Ok (VList (L_billingv1_QueryCreditAccountResponse_3 (Some [])))
  | _ => Panic
  end.

Definition billingv1_QueryCreditAccountResponse_GetUnknown (p : option billingv1_QueryCreditAccountResponse) : res bytes := x ← deref p; Ok (billingv1_QueryCreditAccountResponse_unknownFields x).

Definition billingv1_QueryCreditAccountResponse_SetUnknown (p : option billingv1_QueryCreditAccountResponse) (fields : bytes) : res (option billingv1_QueryCreditAccountResponse) :=
  x ← deref p;
  let 'mk_billingv1_QueryCreditAccountResponse creditAccount balances availableBalances _ := x in
  Ok (Some (mk_billingv1_QueryCreditAccountResponse creditAccount balances availableBalances fields)).

Definition billingv1_QueryCreditAccountResponse_GetCreditAccount (p : option billingv1_QueryCreditAccountResponse) : option billingv1_CreditAccount := match p with Some x => billingv1_QueryCreditAccountResponse_CreditAccount x | None => None end.
Definition billingv1_QueryCreditAccountResponse_GetBalances (p : option billingv1_QueryCreditAccountResponse) : list (option api_Coin) := match p with Some x => billingv1_QueryCreditAccountResponse_Balances x | None => [] end.
Definition billingv1_QueryCreditAccountResponse_GetAvailableBalances (p : option billingv1_QueryCreditAccountResponse) : list (option api_Coin) := match p with Some x => billingv1_QueryCreditAccountResponse_AvailableBalances x | None => [] end.

Definition billingv1_QueryCreditAccountResponse_getters : list (string * (option billingv1_QueryCreditAccountResponse → value)) :=
  [("liftedinit.billing.v1.QueryCreditAccountResponse.credit_account", λ p, VMessage (A_billingv1_CreditAccount (billingv1_QueryCreditAccountResponse_GetCreditAccount p)));
   ("liftedinit.billing.v1.QueryCreditAccountResponse.balances", λ p, VList (L_billingv1_QueryCreditAccountResponse_2 (view (billingv1_QueryCreditAccountResponse_GetBalances p))));
   ("liftedinit.billing.v1.QueryCreditAccountResponse.available_balances", λ p, VList (L_billingv1_QueryCreditAccountResponse_3 (view (billingv1_QueryCreditAccountResponse_GetAvailableBalances p))))]%string.

Definition billingv1_QueryCreditAccountResponse_reflected : reflected :=
  mkReflected billingv1_QueryCreditAccountResponse billingv1_QueryCreditAccountResponse_fields
    billingv1_QueryCreditAccountResponse_Range billingv1_QueryCreditAccountResponse_Has
    billingv1_QueryCreditAccountResponse_Clear billingv1_QueryCreditAccountResponse_Get
    billingv1_QueryCreditAccountResponse_Set billingv1_QueryCreditAccountResponse_Mutable
    billingv1_QueryCreditAccountResponse_NewField billingv1_QueryCreditAccountResponse_new
    billingv1_QueryCreditAccountResponse_GetUnknown billingv1_QueryCreditAccountResponse_SetUnknown
    billingv1_QueryCreditAccountResponse_getters.

Definition billingv1_QueryCreditAccountResponse_2_list : list_methods (option api_Coin) :=
  message_list as_api_Coin A_api_Coin api_Coin_new.

Definition billingv1_QueryCreditAccountResponse_3_list : list_methods (option api_Coin) :=
  message_list as_api_Coin A_api_Coin api_Coin_new.

(** ** QueryCreditAddressRequest *)

Definition billingv1_QueryCreditAddressRequest_fields : list string :=
  ["liftedinit.billing.v1.QueryCreditAddressRequest.tenant"]%string.

Definition billingv1_QueryCreditAddressRequest_Range (S : Type) (p : option billingv1_QueryCreditAddressRequest) (f : S → string → value → S * bool) (s : S) : res S :=
  x ← deref p;
  Ok (visit f
   [(has_string (billingv1_QueryCreditAddressRequest_Tenant x), "liftedinit.billing.v1.QueryCreditAddressRequest.tenant"%string, VString (billingv1_QueryCreditAddressRequest_Tenant x))] s).

Definition billingv1_QueryCreditAddressRequest_Has (p : option billingv1_QueryCreditAddressRequest) (fd : string) : res bool :=
  x ← deref p;
  match field_number billingv1_QueryCreditAddressRequest_fields fd with
  | 1 => Ok (has_string (billingv1_QueryCreditAddressRequest_Tenant x))
  | _ => Panic
  end.

Definition billingv1_QueryCreditAddressRequest_Clear (p : option billingv1_QueryCreditAddressRequest) (fd : string) : res (option billingv1_QueryCreditAddressRequest) :=
  x ← deref p;
  let 'mk_billingv1_QueryCreditAddressRequest tenant u := x in
  match field_number billingv1_QueryCreditAddressRequest_fields fd with
  | 1 => Ok (Some (mk_billingv1_QueryCreditAddressRequest "" u))
  | _ => Panic
  end.

Definition billingv1_QueryCreditAddressRequest_Get (p : option billingv1_QueryCreditAddressRequest) (fd : string) : res value :=
  x ← deref p;
  match field_number billingv1_QueryCreditAddressRequest_fields fd with
  | 1 => Ok (VString (billingv1_QueryCreditAddressRequest_Tenant x))
  | _ => Panic
  end.

Definition billingv1_QueryCreditAddressRequest_Set (p : option billingv1_QueryCreditAddressRequest) (fd : string) (value : value) : res (option billingv1_QueryCreditAddressRequest) :=
  x ← deref p;
  let 'mk_billingv1_QueryCreditAddressRequest tenant u := x in
  match field_number billingv1_QueryCreditAddressRequest_fields fd with
  | 1 => v ← as_string value; Ok (Some (mk_billingv1_QueryCreditAddressRequest v u))
  | _ => Panic
  end.

Definition billingv1_QueryCreditAddressRequest_Mutable (p : option billingv1_QueryCreditAddressRequest) (fd : string) : res (option billingv1_QueryCreditAddressRequest * value) := Panic.

Definition billingv1_QueryCreditAddressRequest_NewField (fd : string) : res value :=
  match field_number billingv1_QueryCreditAddressRequest_fields fd with
  | 1 => Ok (VString "")
  | _ => Panic
  end.

Definition billingv1_QueryCreditAddressRequest_GetUnknown (p : option billingv1_QueryCreditAddressRequest) : res bytes := x ← deref p; Ok (billingv1_QueryCreditAddressRequest_unknownFields x).

Definition billingv1_QueryCreditAddressRequest_SetUnknown (p : option billingv1_QueryCreditAddressRequest) (fields : bytes) : res (option billingv1_QueryCreditAddressRequest) :=
  x ← deref p;
  let 'mk_billingv1_QueryCreditAddressRequest tenant _ := x in
  Ok (Some (mk_billingv1_QueryCreditAddressRequest tenant fields)).

Definition billingv1_QueryCreditAddressRequest_GetTenant (p : option billingv1_QueryCreditAddressRequest) : string := match p with Some x => billingv1_QueryCreditAddressRequest_Tenant x | None => "" end.

Definition billingv1_QueryCreditAddressRequest_getters : list (string * (option billingv1_QueryCreditAddressRequest → value)) :=
  [("liftedinit.billing.v1.QueryCreditAddressRequest.tenant", λ p, VString (billingv1_QueryCreditAddressRequest_GetTenant p))]%string.

Definition billingv1_QueryCreditAddressRequest_reflected : reflected :=
  mkReflected billingv1_QueryCreditAddressRequest billingv1_QueryCreditAddressRequest_fields
    billingv1_QueryCreditAddressRequest_Range billingv1_QueryCreditAddressRequest_Has
    billingv1_QueryCreditAddressRequest_Clear billingv1_QueryCreditAddressRequest_Get
    billingv1_QueryCreditAddressRequest_Set billingv1_QueryCreditAddressRequest_Mutable
    billingv1_QueryCreditAddressRequest_NewField billingv1_QueryCreditAddressRequest_new
    billingv1_QueryCreditAddressRequest_GetUnknown billingv1_QueryCreditAddressRequest_SetUnknown
    billingv1_QueryCreditAddressRequest_getters.

(** ** QueryCreditAddressResponse *)

Definition billingv1_QueryCreditAddressResponse_fields : list string :=
  ["liftedinit.billing.v1.QueryCreditAddressResponse.credit_address"]%string.

Definition billingv1_QueryCreditAddressResponse_Range (S : Type) (p : option billingv1_QueryCreditAddressResponse) (f : S → string → value → S * bool) (s : S) : res S :=
  x ← deref p;
  Ok (visit f
   [(has_string (billingv1_QueryCreditAddressResponse_CreditAddress x), "liftedinit.billing.v1.QueryCreditAddressResponse.credit_address"%string, VString (billingv1_QueryCreditAddressResponse_CreditAddress x))] s).

Definition billingv1_QueryCreditAddressResponse_Has (p : option billingv1_QueryCreditAddressResponse) (fd : string) : res bool :=
  x ← deref p;
  match field_number billingv1_QueryCreditAddressResponse_fields fd with
  | 1 => Ok (has_string (billingv1_QueryCreditAddressResponse_CreditAddress x))
  | _ => Panic
  end.

Definition billingv1_QueryCreditAddressResponse_Clear (p : option billingv1_QueryCreditAddressResponse) (fd : string) : res (option billingv1_QueryCreditAddressResponse) :=
  x ← deref p;
  let 'mk_billingv1_QueryCreditAddressResponse creditAddress u := x in
  match field_number billingv1_QueryCreditAddressResponse_fields fd with
  | 1 => Ok (Some (mk_billingv1_QueryCreditAddressResponse "" u))
  | _ => Panic
  end.

Definition billingv1_QueryCreditAddressResponse_Get (p : option billingv1_QueryCreditAddressResponse) (fd : string) : res value :=
  x ← deref p;
  match field_number billingv1_QueryCreditAddressResponse_fields fd with
  | 1 => Ok (VString (billingv1_QueryCreditAddressResponse_CreditAddress x))
  | _ => Panic
  end.

Definition billingv1_QueryCreditAddressResponse_Set (p : option billingv1_QueryCreditAddressResponse) (fd : string) (value : value) : res (option billingv1_QueryCreditAddressResponse) :=
  x ← deref p;
  let 'mk_billingv1_QueryCreditAddressResponse creditAddress u := x in
  match field_number billingv1_QueryCreditAddressResponse_fields fd with
  | 1 => v ← as_string value; Ok (Some (mk_billingv1_QueryCreditAddressResponse v u))
  | _ => Panic
  end.

Definition billingv1_QueryCreditAddressResponse_Mutable (p : option billingv1_QueryCreditAddressResponse) (fd : string) : res (option billingv1_QueryCreditAddressResponse * value) := Panic.

Definition billingv1_QueryCreditAddressResponse_NewField (fd : string) : res value :=
  match field_number billingv1_QueryCreditAddressResponse_fields fd with
  | 1 => Ok (VString "")
  | _ => Panic
  end.

Definition billingv1_QueryCreditAddressResponse_GetUnknown (p : option billingv1_QueryCreditAddressResponse) : res bytes := x ← deref p; Ok (billingv1_QueryCreditAddressResponse_unknownFields x).

Definition billingv1_QueryCreditAddressResponse_SetUnknown (p : option billingv1_QueryCreditAddressResponse) (fields : bytes) : res (option billingv1_QueryCreditAddressResponse) :=
  x ← deref p;
  let 'mk_billingv1_QueryCreditAddressResponse creditAddress _ := x in
  Ok (Some (mk_billingv1_QueryCreditAddressResponse creditAddress fields)).

Definition billingv1_QueryCreditAddressResponse_GetCreditAddress (p : option billingv1_QueryCreditAddressResponse) : string := match p with Some x => billingv1_QueryCreditAddressResponse_CreditAddress x | None => "" end.

Definition billingv1_QueryCreditAddressResponse_getters : list (string * (option billingv1_QueryCreditAddressResponse → value)) :=
  [("liftedinit.billing.v1.QueryCreditAddressResponse.credit_address", λ p, VString (billingv1_QueryCreditAddressResponse_GetCreditAddress p))]%string.

Definition billingv1_QueryCreditAddressResponse_reflected : reflected :=
  mkReflected billingv1_QueryCreditAddressResponse billingv1_QueryCreditAddressResponse_fields
    billingv1_QueryCreditAddressResponse_Range billingv1_QueryCreditAddressResponse_Has
    billingv1_QueryCreditAddressResponse_Clear billingv1_QueryCreditAddressResponse_Get
    billingv1_QueryCreditAddressResponse_Set billingv1_QueryCreditAddressResponse_Mutable
    billingv1_QueryCreditAddressResponse_NewField billingv1_QueryCreditAddressResponse_new
    billingv1_QueryCreditAddressResponse_GetUnknown billingv1_QueryCreditAddressResponse_SetUnknown
    billingv1_QueryCreditAddressResponse_getters.

(** ** QueryWithdrawableAmountRequest *)

Definition billingv1_QueryWithdrawableAmountRequest_fields : list string :=
  ["liftedinit.billing.v1.QueryWithdrawableAmountRequest.lease_uuid"]%string.

Definition billingv1_QueryWithdrawableAmountRequest_Range (S : Type) (p : option billingv1_QueryWithdrawableAmountRequest) (f : S → string → value → S * bool) (s : S) : res S :=
  x ← deref p;
  Ok (visit f
   [(has_string (billingv1_QueryWithdrawableAmountRequest_LeaseUuid x), "liftedinit.billing.v1.QueryWithdrawableAmountRequest.lease_uuid"%string, VString (billingv1_QueryWithdrawableAmountRequest_LeaseUuid x))] s).

Definition billingv1_QueryWithdrawableAmountRequest_Has (p : option billingv1_QueryWithdrawableAmountRequest) (fd : string) : res bool :=
  x ← deref p;
  match field_number billingv1_QueryWithdrawableAmountRequest_fields fd with
  | 1 => Ok (has_string (billingv1_QueryWithdrawableAmountRequest_LeaseUuid x))
  | _ => Panic
  end.

Definition billingv1_QueryWithdrawableAmountRequest_Clear (p : option billingv1_QueryWithdrawableAmountRequest) (fd : string) : res (option billingv1_QueryWithdrawableAmountRequest) :=
  x ← deref p;
  let 'mk_billingv1_QueryWithdrawableAmountRequest leaseUuid u := x in
  match field_number billingv1_QueryWithdrawableAmountRequest_fields fd with
  | 1 => Ok (Some (mk_billingv1_QueryWithdrawableAmountRequest "" u))
  | _ => Panic
  end.

Definition billingv1_QueryWithdrawableAmountRequest_Get (p : option billingv1_QueryWithdrawableAmountRequest) (fd : string) : res value :=
  x ← deref p;
  match field_number billingv1_QueryWithdrawableAmountRequest_fields fd with
  | 1 => Ok (VString (billingv1_QueryWithdrawableAmountRequest_LeaseUuid x))
  | _ => Panic
  end.

Definition billingv1_QueryWithdrawableAmountRequest_Set (p : option billingv1_QueryWithdrawableAmountRequest) (fd : string) (value : value) : res (option billingv1_QueryWithdrawableAmountRequest) :=
  x ← deref p;
  let 'mk_billingv1_QueryWithdrawableAmountRequest leaseUuid u := x in
  match field_number billingv1_QueryWithdrawableAmountRequest_fields fd with
  | 1 => v ← as_string value; Ok (Some (mk_billingv1_QueryWithdrawableAmountRequest v u))
  | _ => Panic
  end.

Definition billingv1_QueryWithdrawableAmountRequest_Mutable (p : option billingv1_QueryWithdrawableAmountRequest) (fd : string) : res (option billingv1_QueryWithdrawableAmountRequest * value) := Panic.

Definition billingv1_QueryWithdrawableAmountRequest_NewField (fd : string) : res value :=
  match field_number billingv1_QueryWithdrawableAmountRequest_fields fd with
  | 1 => Ok (VString "")
  | _ => Panic
  end.

Definition billingv1_QueryWithdrawableAmountRequest_GetUnknown (p : option billingv1_QueryWithdrawableAmountRequest) : res bytes := x ← deref p; Ok (billingv1_QueryWithdrawableAmountRequest_unknownFields x).

Definition billingv1_QueryWithdrawableAmountRequest_SetUnknown (p : option billingv1_QueryWithdrawableAmountRequest) (fields : bytes) : res (option billingv1_QueryWithdrawableAmountRequest) :=
  x ← deref p;
  let 'mk_billingv1_QueryWithdrawableAmountRequest leaseUuid _ := x in
  Ok (Some (mk_billingv1_QueryWithdrawableAmountRequest leaseUuid fields)).

Definition billingv1_QueryWithdrawableAmountRequest_GetLeaseUuid (p : option billingv1_QueryWithdrawableAmountRequest) : string := match p with Some x => billingv1_QueryWithdrawableAmountRequest_LeaseUuid x | None => "" end.

Definition billingv1_QueryWithdrawableAmountRequest_getters : list (string * (option billingv1_QueryWithdrawableAmountRequest → value)) :=
  [("liftedinit.billing.v1.QueryWithdrawableAmountRequest.lease_uuid", λ p, VString (billingv1_QueryWithdrawableAmountRequest_GetLeaseUuid p))]%string.

Definition billingv1_QueryWithdrawableAmountRequest_reflected : reflected :=
  mkReflected billingv1_QueryWithdrawableAmountRequest billingv1_QueryWithdrawableAmountRequest_fields
    billingv1_QueryWithdrawableAmountRequest_Range billingv1_QueryWithdrawableAmountRequest_Has
    billingv1_QueryWithdrawableAmountRequest_Clear billingv1_QueryWithdrawableAmountRequest_Get
    billingv1_QueryWithdrawableAmountRequest_Set billingv1_QueryWithdrawableAmountRequest_Mutable
    billingv1_QueryWithdrawableAmountRequest_NewField billingv1_QueryWithdrawableAmountRequest_new
    billingv1_QueryWithdrawableAmountRequest_GetUnknown billingv1_QueryWithdrawableAmountRequest_SetUnknown
    billingv1_QueryWithdrawableAmountRequest_getters.

(** ** QueryWithdrawableAmountResponse *)

Definition billingv1_QueryWithdrawableAmountResponse_fields : list string :=
  ["liftedinit.billing.v1.QueryWithdrawableAmountResponse.amounts"]%string.

Definition billingv1_QueryWithdrawableAmountResponse_Range (S : Type) (p : option billingv1_QueryWithdrawableAmountResponse) (f : S → string → value → S * bool) (s : S) : res S :=
  x ← deref p;
  Ok (visit f
   [(has_list (billingv1_QueryWithdrawableAmountResponse_Amounts x), "liftedinit.billing.v1.QueryWithdrawableAmountResponse.amounts"%string, VList (L_billingv1_QueryWithdrawableAmountResponse_1 (Some (billingv1_QueryWithdrawableAmountResponse_Amounts x))))] s).

Definition billingv1_QueryWithdrawableAmountResponse_Has (p : option billingv1_QueryWithdrawableAmountResponse) (fd : string) : res bool :=
  x ← deref p;
  match field_number billingv1_QueryWithdrawableAmountResponse_fields fd with
  | 1 => Ok (has_list (billingv1_QueryWithdrawableAmountResponse_Amounts x))
  | _ => Panic
  end.

Definition billingv1_QueryWithdrawableAmountResponse_Clear (p : option billingv1_QueryWithdrawableAmountResponse) (fd : string) : res (option billingv1_QueryWithdrawableAmountResponse) :=
  x ← deref p;
  let 'mk_billingv1_QueryWithdrawableAmountResponse amounts u := x in
  match field_number billingv1_QueryWithdrawableAmountResponse_fields fd with
  | 1 => Ok (Some (mk_billingv1_QueryWithdrawableAmountResponse [] u))
  | _ => Panic
  end.

Definition billingv1_QueryWithdrawableAmountResponse_Get (p : option billingv1_QueryWithdrawableAmountResponse) (fd : string) : res value :=
  x ← deref p;
  match field_number billingv1_QueryWithdrawableAmountResponse_fields fd with
  | 1 => Ok (VList (L_billingv1_QueryWithdrawableAmountResponse_1 (view (billingv1_QueryWithdrawableAmountResponse_Amounts x))))
  | _ => Panic
  end.

Definition billingv1_QueryWithdrawableAmountResponse_Set (p : option billingv1_QueryWithdrawableAmountResponse) (fd : string) (value : value) : res (option billingv1_QueryWithdrawableAmountResponse) :=
  x ← deref p;
  let 'mk_billingv1_QueryWithdrawableAmountResponse amounts u := x in
  match field_number billingv1_QueryWithdrawableAmountResponse_fields fd with
  | 1 => v ← as_L_billingv1_QueryWithdrawableAmountResponse_1 value; Ok (Some (mk_billingv1_QueryWithdrawableAmountResponse v u))
  | _ => Panic
  end.

Definition billingv1_QueryWithdrawableAmountResponse_Mutable (p : option billingv1_QueryWithdrawableAmountResponse) (fd : string) : res (option billingv1_QueryWithdrawableAmountResponse * value) :=
  x ← deref p;
  let 'mk_billingv1_QueryWithdrawableAmountResponse amounts u := x in
  match field_number billingv1_QueryWithdrawableAmountResponse_fields fd with
  | 1 => Ok (Some x, VList (L_billingv1_QueryWithdrawableAmountResponse_1 (Some amounts)))
  | _ => Panic
  end.

Definition billingv1_QueryWithdrawableAmountResponse_NewField (fd : string) : res value :=
  match field_number billingv1_QueryWithdrawableAmountResponse_fields fd with
  | 1 => Ok (VList (L_billingv1_QueryWithdrawableAmountResponse_1 (Some [])))
  | _ => Panic
  end.

Definition billingv1_QueryWithdrawableAmountResponse_GetUnknown (p : option billingv1_QueryWithdrawableAmountResponse) : res bytes := x ← deref p; Ok (billingv1_QueryWithdrawableAmountResponse_unknownFields x).

Definition billingv1_QueryWithdrawableAmountResponse_SetUnknown (p : option billingv1_QueryWithdrawableAmountResponse) (fields : bytes) : res (option billingv1_QueryWithdrawableAmountResponse) :=
  x ← deref p;
  let 'mk_billingv1_QueryWithdrawableAmountResponse amounts _ := x in
  Ok (Some (mk_billingv1_QueryWithdrawableAmountResponse amounts fields)).

Definition billingv1_QueryWithdrawableAmountResponse_GetAmounts (p : option billingv1_QueryWithdrawableAmountResponse) : list (option api_Coin) := match p with Some x => billingv1_QueryWithdrawableAmountResponse_Amounts x | None => [] end.

Definition billingv1_QueryWithdrawableAmountResponse_getters : list (string * (option billingv1_QueryWithdrawableAmountResponse → value)) :=
  [("liftedinit.billing.v1.QueryWithdrawableAmountResponse.amounts", λ p, VList (L_billingv1_QueryWithdrawableAmountResponse_1 (view (billingv1_QueryWithdrawableAmountResponse_GetAmounts p))))]%string.

Definition billingv1_QueryWithdrawableAmountResponse_reflected : reflected :=
  mkReflected billingv1_QueryWithdrawableAmountResponse billingv1_QueryWithdrawableAmountResponse_fields
    billingv1_QueryWithdrawableAmountResponse_Range billingv1_QueryWithdrawableAmountResponse_Has
    billingv1_QueryWithdrawableAmountResponse_Clear billingv1_QueryWithdrawableAmountResponse_Get
    billingv1_QueryWithdrawableAmountResponse_Set billingv1_QueryWithdrawableAmountResponse_Mutable
    billingv1_QueryWithdrawableAmountResponse_NewField billingv1_QueryWithdrawableAmountResponse_new
    billingv1_QueryWithdrawableAmountResponse_GetUnknown billingv1_QueryWithdrawableAmountResponse_SetUnknown
    billingv1_QueryWithdrawableAmountResponse_getters.

Definition billingv1_QueryWithdrawableAmountResponse_1_list : list_methods (option api_Coin) :=
  message_list as_api_Coin A_api_Coin api_Coin_new.

(** ** QueryProviderWithdrawableRequest *)

Definition billingv1_QueryProviderWithdrawableRequest_fields : list string :=
  ["liftedinit.billing.v1.QueryProviderWithdrawableRequest.provider_uuid";
   "liftedinit.billing.v1.QueryProviderWithdrawableRequest.limit"]%string.

Definition billingv1_QueryProviderWithdrawableRequest_Range (S : Type) (p : option billingv1_QueryProviderWithdrawableRequest) (f : S → string → value → S * bool) (s : S) : res S :=
  x ← deref p;
  Ok (visit f
   [(has_string (billingv1_QueryProviderWithdrawableRequest_ProviderUuid x), "liftedinit.billing.v1.QueryProviderWithdrawableRequest.provider_uuid"%string, VString (billingv1_QueryProviderWithdrawableRequest_ProviderUuid x));
    (has_num (billingv1_QueryProviderWithdrawableRequest_Limit x), "liftedinit.billing.v1.QueryProviderWithdrawableRequest.limit"%string, VUint64 (billingv1_QueryProviderWithdrawableRequest_Limit x))] s).

Definition billingv1_QueryProviderWithdrawableRequest_Has (p : option billingv1_QueryProviderWithdrawableRequest) (fd : string) : res bool :=
  x ← deref p;
  match field_number billingv1_QueryProviderWithdrawableRequest_fields fd with
  | 1 => Ok (has_string (billingv1_QueryProviderWithdrawableRequest_ProviderUuid x))
  | 2 => Ok (has_num (billingv1_QueryProviderWithdrawableRequest_Limit x))
  | _ => Panic
  end.

Definition billingv1_QueryProviderWithdrawableRequest_Clear (p : option billingv1_QueryProviderWithdrawableRequest) (fd : string) : res (option billingv1_QueryProviderWithdrawableRequest) :=
  x ← deref p;
  let 'mk_billingv1_QueryProviderWithdrawableRequest providerUuid limit u := x in
  match field_number billingv1_QueryProviderWithdrawableRequest_fields fd with
  | 1 => Ok (Some (mk_billingv1_QueryProviderWithdrawableRequest "" limit u))
  | 2 => Ok (Some (mk_billingv1_QueryProviderWithdrawableRequest providerUuid 0 u))
  | _ => Panic
  end.

Definition billingv1_QueryProviderWithdrawableRequest_Get (p : option billingv1_QueryProviderWithdrawableRequest) (fd : string) : res value :=
  x ← deref p;
  match field_number billingv1_QueryProviderWithdrawableRequest_fields fd with
  | 1 => Ok (VString (billingv1_QueryProviderWithdrawableRequest_ProviderUuid x))
  | 2 => Ok (VUint64 (billingv1_QueryProviderWithdrawableRequest_Limit x))
  | _ => Panic
  end.

Definition billingv1_QueryProviderWithdrawableRequest_Set (p : option billingv1_QueryProviderWithdrawableRequest) (fd : string) (value : value) : res (option billingv1_QueryProviderWithdrawableRequest) :=
  x ← deref p;
  let 'mk_billingv1_QueryProviderWithdrawableRequest providerUuid limit u := x in
  match field_number billingv1_QueryProviderWithdrawableRequest_fields fd with
  | 1 => v ← as_string value; Ok (Some (mk_billingv1_QueryProviderWithdrawableRequest v limit u))
  | 2 => v ← as_uint value; Ok (Some (mk_billingv1_QueryProviderWithdrawableRequest providerUuid v u))
  | _ => Panic
  end.

Definition billingv1_QueryProviderWithdrawableRequest_Mutable (p : option billingv1_QueryProviderWithdrawableRequest) (fd : string) : res (option billingv1_QueryProviderWithdrawableRequest * value) := Panic.

Definition billingv1_QueryProviderWithdrawableRequest_NewField (fd : string) : res value :=
  match field_number billingv1_QueryProviderWithdrawableRequest_fields fd with
  | 1 => Ok (VString "")
  | 2 => Ok (VUint64 0)
  | _ => Panic
  end.

Definition billingv1_QueryProviderWithdrawableRequest_GetUnknown (p : option billingv1_QueryProviderWithdrawableRequest) : res bytes := x ← deref p; Ok (billingv1_QueryProviderWithdrawableRequest_unknownFields x).

Definition billingv1_QueryProviderWithdrawableRequest_SetUnknown (p : option billingv1_QueryProviderWithdrawableRequest) (fields : bytes) : res (option billingv1_QueryProviderWithdrawableRequest) :=
  x ← deref p;
  let 'mk_billingv1_QueryProviderWithdrawableRequest providerUuid limit _ := x in
  Ok (Some (mk_billingv1_QueryProviderWithdrawableRequest providerUuid limit fields)).

Definition billingv1_QueryProviderWithdrawableRequest_GetProviderUuid (p : option billingv1_QueryProviderWithdrawableRequest) : string := match p with Some x => billingv1_QueryProviderWithdrawableRequest_ProviderUuid x | None => "" end.
Definition billingv1_QueryProviderWithdrawableRequest_GetLimit (p : option billingv1_QueryProviderWithdrawableRequest) : Z := match p with Some x => billingv1_QueryProviderWithdrawableRequest_Limit x | None => 0 end.

Definition billingv1_QueryProviderWithdrawableRequest_getters : list (string * (option billingv1_QueryProviderWithdrawableRequest → value)) :=
  [("liftedinit.billing.v1.QueryProviderWithdrawableRequest.provider_uuid", λ p, VString (billingv1_QueryProviderWithdrawableRequest_GetProviderUuid p));
   ("liftedinit.billing.v1.QueryProviderWithdrawableRequest.limit", λ p, VUint64 (billingv1_QueryProviderWithdrawableRequest_GetLimit p))]%string.

Definition billingv1_QueryProviderWithdrawableRequest_reflected : reflected :=
  mkReflected billingv1_QueryProviderWithdrawableRequest billingv1_QueryProviderWithdrawableRequest_fields
    billingv1_QueryProviderWithdrawableRequest_Range billingv1_QueryProviderWithdrawableRequest_Has
    billingv1_QueryProviderWithdrawableRequest_Clear billingv1_QueryProviderWithdrawableRequest_Get
    billingv1_QueryProviderWithdrawableRequest_Set billingv1_QueryProviderWithdrawableRequest_Mutable
    billingv1_QueryProviderWithdrawableRequest_NewField billingv1_QueryProviderWithdrawableRequest_new
    billingv1_QueryProviderWithdrawableRequest_GetUnknown billingv1_QueryProviderWithdrawableRequest_SetUnknown
    billingv1_QueryProviderWithdrawableRequest_getters.

(** ** QueryProviderWithdrawableResponse *)

Definition billingv1_QueryProviderWithdrawableResponse_fields : list string :=
  ["liftedinit.billing.v1.QueryProviderWithdrawableResponse.amounts";
   "liftedinit.billing.v1.QueryProviderWithdrawableResponse.lease_count";
   "liftedinit.billing.v1.QueryProviderWithdrawableResponse.has_more"]%string.

Definition billingv1_QueryProviderWithdrawableResponse_Range (S : Type) (p : option billingv1_QueryProviderWithdrawableResponse) (f : S → string → value → S * bool) (s : S) : res S :=
  x ← deref p;
  Ok (visit f
   [(has_list (billingv1_QueryProviderWithdrawableResponse_Amounts x), "liftedinit.billing.v1.QueryProviderWithdrawableResponse.amounts"%string, VList (L_billingv1_QueryProviderWithdrawableResponse_1 (Some (billingv1_QueryProviderWithdrawableResponse_Amounts x))));
    (has_num (billingv1_QueryProviderWithdrawableResponse_LeaseCount x), "liftedinit.billing.v1.QueryProviderWithdrawableResponse.lease_count"%string, VUint64 (billingv1_QueryProviderWithdrawableResponse_LeaseCount x));
    ((billingv1_QueryProviderWithdrawableResponse_HasMore x), "liftedinit.billing.v1.QueryProviderWithdrawableResponse.has_more"%string, VBool (billingv1_QueryProviderWithdrawableResponse_HasMore x))] s).

Definition billingv1_QueryProviderWithdrawableResponse_Has (p : option billingv1_QueryProviderWithdrawableResponse) (fd : string) : res bool :=
  x ← deref p;
  match field_number billingv1_QueryProviderWithdrawableResponse_fields fd with
  | 1 => Ok (has_list (billingv1_QueryProviderWithdrawableResponse_Amounts x))
  | 2 => Ok (has_num (billingv1_QueryProviderWithdrawableResponse_LeaseCount x))
  | 3 => Ok ((billingv1_QueryProviderWithdrawableResponse_HasMore x))
  | _ => Panic
  end.

Definition billingv1_QueryProviderWithdrawableResponse_Clear (p : option billingv1_QueryProviderWithdrawableResponse) (fd : string) : res (option billingv1_QueryProviderWithdrawableResponse) :=
  x ← deref p;
  let 'mk_billingv1_QueryProviderWithdrawableResponse amounts leaseCount hasMore u := x in
  match field_number billingv1_QueryProviderWithdrawableResponse_fields fd with
  | 1 => Ok (Some (mk_billingv1_QueryProviderWithdrawableResponse [] leaseCount hasMore u))
  | 2 => Ok (Some (mk_billingv1_QueryProviderWithdrawableResponse amounts 0 hasMore u))
  | 3 => Ok (Some (mk_billingv1_QueryProviderWithdrawableResponse amounts leaseCount false u))
  | _ => Panic
  end.

Definition billingv1_QueryProviderWithdrawableResponse_Get (p : option billingv1_QueryProviderWithdrawableResponse) (fd : string) : res value :=
  x ← deref p;
  match field_number billingv1_QueryProviderWithdrawableResponse_fields fd with
  | 1 => Ok (VList (L_billingv1_QueryProviderWithdrawableResponse_1 (view (billingv1_QueryProviderWithdrawableResponse_Amounts x))))
  | 2 => Ok (VUint64 (billingv1_QueryProviderWithdrawableResponse_LeaseCount x))
  | 3 => Ok (VBool (billingv1_QueryProviderWithdrawableResponse_HasMore x))
  | _ => Panic
  end.

Definition billingv1_QueryProviderWithdrawableResponse_Set (p : option billingv1_QueryProviderWithdrawableResponse) (fd : string) (value : value) : res (option billingv1_QueryProviderWithdrawableResponse) :=
  x ← deref p;
  let 'mk_billingv1_QueryProviderWithdrawableResponse amounts leaseCount hasMore u := x in
  match field_number billingv1_QueryProviderWithdrawableResponse_fields fd with
  | 1 => v ← as_L_billingv1_QueryProviderWithdrawableResponse_1 value; Ok (Some (mk_billingv1_QueryProviderWithdrawableResponse v leaseCount hasMore u))
  | 2 => v ← as_uint value; Ok (Some (mk_billingv1_QueryProviderWithdrawableResponse amounts v hasMore u))
  | 3 => v ← as_bool value; Ok (Some (mk_billingv1_QueryProviderWithdrawableResponse amounts leaseCount v u))
  | _ => Panic
  end.

Definition billingv1_QueryProviderWithdrawableResponse_Mutable (p : option billingv1_QueryProviderWithdrawableResponse) (fd : string) : res (option billingv1_QueryProviderWithdrawableResponse * value) :=
  x ← deref p;
  let 'mk_billingv1_QueryProviderWithdrawableResponse amounts leaseCount hasMore u := x in
  match field_number billingv1_QueryProviderWithdrawableResponse_fields fd with
  | 1 => Ok (Some x, VList (L_billingv1_QueryProviderWithdrawableResponse_1 (Some amounts)))
  | _ => Panic
  end.

Definition billingv1_QueryProviderWithdrawableResponse_NewField (fd : string) : res value :=
  match field_number billingv1_QueryProviderWithdrawableResponse_fields fd with
  | 1 => Ok (VList (L_billingv1_QueryProviderWithdrawableResponse_1 (Some [])))
  | 2 => Ok (VUint64 0)
  | 3 => Ok (VBool false)
  | _ => Panic
  end.

Definition billingv1_QueryProviderWithdrawableResponse_GetUnknown (p : option billingv1_QueryProviderWithdrawableResponse) : res bytes := x ← deref p; Ok (billingv1_QueryProviderWithdrawableResponse_unknownFields x).

Definition billingv1_QueryProviderWithdrawableResponse_SetUnknown (p : option billingv1_QueryProviderWithdrawableResponse) (fields : bytes) : res (option billingv1_QueryProviderWithdrawableResponse) :=
  x ← deref p;
  let 'mk_billingv1_QueryProviderWithdrawableResponse amounts leaseCount hasMore _ := x in
  Ok (Some (mk_billingv1_QueryProviderWithdrawableResponse amounts leaseCount hasMore fields)).

Definition billingv1_QueryProviderWithdrawableResponse_GetAmounts (p : option billingv1_QueryProviderWithdrawableResponse) : list (option api_Coin) := match p with Some x => billingv1_QueryProviderWithdrawableResponse_Amounts x | None => [] end.
Definition billingv1_QueryProviderWithdrawableResponse_GetLeaseCount (p : option billingv1_QueryProviderWithdrawableResponse) : Z := match p with Some x => billingv1_QueryProviderWithdrawableResponse_LeaseCount x | None => 0 end.
Definition billingv1_QueryProviderWithdrawableResponse_GetHasMore (p : option billingv1_QueryProviderWithdrawableResponse) : bool := match p with Some x => billingv1_QueryProviderWithdrawableResponse_HasMore x | None => false end.

Definition billingv1_QueryProviderWithdrawableResponse_getters : list (string * (option billingv1_QueryProviderWithdrawableResponse → value)) :=
  [("liftedinit.billing.v1.QueryProviderWithdrawableResponse.amounts", λ p, VList (L_billingv1_QueryProviderWithdrawableResponse_1 (view (billingv1_QueryProviderWithdrawableResponse_GetAmounts p))));
   ("liftedinit.billing.v1.QueryProviderWithdrawableResponse.lease_count", λ p, VUint64 (billingv1_QueryProviderWithdrawableResponse_GetLeaseCount p));
   ("liftedinit.billing.v1.QueryProviderWithdrawableResponse.has_more", λ p, VBool (billingv1_QueryProviderWithdrawableResponse_GetHasMore p))]%string.

Definition billingv1_QueryProviderWithdrawableResponse_reflected : reflected :=
  mkReflected billingv1_QueryProviderWithdrawableResponse billingv1_QueryProviderWithdrawableResponse_fields
    billingv1_QueryProviderWithdrawableResponse_Range billingv1_QueryProviderWithdrawableResponse_Has
    billingv1_QueryProviderWithdrawableResponse_Clear billingv1_QueryProviderWithdrawableResponse_Get
    billingv1_QueryProviderWithdrawableResponse_Set billingv1_QueryProviderWithdrawableResponse_Mutable
    billingv1_QueryProviderWithdrawableResponse_NewField billingv1_QueryProviderWithdrawableResponse_new
    billingv1_QueryProviderWithdrawableResponse_GetUnknown billingv1_QueryProviderWithdrawableResponse_SetUnknown
    billingv1_QueryProviderWithdrawableResponse_getters.

Definition billingv1_QueryProviderWithdrawableResponse_1_list : list_methods (option api_Coin) :=
  message_list as_api_Coin A_api_Coin api_Coin_new.

(** ** QueryCreditAccountsRequest *)

Definition billingv1_QueryCreditAccountsRequest_fields : list string :=
  ["liftedinit.billing.v1.QueryCreditAccountsRequest.pagination"]%string.

Definition billingv1_QueryCreditAccountsRequest_Range (S : Type) (p : option billingv1_QueryCreditAccountsRequest) (f : S → string → value → S * bool) (s : S) : res S :=
  x ← deref p;
  Ok (visit f
   [(not_nil (billingv1_QueryCreditAccountsRequest_Pagination x), "liftedinit.billing.v1.QueryCreditAccountsRequest.pagination"%string, VMessage (A_api_PageRequest (billingv1_QueryCreditAccountsRequest_Pagination x)))] s).

Definition billingv1_QueryCreditAccountsRequest_Has (p : option billingv1_QueryCreditAccountsRequest) (fd : string) : res bool :=
  x ← deref p;
  match field_number billingv1_QueryCreditAccountsRequest_fields fd with
  | 1 => Ok (not_nil (billingv1_QueryCreditAccountsRequest_Pagination x))
  | _ => Panic
  end.

Definition billingv1_QueryCreditAccountsRequest_Clear (p : option billingv1_QueryCreditAccountsRequest) (fd : string) : res (option billingv1_QueryCreditAccountsRequest) :=
  x ← deref p;
  let 'mk_billingv1_QueryCreditAccountsRequest pagination u := x in
  match field_number billingv1_QueryCreditAccountsRequest_fields fd with
  | 1 => Ok (Some (mk_billingv1_QueryCreditAccountsRequest None u))
  | _ => Panic
  end.

Definition billingv1_QueryCreditAccountsRequest_Get (p : option billingv1_QueryCreditAccountsRequest) (fd : string) : res value :=
  x ← deref p;
  match field_number billingv1_QueryCreditAccountsRequest_fields fd with
  | 1 => Ok (VMessage (A_api_PageRequest (billingv1_QueryCreditAccountsRequest_Pagination x)))
  | _ => Panic
  end.

Definition billingv1_QueryCreditAccountsRequest_Set (p : option billingv1_QueryCreditAccountsRequest) (fd : string) (value : value) : res (option billingv1_QueryCreditAccountsRequest) :=
  x ← deref p;
  let 'mk_billingv1_QueryCreditAccountsRequest pagination u := x in
  match field_number billingv1_QueryCreditAccountsRequest_fields fd with
  | 1 => v ← as_api_PageRequest value; Ok (Some (mk_billingv1_QueryCreditAccountsRequest v u))
  | _ => Panic
  end.

Definition billingv1_QueryCreditAccountsRequest_Mutable (p : option billingv1_QueryCreditAccountsRequest) (fd : string) : res (option billingv1_QueryCreditAccountsRequest * value) :=
  x ← deref p;
  let 'mk_billingv1_QueryCreditAccountsRequest pagination u := x in
  match field_number billingv1_QueryCreditAccountsRequest_fields fd with
  | 1 => let v := match pagination with None => Some api_PageRequest_new | Some _ => pagination end in
      Ok (Some (mk_billingv1_QueryCreditAccountsRequest v u), VMessage (A_api_PageRequest v))
  | _ => Panic
  end.

Definition billingv1_QueryCreditAccountsRequest_NewField (fd : string) : res value :=
  match field_number billingv1_QueryCreditAccountsRequest_fields fd with
  | 1 => Ok (VMessage (A_api_PageRequest (Some api_PageRequest_new)))
  | _ => Panic
  end.

Definition billingv1_QueryCreditAccountsRequest_GetUnknown (p : option billingv1_QueryCreditAccountsRequest) : res bytes := x ← deref p; Ok (billingv1_QueryCreditAccountsRequest_unknownFields x).

Definition billingv1_QueryCreditAccountsRequest_SetUnknown (p : option billingv1_QueryCreditAccountsRequest) (fields : bytes) : res (option billingv1_QueryCreditAccountsRequest) :=
  x ← deref p;
  let 'mk_billingv1_QueryCreditAccountsRequest pagination _ := x in
  Ok (Some (mk_billingv1_QueryCreditAccountsRequest pagination fields)).

Definition billingv1_QueryCreditAccountsRequest_GetPagination (p : option billingv1_QueryCreditAccountsRequest) : option api_PageRequest := match p with Some x => billingv1_QueryCreditAccountsRequest_Pagination x | None => None end.

Definition billingv1_QueryCreditAccountsRequest_getters : list (string * (option billingv1_QueryCreditAccountsRequest → value)) :=
  [("liftedinit.billing.v1.QueryCreditAccountsRequest.pagination", λ p, VMessage (A_api_PageRequest (billingv1_QueryCreditAccountsRequest_GetPagination p)))]%string.

Definition billingv1_QueryCreditAccountsRequest_reflected : reflected :=
  mkReflected billingv1_QueryCreditAccountsRequest billingv1_QueryCreditAccountsRequest_fields
    billingv1_QueryCreditAccountsRequest_Range billingv1_QueryCreditAccountsRequest_Has
    billingv1_QueryCreditAccountsRequest_Clear billingv1_QueryCreditAccountsRequest_Get
    billingv1_QueryCreditAccountsRequest_Set billingv1_QueryCreditAccountsRequest_Mutable
    billingv1_QueryCreditAccountsRequest_NewField billingv1_QueryCreditAccountsRequest_new
    billingv1_QueryCreditAccountsRequest_GetUnknown billingv1_QueryCreditAccountsRequest_SetUnknown
    billingv1_QueryCreditAccountsRequest_getters.

(** ** QueryCreditAccountsResponse *)

Definition billingv1_QueryCreditAccountsResponse_fields : list string :=
  ["liftedinit.billing.v1.QueryCreditAccountsResponse.credit_accounts";
   "liftedinit.billing.v1.QueryCreditAccountsResponse.pagination"]%string.

Definition billingv1_QueryCreditAccountsResponse_Range (S : Type) (p : option billingv1_QueryCreditAccountsResponse) (f : S → string → value → S * bool) (s : S) : res S :=
  x ← deref p;
  Ok (visit f
   [(has_list (billingv1_QueryCreditAccountsResponse_CreditAccounts x), "liftedinit.billing.v1.QueryCreditAccountsResponse.credit_accounts"%string, VList (L_billingv1_QueryCreditAccountsResponse_1 (Some (billingv1_QueryCreditAccountsResponse_CreditAccounts x))));
    (not_nil (billingv1_QueryCreditAccountsResponse_Pagination x), "liftedinit.billing.v1.QueryCreditAccountsResponse.pagination"%string, VMessage (A_api_PageResponse (billingv1_QueryCreditAccountsResponse_Pagination x)))] s).

Definition billingv1_QueryCreditAccountsResponse_Has (p : option billingv1_QueryCreditAccountsResponse) (fd : string) : res bool :=
  x ← deref p;
  match field_number billingv1_QueryCreditAccountsResponse_fields fd with
  | 1 => Ok (has_list (billingv1_QueryCreditAccountsResponse_CreditAccounts x))
  | 2 => Ok (not_nil (billingv1_QueryCreditAccountsResponse_Pagination x))
  | _ => Panic
  end.

Definition billingv1_QueryCreditAccountsResponse_Clear (p : option billingv1_QueryCreditAccountsResponse) (fd : string) : res (option billingv1_QueryCreditAccountsResponse) :=
  x ← deref p;
  let 'mk_billingv1_QueryCreditAccountsResponse creditAccounts pagination u := x in
  match field_number billingv1_QueryCreditAccountsResponse_fields fd with
  | 1 => Ok (Some (mk_billingv1_QueryCreditAccountsResponse [] pagination u))
  | 2 => Ok (Some (mk_billingv1_QueryCreditAccountsResponse creditAccounts None u))
  | _ => Panic
  end.

Definition billingv1_QueryCreditAccountsResponse_Get (p : option billingv1_QueryCreditAccountsResponse) (fd : string) : res value :=
  x ← deref p;
  match field_number billingv1_QueryCreditAccountsResponse_fields fd with
  | 1 => Ok (VList (L_billingv1_QueryCreditAccountsResponse_1 (view (billingv1_QueryCreditAccountsResponse_CreditAccounts x))))
  | 2 => Ok (VMessage (A_api_PageResponse (billingv1_QueryCreditAccountsResponse_Pagination x)))
  | _ => Panic
  end.

Definition billingv1_QueryCreditAccountsResponse_Set (p : option billingv1_QueryCreditAccountsResponse) (fd : string) (value : value) : res (option billingv1_QueryCreditAccountsResponse) :=
  x ← deref p;
  let 'mk_billingv1_QueryCreditAccountsResponse creditAccounts pagination u := x in
  match field_number billingv1_QueryCreditAccountsResponse_fields fd with
  | 1 => v ← as_L_billingv1_QueryCreditAccountsResponse_1 value; Ok (Some (mk_billingv1_QueryCreditAccountsResponse v pagination u))
  | 2 => v ← as_api_PageResponse value; Ok (Some (mk_billingv1_QueryCreditAccountsResponse creditAccounts v u))
  | _ => Panic
  end.

Definition billingv1_QueryCreditAccountsResponse_Mutable (p : option billingv1_QueryCreditAccountsResponse) (fd : string) : res (option billingv1_QueryCreditAccountsResponse * value) :=
  x ← deref p;
  let 'mk_billingv1_QueryCreditAccountsResponse creditAccounts pagination u := x in
  match field_number billingv1_QueryCreditAccountsResponse_fields fd with
  | 1 => Ok (Some x, VList (L_billingv1_QueryCreditAccountsResponse_1 (Some creditAccounts)))
  | 2 => let v := match pagination with None => Some api_PageResponse_new | Some _ => pagination end in
      Ok (Some (mk_billingv1_QueryCreditAccountsResponse creditAccounts v u), VMessage (A_api_PageResponse v))
  | _ => Panic
  end.

Definition billingv1_QueryCreditAccountsResponse_NewField (fd : string) : res value :=
  match field_number billingv1_QueryCreditAccountsResponse_fields fd with
  | 1 => Ok (VList (L_billingv1_QueryCreditAccountsResponse_1 (Some [])))
  | 2 => Ok (VMessage (A_api_PageResponse (Some api_PageResponse_new)))
  | _ => Panic
  end.

Definition billingv1_QueryCreditAccountsResponse_GetUnknown (p : option billingv1_QueryCreditAccountsResponse) : res bytes := x ← deref p; Ok (billingv1_QueryCreditAccountsResponse_unknownFields x).

Definition billingv1_QueryCreditAccountsResponse_SetUnknown (p : option billingv1_QueryCreditAccountsResponse) (fields : bytes) : res (option billingv1_QueryCreditAccountsResponse) :=
  x ← deref p;
  let 'mk_billingv1_QueryCreditAccountsResponse creditAccounts pagination _ := x in
  Ok (Some (mk_billingv1_QueryCreditAccountsResponse creditAccounts pagination fields)).

Definition billingv1_QueryCreditAccountsResponse_GetCreditAccounts (p : option billingv1_QueryCreditAccountsResponse) : list (option billingv1_CreditAccount) := match p with Some x => billingv1_QueryCreditAccountsResponse_CreditAccounts x | None => [] end.
Definition billingv1_QueryCreditAccountsResponse_GetPagination (p : option billingv1_QueryCreditAccountsResponse) : option api_PageResponse := match p with Some x => billingv1_QueryCreditAccountsResponse_Pagination x | None => None end.

Definition billingv1_QueryCreditAccountsResponse_getters : list (string * (option billingv1_QueryCreditAccountsResponse → value)) :=
  [("liftedinit.billing.v1.QueryCreditAccountsResponse.credit_accounts", λ p, VList (L_billingv1_QueryCreditAccountsResponse_1 (view (billingv1_QueryCreditAccountsResponse_GetCreditAccounts p))));
   ("liftedinit.billing.v1.QueryCreditAccountsResponse.pagination", λ p, VMessage (A_api_PageResponse (billingv1_QueryCreditAccountsResponse_GetPagination p)))]%string.

Definition billingv1_QueryCreditAccountsResponse_reflected : reflected :=
  mkReflected billingv1_QueryCreditAccountsResponse billingv1_QueryCreditAccountsResponse_fields
    billingv1_QueryCreditAccountsResponse_Range billingv1_QueryCreditAccountsResponse_Has
    billingv1_QueryCreditAccountsResponse_Clear billingv1_QueryCreditAccountsResponse_Get
    billingv1_QueryCreditAccountsResponse_Set billingv1_QueryCreditAccountsResponse_Mutable
    billingv1_QueryCreditAccountsResponse_NewField billingv1_QueryCreditAccountsResponse_new
    billingv1_QueryCreditAccountsResponse_GetUnknown billingv1_QueryCreditAccountsResponse_SetUnknown
    billingv1_QueryCreditAccountsResponse_getters.

Definition billingv1_QueryCreditAccountsResponse_1_list : list_methods (option billingv1_CreditAccount) :=
  message_list as_billingv1_CreditAccount A_billingv1_CreditAccount billingv1_CreditAccount_new.

(** ** QueryLeasesBySKURequest *)

Definition billingv1_QueryLeasesBySKURequest_fields : list string :=
  ["liftedinit.billing.v1.QueryLeasesBySKURequest.sku_uuid";
   "liftedinit.billing.v1.QueryLeasesBySKURequest.pagination";
   "liftedinit.billing.v1.QueryLeasesBySKURequest.state_filter"]%string.

Definition billingv1_QueryLeasesBySKURequest_Range (S : Type) (p : option billingv1_QueryLeasesBySKURequest) (f : S → string → value → S * bool) (s : S) : res S :=
  x ← deref p;
  Ok (visit f
   [(has_string (billingv1_QueryLeasesBySKURequest_SkuUuid x), "liftedinit.billing.v1.QueryLeasesBySKURequest.sku_uuid"%string, VString (billingv1_QueryLeasesBySKURequest_SkuUuid x));
    (not_nil (billingv1_QueryLeasesBySKURequest_Pagination x), "liftedinit.billing.v1.QueryLeasesBySKURequest.pagination"%string, VMessage (A_api_PageRequest (billingv1_QueryLeasesBySKURequest_Pagination x)));
    (has_num (billingv1_QueryLeasesBySKURequest_StateFilter x), "liftedinit.billing.v1.QueryLeasesBySKURequest.state_filter"%string, VEnum (billingv1_QueryLeasesBySKURequest_StateFilter x))] s).

Definition billingv1_QueryLeasesBySKURequest_Has (p : option billingv1_QueryLeasesBySKURequest) (fd : string) : res bool :=
  x ← deref p;
  match field_number billingv1_QueryLeasesBySKURequest_fields fd with
  | 1 => Ok (has_string (billingv1_QueryLeasesBySKURequest_SkuUuid x))
  | 2 => Ok (not_nil (billingv1_QueryLeasesBySKURequest_Pagination x))
  | 3 => Ok (has_num (billingv1_QueryLeasesBySKURequest_StateFilter x))
  | _ => Panic
  end.

Definition billingv1_QueryLeasesBySKURequest_Clear (p : option billingv1_QueryLeasesBySKURequest) (fd : string) : res (option billingv1_QueryLeasesBySKURequest) :=
  x ← deref p;
  let 'mk_billingv1_QueryLeasesBySKURequest skuUuid pagination stateFilter u := x in
  match field_number billingv1_QueryLeasesBySKURequest_fields fd with
  | 1 => Ok (Some (mk_billingv1_QueryLeasesBySKURequest "" pagination stateFilter u))
  | 2 => Ok (Some (mk_billingv1_QueryLeasesBySKURequest skuUuid None stateFilter u))
  | 3 => Ok (Some (mk_billingv1_QueryLeasesBySKURequest skuUuid pagination 0 u))
  | _ => Panic
  end.

Definition billingv1_QueryLeasesBySKURequest_Get (p : option billingv1_QueryLeasesBySKURequest) (fd : string) : res value :=
  x ← deref p;
  match field_number billingv1_QueryLeasesBySKURequest_fields fd with
  | 1 => Ok (VString (billingv1_QueryLeasesBySKURequest_SkuUuid x))
  | 2 => Ok (VMessage (A_api_PageRequest (billingv1_QueryLeasesBySKURequest_Pagination x)))
  | 3 => Ok (VEnum (billingv1_QueryLeasesBySKURequest_StateFilter x))
  | _ => Panic
  end.

Definition billingv1_QueryLeasesBySKURequest_Set (p : option billingv1_QueryLeasesBySKURequest) (fd : string) (value : value) : res (option billingv1_QueryLeasesBySKURequest) :=
  x ← deref p;
  let 'mk_billingv1_QueryLeasesBySKURequest skuUuid pagination stateFilter u := x in
  match field_number billingv1_QueryLeasesBySKURequest_fields fd with
  | 1 => v ← as_string value; Ok (Some (mk_billingv1_QueryLeasesBySKURequest v pagination stateFilter u))
  | 2 => v ← as_api_PageRequest value; Ok (Some (mk_billingv1_QueryLeasesBySKURequest skuUuid v stateFilter u))
  | 3 => v ← as_enum value; Ok (Some (mk_billingv1_QueryLeasesBySKURequest skuUuid pagination v u))
  | _ => Panic
  end.

Definition billingv1_QueryLeasesBySKURequest_Mutable (p : option billingv1_QueryLeasesBySKURequest) (fd : string) : res (option billingv1_QueryLeasesBySKURequest * value) :=
  x ← deref p;
  let 'mk_billingv1_QueryLeasesBySKURequest skuUuid pagination stateFilter u := x in
  match field_number billingv1_QueryLeasesBySKURequest_fields fd with
  | 2 => let v := match pagination with None => Some api_PageRequest_new | Some _ => pagination end in
      Ok (Some (mk_billingv1_QueryLeasesBySKURequest skuUuid v stateFilter u), VMessage (A_api_PageRequest v))
  | _ => Panic
  end.

Definition billingv1_QueryLeasesBySKURequest_NewField (fd : string) : res value :=
  match field_number billingv1_QueryLeasesBySKURequest_fields fd with
  | 1 => Ok (VString "")
  | 2 => Ok (VMessage (A_api_PageRequest (Some api_PageRequest_new)))
  | 3 => Ok (VEnum 0)
  | _ => Panic
  end.

Definition billingv1_QueryLeasesBySKURequest_GetUnknown (p : option billingv1_QueryLeasesBySKURequest) : res bytes := x ← deref p; Ok (billingv1_QueryLeasesBySKURequest_unknownFields x).

Definition billingv1_QueryLeasesBySKURequest_SetUnknown (p : option billingv1_QueryLeasesBySKURequest) (fields : bytes) : res (option billingv1_QueryLeasesBySKURequest) :=
  x ← deref p;
  let 'mk_billingv1_QueryLeasesBySKURequest skuUuid pagination stateFilter _ := x in
  Ok (Some (mk_billingv1_QueryLeasesBySKURequest skuUuid pagination stateFilter fields)).

Definition billingv1_QueryLeasesBySKURequest_GetSkuUuid (p : option billingv1_QueryLeasesBySKURequest) : string := match p with Some x => billingv1_QueryLeasesBySKURequest_SkuUuid x | None => "" end.
Definition billingv1_QueryLeasesBySKURequest_GetPagination (p : option billingv1_QueryLeasesBySKURequest) : option api_PageRequest := match p with Some x => billingv1_QueryLeasesBySKURequest_Pagination x | None => None end.
Definition billingv1_QueryLeasesBySKURequest_GetStateFilter (p : option billingv1_QueryLeasesBySKURequest) : Z := match p with Some x => billingv1_QueryLeasesBySKURequest_StateFilter x | None => 0 end.

Definition billingv1_QueryLeasesBySKURequest_getters : list (string * (option billingv1_QueryLeasesBySKURequest → value)) :=
  [("liftedinit.billing.v1.QueryLeasesBySKURequest.sku_uuid", λ p, VString (billingv1_QueryLeasesBySKURequest_GetSkuUuid p));
   ("liftedinit.billing.v1.QueryLeasesBySKURequest.pagination", λ p, VMessage (A_api_PageRequest (billingv1_QueryLeasesBySKURequest_GetPagination p)));
   ("liftedinit.billing.v1.QueryLeasesBySKURequest.state_filter", λ p, VEnum (billingv1_QueryLeasesBySKURequest_GetStateFilter p))]%string.

Definition billingv1_QueryLeasesBySKURequest_reflected : reflected :=
  mkReflected billingv1_QueryLeasesBySKURequest billingv1_QueryLeasesBySKURequest_fields
    billingv1_QueryLeasesBySKURequest_Range billingv1_QueryLeasesBySKURequest_Has
    billingv1_QueryLeasesBySKURequest_Clear billingv1_QueryLeasesBySKURequest_Get
    billingv1_QueryLeasesBySKURequest_Set billingv1_QueryLeasesBySKURequest_Mutable
    billingv1_QueryLeasesBySKURequest_NewField billingv1_QueryLeasesBySKURequest_new
    billingv1_QueryLeasesBySKURequest_GetUnknown billingv1_QueryLeasesBySKURequest_SetUnknown
    billingv1_QueryLeasesBySKURequest_getters.

(** ** QueryLeasesBySKUResponse *)

Definition billingv1_QueryLeasesBySKUResponse_fields : list string :=
  ["liftedinit.billing.v1.QueryLeasesBySKUResponse.leases";
   "liftedinit.billing.v1.QueryLeasesBySKUResponse.pagination"]%string.

Definition billingv1_QueryLeasesBySKUResponse_Range (S : Type) (p : option billingv1_QueryLeasesBySKUResponse) (f : S → string → value → S * bool) (s : S) : res S :=
  x ← deref p;
  Ok (visit f
   [(has_list (billingv1_QueryLeasesBySKUResponse_Leases x), "liftedinit.billing.v1.QueryLeasesBySKUResponse.leases"%string, VList (L_billingv1_QueryLeasesBySKUResponse_1 (Some (billingv1_QueryLeasesBySKUResponse_Leases x))));
    (not_nil (billingv1_QueryLeasesBySKUResponse_Pagination x), "liftedinit.billing.v1.QueryLeasesBySKUResponse.pagination"%string, VMessage (A_api_PageResponse (billingv1_QueryLeasesBySKUResponse_Pagination x)))] s).

Definition billingv1_QueryLeasesBySKUResponse_Has (p : option billingv1_QueryLeasesBySKUResponse) (fd : string) : res bool :=
  x ← deref p;
  match field_number billingv1_QueryLeasesBySKUResponse_fields fd with
  | 1 => Ok (has_list (billingv1_QueryLeasesBySKUResponse_Leases x))
  | 2 => Ok (not_nil (billingv1_QueryLeasesBySKUResponse_Pagination x))
  | _ => Panic
  end.

Definition billingv1_QueryLeasesBySKUResponse_Clear (p : option billingv1_QueryLeasesBySKUResponse) (fd : string) : res (option billingv1_QueryLeasesBySKUResponse) :=
  x ← deref p;
  let 'mk_billingv1_QueryLeasesBySKUResponse leases pagination u := x in
  match field_number billingv1_QueryLeasesBySKUResponse_fields fd with
  | 1 => Ok (Some (mk_billingv1_QueryLeasesBySKUResponse [] pagination u))
  | 2 => Ok (Some (mk_billingv1_QueryLeasesBySKUResponse leases None u))
  | _ => Panic
  end.

Definition billingv1_QueryLeasesBySKUResponse_Get (p : option billingv1_QueryLeasesBySKUResponse) (fd : string) : res value :=
  x ← deref p;
  match field_number billingv1_QueryLeasesBySKUResponse_fields fd with
  | 1 => Ok (VList (L_billingv1_QueryLeasesBySKUResponse_1 (view (billingv1_QueryLeasesBySKUResponse_Leases x))))
  | 2 => Ok (VMessage (A_api_PageResponse (billingv1_QueryLeasesBySKUResponse_Pagination x)))
  | _ => Panic
  end.

Definition billingv1_QueryLeasesBySKUResponse_Set (p : option billingv1_QueryLeasesBySKUResponse) (fd : string) (value : value) : res (option billingv1_QueryLeasesBySKUResponse) :=
  x ← deref p;
  let 'mk_billingv1_QueryLeasesBySKUResponse leases pagination u := x in
  match field_number billingv1_QueryLeasesBySKUResponse_fields fd with
  | 1 => v ← as_L_billingv1_QueryLeasesBySKUResponse_1 value; Ok (Some (mk_billingv1_QueryLeasesBySKUResponse v pagination u))
  | 2 => v ← as_api_PageResponse value; Ok (Some (mk_billingv1_QueryLeasesBySKUResponse leases v u))
  | _ => Panic
  end.

Definition billingv1_QueryLeasesBySKUResponse_Mutable (p : option billingv1_QueryLeasesBySKUResponse) (fd : string) : res (option billingv1_QueryLeasesBySKUResponse * value) :=
  x ← deref p;
  let 'mk_billingv1_QueryLeasesBySKUResponse leases pagination u := x in
  match field_number billingv1_QueryLeasesBySKUResponse_fields fd with
  | 1 => Ok (Some x, VList (L_billingv1_QueryLeasesBySKUResponse_1 (Some leases)))
  | 2 => let v := match pagination with None => Some api_PageResponse_new | Some _ => pagination end in
      Ok (Some (mk_billingv1_QueryLeasesBySKUResponse leases v u), VMessage (A_api_PageResponse v))
  | _ => Panic
  end.

Definition billingv1_QueryLeasesBySKUResponse_NewField (fd : string) : res value :=
  match field_number billingv1_QueryLeasesBySKUResponse_fields fd with
  | 1 => Ok (VList (L_billingv1_QueryLeasesBySKUResponse_1 (Some [])))
  | 2 => Ok (VMessage (A_api_PageResponse (Some api_PageResponse_new)))
  | _ => Panic
  end.

Definition billingv1_QueryLeasesBySKUResponse_GetUnknown (p : option billingv1_QueryLeasesBySKUResponse) : res bytes := x ← deref p; Ok (billingv1_QueryLeasesBySKUResponse_unknownFields x).

Definition billingv1_QueryLeasesBySKUResponse_SetUnknown (p : option billingv1_QueryLeasesBySKUResponse) (fields : bytes) : res (option billingv1_QueryLeasesBySKUResponse) :=
  x ← deref p;
  let 'mk_billingv1_QueryLeasesBySKUResponse leases pagination _ := x in
  Ok (Some (mk_billingv1_QueryLeasesBySKUResponse leases pagination fields)).

Definition billingv1_QueryLeasesBySKUResponse_GetLeases (p : option billingv1_QueryLeasesBySKUResponse) : list (option billingv1_Lease) := match p with Some x => billingv1_QueryLeasesBySKUResponse_Leases x | None => [] end.
Definition billingv1_QueryLeasesBySKUResponse_GetPagination (p : option billingv1_QueryLeasesBySKUResponse) : option api_PageResponse := match p with Some x => billingv1_QueryLeasesBySKUResponse_Pagination x | None => None end.

Definition billingv1_QueryLeasesBySKUResponse_getters : list (string * (option billingv1_QueryLeasesBySKUResponse → value)) :=
  [("liftedinit.billing.v1.QueryLeasesBySKUResponse.leases", λ p, VList (L_billingv1_QueryLeasesBySKUResponse_1 (view (billingv1_QueryLeasesBySKUResponse_GetLeases p))));
   ("liftedinit.billing.v1.QueryLeasesBySKUResponse.pagination", λ p, VMessage (A_api_PageResponse (billingv1_QueryLeasesBySKUResponse_GetPagination p)))]%string.

Definition billingv1_QueryLeasesBySKUResponse_reflected : reflected :=
  mkReflected billingv1_QueryLeasesBySKUResponse billingv1_QueryLeasesBySKUResponse_fields
    billingv1_QueryLeasesBySKUResponse_Range billingv1_QueryLeasesBySKUResponse_Has
    billingv1_QueryLeasesBySKUResponse_Clear billingv1_QueryLeasesBySKUResponse_Get
    billingv1_QueryLeasesBySKUResponse_Set billingv1_QueryLeasesBySKUResponse_Mutable
    billingv1_QueryLeasesBySKUResponse_NewField billingv1_QueryLeasesBySKUResponse_new
    billingv1_QueryLeasesBySKUResponse_GetUnknown billingv1_QueryLeasesBySKUResponse_SetUnknown
    billingv1_QueryLeasesBySKUResponse_getters.

Definition billingv1_QueryLeasesBySKUResponse_1_list : list_methods (option billingv1_Lease) :=
  message_list as_billingv1_Lease A_billingv1_Lease billingv1_Lease_new.

(** ** QueryCreditEstimateRequest *)

Definition billingv1_QueryCreditEstimateRequest_fields : list string :=
  ["liftedinit.billing.v1.QueryCreditEstimateRequest.tenant"]%string.

Definition billingv1_QueryCreditEstimateRequest_Range (S : Type) (p : option billingv1_QueryCreditEstimateRequest) (f : S → string → value → S * bool) (s : S) : res S :=
  x ← deref p;
  Ok (visit f
   [(has_string (billingv1_QueryCreditEstimateRequest_Tenant x), "liftedinit.billing.v1.QueryCreditEstimateRequest.tenant"%string, VString (billingv1_QueryCreditEstimateRequest_Tenant x))] s).

Definition billingv1_QueryCreditEstimateRequest_Has (p : option billingv1_QueryCreditEstimateRequest) (fd : string) : res bool :=
  x ← deref p;
  match field_number billingv1_QueryCreditEstimateRequest_fields fd with
  | 1 => Ok (has_string (billingv1_QueryCreditEstimateRequest_Tenant x))
  | _ => Panic
  end.

Definition billingv1_QueryCreditEstimateRequest_Clear (p : option billingv1_QueryCreditEstimateRequest) (fd : string) : res (option billingv1_QueryCreditEstimateRequest) :=
  x ← deref p;
  let 'mk_billingv1_QueryCreditEstimateRequest tenant u := x in
  match field_number billingv1_QueryCreditEstimateRequest_fields fd with
  | 1 => Ok (Some (mk_billingv1_QueryCreditEstimateRequest "" u))
  | _ => Panic
  end.

Definition billingv1_QueryCreditEstimateRequest_Get (p : option billingv1_QueryCreditEstimateRequest) (fd : string) : res value :=
  x ← deref p;
  match field_number billingv1_QueryCreditEstimateRequest_fields fd with
  | 1 => Ok (VString (billingv1_QueryCreditEstimateRequest_Tenant x))
  | _ => Panic
  end.

Definition billingv1_QueryCreditEstimateRequest_Set (p : option billingv1_QueryCreditEstimateRequest) (fd : string) (value : value) : res (option billingv1_QueryCreditEstimateRequest) :=
  x ← deref p;
  let 'mk_billingv1_QueryCreditEstimateRequest tenant u := x in
  match field_number billingv1_QueryCreditEstimateRequest_fields fd with
  | 1 => v ← as_string value; Ok (Some (mk_billingv1_QueryCreditEstimateRequest v u))
  | _ => Panic
  end.

Definition billingv1_QueryCreditEstimateRequest_Mutable (p : option billingv1_QueryCreditEstimateRequest) (fd : string) : res (option billingv1_QueryCreditEstimateRequest * value) := Panic.

Definition billingv1_QueryCreditEstimateRequest_NewField (fd : string) : res value :=
  match field_number billingv1_QueryCreditEstimateRequest_fields fd with
  | 1 => Ok (VString "")
  | _ => Panic
  end.

Definition billingv1_QueryCreditEstimateRequest_GetUnknown (p : option billingv1_QueryCreditEstimateRequest) : res bytes := x ← deref p; Ok (billingv1_QueryCreditEstimateRequest_unknownFields x).

Definition billingv1_QueryCreditEstimateRequest_SetUnknown (p : option billingv1_QueryCreditEstimateRequest) (fields : bytes) : res (option billingv1_QueryCreditEstimateRequest) :=
  x ← deref p;
  let 'mk_billingv1_QueryCreditEstimateRequest tenant _ := x in
  Ok (Some (mk_billingv1_QueryCreditEstimateRequest tenant fields)).

Definition billingv1_QueryCreditEstimateRequest_GetTenant (p : option billingv1_QueryCreditEstimateRequest) : string := match p with Some x => billingv1_QueryCreditEstimateRequest_Tenant x | None => "" end.

Definition billingv1_QueryCreditEstimateRequest_getters : list (string * (option billingv1_QueryCreditEstimateRequest → value)) :=
  [("liftedinit.billing.v1.QueryCreditEstimateRequest.tenant", λ p, VString (billingv1_QueryCreditEstimateRequest_GetTenant p))]%string.

Definition billingv1_QueryCreditEstimateRequest_reflected : reflected :=
  mkReflected billingv1_QueryCreditEstimateRequest billingv1_QueryCreditEstimateRequest_fields
    billingv1_QueryCreditEstimateRequest_Range billingv1_QueryCreditEstimateRequest_Has
    billingv1_QueryCreditEstimateRequest_Clear billingv1_QueryCreditEstimateRequest_Get
    billingv1_QueryCreditEstimateRequest_Set billingv1_QueryCreditEstimateRequest_Mutable
    billingv1_QueryCreditEstimateRequest_NewField billingv1_QueryCreditEstimateRequest_new
    billingv1_QueryCreditEstimateRequest_GetUnknown billingv1_QueryCreditEstimateRequest_SetUnknown
    billingv1_QueryCreditEstimateRequest_getters.

(** ** QueryCreditEstimateResponse *)

Definition billingv1_QueryCreditEstimateResponse_fields : list string :=
  ["liftedinit.billing.v1.QueryCreditEstimateResponse.current_balance";
   "liftedinit.billing.v1.QueryCreditEstimateResponse.total_rate_per_second";
   "liftedinit.billing.v1.QueryCreditEstimateResponse.estimated_duration_seconds";
   "liftedinit.billing.v1.QueryCreditEstimateResponse.active_lease_count"]%string.

Definition billingv1_QueryCreditEstimateResponse_Range (S : Type) (p : option billingv1_QueryCreditEstimateResponse) (f : S → string → value → S * bool) (s : S) : res S :=
  x ← deref p;
  Ok (visit f
   [(has_list (billingv1_QueryCreditEstimateResponse_CurrentBalance x), "liftedinit.billing.v1.QueryCreditEstimateResponse.current_balance"%string, VList (L_billingv1_QueryCreditEstimateResponse_1 (Some (billingv1_QueryCreditEstimateResponse_CurrentBalance x))));
    (has_list (billingv1_QueryCreditEstimateResponse_TotalRatePerSecond x), "liftedinit.billing.v1.QueryCreditEstimateResponse.total_rate_per_second"%string, VList (L_billingv1_QueryCreditEstimateResponse_2 (Some (billingv1_QueryCreditEstimateResponse_TotalRatePerSecond x))));
    (has_num (billingv1_QueryCreditEstimateResponse_EstimatedDurationSeconds x), "liftedinit.billing.v1.QueryCreditEstimateResponse.estimated_duration_seconds"%string, VUint64 (billingv1_QueryCreditEstimateResponse_EstimatedDurationSeconds x));
    (has_num (billingv1_QueryCreditEstimateResponse_ActiveLeaseCount x), "liftedinit.billing.v1.QueryCreditEstimateResponse.active_lease_count"%string, VUint64 (billingv1_QueryCreditEstimateResponse_ActiveLeaseCount x))] s).

Definition billingv1_QueryCreditEstimateResponse_Has (p : option billingv1_QueryCreditEstimateResponse) (fd : string) : res bool :=
  x ← deref p;
  match field_number billingv1_QueryCreditEstimateResponse_fields fd with
  | 1 => Ok (has_list (billingv1_QueryCreditEstimateResponse_CurrentBalance x))
  | 2 => Ok (has_list (billingv1_QueryCreditEstimateResponse_TotalRatePerSecond x))
  | 3 => Ok (has_num (billingv1_QueryCreditEstimateResponse_EstimatedDurationSeconds x))
  | 4 => Ok (has_num (billingv1_QueryCreditEstimateResponse_ActiveLeaseCount x))
  | _ => Panic
  end.

Definition billingv1_QueryCreditEstimateResponse_Clear (p : option billingv1_QueryCreditEstimateResponse) (fd : string) : res (option billingv1_QueryCreditEstimateResponse) :=
  x ← deref p;
  let 'mk_billingv1_QueryCreditEstimateResponse currentBalance totalRatePerSecond estimatedDurationSeconds
    activeLeaseCount u := x in
  match field_number billingv1_QueryCreditEstimateResponse_fields fd with
  | 1 => Ok (Some (mk_billingv1_QueryCreditEstimateResponse [] totalRatePerSecond estimatedDurationSeconds activeLeaseCount u))
  | 2 => Ok (Some (mk_billingv1_QueryCreditEstimateResponse currentBalance [] estimatedDurationSeconds activeLeaseCount u))
  | 3 => Ok (Some (mk_billingv1_QueryCreditEstimateResponse currentBalance totalRatePerSecond 0 activeLeaseCount u))
  | 4 => Ok (Some (mk_billingv1_QueryCreditEstimateResponse currentBalance totalRatePerSecond estimatedDurationSeconds 0 u))
  | _ => Panic
  end.

Definition billingv1_QueryCreditEstimateResponse_Get (p : option billingv1_QueryCreditEstimateResponse) (fd : string) : res value :=
  x ← deref p;
  match field_number billingv1_QueryCreditEstimateResponse_fields fd with
  | 1 => Ok (VList (L_billingv1_QueryCreditEstimateResponse_1 (view (billingv1_QueryCreditEstimateResponse_CurrentBalance x))))
  | 2 => Ok (VList (L_billingv1_QueryCreditEstimateResponse_2 (view (billingv1_QueryCreditEstimateResponse_TotalRatePerSecond x))))
  | 3 => Ok (VUint64 (billingv1_QueryCreditEstimateResponse_EstimatedDurationSeconds x))
  | 4 => Ok (VUint64 (billingv1_QueryCreditEstimateResponse_ActiveLeaseCount x))
  | _ => Panic
  end.

Definition billingv1_QueryCreditEstimateResponse_Set (p : option billingv1_QueryCreditEstimateResponse) (fd : string) (value : value) : res (option billingv1_QueryCreditEstimateResponse) :=
  x ← deref p;
  let 'mk_billingv1_QueryCreditEstimateResponse currentBalance totalRatePerSecond estimatedDurationSeconds
    activeLeaseCount u := x in
  match field_number billingv1_QueryCreditEstimateResponse_fields fd with
  | 1 => v ← as_L_billingv1_QueryCreditEstimateResponse_1 value; Ok (Some (mk_billingv1_QueryCreditEstimateResponse v totalRatePerSecond estimatedDurationSeconds activeLeaseCount u))
  | 2 => v ← as_L_billingv1_QueryCreditEstimateResponse_2 value; Ok (Some (mk_billingv1_QueryCreditEstimateResponse currentBalance v estimatedDurationSeconds activeLeaseCount u))
  | 3 => v ← as_uint value; Ok (Some (mk_billingv1_QueryCreditEstimateResponse currentBalance totalRatePerSecond v activeLeaseCount u))
  | 4 => v ← as_uint value; Ok (Some (mk_billingv1_QueryCreditEstimateResponse currentBalance totalRatePerSecond estimatedDurationSeconds v u))
  | _ => Panic
  end.

Definition billingv1_QueryCreditEstimateResponse_Mutable (p : option billingv1_QueryCreditEstimateResponse) (fd : string) : res (option billingv1_QueryCreditEstimateResponse * value) :=
  x ← deref p;
  let 'mk_billingv1_QueryCreditEstimateResponse currentBalance totalRatePerSecond estimatedDurationSeconds
    activeLeaseCount u := x in
  match field_number billingv1_QueryCreditEstimateResponse_fields fd with
  | 1 => Ok (Some x, VList (L_billingv1_QueryCreditEstimateResponse_1 (Some currentBalance)))
  | 2 => Ok (Some x, VList (L_billingv1_QueryCreditEstimateResponse_2 (Some totalRatePerSecond)))
  | _ => Panic
  end.

Definition billingv1_QueryCreditEstimateResponse_NewField (fd : string) : res value :=
  match field_number billingv1_QueryCreditEstimateResponse_fields fd with
  | 1 => Ok (VList (L_billingv1_QueryCreditEstimateResponse_1 (Some [])))
  | 2 => Ok (VList (L_billingv1_QueryCreditEstimateResponse_2 (Some [])))
  | 3 => Ok (VUint64 0)
  | 4 => Ok (VUint64 0)
  | _ => Panic
  end.

Definition billingv1_QueryCreditEstimateResponse_GetUnknown (p : option billingv1_QueryCreditEstimateResponse) : res bytes := x ← deref p; Ok (billingv1_QueryCreditEstimateResponse_unknownFields x).

Definition billingv1_QueryCreditEstimateResponse_SetUnknown (p : option billingv1_QueryCreditEstimateResponse) (fields : bytes) : res (option billingv1_QueryCreditEstimateResponse) :=
  x ← deref p;
  let 'mk_billingv1_QueryCreditEstimateResponse currentBalance totalRatePerSecond estimatedDurationSeconds
    activeLeaseCount _ := x in
  Ok (Some (mk_billingv1_QueryCreditEstimateResponse currentBalance totalRatePerSecond estimatedDurationSeconds activeLeaseCount fields)).

Definition billingv1_QueryCreditEstimateResponse_GetCurrentBalance (p : option billingv1_QueryCreditEstimateResponse) : list (option api_Coin) := match p with Some x => billingv1_QueryCreditEstimateResponse_CurrentBalance x | None => [] end.
Definition billingv1_QueryCreditEstimateResponse_GetTotalRatePerSecond (p : option billingv1_QueryCreditEstimateResponse) : list (option api_Coin) := match p with Some x => billingv1_QueryCreditEstimateResponse_TotalRatePerSecond x | None => [] end.
Definition billingv1_QueryCreditEstimateResponse_GetEstimatedDurationSeconds (p : option billingv1_QueryCreditEstimateResponse) : Z := match p with Some x => billingv1_QueryCreditEstimateResponse_EstimatedDurationSeconds x | None => 0 end.
Definition billingv1_QueryCreditEstimateResponse_GetActiveLeaseCount (p : option billingv1_QueryCreditEstimateResponse) : Z := match p with Some x => billingv1_QueryCreditEstimateResponse_ActiveLeaseCount x | None => 0 end.

Definition billingv1_QueryCreditEstimateResponse_getters : list (string * (option billingv1_QueryCreditEstimateResponse → value)) :=
  [("liftedinit.billing.v1.QueryCreditEstimateResponse.current_balance", λ p, VList (L_billingv1_QueryCreditEstimateResponse_1 (view (billingv1_QueryCreditEstimateResponse_GetCurrentBalance p))));
   ("liftedinit.billing.v1.QueryCreditEstimateResponse.total_rate_per_second", λ p, VList (L_billingv1_QueryCreditEstimateResponse_2 (view (billingv1_QueryCreditEstimateResponse_GetTotalRatePerSecond p))));
   ("liftedinit.billing.v1.QueryCreditEstimateResponse.estimated_duration_seconds", λ p, VUint64 (billingv1_QueryCreditEstimateResponse_GetEstimatedDurationSeconds p));
   ("liftedinit.billing.v1.QueryCreditEstimateResponse.active_lease_count", λ p, VUint64 (billingv1_QueryCreditEstimateResponse_GetActiveLeaseCount p))]%string.

Definition billingv1_QueryCreditEstimateResponse_reflected : reflected :=
  mkReflected billingv1_QueryCreditEstimateResponse billingv1_QueryCreditEstimateResponse_fields
    billingv1_QueryCreditEstimateResponse_Range billingv1_QueryCreditEstimateResponse_Has
    billingv1_QueryCreditEstimateResponse_Clear billingv1_QueryCreditEstimateResponse_Get
    billingv1_QueryCreditEstimateResponse_Set billingv1_QueryCreditEstimateResponse_Mutable
    billingv1_QueryCreditEstimateResponse_NewField billingv1_QueryCreditEstimateResponse_new
    billingv1_QueryCreditEstimateResponse_GetUnknown billingv1_QueryCreditEstimateResponse_SetUnknown
    billingv1_QueryCreditEstimateResponse_getters.

Definition billingv1_QueryCreditEstimateResponse_1_list : list_methods (option api_Coin) :=
  message_list as_api_Coin A_api_Coin api_Coin_new.

Definition billingv1_QueryCreditEstimateResponse_2_list : list_methods (option api_Coin) :=
  message_list as_api_Coin A_api_Coin api_Coin_new.

(** ** QueryLeaseByCustomDomainRequest *)

Definition billingv1_QueryLeaseByCustomDomainRequest_fields : list string :=
  ["liftedinit.billing.v1.QueryLeaseByCustomDomainRequest.custom_domain"]%string.

Definition billingv1_QueryLeaseByCustomDomainRequest_Range (S : Type) (p : option billingv1_QueryLeaseByCustomDomainRequest) (f : S → string → value → S * bool) (s : S) : res S :=
  x ← deref p;
  Ok (visit f
   [(has_string (billingv1_QueryLeaseByCustomDomainRequest_CustomDomain x), "liftedinit.billing.v1.QueryLeaseByCustomDomainRequest.custom_domain"%string, VString (billingv1_QueryLeaseByCustomDomainRequest_CustomDomain x))] s).

Definition billingv1_QueryLeaseByCustomDomainRequest_Has (p : option billingv1_QueryLeaseByCustomDomainRequest) (fd : string) : res bool :=
  x ← deref p;
  match field_number billingv1_QueryLeaseByCustomDomainRequest_fields fd with
  | 1 => Ok (has_string (billingv1_QueryLeaseByCustomDomainRequest_CustomDomain x))
  | _ => Panic
  end.

Definition billingv1_QueryLeaseByCustomDomainRequest_Clear (p : option billingv1_QueryLeaseByCustomDomainRequest) (fd : string) : res (option billingv1_QueryLeaseByCustomDomainRequest) :=
  x ← deref p;
  let 'mk_billingv1_QueryLeaseByCustomDomainRequest customDomain u := x in
  match field_number billingv1_QueryLeaseByCustomDomainRequest_fields fd with
  | 1 => Ok (Some (mk_billingv1_QueryLeaseByCustomDomainRequest "" u))
  | _ => Panic
  end.

Definition billingv1_QueryLeaseByCustomDomainRequest_Get (p : option billingv1_QueryLeaseByCustomDomainRequest) (fd : string) : res value :=
  x ← deref p;
  match field_number billingv1_QueryLeaseByCustomDomainRequest_fields fd with
  | 1 => Ok (VString (billingv1_QueryLeaseByCustomDomainRequest_CustomDomain x))
  | _ => Panic
  end.

Definition billingv1_QueryLeaseByCustomDomainRequest_Set (p : option billingv1_QueryLeaseByCustomDomainRequest) (fd : string) (value : value) : res (option billingv1_QueryLeaseByCustomDomainRequest) :=
  x ← deref p;
  let 'mk_billingv1_QueryLeaseByCustomDomainRequest customDomain u := x in
  match field_number billingv1_QueryLeaseByCustomDomainRequest_fields fd with
  | 1 => v ← as_string value; Ok (Some (mk_billingv1_QueryLeaseByCustomDomainRequest v u))
  | _ => Panic
  end.

Definition billingv1_QueryLeaseByCustomDomainRequest_Mutable (p : option billingv1_QueryLeaseByCustomDomainRequest) (fd : string) : res (option billingv1_QueryLeaseByCustomDomainRequest * value) := Panic.

Definition billingv1_QueryLeaseByCustomDomainRequest_NewField (fd : string) : res value :=
  match field_number billingv1_QueryLeaseByCustomDomainRequest_fields fd with
  | 1 => Ok (VString "")
  | _ => Panic
  end.

Definition billingv1_QueryLeaseByCustomDomainRequest_GetUnknown (p : option billingv1_QueryLeaseByCustomDomainRequest) : res bytes := x ← deref p; Ok (billingv1_QueryLeaseByCustomDomainRequest_unknownFields x).

Definition billingv1_QueryLeaseByCustomDomainRequest_SetUnknown (p : option billingv1_QueryLeaseByCustomDomainRequest) (fields : bytes) : res (option billingv1_QueryLeaseByCustomDomainRequest) :=
  x ← deref p;
  let 'mk_billingv1_QueryLeaseByCustomDomainRequest customDomain _ := x in
  Ok (Some (mk_billingv1_QueryLeaseByCustomDomainRequest customDomain fields)).

Definition billingv1_QueryLeaseByCustomDomainRequest_GetCustomDomain (p : option billingv1_QueryLeaseByCustomDomainRequest) : string := match p with Some x => billingv1_QueryLeaseByCustomDomainRequest_CustomDomain x | None => "" end.

Definition billingv1_QueryLeaseByCustomDomainRequest_getters : list (string * (option billingv1_QueryLeaseByCustomDomainRequest → value)) :=
  [("liftedinit.billing.v1.QueryLeaseByCustomDomainRequest.custom_domain", λ p, VString (billingv1_QueryLeaseByCustomDomainRequest_GetCustomDomain p))]%string.

Definition billingv1_QueryLeaseByCustomDomainRequest_reflected : reflected :=
  mkReflected billingv1_QueryLeaseByCustomDomainRequest billingv1_QueryLeaseByCustomDomainRequest_fields
    billingv1_QueryLeaseByCustomDomainRequest_Range billingv1_QueryLeaseByCustomDomainRequest_Has
    billingv1_QueryLeaseByCustomDomainRequest_Clear billingv1_QueryLeaseByCustomDomainRequest_Get
    billingv1_QueryLeaseByCustomDomainRequest_Set billingv1_QueryLeaseByCustomDomainRequest_Mutable
    billingv1_QueryLeaseByCustomDomainRequest_NewField billingv1_QueryLeaseByCustomDomainRequest_new
    billingv1_QueryLeaseByCustomDomainRequest_GetUnknown billingv1_QueryLeaseByCustomDomainRequest_SetUnknown
    billingv1_QueryLeaseByCustomDomainRequest_getters.

(** ** QueryLeaseByCustomDomainResponse *)

Definition billingv1_QueryLeaseByCustomDomainResponse_fields : list string :=
  ["liftedinit.billing.v1.QueryLeaseByCustomDomainResponse.lease";
   "liftedinit.billing.v1.QueryLeaseByCustomDomainResponse.service_name"]%string.

Definition billingv1_QueryLeaseByCustomDomainResponse_Range (S : Type) (p : option billingv1_QueryLeaseByCustomDomainResponse) (f : S → string → value → S * bool) (s : S) : res S :=
  x ← deref p;
  Ok (visit f
   [(not_nil (billingv1_QueryLeaseByCustomDomainResponse_Lease x), "liftedinit.billing.v1.QueryLeaseByCustomDomainResponse.lease"%string, VMessage (A_billingv1_Lease (billingv1_QueryLeaseByCustomDomainResponse_Lease x)));
    (has_string (billingv1_QueryLeaseByCustomDomainResponse_ServiceName x), "liftedinit.billing.v1.QueryLeaseByCustomDomainResponse.service_name"%string, VString (billingv1_QueryLeaseByCustomDomainResponse_ServiceName x))] s).

Definition billingv1_QueryLeaseByCustomDomainResponse_Has (p : option billingv1_QueryLeaseByCustomDomainResponse) (fd : string) : res bool :=
  x ← deref p;
  match field_number billingv1_QueryLeaseByCustomDomainResponse_fields fd with
  | 1 => Ok (not_nil (billingv1_QueryLeaseByCustomDomainResponse_Lease x))
  | 2 => Ok (has_string (billingv1_QueryLeaseByCustomDomainResponse_ServiceName x))
  | _ => Panic
  end.

Definition billingv1_QueryLeaseByCustomDomainResponse_Clear (p : option billingv1_QueryLeaseByCustomDomainResponse) (fd : string) : res (option billingv1_QueryLeaseByCustomDomainResponse) :=
  x ← deref p;
  let 'mk_billingv1_QueryLeaseByCustomDomainResponse lease serviceName u := x in
  match field_number billingv1_QueryLeaseByCustomDomainResponse_fields fd with
  | 1 => Ok (Some (mk_billingv1_QueryLeaseByCustomDomainResponse None serviceName u))
  | 2 => Ok (Some (mk_billingv1_QueryLeaseByCustomDomainResponse lease "" u))
  | _ => Panic
  end.

Definition billingv1_QueryLeaseByCustomDomainResponse_Get (p : option billingv1_QueryLeaseByCustomDomainResponse) (fd : string) : res value :=
  x ← deref p;
  match field_number billingv1_QueryLeaseByCustomDomainResponse_fields fd with
  | 1 => Ok (VMessage (A_billingv1_Lease (billingv1_QueryLeaseByCustomDomainResponse_Lease x)))
  | 2 => Ok (VString (billingv1_QueryLeaseByCustomDomainResponse_ServiceName x))
  | _ => Panic
  end.

Definition billingv1_QueryLeaseByCustomDomainResponse_Set (p : option billingv1_QueryLeaseByCustomDomainResponse) (fd : string) (value : value) : res (option billingv1_QueryLeaseByCustomDomainResponse) :=
  x ← deref p;
  let 'mk_billingv1_QueryLeaseByCustomDomainResponse lease serviceName u := x in
  match field_number billingv1_QueryLeaseByCustomDomainResponse_fields fd with
  | 1 => v ← as_billingv1_Lease value; Ok (Some (mk_billingv1_QueryLeaseByCustomDomainResponse v serviceName u))
  | 2 => v ← as_string value; Ok (Some (mk_billingv1_QueryLeaseByCustomDomainResponse lease v u))
  | _ => Panic
  end.

Definition billingv1_QueryLeaseByCustomDomainResponse_Mutable (p : option billingv1_QueryLeaseByCustomDomainResponse) (fd : string) : res (option billingv1_QueryLeaseByCustomDomainResponse * value) :=
  x ← deref p;
  let 'mk_billingv1_QueryLeaseByCustomDomainResponse lease serviceName u := x in
  match field_number billingv1_QueryLeaseByCustomDomainResponse_fields fd with
  | 1 => let v := match lease with None => Some billingv1_Lease_new | Some _ => lease end in
      Ok (Some (mk_billingv1_QueryLeaseByCustomDomainResponse v serviceName u), VMessage (A_billingv1_Lease v))
  | _ => Panic
  end.

Definition billingv1_QueryLeaseByCustomDomainResponse_NewField (fd : string) : res value :=
  match field_number billingv1_QueryLeaseByCustomDomainResponse_fields fd with
  | 1 => Ok (VMessage (A_billingv1_Lease (Some billingv1_Lease_new)))
  | 2 => Ok (VString "")
  | _ => Panic
  end.

Definition billingv1_QueryLeaseByCustomDomainResponse_GetUnknown (p : option billingv1_QueryLeaseByCustomDomainResponse) : res bytes := x ← deref p; Ok (billingv1_QueryLeaseByCustomDomainResponse_unknownFields x).

Definition billingv1_QueryLeaseByCustomDomainResponse_SetUnknown (p : option billingv1_QueryLeaseByCustomDomainResponse) (fields : bytes) : res (option billingv1_QueryLeaseByCustomDomainResponse) :=
  x ← deref p;
  let 'mk_billingv1_QueryLeaseByCustomDomainResponse lease serviceName _ := x in
  Ok (Some (mk_billingv1_QueryLeaseByCustomDomainResponse lease serviceName fields)).

Definition billingv1_QueryLeaseByCustomDomainResponse_GetLease (p : option billingv1_QueryLeaseByCustomDomainResponse) : option billingv1_Lease := match p with Some x => billingv1_QueryLeaseByCustomDomainResponse_Lease x | None => None end.
Definition billingv1_QueryLeaseByCustomDomainResponse_GetServiceName (p : option billingv1_QueryLeaseByCustomDomainResponse) : string := match p with Some x => billingv1_QueryLeaseByCustomDomainResponse_ServiceName x | None => "" end.

Definition billingv1_QueryLeaseByCustomDomainResponse_getters : list (string * (option billingv1_QueryLeaseByCustomDomainResponse → value)) :=
  [("liftedinit.billing.v1.QueryLeaseByCustomDomainResponse.lease", λ p, VMessage (A_billingv1_Lease (billingv1_QueryLeaseByCustomDomainResponse_GetLease p)));
   ("liftedinit.billing.v1.QueryLeaseByCustomDomainResponse.service_name", λ p, VString (billingv1_QueryLeaseByCustomDomainResponse_GetServiceName p))]%string.

Definition billingv1_QueryLeaseByCustomDomainResponse_reflected : reflected :=
  mkReflected billingv1_QueryLeaseByCustomDomainResponse billingv1_QueryLeaseByCustomDomainResponse_fields
    billingv1_QueryLeaseByCustomDomainResponse_Range billingv1_QueryLeaseByCustomDomainResponse_Has
    billingv1_QueryLeaseByCustomDomainResponse_Clear billingv1_QueryLeaseByCustomDomainResponse_Get
    billingv1_QueryLeaseByCustomDomainResponse_Set billingv1_QueryLeaseByCustomDomainResponse_Mutable
    billingv1_QueryLeaseByCustomDomainResponse_NewField billingv1_QueryLeaseByCustomDomainResponse_new
    billingv1_QueryLeaseByCustomDomainResponse_GetUnknown billingv1_QueryLeaseByCustomDomainResponse_SetUnknown
    billingv1_QueryLeaseByCustomDomainResponse_getters.

Definition billing_query_reflected : list reflected :=
  [billingv1_QueryParamsRequest_reflected; billingv1_QueryParamsResponse_reflected;
   billingv1_QueryLeaseRequest_reflected; billingv1_QueryLeaseResponse_reflected;
   billingv1_QueryLeasesRequest_reflected; billingv1_QueryLeasesResponse_reflected;
   billingv1_QueryLeasesByTenantRequest_reflected; billingv1_QueryLeasesByTenantResponse_reflected;
   billingv1_QueryLeasesByProviderRequest_reflected; billingv1_QueryLeasesByProviderResponse_reflected;
   billingv1_QueryCreditAccountRequest_reflected; billingv1_QueryCreditAccountResponse_reflected;
   billingv1_QueryCreditAddressRequest_reflected; billingv1_QueryCreditAddressResponse_reflected;
   billingv1_QueryWithdrawableAmountRequest_reflected; billingv1_QueryWithdrawableAmountResponse_reflected;
   billingv1_QueryProviderWithdrawableRequest_reflected; billingv1_QueryProviderWithdrawableResponse_reflected;
   billingv1_QueryCreditAccountsRequest_reflected; billingv1_QueryCreditAccountsResponse_reflected;
   billingv1_QueryLeasesBySKURequest_reflected; billingv1_QueryLeasesBySKUResponse_reflected;
   billingv1_QueryCreditEstimateRequest_reflected; billingv1_QueryCreditEstimateResponse_reflected;
   billingv1_QueryLeaseByCustomDomainRequest_reflected; billingv1_QueryLeaseByCustomDomainResponse_reflected].

Definition billing_query_lists : list {T & list_methods T} :=
  [existT _ billingv1_QueryLeasesResponse_1_list; existT _ billingv1_QueryLeasesByTenantResponse_1_list; existT _
   billingv1_QueryLeasesByProviderResponse_1_list; existT _ billingv1_QueryCreditAccountResponse_2_list; existT _
   billingv1_QueryCreditAccountResponse_3_list; existT _ billingv1_QueryWithdrawableAmountResponse_1_list; existT _
   billingv1_QueryProviderWithdrawableResponse_1_list; existT _ billingv1_QueryCreditAccountsResponse_1_list; existT _
   billingv1_QueryLeasesBySKUResponse_1_list; existT _ billingv1_QueryCreditEstimateResponse_1_list; existT _
   billingv1_QueryCreditEstimateResponse_2_list].

(** ** Contracts *)

Lemma billingv1_QueryParamsRequest_contract : contract billingv1_QueryParamsRequest_reflected.
Proof.
  unfold billingv1_QueryParamsRequest_reflected; solve_empty_contract by unfold billingv1_QueryParamsRequest_Range,
    billingv1_QueryParamsRequest_Has, billingv1_QueryParamsRequest_Clear, billingv1_QueryParamsRequest_Get,
    billingv1_QueryParamsRequest_Set, billingv1_QueryParamsRequest_Mutable, billingv1_QueryParamsRequest_NewField,
    billingv1_QueryParamsRequest_GetUnknown, billingv1_QueryParamsRequest_SetUnknown,
    billingv1_QueryParamsRequest_getters.
Qed.

Lemma billingv1_QueryParamsResponse_contract : contract billingv1_QueryParamsResponse_reflected.
Proof.
  unfold billingv1_QueryParamsResponse_reflected; solve_contract by unfold billingv1_QueryParamsResponse_Range,
    billingv1_QueryParamsResponse_Has, billingv1_QueryParamsResponse_Clear, billingv1_QueryParamsResponse_Get,
    billingv1_QueryParamsResponse_Set, billingv1_QueryParamsResponse_Mutable, billingv1_QueryParamsResponse_NewField,
    billingv1_QueryParamsResponse_GetUnknown, billingv1_QueryParamsResponse_SetUnknown,
    billingv1_QueryParamsResponse_getters.
Qed.

Lemma billingv1_QueryLeaseRequest_contract : contract billingv1_QueryLeaseRequest_reflected.
Proof.
  unfold billingv1_QueryLeaseRequest_reflected; solve_contract by unfold billingv1_QueryLeaseRequest_Range,
    billingv1_QueryLeaseRequest_Has, billingv1_QueryLeaseRequest_Clear, billingv1_QueryLeaseRequest_Get,
    billingv1_QueryLeaseRequest_Set, billingv1_QueryLeaseRequest_Mutable, billingv1_QueryLeaseRequest_NewField,
    billingv1_QueryLeaseRequest_GetUnknown, billingv1_QueryLeaseRequest_SetUnknown,
    billingv1_QueryLeaseRequest_getters.
Qed.

Lemma billingv1_QueryLeaseResponse_contract : contract billingv1_QueryLeaseResponse_reflected.
Proof.
  unfold billingv1_QueryLeaseResponse_reflected; solve_contract by unfold billingv1_QueryLeaseResponse_Range,
    billingv1_QueryLeaseResponse_Has, billingv1_QueryLeaseResponse_Clear, billingv1_QueryLeaseResponse_Get,
    billingv1_QueryLeaseResponse_Set, billingv1_QueryLeaseResponse_Mutable, billingv1_QueryLeaseResponse_NewField,
    billingv1_QueryLeaseResponse_GetUnknown, billingv1_QueryLeaseResponse_SetUnknown,
    billingv1_QueryLeaseResponse_getters.
Qed.

Lemma billingv1_QueryLeasesRequest_contract : contract billingv1_QueryLeasesRequest_reflected.
Proof.
  unfold billingv1_QueryLeasesRequest_reflected; solve_contract by unfold billingv1_QueryLeasesRequest_Range,
    billingv1_QueryLeasesRequest_Has, billingv1_QueryLeasesRequest_Clear, billingv1_QueryLeasesRequest_Get,
    billingv1_QueryLeasesRequest_Set, billingv1_QueryLeasesRequest_Mutable, billingv1_QueryLeasesRequest_NewField,
    billingv1_QueryLeasesRequest_GetUnknown, billingv1_QueryLeasesRequest_SetUnknown,
    billingv1_QueryLeasesRequest_getters.
Qed.

Lemma billingv1_QueryLeasesResponse_contract : contract billingv1_QueryLeasesResponse_reflected.
Proof.
  unfold billingv1_QueryLeasesResponse_reflected; solve_contract by unfold billingv1_QueryLeasesResponse_Range,
    billingv1_QueryLeasesResponse_Has, billingv1_QueryLeasesResponse_Clear, billingv1_QueryLeasesResponse_Get,
    billingv1_QueryLeasesResponse_Set, billingv1_QueryLeasesResponse_Mutable, billingv1_QueryLeasesResponse_NewField,
    billingv1_QueryLeasesResponse_GetUnknown, billingv1_QueryLeasesResponse_SetUnknown,
    billingv1_QueryLeasesResponse_getters.
Qed.

Lemma billingv1_QueryLeasesByTenantRequest_contract : contract billingv1_QueryLeasesByTenantRequest_reflected.
Proof.
  unfold billingv1_QueryLeasesByTenantRequest_reflected; solve_contract by unfold
    billingv1_QueryLeasesByTenantRequest_Range, billingv1_QueryLeasesByTenantRequest_Has,
    billingv1_QueryLeasesByTenantRequest_Clear, billingv1_QueryLeasesByTenantRequest_Get,
    billingv1_QueryLeasesByTenantRequest_Set, billingv1_QueryLeasesByTenantRequest_Mutable,
    billingv1_QueryLeasesByTenantRequest_NewField, billingv1_QueryLeasesByTenantRequest_GetUnknown,
    billingv1_QueryLeasesByTenantRequest_SetUnknown, billingv1_QueryLeasesByTenantRequest_getters.
Qed.

Lemma billingv1_QueryLeasesByTenantResponse_contract : contract billingv1_QueryLeasesByTenantResponse_reflected.
Proof.
  unfold billingv1_QueryLeasesByTenantResponse_reflected; solve_contract by unfold
    billingv1_QueryLeasesByTenantResponse_Range, billingv1_QueryLeasesByTenantResponse_Has,
    billingv1_QueryLeasesByTenantResponse_Clear, billingv1_QueryLeasesByTenantResponse_Get,
    billingv1_QueryLeasesByTenantResponse_Set, billingv1_QueryLeasesByTenantResponse_Mutable,
    billingv1_QueryLeasesByTenantResponse_NewField, billingv1_QueryLeasesByTenantResponse_GetUnknown,
    billingv1_QueryLeasesByTenantResponse_SetUnknown, billingv1_QueryLeasesByTenantResponse_getters.
Qed.

Lemma billingv1_QueryLeasesByProviderRequest_contract : contract billingv1_QueryLeasesByProviderRequest_reflected.
Proof.
  unfold billingv1_QueryLeasesByProviderRequest_reflected; solve_contract by unfold
    billingv1_QueryLeasesByProviderRequest_Range, billingv1_QueryLeasesByProviderRequest_Has,
    billingv1_QueryLeasesByProviderRequest_Clear, billingv1_QueryLeasesByProviderRequest_Get,
    billingv1_QueryLeasesByProviderRequest_Set, billingv1_QueryLeasesByProviderRequest_Mutable,
    billingv1_QueryLeasesByProviderRequest_NewField, billingv1_QueryLeasesByProviderRequest_GetUnknown,
    billingv1_QueryLeasesByProviderRequest_SetUnknown, billingv1_QueryLeasesByProviderRequest_getters.
Qed.

Lemma billingv1_QueryLeasesByProviderResponse_contract : contract billingv1_QueryLeasesByProviderResponse_reflected.
Proof.
  unfold billingv1_QueryLeasesByProviderResponse_reflected; solve_contract by unfold
    billingv1_QueryLeasesByProviderResponse_Range, billingv1_QueryLeasesByProviderResponse_Has,
    billingv1_QueryLeasesByProviderResponse_Clear, billingv1_QueryLeasesByProviderResponse_Get,
    billingv1_QueryLeasesByProviderResponse_Set, billingv1_QueryLeasesByProviderResponse_Mutable,
    billingv1_QueryLeasesByProviderResponse_NewField, billingv1_QueryLeasesByProviderResponse_GetUnknown,
    billingv1_QueryLeasesByProviderResponse_SetUnknown, billingv1_QueryLeasesByProviderResponse_getters.
Qed.

Lemma billingv1_QueryCreditAccountRequest_contract : contract billingv1_QueryCreditAccountRequest_reflected.
Proof.
  unfold billingv1_QueryCreditAccountRequest_reflected; solve_contract by unfold
    billingv1_QueryCreditAccountRequest_Range, billingv1_QueryCreditAccountRequest_Has,
    billingv1_QueryCreditAccountRequest_Clear, billingv1_QueryCreditAccountRequest_Get,
    billingv1_QueryCreditAccountRequest_Set, billingv1_QueryCreditAccountRequest_Mutable,
    billingv1_QueryCreditAccountRequest_NewField, billingv1_QueryCreditAccountRequest_GetUnknown,
    billingv1_QueryCreditAccountRequest_SetUnknown, billingv1_QueryCreditAccountRequest_getters.
Qed.

Lemma billingv1_QueryCreditAccountResponse_contract : contract billingv1_QueryCreditAccountResponse_reflected.
Proof.
  unfold billingv1_QueryCreditAccountResponse_reflected; solve_contract by unfold
    billingv1_QueryCreditAccountResponse_Range, billingv1_QueryCreditAccountResponse_Has,
    billingv1_QueryCreditAccountResponse_Clear, billingv1_QueryCreditAccountResponse_Get,
    billingv1_QueryCreditAccountResponse_Set, billingv1_QueryCreditAccountResponse_Mutable,
    billingv1_QueryCreditAccountResponse_NewField, billingv1_QueryCreditAccountResponse_GetUnknown,
    billingv1_QueryCreditAccountResponse_SetUnknown, billingv1_QueryCreditAccountResponse_getters.
Qed.

Lemma billingv1_QueryCreditAddressRequest_contract : contract billingv1_QueryCreditAddressRequest_reflected.
Proof.
  unfold billingv1_QueryCreditAddressRequest_reflected; solve_contract by unfold
    billingv1_QueryCreditAddressRequest_Range, billingv1_QueryCreditAddressRequest_Has,
    billingv1_QueryCreditAddressRequest_Clear, billingv1_QueryCreditAddressRequest_Get,
    billingv1_QueryCreditAddressRequest_Set, billingv1_QueryCreditAddressRequest_Mutable,
    billingv1_QueryCreditAddressRequest_NewField, billingv1_QueryCreditAddressRequest_GetUnknown,
    billingv1_QueryCreditAddressRequest_SetUnknown, billingv1_QueryCreditAddressRequest_getters.
Qed.

Lemma billingv1_QueryCreditAddressResponse_contract : contract billingv1_QueryCreditAddressResponse_reflected.
Proof.
  unfold billingv1_QueryCreditAddressResponse_reflected; solve_contract by unfold
    billingv1_QueryCreditAddressResponse_Range, billingv1_QueryCreditAddressResponse_Has,
    billingv1_QueryCreditAddressResponse_Clear, billingv1_QueryCreditAddressResponse_Get,
    billingv1_QueryCreditAddressResponse_Set, billingv1_QueryCreditAddressResponse_Mutable,
    billingv1_QueryCreditAddressResponse_NewField, billingv1_QueryCreditAddressResponse_GetUnknown,
    billingv1_QueryCreditAddressResponse_SetUnknown, billingv1_QueryCreditAddressResponse_getters.
Qed.

Lemma billingv1_QueryWithdrawableAmountRequest_contract : contract billingv1_QueryWithdrawableAmountRequest_reflected.
Proof.
  unfold billingv1_QueryWithdrawableAmountRequest_reflected; solve_contract by unfold
    billingv1_QueryWithdrawableAmountRequest_Range, billingv1_QueryWithdrawableAmountRequest_Has,
    billingv1_QueryWithdrawableAmountRequest_Clear, billingv1_QueryWithdrawableAmountRequest_Get,
    billingv1_QueryWithdrawableAmountRequest_Set, billingv1_QueryWithdrawableAmountRequest_Mutable,
    billingv1_QueryWithdrawableAmountRequest_NewField, billingv1_QueryWithdrawableAmountRequest_GetUnknown,
    billingv1_QueryWithdrawableAmountRequest_SetUnknown, billingv1_QueryWithdrawableAmountRequest_getters.
Qed.

Lemma billingv1_QueryWithdrawableAmountResponse_contract : contract billingv1_QueryWithdrawableAmountResponse_reflected.
Proof.
  unfold billingv1_QueryWithdrawableAmountResponse_reflected; solve_contract by unfold
    billingv1_QueryWithdrawableAmountResponse_Range, billingv1_QueryWithdrawableAmountResponse_Has,
    billingv1_QueryWithdrawableAmountResponse_Clear, billingv1_QueryWithdrawableAmountResponse_Get,
    billingv1_QueryWithdrawableAmountResponse_Set, billingv1_QueryWithdrawableAmountResponse_Mutable,
    billingv1_QueryWithdrawableAmountResponse_NewField, billingv1_QueryWithdrawableAmountResponse_GetUnknown,
    billingv1_QueryWithdrawableAmountResponse_SetUnknown, billingv1_QueryWithdrawableAmountResponse_getters.
Qed.

Lemma billingv1_QueryProviderWithdrawableRequest_contract : contract billingv1_QueryProviderWithdrawableRequest_reflected.
Proof.
  unfold billingv1_QueryProviderWithdrawableRequest_reflected; solve_contract by unfold
    billingv1_QueryProviderWithdrawableRequest_Range, billingv1_QueryProviderWithdrawableRequest_Has,
    billingv1_QueryProviderWithdrawableRequest_Clear, billingv1_QueryProviderWithdrawableRequest_Get,
    billingv1_QueryProviderWithdrawableRequest_Set, billingv1_QueryProviderWithdrawableRequest_Mutable,
    billingv1_QueryProviderWithdrawableRequest_NewField, billingv1_QueryProviderWithdrawableRequest_GetUnknown,
    billingv1_QueryProviderWithdrawableRequest_SetUnknown, billingv1_QueryProviderWithdrawableRequest_getters.
Qed.

Lemma billingv1_QueryProviderWithdrawableResponse_contract : contract billingv1_QueryProviderWithdrawableResponse_reflected.
Proof.
  unfold billingv1_QueryProviderWithdrawableResponse_reflected; solve_contract by unfold
    billingv1_QueryProviderWithdrawableResponse_Range, billingv1_QueryProviderWithdrawableResponse_Has,
    billingv1_QueryProviderWithdrawableResponse_Clear, billingv1_QueryProviderWithdrawableResponse_Get,
    billingv1_QueryProviderWithdrawableResponse_Set, billingv1_QueryProviderWithdrawableResponse_Mutable,
    billingv1_QueryProviderWithdrawableResponse_NewField, billingv1_QueryProviderWithdrawableResponse_GetUnknown,
    billingv1_QueryProviderWithdrawableResponse_SetUnknown, billingv1_QueryProviderWithdrawableResponse_getters.
Qed.

Lemma billingv1_QueryCreditAccountsRequest_contract : contract billingv1_QueryCreditAccountsRequest_reflected.
Proof.
  unfold billingv1_QueryCreditAccountsRequest_reflected; solve_contract by unfold
    billingv1_QueryCreditAccountsRequest_Range, billingv1_QueryCreditAccountsRequest_Has,
    billingv1_QueryCreditAccountsRequest_Clear, billingv1_QueryCreditAccountsRequest_Get,
    billingv1_QueryCreditAccountsRequest_Set, billingv1_QueryCreditAccountsRequest_Mutable,
    billingv1_QueryCreditAccountsRequest_NewField, billingv1_QueryCreditAccountsRequest_GetUnknown,
    billingv1_QueryCreditAccountsRequest_SetUnknown, billingv1_QueryCreditAccountsRequest_getters.
Qed.

Lemma billingv1_QueryCreditAccountsResponse_contract : contract billingv1_QueryCreditAccountsResponse_reflected.
Proof.
  unfold billingv1_QueryCreditAccountsResponse_reflected; solve_contract by unfold
    billingv1_QueryCreditAccountsResponse_Range, billingv1_QueryCreditAccountsResponse_Has,
    billingv1_QueryCreditAccountsResponse_Clear, billingv1_QueryCreditAccountsResponse_Get,
    billingv1_QueryCreditAccountsResponse_Set, billingv1_QueryCreditAccountsResponse_Mutable,
    billingv1_QueryCreditAccountsResponse_NewField, billingv1_QueryCreditAccountsResponse_GetUnknown,
    billingv1_QueryCreditAccountsResponse_SetUnknown, billingv1_QueryCreditAccountsResponse_getters.
Qed.

Lemma billingv1_QueryLeasesBySKURequest_contract : contract billingv1_QueryLeasesBySKURequest_reflected.
Proof.
  unfold billingv1_QueryLeasesBySKURequest_reflected; solve_contract by unfold
    billingv1_QueryLeasesBySKURequest_Range, billingv1_QueryLeasesBySKURequest_Has,
    billingv1_QueryLeasesBySKURequest_Clear, billingv1_QueryLeasesBySKURequest_Get,
    billingv1_QueryLeasesBySKURequest_Set, billingv1_QueryLeasesBySKURequest_Mutable,
    billingv1_QueryLeasesBySKURequest_NewField, billingv1_QueryLeasesBySKURequest_GetUnknown,
    billingv1_QueryLeasesBySKURequest_SetUnknown, billingv1_QueryLeasesBySKURequest_getters.
Qed.

Lemma billingv1_QueryLeasesBySKUResponse_contract : contract billingv1_QueryLeasesBySKUResponse_reflected.
Proof.
  unfold billingv1_QueryLeasesBySKUResponse_reflected; solve_contract by unfold
    billingv1_QueryLeasesBySKUResponse_Range, billingv1_QueryLeasesBySKUResponse_Has,
    billingv1_QueryLeasesBySKUResponse_Clear, billingv1_QueryLeasesBySKUResponse_Get,
    billingv1_QueryLeasesBySKUResponse_Set, billingv1_QueryLeasesBySKUResponse_Mutable,
    billingv1_QueryLeasesBySKUResponse_NewField, billingv1_QueryLeasesBySKUResponse_GetUnknown,
    billingv1_QueryLeasesBySKUResponse_SetUnknown, billingv1_QueryLeasesBySKUResponse_getters.
Qed.

Lemma billingv1_QueryCreditEstimateRequest_contract : contract billingv1_QueryCreditEstimateRequest_reflected.
Proof.
  unfold billingv1_QueryCreditEstimateRequest_reflected; solve_contract by unfold
    billingv1_QueryCreditEstimateRequest_Range, billingv1_QueryCreditEstimateRequest_Has,
    billingv1_QueryCreditEstimateRequest_Clear, billingv1_QueryCreditEstimateRequest_Get,
    billingv1_QueryCreditEstimateRequest_Set, billingv1_QueryCreditEstimateRequest_Mutable,
    billingv1_QueryCreditEstimateRequest_NewField, billingv1_QueryCreditEstimateRequest_GetUnknown,
    billingv1_QueryCreditEstimateRequest_SetUnknown, billingv1_QueryCreditEstimateRequest_getters.
Qed.

Lemma billingv1_QueryCreditEstimateResponse_contract : contract billingv1_QueryCreditEstimateResponse_reflected.
Proof.
  unfold billingv1_QueryCreditEstimateResponse_reflected; solve_contract by unfold
    billingv1_QueryCreditEstimateResponse_Range, billingv1_QueryCreditEstimateResponse_Has,
    billingv1_QueryCreditEstimateResponse_Clear, billingv1_QueryCreditEstimateResponse_Get,
    billingv1_QueryCreditEstimateResponse_Set, billingv1_QueryCreditEstimateResponse_Mutable,
    billingv1_QueryCreditEstimateResponse_NewField, billingv1_QueryCreditEstimateResponse_GetUnknown,
    billingv1_QueryCreditEstimateResponse_SetUnknown, billingv1_QueryCreditEstimateResponse_getters.
Qed.

Lemma billingv1_QueryLeaseByCustomDomainRequest_contract : contract billingv1_QueryLeaseByCustomDomainRequest_reflected.
Proof.
  unfold billingv1_QueryLeaseByCustomDomainRequest_reflected; solve_contract by unfold
    billingv1_QueryLeaseByCustomDomainRequest_Range, billingv1_QueryLeaseByCustomDomainRequest_Has,
    billingv1_QueryLeaseByCustomDomainRequest_Clear, billingv1_QueryLeaseByCustomDomainRequest_Get,
    billingv1_QueryLeaseByCustomDomainRequest_Set, billingv1_QueryLeaseByCustomDomainRequest_Mutable,
    billingv1_QueryLeaseByCustomDomainRequest_NewField, billingv1_QueryLeaseByCustomDomainRequest_GetUnknown,
    billingv1_QueryLeaseByCustomDomainRequest_SetUnknown, billingv1_QueryLeaseByCustomDomainRequest_getters.
Qed.

Lemma billingv1_QueryLeaseByCustomDomainResponse_contract : contract billingv1_QueryLeaseByCustomDomainResponse_reflected.
Proof.
  unfold billingv1_QueryLeaseByCustomDomainResponse_reflected; solve_contract by unfold
    billingv1_QueryLeaseByCustomDomainResponse_Range, billingv1_QueryLeaseByCustomDomainResponse_Has,
    billingv1_QueryLeaseByCustomDomainResponse_Clear, billingv1_QueryLeaseByCustomDomainResponse_Get,
    billingv1_QueryLeaseByCustomDomainResponse_Set, billingv1_QueryLeaseByCustomDomainResponse_Mutable,
    billingv1_QueryLeaseByCustomDomainResponse_NewField, billingv1_QueryLeaseByCustomDomainResponse_GetUnknown,
    billingv1_QueryLeaseByCustomDomainResponse_SetUnknown, billingv1_QueryLeaseByCustomDomainResponse_getters.
Qed.

Lemma billing_query_reflected_contract : Forall contract billing_query_reflected.
Proof.
  repeat apply Forall_cons_2; try apply Forall_nil_2.
  - apply billingv1_QueryParamsRequest_contract.
  - apply billingv1_QueryParamsResponse_contract.
  - apply billingv1_QueryLeaseRequest_contract.
  - apply billingv1_QueryLeaseResponse_contract.
  - apply billingv1_QueryLeasesRequest_contract.
  - apply billingv1_QueryLeasesResponse_contract.
  - apply billingv1_QueryLeasesByTenantRequest_contract.
  - apply billingv1_QueryLeasesByTenantResponse_contract.
  - apply billingv1_QueryLeasesByProviderRequest_contract.
  - apply billingv1_QueryLeasesByProviderResponse_contract.
  - apply billingv1_QueryCreditAccountRequest_contract.
  - apply billingv1_QueryCreditAccountResponse_contract.
  - apply billingv1_QueryCreditAddressRequest_contract.
  - apply billingv1_QueryCreditAddressResponse_contract.
  - apply billingv1_QueryWithdrawableAmountRequest_contract.
  - apply billingv1_QueryWithdrawableAmountResponse_contract.
  - apply billingv1_QueryProviderWithdrawableRequest_contract.
  - apply billingv1_QueryProviderWithdrawableResponse_contract.
  - apply billingv1_QueryCreditAccountsRequest_contract.
  - apply billingv1_QueryCreditAccountsResponse_contract.
  - apply billingv1_QueryLeasesBySKURequest_contract.
  - apply billingv1_QueryLeasesBySKUResponse_contract.
  - apply billingv1_QueryCreditEstimateRequest_contract.
  - apply billingv1_QueryCreditEstimateResponse_contract.
  - apply billingv1_QueryLeaseByCustomDomainRequest_contract.
  - apply billingv1_QueryLeaseByCustomDomainResponse_contract.
Qed.

Lemma billing_query_lists_contract : Forall (λ L, list_contract (projT2 L)) billing_query_lists.
Proof. solve_lists. Qed.
