(* ===== verification/Reflection.v ===== *)
(** * Reflection over all API messages (src/api/liftedinit)

    The 94 messages of the bindings and their 35 list types, and the theorem that all of them, nil messages aside,
    behave as protoreflect.Message and protoreflect.List ask. *)

From stdpp Require Import base tactics option list strings.
From Stdlib Require Import ZArith Lia.
From S2P Require Import Prelude Wire Pulsar ApiExternal ApiBilling Reflect ReflectManifest ReflectSku ReflectBilling ReflectBillingQuery.
Open Scope Z_scope.

Definition api_reflected : list reflected :=
  manifest_reflected ++ sku_reflected ++ billing_reflected ++ billing_query_reflected.

Definition api_lists `{ValueString} : list {T & list_methods T} :=
  manifest_lists ++ sku_lists ++ billing_lists ++ billing_query_lists.

(** The descriptors that some message understands. *)
Definition api_descriptors : list string := concat (map r_fields api_reflected).

(** A [value.String()] that gives no text for values that are not strings. *)
Definition ref_value_String : ValueString := λ v, match v with VString s => s | _ => ""%string end.

(** ** Theorems *)

Lemma ref_value_String_laws : ValueStringLaws ref_value_String.
Proof. by intros s. Qed.

Lemma api_descriptors_NoDup : NoDup api_descriptors.
Proof. apply (bool_decide_unpack (NoDup api_descriptors)). vm_compute. exact I. Qed.

(** C33 (refinement): every message of the API bindings, as long as it is not a nil pointer, meets the
    contract of protoreflect.Message: Has and Get answer for exactly the fields of the message and panic
    on the descriptor of another one; after Clear a field is not populated; what Set stores is what Get
    retrieves; Set, Clear, Mutable and SetUnknown change nothing else; what NewField returns can be
    stored; Range visits the populated fields in order until it is told to stop; New has no populated
    field; a getter returns what Get returns, and for a nil pointer what a new message has. A
    descriptor belongs to one message, and every list type meets the contract of protoreflect.List.
    What a nil message does is [nil_view_panics]. *)
Theorem reflection_contract `{ValueStringLaws} :
  Forall contract api_reflected ∧ NoDup api_descriptors ∧ Forall (λ L, list_contract (projT2 L)) api_lists.
Proof.
  unfold api_reflected, api_lists. rewrite !Forall_app. repeat split.
  - apply manifest_reflected_contract.
  - apply sku_reflected_contract.
  - apply billing_reflected_contract.
  - apply billing_query_reflected_contract.
  - apply api_descriptors_NoDup.
  - apply manifest_lists_contract.
  - apply sku_lists_contract.
  - apply billing_lists_contract.
  - apply billing_query_lists_contract.
Qed.

(** Has and Get dereference the message, so a nil one panics. Get wraps the nil pointer of an unset
    message field, and reading that view panics where protoreflect asks for an empty one. *)
Lemma nil_view_panics : Forall (λ R, ∀ fd, r_Has R None fd = Panic ∧ r_Get R None fd = Panic) api_reflected.
Proof.
  unfold api_reflected. rewrite !Forall_app.
  split_and!; (repeat (apply Forall_cons_2; [intros fd; split; reflexivity|]); apply Forall_nil_2).
Qed.

Lemma reflection_contract_witness :
  contract billingv1_Lease_reflected ∧
  billingv1_Lease_Get (Some billingv1_Lease_new) "liftedinit.billing.v1.Lease.state" = Ok (VEnum 0) ∧
  (x ← billingv1_Lease_Set (Some billingv1_Lease_new) "liftedinit.billing.v1.Lease.state" (VEnum 2);
   billingv1_Lease_Get x "liftedinit.billing.v1.Lease.state") = Ok (VEnum 2) ∧
  length api_reflected = 94%nat ∧ length (@api_lists ref_value_String) = 35%nat.
Proof.
  pose proof (@reflection_contract ref_value_String ref_value_String_laws) as (Hm & _ & _).
  split_and!; [|vm_compute; reflexivity..].
  exact (Forall_lookup_1 _ _ 42 _ Hm eq_refl).
Defined.
