(* ===== verification/CliProps.v ===== *)
(** * Theorems on the command line

    The syntax of lease items, what a parameter update keeps of the lists it does not name, which
    messages get past stateless validation, and the cursor that billing's list commands send. *)

From stdpp Require Import base tactics option list strings gmap.
From Stdlib Require Import ZArith Lia Ascii.
From S2P Require Import Prelude Sdk SdkRef Manifest Pagination Uuid GoStd Strconv SkuTypes BillingTypes BillingMsgs SkuKeeper SkuQuerier Keeper LeaseStore Settlement Lifecycle Querier Genesis Invariant Scenario Ledger Cli CliRef BillingQueryCodec.
Open Scope Z_scope.

Lemma require_bind {A} b (k : option A) x : require b ≫= (λ _, k) = Some x ↔ b = true ∧ k = Some x.
Proof. destruct b; cbn; naive_solver. Qed.

(** ** Lease items *)

(** [sku_uuid:quantity] and [sku_uuid:quantity:service_name]. *)
Inductive item_syntax : string → LeaseItemInput → Prop :=
  | legacy_item uuid digits quantity :
      IsValidUUID uuid = true → numeral 64 digits quantity →
      item_syntax (uuid +:+ String colon digits) (mkItemInput uuid quantity "")
  | service_item uuid digits quantity name :
      IsValidUUID uuid = true → numeral 64 digits quantity → name ≠ ""%string →
      item_syntax (uuid +:+ String colon (digits +:+ String colon name)) (mkItemInput uuid quantity name).

(** How a user writes an item. *)
Definition show_item (i : LeaseItemInput) : string :=
  in_SkuUuid i +:+ String colon
    (if String.eqb (in_ServiceName i) "" then FormatUint (in_Quantity i)
     else FormatUint (in_Quantity i) +:+ String colon (in_ServiceName i)).

Lemma match_classes_no_char sep ps : ∀ s,
  forallb (λ p : ascii → bool, negb (p sep)) ps = true → match_classes ps s = true → no_char sep s.
Proof.
  unfold no_char. induction ps as [|p ps IH]; intros [|c s]; cbn; try done.
  intros [Hp Hps]%andb_true_iff [Hc Hs]%andb_true_iff. rewrite IH by done.
  destruct (Ascii.eqb_spec c sep) as [->|]; [|done]. by rewrite Hc in Hp.
Qed.

Lemma uuid_no_colon u : IsValidUUID u = true → no_char colon u.
Proof. by apply match_classes_no_char. Qed.

Lemma numeral_no_colon bitSize s q : numeral bitSize s q → no_char colon s.
Proof.
  intros (_ & Hd & _ & _). eapply str_forallb_impl; [|exact Hd].
  intros c Hc. destruct (Ascii.eqb_spec c colon) as [->|]; [discriminate|done].
Qed.

Lemma parse_item_syntax arg item : parseLeaseItemInput arg = Some item ↔ item_syntax arg item.
Proof.
  unfold parseLeaseItemInput, strings_SplitN. split.
  - destruct (split_cuts (pred 3) arg colon) as [|u [|ds rest]] eqn:E; [done..|].
    apply split_cuts_inv in E as [[? _]|(c1 & t & [= <-] & -> & _ & E)]; [done|]. symmetry in E.
    rewrite require_bind. intros (Hu & (q & Hq%ParseUint_spec & Hr)%bind_Some); [|lia].
    apply split_cuts_inv in E as [[-> ->]|(c2 & t2 & [= <-] & -> & _ & ->)].
    + injection Hr as <-. by constructor.
    + destruct (split_cuts_cons 0 t2 colon) as (y & ys & E2). rewrite E2 in Hr.
      apply split_cuts_inv in E2 as [[-> ->]|(? & ? & ? & _)]; [|done].
      rewrite require_bind in Hr. destruct Hr as (Hne%negb_true_iff%String.eqb_neq & [= <-]). by constructor.
  - intros [u ds q Hu Hq|u ds q name Hu Hq Hn]; cbn [pred]; rewrite split_cuts_first by by apply uuid_no_colon.
    + rewrite split_cuts_none by by eapply numeral_no_colon.
      rewrite require_bind. split; [done|]. apply ParseUint_spec in Hq; [|lia]. by rewrite Hq.
    + rewrite split_cuts_first by by eapply numeral_no_colon.
      rewrite require_bind. split; [done|]. apply ParseUint_spec in Hq; [|lia]. rewrite Hq.
      replace (split_cuts 0 name colon) with [name] by by destruct name.
      cbn [mbind option_bind]. rewrite require_bind. by apply String.eqb_neq in Hn as ->.
Qed.

Lemma show_item_syntax i : IsValidUUID (in_SkuUuid i) = true → 0 ≤ in_Quantity i ≤ max_u64 →
  item_syntax (show_item i) i.
Proof.
  destruct i as [u q name]; cbn. intros Hu Hq. unfold show_item; cbn.
  assert (numeral 64 (FormatUint q) q) by (apply FormatUint_numeral; unfold max_u64 in Hq; lia).
  destruct (String.eqb_spec name "") as [->|]; by constructor.
Qed.

(** C37 (roundtrip): the arguments of create-lease are parsed exactly when each has the documented
    form [sku_uuid:quantity] or [sku_uuid:quantity:service_name], with a valid UUID, a decimal
    quantity below 2^64 and a service name that is not empty, and the items are what is written;
    any list of items with valid UUIDs and 64-bit quantities can be written and is read back, a
    service name with colons in it included. *)
Theorem lease_items_syntax :
  (∀ args items, parseLeaseItemInputs args = Some items ↔ Forall2 item_syntax args items) ∧
  (∀ items, Forall (λ i, IsValidUUID (in_SkuUuid i) = true ∧ 0 ≤ in_Quantity i ≤ max_u64) items →
     parseLeaseItemInputs (show_item <$> items) = Some items).
Proof.
  assert (Hs : ∀ args items, parseLeaseItemInputs args = Some items ↔ Forall2 item_syntax args items).
  { intros. unfold parseLeaseItemInputs. rewrite mapM_Some.
    split; intros HF; (eapply Forall2_impl; [exact HF|]); intros; by apply parse_item_syntax. }
  split; [exact Hs|]. intros items Hi. apply Hs, Forall2_fmap_l, Forall_Forall2_diag.
  eapply Forall_impl; [exact Hi|]. cbn. intros i []. by apply show_item_syntax.
Qed.

(** ** Lists *)

Section lists.
Context `{SDK} `{GoStd} `{Client}.

(** The two modules split a list in the same way. *)
Lemma splitAddresses_splitAndTrim s : splitAddresses s = splitAndTrim s.
Proof.
  unfold splitAddresses, splitAndTrim. destruct (String.eqb s ""); [done|].
  generalize (strings_Split s comma). intros l.
  enough (∀ acc, foldl (λ result addr, let addr := strings_TrimSpace addr in
    if negb (String.eqb addr "") then result ++ [addr] else result) acc l =
    acc ++ filter (λ t, t ≠ ""%string) (strings_TrimSpace <$> l)) as Hacc by apply (Hacc []).
  induction l as [|x l IH]; intros acc; [by rewrite app_nil_r|].
  rewrite fmap_cons, filter_cons. cbn [foldl]. rewrite IH. destruct (String.eqb_spec (strings_TrimSpace x) "") as [E|E]; cbn [negb];
    [by rewrite decide_False by tauto|]. by rewrite decide_True, <- app_assoc by done.
Qed.

(** An element of a list flag: without commas, and nothing to trim. *)
Definition list_element (s : string) : Prop :=
  no_char comma s ∧ s ≠ ""%string ∧ strings_TrimSpace s = s.

Lemma splitAndTrim_join l : Forall list_element l → splitAndTrim (join comma l) = l.
Proof.
  intros Hl. destruct l as [|x l']; [done|]. set (l := x :: l') in *. unfold splitAndTrim.
  assert (Hne : join comma l ≠ ""%string).
  { apply Forall_cons in Hl as [(_ & Hx & _) _]. by destruct x as [|c x]; [|destruct l']. }
  apply String.eqb_neq in Hne as ->.
  rewrite strings_Split_join; [|done|eapply Forall_impl; [exact Hl|]; by intros ? (? & _)].
  clearbody l. clear x l'. induction Hl as [|y ys (_ & Hy & Ht) _ IH]; [done|].
  rewrite fmap_cons, Ht, filter_cons_True by done. by rewrite IH.
Qed.

(** ** update-params *)

Lemma list_flag_spec flag preserved :
  list_flag flag preserved = from_option splitAndTrim (default [] preserved) flag.
Proof. destruct flag as [s|]; [|done]. unfold list_flag, splitAndTrim; cbn. by destruct (String.eqb s ""). Qed.

(** The numbers that update-params sets are those written, and a list is replaced
    by the elements of its flag, or cleared by an empty one, when the flag is given. A list whose
    flag is omitted is sent as the chain held it when the command asked, in the state [w0], which
    need not be the state [w] the message is executed in. Executed for the authority, a message with valid
    parameters sets them and changes nothing else. *)
Theorem update_params_preserves (env : Env) (w0 w : World) (p0 : Params)
    (allowedFlag reservedFlag : option string) (args : list string) (n0 n1 n2 n3 n4 : Z) :
  let p := mkParams n0 (from_option splitAndTrim (AllowedList p0) allowedFlag) n1 n2 n3 n4
             (from_option splitAndTrim (ReservedDomainSuffixes p0) reservedFlag) in
  k_Params w0 = Some p0 →
  Forall2 (numeral 64) args [n0; n1; n2; n3; n4] →
  ∃ msg,
    NewUpdateParamsCmd (authority env) allowedFlag reservedFlag args (query_Params w0).1 = Some msg ∧
    bp_Params msg = p ∧
    (AccAddressFromBech32 (authority env) ≠ None → Params_Validate p = Ok tt →
     UpdateParams env msg w = (Ok tt, set_events (events w ++ [EvParamsUpdated]) (set_Params p w))).
Proof.
  intros p Hp0 Hargs. exists (mkMsgUpdateParams (authority env) p). split_and!; [|done|].
  - assert (Hq : (query_Params w0).1 = Ok p0)
      by (unfold query_Params, GetParams, wrapping, mbind, M_bind, get, lift, coll_get; cbn; by rewrite Hp0). rewrite Hq.
    repeat (apply Forall2_cons_inv_r in Hargs as (? & ? & ?%ParseUint_spec & Hargs & ->); [|lia]).
    apply Forall2_nil_inv_r in Hargs as ->. unfold NewUpdateParamsCmd.
    simplify_option_eq.
    subst p. destruct allowedFlag, reservedFlag; cbn -[list_flag]; by rewrite !list_flag_spec.
  - intros Ha Hv. unfold UpdateParams, MsgUpdateParams_ValidateBasic, check_address. cbn [bp_Authority bp_Params].
    destruct (AccAddressFromBech32 (authority env)); [|done]. rewrite Hv, String.eqb_refl. done.
Qed.
End lists.

(** ** Hashes and batches *)

(** The second length check never fails: 128 digits are at most 64 bytes. *)
Lemma parseMetaHashFlag_spec s b :
  parseMetaHashFlag s = Some b ↔ len s ≤ MaxMetaHashLength * 2 ∧ hex_DecodeString s = Some b.
Proof.
  unfold parseMetaHashFlag. destruct (String.eqb_spec s "") as [->|Hs].
  { cbn. split; [intros [= <-]; split; [by vm_compute|done]|by intros [_ ?]]. }
  rewrite require_bind, bind_Some, negb_true_iff, Z.ltb_ge.
  split.
  - intros (Hl & b' & Hb & Hr). rewrite require_bind in Hr. destruct Hr as [_ [= ->]]. done.
  - intros (Hl & Hb). split; [done|]. exists b. split; [done|]. rewrite require_bind, negb_true_iff, Z.ltb_ge.
    split; [|done]. apply hex_decode_length in Hb. lia.
Qed.

(** What acknowledge-lease has checked leaves one thing to stateless validation: repeated UUIDs. *)
Lemma acknowledge_cmd_validates `{SDK} from args msg :
  AccAddressFromBech32 from ≠ None → NewAcknowledgeLeaseCmd from args = Some msg →
  MsgAcknowledgeLease_ValidateBasic msg = Ok tt ↔ NoDup args.
Proof.
  intros Hf. unfold NewAcknowledgeLeaseCmd, batch_args. rewrite !require_bind, andb_true_iff, !Z.leb_le, forallb_forall.
  intros ((? & ?) & Hv & [= <-]). unfold MsgAcknowledgeLease_ValidateBasic, check_address. cbn [al_Sender al_LeaseUuids].
  destruct (AccAddressFromBech32 from); [|done]. cbn. rewrite ValidateBatchLeaseUUIDs_spec.
  split; [by intros (_ & ? & _)|intros ?]. split_and!; [lia|unfold MaxBatchLeaseSize in *; lia|done|].
  apply Forall_forall. intros u Hu. by apply Hv, list_elem_of_In.
Qed.

(** ** Payouts *)

Lemma str_filter_idem p s : str_filter p (str_filter p s) = str_filter p s.
Proof. induction s as [|c s IH]; cbn; [done|]. destruct (p c) eqn:E; cbn; [rewrite E; by f_equal|done]. Qed.

(** Underscores are removed everywhere, in denoms too: two denoms that differ in underscores only
    cannot be told apart. *)
Lemma payout_ignores_underscores `{SDK} `{Client} s :
  fromStrToPayout s = fromStrToPayout (strings_RemoveAll s underscore).
Proof. unfold fromStrToPayout, strings_RemoveAll. by rewrite str_filter_idem. Qed.

(** ** Cursors *)

Section cursor.
Context `{SDKLaws} `{GoStdLaws} `{ClientLaws}.

Lemma match_classes_length ps : ∀ s, match_classes ps s = true → String.length s = length ps.
Proof. induction ps as [|p ps IH]; intros [|c s]; cbn; try done. intros [_ Hs]%andb_true_iff. f_equal. by apply IH. Qed.

Lemma uuid_length u : IsValidUUID u = true → len u = 36.
Proof. intros Hu%match_classes_length. unfold len. by rewrite Hu. Qed.

(** The printed form of a UUID is not a UUID. *)
Lemma base64_uuid k u : IsValidUUID k = true → IsValidUUID u = true → base64 k ≠ u.
Proof. intros Hk%uuid_length Hu%uuid_length E. pose proof (base64_length k) as Hl. rewrite E, Hu, Hk in Hl. done. Qed.

Lemma run_non_empty {A} s (k : W A) w : s ≠ ""%string → (non_empty s;; k) w = k w.
Proof. intros Hs%String.eqb_neq. unfold non_empty. by rewrite Hs. Qed.

(** A cursor that is not a stored key ends a listing. *)
Lemma page_of_index_foreign p r w : Key r ≠ ""%string → Leases w !! Key r = None →
  page_of_index p (Some r) w = (Ok ([], mkPageResponse "" 0), w).
Proof.
  intros Hne Hk. unfold page_of_index, wrapping, mbind, M_bind, get, lift; cbn -[PaginateStringIndex].
  rewrite stale_cursor_ends_listing; [done|done|].
  assert (Hn : Key r ∉ MatchExact p w).
  { unfold MatchExact. rewrite list_elem_of_filter, Hk. by intros [? _]. }
  destruct (Reverse r); [|done]. by rewrite elem_of_reverse.
Qed.

Lemma sku_loop_stale getter r limit filter iter st :
  sp_foundStart st = false → Key r ∉ iter →
  paginate_sku_loop getter (Key r) (Offset r) limit (CountTotal r) filter iter st = Ok st.
Proof.
  intros Hf. induction iter as [|u iter IH]; intros Hn; [done|]. destruct st as [vs tot sk nk fd]. cbn in Hf; subst fd.
  apply not_elem_of_cons in Hn as [Hu Hn]. cbn [paginate_sku_loop]. apply String.eqb_neq in Hu. rewrite Hu. by apply IH.
Qed.

(** The page without entries and without a cursor. *)
Definition empty_page : list Lease * PageResponse := ([], mkPageResponse "" 0).

(** The request that a list command makes of its flags has the cursor [k]. *)
Definition asks_for {A} (cmd : option A) (pagination : A → option PageRequest) (k : string) : Prop :=
  ∀ req, cmd = Some req → ∃ r, pagination req = Some r ∧ Key r = k.

Lemma billing_sends flags r : ReadPageRequest flags = Some r → Key r = pf_PageKey flags.
Proof. apply ReadPageRequest_key. Qed.

Lemma sku_sends flags k f r :
  pf_PageKey flags = base64 k → FlagSetWithPageKeyDecoded flags = Some f → ReadPageRequest f = Some r → Key r = k.
Proof. intros Hf Hd Hr. rewrite (page_key_decoded _ k Hf) in Hd. injection Hd as <-. by apply ReadPageRequest_key in Hr. Qed.

(** C32 (error): when a listing does not fit a page, the response holds the key to continue from,
    which is printed in base64. Passed back with --page-key, the four list commands of the sku module
    decode it and ask for the page that starts at the key; the five of the billing module (leases,
    leases by tenant, by provider and by SKU, credit accounts) send the text as it is. For a cursor
    that is a UUID no lease has that text as its key, and in every reachable state the listings that
    go through an index (leases with a state filter, leases by tenant, by provider and by SKU) answer
    with an empty page, without a cursor and without an error, whatever leases remain. *)
Theorem billing_cursor_not_decoded (now : Z) (w : World) (state : string) (active : bool) (flags : PageFlags) (k arg : string) :
  reachable now w → IsValidUUID k = true → pf_PageKey flags = base64 k →
  (asks_for (GetCmdQueryProviders active flags []) qp_Pagination k ∧
   asks_for (GetCmdQuerySKUs active flags []) qs_Pagination k ∧
   asks_for (GetCmdQuerySKUsByProvider active flags [arg]) qsp_Pagination k ∧
   asks_for (GetCmdQueryProviderByAddress active flags [arg]) qpa_Pagination k) ∧
  (asks_for (GetLeasesCmd state flags []) qls_Pagination (base64 k) ∧
   asks_for (GetLeasesByTenantCmd state flags [arg]) qlt_Pagination (base64 k) ∧
   asks_for (GetLeasesByProviderCmd state flags [arg]) qlp_Pagination (base64 k) ∧
   asks_for (GetLeasesBySKUCmd state flags [arg]) qlk_Pagination (base64 k) ∧
   asks_for (GetCreditAccountsCmd flags []) qcas_Pagination (base64 k)) ∧
  (∀ req, GetLeasesCmd state flags [] = Some req → qls_StateFilter req ≠ LEASE_STATE_UNSPECIFIED →
     query_Leases (Some req) w = (Ok empty_page, w)) ∧
  (∀ a req, GetLeasesByTenantCmd state flags [arg] = Some req → arg ≠ ""%string → AccAddressFromBech32 arg = Some a →
     query_LeasesByTenant (Some req) w = (Ok empty_page, w)) ∧
  (∀ req, GetLeasesByProviderCmd state flags [arg] = Some req → query_LeasesByProvider (Some req) w = (Ok empty_page, w)) ∧
  (∀ req, GetLeasesBySKUCmd state flags [arg] = Some req → query_LeasesBySKU (Some req) w = (Ok empty_page, w)).
Proof.
  intros Hr%reachable_inv Hk Hf.
  assert (Hkey : ∀ r, ReadPageRequest flags = Some r → Key r ≠ ""%string ∧ Leases w !! Key r = None).
  { intros r ->%billing_sends. rewrite Hf. split.
    - intros E. pose proof (base64_length k) as Hl. rewrite E, (uuid_length _ Hk) in Hl. done.
    - destruct (Leases w !! base64 k) as [l|] eqn:El; [|done]. exfalso.
      pose proof (I_leases _ _ _ Hr _ _ El) as Hw. apply (base64_uuid k (Uuid l)); [done|apply Hw|].
      by rewrite (wf_uuid _ _ _ Hw). }
  assert (Hpage : ∀ r p, ReadPageRequest flags = Some r → page_of_index p (Some r) w = (Ok empty_page, w)).
  { intros r p [Hne Hno]%Hkey. by apply page_of_index_foreign. }
  split; [|split; [|split_and!]].
  - split_and!; intros req; cbn; intros (f & Hd & (r & Hrd & [= <-])%bind_Some)%bind_Some; exists r; (split; [done|by eapply sku_sends]).
  - rewrite <- Hf. split_and!; intros req; cbn; rewrite ?require_bind;
      [intros (st & _ & (r & Hrd & [= <-])%bind_Some)%bind_Some|intros (st & _ & (r & Hrd & [= <-])%bind_Some)%bind_Some
      |intros (_ & (st & _ & (r & Hrd & [= <-])%bind_Some)%bind_Some)|intros (_ & (st & _ & (r & Hrd & [= <-])%bind_Some)%bind_Some)
      |intros (r & Hrd & [= <-])%bind_Some]; exists r; (split; [done|by apply billing_sends]).
  - intros req (st & _ & (r & Hrd & [= <-])%bind_Some)%bind_Some Hst. unfold query_Leases. cbn -[page_of_index] in *.
    unfold state_is. rewrite bool_decide_false by done. by apply Hpage.
  - intros a req (st & _ & (r & Hrd & [= <-])%bind_Some)%bind_Some Hne Ha.
    unfold query_LeasesByTenant. cbn -[page_of_index].
    rewrite run_non_empty by done. rewrite Ha. destruct (negb _); by apply Hpage.
  - intros req. cbn. rewrite require_bind. intros (Hp & (st & _ & (r & Hrd & [= <-])%bind_Some)%bind_Some).
    assert (arg ≠ ""%string) by (intros ->; discriminate).
    unfold query_LeasesByProvider. cbn -[page_of_index].
    rewrite run_non_empty by done. destruct (negb _); by apply Hpage.
  - intros req. cbn. rewrite require_bind. intros (Hp & (st & _ & (r & Hrd & [= <-])%bind_Some)%bind_Some).
    assert (arg ≠ ""%string) by (intros ->; discriminate). destruct (Hkey r Hrd) as [Hne Hno].
    unfold query_LeasesBySKU. cbn -[paginateSKUIndex]. rewrite run_non_empty by done.
    unfold wrapping, mbind, M_bind, get, lift; cbn -[paginateSKUIndex].
    unfold paginateSKUIndex. rewrite sku_loop_stale; [cbn; by destruct (CountTotal r)|by apply String.eqb_neq|].
    assert (Hn : Key r ∉ sku_index_uuids arg w).
    { intros (l & Hl & _)%elem_of_sku_index_uuids; [congruence|apply (I_skuidx _ _ _ Hr)]. }
    destruct (Reverse r); [|done]. by rewrite elem_of_reverse.
Qed.
End cursor.

(** ** The theorems on concrete input *)

Lemma lease_items_syntax_witness :
  parseLeaseItemInputs ["0190a1b2-0000-7000-8000-000000000002:18446744073709551615:web:8080"]%string =
  Some [mkItemInput "0190a1b2-0000-7000-8000-000000000002" 18446744073709551615 "web:8080"].
Proof.
  apply (proj2 lease_items_syntax [mkItemInput "0190a1b2-0000-7000-8000-000000000002" 18446744073709551615 "web:8080"]).
  repeat constructor; vm_compute; congruence.
Defined.

(** The allowed list is replaced, the reserved suffixes are kept. *)
Definition seeded_params : Params := mkParams 100 ["alice"%string] 20 3600 10 1800 [".manifest.app"%string].
Definition seeded_world : World := set_Params seeded_params demo_genesis.

Lemma update_params_preserves_witness : ∃ msg,
  NewUpdateParamsCmd (authority demo_env) (Some "alice, prov"%string) None ["200"; "20"; "3600"; "10"; "0060"]%string
    (query_Params seeded_world).1 = Some msg ∧
  bp_Params msg = mkParams 200 ["alice"; "prov"]%string 20 3600 10 60 [".manifest.app"%string].
Proof.
  destruct (update_params_preserves demo_env seeded_world seeded_world seeded_params (Some "alice, prov"%string) None
              ["200"; "20"; "3600"; "10"; "0060"]%string 200 20 3600 10 60) as (msg & Hm & Hp & _).
  - reflexivity.
  - repeat constructor; vm_compute; congruence.
  - exists msg. split; [exact Hm|]. rewrite Hp. reflexivity.
Defined.

Definition demo_flags : PageFlags := mkPageFlags (base64 demo_lease_uuid) 0 0 100 false false.

(** The cursor of the stored lease, as printed: billing finds nothing there. *)
Lemma billing_cursor_not_decoded_witness : ∃ req,
  GetLeasesByTenantCmd "pending" demo_flags ["alice"%string] = Some req ∧
  (query_LeasesByTenant (Some req) demo_pending).1 = Ok ([], mkPageResponse "" 0) ∧
  is_Some (Leases demo_pending !! demo_lease_uuid).
Proof.
  destruct (billing_cursor_not_decoded (blockTime demo_env) demo_pending "pending" true demo_flags demo_lease_uuid "alice")
    as (_ & _ & _ & Ht & _); [apply demo_pending_reachable|reflexivity..|].
  eexists. split; [reflexivity|]. split; [|vm_compute; eauto].
  erewrite Ht; [reflexivity|reflexivity|discriminate|reflexivity].
Defined.
