(* ===== verification/Gateway.v ===== *)
(** * The HTTP gateway (src/x/billing/types/query.pb.gw.go, src/x/sku/types/query.pb.gw.go)

    A GET request is routed by its path: a pattern is a program of a small stack machine that matches
    the components of the path and binds the parameters in it. The handler builds the request message
    from the path and from the query string, and calls the query service: through a gRPC client
    ([request_...]) or directly ([local_request_...]).

    grpc-gateway is not part of the repository: it is the class [Gateway], with the documented
    behaviour that the handlers rely on as [GatewayLaws]. The text of a status and the metadata of a
    response are left out, and so is the choice of a marshaler for the response. *)

From stdpp Require Import base tactics option list strings gmap.
From Stdlib Require Import ZArith Lia.
From S2P Require Import Prelude Sdk SdkRef Pagination Uuid GoStd SkuTypes BillingTypes BillingMsgs SkuKeeper SkuQuerier SkuQueryCodec Keeper Settlement Lifecycle Querier BillingQueryCodec Genesis Invariant LifecycleInv CreateInv Scenario.
Open Scope Z_scope.

(** ** grpc-gateway *)

(** runtime.NewPattern(1, ops, pool, verb): operations as pairs of a code and an operand. *)
Record Pattern : Type := mkPattern { p_ops : list Z; p_pool : list string; p_verb : string }.

(** utilities.DoubleArray: the fields that the query string may not set. *)
Record DoubleArray : Type := mkDoubleArray {
  da_Encoding : list (string * Z); da_Base : list Z; da_Check : list Z }.

Definition url_Values : Type := list (string * list string).

Class Gateway : Type := {
  http_Request : Type;
  AnnotateContext : http_Request → res unit;
  AnnotateIncomingContext : http_Request → res unit;
  ParseForm : http_Request → res url_Values;
  runtime_String : string → res string;
  PopulateQueryParameters {T : Type} : T → url_Values → DoubleArray → res T;
  Match : Pattern → list string → option (gmap string string) }.

(** The operations of a pattern. *)
Inductive op : Type :=
  | OpNop                  (* does nothing *)
  | OpPush                 (* pushes a component to stack *)
  | OpLitPush (s : string) (* pushes a component to stack if it matches to the literal *)
  | OpConcatN (n : nat)    (* pops N items from stack, concatenates them and pushes it back *)
  | OpCapture (v : string). (* pops an item and binds it to the variable *)

Fixpoint decode (pool : list string) (ops : list Z) : option (list op) :=
  match ops with
  | [] => Some []
  | code :: operand :: ops' =>
      rest ← decode pool ops';
      match code with
      | 0 => Some (OpNop :: rest)
      | 1 => Some (OpPush :: rest)
      | 2 => s ← pool !! Z.to_nat operand; Some (OpLitPush s :: rest)
      | 4 => Some (OpConcatN (Z.to_nat operand) :: rest)
      | 5 => v ← pool !! Z.to_nat operand; Some (OpCapture v :: rest)
      | _ => None
      end
  | _ => None
  end.

Definition join (items : list string) : string := String.concat "/" items.

Fixpoint run (ops : list op) (components stack : list string) (bindings : gmap string string) : option (gmap string string) :=
  match ops with
  | [] => match components with [] => Some bindings | _ => None end
  | OpNop :: ops' => run ops' components stack bindings
  | OpPush :: ops' => match components with c :: rest => run ops' rest (c :: stack) bindings | [] => None end
  | OpLitPush s :: ops' =>
      match components with
      | c :: rest => if String.eqb c s then run ops' rest (c :: stack) bindings else None
      | [] => None
      end
  | OpConcatN n :: ops' => run ops' components (join (rev (take n stack)) :: drop n stack) bindings
  | OpCapture v :: ops' => match stack with c :: stack' => run ops' components stack' (<[v := c]> bindings) | [] => None end
  end.

(** The array that holds one name. *)
Definition single (name : string) : DoubleArray := mkDoubleArray [(name, 0)] [1; 1; 0] [0; 1; 2].

Class GatewayLaws `(G : Gateway) : Prop := {
  (* String just returns the given string *)
  runtime_String_id s : runtime_String s = Ok s;
  (* a value is ignored if its key starts with one of the elements in the filter *)
  populate_nil {T} (m : T) filter : PopulateQueryParameters m [] filter = Ok m;
  populate_ignored {T} (m : T) values name :
    Forall (λ kv, kv.1 = name) values → PopulateQueryParameters m values (single name) = Ok m;
  (* Match examines components and returns the captured path parameters if they match *)
  Match_run p ops components : decode (p_pool p) (p_ops p) = Some ops → Match p components = run ops components [] ∅ }.

(** ** The query services

    QueryClient and QueryServer have one method per query; the handlers are written against them. *)

Record billing_Query (S : Type) : Type := mk_billing_Query {
  billing_Params : option unit → M S (Params);
  billing_Lease : option QueryLeaseRequest → M S (Lease);
  billing_Leases : option QueryLeasesRequest → M S (list Lease * PageResponse);
  billing_LeasesByTenant : option QueryLeasesByTenantRequest → M S (list Lease * PageResponse);
  billing_LeasesByProvider : option QueryLeasesByProviderRequest → M S (list Lease * PageResponse);
  billing_CreditAccount : option QueryCreditAccountRequest → M S (QueryCreditAccountResponse);
  billing_CreditAddress : option QueryCreditAddressRequest → M S (string);
  billing_WithdrawableAmount : option QueryWithdrawableAmountRequest → M S (Coins);
  billing_ProviderWithdrawable : option QueryProviderWithdrawableRequest → M S (QueryProviderWithdrawableResponse);
  billing_CreditAccounts : option QueryCreditAccountsRequest → M S (list CreditAccount * PageResponse);
  billing_LeasesBySKU : option QueryLeasesBySKURequest → M S (list Lease * PageResponse);
  billing_CreditEstimate : option QueryCreditEstimateRequest → M S (QueryCreditEstimateResponse);
  billing_LeaseByCustomDomain : option QueryLeaseByCustomDomainRequest → M S (Lease * string) }.
#[global] Arguments billing_Params {S}.
#[global] Arguments billing_Lease {S}.
#[global] Arguments billing_Leases {S}.
#[global] Arguments billing_LeasesByTenant {S}.
#[global] Arguments billing_LeasesByProvider {S}.
#[global] Arguments billing_CreditAccount {S}.
#[global] Arguments billing_CreditAddress {S}.
#[global] Arguments billing_WithdrawableAmount {S}.
#[global] Arguments billing_ProviderWithdrawable {S}.
#[global] Arguments billing_CreditAccounts {S}.
#[global] Arguments billing_LeasesBySKU {S}.
#[global] Arguments billing_CreditEstimate {S}.
#[global] Arguments billing_LeaseByCustomDomain {S}.

Record sku_Query (S : Type) : Type := mk_sku_Query {
  sku_Params : option unit → M S (SkuParams);
  sku_Provider : option QueryProviderRequest → M S (Provider);
  sku_Providers : option QueryProvidersRequest → M S (list Provider * PageResponse);
  sku_SKU : option QuerySKURequest → M S (SKU);
  sku_SKUs : option QuerySKUsRequest → M S (list SKU * PageResponse);
  sku_SKUsByProvider : option QuerySKUsByProviderRequest → M S (list SKU * PageResponse);
  sku_ProviderByAddress : option QueryProviderByAddressRequest → M S (list Provider * PageResponse) }.
#[global] Arguments sku_Params {S}.
#[global] Arguments sku_Provider {S}.
#[global] Arguments sku_Providers {S}.
#[global] Arguments sku_SKU {S}.
#[global] Arguments sku_SKUs {S}.
#[global] Arguments sku_SKUsByProvider {S}.
#[global] Arguments sku_ProviderByAddress {S}.

(** The response that is forwarded. *)
Inductive reply : Type :=
  | R_Params (resp : Params)
  | R_Lease (resp : Lease)
  | R_Leases (resp : list Lease * PageResponse)
  | R_LeasesByTenant (resp : list Lease * PageResponse)
  | R_LeasesByProvider (resp : list Lease * PageResponse)
  | R_CreditAccount (resp : QueryCreditAccountResponse)
  | R_CreditAddress (resp : string)
  | R_WithdrawableAmount (resp : Coins)
  | R_ProviderWithdrawable (resp : QueryProviderWithdrawableResponse)
  | R_CreditAccounts (resp : list CreditAccount * PageResponse)
  | R_LeasesBySKU (resp : list Lease * PageResponse)
  | R_CreditEstimate (resp : QueryCreditEstimateResponse)
  | R_LeaseByCustomDomain (resp : Lease * string)
  | R_sku_Params (resp : SkuParams)
  | R_Provider (resp : Provider)
  | R_Providers (resp : list Provider * PageResponse)
  | R_SKU (resp : SKU)
  | R_SKUs (resp : list SKU * PageResponse)
  | R_SKUsByProvider (resp : list SKU * PageResponse)
  | R_ProviderByAddress (resp : list Provider * PageResponse).

(** ** Patterns and filters *)

Definition pattern_Query_Params_0 : Pattern :=
  mkPattern [2; 0; 2; 1; 2; 2; 2; 3]
    ["liftedinit"; "billing"; "v1"; "params"]%string ""%string.
Definition pattern_Query_Lease_0 : Pattern :=
  mkPattern [2; 0; 2; 1; 2; 2; 2; 3; 1; 0; 4; 1; 5; 4]
    ["liftedinit"; "billing"; "v1"; "lease"; "lease_uuid"]%string ""%string.
Definition pattern_Query_Leases_0 : Pattern :=
  mkPattern [2; 0; 2; 1; 2; 2; 2; 3]
    ["liftedinit"; "billing"; "v1"; "leases"]%string ""%string.
Definition pattern_Query_LeasesByTenant_0 : Pattern :=
  mkPattern [2; 0; 2; 1; 2; 2; 2; 3; 2; 4; 1; 0; 4; 1; 5; 4]
    ["liftedinit"; "billing"; "v1"; "leases"; "tenant"]%string ""%string.
Definition pattern_Query_LeasesByProvider_0 : Pattern :=
  mkPattern [2; 0; 2; 1; 2; 2; 2; 3; 2; 4; 1; 0; 4; 1; 5; 5]
    ["liftedinit"; "billing"; "v1"; "leases"; "provider"; "provider_uuid"]%string ""%string.
Definition pattern_Query_CreditAccount_0 : Pattern :=
  mkPattern [2; 0; 2; 1; 2; 2; 2; 3; 1; 0; 4; 1; 5; 4]
    ["liftedinit"; "billing"; "v1"; "credit"; "tenant"]%string ""%string.
Definition pattern_Query_CreditAddress_0 : Pattern :=
  mkPattern [2; 0; 2; 1; 2; 2; 2; 3; 1; 0; 4; 1; 5; 4]
    ["liftedinit"; "billing"; "v1"; "credit-address"; "tenant"]%string ""%string.
Definition pattern_Query_WithdrawableAmount_0 : Pattern :=
  mkPattern [2; 0; 2; 1; 2; 2; 2; 3; 1; 0; 4; 1; 5; 4; 2; 5]
    ["liftedinit"; "billing"; "v1"; "lease"; "lease_uuid"; "withdrawable"]%string ""%string.
Definition pattern_Query_ProviderWithdrawable_0 : Pattern :=
  mkPattern [2; 0; 2; 1; 2; 2; 2; 3; 1; 0; 4; 1; 5; 4; 2; 5]
    ["liftedinit"; "billing"; "v1"; "provider"; "provider_uuid"; "withdrawable"]%string ""%string.
Definition pattern_Query_CreditAccounts_0 : Pattern :=
  mkPattern [2; 0; 2; 1; 2; 2; 2; 3]
    ["liftedinit"; "billing"; "v1"; "credits"]%string ""%string.
Definition pattern_Query_LeasesBySKU_0 : Pattern :=
  mkPattern [2; 0; 2; 1; 2; 2; 2; 3; 2; 4; 1; 0; 4; 1; 5; 5]
    ["liftedinit"; "billing"; "v1"; "leases"; "sku"; "sku_uuid"]%string ""%string.
Definition pattern_Query_CreditEstimate_0 : Pattern :=
  mkPattern [2; 0; 2; 1; 2; 2; 2; 3; 1; 0; 4; 1; 5; 4; 2; 5]
    ["liftedinit"; "billing"; "v1"; "credit"; "tenant"; "estimate"]%string ""%string.
Definition pattern_Query_LeaseByCustomDomain_0 : Pattern :=
  mkPattern [2; 0; 2; 1; 2; 2; 2; 3; 2; 4; 1; 0; 4; 1; 5; 5]
    ["liftedinit"; "billing"; "v1"; "lease"; "by-domain"; "custom_domain"]%string ""%string.
Definition sku_pattern_Query_Params_0 : Pattern :=
  mkPattern [2; 0; 2; 1; 2; 2; 2; 3]
    ["liftedinit"; "sku"; "v1"; "params"]%string ""%string.
Definition pattern_Query_Provider_0 : Pattern :=
  mkPattern [2; 0; 2; 1; 2; 2; 2; 3; 1; 0; 4; 1; 5; 4]
    ["liftedinit"; "sku"; "v1"; "provider"; "uuid"]%string ""%string.
Definition pattern_Query_Providers_0 : Pattern :=
  mkPattern [2; 0; 2; 1; 2; 2; 2; 3]
    ["liftedinit"; "sku"; "v1"; "providers"]%string ""%string.
Definition pattern_Query_SKU_0 : Pattern :=
  mkPattern [2; 0; 2; 1; 2; 2; 2; 1; 1; 0; 4; 1; 5; 3]
    ["liftedinit"; "sku"; "v1"; "uuid"]%string ""%string.
Definition pattern_Query_SKUs_0 : Pattern :=
  mkPattern [2; 0; 2; 1; 2; 2; 2; 3]
    ["liftedinit"; "sku"; "v1"; "skus"]%string ""%string.
Definition pattern_Query_SKUsByProvider_0 : Pattern :=
  mkPattern [2; 0; 2; 1; 2; 2; 2; 3; 2; 4; 1; 0; 4; 1; 5; 5]
    ["liftedinit"; "sku"; "v1"; "skus"; "provider"; "provider_uuid"]%string ""%string.
Definition pattern_Query_ProviderByAddress_0 : Pattern :=
  mkPattern [2; 0; 2; 1; 2; 2; 2; 3; 2; 4; 1; 0; 4; 1; 5; 4]
    ["liftedinit"; "sku"; "v1"; "provider"; "address"]%string ""%string.

Definition filter_Query_Leases_0 : DoubleArray := mkDoubleArray [] [] [].
Definition filter_Query_LeasesByTenant_0 : DoubleArray := mkDoubleArray [("tenant"%string, 0)] [1; 1; 0] [0; 1; 2].
Definition filter_Query_LeasesByProvider_0 : DoubleArray := mkDoubleArray [("provider_uuid"%string, 0)] [1; 1; 0] [0; 1; 2].
Definition filter_Query_ProviderWithdrawable_0 : DoubleArray := mkDoubleArray [("provider_uuid"%string, 0)] [1; 1; 0] [0; 1; 2].
Definition filter_Query_CreditAccounts_0 : DoubleArray := mkDoubleArray [] [] [].
Definition filter_Query_LeasesBySKU_0 : DoubleArray := mkDoubleArray [("sku_uuid"%string, 0)] [1; 1; 0] [0; 1; 2].
Definition filter_Query_Providers_0 : DoubleArray := mkDoubleArray [] [] [].
Definition filter_Query_SKUs_0 : DoubleArray := mkDoubleArray [] [] [].
Definition filter_Query_SKUsByProvider_0 : DoubleArray := mkDoubleArray [("provider_uuid"%string, 0)] [1; 1; 0] [0; 1; 2].
Definition filter_Query_ProviderByAddress_0 : DoubleArray := mkDoubleArray [("address"%string, 0)] [1; 1; 0] [0; 1; 2].

(** ** Handlers *)

Section handlers.
Context `{Gateway} {S : Type}.

Definition invalid {A} (r : res A) : res A := match r with Err _ => Err (Status InvalidArgument) | _ => r end.

(** A parameter in the path. *)
Definition path_param (pathParams : gmap string string) (name : string) : res string :=
  match pathParams !! name with
  | None => Err (Status InvalidArgument)
  | Some val => invalid (runtime_String val)
  end.

(** The parameters in the query string. *)
Definition form_param {T} (req : http_Request) (protoReq : T) (filter : DoubleArray) : res T :=
  form ← invalid (ParseForm req);
  invalid (PopulateQueryParameters protoReq form filter).

(** A handler of the mux: an error goes to HTTPError, a response is forwarded. *)
Record route : Type := mkRoute {
  rt_method : string; rt_pattern : Pattern; rt_handler : http_Request → gmap string string → M S reply }.

Definition handle_client {A} (forward : A → reply) (request : http_Request → gmap string string → M S A)
    (req : http_Request) (pathParams : gmap string string) : M S reply :=
  lift (AnnotateContext req);;
  resp ← request req pathParams;
  mret (forward resp).

Definition handle_server {A} (forward : A → reply) (local_request : http_Request → gmap string string → M S A)
    (req : http_Request) (pathParams : gmap string string) : M S reply :=
  lift (AnnotateIncomingContext req);;
  resp ← local_request req pathParams;
  mret (forward resp).

(** The handlers whose pattern matches the path of a request. *)
Definition matching (routes : list route) (path : list string) (req : http_Request) : list (M S reply) :=
  omap (λ r, rt_handler r req <$> Match (rt_pattern r) path) routes.

Definition request_Query_Params_0 (client : billing_Query S) (req : http_Request) (pathParams : gmap string string)
    : M S (Params) :=
  billing_Params client (Some tt).

Definition local_request_Query_Params_0 (server : billing_Query S) (req : http_Request) (pathParams : gmap string string)
    : M S (Params) :=
  billing_Params server (Some tt).

Definition request_Query_Lease_0 (client : billing_Query S) (req : http_Request) (pathParams : gmap string string)
    : M S (Lease) :=
  val ← lift (path_param pathParams "lease_uuid");
  billing_Lease client (Some (mkQueryLeaseRequest val)).

Definition local_request_Query_Lease_0 (server : billing_Query S) (req : http_Request) (pathParams : gmap string string)
    : M S (Lease) :=
  val ← lift (path_param pathParams "lease_uuid");
  billing_Lease server (Some (mkQueryLeaseRequest val)).

Definition request_Query_Leases_0 (client : billing_Query S) (req : http_Request) (pathParams : gmap string string)
    : M S (list Lease * PageResponse) :=
  protoReq ← lift (form_param req (mkQueryLeasesRequest None LEASE_STATE_UNSPECIFIED) filter_Query_Leases_0);
  billing_Leases client (Some protoReq).

Definition local_request_Query_Leases_0 (server : billing_Query S) (req : http_Request) (pathParams : gmap string string)
    : M S (list Lease * PageResponse) :=
  protoReq ← lift (form_param req (mkQueryLeasesRequest None LEASE_STATE_UNSPECIFIED) filter_Query_Leases_0);
  billing_Leases server (Some protoReq).

Definition request_Query_LeasesByTenant_0 (client : billing_Query S) (req : http_Request) (pathParams : gmap string string)
    : M S (list Lease * PageResponse) :=
  val ← lift (path_param pathParams "tenant");
  protoReq ← lift (form_param req (mkQueryLeasesByTenantRequest val None LEASE_STATE_UNSPECIFIED) filter_Query_LeasesByTenant_0);
  billing_LeasesByTenant client (Some protoReq).

Definition local_request_Query_LeasesByTenant_0 (server : billing_Query S) (req : http_Request) (pathParams : gmap string string)
    : M S (list Lease * PageResponse) :=
  val ← lift (path_param pathParams "tenant");
  protoReq ← lift (form_param req (mkQueryLeasesByTenantRequest val None LEASE_STATE_UNSPECIFIED) filter_Query_LeasesByTenant_0);
  billing_LeasesByTenant server (Some protoReq).

Definition request_Query_LeasesByProvider_0 (client : billing_Query S) (req : http_Request) (pathParams : gmap string string)
    : M S (list Lease * PageResponse) :=
  val ← lift (path_param pathParams "provider_uuid");
  protoReq ← lift (form_param req (mkQueryLeasesByProviderRequest val None LEASE_STATE_UNSPECIFIED) filter_Query_LeasesByProvider_0);
  billing_LeasesByProvider client (Some protoReq).

Definition local_request_Query_LeasesByProvider_0 (server : billing_Query S) (req : http_Request) (pathParams : gmap string string)
    : M S (list Lease * PageResponse) :=
  val ← lift (path_param pathParams "provider_uuid");
  protoReq ← lift (form_param req (mkQueryLeasesByProviderRequest val None LEASE_STATE_UNSPECIFIED) filter_Query_LeasesByProvider_0);
  billing_LeasesByProvider server (Some protoReq).

Definition request_Query_CreditAccount_0 (client : billing_Query S) (req : http_Request) (pathParams : gmap string string)
    : M S (QueryCreditAccountResponse) :=
  val ← lift (path_param pathParams "tenant");
  billing_CreditAccount client (Some (mkQueryCreditAccountRequest val)).

Definition local_request_Query_CreditAccount_0 (server : billing_Query S) (req : http_Request) (pathParams : gmap string string)
    : M S (QueryCreditAccountResponse) :=
  val ← lift (path_param pathParams "tenant");
  billing_CreditAccount server (Some (mkQueryCreditAccountRequest val)).

Definition request_Query_CreditAddress_0 (client : billing_Query S) (req : http_Request) (pathParams : gmap string string)
    : M S (string) :=
  val ← lift (path_param pathParams "tenant");
  billing_CreditAddress client (Some (mkQueryCreditAddressRequest val)).

Definition local_request_Query_CreditAddress_0 (server : billing_Query S) (req : http_Request) (pathParams : gmap string string)
    : M S (string) :=
  val ← lift (path_param pathParams "tenant");
  billing_CreditAddress server (Some (mkQueryCreditAddressRequest val)).

Definition request_Query_WithdrawableAmount_0 (client : billing_Query S) (req : http_Request) (pathParams : gmap string string)
    : M S (Coins) :=
  val ← lift (path_param pathParams "lease_uuid");
  billing_WithdrawableAmount client (Some (mkQueryWithdrawableAmountRequest val)).

Definition local_request_Query_WithdrawableAmount_0 (server : billing_Query S) (req : http_Request) (pathParams : gmap string string)
    : M S (Coins) :=
  val ← lift (path_param pathParams "lease_uuid");
  billing_WithdrawableAmount server (Some (mkQueryWithdrawableAmountRequest val)).

Definition request_Query_ProviderWithdrawable_0 (client : billing_Query S) (req : http_Request) (pathParams : gmap string string)
    : M S (QueryProviderWithdrawableResponse) :=
  val ← lift (path_param pathParams "provider_uuid");
  protoReq ← lift (form_param req (mkQueryProviderWithdrawableRequest val 0) filter_Query_ProviderWithdrawable_0);
  billing_ProviderWithdrawable client (Some protoReq).

Definition local_request_Query_ProviderWithdrawable_0 (server : billing_Query S) (req : http_Request) (pathParams : gmap string string)
    : M S (QueryProviderWithdrawableResponse) :=
  val ← lift (path_param pathParams "provider_uuid");
  protoReq ← lift (form_param req (mkQueryProviderWithdrawableRequest val 0) filter_Query_ProviderWithdrawable_0);
  billing_ProviderWithdrawable server (Some protoReq).

Definition request_Query_CreditAccounts_0 (client : billing_Query S) (req : http_Request) (pathParams : gmap string string)
    : M S (list CreditAccount * PageResponse) :=
  protoReq ← lift (form_param req (mkQueryCreditAccountsRequest None) filter_Query_CreditAccounts_0);
  billing_CreditAccounts client (Some protoReq).

Definition local_request_Query_CreditAccounts_0 (server : billing_Query S) (req : http_Request) (pathParams : gmap string string)
    : M S (list CreditAccount * PageResponse) :=
  protoReq ← lift (form_param req (mkQueryCreditAccountsRequest None) filter_Query_CreditAccounts_0);
  billing_CreditAccounts server (Some protoReq).

Definition request_Query_LeasesBySKU_0 (client : billing_Query S) (req : http_Request) (pathParams : gmap string string)
    : M S (list Lease * PageResponse) :=
  val ← lift (path_param pathParams "sku_uuid");
  protoReq ← lift (form_param req (mkQueryLeasesBySKURequest val None LEASE_STATE_UNSPECIFIED) filter_Query_LeasesBySKU_0);
  billing_LeasesBySKU client (Some protoReq).

Definition local_request_Query_LeasesBySKU_0 (server : billing_Query S) (req : http_Request) (pathParams : gmap string string)
    : M S (list Lease * PageResponse) :=
  val ← lift (path_param pathParams "sku_uuid");
  protoReq ← lift (form_param req (mkQueryLeasesBySKURequest val None LEASE_STATE_UNSPECIFIED) filter_Query_LeasesBySKU_0);
  billing_LeasesBySKU server (Some protoReq).

Definition request_Query_CreditEstimate_0 (client : billing_Query S) (req : http_Request) (pathParams : gmap string string)
    : M S (QueryCreditEstimateResponse) :=
  val ← lift (path_param pathParams "tenant");
  billing_CreditEstimate client (Some (mkQueryCreditEstimateRequest val)).

Definition local_request_Query_CreditEstimate_0 (server : billing_Query S) (req : http_Request) (pathParams : gmap string string)
    : M S (QueryCreditEstimateResponse) :=
  val ← lift (path_param pathParams "tenant");
  billing_CreditEstimate server (Some (mkQueryCreditEstimateRequest val)).

Definition request_Query_LeaseByCustomDomain_0 (client : billing_Query S) (req : http_Request) (pathParams : gmap string string)
    : M S (Lease * string) :=
  val ← lift (path_param pathParams "custom_domain");
  billing_LeaseByCustomDomain client (Some (mkQueryLeaseByCustomDomainRequest val)).

Definition local_request_Query_LeaseByCustomDomain_0 (server : billing_Query S) (req : http_Request) (pathParams : gmap string string)
    : M S (Lease * string) :=
  val ← lift (path_param pathParams "custom_domain");
  billing_LeaseByCustomDomain server (Some (mkQueryLeaseByCustomDomainRequest val)).

Definition sku_request_Query_Params_0 (client : sku_Query S) (req : http_Request) (pathParams : gmap string string)
    : M S (SkuParams) :=
  sku_Params client (Some tt).

Definition sku_local_request_Query_Params_0 (server : sku_Query S) (req : http_Request) (pathParams : gmap string string)
    : M S (SkuParams) :=
  sku_Params server (Some tt).

Definition request_Query_Provider_0 (client : sku_Query S) (req : http_Request) (pathParams : gmap string string)
    : M S (Provider) :=
  val ← lift (path_param pathParams "uuid");
  sku_Provider client (Some (mkQueryProviderRequest val)).

Definition local_request_Query_Provider_0 (server : sku_Query S) (req : http_Request) (pathParams : gmap string string)
    : M S (Provider) :=
  val ← lift (path_param pathParams "uuid");
  sku_Provider server (Some (mkQueryProviderRequest val)).

Definition request_Query_Providers_0 (client : sku_Query S) (req : http_Request) (pathParams : gmap string string)
    : M S (list Provider * PageResponse) :=
  protoReq ← lift (form_param req (mkQueryProvidersRequest None false) filter_Query_Providers_0);
  sku_Providers client (Some protoReq).

Definition local_request_Query_Providers_0 (server : sku_Query S) (req : http_Request) (pathParams : gmap string string)
    : M S (list Provider * PageResponse) :=
  protoReq ← lift (form_param req (mkQueryProvidersRequest None false) filter_Query_Providers_0);
  sku_Providers server (Some protoReq).

Definition request_Query_SKU_0 (client : sku_Query S) (req : http_Request) (pathParams : gmap string string)
    : M S (SKU) :=
  val ← lift (path_param pathParams "uuid");
  sku_SKU client (Some (mkQuerySKURequest val)).

Definition local_request_Query_SKU_0 (server : sku_Query S) (req : http_Request) (pathParams : gmap string string)
    : M S (SKU) :=
  val ← lift (path_param pathParams "uuid");
  sku_SKU server (Some (mkQuerySKURequest val)).

Definition request_Query_SKUs_0 (client : sku_Query S) (req : http_Request) (pathParams : gmap string string)
    : M S (list SKU * PageResponse) :=
  protoReq ← lift (form_param req (mkQuerySKUsRequest None false) filter_Query_SKUs_0);
  sku_SKUs client (Some protoReq).

Definition local_request_Query_SKUs_0 (server : sku_Query S) (req : http_Request) (pathParams : gmap string string)
    : M S (list SKU * PageResponse) :=
  protoReq ← lift (form_param req (mkQuerySKUsRequest None false) filter_Query_SKUs_0);
  sku_SKUs server (Some protoReq).

Definition request_Query_SKUsByProvider_0 (client : sku_Query S) (req : http_Request) (pathParams : gmap string string)
    : M S (list SKU * PageResponse) :=
  val ← lift (path_param pathParams "provider_uuid");
  protoReq ← lift (form_param req (mkQuerySKUsByProviderRequest val None false) filter_Query_SKUsByProvider_0);
  sku_SKUsByProvider client (Some protoReq).

Definition local_request_Query_SKUsByProvider_0 (server : sku_Query S) (req : http_Request) (pathParams : gmap string string)
    : M S (list SKU * PageResponse) :=
  val ← lift (path_param pathParams "provider_uuid");
  protoReq ← lift (form_param req (mkQuerySKUsByProviderRequest val None false) filter_Query_SKUsByProvider_0);
  sku_SKUsByProvider server (Some protoReq).

Definition request_Query_ProviderByAddress_0 (client : sku_Query S) (req : http_Request) (pathParams : gmap string string)
    : M S (list Provider * PageResponse) :=
  val ← lift (path_param pathParams "address");
  protoReq ← lift (form_param req (mkQueryProviderByAddressRequest val None false) filter_Query_ProviderByAddress_0);
  sku_ProviderByAddress client (Some protoReq).

Definition local_request_Query_ProviderByAddress_0 (server : sku_Query S) (req : http_Request) (pathParams : gmap string string)
    : M S (list Provider * PageResponse) :=
  val ← lift (path_param pathParams "address");
  protoReq ← lift (form_param req (mkQueryProviderByAddressRequest val None false) filter_Query_ProviderByAddress_0);
  sku_ProviderByAddress server (Some protoReq).

(** The handlers in the order in which they are registered with the mux. *)
Definition billing_RegisterQueryHandlerServer (server : billing_Query S) : list route :=
  [mkRoute "GET" pattern_Query_Params_0 (handle_server R_Params (local_request_Query_Params_0 server));
   mkRoute "GET" pattern_Query_Lease_0 (handle_server R_Lease (local_request_Query_Lease_0 server));
   mkRoute "GET" pattern_Query_Leases_0 (handle_server R_Leases (local_request_Query_Leases_0 server));
   mkRoute "GET" pattern_Query_LeasesByTenant_0 (handle_server R_LeasesByTenant (local_request_Query_LeasesByTenant_0 server));
   mkRoute "GET" pattern_Query_LeasesByProvider_0 (handle_server R_LeasesByProvider (local_request_Query_LeasesByProvider_0 server));
   mkRoute "GET" pattern_Query_CreditAccount_0 (handle_server R_CreditAccount (local_request_Query_CreditAccount_0 server));
   mkRoute "GET" pattern_Query_CreditAddress_0 (handle_server R_CreditAddress (local_request_Query_CreditAddress_0 server));
   mkRoute "GET" pattern_Query_WithdrawableAmount_0 (handle_server R_WithdrawableAmount (local_request_Query_WithdrawableAmount_0 server));
   mkRoute "GET" pattern_Query_ProviderWithdrawable_0 (handle_server R_ProviderWithdrawable (local_request_Query_ProviderWithdrawable_0 server));
   mkRoute "GET" pattern_Query_CreditAccounts_0 (handle_server R_CreditAccounts (local_request_Query_CreditAccounts_0 server));
   mkRoute "GET" pattern_Query_LeasesBySKU_0 (handle_server R_LeasesBySKU (local_request_Query_LeasesBySKU_0 server));
   mkRoute "GET" pattern_Query_CreditEstimate_0 (handle_server R_CreditEstimate (local_request_Query_CreditEstimate_0 server));
   mkRoute "GET" pattern_Query_LeaseByCustomDomain_0 (handle_server R_LeaseByCustomDomain (local_request_Query_LeaseByCustomDomain_0 server))].

Definition billing_RegisterQueryHandlerClient (client : billing_Query S) : list route :=
  [mkRoute "GET" pattern_Query_Params_0 (handle_client R_Params (request_Query_Params_0 client));
   mkRoute "GET" pattern_Query_Lease_0 (handle_client R_Lease (request_Query_Lease_0 client));
   mkRoute "GET" pattern_Query_Leases_0 (handle_client R_Leases (request_Query_Leases_0 client));
   mkRoute "GET" pattern_Query_LeasesByTenant_0 (handle_client R_LeasesByTenant (request_Query_LeasesByTenant_0 client));
   mkRoute "GET" pattern_Query_LeasesByProvider_0 (handle_client R_LeasesByProvider (request_Query_LeasesByProvider_0 client));
   mkRoute "GET" pattern_Query_CreditAccount_0 (handle_client R_CreditAccount (request_Query_CreditAccount_0 client));
   mkRoute "GET" pattern_Query_CreditAddress_0 (handle_client R_CreditAddress (request_Query_CreditAddress_0 client));
   mkRoute "GET" pattern_Query_WithdrawableAmount_0 (handle_client R_WithdrawableAmount (request_Query_WithdrawableAmount_0 client));
   mkRoute "GET" pattern_Query_ProviderWithdrawable_0 (handle_client R_ProviderWithdrawable (request_Query_ProviderWithdrawable_0 client));
   mkRoute "GET" pattern_Query_CreditAccounts_0 (handle_client R_CreditAccounts (request_Query_CreditAccounts_0 client));
   mkRoute "GET" pattern_Query_LeasesBySKU_0 (handle_client R_LeasesBySKU (request_Query_LeasesBySKU_0 client));
   mkRoute "GET" pattern_Query_CreditEstimate_0 (handle_client R_CreditEstimate (request_Query_CreditEstimate_0 client));
   mkRoute "GET" pattern_Query_LeaseByCustomDomain_0 (handle_client R_LeaseByCustomDomain (request_Query_LeaseByCustomDomain_0 client))].

Definition sku_RegisterQueryHandlerServer (server : sku_Query S) : list route :=
  [mkRoute "GET" sku_pattern_Query_Params_0 (handle_server R_sku_Params (sku_local_request_Query_Params_0 server));
   mkRoute "GET" pattern_Query_Provider_0 (handle_server R_Provider (local_request_Query_Provider_0 server));
   mkRoute "GET" pattern_Query_Providers_0 (handle_server R_Providers (local_request_Query_Providers_0 server));
   mkRoute "GET" pattern_Query_SKU_0 (handle_server R_SKU (local_request_Query_SKU_0 server));
   mkRoute "GET" pattern_Query_SKUs_0 (handle_server R_SKUs (local_request_Query_SKUs_0 server));
   mkRoute "GET" pattern_Query_SKUsByProvider_0 (handle_server R_SKUsByProvider (local_request_Query_SKUsByProvider_0 server));
   mkRoute "GET" pattern_Query_ProviderByAddress_0 (handle_server R_ProviderByAddress (local_request_Query_ProviderByAddress_0 server))].

Definition sku_RegisterQueryHandlerClient (client : sku_Query S) : list route :=
  [mkRoute "GET" sku_pattern_Query_Params_0 (handle_client R_sku_Params (sku_request_Query_Params_0 client));
   mkRoute "GET" pattern_Query_Provider_0 (handle_client R_Provider (request_Query_Provider_0 client));
   mkRoute "GET" pattern_Query_Providers_0 (handle_client R_Providers (request_Query_Providers_0 client));
   mkRoute "GET" pattern_Query_SKU_0 (handle_client R_SKU (request_Query_SKU_0 client));
   mkRoute "GET" pattern_Query_SKUs_0 (handle_client R_SKUs (request_Query_SKUs_0 client));
   mkRoute "GET" pattern_Query_SKUsByProvider_0 (handle_client R_SKUsByProvider (request_Query_SKUsByProvider_0 client));
   mkRoute "GET" pattern_Query_ProviderByAddress_0 (handle_client R_ProviderByAddress (request_Query_ProviderByAddress_0 client))].

End handlers.

(** ** The documented interface (the google.api.http options of query.proto)

    A request by its URL: the query and the value of the path parameter. *)

(** The request message [m] after the parameters of the query string have been filled in, except the one
    that is also in the path. A query string that cannot be parsed or filled in is an invalid argument. *)
Definition populated `{Gateway} {T} (req : http_Request) (in_path : option string) (m : T) : res T :=
  match ParseForm req with
  | Ok values =>
      match PopulateQueryParameters m values (from_option single (mkDoubleArray [] [] []) in_path) with
      | Ok m' => Ok m'
      | Err _ => Err (Status InvalidArgument)
      | Panic => Panic
      end
  | Err _ => Err (Status InvalidArgument)
  | Panic => Panic
  end.

Inductive billing_get : Type :=
  | G_Params
  | G_Lease (lease_uuid : string)
  | G_Leases
  | G_LeasesByTenant (tenant : string)
  | G_LeasesByProvider (provider_uuid : string)
  | G_CreditAccount (tenant : string)
  | G_CreditAddress (tenant : string)
  | G_WithdrawableAmount (lease_uuid : string)
  | G_ProviderWithdrawable (provider_uuid : string)
  | G_CreditAccounts
  | G_LeasesBySKU (sku_uuid : string)
  | G_CreditEstimate (tenant : string)
  | G_LeaseByCustomDomain (custom_domain : string).

Definition billing_path (g : billing_get) : list string :=
  match g with
  | G_Params => ["liftedinit"%string; "billing"%string; "v1"%string; "params"%string]
  | G_Lease v => ["liftedinit"%string; "billing"%string; "v1"%string; "lease"%string; v]
  | G_Leases => ["liftedinit"%string; "billing"%string; "v1"%string; "leases"%string]
  | G_LeasesByTenant v => ["liftedinit"%string; "billing"%string; "v1"%string; "leases"%string; "tenant"%string; v]
  | G_LeasesByProvider v => ["liftedinit"%string; "billing"%string; "v1"%string; "leases"%string; "provider"%string; v]
  | G_CreditAccount v => ["liftedinit"%string; "billing"%string; "v1"%string; "credit"%string; v]
  | G_CreditAddress v => ["liftedinit"%string; "billing"%string; "v1"%string; "credit-address"%string; v]
  | G_WithdrawableAmount v => ["liftedinit"%string; "billing"%string; "v1"%string; "lease"%string; v; "withdrawable"%string]
  | G_ProviderWithdrawable v => ["liftedinit"%string; "billing"%string; "v1"%string; "provider"%string; v; "withdrawable"%string]
  | G_CreditAccounts => ["liftedinit"%string; "billing"%string; "v1"%string; "credits"%string]
  | G_LeasesBySKU v => ["liftedinit"%string; "billing"%string; "v1"%string; "leases"%string; "sku"%string; v]
  | G_CreditEstimate v => ["liftedinit"%string; "billing"%string; "v1"%string; "credit"%string; v; "estimate"%string]
  | G_LeaseByCustomDomain v => ["liftedinit"%string; "billing"%string; "v1"%string; "lease"%string; "by-domain"%string; v]
  end.

(** The query on the value in the path and what the query string fills in, if the request has other fields. *)
Definition billing_answer `{Gateway} {S} (server : billing_Query S) (req : http_Request) (g : billing_get) : M S reply :=
  match g with
  | G_Params =>
      resp ← billing_Params server (Some tt); mret (R_Params resp)
  | G_Lease v =>
      resp ← billing_Lease server (Some (mkQueryLeaseRequest v)); mret (R_Lease resp)
  | G_Leases =>
      resp ← (protoReq ← lift (populated req None (mkQueryLeasesRequest None LEASE_STATE_UNSPECIFIED)); billing_Leases server (Some protoReq)); mret (R_Leases resp)
  | G_LeasesByTenant v =>
      resp ← (protoReq ← lift (populated req (Some "tenant"%string) (mkQueryLeasesByTenantRequest v None LEASE_STATE_UNSPECIFIED)); billing_LeasesByTenant server (Some protoReq)); mret (R_LeasesByTenant resp)
  | G_LeasesByProvider v =>
      resp ← (protoReq ← lift (populated req (Some "provider_uuid"%string) (mkQueryLeasesByProviderRequest v None LEASE_STATE_UNSPECIFIED)); billing_LeasesByProvider server (Some protoReq)); mret (R_LeasesByProvider resp)
  | G_CreditAccount v =>
      resp ← billing_CreditAccount server (Some (mkQueryCreditAccountRequest v)); mret (R_CreditAccount resp)
  | G_CreditAddress v =>
      resp ← billing_CreditAddress server (Some (mkQueryCreditAddressRequest v)); mret (R_CreditAddress resp)
  | G_WithdrawableAmount v =>
      resp ← billing_WithdrawableAmount server (Some (mkQueryWithdrawableAmountRequest v)); mret (R_WithdrawableAmount resp)
  | G_ProviderWithdrawable v =>
      resp ← (protoReq ← lift (populated req (Some "provider_uuid"%string) (mkQueryProviderWithdrawableRequest v 0)); billing_ProviderWithdrawable server (Some protoReq)); mret (R_ProviderWithdrawable resp)
  | G_CreditAccounts =>
      resp ← (protoReq ← lift (populated req None (mkQueryCreditAccountsRequest None)); billing_CreditAccounts server (Some protoReq)); mret (R_CreditAccounts resp)
  | G_LeasesBySKU v =>
      resp ← (protoReq ← lift (populated req (Some "sku_uuid"%string) (mkQueryLeasesBySKURequest v None LEASE_STATE_UNSPECIFIED)); billing_LeasesBySKU server (Some protoReq)); mret (R_LeasesBySKU resp)
  | G_CreditEstimate v =>
      resp ← billing_CreditEstimate server (Some (mkQueryCreditEstimateRequest v)); mret (R_CreditEstimate resp)
  | G_LeaseByCustomDomain v =>
      resp ← billing_LeaseByCustomDomain server (Some (mkQueryLeaseByCustomDomainRequest v)); mret (R_LeaseByCustomDomain resp)
  end.

Inductive sku_get : Type :=
  | G_sku_Params
  | G_Provider (uuid : string)
  | G_Providers
  | G_SKU (uuid : string)
  | G_SKUs
  | G_SKUsByProvider (provider_uuid : string)
  | G_ProviderByAddress (address : string).

Definition sku_path (g : sku_get) : list string :=
  match g with
  | G_sku_Params => ["liftedinit"%string; "sku"%string; "v1"%string; "params"%string]
  | G_Provider v => ["liftedinit"%string; "sku"%string; "v1"%string; "provider"%string; v]
  | G_Providers => ["liftedinit"%string; "sku"%string; "v1"%string; "providers"%string]
  | G_SKU v => ["liftedinit"%string; "sku"%string; "v1"%string; "sku"%string; v]
  | G_SKUs => ["liftedinit"%string; "sku"%string; "v1"%string; "skus"%string]
  | G_SKUsByProvider v => ["liftedinit"%string; "sku"%string; "v1"%string; "skus"%string; "provider"%string; v]
  | G_ProviderByAddress v => ["liftedinit"%string; "sku"%string; "v1"%string; "provider"%string; "address"%string; v]
  end.

(** The query on the value in the path and what the query string fills in, if the request has other fields. *)
Definition sku_answer `{Gateway} {S} (server : sku_Query S) (req : http_Request) (g : sku_get) : M S reply :=
  match g with
  | G_sku_Params =>
      resp ← sku_Params server (Some tt); mret (R_sku_Params resp)
  | G_Provider v =>
      resp ← sku_Provider server (Some (mkQueryProviderRequest v)); mret (R_Provider resp)
  | G_Providers =>
      resp ← (protoReq ← lift (populated req None (mkQueryProvidersRequest None false)); sku_Providers server (Some protoReq)); mret (R_Providers resp)
  | G_SKU v =>
      resp ← sku_SKU server (Some (mkQuerySKURequest v)); mret (R_SKU resp)
  | G_SKUs =>
      resp ← (protoReq ← lift (populated req None (mkQuerySKUsRequest None false)); sku_SKUs server (Some protoReq)); mret (R_SKUs resp)
  | G_SKUsByProvider v =>
      resp ← (protoReq ← lift (populated req (Some "provider_uuid"%string) (mkQuerySKUsByProviderRequest v None false)); sku_SKUsByProvider server (Some protoReq)); mret (R_SKUsByProvider resp)
  | G_ProviderByAddress v =>
      resp ← (protoReq ← lift (populated req (Some "address"%string) (mkQueryProviderByAddressRequest v None false)); sku_ProviderByAddress server (Some protoReq)); mret (R_ProviderByAddress resp)
  end.

(** A path that two patterns match. *)
Definition shared_path : list string :=
  ["liftedinit"; "billing"; "v1"; "lease"; "by-domain"; "withdrawable"]%string.

(** The services that the modules register. *)
Section servers.
Context `{SDK} `{SKUKeeper} `{GoStd} (env : Env).

Definition billing_server : billing_Query World :=
  mk_billing_Query World (λ _, query_Params) query_Lease query_Leases query_LeasesByTenant query_LeasesByProvider
    (λ r, query_CreditAccount (qcar_Tenant <$> r)) (λ r, query_CreditAddress (qad_Tenant <$> r))
    (λ r, query_WithdrawableAmount env (qwa_LeaseUuid <$> r)) (query_ProviderWithdrawable env)
    (λ r, query_CreditAccounts (qcas_Pagination <$> r)) query_LeasesBySKU
    (λ r, query_CreditEstimate (qce_Tenant <$> r)) (λ r, query_LeaseByCustomDomain (qcd_CustomDomain <$> r)).

Definition sku_server : sku_Query SkuStore :=
  mk_sku_Query SkuStore sku_query_Params (λ r, query_Provider (qpv_Uuid <$> r)) query_Providers
    (λ r, query_SKU (qk_Uuid <$> r)) query_SKUs query_SKUsByProvider query_ProviderByAddress.
End servers.

(** A gateway whose requests are query strings, and which knows no parameter of a query string. *)
Definition ref_gateway : Gateway := {|
  http_Request := url_Values;
  AnnotateContext _ := Ok tt;
  AnnotateIncomingContext _ := Ok tt;
  ParseForm values := Ok values;
  runtime_String s := Ok s;
  PopulateQueryParameters T m values filter :=
    if forallb (λ kv : string * list string, existsb (λ e, String.eqb e.1 kv.1) (da_Encoding filter)) values
    then Ok m else Err Plain;
  Match p components := ops ← decode (p_pool p) (p_ops p); run ops components [] ∅ |}.

(** ** Theorems *)

#[local] Instance ref_gateway_laws : GatewayLaws ref_gateway.
Proof.
  split; try done.
  - intros T m values name Hv. cbn. replace (forallb _ values) with true; [done|]. symmetry.
    apply forallb_forall. intros kv Hin. cbn. rewrite orb_false_r. apply String.eqb_eq. symmetry.
    rewrite Forall_forall in Hv. apply Hv. by apply list_elem_of_In.
  - intros p ops components E. cbn. by rewrite E.
Qed.

Section handlers_correct.
Context `{GL : GatewayLaws} {S : Type} (req : http_Request).

Lemma lift_Ok {A B} (a : A) (f : A → M S B) : (x ← lift (Ok a); f x) = f a.
Proof. reflexivity. Qed.

Lemma path_param_bound name v : path_param (<[name := v]> ∅) name = Ok v.
Proof. unfold path_param. by rewrite lookup_insert_eq, runtime_String_id. Qed.

Lemma form_param_all {T} (m : T) : form_param req m (mkDoubleArray [] [] []) = populated req None m.
Proof. unfold form_param, populated. destruct (ParseForm req); cbn; [by destruct (PopulateQueryParameters _ _ _)|done..]. Qed.

Lemma form_param_single {T} (m : T) name :
  form_param req m (mkDoubleArray [(name, 0)] [1; 1; 0] [0; 1; 2]) = populated req (Some name) m.
Proof.
  unfold form_param, populated. change (mkDoubleArray [(name, 0)] _ _) with (single name).
  destruct (ParseForm req); cbn; [by destruct (PopulateQueryParameters _ _ _)|done..].
Qed.

Lemma populated_ignored {T} (m : T) name values :
  ParseForm req = Ok values → Forall (λ kv, kv.1 = name) values → populated req (Some name) m = Ok m.
Proof. intros Hf Hv. unfold populated. rewrite Hf. cbn. by rewrite populate_ignored. Qed.

Ltac unfold_handlers :=
  unfold request_Query_Params_0, local_request_Query_Params_0, request_Query_Lease_0, local_request_Query_Lease_0,
    request_Query_Leases_0, local_request_Query_Leases_0, request_Query_LeasesByTenant_0,
    local_request_Query_LeasesByTenant_0, request_Query_LeasesByProvider_0, local_request_Query_LeasesByProvider_0,
    request_Query_CreditAccount_0, local_request_Query_CreditAccount_0, request_Query_CreditAddress_0,
    local_request_Query_CreditAddress_0, request_Query_WithdrawableAmount_0, local_request_Query_WithdrawableAmount_0,
    request_Query_ProviderWithdrawable_0, local_request_Query_ProviderWithdrawable_0, request_Query_CreditAccounts_0,
    local_request_Query_CreditAccounts_0, request_Query_LeasesBySKU_0, local_request_Query_LeasesBySKU_0,
    request_Query_CreditEstimate_0, local_request_Query_CreditEstimate_0, request_Query_LeaseByCustomDomain_0,
    local_request_Query_LeaseByCustomDomain_0, sku_request_Query_Params_0, sku_local_request_Query_Params_0,
    request_Query_Provider_0, local_request_Query_Provider_0, request_Query_Providers_0,
    local_request_Query_Providers_0, request_Query_SKU_0, local_request_Query_SKU_0, request_Query_SKUs_0,
    local_request_Query_SKUs_0, request_Query_SKUsByProvider_0, local_request_Query_SKUsByProvider_0,
    request_Query_ProviderByAddress_0, local_request_Query_ProviderByAddress_0, filter_Query_Leases_0,
    filter_Query_LeasesByTenant_0, filter_Query_LeasesByProvider_0, filter_Query_ProviderWithdrawable_0,
    filter_Query_CreditAccounts_0, filter_Query_LeasesBySKU_0, filter_Query_Providers_0, filter_Query_SKUs_0,
    filter_Query_SKUsByProvider_0, filter_Query_ProviderByAddress_0.

Lemma matching_no (r : @route _ S) routes path ops :
  decode (p_pool (rt_pattern r)) (p_ops (rt_pattern r)) = Some ops → run ops path [] ∅ = None →
  matching (r :: routes) path req = matching routes path req.
Proof. intros Hd Hr. unfold matching. cbn. by rewrite (Match_run _ _ _ Hd), Hr. Qed.

Lemma matching_yes (r : @route _ S) routes path ops bindings :
  decode (p_pool (rt_pattern r)) (p_ops (rt_pattern r)) = Some ops → run ops path [] ∅ = Some bindings →
  matching (r :: routes) path req = rt_handler r req bindings :: matching routes path req.
Proof. intros Hd Hr. unfold matching. cbn. by rewrite (Match_run _ _ _ Hd), Hr. Qed.

(** Try the routes one after the other; [Hs] excludes the shared path where the path does not decide. *)
Ltac match_routes Hs :=
  repeat first
    [ erewrite matching_no; [|reflexivity|reflexivity]
    | erewrite matching_yes; [|reflexivity|reflexivity]
    | erewrite matching_no; [|reflexivity|cbn; case_match; first [reflexivity|exfalso; apply Hs;
        match goal with E : (_ =? _)%string = true |- _ => apply String.eqb_eq in E; by rewrite E end]] ];
  cbn [rt_handler].

(** The handlers that are left answer the query. *)
Ltac solve_handler :=
  unfold matching; cbn [omap list_omap]; unfold handle_client, handle_server; unfold_handlers;
  rewrite ?path_param_bound, ?lift_Ok, ?form_param_all, ?form_param_single; reflexivity.

Definition by_client (answer : M S reply) : M S reply := lift (AnnotateContext req);; answer.
Definition by_server (answer : M S reply) : M S reply := lift (AnnotateIncomingContext req);; answer.

Lemma billing_answers (server : billing_Query S) g :
  billing_path g ≠ shared_path →
  matching (billing_RegisterQueryHandlerClient server) (billing_path g) req = [by_client (billing_answer server req g)] ∧
  matching (billing_RegisterQueryHandlerServer server) (billing_path g) req = [by_server (billing_answer server req g)].
Proof.
  intros Hs. unfold billing_RegisterQueryHandlerClient, billing_RegisterQueryHandlerServer, by_client, by_server.
  split; destruct g; cbn [billing_path billing_answer] in *; match_routes Hs; solve_handler.
Qed.

Lemma sku_answers (server : sku_Query S) g :
  matching (sku_RegisterQueryHandlerClient server) (sku_path g) req = [by_client (sku_answer server req g)] ∧
  matching (sku_RegisterQueryHandlerServer server) (sku_path g) req = [by_server (sku_answer server req g)].
Proof.
  unfold sku_RegisterQueryHandlerClient, sku_RegisterQueryHandlerServer, by_client, by_server.
  split; destruct g; cbn [sku_path sku_answer] in *; match_routes I; solve_handler.
Qed.

(** The routes of one module do not match the paths of the other. *)
Lemma sku_not_billing (server : billing_Query S) g :
  matching (billing_RegisterQueryHandlerClient server) (sku_path g) req = [] ∧
  matching (billing_RegisterQueryHandlerServer server) (sku_path g) req = [].
Proof.
  unfold billing_RegisterQueryHandlerClient, billing_RegisterQueryHandlerServer.
  by split; destruct g; cbn [sku_path]; match_routes I.
Qed.

Lemma billing_not_sku (server : sku_Query S) g :
  matching (sku_RegisterQueryHandlerClient server) (billing_path g) req = [] ∧
  matching (sku_RegisterQueryHandlerServer server) (billing_path g) req = [].
Proof.
  unfold sku_RegisterQueryHandlerClient, sku_RegisterQueryHandlerServer.
  by split; destruct g; cbn [billing_path]; match_routes I.
Qed.

Lemma shared_path_answers (server : billing_Query S) :
  matching (billing_RegisterQueryHandlerClient server) shared_path req =
    [by_client (billing_answer server req (G_WithdrawableAmount "by-domain"));
     by_client (billing_answer server req (G_LeaseByCustomDomain "withdrawable"))] ∧
  matching (billing_RegisterQueryHandlerServer server) shared_path req =
    [by_server (billing_answer server req (G_WithdrawableAmount "by-domain"));
     by_server (billing_answer server req (G_LeaseByCustomDomain "withdrawable"))].
Proof.
  unfold billing_RegisterQueryHandlerClient, billing_RegisterQueryHandlerServer, by_client, by_server, shared_path.
  split; match_routes I; cbn [billing_answer]; solve_handler.
Qed.
End handlers_correct.

(** C34 (functional): which handlers a GET request reaches, and what they answer, for every request.
    The documented URL of a query, whatever its query string, matches exactly one handler of the two
    modules, the one of that query: after the context is annotated it answers with the query, called
    through the gRPC client or directly, on the value in the path and, where the query has further
    fields, what the query string fills into their defaults (a query string that does not parse or fit is
    an invalid argument). The exception is /liftedinit/billing/v1/lease/by-domain/withdrawable, the URL of two
    queries, which matches exactly the handlers of these two. A query string that only repeats the path
    parameter changes nothing. *)
Theorem gateway_answers `{GL : GatewayLaws} {S S'} (billing : billing_Query S) (sku : sku_Query S') req :
  (∀ g, billing_path g ≠ shared_path →
    matching (billing_RegisterQueryHandlerClient billing) (billing_path g) req = [by_client req (billing_answer billing req g)] ∧
    matching (billing_RegisterQueryHandlerServer billing) (billing_path g) req = [by_server req (billing_answer billing req g)]) ∧
  (matching (billing_RegisterQueryHandlerClient billing) shared_path req =
     [by_client req (billing_answer billing req (G_WithdrawableAmount "by-domain"));
      by_client req (billing_answer billing req (G_LeaseByCustomDomain "withdrawable"))] ∧
   matching (billing_RegisterQueryHandlerServer billing) shared_path req =
     [by_server req (billing_answer billing req (G_WithdrawableAmount "by-domain"));
      by_server req (billing_answer billing req (G_LeaseByCustomDomain "withdrawable"))]) ∧
  (∀ g,
    matching (sku_RegisterQueryHandlerClient sku) (sku_path g) req = [by_client req (sku_answer sku req g)] ∧
    matching (sku_RegisterQueryHandlerServer sku) (sku_path g) req = [by_server req (sku_answer sku req g)]) ∧
  (∀ g, matching (sku_RegisterQueryHandlerClient sku) (billing_path g) req = [] ∧
        matching (sku_RegisterQueryHandlerServer sku) (billing_path g) req = []) ∧
  (∀ g, matching (billing_RegisterQueryHandlerClient billing) (sku_path g) req = [] ∧
        matching (billing_RegisterQueryHandlerServer billing) (sku_path g) req = []) ∧
  (∀ T (m : T) name values, ParseForm req = Ok values → Forall (λ kv, kv.1 = name) values →
    populated req (Some name) m = Ok m).
Proof.
  split_and!; [intros g; apply billing_answers|apply shared_path_answers..|intros g; apply sku_answers|
    intros g; apply billing_not_sku|intros g; apply sku_not_billing|intros T m; apply populated_ignored].
Qed.

(** On the shared URL neither handler finds anything, since [by-domain] is not the UUID of a lease and
    [withdrawable] is not a domain that a lease can hold. *)
Lemma shared_path_harmless `{GoStd} : IsValidUUID "by-domain" = false ∧ IsValidFQDN "withdrawable" ≠ Ok tt.
Proof. split; [vm_compute; reflexivity|]. unfold IsValidFQDN. cbn. by destruct (negb _). Qed.

(** A request with a parameter that the reference gateway does not know, and one without. *)
Lemma gateway_answers_witness :
  matching (H := ref_gateway) (billing_RegisterQueryHandlerClient (billing_server demo_env))
    ["liftedinit"; "billing"; "v1"; "lease"; demo_lease_uuid]%string [("x", ["1"])]%string =
    [lift (Ok tt);; resp ← query_Lease (Some (mkQueryLeaseRequest demo_lease_uuid)); mret (R_Lease resp)] ∧
  (∃ h, matching (H := ref_gateway) (billing_RegisterQueryHandlerClient (billing_server demo_env))
    ["liftedinit"; "billing"; "v1"; "leases"; "tenant"; "alice"]%string [("x", ["1"])]%string = [h] ∧
    (h demo_active).1 = Err (Status InvalidArgument)) ∧
  ((l ← query_Lease (Some (mkQueryLeaseRequest demo_lease_uuid)); mret (Tenant l)) demo_active).1 = Ok "alice"%string.
Proof.
  destruct (gateway_answers (G := ref_gateway) (billing_server demo_env) sku_server [("x", ["1"])]%string) as [Hb _].
  split_and!.
  - apply (Hb (G_Lease demo_lease_uuid)). discriminate.
  - eexists. split; [apply (Hb (G_LeasesByTenant "alice")); discriminate|]. vm_compute. reflexivity.
  - vm_compute. reflexivity.
Defined.
